(* ===== verification/_CoqProject ===== *)
-Q . S2P
Prelude.v
Mem.v
Ctype.v
Div64.v
CString.v
Vsprintf.v
Crc.v
Circbuf.v
Lmb.v
Srec.v
Env.v
EnvFlash.v
Command.v
Cli.v
Flash.v
LineEdit.v
FlashCmd.v
Digest.v
Sha256.v
Sha1.v
Eth.v
Net.v
Tftp.v
TftpLink.v
Bootp.v
Stm32.v
NandEcc.v
Display.v
Image.v
Bootm.v
Ram.v
MemCmd.v
Console.v
XyzModem.v
Kermit.v
Load.v
Defrag.v
Md5.v
