(* ===== verification/Prelude.v ===== *)
(** * U-Boot for the STM32F10x: a verification library

    The boot loader under src/u-boot is plain C: a library of strings, numbers
    and checksums (lib_generic/), the environment and the command line on top of
    it (common/), drivers and board code below.  This development models the
    parts with logic of their own as executable Rocq functions and proves what
    makes them correct.

    ** Files

    - Prelude (this file): integers of fixed width, the outcome type [res] of C
      code, bytes and strings, arrays, the [uboot] hint databases.
    - Mem: a flat byte memory with typed loads and stores, a state monad over it
      ([M]), and the predicates [bytes_at], [cstr], [mapped] on it.
    - Ctype: lib_generic/ctype.c, include/linux/ctype.h.
    - Div64: lib_generic/div64.c and [do_div].
    - CString: lib_generic/string.c over the memory of Mem.
    - Vsprintf: lib_generic/vsprintf.c and lib_generic/net_utils.c: parsing and
      printing numbers, [vsprintf] with all its conversions.
    - Crc: lib_generic/crc32.c and crc16.c.
    - Circbuf: lib_generic/circbuf.c.
    - Lmb: lib_generic/lmb.c, the allocator of logical memory blocks.
    - Srec: common/s_record.c, the S-record decoder.
    - Env: common/env_common.c and common/cmd_nvedit.c, the environment in RAM.
      Uses Ctype and Vsprintf (numbers in values) and Crc (its checksum).
    - EnvFlash: common/env_flash.c, the environment in flash with one or two
      copies.  The flash is an interface, the classes [FlashDev] (operations) and
      [FlashLaws] (what they promise); the theorems are proved from it, and a NOR
      flash with failing operations is an instance.
    - Command: common/command.c, table look-up, help and completion.  Uses Env
      for the completion of variables.
    - Cli: common/main.c, from the line reader to the commands.  Uses Command and
      Env; what a command does is a parameter.
    - LineEdit: common/main.c, command line editing and its history.  Uses
      Command for the tab key.
    - Flash: common/flash.c and board/stm/dragon/flash.c, the NOR flash.  The bus
      and the chip are the classes [NorBus] and [NorChip]; an executable chip is
      an instance.
    - FlashCmd: common/cmd_flash.c, erasing and protecting by sectors and
      addresses; and EnvFlash, FlashCmd and Flash put together as on the board.
    - Digest, Sha256, Sha1, Md5: lib_generic/sha256.c, sha1.c and md5.c.  Digest has what
      they share: the context, updating and finishing with a block function.
    - Eth: net/eth.c, hardware addresses in the environment and the ring of
      Ethernet devices; the drivers are a parameter.
    - Net: net/net.c, the network loop with ARP, IP, UDP and ping.  The protocol it
      runs is an interface, the class [NetClient].
    - Defrag: net/net.c under CONFIG_IP_DEFRAG, the reassembly of IP packets in a buffer
      that holds its own list of holes.
    - Tftp: net/tftp.c and the command of common/cmd_net.c, an instance of it.
    - Stm32: the STM32F10x port: cpu/arm_cortexm3/timer.c and stm32f10x/clock.c and
      envm.c.
    - NandEcc: drivers/mtd/nand/nand_ecc.c, the Hamming code of NAND pages.
    - Display: lib_generic/display_options.c, sizes and memory dumps as text.
    - Image: common/image.c, the legacy image format, read in the memory of Mem.
      Uses Crc and Display.
    - Bootm: common/cmd_bootm.c, lib_arm/bootm.c and lib_generic/gunzip.c, booting
      an image.  Uses Image, Env and Command; zlib and the program that is started
      are parameters.
    - Ram: common/memsize.c and mtest of common/cmd_mem.c.  What a word access does is
      the class [Bus]; a chip repeated in a window and a chip with stuck bits are the
      classes [MirroredRam] and [StuckRam], both with instances.
    - MemCmd: the other commands of common/cmd_mem.c, over Mem and the flash driver
      of Flash.
    - Console: common/stdio.c, console.c and cmd_console.c, the console devices and the
      files assigned to them.  The drivers are the class [Drivers].  Uses the
      environment through Cli.
    - XyzModem: common/xyzModem.c, the X- and Y-modem receiver on a serial line with
      the times at which its bytes come; what a sender does, noise and damage
      included, is the relation [transfer].
    - Kermit: the Kermit receiver of common/cmd_load.c, with its own [transfer].
    - Load: the commands of common/cmd_load.c: loady, loadb, loads and saves.  Uses
      both receivers, Srec, and the flash driver of Flash.
    - TftpLink: the TFTP client together with a server and a network.
    - Bootp: net/bootp.c and the commands of common/cmd_net.c: BOOTP and DHCP, an instance
      of [NetClient] that has the TFTP client inside.

    ** How C is modelled

    A C integer is a [Z]; where the C type wraps, [u8] ... [s64] are written.  A
    function of the code that can go wrong returns a [res]: [Ok], [Fault] for
    undefined behaviour (an access outside an object, a null pointer, a division
    by zero), [OutOfFuel] when a loop was given too little fuel.  Fuel is always
    a bound that the code cannot exceed, the length of a list or a number of
    iterations computed from the arguments, and the theorems show [Ok]: no result
    depends on it.  Only a wait for a key that never comes (the Enter key after a
    change of the baud rate, the end of a console line) and a list of holes that odd fragments made circular are
    an honest [OutOfFuel].
    A string is either at an address of the memory (CString) or the list of its
    bytes before the NUL (everywhere else); a structure is a record; state that
    the code keeps in globals is passed and returned.

    ** What the theorems show

    - Lmb: the table of ranges stays sorted, coalesced and disjoint, adding and
      freeing changes exactly the addresses meant, and an allocation is aligned,
      inside memory and clear of all reservations (with a limit no less than its size).
    - Env: with [env_repr] relating the bytes of the area to a list of names and
      values, setting, deleting, finding, printing and completing variables are
      the operations on that list, with the right checksum.
    - EnvFlash: a saved environment is found and loaded again after a reset; with two
      copies the old or the new one is found whatever operation fails in between, as
      long as a single byte is programmed or not and a torn copy has a wrong checksum.
    - Command, Cli: abbreviations are unique or refused, help is sorted,
      completion appends the common beginning and stays in its buffer, macros are
      replaced and the result fits, each command of a line runs once and in
      order, the line reader is an editor on lists.
    - FlashCmd: ranges of addresses are exactly ranges of sectors, and saving the
      environment through commands, driver and chip brings it back after a reset.
    - LineEdit: the keys edit the line as an editor on two lists does, the history
      ring is the list of the last nineteen lines, and a terminal shows the line.
    - Flash: writing and erasing change exactly the words meant, refuse what is
      protected, and the waiting loop ends when the chip is done.
    - CString, Ctype, Div64, Crc, Circbuf, Srec: each routine against a reference
      definition: overlapping copies, ordering of strings, tokens, quotient and
      remainder, bit-serial checksums, a queue that drops its oldest bytes,
      records printed and decoded.
    - Vsprintf: what is printed is read back; digits, widths and termination.
    - Sha256, Sha1, Md5: the digest is that of FIPS 180 or RFC 1321 however the message
      is cut, and the HMAC that of RFC 2104.
    - Eth, Net: addresses as text and back, the choice of the device, the ARP
      exchange that delivers the first datagram to another host.
    - Defrag: fragments in any order that begins with the first, repeated or not, give
      the packet when the last missing one comes; the last one must have eight bytes.
    - Tftp, TftpLink: the client and a server over a network that loses and repeats
      packets, as a step relation: for files of fewer than 65536 blocks its invariant
      gives that success means that exactly the file was stored, and that success stays
      possible; for longer ones a repeated packet 0 spoils the file.
    - Bootp: a host gets its address, server, file and options from the replies, and goes
      on to load the file; what it sends can be read by a server.
    - Stm32: delays and time stamps across the restart of the counter; what writing
      to the embedded flash does.
    - Image, Bootm: exactly the well laid out headers with the right checksum are accepted, components
      are found where they were put, and bootm enters a valid kernel in place with
      its tags, refuses others, and what goes wrong with odd ones.
    - Display: sizes are rounded, a dump shows every byte once.
    - Ram: the size of a chip is found and its contents survive, mtest finds exactly the
      stuck bits of the words it uses.
    - MemCmd: filling, copying, comparing, dumping and editing memory, each against what
      it should do to a list of bytes.
    - Console: as long as the drivers start, no sequence of operations goes through a null
      pointer, and the files get the devices the environment names.
    - XyzModem, Kermit, Load: a whole transfer over a bad line puts exactly the file
      into memory, a read before the first error stays in its buffers whatever the sender
      does, what saves prints loads loads back.
    - NandEcc: one flipped bit of a block or its code is put right, two are reported.
    - Where the code does not do what it means to, a theorem or an [Example] shows
      what it does.

    ** Not modelled

    Text printed on the console is kept where a function's purpose is to print,
    otherwise dropped.  The files named above are complete but for the variants
    of other boards; FIT images, the other network protocols (NFS,
    RARP, DNS, SNTP, CDP) and partition tables are left for later.
    Small omissions: the copy of the variable bootfile under CONFIG_CMD_NET, which the
    board does not define; the environment in Load is a function from names to values,
    so that "filesize" cannot overflow it; widths of vsprintf next to the smallest int
    are not wrapped, where C has no answer.
    Third-party code (the vendor's peripheral library, dlmalloc, zlib,
    libfdt, the file systems, the hush shell) and code that only touches device
    registers is outside the plan. *)

From Stdlib Require Export ZArith Lia String Ascii.
From stdpp Require Export base numbers list strings gmap.

#[global] Open Scope Z_scope.

(** ** Fixed-width integers

    An [n]-bit C integer is a [Z]; arithmetic is done in [Z] and brought back
    into range by the functions below, written where the C type converts. *)

Definition u8 (x : Z) : Z := x mod 256.
Definition u16 (x : Z) : Z := x mod 65536.
Definition u32 (x : Z) : Z := x mod 4294967296.
Definition u64 (x : Z) : Z := x mod 18446744073709551616.

Definition s8 (x : Z) : Z := let y := u8 x in if y <? 128 then y else y - 256.
Definition s16 (x : Z) : Z := let y := u16 x in if y <? 32768 then y else y - 65536.
Definition s32 (x : Z) : Z := let y := u32 x in if y <? 2147483648 then y else y - 4294967296.
Definition s64 (x : Z) : Z :=
  let y := u64 x in if y <? 9223372036854775808 then y else y - 18446744073709551616.

(** A C condition as an [int]. *)
Definition b2z (b : bool) : Z := if b then 1 else 0.

Ltac zmod := Z.div_mod_to_equations; lia.

(** Case analysis on every integer or boolean test of the goal. *)
Ltac btest :=
  repeat match goal with
  | |- context [?a =? ?b] => destruct (Z.eqb_spec a b)
  | |- context [?a <? ?b] => destruct (Z.ltb_spec a b)
  | |- context [?a <=? ?b] => destruct (Z.leb_spec a b)
  end.

Lemma u8_small x : 0 <= x < 256 -> u8 x = x.
Proof. intros. by apply Z.mod_small. Qed.

Lemma u32_small x : 0 <= x < 4294967296 -> u32 x = x.
Proof. intros. by apply Z.mod_small. Qed.

Lemma u64_small x : 0 <= x < 18446744073709551616 -> u64 x = x.
Proof. intros. by apply Z.mod_small. Qed.

Lemma u8_range x : 0 <= u8 x < 256.
Proof. apply Z.mod_pos_bound. lia. Qed.

Lemma u32_range x : 0 <= u32 x < 4294967296.
Proof. apply Z.mod_pos_bound. lia. Qed.

Lemma s32_small x : -2147483648 <= x < 2147483648 -> s32 x = x.
Proof. intros. unfold s32, u32. cbv zeta. btest; zmod. Qed.

Lemma s8_eq_0 x : -255 <= x <= 255 -> s8 x = 0 -> x = 0.
Proof. unfold s8, u8. cbv zeta. btest; zmod. Qed.

(** ** Bit operations as arithmetic *)

Lemma testbit_high b k i : 0 <= b < 2 ^ k -> k <= i -> Z.testbit b i = false.
Proof.
  intros Hb Hi. destruct (decide (b = 0)) as [->|]; [apply Z.bits_0|].
  apply Z.bits_above_log2; [lia|]. assert (Z.log2 b < k); [|lia].
  apply Z.log2_lt_pow2; lia.
Qed.

(** Bits that do not overlap: [|] is [+]. *)
Lemma lor_shiftl_add a b k : 0 <= k -> 0 <= b < 2 ^ k -> Z.lor (Z.shiftl a k) b = a * 2 ^ k + b.
Proof.
  intros Hk Hb. rewrite <- Z.shiftl_mul_pow2 by done.
  assert (E : Z.land (Z.shiftl a k) b = 0).
  { apply Z.bits_inj'. intros i Hi. rewrite Z.land_spec, Z.bits_0. destruct (Z.lt_ge_cases i k).
    - by rewrite Z.shiftl_spec_low.
    - by rewrite (testbit_high b k i), andb_false_r by done. }
  by rewrite Z.add_nocarry_lxor, Z.lxor_lor.
Qed.

(** Extracting [n] bits at position [k]. *)
Lemma land_mask_shift x k n :
  0 <= k -> 0 <= n -> Z.land x (Z.shiftl (Z.ones n) k) = Z.shiftl (x / 2 ^ k mod 2 ^ n) k.
Proof.
  intros Hk Hn. apply Z.bits_inj'. intros i Hi. rewrite Z.land_spec. destruct (Z.lt_ge_cases i k).
  - by rewrite !Z.shiftl_spec_low, andb_false_r.
  - rewrite !Z.shiftl_spec by done. rewrite <- Z.land_ones, <- Z.shiftr_div_pow2, Z.land_spec, Z.shiftr_spec by lia.
    by replace (i - k + k) with i by lia.
Qed.

(** ** Outcomes of C code

    [Fault] is undefined behaviour the model detects: an access outside an
    object, a null pointer dereference, a division by zero.  [OutOfFuel] says
    that the fuel of a loop was too small; it is never a result of the code. *)

Inductive res (A : Type) : Type :=
| Ok (a : A)
| Fault
| OutOfFuel.
Arguments Ok {_} _.
Arguments Fault {_}.
Arguments OutOfFuel {_}.

#[export] Instance res_ret : MRet res := @Ok.
#[export] Instance res_bind : MBind res := fun A B f m =>
  match m with Ok a => f a | Fault => Fault | OutOfFuel => OutOfFuel end.

(** Reading through a possibly invalid place. *)
Definition of_option {A} (o : option A) : res A :=
  match o with Some a => Ok a | None => Fault end.

(** State and outcome: what a C function over the state [S] does. *)
Definition ST (S A : Type) : Type := S -> res (A * S).

#[export] Instance ST_ret {S} : MRet (ST S) := fun A a s => Ok (a, s).
#[export] Instance ST_bind {S} : MBind (ST S) := fun A B f m s =>
  match m s with Ok (a, s') => f a s' | Fault => Fault | OutOfFuel => OutOfFuel end.

Definition get {S} : ST S S := fun s => Ok (s, s).
Definition put {S} (s : S) : ST S unit := fun _ => Ok (tt, s).
Definition gets {S A} (f : S -> A) : ST S A := fun s => Ok (f s, s).
Definition modify {S} (f : S -> S) : ST S unit := fun s => Ok (tt, f s).
Definition lift {S A} (r : res A) : ST S A := fun s =>
  match r with Ok a => Ok (a, s) | Fault => Fault | OutOfFuel => OutOfFuel end.
Definition fault {S A} : ST S A := fun _ => Fault.
Definition out_of_fuel {S A} : ST S A := fun _ => OutOfFuel.

Lemma bind_ok {S A B} (m : ST S A) (k : A -> ST S B) s a s' :
  m s = Ok (a, s') -> (m ≫= k) s = k a s'.
Proof. intros H. unfold mbind, ST_bind. by rewrite H. Qed.

Lemma res_bind_ok {A B} (m : res A) (k : A -> res B) a :
  m = Ok a -> (m ≫= k) = k a.
Proof. by intros ->. Qed.

(** What a stateful computation preserves, that it returns, and what. *)
Definition yields {S A} (P : S -> Prop) (f : ST S A) (Q : A -> Prop) : Prop :=
  forall s, P s -> exists a s', f s = Ok (a, s') /\ P s' /\ Q a.

Section Yields.
Context {S : Type} (P : S -> Prop).

Lemma yields_ret {A} (a : A) (Q : A -> Prop) : Q a -> yields P (mret a) Q.
Proof. intros H s Hs. by exists a, s. Qed.

Lemma yields_bind {A B} (f : ST S A) (k : A -> ST S B) (Q : A -> Prop) (R : B -> Prop) :
  yields P f Q -> (forall a, Q a -> yields P (k a) R) -> yields P (f ≫= k) R.
Proof.
  intros Hf Hk s Hs. destruct (Hf s Hs) as (a & s1 & E & H1 & Ha). destruct (Hk a Ha s1 H1) as (b & s2 & E2 & H2 & Hb).
  exists b, s2. by rewrite (bind_ok _ _ _ _ _ E).
Qed.

Lemma yields_gets {A} (f : S -> A) (Q : A -> Prop) : (forall s, P s -> Q (f s)) -> yields P (gets f) Q.
Proof. intros H s Hs. exists (f s), s. auto. Qed.

Lemma yields_modify (f : S -> S) : (forall s, P s -> P (f s)) -> yields P (modify f) (fun _ => True).
Proof. intros H s Hs. exists tt, (f s). auto. Qed.

Lemma yields_lift {A} (r : res A) a (Q : A -> Prop) : r = Ok a -> Q a -> yields P (lift r) Q.
Proof. intros -> Ha s Hs. by exists a, s. Qed.

Lemma yields_if {A} (b : bool) (f g : ST S A) (Q : A -> Prop) :
  (b = true -> yields P f Q) -> (b = false -> yields P g Q) -> yields P (if b then f else g) Q.
Proof. destruct b; auto. Qed.
End Yields.

(** ** Bytes and C strings

    A byte is a [Z] in [0, 256).  A C string is the list of its bytes before
    the terminating NUL. *)

Definition byte (x : Z) : Prop := 0 <= x < 256.
Definition nonzero_byte (x : Z) : Prop := 0 < x < 256.
Definition cstring (s : list Z) : Prop := Forall nonzero_byte s.

(** The bytes of a string literal. *)
Definition zs (s : string) : list Z :=
  map (fun a => Z.of_N (N_of_ascii a)) (list_ascii_of_string s).
(** The value of a character constant. *)
Definition ch (a : ascii) : Z := Z.of_N (N_of_ascii a).

(** [*p], [p[1]] for a pointer [p] into a C string: the bytes left to read are
    [l], followed by the terminating NUL. *)
Definition deref (l : list Z) : Z := match l with [] => 0 | c :: _ => c end.

(** What an array holds, read as a string. *)
Fixpoint until_nul (s : list Z) : list Z := match s with c :: s => if c =? 0 then [] else c :: until_nul s | [] => [] end.

#[export] Instance byte_dec x : Decision (byte x).
Proof. unfold byte. apply _. Defined.
#[export] Instance nonzero_byte_dec x : Decision (nonzero_byte x).
Proof. unfold nonzero_byte. apply _. Defined.
#[export] Instance cstring_dec s : Decision (cstring s).
Proof. unfold cstring. apply _. Defined.

Lemma cstring_nil : cstring [].
Proof. constructor. Qed.

Lemma cstring_cons c s : cstring (c :: s) <-> nonzero_byte c /\ cstring s.
Proof. apply Forall_cons. Qed.

Lemma cstring_app s1 s2 : cstring (s1 ++ s2) <-> cstring s1 /\ cstring s2.
Proof. apply Forall_app. Qed.

(** ** Array access by index *)

Section Arrays.
Context {A : Type}.
Implicit Types l : list A.

(** [a[i]] and [a[i] = x]: outside the array is a fault. *)
Definition arr_get (l : list A) (i : nat) : res A := of_option (l !! i).
Definition arr_set (l : list A) (i : nat) (x : A) : res (list A) :=
  if decide (i < length l)%nat then Ok (<[i := x]> l) else Fault.

Lemma arr_get_app_mid l1 x l2 i : i = length l1 -> arr_get (l1 ++ x :: l2) i = Ok x.
Proof. intros ->. unfold arr_get. by rewrite list_lookup_middle. Qed.

Lemma arr_set_app_mid l1 x y l2 i :
  i = length l1 -> arr_set (l1 ++ x :: l2) i y = Ok (l1 ++ y :: l2).
Proof.
  intros ->. unfold arr_set. rewrite decide_True.
  - rewrite <- (Nat.add_0_r (length l1)) at 1. by rewrite insert_app_r.
  - rewrite length_app. simpl. lia.
Qed.

Lemma arr_set_ok l i x : (i < length l)%nat -> arr_set l i x = Ok (<[i := x]> l).
Proof. intros H. unfold arr_set. by rewrite decide_True. Qed.

Lemma arr_set_length l i x l' : arr_set l i x = Ok l' -> length l' = length l.
Proof. unfold arr_set. case_decide; intros [= <-]. apply length_insert. Qed.
End Arrays.

(** Automation: the hints every component uses. *)
Create HintDb uboot.
Create Rewrite HintDb uboot.
#[export] Hint Resolve u8_range u32_range cstring_nil : uboot.
#[export] Hint Rewrite @length_app @length_cons @length_insert @length_drop @length_take : uboot.

(** Solves length and index side conditions. *)
Ltac len := autorewrite with uboot in *; simpl in *; lia.
