(* ===== verification/Mem.v ===== *)
(** * Byte-addressed memory

    The flat memory that the pointer-level functions (lib_generic/string.c, the
    flash drivers) work on: a finite map from addresses to bytes.  Reading or
    writing an address that is not mapped is a [Fault].  [bytes_at] says what a
    range holds, [write_bytes] is the memory after a range was written, and the
    lemmas frame one against the other. *)

From S2P Require Import Prelude.

Abbreviation mem := (gmap Z Z).
Abbreviation M := (ST mem).

(** ** Accesses *)

Definition load8 (p : Z) : M Z := fun m =>
  match m !! p with Some b => Ok (b, m) | None => Fault end.

Definition store8 (p b : Z) : M unit := fun m =>
  match m !! p with Some _ => Ok (tt, <[p := u8 b]> m) | None => Fault end.

(** A row of bytes, as [memcpy] and [strcpy] write it. *)
Fixpoint store_bytes (p : Z) (l : list Z) : M unit :=
  match l with
  | [] => mret tt
  | b :: l => store8 p b;; store_bytes (p + 1) l
  end.

(** A [char] of the target, which is signed ([-fsigned-char]). *)
Definition load_char (p : Z) : M Z := c ← load8 p; mret (s8 c).

(** Little-endian words. *)
Definition load16 (p : Z) : M Z := b0 ← load8 p; b1 ← load8 (p + 1); mret (b0 + 256 * b1).

Definition store16 (p w : Z) : M unit := store8 p w;; store8 (p + 1) (w / 256).

Definition load32 (p : Z) : M Z :=
  b0 ← load8 p; b1 ← load8 (p + 1); b2 ← load8 (p + 2); b3 ← load8 (p + 3);
  mret (b0 + 256 * b1 + 65536 * b2 + 16777216 * b3).

Definition store32 (p w : Z) : M unit :=
  store8 p w;; store8 (p + 1) (w / 256);; store8 (p + 2) (w / 65536);; store8 (p + 3) (w / 16777216).

(** Every loop below advances through mapped addresses, so the number of mapped
    addresses bounds its iterations. *)
Definition mem_fuel : M nat := gets (fun m => S (size m)).

(** ** What memory holds *)

Fixpoint bytes_at (m : mem) (p : Z) (l : list Z) : Prop :=
  match l with
  | [] => True
  | b :: l' => (m !! p = Some b /\ byte b) /\ bytes_at m (p + 1) l'
  end.

(** A NUL-terminated string. *)
Definition cstr (m : mem) (p : Z) (s : list Z) : Prop := cstring s /\ bytes_at m p (s ++ [0]).

Definition mapped (m : mem) (p n : Z) : Prop := forall a, p <= a < p + n -> is_Some (m !! a).

Fixpoint write_bytes (m : mem) (p : Z) (l : list Z) : mem :=
  match l with
  | [] => m
  | b :: l' => write_bytes (<[p := b]> m) (p + 1) l'
  end.

(** A memory to evaluate examples in: [l] from address [p]. *)
Definition mem_of (p : Z) (l : list Z) : mem := write_bytes ∅ p l.

(** ** Lemmas *)

Lemma bytes_at_app m p l1 l2 :
  bytes_at m p (l1 ++ l2) <-> bytes_at m p l1 /\ bytes_at m (p + Z.of_nat (length l1)) l2.
Proof.
  revert p. induction l1 as [|b l1 IH]; intros p; simpl.
  - rewrite Z.add_0_r. tauto.
  - rewrite IH. replace (p + 1 + Z.of_nat (length l1)) with (p + Z.of_nat (S (length l1))) by lia. tauto.
Qed.

Lemma bytes_at_bytes m p l : bytes_at m p l -> Forall byte l.
Proof.
  revert p. induction l as [|b l IH]; intros p; simpl; [by constructor|].
  intros [[_ Hb] Hl]. constructor; [done|by eapply IH].
Qed.

Lemma bytes_at_mapped m p l : bytes_at m p l -> mapped m p (Z.of_nat (length l)).
Proof.
  revert p. induction l as [|b l IH]; intros p; simpl; [intros _ a; lia|].
  intros [[H _] Hl] a Ha. destruct (decide (a = p)) as [->|]; [by eexists|]. apply (IH _ Hl). lia.
Qed.

Lemma bytes_at_lookup m p l i b :
  bytes_at m p l -> l !! i = Some b -> m !! (p + Z.of_nat i) = Some b /\ byte b.
Proof.
  revert p i. induction l as [|c l IH]; intros p [|i]; simpl; try done.
  - intros [[H ?] _] [= <-]. by rewrite Z.add_0_r.
  - intros [_ H] Hi. specialize (IH _ _ H Hi). by replace (p + Z.of_nat (S i)) with (p + 1 + Z.of_nat i) by lia.
Qed.

Lemma bytes_at_insert m p l a b :
  a < p \/ p + Z.of_nat (length l) <= a -> bytes_at m p l -> bytes_at (<[a := b]> m) p l.
Proof.
  revert p. induction l as [|c l IH]; intros p; simpl; [done|]. intros Ha [[H ?] Hl].
  rewrite lookup_insert_ne by lia. split; [done|]. by apply IH; [lia|].
Qed.

Lemma bytes_at_write m p l q r :
  q + Z.of_nat (length r) <= p \/ p + Z.of_nat (length l) <= q ->
  bytes_at m p l -> bytes_at (write_bytes m q r) p l.
Proof.
  revert m q. induction r as [|c r IH]; intros m q; simpl; [done|]. intros Hd H.
  destruct l as [|b l]; [done|]. apply IH; [simpl in *; lia|]. apply bytes_at_insert; [simpl in *; lia|done].
Qed.

Lemma mapped_insert m p n a b : mapped m p n -> mapped (<[a := b]> m) p n.
Proof. intros H x Hx. rewrite lookup_insert_is_Some'. right. by apply H. Qed.

Lemma mapped_write m p n q l : mapped m p n -> mapped (write_bytes m q l) p n.
Proof. revert m q. induction l; intros m q H; simpl; [done|]. by apply IHl, mapped_insert. Qed.

Lemma mapped_sub m p n q k : mapped m p n -> p <= q -> q + k <= p + n -> mapped m q k.
Proof. intros H ? ? a ?. apply H. lia. Qed.

Lemma write_bytes_lookup_out m p l a :
  a < p \/ p + Z.of_nat (length l) <= a -> write_bytes m p l !! a = m !! a.
Proof.
  revert m p. induction l as [|b l IH]; intros m p; simpl; [done|]. intros H.
  rewrite IH by lia. by rewrite lookup_insert_ne by lia.
Qed.

Lemma write_bytes_at m p l : Forall byte l -> bytes_at (write_bytes m p l) p l.
Proof.
  revert m p. induction l as [|b l IH]; intros m p Hl; simpl; [done|]. apply Forall_cons in Hl as [Hb Hl].
  split; [|by apply IH]. split; [|done]. rewrite write_bytes_lookup_out by lia. by rewrite lookup_insert_eq.
Qed.

Lemma write_bytes_app m p l1 l2 :
  write_bytes m p (l1 ++ l2) = write_bytes (write_bytes m p l1) (p + Z.of_nat (length l1)) l2.
Proof.
  revert m p. induction l1 as [|b l1 IH]; intros m p; simpl.
  - by rewrite Z.add_0_r.
  - rewrite IH. by replace (p + 1 + Z.of_nat (length l1)) with (p + Z.of_nat (S (length l1))) by lia.
Qed.

Lemma write_bytes_insert m p l a b :
  a < p \/ p + Z.of_nat (length l) <= a ->
  write_bytes (<[a := b]> m) p l = <[a := b]> (write_bytes m p l).
Proof.
  revert m p. induction l as [|c l IH]; intros m p; simpl; [done|]. intros H.
  rewrite insert_insert_ne by lia. apply IH. lia.
Qed.

Lemma load8_ok m p b : m !! p = Some b -> load8 p m = Ok (b, m).
Proof. unfold load8. by intros ->. Qed.

Lemma store8_ok m p b n : mapped m p n -> 0 < n -> byte b -> store8 p b m = Ok (tt, <[p := b]> m).
Proof. intros H ? ?. unfold store8. destruct (H p) as [x ->]; [lia|]. by rewrite u8_small. Qed.

Lemma size_bytes m p l : bytes_at m p l -> (length l <= size m)%nat.
Proof.
  revert m p. induction l as [|b l IH]; intros m p; simpl; [lia|]. intros [[H ?] Hl].
  assert (Hd : bytes_at (delete p m) (p + 1) l).
  { clear IH. assert (Hp : p < p + 1) by lia. revert Hl Hp. generalize (p + 1) as q.
    induction l as [|c l IH]; intros q Hl Hp; simpl; [done|]. destruct Hl as [[? ?] Hl].
    rewrite lookup_delete_ne by lia. split; [done|]. apply IH; [done|lia]. }
  apply IH in Hd. rewrite <- (insert_delete_id m p b) by done. rewrite map_size_insert_None; [lia|apply lookup_delete_eq].
Qed.

Lemma mem_fuel_ok m : mem_fuel m = Ok (S (size m), m).
Proof. done. Qed.

(** ** Words *)

Lemma u8_div_word b0 b1 b2 b3 :
  byte b0 -> byte b1 -> byte b2 -> byte b3 ->
  let w := b0 + 256 * b1 + 65536 * b2 + 16777216 * b3 in
  u8 w = b0 /\ u8 (w / 256) = b1 /\ u8 (w / 65536) = b2 /\ u8 (w / 16777216) = b3.
Proof. unfold byte, u8. intros H0 H1 H2 H3. cbv zeta. repeat split; zmod. Qed.

Lemma load32_ok m p b0 b1 b2 b3 :
  bytes_at m p [b0; b1; b2; b3] ->
  load32 p m = Ok (b0 + 256 * b1 + 65536 * b2 + 16777216 * b3, m).
Proof.
  simpl. replace (p + 1 + 1) with (p + 2) by lia. replace (p + 2 + 1) with (p + 3) by lia.
  intros ((H0 & _) & (H1 & _) & (H2 & _) & (H3 & _) & _). unfold load32.
  by rewrite (bind_ok _ _ _ _ _ (load8_ok _ _ _ H0)), (bind_ok _ _ _ _ _ (load8_ok _ _ _ H1)),
    (bind_ok _ _ _ _ _ (load8_ok _ _ _ H2)), (bind_ok _ _ _ _ _ (load8_ok _ _ _ H3)).
Qed.

Lemma store8_raw m p b n : mapped m p n -> 0 < n -> store8 p b m = Ok (tt, <[p := u8 b]> m).
Proof. intros H ?. unfold store8. destruct (H p) as [x ->]; [lia|]. done. Qed.

Lemma store32_ok m p b0 b1 b2 b3 n :
  mapped m p n -> 4 <= n -> byte b0 -> byte b1 -> byte b2 -> byte b3 ->
  store32 p (b0 + 256 * b1 + 65536 * b2 + 16777216 * b3) m = Ok (tt, write_bytes m p [b0; b1; b2; b3]).
Proof.
  intros Hm Hn B0 B1 B2 B3. destruct (u8_div_word b0 b1 b2 b3) as (E0 & E1 & E2 & E3); try done.
  unfold store32. set (w := b0 + _ + _ + _) in *. clearbody w.
  rewrite (bind_ok _ _ _ _ _ (store8_raw m p w n Hm ltac:(lia))), E0. cbv beta.
  assert (H1 : mapped m (p + 1) 1) by (eapply mapped_sub; [exact Hm|lia|lia]).
  assert (H2 : mapped m (p + 2) 1) by (eapply mapped_sub; [exact Hm|lia|lia]).
  assert (H3 : mapped m (p + 3) 1) by (eapply mapped_sub; [exact Hm|lia|lia]).
  erewrite bind_ok by (eapply store8_raw; [apply mapped_insert, H1|lia]). rewrite E1.
  erewrite bind_ok by (eapply store8_raw; [apply mapped_insert, mapped_insert, H2|lia]). rewrite E2.
  erewrite store8_raw by (try apply mapped_insert, mapped_insert, mapped_insert, H3; lia). rewrite E3. simpl.
  replace (p + 1 + 1) with (p + 2) by lia. by replace (p + 2 + 1) with (p + 3) by lia.
Qed.

(** ** Changes of memory *)

(** From [m] to [m'] only addresses in [lo, hi) changed, and none was lost. *)
Definition changed (m m' : mem) (lo hi : Z) : Prop :=
  (forall a, a < lo \/ hi <= a -> m' !! a = m !! a) /\ (forall a, is_Some (m !! a) -> is_Some (m' !! a)).

Lemma changed_refl m lo hi : changed m m lo hi.
Proof. done. Qed.

Lemma changed_trans m1 m2 m3 lo mid hi : changed m1 m2 lo mid -> changed m2 m3 mid hi -> lo <= mid <= hi -> changed m1 m3 lo hi.
Proof. intros [A1 A2] [B1 B2] H. split; [intros a Ha; rewrite B1, A1 by lia; done|auto]. Qed.

Lemma changed_wider m m' lo hi lo' hi' : changed m m' lo hi -> lo' <= lo -> hi <= hi' -> changed m m' lo' hi'.
Proof. intros [A1 A2] ? ?. split; [intros a Ha; apply A1; lia|done]. Qed.

Lemma changed_write m p l lo hi : lo <= p -> p + Z.of_nat (length l) <= hi -> changed m (write_bytes m p l) lo hi.
Proof.
  intros H1 H2. split; [intros a Ha; apply write_bytes_lookup_out; lia|].
  intros a Ha. destruct (mapped_write m a 1 p l) with (a := a) as [x Hx]; [intros b Hb; by replace b with a by lia|lia|by exists x].
Qed.

Lemma changed_more m m1 p l lo hi : changed m m1 lo hi -> lo <= p -> p + Z.of_nat (length l) <= hi -> changed m (write_bytes m1 p l) lo hi.
Proof.
  intros [A1 A2] H1 H2. destruct (changed_write m1 p l lo hi H1 H2) as [B1 B2]. split; [intros a Ha; rewrite B1, A1 by lia; done|auto].
Qed.

Lemma bytes_at_agree m m' p l : (forall a, p <= a < p + Z.of_nat (length l) -> m' !! a = m !! a) -> bytes_at m p l -> bytes_at m' p l.
Proof.
  revert p. induction l as [|b l IH]; intros p H Hb; [done|]. destruct Hb as [[Hb ?] Hl]. cbn [length] in H.
  split; [split; [rewrite H by lia; done|done]|]. apply IH; [intros a Ha; apply H; lia|done].
Qed.

Lemma bytes_at_changed m m' lo hi p l : changed m m' lo hi -> p + Z.of_nat (length l) <= lo \/ hi <= p -> bytes_at m p l -> bytes_at m' p l.
Proof. intros [H _] Hd. apply bytes_at_agree. intros a Ha. apply H. lia. Qed.

Lemma mapped_changed m m' lo hi p n : changed m m' lo hi -> mapped m p n -> mapped m' p n.
Proof. intros [_ H] Hm a Ha. by apply H, Hm. Qed.

(** ** Little-endian words *)

Definition word32 (w : Z) : Prop := 0 <= w < 4294967296.

Definition le32 (w : Z) : list Z := [u8 w; u8 (w / 256); u8 (w / 65536); u8 (w / 16777216)].

Lemma le32_bytes w : Forall byte (le32 w).
Proof. repeat constructor; apply u8_range. Qed.

Lemma le32_value w : word32 w -> u8 w + 256 * u8 (w / 256) + 65536 * u8 (w / 65536) + 16777216 * u8 (w / 16777216) = w.
Proof. unfold word32, u8. intros H. zmod. Qed.

Lemma store32_w m p w n : mapped m p n -> 4 <= n -> word32 w -> store32 p w m = Ok (tt, write_bytes m p (le32 w)).
Proof.
  intros Hm Hn Hw. rewrite <- (le32_value w Hw) at 1. apply (store32_ok _ _ _ _ _ _ n); try done; apply u8_range.
Qed.

Lemma load32_w m p w : word32 w -> bytes_at m p (le32 w) -> load32 p m = Ok (w, m).
Proof. intros Hw Hb. rewrite (load32_ok _ _ _ _ _ _ Hb). by rewrite le32_value. Qed.

Definition word16 (w : Z) : Prop := 0 <= w < 65536.

Definition le16 (w : Z) : list Z := [u8 w; u8 (w / 256)].

Lemma le16_bytes w : Forall byte (le16 w).
Proof. repeat constructor; apply u8_range. Qed.

Lemma load16_ok m p b0 b1 : bytes_at m p [b0; b1] -> load16 p m = Ok (b0 + 256 * b1, m).
Proof.
  intros ((H0 & _) & (H1 & _) & _). unfold load16. rewrite (bind_ok _ _ _ _ _ (load8_ok _ _ _ H0)).
  by rewrite (bind_ok _ _ _ _ _ (load8_ok _ _ _ H1)).
Qed.

Lemma load16_w m p w : word16 w -> bytes_at m p (le16 w) -> load16 p m = Ok (w, m).
Proof. intros Hw Hb. rewrite (load16_ok _ _ _ _ Hb). unfold word16, u8 in *. do 2 f_equal. zmod. Qed.

Lemma store16_w m p w n : mapped m p n -> 2 <= n -> store16 p w m = Ok (tt, write_bytes m p (le16 w)).
Proof.
  intros Hm Hn. unfold store16. rewrite (bind_ok _ _ _ _ _ (store8_raw m p w n Hm ltac:(lia))).
  apply (store8_raw _ (p + 1) (w / 256) 1); [apply mapped_insert; eapply mapped_sub; [exact Hm|lia|lia]|lia].
Qed.

(** ** Deciding what a concrete memory holds *)

#[export] Instance bytes_at_dec m p l : Decision (bytes_at m p l).
Proof. revert p. induction l as [|b l IH]; intros p; simpl; apply _. Defined.

#[export] Instance cstr_dec m p s : Decision (cstr m p s).
Proof. unfold cstr. apply _. Defined.

Lemma mapped_check m p n :
  forallb (fun a => bool_decide (is_Some (m !! a))) (seqZ p n) = true -> mapped m p n.
Proof.
  rewrite forallb_forall. intros H a Ha. apply (bool_decide_eq_true_1 _), H, list_elem_of_In, elem_of_seqZ. lia.
Qed.

(** Settles [bytes_at], [cstr] and [mapped] on a closed memory. *)
Ltac mem_decide :=
  lazymatch goal with
  | |- mapped _ _ _ => apply mapped_check; vm_compute; reflexivity
  | |- _ => apply (bool_decide_unpack _); vm_compute; exact I
  end.

Lemma store_bytes_ok l : forall m p, mapped m p (Z.of_nat (length l)) -> Forall byte l -> store_bytes p l m = Ok (tt, write_bytes m p l).
Proof.
  induction l as [|b l IH]; intros m p Hm HF; cbn [store_bytes length write_bytes] in *; [done|]. apply Forall_cons in HF as [Hb HF].
  rewrite (bind_ok _ _ _ _ _ (store8_ok m p b _ Hm ltac:(lia) Hb)). apply IH; [|done]. apply mapped_insert. eapply mapped_sub; [exact Hm|lia|lia].
Qed.
