(* ===== verification/Ctype.v ===== *)
(** * Character classes (lib_generic/ctype.c, include/linux/ctype.h)

    The 256-entry table and the macros over it.  An argument is converted by
    [(int)(unsigned char)], so negative [char]s index the upper half. *)

From S2P Require Import Prelude.

Definition _U : Z := 0x01.
Definition _L : Z := 0x02.
Definition _D : Z := 0x04.
Definition _C : Z := 0x08.
Definition _P : Z := 0x10.
Definition _S : Z := 0x20.
Definition _X : Z := 0x40.
Definition _SP : Z := 0x80.

Definition _ctype : list Z :=
  let CS := Z.lor _C _S in let SS := Z.lor _S _SP in let UX := Z.lor _U _X in let LX := Z.lor _L _X in
  [_C;_C;_C;_C;_C;_C;_C;_C;
   _C;CS;CS;CS;CS;CS;_C;_C;
   _C;_C;_C;_C;_C;_C;_C;_C;
   _C;_C;_C;_C;_C;_C;_C;_C;
   SS;_P;_P;_P;_P;_P;_P;_P;
   _P;_P;_P;_P;_P;_P;_P;_P;
   _D;_D;_D;_D;_D;_D;_D;_D;
   _D;_D;_P;_P;_P;_P;_P;_P;
   _P;UX;UX;UX;UX;UX;UX;_U;
   _U;_U;_U;_U;_U;_U;_U;_U;
   _U;_U;_U;_U;_U;_U;_U;_U;
   _U;_U;_U;_P;_P;_P;_P;_P;
   _P;LX;LX;LX;LX;LX;LX;_L;
   _L;_L;_L;_L;_L;_L;_L;_L;
   _L;_L;_L;_L;_L;_L;_L;_L;
   _L;_L;_L;_P;_P;_P;_P;_C;
   0;0;0;0;0;0;0;0;0;0;0;0;0;0;0;0;
   0;0;0;0;0;0;0;0;0;0;0;0;0;0;0;0;
   SS;_P;_P;_P;_P;_P;_P;_P;_P;_P;_P;_P;_P;_P;_P;_P;
   _P;_P;_P;_P;_P;_P;_P;_P;_P;_P;_P;_P;_P;_P;_P;_P;
   _U;_U;_U;_U;_U;_U;_U;_U;_U;_U;_U;_U;_U;_U;_U;_U;
   _U;_U;_U;_U;_U;_U;_U;_P;_U;_U;_U;_U;_U;_U;_U;_L;
   _L;_L;_L;_L;_L;_L;_L;_L;_L;_L;_L;_L;_L;_L;_L;_L;
   _L;_L;_L;_L;_L;_L;_L;_P;_L;_L;_L;_L;_L;_L;_L;_L].

(** The index [u8 x] is always inside the table ([ctype_length]). *)
Definition __ismask (x : Z) : Z := nth (Z.to_nat (u8 x)) _ctype 0.

Definition ctype_test (c bits : Z) : bool := negb (Z.land (__ismask c) bits =? 0).

Definition isalnum (c : Z) : bool := ctype_test c (Z.lor _U (Z.lor _L _D)).
Definition isalpha (c : Z) : bool := ctype_test c (Z.lor _U _L).
Definition iscntrl (c : Z) : bool := ctype_test c _C.
Definition isdigit (c : Z) : bool := ctype_test c _D.
Definition isgraph (c : Z) : bool := ctype_test c (Z.lor _P (Z.lor _U (Z.lor _L _D))).
Definition islower (c : Z) : bool := ctype_test c _L.
Definition isprint (c : Z) : bool := ctype_test c (Z.lor _P (Z.lor _U (Z.lor _L (Z.lor _D _SP)))).
Definition ispunct (c : Z) : bool := ctype_test c _P.
Definition isspace (c : Z) : bool := ctype_test c _S.
Definition isupper (c : Z) : bool := ctype_test c _U.
Definition isxdigit (c : Z) : bool := ctype_test c (Z.lor _D _X).

Definition isascii (c : Z) : bool := u8 c <=? 0x7f.
Definition toascii (c : Z) : Z := Z.land (u8 c) 0x7f.

Definition __tolower (c : Z) : Z := if isupper c then u8 (c - (ch "A" - ch "a")) else c.
Definition __toupper (c : Z) : Z := if islower c then u8 (c - (ch "a" - ch "A")) else c.
Definition tolower (c : Z) : Z := __tolower (u8 c).
Definition toupper (c : Z) : Z := __toupper (u8 c).

Lemma ctype_length : length _ctype = 256%nat.
Proof. reflexivity. Qed.

(** A boolean fact about all bytes is a computation over the 256 of them. *)
Lemma byte_forall (P : Z -> bool) : forallb P (seqZ 0 256) = true -> forall c, byte c -> P c = true.
Proof. rewrite forallb_forall. intros H c ?. apply H, list_elem_of_In, elem_of_seqZ. unfold byte in *. lia. Qed.

Lemma isdigit_spec c : byte c -> isdigit c = (48 <=? c) && (c <=? 57).
Proof.
  intros Hc. apply eqb_prop.
  by apply (byte_forall (fun c => Bool.eqb (isdigit c) ((48 <=? c) && (c <=? 57)))); [vm_compute|].
Qed.

Definition hex_char (c : Z) : bool :=
  (48 <=? c) && (c <=? 57) || (65 <=? c) && (c <=? 70) || (97 <=? c) && (c <=? 102).

Lemma isxdigit_spec c : byte c -> isxdigit c = hex_char c.
Proof.
  intros Hc. apply eqb_prop.
  by apply (byte_forall (fun c => Bool.eqb (isxdigit c) (hex_char c))); [vm_compute|].
Qed.

(** On 7-bit characters the classes are the C locale's, and [tolower] and
    [toupper] exchange exactly the two letter ranges; the upper half of the
    table holds no digit, hexadecimal digit or control character. *)
Theorem ctype_ascii c :
  0 <= c < 128 ->
  isdigit c = (48 <=? c) && (c <=? 57) /\
  isupper c = (65 <=? c) && (c <=? 90) /\
  islower c = (97 <=? c) && (c <=? 122) /\
  isspace c = (9 <=? c) && (c <=? 13) || (c =? 32) /\
  iscntrl c = (c <? 32) || (c =? 127) /\
  isprint c = (32 <=? c) && (c <? 127) /\
  isalnum c = isalpha c || isdigit c /\ isalpha c = isupper c || islower c /\
  ispunct c = isgraph c && negb (isalnum c) /\
  tolower c = (if isupper c then c + 32 else c) /\ toupper c = (if islower c then c - 32 else c) /\
  isdigit (c + 128) = false /\ isxdigit (c + 128) = false /\ iscntrl (c + 128) = false.
Proof.
  intros Hc.
  set (P := fun c => (128 <=? c) ||
    (Bool.eqb (isdigit c) ((48 <=? c) && (c <=? 57)) &&
     Bool.eqb (isupper c) ((65 <=? c) && (c <=? 90)) &&
     Bool.eqb (islower c) ((97 <=? c) && (c <=? 122)) &&
     Bool.eqb (isspace c) ((9 <=? c) && (c <=? 13) || (c =? 32)) &&
     Bool.eqb (iscntrl c) ((c <? 32) || (c =? 127)) &&
     Bool.eqb (isprint c) ((32 <=? c) && (c <? 127)) &&
     Bool.eqb (isalnum c) (isalpha c || isdigit c) && Bool.eqb (isalpha c) (isupper c || islower c) &&
     Bool.eqb (ispunct c) (isgraph c && negb (isalnum c)) &&
     (tolower c =? (if isupper c then c + 32 else c)) && (toupper c =? (if islower c then c - 32 else c)) &&
     negb (isdigit (c + 128)) && negb (isxdigit (c + 128)) && negb (iscntrl (c + 128)))).
  assert (H : P c = true) by (apply byte_forall; [vm_compute; reflexivity|unfold byte; lia]).
  unfold P in H. rewrite (proj2 (Z.leb_gt 128 c)) in H by lia. rewrite orb_false_l in H.
  rewrite !andb_true_iff, !eqb_true_iff, !negb_true_iff, !Z.eqb_eq in H. intuition.
Qed.

Lemma ctype_ascii_witness :
  isdigit 97 = (48 <=? 97) && (97 <=? 57) /\
  isupper 97 = (65 <=? 97) && (97 <=? 90) /\
  islower 97 = (97 <=? 97) && (97 <=? 122) /\
  isspace 97 = (9 <=? 97) && (97 <=? 13) || (97 =? 32) /\
  iscntrl 97 = (97 <? 32) || (97 =? 127) /\
  isprint 97 = (32 <=? 97) && (97 <? 127) /\
  isalnum 97 = isalpha 97 || isdigit 97 /\ isalpha 97 = isupper 97 || islower 97 /\
  ispunct 97 = isgraph 97 && negb (isalnum 97) /\
  tolower 97 = (if isupper 97 then 97 + 32 else 97) /\ toupper 97 = (if islower 97 then 97 - 32 else 97) /\
  isdigit (97 + 128) = false /\ isxdigit (97 + 128) = false /\ iscntrl (97 + 128) = false.
Proof. apply (ctype_ascii 97). lia. Defined.
