(* ===== verification/Div64.v ===== *)
(** * 64-bit by 32-bit division (lib_generic/div64.c, include/div64.h)

    The shift-and-subtract division behind [do_div], used wherever a 64-bit
    number is printed or a tick count converted.  A zero divisor is undefined
    in C and outside the statements. *)

From S2P Require Import Prelude.

(** [while ((int64_t)b > 0 && b < rem)]: [b] doubles from at least 1, so 64
    iterations make it negative as an [int64_t]. *)
Fixpoint div64_grow (fuel : nat) (rem b d : Z) : Z * Z :=
  match fuel with
  | O => (b, d)
  | S fuel' =>
      if (0 <? s64 b) && (b <? rem) then div64_grow fuel' rem (u64 (b + b)) (u64 (d + d))
      else (b, d)
  end.

(** [do ... while (d)]: [d] is below 2^64 and halves. *)
Fixpoint div64_shrink (fuel : nat) (rem b d res : Z) : Z * Z :=
  match fuel with
  | O => (res, rem)
  | S fuel' =>
      let '(rem, res) := if b <=? rem then (u64 (rem - b), u64 (res + d)) else (rem, res) in
      let b := Z.shiftr b 1 in
      let d := Z.shiftr d 1 in
      if negb (d =? 0) then div64_shrink fuel' rem b d res else (res, rem)
  end.

(** The new value of [*n] and the result. *)
Definition __div64_32 (n base : Z) : Z * Z :=
  let rem := n in
  let high := u32 (Z.shiftr rem 32) in
  let '(res, rem) :=
    if base <=? high then
      let high := high / base in
      (Z.shiftl high 32, u64 (rem - Z.shiftl (u32 (high * base)) 32))
    else (0, rem) in
  let '(b, d) := div64_grow 64 rem base 1 in
  let '(res, rem) := div64_shrink 65 rem b d res in
  (res, u32 rem).

(** [do_div(n, base)]: the new [n] and the value. *)
Definition do_div (n base : Z) : Z * Z :=
  if Z.shiftr n 32 =? 0 then (u32 n / base, u32 n mod base) else __div64_32 n base.

Definition lldiv (dividend divisor : Z) : Z := fst (do_div dividend divisor).

(** ** Correctness *)

Lemma s64_pos b : 0 <= b < 18446744073709551616 -> (0 <? s64 b) = (0 <? b) && (b <? 9223372036854775808).
Proof. intros. unfold s64. rewrite u64_small by done. cbv zeta. btest; simpl; try done; lia. Qed.

(** After the growing loop [b = base * 2^k] and the remainder is below [2b]. *)
Lemma div64_grow_spec base rem fuel : forall k,
  0 < base < 4294967296 -> 0 <= rem < 18446744073709551616 -> 0 <= k ->
  base * 2 ^ k < 18446744073709551616 -> 64 <= k + Z.of_nat fuel ->
  exists j, div64_grow fuel rem (base * 2 ^ k) (2 ^ k) = (base * 2 ^ j, 2 ^ j) /\
    k <= j < 64 /\ base * 2 ^ j < 18446744073709551616 /\ rem <= 2 * (base * 2 ^ j) - 1.
Proof.
  induction fuel as [|fuel IH]; intros k Hb Hrem Hk Hlt Hf.
  - exfalso. assert (2 ^ 64 <= 2 ^ k) by (apply Z.pow_le_mono_r; lia).
    change (2 ^ 64) with 18446744073709551616 in *. nia.
  - pose proof (Z.pow_pos_nonneg 2 k ltac:(lia) Hk) as Hp.
    assert (Hk64 : k < 64).
    { apply Z.nle_gt. intros H. assert (2 ^ 64 <= 2 ^ k) by (apply Z.pow_le_mono_r; lia).
      change (2 ^ 64) with 18446744073709551616 in *. nia. }
    cbn [div64_grow]. rewrite s64_pos by nia.
    destruct (Z.ltb_spec 0 (base * 2 ^ k)); [|nia].
    destruct (Z.ltb_spec (base * 2 ^ k) 9223372036854775808); simpl andb; cbv iota.
    + destruct (Z.ltb_spec (base * 2 ^ k) rem).
      * assert (E : 2 ^ (k + 1) = 2 * 2 ^ k) by (rewrite Z.pow_add_r by lia; lia).
        replace (u64 (base * 2 ^ k + base * 2 ^ k)) with (base * 2 ^ (k + 1)) by (rewrite u64_small; nia).
        replace (u64 (2 ^ k + 2 ^ k)) with (2 ^ (k + 1)) by (rewrite u64_small; nia).
        destruct (IH (k + 1)) as (j & Hj1 & Hj2 & Hj3); try lia.
        exists j. split; [done|]. lia.
      * exists k. split; [done|]. lia.
    + exists k. split; [done|]. lia.
Qed.

Lemma div64_shrink_spec base fuel : forall k rem res,
  0 < base < 4294967296 -> 0 <= k < Z.of_nat fuel -> base * 2 ^ k < 18446744073709551616 ->
  0 <= rem < 2 * (base * 2 ^ k) -> rem < 18446744073709551616 -> 0 <= res ->
  res * base + rem < 18446744073709551616 ->
  let '(res', rem') := div64_shrink fuel rem (base * 2 ^ k) (2 ^ k) res in
  res' * base + rem' = res * base + rem /\ 0 <= rem' < base.
Proof.
  induction fuel as [|fuel IH]; intros k rem res Hb Hk Hlt Hrem Hr64 Hres Hn; [lia|].
  cbn [div64_shrink]. pose proof (Z.pow_pos_nonneg 2 k ltac:(lia) ltac:(lia)) as Hp.
  rewrite !Z.shiftr_div_pow2 by lia. change (2 ^ 1) with 2.
  assert (Hstep : exists rem1 res1,
    (if base * 2 ^ k <=? rem then (u64 (rem - base * 2 ^ k), u64 (res + 2 ^ k)) else (rem, res)) = (rem1, res1) /\
    res1 * base + rem1 = res * base + rem /\ 0 <= rem1 < base * 2 ^ k /\ 0 <= res1).
  { destruct (Z.leb_spec (base * 2 ^ k) rem).
    - eexists _, _. split; [done|]. rewrite !u64_small by nia. nia.
    - eexists _, _. split; [done|]. lia. }
  destruct Hstep as (rem1 & res1 & -> & H1 & H2 & H3). cbv beta iota.
  destruct (decide (k = 0)) as [->|Hk0].
  - change (2 ^ 0) with 1 in *. simpl. lia.
  - assert (E : 2 ^ k = 2 * 2 ^ (k - 1)) by (rewrite <- Z.pow_succ_r by lia; f_equal; lia).
    pose proof (Z.pow_pos_nonneg 2 (k - 1) ltac:(lia) ltac:(lia)) as Hp1.
    replace (base * 2 ^ k / 2) with (base * 2 ^ (k - 1)) by (rewrite E; apply Z.div_unique_exact; lia).
    replace (2 ^ k / 2) with (2 ^ (k - 1)) by (rewrite E; apply Z.div_unique_exact; lia).
    destruct (Z.eqb_spec (2 ^ (k - 1)) 0); [lia|]. simpl negb. cbv iota.
    specialize (IH (k - 1) rem1 res1). destruct (div64_shrink _ _ _ _ _) as [res' rem'].
    destruct IH as [I1 I2]; nia.
Qed.

Lemma div64_32_spec n base :
  0 <= n < 18446744073709551616 -> 0 < base < 4294967296 -> __div64_32 n base = (n / base, n mod base).
Proof.
  intros Hn Hb. unfold __div64_32. rewrite Z.shiftr_div_pow2 by lia. change (2 ^ 32) with 4294967296.
  rewrite u32_small by zmod.
  assert (Hred : exists res rem,
    (if base <=? n / 4294967296 then
       (Z.shiftl (n / 4294967296 / base) 32,
        u64 (n - Z.shiftl (u32 (n / 4294967296 / base * base)) 32))
     else (0, n)) = (res, rem) /\ res * base + rem = n /\ 0 <= rem < 18446744073709551616 /\ 0 <= res).
  { destruct (Z.leb_spec base (n / 4294967296)).
    - eexists _, _. split; [done|]. rewrite !Z.shiftl_mul_pow2 by lia. change (2 ^ 32) with 4294967296.
      assert (H1 : n / 4294967296 / base * base <= n / 4294967296)
        by (rewrite Z.mul_comm; apply Z.mul_div_le; lia).
      assert (H2 : 0 <= n / 4294967296 / base) by (apply Z.div_pos; zmod).
      assert (H3 : 0 <= n / 4294967296 < 4294967296 /\ n / 4294967296 * 4294967296 <= n) by zmod.
      set (q := n / 4294967296 / base) in *. set (h := n / 4294967296) in *. clearbody q h.
      rewrite u32_small by nia. rewrite u64_small by nia. nia.
    - eexists _, _. split; [done|]. lia. }
  destruct Hred as (res & rem & -> & H1 & H2 & H3). cbv beta iota.
  destruct (div64_grow_spec base rem 64 0) as (j & Hg & Hj1 & Hj2 & Hj3); try lia.
  change (2 ^ 0) with 1 in Hg. rewrite Z.mul_1_r in Hg. rewrite Hg.
  pose proof (div64_shrink_spec base 65 j rem res ltac:(lia) ltac:(lia) Hj2 ltac:(lia) ltac:(lia) H3 ltac:(lia)) as Hs.
  destruct (div64_shrink _ _ _ _ _) as [res' rem']. destruct Hs as [Hs1 Hs2]. rewrite u32_small by lia.
  f_equal; [apply Z.div_unique with rem'|apply Z.mod_unique with res']; lia.
Qed.

Lemma do_div_spec n base :
  0 <= n < 18446744073709551616 -> 0 < base < 4294967296 -> do_div n base = (n / base, n mod base).
Proof.
  intros Hn Hb. unfold do_div. rewrite Z.shiftr_div_pow2 by lia. change (2 ^ 32) with 4294967296.
  destruct (Z.eqb_spec (n / 4294967296) 0); [|by apply div64_32_spec].
  rewrite u32_small by zmod. done.
Qed.

(** [do_div] computes quotient and remainder for every 64-bit dividend and
    every non-zero 32-bit divisor: the shifting loops end, and the wrap-around of
    their 64-bit operations never shows. *)
Theorem do_div_correct n base :
  0 <= n < 18446744073709551616 -> 0 < base < 4294967296 ->
  let '(q, r) := do_div n base in n = q * base + r /\ 0 <= r < base /\ lldiv n base = q.
Proof.
  intros Hn Hb. unfold lldiv. rewrite do_div_spec by done. simpl. pose proof (Z.mod_pos_bound n base ltac:(lia)). split_and!; try done; try lia.
  rewrite Z.mul_comm. apply Z.div_mod. lia.
Qed.

Lemma do_div_correct_witness :
  let '(q, r) := do_div 18446744073709551615 4294967295 in
  18446744073709551615 = q * 4294967295 + r /\ 0 <= r < 4294967295 /\ lldiv 18446744073709551615 4294967295 = q.
Proof. apply (do_div_correct 18446744073709551615 4294967295); lia. Defined.
