(* ===== verification/CString.v ===== *)
(** * The string library (lib_generic/string.c)

    Every function of the file over the flat memory of [Mem]; a pointer is an
    address, [NULL] is 0.  [size_t] counts are 32-bit and kept as [Z].  A scan
    is given [S (size m)] iterations: each one reads a new mapped address, so a
    terminated string always ends the loop before the fuel does. *)

From S2P Require Import Prelude.
From S2P Require Import Mem.

Definition NULL : Z := 0.

(** ** Copying *)

Fixpoint strcpy_loop (fuel : nat) (dest src : Z) : M unit :=
  match fuel with
  | O => out_of_fuel
  | S fuel' =>
      c ← load8 src;
      store8 dest c;;
      if c =? 0 then mret tt else strcpy_loop fuel' (dest + 1) (src + 1)
  end.

Definition strcpy (dest src : Z) : M Z :=
  fuel ← mem_fuel;
  strcpy_loop fuel dest src;;
  mret dest.

Fixpoint strncpy_loop (fuel : nat) (dest src count : Z) : M unit :=
  if count =? 0 then mret tt
  else match fuel with
       | O => out_of_fuel
       | S fuel' =>
           c ← load8 src;
           store8 dest c;;
           if c =? 0 then mret tt else strncpy_loop fuel' (dest + 1) (src + 1) (count - 1)
       end.

Definition strncpy (dest src count : Z) : M Z :=
  fuel ← mem_fuel;
  strncpy_loop fuel dest src count;;
  mret dest.

(** The walk of a string: the address of the terminating NUL. *)
Fixpoint strend (fuel : nat) (s : Z) : M Z :=
  match fuel with
  | O => out_of_fuel
  | S fuel' =>
      c ← load8 s;
      if c =? 0 then mret s else strend fuel' (s + 1)
  end.

Definition strcat (dest src : Z) : M Z :=
  fuel ← mem_fuel;
  e ← strend fuel dest;
  strcpy_loop fuel e src;;
  mret dest.

Fixpoint strncat_loop (fuel : nat) (dest src count : Z) : M unit :=
  match fuel with
  | O => out_of_fuel
  | S fuel' =>
      c ← load8 src;
      store8 dest c;;
      if c =? 0 then mret tt
      else if count - 1 =? 0 then store8 (dest + 1) 0
      else strncat_loop fuel' (dest + 1) (src + 1) (count - 1)
  end.

Definition strncat (dest src count : Z) : M Z :=
  if count =? 0 then mret dest
  else
    fuel ← mem_fuel;
    e ← strend fuel dest;
    strncat_loop fuel e src count;;
    mret dest.

(** ** Comparing; [__res] is a [signed char] *)

Fixpoint strcmp_loop (fuel : nat) (cs ct : Z) : M Z :=
  match fuel with
  | O => out_of_fuel
  | S fuel' =>
      a ← load_char cs;
      b ← load_char ct;
      let __res := s8 (a - b) in
      if negb (__res =? 0) || (a =? 0) then mret __res else strcmp_loop fuel' (cs + 1) (ct + 1)
  end.

Definition strcmp (cs ct : Z) : M Z :=
  fuel ← mem_fuel;
  strcmp_loop fuel cs ct.

Fixpoint strncmp_loop (fuel : nat) (cs ct count __res : Z) : M Z :=
  if count =? 0 then mret __res
  else match fuel with
       | O => out_of_fuel
       | S fuel' =>
           a ← load_char cs;
           b ← load_char ct;
           let __res := s8 (a - b) in
           if negb (__res =? 0) || (a =? 0) then mret __res
           else strncmp_loop fuel' (cs + 1) (ct + 1) (count - 1) __res
       end.

Definition strncmp (cs ct count : Z) : M Z :=
  fuel ← mem_fuel;
  strncmp_loop fuel cs ct count 0.

(** ** Searching *)

Fixpoint strchr_loop (fuel : nat) (s c : Z) : M Z :=
  match fuel with
  | O => out_of_fuel
  | S fuel' =>
      x ← load_char s;
      if x =? s8 c then mret s
      else if x =? 0 then mret NULL
      else strchr_loop fuel' (s + 1) c
  end.

Definition strchr (s c : Z) : M Z :=
  fuel ← mem_fuel;
  strchr_loop fuel s c.

Definition strlen (s : Z) : M Z :=
  fuel ← mem_fuel;
  sc ← strend fuel s;
  mret (sc - s).

(** [do ... while (--p >= s)] with [p = s + n]. *)
Fixpoint strrchr_loop (n : nat) (s c : Z) : M Z :=
  x ← load_char (s + Z.of_nat n);
  if x =? s8 c then mret (s + Z.of_nat n)
  else match n with
       | O => mret NULL
       | S n' => strrchr_loop n' s c
       end.

Definition strrchr (s c : Z) : M Z :=
  n ← strlen s;
  strrchr_loop (Z.to_nat n) s c.

Fixpoint strnlen_loop (fuel : nat) (sc count : Z) : M Z :=
  if count =? 0 then mret sc
  else match fuel with
       | O => out_of_fuel
       | S fuel' =>
           c ← load8 sc;
           if c =? 0 then mret sc else strnlen_loop fuel' (sc + 1) (count - 1)
       end.

Definition strnlen (s count : Z) : M Z :=
  fuel ← mem_fuel;
  sc ← strnlen_loop fuel s count;
  mret (sc - s).

(** The loop over [accept]/[ct] shared by strspn and strpbrk: is [c] in the
    string at [a]? *)
Fixpoint str_mem (fuel : nat) (c a : Z) : M bool :=
  match fuel with
  | O => out_of_fuel
  | S fuel' =>
      x ← load8 a;
      if x =? 0 then mret false
      else if c =? x then mret true
      else str_mem fuel' c (a + 1)
  end.

Fixpoint strspn_loop (fuel : nat) (p accept count : Z) : M Z :=
  match fuel with
  | O => out_of_fuel
  | S fuel' =>
      c ← load8 p;
      if c =? 0 then mret count
      else
        n ← mem_fuel;
        found ← str_mem n c accept;
        if negb found then mret count else strspn_loop fuel' (p + 1) accept (count + 1)
  end.

Definition strspn (s accept : Z) : M Z :=
  fuel ← mem_fuel;
  strspn_loop fuel s accept 0.

Fixpoint strpbrk_loop (fuel : nat) (sc1 ct : Z) : M Z :=
  match fuel with
  | O => out_of_fuel
  | S fuel' =>
      c ← load8 sc1;
      if c =? 0 then mret NULL
      else
        n ← mem_fuel;
        found ← str_mem n c ct;
        if (found : bool) then mret sc1 else strpbrk_loop fuel' (sc1 + 1) ct
  end.

Definition strpbrk (cs ct : Z) : M Z :=
  fuel ← mem_fuel;
  strpbrk_loop fuel cs ct.

(** ** Tokens *)

(** The static [___strtok] is an argument and a result. *)
Definition strtok (___strtok s ct : Z) : M (Z * Z) :=
  let sbegin := if s =? NULL then ___strtok else s in
  if sbegin =? NULL then mret (NULL, ___strtok)
  else
    n ← strspn sbegin ct;
    let sbegin := sbegin + n in
    c ← load8 sbegin;
    if c =? 0 then mret (NULL, NULL)
    else
      send ← strpbrk sbegin ct;
      if send =? NULL then mret (sbegin, send)
      else
        e ← load8 send;
        if e =? 0 then mret (sbegin, send)
        else store8 send 0;; mret (sbegin, send + 1).

(** Returns the token and the new value of [*s]. *)
Definition strsep (s ct : Z) : M (Z * Z) :=
  if s =? NULL then mret (NULL, s)
  else
    e ← strpbrk s ct;
    if e =? NULL then mret (s, NULL)
    else store8 e 0;; mret (s, e + 1).

Fixpoint strswab_loop (fuel : nat) (p : Z) : M unit :=
  match fuel with
  | O => out_of_fuel
  | S fuel' =>
      a ← load8 p;
      if a =? 0 then mret tt
      else
        b ← load8 (p + 1);
        if b =? 0 then mret tt
        else store8 p b;; store8 (p + 1) a;; strswab_loop fuel' (p + 2)
  end.

Definition strswab (s : Z) : M Z :=
  if s =? NULL then mret NULL
  else
    c ← load8 s;
    if c =? 0 then mret NULL
    else
      fuel ← mem_fuel;
      strswab_loop fuel s;;
      mret s.

(** ** Areas of memory: [n] is the byte count *)

Fixpoint fill8 (n : nat) (s8 c : Z) : M unit :=
  match n with
  | O => mret tt
  | S n' => store8 s8 c;; fill8 n' (s8 + 1) c
  end.

(** [n] is [count / 4]. *)
Fixpoint fill32 (n : nat) (sl cl : Z) : M Z :=
  match n with
  | O => mret sl
  | S n' => store32 sl cl;; fill32 n' (sl + 4) cl
  end.

Definition memset_word (c : Z) : Z :=
  let b := Z.land c 255 in
  let step cl := Z.lor (u32 (Z.shiftl cl 8)) b in
  step (step (step (step 0))).

Definition memset (s c count : Z) : M Z :=
  if Z.land s 3 =? 0 then
    sl ← fill32 (Z.to_nat (count / 4)) s (memset_word c);
    fill8 (Z.to_nat (count mod 4)) sl c;;
    mret s
  else
    fill8 (Z.to_nat count) s c;;
    mret s.

Fixpoint copy8 (n : nat) (d s : Z) : M unit :=
  match n with
  | O => mret tt
  | S n' => c ← load8 s; store8 d c;; copy8 n' (d + 1) (s + 1)
  end.

Fixpoint copy32 (n : nat) (d s : Z) : M unit :=
  match n with
  | O => mret tt
  | S n' => w ← load32 s; store32 d w;; copy32 n' (d + 4) (s + 4)
  end.

(** [*--tmp = *--s]: [d], [s] point past the byte to copy. *)
Fixpoint copy8_down (n : nat) (d s : Z) : M unit :=
  match n with
  | O => mret tt
  | S n' => c ← load8 (s - 1); store8 (d - 1) c;; copy8_down n' (d - 1) (s - 1)
  end.

Definition bcopy (src dest count : Z) : M Z :=
  copy8 (Z.to_nat count) dest src;;
  mret dest.

Definition memcpy (dest src count : Z) : M Z :=
  if Z.land (Z.lor dest src) 3 =? 0 then
    copy32 (Z.to_nat (count / 4)) dest src;;
    copy8 (Z.to_nat (count mod 4)) (dest + 4 * (count / 4)) (src + 4 * (count / 4));;
    mret dest
  else
    copy8 (Z.to_nat count) dest src;;
    mret dest.

Definition memmove (dest src count : Z) : M Z :=
  if dest <=? src then
    copy8 (Z.to_nat count) dest src;;
    mret dest
  else
    copy8_down (Z.to_nat count) (dest + count) (src + count);;
    mret dest.

Fixpoint memcmp_loop (n : nat) (su1 su2 : Z) : M Z :=
  match n with
  | O => mret 0
  | S n' =>
      a ← load8 su1;
      b ← load8 su2;
      if negb (a - b =? 0) then mret (a - b) else memcmp_loop n' (su1 + 1) (su2 + 1)
  end.

Definition memcmp (cs ct count : Z) : M Z := memcmp_loop (Z.to_nat count) cs ct.

(** The comparison [*p == c] is with the [int], not its low byte. *)
Fixpoint memscan_loop (n : nat) (p c : Z) : M Z :=
  match n with
  | O => mret p
  | S n' => x ← load8 p; if x =? c then mret p else memscan_loop n' (p + 1) c
  end.

Definition memscan (addr c sz : Z) : M Z := memscan_loop (Z.to_nat sz) addr c.

Fixpoint memchr_loop (n : nat) (p c : Z) : M Z :=
  match n with
  | O => mret NULL
  | S n' => x ← load8 p; if u8 c =? x then mret p else memchr_loop n' (p + 1) c
  end.

Definition memchr (s c n : Z) : M Z := memchr_loop (Z.to_nat n) s c.

(** [n] is [l1 - l2 + 1], the iterations left. *)
Fixpoint strstr_loop (n : nat) (s1 s2 l2 : Z) : M Z :=
  match n with
  | O => mret NULL
  | S n' =>
      d ← memcmp s1 s2 l2;
      if d =? 0 then mret s1 else strstr_loop n' (s1 + 1) s2 l2
  end.

Definition strstr (s1 s2 : Z) : M Z :=
  l2 ← strlen s2;
  if l2 =? 0 then mret s1
  else
    l1 ← strlen s1;
    strstr_loop (Z.to_nat (l1 - l2 + 1)) s1 s2 l2.

(** ** What the functions promise *)

(** What [strcmp] computes: the difference of the first [signed char]s that
    differ, cut to a [signed char]. *)
Fixpoint strcmp_spec (a b : list Z) : Z :=
  match a, b with
  | [], _ | _, [] => s8 (s8 (deref a) - s8 (deref b))
  | x :: a', y :: b' => if x =? y then strcmp_spec a' b' else s8 (s8 x - s8 y)
  end.

(** Lexicographic order on the bytes. *)
Fixpoint str_lt (a b : list Z) : Prop :=
  match a, b with
  | _, [] => False
  | [], _ :: _ => True
  | x :: a', y :: b' => x < y \/ x = y /\ str_lt a' b'
  end.

Definition ascii7 (s : list Z) : Prop := Forall (fun c => 0 < c < 128) s.

(** [b] occurs in [a] at offset [i]. *)
Definition occurs_at (a b : list Z) (i : nat) : Prop := exists l r, a = l ++ b ++ r /\ length l = i.

(** ** Stepping through a body *)

Ltac mstep H := rewrite (bind_ok _ _ _ _ _ H); cbv beta.
Ltac mfuel := rewrite (bind_ok _ _ _ _ _ (mem_fuel_ok _)); cbv beta.
Ltac mload H := rewrite (bind_ok _ _ _ _ _ (load8_ok _ _ _ H)); cbv beta.

Lemma cstr_nil m p : cstr m p [] <-> m !! p = Some 0.
Proof. unfold cstr. simpl. split; [tauto|]. intros. repeat split; try done. apply cstring_nil. Qed.

Lemma cstr_cons m p c s : cstr m p (c :: s) <-> m !! p = Some c /\ nonzero_byte c /\ cstr m (p + 1) s.
Proof.
  unfold cstr. simpl. rewrite cstring_cons. unfold nonzero_byte, byte. intuition lia.
Qed.

Lemma cstr_fuel m p s : cstr m p s -> (length s < S (size m))%nat.
Proof. intros [_ H]. apply size_bytes in H. rewrite length_app in H. simpl in H. lia. Qed.

Lemma cstr_app m p s1 s2 : cstr m p (s1 ++ s2) -> cstring s1 /\ bytes_at m p s1 /\ cstr m (p + Z.of_nat (length s1)) s2.
Proof.
  unfold cstr. rewrite cstring_app, <- app_assoc, bytes_at_app. tauto.
Qed.

Lemma cstr_insert m p s a b : a < p \/ p + Z.of_nat (length s) < a -> cstr m p s -> cstr (<[a := b]> m) p s.
Proof. intros ? [? ?]. split; [done|]. apply bytes_at_insert; [|done]. rewrite length_app. simpl. lia. Qed.

Lemma strend_ok m fuel p s :
  cstr m p s -> (length s < fuel)%nat -> strend fuel p m = Ok (p + Z.of_nat (length s), m).
Proof.
  revert p s. induction fuel as [|fuel IH]; intros p s Hs Hf; [lia|]. cbn [strend].
  destruct s as [|c s].
  - apply cstr_nil in Hs. mload Hs. simpl. by rewrite Z.add_0_r.
  - apply cstr_cons in Hs as (Hp & Hc & Hs). mload Hp. unfold nonzero_byte in Hc.
    destruct (Z.eqb_spec c 0); [lia|]. rewrite (IH _ s) by (done || simpl in *; lia). simpl length. do 2 f_equal. lia.
Qed.

Lemma strlen_ok m p s : cstr m p s -> strlen p m = Ok (Z.of_nat (length s), m).
Proof.
  intros Hs. unfold strlen. mfuel. mstep (strend_ok _ _ _ _ Hs (cstr_fuel _ _ _ Hs)).
  unfold mret, ST_ret. do 2 f_equal. lia.
Qed.

(** One assignment [*d = *s] of a copy that runs upwards leaves the bytes of
    the source still to be read. *)
Lemma bytes_at_step m d s c l :
  d <= s \/ s + Z.of_nat (length (c :: l)) <= d -> bytes_at m s (c :: l) -> bytes_at (<[d := c]> m) (s + 1) l.
Proof. intros Hd [_ H]. apply bytes_at_insert; [simpl in Hd; lia|done]. Qed.

Lemma copy8_ok l : forall m d s,
  bytes_at m s l -> mapped m d (Z.of_nat (length l)) ->
  d <= s \/ s + Z.of_nat (length l) <= d ->
  copy8 (length l) d s m = Ok (tt, write_bytes m d l).
Proof.
  induction l as [|c l IH]; intros m d s Hb Hm Hd; [done|]. simpl length. cbn [copy8].
  pose proof (bytes_at_step _ _ _ _ _ Hd Hb) as Hb'. destruct Hb as [[Hs Hc] Hb].
  simpl length in *. mload Hs. mstep (store8_ok _ _ _ _ Hm ltac:(lia) Hc). simpl write_bytes.
  apply IH; [done| |lia]. apply mapped_insert. eapply mapped_sub; [exact Hm|lia|lia].
Qed.

Lemma copy8_down_ok m d s n : forall l,
  n = length l -> bytes_at m (s - Z.of_nat n) l -> mapped m (d - Z.of_nat n) (Z.of_nat n) ->
  s <= d \/ d <= s - Z.of_nat n ->
  copy8_down n d s m = Ok (tt, write_bytes m (d - Z.of_nat n) l).
Proof.
  revert m d s. induction n as [|n IH]; intros m d s l Hn Hb Hm Hd.
  { destruct l; [|done]. done. }
  destruct (exists_last (l := l)) as (l' & c & ->); [by destruct l|].
  rewrite length_app in Hn. simpl in Hn. cbn [copy8_down].
  apply bytes_at_app in Hb as [Hb [[Hc Hcb] _]].
  replace (s - Z.of_nat (S n) + Z.of_nat (length l')) with (s - 1) in Hc by lia. mload Hc.
  assert (Hm1 : mapped m (d - 1) 1) by (eapply mapped_sub; [exact Hm|lia|lia]).
  mstep (store8_ok _ _ _ _ Hm1 ltac:(lia) Hcb).
  rewrite write_bytes_app. simpl. rewrite <- write_bytes_insert by lia.
  replace (d - Z.of_nat (S n) + Z.of_nat (length l')) with (d - 1) by lia.
  replace (d - Z.of_nat (S n)) with (d - 1 - Z.of_nat n) in * by lia.
  apply IH; [lia| | |lia].
  - apply bytes_at_insert; [lia|]. by replace (s - 1 - Z.of_nat n) with (s - Z.of_nat (S n)) by lia.
  - apply mapped_insert. eapply mapped_sub; [exact Hm|lia|lia].
Qed.

Lemma copy32_ok n : forall l m d s,
  length l = (4 * n)%nat -> bytes_at m s l -> mapped m d (4 * Z.of_nat n) ->
  d + 4 <= s \/ d = s \/ s + 4 * Z.of_nat n <= d ->
  copy32 n d s m = Ok (tt, write_bytes m d l).
Proof.
  induction n as [|n IH]; intros l m d s Hl Hb Hm Hd.
  { by destruct l. }
  destruct l as [|b0 [|b1 [|b2 [|b3 l]]]]; simpl in Hl; try lia. cbn [copy32].
  change (b0 :: b1 :: b2 :: b3 :: l) with ([b0; b1; b2; b3] ++ l) in *.
  apply bytes_at_app in Hb as [H4 Hb]. pose proof (bytes_at_bytes _ _ _ H4) as Hbyte.
  mstep (load32_ok _ _ _ _ _ _ H4). rewrite !Forall_cons in Hbyte. destruct Hbyte as (B0 & B1 & B2 & B3 & _).
  mstep (store32_ok _ _ _ _ _ _ _ Hm ltac:(lia) B0 B1 B2 B3). rewrite write_bytes_app.
  change (Z.of_nat (length [b0; b1; b2; b3])) with 4 in *.
  apply IH; [lia| | |lia].
  - apply bytes_at_write; [|done]. change (Z.of_nat (length [b0; b1; b2; b3])) with 4. lia.
  - apply mapped_write. eapply mapped_sub; [exact Hm|lia|lia].
Qed.

(** ** Properties *)

Lemma memmove_ok m dest src l :
  bytes_at m src l -> mapped m dest (Z.of_nat (length l)) ->
  memmove dest src (Z.of_nat (length l)) m = Ok (dest, write_bytes m dest l).
Proof.
  intros Hb Hm. unfold memmove. rewrite Nat2Z.id. destruct (Z.leb_spec dest src).
  - by mstep (copy8_ok l m dest src Hb Hm ltac:(lia)).
  - set (n := Z.of_nat (length l)) in *.
    assert (H' := copy8_down_ok m (dest + n) (src + n) (length l) l eq_refl).
    fold n in H'. replace (dest + n - n) with dest in H' by lia. replace (src + n - n) with src in H' by lia.
    by mstep (H' Hb Hm ltac:(lia)).
Qed.

(** [memmove] copies the area whatever the overlap of source and destination,
    and changes nothing else. *)
Theorem memmove_correct m dest src l :
  bytes_at m src l -> mapped m dest (Z.of_nat (length l)) ->
  memmove dest src (Z.of_nat (length l)) m = Ok (dest, write_bytes m dest l).
Proof. apply memmove_ok. Qed.

Lemma land3 x : Z.land x 3 = x mod 4.
Proof. change 3 with (Z.ones 2). by rewrite Z.land_ones by lia. Qed.

Lemma aligned_lor a b : Z.land (Z.lor a b) 3 = 0 -> a mod 4 = 0 /\ b mod 4 = 0.
Proof. rewrite Z.land_lor_distr_l, !land3. apply Z.lor_eq_0_iff. Qed.

(** [memcpy] copies the area, word by word when both pointers are aligned, for
    disjoint areas and for every destination below the source. *)
Theorem memcpy_correct m dest src l :
  bytes_at m src l -> mapped m dest (Z.of_nat (length l)) ->
  dest <= src \/ src + Z.of_nat (length l) <= dest ->
  memcpy dest src (Z.of_nat (length l)) m = Ok (dest, write_bytes m dest l).
Proof.
  intros Hb Hm Hd. unfold memcpy. set (n := Z.of_nat (length l)) in *.
  destruct (Z.eqb_spec (Z.land (Z.lor dest src) 3) 0) as [Hal|_].
  2: { unfold n. rewrite Nat2Z.id. by mstep (copy8_ok l m dest src Hb Hm Hd). }
  apply aligned_lor in Hal as [Ha1 Ha2].
  assert (Hq : 0 <= n / 4 /\ n = 4 * (n / 4) + n mod 4 /\ 0 <= n mod 4 < 4) by zmod.
  set (q := n / 4) in *. set (r := n mod 4) in *. clearbody q r.
  rewrite <- (take_drop (Z.to_nat (4 * q)) l) in Hb |- *.
  set (l1 := take _ l) in *. set (l2 := drop _ l) in *.
  assert (Hl1 : length l1 = (4 * Z.to_nat q)%nat) by (unfold l1; rewrite length_take; lia).
  assert (Hl2 : length l2 = Z.to_nat r) by (unfold l2; rewrite length_drop; lia).
  apply bytes_at_app in Hb as [Hb1 Hb2]. rewrite Hl1 in Hb2.
  replace (Z.of_nat (4 * Z.to_nat q)) with (4 * q) in Hb2 by lia.
  assert (Hm1 : mapped m dest (4 * Z.of_nat (Z.to_nat q))) by (eapply mapped_sub; [exact Hm|lia|lia]).
  assert (Hd1 : dest + 4 <= src \/ dest = src \/ src + 4 * Z.of_nat (Z.to_nat q) <= dest) by zmod.
  mstep (copy32_ok _ l1 m dest src Hl1 Hb1 Hm1 Hd1).
  rewrite <- Hl2, write_bytes_app, Hl1. replace (Z.of_nat (4 * Z.to_nat q)) with (4 * q) by lia.
  erewrite bind_ok; [done|]. apply copy8_ok; [|apply mapped_write; eapply mapped_sub; [exact Hm|lia|lia]|lia].
  apply bytes_at_write; [lia|done].
Qed.

(** ** memset *)

Lemma memset_word_byte b : byte b -> memset_word b = b + 256 * b + 65536 * b + 16777216 * b.
Proof.
  intros Hb. assert (H : forallb (fun b => memset_word b =? b + 256 * b + 65536 * b + 16777216 * b) (seqZ 0 256) = true)
    by (vm_compute; reflexivity).
  rewrite forallb_forall in H. specialize (H b).
  apply Z.eqb_eq, H, list_elem_of_In, elem_of_seqZ. unfold byte in Hb. lia.
Qed.

Lemma land255 c : Z.land c 255 = u8 c.
Proof. change 255 with (Z.ones 8). by rewrite Z.land_ones by lia. Qed.

Lemma memset_word_u8 c : memset_word c = u8 c + 256 * u8 c + 65536 * u8 c + 16777216 * u8 c.
Proof.
  rewrite <- (memset_word_byte (u8 c)) by apply u8_range. unfold memset_word. rewrite !land255.
  by rewrite (u8_small (u8 c)) by apply u8_range.
Qed.

Lemma fill8_ok n c : forall m s,
  mapped m s (Z.of_nat n) -> fill8 n s c m = Ok (tt, write_bytes m s (replicate n (u8 c))).
Proof.
  induction n as [|n IH]; intros m s Hm; [done|]. cbn [fill8]. mstep (store8_raw m s c _ Hm ltac:(lia)).
  apply IH, mapped_insert. eapply mapped_sub; [exact Hm|lia|lia].
Qed.

Lemma fill32_ok n c : forall m s,
  mapped m s (4 * Z.of_nat n) ->
  fill32 n s (memset_word c) m = Ok (s + 4 * Z.of_nat n, write_bytes m s (replicate (4 * n) (u8 c))).
Proof.
  induction n as [|n IH]; intros m s Hm; [by rewrite Z.add_0_r|]. cbn [fill32].
  pose proof (u8_range c) as Hc. pose proof (memset_word_u8 c) as Hw.
  set (w := memset_word c) in *. clearbody w. subst w.
  mstep (store32_ok m s (u8 c) (u8 c) (u8 c) (u8 c) _ Hm ltac:(lia) Hc Hc Hc Hc).
  rewrite IH by (apply mapped_write; eapply mapped_sub; [exact Hm|lia|lia]).
  replace (4 * S n)%nat with (4 + 4 * n)%nat by lia. rewrite replicate_add, write_bytes_app.
  do 2 f_equal. lia.
Qed.

(** [memset] fills the area with the low byte of [c], whether it goes word by
    word or byte by byte, and changes nothing else. *)
Theorem memset_correct m s c n :
  mapped m s (Z.of_nat n) ->
  memset s c (Z.of_nat n) m = Ok (s, write_bytes m s (replicate n (u8 c))).
Proof.
  intros Hm. unfold memset. destruct (Z.land s 3 =? 0).
  2: { rewrite Nat2Z.id. by mstep (fill8_ok n c m s Hm). }
  assert (Hq : 0 <= Z.of_nat n / 4 /\ Z.of_nat n = 4 * (Z.of_nat n / 4) + Z.of_nat n mod 4 /\ 0 <= Z.of_nat n mod 4 < 4) by zmod.
  set (q := Z.of_nat n / 4) in *. set (r := Z.of_nat n mod 4) in *. clearbody q r.
  assert (Hm1 : mapped m s (4 * Z.of_nat (Z.to_nat q))) by (eapply mapped_sub; [exact Hm|lia|lia]).
  mstep (fill32_ok (Z.to_nat q) c m s Hm1).
  erewrite bind_ok by (apply fill8_ok, mapped_write; eapply mapped_sub; [exact Hm|lia|lia]).
  replace n with (4 * Z.to_nat q + Z.to_nat r)%nat by lia.
  rewrite replicate_add, write_bytes_app, length_replicate. unfold mret, ST_ret.
  do 3 f_equal. lia.
Qed.

(** ** Copying strings *)

Lemma strcpy_loop_ok m s : forall fuel dest src,
  cstr m src s -> (length s < fuel)%nat -> mapped m dest (Z.of_nat (length s) + 1) ->
  dest <= src \/ src + Z.of_nat (length s) < dest ->
  strcpy_loop fuel dest src m = Ok (tt, write_bytes m dest (s ++ [0])).
Proof.
  revert m. induction s as [|c s IH]; intros m [|fuel] dest src Hs Hf Hm Hd; simpl in Hf; try lia; cbn [strcpy_loop].
  - apply cstr_nil in Hs. mload Hs. by mstep (store8_ok m dest 0 _ Hm ltac:(simpl; lia) ltac:(done)).
  - simpl length in *. apply cstr_cons in Hs as (Hp & Hc & Hs). mload Hp. unfold nonzero_byte in Hc.
    mstep (store8_ok m dest c _ Hm ltac:(lia) ltac:(unfold byte; lia)).
    destruct (Z.eqb_spec c 0); [lia|]. simpl. apply IH; [|lia| |lia].
    + apply cstr_insert; [lia|done].
    + apply mapped_insert. eapply mapped_sub; [exact Hm|lia|lia].
Qed.

Lemma strncat_loop_ok m s : forall fuel dest src n,
  cstr m src s -> (length s < fuel)%nat -> mapped m dest (Z.of_nat (length (take (S n) s)) + 1) ->
  dest + Z.of_nat (length (take (S n) s)) < src \/ src + Z.of_nat (length s) < dest ->
  strncat_loop fuel dest src (Z.of_nat (S n)) m = Ok (tt, write_bytes m dest (take (S n) s ++ [0])).
Proof.
  revert m. induction s as [|c s IH]; intros m [|fuel] dest src n Hs Hf Hm Hd; simpl in Hf; try lia; cbn [strncat_loop].
  - apply cstr_nil in Hs. mload Hs. by mstep (store8_ok m dest 0 _ Hm ltac:(simpl; lia) ltac:(done)).
  - apply cstr_cons in Hs as (Hp & Hc & Hs). mload Hp. unfold nonzero_byte in Hc.
    cbn [take] in *. simpl length in *.
    mstep (store8_ok m dest c _ Hm ltac:(lia) ltac:(unfold byte; lia)).
    destruct (Z.eqb_spec c 0); [lia|]. destruct n as [|n].
    + simpl take. change (Z.of_nat 1 - 1 =? 0) with true. cbv iota.
      eapply (store8_ok _ (dest + 1) 0 1); [|lia|done]. apply mapped_insert. eapply mapped_sub; [exact Hm|lia|].
      simpl. lia.
    + destruct (Z.eqb_spec (Z.of_nat (S (S n)) - 1) 0); [lia|].
      replace (Z.of_nat (S (S n)) - 1) with (Z.of_nat (S n)) by lia. apply IH; [|lia| |].
      * apply cstr_insert; [|done]. lia.
      * apply mapped_insert. eapply mapped_sub; [exact Hm|lia|lia].
      * lia.
Qed.

(** [strncat] appends at most [count] characters of the source and terminates
    the result, when the source lies outside the bytes it writes. *)
Theorem strncat_correct m dest src a s n :
  cstr m dest a -> cstr m src s -> (0 < n)%nat ->
  mapped m (dest + Z.of_nat (length a)) (Z.of_nat (length (take n s)) + 1) ->
  dest + Z.of_nat (length a) + Z.of_nat (length (take n s)) < src \/
  src + Z.of_nat (length s) < dest + Z.of_nat (length a) ->
  exists m', strncat dest src (Z.of_nat n) m = Ok (dest, m') /\ cstr m' dest (a ++ take n s) /\
    (forall p, p < dest + Z.of_nat (length a) \/ dest + Z.of_nat (length a) + Z.of_nat (length (take n s)) < p ->
       m' !! p = m !! p).
Proof.
  intros Ha Hs Hn Hm Hd. destruct n as [|n]; [lia|]. unfold strncat.
  destruct (Z.eqb_spec (Z.of_nat (S n)) 0); [lia|]. mfuel.
  mstep (strend_ok _ _ _ _ Ha (cstr_fuel _ _ _ Ha)).
  erewrite bind_ok by (by eapply strncat_loop_ok; [exact Hs|exact (cstr_fuel _ _ _ Hs)|..]).
  eexists. split; [done|]. split.
  - destruct Ha as [Hca Ha], Hs as [Hcs _]. apply bytes_at_app in Ha as [Ha _].
    assert (Hct : cstring (take (S n) s)) by (by apply Forall_take).
    split; [by apply cstring_app|]. rewrite <- app_assoc. apply bytes_at_app. split.
    + apply bytes_at_write; [lia|done].
    + apply write_bytes_at, Forall_app. split; [|by repeat constructor].
      eapply Forall_impl; [exact Hct|]. unfold nonzero_byte, byte. lia.
  - intros p Hp. apply write_bytes_lookup_out. rewrite length_app. simpl length. lia.
Qed.

(** ** Comparing *)

Lemma s8_range x : -128 <= s8 x < 128.
Proof. unfold s8, u8. cbv zeta. btest; zmod. Qed.

Lemma s8_inj x y : byte x -> byte y -> s8 (s8 x - s8 y) = 0 -> x = y.
Proof. unfold byte, s8, u8. cbv zeta. btest; zmod. Qed.

Lemma s8_self x : s8 (x - x) = 0.
Proof. by rewrite Z.sub_diag. Qed.

Lemma s8_zero x : byte x -> s8 x = 0 -> x = 0.
Proof. unfold byte, s8, u8. cbv zeta. btest; zmod. Qed.

Lemma load_char_ok m p b : m !! p = Some b -> load_char p m = Ok (s8 b, m).
Proof. intros H. unfold load_char. by mload H. Qed.

Lemma cstr_head m p s : cstr m p s -> m !! p = Some (deref s) /\ byte (deref s) /\
  (deref s = 0 -> s = []) /\ (forall c s', s = c :: s' -> cstr m (p + 1) s').
Proof.
  destruct s as [|c s]; intros Hs.
  - apply cstr_nil in Hs. by split_and!.
  - apply cstr_cons in Hs as (Hp & Hc & Hs). unfold nonzero_byte, byte in *. simpl. split_and!; try done; try lia.
    by intros ? ? [= <- <-].
Qed.

Lemma strcmp_loop_ok m : forall fuel a b cs ct,
  cstr m cs a -> cstr m ct b -> (length a < fuel)%nat ->
  strcmp_loop fuel cs ct m = Ok (strcmp_spec a b, m).
Proof.
  induction fuel as [|fuel IH]; intros a b cs ct Ha Hb Hf; [lia|]. cbn [strcmp_loop].
  pose proof (cstr_head _ _ _ Ha) as (Ha1 & Ha2 & Ha3 & Ha4). pose proof (cstr_head _ _ _ Hb) as (Hb1 & Hb2 & Hb3 & Hb4).
  mstep (load_char_ok _ _ _ Ha1). mstep (load_char_ok _ _ _ Hb1). cbv zeta.
  destruct a as [|x a]; [|destruct b as [|y b]]; cbn [deref] in *.
  - rewrite orb_true_r. done.
  - destruct (Z.eqb_spec (s8 (s8 x - s8 0)) 0) as [E|E]; [|done].
    apply s8_inj in E; [|done|done]. subst. by specialize (Ha3 eq_refl).
  - simpl. destruct (Z.eqb_spec x y) as [->|E].
    + rewrite s8_self. simpl. destruct (Z.eqb_spec (s8 y) 0) as [E|E].
      { apply s8_zero in E; [|done]. by specialize (Ha3 E). }
      apply IH; [by eapply Ha4|by eapply Hb4|simpl in Hf; lia].
    + destruct (Z.eqb_spec (s8 (s8 x - s8 y)) 0) as [E'|E']; [|done]. by apply s8_inj in E'.
Qed.

Lemma strcmp_spec_range a b : -128 <= strcmp_spec a b < 128.
Proof.
  revert b. induction a as [|x a IH]; intros [|y b]; simpl; try apply s8_range.
  destruct (x =? y); [apply IH|apply s8_range].
Qed.

Lemma strcmp_spec_zero a b : cstring a -> cstring b -> strcmp_spec a b = 0 <-> a = b.
Proof.
  revert b. induction a as [|x a IH]; intros [|y b] Ha Hb; simpl; try done.
  - split; [|done]. apply cstring_cons in Hb as [Hy _]. unfold nonzero_byte in Hy.
    intros E. apply s8_inj in E; unfold byte; lia.
  - split; [|done]. apply cstring_cons in Ha as [Hy _]. unfold nonzero_byte in Hy.
    intros E. apply s8_inj in E; unfold byte; lia.
  - apply cstring_cons in Ha as [Hx Ha]. apply cstring_cons in Hb as [Hy Hb]. unfold nonzero_byte in *.
    destruct (Z.eqb_spec x y) as [->|E].
    + rewrite IH by done. split; [by intros ->|by intros [= ->]].
    + split; [|by intros [=]]. intros E'. apply s8_inj in E'; [done|unfold byte; lia..].
Qed.

Lemma s8_diff7 x y : 0 <= x < 128 -> 0 <= y < 128 -> s8 (s8 x - s8 y) = x - y.
Proof. unfold s8, u8. cbv zeta. btest; zmod. Qed.

Lemma strcmp_spec_sign a b : ascii7 a -> ascii7 b -> strcmp_spec a b < 0 <-> str_lt a b.
Proof.
  revert b. induction a as [|x a IH]; intros [|y b] Ha Hb; simpl; try done.
  - apply Forall_cons in Hb as [Hy _]. rewrite s8_diff7 by lia. split; [done|lia].
  - apply Forall_cons in Ha as [Hx _]. rewrite s8_diff7 by lia. split; [lia|done].
  - apply Forall_cons in Ha as [Hx Ha]. apply Forall_cons in Hb as [Hy Hb].
    destruct (Z.eqb_spec x y) as [->|E]; [rewrite IH by done; split; [by right|by intros [?|[_ ?]]; [lia|]]|].
    rewrite s8_diff7 by lia. split; [lia|]. intros [?|[? _]]; lia.
Qed.

(** [strcmp] always ends, is 0 exactly for equal strings, and on 7-bit strings
    its sign is the lexicographic order. *)
Theorem strcmp_correct m cs ct a b :
  cstr m cs a -> cstr m ct b ->
  exists r, strcmp cs ct m = Ok (r, m) /\ -128 <= r < 128 /\ (r = 0 <-> a = b) /\
    (ascii7 a -> ascii7 b -> (r < 0 <-> str_lt a b)).
Proof.
  intros Ha Hb. exists (strcmp_spec a b). split_and!.
  - unfold strcmp. mfuel. by apply strcmp_loop_ok, (cstr_fuel _ _ _ Ha).
  - apply strcmp_spec_range.
  - apply strcmp_spec_range.
  - apply strcmp_spec_zero; [apply Ha|apply Hb].
  - apply strcmp_spec_sign.
Qed.

(** Off the 7-bit characters the sign is not an order: both of these strings
    compare below the other. *)
Theorem strcmp_not_antisymmetric m p q :
  cstr m p [1] -> cstr m q [129] ->
  strcmp p q m = Ok (-128, m) /\ strcmp q p m = Ok (-128, m).
Proof.
  intros Hp Hq. unfold strcmp. split; mfuel.
  - by rewrite (strcmp_loop_ok _ _ _ _ _ _ Hp Hq (cstr_fuel _ _ _ Hp)).
  - by rewrite (strcmp_loop_ok _ _ _ _ _ _ Hq Hp (cstr_fuel _ _ _ Hq)).
Qed.

(** ** Searching *)

Lemma memcmp_loop_ok m : forall x y p q,
  length x = length y -> bytes_at m p x -> bytes_at m q y ->
  exists r, memcmp_loop (length x) p q m = Ok (r, m) /\ (r = 0 <-> x = y).
Proof.
  induction x as [|a x IH]; intros [|b y] p q Hl Hp Hq; simpl in Hl; try done.
  { by exists 0. }
  destruct Hp as [[Ha _] Hp], Hq as [[Hb _] Hq]. simpl length. cbn [memcmp_loop]. mload Ha. mload Hb.
  destruct (Z.eqb_spec (a - b) 0) as [E|E]; simpl.
  - destruct (IH y (p + 1) (q + 1)) as (r & -> & Hr); try done; [lia|]. exists r. split; [done|].
    rewrite Hr. replace b with a by lia. split; [by intros ->|by intros [= ->]].
  - exists (a - b). split; [done|]. split; [lia|]. intros [= -> _]. lia.
Qed.

Lemma strstr_loop_ok m q b : bytes_at m q b -> forall n a p,
  bytes_at m p a -> (length a + 1 = n + length b)%nat ->
  (exists i, strstr_loop n p q (Z.of_nat (length b)) m = Ok (p + Z.of_nat i, m) /\
     occurs_at a b i /\ forall j, (j < i)%nat -> ~ occurs_at a b j) \/
  strstr_loop n p q (Z.of_nat (length b)) m = Ok (NULL, m) /\ forall j, ~ occurs_at a b j.
Proof.
  intros Hb. induction n as [|n IH]; intros a p Ha Hn.
  { right. split; [done|]. intros j (l & r & -> & _). rewrite !length_app in Hn. lia. }
  cbn [strstr_loop]. unfold memcmp. rewrite Nat2Z.id.
  pose proof (take_drop (length b) a) as Htd.
  assert (Ht : length (take (length b) a) = length b) by (rewrite length_take; lia).
  pose proof Ha as Ha'. rewrite <- Htd in Ha'. apply bytes_at_app in Ha' as [Ht' _].
  destruct (memcmp_loop_ok m _ _ _ _ Ht Ht' Hb) as (r & Hr & Heq). rewrite Ht in Hr. mstep Hr.
  destruct (Z.eqb_spec r 0) as [->|Hr0].
  - left. exists 0%nat. rewrite Z.add_0_r. split; [done|]. split; [|lia].
    exists [], (drop (length b) a). split; [|done]. simpl. rewrite <- (proj1 Heq eq_refl) at 1. done.
  - assert (H0 : ~ occurs_at a b 0).
    { intros (l & r' & E & Hl). destruct l; [|done]. apply Hr0, Heq. rewrite E. simpl. by rewrite take_app_length. }
    destruct a as [|c a].
    { destruct b; simpl in *; [|lia]. by destruct H0; exists [], []. }
    destruct Ha as [_ Ha]. destruct (IH a (p + 1) Ha) as [(i & E & Hi & Hj)|[E Hj]]; [simpl in Hn; lia| |].
    + left. exists (S i). split; [rewrite E; do 2 f_equal; lia|]. split.
      * destruct Hi as (l & r' & -> & Hl). exists (c :: l), r'. simpl. by rewrite Hl.
      * intros [|j] Hj' Ho; [done|]. apply (Hj j); [lia|]. destruct Ho as (l & r' & El & Hl).
        destruct l as [|c' l]; [done|]. injection El as <- ->. exists l, r'. by injection Hl.
    + right. split; [done|]. intros [|j] Ho; [done|]. apply (Hj j). destruct Ho as (l & r' & El & Hl).
      destruct l as [|c' l]; [done|]. injection El as <- ->. exists l, r'. by injection Hl.
Qed.

(** [strstr] gives the first occurrence of the second string in the first, or
    [NULL] when there is none. *)
Theorem strstr_correct m s1 s2 a b :
  cstr m s1 a -> cstr m s2 b ->
  (exists i, strstr s1 s2 m = Ok (s1 + Z.of_nat i, m) /\
     occurs_at a b i /\ forall j, (j < i)%nat -> ~ occurs_at a b j) \/
  strstr s1 s2 m = Ok (NULL, m) /\ forall j, ~ occurs_at a b j.
Proof.
  intros Ha Hb. unfold strstr. mstep (strlen_ok _ _ _ Hb).
  destruct (Z.eqb_spec (Z.of_nat (length b)) 0) as [E|E].
  - left. exists 0%nat. rewrite Z.add_0_r. split; [done|]. split; [|lia]. destruct b; [|done]. by exists [], a.
  - mstep (strlen_ok _ _ _ Ha). destruct Ha as [_ Ha], Hb as [_ Hb].
    apply bytes_at_app in Ha as [Ha _]. apply bytes_at_app in Hb as [Hb _].
    destruct (decide (length b <= length a)%nat).
    + apply strstr_loop_ok; try done. lia.
    + right. replace (Z.to_nat _) with 0%nat by lia. split; [done|]. intros j (l & r & -> & _).
      rewrite !length_app in *. lia.
Qed.

(** ** Tokens *)

Lemma str_mem_ok m c : forall fuel l a,
  cstr m a l -> (length l < fuel)%nat -> str_mem fuel c a m = Ok (bool_decide (c ∈ l), m).
Proof.
  induction fuel as [|fuel IH]; intros l a Hl Hf; [lia|]. cbn [str_mem].
  destruct l as [|x l].
  - apply cstr_nil in Hl. mload Hl. rewrite bool_decide_eq_false_2; [done|]. apply not_elem_of_nil.
  - apply cstr_cons in Hl as (Hx & Hnz & Hl). mload Hx. unfold nonzero_byte in Hnz.
    destruct (Z.eqb_spec x 0); [lia|]. destruct (Z.eqb_spec c x) as [->|E].
    + rewrite bool_decide_eq_true_2; [done|]. by left.
    + rewrite (IH l) by (done || simpl in Hf; lia). do 2 f_equal. apply bool_decide_ext.
      rewrite elem_of_cons. tauto.
Qed.

Lemma strspn_loop_ok m ct d : cstr m ct d -> forall fuel l p n,
  cstr m p l -> (length l < fuel)%nat ->
  exists x y, l = x ++ y /\ Forall (.∈ d) x /\ (y = [] \/ deref y ∉ d) /\
    strspn_loop fuel p ct n m = Ok (n + Z.of_nat (length x), m).
Proof.
  intros Hd. induction fuel as [|fuel IH]; intros l p n Hl Hf; [lia|]. cbn [strspn_loop].
  destruct l as [|c l].
  { apply cstr_nil in Hl. mload Hl. exists [], []. split_and!; try done; [by left|]. by rewrite Z.add_0_r. }
  apply cstr_cons in Hl as (Hc & Hnz & Hl). mload Hc. unfold nonzero_byte in Hnz.
  destruct (Z.eqb_spec c 0); [lia|]. mfuel. mstep (str_mem_ok m c _ _ _ Hd (cstr_fuel _ _ _ Hd)).
  case_bool_decide as Hin; simpl.
  - destruct (IH l (p + 1) (n + 1) Hl) as (x & y & -> & Hx & Hy & E); [simpl in Hf; lia|].
    exists (c :: x), y. split_and!; try done; [by constructor|]. rewrite E. simpl length. do 2 f_equal. lia.
  - exists [], (c :: l). split_and!; try done; [by right|]. by rewrite Z.add_0_r.
Qed.

Lemma strpbrk_loop_ok m ct d : cstr m ct d -> forall fuel l p,
  cstr m p l -> (length l < fuel)%nat ->
  Forall (.∉ d) l /\ strpbrk_loop fuel p ct m = Ok (NULL, m) \/
  exists x c y, l = x ++ c :: y /\ Forall (.∉ d) x /\ c ∈ d /\
    strpbrk_loop fuel p ct m = Ok (p + Z.of_nat (length x), m).
Proof.
  intros Hd. induction fuel as [|fuel IH]; intros l p Hl Hf; [lia|]. cbn [strpbrk_loop].
  destruct l as [|c l].
  { apply cstr_nil in Hl. mload Hl. left. by split. }
  apply cstr_cons in Hl as (Hc & Hnz & Hl). mload Hc. unfold nonzero_byte in Hnz.
  destruct (Z.eqb_spec c 0); [lia|]. mfuel. mstep (str_mem_ok m c _ _ _ Hd (cstr_fuel _ _ _ Hd)).
  case_bool_decide as Hin.
  - right. exists [], c, l. split_and!; try done. by rewrite Z.add_0_r.
  - destruct (IH l (p + 1) Hl) as [[Hx E]|(x & c' & y & -> & Hx & Hy & E)]; [simpl in Hf; lia| |].
    + left. split; [by constructor|done].
    + right. exists (c :: x), c', y. split_and!; try done; [by constructor|]. rewrite E. simpl length. do 2 f_equal. lia.
Qed.

Lemma cstr_cut m p x c y :
  cstr m p (x ++ c :: y) ->
  let m' := <[p + Z.of_nat (length x) := 0]> m in
  cstr m' p x /\ cstr m' (p + Z.of_nat (length x) + 1) y /\ store8 (p + Z.of_nat (length x)) 0 m = Ok (tt, m').
Proof.
  intros H m'. apply cstr_app in H as (Hx & Hbx & H). apply cstr_cons in H as (Hc & _ & Hy). split_and!.
  - split; [done|]. apply bytes_at_app. split; [apply bytes_at_insert; [lia|done]|]. simpl.
    unfold m'. by rewrite lookup_insert_eq.
  - apply cstr_insert; [lia|done].
  - unfold store8. by rewrite Hc.
Qed.

(** [strsep] cuts the string at its first delimiter: the token before it and
    the rest after it are the two strings left in memory; without a delimiter
    the whole string is the token and nothing is written. *)
Theorem strsep_correct m s ct l d :
  cstr m s l -> cstr m ct d -> 0 < s ->
  (Forall (.∉ d) l /\ strsep s ct m = Ok ((s, NULL), m)) \/
  exists tok c rest m', l = tok ++ c :: rest /\ Forall (.∉ d) tok /\ c ∈ d /\
    strsep s ct m = Ok ((s, s + Z.of_nat (length tok) + 1), m') /\
    cstr m' s tok /\ cstr m' (s + Z.of_nat (length tok) + 1) rest /\
    m' = <[s + Z.of_nat (length tok) := 0]> m.
Proof.
  intros Hs Hd Hpos. unfold strsep, NULL. destruct (Z.eqb_spec s 0); [lia|]. unfold strpbrk.
  destruct (strpbrk_loop_ok m ct d Hd _ l s Hs (cstr_fuel _ _ _ Hs)) as [[Hx E]|(x & c & y & -> & Hx & Hy & E)].
  - left. split; [done|]. erewrite bind_ok by (mfuel; exact E). done.
  - right. destruct (cstr_cut _ _ _ _ _ Hs) as (H1 & H2 & H3). eexists x, c, y, _. split_and!; try done.
    erewrite bind_ok by (mfuel; exact E). cbv beta. destruct (Z.eqb_spec (s + Z.of_nat (length x)) 0); [lia|].
    by mstep H3.
Qed.

(** [strtok] (first call) skips the leading delimiters, and gives the next
    token up to a delimiter or the end; with only delimiters left it gives
    [NULL] and forgets the string. *)
Theorem strtok_correct m old s ct l d :
  cstr m s l -> cstr m ct d -> 0 < s ->
  (Forall (.∈ d) l /\ strtok old s ct m = Ok ((NULL, NULL), m)) \/
  exists pre tok rest next m', l = pre ++ tok ++ rest /\ Forall (.∈ d) pre /\ tok <> [] /\ Forall (.∉ d) tok /\
    strtok old s ct m = Ok ((s + Z.of_nat (length pre), next), m') /\
    cstr m' (s + Z.of_nat (length pre)) tok /\
    (rest = [] /\ next = NULL /\ m' = m \/
     exists c y, rest = c :: y /\ c ∈ d /\ next = s + Z.of_nat (length (pre ++ tok)) + 1 /\ cstr m' next y).
Proof.
  intros Hs Hd Hpos. unfold strtok, NULL. destruct (Z.eqb_spec s 0) as [|_]; [lia|].
  destruct (Z.eqb_spec s 0) as [|_]; [lia|].
  destruct (strspn_loop_ok m ct d Hd _ l s 0 Hs (cstr_fuel _ _ _ Hs)) as (pre & y & -> & Hpre & Hy & E).
  unfold strspn. erewrite bind_ok by (mfuel; exact E). cbv beta zeta. rewrite Z.add_0_l.
  pose proof (cstr_app _ _ _ _ Hs) as (_ & _ & Hs'). pose proof (cstr_head _ _ _ Hs') as (Hh & _ & Hh0 & _).
  mload Hh. destruct (Z.eqb_spec (deref y) 0) as [E0|E0].
  { rewrite (Hh0 E0). left. rewrite app_nil_r. by split. }
  destruct y as [|c0 y]; [done|]. destruct Hy as [|Hy]; [done|]. simpl in Hy. right. unfold strpbrk.
  destruct (strpbrk_loop_ok m ct d Hd _ _ _ Hs' (cstr_fuel _ _ _ Hs')) as [[Hx E']|(x & c & z & Hyz & Hx & Hc & E')].
  - exists pre, (c0 :: y), [], 0, m. rewrite app_nil_r. split_and!; try done; [|by left].
    erewrite bind_ok by (mfuel; exact E'). done.
  - assert (Hx0 : x <> []) by (intros ->; injection Hyz as <- <-; done).
    rewrite Hyz in *. destruct (cstr_cut _ _ _ _ _ Hs') as (H1 & H2 & H3).
    eexists pre, x, (c :: z), _, _. split_and!; try done.
    + erewrite bind_ok by (mfuel; exact E'). cbv beta.
      destruct (Z.eqb_spec (s + Z.of_nat (length pre) + Z.of_nat (length x)) 0); [lia|].
      pose proof (cstr_app _ _ _ _ Hs') as (_ & _ & Hs2). apply cstr_cons in Hs2 as (Hl & Hnz & _). mload Hl.
      unfold nonzero_byte in Hnz. destruct (Z.eqb_spec c 0); [lia|]. by mstep H3.
    + right. exists c, z. rewrite length_app. split_and!; try done. lia.
Qed.

(** ** The hypotheses hold: a concrete memory *)

(** "key=val" at 256, "=" at 264, "val" at 266, 32 spare bytes from 272. *)
Definition ex_mem : mem :=
  mem_of 256 (zs "key=val" ++ [0] ++ zs "=" ++ [0] ++ zs "val" ++ [0; 255; 255] ++ replicate 32 170).

Lemma memmove_correct_witness : memmove 258 256 8 ex_mem = Ok (258, write_bytes ex_mem 258 (zs "key=val" ++ [0])).
Proof. apply (memmove_correct ex_mem 258 256 (zs "key=val" ++ [0])); mem_decide. Defined.

Lemma memcpy_correct_witness : memcpy 272 256 8 ex_mem = Ok (272, write_bytes ex_mem 272 (zs "key=val" ++ [0])).
Proof. apply (memcpy_correct ex_mem 272 256 (zs "key=val" ++ [0])); [mem_decide..|right; vm_compute; discriminate]. Defined.

Lemma memset_correct_witness : memset 272 513 7 ex_mem = Ok (272, write_bytes ex_mem 272 (replicate 7 (u8 513))).
Proof. apply (memset_correct ex_mem 272 513 7); mem_decide. Defined.

Lemma strncat_correct_witness :
  exists m', strncat 266 256 2 ex_mem = Ok (266, m') /\ cstr m' 266 (zs "val" ++ take 2 (zs "key=val")) /\
    (forall p, p < 266 + Z.of_nat (length (zs "val")) \/
       266 + Z.of_nat (length (zs "val")) + Z.of_nat (length (take 2 (zs "key=val"))) < p ->
       m' !! p = ex_mem !! p).
Proof.
  apply (strncat_correct ex_mem 266 256 (zs "val") (zs "key=val") 2); [mem_decide|mem_decide|lia|mem_decide|].
  right. vm_compute. reflexivity.
Defined.

Lemma strcmp_correct_witness :
  exists r, strcmp 256 266 ex_mem = Ok (r, ex_mem) /\ -128 <= r < 128 /\ (r = 0 <-> zs "key=val" = zs "val") /\
    (ascii7 (zs "key=val") -> ascii7 (zs "val") -> (r < 0 <-> str_lt (zs "key=val") (zs "val"))).
Proof. apply (strcmp_correct ex_mem 256 266); mem_decide. Defined.

Lemma strcmp_not_antisymmetric_witness :
  let m := mem_of 16 [1; 0; 129; 0] in
  strcmp 16 18 m = Ok (-128, m) /\ strcmp 18 16 m = Ok (-128, m).
Proof. intros m. apply (strcmp_not_antisymmetric m 16 18); mem_decide. Defined.

Lemma strstr_correct_witness :
  (exists i, strstr 256 266 ex_mem = Ok (256 + Z.of_nat i, ex_mem) /\
     occurs_at (zs "key=val") (zs "val") i /\ forall j, (j < i)%nat -> ~ occurs_at (zs "key=val") (zs "val") j) \/
  strstr 256 266 ex_mem = Ok (NULL, ex_mem) /\ forall j, ~ occurs_at (zs "key=val") (zs "val") j.
Proof. apply strstr_correct; mem_decide. Defined.

Lemma strsep_correct_witness :
  (Forall (.∉ zs "=") (zs "key=val") /\ strsep 256 264 ex_mem = Ok ((256, NULL), ex_mem)) \/
  exists tok c rest m', zs "key=val" = tok ++ c :: rest /\ Forall (.∉ zs "=") tok /\ c ∈ zs "=" /\
    strsep 256 264 ex_mem = Ok ((256, 256 + Z.of_nat (length tok) + 1), m') /\
    cstr m' 256 tok /\ cstr m' (256 + Z.of_nat (length tok) + 1) rest /\
    m' = <[256 + Z.of_nat (length tok) := 0]> ex_mem.
Proof. apply strsep_correct; [mem_decide|mem_decide|lia]. Defined.

Lemma strtok_correct_witness :
  (Forall (.∈ zs "=") (zs "key=val") /\ strtok 0 256 264 ex_mem = Ok ((NULL, NULL), ex_mem)) \/
  exists pre tok rest next m', zs "key=val" = pre ++ tok ++ rest /\ Forall (.∈ zs "=") pre /\ tok <> [] /\
    Forall (.∉ zs "=") tok /\
    strtok 0 256 264 ex_mem = Ok ((256 + Z.of_nat (length pre), next), m') /\
    cstr m' (256 + Z.of_nat (length pre)) tok /\
    (rest = [] /\ next = NULL /\ m' = ex_mem \/
     exists c y, rest = c :: y /\ c ∈ zs "=" /\ next = 256 + Z.of_nat (length (pre ++ tok)) + 1 /\ cstr m' next y).
Proof. apply strtok_correct; [mem_decide|mem_decide|lia]. Defined.
