(* ===== verification/Vsprintf.v ===== *)
(** * Number parsing and formatted output (lib_generic/vsprintf.c, net_utils.c)

    A C string to parse is the list of its bytes up to the NUL, and a parser
    returns the bytes left ([endp]).  A formatter returns the bytes it appends
    at [buf].  [unsigned long], [size_t] and pointers are 32-bit, [NUM_TYPE] is
    64-bit. *)

From S2P Require Import Prelude.
From S2P Require Import Ctype.
From S2P Require Import Div64.

(** ** Parsing *)

(** [isdigit( *cp) ? *cp-'0' : (islower( *cp) ? toupper( *cp) : *cp)-'A'+10] *)
Definition digit_value (c : Z) : Z :=
  if isdigit c then c - ch "0" else (if islower c then toupper c else c) - ch "A" + 10.

(** The digit loop, [result] being [bits]-wide as [wrap] says. *)
Fixpoint strtoul_loop (wrap : Z -> Z) (cp : list Z) (base result : Z) : Z * list Z :=
  match cp with
  | [] => (result, [])
  | c :: cp' =>
      if isxdigit c && (wrap (digit_value c) <? base) then
        strtoul_loop wrap cp' base (wrap (result * base + digit_value c))
      else (result, cp)
  end.

(** The prefix: where the digits start and the base. *)
Definition strtoul_prefix (cp : list Z) (base : Z) : list Z * Z :=
  let '(cp, base) :=
    if deref cp =? ch "0" then
      let cp := tl cp in
      let '(cp, base) := if (deref cp =? ch "x") && isxdigit (deref (tl cp)) then (tl cp, 16) else (cp, base) in
      (cp, if base =? 0 then 8 else base)
    else (cp, base) in
  (cp, if base =? 0 then 10 else base).

Definition simple_strtoul (cp : list Z) (base : Z) : Z * list Z :=
  let '(cp, base) := strtoul_prefix cp base in strtoul_loop u32 cp base 0.

Definition simple_strtol (cp : list Z) (base : Z) : Z * list Z :=
  if deref cp =? ch "-" then
    let '(r, e) := simple_strtoul (tl cp) base in (s32 (- r), e)
  else
    let '(r, e) := simple_strtoul cp base in (s32 r, e).

Definition simple_strtoull (cp : list Z) (base : Z) : Z * list Z :=
  let '(cp, base) := strtoul_prefix cp base in strtoul_loop u64 cp base 0.

(** [case 'K'/'k'] of [ustrtoul]. *)
Definition kilo_suffix (result : Z) (endp : list Z) : Z * list Z :=
  let result := u32 (result * 1024) in
  if deref (tl endp) =? ch "i" then
    if deref (tl (tl endp)) =? ch "B" then (result, drop 3 endp) else (result, drop 2 endp)
  else (result, endp).

Definition ustrtoul (cp : list Z) (base : Z) : Z * list Z :=
  let '(result, endp) := simple_strtoul cp base in
  let c := deref endp in
  let '(result, endp) :=
    if c =? ch "G" then kilo_suffix (u32 (u32 (result * 1024) * 1024)) endp
    else if c =? ch "M" then kilo_suffix (u32 (result * 1024)) endp
    else if (c =? ch "K") || (c =? ch "k") then kilo_suffix result endp
    else (result, endp) in
  (s32 result, endp).

(** [s] is never [NULL] after the first conversion; [None] is [NULL]. *)
Fixpoint string_to_ip_loop (n : nat) (s : list Z) (addr : Z) : Z :=
  match n with
  | O => addr
  | S n' =>
      let '(val, e) := simple_strtoul s 10 in
      string_to_ip_loop n' (if negb (deref e =? 0) then tl e else e)
        (Z.lor (u32 (Z.shiftl addr 8)) (Z.land val 0xFF))
  end.

Definition htonl (x : Z) : Z :=
  Z.lor (Z.shiftl (Z.land x 0xFF) 24)
    (Z.lor (Z.shiftl (Z.land x 0xFF00) 8)
      (Z.lor (Z.shiftr (Z.land x 0xFF0000) 8) (Z.shiftr (Z.land x 0xFF000000) 24))).

Definition string_to_ip (s : option (list Z)) : Z :=
  match s with
  | None => 0
  | Some s => htonl (string_to_ip_loop 4 s 0)
  end.

Definition is_digit (c : Z) : bool := (ch "0" <=? c) && (c <=? ch "9").

Fixpoint skip_atoi_loop (s : list Z) (i : Z) : Z * list Z :=
  match s with
  | [] => (i, [])
  | c :: s' => if is_digit c then skip_atoi_loop s' (s32 (i * 10 + c - ch "0")) else (i, s)
  end.
Definition skip_atoi (s : list Z) : Z * list Z := skip_atoi_loop s 0.

(** ** Digits *)

Definition hex_asc : list Z := zs "0123456789abcdef".
Definition hex_asc_lo (x : Z) : Z := nth (Z.to_nat (Z.land x 0x0f)) hex_asc 0.
Definition hex_asc_hi (x : Z) : Z := nth (Z.to_nat (Z.shiftr (Z.land x 0xf0) 4)) hex_asc 0.
Definition pack_hex_byte (byte : Z) : list Z := [hex_asc_hi byte; hex_asc_lo byte].

(** One to five digits, least significant first. *)
Definition put_dec_trunc (q : Z) : list Z :=
  let d1 := Z.land (Z.shiftr q 4) 0xf in
  let d2 := Z.land (Z.shiftr q 8) 0xf in
  let d3 := Z.shiftr q 12 in
  let d0 := u32 (6 * (d3 + d2 + d1) + Z.land q 0xf) in
  let q := Z.shiftr (u32 (d0 * 0xcd)) 11 in
  let d0 := u32 (d0 - 10 * q) in
  u8 (d0 + ch "0") ::
  let d1 := u32 (q + 9 * d3 + 5 * d2 + d1) in
  if negb (d1 =? 0) then
    let q := Z.shiftr (u32 (d1 * 0xcd)) 11 in
    let d1 := u32 (d1 - 10 * q) in
    u8 (d1 + ch "0") ::
    let d2 := u32 (q + 2 * d2) in
    if negb (d2 =? 0) || negb (d3 =? 0) then
      let q := Z.shiftr (u32 (d2 * 0xd)) 7 in
      let d2 := u32 (d2 - 10 * q) in
      u8 (d2 + ch "0") ::
      let d3 := u32 (q + 4 * d3) in
      if negb (d3 =? 0) then
        let q := Z.shiftr (u32 (d3 * 0xcd)) 11 in
        let d3 := u32 (d3 - 10 * q) in
        u8 (d3 + ch "0") :: (if negb (q =? 0) then [u8 (q + ch "0")] else [])
      else []
    else []
  else [].

(** Always five digits. *)
Definition put_dec_full (q : Z) : list Z :=
  let d1 := Z.land (Z.shiftr q 4) 0xf in
  let d2 := Z.land (Z.shiftr q 8) 0xf in
  let d3 := Z.shiftr q 12 in
  let d0 := u32 (6 * (d3 + d2 + d1) + Z.land q 0xf) in
  let q := Z.shiftr (u32 (d0 * 0xcd)) 11 in
  let d0 := u32 (d0 - 10 * q) in
  let d1 := u32 (q + 9 * d3 + 5 * d2 + d1) in
  let q := Z.shiftr (u32 (d1 * 0xcd)) 11 in
  let d1 := u32 (d1 - 10 * q) in
  let d2 := u32 (q + 2 * d2) in
  let q := Z.shiftr (u32 (d2 * 0xd)) 7 in
  let d2 := u32 (d2 - 10 * q) in
  let d3 := u32 (q + 4 * d3) in
  let q := Z.shiftr (u32 (d3 * 0xcd)) 11 in
  let d3 := u32 (d3 - 10 * q) in
  [u8 (d0 + ch "0"); u8 (d1 + ch "0"); u8 (d2 + ch "0"); u8 (d3 + ch "0"); u8 (q + ch "0")].

(** The fuel: a 64-bit number is below 100000^4. *)
Fixpoint put_dec_loop (fuel : nat) (num : Z) : list Z :=
  match fuel with
  | O => []
  | S fuel' =>
      if num <? 100000 then put_dec_trunc (u32 num)
      else
        let '(num, rem) := do_div num 100000 in
        put_dec_full rem ++ put_dec_loop fuel' num
  end.
Definition put_dec (num : Z) : list Z := put_dec_loop 5 num.

(** ** Conversions *)

Definition ZEROPAD : Z := 1.
Definition SIGN : Z := 2.
Definition PLUS : Z := 4.
Definition SPACE : Z := 8.
Definition LEFT : Z := 16.
Definition SMALL : Z := 32.
Definition SPECIAL : Z := 64.

(** [flags & bit] as a condition. *)
Definition has (type bit : Z) : bool := negb (Z.land type bit =? 0).

Definition digits : list Z := zs "0123456789ABCDEF".

(** The [do ... while (num)] of bases 8 and 16; 22 octal digits at most. *)
Fixpoint digit_loop (fuel : nat) (num mask shift locase : Z) : list Z :=
  match fuel with
  | O => []
  | S fuel' =>
      let d := Z.lor (nth (Z.to_nat (Z.land (u8 num) mask)) digits 0) locase in
      let num := Z.shiftr num shift in
      d :: (if negb (num =? 0) then digit_loop fuel' num mask shift locase else [])
  end.

(** [while (--size >= 0) *buf++ = c;]: the bytes written, and [size] after. *)
Definition pad_loop (size c : Z) : list Z * Z :=
  (replicate (Z.to_nat size) c, Z.min size 0 - 1).

Definition number (num base size precision type : Z) : list Z :=
  let need_pfx := has type SPECIAL && negb (base =? 10) in
  let locase := Z.land type SMALL in
  let type := if has type LEFT then Z.land type (Z.lnot ZEROPAD) else type in
  let '(sign, num, size) :=
    if has type SIGN then
      if s64 num <? 0 then ([ch "-"], u64 (- s64 num), size - 1)
      else if has type PLUS then ([ch "+"], num, size - 1)
      else if has type SPACE then ([ch " "], num, size - 1)
      else ([], num, size)
    else ([], num, size) in
  let size := if need_pfx then (if base =? 16 then size - 1 - 1 else size - 1) else size in
  let tmp :=
    if num =? 0 then [ch "0"]
    else if negb (base =? 10) then
      digit_loop 22 num (base - 1) (if base =? 16 then 4 else 3) locase
    else put_dec num in
  let i := Z.of_nat (length tmp) in
  let precision := if precision <? i then i else precision in
  let size := size - precision in
  let '(lead, size) := if negb (has type (ZEROPAD + LEFT)) then pad_loop size (ch " ") else ([], size) in
  let pfx :=
    if need_pfx then ch "0" :: (if base =? 16 then [Z.lor (ch "X") locase] else []) else [] in
  let '(mid, size) :=
    if negb (has type LEFT) then pad_loop size (if has type ZEROPAD then ch "0" else ch " ")
    else ([], size) in
  let zeros := replicate (Z.to_nat (precision - i)) (ch "0") in
  let '(trail, _) := pad_loop size (ch " ") in
  lead ++ sign ++ pfx ++ mid ++ zeros ++ rev tmp ++ trail.

(** [while (len < field_width--) *buf++ = ' ';] *)
Definition field_loop (len field_width : Z) : list Z * Z :=
  (replicate (Z.to_nat (field_width - len)) (ch " "), Z.min field_width len - 1).

(** [strnlen(s, precision)] takes [precision] as a [size_t]. *)
Definition string (s : option (list Z)) (field_width precision flags : Z) : list Z :=
  let s := match s with None => zs "<NULL>" | Some s => s end in
  let len := Z.min (Z.of_nat (length s)) (u32 precision) in
  let '(lead, field_width) := if negb (has flags LEFT) then field_loop len field_width else ([], field_width) in
  let '(trail, _) := field_loop len field_width in
  lead ++ take (Z.to_nat len) s ++ trail.

(** What the [ptr] of a [%p] points at: the bytes at its address. *)
Definition byte_at (mem : list Z) (i : nat) : res Z := arr_get mem i.

Fixpoint mac_loop (n i : nat) (addr : list Z) (flags : Z) : res (list Z) :=
  match n with
  | O => Ok []
  | S n' =>
      b ← byte_at addr i;
      l ← mac_loop n' (i + 1) addr flags;
      mret (pack_hex_byte b ++ (if negb (has flags SPECIAL) && negb (Z.of_nat i =? 5) then [ch ":"] else []) ++ l)
  end.

Definition mac_address_string (addr : list Z) (field_width precision flags : Z) : res (list Z) :=
  mac_addr ← mac_loop 6 0 addr flags;
  mret (string (Some mac_addr) field_width precision (Z.land flags (Z.lnot SPECIAL))).

Fixpoint ip6_loop (n i : nat) (addr : list Z) (flags : Z) : res (list Z) :=
  match n with
  | O => Ok []
  | S n' =>
      b0 ← byte_at addr (2 * i);
      b1 ← byte_at addr (2 * i + 1);
      l ← ip6_loop n' (i + 1) addr flags;
      mret (pack_hex_byte b0 ++ pack_hex_byte b1 ++
            (if negb (has flags SPECIAL) && negb (Z.of_nat i =? 7) then [ch ":"] else []) ++ l)
  end.

Definition ip6_addr_string (addr : list Z) (field_width precision flags : Z) : res (list Z) :=
  ip6_addr ← ip6_loop 8 0 addr flags;
  mret (string (Some ip6_addr) field_width precision (Z.land flags (Z.lnot SPECIAL))).

Fixpoint ip4_loop (n i : nat) (addr : list Z) : res (list Z) :=
  match n with
  | O => Ok []
  | S n' =>
      b ← byte_at addr i;
      l ← ip4_loop n' (i + 1) addr;
      mret (rev (put_dec_trunc b) ++ (if negb (Z.of_nat i =? 3) then [ch "."] else []) ++ l)
  end.

Definition ip4_addr_string (addr : list Z) (field_width precision flags : Z) : res (list Z) :=
  ip4_addr ← ip4_loop 4 0 addr;
  mret (string (Some ip4_addr) field_width precision (Z.land flags (Z.lnot SPECIAL))).

(** [fmt] is the format after the [p]; [ptr] the address and the bytes at it;
    [cmd_net] says whether [CONFIG_CMD_NET] is defined. *)
Definition pointer (cmd_net : bool) (fmt : list Z) (ptr : Z) (mem : list Z)
    (field_width precision flags : Z) : res (list Z) :=
  let plain flags :=
    let flags := Z.lor flags SMALL in
    let '(field_width, flags) :=
      if field_width =? -1 then (2 * 4, Z.lor flags ZEROPAD) else (field_width, flags) in
    mret (number ptr 16 field_width precision flags) in
  if ptr =? 0 then mret (string (Some (zs "(null)")) field_width precision flags)
  else if negb cmd_net then plain flags
  else
    let c := deref fmt in
    if (c =? ch "m") || (c =? ch "M") then
      mac_address_string mem field_width precision (if c =? ch "m" then Z.lor flags SPECIAL else flags)
    else if (c =? ch "i") || (c =? ch "I") then
      let flags := if c =? ch "i" then Z.lor flags SPECIAL else flags in
      if deref (tl fmt) =? ch "6" then ip6_addr_string mem field_width precision flags
      else if deref (tl fmt) =? ch "4" then ip4_addr_string mem field_width precision flags
      else plain (Z.land flags (Z.lnot SPECIAL))
    else plain flags.

(** ** vsprintf

    The [va_list] is a list of typed arguments; taking an argument at another
    type is undefined, a [Fault].  [A_int] is every 32-bit argument ([int],
    [unsigned long], [size_t]), [A_out] the target of a [%n]. *)

Inductive va_arg :=
| A_int (n : Z)
| A_long_long (n : Z)
| A_str (s : option (list Z))
| A_ptr (ptr : Z) (mem : list Z)
| A_out.

Definition va_int (args : list va_arg) : res (Z * list va_arg) :=
  match args with A_int n :: args => Ok (u32 n, args) | _ => Fault end.
Definition va_long_long (args : list va_arg) : res (Z * list va_arg) :=
  match args with A_long_long n :: args => Ok (u64 n, args) | _ => Fault end.
Definition va_str (args : list va_arg) : res (option (list Z) * list va_arg) :=
  match args with A_str s :: args => Ok (s, args) | _ => Fault end.
Definition va_ptr (args : list va_arg) : res (Z * list Z * list va_arg) :=
  match args with A_ptr p m :: args => Ok (p, m, args) | _ => Fault end.
Definition va_out (args : list va_arg) : res (list va_arg) :=
  match args with A_out :: args => Ok args | _ => Fault end.

(** [repeat: ++fmt; switch ( *fmt)]: the flags and the format after them. *)
Fixpoint parse_flags (fmt : list Z) (flags : Z) : Z * list Z :=
  match fmt with
  | [] => (flags, [])
  | c :: fmt' =>
      if c =? ch "-" then parse_flags fmt' (Z.lor flags LEFT)
      else if c =? ch "+" then parse_flags fmt' (Z.lor flags PLUS)
      else if c =? ch " " then parse_flags fmt' (Z.lor flags SPACE)
      else if c =? ch "#" then parse_flags fmt' (Z.lor flags SPECIAL)
      else if c =? ch "0" then parse_flags fmt' (Z.lor flags ZEROPAD)
      else (flags, fmt)
  end.

(** The field width: width, flags, format and arguments left. *)
Definition parse_width (fmt : list Z) (flags : Z) (args : list va_arg) : res (Z * Z * list Z * list va_arg) :=
  if is_digit (deref fmt) then
    let '(w, fmt) := skip_atoi fmt in Ok (w, flags, fmt, args)
  else if deref fmt =? ch "*" then
    '(w, args) ← va_int args;
    let w := s32 w in
    if w <? 0 then mret (s32 (- w), Z.lor flags LEFT, tl fmt, args) else mret (w, flags, tl fmt, args)
  else Ok (-1, flags, fmt, args).

Definition parse_precision (fmt : list Z) (args : list va_arg) : res (Z * list Z * list va_arg) :=
  if deref fmt =? ch "." then
    let fmt := tl fmt in
    '(p, fmt, args) ←
      (if is_digit (deref fmt) then
         let '(p, fmt) := skip_atoi fmt in mret (p, fmt, args)
       else if deref fmt =? ch "*" then
         '(p, args) ← va_int args; mret (s32 p, tl fmt, args)
       else mret (-1, fmt, args));
    mret ((if p <? 0 then 0 else p), fmt, args)
  else Ok (-1, fmt, args).

Definition parse_qualifier (fmt : list Z) : Z * list Z :=
  let c := deref fmt in
  if (c =? ch "h") || (c =? ch "l") || (c =? ch "L") || (c =? ch "Z") || (c =? ch "z") || (c =? ch "t") then
    let fmt := tl fmt in
    if (c =? ch "l") && (deref fmt =? ch "l") then (ch "L", tl fmt) else (c, fmt)
  else (-1, fmt).

(** [while (--field_width > 0) *str++ = ' ';] *)
Definition char_pad (field_width : Z) : list Z * Z :=
  (replicate (Z.to_nat (field_width - 1)) (ch " "), Z.min (field_width - 1) 0).

(** Fetching the number of an integer conversion, as [unsigned long long]. *)
Definition fetch_num (qualifier flags : Z) (args : list va_arg) : res (Z * list va_arg) :=
  if qualifier =? ch "L" then va_long_long args
  else
    '(n, args) ← va_int args;
    if qualifier =? ch "l" then mret (if has flags SIGN then u64 (s32 n) else n, args)
    else if (qualifier =? ch "Z") || (qualifier =? ch "z") then mret (n, args)
    else if qualifier =? ch "t" then mret (u64 (s32 n), args)
    else if qualifier =? ch "h" then mret (if has flags SIGN then u64 (s16 n) else u16 n, args)
    else mret (if has flags SIGN then u64 (s32 n) else n, args).

(** [while (isalnum(fmt[1])) fmt++], on the format after the [p]. *)
Fixpoint skip_alnum (fmt : list Z) : list Z :=
  match fmt with
  | [] => []
  | c :: fmt' => if isalnum c then skip_alnum fmt' else fmt
  end.

(** What one conversion does: the bytes it appends, the value a [%n] stores,
    the format and the arguments left. *)
Record converted := Conv { c_out : list Z; c_store : list Z; c_fmt : list Z; c_args : list va_arg }.

Definition integer_conversion (base qualifier flags field_width precision : Z) (fmt : list Z)
    (args : list va_arg) : res converted :=
  '(num, args) ← fetch_num qualifier flags args;
  mret (Conv (number num base field_width precision flags) [] fmt args).

(** One conversion, from after the '%'; [written] is [str - buf]. *)
Definition conversion (cmd_net : bool) (fmt : list Z) (args : list va_arg) (written : Z) : res converted :=
  let '(flags, fmt) := parse_flags fmt 0 in
  '(field_width, flags, fmt, args) ← parse_width fmt flags args;
  '(precision, fmt, args) ← parse_precision fmt args;
  let '(qualifier, fmt) := parse_qualifier fmt in
  let c := deref fmt in
  let integer base flags := integer_conversion base qualifier flags field_width precision (tl fmt) args in
  if c =? ch "c" then
    '(n, args) ← va_int args;
    let '(lead, field_width) := if negb (has flags LEFT) then char_pad field_width else ([], field_width) in
    let '(trail, _) := char_pad field_width in
    mret (Conv (lead ++ [u8 n] ++ trail) [] (tl fmt) args)
  else if c =? ch "s" then
    '(s, args) ← va_str args;
    mret (Conv (string s field_width precision flags) [] (tl fmt) args)
  else if c =? ch "p" then
    '(p, m, args) ← va_ptr args;
    out ← pointer cmd_net (tl fmt) p m field_width precision flags;
    mret (Conv out [] (skip_alnum (tl fmt)) args)
  else if c =? ch "n" then
    args ← va_out args;
    mret (Conv [] [written] (tl fmt) args)
  else if c =? ch "%" then mret (Conv [ch "%"] [] (tl fmt) args)
  else if c =? ch "o" then integer 8 flags
  else if c =? ch "x" then integer 16 (Z.lor flags SMALL)
  else if c =? ch "X" then integer 16 flags
  else if (c =? ch "d") || (c =? ch "i") then integer 10 (Z.lor flags SIGN)
  else if c =? ch "u" then integer 10 flags
  else mret (Conv (ch "%" :: (match fmt with [] => [] | c :: _ => [c] end)) [] (tl fmt) args).

(** The main loop: [out] is what is in the buffer, [stores] what [%n] stored.
    Every round consumes a character of the format. *)
Fixpoint vsprintf_loop (cmd_net : bool) (fuel : nat) (fmt : list Z) (args : list va_arg)
    (out stores : list Z) : res (list Z * list Z) :=
  match fmt with
  | [] => Ok (out, stores)
  | c :: fmt' =>
      match fuel with
      | O => OutOfFuel
      | S fuel' =>
          if negb (c =? ch "%") then vsprintf_loop cmd_net fuel' fmt' args (out ++ [c]) stores
          else
            r ← conversion cmd_net fmt' args (Z.of_nat (length out));
            vsprintf_loop cmd_net fuel' (c_fmt r) (c_args r) (out ++ c_out r) (stores ++ c_store r)
      end
  end.

(** The bytes written before the terminating NUL, and the values stored by [%n];
    the C result is the number of bytes. *)
Definition vsprintf (cmd_net : bool) (fmt : list Z) (args : list va_arg) : res (list Z * list Z) :=
  vsprintf_loop cmd_net (length fmt) fmt args [] [].

Definition sprintf := vsprintf.

(** ** Decimal digits

    [dec_value l] is the number whose decimal digits, least significant first,
    are the characters [l]. *)

Definition dec_value (l : list Z) : Z := fold_right (fun c acc => c - 48 + 10 * acc) 0 l.
Definition dec_digit (c : Z) : Prop := 48 <= c <= 57.

(** The digits of [n] without leading zeros. *)
Definition dec_digits (n : Z) (l : list Z) : Prop :=
  dec_value l = n /\ Forall dec_digit l /\ l <> [] /\ (n = 0 -> l = [48]) /\ (n <> 0 -> list.last l <> Some 48).

(** The parts of a printed number: sign and magnitude, prefix, digits. *)
Definition num_sign (type num : Z) : list Z * Z :=
  if has type SIGN then
    if s64 num <? 0 then ([ch "-"], u64 (- s64 num))
    else if has type PLUS then ([ch "+"], num)
    else if has type SPACE then ([ch " "], num)
    else ([], num)
  else ([], num).

Definition num_prefix (type base : Z) : list Z :=
  if has type SPECIAL && negb (base =? 10) then
    ch "0" :: (if base =? 16 then [Z.lor (ch "X") (Z.land type SMALL)] else [])
  else [].

Definition num_digits (num base locase : Z) : list Z :=
  rev (if num =? 0 then [ch "0"]
       else if negb (base =? 10) then digit_loop 22 num (base - 1) (if base =? 16 then 4 else 3) locase
       else put_dec num).

Lemma approx205 x : 0 <= x <= 1000 -> Z.shiftr (u32 (x * 0xcd)) 11 = x / 10.
Proof. intros. rewrite u32_small by lia. rewrite Z.shiftr_div_pow2 by lia. change (2 ^ 11) with 2048. zmod. Qed.

Lemma approx13 x : 0 <= x <= 68 -> Z.shiftr (u32 (x * 0xd)) 7 = x / 10.
Proof. intros. rewrite u32_small by lia. rewrite Z.shiftr_div_pow2 by lia. change (2 ^ 7) with 128. zmod. Qed.

Lemma sub10 x : 0 <= x <= 1000 -> u32 (x - 10 * (x / 10)) = x mod 10.
Proof. intros. rewrite u32_small; zmod. Qed.

Lemma digit_char x : 0 <= x <= 9 -> u8 (x + ch "0") = x + 48.
Proof. intros. change (ch "0") with 48. by rewrite u8_small by lia. Qed.

Lemma nibbles q : 0 <= q < 100000 ->
  exists a b c d, q = 4096 * d + 256 * c + 16 * b + a /\ 0 <= a < 16 /\ 0 <= b < 16 /\ 0 <= c < 16 /\ 0 <= d <= 24 /\
    Z.land q 0xf = a /\ Z.land (Z.shiftr q 4) 0xf = b /\ Z.land (Z.shiftr q 8) 0xf = c /\ Z.shiftr q 12 = d.
Proof.
  intros Hq. exists (q mod 16), (q / 16 mod 16), (q / 256 mod 16), (q / 4096).
  rewrite !Z.shiftr_div_pow2 by lia. change 0xf with (Z.ones 4). rewrite !Z.land_ones by lia.
  change (2 ^ 4) with 16. change (2 ^ 8) with 256. change (2 ^ 12) with 4096.
  repeat split; try done; zmod.
Qed.

(** The carries of the nibble arithmetic: each decimal digit and the carry. *)
Lemma dec_carries a b c d :
  0 <= a < 16 -> 0 <= b < 16 -> 0 <= c < 16 -> 0 <= d <= 24 -> 4096 * d + 256 * c + 16 * b + a < 100000 ->
  let d0 := 6 * (d + c + b) + a in
  let d1 := d0 / 10 + 9 * d + 5 * c + b in
  let d2 := d1 / 10 + 2 * c in
  let d3 := d2 / 10 + 4 * d in
  0 <= d0 <= 1000 /\ 0 <= d1 <= 1000 /\ 0 <= d2 <= 68 /\ 0 <= d3 <= 1000 /\ 0 <= d3 / 10 <= 9 /\
  4096 * d + 256 * c + 16 * b + a =
    d0 mod 10 + 10 * (d1 mod 10) + 100 * (d2 mod 10) + 1000 * (d3 mod 10) + 10000 * (d3 / 10).
Proof. intros. subst d0 d1 d2 d3. zmod. Qed.

Lemma put_dec_full_spec q :
  0 <= q < 100000 ->
  dec_value (put_dec_full q) = q /\ Forall dec_digit (put_dec_full q) /\ length (put_dec_full q) = 5%nat.
Proof.
  intros Hq. destruct (nibbles q Hq) as (a & b & c & d & Hqe & Ha & Hb & Hc & Hd & E0 & E1 & E2 & E3).
  unfold put_dec_full. rewrite E0, E1, E2, E3. cbv zeta.
  destruct (dec_carries a b c d) as (B0 & B1 & B2 & B3 & B4 & Hsum); try lia.
  set (d0 := 6 * (d + c + b) + a) in *. rewrite (u32_small d0), approx205, sub10 by lia.
  set (d1 := d0 / 10 + 9 * d + 5 * c + b) in *. rewrite (u32_small d1), approx205, sub10 by lia.
  set (d2 := d1 / 10 + 2 * c) in *. rewrite (u32_small d2), approx13, sub10 by lia.
  set (d3 := d2 / 10 + 4 * d) in *. rewrite (u32_small d3), approx205, sub10 by lia.
  rewrite Hqe, Hsum. clearbody d3. clearbody d2. clearbody d1. clearbody d0.
  rewrite !digit_char by zmod. split_and!; [simpl; lia| |done].
  unfold dec_digit. repeat constructor; zmod.
Qed.

Lemma put_dec_trunc_spec q : 0 <= q < 100000 -> dec_digits q (put_dec_trunc q).
Proof.
  intros Hq. destruct (nibbles q Hq) as (a & b & c & d & Hqe & Ha & Hb & Hc & Hd & E0 & E1 & E2 & E3).
  unfold put_dec_trunc. rewrite E0, E1, E2, E3. cbv zeta.
  destruct (dec_carries a b c d) as (B0 & B1 & B2 & B3 & B4 & Hsum); try lia.
  set (d0 := 6 * (d + c + b) + a) in *. rewrite (u32_small d0), approx205, sub10 by lia.
  set (d1 := d0 / 10 + 9 * d + 5 * c + b) in *. rewrite (u32_small d1), approx205, sub10 by lia.
  set (d2 := d1 / 10 + 2 * c) in *. rewrite (u32_small d2), approx13, sub10 by lia.
  set (d3 := d2 / 10 + 4 * d) in *. rewrite (u32_small d3), approx205, sub10 by lia.
  assert (H1 : d1 = 0 -> d0 < 10 /\ d2 = 0 /\ d3 = 0) by zmod.
  assert (H2 : d2 = 0 -> d1 < 10 /\ c = 0) by zmod.
  assert (H3 : d3 = 0 -> d2 < 10 /\ d = 0) by zmod.
  assert (H4 : d = 0 -> d3 = d2 / 10) by (unfold d3; lia).
  rewrite Hqe, Hsum. clearbody d3. clearbody d2. clearbody d1. clearbody d0.
  rewrite !digit_char by zmod. unfold dec_digits, dec_digit.
  destruct (Z.eqb_spec d1 0) as [D1|D1]; simpl negb; cbv iota.
  { destruct (H1 D1) as (? & -> & ->). subst d1.
    split_and!; [simpl; zmod|repeat constructor; zmod|done|intros; f_equal; zmod|simpl; intros ? [=]; zmod]. }
  destruct (Z.eqb_spec d2 0) as [D2|D2], (Z.eqb_spec d 0) as [D|D]; simpl negb; simpl orb; cbv iota.
  { split_and!; [simpl; zmod|repeat constructor; zmod|done|intros; exfalso; zmod|simpl; intros ? [=]; zmod]. }
  all: destruct (Z.eqb_spec d3 0) as [D3|D3]; simpl negb; cbv iota;
    [|destruct (Z.eqb_spec (d3 / 10) 0) as [D4|D4]; simpl negb; cbv iota].
  all: split_and!; [simpl; zmod|repeat constructor; zmod|done|intros; exfalso; zmod|simpl; intros ? [=]; zmod].
Qed.

Lemma dec_value_app l1 l2 : dec_value (l1 ++ l2) = dec_value l1 + 10 ^ Z.of_nat (length l1) * dec_value l2.
Proof.
  unfold dec_value. induction l1 as [|c l1 IH]; simpl fold_right; simpl length.
  - change (10 ^ Z.of_nat 0) with 1. simpl. lia.
  - rewrite IH, Nat2Z.inj_succ, Z.pow_succ_r by lia. lia.
Qed.

Lemma put_dec_loop_spec fuel : forall num,
  0 <= num < 18446744073709551616 -> num < 100000 ^ Z.of_nat fuel -> (0 < fuel)%nat ->
  dec_digits num (put_dec_loop fuel num).
Proof.
  induction fuel as [|fuel IH]; intros num Hn Hf Hpos; [lia|]. cbn [put_dec_loop].
  destruct (Z.ltb_spec num 100000).
  { rewrite u32_small by lia. apply put_dec_trunc_spec. lia. }
  rewrite do_div_spec by lia. cbv beta iota.
  rewrite Nat2Z.inj_succ, Z.pow_succ_r in Hf by lia.
  assert (Hfuel : (0 < fuel)%nat) by (destruct fuel; [simpl in Hf; lia|lia]).
  assert (Hq : 0 < num / 100000 < 18446744073709551616) by zmod.
  destruct (IH (num / 100000)) as (V & Dg & Nn & _ & L); [lia| |done|].
  { apply Z.div_lt_upper_bound; lia. }
  destruct (put_dec_full_spec (num mod 100000)) as (V5 & D5 & L5); [zmod|].
  unfold dec_digits. rewrite dec_value_app, V, V5, L5. change (10 ^ Z.of_nat 5) with 100000. split_and!.
  - zmod.
  - by apply Forall_app.
  - by destruct (put_dec_full _).
  - lia.
  - intros _. rewrite last_app. destruct (list.last (put_dec_loop fuel (num / 100000))) eqn:E.
    + apply L. lia.
    + by apply last_None in E.
Qed.

(** [put_dec] gives the decimal digits of every 64-bit number, without leading
    zeros: the multiply-and-shift divisions are exact on their ranges. *)
Theorem put_dec_correct num :
  0 <= num < 18446744073709551616 -> dec_digits num (put_dec num).
Proof. intros. apply put_dec_loop_spec; [done| |lia]. change (Z.of_nat 5) with 5. lia. Qed.

Lemma put_dec_correct_witness : dec_digits 18446744073709551615 (put_dec 18446744073709551615).
Proof. apply put_dec_correct. lia. Defined.

(** ** Parsing digits *)

(** A digit of the given base; the number that the digits [ds] write, most
    significant first; text that does not go on with a digit or an 'x'. *)
Definition digit_of (base c : Z) : Prop := byte c /\ isxdigit c = true /\ digit_value c < base.
Definition digits_value (base : Z) (ds : list Z) (r : Z) : Z := fold_left (fun r c => r * base + digit_value c) ds r.
Definition stops (base : Z) (rest : list Z) : Prop :=
  match rest with
  | [] => True
  | c :: _ => (isxdigit c = false \/ base <= digit_value c) /\ c <> ch "x"
  end.

Lemma digit_value_range c : byte c -> isxdigit c = true -> 0 <= digit_value c < 16.
Proof.
  intros Hb Hx. set (P := fun c => negb (isxdigit c) || (0 <=? digit_value c) && (digit_value c <? 16)).
  assert (H : P c = true) by (apply byte_forall; [vm_compute; reflexivity|done]).
  unfold P in H. rewrite Hx in H. simpl in H. lia.
Qed.

Lemma digit_value_dec c : dec_digit c -> digit_of 10 c /\ digit_value c = c - 48.
Proof.
  unfold dec_digit. intros Hc. assert (Hb : byte c) by (unfold byte; lia).
  set (P := fun c => negb ((48 <=? c) && (c <=? 57)) || isxdigit c && (digit_value c =? c - 48)).
  assert (H : P c = true) by (apply byte_forall; [vm_compute; reflexivity|done]).
  unfold P in H. rewrite (proj2 (Z.leb_le 48 c)), (proj2 (Z.leb_le c 57)) in H by lia. simpl in H.
  unfold digit_of. destruct (isxdigit c); [|done]. simpl in H. split_and!; try done; lia.
Qed.

Lemma u32_mul_add a b c : u32 (u32 a * b + c) = u32 (a * b + c).
Proof. unfold u32. rewrite Z.add_mod, Z.mul_mod_idemp_l, <- Z.add_mod by lia. done. Qed.

Lemma strtoul_stop base rest r : 2 <= base <= 16 -> stops base rest -> Forall byte rest ->
  strtoul_loop u32 rest base r = (r, rest).
Proof.
  intros Hb Hs Hr. destruct rest as [|c rest]; [done|]. simpl in *. apply Forall_cons in Hr as [Hc _].
  destruct (isxdigit c) eqn:Hx; [|done]. pose proof (digit_value_range c Hc Hx). rewrite u32_small by lia.
  destruct Hs as [[|Hs] _]; [done|]. destruct (Z.ltb_spec (digit_value c) base); [lia|done].
Qed.

Lemma strtoul_loop_digits base ds : forall rest r,
  2 <= base <= 16 -> Forall (digit_of base) ds -> stops base rest -> Forall byte rest ->
  strtoul_loop u32 (ds ++ rest) base (u32 r) = (u32 (digits_value base ds r), rest).
Proof.
  induction ds as [|c ds IH]; intros rest r Hb Hd Hs Hr; [by apply strtoul_stop|].
  apply Forall_cons in Hd as [(Hc & Hx & Hv) Hd]. pose proof (digit_value_range c Hc Hx).
  simpl. rewrite Hx, (u32_small (digit_value c)) by lia. destruct (Z.ltb_spec (digit_value c) base); [|lia].
  simpl. rewrite u32_mul_add. by apply IH.
Qed.

Lemma stops_not_x base rest : stops base rest -> (deref rest =? ch "x") = false.
Proof. destruct rest as [|c rest]; [done|]. intros [_ H]. by apply Z.eqb_neq. Qed.

Lemma digit_not_x base c : digit_of base c -> (c =? ch "x") = false.
Proof. intros (_ & Hx & _). destruct (Z.eqb_spec c (ch "x")) as [->|]; [by vm_compute in Hx|done]. Qed.

Lemma strtoul_digits base ds rest :
  2 <= base <= 16 -> ds <> [] -> Forall (digit_of base) ds -> stops base rest -> Forall byte rest ->
  simple_strtoul (ds ++ rest) base = (u32 (digits_value base ds 0), rest).
Proof.
  intros Hb Hne Hd Hs Hr. unfold simple_strtoul, strtoul_prefix.
  destruct ds as [|c ds]; [done|]. simpl app. simpl deref. simpl tl.
  assert (E0 : (base =? 0) = false) by lia.
  destruct (Z.eqb_spec c (ch "0")) as [->|Hc].
  - replace (deref (ds ++ rest) =? ch "x") with false.
    + simpl andb. cbv iota. rewrite E0, E0. change 0 with (u32 0).
      apply Forall_cons in Hd as [_ Hd]. by rewrite strtoul_loop_digits.
    + apply Forall_cons in Hd as [_ Hd]. destruct ds as [|d ds]; simpl; [by rewrite (stops_not_x base)|].
      apply Forall_cons in Hd as [Hd _]. by rewrite (digit_not_x base).
  - rewrite E0. change (strtoul_loop u32 ((c :: ds) ++ rest) base (u32 0) = (u32 (digits_value base (c :: ds) 0), rest)).
    by apply strtoul_loop_digits.
Qed.

Lemma strtoul_0x ds rest base :
  ds <> [] -> Forall (digit_of 16) ds -> stops 16 rest -> Forall byte rest ->
  simple_strtoul (ch "0" :: ch "x" :: ds ++ rest) base = (u32 (digits_value 16 ds 0), rest).
Proof.
  intros Hne Hd Hs Hr. unfold simple_strtoul, strtoul_prefix. destruct ds as [|c ds]; [done|].
  cbn [deref tl app]. rewrite !Z.eqb_refl. pose proof Hd as Hd'. apply Forall_cons in Hd' as [(_ & Hx & _) _]. rewrite Hx.
  simpl andb. cbv iota. change (16 =? 0) with false. cbv iota.
  change (strtoul_loop u32 ((c :: ds) ++ rest) 16 (u32 0) = (u32 (digits_value 16 (c :: ds) 0), rest)).
  apply strtoul_loop_digits; try done.
Qed.

(** [simple_strtoul] reads the digits of its base up to the first character
    that is none, modulo 2^32, and leaves [endp] there; after "0x" it reads
    hexadecimal whatever base was asked for. *)
Theorem simple_strtoul_correct base ds rest :
  2 <= base <= 16 -> ds <> [] -> Forall (digit_of base) ds -> stops base rest -> Forall byte rest ->
  simple_strtoul (ds ++ rest) base = (u32 (digits_value base ds 0), rest) /\
  (base = 16 -> forall b, simple_strtoul (ch "0" :: ch "x" :: ds ++ rest) b = (u32 (digits_value 16 ds 0), rest)).
Proof. intros. split; [by apply strtoul_digits|]. intros -> b. by apply strtoul_0x. Qed.

(** ** Printed numbers read back *)

Lemma digits_value_app base l1 l2 r : digits_value base (l1 ++ l2) r = digits_value base l2 (digits_value base l1 r).
Proof. apply fold_left_app. Qed.

Lemma dec_value_rev l : Forall dec_digit l -> digits_value 10 (rev l) 0 = dec_value l.
Proof.
  induction l as [|c l IH]; intros Hl; [done|]. apply Forall_cons in Hl as [Hc Hl]. simpl rev.
  rewrite digits_value_app, IH by done. unfold digits_value. simpl.
  destruct (digit_value_dec c Hc) as [_ ->]. lia.
Qed.

Lemma put_dec_digits num :
  0 <= num < 18446744073709551616 ->
  let ds := rev (put_dec num) in
  ds <> [] /\ Forall (digit_of 10) ds /\ digits_value 10 ds 0 = num.
Proof.
  intros Hn. assert (H : dec_digits num (put_dec num)) by (apply put_dec_loop_spec; [done|change (Z.of_nat 5) with 5; lia|lia]).
  destruct H as (V & D & Nn & _). cbv zeta. split_and!.
  - intros E. apply Nn. apply (f_equal (@rev Z)) in E. by rewrite rev_involutive in E.
  - apply Forall_rev. eapply Forall_impl; [exact D|]. intros c Hc. by apply digit_value_dec.
  - by rewrite dec_value_rev.
Qed.

(** The hexadecimal digits, in either case. *)
Lemma hex_digit_char d locase : 0 <= d < 16 -> locase = 0 \/ locase = 32 ->
  let c := Z.lor (nth (Z.to_nat d) digits 0) locase in digit_of 16 c /\ digit_value c = d.
Proof.
  intros Hd Hl.
  assert (H : forallb (fun d => forallb (fun lc => let c := Z.lor (nth (Z.to_nat d) digits 0) lc in
      (0 <=? c) && (c <? 256) && isxdigit c && (digit_value c =? d)) [0; 32]) (seqZ 0 16) = true)
    by (vm_compute; reflexivity).
  rewrite forallb_forall in H. specialize (H d). rewrite forallb_forall in H.
  specialize (H ltac:(apply list_elem_of_In, elem_of_seqZ; lia) locase).
  cbv zeta in *. specialize (H ltac:(destruct Hl as [->| ->]; [by left|right; by left])).
  rewrite !andb_true_iff in H. unfold digit_of, byte. destruct H as (((? & ?) & ?) & ?). split_and!; try done; lia.
Qed.

Lemma digit_loop_hex locase fuel : locase = 0 \/ locase = 32 -> forall num,
  0 <= num < 16 ^ Z.of_nat fuel -> (0 < fuel)%nat ->
  let ds := rev (digit_loop fuel num 15 4 locase) in
  ds <> [] /\ Forall (digit_of 16) ds /\ digits_value 16 ds 0 = num.
Proof.
  intros Hl. induction fuel as [|fuel IH]; intros num Hn Hpos; [lia|]. cbv zeta. cbn [digit_loop].
  assert (Eu : Z.land (u8 num) 15 = num mod 16).
  { change 15 with (Z.ones 4). rewrite Z.land_ones by lia. unfold u8. change (2 ^ 4) with 16. zmod. }
  rewrite Eu. destruct (hex_digit_char (num mod 16) locase) as [Hd Hv]; [zmod|done|].
  set (c := Z.lor _ locase) in *. rewrite Z.shiftr_div_pow2 by lia. change (2 ^ 4) with 16.
  destruct (Z.eqb_spec (num / 16) 0); simpl negb; cbv iota.
  - simpl. split_and!; [done|by constructor|]. unfold digits_value. simpl. rewrite Hv. zmod.
  - rewrite Nat2Z.inj_succ, Z.pow_succ_r in Hn by lia.
    destruct fuel as [|fuel]; [change (16 ^ Z.of_nat 0) with 1 in Hn; zmod|].
    destruct (IH (num / 16)) as (_ & Hf & Hval); [split; [zmod|apply Z.div_lt_upper_bound; lia]|lia|].
    set (L := digit_loop (S fuel) _ _ _ _) in *. clearbody L. simpl rev. split_and!.
    + intros E. by apply app_eq_nil in E as [_ E].
    + apply Forall_app. split; [done|by constructor].
    + rewrite digits_value_app, Hval. unfold digits_value. simpl. rewrite Hv. zmod.
Qed.

(** ** The layout of a printed number *)

Lemma has_land t a b : has (Z.land t a) b = has t (Z.land a b).
Proof. unfold has. by rewrite Z.land_assoc. Qed.

Lemma has_or t a b : has t (Z.lor a b) = has t a || has t b.
Proof.
  unfold has. rewrite Z.land_lor_distr_r. destruct (Z.eqb_spec (Z.lor (Z.land t a) (Z.land t b)) 0) as [E|E].
  - apply Z.lor_eq_0_iff in E as [-> ->]. done.
  - destruct (Z.eqb_spec (Z.land t a) 0) as [Ea|]; [|done]. destruct (Z.eqb_spec (Z.land t b) 0) as [Eb|]; [|done].
    by rewrite Ea, Eb in E.
Qed.

Lemma clear_zeropad type :
  let t := if has type LEFT then Z.land type (Z.lnot ZEROPAD) else type in
  has t SIGN = has type SIGN /\ has t PLUS = has type PLUS /\ has t SPACE = has type SPACE /\
  has t LEFT = has type LEFT /\ has t ZEROPAD = has type ZEROPAD && negb (has type LEFT) /\
  has t (ZEROPAD + LEFT) = has type ZEROPAD || has type LEFT.
Proof.
  cbv zeta. change (ZEROPAD + LEFT) with (Z.lor ZEROPAD LEFT). destruct (has type LEFT) eqn:EL; rewrite !has_or.
  - rewrite !has_land.
    change (Z.land (Z.lnot ZEROPAD) SIGN) with SIGN. change (Z.land (Z.lnot ZEROPAD) PLUS) with PLUS.
    change (Z.land (Z.lnot ZEROPAD) SPACE) with SPACE. change (Z.land (Z.lnot ZEROPAD) LEFT) with LEFT.
    change (Z.land (Z.lnot ZEROPAD) ZEROPAD) with 0.
    replace (has type 0) with false by (unfold has; by rewrite Z.land_0_r).
    rewrite EL. cbn [negb]. rewrite andb_false_r, !orb_true_r. split_and!; done.
  - rewrite EL, andb_true_r. by split_and!.
Qed.

Lemma number_layout num base size precision type :
  number num base size precision type =
  (let '(sign, n) := num_sign type num in
   let pfx := num_prefix type base in
   let ds := num_digits n base (Z.land type SMALL) in
   let zeros := replicate (Z.to_nat precision - length ds) (ch "0") in
   let fill := (Z.to_nat size - (length sign + length pfx + length zeros + length ds))%nat in
   (if has type ZEROPAD || has type LEFT then [] else replicate fill (ch " ")) ++ sign ++ pfx ++
   (if has type ZEROPAD && negb (has type LEFT) then replicate fill (ch "0") else []) ++ zeros ++ ds ++
   (if has type LEFT then replicate fill (ch " ") else [])).
Proof.
  unfold number. destruct (clear_zeropad type) as (E1 & E2 & E3 & E4 & E5 & E6).
  set (t := if has type LEFT then _ else type) in *. cbv zeta. rewrite E1, E2, E3, E4, E5, E6. clear E1 E2 E3 E4 E5 E6 t.
  set (trip := if has type SIGN then _ else ([], num, size)).
  assert (Ht : trip = (fst (num_sign type num), snd (num_sign type num), size - Z.of_nat (length (fst (num_sign type num))))).
  { unfold trip, num_sign. destruct (has type SIGN); [|simpl; by rewrite Z.sub_0_r].
    destruct (s64 num <? 0); [done|]. destruct (has type PLUS); [done|]. destruct (has type SPACE); [done|].
    simpl. by rewrite Z.sub_0_r. }
  rewrite Ht. clear Ht trip. destruct (num_sign type num) as [sign n]. cbn [fst snd].
  set (size1 := if has type SPECIAL && negb (base =? 10) then _ else size - _).
  assert (Hs : size1 = size - Z.of_nat (length sign) - Z.of_nat (length (num_prefix type base))).
  { unfold size1, num_prefix. destruct (has type SPECIAL && negb (base =? 10)); [|simpl; lia].
    destruct (base =? 16); simpl; lia. }
  fold (num_prefix type base). clearbody size1. subst size1. unfold num_digits.
  set (tmp := if n =? 0 then _ else _). rewrite (length_rev tmp). unfold pad_loop. rewrite !length_replicate.
  set (len := length tmp). destruct (Z.ltb_spec precision (Z.of_nat len)) as [Hp|Hp].
  - replace (Z.to_nat precision - len)%nat with 0%nat by lia. rewrite Z.sub_diag. change (Z.to_nat 0) with 0%nat. cbn [replicate app].
    destruct (has type ZEROPAD), (has type LEFT); cbn [orb andb negb]; repeat rewrite (Z2Nat.nonpos (Z.min _ _ - 1)) by lia;
      cbn [replicate app]; rewrite ?app_nil_r; repeat f_equal; lia.
  - destruct (has type ZEROPAD), (has type LEFT); cbn [orb andb negb]; repeat rewrite (Z2Nat.nonpos (Z.min _ _ - 1)) by lia;
      cbn [replicate app]; rewrite ?app_nil_r; repeat f_equal; lia.
Qed.

(** A number takes exactly the field width, or as many characters as its sign,
    prefix, precision and digits need when that is more; nothing is cut. *)
Theorem number_length num base size precision type :
  let '(sign, n) := num_sign type num in
  Z.of_nat (length (number num base size precision type)) =
    Z.max size (Z.of_nat (length sign) + Z.of_nat (length (num_prefix type base)) +
                Z.max precision (Z.of_nat (length (num_digits n base (Z.land type SMALL))))).
Proof.
  rewrite number_layout. destruct (num_sign type num) as [sign n]. cbv zeta.
  rewrite !length_app, length_replicate.
  destruct (has type ZEROPAD), (has type LEFT); cbn [orb andb negb length]; rewrite ?length_replicate; lia.
Qed.

(** Evaluates the tests on known flags. *)
Ltac flags :=
  repeat match goal with
  | |- context [has ?a ?b] => let v := eval vm_compute in (has a b) in change (has a b) with v
  end; cbn [andb orb negb app fst snd].

Lemma number_dec num : 0 <= num < 18446744073709551616 -> number num 10 (-1) (-1) 0 = rev (put_dec num).
Proof.
  intros Hn. rewrite number_layout. unfold num_sign, num_prefix. flags.
  rewrite app_nil_r. unfold num_digits. by destruct (Z.eqb_spec num 0) as [->|].
Qed.

Lemma number_dec_signed num :
  -9223372036854775808 <= num < 9223372036854775808 ->
  number (u64 num) 10 (-1) (-1) SIGN = (if num <? 0 then ch "-" :: rev (put_dec (- num)) else rev (put_dec num)).
Proof.
  intros Hn. assert (Hs : s64 (u64 num) = num) by (unfold s64, u64; cbv zeta; btest; zmod).
  rewrite number_layout. unfold num_sign, num_prefix. rewrite Hs. flags.
  destruct (Z.ltb_spec num 0); cbn [app]; rewrite app_nil_r; unfold num_digits; rewrite u64_small by lia.
  - by destruct (Z.eqb_spec (- num) 0); [lia|].
  - by destruct (Z.eqb_spec num 0) as [->|].
Qed.

Lemma number_hex num :
  0 <= num < 18446744073709551616 -> number num 16 (-1) (-1) SMALL = rev (digit_loop 22 num 15 4 32).
Proof.
  intros Hn. rewrite number_layout. unfold num_sign, num_prefix. flags.
  rewrite app_nil_r. unfold num_digits. by destruct (Z.eqb_spec num 0) as [->|].
Qed.

(** C33: What "%d", "%lu" and "%lx" print, [simple_strtol] and [simple_strtoul] read
    back, with the same text after it. *)
Theorem sprintf_strtoul_roundtrip n rest :
  Forall byte rest ->
  (stops 10 rest -> exists out, sprintf false (zs "%d") [A_int n] = Ok (out, []) /\
     simple_strtol (out ++ rest) 10 = (s32 n, rest)) /\
  (stops 10 rest -> exists out, sprintf false (zs "%lu") [A_int n] = Ok (out, []) /\
     simple_strtoul (out ++ rest) 10 = (u32 n, rest)) /\
  (stops 16 rest -> exists out, sprintf false (zs "%lx") [A_int n] = Ok (out, []) /\
     simple_strtoul (out ++ rest) 16 = (u32 n, rest)).
Proof.
  intros Hr. pose proof (u32_range n) as Hu.
  assert (Hs : -2147483648 <= s32 n < 2147483648) by (unfold s32, u32; cbv zeta; btest; zmod).
  assert (Hss : s32 (u32 n) = s32 n) by (unfold s32, u32; cbv zeta; rewrite Z.mod_mod by lia; done).
  split_and!; intros Hstop; eexists; (split; [reflexivity|]).
  - change (simple_strtol (number (u64 (s32 (u32 n))) 10 (-1) (-1) SIGN ++ rest) 10 = (s32 n, rest)).
    rewrite Hss, number_dec_signed by lia. unfold simple_strtol. destruct (Z.ltb_spec (s32 n) 0).
    + cbn [app deref tl]. rewrite Z.eqb_refl.
      destruct (put_dec_digits (- s32 n)) as (Hne & Hd & Hv); [lia|].
      rewrite strtoul_digits by (done || lia). rewrite Hv, u32_small by lia. f_equal. rewrite s32_small; lia.
    + destruct (put_dec_digits (s32 n)) as (Hne & Hd & Hv); [lia|]. set (ds := rev _) in *. clearbody ds.
      assert (Hdash : (deref (ds ++ rest) =? ch "-") = false).
      { destruct ds as [|c ds]; [done|]. apply Forall_cons in Hd as [(_ & Hx & _) _]. simpl.
        destruct (Z.eqb_spec c (ch "-")) as [->|]; [by vm_compute in Hx|done]. }
      rewrite Hdash, strtoul_digits by (done || lia). rewrite Hv, u32_small by lia. f_equal. by rewrite s32_small.
  - change (simple_strtoul (number (u32 n) 10 (-1) (-1) 0 ++ rest) 10 = (u32 n, rest)).
    rewrite number_dec by lia. destruct (put_dec_digits (u32 n)) as (Hne & Hd & Hv); [lia|].
    rewrite strtoul_digits by (done || lia). by rewrite Hv, (u32_small (u32 n)).
  - change (simple_strtoul (number (u32 n) 16 (-1) (-1) SMALL ++ rest) 16 = (u32 n, rest)).
    rewrite number_hex by lia.
    destruct (digit_loop_hex 32 22 ltac:(by right) (u32 n)) as (Hne & Hd & Hv);
      [change (Z.of_nat 22) with 22; lia|lia|].
    rewrite strtoul_digits by (done || lia). by rewrite Hv, (u32_small (u32 n)).
Qed.

(** A string without width and precision. *)
Lemma string_plain n : Z.of_nat (length n) < 4294967295 -> string (Some n) (-1) (-1) 0 = n.
Proof.
  intros Hl. unfold string, field_loop. change (u32 (-1)) with 4294967295. rewrite Z.min_l by lia.
  change (negb (has 0 LEFT)) with true. cbv iota beta zeta. replace (Z.to_nat (-1 - Z.of_nat (length n))) with 0%nat by lia.
  replace (Z.to_nat (Z.min (-1) (Z.of_nat (length n)) - 1 - Z.of_nat (length n))) with 0%nat by lia. cbn [replicate app].
  by rewrite Nat2Z.id, firstn_all, app_nil_r.
Qed.

(** ** IP addresses *)

Lemma put_dec_trunc_digits b :
  byte b -> let ds := rev (put_dec_trunc b) in ds <> [] /\ Forall (digit_of 10) ds /\ digits_value 10 ds 0 = b.
Proof.
  unfold byte. intros Hb. replace (put_dec_trunc b) with (put_dec b); [apply put_dec_digits; lia|].
  unfold put_dec. cbn [put_dec_loop]. destruct (Z.ltb_spec b 100000); [|lia]. by rewrite u32_small by lia.
Qed.

Lemma htonl_bytes b0 b1 b2 b3 :
  byte b0 -> byte b1 -> byte b2 -> byte b3 ->
  htonl (((b0 * 256 + b1) * 256 + b2) * 256 + b3) = b0 + 256 * b1 + 65536 * b2 + 16777216 * b3.
Proof.
  unfold byte. intros H0 H1 H2 H3. unfold htonl. set (x := ((b0 * 256 + b1) * 256 + b2) * 256 + b3).
  change 0xFF00 with (Z.shiftl (Z.ones 8) 8). change 0xFF0000 with (Z.shiftl (Z.ones 8) 16).
  change 0xFF000000 with (Z.shiftl (Z.ones 8) 24). change 0xFF with (Z.ones 8).
  rewrite Z.land_ones, !land_mask_shift by lia.
  change (2 ^ 8) with 256. change (2 ^ 16) with 65536. change (2 ^ 24) with 16777216.
  replace (x mod 256) with b3 by (unfold x; zmod). replace (x / 256 mod 256) with b2 by (unfold x; zmod).
  replace (x / 65536 mod 256) with b1 by (unfold x; zmod). replace (x / 16777216 mod 256) with b0 by (unfold x; zmod).
  rewrite Z.shiftl_shiftl by lia. rewrite (Z.shiftr_shiftl_l b1), (Z.shiftr_shiftl_l b0) by lia.
  change (8 + 8) with 16. change (16 - 8) with 8. change (24 - 24) with 0. rewrite (Z.shiftl_0_r b0).
  rewrite (lor_shiftl_add b1 b0 8) by lia. change (2 ^ 8) with 256.
  rewrite (lor_shiftl_add b2 _ 16) by lia. change (2 ^ 16) with 65536.
  rewrite (lor_shiftl_add b3 _ 24) by lia. change (2 ^ 24) with 16777216. lia.
Qed.

Lemma stops_dot l : stops 10 (ch "." :: l).
Proof. split; [by left|done]. Qed.

Lemma string_to_ip_step n b l addr :
  byte b -> 0 <= addr < 16777216 -> Forall byte l -> stops 10 l ->
  string_to_ip_loop (S n) (rev (put_dec_trunc b) ++ l) addr =
  string_to_ip_loop n (if negb (deref l =? 0) then tl l else l) (addr * 256 + b).
Proof.
  intros Hb Ha Hl Hs. destruct (put_dec_trunc_digits b Hb) as (Hne & Hd & Hv). cbn [string_to_ip_loop].
  unfold byte in Hb. rewrite strtoul_digits by (done || lia). rewrite Hv, (u32_small b) by lia.
  f_equal. change 0xFF with (Z.ones 8). rewrite Z.land_ones by lia. change (2 ^ 8) with 256.
  rewrite (Z.mod_small b) by lia. rewrite u32_small by (rewrite Z.shiftl_mul_pow2; lia).
  by rewrite lor_shiftl_add.
Qed.

Lemma dec_digits_bytes b : byte b -> Forall byte (rev (put_dec_trunc b)).
Proof.
  intros Hb. destruct (put_dec_trunc_digits b Hb) as (_ & Hd & _). eapply Forall_impl; [exact Hd|]. by intros c [? _].
Qed.

(** What "%pI4" prints for four bytes of memory, [string_to_ip] reads back as
    the word that those bytes are in memory (network order). *)
Theorem ip4_roundtrip b0 b1 b2 b3 :
  byte b0 -> byte b1 -> byte b2 -> byte b3 ->
  exists text, sprintf true (zs "%pI4") [A_ptr 1 [b0; b1; b2; b3]] = Ok (text, []) /\
    string_to_ip (Some text) = b0 + 256 * b1 + 65536 * b2 + 16777216 * b3.
Proof.
  intros H0 H1 H2 H3.
  eexists. split; [reflexivity|].
  match goal with |- string_to_ip (Some ?t) = _ =>
    assert (Et : string_to_ip (Some t) = string_to_ip (Some (string (Some (rev (put_dec_trunc b0) ++ [ch "."] ++
      rev (put_dec_trunc b1) ++ [ch "."] ++ rev (put_dec_trunc b2) ++ [ch "."] ++ rev (put_dec_trunc b3) ++ [] ++ []))
      (-1) (-1) 0))) by reflexivity
  end.
  refine (eq_trans Et _). clear Et. cbn [app].
  set (s := rev (put_dec_trunc b0) ++ _).
  assert (Hlen : Z.of_nat (length s) < 4294967295).
  { assert (Hn : forall b, byte b -> (length (put_dec_trunc b) <= 5)%nat).
    { intros b _. unfold put_dec_trunc. repeat case_match; simpl; lia. }
    unfold s. rewrite !length_app, !length_cons, !length_app, !length_cons, !length_app, !length_cons, !length_app, !length_rev.
    pose proof (Hn b0 H0). pose proof (Hn b1 H1). pose proof (Hn b2 H2). pose proof (Hn b3 H3). cbn [length]. lia. }
  assert (Es : string (Some s) (-1) (-1) 0 = s).
  { unfold string. change (u32 (-1)) with 4294967295. rewrite Z.min_l by lia. change (has 0 LEFT) with false.
    cbn [negb]. unfold field_loop.
    rewrite Nat2Z.id, firstn_all. do 2 rewrite Z2Nat.nonpos by lia. apply app_nil_r. }
  rewrite Es. unfold string_to_ip, s. pose proof dec_digits_bytes as Hdb.
  assert (Hdot : byte (ch ".")) by (by vm_compute).
  assert (B3 : Forall byte (ch "." :: rev (put_dec_trunc b3) ++ []))
    by (constructor; [done|]; apply Forall_app; split; [by apply Hdb|constructor]).
  assert (B2 : Forall byte (ch "." :: rev (put_dec_trunc b2) ++ ch "." :: rev (put_dec_trunc b3) ++ []))
    by (constructor; [done|]; apply Forall_app; split; [by apply Hdb|done]).
  assert (B1 : Forall byte (ch "." :: rev (put_dec_trunc b1) ++ ch "." :: rev (put_dec_trunc b2) ++
      ch "." :: rev (put_dec_trunc b3) ++ []))
    by (constructor; [done|]; apply Forall_app; split; [by apply Hdb|done]).
  unfold byte in H0, H1, H2, H3.
  rewrite (string_to_ip_step 3 b0) by (try apply stops_dot; try done; lia). change (negb (deref (ch "." :: _) =? 0)) with true. cbn [tl].
  rewrite (string_to_ip_step 2 b1) by (try apply stops_dot; try done; lia). change (negb (deref (ch "." :: _) =? 0)) with true. cbn [tl].
  rewrite (string_to_ip_step 1 b2) by (try apply stops_dot; try done; lia). change (negb (deref (ch "." :: _) =? 0)) with true. cbn [tl].
  rewrite (string_to_ip_step 0 b3) by (done || lia || constructor). cbn [string_to_ip_loop].
  rewrite Z.mul_0_l, Z.add_0_l. by apply htonl_bytes.
Qed.

Lemma ip4_roundtrip_witness :
  exists text, sprintf true (zs "%pI4") [A_ptr 1 [192; 168; 0; 10]] = Ok (text, []) /\
    string_to_ip (Some text) = 192 + 256 * 168 + 65536 * 0 + 16777216 * 10.
Proof. apply ip4_roundtrip; unfold byte; lia. Defined.

(** ** Termination *)

Lemma skip_atoi_loop_length s i : (length (snd (skip_atoi_loop s i)) <= length s)%nat.
Proof. revert i. induction s as [|c s IH]; intros i; simpl; [lia|]. case_match; [|simpl; lia]. specialize (IH (s32 (i * 10 + c - ch "0"))). lia. Qed.

Lemma parse_flags_length fmt flags : (length (snd (parse_flags fmt flags)) <= length fmt)%nat.
Proof.
  revert flags. induction fmt as [|c fmt IH]; intros flags; simpl; [lia|].
  repeat case_match; try (etrans; [apply IH|lia]). simpl. lia.
Qed.

Lemma tl_length (l : list Z) : (length (tl l) <= length l)%nat.
Proof. destruct l; simpl; lia. Qed.

Lemma skip_alnum_length l : (length (skip_alnum l) <= length l)%nat.
Proof. induction l as [|c l IH]; simpl; [lia|]. case_match; simpl; lia. Qed.

(** A part of a conversion: it is not out of fuel, and when it succeeds [f] of
    the result is no longer than [n]. *)
Definition shrinks {A} (f : A -> list Z) (n : nat) (r : res A) : Prop :=
  match r with Ok a => (length (f a) <= n)%nat | Fault => True | OutOfFuel => False end.

Lemma shrinks_bind {A B} (g : B -> list Z) n (m : res A) (k : A -> res B) :
  (forall a, m = Ok a -> shrinks g n (k a)) -> m <> OutOfFuel -> shrinks g n (m ≫= k).
Proof. intros Hk Hm. destruct m; simpl; [by apply Hk|done|done]. Qed.

Lemma va_not_fuel args :
  va_int args <> OutOfFuel /\ va_long_long args <> OutOfFuel /\ va_str args <> OutOfFuel /\
  va_ptr args <> OutOfFuel /\ va_out args <> OutOfFuel.
Proof. destruct args as [|[]]; split_and!; done. Qed.

Lemma parse_width_shrinks fmt flags args :
  shrinks (fun '(_, _, fmt', _) => fmt') (length fmt) (parse_width fmt flags args).
Proof.
  unfold parse_width. pose proof (skip_atoi_loop_length fmt 0) as Hs. fold (skip_atoi fmt) in Hs.
  destruct (is_digit (deref fmt)); [by destruct (skip_atoi fmt)|].
  destruct (_ =? _); [|simpl; lia].
  apply shrinks_bind; [|apply va_not_fuel]. intros [w a] _. pose proof (tl_length fmt). case_match; simpl; lia.
Qed.

Lemma parse_precision_shrinks fmt args :
  shrinks (fun '(_, fmt', _) => fmt') (length fmt) (parse_precision fmt args).
Proof.
  unfold parse_precision. destruct (_ =? _); [|simpl; lia]. cbv zeta.
  pose proof (tl_length fmt) as Ht. set (f := tl fmt) in *. clearbody f.
  pose proof (skip_atoi_loop_length f 0) as Hs. fold (skip_atoi f) in Hs. pose proof (tl_length f).
  destruct (is_digit (deref f)); [destruct (skip_atoi f); simpl in *; lia|].
  destruct (_ =? _); [|simpl; lia]. destruct (va_int args) as [[w a]| |] eqn:E; simpl; try done; [lia|].
  by apply va_not_fuel in E.
Qed.

Lemma parse_qualifier_length fmt : (length (snd (parse_qualifier fmt)) <= length fmt)%nat.
Proof.
  unfold parse_qualifier. pose proof (tl_length fmt). pose proof (tl_length (tl fmt)).
  repeat case_match; simpl; lia.
Qed.

Lemma mac_loop_fuel n : forall i addr flags, mac_loop n i addr flags <> OutOfFuel.
Proof.
  induction n as [|n IH]; intros i addr flags; [done|]. cbn [mac_loop]. unfold byte_at, arr_get.
  destruct (addr !! i); [|done]. cbn. specialize (IH (i + 1)%nat addr flags). by destruct (mac_loop _ _ _ _).
Qed.
Lemma ip6_loop_fuel n : forall i addr flags, ip6_loop n i addr flags <> OutOfFuel.
Proof.
  induction n as [|n IH]; intros i addr flags; [done|]. cbn [ip6_loop]. unfold byte_at, arr_get.
  destruct (addr !! (2 * i)%nat); [|done]. destruct (addr !! (2 * i + 1)%nat); [|done].
  cbn -[Nat.mul]. specialize (IH (i + 1)%nat addr flags). by destruct (ip6_loop _ _ _ _).
Qed.
Lemma ip4_loop_fuel n : forall i addr, ip4_loop n i addr <> OutOfFuel.
Proof.
  induction n as [|n IH]; intros i addr; [done|]. cbn [ip4_loop]. unfold byte_at, arr_get.
  destruct (addr !! i); [|done]. cbn -[put_dec_trunc]. specialize (IH (i + 1)%nat addr). by destruct (ip4_loop _ _ _).
Qed.

Lemma pointer_fuel net fmt p m w pr fl : pointer net fmt p m w pr fl <> OutOfFuel.
Proof.
  unfold pointer, mac_address_string, ip6_addr_string, ip4_addr_string.
  destruct (p =? 0); [done|]. destruct net; cbn [negb]; [|by case_match].
  destruct (_ || _).
  { pose proof (mac_loop_fuel 6 0 m). destruct (deref fmt =? ch "m"); (edestruct (mac_loop 6 0 m _) eqn:E; try done; by apply H in E). }
  destruct (_ || _); [|by case_match].
  destruct (_ =? _).
  { pose proof (ip6_loop_fuel 8 0 m). edestruct (ip6_loop 8 0 m _) eqn:E; try done. by apply H in E. }
  destruct (_ =? _); [|by case_match].
  pose proof (ip4_loop_fuel 4 0 m). by destruct (ip4_loop 4 0 m).
Qed.

Lemma conversion_shrinks net fmt args w : shrinks c_fmt (length fmt) (conversion net fmt args w).
Proof.
  unfold conversion. pose proof (parse_flags_length fmt 0) as H0. destruct (parse_flags fmt 0) as [flags f0]. simpl in H0.
  pose proof (parse_width_shrinks f0 flags args) as H1.
  apply shrinks_bind; [|by intros E; rewrite E in H1]. intros [[[fw fl] f1] a1] E1. rewrite E1 in H1. simpl in H1. clear E1.
  pose proof (parse_precision_shrinks f1 a1) as H2.
  apply shrinks_bind; [|by intros E; rewrite E in H2]. intros [[pr f2] a2] E2. rewrite E2 in H2. simpl in H2. clear E2.
  pose proof (parse_qualifier_length f2) as H3. destruct (parse_qualifier f2) as [q f3]. simpl in H3.
  pose proof (tl_length f3) as H4. pose proof (skip_alnum_length (tl f3)) as H5.
  destruct (va_not_fuel a2) as (V1 & V2 & V3 & V4 & V5).
  assert (Hi : forall b g, shrinks c_fmt (length fmt) (integer_conversion b q g fw pr (tl f3) a2)).
  { intros b g. unfold integer_conversion. apply shrinks_bind.
    - intros [n a] _. simpl. lia.
    - unfold fetch_num. destruct (_ =? _); [done|]. destruct (va_int a2) as [[]| |]; try done. simpl. by repeat case_match. }
  cbv zeta. repeat (destruct (deref f3 =? _); cbn [orb]; [|try (apply Hi); simpl]).
  all: try apply Hi; try (apply shrinks_bind; [|done]); intros; repeat case_match; simpl; try lia.
  all: apply shrinks_bind; [intros; simpl; lia|apply pointer_fuel].
Qed.

(** C39: [vsprintf] ends on every format and every argument list: each conversion
    consumes part of the format. *)
Theorem vsprintf_terminates net fmt args : vsprintf net fmt args <> OutOfFuel.
Proof.
  unfold vsprintf. assert (H : forall n f a o s, (length f <= n)%nat -> vsprintf_loop net n f a o s <> OutOfFuel).
  { induction n as [|n IH]; intros f a o s Hf; destruct f as [|c f]; simpl in Hf; try done; [lia|]. cbn [vsprintf_loop].
    destruct (negb _); [apply IH; lia|].
    pose proof (conversion_shrinks net f a (Z.of_nat (length o))) as Hc.
    destruct (conversion _ _ _ _) as [r| |]; cbn; [|done|done]. apply IH. simpl in Hc. lia. }
  by apply H.
Qed.

Lemma simple_strtoul_correct_witness :
  simple_strtoul (zs "1fF" ++ zs " rest") 16 = (u32 (digits_value 16 (zs "1fF") 0), zs " rest") /\
  (16 = 16 -> forall b, simple_strtoul (ch "0" :: ch "x" :: zs "1fF" ++ zs " rest") b =
                          (u32 (digits_value 16 (zs "1fF") 0), zs " rest")).
Proof.
  apply (simple_strtoul_correct 16 (zs "1fF") (zs " rest")).
  - lia.
  - done.
  - unfold digit_of, byte. repeat constructor; vm_compute; congruence.
  - split; [by left|done].
  - unfold byte. repeat constructor; vm_compute; congruence.
Defined.

Lemma sprintf_strtoul_roundtrip_witness :
  (stops 10 [] -> exists out, sprintf false (zs "%d") [A_int (-42)] = Ok (out, []) /\
     simple_strtol (out ++ []) 10 = (s32 (-42), [])) /\
  (stops 10 [] -> exists out, sprintf false (zs "%lu") [A_int (-42)] = Ok (out, []) /\
     simple_strtoul (out ++ []) 10 = (u32 (-42), [])) /\
  (stops 16 [] -> exists out, sprintf false (zs "%lx") [A_int (-42)] = Ok (out, []) /\
     simple_strtoul (out ++ []) 16 = (u32 (-42), [])).
Proof. apply (sprintf_strtoul_roundtrip (-42) []). constructor. Defined.
