(* ===== verification/Crc.v ===== *)
(** * Checksums (lib_generic/crc32.c, lib_generic/crc16.c)

    The table-driven CRCs of the environment, of image headers and of the
    X/YModem protocol, on a little-endian target.  A buffer is the list of its
    [len] bytes together with its address [p], whose alignment decides how
    [crc32_no_comp] splits it into words. *)

From S2P Require Import Prelude.

(** ** CRC-32 *)

(** [make_crc_table] (the [DYNAMIC_CRC_TABLE] variant). *)
Definition crc_terms : list Z := [0;1;2;4;5;7;8;10;11;12;16;22;23;26].
Definition crc_poly : Z := fold_left (fun poly n => Z.lor poly (Z.shiftl 1 (31 - n))) crc_terms 0.
Definition crc_step (c : Z) : Z :=
  if negb (Z.land c 1 =? 0) then Z.lxor crc_poly (Z.shiftr c 1) else Z.shiftr c 1.
Definition make_crc_table : list Z := map (fun n => Nat.iter 8 crc_step n) (seqZ 0 256).

Definition crc_table : list Z :=
  [0x00000000; 0x77073096; 0xee0e612c; 0x990951ba; 0x076dc419; 0x706af48f; 0xe963a535; 0x9e6495a3;
   0x0edb8832; 0x79dcb8a4; 0xe0d5e91e; 0x97d2d988; 0x09b64c2b; 0x7eb17cbd; 0xe7b82d07; 0x90bf1d91;
   0x1db71064; 0x6ab020f2; 0xf3b97148; 0x84be41de; 0x1adad47d; 0x6ddde4eb; 0xf4d4b551; 0x83d385c7;
   0x136c9856; 0x646ba8c0; 0xfd62f97a; 0x8a65c9ec; 0x14015c4f; 0x63066cd9; 0xfa0f3d63; 0x8d080df5;
   0x3b6e20c8; 0x4c69105e; 0xd56041e4; 0xa2677172; 0x3c03e4d1; 0x4b04d447; 0xd20d85fd; 0xa50ab56b;
   0x35b5a8fa; 0x42b2986c; 0xdbbbc9d6; 0xacbcf940; 0x32d86ce3; 0x45df5c75; 0xdcd60dcf; 0xabd13d59;
   0x26d930ac; 0x51de003a; 0xc8d75180; 0xbfd06116; 0x21b4f4b5; 0x56b3c423; 0xcfba9599; 0xb8bda50f;
   0x2802b89e; 0x5f058808; 0xc60cd9b2; 0xb10be924; 0x2f6f7c87; 0x58684c11; 0xc1611dab; 0xb6662d3d;
   0x76dc4190; 0x01db7106; 0x98d220bc; 0xefd5102a; 0x71b18589; 0x06b6b51f; 0x9fbfe4a5; 0xe8b8d433;
   0x7807c9a2; 0x0f00f934; 0x9609a88e; 0xe10e9818; 0x7f6a0dbb; 0x086d3d2d; 0x91646c97; 0xe6635c01;
   0x6b6b51f4; 0x1c6c6162; 0x856530d8; 0xf262004e; 0x6c0695ed; 0x1b01a57b; 0x8208f4c1; 0xf50fc457;
   0x65b0d9c6; 0x12b7e950; 0x8bbeb8ea; 0xfcb9887c; 0x62dd1ddf; 0x15da2d49; 0x8cd37cf3; 0xfbd44c65;
   0x4db26158; 0x3ab551ce; 0xa3bc0074; 0xd4bb30e2; 0x4adfa541; 0x3dd895d7; 0xa4d1c46d; 0xd3d6f4fb;
   0x4369e96a; 0x346ed9fc; 0xad678846; 0xda60b8d0; 0x44042d73; 0x33031de5; 0xaa0a4c5f; 0xdd0d7cc9;
   0x5005713c; 0x270241aa; 0xbe0b1010; 0xc90c2086; 0x5768b525; 0x206f85b3; 0xb966d409; 0xce61e49f;
   0x5edef90e; 0x29d9c998; 0xb0d09822; 0xc7d7a8b4; 0x59b33d17; 0x2eb40d81; 0xb7bd5c3b; 0xc0ba6cad;
   0xedb88320; 0x9abfb3b6; 0x03b6e20c; 0x74b1d29a; 0xead54739; 0x9dd277af; 0x04db2615; 0x73dc1683;
   0xe3630b12; 0x94643b84; 0x0d6d6a3e; 0x7a6a5aa8; 0xe40ecf0b; 0x9309ff9d; 0x0a00ae27; 0x7d079eb1;
   0xf00f9344; 0x8708a3d2; 0x1e01f268; 0x6906c2fe; 0xf762575d; 0x806567cb; 0x196c3671; 0x6e6b06e7;
   0xfed41b76; 0x89d32be0; 0x10da7a5a; 0x67dd4acc; 0xf9b9df6f; 0x8ebeeff9; 0x17b7be43; 0x60b08ed5;
   0xd6d6a3e8; 0xa1d1937e; 0x38d8c2c4; 0x4fdff252; 0xd1bb67f1; 0xa6bc5767; 0x3fb506dd; 0x48b2364b;
   0xd80d2bda; 0xaf0a1b4c; 0x36034af6; 0x41047a60; 0xdf60efc3; 0xa867df55; 0x316e8eef; 0x4669be79;
   0xcb61b38c; 0xbc66831a; 0x256fd2a0; 0x5268e236; 0xcc0c7795; 0xbb0b4703; 0x220216b9; 0x5505262f;
   0xc5ba3bbe; 0xb2bd0b28; 0x2bb45a92; 0x5cb36a04; 0xc2d7ffa7; 0xb5d0cf31; 0x2cd99e8b; 0x5bdeae1d;
   0x9b64c2b0; 0xec63f226; 0x756aa39c; 0x026d930a; 0x9c0906a9; 0xeb0e363f; 0x72076785; 0x05005713;
   0x95bf4a82; 0xe2b87a14; 0x7bb12bae; 0x0cb61b38; 0x92d28e9b; 0xe5d5be0d; 0x7cdcefb7; 0x0bdbdf21;
   0x86d3d2d4; 0xf1d4e242; 0x68ddb3f8; 0x1fda836e; 0x81be16cd; 0xf6b9265b; 0x6fb077e1; 0x18b74777;
   0x88085ae6; 0xff0f6a70; 0x66063bca; 0x11010b5c; 0x8f659eff; 0xf862ae69; 0x616bffd3; 0x166ccf45;
   0xa00ae278; 0xd70dd2ee; 0x4e048354; 0x3903b3c2; 0xa7672661; 0xd06016f7; 0x4969474d; 0x3e6e77db;
   0xaed16a4a; 0xd9d65adc; 0x40df0b66; 0x37d83bf0; 0xa9bcae53; 0xdebb9ec5; 0x47b2cf7f; 0x30b5ffe9;
   0xbdbdf21c; 0xcabac28a; 0x53b39330; 0x24b4a3a6; 0xbad03605; 0xcdd70693; 0x54de5729; 0x23d967bf;
   0xb3667a2e; 0xc4614ab8; 0x5d681b02; 0x2a6f2b94; 0xb40bbe37; 0xc30c8ea1; 0x5a05df1b; 0x2d02ef8d].

Definition tab_get (tab : list Z) (i : Z) : Z := nth (Z.to_nat i) tab 0.

(** The macro [DO_CRC(x)]; the index is masked to the table. *)
Definition DO_CRC (crc x : Z) : Z :=
  Z.lxor (tab_get crc_table (Z.land (Z.lxor crc x) 255)) (Z.shiftr crc 8).

(** [do DO_CRC( *p++) while (--len && p & 3)], for a non-empty buffer at [p]. *)
Fixpoint crc_align (crc p : Z) (buf : list Z) : Z * list Z :=
  match buf with
  | [] => (crc, [])
  | x :: buf' =>
      let crc := DO_CRC crc x in
      if negb (Z.land (p + 1) 3 =? 0) then crc_align crc (p + 1) buf' else (crc, buf')
  end.

(** One 32-bit load, exclusive-or and four shifts per word; the rest is left.
    [do_crc] is the macro. *)
Fixpoint crc_words (do_crc : Z -> Z -> Z) (crc : Z) (buf : list Z) : Z * list Z :=
  match buf with
  | b0 :: b1 :: b2 :: b3 :: buf' =>
      let crc := Z.lxor crc (b0 + 256 * b1 + 65536 * b2 + 16777216 * b3) in
      crc_words do_crc (do_crc (do_crc (do_crc (do_crc crc 0) 0) 0) 0) buf'
  | _ => (crc, buf)
  end.

Definition crc32_no_comp (crc p : Z) (buf : list Z) : Z :=
  let '(crc, buf) :=
    if negb (Z.land p 3 =? 0) && negb (Z.of_nat (length buf) =? 0) then crc_align crc p buf else (crc, buf) in
  let '(crc, buf) := crc_words DO_CRC crc buf in
  fold_left DO_CRC buf crc.

Definition crc32 (crc p : Z) (buf : list Z) : Z :=
  Z.lxor (crc32_no_comp (Z.lxor crc 0xffffffff) p buf) 0xffffffff.

(** With a watchdog, in chunks; each chunk of at least one byte advances. *)
Fixpoint crc32_wd_loop (fuel : nat) (crc p : Z) (buf : list Z) (chunk_sz : Z) : res Z :=
  match buf with
  | [] => Ok crc
  | _ =>
      match fuel with
      | O => OutOfFuel
      | S fuel' =>
          let chunk := Z.of_nat (length buf) in
          let chunk := if chunk_sz <? chunk then chunk_sz else chunk in
          crc32_wd_loop fuel' (crc32 crc p (take (Z.to_nat chunk) buf)) (p + chunk)
            (drop (Z.to_nat chunk) buf) chunk_sz
      end
  end.

Definition crc32_wd (watchdog : bool) (crc p : Z) (buf : list Z) (chunk_sz : Z) : res Z :=
  if watchdog then crc32_wd_loop (length buf) crc p buf chunk_sz else Ok (crc32 crc p buf).

(** ** CRC-16 *)

Definition crc16_tab : list Z :=
  [0x0000; 0x1021; 0x2042; 0x3063; 0x4084; 0x50a5; 0x60c6; 0x70e7;
   0x8108; 0x9129; 0xa14a; 0xb16b; 0xc18c; 0xd1ad; 0xe1ce; 0xf1ef;
   0x1231; 0x0210; 0x3273; 0x2252; 0x52b5; 0x4294; 0x72f7; 0x62d6;
   0x9339; 0x8318; 0xb37b; 0xa35a; 0xd3bd; 0xc39c; 0xf3ff; 0xe3de;
   0x2462; 0x3443; 0x0420; 0x1401; 0x64e6; 0x74c7; 0x44a4; 0x5485;
   0xa56a; 0xb54b; 0x8528; 0x9509; 0xe5ee; 0xf5cf; 0xc5ac; 0xd58d;
   0x3653; 0x2672; 0x1611; 0x0630; 0x76d7; 0x66f6; 0x5695; 0x46b4;
   0xb75b; 0xa77a; 0x9719; 0x8738; 0xf7df; 0xe7fe; 0xd79d; 0xc7bc;
   0x48c4; 0x58e5; 0x6886; 0x78a7; 0x0840; 0x1861; 0x2802; 0x3823;
   0xc9cc; 0xd9ed; 0xe98e; 0xf9af; 0x8948; 0x9969; 0xa90a; 0xb92b;
   0x5af5; 0x4ad4; 0x7ab7; 0x6a96; 0x1a71; 0x0a50; 0x3a33; 0x2a12;
   0xdbfd; 0xcbdc; 0xfbbf; 0xeb9e; 0x9b79; 0x8b58; 0xbb3b; 0xab1a;
   0x6ca6; 0x7c87; 0x4ce4; 0x5cc5; 0x2c22; 0x3c03; 0x0c60; 0x1c41;
   0xedae; 0xfd8f; 0xcdec; 0xddcd; 0xad2a; 0xbd0b; 0x8d68; 0x9d49;
   0x7e97; 0x6eb6; 0x5ed5; 0x4ef4; 0x3e13; 0x2e32; 0x1e51; 0x0e70;
   0xff9f; 0xefbe; 0xdfdd; 0xcffc; 0xbf1b; 0xaf3a; 0x9f59; 0x8f78;
   0x9188; 0x81a9; 0xb1ca; 0xa1eb; 0xd10c; 0xc12d; 0xf14e; 0xe16f;
   0x1080; 0x00a1; 0x30c2; 0x20e3; 0x5004; 0x4025; 0x7046; 0x6067;
   0x83b9; 0x9398; 0xa3fb; 0xb3da; 0xc33d; 0xd31c; 0xe37f; 0xf35e;
   0x02b1; 0x1290; 0x22f3; 0x32d2; 0x4235; 0x5214; 0x6277; 0x7256;
   0xb5ea; 0xa5cb; 0x95a8; 0x8589; 0xf56e; 0xe54f; 0xd52c; 0xc50d;
   0x34e2; 0x24c3; 0x14a0; 0x0481; 0x7466; 0x6447; 0x5424; 0x4405;
   0xa7db; 0xb7fa; 0x8799; 0x97b8; 0xe75f; 0xf77e; 0xc71d; 0xd73c;
   0x26d3; 0x36f2; 0x0691; 0x16b0; 0x6657; 0x7676; 0x4615; 0x5634;
   0xd94c; 0xc96d; 0xf90e; 0xe92f; 0x99c8; 0x89e9; 0xb98a; 0xa9ab;
   0x5844; 0x4865; 0x7806; 0x6827; 0x18c0; 0x08e1; 0x3882; 0x28a3;
   0xcb7d; 0xdb5c; 0xeb3f; 0xfb1e; 0x8bf9; 0x9bd8; 0xabbb; 0xbb9a;
   0x4a75; 0x5a54; 0x6a37; 0x7a16; 0x0af1; 0x1ad0; 0x2ab3; 0x3a92;
   0xfd2e; 0xed0f; 0xdd6c; 0xcd4d; 0xbdaa; 0xad8b; 0x9de8; 0x8dc9;
   0x7c26; 0x6c07; 0x5c64; 0x4c45; 0x3ca2; 0x2c83; 0x1ce0; 0x0cc1;
   0xef1f; 0xff3e; 0xcf5d; 0xdf7c; 0xaf9b; 0xbfba; 0x8fd9; 0x9ff8;
   0x6e17; 0x7e36; 0x4e55; 0x5e74; 0x2e93; 0x3eb2; 0x0ed1; 0x1ef0].

Definition crc16_step (cksum x : Z) : Z :=
  Z.lxor (tab_get crc16_tab (Z.land (Z.lxor (Z.shiftr cksum 8) x) 0xFF)) (u16 (Z.shiftl cksum 8)).

Definition cyg_crc16 (buf : list Z) : Z := fold_left crc16_step buf 0.

(** ** Reference definitions: one message bit at a time

    [bits_crc32] feeds each byte, least significant bit first, into the shift
    register of the reflected polynomial; [bits_crc16] shifts the other way
    with x^16 + x^12 + x^5 + 1. *)

Definition bits_crc32 (crc : Z) (buf : list Z) : Z :=
  fold_left (fun c x => Nat.iter 8 crc_step (Z.lxor c x)) buf crc.

Definition crc16_bit (c : Z) : Z :=
  if Z.testbit c 15 then Z.lxor (u16 (Z.shiftl c 1)) 0x1021 else u16 (Z.shiftl c 1).

Definition bits_crc16 (buf : list Z) : Z :=
  fold_left (fun c x => Nat.iter 8 crc16_bit (Z.lxor c (Z.shiftl x 8))) buf 0.

(** ** CRC-32 by bits *)

Lemma crc_table_generated : crc_table = make_crc_table.
Proof. vm_compute. reflexivity. Qed.

Lemma tab_get_map f i : 0 <= i < 256 -> tab_get (map f (seqZ 0 256)) i = f i.
Proof.
  intros Hi. unfold tab_get. erewrite nth_lookup_Some; [reflexivity|].
  rewrite list_lookup_fmap, lookup_seqZ_lt by lia. simpl. do 2 f_equal. lia.
Qed.

Lemma land1_testbit c : (Z.land c 1 =? 0) = negb (Z.testbit c 0).
Proof.
  change 1 with (Z.ones 1). rewrite Z.land_ones by lia. change (2 ^ 1) with 2.
  rewrite <- Z.bit0_mod. by destruct (Z.testbit c 0).
Qed.

Lemma crc_step_xor a h : crc_step (Z.lxor a (Z.shiftl h 1)) = Z.lxor (crc_step a) h.
Proof.
  unfold crc_step. rewrite !land1_testbit, Z.lxor_spec, Z.shiftl_spec_low, xorb_false_r by lia.
  rewrite Z.shiftr_lxor, Z.shiftr_shiftl_l by lia. rewrite Z.shiftl_0_r.
  destruct (Z.testbit a 0); simpl; [|done]. by rewrite Z.lxor_assoc.
Qed.

Lemma crc_steps_xor n : forall a h, Nat.iter n crc_step (Z.lxor a (Z.shiftl h (Z.of_nat n))) = Z.lxor (Nat.iter n crc_step a) h.
Proof.
  induction n as [|n IH]; intros a h; [by rewrite Z.shiftl_0_r|].
  cbn [Nat.iter nat_rect]. replace (Z.of_nat (S n)) with (1 + Z.of_nat n) by lia.
  rewrite <- Z.shiftl_shiftl by lia. unfold Nat.iter in IH. rewrite IH. apply crc_step_xor.
Qed.

Lemma split_low8 c : c = Z.lxor (Z.land c 255) (Z.shiftl (Z.shiftr c 8) 8).
Proof.
  apply Z.bits_inj'. intros i Hi. rewrite Z.lxor_spec, Z.land_spec.
  change 255 with (Z.ones 8). destruct (Z.lt_ge_cases i 8).
  - rewrite Z.ones_spec_low, Z.shiftl_spec_low, andb_true_r, xorb_false_r by lia. done.
  - rewrite Z.ones_spec_high, Z.shiftl_spec, Z.shiftr_spec, andb_false_r, xorb_false_l by lia. f_equal. lia.
Qed.

Lemma land255_range c : 0 <= Z.land c 255 < 256.
Proof. change 255 with (Z.ones 8). rewrite Z.land_ones by lia. apply Z.mod_pos_bound. lia. Qed.

(** One table step is eight bit steps. *)
Lemma DO_CRC_bits crc x : byte x -> DO_CRC crc x = Nat.iter 8 crc_step (Z.lxor crc x).
Proof.
  intros Hx. unfold DO_CRC. rewrite crc_table_generated. unfold make_crc_table.
  rewrite tab_get_map by apply land255_range.
  set (y := Z.lxor crc x). pose proof (crc_steps_xor 8 (Z.land y 255) (Z.shiftr y 8)) as E.
  change (Z.of_nat 8) with 8 in E. rewrite <- split_low8 in E. rewrite E. f_equal. unfold y.
  rewrite Z.shiftr_lxor. rewrite (Z.shiftr_div_pow2 x), (Z.div_small x) by (unfold byte in Hx; simpl; lia).
  by rewrite Z.lxor_0_r.
Qed.

(** ** Words and alignment *)

Lemma DO_CRC_xor crc w : DO_CRC (Z.lxor crc w) 0 = Z.lxor (DO_CRC crc (Z.land w 255)) (Z.shiftr w 8).
Proof.
  unfold DO_CRC. rewrite Z.lxor_0_r, Z.shiftr_lxor, Z.lxor_assoc. f_equal. f_equal.
  apply Z.bits_inj'. intros i Hi. rewrite !Z.land_spec, !Z.lxor_spec, Z.land_spec.
  destruct (Z.testbit crc i), (Z.testbit w i), (Z.testbit 255 i); done.
Qed.

Lemma word_bytes b0 b1 b2 b3 :
  byte b0 -> byte b1 -> byte b2 -> byte b3 ->
  let w := b0 + 256 * b1 + 65536 * b2 + 16777216 * b3 in
  Z.land w 255 = b0 /\ Z.land (Z.shiftr w 8) 255 = b1 /\ Z.land (Z.shiftr (Z.shiftr w 8) 8) 255 = b2 /\
  Z.land (Z.shiftr (Z.shiftr (Z.shiftr w 8) 8) 8) 255 = b3 /\ Z.shiftr (Z.shiftr (Z.shiftr (Z.shiftr w 8) 8) 8) 8 = 0.
Proof.
  unfold byte. intros H0 H1 H2 H3. cbv zeta. change 255 with (Z.ones 8). rewrite !Z.land_ones, !Z.shiftr_div_pow2 by lia.
  change (2 ^ 8) with 256. repeat split; zmod.
Qed.

(** Four shifts after the word is added are four byte steps. *)
Lemma crc_word4 crc b0 b1 b2 b3 :
  byte b0 -> byte b1 -> byte b2 -> byte b3 ->
  DO_CRC (DO_CRC (DO_CRC (DO_CRC (Z.lxor crc (b0 + 256 * b1 + 65536 * b2 + 16777216 * b3)) 0) 0) 0) 0 =
  DO_CRC (DO_CRC (DO_CRC (DO_CRC crc b0) b1) b2) b3.
Proof.
  intros B0 B1 B2 B3. destruct (word_bytes b0 b1 b2 b3 B0 B1 B2 B3) as (W0 & W1 & W2 & W3 & W4).
  set (w := b0 + _ + _ + _) in *. clearbody w.
  by rewrite DO_CRC_xor, W0, DO_CRC_xor, W1, DO_CRC_xor, W2, DO_CRC_xor, W3, W4, Z.lxor_0_r.
Qed.

Lemma crc_words_spec f :
  (forall crc b0 b1 b2 b3, byte b0 -> byte b1 -> byte b2 -> byte b3 ->
     f (f (f (f (Z.lxor crc (b0 + 256 * b1 + 65536 * b2 + 16777216 * b3)) 0) 0) 0) 0 = f (f (f (f crc b0) b1) b2) b3) ->
  forall n buf crc, (length buf <= n)%nat -> Forall byte buf ->
  fold_left f (snd (crc_words f crc buf)) (fst (crc_words f crc buf)) = fold_left f buf crc.
Proof.
  intros Hf n. induction n as [|n IH]; intros buf crc Hn Hb; destruct buf as [|b0 [|b1 [|b2 [|b3 buf]]]];
    simpl in Hn; try lia; try done.
  rewrite !Forall_cons in Hb. destruct Hb as (B0 & B1 & B2 & B3 & Hb). cbn [crc_words].
  rewrite Hf by done. by rewrite IH by (done || lia).
Qed.

Lemma crc_align_spec buf : forall crc p,
  let '(crc', rest) := crc_align crc p buf in
  fold_left DO_CRC rest crc' = fold_left DO_CRC buf crc /\ (Forall byte buf -> Forall byte rest).
Proof.
  induction buf as [|x buf IH]; intros crc p; simpl; [done|].
  destruct (negb _).
  - specialize (IH (DO_CRC crc x) (p + 1)). destruct (crc_align _ _ _) as [c r]. destruct IH as [IH1 IH2].
    split; [done|]. intros Hb. apply Forall_cons in Hb as [_ Hb]. by apply IH2.
  - split; [done|]. intros Hb. by apply Forall_cons in Hb as [_ Hb].
Qed.

(** Wherever the buffer lies, the split into words is not seen. *)
Lemma crc32_no_comp_bytes crc p buf : Forall byte buf -> crc32_no_comp crc p buf = fold_left DO_CRC buf crc.
Proof.
  intros Hb. unfold crc32_no_comp. destruct (_ && _).
  - pose proof (crc_align_spec buf crc p) as Ha. destruct (crc_align crc p buf) as [c r]. destruct Ha as [Ha1 Ha2].
    pose proof (crc_words_spec DO_CRC crc_word4 _ r c (le_n _) (Ha2 Hb)) as Hw. destruct (crc_words DO_CRC c r). cbn [fst snd] in Hw. by rewrite Hw.
  - pose proof (crc_words_spec DO_CRC crc_word4 _ buf crc (le_n _) Hb) as Hw. destruct (crc_words DO_CRC crc buf). cbn [fst snd] in Hw. by rewrite Hw.
Qed.

Lemma crc32_bytes crc p buf :
  Forall byte buf -> crc32 crc p buf = Z.lxor (fold_left DO_CRC buf (Z.lxor crc 0xffffffff)) 0xffffffff.
Proof. intros. unfold crc32. by rewrite crc32_no_comp_bytes. Qed.

Lemma fold_DO_CRC_bits buf : forall crc, Forall byte buf -> fold_left DO_CRC buf crc = bits_crc32 crc buf.
Proof.
  induction buf as [|x buf IH]; intros crc Hb; [done|]. apply Forall_cons in Hb as [Hx Hb].
  unfold bits_crc32. cbn [fold_left]. rewrite DO_CRC_bits by done. by apply IH.
Qed.

(** C38: The table-driven, word-at-a-time [crc32] is the bit-serial CRC of the
    message for every buffer, length and alignment. *)
Theorem crc32_correct crc p buf :
  Forall byte buf -> crc32 crc p buf = Z.lxor (bits_crc32 (Z.lxor crc 0xffffffff) buf) 0xffffffff.
Proof. intros Hb. by rewrite crc32_bytes, fold_DO_CRC_bits. Qed.

Lemma crc32_correct_witness :
  crc32 0 3 (zs "123456789") = Z.lxor (bits_crc32 (Z.lxor 0 0xffffffff) (zs "123456789")) 0xffffffff.
Proof. apply crc32_correct. unfold byte. repeat constructor; vm_compute; congruence. Defined.

Example crc32_check : crc32 0 3 (zs "123456789") = 0xCBF43926.
Proof. vm_compute. reflexivity. Qed.

Lemma crc32_app_bytes crc p q a b :
  Forall byte a -> Forall byte b -> crc32 (crc32 crc p a) q b = crc32 crc p (a ++ b).
Proof.
  intros Ha Hb. rewrite !crc32_bytes by (done || by apply Forall_app).
  rewrite Z.lxor_assoc, Z.lxor_nilpotent, Z.lxor_0_r, fold_left_app. done.
Qed.

Lemma crc32_nil crc p : crc32 crc p [] = crc.
Proof.
  rewrite crc32_bytes by constructor. cbn [fold_left]. by rewrite Z.lxor_assoc, Z.lxor_nilpotent, Z.lxor_0_r.
Qed.

(** The checksum of a message in two parts, wherever they lie, and the one that
    resets the watchdog every [chunk_sz] bytes, are the checksum of the whole. *)
Theorem crc32_chunks watchdog crc p q a b chunk_sz :
  Forall byte a -> Forall byte b -> 0 < chunk_sz ->
  crc32 (crc32 crc p a) q b = crc32 crc p (a ++ b) /\
  crc32_wd watchdog crc p a chunk_sz = Ok (crc32 crc p a).
Proof.
  intros Ha Hb Hc. split; [by apply crc32_app_bytes|]. unfold crc32_wd. destruct watchdog; [|done].
  assert (H : forall n crc p a, (length a <= n)%nat -> Forall byte a ->
            crc32_wd_loop n crc p a chunk_sz = Ok (crc32 crc p a)).
  { clear -Hc. induction n as [|n IH]; intros crc p a Hl Ha; destruct a as [|x a]; simpl in Hl; try lia;
      try by rewrite crc32_nil.
    cbn [crc32_wd_loop]. set (l := x :: a) in *.
    set (chunk := if chunk_sz <? Z.of_nat (length l) then chunk_sz else Z.of_nat (length l)).
    assert (Hk : 0 < chunk <= Z.of_nat (length l)) by (unfold chunk, l; simpl; btest; lia).
    rewrite IH; [|rewrite length_drop; unfold l; simpl; lia|by apply Forall_drop].
    rewrite crc32_app_bytes, take_drop by (by apply Forall_take || by apply Forall_drop). done. }
  by apply H.
Qed.

Lemma crc32_chunks_witness :
  crc32 (crc32 0 1 (zs "1234")) 8 (zs "56789") = crc32 0 1 (zs "1234" ++ zs "56789") /\
  crc32_wd true 0 1 (zs "1234") 3 = Ok (crc32 0 1 (zs "1234")).
Proof. apply crc32_chunks; [unfold byte; repeat constructor; vm_compute; congruence..|lia]. Defined.

(** ** CRC-16 by bits *)

Lemma crc16_table_bits : crc16_tab = map (fun i => Nat.iter 8 crc16_bit (Z.shiftl i 8)) (seqZ 0 256).
Proof. vm_compute. reflexivity. Qed.

Lemma u16_lxor a b : u16 (Z.lxor a b) = Z.lxor (u16 a) (u16 b).
Proof. unfold u16. change 65536 with (2 ^ 16). rewrite <- !Z.land_ones by lia.
  apply Z.bits_inj'. intros i _. rewrite !Z.lxor_spec, !Z.land_spec, Z.lxor_spec.
  destruct (Z.testbit a i), (Z.testbit b i), (Z.testbit (Z.ones 16) i); done.
Qed.

Lemma crc16_bit_xor a l : 0 <= l < 32768 -> crc16_bit (Z.lxor a l) = Z.lxor (crc16_bit a) (Z.shiftl l 1).
Proof.
  intros Hl. unfold crc16_bit. rewrite Z.lxor_spec, (testbit_high l 15 15), xorb_false_r by (simpl; lia).
  rewrite Z.shiftl_lxor, u16_lxor. assert (El : u16 (Z.shiftl l 1) = Z.shiftl l 1).
  { apply Z.mod_small. rewrite Z.shiftl_mul_pow2 by lia. lia. }
  rewrite El. destruct (Z.testbit a 15); [|done].
  rewrite !Z.lxor_assoc. f_equal. apply Z.lxor_comm.
Qed.

Lemma crc16_bits_xor n : forall a l,
  0 <= l -> Z.shiftl l (Z.of_nat n) < 65536 ->
  Nat.iter n crc16_bit (Z.lxor a l) = Z.lxor (Nat.iter n crc16_bit a) (Z.shiftl l (Z.of_nat n)).
Proof.
  induction n as [|n IH]; intros a l Hl Hn; [by rewrite Z.shiftl_0_r|].
  assert (E : Z.shiftl l (Z.of_nat (S n)) = Z.shiftl (Z.shiftl l (Z.of_nat n)) 1).
  { rewrite Z.shiftl_shiftl by lia. f_equal. lia. }
  rewrite E in *. rewrite (Z.shiftl_mul_pow2 _ 1) in Hn by lia. change (2 ^ 1) with 2 in Hn.
  assert (0 <= Z.shiftl l (Z.of_nat n)) by (by apply Z.shiftl_nonneg).
  cbn [Nat.iter nat_rect]. unfold Nat.iter in IH. rewrite IH by lia. apply crc16_bit_xor. lia.
Qed.

(** One table step is eight bit steps. *)
Lemma crc16_step_bits c x :
  0 <= c < 65536 -> byte x -> crc16_step c x = Nat.iter 8 crc16_bit (Z.lxor c (Z.shiftl x 8)).
Proof.
  intros Hc Hx. unfold crc16_step. rewrite crc16_table_bits. change 0xFF with 255. rewrite tab_get_map by apply land255_range.
    set (h := Z.lxor (Z.shiftr c 8) x).
    assert (Hh : Z.land h 255 = h).
    { change 255 with (Z.ones 8). rewrite Z.land_ones by lia. apply Z.mod_small.
      assert (0 <= Z.shiftr c 8 < 2 ^ 8) by (rewrite Z.shiftr_div_pow2 by lia; change (2 ^ 8) with 256; zmod).
      unfold byte in Hx. split; [unfold h; apply Z.lxor_nonneg; lia|].
      destruct (decide (h = 0)) as [->|]; [done|]. apply Z.log2_lt_cancel. change (Z.log2 (2 ^ 8)) with 8.
      assert (0 < h) by (assert (0 <= h) by (unfold h; apply Z.lxor_nonneg; lia); lia).
      pose proof (Z.log2_lxor (Z.shiftr c 8) x ltac:(lia) ltac:(lia)).
      assert (Z.log2 (Z.shiftr c 8) <= 7) by (change 7 with (Z.log2 255); apply Z.log2_le_mono; lia).
      assert (Z.log2 x <= 7) by (change 7 with (Z.log2 255); apply Z.log2_le_mono; lia).
      unfold h. lia. }
    rewrite Hh. assert (Ec : Z.lxor c (Z.shiftl x 8) = Z.lxor (Z.shiftl h 8) (Z.land c 255)).
    { unfold h. rewrite Z.shiftl_lxor. rewrite (split_low8 c) at 1.
      rewrite !Z.lxor_assoc, (Z.lxor_comm (Z.land c 255)), Z.lxor_assoc. done. }
    rewrite Ec. pose proof (land255_range c) as Hl.
    rewrite crc16_bits_xor by (rewrite ?Z.shiftl_mul_pow2 by lia; change (2 ^ Z.of_nat 8) with 256; lia).
    f_equal. change (Z.of_nat 8) with 8. rewrite (split_low8 c) at 1. rewrite Z.shiftl_lxor, u16_lxor.
    rewrite Z.shiftl_shiftl by lia. unfold u16 at 2. rewrite (Z.shiftl_mul_pow2 _ (8 + 8)) by lia.
    change (2 ^ (8 + 8)) with 65536. rewrite Z.mod_mul, Z.lxor_0_r by lia. unfold u16. rewrite Z.mod_small; [done|].
    rewrite Z.shiftl_mul_pow2 by lia. change (2 ^ 8) with 256. lia.
Qed.

Lemma crc16_step_range c x : 0 <= crc16_step c x < 65536.
Proof.
  unfold crc16_step. rewrite crc16_table_bits, tab_get_map by apply land255_range.
  assert (Hb16 : forall n a, 0 <= a < 65536 -> 0 <= Nat.iter n crc16_bit a < 65536).
  { clear. intros n a Ha. induction n as [|n IH]; [done|]. cbn [Nat.iter nat_rect]. unfold crc16_bit at 1 3.
    destruct (Z.testbit _ _); [|apply Z.mod_pos_bound; lia].
    assert (E : 0x1021 = u16 0x1021) by done. rewrite E, <- u16_lxor. apply Z.mod_pos_bound. lia. }
  pose proof (land255_range (Z.lxor (Z.shiftr c 8) x)).
  assert (H1 := Hb16 8%nat (Z.shiftl (Z.land (Z.lxor (Z.shiftr c 8) x) 0xFF) 8)).
  rewrite Z.shiftl_mul_pow2 in H1 by lia. change (2 ^ 8) with 256 in H1. change 0xFF with 255 in *.
  rewrite (Z.shiftl_mul_pow2 (Z.land _ _)) by lia. change (2 ^ 8) with 256.
  specialize (H1 ltac:(lia)). set (v := Nat.iter _ _ _) in *. clearbody v.
  replace v with (u16 v) by (apply Z.mod_small; lia). rewrite <- u16_lxor. apply Z.mod_pos_bound. lia.
Qed.

(** [cyg_crc16] is the bit-serial CRC-16 of XModem for every message, and stays
    a 16-bit number. *)
Theorem cyg_crc16_correct buf :
  Forall byte buf -> cyg_crc16 buf = bits_crc16 buf /\ 0 <= cyg_crc16 buf < 65536.
Proof.
  intros Hb. unfold cyg_crc16, bits_crc16.
  assert (H : forall c, 0 <= c < 65536 ->
    fold_left crc16_step buf c = fold_left (fun c x => Nat.iter 8 crc16_bit (Z.lxor c (Z.shiftl x 8))) buf c /\
    0 <= fold_left crc16_step buf c < 65536); [|apply H; lia].
  induction Hb as [|x buf Hx Hb IH]; intros c Hc; [done|]. cbn [fold_left].
  rewrite <- crc16_step_bits by done. apply IH, crc16_step_range.
Qed.

Lemma cyg_crc16_correct_witness :
  cyg_crc16 (zs "123456789") = bits_crc16 (zs "123456789") /\ 0 <= cyg_crc16 (zs "123456789") < 65536.
Proof. apply cyg_crc16_correct. unfold byte. repeat constructor; vm_compute; congruence. Defined.
