(* ===== verification/Circbuf.v ===== *)
(** * Circular buffers (lib_generic/circbuf.c)

    The byte FIFO between an interrupt handler and its reader.  [top] and
    [tail] are offsets into [data], [end] is its length; the counters are
    bounded by [totalsize], so the C [unsigned int]s never wrap and are [nat]
    here.  Reading or writing at [end] or beyond is a [Fault]. *)

From S2P Require Import Prelude.

Record circbuf_t := Buf {
  size : nat;          (* current number of bytes held *)
  totalsize : nat;     (* number of bytes allocated *)
  top : nat;           (* buf->top - buf->data *)
  tail : nat;          (* buf->tail - buf->data *)
  data : list Z
}.

(** [storage] is what [malloc] returned, with its arbitrary contents; the
    asserted failure of [malloc] is not modelled. *)
Definition buf_init (storage : list Z) : circbuf_t :=
  Buf 0 (length storage) 0 0 storage.

(** After [free] and [memset]: no storage. *)
Definition buf_free (buf : circbuf_t) : circbuf_t := Buf 0 0 0 0 [].

Fixpoint buf_pop_loop (n p : nat) (data : list Z) : res (list Z * nat) :=
  match n with
  | O => Ok ([], p)
  | S n' =>
      c ← arr_get data p;
      let p := S p in
      let p := if (p =? length data)%nat then 0%nat else p in
      '(dest, p) ← buf_pop_loop n' p data;
      mret (c :: dest, p)
  end.

(** The bytes copied to [dest] and the new buffer; the result is their number. *)
Definition buf_pop (buf : circbuf_t) (len : nat) : res (list Z * circbuf_t) :=
  let len := if (size buf <? len)%nat then size buf else len in
  '(dest, p) ← buf_pop_loop len (top buf) (data buf);
  mret (dest, Buf (size buf - len) (totalsize buf) p (tail buf) (data buf)).

(** The loop works on [p], a copy of [tail]; [buf->tail] is updated at the end. *)
Fixpoint buf_push_loop (src : list Z) (p : nat) (buf : circbuf_t) : res (circbuf_t * nat) :=
  match src with
  | [] => Ok (buf, p)
  | c :: src' =>
      d ← arr_set (data buf) p (u8 c);
      let p := S p in
      let p := if (p =? length d)%nat then 0%nat else p in
      let buf :=
        if (size buf <? totalsize buf)%nat then Buf (S (size buf)) (totalsize buf) (top buf) (tail buf) d
        else
          let t := S (top buf) in
          Buf (size buf) (totalsize buf) (if (t =? length d)%nat then 0%nat else t) (tail buf) d in
      buf_push_loop src' p buf
  end.

Definition buf_push (buf : circbuf_t) (src : list Z) : res circbuf_t :=
  '(buf, p) ← buf_push_loop src (tail buf) buf;
  mret (Buf (size buf) (totalsize buf) (top buf) p (data buf)).

(** ** The queue a buffer stands for *)

(** The offset [i] places after [t], in a ring of [n]. *)
Definition ring_index (n t i : nat) : nat := if (t + i <? n)%nat then (t + i)%nat else (t + i - n)%nat.

Definition contents (buf : circbuf_t) : list Z :=
  map (fun i => nth (ring_index (totalsize buf) (top buf) i) (data buf) 0) (seq 0 (size buf)).

Definition buf_wf (buf : circbuf_t) : Prop :=
  (0 < totalsize buf)%nat /\ length (data buf) = totalsize buf /\ (size buf <= totalsize buf)%nat /\
  (top buf < totalsize buf)%nat /\ tail buf = ring_index (totalsize buf) (top buf) (size buf).

(** The bounded queue: at most [n] bytes, the oldest dropped. *)
Definition queue_push (n : nat) (q src : list Z) : list Z := drop (length (q ++ src) - n) (q ++ src).

(** ** Proofs *)

Lemma ring_index_lt n t i : (t < n)%nat -> (i <= n)%nat -> (ring_index n t i < n)%nat.
Proof. unfold ring_index. destruct (Nat.ltb_spec (t + i) n); lia. Qed.

Lemma ring_index_next n t i :
  (t < n)%nat -> (i < n)%nat ->
  (if (S (ring_index n t i) =? n)%nat then 0%nat else S (ring_index n t i)) = ring_index n t (S i).
Proof.
  unfold ring_index. intros. repeat case_match; repeat match goal with
  | H : (_ <? _)%nat = true |- _ => apply Nat.ltb_lt in H | H : (_ <? _)%nat = false |- _ => apply Nat.ltb_ge in H
  | H : (_ =? _)%nat = true |- _ => apply Nat.eqb_eq in H | H : (_ =? _)%nat = false |- _ => apply Nat.eqb_neq in H
  end; lia.
Qed.

Lemma ring_index_shift n t i :
  (t < n)%nat -> (i < n)%nat -> ring_index n (ring_index n t 1) i = ring_index n t (S i).
Proof.
  unfold ring_index. intros. repeat case_match; repeat match goal with
  | H : (_ <? _)%nat = true |- _ => apply Nat.ltb_lt in H | H : (_ <? _)%nat = false |- _ => apply Nat.ltb_ge in H
  end; lia.
Qed.

Lemma ring_index_inj n t i j :
  (t < n)%nat -> (i < n)%nat -> (j < n)%nat -> ring_index n t i = ring_index n t j -> i = j.
Proof.
  unfold ring_index. intros Ht Hi Hj. destruct (Nat.ltb_spec (t + i) n), (Nat.ltb_spec (t + j) n); lia.
Qed.

Lemma contents_length buf : length (contents buf) = size buf.
Proof. unfold contents. by rewrite length_map, length_seq. Qed.

Lemma nth_insert (l : list Z) i j x :
  (i < length l)%nat -> nth j (<[i := x]> l) 0 = if decide (i = j) then x else nth j l 0.
Proof.
  intros Hi. rewrite !nth_lookup. destruct (decide (i = j)) as [->|].
  - by rewrite list_lookup_insert_eq.
  - by rewrite list_lookup_insert_ne.
Qed.

(** Taking the oldest byte. *)
Lemma contents_cons buf :
  buf_wf buf -> (0 < size buf)%nat ->
  let buf' := Buf (size buf - 1) (totalsize buf) (ring_index (totalsize buf) (top buf) 1) (tail buf) (data buf) in
  contents buf = nth (top buf) (data buf) 0 :: contents buf' /\ buf_wf buf'.
Proof.
  intros (Hn & Hl & Hs & Ht & Htl) Hpos buf'. destruct (size buf) as [|k] eqn:Ek; [lia|]. split.
  - unfold contents, buf'. cbn [Circbuf.size Circbuf.totalsize Circbuf.top Circbuf.data]. rewrite Ek. simpl seq.
    rewrite Nat.sub_0_r. cbn [map]. f_equal.
    + f_equal. unfold ring_index. rewrite Nat.add_0_r. destruct (Nat.ltb_spec (top buf) (totalsize buf)); lia.
    + rewrite <- seq_shift, map_map. apply map_ext_in. intros i Hi%in_seq. by rewrite ring_index_shift by lia.
  - unfold buf_wf, buf'. simpl. rewrite Nat.sub_0_r. split_and!; try done; try lia.
    + by apply ring_index_lt.
    + rewrite ring_index_shift by lia. done.
Qed.

(** [buf_pop] gives the oldest [len] bytes, or all there are, in order, and
    leaves the rest. *)
Lemma buf_pop_loop_ok n : forall buf,
  buf_wf buf -> (n <= size buf)%nat ->
  exists p, buf_pop_loop n (top buf) (data buf) = Ok (take n (contents buf), p) /\
    let buf' := Buf (size buf - n) (totalsize buf) p (tail buf) (data buf) in
    buf_wf buf' /\ contents buf' = drop n (contents buf).
Proof.
  induction n as [|n IH]; intros buf Hwf Hn.
  { exists (top buf). split; [done|]. cbv zeta. rewrite Nat.sub_0_r. by destruct buf. }
  destruct (contents_cons buf Hwf) as [Hc Hwf']; [lia|]. set (b1 := Buf _ _ _ _ _) in *.
  destruct Hwf as (Hpos & Hl & Hs & Ht & Htl). cbn [buf_pop_loop].
  assert (Hg : arr_get (data buf) (top buf) = Ok (nth (top buf) (data buf) 0)).
  { unfold arr_get. destruct (lookup_lt_is_Some_2 (data buf) (top buf)) as [x Hx]; [lia|].
    rewrite nth_lookup. by rewrite Hx. }
  rewrite (res_bind_ok _ _ _ Hg). cbv zeta. rewrite Hl.
  assert (E : (if (S (top buf) =? totalsize buf)%nat then 0%nat else S (top buf)) = top b1).
  { unfold b1. simpl. rewrite <- ring_index_next by lia. unfold ring_index. rewrite Nat.add_0_r.
    by destruct (Nat.ltb_spec (top buf) (totalsize buf)); [|lia]. }
  rewrite E. destruct (IH b1 Hwf') as (p & Hp & Hwf2 & Hc2); [unfold b1; simpl; lia|].
  change (data buf) with (data b1). rewrite (res_bind_ok _ _ _ Hp). exists p.
  replace (size b1 - n)%nat with (size buf - S n)%nat in Hwf2, Hc2 by (unfold b1; simpl; lia).
  rewrite Hc. split; [done|]. split; [exact Hwf2|]. exact Hc2.
Qed.

Theorem buf_pop_correct buf len :
  buf_wf buf ->
  exists buf', buf_pop buf len = Ok (take len (contents buf), buf') /\
    buf_wf buf' /\ contents buf' = drop len (contents buf) /\ totalsize buf' = totalsize buf.
Proof.
  intros Hwf. unfold buf_pop. destruct (Nat.ltb_spec (size buf) len) as [Hlen|Hlen].
  - destruct (buf_pop_loop_ok (size buf) buf Hwf ltac:(lia)) as (p & Hp & Hwf' & Hc).
    rewrite (res_bind_ok _ _ _ Hp). eexists. split; [|split_and!; [exact Hwf'| |done]].
    + rewrite !take_ge by (rewrite contents_length; lia). done.
    + rewrite Hc, !drop_ge by (rewrite contents_length; lia). done.
  - destruct (buf_pop_loop_ok len buf Hwf Hlen) as (p & Hp & Hwf' & Hc).
    rewrite (res_bind_ok _ _ _ Hp). by eexists.
Qed.

(** One byte in: at the tail, and the oldest one out when the buffer is full. *)
Lemma push_step buf c :
  buf_wf buf ->
  let d := <[tail buf := c]> (data buf) in
  let buf' :=
    if (size buf <? totalsize buf)%nat then
      Buf (S (size buf)) (totalsize buf) (top buf) (ring_index (totalsize buf) (top buf) (S (size buf))) d
    else Buf (size buf) (totalsize buf) (ring_index (totalsize buf) (top buf) 1)
           (ring_index (totalsize buf) (top buf) 1) d in
  buf_wf buf' /\ contents buf' = queue_push (totalsize buf) (contents buf) [c].
Proof.
  intros (Hn & Hl & Hs & Ht & Htl) d buf'.
  assert (Htn : (tail buf < totalsize buf)%nat) by (rewrite Htl; by apply ring_index_lt).
  unfold queue_push. rewrite length_app, contents_length. simpl length.
  unfold buf'. destruct (Nat.ltb_spec (size buf) (totalsize buf)) as [Hlt|Hge].
  - split; [unfold buf_wf; simpl; unfold d; rewrite length_insert; split_and!; lia || done|].
    replace (size buf + 1 - totalsize buf)%nat with 0%nat by lia. rewrite drop_0.
    unfold contents. cbn [size totalsize top data]. rewrite seq_S, map_app. cbn [map]. f_equal.
    + apply map_ext_in. intros i Hi%in_seq. unfold d. rewrite nth_insert by lia. rewrite decide_False; try done.
      rewrite Htl. intros E. by apply ring_index_inj in E; [lia|..]; lia.
    + f_equal. unfold d. rewrite nth_insert by lia. rewrite decide_True; [done|]. by rewrite Htl.
  - assert (Hsz : size buf = totalsize buf) by lia.
    assert (Htt : tail buf = top buf).
    { rewrite Htl, Hsz. unfold ring_index. destruct (Nat.ltb_spec (top buf + totalsize buf) (totalsize buf)); lia. }
    assert (H1 : (ring_index (totalsize buf) (top buf) 1 < totalsize buf)%nat) by (apply ring_index_lt; lia).
    split.
    { unfold buf_wf. simpl. unfold d. rewrite length_insert. split_and!; try done; try lia.
      unfold ring_index at 2. destruct (Nat.ltb_spec (ring_index (totalsize buf) (top buf) 1 + size buf) (totalsize buf)); lia. }
    replace (size buf + 1 - totalsize buf)%nat with 1%nat by lia.
    destruct (size buf) as [|k] eqn:Ek; [lia|].
    unfold contents. cbn [size totalsize top data]. rewrite Ek. rewrite (seq_S k 0) at 1. rewrite map_app.
    cbn [map seq app drop]. rewrite drop_0, <- seq_shift, map_map. f_equal.
    + apply map_ext_in. intros i Hi%in_seq. rewrite ring_index_shift by lia.
      unfold d. rewrite nth_insert by lia. rewrite decide_False; [done|]. rewrite Htt. unfold ring_index.
      destruct (Nat.ltb_spec (top buf + S i) (totalsize buf)); lia.
    + f_equal. unfold d. rewrite nth_insert by lia. rewrite decide_True; [done|].
      rewrite ring_index_shift by lia. by rewrite Htl.
Qed.

Lemma queue_push_app n q a b :
  (length q <= n)%nat -> queue_push n (queue_push n q a) b = queue_push n q (a ++ b).
Proof.
  intros Hq. unfold queue_push. rewrite app_assoc. set (l := q ++ a).
  assert (Hl : (length q <= length l)%nat) by (unfold l; rewrite length_app; lia).
  rewrite !length_app, length_drop.
  destruct (decide (length l <= n)%nat).
  - replace (length l - n)%nat with 0%nat by lia. rewrite drop_0. f_equal. lia.
  - rewrite <- (drop_app_le l b (length l - n)) by lia. rewrite drop_drop. f_equal. lia.
Qed.

(** The loop with [p] in the place of [buf->tail]. *)
Lemma buf_push_loop_ok src : forall buf,
  buf_wf buf -> Forall byte src ->
  exists buf' p, (forall t, buf_push_loop src (tail buf) (Buf (size buf) (totalsize buf) (top buf) t (data buf)) =
      Ok (Buf (size buf') (totalsize buf') (top buf') t (data buf'), p)) /\
    p = tail buf' /\ buf_wf buf' /\ totalsize buf' = totalsize buf /\
    contents buf' = queue_push (totalsize buf) (contents buf) src.
Proof.
  induction src as [|c src IH]; intros buf Hwf Hsrc.
  { exists buf, (tail buf). split_and!; try done. unfold queue_push. rewrite app_nil_r, contents_length.
    destruct Hwf as (_ & _ & Hs & _). by replace (size buf - totalsize buf)%nat with 0%nat by lia. }
  apply Forall_cons in Hsrc as [Hc Hsrc].
  pose proof (push_step buf c Hwf) as [Hwf1 Hc1]. set (b1 := if (size buf <? _)%nat then _ else _) in *.
  destruct Hwf as (Hn & Hl & Hs & Ht & Htl).
  assert (Htn : (tail buf < totalsize buf)%nat) by (rewrite Htl; by apply ring_index_lt).
  assert (Hd : forall t, exists b1', buf_push_loop (c :: src) (tail buf) (Buf (size buf) (totalsize buf) (top buf) t (data buf)) =
      buf_push_loop src (tail b1) b1' /\ b1' = Buf (size b1) (totalsize b1) (top b1) t (data b1)).
  { intros t. cbn [buf_push_loop data]. rewrite u8_small by done.
    assert (Ha : arr_set (data buf) (tail buf) c = Ok (<[tail buf := c]> (data buf))).
    { unfold arr_set. by rewrite decide_True by lia. }
    rewrite (res_bind_ok _ _ _ Ha). cbv zeta. rewrite length_insert, Hl. cbn [size totalsize top tail].
    unfold b1. destruct (Nat.ltb_spec (size buf) (totalsize buf)); cbn [size totalsize top tail data]; eexists; (split; [|done]).
    - f_equal. rewrite Htl. apply ring_index_next; lia.
    - f_equal.
      + rewrite <- (ring_index_next (totalsize buf) (top buf) 0) by lia. rewrite Htl.
        replace (size buf) with (totalsize buf) by lia. unfold ring_index. rewrite Nat.add_0_r.
        destruct (Nat.ltb_spec (top buf + totalsize buf) (totalsize buf)), (Nat.ltb_spec (top buf) (totalsize buf)); try lia.
        by replace (top buf + totalsize buf - totalsize buf)%nat with (top buf) by lia.
      + f_equal. rewrite <- (ring_index_next (totalsize buf) (top buf) 0) by lia. unfold ring_index. rewrite Nat.add_0_r.
        by destruct (Nat.ltb_spec (top buf) (totalsize buf)); [|lia]. }
  destruct (IH b1 Hwf1 Hsrc) as (b2 & p & Hp & Hpt & Hwf2 & Ht2 & Hc2).
  assert (Ht1 : totalsize b1 = totalsize buf) by (unfold b1; by destruct (_ <? _)%nat).
  exists b2, p. split_and!; try done.
  - intros t. destruct (Hd t) as (b1' & -> & ->). apply Hp.
  - congruence.
  - rewrite Hc2, Hc1, Ht1. apply (queue_push_app _ _ [c]). rewrite contents_length. lia.
Qed.

(** [buf_push] appends the bytes to the queue; once it is full each new byte
    replaces the oldest. *)
Theorem buf_push_correct buf src :
  buf_wf buf -> Forall byte src ->
  exists buf', buf_push buf src = Ok buf' /\ buf_wf buf' /\ totalsize buf' = totalsize buf /\
    contents buf' = queue_push (totalsize buf) (contents buf) src.
Proof.
  intros Hwf Hsrc. destruct (buf_push_loop_ok src buf Hwf Hsrc) as (buf' & p & Hp & Hpt & Hwf' & Ht & Hc).
  unfold buf_push. specialize (Hp (tail buf)). exists buf'.
  replace (Buf (size buf) (totalsize buf) (top buf) (tail buf) (data buf)) with buf in Hp by (by destruct buf).
  rewrite (res_bind_ok _ _ _ Hp). subst p. split; [by destruct buf'|done].
Qed.

Definition ex_buf : circbuf_t := Buf 2 4 3 1 [11; 0; 0; 10].

Lemma ex_buf_wf : buf_wf ex_buf.
Proof. unfold buf_wf. split_and!; simpl; lia || reflexivity. Qed.

Lemma buf_pop_correct_witness :
  exists buf', buf_pop ex_buf 1 = Ok (take 1 (contents ex_buf), buf') /\
    buf_wf buf' /\ contents buf' = drop 1 (contents ex_buf) /\ totalsize buf' = totalsize ex_buf.
Proof. apply (buf_pop_correct ex_buf 1), ex_buf_wf. Defined.

Lemma buf_push_correct_witness :
  exists buf', buf_push ex_buf [1; 2; 3] = Ok buf' /\ buf_wf buf' /\ totalsize buf' = totalsize ex_buf /\
    contents buf' = queue_push (totalsize ex_buf) (contents ex_buf) [1; 2; 3].
Proof. apply buf_push_correct; [apply ex_buf_wf|unfold byte; repeat constructor; lia]. Defined.
