(* ===== verification/Lmb.v ===== *)
(** * Logical memory blocks (lib_generic/lmb.c)

    The allocator that [bootm] uses to place a kernel, a ramdisk and a device
    tree.  A [lmb_region] is a table of at most [MAX_LMB_REGIONS] address
    ranges kept sorted by address; the [region] array has one spare slot.  All
    addresses and sizes are 32-bit ([phys_addr_t] of asm-arm/types.h). *)

From S2P Require Import Prelude.

Definition MAX_LMB_REGIONS : nat := 8.

Record lmb_property := Prop_ { base : Z; size : Z }.

Record lmb_region := Rgn {
  cnt : Z;                      (* unsigned long cnt *)
  rgn_size : Z;                 (* phys_size_t size, never updated by the code *)
  region : list lmb_property    (* region[MAX_LMB_REGIONS + 1] *)
}.

Record lmb := Lmb_ { memory : lmb_region; reserved : lmb_region }.

Definition set_prop (rgn : lmb_region) (i : nat) (p : lmb_property) : res lmb_region :=
  a ← arr_set (region rgn) i p;
  mret (Rgn (cnt rgn) (rgn_size rgn) a).

Definition set_cnt (rgn : lmb_region) (c : Z) : lmb_region :=
  Rgn (u32 c) (rgn_size rgn) (region rgn).

(** ** The helpers *)

Definition lmb_addrs_overlap (base1 size1 base2 size2 : Z) : bool :=
  (base1 <? u32 (base2 + size2)) && (base2 <? u32 (base1 + size1)).

Definition lmb_addrs_adjacent (base1 size1 base2 size2 : Z) : Z :=
  if base2 =? u32 (base1 + size1) then 1
  else if base1 =? u32 (base2 + size2) then -1
  else 0.

Definition lmb_regions_adjacent (rgn : lmb_region) (r1 r2 : nat) : res Z :=
  p1 ← arr_get (region rgn) r1;
  p2 ← arr_get (region rgn) r2;
  mret (lmb_addrs_adjacent (base p1) (size p1) (base p2) (size p2)).

(** The loop [for (i = r; i < rgn->cnt - 1; i++)]; the bound is unsigned. *)
Fixpoint lmb_remove_loop (fuel i : nat) (rgn : lmb_region) : res lmb_region :=
  if Z.of_nat i <? u32 (cnt rgn - 1) then
    match fuel with
    | O => OutOfFuel
    | S fuel' =>
        p ← arr_get (region rgn) (i + 1);
        rgn' ← set_prop rgn i p;
        lmb_remove_loop fuel' (i + 1) rgn'
    end
  else Ok rgn.

(** [i + 1] leaves the array after [MAX_LMB_REGIONS] steps, which bounds the fuel. *)
Definition lmb_remove_region (rgn : lmb_region) (r : nat) : res lmb_region :=
  rgn' ← lmb_remove_loop (S MAX_LMB_REGIONS) r rgn;
  mret (set_cnt rgn' (cnt rgn' - 1)).

Definition lmb_coalesce_regions (rgn : lmb_region) (r1 r2 : nat) : res lmb_region :=
  p1 ← arr_get (region rgn) r1;
  p2 ← arr_get (region rgn) r2;
  rgn' ← set_prop rgn r1 (Prop_ (base p1) (u32 (size p1 + size p2)));
  lmb_remove_region rgn' r2.

(** The tables after [lmb_init]: [m] and [r] are the arrays' old contents. *)
Definition lmb_init (l : lmb) : res lmb :=
  m ← set_prop (memory l) 0 (Prop_ 0 0);
  r ← set_prop (reserved l) 0 (Prop_ 0 0);
  mret (Lmb_ (Rgn 1 0 (region m)) (Rgn 1 0 (region r))).

(** ** Adding a range *)

(** How the first loop of [lmb_add_region] leaves: the range is already there,
    or the loop stopped at index [i] with [coalesced] as given. *)
Inductive add_scan :=
| Scan_present
| Scan_stop (rgn : lmb_region) (i : nat) (coalesced : Z).

(** [n] is [rgn->cnt - i], the iterations left. *)
Fixpoint lmb_add_scan (n i : nat) (rgn : lmb_region) (b s : Z) : res add_scan :=
  match n with
  | O => Ok (Scan_stop rgn i 0)
  | S n' =>
      p ← arr_get (region rgn) i;
      if (base p =? b) && (size p =? s) then Ok Scan_present
      else
        let adjacent := lmb_addrs_adjacent b s (base p) (size p) in
        if 0 <? adjacent then
          rgn' ← set_prop rgn i (Prop_ (u32 (base p - s)) (u32 (size p + s)));
          Ok (Scan_stop rgn' i 1)
        else if adjacent <? 0 then
          rgn' ← set_prop rgn i (Prop_ (base p) (u32 (size p + s)));
          Ok (Scan_stop rgn' i 1)
        else lmb_add_scan n' (i + 1) rgn b s
  end.

(** [for (i = rgn->cnt-1; i >= 0; i--)] with [n = i + 1]. *)
Fixpoint lmb_insert_loop (n : nat) (rgn : lmb_region) (b s : Z) : res lmb_region :=
  match n with
  | O => Ok rgn
  | S i =>
      p ← arr_get (region rgn) i;
      if b <? base p then
        rgn' ← set_prop rgn (i + 1) p;
        lmb_insert_loop i rgn' b s
      else set_prop rgn (i + 1) (Prop_ b s)
  end.

(** Joining entry [i] with the next one when they touch; the bound is unsigned. *)
Definition lmb_join_next (rgn : lmb_region) (i : nat) (coalesced : Z) : res (lmb_region * Z) :=
  if Z.of_nat i <? u32 (cnt rgn - 1) then
    adj ← lmb_regions_adjacent rgn i (i + 1);
    if adj =? 0 then mret (rgn, coalesced)
    else
      rgn' ← lmb_coalesce_regions rgn i (i + 1);
      mret (rgn', coalesced + 1)
  else mret (rgn, coalesced).

Definition lmb_add_region (rgn : lmb_region) (b s : Z) : res (Z * lmb_region) :=
  p0 ← arr_get (region rgn) 0;
  if (cnt rgn =? 1) && (size p0 =? 0) then
    rgn' ← set_prop rgn 0 (Prop_ b s);
    mret (0, rgn')
  else
    scan ← lmb_add_scan (Z.to_nat (cnt rgn)) 0 rgn b s;
    match scan with
    | Scan_present => mret (0, rgn)
    | Scan_stop rgn1 i coalesced1 =>
        '(rgn2, coalesced) ← lmb_join_next rgn1 i coalesced1;
        if negb (coalesced =? 0) then mret (coalesced, rgn2)
        else if Z.of_nat MAX_LMB_REGIONS <=? cnt rgn2 then mret (-1, rgn2)
        else
          rgn3 ← lmb_insert_loop (Z.to_nat (cnt rgn2)) rgn2 b s;
          q0 ← arr_get (region rgn3) 0;
          rgn4 ← (if b <? base q0 then set_prop rgn3 0 (Prop_ b s) else mret rgn3);
          mret (0, set_cnt rgn4 (cnt rgn4 + 1))
    end.

Definition lmb_add (l : lmb) (b s : Z) : res (Z * lmb) :=
  '(r, m) ← lmb_add_region (memory l) b s;
  mret (r, Lmb_ m (reserved l)).

Definition lmb_reserve (l : lmb) (b s : Z) : res (Z * lmb) :=
  '(r, rs) ← lmb_add_region (reserved l) b s;
  mret (r, Lmb_ (memory l) rs).

(** ** Freeing a range *)

(** The search loop of [lmb_free]; [None] is [i == rgn->cnt]. *)
Fixpoint lmb_free_scan (n i : nat) (rgn : lmb_region) (b e : Z) : res (option (nat * Z * Z)) :=
  match n with
  | O => Ok None
  | S n' =>
      p ← arr_get (region rgn) i;
      let rgnbegin := base p in
      let rgnend := u32 (rgnbegin + size p) in
      if (rgnbegin <=? b) && (e <=? rgnend) then Ok (Some (i, rgnbegin, rgnend))
      else lmb_free_scan n' (i + 1) rgn b e
  end.

Definition lmb_free_region (rgn : lmb_region) (b s : Z) : res (Z * lmb_region) :=
  let e := u32 (b + s) in
  found ← lmb_free_scan (Z.to_nat (cnt rgn)) 0 rgn b e;
  match found with
  | None => mret (-1, rgn)
  | Some (i, rgnbegin, rgnend) =>
      if (rgnbegin =? b) && (rgnend =? e) then
        rgn' ← lmb_remove_region rgn i;
        mret (0, rgn')
      else
        p ← arr_get (region rgn) i;
        if rgnbegin =? b then
          rgn' ← set_prop rgn i (Prop_ e (u32 (size p - s)));
          mret (0, rgn')
        else if rgnend =? e then
          rgn' ← set_prop rgn i (Prop_ (base p) (u32 (size p - s)));
          mret (0, rgn')
        else
          rgn' ← set_prop rgn i (Prop_ (base p) (u32 (b - base p)));
          lmb_add_region rgn' e (u32 (rgnend - e))
  end.

Definition lmb_free (l : lmb) (b s : Z) : res (Z * lmb) :=
  '(r, rs) ← lmb_free_region (reserved l) b s;
  mret (r, Lmb_ (memory l) rs).

(** ** Allocation *)

Fixpoint lmb_overlaps_loop (n i : nat) (rgn : lmb_region) (b s : Z) : res (option nat) :=
  match n with
  | O => Ok None
  | S n' =>
      p ← arr_get (region rgn) i;
      if lmb_addrs_overlap b s (base p) (size p) then Ok (Some i)
      else lmb_overlaps_loop n' (i + 1) rgn b s
  end.

(** [None] is the result -1. *)
Definition lmb_overlaps_region (rgn : lmb_region) (b s : Z) : res (option nat) :=
  lmb_overlaps_loop (Z.to_nat (cnt rgn)) 0 rgn b s.

Definition lmb_align_down (addr sz : Z) : Z := Z.land addr (u32 (Z.lnot (u32 (sz - 1)))).
Definition lmb_align_up (addr sz : Z) : Z :=
  Z.land (u32 (addr + u32 (sz - 1))) (u32 (Z.lnot (u32 (sz - 1)))).

Definition LMB_ALLOC_ANYWHERE : Z := 0.

(** How the [while] loop of [__lmb_alloc_base] leaves: with a [return], or by
    its condition or [break], going on with the next memory region. *)
Inductive alloc_step :=
| Alloc_return (r : Z) (rs : lmb_region)
| Alloc_next.

Fixpoint lmb_alloc_while (fuel : nat) (rs : lmb_region) (lmbbase b s align : Z) : res alloc_step :=
  if negb (b =? 0) && (lmbbase <=? b) then
    match fuel with
    | O => OutOfFuel
    | S fuel' =>
        j ← lmb_overlaps_region rs b s;
        match j with
        | None =>
            '(r, rs') ← lmb_add_region rs b (lmb_align_up s align);
            if r <? 0 then mret (Alloc_return 0 rs') else mret (Alloc_return b rs')
        | Some j =>
            p ← arr_get (region rs) j;
            let res_base := base p in
            if res_base <? s then mret Alloc_next
            else lmb_alloc_while fuel' rs lmbbase (lmb_align_down (u32 (res_base - s)) align) s align
        end
    end
  else Ok Alloc_next.

(** [for (i = lmb->memory.cnt-1; i >= 0; i--)] with [n = i + 1].  Each pass of
    the inner loop moves below one more reserved range, so [cnt + 1] passes are
    enough ([lmb_alloc_terminates]). *)
Fixpoint lmb_alloc_for (n : nat) (l : lmb) (s align max_addr : Z) : res (Z * lmb) :=
  match n with
  | O => Ok (0, l)
  | S i =>
      p ← arr_get (region (memory l)) i;
      let lmbbase := base p in
      let lmbsize := size p in
      if lmbsize <? s then lmb_alloc_for i l s align max_addr
      else
        let start :=
          if max_addr =? LMB_ALLOC_ANYWHERE then
            Some (lmb_align_down (u32 (u32 (lmbbase + lmbsize) - s)) align)
          else if lmbbase <? max_addr then
            let b := Z.min (u32 (lmbbase + lmbsize)) max_addr in
            Some (lmb_align_down (u32 (b - s)) align)
          else None in
        match start with
        | None => lmb_alloc_for i l s align max_addr
        | Some b =>
            step ← lmb_alloc_while (S (Z.to_nat (cnt (reserved l)))) (reserved l) lmbbase b s align;
            match step with
            | Alloc_return r rs => mret (r, Lmb_ (memory l) rs)
            | Alloc_next => lmb_alloc_for i l s align max_addr
            end
        end
  end.

Definition __lmb_alloc_base (l : lmb) (s align max_addr : Z) : res (Z * lmb) :=
  lmb_alloc_for (Z.to_nat (cnt (memory l))) l s align max_addr.

(** [lmb_alloc_base] adds only an error message. *)
Definition lmb_alloc_base := __lmb_alloc_base.
Definition lmb_alloc (l : lmb) (s align : Z) : res (Z * lmb) :=
  lmb_alloc_base l s align LMB_ALLOC_ANYWHERE.

Fixpoint lmb_is_reserved_loop (n i : nat) (rgn : lmb_region) (addr : Z) : res Z :=
  match n with
  | O => Ok 0
  | S n' =>
      p ← arr_get (region rgn) i;
      let upper := u32 (base p + size p - 1) in
      if (base p <=? addr) && (addr <=? upper) then Ok 1
      else lmb_is_reserved_loop n' (i + 1) rgn addr
  end.

Definition lmb_is_reserved (l : lmb) (addr : Z) : res Z :=
  lmb_is_reserved_loop (Z.to_nat (cnt (reserved l))) 0 (reserved l) addr.

(** ** What a table means

    [chain lo l]: the ranges of [l] are non-empty, end below 2^32, are sorted
    and leave a gap after [lo] and between each other (adjacent ranges have
    been coalesced). *)

Definition prop_end (p : lmb_property) : Z := base p + size p.

Fixpoint chain (lo : Z) (l : list lmb_property) : Prop :=
  match l with
  | [] => True
  | p :: l' => lo < base p /\ 0 < size p /\ prop_end p < 4294967296 /\ chain (prop_end p) l'
  end.

(** Address [a] lies in the range [p]; [a] is in one of the table's ranges. *)
Definition in_prop (a : Z) (p : lmb_property) : Prop := base p <= a < prop_end p.
Definition live (rgn : lmb_region) : list lmb_property := take (Z.to_nat (cnt rgn)) (region rgn).
Definition covers (rgn : lmb_region) (a : Z) : Prop := Exists (in_prop a) (live rgn).

(** The table is in use with 1 to 8 sorted ranges. *)
Definition wf_table (rgn : lmb_region) : Prop :=
  length (region rgn) = S MAX_LMB_REGIONS /\
  1 <= cnt rgn <= Z.of_nat MAX_LMB_REGIONS /\ chain (-1) (live rgn).

(** The table holds only the zero-size dummy entry of [lmb_init]. *)
Definition empty_table (rgn : lmb_region) : Prop :=
  length (region rgn) = S MAX_LMB_REGIONS /\ cnt rgn = 1 /\
  exists p rest, region rgn = p :: rest /\ size p = 0.

Definition disjoint_from (b s : Z) (p : lmb_property) : Prop :=
  b + s <= base p \/ prop_end p <= b.

Definition new_range (rgn : lmb_region) (b s : Z) : Prop :=
  0 <= b /\ 0 < s /\ b + s < 4294967296 /\ Forall (disjoint_from b s) (live rgn).

Definition last_end (lo : Z) (l : list lmb_property) : Z := fold_left (fun _ p => prop_end p) l lo.

Definition sane (p : lmb_property) : Prop := 0 <= base p /\ 0 < size p /\ prop_end p < 4294967296.
Definition overlapping (b s : Z) (p : lmb_property) : Prop := base p < b + s /\ b < prop_end p.

(** The reserved ranges that start below [hi]: each pass of the search loop of
    [__lmb_alloc_base] leaves the range it hit out of this count. *)
Definition below (hi : Z) (l : list lmb_property) : nat := length (filter (fun p => base p < hi) l).

(** Address [r] for [s] bytes is aligned to [2 ^ k], inside a range of the
    memory [mem], under [max_addr], and clear of the reserved ranges [l]. *)
Definition alloc_spec (l : list lmb_property) (s k : Z) (mem : list lmb_property) (max_addr r : Z) : Prop :=
  r mod 2 ^ k = 0 /\ (max_addr = 0 \/ r + s <= max_addr) /\
  Exists (fun p => base p <= r /\ r + s <= prop_end p) mem /\ Forall (disjoint_from r s) l.

(** ** Sorted ranges *)

Lemma last_end_app lo l1 l2 : last_end lo (l1 ++ l2) = last_end (last_end lo l1) l2.
Proof. apply fold_left_app. Qed.

Lemma chain_app lo l1 l2 : chain lo (l1 ++ l2) <-> chain lo l1 /\ chain (last_end lo l1) l2.
Proof. revert lo. induction l1 as [|p l1 IH]; intros lo; simpl; [tauto|]. rewrite IH. tauto. Qed.

Lemma chain_weaken lo lo' l : lo' <= lo -> chain lo l -> chain lo' l.
Proof. destruct l; simpl; [done|]. intros. intuition lia. Qed.

Lemma last_end_lt lo l v : lo < v -> Forall (fun p => prop_end p < v) l -> last_end lo l < v.
Proof.
  revert lo. induction l as [|p l IH]; intros lo Hlo Hl; simpl; [done|].
  apply Forall_cons in Hl as [? ?]. by apply IH.
Qed.

Lemma last_end_ge lo l : chain lo l -> lo <= last_end lo l.
Proof.
  revert lo. induction l as [|p l IH]; intros lo; simpl; [lia|].
  unfold prop_end in *. intros (? & ? & ? & Hc). specialize (IH _ Hc). lia.
Qed.

(** Every range of a chain ends at or before its last end. *)
Lemma chain_bounds lo l :
  chain lo l ->
  Forall (fun p => lo < base p /\ 0 < size p /\ prop_end p < 4294967296 /\ prop_end p <= last_end lo l) l.
Proof.
  revert lo. induction l as [|p l IH]; intros lo; simpl; [by constructor|].
  intros (? & ? & ? & Hc). pose proof (last_end_ge _ _ Hc). constructor; [done|].
  eapply Forall_impl; [by apply IH|]. unfold prop_end in *. simpl. lia.
Qed.

(** What precedes a range of a chain ends below it. *)
Lemma chain_before lo l1 p l2 :
  chain lo (l1 ++ p :: l2) -> Forall (fun q => 0 < size q /\ prop_end q < base p) l1.
Proof.
  rewrite chain_app. intros [H1 [H2 _]]. eapply Forall_impl; [by apply chain_bounds|].
  simpl. lia.
Qed.

Lemma chain_after lo p l2 : chain lo (p :: l2) -> Forall (fun q => prop_end p < base q) l2.
Proof.
  intros (_ & _ & _ & H). eapply Forall_impl; [by apply chain_bounds|]. simpl. lia.
Qed.

(** ** Tables as lists: the live entries, then the rest of the array *)

Definition table (l rest : list lmb_property) (rs : Z) : lmb_region :=
  Rgn (Z.of_nat (length l)) rs (l ++ rest).

Lemma live_table l rest rs : live (table l rest rs) = l.
Proof. unfold live, table. simpl. rewrite Nat2Z.id. apply take_app_length. Qed.

Lemma wf_table_split rgn :
  wf_table rgn ->
  exists l rest rs, rgn = table l rest rs /\ chain (-1) l /\
    (1 <= length l <= MAX_LMB_REGIONS)%nat /\ (length l + length rest = S MAX_LMB_REGIONS)%nat.
Proof.
  intros (Hlen & Hcnt & Hc). destruct rgn as [c rs a]. simpl in *.
  exists (take (Z.to_nat c) a), (drop (Z.to_nat c) a), rs.
  unfold table. rewrite take_drop, length_take, length_drop. split_and!; try done; try lia.
  f_equal. lia.
Qed.

Lemma table_wf l rest rs :
  chain (-1) l -> (1 <= length l <= MAX_LMB_REGIONS)%nat ->
  (length l + length rest = S MAX_LMB_REGIONS)%nat -> wf_table (table l rest rs).
Proof.
  intros Hc Hl Hr. unfold wf_table. rewrite live_table. simpl. rewrite length_app. split_and!; try done; lia.
Qed.

Lemma set_prop_mid c rs l1 p l2 q i :
  i = length l1 -> set_prop (Rgn c rs (l1 ++ p :: l2)) i q = Ok (Rgn c rs (l1 ++ q :: l2)).
Proof. intros. unfold set_prop. simpl. by rewrite (arr_set_app_mid l1 p q l2 i). Qed.

Lemma get_prop_mid l1 (p : lmb_property) l2 i : i = length l1 -> arr_get (l1 ++ p :: l2) i = Ok p.
Proof. apply arr_get_app_mid. Qed.

(** ** The loops on lists *)

Definition adjacent_to (b s : Z) (p : lmb_property) : Prop := base p = b + s \/ b = prop_end p.

Lemma lmb_adjacent_spec b s p :
  0 <= b -> 0 < s -> b + s < 4294967296 -> 0 <= base p -> 0 < size p -> prop_end p < 4294967296 ->
  lmb_addrs_adjacent b s (base p) (size p) =
    if base p =? b + s then 1 else if b =? prop_end p then -1 else 0.
Proof.
  unfold prop_end. intros. unfold lmb_addrs_adjacent. by rewrite !u32_small by lia.
Qed.

(** The scan stops at the first range that touches the new one. *)
Lemma lmb_add_scan_spec b s rs c l2 : forall l1 rest lo,
  0 <= b -> 0 < s -> b + s < 4294967296 -> -1 <= lo -> chain lo l2 -> Forall (disjoint_from b s) l2 ->
  let r l := Rgn c rs (l1 ++ l ++ rest) in
  (Forall (fun p => ~ adjacent_to b s p) l2 /\
   lmb_add_scan (length l2) (length l1) (r l2) b s = Ok (Scan_stop (r l2) (length l1 + length l2) 0)) \/
  (exists x p y q, l2 = x ++ p :: y /\ Forall (fun p => ~ adjacent_to b s p) x /\
   (base p = b + s /\ q = Prop_ b (size p + s) \/ b = prop_end p /\ q = Prop_ (base p) (size p + s)) /\
   lmb_add_scan (length l2) (length l1) (r l2) b s =
     Ok (Scan_stop (r (x ++ q :: y)) (length l1 + length x) 1)).
Proof.
  induction l2 as [|p l2 IH]; intros l1 rest lo Hb Hs Hbs Hlo Hc Hd r.
  { left. split; [constructor|]. simpl. by rewrite Nat.add_0_r. }
  apply Forall_cons in Hd as [Hdp Hd]. destruct Hc as (Hp1 & Hp2 & Hp3 & Hc).
  unfold disjoint_from, prop_end in *.
  assert (Hget : arr_get (region (r (p :: l2))) (length l1) = Ok p) by (apply get_prop_mid; done).
  simpl length. cbn [lmb_add_scan]. rewrite (res_bind_ok _ _ _ Hget).
  destruct (Z.eqb_spec (base p) b) as [E|E]; [lia|]. rewrite andb_false_l.
  rewrite lmb_adjacent_spec by (unfold prop_end; lia). unfold prop_end.
  destruct (Z.eqb_spec (base p) (b + s)) as [Eb|Eb].
  { right. exists [], p, l2, (Prop_ b (size p + s)). split_and!; [done|constructor|by left|].
    change (0 <? 1) with true. cbv iota zeta. rewrite !u32_small by lia. unfold r. simpl.
    rewrite (set_prop_mid c rs l1 p _ _ _ eq_refl). simpl. replace (base p - s) with b by lia.
    by rewrite Nat.add_0_r. }
  destruct (Z.eqb_spec b (base p + size p)) as [Ee|Ee].
  { right. exists [], p, l2, (Prop_ (base p) (size p + s)). split_and!; [done|constructor|by right|].
    change (0 <? -1) with false. change (-1 <? 0) with true. cbv iota zeta. rewrite !u32_small by lia. unfold r. simpl.
    rewrite (set_prop_mid c rs l1 p _ _ _ eq_refl). simpl. by rewrite Nat.add_0_r. }
  assert (Hna : ~ adjacent_to b s p) by (unfold adjacent_to, prop_end; lia).
  change (0 <? 0) with false. cbv iota zeta.
  destruct (IH (l1 ++ [p]) rest (base p + size p)) as [[Hn Heq]|(x & p' & y & q & -> & Hx & Hq & Heq)]; try done; try lia.
  - left. split; [by constructor|]. rewrite length_app in Heq. simpl in Heq.
    unfold r. rewrite <- !app_assoc in Heq. simpl in *. rewrite Heq. do 2 f_equal. lia.
  - right. exists (p :: x), p', y, q. split_and!; [done|by constructor|done|].
    rewrite length_app in Heq |- *. rewrite (length_app l1) in Heq. unfold r.
    rewrite <- !app_assoc in Heq |- *. simpl in *. rewrite Heq. do 2 f_equal; [by rewrite <- ?app_assoc | lia].
Qed.

Lemma lmb_remove_loop_spec rs y : forall l1 p rest fuel,
  (length y < fuel)%nat -> Z.of_nat (length l1 + length y) < 4294967295 ->
  exists z, lmb_remove_loop fuel (length l1) (Rgn (Z.of_nat (S (length l1 + length y))) rs (l1 ++ p :: y ++ rest)) =
  Ok (Rgn (Z.of_nat (S (length l1 + length y))) rs (l1 ++ y ++ z :: rest)).
Proof.
  induction y as [|q y IH]; intros l1 p rest fuel Hf Hl; destruct fuel as [|fuel]; simpl in Hf; try lia.
  - cbn [lmb_remove_loop cnt length]. rewrite u32_small by lia.
    exists p. btest; [lia|done].
  - cbn [lmb_remove_loop cnt]. rewrite u32_small by (simpl in *; lia).
    btest; [|simpl in *; lia].
    cbn [region app].
    rewrite (res_bind_ok _ _ q).
    2:{ change (l1 ++ p :: q :: y ++ rest) with (l1 ++ [p] ++ q :: y ++ rest). rewrite app_assoc.
        apply get_prop_mid. rewrite length_app. simpl. lia. }
    rewrite (res_bind_ok _ _ _ (set_prop_mid _ _ l1 p _ q _ eq_refl)).
    destruct (IH (l1 ++ [q]) q rest fuel) as [z Hz]; [lia|rewrite length_app; simpl in *; lia|].
    exists z. rewrite length_app, <- !app_assoc in Hz. simpl in *.
    replace (length l1 + S (length y))%nat with (length l1 + 1 + length y)%nat by lia. exact Hz.
Qed.

(** Removing the entry after [l1] from a table. *)
Lemma lmb_remove_region_spec l1 p y rest rs :
  (length y <= MAX_LMB_REGIONS)%nat -> Z.of_nat (length l1 + length y) < 4294967295 ->
  exists z, lmb_remove_region (table (l1 ++ p :: y) rest rs) (length l1) =
    Ok (table (l1 ++ y) (z :: rest) rs).
Proof.
  intros Hy Hl. destruct (lmb_remove_loop_spec rs y l1 p rest (S MAX_LMB_REGIONS)) as [z Hz]; [lia|done|].
  exists z. unfold lmb_remove_region, table. rewrite <- !app_assoc. simpl app.
  rewrite length_app. simpl length. rewrite Nat.add_succ_r, (res_bind_ok _ _ _ Hz).
  unfold set_cnt. simpl. rewrite u32_small by lia. unfold mret, res_ret. do 3 f_equal.
  - rewrite length_app. lia.
Qed.

(** The insertion loop shifts the larger ranges up by one. *)
Lemma lmb_insert_loop_spec n rs b s c : forall a r0 rest,
  (forall a' q, a = a' ++ [q] -> base q <= b) -> Forall (fun p => b < base p) c ->
  lmb_insert_loop (length (a ++ c)) (Rgn n rs (a ++ c ++ r0 :: rest)) b s =
  Ok (Rgn n rs (match a with
                | [] => match c with [] => r0 :: rest | p :: _ => p :: c ++ rest end
                | _ => a ++ Prop_ b s :: c ++ rest
                end)).
Proof.
  induction c as [|p c IH] using rev_ind; intros a r0 rest Ha Hc.
  - destruct a as [|q a _] using rev_ind; [done|]. rewrite app_nil_r, length_app. simpl length.
    rewrite Nat.add_1_r. cbn [lmb_insert_loop region]. rewrite <- app_assoc. simpl app.
    rewrite (res_bind_ok _ _ q) by (by apply get_prop_mid). specialize (Ha a q eq_refl).
    btest; [lia|].
    change (a ++ q :: r0 :: rest) with (a ++ [q] ++ r0 :: rest). rewrite app_assoc.
    rewrite set_prop_mid by (rewrite length_app; simpl; lia).
    do 2 f_equal. destruct a; simpl; [done|]. by rewrite <- app_assoc.
  - apply Forall_app in Hc as [Hc Hp]. rewrite Forall_singleton in Hp.
    replace (length (a ++ c ++ [p])) with (S (length (a ++ c))) by (rewrite !length_app; simpl; lia).
    cbn [lmb_insert_loop region].
    replace (a ++ (c ++ [p]) ++ r0 :: rest) with ((a ++ c) ++ p :: r0 :: rest) by (by rewrite <- !app_assoc).
    rewrite (res_bind_ok _ _ p) by (by apply get_prop_mid). btest; [|lia].
    change ((a ++ c) ++ p :: r0 :: rest) with ((a ++ c) ++ [p] ++ r0 :: rest). rewrite app_assoc.
    rewrite (res_bind_ok _ _ (Rgn n rs (((a ++ c) ++ [p]) ++ p :: rest)))
      by (apply set_prop_mid; rewrite !length_app; simpl; lia).
    rewrite <- !app_assoc. simpl app. rewrite (IH a p (p :: rest) Ha Hc). do 2 f_equal.
    destruct a; destruct c; simpl; try done; by rewrite <- ?app_assoc.
Qed.

(** ** Adding to a table in use *)

(** A new range that touches nothing splits a chain into what is below it and
    what is above it, with gaps on both sides. *)
Lemma chain_split b s l : forall lo,
  0 < s -> chain lo l -> Forall (disjoint_from b s) l -> Forall (fun p => ~ adjacent_to b s p) l ->
  exists a c, l = a ++ c /\ Forall (fun p => prop_end p < b) a /\ Forall (fun p => b + s < base p) c.
Proof.
  induction l as [|p l IH]; intros lo Hs Hc Hd Hn.
  { exists [], []. done. }
  apply Forall_cons in Hd as [Hdp Hd]. apply Forall_cons in Hn as [Hnp Hn].
  pose proof (chain_after _ _ _ Hc) as Haft. destruct Hc as (H1 & H2 & H3 & Hc).
  unfold disjoint_from, adjacent_to in *. destruct (decide (prop_end p < b)) as [Hlt|Hge].
  - destruct (IH _ Hs Hc Hd Hn) as (a & c & -> & Ha & Hcc). exists (p :: a), c.
    split_and!; [done|by constructor|done].
  - exists [], (p :: l). split_and!; [done|constructor|]. constructor; [lia|].
    eapply Forall_impl; [exact Haft|]. unfold prop_end in *. simpl. lia.
Qed.

Lemma chain_insert lo a c p :
  lo < base p -> 0 < size p -> prop_end p < 4294967296 -> chain lo (a ++ c) ->
  Forall (fun q => prop_end q < base p) a -> Forall (fun q => prop_end p < base q) c ->
  chain lo (a ++ p :: c).
Proof.
  intros Hlo Hs He Hc Ha Hcc. apply chain_app in Hc as [Hca Hc]. apply chain_app. split; [done|].
  simpl. split_and!; [by apply last_end_lt|done|done|].
  destruct c as [|q c]; [done|]. apply Forall_cons in Hcc as [? ?]. simpl in *. intuition lia.
Qed.

Lemma covers_table l rest rs a : covers (table l rest rs) a <-> Exists (in_prop a) l.
Proof. unfold covers. by rewrite live_table. Qed.

(** What [lmb_add_region] promises for a range disjoint from the table. *)
Definition add_post (l : list lmb_property) (rgn : lmb_region) (b s : Z) (r : Z) (rgn' : lmb_region) : Prop :=
  0 <= r /\ wf_table rgn' /\ forall a, covers rgn' a <-> Exists (in_prop a) l \/ b <= a < b + s.

Lemma lmb_add_insert l rest rs b s :
  chain (-1) l -> (1 <= length l < MAX_LMB_REGIONS)%nat ->
  (length l + length rest = S MAX_LMB_REGIONS)%nat -> 0 <= b -> 0 < s -> b + s < 4294967296 ->
  Forall (disjoint_from b s) l -> Forall (fun p => ~ adjacent_to b s p) l ->
  exists rgn', (
    rgn3 ← lmb_insert_loop (length l) (table l rest rs) b s;
    q0 ← arr_get (region rgn3) 0;
    rgn4 ← (if b <? base q0 then set_prop rgn3 0 (Prop_ b s) else mret rgn3);
    mret (0, set_cnt rgn4 (cnt rgn4 + 1))) = Ok (0, rgn') /\ add_post l (table l rest rs) b s 0 rgn'.
Proof.
  intros Hc Hl Hr Hb Hs Hbs Hd Hn.
  destruct (chain_split b s l (-1)) as (a & c & -> & Ha & Hcc); try done.
  destruct rest as [|r0 rest]; [simpl in *; lia|].
  exists (table (a ++ Prop_ b s :: c) rest rs). split.
  2:{ split; [done|]. split.
      - apply table_wf; rewrite ?length_app in *; simpl in *; try lia.
        apply chain_insert; simpl; unfold prop_end; simpl; try lia; try done.
      - intros x. rewrite covers_table, !Exists_app, Exists_cons. unfold in_prop at 2. unfold prop_end. simpl. tauto. }
  assert (Ha' : forall a' q, a = a' ++ [q] -> base q <= b).
  { intros a' q ->. apply Forall_app in Ha as [_ Ha]. rewrite Forall_singleton in Ha.
    apply chain_app in Hc as [Hc _]. apply chain_bounds in Hc. apply Forall_app in Hc as [_ Hc].
    rewrite Forall_singleton in Hc. unfold prop_end in *. lia. }
  assert (Hc' : Forall (fun p => b < base p) c) by (eapply Forall_impl; [exact Hcc|]; simpl; lia).
  unfold table at 1. rewrite <- !app_assoc.
  rewrite (res_bind_ok _ _ _ (lmb_insert_loop_spec _ rs b s c a r0 rest Ha' Hc')).
  destruct a as [|q a].
  - destruct c as [|p c]; [simpl in *; lia|]. simpl app. cbn [region].
    rewrite (res_bind_ok _ _ p) by done. apply Forall_cons in Hcc as [? _]. btest; [|lia].
    rewrite (res_bind_ok _ _ _ (set_prop_mid (Z.of_nat (length ([] ++ p :: c))) rs [] p (p :: c ++ rest) (Prop_ b s) 0%nat eq_refl)).
    unfold set_cnt, table, MAX_LMB_REGIONS in *. simpl in *. rewrite u32_small by lia. unfold mret, res_ret. do 3 f_equal. lia.
  - simpl app. cbn [region]. rewrite (res_bind_ok _ _ q) by done.
    apply Forall_cons in Ha as [? _]. pose proof (chain_bounds _ _ Hc) as Hb'.
    simpl in Hb'. apply Forall_cons in Hb' as [? _]. unfold prop_end in *. btest; [lia|].
    unfold set_cnt, table, MAX_LMB_REGIONS in *. simpl in *. rewrite length_app in *. simpl in *. rewrite u32_small by lia.
    rewrite <- app_assoc. unfold mret, res_ret. do 3 f_equal. rewrite length_app. simpl. lia.
Qed.

(** Joining the entry after [l1] with its successor. *)
Lemma lmb_coalesce_spec l1 p q y rest rs :
  (length y <= MAX_LMB_REGIONS)%nat -> Z.of_nat (length l1 + length y) < 4294967294 ->
  exists z, lmb_coalesce_regions (table (l1 ++ p :: q :: y) rest rs) (length l1) (length l1 + 1) =
    Ok (table (l1 ++ Prop_ (base p) (u32 (size p + size q)) :: y) (z :: rest) rs).
Proof.
  intros Hy Hl. unfold lmb_coalesce_regions.
  assert (Hreg : region (table (l1 ++ p :: q :: y) rest rs) = l1 ++ p :: q :: y ++ rest)
    by (unfold table; simpl; by rewrite <- app_assoc).
  rewrite Hreg, (res_bind_ok _ _ p) by (by apply get_prop_mid).
  change (l1 ++ p :: q :: y ++ rest) with (l1 ++ [p] ++ q :: y ++ rest) at 1. rewrite app_assoc.
  rewrite (res_bind_ok _ _ q) by (apply get_prop_mid; rewrite length_app; simpl; lia).
  set (p' := Prop_ (base p) (u32 (size p + size q))).
  assert (Hs : set_prop (table (l1 ++ p :: q :: y) rest rs) (length l1) p' =
               Ok (table ((l1 ++ [p']) ++ q :: y) rest rs)).
  { unfold table. rewrite <- !app_assoc. simpl app. rewrite set_prop_mid by done.
    do 2 f_equal. rewrite !length_app. simpl. lia. }
  rewrite (res_bind_ok _ _ _ Hs).
  destruct (lmb_remove_region_spec (l1 ++ [p']) q y rest rs) as [z Hz]; [done|rewrite length_app; simpl; lia|].
  exists z. rewrite length_app in Hz. simpl in Hz. rewrite Hz. unfold table. by rewrite <- !app_assoc.
Qed.

(** After the scan joined the new range to entry [q], the next entry is joined
    as well when it now touches. *)
Lemma lmb_add_join x q y rest rs k :
  chain (-1) x -> last_end (-1) x < base q -> 0 < size q -> prop_end q < 4294967296 ->
  chain (prop_end q - 1) y -> 0 < k ->
  (length x + S (length y) <= MAX_LMB_REGIONS)%nat ->
  (length x + S (length y) + length rest = S MAX_LMB_REGIONS)%nat ->
  exists r rgn', lmb_join_next (table (x ++ q :: y) rest rs) (length x) k = Ok (rgn', r) /\ 0 < r /\ wf_table rgn' /\
    forall a, covers rgn' a <-> Exists (in_prop a) (x ++ q :: y).
Proof.
  intros Hx Hlt Hs He Hy Hk Hl Hr. unfold MAX_LMB_REGIONS, lmb_join_next in *.
  assert (Hcnt : cnt (table (x ++ q :: y) rest rs) = Z.of_nat (length x) + 1 + Z.of_nat (length y)).
  { simpl. rewrite length_app. simpl. lia. }
  rewrite Hcnt, u32_small by lia.
  assert (Hwf : chain (prop_end q) y -> wf_table (table (x ++ q :: y) rest rs)).
  { intros Hc. apply table_wf; rewrite ?length_app; simpl; try (unfold MAX_LMB_REGIONS; lia).
    apply chain_app. simpl. done. }
  destruct y as [|p y].
  { btest; simpl in *; [lia|]. exists k, (table (x ++ [q]) rest rs). split_and!; try done.
    - by apply Hwf.
    - intros a. by rewrite covers_table. }
  btest; [|simpl in *; lia].
  assert (Hadj : lmb_regions_adjacent (table (x ++ q :: p :: y) rest rs) (length x) (length x + 1) =
                 Ok (lmb_addrs_adjacent (base q) (size q) (base p) (size p))).
  { unfold lmb_regions_adjacent, table. cbn [region]. rewrite <- app_assoc. simpl app.
    rewrite (res_bind_ok _ _ q) by (by apply get_prop_mid).
    change (x ++ q :: p :: y ++ rest) with (x ++ [q] ++ p :: y ++ rest). rewrite app_assoc.
    by rewrite (res_bind_ok _ _ p) by (apply get_prop_mid; rewrite length_app; simpl; lia). }
  rewrite (res_bind_ok _ _ _ Hadj). destruct Hy as (Hp1 & Hp2 & Hp3 & Hy).
  unfold prop_end in *. pose proof (last_end_ge _ _ Hx).
  unfold lmb_addrs_adjacent. rewrite !u32_small by lia.
  destruct (Z.eqb_spec (base p) (base q + size q)) as [Ep|Ep].
  - change (1 =? 0) with false. cbv iota.
    destruct (lmb_coalesce_spec x q p y rest rs) as [z Hz]; simpl in *; try lia; [unfold MAX_LMB_REGIONS; lia|].
    rewrite (res_bind_ok _ _ _ Hz).
    exists (k + 1), (table (x ++ Prop_ (base q) (u32 (size q + size p)) :: y) (z :: rest) rs).
    rewrite u32_small by lia. split_and!; [done|lia| |].
    + apply table_wf; rewrite ?length_app; simpl; try (unfold MAX_LMB_REGIONS; lia).
      apply chain_app. simpl. unfold prop_end. simpl. split_and!; try done; try lia.
      by replace (base q + (size q + size p)) with (base p + size p) by lia.
    + intros a. rewrite covers_table, !Exists_app, !Exists_cons. unfold in_prop at 2 5 6. unfold prop_end. simpl.
      intuition lia.
  - destruct (Z.eqb_spec (base q) (base p + size p)); [lia|]. change (0 =? 0) with true. cbv iota.
    exists k, (table (x ++ q :: p :: y) rest rs). split_and!; try done.
    + apply Hwf. simpl. split_and!; try done. lia.
    + intros a. by rewrite covers_table.
Qed.

Lemma lmb_add_region_table l rest rs b s :
  chain (-1) l -> (1 <= length l <= MAX_LMB_REGIONS)%nat ->
  (length l + length rest = S MAX_LMB_REGIONS)%nat ->
  0 <= b -> 0 < s -> b + s < 4294967296 -> Forall (disjoint_from b s) l ->
  exists r rgn', lmb_add_region (table l rest rs) b s = Ok (r, rgn') /\
    (r = -1 /\ rgn' = table l rest rs /\ length l = MAX_LMB_REGIONS \/
     add_post l (table l rest rs) b s r rgn').
Proof.
  intros Hc Hl Hr Hb Hs Hbs Hd. unfold lmb_add_region.
  destruct l as [|p0 l0]; [simpl in *; lia|]. set (l := p0 :: l0) in *.
  rewrite (res_bind_ok _ _ p0) by done.
  assert (Hp0 : 0 < size p0) by (destruct Hc as (? & ? & _); done).
  destruct (Z.eqb_spec (size p0) 0); [lia|]. rewrite andb_false_r. clearbody l.
  assert (Hcnt : Z.to_nat (cnt (table l rest rs)) = length l) by (simpl; lia). rewrite Hcnt.
  destruct (lmb_add_scan_spec b s rs (Z.of_nat (length l)) l [] rest (-1)) as
    [[Hn Hscan]|(x & p & y & q & Hl0 & Hx & Hq & Hscan)]; try done.
  - change (Rgn _ rs ([] ++ l ++ rest)) with (table l rest rs) in Hscan. rewrite (res_bind_ok _ _ _ Hscan). unfold lmb_join_next. unfold MAX_LMB_REGIONS in *.
    rewrite u32_small by (simpl; lia). simpl length at 1. simpl cnt.
    btest; [lia|]. cbn -[lmb_insert_loop arr_get set_prop table].
    change (cnt (table l rest rs)) with (Z.of_nat (length l)). change (Z.of_nat 8) with 8.
    destruct (Z.leb_spec 8 (Z.of_nat (length l))).
    + exists (-1), (table l rest rs). split; [done|]. left. split_and!; try done. lia.
    + destruct (lmb_add_insert l rest rs b s) as (rgn' & Heq & Hpost); try done; [unfold MAX_LMB_REGIONS; lia|].
      exists 0, rgn'. split; [|by right]. rewrite Nat2Z.id. exact Heq.
  - change (Rgn _ rs ([] ++ l ++ rest)) with (table l rest rs) in Hscan. rewrite (res_bind_ok _ _ _ Hscan).
    clear Hscan.
    assert (Hq' : base q <= b /\ last_end (-1) x < base q /\ 0 < size q /\ prop_end q < 4294967296 /\
                  chain (prop_end q - 1) y /\ forall a, in_prop a q <-> in_prop a p \/ b <= a < b + s).
    { subst l. pose proof (chain_before _ _ _ _ Hc) as Hbef. apply chain_app in Hc as [Hcx Hcp].
      apply Forall_app in Hd as [Hdx Hdp]. apply Forall_cons in Hdp as [Hdp Hdy].
      destruct Hcp as (Hp1 & Hp2 & Hp3 & Hcy). unfold disjoint_from, in_prop, prop_end in *.
      destruct Hq as [[E ->]|[E ->]]; simpl.
      - split_and!; try lia.
        + apply last_end_lt; [lia|]. rewrite Forall_forall in *. intros z Hz.
          specialize (Hbef z Hz). specialize (Hdx z Hz). specialize (Hx z Hz).
          unfold adjacent_to, prop_end in *. simpl in *. lia.
        + eapply chain_weaken; [|exact Hcy]. lia.
      - split_and!; try lia.
        destruct y as [|z y]; [done|]. simpl in *. unfold prop_end in *.
        apply Forall_cons in Hdy as [? _]. intuition lia. }
    destruct Hq' as (Hqb & Hlt & Hqs & Hqe & Hy & Hcov).
    assert (Hcx : chain (-1) x) by (subst l; by apply chain_app in Hc as [? _]).
    assert (Hlen : length l = (length x + S (length y))%nat) by (subst l; by rewrite length_app).
    destruct (lmb_add_join x q y rest rs 1) as (r & rgn' & Heq & Hr0 & Hwf & Hcov'); try done; try lia.
    assert (Htab : Rgn (Z.of_nat (length l)) rs ([] ++ (x ++ q :: y) ++ rest) = table (x ++ q :: y) rest rs).
    { unfold table. do 2 f_equal. rewrite Hlen, length_app. done. }
    rewrite Htab, (res_bind_ok _ _ _ Heq). cbv beta iota.
    destruct (Z.eqb_spec r 0); [lia|]. exists r, rgn'. split; [done|]. right. split_and!; [lia|done|].
    intros a. rewrite Hcov', Hl0, !Exists_app, !Exists_cons, Hcov. tauto.
Qed.

(** ** Freeing from a table in use *)

Lemma lmb_free_scan_spec b e rs c p y rest : forall x l1,
  Forall (fun q => prop_end q < e /\ 0 <= base q /\ 0 < size q /\ prop_end q < 4294967296) x ->
  0 <= base p -> 0 < size p -> prop_end p < 4294967296 -> base p <= b -> e <= prop_end p ->
  lmb_free_scan (length (x ++ p :: y)) (length l1) (Rgn c rs (l1 ++ (x ++ p :: y) ++ rest)) b e =
  Ok (Some ((length l1 + length x)%nat, base p, prop_end p)).
Proof.
  unfold prop_end. induction x as [|q x IH]; intros l1 Hx Hp1 Hp2 Hp3 Hb He.
  - simpl. rewrite (res_bind_ok _ _ p) by (by apply get_prop_mid). rewrite u32_small by lia.
    btest; try lia. simpl. do 4 f_equal. lia.
  - apply Forall_cons in Hx as [Hq Hx]. simpl.
    rewrite (res_bind_ok _ _ q) by (by apply get_prop_mid). rewrite u32_small by lia.
    destruct (Z.leb_spec e (base q + size q)); [lia|]. rewrite andb_false_r.
    specialize (IH (l1 ++ [q]) Hx Hp1 Hp2 Hp3 Hb He). rewrite (length_app l1) in IH.
    rewrite <- app_assoc in IH. simpl app in IH. simpl length in IH. rewrite IH. do 4 f_equal. simpl. lia.
Qed.

(** What [lmb_free] promises when [b, b+s) lies inside one range. *)
Definition free_post (rgn : lmb_region) (b s : Z) (rgn' : lmb_region) : Prop :=
  wf_table rgn' /\ forall a, covers rgn' a <-> covers rgn a /\ ~ (b <= a < b + s).

Lemma covers_without x p y a :
  chain (-1) (x ++ p :: y) ->
  Exists (in_prop a) (x ++ y) <-> Exists (in_prop a) (x ++ p :: y) /\ ~ in_prop a p.
Proof.
  intros Hc. pose proof (chain_before _ _ _ _ Hc) as Hbef.
  apply chain_app in Hc as [_ Hc]. pose proof (chain_after _ _ _ Hc) as Haft.
  destruct Hc as (_ & Hp & _). rewrite !Exists_app, Exists_cons.
  assert (Hnx : Exists (in_prop a) x -> ~ in_prop a p).
  { rewrite Exists_exists. intros (q & Hq & Hin). rewrite Forall_forall in Hbef.
    specialize (Hbef q Hq). unfold in_prop, prop_end in *. simpl in *. lia. }
  assert (Hny : Exists (in_prop a) y -> ~ in_prop a p).
  { rewrite Exists_exists. intros (q & Hq & Hin). rewrite Forall_forall in Haft.
    specialize (Haft q Hq). unfold in_prop, prop_end in *. simpl in *. lia. }
  tauto.
Qed.

Lemma covers_replace x p q y a :
  chain (-1) (x ++ p :: y) -> (in_prop a q -> in_prop a p) ->
  Exists (in_prop a) (x ++ q :: y) <-> Exists (in_prop a) (x ++ p :: y) /\ (in_prop a p -> in_prop a q).
Proof.
  intros Hc Hsub. pose proof (covers_without x p y a Hc) as Hw.
  rewrite !Exists_app, !Exists_cons in *. tauto.
Qed.

Lemma chain_replace x p q y :
  chain (-1) (x ++ p :: y) -> base p <= base q -> 0 < size q -> prop_end q <= prop_end p ->
  chain (-1) (x ++ q :: y).
Proof.
  rewrite !chain_app. simpl. intros (Hx & H1 & H2 & H3 & Hy) ? ? ?. split_and!; try done; try lia.
  eapply chain_weaken; [|exact Hy]. lia.
Qed.

(** The three cases of [lmb_free] that do not split the range. *)
Lemma lmb_free_simple x p y rest rs b s :
  let rgn := table (x ++ p :: y) rest rs in
  chain (-1) (x ++ p :: y) -> 
  (1 <= length (x ++ p :: y) <= MAX_LMB_REGIONS)%nat ->
  (base p = b -> prop_end p = b + s -> x ++ y <> []) ->
  (length (x ++ p :: y) + length rest = S MAX_LMB_REGIONS)%nat ->
  base p <= b -> 0 < s -> b + s <= prop_end p -> base p = b \/ prop_end p = b + s ->
  exists rgn', lmb_free_region rgn b s = Ok (0, rgn') /\ free_post rgn b s rgn'.
Proof.
  intros rgn Hc Hl Hone Hr Hb Hs He Hcase. unfold lmb_free_region.
  pose proof (chain_bounds _ _ Hc) as Hbd. apply Forall_app in Hbd as [Hbx Hbp].
  apply Forall_cons in Hbp as [Hbp _]. pose proof (chain_before _ _ _ _ Hc) as Hbef.
  unfold prop_end in *. rewrite u32_small by lia.
  assert (Hscan : lmb_free_scan (Z.to_nat (cnt rgn)) 0 rgn b (b + s) =
                  Ok (Some (length x, base p, base p + size p))).
  { unfold rgn, table. simpl cnt. rewrite Nat2Z.id.
    apply (lmb_free_scan_spec b (b + s) rs _ p y rest x []); unfold prop_end; try lia.
    rewrite Forall_forall in *. intros q Hq. specialize (Hbx q Hq). specialize (Hbef q Hq). simpl in *. lia. }
  rewrite (res_bind_ok _ _ _ Hscan). cbv beta iota.
  assert (Hget : arr_get (region rgn) (length x) = Ok p)
    by (unfold rgn, table; simpl; rewrite <- app_assoc; by apply get_prop_mid).
  assert (Hset : forall q, set_prop rgn (length x) q = Ok (table (x ++ q :: y) rest rs)).
  { intros q. unfold rgn, table. rewrite <- !app_assoc. simpl app. rewrite set_prop_mid by done.
    rewrite !length_app. done. }
  assert (Hwf : forall q, base p <= base q -> 0 < size q -> prop_end q <= prop_end p ->
                wf_table (table (x ++ q :: y) rest rs)).
  { intros q ? ? ?. apply table_wf; [by eapply chain_replace| |]; rewrite length_app in *; simpl in *; lia. }
  destruct (Z.eqb_spec (base p) b) as [E1|E1], (Z.eqb_spec (base p + size p) (b + s)) as [E2|E2];
    simpl andb; cbv iota; try lia.
  - specialize (Hone E1 E2).
    assert (length (x ++ y) <> 0)%nat by (by destruct (x ++ y)).
    rewrite !length_app in *. simpl in *. unfold MAX_LMB_REGIONS in *.
    destruct (lmb_remove_region_spec x p y rest rs) as [z Hz]; [unfold MAX_LMB_REGIONS; lia|lia|].
    fold rgn in Hz. rewrite (res_bind_ok _ _ _ Hz). eexists. split; [done|]. split.
    + apply table_wf; rewrite ?length_app; simpl; try (unfold MAX_LMB_REGIONS; lia).
      apply chain_app in Hc as [Hx Hc]. apply chain_app. split; [done|].
      destruct Hc as (? & ? & ? & Hc). eapply chain_weaken; [|exact Hc]. unfold prop_end. lia.
    + intros a. unfold rgn. rewrite !covers_table, (covers_without _ p) by done.
      unfold in_prop at 2, prop_end. rewrite E1. split; intros [? ?]; split; try done; lia.
  - rewrite (res_bind_ok _ _ _ Hget), (res_bind_ok _ _ _ (Hset _)). rewrite u32_small by lia.
    eexists. split; [done|]. split; [apply Hwf; unfold prop_end; simpl; lia|].
    intros a. unfold rgn. rewrite !covers_table, (covers_replace _ p) by (done || unfold in_prop, prop_end; simpl; lia).
    unfold in_prop at 2 3, prop_end. simpl.
    split; intros [HE ?]; (split; [done|]); intros; [|lia].
    destruct (decide (in_prop a p)) as [Hin|Hin]; unfold in_prop, prop_end in *; lia.
  - rewrite (res_bind_ok _ _ _ Hget), (res_bind_ok _ _ _ (Hset _)). rewrite u32_small by lia.
    eexists. split; [done|]. split; [apply Hwf; unfold prop_end; simpl; lia|].
    intros a. unfold rgn. rewrite !covers_table, (covers_replace _ p) by (done || unfold in_prop, prop_end; simpl; lia).
    unfold in_prop at 2 3, prop_end. simpl.
    split; intros [HE ?]; (split; [done|]); intros; lia.
Qed.

(** The case that cuts a hole: the tail goes back through [lmb_add_region]. *)
Lemma lmb_free_split x p y rest rs b s :
  let rgn := table (x ++ p :: y) rest rs in
  chain (-1) (x ++ p :: y) -> (1 <= length (x ++ p :: y) <= MAX_LMB_REGIONS)%nat ->
  (length (x ++ p :: y) + length rest = S MAX_LMB_REGIONS)%nat ->
  base p < b -> 0 < s -> b + s < prop_end p ->
  exists r rgn', lmb_free_region rgn b s = Ok (r, rgn') /\
    (r = -1 /\ length (x ++ p :: y) = MAX_LMB_REGIONS \/ 0 <= r /\ free_post rgn b s rgn').
Proof.
  intros rgn Hc Hl Hr Hb Hs He. unfold lmb_free_region.
  pose proof (chain_bounds _ _ Hc) as Hbd. apply Forall_app in Hbd as [Hbx Hbp].
  apply Forall_cons in Hbp as [Hbp _]. pose proof (chain_before _ _ _ _ Hc) as Hbef.
  pose proof Hc as Hc0. apply chain_app in Hc0 as [_ Hc0]. pose proof (chain_after _ _ _ Hc0) as Haft.
  unfold prop_end in *. rewrite u32_small by lia.
  assert (Hscan : lmb_free_scan (Z.to_nat (cnt rgn)) 0 rgn b (b + s) =
                  Ok (Some (length x, base p, base p + size p))).
  { unfold rgn, table. simpl cnt. rewrite Nat2Z.id.
    apply (lmb_free_scan_spec b (b + s) rs _ p y rest x []); unfold prop_end; try lia.
    rewrite Forall_forall in *. intros q Hq. specialize (Hbx q Hq). specialize (Hbef q Hq). simpl in *. lia. }
  rewrite (res_bind_ok _ _ _ Hscan). cbv beta iota.
  destruct (Z.eqb_spec (base p) b) as [E1|E1]; [lia|].
  destruct (Z.eqb_spec (base p + size p) (b + s)) as [E2|E2]; [lia|]. simpl andb. cbv iota.
  assert (Hget : arr_get (region rgn) (length x) = Ok p)
    by (unfold rgn, table; simpl; rewrite <- app_assoc; by apply get_prop_mid).
  rewrite (res_bind_ok _ _ _ Hget).
  set (q := Prop_ (base p) (u32 (b - base p))).
  assert (Hset : set_prop rgn (length x) q = Ok (table (x ++ q :: y) rest rs)).
  { unfold rgn, table. rewrite <- !app_assoc. simpl app. rewrite set_prop_mid by done.
    by rewrite !length_app. }
  rewrite (res_bind_ok _ _ _ Hset), (u32_small (_ - (b + s))) by lia.
  assert (Hq : prop_end q = b) by (unfold q, prop_end; simpl; rewrite u32_small; lia).
  assert (Hsq : 0 < size q) by (unfold q; simpl; rewrite u32_small; lia).
  assert (Hcq : chain (-1) (x ++ q :: y)).
  { eapply chain_replace; [exact Hc|simpl; lia|done|unfold prop_end in *; lia]. }
  destruct (lmb_add_region_table (x ++ q :: y) rest rs (b + s) (base p + size p - (b + s)))
    as (r & rgn' & Heq & Hpost); try done; try lia; try (rewrite !length_app in *; simpl in *; lia).
  { apply Forall_app. split; [|constructor]; unfold disjoint_from.
    - eapply Forall_impl; [exact Hbef|]. unfold prop_end. simpl. lia.
    - lia.
    - eapply Forall_impl; [exact Haft|]. unfold prop_end. simpl. lia. }
  exists r, rgn'. split; [done|]. destruct Hpost as [(-> & _ & Hlen)|(H0 & Hwf & Hcov)].
  - left. rewrite !length_app in *. simpl in *. done.
  - right. split; [done|]. split; [done|]. intros a. unfold rgn.
    rewrite Hcov, covers_table, (covers_replace _ p) by (done || unfold in_prop; simpl in *; unfold prop_end in *; lia).
    assert (Hin : in_prop a p -> Exists (in_prop a) (x ++ p :: y)) by (rewrite Exists_app, Exists_cons; tauto).
    assert (Hap : in_prop a p <-> base p <= a < base p + size p) by done.
    assert (Haq : in_prop a q <-> base p <= a < b) by (unfold in_prop; by rewrite Hq).
    rewrite Haq, Hap in *. split; [intros [[HE Hn]|Ha]|intros [HE Hn]].
    + split; [done|lia].
    + split; [apply Hin; lia|lia].
    + destruct (decide (b + s <= a < base p + size p)); [right; lia|left; split; [done|lia]].
Qed.

(** ** Totality: no access outside the array, whatever the ranges *)

Definition in_bounds (rgn : lmb_region) : Prop :=
  length (region rgn) = S MAX_LMB_REGIONS /\ 1 <= cnt rgn <= Z.of_nat MAX_LMB_REGIONS.

Lemma get_prop_total (l : list lmb_property) i : (i < length l)%nat -> exists p, arr_get l i = Ok p.
Proof. intros [p Hp]%lookup_lt_is_Some. exists p. unfold arr_get. by rewrite Hp. Qed.

Lemma set_prop_total rgn i p :
  (i < length (region rgn))%nat ->
  exists a, set_prop rgn i p = Ok (Rgn (cnt rgn) (rgn_size rgn) a) /\ length a = length (region rgn).
Proof.
  intros H. unfold set_prop, arr_set. rewrite decide_True by done. eexists. split; [done|]. apply length_insert.
Qed.

Lemma lmb_remove_loop_total fuel : forall i rgn,
  length (region rgn) = S MAX_LMB_REGIONS -> 1 <= cnt rgn <= Z.of_nat MAX_LMB_REGIONS ->
  (Z.to_nat (cnt rgn) <= fuel + i)%nat ->
  exists a, lmb_remove_loop fuel i rgn = Ok (Rgn (cnt rgn) (rgn_size rgn) a) /\ length a = S MAX_LMB_REGIONS.
Proof.
  unfold MAX_LMB_REGIONS. induction fuel as [|fuel IH]; intros i rgn Hl Hc Hf; simpl; rewrite u32_small by lia; btest; try lia.
  - exists (region rgn). split; [by destruct rgn|done].
  - destruct (get_prop_total (region rgn) (i + 1)) as [p Hp]; [lia|]. rewrite (res_bind_ok _ _ _ Hp).
    destruct (set_prop_total rgn i p) as (a & Ha & Hla); [lia|]. rewrite (res_bind_ok _ _ _ Ha).
    apply (IH (i + 1)%nat (Rgn (cnt rgn) (rgn_size rgn) a)); simpl; lia.
  - exists (region rgn). split; [by destruct rgn|done].
Qed.

Lemma lmb_join_next_total rgn i k :
  in_bounds rgn -> exists rgn' k', lmb_join_next rgn i k = Ok (rgn', k') /\
    length (region rgn') = S MAX_LMB_REGIONS /\ (k' = k -> cnt rgn' = cnt rgn).
Proof.
  intros [Hl Hc]. unfold lmb_join_next, MAX_LMB_REGIONS in *. rewrite u32_small by lia. btest; [|by exists rgn, k].
  destruct (get_prop_total (region rgn) i) as [p Hp]; [lia|].
  destruct (get_prop_total (region rgn) (i + 1)) as [q Hq]; [lia|].
  assert (Hadj : exists adj, lmb_regions_adjacent rgn i (i + 1) = Ok adj).
  { unfold lmb_regions_adjacent. rewrite (res_bind_ok _ _ _ Hp), (res_bind_ok _ _ _ Hq). by eexists. }
  destruct Hadj as [adj Hadj]. rewrite (res_bind_ok _ _ _ Hadj).
  destruct (adj =? 0); [by exists rgn, k|]. unfold lmb_coalesce_regions.
  rewrite (res_bind_ok _ _ _ Hp), (res_bind_ok _ _ _ Hq).
  destruct (set_prop_total rgn i (Prop_ (base p) (u32 (size p + size q)))) as (a & Ha & Hla); [lia|].
  rewrite (res_bind_ok _ _ _ Ha). unfold lmb_remove_region.
  destruct (lmb_remove_loop_total (S MAX_LMB_REGIONS) (i + 1) (Rgn (cnt rgn) (rgn_size rgn) a)) as (a' & Ha' & Hla');
    simpl; unfold MAX_LMB_REGIONS in *; try lia.
  rewrite (res_bind_ok _ _ _ Ha'). eexists _, (k + 1). split; [done|]. simpl. split; [done|lia].
Qed.

Lemma lmb_add_scan_total n : forall i rgn b s,
  length (region rgn) = S MAX_LMB_REGIONS -> (i + n <= S MAX_LMB_REGIONS)%nat ->
  lmb_add_scan n i rgn b s = Ok Scan_present \/
  exists a j k, lmb_add_scan n i rgn b s = Ok (Scan_stop (Rgn (cnt rgn) (rgn_size rgn) a) j k) /\
    length a = S MAX_LMB_REGIONS /\ 0 <= k.
Proof.
  induction n as [|n IH]; intros i rgn b s Hl Hi; simpl.
  { right. exists (region rgn), i, 0. split_and!; try done. by destruct rgn. }
  destruct (get_prop_total (region rgn) i) as [p Hp]; [lia|]. rewrite (res_bind_ok _ _ _ Hp).
  destruct (_ && _); [by left|].
  assert (Hset : forall q, exists a, set_prop rgn i q = Ok (Rgn (cnt rgn) (rgn_size rgn) a) /\
            length a = S MAX_LMB_REGIONS).
  { intros q. destruct (set_prop_total rgn i q) as (a & Ha & Hla); [lia|]. exists a. split; [done|lia]. }
  btest; [| |by apply IH; [|lia]]; edestruct Hset as (a & Ha & Hla); rewrite (res_bind_ok _ _ _ Ha); right;
    by exists a, i, 1.
Qed.

Lemma lmb_insert_loop_total n : forall rgn b s,
  length (region rgn) = S MAX_LMB_REGIONS -> (n <= MAX_LMB_REGIONS)%nat ->
  exists a, lmb_insert_loop n rgn b s = Ok (Rgn (cnt rgn) (rgn_size rgn) a) /\ length a = S MAX_LMB_REGIONS.
Proof.
  unfold MAX_LMB_REGIONS in *. induction n as [|n IH]; intros rgn b s Hl Hn; simpl.
  { exists (region rgn). split; [by destruct rgn|done]. }
  destruct (get_prop_total (region rgn) n) as [p Hp]; [lia|]. rewrite (res_bind_ok _ _ _ Hp).
  btest; edestruct (set_prop_total rgn (n + 1)) as (a & Ha & Hla); try lia.
  - rewrite (res_bind_ok _ _ _ Ha).
    apply (IH (Rgn (cnt rgn) (rgn_size rgn) a) b s); simpl; lia.
  - exists a. split; [exact Ha|lia].
Qed.

Lemma lmb_add_region_total rgn b s :
  in_bounds rgn -> exists r rgn', lmb_add_region rgn b s = Ok (r, rgn').
Proof.
  intros Hb. pose proof Hb as [Hl Hc]. unfold lmb_add_region, MAX_LMB_REGIONS in *.
  destruct (get_prop_total (region rgn) 0) as [p Hp]; [lia|]. rewrite (res_bind_ok _ _ _ Hp).
  destruct (_ && _).
  { destruct (set_prop_total rgn 0 (Prop_ b s)) as (a & Ha & _); [lia|]. rewrite (res_bind_ok _ _ _ Ha). by eexists _, _. }
  destruct (lmb_add_scan_total (Z.to_nat (cnt rgn)) 0 rgn b s) as [Hs|(a & j & k & Hs & Hla & Hk)];
    [done|unfold MAX_LMB_REGIONS; lia| |]; rewrite (res_bind_ok _ _ _ Hs); [by eexists _, _|].
  destruct (lmb_join_next_total (Rgn (cnt rgn) (rgn_size rgn) a) j k) as (rgn2 & k' & Hj & Hl2 & Hc2); [done|].
  rewrite (res_bind_ok _ _ _ Hj). cbv beta iota. destruct (Z.eqb_spec k' 0) as [->|]; [|by eexists _, _].
  simpl negb. cbv iota. destruct (Z.leb_spec (Z.of_nat 8) (cnt rgn2)); [by eexists _, _|].
  unfold MAX_LMB_REGIONS in *.
  destruct (lmb_insert_loop_total (Z.to_nat (cnt rgn2)) rgn2 b s) as (a3 & H3 & Hl3);
    [done|unfold MAX_LMB_REGIONS; lia|]. unfold MAX_LMB_REGIONS in *.
  rewrite (res_bind_ok _ _ _ H3). simpl.
  destruct (get_prop_total a3 0) as [q Hq]; [lia|]. rewrite (res_bind_ok _ _ _ Hq).
  destruct (b <? base q); [|by eexists _, _].
  edestruct (set_prop_total (Rgn (cnt rgn2) (rgn_size rgn2) a3) 0 (Prop_ b s)) as (a4 & H4 & _); [simpl; lia|].
  rewrite (res_bind_ok _ _ _ H4). by eexists _, _.
Qed.


(** ** Allocation: alignment and the search below reserved ranges *)

Lemma land_ones32 x y : 0 <= x < 4294967296 -> Z.land x (u32 y) = Z.land x y.
Proof.
  intros. unfold u32. change 4294967296 with (2 ^ 32). rewrite <- Z.land_ones by lia.
  rewrite (Z.land_comm y), Z.land_assoc. f_equal. rewrite Z.land_ones by lia. by apply Z.mod_small.
Qed.

Lemma lmb_align_down_pow2 a k :
  0 <= a < 4294967296 -> 0 <= k < 32 -> lmb_align_down a (2 ^ k) = 2 ^ k * (a / 2 ^ k).
Proof.
  intros Ha Hk. unfold lmb_align_down. rewrite land_ones32 by done.
  assert (1 <= 2 ^ k < 4294967296).
  { split; [pose proof (Z.pow_pos_nonneg 2 k); lia|]. change 4294967296 with (2 ^ 32). apply Z.pow_lt_mono_r; lia. }
  rewrite u32_small by lia. rewrite <- Z.ldiff_land.
  replace (2 ^ k - 1) with (Z.ones k) by (rewrite Z.ones_equiv; lia).
  rewrite Z.ldiff_ones_r by lia. rewrite Z.shiftl_mul_pow2, Z.shiftr_div_pow2 by lia. lia.
Qed.

(** Rounding down to a power of two: below [a], aligned. *)
Lemma lmb_align_down_spec a k :
  0 <= a < 4294967296 -> 0 <= k < 32 ->
  0 <= lmb_align_down a (2 ^ k) <= a /\ lmb_align_down a (2 ^ k) mod 2 ^ k = 0.
Proof.
  intros Ha Hk. rewrite lmb_align_down_pow2 by done.
  pose proof (Z.pow_pos_nonneg 2 k ltac:(lia) ltac:(lia)). split.
  - split; [apply Z.mul_nonneg_nonneg; [lia|apply Z.div_pos; lia]|apply Z.mul_div_le; lia].
  - rewrite Z.mul_comm. apply Z.mod_mul. lia.
Qed.

Lemma chain_sane lo l : -1 <= lo -> chain lo l -> Forall sane l.
Proof.
  intros Hlo Hc. eapply Forall_impl; [by apply chain_bounds|]. unfold sane. simpl. lia.
Qed.

Lemma lmb_overlaps_loop_spec b s rs c l2 : forall l1 rest,
  Forall sane l2 -> 0 <= b -> 0 <= s -> b + s < 4294967296 ->
  (exists x p y, l2 = x ++ p :: y /\ overlapping b s p /\
     lmb_overlaps_loop (length l2) (length l1) (Rgn c rs (l1 ++ l2 ++ rest)) b s =
       Ok (Some (length l1 + length x)%nat)) \/
  Forall (disjoint_from b s) l2 /\
  lmb_overlaps_loop (length l2) (length l1) (Rgn c rs (l1 ++ l2 ++ rest)) b s = Ok None.
Proof.
  unfold sane, overlapping, disjoint_from, prop_end.
  induction l2 as [|p l2 IH]; intros l1 rest Hl Hb Hs Hbs; [by right; split|].
  apply Forall_cons in Hl as [Hp Hl].
  assert (Hget : arr_get (l1 ++ (p :: l2) ++ rest) (length l1) = Ok p) by (by apply get_prop_mid).
  simpl length. cbn [lmb_overlaps_loop region]. rewrite (res_bind_ok _ _ _ Hget).
  unfold lmb_addrs_overlap. rewrite !u32_small by lia.
  destruct (Z.ltb_spec b (base p + size p)), (Z.ltb_spec (base p) (b + s)); simpl andb; cbv iota.
  1: { left. exists [], p, l2. split_and!; try done. simpl. by rewrite Nat.add_0_r. }
  all: destruct (IH (l1 ++ [p]) rest) as [(x & p' & y & -> & Ho & Heq)|[Hd Heq]]; try done.
  all: rewrite (length_app l1) in Heq; rewrite <- app_assoc in Heq; simpl app in Heq; simpl length in Heq.
  all: try (right; split; [constructor; [lia|done]|exact Heq]).
  all: left; exists (p :: x), p', y; split_and!; try done; try apply Ho.
  all: simpl app in *; refine (eq_trans Heq _); do 2 f_equal; simpl; lia.
Qed.

Lemma below_le hi l : (below hi l <= length l)%nat.
Proof. apply length_filter. Qed.

Lemma below_mono hi hi' l : hi' <= hi -> (below hi' l <= below hi l)%nat.
Proof.
  intros H. unfold below. induction l as [|p l IH]; [done|]. rewrite !filter_cons. repeat case_decide; simpl; lia.
Qed.

Lemma below_lt hi hi' x p y : hi' <= base p -> base p < hi -> (below hi' (x ++ p :: y) < below hi (x ++ p :: y))%nat.
Proof.
  intros H1 H2. pose proof (below_mono hi hi' x ltac:(lia)). pose proof (below_mono hi hi' y ltac:(lia)).
  unfold below in *. rewrite !filter_app, !filter_cons, !length_app. repeat case_decide; simpl; lia.
Qed.

Section Alloc.
Context (l rest : list lmb_property) (rs : Z) (s k : Z).
Context (Hc : chain (-1) l) (Hl : (1 <= length l <= MAX_LMB_REGIONS)%nat).
Context (Hr : (length l + length rest = S MAX_LMB_REGIONS)%nat).
Context (Hs : 0 < s) (Hk : 0 <= k < 32).

Definition alloc_ok (lmbbase hi r : Z) (rs' : lmb_region) : Prop :=
  r = 0 \/
  (lmbbase <= r <= hi /\ r mod 2 ^ k = 0 /\ Forall (disjoint_from r s) l /\
   exists c, 0 <= c /\ lmb_add_region (table l rest rs) r (lmb_align_up s (2 ^ k)) = Ok (c, rs')).

Lemma lmb_alloc_while_spec lmbbase fuel : forall b,
  0 <= b -> b + s < 4294967296 -> b mod 2 ^ k = 0 -> (below (b + s) l < fuel)%nat ->
  lmb_alloc_while fuel (table l rest rs) lmbbase b s (2 ^ k) = Ok Alloc_next \/
  exists r rs', lmb_alloc_while fuel (table l rest rs) lmbbase b s (2 ^ k) = Ok (Alloc_return r rs') /\
    alloc_ok lmbbase b r rs'.
Proof using Hc Hl Hr Hs Hk.
  induction fuel as [|fuel IH]; intros b Hb Hbs Hal Hf; [lia|]. cbn [lmb_alloc_while].
  destruct (Z.eqb_spec b 0) as [->|Hb0]; [by left|]. simpl negb.
  destruct (Z.leb_spec lmbbase b); simpl andb; cbv iota; [|by left].
  unfold lmb_overlaps_region. pose proof (chain_sane (-1) l ltac:(lia) Hc) as Hsane.
  replace (Z.to_nat (cnt (table l rest rs))) with (length l) by (simpl; lia).
  destruct (lmb_overlaps_loop_spec b s rs (Z.of_nat (length l)) l [] rest) as
    [(x & p & y & E & [Ho1 Ho2] & Heq)|[Hd Heq]]; try done; try lia.
  all: change (Rgn _ rs ([] ++ l ++ rest)) with (table l rest rs) in Heq; rewrite (res_bind_ok _ _ _ Heq).
  - assert (Hget : arr_get (region (table l rest rs)) (length (@nil lmb_property) + length x) = Ok p).
    { unfold table. rewrite E. simpl. rewrite <- app_assoc. by apply get_prop_mid. }
    rewrite (res_bind_ok _ _ _ Hget). rewrite E in Hsane. apply Forall_app in Hsane as [_ Hsane].
    apply Forall_cons in Hsane as [(Hp1 & Hp2 & Hp3) _]. unfold prop_end in *.
    destruct (Z.ltb_spec (base p) s); [by left|]. rewrite u32_small by lia.
    destruct (lmb_align_down_spec (base p - s) k) as [Hd1 Hd2]; [lia|done|].
    set (b' := lmb_align_down (base p - s) (2 ^ k)) in *.
    destruct (IH b') as [H'|(r & rs' & H' & Hok)]; try lia.
    { rewrite E. eapply Nat.lt_le_trans; [apply (below_lt (b + s)); lia|]. rewrite <- E. lia. }
    + by left.
    + right. exists r, rs'. split; [done|]. destruct Hok as [?|(? & ? & ?)]; [by left|]. right. split; [lia|done].
  - destruct (lmb_add_region_total (table l rest rs) b (lmb_align_up s (2 ^ k))) as (c & rs' & Hadd).
    { unfold in_bounds, table. simpl. rewrite length_app. lia. }
    rewrite (res_bind_ok _ _ _ Hadd). cbv beta iota. right. destruct (Z.ltb_spec c 0).
    + exists 0, rs'. split; [done|]. by left.
    + exists b, rs'. split; [done|]. right. split_and!; try done; try lia. exists c. done.
Qed.

Lemma lmb_alloc_for_spec m mrest mrs max_addr :
  Forall sane m -> max_addr = 0 \/ s <= max_addr < 4294967296 ->
  forall n, (n <= length m)%nat ->
  let L := Lmb_ (table m mrest mrs) (table l rest rs) in
  lmb_alloc_for n L s (2 ^ k) max_addr = Ok (0, L) \/
  exists r rs', lmb_alloc_for n L s (2 ^ k) max_addr = Ok (r, Lmb_ (memory L) rs') /\
    (r = 0 \/
     alloc_spec l s k m max_addr r /\
     exists c, 0 <= c /\ lmb_add_region (reserved L) r (lmb_align_up s (2 ^ k)) = Ok (c, rs')).
Proof using Hc Hl Hr Hs Hk.
  intros Hm Hmax n Hn L. induction n as [|i IH]; [by left|]. specialize (IH ltac:(lia)).
  cbn [lmb_alloc_for]. destruct (lookup_lt_is_Some_2 m i) as [p Hp]; [lia|].
  assert (Hget : arr_get (region (memory L)) i = Ok p).
  { unfold arr_get, L, table. simpl. by rewrite lookup_app_l, Hp by lia. }
  rewrite (res_bind_ok _ _ _ Hget). cbv zeta.
  destruct (Z.ltb_spec (size p) s); [exact IH|].
  pose proof (Forall_lookup_1 _ _ _ _ Hm Hp) as (Hp1 & Hp2 & Hp3). unfold prop_end in *.
  assert (Hin : p ∈ m) by (by eapply list_elem_of_lookup_2).
  assert (Hgo : forall top, s <= top <= base p + size p -> (max_addr = 0 \/ top <= max_addr) ->
    (step ← lmb_alloc_while (S (Z.to_nat (cnt (reserved L)))) (reserved L) (base p)
              (lmb_align_down (u32 (top - s)) (2 ^ k)) s (2 ^ k);
     match step with
     | Alloc_return r rs => mret (r, Lmb_ (memory L) rs)
     | Alloc_next => lmb_alloc_for i L s (2 ^ k) max_addr
     end) = Ok (0, L) \/
    exists r rs',
      (step ← lmb_alloc_while (S (Z.to_nat (cnt (reserved L)))) (reserved L) (base p)
              (lmb_align_down (u32 (top - s)) (2 ^ k)) s (2 ^ k);
       match step with
       | Alloc_return r rs => mret (r, Lmb_ (memory L) rs)
       | Alloc_next => lmb_alloc_for i L s (2 ^ k) max_addr
       end) = Ok (r, Lmb_ (memory L) rs') /\
      (r = 0 \/ alloc_spec l s k m max_addr r /\
        exists c, 0 <= c /\ lmb_add_region (reserved L) r (lmb_align_up s (2 ^ k)) = Ok (c, rs'))).
  { intros top Ht Htm. rewrite u32_small by lia.
    destruct (lmb_align_down_spec (top - s) k) as [Hd1 Hd2]; [lia|done|].
    set (b := lmb_align_down (top - s) (2 ^ k)) in *.
    destruct (lmb_alloc_while_spec (base p) (S (Z.to_nat (cnt (reserved L)))) b) as [E|(r & rs' & E & Hok)];
      try lia.
    { unfold L, table. simpl. pose proof (below_le (b + s) l). lia. }
    - rewrite !(res_bind_ok _ _ _ E). exact IH.
    - right. exists r, rs'. split; [by rewrite (res_bind_ok _ _ _ E)|].
      destruct Hok as [->|(Hr1 & Hr2 & Hr3 & Hadd)]; [by left|]. right. split; [|done].
      unfold alloc_spec. split_and!; try done; [lia|].
      apply list.Exists_exists. exists p. split; [done|]. unfold prop_end. lia. }
  unfold LMB_ALLOC_ANYWHERE. destruct (Z.eqb_spec max_addr 0) as [E0|E0].
  - rewrite u32_small with (x := base p + size p) by lia. apply Hgo; lia.
  - destruct (Z.ltb_spec (base p) max_addr); [|exact IH].
    rewrite u32_small with (x := base p + size p) by lia. apply Hgo; lia.
Qed.
End Alloc.

Lemma lmb_align_up_multiple s k :
  0 < s < 4294967296 -> 0 <= k < 32 -> s mod 2 ^ k = 0 -> lmb_align_up s (2 ^ k) = s.
Proof.
  intros Hs Hk Hm. change (lmb_align_up s (2 ^ k)) with (lmb_align_down (u32 (s + u32 (2 ^ k - 1))) (2 ^ k)).
  assert (1 <= 2 ^ k < 4294967296).
  { split; [pose proof (Z.pow_pos_nonneg 2 k); lia|]. change 4294967296 with (2 ^ 32). apply Z.pow_lt_mono_r; lia. }
  assert (E32 : 4294967296 = 2 ^ k * 2 ^ (32 - k)).
  { rewrite <- Z.pow_add_r by lia. by replace (k + (32 - k)) with 32 by lia. }
  assert (Hq : s = 2 ^ k * (s / 2 ^ k)) by (apply Z.div_exact; lia).
  assert (Hlt : s / 2 ^ k < 2 ^ (32 - k)) by (apply Z.div_lt_upper_bound; lia).
  assert (s + 2 ^ k <= 4294967296).
  { rewrite Hq at 1. rewrite E32. rewrite <- Z.mul_succ_r. apply Z.mul_le_mono_nonneg_l; lia. }
  rewrite (u32_small (2 ^ k - 1)), u32_small by lia. rewrite lmb_align_down_pow2 by lia.
  replace ((s + (2 ^ k - 1)) / 2 ^ k) with (s / 2 ^ k); [by symmetry|].
  apply Z.div_unique with (2 ^ k - 1); lia.
Qed.

(** A range added to the empty table of [lmb_init] becomes its only range. *)
Lemma lmb_add_region_empty rgn b s :
  empty_table rgn -> 0 <= b -> 0 < s -> b + s < 4294967296 ->
  exists rgn', lmb_add_region rgn b s = Ok (0, rgn') /\ wf_table rgn' /\ forall a, covers rgn' a <-> b <= a < b + s.
Proof.
  intros (Hlen & Hc & p & rest & Hp & Hsz) Hb Hs Hbs. destruct rgn as [c rs a]. simpl in *. subst.
  unfold lmb_add_region. simpl. rewrite Hsz. simpl.
  eexists. split; [done|]. unfold wf_table, covers, live, in_prop, prop_end. simpl.
  split.
  - split_and!; simpl in *; unfold prop_end; simpl; try lia; try done; unfold MAX_LMB_REGIONS; lia.
  - intros x. rewrite Exists_cons, Exists_nil. simpl. tauto.
Qed.

Lemma lmb_is_reserved_loop_spec c rs addr l2 : forall l1 rest,
  Forall sane l2 ->
  lmb_is_reserved_loop (length l2) (length l1) (Rgn c rs (l1 ++ l2 ++ rest)) addr =
    Ok (b2z (bool_decide (Exists (in_prop addr) l2))).
Proof.
  unfold sane, in_prop, prop_end. induction l2 as [|p l2 IH]; intros l1 rest Hl.
  { by rewrite bool_decide_eq_false_2 by (rewrite Exists_nil; tauto). }
  apply Forall_cons in Hl as [Hp Hl].
  assert (Hget : arr_get (l1 ++ (p :: l2) ++ rest) (length l1) = Ok p) by (by apply get_prop_mid).
  simpl length. cbn [lmb_is_reserved_loop region]. rewrite (res_bind_ok _ _ _ Hget). rewrite u32_small by lia.
  specialize (IH (l1 ++ [p]) rest Hl). rewrite (length_app l1), <- app_assoc in IH. simpl in IH. simpl app.
  destruct (Z.leb_spec (base p) addr), (Z.leb_spec addr (base p + size p - 1)); simpl; rewrite ?IH.
  1: rewrite bool_decide_eq_true_2; [done|left; lia].
  all: do 2 f_equal; apply bool_decide_ext; rewrite Exists_cons; intuition lia.
Qed.


(** ** The properties *)

(** C27: [lmb_add]/[lmb_reserve] on a table in use, with a range that overlaps
    nothing: the call succeeds and the table stays sorted, coalesced and in
    bounds, covering exactly the old addresses and the new range; or the table
    is full, the result is -1 and nothing changes. *)
Theorem lmb_add_region_correct rgn b s :
  wf_table rgn -> new_range rgn b s ->
  exists r rgn', lmb_add_region rgn b s = Ok (r, rgn') /\
    (r = -1 /\ rgn' = rgn /\ cnt rgn = Z.of_nat MAX_LMB_REGIONS \/
     0 <= r /\ wf_table rgn' /\ forall a, covers rgn' a <-> covers rgn a \/ b <= a < b + s).
Proof.
  intros Hwf (Hb & Hs & Hbs & Hd). destruct (wf_table_split _ Hwf) as (l & rest & rs & -> & Hc & Hl & Hr).
  rewrite live_table in Hd.
  destruct (lmb_add_region_table l rest rs b s) as (r & rgn' & Heq & Hp); try done.
  exists r, rgn'. split; [done|]. destruct Hp as [(? & ? & Hlen)|(? & ? & Hcov)]; [left|right].
  - split_and!; try done. simpl. lia.
  - split_and!; try done. intros a. by rewrite Hcov, covers_table.
Qed.

(** freeing a range that lies inside one reserved range succeeds and
    removes exactly its addresses, whether it is the whole range, its front,
    its back or a hole in it; the only failure is a hole in a full table.  The
    one reserved range that must not be freed whole is the last one. *)
Theorem lmb_free_region_correct rgn p b s :
  wf_table rgn -> p ∈ live rgn -> base p <= b -> 0 < s -> b + s <= prop_end p ->
  (cnt rgn = 1 -> base p = b -> prop_end p <> b + s) ->
  exists r rgn', lmb_free_region rgn b s = Ok (r, rgn') /\
    (r = -1 /\ cnt rgn = Z.of_nat MAX_LMB_REGIONS /\ base p < b /\ b + s < prop_end p \/
     0 <= r /\ wf_table rgn' /\ forall a, covers rgn' a <-> covers rgn a /\ ~ (b <= a < b + s)).
Proof.
  intros Hwf Hp Hb Hs He Hone. destruct (wf_table_split _ Hwf) as (l & rest & rs & -> & Hc & Hl & Hr).
  rewrite live_table in Hp. apply list_elem_of_split in Hp as (x & y & ->).
  destruct (decide (base p = b \/ prop_end p = b + s)) as [Hcase|Hcase].
  - destruct (lmb_free_simple x p y rest rs b s) as (rgn' & Heq & Hpost); try done; try lia.
    { intros H1 H2 H3. apply app_eq_nil in H3 as [-> ->]. simpl in Hone. by apply Hone. }
    exists 0, rgn'. split; [done|]. by right.
  - destruct (lmb_free_split x p y rest rs b s) as (r & rgn' & Heq & Hpost); try done; try lia.
    exists r, rgn'. split; [done|]. destruct Hpost as [[? Hlen]|?]; [left|by right].
    split_and!; try lia. simpl. rewrite Hlen. done.
Qed.

(** C6: On well-formed tables, both of which have a range, with a power-of-two
    alignment and a limit that is 0 or no less than the size, the allocation
    terminates, leaves the memory table alone, and gives 0 (no space) or an aligned
    address inside one memory range, under the limit and clear of every reserved
    range; when moreover the size is a multiple of the alignment, the reserved table
    afterwards is well formed and covers exactly the new range besides the old ones.
    With a limit below the size the address wraps, see [lmb_alloc_base_wraps]. *)
Theorem lmb_alloc_base_sound l s k max_addr :
  wf_table (memory l) -> wf_table (reserved l) -> 0 < s -> 0 <= k < 32 ->
  max_addr = 0 \/ s <= max_addr < 4294967296 ->
  exists r l', __lmb_alloc_base l s (2 ^ k) max_addr = Ok (r, l') /\ memory l' = memory l /\
    (r = 0 \/
     alloc_spec (live (reserved l)) s k (live (memory l)) max_addr r /\
     (s mod 2 ^ k = 0 -> wf_table (reserved l') /\
        forall a, covers (reserved l') a <-> covers (reserved l) a \/ r <= a < r + s)).
Proof.
  intros Hm Hr Hs Hk Hmax. destruct l as [M R]. simpl in *.
  destruct (wf_table_split _ Hm) as (m & mrest & mrs & -> & Hmc & Hml & Hmr).
  destruct (wf_table_split _ Hr) as (l & rest & rs & -> & Hc & Hl & Hlr).
  pose proof (chain_sane (-1) m ltac:(lia) Hmc) as Hsane.
  unfold __lmb_alloc_base. simpl memory. unfold table at 1. simpl cnt. rewrite Nat2Z.id.
  destruct (lmb_alloc_for_spec l rest rs s k Hc Hl Hlr Hs Hk m mrest mrs max_addr Hsane Hmax (length m) ltac:(lia))
    as [E|(r & rs' & E & Hok)]; simpl in E; rewrite E.
  - eexists _, _. split_and!; try done. by left.
  - eexists _, _. split_and!; try done. simpl. destruct Hok as [->|(Hsp & c & Hc0 & Hadd)]; [by left|].
    right. rewrite !live_table. split; [done|]. intros Hmod. destruct Hsp as (_ & _ & Hin & Hd).
    apply list.Exists_exists in Hin as (p & Hp & Hr1 & Hr2).
    rewrite Forall_forall in Hsane. specialize (Hsane p Hp) as (? & ? & ?).
    rewrite lmb_align_up_multiple in Hadd by lia. simpl in Hadd.
    destruct (lmb_add_region_table l rest rs r s) as (r' & rgn' & Heq & Hp'); try done; try lia.
    rewrite Hadd in Heq. injection Heq as <- <-.
    destruct Hp' as [(? & _)|(_ & Hwf & Hcov)]; [lia|]. split; [done|]. intros a. by rewrite Hcov, covers_table.
Qed.

(** [lmb_is_reserved] answers 1 exactly for the addresses in a reserved range. *)
Theorem lmb_is_reserved_correct l addr :
  wf_table (reserved l) ->
  lmb_is_reserved l addr = Ok (b2z (bool_decide (covers (reserved l) addr))).
Proof.
  intros Hr. unfold lmb_is_reserved.
  destruct (wf_table_split _ Hr) as (x & rest & rs & -> & Hc & _).
  unfold table at 1. simpl cnt. rewrite Nat2Z.id. unfold table at 1.
  rewrite (lmb_is_reserved_loop_spec _ rs addr x [] rest) by (by apply (chain_sane (-1))).
  unfold covers. by rewrite live_table.
Qed.

(** releasing the last reserved range leaves [cnt] 0 but the range itself
    in the array, and the next reservation at or above it is lost: the call
    reports success and the table shows the released range again. *)
Theorem lmb_reserve_after_free_last rgn p q b s :
  wf_table rgn -> live rgn = [p] -> region rgn !! 1%nat = Some q ->
  lmb_addrs_adjacent (base p) (size p) (base q) (size q) = 0 -> base p <= b ->
  exists rgn1 rgn2, lmb_free_region rgn (base p) (size p) = Ok (0, rgn1) /\ cnt rgn1 = 0 /\
    lmb_add_region rgn1 b s = Ok (0, rgn2) /\ live rgn2 = [p].
Proof.
  intros Hwf Hlive Hq Hadj Hb. destruct (wf_table_split _ Hwf) as (l & rest & rs & -> & Hc & Hl & Hr).
  rewrite live_table in Hlive. subst l. simpl in Hq, Hr. destruct rest as [|q' rest]; [done|].
  injection Hq as ->. destruct Hc as (Hp1 & Hp2 & Hp3 & _). unfold prop_end in Hp3.
  exists (Rgn 0 rs (p :: q :: rest)), (Rgn 1 rs (p :: q :: rest)).
  split_and!; try done.
  - unfold lmb_free_region, table. simpl. rewrite !u32_small by lia.
    rewrite (proj2 (Z.leb_le _ _) (Z.le_refl (base p))). cbn.
    rewrite (proj2 (Z.leb_le _ _) (Z.le_refl _)). cbn. by rewrite !Z.eqb_refl.
  - unfold lmb_add_region. simpl. unfold lmb_join_next, lmb_regions_adjacent. simpl.
    change (arr_get (p :: q :: rest) 1) with (Ok q). cbn. rewrite Hadj. simpl.
    destruct (Z.ltb_spec b (base p)); [lia|]. done.
Qed.

(** When [max_addr] is smaller than the size asked for, [min(...) - size] wraps
    and the address handed out is outside every memory range. *)
Example lmb_alloc_base_wraps :
  let l := Lmb_ (Rgn 1 0 (Prop_ 4096 65536 :: replicate 8 (Prop_ 0 0)))
                (Rgn 1 0 (Prop_ 4096 16 :: replicate 8 (Prop_ 0 0))) in
  wf_table (memory l) /\ wf_table (reserved l) /\
  exists l', __lmb_alloc_base l 8192 4096 6144 = Ok (4294963200, l').
Proof. split_and!; try (simpl; lia); try done. eexists. vm_compute. reflexivity. Qed.

(** ** The hypotheses hold: concrete tables *)

Definition ex_table : lmb_region :=
  Rgn 2 0 (Prop_ 100 50 :: Prop_ 200 10 :: replicate 7 (Prop_ 0 0)).
Definition ex_memory : lmb_region := Rgn 1 0 (Prop_ 0 4096 :: replicate 8 (Prop_ 0 0)).
Definition ex_last : lmb_region := Rgn 1 0 (Prop_ 100 50 :: replicate 8 (Prop_ 0 0)).

Ltac concrete :=
  unfold wf_table, new_range, live, MAX_LMB_REGIONS; simpl;
  repeat match goal with |- _ /\ _ => split | |- Forall _ _ => constructor end;
  unfold disjoint_from, prop_end; simpl; (done || lia).

Lemma lmb_add_region_correct_witness :
  exists r rgn', lmb_add_region ex_table 150 20 = Ok (r, rgn') /\
    (r = -1 /\ rgn' = ex_table /\ cnt ex_table = Z.of_nat MAX_LMB_REGIONS \/
     0 <= r /\ wf_table rgn' /\ forall a, covers rgn' a <-> covers ex_table a \/ 150 <= a < 150 + 20).
Proof. apply lmb_add_region_correct; concrete. Defined.

Lemma lmb_free_region_correct_witness :
  exists r rgn', lmb_free_region ex_table 110 20 = Ok (r, rgn') /\
    (r = -1 /\ cnt ex_table = Z.of_nat MAX_LMB_REGIONS /\ 100 < 110 /\ 110 + 20 < 150 \/
     0 <= r /\ wf_table rgn' /\ forall a, covers rgn' a <-> covers ex_table a /\ ~ (110 <= a < 110 + 20)).
Proof.
  apply (lmb_free_region_correct ex_table (Prop_ 100 50)); [concrete|by left|..]; unfold prop_end; simpl; lia.
Defined.

Lemma lmb_alloc_base_sound_witness :
  let l := Lmb_ ex_memory ex_table in
  exists r l', __lmb_alloc_base l 64 (2 ^ 4) 160 = Ok (r, l') /\ memory l' = memory l /\
    (r = 0 \/
     alloc_spec (live (reserved l)) 64 4 (live (memory l)) 160 r /\
     (64 mod 2 ^ 4 = 0 -> wf_table (reserved l') /\
        forall a, covers (reserved l') a <-> covers (reserved l) a \/ r <= a < r + 64)).
Proof. intros l. apply (lmb_alloc_base_sound l 64 4 160); try lia; concrete. Defined.

Lemma lmb_is_reserved_correct_witness :
  lmb_is_reserved (Lmb_ ex_memory ex_table) 149 = Ok (b2z (bool_decide (covers ex_table 149))).
Proof. apply (lmb_is_reserved_correct (Lmb_ ex_memory ex_table)); concrete. Defined.

Lemma lmb_reserve_after_free_last_witness :
  exists rgn1 rgn2, lmb_free_region ex_last 100 50 = Ok (0, rgn1) /\ cnt rgn1 = 0 /\
    lmb_add_region rgn1 200 10 = Ok (0, rgn2) /\ live rgn2 = [Prop_ 100 50].
Proof.
  apply (lmb_reserve_after_free_last ex_last (Prop_ 100 50) (Prop_ 0 0) 200 10); try done; try lia; concrete.
Defined.
