(* ===== verification/Srec.v ===== *)
(** * Motorola S-records (common/s_record.c)

    [srec_decode] on one line of a download.  The line is the list of its bytes
    up to the NUL.  The out parameters are returned with the result as the call
    leaves them, on errors too. *)

From S2P Require Import Prelude.

Definition SREC_START : Z := 0.
Definition SREC_DATA2 : Z := 1.
Definition SREC_DATA3 : Z := 2.
Definition SREC_DATA4 : Z := 3.
Definition SREC_COUNT : Z := 5.
Definition SREC_END4 : Z := 7.
Definition SREC_END3 : Z := 8.
Definition SREC_END2 : Z := 9.
Definition SREC_EMPTY : Z := 10.
Definition SREC_E_BADTYPE : Z := -1.
Definition SREC_E_NOSREC : Z := -2.
Definition SREC_E_BADCHKS : Z := -3.
Definition SREC_MAXBINLEN : Z := 255.

Record srec_out := Srec { ret : Z; count : Z; addr : Z; data : list Z }.

Definition hex1_bin (c : Z) : Z :=
  let c := s8 c in
  if (ch "0" <=? c) && (c <=? ch "9") then c - ch "0"
  else if (ch "a" <=? c) && (c <=? ch "f") then c + 10 - ch "a"
  else if (ch "A" <=? c) && (c <=? ch "F") then c + 10 - ch "A"
  else -1.

Definition hex2_bin (s : list Z) : Z :=
  let i := hex1_bin (deref s) in
  if i <? 0 then -1
  else
    let j := hex1_bin (deref (tl s)) in
    if j <? 0 then -1 else Z.shiftl i 4 + j.

(** The text after the first 'S'. *)
Fixpoint skip_S (input : list Z) : list Z :=
  match input with
  | [] => []
  | c :: input' => if c =? ch "S" then input' else skip_S input'
  end.

(** The first [switch]: the type, the bytes of the record that are not data
    ([None]: no data at all), and how many address bytes the second reads. *)
Definition srec_kind (v : Z) : option (Z * option Z * nat) :=
  if v =? ch "0" then Some (SREC_START, Some 3, 2%nat)
  else if v =? ch "1" then Some (SREC_DATA2, Some 3, 2%nat)
  else if v =? ch "2" then Some (SREC_DATA3, Some 4, 3%nat)
  else if v =? ch "3" then Some (SREC_DATA4, Some 5, 4%nat)
  else if v =? ch "5" then Some (SREC_COUNT, None, 2%nat)
  else if v =? ch "7" then Some (SREC_END4, Some 5, 4%nat)
  else if v =? ch "8" then Some (SREC_END3, Some 4, 3%nat)
  else if v =? ch "9" then Some (SREC_END2, Some 3, 2%nat)
  else None.

(** Reads [n] address bytes: success, address, checksum, text left.  The shift
    before the first of them moves a zero. *)
Fixpoint srec_addr (n : nat) (input : list Z) (addr chksum : Z) : bool * Z * Z * list Z :=
  match n with
  | O => (true, addr, chksum, input)
  | S n' =>
      let v := hex2_bin input in
      if v <? 0 then (false, addr, chksum, input)
      else srec_addr n' (drop 2 input) (u32 (u32 (Z.shiftl addr 8) + v)) (u8 (chksum + v))
  end.

(** The data loop: [n] is [*count - i]. *)
Fixpoint srec_data (n : nat) (input : list Z) (chksum : Z) : bool * list Z * Z * list Z :=
  match n with
  | O => (true, [], chksum, input)
  | S n' =>
      let v := hex2_bin input in
      if v <? 0 then (false, [], chksum, input)
      else
        let '(ok, l, chksum, input) := srec_data n' (drop 2 input) (u8 (chksum + v)) in
        (ok, u8 v :: l, chksum, input)
  end.

(** [count0] and [addr0] are what the out parameters held before the call. *)
Definition srec_decode (input : list Z) (count0 addr0 : Z) : srec_out :=
  match skip_S input with
  | [] => Srec SREC_EMPTY count0 addr0 []
  | v :: input =>
      let count := hex2_bin input in
      if count <? 0 then Srec SREC_E_NOSREC count addr0 []
      else
        let chksum := u8 count in
        let input := drop 2 input in
        match srec_kind v with
        | None => Srec SREC_E_BADTYPE count addr0 []
        | Some (srec_type, adj, naddr) =>
            let count := match adj with Some a => count - a | None => 0 end in
            let '(ok, addr, chksum, input) := srec_addr naddr input 0 chksum in
            if negb ok then Srec SREC_E_NOSREC count addr []
            else
              let '(ok, data, chksum, input) := srec_data (Z.to_nat count) input chksum in
              if negb ok then Srec SREC_E_NOSREC count addr data
              else
                let v := hex2_bin input in
                if v <? 0 then Srec SREC_E_NOSREC count addr data
                else if negb (u8 v =? u8 (Z.lnot chksum)) then Srec SREC_E_BADCHKS count addr data
                else Srec srec_type count addr data
        end
  end.

(** ** The records of the format description *)

Definition hex_digit (d : Z) : Z := nth (Z.to_nat d) (zs "0123456789ABCDEF") 0.
Definition hex_pair (b : Z) : list Z := [hex_digit (b / 16); hex_digit (b mod 16)].
Definition hex_bytes (l : list Z) : list Z := flat_map hex_pair l.
Definition sum (l : list Z) : Z := fold_right Z.add 0 l.

(** The number that address bytes write, most significant first. *)
Definition be_value (l : list Z) : Z := fold_left (fun a b => 256 * a + b) l 0.

(** A record of type [t] with checksum byte [cs]. *)
Definition srec_line (t : Z) (ab db : list Z) (cs : Z) : list Z :=
  ch "S" :: t :: hex_bytes [Z.of_nat (length ab) + Z.of_nat (length db) + 1] ++ hex_bytes ab ++ hex_bytes db ++ hex_pair cs.

Definition srec_checksum (ab db : list Z) : Z :=
  255 - (Z.of_nat (length ab) + Z.of_nat (length db) + 1 + sum ab + sum db) mod 256.

(** ** Proofs *)

Lemma hex2_bin_pair b rest : byte b -> hex2_bin (hex_pair b ++ rest) = b.
Proof.
  intros Hb. unfold hex2_bin, hex_pair. simpl deref. simpl tl.
  assert (H : forall d, 0 <= d < 16 -> hex1_bin (hex_digit d) = d).
  { intros d Hd. assert (Hf : forallb (fun d => hex1_bin (hex_digit d) =? d) (seqZ 0 16) = true) by (vm_compute; done).
    rewrite forallb_forall in Hf. apply Z.eqb_eq, Hf, list_elem_of_In, elem_of_seqZ. lia. }
  unfold byte in Hb. rewrite !H by zmod. destruct (Z.ltb_spec (b / 16) 0); [zmod|].
  destruct (Z.ltb_spec (b mod 16) 0); [zmod|]. rewrite Z.shiftl_mul_pow2 by lia. change (2 ^ 4) with 16. zmod.
Qed.

Lemma drop2_pair b rest : drop 2 (hex_pair b ++ rest) = rest.
Proof. done. Qed.

Lemma u8_add_l a b : u8 (u8 a + b) = u8 (a + b).
Proof. unfold u8. by rewrite Z.add_mod_idemp_l by lia. Qed.

Lemma srec_addr_ok l : forall rest a c,
  Forall byte l -> 0 <= a ->
  fold_left (fun a b => 256 * a + b) l a < 4294967296 ->
  srec_addr (length l) (hex_bytes l ++ rest) a (u8 c) =
    (true, fold_left (fun a b => 256 * a + b) l a, u8 (c + sum l), rest).
Proof.
  induction l as [|b l IH]; intros rest a c Hl Ha Hv; simpl; [by rewrite Z.add_0_r|].
  apply Forall_cons in Hl as [Hb Hl].
  assert (E : hex_digit (b / 16) :: hex_digit (b mod 16) :: hex_bytes l ++ rest = hex_pair b ++ (hex_bytes l ++ rest)) by done.
  rewrite E, hex2_bin_pair by done. unfold byte in Hb. destruct (Z.ltb_spec b 0); [lia|].
  cbn [hex_pair app]. rewrite u8_add_l.
  cbn [fold_left] in Hv.
  assert (Hmono : forall l a, Forall byte l -> 0 <= a -> a <= fold_left (fun a b => 256 * a + b) l a).
  { clear. induction l as [|b l IH]; intros a Hl Ha; simpl; [lia|]. apply Forall_cons in Hl as [Hb Hl]. unfold byte in Hb.
    specialize (IH (256 * a + b) Hl ltac:(lia)). lia. }
  pose proof (Hmono l (256 * a + b) Hl ltac:(lia)).
  assert (Ea : u32 (u32 (Z.shiftl a 8) + b) = 256 * a + b).
  { rewrite Z.shiftl_mul_pow2 by lia. change (2 ^ 8) with 256. rewrite (u32_small (a * 256)), u32_small; lia. }
  rewrite Ea, drop_0, IH by (done || lia). by rewrite Z.add_assoc.
Qed.

Lemma srec_data_ok l : forall rest c,
  Forall byte l -> srec_data (length l) (hex_bytes l ++ rest) (u8 c) = (true, l, u8 (c + sum l), rest).
Proof.
  induction l as [|b l IH]; intros rest c Hl; simpl; [by rewrite Z.add_0_r|].
  apply Forall_cons in Hl as [Hb Hl].
  assert (E : hex_digit (b / 16) :: hex_digit (b mod 16) :: hex_bytes l ++ rest = hex_pair b ++ (hex_bytes l ++ rest)) by done.
  rewrite E, hex2_bin_pair by done. pose proof Hb as Hb'. unfold byte in Hb. destruct (Z.ltb_spec b 0); [lia|].
  cbn [hex_pair app]. rewrite drop_0, u8_add_l, IH by done. rewrite u8_small by done. by rewrite Z.add_assoc.
Qed.

Definition srec_types (t : Z) (naddr : nat) (r : Z) : Prop :=
  (t = ch "1" /\ naddr = 2%nat /\ r = SREC_DATA2) \/ (t = ch "2" /\ naddr = 3%nat /\ r = SREC_DATA3) \/
  (t = ch "3" /\ naddr = 4%nat /\ r = SREC_DATA4).

Lemma skip_S_app junk rest : ch "S" ∉ junk -> skip_S (junk ++ ch "S" :: rest) = rest.
Proof.
  induction junk as [|c junk IH]; intros Hj; simpl; [done|].
  apply not_elem_of_cons in Hj as [Hc Hj]. destruct (Z.eqb_spec c (ch "S")); [congruence|by apply IH].
Qed.

Lemma sum_bytes_mod l : u8 (sum l) = sum l mod 256.
Proof. done. Qed.

Lemma be_value_bound l : Forall byte l -> forall a, 0 <= a ->
  0 <= fold_left (fun a b => 256 * a + b) l a < (a + 1) * 256 ^ Z.of_nat (length l).
Proof.
  induction 1 as [|b l Hb Hl IH]; intros a Ha; [simpl; change (256 ^ 0) with 1; lia|].
  cbn [fold_left length]. rewrite Nat2Z.inj_succ, Z.pow_succ_r by lia. unfold byte in Hb.
  specialize (IH (256 * a + b) ltac:(lia)). pose proof (Z.pow_pos_nonneg 256 (Z.of_nat (length l)) ltac:(lia) ltac:(lia)). nia.
Qed.

Lemma srec_decode_line junk t ab db cs rest r count0 addr0 :
  ch "S" ∉ junk -> srec_types t (length ab) r -> Forall byte ab -> Forall byte db -> byte cs ->
  Z.of_nat (length ab) + Z.of_nat (length db) + 1 <= 255 ->
  srec_decode (junk ++ srec_line t ab db cs ++ rest) count0 addr0 =
    Srec (if cs =? srec_checksum ab db then r else SREC_E_BADCHKS) (Z.of_nat (length db)) (be_value ab) db.
Proof.
  intros Hj Ht Hab Hdb Hcs Hlen. set (n := Z.of_nat (length ab) + Z.of_nat (length db) + 1) in *.
  assert (Hn : byte n) by (unfold byte; lia).
  unfold srec_decode, srec_line. rewrite <- app_comm_cons, skip_S_app by done. cbn [app].
  assert (Ehex : hex_bytes [n] = hex_pair n) by done. fold n. rewrite Ehex, <- !app_assoc.
  rewrite hex2_bin_pair by done. destruct (Z.ltb_spec n 0); [unfold byte in Hn; lia|]. cbv zeta.
  rewrite drop2_pair.
  assert (Hk : srec_kind t = Some (r, Some (Z.of_nat (length ab) + 1), length ab)).
  { destruct Ht as [(-> & -> & ->)|[(-> & -> & ->)|(-> & -> & ->)]]; reflexivity. }
  rewrite Hk. assert (Hbe : be_value ab < 4294967296).
  { unfold be_value. pose proof (be_value_bound ab Hab 0 ltac:(lia)) as Hb.
    assert (256 ^ Z.of_nat (length ab) <= 256 ^ 4).
    { apply Z.pow_le_mono_r; [lia|]. destruct Ht as [(_ & -> & _)|[(_ & -> & _)|(_ & -> & _)]]; lia. }
    change (256 ^ 4) with 4294967296 in *. lia. }
  rewrite srec_addr_ok by (done || lia). cbn [negb].
  replace (Z.to_nat (n - (Z.of_nat (length ab) + 1))) with (length db) by (unfold n; lia).
  rewrite srec_data_ok by done. cbn [negb]. rewrite hex2_bin_pair by done.
  destruct (Z.ltb_spec cs 0); [unfold byte in Hcs; lia|]. rewrite (u8_small cs) by done.
  assert (Ecs : u8 (Z.lnot (u8 (n + sum ab + sum db))) = srec_checksum ab db).
  { unfold srec_checksum. fold n. unfold Z.lnot, u8. zmod. }
  rewrite Ecs. replace (n - (Z.of_nat (length ab) + 1)) with (Z.of_nat (length db)) by (unfold n; lia).
  by destruct (cs =? srec_checksum ab db).
Qed.

(** A data record, after any text without an 'S', decodes to its type, address
    and data bytes; with any other checksum byte it is refused. *)
Theorem srec_decode_correct junk t ab db rest r count0 addr0 :
  ch "S" ∉ junk -> srec_types t (length ab) r -> Forall byte ab -> Forall byte db ->
  Z.of_nat (length ab) + Z.of_nat (length db) + 1 <= 255 ->
  srec_decode (junk ++ srec_line t ab db (srec_checksum ab db) ++ rest) count0 addr0 =
    Srec r (Z.of_nat (length db)) (be_value ab) db /\
  (forall cs, byte cs -> cs <> srec_checksum ab db ->
     ret (srec_decode (junk ++ srec_line t ab db cs ++ rest) count0 addr0) = SREC_E_BADCHKS).
Proof.
  intros Hj Ht Hab Hdb Hlen. split.
  - rewrite (srec_decode_line _ _ _ _ _ _ r) by (done || unfold srec_checksum, byte; zmod).
    by rewrite Z.eqb_refl.
  - intros cs Hcs Hne. rewrite (srec_decode_line _ _ _ _ _ _ r) by done. simpl.
    by destruct (Z.eqb_spec cs (srec_checksum ab db)).
Qed.

Lemma srec_decode_correct_witness :
  srec_decode (zs "x" ++ srec_line (ch "1") [18; 52] [171; 205] (srec_checksum [18; 52] [171; 205]) ++ [13]) 0 0 =
    Srec SREC_DATA2 (Z.of_nat 2) (be_value [18; 52]) [171; 205] /\
  (forall cs, byte cs -> cs <> srec_checksum [18; 52] [171; 205] ->
     ret (srec_decode (zs "x" ++ srec_line (ch "1") [18; 52] [171; 205] cs ++ [13]) 0 0) = SREC_E_BADCHKS).
Proof.
  apply (srec_decode_correct (zs "x") (ch "1") [18; 52] [171; 205] [13] SREC_DATA2).
  - apply (bool_decide_unpack _). vm_compute. exact I.
  - left. done.
  - unfold byte. repeat constructor; lia.
  - unfold byte. repeat constructor; lia.
  - simpl. lia.
Defined.

(** The data never exceed the 252 bytes a record can hold, so a buffer of
    [SREC_MAXBINLEN] bytes is never overrun, whatever the line. *)
Lemma srec_data_length n : forall input c ok l c' rest,
  srec_data n input c = (ok, l, c', rest) -> (length l <= n)%nat /\ Forall byte l.
Proof.
  induction n as [|n IH]; intros input c ok l c' rest; simpl; [by intros [= <- <- <- <-]|].
  destruct (_ <? 0); [intros [= <- <- <- <-]; simpl; split; [lia|constructor]|].
  destruct (srec_data n _ _) as [[[ok' l'] c''] r'] eqn:E. intros [= <- <- <- <-].
  apply IH in E as [E1 E2]. simpl. split; [lia|]. constructor; [apply u8_range|done].
Qed.

Lemma hex2_bin_range s : hex2_bin s <= 255.
Proof.
  assert (H : forall c, -1 <= hex1_bin c <= 15).
  { intros c. unfold hex1_bin. change (ch "0") with 48. change (ch "9") with 57. change (ch "a") with 97.
    change (ch "f") with 102. change (ch "A") with 65. change (ch "F") with 70. cbv zeta.
    set (x := s8 c). clearbody x. btest; simpl; lia. }
  unfold hex2_bin. pose proof (H (deref s)). pose proof (H (deref (tl s))). cbv zeta.
  destruct (_ <? 0); [lia|]. destruct (_ <? 0); [lia|]. rewrite Z.shiftl_mul_pow2 by lia. change (2 ^ 4) with 16. lia.
Qed.

Theorem srec_decode_bounds input count0 addr0 :
  let r := srec_decode input count0 addr0 in
  Z.of_nat (length (data r)) <= 252 /\ Z.of_nat (length (data r)) < SREC_MAXBINLEN /\ Forall byte (data r).
Proof.
  cbv zeta. assert (H : (length (data (srec_decode input count0 addr0)) <= 252)%nat /\
    Forall byte (data (srec_decode input count0 addr0))); [|unfold SREC_MAXBINLEN; lia || (split_and!; [lia|lia|apply H])].
  unfold srec_decode. destruct (skip_S input) as [|v inp]; [simpl; split; [lia|constructor]|].
  pose proof (hex2_bin_range inp). destruct (_ <? 0); [simpl; split; [lia|constructor]|]. cbv zeta.
  destruct (srec_kind v) as [[[ty adj] na]|] eqn:Ek; [|simpl; split; [lia|constructor]].
  assert (Hadj : adj = None \/ exists a, adj = Some a /\ 3 <= a).
  { unfold srec_kind in Ek. repeat (destruct (v =? _); [injection Ek as <- <- <-; (by left) || (right; eexists; split; [done|lia])|]). done. }
  destruct (srec_addr _ _ _ _) as [[[ok a] c] i2]. destruct (negb ok); [simpl; split; [lia|constructor]|].
  destruct (srec_data _ i2 c) as [[[ok2 l] c2] i3] eqn:Ed. apply srec_data_length in Ed as [El Eb].
  assert (length l <= 252)%nat by (destruct Hadj as [->|(x & -> & ?)]; simpl in El; lia).
  destruct (negb ok2); [by simpl|]. destruct (_ <? 0); [by simpl|]. destruct (negb _); by simpl.
Qed.

(** A length byte smaller than the address and checksum it must count is not
    refused: the record decodes successfully with a negative byte count. *)
Theorem srec_decode_negative_count count0 addr0 :
  srec_decode (zs "S1000000FF") count0 addr0 = Srec SREC_DATA2 (-3) 0 [].
Proof. reflexivity. Qed.
