(* ===== verification/Env.v ===== *)
(** * The environment (common/env_common.c, common/cmd_nvedit.c)

    The RAM copy of the environment, its look-up and its update.  The data
    area holds "name=value" strings, each ended by a NUL, and one more NUL at
    the end.  Its length is [ENV_SIZE], so the definitions run on areas of any
    size; an index outside the area is a [Fault].  Strings passed in are lists
    of their bytes before the NUL.

    What the code calls outside this model is a parameter of the section:
    [console_assign] (the console layer), [env_overwrite]
    ([CONFIG_ENV_OVERWRITE]) and the table of baud rates of the board. *)

From S2P Require Import Prelude.
From S2P Require Import Ctype.
From S2P Require Import Vsprintf.
From S2P Require Import Crc.

(** ** The state *)

Record env_state := Env {
  env_ptr : Z;                 (* address of the RAM copy *)
  crc : Z;                     (* env_ptr->crc *)
  env_data : list Z;           (* env_ptr->data *)
  default_environment : list Z;
  env_valid : Z;               (* gd->env_valid *)
  env_id : Z;
  baudrate : Z;                (* gd->baudrate *)
  bi_ip_addr : Z;              (* bd->bi_ip_addr *)
  load_addr : Z;
  input : list Z               (* characters still to come from getc *)
}.

Definition with_data (e : env_state) (d : list Z) : env_state :=
  Env (env_ptr e) (crc e) d (default_environment e) (env_valid e) (env_id e) (baudrate e) (bi_ip_addr e)
    (load_addr e) (input e).
Definition with_default (e : env_state) (d : list Z) : env_state :=
  Env (env_ptr e) (crc e) (env_data e) d (env_valid e) (env_id e) (baudrate e) (bi_ip_addr e) (load_addr e) (input e).
Definition with_crc (e : env_state) (c : Z) : env_state :=
  Env (env_ptr e) c (env_data e) (default_environment e) (env_valid e) (env_id e) (baudrate e) (bi_ip_addr e)
    (load_addr e) (input e).
Definition with_valid (e : env_state) (v : Z) : env_state :=
  Env (env_ptr e) (crc e) (env_data e) (default_environment e) v (env_id e) (baudrate e) (bi_ip_addr e)
    (load_addr e) (input e).
Definition with_id (e : env_state) (i : Z) : env_state :=
  Env (env_ptr e) (crc e) (env_data e) (default_environment e) (env_valid e) i (baudrate e) (bi_ip_addr e)
    (load_addr e) (input e).
Definition with_baudrate (e : env_state) (b : Z) (inp : list Z) : env_state :=
  Env (env_ptr e) (crc e) (env_data e) (default_environment e) (env_valid e) (env_id e) b (bi_ip_addr e)
    (load_addr e) inp.
Definition with_ip (e : env_state) (ip : Z) : env_state :=
  Env (env_ptr e) (crc e) (env_data e) (default_environment e) (env_valid e) (env_id e) (baudrate e) ip
    (load_addr e) (input e).
Definition with_load_addr (e : env_state) (a : Z) : env_state :=
  Env (env_ptr e) (crc e) (env_data e) (default_environment e) (env_valid e) (env_id e) (baudrate e) (bi_ip_addr e)
    a (input e).

(** ** env_common.c *)

(** The area [env_get_char_memory] and [env_get_addr] refer to: the RAM copy,
    or the built-in default when it is not valid. *)
Definition env_area (e : env_state) : list Z :=
  if negb (env_valid e =? 0) then env_data e else default_environment e.
Definition set_area (e : env_state) (d : list Z) : env_state :=
  if negb (env_valid e =? 0) then with_data e d else with_default e d.

Definition env_get_char (e : env_state) (index : nat) : res Z := arr_get (env_area e) index.

(** The data start after the 4-byte checksum. *)
Definition env_crc_update (e : env_state) : env_state :=
  with_crc e (crc32 0 (env_ptr e + 4) (env_data e)).

(** [memset] and [memcpy]; a default larger than the area changes nothing. *)
Definition set_default_env (e : env_state) : env_state :=
  let n := length (env_data e) in
  if (n <? length (default_environment e))%nat then e
  else
    let d := default_environment e ++ replicate (n - length (default_environment e)) 0 in
    with_valid (env_crc_update (with_data e d)) 1.

(** ** Matching and looking up *)

(** [envmatch] from the rest of the name [s1] and the index [i2]; [-1] is no
    match.  When the area has a NUL where the name ends the loop would read on
    behind both strings. *)
Fixpoint envmatch (e : env_state) (s1 : list Z) (i2 : nat) : res Z :=
  c ← env_get_char e i2;
  match s1 with
  | [] =>
      if c =? 0 then Fault
      else if c =? ch "=" then mret (Z.of_nat (i2 + 1)) else mret (-1)
  | x :: s1' =>
      if x =? c then
        if x =? ch "=" then mret (Z.of_nat (i2 + 1)) else envmatch e s1' (i2 + 1)
      else mret (-1)
  end.

(** How the search for the end of an entry leaves: at the NUL, or with the
    index at [CONFIG_ENV_SIZE] (four more than [ENV_SIZE]) or beyond. *)
Inductive entry_end :=
| End_nul (nxt : nat)
| End_limit.

Fixpoint find_nul (fuel : nat) (e : env_state) (limit nxt : nat) : res entry_end :=
  match fuel with
  | O => OutOfFuel
  | S fuel' =>
      c ← env_get_char e nxt;
      if c =? 0 then mret (End_nul nxt)
      else if (limit <=? nxt)%nat then mret End_limit
      else find_nul fuel' e limit (nxt + 1)
  end.

Definition CONFIG_ENV_SIZE (e : env_state) : nat := (length (env_data e) + 4)%nat.

(** An index only moves up inside the area, whose length is therefore enough fuel. *)
Definition area_fuel (e : env_state) : nat := S (length (env_area e)).

(** [getenv]: the index of the value, [None] is [NULL]. *)
Fixpoint getenv_loop (fuel : nat) (e : env_state) (name : list Z) (i : nat) : res (option nat) :=
  match fuel with
  | O => OutOfFuel
  | S fuel' =>
      c ← env_get_char e i;
      if c =? 0 then mret None
      else
        f ← find_nul (area_fuel e) e (CONFIG_ENV_SIZE e) i;
        match f with
        | End_limit => mret None
        | End_nul nxt =>
            val ← envmatch e name i;
            if val <? 0 then getenv_loop fuel' e name (nxt + 1) else mret (Some (Z.to_nat val))
        end
  end.

Definition getenv (e : env_state) (name : list Z) : res (option nat) :=
  getenv_loop (area_fuel e) e name 0.

(** The copy loop of [getenv_r]: [n] counts as the code's variable does; [buf]
    is what has been written.  Returns the count and the bytes written. *)
Fixpoint getenv_r_copy (fuel : nat) (e : env_state) (len n : Z) (val : nat) (buf : list Z) : res (Z * list Z) :=
  match fuel with
  | O => OutOfFuel
  | S fuel' =>
      if n <? len then
        c ← env_get_char e val;
        if c =? 0 then mret (n + 1, buf ++ [c])
        else getenv_r_copy fuel' e len (n + 1) (val + 1) (buf ++ [c])
      else mret (n + 1, buf)
  end.

(** The result and the bytes stored from [buf] on. *)
Fixpoint getenv_r_loop (fuel : nat) (e : env_state) (name : list Z) (len : Z) (i : nat) : res (Z * list Z) :=
  match fuel with
  | O => OutOfFuel
  | S fuel' =>
      c ← env_get_char e i;
      if c =? 0 then mret (-1, [])
      else
        f ← find_nul (area_fuel e) e (CONFIG_ENV_SIZE e) i;
        match f with
        | End_limit => mret (-1, [])
        | End_nul nxt =>
            val ← envmatch e name i;
            if val <? 0 then getenv_r_loop fuel' e name len (nxt + 1)
            else
              '(n, buf) ← getenv_r_copy (area_fuel e) e len 0 (Z.to_nat val) [];
              mret (n, if len =? n then buf ++ [0] else buf)
        end
  end.

Definition getenv_r (e : env_state) (name : list Z) (len : Z) : res (Z * list Z) :=
  getenv_r_loop (area_fuel e) e name len 0.

(** ** printenv *)

(** The text of one entry and the index after its NUL (the 16-byte pieces that
    [puts] prints are joined here). *)
Fixpoint entry_text (fuel : nat) (e : env_state) (i : nat) : res (list Z * nat) :=
  match fuel with
  | O => OutOfFuel
  | S fuel' =>
      c ← env_get_char e i;
      if c =? 0 then mret ([], (i + 1)%nat)
      else
        '(t, j) ← entry_text fuel' e (i + 1);
        mret (c :: t, j)
  end.

(** [state] 1 prints everything, 2 searches, 0 is found; [ctrlc] answers the
    polls of the keyboard in order.  Result, text printed. *)
Fixpoint printenv_loop (fuel : nat) (e : env_state) (name : list Z) (state : Z) (i : nat)
    (ctrlc : list bool) (out : list Z) : res (Z * list Z) :=
  match fuel with
  | O => OutOfFuel
  | S fuel' =>
      c ← env_get_char e i;
      if (state =? 0) || (c =? 0) then mret ((if state =? 0 then 0 else Z.of_nat i), out)
      else
        state ← (if state =? 2 then
                   val ← envmatch e name i; mret (if 0 <=? val then 0 else state)
                 else mret state);
        '(t, j) ← entry_text (area_fuel e) e i;
        let out := if state <=? 1 then out ++ t ++ [10] else out in
        match ctrlc with
        | true :: _ => mret (-1, out)
        | _ => printenv_loop fuel' e name state j (tl ctrlc) out
        end
  end.

Definition printenv (e : env_state) (name : list Z) (state : Z) (ctrlc : list bool) : res (Z * list Z) :=
  printenv_loop (S (area_fuel e)) e name state 0 ctrlc [].

(** [do_printenv]: the result and the text printed; [ctrlc k] answers the
    keyboard polls of the [k]-th search. *)
Fixpoint printenv_names (e : env_state) (names : list (list Z)) (ctrlc : nat -> list bool) (k : nat)
    (rcode : Z) (out : list Z) : res (Z * list Z) :=
  match names with
  | [] => mret (rcode, out)
  | name :: names =>
      '(r, t) ← printenv e name 2 (ctrlc k);
      let err := if r =? 0 then [] else zs "## Error: " ++ [34] ++ name ++ [34] ++ zs " not defined" ++ [10] in
      printenv_names e names ctrlc (k + 1) (if r =? 0 then rcode else rcode + 1) (out ++ t ++ err)
  end.

Definition do_printenv (e : env_state) (args : list (list Z)) (ctrlc : nat -> list bool) : res (Z * list Z) :=
  match args with
  | [] =>
      '(rcode, t) ← printenv e [] 1 (ctrlc 0%nat);
      if rcode <? 0 then mret (1, t)
      else
        '(size, _) ← sprintf true ([10] ++ zs "Environment size: %d/%ld bytes" ++ [10])
                       [A_int rcode; A_int (Z.of_nat (length (env_data e)))];
        mret (0, t ++ size)
  | _ => printenv_names e args ctrlc 0 0 []
  end.

(** ** Completion of a variable's name *)

(** The characters of an entry before its '=', all of them without one. *)
Fixpoint name_part (s : list Z) : list Z :=
  match s with
  | [] => []
  | c :: s' => if c =? ch "=" then [] else c :: name_part s'
  end.

(** The strings put into [cmdv], in order; each but the last marker takes its
    length and a NUL from [buf]. *)
Fixpoint env_complete_loop (fuel : nat) (e : env_state) (var : list Z) (maxv bufsz : Z) (i : nat)
    (cmdv : list (list Z)) : res (list (list Z)) :=
  match fuel with
  | O => OutOfFuel
  | S fuel' =>
      c ← env_get_char e i;
      if c =? 0 then mret cmdv
      else
        '(lval, nxt) ← entry_text (area_fuel e) e i;
        let name := name_part lval in
        let vallen := Z.of_nat (length name) in
        if (0 <? length var)%nat &&
           ((length name <? length var)%nat || negb (bool_decide (take (length var) lval = var)))
        then env_complete_loop fuel' e var maxv bufsz nxt cmdv
        else if (maxv - 2 <=? Z.of_nat (length cmdv)) || (bufsz <? vallen + 1) then mret (cmdv ++ [zs "..."])
        else env_complete_loop fuel' e var maxv (bufsz - vallen - 1) nxt (cmdv ++ [name])
  end.

Definition env_complete (e : env_state) (var : list Z) (maxv bufsz : Z) : res (list (list Z)) :=
  env_complete_loop (area_fuel e) e var maxv bufsz 0 [].

(** ** setenv *)

Definition put_char (e : env_state) (i : nat) (c : Z) : res env_state :=
  d ← arr_set (env_area e) i c;
  mret (set_area e d).

Fixpoint scan_nul (fuel : nat) (e : env_state) (nxt : nat) : res nat :=
  match fuel with
  | O => OutOfFuel
  | S fuel' =>
      c ← env_get_char e nxt;
      if c =? 0 then mret nxt else scan_nul fuel' e (nxt + 1)
  end.

(** The search for an existing definition: [env], [nxt] and [oldval] after it. *)
Fixpoint search_old (fuel : nat) (e : env_state) (name : list Z) (env nxt : nat) (oldval : Z)
    : res (nat * nat * Z) :=
  match fuel with
  | O => OutOfFuel
  | S fuel' =>
      c ← env_get_char e env;
      if c =? 0 then mret (env, nxt, oldval)
      else
        nxt ← scan_nul (area_fuel e) e env;
        oldval ← envmatch e name env;
        if 0 <=? oldval then mret (env, nxt, oldval)
        else search_old fuel' e name (nxt + 1) nxt oldval
  end.

(** Moving the entries behind the deleted one down; [env] after the loop. *)
Fixpoint move_down (fuel : nat) (e : env_state) (env nxt : nat) : res (env_state * nat) :=
  match fuel with
  | O => OutOfFuel
  | S fuel' =>
      c ← env_get_char e nxt;
      e ← put_char e env c;
      d ← env_get_char e (nxt + 1);
      if (c =? 0) && (d =? 0) then mret (e, env) else move_down fuel' e (env + 1) (nxt + 1)
  end.

Definition delete_entry (e : env_state) (env nxt : nat) : res env_state :=
  let nxt := (nxt + 1)%nat in
  c ← env_get_char e nxt;
  '(e, env) ←
    (if c =? 0 then
       if (0 <? env)%nat then mret (e, (env - 1)%nat)
       else e ← put_char e env 0; mret (e, env)
     else move_down (area_fuel e) e env nxt);
  put_char e (env + 1) 0.

(** The end of the list: the first place where two NULs follow each other. *)
Fixpoint find_end (fuel : nat) (e : env_state) (env : nat) : res nat :=
  match fuel with
  | O => OutOfFuel
  | S fuel' =>
      c ← env_get_char e env;
      if negb (c =? 0) then find_end fuel' e (env + 1)
      else
        d ← env_get_char e (env + 1);
        if negb (d =? 0) then find_end fuel' e (env + 1) else mret env
  end.

(** Storing the characters of [s] from index [i] on. *)
Fixpoint put_chars (e : env_state) (i : nat) (s : list Z) : res env_state :=
  match s with
  | [] => mret e
  | c :: s' => e ← put_char e i c; put_chars e (i + 1) s'
  end.

(** The arguments from [argv[2]] on; a missing one ([NULL]) is dereferenced. *)
Fixpoint values (n : nat) (args : list (option (list Z))) : res (list (list Z)) :=
  match n with
  | O => mret []
  | S n' =>
      match args with
      | Some v :: args' => vs ← values n' args'; mret (v :: vs)
      | _ => Fault
      end
  end.

(** Each value after its separator: '=' for the first, ' ' for the others. *)
Definition value_text (vs : list (list Z)) : list Z :=
  match vs with
  | [] => []
  | v :: vs => ch "=" :: v ++ flat_map (fun v => ch " " :: v) vs
  end.

(** Name and values with their NULs written over by the next separator: the
    copy loops of the code leave exactly these bytes from [env] on. *)
Definition append_entry (e : env_state) (env : nat) (name : list Z) (vs : list (list Z)) : res env_state :=
  put_chars e env (name ++ value_text vs ++ [0; 0]).

Section Setenv.
Context (console_assign : Z -> list Z -> Z).
Context (env_overwrite : bool).
Context (baudrate_table : list Z).

Definition str_eq (a b : list Z) : bool := bool_decide (a = b).

(** The wait for the Enter key after a change of the baud rate; without one
    among the characters to come the code waits for ever. *)
Fixpoint wait_enter (input : list Z) : res (list Z) :=
  match input with
  | [] => OutOfFuel
  | c :: input' => if c =? 13 then Ok input' else wait_enter input'
  end.

Definition switch_baudrate (e : env_state) (value : option (list Z)) : res (Z * env_state) :=
  match value with
  | None => Fault
  | Some v =>
      let b := s32 (fst (simple_strtoul v 10)) in
      if existsb (fun x => u32 b =? x) baudrate_table then
        inp ← wait_enter (input e);
        mret (0, with_baudrate e b inp)
      else mret (1, e)
  end.

(** [argv] holds [argc] strings and then at least one [NULL]. *)
Definition argv_get (argv : list (option (list Z))) (i : nat) : res (option (list Z)) := arr_get argv i.

(** The console redirection: [None] goes on, [Some r] returns. *)
Definition redirect_console (name : list Z) (argc : nat) (argv : list (option (list Z))) : res (option Z) :=
  let console :=
    if str_eq name (zs "stdin") then 0
    else if str_eq name (zs "stdout") then 1
    else if str_eq name (zs "stderr") then 2
    else -1 in
  if console =? -1 then mret None
  else if (argc <? 3)%nat then mret (Some 1)
  else
    v ← argv_get argv 2;
    match v with
    | None => Fault
    | Some v => if console_assign console v <? 0 then mret (Some 1) else mret None
    end.

(** What replaces a definition in use: refused for the write-once variables
    and for bad baud rates, otherwise the old definition is deleted. *)
Definition replace_old (e : env_state) (name : list Z) (argv : list (option (list Z))) (env nxt : nat)
    : res (Z * env_state) :=
  if negb env_overwrite && (str_eq name (zs "serial#") || str_eq name (zs "ethaddr")) then mret (1, e)
  else
    '(r, e) ←
      (if str_eq name (zs "baudrate") then
         v ← argv_get argv 2; switch_baudrate e v
       else mret (0, e));
    if negb (r =? 0) then mret (r, e)
    else
      e ← delete_entry e env nxt;
      mret (0, e).

(** The variables that other parts of the program hold a copy of. *)
Definition update_copies (e : env_state) (name : list Z) (v : list Z) : env_state :=
  if str_eq name (zs "ethaddr") then e
  else if str_eq name (zs "ipaddr") then with_ip e (string_to_ip (Some v))
  else if str_eq name (zs "loadaddr") then with_load_addr e (fst (simple_strtoul v 16))
  else e.

Definition _do_setenv (e : env_state) (argc : nat) (argv : list (option (list Z))) : res (Z * env_state) :=
  n ← argv_get argv 1;
  match n with
  | None => Fault
  | Some name =>
      if bool_decide (ch "=" ∈ name) then mret (1, e)
      else
        let e := with_id e (s32 (env_id e + 1)) in
        '(env, nxt, oldval) ← search_old (area_fuel e) e name 0 0 (-1);
        c ← redirect_console name argc argv;
        match c with
        | Some r => mret (r, e)
        | None =>
            '(r, e) ← (if 0 <=? oldval then replace_old e name argv env nxt else mret (0, e));
            if negb (r =? 0) then mret (r, e)
            else
              only_delete ← (if (argc <? 3)%nat then mret true
                             else v ← argv_get argv 2; mret (match v with None => true | _ => false end));
              if (only_delete : bool) then mret (0, env_crc_update e)
              else
                env ← find_end (area_fuel e) e 0;
                let env := if (0 <? env)%nat then (env + 1)%nat else env in
                vs ← values (argc - 2) (drop 2 argv);
                let len := (length name + 2 + list_sum (map (fun v => length v + 1) vs))%nat in
                if (length (env_area e) - env <? len)%nat then mret (1, e)
                else
                  e ← append_entry e env name vs;
                  let e := env_crc_update e in
                  mret (0, update_copies e name (hd [] vs))
        end
  end.

(** [varvalue] [None] is a null pointer. *)
Definition setenv (e : env_state) (varname : list Z) (varvalue : option (list Z)) : res (Z * env_state) :=
  let argv := [Some (zs "setenv"); Some varname; varvalue; None] in
  match varvalue with
  | None | Some [] => _do_setenv e 2 argv
  | Some _ => _do_setenv e 3 argv
  end.

Definition do_setenv (e : env_state) (argc : nat) (argv : list (option (list Z))) : res (Z * env_state) :=
  if (argc <? 2)%nat then mret (1, e) else _do_setenv e argc argv.

(** ** Asking for and editing a variable

    [readline] gives the length and the text left in [console_buffer] for a
    prompt, [readline_into_buffer] the text left in a buffer. *)

Definition CONFIG_SYS_CBSIZE : Z := 256.

Context (readline : list Z -> Z * list Z).
Context (readline_into_buffer : list Z -> list Z -> list Z).

(** The words joined in [message], a buffer of [CONFIG_SYS_CBSIZE] bytes. *)
Definition askenv_message (ws : list (list Z)) : list Z :=
  fold_left (fun m w => (match m with [] => [] | _ => m ++ [ch " "] end) ++ w) ws [].

Definition fits_message (m : list Z) : res (list Z) :=
  if Z.of_nat (length m) <? CONFIG_SYS_CBSIZE then Ok m else Fault.

Definition askenv_size (argv : list (list Z)) : Z := s32 (fst (simple_strtoul (default [] (list.last argv)) 10)).

Definition do_askenv (e : env_state) (argv : list (list Z)) : res (Z * env_state) :=
  match argv with
  | cmd :: name :: args =>
      '(message, size) ←
        (match args with
         | [] => m ← fits_message (zs "Please enter '" ++ name ++ zs "':"); mret (m, CONFIG_SYS_CBSIZE - 1)
         | [_] => m ← fits_message (zs "Please enter '" ++ name ++ zs "':"); mret (m, askenv_size argv)
         | _ => m ← fits_message (askenv_message (removelast args)); mret (m, askenv_size argv)
         end);
      let size := if CONFIG_SYS_CBSIZE <=? size then CONFIG_SYS_CBSIZE - 1 else size in
      if size <=? 0 then mret (1, e)
      else
        let '(len, console_buffer) := readline message in
        let console_buffer := if size <? len then take (Z.to_nat size) console_buffer else console_buffer in
        match console_buffer with
        | [] => _do_setenv e 2 [Some cmd; Some name; None; None]
        | _ => _do_setenv e 3 [Some cmd; Some name; Some console_buffer; None]
        end
  | _ => mret (1, e)
  end.

(** A value that does not fit into the buffer on the stack is written behind it. *)
Definition do_editenv (e : env_state) (argv : list (list Z)) : res (Z * env_state) :=
  match argv with
  | _ :: name :: _ =>
      init_val ← getenv e name;
      buffer ← (match init_val with
                | None => mret []
                | Some i => '(v, _) ← entry_text (area_fuel e) e i; fits_message v
                end);
      setenv e name (Some (readline_into_buffer (zs "edit: ") buffer))
  | _ => mret (1, e)
  end.

End Setenv.

(** ** What the area stands for: a list of names and values *)

Definition entry (nv : list Z * list Z) : list Z := fst nv ++ ch "=" :: snd nv ++ [0].
Definition entries (l : list (list Z * list Z)) : list Z := flat_map entry l.
(** The text of an environment; an empty one has both NULs. *)
Definition env_text (l : list (list Z * list Z)) : list Z :=
  match l with [] => [0; 0] | _ => entries l ++ [0] end.

Definition good_name (n : list Z) : Prop := cstring n /\ ch "=" ∉ n.
Definition good_entry (nv : list Z * list Z) : Prop := good_name (fst nv) /\ cstring (snd nv).

Definition env_repr (e : env_state) (l : list (list Z * list Z)) : Prop :=
  env_valid e <> 0 /\ Forall good_entry l /\ NoDup (map fst l) /\ exists rest, env_data e = env_text l ++ rest.

Fixpoint env_lookup (name : list Z) (l : list (list Z * list Z)) : option (list Z) :=
  match l with
  | [] => None
  | (n, v) :: l' => if decide (name = n) then Some v else env_lookup name l'
  end.

(** The bytes at an index: a NUL-terminated string. *)
Definition string_at (e : env_state) (i : nat) (v : list Z) : Prop :=
  exists post, drop i (env_data e) = v ++ 0 :: post.

(** ** Reading *)

Lemma get_at e pre c post i :
  env_valid e <> 0 -> env_data e = pre ++ c :: post -> i = length pre -> env_get_char e i = Ok c.
Proof.
  intros Hv He ->. unfold env_get_char, env_area. destruct (Z.eqb_spec (env_valid e) 0); [done|].
  simpl. rewrite He. by apply arr_get_app_mid.
Qed.

Lemma area_fuel_ge e pre s post :
  env_valid e <> 0 -> env_data e = pre ++ s ++ post -> (length pre + length s + length post < area_fuel e)%nat.
Proof.
  intros Hv He. unfold area_fuel, env_area. destruct (Z.eqb_spec (env_valid e) 0); [done|]. simpl.
  rewrite He, !length_app. lia.
Qed.

Lemma scan_nul_ok e s post : forall fuel pre i,
  env_valid e <> 0 -> env_data e = pre ++ s ++ 0 :: post -> cstring s -> i = length pre -> (length s < fuel)%nat ->
  scan_nul fuel e i = Ok (length pre + length s)%nat.
Proof.
  induction s as [|c s IH]; intros [|fuel] pre i Hv He Hs Hi Hf; simpl in Hf; try lia; cbn [scan_nul].
  - rewrite (res_bind_ok _ _ _ (get_at _ _ _ _ _ Hv He Hi)). simpl. by rewrite Hi, Nat.add_0_r.
  - rewrite (res_bind_ok _ _ _ (get_at _ _ _ _ _ Hv He Hi)). apply cstring_cons in Hs as [Hc Hs].
    unfold nonzero_byte in Hc. destruct (Z.eqb_spec c 0); [lia|].
    rewrite (IH fuel (pre ++ [c])); try done.
    + rewrite length_app. simpl. f_equal. lia.
    + by rewrite <- app_assoc.
    + rewrite length_app. simpl. lia.
    + lia.
Qed.

Lemma find_nul_ok e s post limit : forall fuel pre i,
  env_valid e <> 0 -> env_data e = pre ++ s ++ 0 :: post -> cstring s -> i = length pre -> (length s < fuel)%nat ->
  (length pre + length s < limit)%nat ->
  find_nul fuel e limit i = Ok (End_nul (length pre + length s)%nat).
Proof.
  induction s as [|c s IH]; intros [|fuel] pre i Hv He Hs Hi Hf Hl; simpl in Hf, Hl; try lia; cbn [find_nul].
  - rewrite (res_bind_ok _ _ _ (get_at _ _ _ _ _ Hv He Hi)). simpl. by rewrite Hi, Nat.add_0_r.
  - rewrite (res_bind_ok _ _ _ (get_at _ _ _ _ _ Hv He Hi)). apply cstring_cons in Hs as [Hc Hs].
    unfold nonzero_byte in Hc. destruct (Z.eqb_spec c 0); [lia|]. destruct (Nat.leb_spec limit i); [lia|].
    rewrite (IH fuel (pre ++ [c])); try done.
    + rewrite length_app. simpl. do 2 f_equal. lia.
    + by rewrite <- app_assoc.
    + rewrite length_app. simpl. lia.
    + lia.
    + rewrite length_app. simpl. lia.
Qed.

Lemma envmatch_ok e v post : forall name n pre i,
  env_valid e <> 0 -> env_data e = pre ++ (n ++ ch "=" :: v) ++ post -> i = length pre ->
  good_name name -> good_name n ->
  envmatch e name i = Ok (if decide (name = n) then Z.of_nat (length pre + length n + 1) else -1).
Proof.
  induction name as [|x name IH]; intros n pre i Hv He Hi [Hc1 Hq1] [Hc2 Hq2]; destruct n as [|y n]; cbn [envmatch].
  - rewrite (res_bind_ok _ _ _ (get_at _ _ _ _ _ Hv He Hi)). simpl. do 3 f_equal. lia.
  - rewrite <- app_assoc in He. cbn [app] in He. rewrite (res_bind_ok _ _ _ (get_at _ _ _ _ _ Hv He Hi)).
    apply cstring_cons in Hc2 as [Hy _]. unfold nonzero_byte in Hy. destruct (Z.eqb_spec y 0); [lia|].
    apply not_elem_of_cons in Hq2 as [Hq2 _]. destruct (Z.eqb_spec y (ch "=")); [congruence|].
    by rewrite decide_False.
  - rewrite (res_bind_ok _ _ _ (get_at _ _ _ _ _ Hv He Hi)). apply not_elem_of_cons in Hq1 as [Hq1 _].
    destruct (Z.eqb_spec x (ch "=")); [congruence|]. by rewrite decide_False.
  - rewrite <- app_assoc in He. cbn [app] in He. rewrite (res_bind_ok _ _ _ (get_at _ _ _ _ _ Hv He Hi)).
    apply not_elem_of_cons in Hq1 as [Hx Hq1]. apply not_elem_of_cons in Hq2 as [Hy Hq2].
    apply cstring_cons in Hc1 as [_ Hc1]. apply cstring_cons in Hc2 as [_ Hc2].
    destruct (Z.eqb_spec x y) as [->|Hne].
    + destruct (Z.eqb_spec y (ch "=")); [congruence|].
      rewrite (IH n (pre ++ [y]) (i + 1)%nat); try done.
      * rewrite length_app. simpl length. destruct (decide (name = n)) as [->|Hnn].
        -- rewrite decide_True by done. do 2 f_equal. lia.
        -- rewrite decide_False by congruence. done.
      * by rewrite <- !app_assoc.
      * rewrite length_app. simpl. lia.
    + rewrite decide_False; [done|congruence].
Qed.

Lemma entry_first nv l post : good_entry nv -> exists c s, entry nv ++ l ++ post = c :: s /\ c <> 0 /\ entry nv <> [].
Proof.
  destruct nv as [[|c n] v]; intros [[Hn _] _]; unfold entry; simpl in *.
  - by exists (ch "="), ((v ++ [0]) ++ l ++ post).
  - apply cstring_cons in Hn as [Hc _]. unfold nonzero_byte in Hc. eexists c, _. split; [done|]. split; [lia|done].
Qed.

(** The pieces of the area around one entry. *)
Lemma entry_split pre n v l post : pre ++ (entry (n, v) ++ entries l) ++ post =
  pre ++ (n ++ ch "=" :: v) ++ 0 :: entries l ++ post.
Proof. unfold entry. simpl. by rewrite <- !app_assoc, <- !app_comm_cons, <- app_assoc. Qed.

Lemma getenv_loop_ok e name post : env_valid e <> 0 -> good_name name -> forall l fuel pre,
  env_data e = pre ++ entries l ++ 0 :: post -> Forall good_entry l -> (length (entries l) < fuel)%nat ->
  match env_lookup name l with
  | None => getenv_loop fuel e name (length pre) = Ok None
  | Some v => exists i, getenv_loop fuel e name (length pre) = Ok (Some i) /\ string_at e i v
  end.
Proof.
  intros Hv Hn. induction l as [|[n v] l IH]; intros [|fuel] pre He Hl Hf; simpl in Hf; try lia.
  - simpl. rewrite (res_bind_ok _ _ _ (get_at _ _ _ _ _ Hv He eq_refl)). done.
  - apply Forall_cons in Hl as [Hg Hl]. pose proof Hg as [Hgn Hgv]. simpl in Hgn, Hgv.
    destruct (entry_first (n, v) (entries l) (0 :: post) Hg) as (c & s & Ec & Hc & _).
    assert (Hget : env_get_char e (length pre) = Ok c).
    { apply (get_at e pre c s); try done. rewrite He. f_equal. rewrite <- Ec. simpl. by rewrite <- app_assoc. }
    cbn [getenv_loop env_lookup]. rewrite (res_bind_ok _ _ _ Hget). destruct (Z.eqb_spec c 0); [done|].
    change (entries ((n, v) :: l)) with (entry (n, v) ++ entries l) in He. rewrite entry_split in He.
    pose proof (area_fuel_ge e _ _ _ Hv He) as Hfu.
    assert (Hfu' : (length (n ++ ch "=" :: v) < area_fuel e)%nat) by lia.
    assert (Hs : cstring (n ++ ch "=" :: v)).
    { apply cstring_app. split; [apply Hgn|]. apply cstring_cons. split; [by vm_compute|done]. }
    assert (Hlen : (length pre + length (n ++ ch "=" :: v) < CONFIG_ENV_SIZE e)%nat).
    { unfold CONFIG_ENV_SIZE. rewrite He, !length_app. simpl. lia. }
    rewrite (res_bind_ok _ _ _ (find_nul_ok e _ _ _ _ pre _ Hv He Hs eq_refl Hfu' Hlen)).
    rewrite (res_bind_ok _ _ _ (envmatch_ok e v _ name n pre _ Hv He eq_refl Hn Hgn)).
    destruct (decide (name = n)) as [->|Hne].
    + destruct (Z.ltb_spec (Z.of_nat (length pre + length n + 1)) 0); [lia|]. eexists. split; [done|].
      rewrite Nat2Z.id. exists (entries l ++ 0 :: post). rewrite He.
      replace (pre ++ (n ++ ch "=" :: v) ++ 0 :: entries l ++ 0 :: post) with
        ((pre ++ n ++ [ch "="]) ++ v ++ 0 :: entries l ++ 0 :: post) by (rewrite <- !app_assoc; done).
      rewrite drop_app_length'; [done|]. rewrite !length_app. simpl. lia.
    + change (-1 <? 0) with true. cbv iota.
      replace (length pre + length (n ++ ch "=" :: v) + 1)%nat with (length (pre ++ entry (n, v))).
      2: { unfold entry. rewrite !length_app. simpl. rewrite !length_app. simpl. lia. }
      apply IH; [|done|].
      * rewrite He. unfold entry. simpl. by rewrite <- !app_assoc, <- !app_comm_cons, <- app_assoc.
      * rewrite length_app in Hf. unfold entry in Hf. rewrite !length_app in Hf. simpl in Hf. lia.
Qed.

Lemma env_repr_text e l : env_repr e l -> exists post, env_data e = entries l ++ 0 :: post.
Proof.
  intros (_ & _ & _ & rest & ->). destruct l as [|nv l]; [by exists (0 :: rest)|].
  exists rest. simpl env_text. by rewrite <- app_assoc.
Qed.

Lemma getenv_ok e l name :
  env_repr e l -> good_name name ->
  match env_lookup name l with
  | None => getenv e name = Ok None
  | Some v => exists i, getenv e name = Ok (Some i) /\ string_at e i v
  end.
Proof.
  intros Hr Hn. destruct (env_repr_text e l Hr) as [post He]. destruct Hr as (Hv & Hg & _).
  apply (getenv_loop_ok e name post Hv Hn l (area_fuel e) []); try done.
  pose proof (area_fuel_ge e [] (entries l) (0 :: post) Hv He). simpl in *. lia.
Qed.

(** ** Writing *)

Lemma env_area_valid e : env_valid e <> 0 -> env_area e = env_data e.
Proof. unfold env_area. by destruct (Z.eqb_spec (env_valid e) 0). Qed.

Lemma set_area_valid e d : env_valid e <> 0 -> set_area e d = with_data e d.
Proof. unfold set_area. by destruct (Z.eqb_spec (env_valid e) 0). Qed.

Lemma with_data_id e : with_data e (env_data e) = e.
Proof. by destruct e. Qed.

Lemma put_at e pre c c' post i :
  env_valid e <> 0 -> env_data e = pre ++ c :: post -> i = length pre ->
  put_char e i c' = Ok (with_data e (pre ++ c' :: post)).
Proof.
  intros Hv He Hi. unfold put_char. rewrite env_area_valid, He by done.
  rewrite (res_bind_ok _ _ _ (arr_set_app_mid _ _ c' _ _ Hi)). by rewrite set_area_valid.
Qed.

Lemma put_chars_ok s : forall e pre d post i,
  env_valid e <> 0 -> env_data e = pre ++ d ++ post -> length d = length s -> i = length pre ->
  put_chars e i s = Ok (with_data e (pre ++ s ++ post)).
Proof.
  induction s as [|c s IH]; intros e pre d post i Hv He Hd Hi; cbn [put_chars].
  - destruct d; [|done]. simpl in *. rewrite <- He. by rewrite with_data_id.
  - destruct d as [|x d]; [done|]. rewrite (res_bind_ok _ _ _ (put_at e pre x c _ _ Hv He Hi)).
    rewrite (IH _ (pre ++ [c]) d post); try done.
    + unfold with_data. simpl. by rewrite <- app_assoc.
    + simpl. by rewrite <- app_assoc.
    + simpl in Hd. lia.
    + rewrite length_app. simpl. lia.
Qed.

(** ** Runs of entries: no two NULs in a row before the end *)

Fixpoint segs (s : list Z) : Prop :=
  match s with
  | [] => False
  | [c] => c = 0
  | c :: (d :: _) as s' => ~ (c = 0 /\ d = 0) /\ segs s'
  end.

Lemma segs_cstring s : cstring s -> segs (s ++ [0]).
Proof.
  induction s as [|c s IH]; intros Hs; [done|]. apply cstring_cons in Hs as [Hc Hs]. unfold nonzero_byte in Hc.
  specialize (IH Hs). destruct s; simpl in *; (split; [lia|done]).
Qed.

Lemma segs_app a b : segs a -> segs b -> deref b <> 0 -> segs (a ++ b).
Proof.
  intros Ha Hb Hd. induction a as [|c a IH]; [done|]. destruct a as [|d a].
  - simpl in Ha. subst. destruct b as [|x b]; [done|]. simpl in *. split; [lia|done].
  - destruct Ha as [Hcd Ha]. split; [done|]. by apply IH.
Qed.

Lemma segs_entry nv : good_entry nv -> segs (entry nv).
Proof.
  intros [[Hn _] Hv]. unfold entry. replace (fst nv ++ ch "=" :: snd nv ++ [0]) with ((fst nv ++ ch "=" :: snd nv) ++ [0]).
  - apply segs_cstring, cstring_app. split; [done|]. apply cstring_cons. split; [by vm_compute|done].
  - by rewrite <- app_assoc.
Qed.

Lemma deref_entries nv l : good_entry nv -> deref (entries (nv :: l)) <> 0.
Proof.
  intros Hg. destruct (entry_first nv (entries l) [] Hg) as (c & s & E & Hc & _).
  rewrite app_nil_r in E. change (entries (nv :: l)) with (entry nv ++ entries l). by rewrite E.
Qed.

Lemma segs_entries l : Forall good_entry l -> l <> [] -> segs (entries l).
Proof.
  induction l as [|nv l IH]; intros Hl Hne; [done|]. apply Forall_cons in Hl as [Hg Hl].
  change (entries (nv :: l)) with (entry nv ++ entries l). destruct l as [|nv' l].
  - simpl. rewrite app_nil_r. by apply segs_entry.
  - apply segs_app; [by apply segs_entry|by apply IH|]. apply deref_entries. by apply Forall_cons in Hl as [? _].
Qed.

Lemma find_end_ok e s post : env_valid e <> 0 -> forall fuel pre i,
  env_data e = pre ++ s ++ 0 :: post -> segs s -> i = length pre -> (length s < fuel)%nat ->
  find_end fuel e i = Ok (length pre + length s - 1)%nat.
Proof.
  intros Hv. induction s as [|c s IH]; intros fuel pre i He Hs Hi Hf; [done|].
  destruct fuel as [|fuel]; [simpl in Hf; lia|]. cbn [find_end].
  rewrite (res_bind_ok _ _ _ (get_at e pre c _ _ Hv He Hi)).
  assert (He' : env_data e = (pre ++ [c]) ++ s ++ 0 :: post) by (by rewrite He, <- app_assoc).
  assert (Hi' : (i + 1)%nat = length (pre ++ [c])) by (rewrite length_app; simpl; lia).
  destruct s as [|d s].
  - simpl in Hs. subst c. cbn. rewrite (res_bind_ok _ _ _ (get_at e (pre ++ [0]) 0 post _ Hv He' Hi')).
    cbn. f_equal. lia.
  - destruct Hs as [Hcd Hs].
    assert (Hrec : find_end fuel e (i + 1) = Ok (length pre + length (c :: d :: s) - 1)%nat).
    { rewrite (IH fuel (pre ++ [c])); try done; [|simpl in *; lia]. rewrite length_app. simpl. f_equal. lia. }
    destruct (Z.eqb_spec c 0); simpl negb; cbv iota; [|done].
    rewrite (res_bind_ok _ _ _ (get_at e (pre ++ [c]) d _ _ Hv He' Hi')).
    destruct (Z.eqb_spec d 0); [tauto|done].
Qed.

Lemma move_down_ok s post : forall fuel e pre d env nxt,
  env_valid e <> 0 -> env_data e = pre ++ d ++ s ++ 0 :: post -> segs s -> d <> [] ->
  env = length pre -> nxt = (length pre + length d)%nat -> (length s <= fuel)%nat ->
  exists d', length d' = length d /\
    move_down fuel e env nxt = Ok (with_data e (pre ++ s ++ d' ++ 0 :: post), (length pre + length s - 1)%nat).
Proof.
  induction s as [|c s IH]; intros fuel e pre d env nxt Hv He Hs Hd Henv Hnxt Hf; [done|].
  destruct fuel as [|fuel]; [simpl in Hf; lia|]. destruct d as [|x d]; [done|]. cbn [move_down].
  assert (He1 : env_data e = (pre ++ x :: d) ++ c :: (s ++ 0 :: post)) by (by rewrite He, <- app_assoc).
  rewrite (res_bind_ok _ _ _ (get_at e _ c _ nxt Hv He1 ltac:(rewrite length_app; simpl in *; lia))).
  assert (He2 : env_data e = pre ++ x :: (d ++ (c :: s) ++ 0 :: post)) by done.
  rewrite (res_bind_ok _ _ _ (put_at e pre x c _ _ Hv He2 Henv)).
  set (e1 := with_data e _).
  assert (He3 : env_data e1 = (pre ++ [c]) ++ (d ++ [c]) ++ s ++ 0 :: post).
  { unfold e1. simpl. by rewrite <- !app_assoc. }
  assert (He4 : env_data e1 = (pre ++ [c] ++ d ++ [c]) ++ s ++ 0 :: post).
  { rewrite He3. by rewrite <- !app_assoc. }
  assert (Hn1 : (nxt + 1)%nat = length (pre ++ [c] ++ d ++ [c])).
  { rewrite !length_app. simpl in *. lia. }
  destruct s as [|y s].
  - simpl in Hs. subst c. rewrite (res_bind_ok _ _ _ (get_at e1 _ 0 post _ Hv He4 Hn1)). simpl.
    exists (d ++ [0]). split; [rewrite length_app; simpl; lia|].
    unfold mret, res_ret. f_equal. f_equal; [|lia]. unfold e1. f_equal. by rewrite <- app_assoc.
  - destruct Hs as [Hcd Hs]. rewrite (res_bind_ok _ _ _ (get_at e1 _ y (s ++ 0 :: post) _ Hv He4 Hn1)).
    assert (E : (c =? 0) && (y =? 0) = false).
    { destruct (Z.eqb_spec c 0), (Z.eqb_spec y 0); simpl; try done. tauto. }
    rewrite E. destruct (IH fuel e1 (pre ++ [c]) (d ++ [c]) (env + 1)%nat (nxt + 1)%nat) as (d' & Hd' & Hm); try done.
    + by destruct d.
    + rewrite length_app. simpl. lia.
    + rewrite !length_app. simpl in *. lia.
    + simpl in *. lia.
    + exists d'. split; [rewrite Hd', length_app; simpl; lia|]. rewrite Hm. f_equal. f_equal.
      * unfold e1, with_data. simpl. by rewrite <- !app_assoc.
      * rewrite length_app. simpl. lia.
Qed.

Lemma entries_app l1 l2 : entries (l1 ++ l2) = entries l1 ++ entries l2.
Proof. apply flat_map_app. Qed.

Lemma entries_nonnil nv l : entries (nv :: l) <> [].
Proof. unfold entries, entry. simpl. by destruct (fst nv). Qed.

(** A non-empty run of entries ends with a NUL. *)
Lemma entries_last nv l : exists s, entries (nv :: l) = s ++ [0].
Proof.
  revert nv. induction l as [|nv' l IH]; intros nv.
  - exists (fst nv ++ ch "=" :: snd nv). unfold entries, entry. simpl. by rewrite app_nil_r, <- app_assoc.
  - destruct (IH nv') as [s Hs]. exists (entry nv ++ s). change (entries (nv :: nv' :: l)) with (entry nv ++ entries (nv' :: l)).
    by rewrite Hs, app_assoc.
Qed.

(** Deleting an entry in the middle, at the end, or the only one. *)
Lemma delete_entry_ok e l1 nv l2 post :
  env_valid e <> 0 -> Forall good_entry (l1 ++ nv :: l2) ->
  env_data e = entries (l1 ++ nv :: l2) ++ 0 :: post ->
  exists rest, delete_entry e (length (entries l1)) (length (entries l1) + length (entry nv) - 1) =
    Ok (with_data e (env_text (l1 ++ l2) ++ rest)) /\
    length (env_text (l1 ++ l2) ++ rest) = length (env_data e).
Proof.
  intros Hv Hl He. rewrite entries_app in He. change (entries (nv :: l2)) with (entry nv ++ entries l2) in He.
  assert (Hlen : (2 <= length (entry nv))%nat) by (unfold entry; rewrite length_app; simpl; rewrite length_app; simpl; lia).
  unfold delete_entry. set (nx := (_ - 1 + 1)%nat).
  assert (Hnx : nx = (length (entries l1) + length (entry nv))%nat) by (unfold nx; lia).
  destruct l2 as [|nv2 l2].
  - simpl in He. rewrite app_nil_r, <- app_assoc in He.
    assert (He1 : env_data e = (entries l1 ++ entry nv) ++ 0 :: post) by (by rewrite He, <- app_assoc).
    rewrite (res_bind_ok _ _ _ (get_at e _ 0 post nx Hv He1 ltac:(by rewrite length_app))). cbn [Z.eqb].
    rewrite app_nil_r. destruct (entry nv) as [|c0 [|c1 en]] eqn:Een; simpl in Hlen; try lia.
    destruct l1 as [|nv1 l1].
    + simpl. assert (Hp : put_char e 0 0 = Ok (with_data e (0 :: c1 :: en ++ 0 :: post))).
      { apply (put_at e [] c0 0 (c1 :: en ++ 0 :: post) 0 Hv He1 eq_refl). }
      rewrite (res_bind_ok _ _ _ Hp). cbn.
      exists (en ++ 0 :: post). split; [|by rewrite He].
      apply (put_at (with_data e (0 :: c1 :: en ++ 0 :: post)) [0] c1 0 (en ++ 0 :: post) 1 Hv eq_refl eq_refl).
    + destruct (entries_last nv1 l1) as [s Hs].
      destruct (Nat.ltb_spec 0 (length (entries (nv1 :: l1)))); [|rewrite Hs, length_app in *; simpl in *; lia].
      rewrite (res_bind_ok _ _ _ eq_refl). cbv beta iota.
      replace (length (entries (nv1 :: l1)) - 1 + 1)%nat with (length (entries (nv1 :: l1))) by lia.
      exists (c1 :: en ++ 0 :: post). split.
      * rewrite (put_at e (entries (nv1 :: l1)) c0 0 (c1 :: en ++ 0 :: post) _ Hv He eq_refl).
        f_equal. f_equal. cbn [env_text]. by rewrite <- app_assoc.
      * rewrite He. cbn [env_text]. rewrite !length_app. cbn [length]. rewrite ?length_app. cbn [length]. lia.
  - assert (Hseg : segs (entries (nv2 :: l2))).
    { apply segs_entries; [|done]. apply Forall_app in Hl as [_ Hl]. by apply Forall_cons in Hl as [_ Hl]. }
    assert (He1 : env_data e = entries l1 ++ entry nv ++ entries (nv2 :: l2) ++ 0 :: post) by (by rewrite He, <- !app_assoc).
    pose proof (deref_entries nv2 l2) as Hd0. destruct (entries (nv2 :: l2)) as [|c s] eqn:Es; [done|].
    assert (Hc : c <> 0).
    { apply Hd0. apply Forall_app in Hl as [_ Hl]. apply Forall_cons in Hl as [_ Hl]. by apply Forall_cons in Hl as [? _]. }
    assert (He2 : env_data e = (entries l1 ++ entry nv) ++ c :: (s ++ 0 :: post)) by (by rewrite He1, <- app_assoc).
    rewrite (res_bind_ok _ _ _ (get_at e _ c _ nx Hv He2 ltac:(by rewrite length_app))).
    destruct (Z.eqb_spec c 0); [done|].
    destruct (move_down_ok (c :: s) post (area_fuel e) e (entries l1) (entry nv) (length (entries l1)) nx) as (d' & Hd' & Hm);
      try done.
    { intros E. rewrite E in Hlen. simpl in Hlen. lia. }
    { rewrite He1 in *. unfold area_fuel. rewrite env_area_valid, He1, !length_app by done. lia. }
    rewrite (res_bind_ok _ _ _ Hm). cbv beta iota.
    destruct d' as [|x d']; [simpl in Hd'; lia|].
    assert (Hne : env_text (l1 ++ nv2 :: l2) = entries l1 ++ (c :: s) ++ [0]).
    { rewrite <- Es. replace (env_text (l1 ++ nv2 :: l2)) with (entries (l1 ++ nv2 :: l2) ++ [0]) by (by destruct l1).
      by rewrite entries_app, <- app_assoc. }
    exists (d' ++ 0 :: post). rewrite Hne. split.
    + rewrite (put_at _ (entries l1 ++ c :: s) x 0 (d' ++ 0 :: post)); try done.
      * unfold with_data. simpl. repeat first [rewrite <- app_assoc | progress simpl]. done.
      * simpl. repeat first [rewrite <- app_assoc | progress simpl]. done.
      * rewrite length_app. simpl. lia.
    + rewrite He1, !length_app. cbn [length] in *. rewrite ?length_app. cbn [length]. lia.
Qed.

Lemma search_old_ok e name post : env_valid e <> 0 -> good_name name -> forall l fuel l0 i nxt,
  env_data e = entries l0 ++ entries l ++ 0 :: post -> Forall good_entry l -> (length (entries l) < fuel)%nat ->
  i = length (entries l0) ->
  (env_lookup name l = None /\ exists a b, search_old fuel e name i nxt (-1) = Ok (a, b, -1)) \/
  exists l1 v l2 b oldval, l = l1 ++ (name, v) :: l2 /\ env_lookup name l1 = None /\ 0 <= oldval /\
    search_old fuel e name i nxt (-1) =
      Ok (length (entries (l0 ++ l1)), b, oldval) /\
    b = (length (entries (l0 ++ l1)) + length (entry (name, v)) - 1)%nat.
Proof.
  intros Hv Hn. induction l as [|[n v] l IH]; intros [|fuel] l0 i nxt He Hl Hf Hi; simpl in Hf; try lia.
  - left. split; [done|]. cbn [search_old]. rewrite (res_bind_ok _ _ _ (get_at e _ 0 post _ Hv He Hi)). by eexists _, _.
  - apply Forall_cons in Hl as [Hg Hl]. pose proof Hg as [Hgn Hgv]. simpl in Hgn, Hgv.
    destruct (entry_first (n, v) (entries l) (0 :: post) Hg) as (c & s & Ec & Hc & _).
    assert (Hget : env_get_char e i = Ok c).
    { apply (get_at e (entries l0) c s); try done. rewrite He. f_equal. rewrite <- Ec. simpl. by rewrite <- app_assoc. }
    cbn [search_old]. rewrite (res_bind_ok _ _ _ Hget). destruct (Z.eqb_spec c 0); [done|].
    change (entries ((n, v) :: l)) with (entry (n, v) ++ entries l) in He.
    pose proof He as He0. rewrite entry_split in He.
    pose proof (area_fuel_ge e _ _ _ Hv He) as Hfu.
    assert (Hs : cstring (n ++ ch "=" :: v)).
    { apply cstring_app. split; [apply Hgn|]. apply cstring_cons. split; [by vm_compute|done]. }
    assert (Hfu' : (length (n ++ ch "=" :: v) < area_fuel e)%nat) by lia.
    rewrite (res_bind_ok _ _ _ (scan_nul_ok e _ _ _ _ _ Hv He Hs Hi Hfu')).
    rewrite (res_bind_ok _ _ _ (envmatch_ok e v _ name n _ _ Hv He Hi Hn Hgn)).
    assert (Hel : length (entry (n, v)) = (length (n ++ ch "=" :: v) + 1)%nat).
    { unfold entry. rewrite !length_app. simpl. rewrite length_app. simpl. lia. }
    cbn [env_lookup]. destruct (decide (name = n)) as [->|Hne].
    + right. destruct (Z.leb_spec 0 (Z.of_nat (length (entries l0) + length n + 1))); [|lia].
      exists [], v, l. eexists _, _. split; [done|]. split; [done|]. split; [exact H|].
      rewrite app_nil_r. split; [by rewrite Hi|]. rewrite Hel. lia.
    + change (0 <=? -1) with false. cbv iota.
      assert (El : entries (l0 ++ [(n, v)]) = entries l0 ++ entry (n, v)).
      { rewrite entries_app. simpl. by rewrite app_nil_r. }
      destruct (IH fuel (l0 ++ [(n, v)]) (length (entries l0) + length (n ++ ch "=" :: v) + 1)%nat
                  (length (entries l0) + length (n ++ ch "=" :: v))%nat) as [[Hno Hr]|Hr]; try done.
      * rewrite He0, El. by rewrite <- !app_assoc.
      * rewrite length_app, Hel in Hf. lia.
      * rewrite El, (length_app (entries l0)), Hel. lia.
      * by left.
      * right. destruct Hr as (l1 & v' & l2 & b & oldval & -> & Hno & Ho & Hr & Hb).
        exists ((n, v) :: l1), v', l2, b, oldval. rewrite <- app_assoc in Hr, Hb. simpl in Hr, Hb.
        split; [done|]. split; [|done]. simpl. by rewrite decide_False.
Qed.

(** ** What setting a variable means *)

(** Without the definition of [name]. *)
Fixpoint env_remove (name : list Z) (l : list (list Z * list Z)) : list (list Z * list Z) :=
  match l with
  | [] => []
  | (n, v) :: l' => if decide (name = n) then l' else (n, v) :: env_remove name l'
  end.

(** The arguments joined by single spaces. *)
Definition join (vs : list (list Z)) : list Z :=
  match vs with [] => [] | v :: vs => v ++ flat_map (fun v => ch " " :: v) vs end.

(** A variable without a special meaning to [_do_setenv]. *)
Definition ordinary (env_overwrite : bool) (name : list Z) : Prop :=
  good_name name /\ name <> zs "stdin" /\ name <> zs "stdout" /\ name <> zs "stderr" /\ name <> zs "baudrate" /\
  (env_overwrite = true \/ name <> zs "serial#" /\ name <> zs "ethaddr").

Definition setenv_argv (name : list Z) (vs : list (list Z)) : list (option (list Z)) :=
  Some (zs "setenv") :: Some name :: map Some vs ++ [None].

Lemma env_remove_absent name l : env_lookup name l = None -> env_remove name l = l.
Proof.
  induction l as [|[n v] l IH]; simpl; [done|]. destruct (decide (name = n)); [done|]. intros H. by rewrite IH.
Qed.

Lemma env_remove_mid name l1 v l2 : env_lookup name l1 = None -> env_remove name (l1 ++ (name, v) :: l2) = l1 ++ l2.
Proof.
  induction l1 as [|[n v'] l1 IH]; simpl; intros H; [by rewrite decide_True|].
  destruct (decide (name = n)); [done|]. by rewrite IH.
Qed.

Lemma env_lookup_In name l : env_lookup name l = None <-> name ∉ map fst l.
Proof.
  induction l as [|[n v] l IH]; simpl; [split; [intros _; apply not_elem_of_nil|done]|].
  rewrite not_elem_of_cons. destruct (decide (name = n)); [split; [done|tauto]|]. rewrite IH. tauto.
Qed.

Lemma env_remove_sub name l nv : nv ∈ env_remove name l -> nv ∈ l.
Proof.
  induction l as [|[n v] l IH]; simpl; [done|]. destruct (decide (name = n)); [by right|].
  rewrite !elem_of_cons. intros [->|H]; [by left|right; by apply IH].
Qed.

Lemma env_remove_names name l :
  NoDup (map fst l) -> NoDup (map fst (env_remove name l)) /\ name ∉ map fst (env_remove name l).
Proof.
  induction l as [|[n v] l IH]; simpl; [intros _; split; [constructor|apply not_elem_of_nil]|].
  rewrite NoDup_cons. intros [Hn Hd]. destruct (decide (name = n)) as [->|Hne]; [by split|].
  destruct (IH Hd) as [H1 H2]. simpl. rewrite NoDup_cons, not_elem_of_cons. split_and!; try done.
  intros Hin. apply Hn. apply list_elem_of_fmap in Hin as (nv & -> & Hin). apply list_elem_of_fmap. exists nv.
  split; [done|]. by apply env_remove_sub in Hin.
Qed.

Lemma env_lookup_app name l1 l2 :
  env_lookup name (l1 ++ l2) = match env_lookup name l1 with Some v => Some v | None => env_lookup name l2 end.
Proof. induction l1 as [|[n v] l1 IH]; simpl; [done|]. by destruct (decide (name = n)). Qed.

Lemma env_lookup_remove_ne name other l : name <> other -> env_lookup other (env_remove name l) = env_lookup other l.
Proof.
  intros Hne. induction l as [|[n v] l IH]; simpl; [done|]. destruct (decide (name = n)) as [->|].
  - by rewrite decide_False by congruence.
  - simpl. by rewrite IH.
Qed.

Lemma env_remove_good name l : Forall good_entry l -> Forall good_entry (env_remove name l).
Proof. rewrite !Forall_forall. intros H nv Hin. apply H. by apply env_remove_sub in Hin. Qed.

Lemma str_eq_false a b : a <> b -> str_eq a b = false.
Proof. intros. unfold str_eq. by rewrite bool_decide_eq_false_2. Qed.

Lemma join_cstring vs : Forall cstring vs -> cstring (join vs).
Proof.
  destruct vs as [|v vs]; intros Hvs; [constructor|]. apply Forall_cons in Hvs as [Hv Hvs]. cbn [join].
  apply cstring_app. split; [done|]. induction Hvs as [|w ws Hw Hws IH]; [constructor|]. cbn [flat_map app].
  apply cstring_cons. split; [by vm_compute|]. apply cstring_app. by split.
Qed.

Section SetenvProofs.
Context (console_assign : Z -> list Z -> Z) (env_overwrite : bool) (baudrate_table : list Z).

(** Searching for a definition and deleting it leaves the other ones. *)
Lemma search_delete e l name argv :
  env_repr e l -> ordinary env_overwrite name ->
  exists a b o rest, search_old (area_fuel e) e name 0 0 (-1) = Ok (a, b, o) /\
    (if 0 <=? o then replace_old env_overwrite baudrate_table e name argv a b else mret (0, e)) =
      Ok (0, with_data e (env_text (env_remove name l) ++ rest)) /\
    length (env_text (env_remove name l) ++ rest) = length (env_data e).
Proof.
  intros Hr (Hn & _ & _ & _ & Hb & How). destruct (env_repr_text e l Hr) as [post He].
  destruct Hr as (Hv & Hg & Hd & rest & Her).
  destruct (search_old_ok e name post Hv Hn l (area_fuel e) [] 0 0) as [[Hno (a & b & E)]|H]; try done.
  { pose proof (area_fuel_ge e [] (entries l) (0 :: post) Hv He). simpl in *. lia. }
  - exists a, b, (-1), rest. rewrite env_remove_absent by done. rewrite <- Her, with_data_id. by split_and!.
  - destruct H as (l1 & v & l2 & b & o & -> & Hno & Ho & E & Hbe). simpl in E, Hbe.
    exists (length (entries l1)), b, o. rewrite env_remove_mid by done.
    destruct (delete_entry_ok e l1 (name, v) l2 post Hv Hg He) as (rest' & Hdel & Hlen). exists rest'.
    split_and!; try done. destruct (Z.leb_spec 0 o); [|lia]. unfold replace_old.
    assert (Hpol : negb env_overwrite && (str_eq name (zs "serial#") || str_eq name (zs "ethaddr")) = false).
    { destruct How as [->|[? ?]]; [done|]. rewrite !str_eq_false by done. apply andb_false_r. }
    rewrite Hpol, str_eq_false by done. rewrite (res_bind_ok _ _ _ eq_refl). cbv beta iota. cbn [Z.eqb negb].
    rewrite Hbe, (res_bind_ok _ _ _ Hdel). done.
Qed.

Lemma values_ok vs tl : values (length vs) (map Some vs ++ tl) = Ok vs.
Proof. induction vs as [|v vs IH]; [done|]. cbn [length map app values]. by rewrite (res_bind_ok _ _ _ IH). Qed.

Lemma value_text_join v vs : value_text (v :: vs) = ch "=" :: join (v :: vs).
Proof. done. Qed.

Lemma value_text_length vs : length (value_text vs) = list_sum (map (fun v => length v + 1)%nat vs).
Proof.
  destruct vs as [|v vs]; [done|]. simpl. rewrite length_app.
  assert (E : length (flat_map (fun v => ch " " :: v) vs) = list_sum (map (fun v => length v + 1)%nat vs)).
  { induction vs as [|w vs IH]; simpl; [done|]. rewrite length_app, IH. lia. }
  rewrite E. lia.
Qed.

Lemma entries_snoc l nv : entries (l ++ [nv]) = entries l ++ entry nv.
Proof. rewrite entries_app. simpl. by rewrite app_nil_r. Qed.

Lemma env_text_snoc l nv : env_text (l ++ [nv]) = entries (l ++ [nv]) ++ [0].
Proof. destruct l; done. Qed.

(** The end of a list of entries, adjusted as the code does. *)
Lemma append_position e l :
  env_repr e l ->
  exists k, find_end (area_fuel e) e 0 = Ok k /\ (if (0 <? k)%nat then (k + 1)%nat else k) = length (entries l).
Proof.
  intros Hr. destruct (env_repr_text e l Hr) as [post He]. destruct Hr as (Hv & Hg & _ & rest & Her).
  destruct l as [|nv l].
  - exists 0%nat. split; [|done]. unfold area_fuel. cbn [find_end].
    rewrite (res_bind_ok _ _ _ (get_at e [] 0 (0 :: rest) 0 Hv Her eq_refl)). cbn.
    by rewrite (res_bind_ok _ _ _ (get_at e [0] 0 rest 1 Hv Her eq_refl)).
  - pose proof (area_fuel_ge e [] _ _ Hv He) as Hf. cbn [length] in Hf.
    rewrite (find_end_ok e (entries (nv :: l)) post Hv (area_fuel e) [] 0 He) by (done || lia || by apply segs_entries).
    eexists. split; [done|]. cbn [length].
    assert (Hlen : (2 <= length (entries (nv :: l)))%nat).
    { change (entries (nv :: l)) with (entry nv ++ entries l). unfold entry. rewrite !length_app. cbn [length].
      rewrite length_app. cbn [length]. lia. }
    destruct (Nat.ltb_spec 0 (0 + length (entries (nv :: l)) - 1)); lia.
Qed.

Lemma entries_le_data e l : env_repr e l -> (length (entries l) <= length (env_data e))%nat.
Proof. intros Hr. destruct (env_repr_text e l Hr) as [post ->]. rewrite length_app. lia. Qed.

Lemma append_entry_ok e l name v vs :
  env_repr e l ->
  (length (entries l) + (length name + length (value_text (v :: vs)) + 2) <= length (env_data e))%nat ->
  exists rest, append_entry e (length (entries l)) name (v :: vs) =
      Ok (with_data e (env_text (l ++ [(name, join (v :: vs))]) ++ rest)) /\
    length (env_text (l ++ [(name, join (v :: vs))]) ++ rest) = length (env_data e).
Proof.
  intros Hr Hlen. destruct (env_repr_text e l Hr) as [post He]. destruct Hr as (Hv & _).
  set (s := name ++ value_text (v :: vs) ++ [0; 0]).
  assert (Hs : length s = (length name + length (value_text (v :: vs)) + 2)%nat).
  { unfold s. rewrite !length_app. simpl length at 3. lia. }
  set (tail := 0 :: post) in *.
  assert (Ht : (length s <= length tail)%nat) by (rewrite He, length_app in Hlen; lia).
  exists (drop (length s) tail). rewrite <- (take_drop (length s) tail) in He.
  assert (Hps : append_entry e (length (entries l)) name (v :: vs) =
    Ok (with_data e (entries l ++ s ++ drop (length s) tail))).
  { unfold append_entry. fold s. apply (put_chars_ok s e (entries l) _ _ _ Hv He); [|done]. rewrite length_take. lia. }
  assert (Es : env_text (l ++ [(name, join (v :: vs))]) = entries l ++ s).
  { rewrite env_text_snoc, entries_snoc, <- app_assoc. f_equal. unfold s, entry. rewrite value_text_join.
    set (j := join (v :: vs)). clearbody j. cbn [fst snd]. by repeat (rewrite <- app_assoc; cbn [app]). }
  rewrite Hps, Es, <- app_assoc. split; [done|]. rewrite He, !length_app, length_take. lia.
Qed.

Definition joined_length (name : list Z) (vs : list (list Z)) : nat :=
  (length name + 2 + list_sum (map (fun v => length v + 1) vs))%nat.

Lemma redirect_ordinary name argc argv :
  ordinary env_overwrite name -> redirect_console console_assign name argc argv = Ok None.
Proof. intros (_ & H1 & H2 & H3 & _). unfold redirect_console. by rewrite !str_eq_false by done. Qed.

Lemma update_copies_frame e name v :
  env_data (update_copies e name v) = env_data e /\ crc (update_copies e name v) = crc e /\
  env_ptr (update_copies e name v) = env_ptr e /\ env_valid (update_copies e name v) = env_valid e.
Proof. unfold update_copies. repeat case_match; done. Qed.

Lemma env_repr_data e l rest d :
  env_valid e <> 0 -> Forall good_entry l -> NoDup (map fst l) -> d = env_text l ++ rest -> env_repr (with_data e d) l.
Proof. intros Hv Hg Hd ->. split_and!; try done. by exists rest. Qed.

(** Both ways of calling [_do_setenv] on an ordinary variable. *)
Lemma do_setenv_values e l name v vs :
  env_repr e l -> ordinary env_overwrite name -> Forall cstring (v :: vs) ->
  let l' := env_remove name l in
  let l2 := l' ++ [(name, join (v :: vs))] in
  exists r e', _do_setenv console_assign env_overwrite baudrate_table e (2 + length (v :: vs))
                 (setenv_argv name (v :: vs)) = Ok (r, e') /\
    length (env_data e') = length (env_data e) /\
    ((length (env_text l2) <= length (env_data e))%nat /\ r = 0 /\ env_repr e' l2 /\
       crc e' = crc32 0 (env_ptr e + 4) (env_data e') \/
     (length (env_data e) < length (env_text l2))%nat /\ r = 1 /\ env_repr e' l' /\ crc e' = crc e).
Proof.
  intros Hr Ho Hvs l' l2. pose proof Ho as (Hn & _). pose proof Hr as (Hv & Hg & Hd & _).
  set (e0 := with_id e (s32 (env_id e + 1))).
  assert (Hr0 : env_repr e0 l) by exact Hr.
  destruct (search_delete e0 l name (setenv_argv name (v :: vs)) Hr0 Ho) as (a & b & o & rest & Hsearch & Hrep & Hlen).
  set (e1 := with_data e0 (env_text (env_remove name l) ++ rest)) in *.
  destruct (env_remove_names name l Hd) as [Hd' Hni].
  assert (Hr1 : env_repr e1 l') by (eapply env_repr_data; [done|by apply env_remove_good|done|done]).
  destruct (append_position e1 l' Hr1) as (k & Hk & Hpos).
  assert (Hl2 : length (env_text l2) = (length (entries l') + joined_length name (v :: vs))%nat).
  { unfold l2. rewrite env_text_snoc, entries_snoc, !length_app. unfold entry, joined_length. cbn [fst snd].
    rewrite <- value_text_length. rewrite value_text_join. rewrite !length_app. cbn [length]. rewrite length_app. cbn [length]. lia. }
  assert (Hld : length (env_data e1) = length (env_data e)) by exact Hlen.
  assert (Hgoal : exists r e', (if (length (env_area e1) - length (entries l') <? joined_length name (v :: vs))%nat then mret (1, e1)
      else e ← append_entry e1 (length (entries l')) name (v :: vs);
           let e := env_crc_update e in mret (0, update_copies e name v)) = Ok (r, e') /\
    length (env_data e') = length (env_data e) /\
    ((length (env_text l2) <= length (env_data e))%nat /\ r = 0 /\ env_repr e' l2 /\
       crc e' = crc32 0 (env_ptr e + 4) (env_data e') \/
     (length (env_data e) < length (env_text l2))%nat /\ r = 1 /\ env_repr e' l' /\ crc e' = crc e)).
  { rewrite env_area_valid, Hld by done. pose proof (entries_le_data e1 l' Hr1) as Hle. rewrite Hld in Hle.
    destruct (Nat.ltb_spec (length (env_data e) - length (entries l')) (joined_length name (v :: vs))).
    - exists 1, e1. split; [done|]. split; [done|]. right. split; [lia|]. by split_and!.
    - destruct (append_entry_ok e1 l' name v vs Hr1) as (rest' & Happ & Hlen').
      { rewrite value_text_length, Hld. unfold joined_length in *. lia. }
      rewrite (res_bind_ok _ _ _ Happ). cbv zeta. eexists _, _. split; [done|].
      set (e2 := env_crc_update _). destruct (update_copies_frame e2 name v) as (F1 & F2 & F3 & F4).
      rewrite F1. change (env_data e2) with (env_text l2 ++ rest'). split; [exact (eq_trans Hlen' Hld)|].
      left. split; [lia|]. split; [done|]. split.
      + unfold env_repr. rewrite F1, F4. split; [done|]. split.
        { apply Forall_app. split; [by apply env_remove_good|]. constructor; [|constructor]. split; [done|]. cbn [snd].
          by apply join_cstring. }
        split; [|by exists rest']. unfold l2. rewrite map_app. apply NoDup_app. split_and!; [done| |apply NoDup_singleton].
        intros x Hx Hin%list_elem_of_singleton. subst x. done.
      + rewrite F2. done. }
  destruct Hgoal as (r & e' & Hg1 & Hg2). exists r, e'. split; [|exact Hg2].
  unfold _do_setenv, argv_get, setenv_argv. cbn [arr_get of_option lookup list_lookup].
  change (arr_get (Some (zs "setenv") :: Some name :: map Some (v :: vs) ++ [None]) 1) with (Ok (Some name)).
  rewrite (res_bind_ok (Ok (Some name)) _ _ eq_refl). cbv beta iota.
  rewrite bool_decide_eq_false_2 by apply Hn. fold e0. cbv zeta. rewrite (res_bind_ok _ _ _ Hsearch). cbv beta iota.
  rewrite (res_bind_ok _ _ _ (redirect_ordinary name _ _ Ho)). cbv beta iota.
  rewrite (res_bind_ok _ _ _ Hrep). cbv beta iota. cbn [Z.eqb negb].
  change (2 + length (v :: vs) <? 3)%nat with false. cbv iota.
  change (arr_get (Some (zs "setenv") :: Some name :: map Some (v :: vs) ++ [None]) 2) with (Ok (Some v)).
  rewrite (res_bind_ok (v0 ← Ok (Some v); _) _ false eq_refl). cbv iota.
  rewrite (res_bind_ok _ _ _ Hk). cbv beta zeta. rewrite Hpos.
  replace (2 + length (v :: vs) - 2)%nat with (length (v :: vs)) by lia.
  change (drop 2 (Some (zs "setenv") :: Some name :: map Some (v :: vs) ++ [None])) with (map Some (v :: vs) ++ [None]).
  rewrite (res_bind_ok _ _ _ (values_ok (v :: vs) [None])). exact Hg1.
Qed.

Lemma do_setenv_delete e l name tl :
  env_repr e l -> ordinary env_overwrite name ->
  exists e', _do_setenv console_assign env_overwrite baudrate_table e 2 (Some (zs "setenv") :: Some name :: tl) = Ok (0, e') /\
    length (env_data e') = length (env_data e) /\ env_repr e' (env_remove name l) /\
    crc e' = crc32 0 (env_ptr e + 4) (env_data e').
Proof.
  intros Hr Ho. pose proof Ho as (Hn & _). pose proof Hr as (Hv & Hg & Hd & _).
  set (e0 := with_id e (s32 (env_id e + 1))). assert (Hr0 : env_repr e0 l) by exact Hr.
  destruct (search_delete e0 l name (Some (zs "setenv") :: Some name :: tl) Hr0 Ho) as (a & b & o & rest & Hsearch & Hrep & Hlen).
  destruct (env_remove_names name l Hd) as [Hd' Hni].
  eexists. split; [|split_and!].
  - unfold _do_setenv, argv_get.
    change (arr_get (Some (zs "setenv") :: Some name :: tl) 1) with (Ok (Some name)).
    rewrite (res_bind_ok (Ok (Some name)) _ _ eq_refl). cbv beta iota.
    rewrite bool_decide_eq_false_2 by apply Hn. fold e0. cbv zeta. rewrite (res_bind_ok _ _ _ Hsearch). cbv beta iota.
    rewrite (res_bind_ok _ _ _ (redirect_ordinary name _ _ Ho)). cbv beta iota.
    rewrite (res_bind_ok _ _ _ Hrep). cbv beta iota. cbn [Z.eqb negb]. reflexivity.
  - exact Hlen.
  - unfold env_repr. split_and!; [done|by apply env_remove_good|done|by exists rest].
  - done.
Qed.

End SetenvProofs.

(** ** The properties *)

(** What [getenv] answers for [name] in a state that stands for [l]. *)
Definition getenv_gives (e : env_state) (name : list Z) (v : option (list Z)) : Prop :=
  match v with
  | None => getenv e name = Ok None
  | Some v => exists i, getenv e name = Ok (Some i) /\ string_at e i v
  end.

Lemma getenv_gives_ok e l name : env_repr e l -> good_name name -> getenv_gives e name (env_lookup name l).
Proof. apply getenv_ok. Qed.

(** C32: [getenv] finds exactly the variables of the environment, with their values. *)
Theorem getenv_correct e l name :
  env_repr e l -> good_name name ->
  (forall v, env_lookup name l = Some v -> exists i, getenv e name = Ok (Some i) /\ string_at e i v) /\
  (env_lookup name l = None -> getenv e name = Ok None).
Proof.
  intros Hr Hn. pose proof (getenv_ok e l name Hr Hn) as H. split; [intros v E|intros E]; by rewrite E in H.
Qed.

(** C5: Setting a variable: if the new environment fits it is stored exactly, with
    its checksum, [getenv] then gives the joined arguments for this name and the
    old values for all others; otherwise the call fails, the old definition
    of this one variable is gone and the checksum is left as it was. *)
Theorem setenv_correct console_assign env_overwrite baudrate_table e l name v vs :
  env_repr e l -> ordinary env_overwrite name -> Forall cstring (v :: vs) ->
  let l2 := env_remove name l ++ [(name, join (v :: vs))] in
  exists r e', _do_setenv console_assign env_overwrite baudrate_table e (2 + length (v :: vs))
                 (setenv_argv name (v :: vs)) = Ok (r, e') /\
    length (env_data e') = length (env_data e) /\
    (r = 0 <-> (length (env_text l2) <= length (env_data e))%nat) /\
    (r = 0 -> env_repr e' l2 /\ crc e' = crc32 0 (env_ptr e + 4) (env_data e') /\
       getenv_gives e' name (Some (join (v :: vs)))) /\
    (r <> 0 -> r = 1 /\ crc e' = crc e /\ getenv_gives e' name None) /\
    (forall other, good_name other -> other <> name -> getenv_gives e' other (env_lookup other l)).
Proof.
  intros Hr Ho Hvs l2. pose proof Ho as [Hn _]. destruct Hr as (Hv & Hg & Hd & Hrest).
  assert (Hr : env_repr e l) by done. destruct (env_remove_names name l Hd) as [_ Hni]. apply env_lookup_In in Hni.
  destruct (do_setenv_values console_assign env_overwrite baudrate_table e l name v vs Hr Ho Hvs)
    as (r & e' & E & Hlen & Hcase).
  exists r, e'. split; [done|]. split; [done|]. fold l2 in Hcase.
  destruct Hcase as [(Hfit & -> & Hr' & Hcrc)|(Hfit & -> & Hr' & Hcrc)].
  - split; [done|]. split; [|split; [done|]].
    + intros _. split; [done|]. split; [done|]. pose proof (getenv_gives_ok e' l2 name Hr' Hn) as H.
      unfold l2 in H. rewrite env_lookup_app, Hni in H. cbn [env_lookup] in H. by rewrite decide_True in H.
    + intros other Hg' Hne. pose proof (getenv_gives_ok e' l2 other Hr' Hg') as H.
      unfold l2 in H. rewrite env_lookup_app, env_lookup_remove_ne in H by congruence. cbn [env_lookup] in H.
      rewrite decide_False in H by done. by destruct (env_lookup other l).
  - split; [split; [done|lia]|]. split; [done|]. split.
    + intros _. do 2 (split; [done|]). pose proof (getenv_gives_ok e' _ name Hr' Hn) as H. by rewrite Hni in H.
    + intros other Hg' Hne. pose proof (getenv_gives_ok e' _ other Hr' Hg') as H.
      by rewrite env_lookup_remove_ne in H by congruence.
Qed.

(** Deleting a variable removes it, keeps all others, and updates the checksum. *)
Theorem setenv_delete_correct console_assign env_overwrite baudrate_table e l name :
  env_repr e l -> ordinary env_overwrite name ->
  exists e', setenv console_assign env_overwrite baudrate_table e name None = Ok (0, e') /\
    length (env_data e') = length (env_data e) /\ env_repr e' (env_remove name l) /\
    crc e' = crc32 0 (env_ptr e + 4) (env_data e') /\ getenv_gives e' name None /\
    (forall other, good_name other -> other <> name -> getenv_gives e' other (env_lookup other l)).
Proof.
  intros Hr Ho. pose proof Ho as [Hn _]. pose proof Hr as (_ & _ & Hd & _).
  destruct (env_remove_names name l Hd) as [_ Hni]. apply env_lookup_In in Hni.
  destruct (do_setenv_delete console_assign env_overwrite baudrate_table e l name [None; None] Hr Ho)
    as (e' & E & Hlen & Hr' & Hcrc).
  exists e'. split_and!; try done.
  - pose proof (getenv_gives_ok e' _ name Hr' Hn) as H. by rewrite Hni in H.
  - intros other Hg' Hne. pose proof (getenv_gives_ok e' _ other Hr' Hg') as H.
    by rewrite env_lookup_remove_ne in H by congruence.
Qed.

(** ** getenv_r *)

Lemma getenv_r_copy_ok e len v post : forall fuel pre n buf,
  env_valid e <> 0 -> env_data e = pre ++ v ++ 0 :: post -> cstring v -> (length v < fuel)%nat -> 0 <= n ->
  getenv_r_copy fuel e len n (length pre) buf =
    Ok (if len - n <=? Z.of_nat (length v) then (Z.max n len + 1, buf ++ take (Z.to_nat (len - n)) v)
        else (n + Z.of_nat (length v) + 1, buf ++ v ++ [0])).
Proof.
  induction v as [|c v IH]; intros [|fuel] pre n buf Hv He Hc Hf Hn; simpl in Hf; try lia; cbn [getenv_r_copy].
  - destruct (Z.ltb_spec n len).
    + rewrite (res_bind_ok _ _ _ (get_at e pre 0 post _ Hv He eq_refl)). cbn [Z.eqb length].
      destruct (Z.leb_spec (len - n) (Z.of_nat 0)); [lia|]. cbn. do 2 f_equal. lia.
    + cbn [length]. destruct (Z.leb_spec (len - n) (Z.of_nat 0)); [|lia]. rewrite take_nil, app_nil_r.
      cbn. do 2 f_equal. lia.
  - apply cstring_cons in Hc as [Hx Hc]. unfold nonzero_byte in Hx. destruct (Z.ltb_spec n len).
    + rewrite (res_bind_ok _ _ _ (get_at e pre c _ _ Hv He eq_refl)). destruct (Z.eqb_spec c 0); [lia|].
      replace (length pre + 1)%nat with (length (pre ++ [c])) by (rewrite length_app; simpl; lia).
      rewrite IH; try done; [|by rewrite <- app_assoc|lia|lia]. cbn [length].
      replace (len - (n + 1)) with (len - n - 1) by lia.
      destruct (Z.leb_spec (len - n - 1) (Z.of_nat (length v))), (Z.leb_spec (len - n) (Z.of_nat (S (length v)))); try lia.
      * replace (Z.to_nat (len - n)) with (S (Z.to_nat (len - n - 1))) by lia. cbn [take].
        rewrite <- app_assoc. cbn [app]. do 3 f_equal. lia.
      * rewrite <- app_assoc. cbn [app]. do 3 f_equal. lia.
    + destruct (Z.leb_spec (len - n) (Z.of_nat (length (c :: v)))); [|lia].
      rewrite (Z2Nat.nonpos (len - n)) by lia. cbn [take]. rewrite app_nil_r. cbn. do 2 f_equal. lia.
Qed.

Lemma getenv_r_loop_ok e name len post : env_valid e <> 0 -> good_name name -> 0 <= len -> forall l fuel pre,
  env_data e = pre ++ entries l ++ 0 :: post -> Forall good_entry l -> (length (entries l) < fuel)%nat ->
  getenv_r_loop fuel e name len (length pre) =
    Ok (match env_lookup name l with
        | None => (-1, [])
        | Some v =>
            let n := Z.of_nat (length v) in
            if len <=? n then (len + 1, take (Z.to_nat len) v)
            else (n + 1, if len =? n + 1 then v ++ [0; 0] else v ++ [0])
        end).
Proof.
  intros Hv Hn Hlen0. induction l as [|[n v] l IH]; intros [|fuel] pre He Hl Hf; simpl in Hf; try lia.
  - simpl. rewrite (res_bind_ok _ _ _ (get_at _ _ _ _ _ Hv He eq_refl)). done.
  - apply Forall_cons in Hl as [Hg Hl]. pose proof Hg as [Hgn Hgv]. simpl in Hgn, Hgv.
    destruct (entry_first (n, v) (entries l) (0 :: post) Hg) as (c & s & Ec & Hc & _).
    assert (Hget : env_get_char e (length pre) = Ok c).
    { apply (get_at e pre c s); try done. rewrite He. f_equal. rewrite <- Ec. simpl. by rewrite <- app_assoc. }
    cbn [getenv_r_loop env_lookup]. rewrite (res_bind_ok _ _ _ Hget). destruct (Z.eqb_spec c 0); [done|].
    change (entries ((n, v) :: l)) with (entry (n, v) ++ entries l) in He. rewrite entry_split in He.
    pose proof (area_fuel_ge e _ _ _ Hv He) as Hfu.
    assert (Hfu' : (length (n ++ ch "=" :: v) < area_fuel e)%nat) by lia.
    assert (Hs : cstring (n ++ ch "=" :: v)).
    { apply cstring_app. split; [apply Hgn|]. apply cstring_cons. split; [by vm_compute|done]. }
    assert (Hlen : (length pre + length (n ++ ch "=" :: v) < CONFIG_ENV_SIZE e)%nat).
    { unfold CONFIG_ENV_SIZE. rewrite He, !length_app. simpl. lia. }
    rewrite (res_bind_ok _ _ _ (find_nul_ok e _ _ _ _ pre _ Hv He Hs eq_refl Hfu' Hlen)).
    rewrite (res_bind_ok _ _ _ (envmatch_ok e v _ name n pre _ Hv He eq_refl Hn Hgn)).
    destruct (decide (name = n)) as [->|Hne].
    + destruct (Z.ltb_spec (Z.of_nat (length pre + length n + 1)) 0); [lia|]. rewrite Nat2Z.id.
      assert (Hev : env_data e = (pre ++ n ++ [ch "="]) ++ v ++ 0 :: entries l ++ 0 :: post)
        by (rewrite He, <- !app_assoc; done).
      replace (length pre + length n + 1)%nat with (length (pre ++ n ++ [ch "="])) by (rewrite !length_app; simpl; lia).
      assert (Hfv : (length v < area_fuel e)%nat) by (rewrite length_app in Hfu'; simpl in Hfu'; lia).
      rewrite (res_bind_ok _ _ _ (getenv_r_copy_ok e len v _ _ _ 0 [] Hv Hev Hgv Hfv ltac:(lia))).
      rewrite Z.sub_0_r, Z.add_0_l. cbn [app]. destruct (Z.leb_spec len (Z.of_nat (length v))).
      * destruct (Z.eqb_spec len (Z.max 0 len + 1)); [lia|]. cbn. do 2 f_equal. lia.
      * destruct (Z.eqb_spec len (Z.of_nat (length v) + 1)); [|done]. by rewrite <- app_assoc.
    + change (-1 <? 0) with true. cbv iota.
      replace (length pre + length (n ++ ch "=" :: v) + 1)%nat with (length (pre ++ entry (n, v))).
      2: { unfold entry. rewrite !length_app. simpl. rewrite !length_app. simpl. lia. }
      apply IH; [|done|].
      * rewrite He. unfold entry. simpl. by rewrite <- !app_assoc, <- !app_comm_cons, <- app_assoc.
      * rewrite length_app in Hf. unfold entry in Hf. rewrite !length_app in Hf. simpl in Hf. lia.
Qed.

(** [getenv_r] on a buffer of [len] bytes: a value with room to spare is copied
    with its NUL.  A value that fills the buffer exactly makes it store one NUL
    more, behind the buffer; a longer one is cut without any NUL. *)
Theorem getenv_r_correct e l name len v :
  env_repr e l -> good_name name -> 0 <= len -> env_lookup name l = Some v ->
  (Z.of_nat (length v) + 1 < len -> getenv_r e name len = Ok (Z.of_nat (length v) + 1, v ++ [0])) /\
  (Z.of_nat (length v) + 1 = len -> exists stored, getenv_r e name len = Ok (len, stored) /\
     Z.of_nat (length stored) = len + 1) /\
  (len <= Z.of_nat (length v) -> getenv_r e name len = Ok (len + 1, take (Z.to_nat len) v)).
Proof.
  intros Hr Hn Hlen Hlook. destruct (env_repr_text e l Hr) as [post He]. destruct Hr as (Hv & Hg & _).
  assert (H : getenv_r e name len = Ok (let n := Z.of_nat (length v) in
            if len <=? n then (len + 1, take (Z.to_nat len) v)
            else (n + 1, if len =? n + 1 then v ++ [0; 0] else v ++ [0]))).
  { pose proof (getenv_r_loop_ok e name len post Hv Hn Hlen l (area_fuel e) [] He Hg) as H. rewrite Hlook in H.
    apply H. pose proof (area_fuel_ge e [] (entries l) (0 :: post) Hv He). simpl in *. lia. }
  rewrite H. cbv zeta. destruct (Z.leb_spec len (Z.of_nat (length v))); split_and!; intros Hc; try lia; try done.
  - destruct (Z.eqb_spec len (Z.of_nat (length v) + 1)); [lia|done].
  - destruct (Z.eqb_spec len (Z.of_nat (length v) + 1)); [|lia]. eexists. split; [by rewrite <- e0 at 1|].
    rewrite length_app. simpl. lia.
Qed.

(** Deleting "baudrate" while it is set dereferences the missing value. *)
Theorem setenv_delete_baudrate_faults console_assign env_overwrite baudrate_table e l v :
  env_repr e l -> env_lookup (zs "baudrate") l = Some v ->
  setenv console_assign env_overwrite baudrate_table e (zs "baudrate") None = Fault.
Proof.
  intros Hr Hlook. set (e0 := with_id e (s32 (env_id e + 1))). assert (Hr0 : env_repr e0 l) by exact Hr.
  destruct (env_repr_text e0 l Hr0) as [post He]. destruct Hr0 as (Hv & Hg & _).
  assert (Hn : good_name (zs "baudrate")) by (split; apply (bool_decide_unpack _); vm_compute; exact I).
  destruct (search_old_ok e0 (zs "baudrate") post Hv Hn l (area_fuel e0) [] 0 0) as [[Hno _]|H]; try done.
  { pose proof (area_fuel_ge e0 [] (entries l) (0 :: post) Hv He). simpl in *. lia. }
  { congruence. }
  destruct H as (l1 & v' & l2 & b & o & -> & Hno & Ho & E & Hbe).
  unfold setenv, _do_setenv, argv_get.
  change (arr_get [Some (zs "setenv"); Some (zs "baudrate"); None; None] 1) with (Ok (Some (zs "baudrate"))).
  rewrite (res_bind_ok (Ok (Some (zs "baudrate"))) _ _ eq_refl). cbv beta iota.
  rewrite bool_decide_eq_false_2 by apply Hn. fold e0. cbv zeta. rewrite (res_bind_ok _ _ _ E). cbv beta iota.
  assert (Hrc : redirect_console console_assign (zs "baudrate") 2 [Some (zs "setenv"); Some (zs "baudrate"); None; None]
    = Ok None) by reflexivity.
  rewrite (res_bind_ok _ _ _ Hrc). cbv beta iota.
  destruct (Z.leb_spec 0 o); [|lia]. unfold replace_old.
  rewrite (str_eq_false (zs "baudrate") (zs "serial#")), (str_eq_false (zs "baudrate") (zs "ethaddr")) by (by vm_compute).
  rewrite andb_false_r. reflexivity.
Qed.

(** ** Completion and printing *)

Definition has_prefix (var n : list Z) : bool := bool_decide (take (length var) n = var).

(** The names that start with [var], in the order of the environment. *)
Definition matching (var : list Z) (l : list (list Z * list Z)) : list (list Z) :=
  List.filter (has_prefix var) (map fst l).

Definition buffer_need (names : list (list Z)) : Z := Z.of_nat (list_sum (map (fun n => length n + 1)%nat names)).

Lemma name_part_entry n v : ch "=" ∉ n -> name_part (n ++ ch "=" :: v) = n.
Proof.
  induction n as [|c n IH]; intros H; cbn [name_part app]; [by rewrite Z.eqb_refl|].
  apply not_elem_of_cons in H as [H1 H2]. destruct (Z.eqb_spec c (ch "=")); [congruence|]. by rewrite IH.
Qed.

Lemma entry_text_ok e s post : forall fuel pre i,
  env_valid e <> 0 -> env_data e = pre ++ s ++ 0 :: post -> cstring s -> i = length pre -> (length s < fuel)%nat ->
  entry_text fuel e i = Ok (s, (length pre + length s + 1)%nat).
Proof.
  induction s as [|c s IH]; intros [|fuel] pre i Hv He Hs Hi Hf; simpl in Hf; try lia; cbn [entry_text].
  - rewrite (res_bind_ok _ _ _ (get_at _ _ _ _ _ Hv He Hi)). simpl. rewrite Hi. do 2 f_equal. lia.
  - rewrite (res_bind_ok _ _ _ (get_at _ _ _ _ _ Hv He Hi)). apply cstring_cons in Hs as [Hc Hs].
    unfold nonzero_byte in Hc. destruct (Z.eqb_spec c 0); [lia|].
    assert (E : entry_text fuel e (i + 1) = Ok (s, (length (pre ++ [c]) + length s + 1)%nat)).
    { apply IH; try done; [by rewrite <- app_assoc|rewrite length_app; simpl; lia|lia]. }
    rewrite (res_bind_ok _ _ _ E). rewrite length_app. simpl. do 2 f_equal. lia.
Qed.

(** Facts about the entry at the front of the unread part, for the loops over
    the whole environment. *)
Lemma at_entry e pre n v l post :
  env_valid e <> 0 -> env_data e = pre ++ entries ((n, v) :: l) ++ post -> good_entry (n, v) ->
  (exists c, env_get_char e (length pre) = Ok c /\ c <> 0) /\
  entry_text (area_fuel e) e (length pre) = Ok (n ++ ch "=" :: v, length (pre ++ entry (n, v))) /\
  env_data e = (pre ++ entry (n, v)) ++ entries l ++ post.
Proof.
  intros Hv He Hg. pose proof Hg as [Hgn Hgv]. simpl in Hgn, Hgv.
  assert (He2 : env_data e = (pre ++ entry (n, v)) ++ entries l ++ post).
  { rewrite He. cbn [entries flat_map]. by rewrite <- !app_assoc. }
  destruct (entry_first (n, v) (entries l) post Hg) as (c & s & Ec & Hc & _).
  split; [|split; [|done]].
  - exists c. split; [|done]. apply (get_at e pre c s); try done. rewrite He2, <- app_assoc. by f_equal.
  - change (entries ((n, v) :: l)) with (entry (n, v) ++ entries l) in He. rewrite entry_split in He.
    pose proof (area_fuel_ge e _ _ _ Hv He) as Hfu.
    assert (Hs : cstring (n ++ ch "=" :: v)).
    { apply cstring_app. split; [apply Hgn|]. apply cstring_cons. split; [by vm_compute|done]. }
    rewrite (entry_text_ok e _ _ _ pre _ Hv He Hs eq_refl) by lia.
    do 2 f_equal. unfold entry. simpl. rewrite !length_app. simpl. rewrite !length_app. simpl. lia.
Qed.

Lemma env_complete_test var n v :
  (0 <? length var)%nat &&
    ((length n <? length var)%nat || negb (bool_decide (take (length var) (n ++ ch "=" :: v) = var))) =
  negb (has_prefix var n).
Proof.
  unfold has_prefix. destruct var as [|x var]; [by rewrite bool_decide_true|].
  set (w := x :: var). change (0 <? length w)%nat with true. cbn [andb].
  destruct (Nat.ltb_spec (length n) (length w)) as [H|H]; cbn [orb].
  - rewrite bool_decide_eq_false_2; [done|]. intros E. apply (f_equal length) in E. rewrite length_take in E. lia.
  - by rewrite take_app_le.
Qed.

Lemma env_complete_loop_ok e var maxv post : env_valid e <> 0 -> forall l fuel pre bufsz cmdv,
  env_data e = pre ++ entries l ++ 0 :: post -> Forall good_entry l -> (length (entries l) < fuel)%nat ->
  let names := matching var l in let found := Z.of_nat (length cmdv) in
  exists r, env_complete_loop fuel e var maxv bufsz (length pre) cmdv = Ok (cmdv ++ r) /\
    ((r = names /\ (names = [] \/ found + Z.of_nat (length names) <= maxv - 2 /\ buffer_need names <= bufsz)) \/
     exists k, (k < length names)%nat /\ r = take k names ++ [zs "..."] /\
       (k = 0%nat \/ found + Z.of_nat k <= maxv - 2) /\
       (maxv - 2 < found + Z.of_nat (length names) \/ bufsz < buffer_need names)).
Proof.
  intros Hv. induction l as [|[n v] l IH]; intros [|fuel] pre bufsz cmdv He Hl Hf; simpl in Hf; try lia; cbv zeta.
  - exists []. simpl. rewrite (res_bind_ok _ _ _ (get_at _ _ _ _ _ Hv He eq_refl)). rewrite app_nil_r. auto.
  - apply Forall_cons in Hl as [Hg Hl]. pose proof (entry_first (n, v) [] [] Hg) as (_ & _ & _ & _ & Hne).
    destruct (at_entry e pre n v l (0 :: post) Hv He Hg) as ((c & Hget & Hc) & Ht & He2).
    assert (Hf2 : (length (entries l) < fuel)%nat).
    { rewrite length_app in Hf. destruct (entry (n, v)); [done|]. simpl in Hf. lia. }
    cbn [env_complete_loop]. rewrite (res_bind_ok _ _ _ Hget). destruct (Z.eqb_spec c 0); [done|].
    rewrite (res_bind_ok _ _ _ Ht). cbv beta iota zeta. destruct Hg as [[_ Hnn] _]. simpl in Hnn.
    rewrite (name_part_entry n v Hnn), env_complete_test.
    change (matching var ((n, v) :: l)) with (if has_prefix var n then n :: matching var l else matching var l).
    destruct (has_prefix var n); cbn [negb]; [|by apply IH].
    assert (Hneed : buffer_need (n :: matching var l) = Z.of_nat (length n) + 1 + buffer_need (matching var l)).
    { unfold buffer_need. simpl. lia. }
    assert (H0 : 0 <= buffer_need (matching var l)) by (unfold buffer_need; lia).
    rewrite Hneed. cbn [length].
    destruct (Z.leb_spec (maxv - 2) (Z.of_nat (length cmdv))), (Z.ltb_spec bufsz (Z.of_nat (length n) + 1));
      cbn [orb]; try (eexists; split; [done|]; right; exists 0%nat; split; [lia|]; split; [done|]; lia).
    destruct (IH fuel (pre ++ entry (n, v)) (bufsz - Z.of_nat (length n) - 1) (cmdv ++ [n]) He2 Hl Hf2)
      as (r & -> & Hr).
    exists (n :: r). split; [by rewrite <- app_assoc|]. rewrite length_app in Hr. cbn [length] in Hr.
    destruct Hr as [[-> Hr]|(k & Hk & -> & Hk2 & Hr)].
    + left. split; [done|]. right. destruct Hr as [Hr|Hr]; [rewrite Hr; unfold buffer_need; simpl|]; lia.
    + right. exists (S k). split; [lia|]. split; [done|]. lia.
Qed.

(** Completion lists the names with the given beginning in the order of the
    environment; when [maxv] or the buffer is too small, a first part of them
    and the marker; never more than [maxv - 1] strings. *)
Theorem env_complete_correct e l var maxv bufsz :
  env_repr e l -> 2 <= maxv ->
  let names := matching var l in
  exists cmdv, env_complete e var maxv bufsz = Ok cmdv /\ Z.of_nat (length cmdv) <= maxv - 1 /\
    (Z.of_nat (length names) <= maxv - 2 /\ buffer_need names <= bufsz -> cmdv = names) /\
    (cmdv = names \/ exists k, (k < length names)%nat /\ cmdv = take k names ++ [zs "..."]).
Proof.
  intros Hr Hm names. destruct (env_repr_text e l Hr) as [post He]. destruct Hr as (Hv & Hg & _).
  pose proof (area_fuel_ge e [] (entries l) (0 :: post) Hv He) as Hfu. cbn [length] in Hfu.
  destruct (env_complete_loop_ok e var maxv post Hv l (area_fuel e) [] bufsz [] He Hg) as (r & E & Hcase); [lia|].
  exists r. split; [done|]. fold names in Hcase. cbn [length app] in Hcase.
  destruct Hcase as [[-> H]|(k & Hk & -> & Hk2 & H)].
  - split; [|by auto]. destruct H as [->|H]; simpl; lia.
  - rewrite length_app, length_take. cbn [length]. split; [lia|]. split; [lia|]. right. by exists k.
Qed.

Definition printed (nv : list Z * list Z) : list Z := fst nv ++ ch "=" :: snd nv ++ [10].

Lemma printenv_loop_all e post : env_valid e <> 0 -> forall l fuel pre out,
  env_data e = pre ++ entries l ++ 0 :: post -> Forall good_entry l -> (length (entries l) < fuel)%nat ->
  printenv_loop fuel e [] 1 (length pre) [] out =
    Ok (Z.of_nat (length pre + length (entries l)), out ++ flat_map printed l).
Proof.
  intros Hv. induction l as [|[n v] l IH]; intros [|fuel] pre out He Hl Hf; simpl in Hf; try lia.
  - cbn [printenv_loop]. rewrite (res_bind_ok _ _ _ (get_at _ _ _ _ _ Hv He eq_refl)). simpl.
    by rewrite app_nil_r, Nat.add_0_r.
  - apply Forall_cons in Hl as [Hg Hl]. pose proof (entry_first (n, v) [] [] Hg) as (_ & _ & _ & _ & Hne).
    destruct (at_entry e pre n v l (0 :: post) Hv He Hg) as ((c & Hget & Hc) & Ht & He2).
    assert (Hf2 : (length (entries l) < fuel)%nat).
    { rewrite length_app in Hf. destruct (entry (n, v)); [done|]. simpl in Hf. lia. }
    cbn [printenv_loop]. rewrite (res_bind_ok _ _ _ Hget). destruct (Z.eqb_spec c 0); [done|].
    change ((1 =? 0) || false) with false. change (1 =? 2) with false. cbv iota.
    rewrite (res_bind_ok (mret 1 : res Z) _ 1 eq_refl), (res_bind_ok _ _ _ Ht). cbv beta iota zeta.
    change (1 <=? 1) with true. cbn [tl]. rewrite (IH fuel (pre ++ entry (n, v)) _ He2 Hl Hf2).
    change (entries ((n, v) :: l)) with (entry (n, v) ++ entries l). rewrite !length_app.
    do 2 f_equal; [lia|]. cbn [flat_map]. unfold printed at 2. cbn [fst snd].
    rewrite <- !app_assoc. cbn [app]. by rewrite <- ?app_assoc.
Qed.

(** [printenv] without a name prints every variable on its line and returns the
    bytes they occupy. *)
Theorem printenv_all_correct e l :
  env_repr e l ->
  printenv e [] 1 [] = Ok (Z.of_nat (length (entries l)), flat_map printed l).
Proof.
  intros Hr. destruct (env_repr_text e l Hr) as [post He]. destruct Hr as (Hv & Hg & _).
  pose proof (area_fuel_ge e [] (entries l) (0 :: post) Hv He) as Hfu. cbn [length] in Hfu.
  apply (printenv_loop_all e post Hv l _ [] [] He Hg). lia.
Qed.

(** ** Concrete environments *)

Definition accept : Z -> list Z -> Z := fun _ _ => 0.
Definition rates : list Z := [9600; 115200].

(** An environment that holds [l] in an area of [size] bytes, with its checksum. *)
Definition make_env (size : nat) (l : list (list Z * list Z)) : env_state :=
  let d := env_text l ++ replicate (size - length (env_text l)) 0 in
  env_crc_update (Env 536870912 0 d [0; 0] 1 1 115200 0 0 []).

Definition two_vars : list (list Z * list Z) := [(zs "ab", zs "1"); (zs "baudrate", zs "9600")].
Definition bench : env_state := make_env 40 two_vars.

Lemma bench_repr : env_repr bench two_vars.
Proof.
  split; [by vm_compute|]. split; [|split].
  - unfold two_vars, good_entry, good_name. apply (bool_decide_unpack _). vm_compute. exact I.
  - apply (bool_decide_unpack _). vm_compute. exact I.
  - eexists (replicate _ 0). reflexivity.
Defined.

Lemma good_ab : good_name (zs "ab").
Proof. split; apply (bool_decide_unpack _); vm_compute; exact I. Defined.

Lemma ordinary_ab : ordinary true (zs "ab").
Proof. split; [apply good_ab|]. split_and!; try (by vm_compute). by left. Defined.

Lemma getenv_correct_witness :
  env_repr bench two_vars /\ good_name (zs "ab") /\
  (exists i, getenv bench (zs "ab") = Ok (Some i) /\ string_at bench i (zs "1")).
Proof.
  split; [apply bench_repr|]. split; [apply good_ab|].
  apply (proj1 (getenv_correct bench two_vars (zs "ab") bench_repr good_ab)). reflexivity.
Defined.

Lemma setenv_correct_witness :
  env_repr bench two_vars /\ ordinary true (zs "ab") /\ Forall cstring [zs "x"; zs "yz"] /\
  exists r e', _do_setenv accept true rates bench 4 (setenv_argv (zs "ab") [zs "x"; zs "yz"]) = Ok (r, e') /\
    (r = 0 <-> (length (env_text (env_remove (zs "ab") two_vars ++ [(zs "ab", zs "x yz")])) <= 40)%nat).
Proof.
  assert (Hc : Forall cstring [zs "x"; zs "yz"]) by (apply (bool_decide_unpack _); vm_compute; exact I).
  split; [apply bench_repr|]. split; [apply ordinary_ab|]. split; [exact Hc|].
  destruct (setenv_correct accept true rates bench two_vars (zs "ab") (zs "x") [zs "yz"] bench_repr ordinary_ab Hc)
    as (r & e' & E & _ & Hr & _). exists r, e'. split; [exact E|exact Hr].
Defined.

Lemma setenv_delete_correct_witness :
  env_repr bench two_vars /\ ordinary true (zs "ab") /\
  exists e', setenv accept true rates bench (zs "ab") None = Ok (0, e') /\
    env_repr e' [(zs "baudrate", zs "9600")].
Proof.
  split; [apply bench_repr|]. split; [apply ordinary_ab|].
  destruct (setenv_delete_correct accept true rates bench two_vars (zs "ab") bench_repr ordinary_ab)
    as (e' & E & _ & Hr & _). exists e'. split; [exact E|exact Hr].
Defined.

Lemma getenv_r_correct_witness :
  env_repr bench two_vars /\ good_name (zs "ab") /\ env_lookup (zs "ab") two_vars = Some (zs "1") /\
  exists stored, getenv_r bench (zs "ab") 2 = Ok (2, stored) /\ Z.of_nat (length stored) = 3.
Proof.
  split; [apply bench_repr|]. split; [apply good_ab|]. split; [reflexivity|].
  apply (getenv_r_correct bench two_vars (zs "ab") 2 (zs "1") bench_repr good_ab); [lia|reflexivity|reflexivity].
Defined.

Lemma setenv_delete_baudrate_faults_witness :
  env_repr bench two_vars /\ env_lookup (zs "baudrate") two_vars = Some (zs "9600") /\
  setenv accept true rates bench (zs "baudrate") None = Fault.
Proof.
  split; [apply bench_repr|]. split; [reflexivity|].
  apply (setenv_delete_baudrate_faults accept true rates bench two_vars (zs "9600") bench_repr). reflexivity.
Defined.

Lemma env_complete_correct_witness :
  env_repr bench two_vars /\ exists cmdv, env_complete bench (zs "ba") 5 20 = Ok cmdv /\ cmdv = [zs "baudrate"].
Proof.
  split; [apply bench_repr|].
  destruct (env_complete_correct bench two_vars (zs "ba") 5 20 bench_repr ltac:(lia)) as (cmdv & E & _ & H & _).
  exists cmdv. split; [exact E|]. apply H. split; vm_compute; discriminate.
Defined.

Lemma printenv_all_correct_witness :
  env_repr bench two_vars /\
  printenv bench [] 1 [] = Ok (19, zs "ab=1" ++ [10] ++ zs "baudrate=9600" ++ [10]).
Proof. split; [apply bench_repr|]. exact (printenv_all_correct bench two_vars bench_repr). Defined.

(** A value that does not fit: the call fails, "ab" is gone, and the checksum
    is not that of the changed area. *)
Example setenv_overflow_stale_crc :
  match _do_setenv accept true rates bench 3 (setenv_argv (zs "ab") [zs "0123456789012345678901"]) with
  | Ok (r, e') => r = 1 /\ getenv e' (zs "ab") = Ok None /\ crc e' <> crc32 0 (env_ptr e' + 4) (env_data e')
  | _ => False
  end.
Proof. vm_compute. split_and!; done. Qed.

(** A value too long for the buffer of [do_editenv]. *)
Example editenv_long_value :
  let e := make_env 400 [(zs "ab", replicate 256 (ch "x"))] in
  do_editenv accept true rates (fun _ b => b) e [zs "editenv"; zs "ab"] = Fault.
Proof. vm_compute. reflexivity. Qed.
