(* ===== verification/EnvFlash.v ===== *)
(** * The environment in flash (common/env_flash.c)

    Loading and saving the environment.  The code reaches the flash through
    [flash_sect_protect], [flash_sect_erase] and [flash_write] of
    common/cmd_flash.c, common/flash.c and the board; they are an interface here:
    the class [FlashDev] has the operations, [FlashLaws] what they promise, and
    the instances at the end of the file are a NOR flash that fails where an
    oracle says so.  All theorems on saving are proved from the interface.

    Section [Redundant] is the layout with two copies
    ([CONFIG_ENV_ADDR_REDUND]), section [Single] the one of the dragon board.
    The two variants of a function carry the suffix [_redund] and [_single].
    Checksums are computed for an aligned buffer; [Crc.crc32_bytes] shows that the
    alignment makes no difference. *)

From S2P Require Import Prelude.
From S2P Require Import Ctype.
From S2P Require Import Vsprintf.
From S2P Require Import Crc.
From S2P Require Import Env.

(** ** The flash as the environment code sees it *)

(** A copy of the environment in its sector: the two headers, the data and the
    bytes of the sector behind it. *)
Record env_copy := Copy { c_crc : list Z; c_flags : list Z; c_data : list Z; c_rest : list Z }.

Inductive part := P_crc | P_flags | P_data | P_rest.

Definition get_part (p : part) (c : env_copy) : list Z :=
  match p with P_crc => c_crc c | P_flags => c_flags c | P_data => c_data c | P_rest => c_rest c end.

Definition set_part (p : part) (l : list Z) (c : env_copy) : env_copy :=
  match p with
  | P_crc => Copy l (c_flags c) (c_data c) (c_rest c)
  | P_flags => Copy (c_crc c) l (c_data c) (c_rest c)
  | P_data => Copy (c_crc c) (c_flags c) l (c_rest c)
  | P_rest => Copy (c_crc c) (c_flags c) (c_data c) l
  end.

#[export] Instance env_copy_eq_dec : EqDecision env_copy.
Proof. solve_decision. Defined.
#[export] Instance part_eq_dec : EqDecision part.
Proof. solve_decision. Defined.

Lemma get_set_part p q l c : get_part p (set_part q l c) = if decide (p = q) then l else get_part p c.
Proof. by destruct p, q. Qed.

(** Which of the two copies: [false] is at [CONFIG_ENV_ADDR], [true] at
    [CONFIG_ENV_ADDR_REDUND]. *)
Class FlashDev (F : Type) := {
  fl_read : F -> bool -> env_copy;
  flash_sect_protect : bool -> bool -> F -> Z * F;
  flash_sect_erase : bool -> F -> Z * F;
  flash_write : list Z -> bool -> part -> F -> Z * F
}.

(** Erased flash is all ones; writing can only clear bits. *)
Definition erased (c : env_copy) : env_copy :=
  let ff l := replicate (length l) 255 in
  Copy (ff (c_crc c)) (ff (c_flags c)) (ff (c_data c)) (ff (c_rest c)).
Definition program (old new : list Z) : list Z := zip_with Z.land old new.

(** What the operations promise when they answer 0, and what they leave alone in any case. *)
Class FlashLaws (F : Type) `{FlashDev F} := {
  protect_keeps b w f : fl_read (snd (flash_sect_protect b w f)) = fl_read f;
  erase_other w f w' : w' <> w -> fl_read (snd (flash_sect_erase w f)) w' = fl_read f w';
  erase_done w f : fst (flash_sect_erase w f) = 0 ->
    fl_read (snd (flash_sect_erase w f)) w = erased (fl_read f w);
  write_other l w p f w' : w' <> w -> fl_read (snd (flash_write l w p f)) w' = fl_read f w';
  write_part l w p f q : q <> p ->
    get_part q (fl_read (snd (flash_write l w p f)) w) = get_part q (fl_read f w);
  write_done l w p f : fst (flash_write l w p f) = 0 ->
    fl_read (snd (flash_write l w p f)) w = set_part p (program (get_part p (fl_read f w)) l) (fl_read f w)
}.

(** A 32-bit word as it lies in memory (the CPU is little-endian). *)
Definition le32 (l : list Z) : Z := fold_right (fun b acc => b + 256 * acc) 0 l.
Definition le32_bytes (x : Z) : list Z :=
  map (fun k => Z.land (Z.shiftr x (8 * k)) 255) [0; 1; 2; 3].

Definition ACTIVE_FLAG : Z := 1.
Definition OBSOLETE_FLAG : Z := 0.

(** [gd->env_addr]: one of the copies or the built-in default. *)
Inductive env_place := At_copy (w : bool) | At_default.

#[export] Instance env_place_eq_dec : EqDecision env_place.
Proof. solve_decision. Defined.

(** ** Two copies *)

Section Redundant.
Context {F : Type} `{FlashDev F}.

(** [flash_addr] is the copy in use, [flash_addr_new] the other one. *)
Record red_state := Red {
  red_flash : F;
  flash_addr : bool;
  env_addr : env_place;
  red_valid : Z;               (* gd->env_valid *)
  ram_crc : Z;                 (* env_ptr->crc *)
  ram_data : list Z            (* env_ptr->data *)
}.

Definition with_flash (s : red_state) (f : F) : red_state :=
  Red f (flash_addr s) (env_addr s) (red_valid s) (ram_crc s) (ram_data s).
Definition with_flash_addr (s : red_state) (w : bool) : red_state :=
  Red (red_flash s) w (env_addr s) (red_valid s) (ram_crc s) (ram_data s).
Definition with_choice (s : red_state) (a : env_place) (v : Z) : red_state :=
  Red (red_flash s) (flash_addr s) a v (ram_crc s) (ram_data s).
Definition with_ram (s : red_state) (c : Z) (d : list Z) : red_state :=
  Red (red_flash s) (flash_addr s) (env_addr s) (red_valid s) c d.

Definition flag_of (c : env_copy) : Z := hd 0 (c_flags c).
Definition crc_ok (c : env_copy) : bool := crc32 0 0 (c_data c) =? le32 (c_crc c).

(** The choice of [env_init] between the two copies; [None]: no branch applies. *)
Definition choose_copy (crc1_ok crc2_ok : bool) (flag1 flag2 : Z) : option (env_place * Z) :=
  if crc1_ok && negb crc2_ok then Some (At_copy false, 1)
  else if negb crc1_ok && crc2_ok then Some (At_copy true, 1)
  else if negb crc1_ok && negb crc2_ok then Some (At_default, 0)
  else if (flag1 =? ACTIVE_FLAG) && (flag2 =? OBSOLETE_FLAG) then Some (At_copy false, 1)
  else if (flag1 =? OBSOLETE_FLAG) && (flag2 =? ACTIVE_FLAG) then Some (At_copy true, 1)
  else if flag1 =? flag2 then Some (At_copy false, 2)
  else if flag1 =? 0xFF then Some (At_copy false, 2)
  else if flag2 =? 0xFF then Some (At_copy true, 2)
  else None.

Definition env_init_redund (s : red_state) : Z * red_state :=
  let c1 := fl_read (red_flash s) false in
  let c2 := fl_read (red_flash s) true in
  match choose_copy (crc_ok c1) (crc_ok c2) (flag_of c1) (flag_of c2) with
  | Some (a, v) => (0, with_choice s a v)
  | None => (0, s)
  end.

(** The four writes of [saveenv], stopping at the first that fails. *)
Fixpoint write_all (ws : list (list Z * bool * part)) (f : F) : Z * F :=
  match ws with
  | [] => (0, f)
  | (l, w, p) :: ws =>
      let '(rc, f) := flash_write l w p f in
      if negb (rc =? 0) then (rc, f) else write_all ws f
  end.

Definition save_writes (s : red_state) : list (list Z * bool * part) :=
  let a := flash_addr s in
  [(ram_data s, negb a, P_data); (le32_bytes (ram_crc s), negb a, P_crc);
   ([OBSOLETE_FLAG], a, P_flags); ([ACTIVE_FLAG], negb a, P_flags)].

(** The label [Done]: both sectors protected again. *)
Definition save_done (s : red_state) (rc : Z) : Z * red_state :=
  let '(_, f) := flash_sect_protect true (flash_addr s) (red_flash s) in
  let '(_, f) := flash_sect_protect true (negb (flash_addr s)) f in
  (rc, with_flash s f).

(** [malloc_ok]: whether the buffer for the rest of the sector was there. *)
Definition saveenv_redund (malloc_ok : bool) (s : red_state) : Z * red_state :=
  let a := flash_addr s in
  let '(r, f) := flash_sect_protect false a (red_flash s) in
  if negb (r =? 0) then save_done (with_flash s f) 1
  else
    let '(r, f) := flash_sect_protect false (negb a) f in
    if negb (r =? 0) then save_done (with_flash s f) 1
    else
      let saved_data := c_rest (fl_read f (negb a)) in
      let up_data := (0 <? length saved_data)%nat in
      if up_data && negb malloc_ok then save_done (with_flash s f) 1
      else
        let '(r, f) := flash_sect_erase (negb a) f in
        if negb (r =? 0) then save_done (with_flash s f) 1
        else
          let '(rc, f) := write_all (save_writes s) f in
          if negb (rc =? 0) then save_done (with_flash s f) rc
          else
            let '(r, f) := if up_data then flash_write saved_data (negb a) P_rest f else (0, f) in
            if negb (r =? 0) then save_done (with_flash s f) rc
            else save_done (with_flash_addr (with_flash s f) (negb a)) 0.

(** Writing one flag between [protect] off and on, no result looked at. *)
Definition rewrite_flag (flag : Z) (w : bool) (f : F) : F :=
  let '(_, f) := flash_sect_protect false w f in
  let '(_, f) := flash_write [flag] w P_flags f in
  snd (flash_sect_protect true w f).

Definition env_relocate_spec_redund (s : red_state) : red_state :=
  let s := if decide (env_addr s = At_copy (flash_addr s)) then s
           else with_flash_addr s (negb (flash_addr s)) in
  let a := flash_addr s in
  let other := fl_read (red_flash s) (negb a) in
  let s := if negb (flag_of other =? OBSOLETE_FLAG) && crc_ok other
           then with_flash (with_choice s (env_addr s) 2) (rewrite_flag OBSOLETE_FLAG (negb a) (red_flash s))
           else s in
  let cur := fl_read (red_flash s) a in
  let s := if negb (flag_of cur =? ACTIVE_FLAG) && (Z.land (flag_of cur) ACTIVE_FLAG =? ACTIVE_FLAG)
           then with_flash (with_choice s (env_addr s) 2) (rewrite_flag ACTIVE_FLAG a (red_flash s))
           else s in
  let cur := fl_read (red_flash s) a in
  with_ram s (le32 (c_crc cur)) (c_data cur).

(** [env_relocate] with both cases; the default is written into RAM only (and
    not at all when it is too large). *)
Definition env_relocate_redund (default : list Z) (s : red_state) : red_state :=
  if red_valid s =? 0 then
    if (length (ram_data s) <? length default)%nat then s else
    let d := default ++ replicate (length (ram_data s) - length default) 0 in
    with_choice (with_ram s (crc32 0 0 d) d) (env_addr s) 1
  else env_relocate_spec_redund s.

End Redundant.

Arguments red_state : clear implicits.

(** ** One copy *)

Section Single.
Context {F : Type}.
Context (sector : F -> list Z).
Context (protect1 : bool -> F -> Z * F) (erase1 : F -> Z * F) (write1 : list Z -> F -> Z * F).
Context (offset : nat).        (* flash_offset: where the environment starts in its sector *)

Definition env_bytes (e : env_state) : list Z := le32_bytes (crc e) ++ env_data e.

(** The environment as it lies in the sector. *)
Definition stored (n : nat) (f : F) : list Z := take n (drop offset (sector f)).

Definition env_init_single (e : env_state) (f : F) : env_state :=
  let m := stored (4 + length (env_data e)) f in
  if crc32 0 0 (drop 4 m) =? le32 (take 4 m) then with_valid e 1 else with_valid e 0.

(** The buffer is the old sector with the environment copied over its place;
    with [CONFIG_ENV_SECT_SIZE] = [CONFIG_ENV_SIZE] it is the environment itself. *)
Definition saveenv_single (e : env_state) (f : F) : Z * F :=
  let env_buffer := take offset (sector f) ++ env_bytes e ++ drop (offset + length (env_bytes e)) (sector f) in
  let '(r, f) := protect1 false f in
  if negb (r =? 0) then (1, f)
  else
    let '(r, f) := erase1 f in
    if negb (r =? 0) then (1, f)
    else
      let '(rc, f) := write1 env_buffer f in
      let rcode := if negb (rc =? 0) then 1 else 0 in
      let '(_, f) := protect1 true f in
      (rcode, f).

Definition env_relocate_spec_single (e : env_state) (f : F) : env_state :=
  let m := stored (4 + length (env_data e)) f in
  with_crc (with_data e (drop 4 m)) (le32 (take 4 m)).

(** [env_relocate] of common/env_common.c. *)
Definition env_relocate_single (e : env_state) (f : F) : env_state :=
  if env_valid e =? 0 then set_default_env e else env_relocate_spec_single e f.

End Single.

(** ** Bytes and words *)

Lemma le32_roundtrip x : 0 <= x < 4294967296 -> le32 (le32_bytes x) = x.
Proof.
  intros Hx. unfold le32_bytes. cbn [map le32 fold_right].
  change 255 with (Z.ones 8). rewrite !Z.land_ones, !Z.shiftr_div_pow2 by lia.
  change (2 ^ 8) with 256. change (2 ^ (8 * 0)) with 1. change (2 ^ (8 * 1)) with 256.
  change (2 ^ (8 * 2)) with 65536. change (2 ^ (8 * 3)) with 16777216. zmod.
Qed.

Lemma le32_bytes_byte x : Forall byte (le32_bytes x).
Proof.
  unfold le32_bytes, byte. repeat (constructor; [change 255 with (Z.ones 8); rewrite Z.land_ones by lia; zmod|]).
  constructor.
Qed.

Lemma program_erased n l : Forall byte l -> length l = n -> program (replicate n 255) l = l.
Proof.
  intros Hl <-. induction Hl as [|x l Hx Hl IH]; [done|]. unfold program in *. cbn [length replicate zip_with].
  rewrite IH. f_equal. rewrite Z.land_comm. change 255 with (Z.ones 8). rewrite Z.land_ones by lia.
  apply Z.mod_small. exact Hx.
Qed.

(** A copy whose parts have the lengths of the structure. *)
Definition copy_shape (n : nat) (c : env_copy) : Prop :=
  length (c_crc c) = 4%nat /\ length (c_flags c) = 1%nat /\ length (c_data c) = n /\ Forall byte (c_rest c).

(** ** Saving with two copies *)

Section Redundant_proofs.
Context {F : Type} `{HD : !FlashDev F, HL : !FlashLaws F}.

Definition ram_ok (s : red_state F) : Prop :=
  Forall byte (ram_data s) /\ 0 <= ram_crc s < 4294967296 /\
  forall w, copy_shape (length (ram_data s)) (fl_read (red_flash s) w).

(** Everything but the flags of a copy. *)
Definition same_content (c c' : env_copy) : Prop :=
  c_crc c' = c_crc c /\ c_data c' = c_data c /\ c_rest c' = c_rest c.

Lemma same_content_parts c c' : (forall q, q <> P_flags -> get_part q c' = get_part q c) -> same_content c c'.
Proof. intros H. split_and!; [apply (H P_crc)|apply (H P_data)|apply (H P_rest)]; done. Qed.

Lemma same_content_trans c1 c2 c3 : same_content c1 c2 -> same_content c2 c3 -> same_content c1 c3.
Proof. unfold same_content. intuition congruence. Qed.

Lemma write_keeps l w p f a : (w = a -> p = P_flags) ->
  same_content (fl_read f a) (fl_read (snd (flash_write l w p f)) a).
Proof.
  intros Hp. destruct (decide (a = w)) as [->|Hne].
  - apply same_content_parts. intros q Hq. rewrite (Hp eq_refl). by apply write_part.
  - by rewrite write_other.
Qed.

Lemma write_all_keeps a ws : Forall (fun x => x.1.2 = a -> x.2 = P_flags) ws -> forall f,
  same_content (fl_read f a) (fl_read (snd (write_all ws f)) a).
Proof.
  induction 1 as [|[[l w] p] ws Hp Hws IH]; intros f; [done|]. cbn [write_all].
  pose proof (write_keeps l w p f a Hp) as H1. destruct (flash_write l w p f) as [rc f1]. cbn [snd] in H1.
  destruct (rc =? 0); [|done]. by eapply same_content_trans.
Qed.

(** When all writes succeed, each part has been programmed in turn. *)
Fixpoint programmed (ws : list (list Z * bool * part)) (m : bool -> env_copy) : bool -> env_copy :=
  match ws with
  | [] => m
  | (l, w, p) :: ws =>
      programmed ws (fun w' => if decide (w' = w) then set_part p (program (get_part p (m w)) l) (m w) else m w')
  end.

Lemma programmed_ext ws : forall m m', (forall w, m w = m' w) -> forall w, programmed ws m w = programmed ws m' w.
Proof.
  induction ws as [|[[l w] p] ws IH]; intros m m' Hm w0; [apply Hm|]. cbn [programmed]. apply IH.
  intros w'. by rewrite !Hm.
Qed.

Lemma write_all_done ws : forall f, fst (write_all ws f) = 0 ->
  forall w, fl_read (snd (write_all ws f)) w = programmed ws (fl_read f) w.
Proof.
  induction ws as [|[[l w] p] ws IH]; intros f E w0; [done|]. cbn [write_all programmed] in *.
  pose proof (write_done l w p f) as Hd. pose proof (write_other l w p f) as Ho.
  destruct (flash_write l w p f) as [rc f1]. cbn [fst snd] in *.
  destruct (Z.eqb_spec rc 0) as [->|Hne]; cbn [negb] in *; [|simpl in E; congruence].
  rewrite IH by done. apply programmed_ext. intros w'. destruct (decide (w' = w)) as [->|Hne].
  - by apply Hd.
  - by apply Ho.
Qed.

Lemma save_done_spec (s : red_state F) rc :
  exists f, save_done s rc = (rc, with_flash s f) /\ fl_read f = fl_read (red_flash s).
Proof.
  unfold save_done. pose proof (protect_keeps true (flash_addr s) (red_flash s)) as H1.
  destruct (flash_sect_protect true (flash_addr s) (red_flash s)) as [r1 f1]. cbn [snd] in H1.
  pose proof (protect_keeps true (negb (flash_addr s)) f1) as H2.
  destruct (flash_sect_protect true (negb (flash_addr s)) f1) as [r2 f2]. cbn [snd] in H2.
  exists f2. split; [done|]. congruence.
Qed.

Lemma negb_ne (a : bool) : negb a <> a.
Proof. by destruct a. Qed.

(** The flash when its sectors are unprotected, and whether the erasing of the other copy
    fails then. *)
Definition unprotected (s : red_state F) : F :=
  snd (flash_sect_protect false (negb (flash_addr s)) (snd (flash_sect_protect false (flash_addr s) (red_flash s)))).
Definition half_erased (s : red_state F) : Prop :=
  fst (flash_sect_erase (negb (flash_addr s)) (unprotected s)) <> 0.

(** One byte is programmed or it is not, whatever becomes of the operation. *)
Definition flag_atomic : Prop := forall b w f,
  let v := flag_of (fl_read f w) in let v' := flag_of (fl_read (snd (flash_write [b] w P_flags f)) w) in
  v' = v \/ v' = Z.land v b.

(** The flags [saveenv] can leave behind. *)
Definition flags_left (s : red_state F) (f' : F) : Prop :=
  let a := flash_addr s in let f := red_flash s in
  (flag_of (fl_read f' a) = flag_of (fl_read f a) \/ flag_of (fl_read f' a) = OBSOLETE_FLAG) /\
  (fl_read f' (negb a) = fl_read f (negb a) \/ half_erased s \/
   flag_of (fl_read f' (negb a)) = 0xFF \/ flag_of (fl_read f' (negb a)) = ACTIVE_FLAG).

(** What holds wherever [saveenv] stops: the copy in use, its flag included, is touched
    only when the other holds the data and its checksum. *)
Definition kept (s : red_state F) (f' : F) : Prop :=
  let a := flash_addr s in let f := red_flash s in
  same_content (fl_read f a) (fl_read f' a) /\
  (fl_read f' a = fl_read f a \/
   c_data (fl_read f' (negb a)) = ram_data s /\ c_crc (fl_read f' (negb a)) = le32_bytes (ram_crc s)) /\
  (flag_atomic -> flags_left s f').

(** What [saveenv] leaves in [f'], [done] saying that the copies were swapped. *)
Definition saved (s : red_state F) (f' : F) (done : bool) : Prop :=
  let a := flash_addr s in let f := red_flash s in
  kept s f' /\
  (done = true ->
     fl_read f' (negb a) = Copy (le32_bytes (ram_crc s)) [ACTIVE_FLAG] (ram_data s) (c_rest (fl_read f (negb a))) /\
     fl_read f' a = set_part P_flags [OBSOLETE_FLAG] (fl_read f a)).

Lemma kept_ext (s : red_state F) f f' : fl_read f' = fl_read f -> kept s f -> kept s f'.
Proof. unfold kept, flags_left. by intros ->. Qed.

Lemma kept_untouched (s : red_state F) f : fl_read f = fl_read (red_flash s) -> kept s f.
Proof. unfold kept, flags_left. intros ->. split; [done|]. split; [by left|]. intros _. split; by left. Qed.

(** A flag written one byte at a time keeps what each byte keeps. *)
Lemma write_all_flag (Q : Z -> Prop) w ws : flag_atomic ->
  Forall (fun x => x.1.2 = w -> x.2 = P_flags -> exists b, x.1.1 = [b] /\ forall v, Q v -> Q (Z.land v b)) ws ->
  forall f, Q (flag_of (fl_read f w)) -> Q (flag_of (fl_read (snd (write_all ws f)) w)).
Proof.
  intros Hat. induction 1 as [|[[l w'] p] ws Hp Hws IH]; intros f Hf; [done|]. cbn [write_all fst snd] in *.
  assert (H1 : Q (flag_of (fl_read (snd (flash_write l w' p f)) w))).
  { destruct (decide (w = w')) as [<-|Hne]; [|by rewrite write_other]. destruct (decide (p = P_flags)) as [->|Hne].
    - destruct (Hp eq_refl eq_refl) as (b & -> & Hb). destruct (Hat b w f) as [-> | ->]; [done|by apply Hb].
    - pose proof (write_part l w p f P_flags ltac:(congruence)) as E. cbn [get_part] in E. unfold flag_of in *. by rewrite E. }
  destruct (flash_write l w' p f) as [rc f1]. cbn [snd] in H1. destruct (rc =? 0); [by apply IH|done].
Qed.

(** The order of the four writes. *)
Lemma save_writes_order (s : red_state F) f :
  Forall byte (ram_data s) -> fl_read f (negb (flash_addr s)) = erased (fl_read (red_flash s) (negb (flash_addr s))) ->
  copy_shape (length (ram_data s)) (fl_read (red_flash s) (negb (flash_addr s))) ->
  let f' := snd (write_all (save_writes s) f) in let a := flash_addr s in
  fl_read f' a = fl_read f a \/
  c_data (fl_read f' (negb a)) = ram_data s /\ c_crc (fl_read f' (negb a)) = le32_bytes (ram_crc s).
Proof.
  intros Hb He (L1 & _ & L3 & _) f' a. unfold f', save_writes. fold a. fold a in He, L1, L3.
  assert (Hne : a <> negb a) by (by destruct a). cbn [write_all].
  pose proof (write_other (ram_data s) (negb a) P_data f a Hne) as O1. pose proof (write_done (ram_data s) (negb a) P_data f) as D1.
  destruct (flash_write (ram_data s) (negb a) P_data f) as [r1 f1]. cbn [fst snd] in O1, D1.
  destruct (Z.eqb_spec r1 0) as [->|]; cbn [negb]; [|by left]. specialize (D1 eq_refl).
  pose proof (write_other (le32_bytes (ram_crc s)) (negb a) P_crc f1 a Hne) as O2.
  pose proof (write_done (le32_bytes (ram_crc s)) (negb a) P_crc f1) as D2.
  destruct (flash_write (le32_bytes (ram_crc s)) (negb a) P_crc f1) as [r2 f2]. cbn [fst snd] in O2, D2.
  destruct (Z.eqb_spec r2 0) as [->|]; cbn [negb]; [|left; cbn [snd]; congruence]. specialize (D2 eq_refl). right.
  assert (E2 : c_data (fl_read f2 (negb a)) = ram_data s /\ c_crc (fl_read f2 (negb a)) = le32_bytes (ram_crc s)).
  { rewrite D2, D1, He. unfold erased, set_part, get_part. cbn [c_crc c_data]. rewrite L1, L3.
    split; apply program_erased; [exact Hb|done|apply le32_bytes_byte|done]. }
  pose proof (write_other [OBSOLETE_FLAG] a P_flags f2 (negb a) ltac:(done)) as W3.
  destruct (flash_write [OBSOLETE_FLAG] a P_flags f2) as [r3 f3]. cbn [snd] in W3. rewrite <- W3 in E2.
  destruct (r3 =? 0); cbn [negb]; [|exact E2].
  pose proof (write_part [ACTIVE_FLAG] (negb a) P_flags f3 P_data ltac:(done)) as W4.
  pose proof (write_part [ACTIVE_FLAG] (negb a) P_flags f3 P_crc ltac:(done)) as W5.
  destruct (flash_write [ACTIVE_FLAG] (negb a) P_flags f3) as [r4 f4]. cbn [snd get_part] in W4, W5.
  rewrite <- W4, <- W5 in E2. by destruct (r4 =? 0).
Qed.

(** The writes after a successful erase keep the old copy until the new one is there. *)
Lemma save_writes_kept (s : red_state F) f :
  ram_ok s -> fl_read f (flash_addr s) = fl_read (red_flash s) (flash_addr s) ->
  fl_read f (negb (flash_addr s)) = erased (fl_read (red_flash s) (negb (flash_addr s))) ->
  kept s (snd (write_all (save_writes s) f)).
Proof.
  intros (Hb & _ & Hsh) Ha He. set (a := flash_addr s) in *. assert (Hne : a <> negb a) by (by destruct a).
  unfold kept. fold a. split; [|split].
  - rewrite <- Ha. apply write_all_keeps. unfold save_writes. fold a. destruct a; repeat constructor; done.
  - pose proof (save_writes_order s f Hb He (Hsh (negb a))) as H. cbv zeta in H. fold a in H. by rewrite Ha in H.
  - intros Hat. unfold flags_left. fold a. split.
    + apply (write_all_flag (fun v => v = flag_of (fl_read (red_flash s) a) \/ v = OBSOLETE_FLAG)); [done| |left; by rewrite Ha].
      unfold save_writes. fold a. repeat constructor; cbn; try (intros; congruence).
      intros _ _. exists OBSOLETE_FLAG. split; [done|]. intros v _. right. apply Z.land_0_r.
    + right. right. apply (write_all_flag (fun v => v = 0xFF \/ v = ACTIVE_FLAG)); [done| |].
      * unfold save_writes. fold a. repeat constructor; cbn; try (intros; congruence).
        intros _ _. exists ACTIVE_FLAG. split; [done|]. intros v [-> | ->]; by right.
      * left. rewrite He. destruct (Hsh (negb a)) as (_ & L2 & _). unfold flag_of, erased. cbn [c_flags]. by rewrite L2.
Qed.

Lemma save_done_saved (s : red_state F) f rc done :
  saved s f done ->
  exists f', save_done (with_flash (if done then with_flash_addr s (negb (flash_addr s)) else s) f) rc =
      (rc, with_flash (if done then with_flash_addr s (negb (flash_addr s)) else s) f') /\ saved s f' done.
Proof.
  intros Hs. destruct (save_done_spec (with_flash (if done then with_flash_addr s (negb (flash_addr s)) else s) f) rc)
    as (f' & E & Hf). exists f'. rewrite E. split; [by destruct done|].
  assert (Hr : fl_read f' = fl_read f) by (by rewrite Hf; destruct done).
  destruct Hs as [Hk Hd]. split; [by eapply kept_ext|]. by rewrite Hr.
Qed.

(** The content after erasing and the four writes. *)
Lemma save_writes_done (s : red_state F) f0 f :
  ram_ok s -> fl_read f0 = fl_read (red_flash s) ->
  fst (flash_sect_erase (negb (flash_addr s)) f0) = 0 -> snd (flash_sect_erase (negb (flash_addr s)) f0) = f ->
  fst (write_all (save_writes s) f) = 0 ->
  let f' := snd (write_all (save_writes s) f) in
  let a := flash_addr s in
  fl_read f' (negb a) = Copy (le32_bytes (ram_crc s)) [ACTIVE_FLAG] (ram_data s)
    (replicate (length (c_rest (fl_read f0 (negb a)))) 255) /\
  fl_read f' a = set_part P_flags [OBSOLETE_FLAG] (fl_read f0 a).
Proof.
  intros (Hd & Hc & Hsh) Hf0 He <- Hw f' a. unfold f'. rewrite !write_all_done by done.
  pose proof (erase_done _ _ He) as E1. pose proof (erase_other (negb a) f0 a) as E2. fold a in E1.
  assert (Hne : a <> negb a) by (by destruct a). specialize (E2 Hne).
  unfold save_writes. fold a. cbn [programmed].
  repeat first [rewrite decide_True by done | rewrite (decide_False (P := a = negb a)) by done
               | rewrite (decide_False (P := negb a = a)) by done].
  rewrite E1, E2.
  destruct (Hsh (negb a)) as (L1 & L2 & L3 & _). destruct (Hsh a) as (_ & M2 & _). rewrite <- Hf0 in *.
  unfold erased, set_part, get_part. cbn [c_crc c_flags c_data c_rest]. rewrite L1, L2, L3. split.
  - rewrite !program_erased; try done; [by repeat constructor; unfold ACTIVE_FLAG; lia|by apply le32_bytes_byte].
  - f_equal. destruct (c_flags (fl_read f0 a)) as [|x [|y l]]; try done. unfold program. simpl.
    by rewrite Z.land_0_r.
Qed.

(** Writing the rest of the sector back touches nothing that matters. *)
Lemma write_rest_kept (s : red_state F) l f :
  kept s f -> flag_of (fl_read f (negb (flash_addr s))) = ACTIVE_FLAG ->
  kept s (snd (flash_write l (negb (flash_addr s)) P_rest f)).
Proof.
  intros (K1 & K2 & K3) Hf. unfold kept, flags_left in *. set (a := flash_addr s) in *.
  pose proof (write_other l (negb a) P_rest f a ltac:(by destruct a)) as Ea.
  pose proof (fun q => write_part l (negb a) P_rest f q) as Ep.
  pose proof (Ep P_crc ltac:(done)) as E1. pose proof (Ep P_flags ltac:(done)) as E2. pose proof (Ep P_data ltac:(done)) as E3.
  cbn [get_part] in E1, E2, E3. destruct (flash_write l (negb a) P_rest f) as [r f']. cbn [snd] in *.
  rewrite Ea, E3, E1. split; [done|]. split; [done|]. intros Hat. destruct (K3 Hat) as [K4 _]. split; [done|].
  right. right. right. unfold flag_of in *. by rewrite E2.
Qed.

Lemma saveenv_redund_saved malloc_ok (s : red_state F) :
  ram_ok s ->
  exists rc f' (done : bool), saveenv_redund malloc_ok s =
      (rc, with_flash (if done then with_flash_addr s (negb (flash_addr s)) else s) f') /\
    saved s f' done /\ (done = true -> rc = 0).
Proof.
  intros Hram. set (a := flash_addr s). unfold saveenv_redund. fold a.
  assert (Hfail : forall f rc, kept s f ->
    exists rc' f' (done : bool), save_done (with_flash s f) rc =
      (rc', with_flash (if done then with_flash_addr s (negb (flash_addr s)) else s) f') /\
      saved s f' done /\ (done = true -> rc' = 0)).
  { intros f rc Hf. destruct (save_done_saved s f rc false) as (f' & E & Hs); [by split|].
    exists rc, f', false. split_and!; [exact E|done|done]. }
  pose proof (protect_keeps false a (red_flash s)) as K1. assert (Hun : unprotected s = unprotected s) by done.
  unfold unprotected in Hun at 2. fold a in Hun.
  destruct (flash_sect_protect false a (red_flash s)) as [r1 f1]. cbn [snd] in K1, Hun.
  destruct (r1 =? 0); cbn [negb]; [|by apply Hfail, kept_untouched].
  pose proof (protect_keeps false (negb a) f1) as K2.
  destruct (flash_sect_protect false (negb a) f1) as [r2 f2]. cbn [snd] in K2, Hun. rewrite K1 in K2.
  destruct (r2 =? 0); cbn [negb]; [|by apply Hfail, kept_untouched].
  set (rest := c_rest (fl_read f2 (negb a))).
  destruct ((0 <? length rest)%nat && negb malloc_ok); [by apply Hfail, kept_untouched|].
  pose proof (erase_other (negb a) f2 a) as K3. pose proof (erase_done (negb a) f2) as Kdone. pose proof (save_writes_done s f2) as K4. fold a in K4.
  assert (Hhalf : half_erased s <-> fst (flash_sect_erase (negb a) f2) <> 0) by (unfold half_erased; by rewrite Hun).
  destruct (flash_sect_erase (negb a) f2) as [r3 f3]. cbn [fst snd] in K3, K4, Kdone, Hhalf. rewrite K2 in K3.
  specialize (K3 ltac:(by destruct a)).
  destruct (Z.eqb_spec r3 0) as [->|Hr3]; cbn [negb].
  2:{ apply Hfail. unfold kept, flags_left. fold a. rewrite K3. split; [done|]. split; [by left|]. intros _. split; [by left|].
      right. left. by apply Hhalf. }
  specialize (K4 f3 Hram K2 eq_refl eq_refl). specialize (Kdone eq_refl). rewrite K2 in Kdone.
  pose proof (save_writes_kept s f3 Hram K3 Kdone) as K5.
  destruct (write_all (save_writes s) f3) as [r4 f4]. cbn [fst snd] in K4, K5.
  destruct (Z.eqb_spec r4 0) as [->|]; cbn [negb]; [|by apply Hfail].
  destruct (K4 eq_refl) as [K6 K7]. fold rest in K6. rewrite K2 in K7.
  assert (Hrest : Forall byte rest) by (unfold rest; rewrite K2; apply Hram).
  assert (Er : c_rest (fl_read (red_flash s) (negb a)) = rest) by (unfold rest; by rewrite K2).
  destruct (Nat.ltb_spec 0 (length rest)) as [Hup|Hup].
  - pose proof (write_rest_kept s rest f4 K5) as K8. fold a in K8. specialize (K8 ltac:(by rewrite K6)).
    pose proof (write_other rest (negb a) P_rest f4 a ltac:(by destruct a)) as K10.
    pose proof (write_done rest (negb a) P_rest f4) as K9.
    destruct (flash_write rest (negb a) P_rest f4) as [r5 f5]. cbn [fst snd] in K8, K9, K10.
    destruct (Z.eqb_spec r5 0) as [->|]; cbn [negb]; [|by apply Hfail].
    specialize (K9 eq_refl). destruct (save_done_saved s f5 0 true) as (f' & E & Hs).
    { assert (E9 : fl_read f5 (negb a) = Copy (le32_bytes (ram_crc s)) [ACTIVE_FLAG] (ram_data s) rest).
      { rewrite K9, K6. cbn [set_part get_part c_crc c_flags c_data c_rest]. by rewrite program_erased. }
      split; [done|]. fold a. cbv zeta. intros _. by rewrite E9, K10, K7, Er. }
    exists 0, f', true. by split_and!.
  - assert (rest = []) as E0 by (destruct rest; [done|simpl in Hup; lia]). cbn [negb Z.eqb].
    destruct (save_done_saved s f4 0 true) as (f' & E & Hs).
    { split; [done|]. fold a. cbv zeta. intros _. by rewrite K6, K7, Er, E0. }
    exists 0, f', true. by split_and!.
Qed.

(** The state after a reset: nothing chosen yet, [n] bytes for the data. *)
Definition power_on (n : nat) (f : F) : red_state F := Red f false At_default 0 0 (replicate n 0).

Lemma choose_copy_sound ok1 ok2 f1 f2 a v :
  choose_copy ok1 ok2 f1 f2 = Some (a, v) ->
  match a with
  | At_copy w => (if w then ok2 else ok1) = true /\ v <> 0
  | At_default => ok1 = false /\ ok2 = false /\ v = 0
  end.
Proof.
  unfold choose_copy. destruct ok1, ok2; cbn [andb negb]; try (intros [= <- <-]; done).
  destruct ((f1 =? ACTIVE_FLAG) && (f2 =? OBSOLETE_FLAG)), ((f1 =? OBSOLETE_FLAG) && (f2 =? ACTIVE_FLAG)),
    (f1 =? f2), (f1 =? 0xFF), (f2 =? 0xFF); cbv iota; try done; by intros [= <- <-].
Qed.

Lemma choose_copy_none ok1 ok2 f1 f2 :
  choose_copy ok1 ok2 f1 f2 = None <->
  ok1 = true /\ ok2 = true /\ f1 <> f2 /\ f1 <> 0xFF /\ f2 <> 0xFF /\
  ~ (f1 = ACTIVE_FLAG /\ f2 = OBSOLETE_FLAG) /\ ~ (f1 = OBSOLETE_FLAG /\ f2 = ACTIVE_FLAG).
Proof.
  unfold choose_copy, ACTIVE_FLAG, OBSOLETE_FLAG.
  destruct ok1, ok2; cbn [andb negb]; try (split; [done|intros; intuition done]).
  repeat case_match; split; try done; intros; rewrite ?andb_true_iff, ?andb_false_iff, ?Z.eqb_eq, ?Z.eqb_neq in *;
    intuition lia.
Qed.

Definition known_flag (c : env_copy) : Prop := flag_of c = 0 \/ flag_of c = 1 \/ flag_of c = 0xFF.

(** [env_init] with two copies.  A copy it chooses has a good checksum; the
    default is for two bad ones; no branch applies exactly to two good copies
    with different flags of which none is erased and that are not one active
    and one obsolete: then nothing is chosen at all, and what a reset left,
    the built-in default, stays in force. *)
Theorem env_init_redund_correct n f :
  let ok w := crc_ok (fl_read f w) in let flag w := flag_of (fl_read f w) in
  let '(rc, s) := env_init_redund (power_on n f) in
  rc = 0 /\ red_flash s = f /\
  (forall w, env_addr s = At_copy w -> ok w = true /\ red_valid s <> 0) /\
  (env_addr s = At_default -> red_valid s = 0 /\
     (ok false = false /\ ok true = false \/
      ok false = true /\ ok true = true /\ flag false <> flag true /\ flag false <> 0xFF /\ flag true <> 0xFF)) /\
  (ok false || ok true = true -> known_flag (fl_read f false) -> known_flag (fl_read f true) ->
     exists w, env_addr s = At_copy w).
Proof.
  cbv zeta. unfold env_init_redund, power_on. cbn [red_flash].
  pose proof (choose_copy_sound (crc_ok (fl_read f false)) (crc_ok (fl_read f true))
    (flag_of (fl_read f false)) (flag_of (fl_read f true))) as Hs.
  pose proof (choose_copy_none (crc_ok (fl_read f false)) (crc_ok (fl_read f true))
    (flag_of (fl_read f false)) (flag_of (fl_read f true))) as Hn.
  unfold known_flag. destruct (choose_copy _ _ _ _) as [[[w|] v]|] eqn:E; cbn [with_choice env_addr red_flash red_valid].
  - specialize (Hs _ _ eq_refl). cbn in Hs. split_and!; try done.
    + intros w' [= <-]. destruct w; tauto.
    + intros _ _ _. by exists w.
  - specialize (Hs _ _ eq_refl). cbn in Hs. split_and!; try done; [intuition|].
    intros Hok. destruct Hs as (Hs1 & Hs2 & _). rewrite Hs1, Hs2 in Hok. done.
  - apply proj1 in Hn. specialize (Hn eq_refl). unfold ACTIVE_FLAG, OBSOLETE_FLAG in Hn.
    split_and!; try done; [intros _; split; [done|right; intuition]|]. intros _ H1 H2. exfalso. intuition congruence.
Qed.

(** The state in which the board runs: the copy in use is good and active, the other bad
    or obsolete. *)
Definition in_use (s : red_state F) : Prop :=
  let cur := fl_read (red_flash s) (flash_addr s) in let other := fl_read (red_flash s) (negb (flash_addr s)) in
  crc_ok cur = true /\ flag_of cur = ACTIVE_FLAG /\ (crc_ok other = true -> flag_of other = OBSOLETE_FLAG).

(** A copy in the middle of being erased or written: not what it was before, and cut short
    in the erase, in the data or in the checksum. *)
Definition torn (s : red_state F) (c : env_copy) : Prop :=
  c <> fl_read (red_flash s) (negb (flash_addr s)) /\
  (half_erased s \/ c_data c <> ram_data s \/ c_crc c <> le32_bytes (ram_crc s)).

(** C1: Whatever operation of [saveenv] fails, at the copy it works on, after any part of
    its work: the next [env_init] finds a copy with a good checksum, which holds the old
    environment or the one being saved.  The board starts from a good active copy, the
    other one being bad or obsolete; the device programs a single byte entirely or not at
    all; and a torn copy does not have the checksum of its data by accident. *)
Theorem saveenv_redund_safe malloc_ok (s : red_state F) :
  ram_ok s -> in_use s -> flag_atomic ->
  let f' := red_flash (snd (saveenv_redund malloc_ok s)) in
  (torn s (fl_read f' (negb (flash_addr s))) -> crc_ok (fl_read f' (negb (flash_addr s))) = false) ->
  let s2 := snd (env_init_redund (power_on (length (ram_data s)) f')) in
  red_valid s2 <> 0 /\ exists w, env_addr s2 = At_copy w /\ crc_ok (fl_read f' w) = true /\
    (c_data (fl_read f' w) = c_data (fl_read (red_flash s) (flash_addr s)) \/ c_data (fl_read f' w) = ram_data s).
Proof.
  intros Hram (Hok & Hact & Hobs) Hat f' Htorn s2. set (a := flash_addr s) in *.
  destruct (saveenv_redund_saved malloc_ok s Hram) as (rc & f1 & sw & E & ((Hsame & Hord & Hflags) & _) & _).
  assert (Ef : f' = f1) by (unfold f'; rewrite E; done). rewrite <- Ef in Hsame, Hord, Hflags. fold a in Hsame, Hord.
  destruct (Hflags Hat) as [Hfa Hfo]. fold a in Hfa, Hfo. rewrite Hact in Hfa.
  assert (Hok' : crc_ok (fl_read f' a) = true).
  { unfold crc_ok in *. by destruct Hsame as (-> & -> & _). }
  (* a good other copy: the old one beside the untouched one in use, or the whole new one *)
  assert (Hcase : crc_ok (fl_read f' (negb a)) = true ->
    (flag_of (fl_read f' a) = ACTIVE_FLAG /\ flag_of (fl_read f' (negb a)) = OBSOLETE_FLAG) \/
    c_data (fl_read f' (negb a)) = ram_data s /\
    (flag_of (fl_read f' (negb a)) = 0xFF \/ flag_of (fl_read f' (negb a)) = ACTIVE_FLAG \/
     flag_of (fl_read f' (negb a)) = OBSOLETE_FLAG)).
  { intros Hc. destruct (decide (fl_read f' (negb a) = fl_read (red_flash s) (negb a))) as [Eo|Hne].
    - pose proof Hc as Hc'. rewrite Eo in Hc'. specialize (Hobs Hc'). rewrite <- Eo in Hobs.
      destruct Hord as [Ea|[Hd _]]; [left; by rewrite Ea|right; tauto].
    - right. destruct (decide (c_data (fl_read f' (negb a)) = ram_data s)) as [Hd|Hd].
      + split; [done|]. destruct Hfo as [?|[Hh|?]]; [done| |tauto]. rewrite Htorn in Hc; [done|split; [done|by left]].
      + rewrite Htorn in Hc; [done|split; [done|tauto]]. }
  pose proof (choose_copy_sound (crc_ok (fl_read f' false)) (crc_ok (fl_read f' true))
    (flag_of (fl_read f' false)) (flag_of (fl_read f' true))) as Hs.
  pose proof (choose_copy_none (crc_ok (fl_read f' false)) (crc_ok (fl_read f' true))
    (flag_of (fl_read f' false)) (flag_of (fl_read f' true))) as Hn.
  assert (Hpick : forall v, choose_copy (crc_ok (fl_read f' false)) (crc_ok (fl_read f' true)) (flag_of (fl_read f' false)) (flag_of (fl_read f' true)) = Some (At_copy (negb a), v) ->
    c_data (fl_read f' (negb a)) = ram_data s).
  { intros v Ev. destruct (decide (c_data (fl_read f' (negb a)) = ram_data s)) as [|Hd]; [done|exfalso].
    destruct (crc_ok (fl_read f' (negb a))) eqn:Ec.
    - destruct (Hcase eq_refl) as [[F1 F2]|[? _]]; [|done]. unfold choose_copy in Ev. destruct a; cbn [negb] in *; rewrite Ec, Hok', F1, F2 in Ev; done.
    - rewrite Ev in Hs. destruct (Hs _ _ eq_refl) as [Hw _]. destruct a; cbn [negb] in *; congruence. }
  unfold s2, env_init_redund, power_on. cbn [red_flash].
  destruct (choose_copy _ _ _ _) as [[p v]|] eqn:Ec.
  - specialize (Hs _ _ eq_refl). cbn [snd with_choice env_addr red_valid]. destruct p as [w|].
    + destruct Hs as [Hw Hv]. split; [done|]. exists w. split; [done|]. split; [by destruct w|].
      destruct (decide (w = a)) as [->|Hne]; [left; apply Hsame|right].
      assert (w = negb a) as -> by (by destruct w, a). by eapply Hpick.
    + destruct Hs as (H1 & H2 & _). destruct a; congruence.
  - apply proj1 in Hn. destruct (Hn eq_refl) as (O1 & O2 & N1 & N2 & N3 & N4 & N5). exfalso.
    unfold ACTIVE_FLAG, OBSOLETE_FLAG in *.
    assert (Ho : crc_ok (fl_read f' (negb a)) = true) by (by destruct a).
    destruct a; cbn [negb] in *; destruct (Hcase Ho) as [[? ?]|[_ ?]]; lia.
Qed.

(** A [saveenv] that ends with the copies swapped reports success, keeps the
    rest of the sector, and after a reset [env_init] and [env_relocate] bring
    back exactly the saved environment without touching the flash. *)
Theorem saveenv_redund_reload malloc_ok (s : red_state F) default :
  ram_ok s -> ram_crc s = crc32 0 0 (ram_data s) ->
  flash_addr (snd (saveenv_redund malloc_ok s)) <> flash_addr s ->
  let '(rc, s1) := saveenv_redund malloc_ok s in
  let s2 := snd (env_init_redund (power_on (length (ram_data s)) (red_flash s1))) in
  let s3 := env_relocate_redund default s2 in
  rc = 0 /\ env_addr s2 = At_copy (flash_addr s1) /\ red_valid s2 = 1 /\
  ram_data s3 = ram_data s /\ ram_crc s3 = ram_crc s /\ red_valid s3 = 1 /\ flash_addr s3 = flash_addr s1 /\
  red_flash s3 = red_flash s1 /\
  c_rest (fl_read (red_flash s1) (flash_addr s1)) = c_rest (fl_read (red_flash s) (flash_addr s1)).
Proof.
  intros Hram Hcrc. set (a := flash_addr s).
  destruct (saveenv_redund_saved malloc_ok s Hram) as (rc & f1 & sw & -> & (_ & Hdone) & Hrc). cbn [snd].
  destruct sw; [|done]. intros _. specialize (Hdone eq_refl). fold a in Hdone. destruct Hdone as [Hnew Hold].
  cbn [with_flash with_flash_addr red_flash flash_addr]. fold a.
  destruct Hram as (_ & Hc & _).
  assert (Hok : crc_ok (fl_read f1 (negb a)) = true).
  { unfold crc_ok. rewrite Hnew. cbn [c_data c_crc]. rewrite le32_roundtrip by done. apply Z.eqb_eq. congruence. }
  assert (Hfn : flag_of (fl_read f1 (negb a)) = ACTIVE_FLAG) by (by rewrite Hnew).
  assert (Hfo : flag_of (fl_read f1 a) = OBSOLETE_FLAG) by (by rewrite Hold).
  assert (Hinit : env_init_redund (power_on (length (ram_data s)) f1) =
    (0, with_choice (power_on (length (ram_data s)) f1) (At_copy (negb a)) 1)).
  { unfold env_init_redund. cbn [power_on red_flash]. unfold choose_copy.
    destruct a; cbn [negb] in *; rewrite Hok, Hfn, Hfo;
      [by destruct (crc_ok (fl_read f1 true))|by destruct (crc_ok (fl_read f1 false))]. }
  rewrite Hinit. cbn [snd with_choice env_addr red_valid]. unfold env_relocate_redund. cbn [red_valid Z.eqb].
  unfold env_relocate_spec_redund, with_choice, power_on. cbn [env_addr flash_addr red_flash ram_crc ram_data].
  assert (Hsel : (if decide (At_copy (negb a) = At_copy false)
          then Red f1 false (At_copy (negb a)) 1 0 (replicate (length (ram_data s)) 0)
          else with_flash_addr (Red f1 false (At_copy (negb a)) 1 0 (replicate (length (ram_data s)) 0)) (negb false)) =
    Red f1 (negb a) (At_copy (negb a)) 1 0 (replicate (length (ram_data s)) 0)).
  { destruct a; cbn [negb]; [by rewrite decide_True|by rewrite decide_False]. }
  rewrite !Hsel. cbn [flash_addr red_flash]. rewrite negb_involutive, Hfo. cbn [Z.eqb OBSOLETE_FLAG negb andb].
  cbv iota. cbn [red_flash]. rewrite Hfn. change (negb (ACTIVE_FLAG =? ACTIVE_FLAG)) with false. cbn [andb].
  cbv iota. cbn [with_ram red_flash ram_data ram_crc red_valid flash_addr].
  rewrite Hnew. cbn [c_crc c_data c_rest]. rewrite le32_roundtrip by done. split_and!; try done. by apply Hrc.
Qed.

End Redundant_proofs.

(** ** Saving with one copy *)

Section Single_proofs.
Context {F : Type}.
Context (sector : F -> list Z).
Context (protect1 : bool -> F -> Z * F) (erase1 : F -> Z * F) (write1 : list Z -> F -> Z * F).
Context (offset : nat).
Context (protect1_keeps : forall b f, sector (snd (protect1 b f)) = sector f).
Context (erase1_done : forall f, fst (erase1 f) = 0 ->
  sector (snd (erase1 f)) = replicate (length (sector f)) 255).
Context (write1_done : forall l f, fst (write1 l f) = 0 -> sector (snd (write1 l f)) = program (sector f) l).

Definition save_buffer (e : env_state) (f : F) : list Z :=
  take offset (sector f) ++ env_bytes e ++ drop (offset + length (env_bytes e)) (sector f).

Lemma saveenv_single_sector (e : env_state) (f : F) :
  Forall byte (env_data e) -> Forall byte (sector f) -> (offset + length (env_bytes e) <= length (sector f))%nat ->
  fst (saveenv_single sector protect1 erase1 write1 offset e f) = 0 ->
  sector (snd (saveenv_single sector protect1 erase1 write1 offset e f)) = save_buffer e f.
Proof.
  intros Hb Hs Hlen. unfold saveenv_single.
  pose proof (protect1_keeps false f) as K1. destruct (protect1 false f) as [r1 f1]. cbn [snd] in K1.
  destruct (r1 =? 0); cbn [negb]; [|done].
  pose proof (erase1_done f1) as K2. destruct (erase1 f1) as [r2 f2]. cbn [fst snd] in K2.
  destruct (Z.eqb_spec r2 0) as [->|]; cbn [negb]; [|done]. specialize (K2 eq_refl).
  fold (save_buffer e f).
  pose proof (write1_done (save_buffer e f) f2) as K3. destruct (write1 (save_buffer e f) f2) as [r3 f3].
  cbn [fst snd] in K3. pose proof (protect1_keeps true f3) as K4. destruct (protect1 true f3) as [r4 f4].
  cbn [fst snd] in *. destruct (Z.eqb_spec r3 0) as [->|]; cbn [negb]; [|done]. intros _.
  rewrite K4, K3, K2, K1 by done. apply program_erased.
  - unfold save_buffer, env_bytes. repeat apply Forall_app_2; try done;
      [by apply Forall_take|by apply le32_bytes_byte|by apply Forall_drop].
  - unfold save_buffer. rewrite !length_app, length_take, length_drop. lia.
Qed.

(** The environment is found again in a sector that holds [save_buffer]. *)
Lemma reload_saved (e e0 : env_state) (f f' : F) l :
  env_repr e l -> Forall byte (env_data e) -> crc e = crc32 0 (env_ptr e + 4) (env_data e) ->
  (offset + length (env_bytes e) <= length (sector f))%nat ->
  length (env_data e0) = length (env_data e) -> 0 <= crc e < 4294967296 ->
  sector f' = save_buffer e f ->
  let e1 := env_init_single sector offset e0 f' in
  let e2 := env_relocate_single sector offset e1 f' in
  env_valid e1 = 1 /\ env_data e2 = env_data e /\ crc e2 = crc e /\ env_repr e2 l.
Proof.
  intros Hr Hb Hcrc Hlen Hl0 Hc Hsec e1 e2.
  assert (Hoff : length (take offset (sector f)) = offset) by (rewrite length_take; lia).
  assert (Hm : stored sector offset (4 + length (env_data e0)) f' = env_bytes e).
  { unfold stored. rewrite Hsec. unfold save_buffer. rewrite drop_app_length' by done.
    apply take_app_length'. rewrite Hl0. done. }
  assert (H4 : take 4 (env_bytes e) = le32_bytes (crc e)) by done.
  assert (Hd : drop 4 (env_bytes e) = env_data e) by done.
  assert (He1 : e1 = with_valid e0 1).
  { unfold e1, env_init_single. rewrite Hm, H4, Hd, le32_roundtrip by done.
    rewrite Hcrc, !crc32_bytes by done. by rewrite Z.eqb_refl. }
  assert (He2 : e2 = with_crc (with_data e1 (env_data e)) (crc e)).
  { unfold e2, env_relocate_single. rewrite He1. cbn [env_valid with_valid Z.eqb].
    unfold env_relocate_spec_single. cbn [env_data with_valid]. by rewrite Hm, H4, Hd, le32_roundtrip. }
  rewrite He2, He1. split_and!; try done. destruct Hr as (_ & H1 & H2 & H3). by split_and!.
Qed.

(** C13: A successful [saveenv] writes the environment into its place and leaves the
    rest of the sector as it was; after a reset [env_init] accepts it and
    [env_relocate] brings back the same data and checksum, so the same
    variables. *)
Theorem saveenv_single_reload (e e0 : env_state) (f : F) l :
  env_repr e l -> Forall byte (env_data e) -> crc e = crc32 0 (env_ptr e + 4) (env_data e) ->
  Forall byte (sector f) -> (offset + length (env_bytes e) <= length (sector f))%nat ->
  length (env_data e0) = length (env_data e) -> 0 <= crc e < 4294967296 ->
  fst (saveenv_single sector protect1 erase1 write1 offset e f) = 0 ->
  let f' := snd (saveenv_single sector protect1 erase1 write1 offset e f) in
  let e1 := env_init_single sector offset e0 f' in
  let e2 := env_relocate_single sector offset e1 f' in
  env_valid e1 = 1 /\ env_data e2 = env_data e /\ crc e2 = crc e /\ env_repr e2 l /\
  take offset (sector f') = take offset (sector f) /\
  drop (offset + length (env_bytes e)) (sector f') = drop (offset + length (env_bytes e)) (sector f).
Proof.
  intros Hr Hb Hcrc Hs Hlen Hl0 Hc Hrc f' e1 e2.
  pose proof (saveenv_single_sector e f Hb Hs Hlen Hrc) as Hsec. fold f' in Hsec.
  destruct (reload_saved e e0 f f' l Hr Hb Hcrc Hlen Hl0 Hc Hsec) as (H1 & H2 & H3 & H4).
  assert (Hoff : length (take offset (sector f)) = offset) by (rewrite length_take; lia).
  split_and!; try done.
  - rewrite Hsec. unfold save_buffer. by apply take_app_length'.
  - rewrite Hsec. unfold save_buffer. rewrite <- drop_drop, drop_app_length' by done. by apply drop_app_length'.
Qed.

End Single_proofs.

(** ** A NOR flash

    The instance the theorems are tried on: two sectors, and for every
    operation the result and the number of bytes done when it fails. *)

Record nor := Nor { nor_first : env_copy; nor_second : env_copy; oracle : list (Z * nat) }.

Definition nor_read (f : nor) (w : bool) : env_copy := if w then nor_second f else nor_first f.
Definition nor_set (f : nor) (w : bool) (c : env_copy) : nor :=
  if w then Nor (nor_first f) c (tl (oracle f)) else Nor c (nor_second f) (tl (oracle f)).
Definition nor_result (f : nor) : Z * nat := hd (0, 0%nat) (oracle f).

(** A failed write has programmed some first bytes. *)
Definition nor_written (k : nat) (old l : list Z) : list Z := program old (take k l) ++ drop k old.

#[export] Instance nor_dev : FlashDev nor := {
  fl_read := nor_read;
  flash_sect_protect _ w f := (fst (nor_result f), nor_set f w (nor_read f w));
  flash_sect_erase w f :=
    let '(r, k) := nor_result f in
    let c := nor_read f w in
    (r, nor_set f w (if r =? 0 then erased c
                     else set_part P_data (replicate (min k (length (c_data c))) 255 ++ drop k (c_data c)) c));
  flash_write l w p f :=
    let '(r, k) := nor_result f in
    let c := nor_read f w in
    (r, nor_set f w (set_part p (if r =? 0 then program (get_part p c) l
                                 else nor_written k (get_part p c) l) c))
}.

Lemma nor_read_set f w c w' : nor_read (nor_set f w c) w' = if decide (w' = w) then c else nor_read f w'.
Proof. by destruct w, w'. Qed.

#[export] Instance nor_laws : FlashLaws nor.
Proof.
  split; cbn [flash_sect_protect flash_sect_erase flash_write fl_read nor_dev].
  - intros b w f. cbn [snd]. by destruct w, f.
  - intros w f w' Hne. destruct (nor_result f) as [r k]. cbn [snd]. by rewrite nor_read_set, decide_False.
  - intros w f. destruct (nor_result f) as [r k]. cbn [fst snd]. intros ->. by rewrite nor_read_set, decide_True.
  - intros l w p f w' Hne. destruct (nor_result f) as [r k]. cbn [snd]. by rewrite nor_read_set, decide_False.
  - intros l w p f q Hne. destruct (nor_result f) as [r k]. cbn [snd]. rewrite nor_read_set, decide_True by done.
    by rewrite get_set_part, decide_False.
  - intros l w p f. destruct (nor_result f) as [r k]. cbn [fst snd]. intros ->.
    by rewrite nor_read_set, decide_True.
Qed.

(** ** Concrete runs *)

Definition old_data : list Z := zs "a=0" ++ [0; 0; 0; 0; 0].
Definition new_data : list Z := zs "a=12" ++ [0; 0; 0; 0].
Definition full_copy (flag : Z) (d rest : list Z) : env_copy := Copy (le32_bytes (crc32 0 0 d)) [flag] d rest.

(** The first copy is in use, the second obsolete, and [new_data] is to be saved. *)
Definition bench_red (oracle : list (Z * nat)) : red_state nor :=
  Red (Nor (full_copy 1 old_data [7; 7]) (full_copy 0 (replicate 8 3) [8; 9]) oracle) false (At_copy false) 1
    (crc32 0 0 new_data) new_data.

Lemma bench_red_ok oracle : ram_ok (bench_red oracle).
Proof.
  split; [|split].
  - unfold bench_red, byte. cbn [ram_data]. apply (bool_decide_unpack _). vm_compute. exact I.
  - vm_compute. split; congruence.
  - intros []; (split_and!; [reflexivity..|]); apply (bool_decide_unpack _); vm_compute; exact I.
Defined.

(** Cut while the data are written: the old environment is found. *)
Definition cut : list (Z * nat) := [(0, 0%nat); (0, 0%nat); (0, 0%nat); (1, 5%nat)].

(** A failed write of one byte programs it or not. *)
Lemma nor_flag_atomic : flag_atomic (F := nor).
Proof.
  intros b w f. cbv zeta. cbn [fl_read flash_write nor_dev]. destruct (nor_result f) as [r k]. cbn [snd].
  rewrite nor_read_set, decide_True by done. unfold flag_of. cbn [set_part get_part c_flags].
  destruct (c_flags (nor_read f w)) as [|x l]; [left; by destruct (r =? 0), k|].
  destruct (r =? 0); [by right|]. destruct k; [by left|by right].
Defined.

Lemma saveenv_redund_safe_witness :
  ram_ok (bench_red cut) /\ in_use (bench_red cut) /\
  let f' := red_flash (snd (saveenv_redund true (bench_red cut))) in
  let s2 := snd (env_init_redund (power_on 8 f')) in
  red_valid s2 <> 0 /\ exists w, env_addr s2 = At_copy w /\ crc_ok (fl_read f' w) = true /\
    (c_data (fl_read f' w) = old_data \/ c_data (fl_read f' w) = new_data).
Proof.
  assert (Hu : in_use (bench_red cut)) by (vm_compute; done).
  split; [apply bench_red_ok|]. split; [exact Hu|].
  apply (saveenv_redund_safe true (bench_red cut) (bench_red_ok cut) Hu nor_flag_atomic).
  intros _. vm_compute. reflexivity.
Defined.

Lemma saveenv_redund_reload_witness :
  ram_ok (bench_red []) /\ flash_addr (snd (saveenv_redund true (bench_red []))) <> flash_addr (bench_red []) /\
  let '(rc, s1) := saveenv_redund true (bench_red []) in
  let s2 := snd (env_init_redund (power_on 8 (red_flash s1))) in
  rc = 0 /\ ram_data (env_relocate_redund [0; 0] s2) = new_data.
Proof.
  split; [apply bench_red_ok|]. split; [vm_compute; discriminate|].
  pose proof (saveenv_redund_reload true (bench_red []) [0; 0] (bench_red_ok []) eq_refl) as H.
  assert (Hne : flash_addr (snd (saveenv_redund true (bench_red []))) <> flash_addr (bench_red []))
    by (vm_compute; discriminate).
  specialize (H Hne). destruct (saveenv_redund true (bench_red [])) as [rc s1].
  destruct H as (H1 & _ & _ & H2 & _). split; [exact H1|exact H2].
Defined.

(** A flag byte cut in the middle: both copies are good, none is chosen. *)
Example env_init_redund_gap :
  let f := Nor (full_copy 0 old_data []) (full_copy 0x7F new_data []) [] in
  env_init_redund (power_on 8 f) = (0, power_on 8 f).
Proof. vm_compute. reflexivity. Qed.

(** The rest of the sector cannot be restored: [saveenv] still answers 0,
    without taking the new copy into use. *)
Example saveenv_redund_restore_fails :
  let '(rc, s1) := saveenv_redund true (bench_red (replicate 7 (0, 0%nat) ++ [(1, 0%nat)])) in
  rc = 0 /\ flash_addr s1 = false /\ c_rest (fl_read (red_flash s1) true) = [255; 255].
Proof. vm_compute. split_and!; reflexivity. Qed.

(** The single copy in a sector of 40 bytes, at offset 4. *)
Definition one_sector : list Z -> list Z := fun f => f.
Definition ok_protect : bool -> list Z -> Z * list Z := fun _ f => (0, f).
Definition ok_erase : list Z -> Z * list Z := fun f => (0, replicate (length f) 255).
Definition ok_write : list Z -> list Z -> Z * list Z := fun l f => (0, program f l).
Definition bench_env : env_state := make_env 32 two_vars.

Lemma saveenv_single_reload_witness :
  env_repr bench_env two_vars /\
  fst (saveenv_single one_sector ok_protect ok_erase ok_write 4 bench_env (replicate 44 7)) = 0 /\
  let f' := snd (saveenv_single one_sector ok_protect ok_erase ok_write 4 bench_env (replicate 44 7)) in
  env_valid (env_init_single one_sector 4 bench_env f') = 1.
Proof.
  assert (Hr : env_repr bench_env two_vars).
  { split; [by vm_compute|]. split; [|split].
    - unfold two_vars, good_entry, good_name. apply (bool_decide_unpack _). vm_compute. exact I.
    - apply (bool_decide_unpack _). vm_compute. exact I.
    - eexists (replicate _ 0). reflexivity. }
  split; [exact Hr|]. split; [vm_compute; reflexivity|].
  apply (saveenv_single_reload one_sector ok_protect ok_erase ok_write 4 (fun _ _ => eq_refl) (fun _ _ => eq_refl)
    (fun _ _ _ => eq_refl) bench_env bench_env (replicate 44 7) two_vars Hr).
  - unfold byte. apply (bool_decide_unpack _). vm_compute. exact I.
  - vm_compute. reflexivity.
  - unfold byte. apply (bool_decide_unpack _). vm_compute. exact I.
  - vm_compute. repeat constructor.
  - reflexivity.
  - vm_compute. split; congruence.
  - vm_compute. reflexivity.
Defined.
