(* ===== verification/Command.v ===== *)
(** * The command table (common/command.c)

    Looking up a command, the help texts, and the completion of a line.
    Strings are the lists of their bytes before the NUL; a command table is a
    list of entries and a pointer into it an index.  Comparisons use
    [CString.strcmp_spec], which [CString.strcmp_loop_ok] shows to be what
    [strcmp] computes.  Text for the console is returned. *)

From Stdlib Require Import Sorting.Sorted.
From S2P Require Import Prelude.
From S2P Require Import Ctype.
From S2P Require Import CString.
From S2P Require Import Vsprintf.
From S2P Require Import Env.

(** ** The table *)

(** The completion functions there are. *)
Inductive completer := Var_complete.

(** [cmd] stands for the function pointer. *)
Record cmd_tbl := Cmd {
  name : list Z;
  maxargs : Z;
  repeatable : Z;
  cmd : nat;
  usage : option (list Z);
  help : option (list Z);
  complete : option completer
}.

Definition CONFIG_SYS_HELP_CMD_WIDTH : Z := 8.
Definition CONFIG_SYS_MAXARGS : nat := 16.

(** The characters before the first [c], all of them without one. *)
Fixpoint before (c : Z) (s : list Z) : list Z :=
  match s with
  | [] => []
  | x :: s' => if x =? c then [] else x :: before c s'
  end.

(** [strncmp] of lib_generic/string.c. *)
Fixpoint strncmp_str (cs ct : list Z) (count : nat) : Z :=
  match count with
  | O => 0
  | S count' =>
      let __res := s8 (s8 (deref cs) - s8 (deref ct)) in
      if negb (__res =? 0) || (deref cs =? 0) then __res else strncmp_str (tl cs) (tl ct) count'
  end.

Fixpoint find_cmd_loop (cmd : list Z) (len : nat) (table : list cmd_tbl) (i cmdtp_temp n_found : nat)
    : option nat :=
  match table with
  | [] => if (n_found =? 1)%nat then Some cmdtp_temp else None
  | cmdtp :: table =>
      if strncmp_str cmd (name cmdtp) len =? 0 then
        if (len =? length (name cmdtp))%nat then Some i
        else find_cmd_loop cmd len table (i + 1) i (n_found + 1)
      else find_cmd_loop cmd len table (i + 1) cmdtp_temp n_found
  end.

Definition find_cmd_tbl (cmd : list Z) (table : list cmd_tbl) : option nat :=
  find_cmd_loop cmd (length (before (ch ".") cmd)) table 0 0 0.

(** ** Help *)

Definition cmd_usage (cmdtp : cmd_tbl) : res (Z * list Z) :=
  '(u, _) ← sprintf true (zs "%s - %s" ++ [10; 10]) [A_str (Some (name cmdtp)); A_str (usage cmdtp)];
  '(h, _) ← sprintf true (zs "Usage:" ++ [10] ++ zs "%s ") [A_str (Some (name cmdtp))];
  match help cmdtp with
  | None => mret (1, u ++ h ++ zs "- No additional help available." ++ [10])
  | Some t => mret (0, u ++ h ++ t ++ [10])
  end.

(** One pass of the bubble sort over the first [n] + 1 entries: the array and
    the number of swaps. *)
Fixpoint bubble_pass (n j : nat) (cmd_array : list cmd_tbl) (swaps : nat) : res (list cmd_tbl * nat) :=
  match n with
  | O => mret (cmd_array, swaps)
  | S n' =>
      x ← arr_get cmd_array j;
      y ← arr_get cmd_array (j + 1);
      if 0 <? strcmp_spec (name x) (name y) then
        cmd_array ← arr_set cmd_array j y;
        cmd_array ← arr_set cmd_array (j + 1) x;
        bubble_pass n' (j + 1) cmd_array (swaps + 1)
      else bubble_pass n' (j + 1) cmd_array swaps
  end.

Fixpoint bubble_sort (i : nat) (cmd_array : list cmd_tbl) : res (list cmd_tbl) :=
  match i with
  | O => mret cmd_array
  | S i' =>
      '(cmd_array, swaps) ← bubble_pass i 0 cmd_array 0;
      if (swaps =? 0)%nat then mret cmd_array else bubble_sort i' cmd_array
  end.

Definition sort_commands (table : list cmd_tbl) : res (list cmd_tbl) := bubble_sort (length table - 1) table.

(** The short help of each command; [ctrlc] answers the polls of the keyboard. *)
Fixpoint short_help (cmd_array : list cmd_tbl) (ctrlc : list bool) (out : list Z) : res (Z * list Z) :=
  match cmd_array with
  | [] => mret (0, out)
  | c :: cmd_array =>
      if hd false ctrlc then mret (1, out)
      else
        match usage c with
        | None => short_help cmd_array (tl ctrlc) out
        | Some u =>
            '(t, _) ← sprintf true (zs "%-*s- %s" ++ [10])
                        [A_int CONFIG_SYS_HELP_CMD_WIDTH; A_str (Some (name c)); A_str (Some u)];
            short_help cmd_array (tl ctrlc) (out ++ t)
        end
  end.

Fixpoint long_help (table : list cmd_tbl) (args : list (list Z)) (rcode : Z) (out : list Z) : res (Z * list Z) :=
  match args with
  | [] => mret (rcode, out)
  | arg :: args =>
      match find_cmd_tbl arg table with
      | Some i =>
          c ← arr_get table i;
          '(r, t) ← cmd_usage c;
          long_help table args (Z.lor rcode r) (out ++ t)
      | None =>
          '(t, _) ← sprintf true (zs "Unknown command '%s' - try 'help' without arguments for list of all known commands"
                                  ++ [10; 10]) [A_str (Some arg)];
          long_help table args 1 (out ++ t)
      end
  end.

(** [args] are the arguments behind the command's name. *)
Definition _do_help (table : list cmd_tbl) (args : list (list Z)) (ctrlc : list bool) : res (Z * list Z) :=
  match args with
  | [] => l ← sort_commands table; short_help l ctrlc []
  | _ => long_help table args 0 []
  end.

(** ** Completion *)

Definition is_blank (c : Z) : bool := (c =? ch " ") || (c =? 9).

(** The end of the line counts as a blank. *)
Definition is_space (last_char : Z) : bool := (last_char =? 0) || is_blank last_char.

Definition var_complete (e : env_state) (argv : list (list Z)) (last_char maxv : Z) : res (list (list Z)) :=
  match argv with
  | [_] => if is_space last_char then env_complete e [] maxv 512 else mret []
  | [_; v] => if negb (is_space last_char) then env_complete e v maxv 512 else mret []
  | _ => mret []
  end.

Definition run_completer (c : completer) := match c with Var_complete => var_complete end.

Definition set_complete (c : cmd_tbl) (f : completer) : cmd_tbl :=
  Cmd (name c) (maxargs c) (repeatable c) (cmd c) (usage c) (help c) (Some f).

Definition install_auto_complete_handler (table : list cmd_tbl) (cmd : list Z) (f : completer) : list cmd_tbl :=
  match find_cmd_tbl cmd table with
  | None => table
  | Some i => alter (fun c => set_complete c f) i table
  end.

(** [cmd_run]: whether [CONFIG_CMD_RUN] is defined. *)
Definition install_auto_complete (cmd_run : bool) (table : list cmd_tbl) : list cmd_tbl :=
  let table := install_auto_complete_handler table (zs "printenv") Var_complete in
  let table := install_auto_complete_handler table (zs "setenv") Var_complete in
  if cmd_run then install_auto_complete_handler table (zs "run") Var_complete else table.

(** The full list of the names. *)
Fixpoint list_names (names : list (list Z)) (maxv : Z) (cmdv : list (list Z)) : list (list Z) :=
  match names with
  | [] => cmdv
  | n :: names =>
      if maxv - 2 <=? Z.of_nat (length cmdv) then cmdv ++ [zs "..."]
      else list_names names maxv (cmdv ++ [n])
  end.

(** The names that agree with the first [len] characters of [cmd]. *)
Fixpoint partial_matches (cmd : list Z) (len : nat) (names : list (list Z)) (maxv : Z) (cmdv : list (list Z))
    : list (list Z) :=
  match names with
  | [] => cmdv
  | n :: names =>
      if (length n <? len)%nat || negb (bool_decide (take len cmd = take len n))
      then partial_matches cmd len names maxv cmdv
      else if maxv - 2 <=? Z.of_nat (length cmdv) then cmdv ++ [zs "..."]
      else partial_matches cmd len names maxv (cmdv ++ [n])
  end.

(** The number returned and the strings in [cmdv]. *)
Definition complete_cmdv (e : env_state) (table : list cmd_tbl) (argv : list (list Z)) (last_char maxv : Z)
    : res (Z * list (list Z)) :=
  if maxv <? 2 then mret (-2, [])
  else
    match argv with
    | [] => let cmdv := list_names (map name table) maxv [] in mret (Z.of_nat (length cmdv), cmdv)
    | cmd :: args =>
        if (1 <? length argv)%nat || is_space last_char then
          match find_cmd_tbl cmd table with
          | None => mret (0, [])
          | Some i =>
              c ← arr_get table i;
              match complete c with
              | None => mret (0, [])
              | Some f =>
                  cmdv ← run_completer f e argv last_char maxv;
                  mret (Z.of_nat (length cmdv), cmdv)
              end
          end
        else
          let cmdv := partial_matches cmd (length (before (ch ".") cmd)) (map name table) maxv [] in
          mret (Z.of_nat (length cmdv), cmdv)
    end.

Fixpoint skip_blanks (s : list Z) : list Z :=
  match s with
  | [] => []
  | c :: s' => if is_blank c then skip_blanks s' else s
  end.

(** The word at the front and what follows it, from its blank on. *)
Fixpoint word_end (s : list Z) : list Z * list Z :=
  match s with
  | [] => ([], [])
  | c :: s' => if is_blank c then ([], s) else let '(w, r) := word_end s' in (c :: w, r)
  end.

(** At most [n] = [argvsz] - 1 words. *)
Fixpoint make_argv (n : nat) (s : list Z) : list (list Z) :=
  match n with
  | O => []
  | S n' =>
      match skip_blanks s with
      | [] => []
      | s =>
          let '(w, r) := word_end s in
          match r with
          | [] => [w]
          | _ :: r => w :: make_argv n' r
          end
      end
  end.

(** [i] starts at [linemax]; [sl] and [ll] are the lengths of separator and leader. *)
Fixpoint print_argv_loop (leader sep : list Z) (linemax : Z) (argv : list (list Z)) (i : Z) (out : list Z)
    : list Z :=
  match argv with
  | [] => out ++ [10]
  | a :: argv =>
      let ll := Z.of_nat (length leader) in
      let sl := Z.of_nat (length sep) in
      let len := Z.of_nat (length a) + sl in
      if linemax <=? i + len then print_argv_loop leader sep linemax argv (ll - sl + len) (out ++ [10] ++ leader ++ a)
      else print_argv_loop leader sep linemax argv (i + len) (out ++ sep ++ a)
  end.

Definition print_argv (banner : option (list Z)) (leader sep : list Z) (linemax : Z) (argv : list (list Z))
    : list Z :=
  let start := match banner with None => [] | Some b => [10] ++ b end in
  print_argv_loop leader sep linemax argv linemax start.

(** How many of the first [len] characters of [s] the string [t] agrees with. *)
Fixpoint common_len (len : nat) (s t : list Z) : nat :=
  match len with
  | O => O
  | S len' => if deref t =? deref s then S (common_len len' (tl s) (tl t)) else O
  end.

Definition find_common_prefix (argv : list (list Z)) : nat :=
  match argv with
  | [] => O
  | anchor :: argv => fold_left (fun len t => common_len len anchor t) argv (length anchor)
  end.

(** [cmdv[0] + k]: behind the string's NUL it is a fault. *)
Definition skip_chars (s : list Z) (k : nat) : res (list Z) :=
  if (k <=? length s)%nat then Ok (drop k s) else Fault.

(** [argv[argc - 1]]. *)
Definition last_arg (argv : list (list Z)) : res (list Z) := of_option (list.last argv).

Definition CONFIG_SYS_PROMPT : list Z := zs "DRAGON> ".

Record completed := Completed {
  ac_result : Z; ac_buf : list Z; ac_n : Z; ac_col : Z; ac_out : list Z
}.

(** [n] and [col] are [*np] and [*colp]. *)
Definition cmd_auto_complete (e : env_state) (table : list cmd_tbl) (prompt buf : list Z) (n col : Z)
    : res completed :=
  if negb (strcmp_spec prompt CONFIG_SYS_PROMPT =? 0) then mret (Completed 0 buf n col [])
  else if CONFIG_SYS_CBSIZE <=? Z.of_nat (length buf) then Fault
  else
    let last_char := default 0 (list.last buf) in
    let argv := make_argv CONFIG_SYS_MAXARGS buf in
    '(i, cmdv) ← complete_cmdv e table argv last_char 20;
    if i =? 0 then
      if (1 <? length argv)%nat then mret (Completed 0 buf n col []) else mret (Completed 1 buf n col [7])
    else
      s ← (if i =? 1 then
             w ← last_arg argv;
             s ← skip_chars (hd [] cmdv) (length w);
             mret (Some (s, zs " "))
           else
             let j := find_common_prefix cmdv in
             if (1 <? i) && negb (j =? 0)%nat then
               w ← last_arg argv;
               if (length w <? j)%nat then
                 s ← skip_chars (hd [] cmdv) (length w);
                 mret (Some (take (j - length w) s, []))
               else mret None
             else mret None);
      match s with
      | Some (s, sep) =>
          let k := Z.of_nat (length s + length sep) in
          if CONFIG_SYS_CBSIZE - 2 <=? n + k then mret (Completed 1 buf n col [7])
          else
            mret (Completed 1 (buf ++ s ++ sep) (n + k) (col + k)
                    (s ++ sep ++ (match sep with [] => [7] | _ => [] end)))
      | None => mret (Completed 1 buf n col (print_argv None (zs "  ") (zs " ") 78 cmdv ++ prompt ++ buf))
      end.

(** ** Size suffixes *)

Definition cmd_get_data_size (arg : list Z) (default_size : Z) : Z :=
  let len := length arg in
  if (2 <? len)%nat && (nth (len - 2) arg 0 =? ch ".") then
    let c := nth (len - 1) arg 0 in
    if c =? ch "b" then 1
    else if c =? ch "w" then 2
    else if c =? ch "l" then 4
    else if c =? ch "s" then -2
    else -1
  else default_size.

(** ** Looking up a command *)

Lemma strncmp_str_prefix : forall len cs ct,
  cstring cs -> cstring ct -> (len <= length cs)%nat ->
  strncmp_str cs ct len = 0 <-> take len ct = take len cs.
Proof.
  induction len as [|len IH]; intros cs ct Hs Ht Hlen; [done|].
  destruct cs as [|x cs]; [simpl in Hlen; lia|]. apply cstring_cons in Hs as [Hx Hs].
  unfold nonzero_byte in Hx. cbn [strncmp_str deref tl]. destruct (Z.eqb_spec x 0); [lia|]. rewrite orb_false_r.
  destruct ct as [|y ct]; cbn [deref tl take].
  - destruct (Z.eqb_spec (s8 (s8 x - s8 0)) 0) as [E|E]; cbn [negb].
    + apply s8_inj in E; [lia|unfold byte; lia..].
    + split; [done|discriminate].
  - apply cstring_cons in Ht as [Hy Ht]. unfold nonzero_byte in Hy.
    destruct (Z.eqb_spec (s8 (s8 x - s8 y)) 0) as [E|E]; cbn [negb].
    + apply s8_inj in E; [|unfold byte; lia..]. subst y. rewrite IH by (done || simpl in Hlen; lia).
      split; [by intros ->|by intros [= ->]].
    + split; [done|]. intros [= -> _]. by rewrite s8_self in E.
Qed.

Lemma before_length c s : (length (before c s) <= length s)%nat.
Proof. induction s as [|x s IH]; cbn [before length]; [done|]. destruct (x =? c); simpl; lia. Qed.

Lemma take_before c s : take (length (before c s)) s = before c s.
Proof. induction s as [|x s IH]; cbn [before]; [done|]. destruct (x =? c); [done|]. simpl. by rewrite IH. Qed.

(** What the loop compares: the name without its size suffix. *)
Definition command_key (cmd : list Z) : list Z := before (ch ".") cmd.

Lemma strncmp_key cmd n : cstring cmd -> cstring n ->
  (strncmp_str cmd n (length (command_key cmd)) =? 0) = has_prefix (command_key cmd) n.
Proof.
  intros Hc Hn. pose proof (strncmp_str_prefix (length (command_key cmd)) cmd n Hc Hn (before_length _ _)) as H.
  unfold has_prefix, command_key in *. rewrite take_before in H.
  destruct (Z.eqb_spec (strncmp_str cmd n (length (before (ch ".") cmd))) 0) as [E|E].
  - symmetry. apply bool_decide_eq_true. by apply H.
  - symmetry. apply bool_decide_eq_false. intros E2. by apply E, H.
Qed.

Lemma has_prefix_length p n : has_prefix p n = true -> (length p =? length n)%nat = true <-> n = p.
Proof.
  unfold has_prefix. rewrite bool_decide_eq_true, Nat.eqb_eq. intros H. split; [|by intros ->].
  intros E. rewrite take_ge in H by lia. done.
Qed.

Lemma has_prefix_refl p : has_prefix p p = true.
Proof. unfold has_prefix. apply bool_decide_eq_true. by apply take_ge. Qed.

Definition abbreviated (key : list Z) (c : cmd_tbl) : Prop := has_prefix key (name c) = true.
#[export] Instance abbreviated_dec key c : Decision (abbreviated key c).
Proof. unfold abbreviated. apply _. Defined.

(** [i] is the entry for [key] in the table: the first whose name is [key], or
    else the only one whose name begins with it. *)
Definition selects (key : list Z) (table : list cmd_tbl) (i : nat) : Prop :=
  exists c, table !! i = Some c /\
    ((name c = key /\ forall j d, (j < i)%nat -> table !! j = Some d -> name d <> key) \/
     ((key ∉ map name table) /\ abbreviated key c /\
      forall j d, table !! j = Some d -> abbreviated key d -> j = i)).

Lemma find_cmd_loop_spec cmd : cstring cmd -> forall rest pre temp,
  Forall (fun c => cstring (name c)) rest ->
  let key := command_key cmd in let k := length (filter (abbreviated key) pre) in
  key ∉ map name pre ->
  (k = 1%nat -> exists c, pre !! temp = Some c /\ abbreviated key c) ->
  match find_cmd_loop cmd (length key) rest (length pre) temp k with
  | Some i => selects key (pre ++ rest) i
  | None => (key ∉ map name (pre ++ rest)) /\ length (filter (abbreviated key) (pre ++ rest)) <> 1%nat
  end.
Proof.
  intros Hc. induction rest as [|c rest IH]; intros pre temp Hr key k Hpre Htemp; cbn [find_cmd_loop].
  - rewrite app_nil_r. destruct (Nat.eqb_spec k 1) as [E|E]; [|done].
    destruct (Htemp E) as (c & Hl & Ha). exists c. split; [done|]. right. split_and!; try done.
    intros j d Hj Hd. apply list_elem_of_split_length in Hl as (l1 & l2 & -> & ->).
    assert (Hf : filter (abbreviated key) l1 = [] /\ filter (abbreviated key) l2 = []).
    { unfold k in E. rewrite filter_app, filter_cons_True, length_app in E by done. simpl in E.
      split; apply nil_length_inv; lia. }
    destruct Hf as [F1 F2]. destruct (decide (j = length l1)) as [|Hne]; [done|]. exfalso.
    assert (Hin : d ∈ filter (abbreviated key) (l1 ++ l2)).
    { apply list_elem_of_filter. split; [done|]. apply elem_of_app.
      destruct (decide (j < length l1)%nat) as [Hlt|Hge].
      - left. rewrite lookup_app_l in Hj by done. by apply list_elem_of_lookup_2 in Hj.
      - right. rewrite lookup_app_r in Hj by lia. replace (j - length l1)%nat with (S (j - length l1 - 1)) in Hj by lia.
          simpl in Hj. by apply list_elem_of_lookup_2 in Hj. }
    rewrite filter_app, F1, F2 in Hin. by apply not_elem_of_nil in Hin.
  - apply Forall_cons in Hr as [Hcn Hr]. pose proof (strncmp_key cmd (name c) Hc Hcn) as Hk. fold key in Hk. rewrite Hk. clear Hk.
    replace (pre ++ c :: rest) with ((pre ++ [c]) ++ rest) by (by rewrite <- app_assoc).
    destruct (has_prefix key (name c)) eqn:Hp.
    + destruct (length key =? length (name c))%nat eqn:El.
      * apply (has_prefix_length _ _ Hp) in El. exists c. split.
        { rewrite <- app_assoc, lookup_app_r, Nat.sub_diag by lia. done. }
        left. split; [done|]. intros j d Hj Hd Hk. apply Hpre. rewrite <- Hk.
        rewrite <- app_assoc, lookup_app_l in Hd by done. apply list_elem_of_fmap. exists d. split; [done|].
        by apply list_elem_of_lookup_2 in Hd.
      * specialize (IH (pre ++ [c]) (length pre) Hr). cbv zeta in IH. fold key in IH.
        rewrite filter_app, filter_cons_True, filter_nil, !length_app in IH by done. cbn [length] in IH. apply IH.
        -- rewrite map_app, not_elem_of_app. split; [done|]. cbn [map]. rewrite list_elem_of_singleton.
           intros E. symmetry in E. apply (has_prefix_length _ _ Hp) in E. congruence.
        -- intros _. exists c. split; [|done]. rewrite lookup_app_r, Nat.sub_diag by lia. done.
    + specialize (IH (pre ++ [c]) temp Hr). cbv zeta in IH. fold key in IH.
      assert (Hn : ~ abbreviated key c) by (unfold abbreviated; congruence).
      rewrite filter_app, filter_cons_False, filter_nil, app_nil_r, length_app in IH by done. cbn [length] in IH.
      apply IH.
      * rewrite map_app, not_elem_of_app. split; [done|]. cbn [map]. rewrite list_elem_of_singleton.
        intros E. apply Hn. unfold abbreviated. rewrite <- E. apply has_prefix_refl.
      * intros E. destruct (Htemp E) as (d & Hd & Ha). exists d. split; [|done]. by apply lookup_app_l_Some.
Qed.

(** [find_cmd_tbl] compares the name up to its size suffix: a full match wins,
    otherwise an abbreviation is accepted exactly when it is unique. *)
Theorem find_cmd_tbl_correct cmd table :
  cstring cmd -> Forall (fun c => cstring (name c)) table ->
  match find_cmd_tbl cmd table with
  | Some i => selects (command_key cmd) table i
  | None => (command_key cmd ∉ map name table) /\ length (filter (abbreviated (command_key cmd)) table) <> 1%nat
  end.
Proof.
  intros Hc Ht. apply (find_cmd_loop_spec cmd Hc table [] 0%nat Ht); [apply not_elem_of_nil|done].
Qed.

(** ** Sorting the commands *)

Fixpoint str_le (a b : list Z) : Prop :=
  match a, b with
  | [], _ => True
  | _ :: _, [] => False
  | x :: a', y :: b' => x < y \/ x = y /\ str_le a' b'
  end.

Lemma str_le_trans : forall a b c, str_le a b -> str_le b c -> str_le a c.
Proof.
  induction a as [|x a IH]; intros [|y b] [|z c]; simpl; try tauto.
  intros [H1|[-> H1]] [H2|[-> H2]]; [left; lia|by left|by left|right; split; [done|by eapply IH]].
Qed.

Lemma str_le_total : forall a b, ~ str_le a b -> str_le b a.
Proof.
  induction a as [|x a IH]; intros [|y b]; simpl; try tauto.
  intros H. destruct (Z.lt_trichotomy x y) as [|[->|]]; [tauto| |by left].
  right. split; [done|]. apply IH. tauto.
Qed.

Lemma strcmp_le : forall a b, ascii7 a -> ascii7 b -> strcmp_spec a b <= 0 <-> str_le a b.
Proof.
  induction a as [|x a IH]; intros [|y b] Ha Hb; cbn [strcmp_spec str_le deref].
  - done.
  - apply Forall_cons in Hb as [Hy _]. rewrite s8_diff7 by lia. split; [done|lia].
  - apply Forall_cons in Ha as [Hx _]. rewrite s8_diff7 by lia. split; [lia|done].
  - apply Forall_cons in Ha as [Hx Ha]. apply Forall_cons in Hb as [Hy Hb]. destruct (Z.eqb_spec x y) as [->|Hne].
    + rewrite IH by done. split; [by right|intros [?|[_ ?]]; [lia|done]].
    + rewrite s8_diff7 by lia. split; [left; lia|intros [?|[? _]]; lia].
Qed.

Definition cmd_le (c d : cmd_tbl) : Prop := str_le (name c) (name d).
Definition ascii_name (c : cmd_tbl) : Prop := ascii7 (name c).

Lemma cmd_test c d : ascii_name c -> ascii_name d ->
  if 0 <? strcmp_spec (name c) (name d) then cmd_le d c else cmd_le c d.
Proof.
  intros Hc Hd. pose proof (strcmp_le _ _ Hc Hd) as H. unfold cmd_le.
  destruct (Z.ltb_spec 0 (strcmp_spec (name c) (name d))); [apply str_le_total|]; rewrite <- H; lia.
Qed.

(** A pass on lists: the largest entry goes to the end. *)
Fixpoint bubble (x : cmd_tbl) (l : list cmd_tbl) : list cmd_tbl * nat :=
  match l with
  | [] => ([x], O)
  | y :: l =>
      if 0 <? strcmp_spec (name x) (name y) then let '(r, s) := bubble x l in (y :: r, S s)
      else let '(r, s) := bubble y l in (x :: r, s)
  end.

Lemma bubble_pass_ok : forall l x pre post swaps j, j = length pre ->
  bubble_pass (length l) j (pre ++ (x :: l) ++ post) swaps =
    Ok (pre ++ fst (bubble x l) ++ post, (swaps + snd (bubble x l))%nat).
Proof.
  induction l as [|y l IH]; intros x pre post swaps j Hj; cbn [bubble_pass length bubble].
  - by rewrite Nat.add_0_r.
  - cbn [app]. rewrite (res_bind_ok _ _ _ (arr_get_app_mid pre x _ j Hj)).
    assert (Ey : pre ++ x :: y :: l ++ post = (pre ++ [x]) ++ y :: l ++ post) by (by rewrite <- app_assoc).
    rewrite Ey. assert (Hj1 : (j + 1)%nat = length (pre ++ [x])) by (rewrite length_app; simpl; lia).
    rewrite (res_bind_ok _ _ _ (arr_get_app_mid _ y _ _ Hj1)).
    destruct (0 <? strcmp_spec (name x) (name y)).
    + rewrite <- Ey. rewrite (res_bind_ok _ _ _ (arr_set_app_mid pre x y _ j Hj)).
      assert (E2 : pre ++ y :: y :: l ++ post = (pre ++ [y]) ++ y :: l ++ post) by (by rewrite <- app_assoc).
      rewrite E2. assert (Hj2 : (j + 1)%nat = length (pre ++ [y])) by (rewrite length_app; simpl; lia).
      rewrite (res_bind_ok _ _ _ (arr_set_app_mid _ y x _ _ Hj2)).
      rewrite (IH x (pre ++ [y]) post _ _ Hj2). destruct (bubble x l) as [r s]. cbn [fst snd].
      rewrite <- app_assoc. do 2 f_equal. lia.
    + rewrite (IH y (pre ++ [x]) post _ _ Hj1). destruct (bubble y l) as [r s]. cbn [fst snd].
      by rewrite <- app_assoc.
Qed.

Lemma bubble_max : forall l x, Forall ascii_name (x :: l) ->
  exists m mx, fst (bubble x l) = m ++ [mx] /\ Permutation (x :: l) (m ++ [mx]) /\ Forall (fun c => cmd_le c mx) m.
Proof.
  induction l as [|y l IH]; intros x Ha; cbn [bubble].
  - by exists [], x.
  - apply Forall_cons in Ha as [Hx Ha]. apply Forall_cons in Ha as [Hy Ha]. pose proof (cmd_test x y Hx Hy) as Ht.
    assert (Hin : forall c m mx, cmd_le c (m : cmd_tbl) -> Permutation (m :: l) (mx : list cmd_tbl) -> forall z ms,
      mx = ms ++ [z] -> Forall (fun c => cmd_le c z) ms -> cmd_le c z).
    { intros c m mx Hcm Hp z ms -> Hz.
      assert (Hmin : m ∈ ms ++ [z]) by (rewrite <- Hp; left). apply elem_of_app in Hmin as [Hmin|Hmin].
      - rewrite Forall_forall in Hz. eapply str_le_trans; [exact Hcm|by apply Hz].
      - apply list_elem_of_singleton in Hmin as ->. done. }
    destruct (0 <? strcmp_spec (name x) (name y)).
    + destruct (IH x ltac:(by constructor)) as (m & mx & E & Hp & Hm). destruct (bubble x l) as [r s].
      cbn [fst] in *. subst r. exists (y :: m), mx. split_and!; [done| |].
      * rewrite Permutation_swap. cbn [app]. by constructor.
      * constructor; [|done]. by eapply Hin.
    + destruct (IH y ltac:(by constructor)) as (m & mx & E & Hp & Hm). destruct (bubble y l) as [r s].
      cbn [fst] in *. subst r. exists (x :: m), mx. split_and!; [done| |].
      * cbn [app]. by constructor.
      * constructor; [|done]. by eapply Hin.
Qed.

Lemma bubble_no_swaps : forall l x, Forall ascii_name (x :: l) -> snd (bubble x l) = 0%nat ->
  fst (bubble x l) = x :: l /\ StronglySorted cmd_le (x :: l).
Proof.
  induction l as [|y l IH]; intros x Ha; cbn [bubble]; [intros _; split; [done|repeat constructor]|].
  apply Forall_cons in Ha as [Hx Ha]. pose proof (Forall_inv Ha) as Hy. pose proof (cmd_test x y Hx Hy) as Ht.
  destruct (0 <? strcmp_spec (name x) (name y)).
  - destruct (bubble x l) as [r s]. discriminate.
  - specialize (IH y Ha). destruct (bubble y l) as [r s]. cbn [fst snd] in *. intros Hs.
    destruct (IH Hs) as [-> Hss]. split; [done|]. constructor; [done|].
    apply StronglySorted_inv in Hss as [_ Hle]. constructor; [done|]. eapply Forall_impl; [exact Hle|].
    intros c Hc. by eapply str_le_trans.
Qed.

Lemma sorted_app l r : StronglySorted cmd_le l -> StronglySorted cmd_le r ->
  (forall c d, c ∈ l -> d ∈ r -> cmd_le c d) -> StronglySorted cmd_le (l ++ r).
Proof.
  induction 1 as [|c l Hl IH Hc]; intros Hr Hlr; cbn [app]; [done|]. constructor.
  - apply IH; [done|]. intros d d' Hd Hd'. apply Hlr; [by right|done].
  - apply Forall_app. split; [done|]. apply Forall_forall. intros d Hd. apply Hlr; [left|done].
Qed.

Lemma bubble_sort_ok : forall i l r, length l = S i -> Forall ascii_name l -> StronglySorted cmd_le r ->
  (forall c d, c ∈ l -> d ∈ r -> cmd_le c d) ->
  exists a, bubble_sort i (l ++ r) = Ok a /\ Permutation (l ++ r) a /\ StronglySorted cmd_le a.
Proof.
  induction i as [|i IH]; intros l r Hl Ha Hr Hlr.
  - exists (l ++ r). split_and!; [done..|]. apply sorted_app; try done.
    destruct l as [|c [|d l]]; try discriminate. repeat constructor.
  - destruct l as [|x l]; [discriminate|]. injection Hl as Hl. cbn [bubble_sort].
    pose proof (bubble_pass_ok l x [] r 0%nat 0%nat eq_refl) as E. rewrite Hl in E. cbn [app Nat.add] in E.
    cbn [app]. rewrite (res_bind_ok _ _ _ E). cbv beta iota. destruct (Nat.eqb_spec (snd (bubble x l)) 0) as [E0|_].
    + destruct (bubble_no_swaps l x Ha E0) as [-> Hs]. exists ((x :: l) ++ r).
      split_and!; [done..|]. by apply sorted_app.
    + destruct (bubble_max l x Ha) as (m & mx & -> & Hp & Hm).
      rewrite <- app_assoc. cbn [app].
      assert (Hlen : length m = S i).
      { apply Permutation_length in Hp. rewrite length_app in Hp. simpl in Hp. lia. }
      assert (Ham : Forall ascii_name (m ++ [mx])) by (by rewrite <- Hp).
      apply Forall_app in Ham as [Ham _].
      assert (Hmem : forall c, c ∈ m ++ [mx] -> c ∈ x :: l) by (intros c; by rewrite Hp).
      destruct (IH m (mx :: r) Hlen Ham) as (a & Ea & Hpa & Hsa).
      * constructor; [done|]. apply Forall_forall. intros d Hd. apply Hlr; [|done].
        apply Hmem, elem_of_app. right. by apply list_elem_of_singleton.
      * intros c d Hc. rewrite elem_of_cons. intros [->|Hd].
        -- rewrite Forall_forall in Hm. by apply Hm.
        -- apply Hlr; [|done]. apply Hmem, elem_of_app. by left.
      * exists a. split_and!; [done| |done]. rewrite <- Hpa.
        change (x :: l ++ r) with ((x :: l) ++ r). rewrite Hp, <- app_assoc. done.
Qed.

(** The list of commands [help] prints is the table in the order of [strcmp]:
    the bubble sort ends without a fault and loses nothing. *)
Theorem sort_commands_correct table :
  Forall ascii_name table ->
  exists a, sort_commands table = Ok a /\ Permutation table a /\ StronglySorted cmd_le a.
Proof.
  intros Ha. unfold sort_commands. destruct table as [|c table]; [exists []; split_and!; try done; constructor|].
  cbn [length]. rewrite Nat.sub_succ, Nat.sub_0_r.
  pose proof (bubble_sort_ok (length table) (c :: table) [] eq_refl Ha) as H. rewrite app_nil_r in H.
  apply H; [constructor|]. intros ? ? _ Hd. by apply not_elem_of_nil in Hd.
Qed.

(** ** Splitting into words *)

(** The pieces between the blanks. *)
Fixpoint split_blanks (s : list Z) : list (list Z) :=
  match s with
  | [] => [[]]
  | c :: s' =>
      if is_blank c then [] :: split_blanks s'
      else match split_blanks s' with w :: ws => (c :: w) :: ws | [] => [[c]] end
  end.

Definition words (s : list Z) : list (list Z) := List.filter (fun w => negb (bool_decide (w = []))) (split_blanks s).

Lemma words_skip s : words (skip_blanks s) = words s.
Proof.
  induction s as [|c s IH]; [done|]. cbn [skip_blanks]. destruct (is_blank c) eqn:E; [|done].
  rewrite IH. unfold words. cbn [split_blanks]. by rewrite E.
Qed.

Lemma split_word_end s : let '(w, r) := word_end s in
  split_blanks s = w :: match r with [] => [] | _ :: r => split_blanks r end.
Proof.
  induction s as [|c s IH]; [done|]. cbn [word_end split_blanks]. destruct (is_blank c); [done|].
  destruct (word_end s) as [w r]. by rewrite IH.
Qed.

Lemma skip_blanks_head s c s' : skip_blanks s = c :: s' -> is_blank c = false.
Proof.
  induction s as [|x s IH]; [done|]. cbn [skip_blanks]. destruct (is_blank x) eqn:E; [done|]. by intros [= <- _].
Qed.

Lemma words_first s c s' : skip_blanks s = c :: s' ->
  let '(w, r) := word_end (c :: s') in
  words s = w :: match r with [] => [] | _ :: r => words r end.
Proof.
  intros E. rewrite <- (words_skip s), E. unfold words at 1. pose proof (split_word_end (c :: s')) as H.
  cbn [word_end] in *. rewrite (skip_blanks_head _ _ _ E) in *. destruct (word_end s') as [w r]. rewrite H.
  cbn [List.filter]. rewrite bool_decide_eq_false_2 by done. cbn [negb]. by destruct r.
Qed.

Lemma words_none s : skip_blanks s = [] -> words s = [].
Proof. intros E. by rewrite <- words_skip, E. Qed.

(** [make_argv] gives the first [n] words of the line. *)
Theorem make_argv_correct n s : make_argv n s = take n (words s).
Proof.
  revert s. induction n as [|n IH]; intros s; [done|]. cbn [make_argv].
  destruct (skip_blanks s) as [|c s'] eqn:E; [by rewrite words_none|].
  pose proof (words_first s c s' E) as H. destruct (word_end (c :: s')) as [w r]. rewrite H.
  destruct r as [|x r]; cbn [take]; [by rewrite take_nil|]. by rewrite IH.
Qed.

(** ** Common prefixes *)

Lemma common_len_spec : forall len s t, cstring s -> (len <= length s)%nat ->
  let r := common_len len s t in
  (r <= len)%nat /\ (r <= length t)%nat /\ take r t = take r s /\
  forall k, (k <= len)%nat -> take k t = take k s -> (k <= r)%nat.
Proof.
  induction len as [|len IH]; intros s t Hs Hlen; cbn [common_len]; cbv zeta.
  - split_and!; [lia..|done|]. intros. lia.
  - destruct s as [|x s]; [simpl in Hlen; lia|]. apply cstring_cons in Hs as [Hx Hs]. unfold nonzero_byte in Hx.
    simpl in Hlen. destruct t as [|y t]; cbn [deref tl].
    + destruct (Z.eqb_spec 0 x); [lia|]. split_and!; [lia..|done|]. intros [|k] _; [lia|discriminate].
    + destruct (Z.eqb_spec y x) as [->|Hne].
      * destruct (IH s t Hs ltac:(lia)) as (H1 & H2 & H3 & H4). split_and!; [lia|simpl; lia|cbn [take]; by rewrite H3|].
        intros [|k] Hk; [lia|]. intros [= E]. specialize (H4 k ltac:(lia) E). lia.
      * split_and!; [lia..|done|]. intros [|k] _; [lia|]. by intros [= E].
Qed.

Lemma take_agree (k j : nat) (s t : list Z) : (k <= j)%nat -> take j t = take j s -> take k t = take k s.
Proof.
  intros Hk E. replace k with (min k j) by lia. by rewrite <- !take_take, E.
Qed.

Lemma find_common_prefix_spec a l : cstring a ->
  let j := find_common_prefix (a :: l) in
  (j <= length a)%nat /\ (forall m, m ∈ l -> take j m = take j a /\ (j <= length m)%nat) /\
  forall k, (k <= length a)%nat -> (forall m, m ∈ l -> take k m = take k a) -> (k <= j)%nat.
Proof.
  intros Ha. cbn [find_common_prefix]. cbv zeta.
  assert (H : forall l len, (len <= length a)%nat ->
    let j := fold_left (fun len t => common_len len a t) l len in
    (j <= len)%nat /\ (forall m, m ∈ l -> take j m = take j a /\ (j <= length m)%nat) /\
    forall k, (k <= len)%nat -> (forall m, m ∈ l -> take k m = take k a) -> (k <= j)%nat).
  { clear l. induction l as [|t l IH]; intros len Hlen; cbn [fold_left]; cbv zeta.
    - split_and!; [done| |done]. intros m Hm. by apply not_elem_of_nil in Hm.
    - destruct (common_len_spec len a t Ha Hlen) as (C1 & C2 & C3 & C4).
      destruct (IH (common_len len a t) ltac:(lia)) as (H1 & H2 & H3). split_and!; [lia| |].
      + intros m. rewrite elem_of_cons. intros [->|Hm]; [|by apply H2]. split; [|lia]. by eapply take_agree.
      + intros k Hk Hm. apply H3; [apply C4; [done|apply Hm; left]|]. intros m Hin. apply Hm. by right. }
  apply H. done.
Qed.

(** ** Completing the name of a command *)

(** A word without blanks and without a size suffix. *)
Definition plain_word (w : list Z) : Prop :=
  w <> [] /\ cstring w /\ Forall (fun c => is_blank c = false /\ c <> ch ".") w.

Lemma before_absent w : Forall (fun c => is_blank c = false /\ c <> ch ".") w -> before (ch ".") w = w.
Proof.
  induction 1 as [|c w [_ Hc] _ IH]; [done|]. cbn [before]. destruct (Z.eqb_spec c (ch ".")); [done|]. by rewrite IH.
Qed.

Lemma word_end_plain w : Forall (fun c => is_blank c = false /\ c <> ch ".") w -> word_end w = (w, []).
Proof. induction 1 as [|c w [Hc _] _ IH]; [done|]. cbn [word_end]. by rewrite Hc, IH. Qed.

Lemma make_argv_plain w n : plain_word w -> make_argv (S n) w = [w].
Proof.
  intros (Hne & _ & Hw). cbn [make_argv]. destruct w as [|c w]; [done|].
  pose proof (Forall_inv Hw) as [Hc _]. cbn [skip_blanks]. rewrite Hc. by rewrite (word_end_plain (c :: w)).
Qed.

Lemma plain_last w : plain_word w -> is_space (default 0 (list.last w)) = false.
Proof.
  intros (Hne & Hs & Hw). destruct (list.last w) as [c|] eqn:E; [|by apply last_None in E].
  apply last_Some_elem_of in E. unfold cstring in Hs. rewrite Forall_forall in Hs, Hw. specialize (Hs c E).
  destruct (Hw c E) as [Hb _]. unfold nonzero_byte in Hs. change (default 0 (Some c)) with c. unfold is_space. rewrite Hb.
  destruct (Z.eqb_spec c 0); [lia|done].
Qed.

Lemma partial_matches_ok w maxv : forall names cmdv,
  let ms := List.filter (has_prefix w) names in let found := Z.of_nat (length cmdv) in
  partial_matches w (length w) names maxv cmdv =
    cmdv ++ (if Z.of_nat (length ms) <=? Z.max 0 (maxv - 2 - found) then ms
             else take (Z.to_nat (maxv - 2 - found)) ms ++ [zs "..."]).
Proof.
  induction names as [|n names IH]; intros cmdv ms found; cbn [partial_matches].
  - destruct (Z.leb_spec (Z.of_nat (length ms)) (Z.max 0 (maxv - 2 - found))); [by rewrite app_nil_r|].
    unfold ms in *. simpl in *. lia.
  - assert (E : (length n <? length w)%nat || negb (bool_decide (take (length w) w = take (length w) n)) =
      negb (has_prefix w n)).
    { unfold has_prefix. rewrite (take_ge w) by lia. destruct (Nat.ltb_spec (length n) (length w)) as [Hl|Hl].
      - cbn [orb]. rewrite bool_decide_eq_false_2; [done|]. intros E. apply (f_equal length) in E.
        rewrite length_take in E. lia.
      - cbn [orb]. f_equal. apply bool_decide_ext. split; congruence. }
    rewrite E. unfold ms. cbn [List.filter]. destruct (has_prefix w n); cbn [negb]; [|apply IH].
    unfold found. cbn [length]. destruct (Z.leb_spec (maxv - 2) (Z.of_nat (length cmdv))).
    + destruct (Z.leb_spec (Z.of_nat (S (length (List.filter (has_prefix w) names))))
        (Z.max 0 (maxv - 2 - Z.of_nat (length cmdv)))); [lia|]. by rewrite Z2Nat.nonpos by lia.
    + rewrite IH, length_app, <- app_assoc. f_equal. cbn [length].
      set (k := length (List.filter (has_prefix w) names)).
      destruct (Z.leb_spec (Z.of_nat k) (Z.max 0 (maxv - 2 - Z.of_nat (length cmdv + 1)))),
        (Z.leb_spec (Z.of_nat (S k)) (Z.max 0 (maxv - 2 - Z.of_nat (length cmdv)))); try lia; [done|].
      replace (Z.to_nat (maxv - 2 - Z.of_nat (length cmdv))) with
        (S (Z.to_nat (maxv - 2 - Z.of_nat (length cmdv + 1)))) by lia. done.
Qed.

Lemma prefix_app w m : has_prefix w m = true -> m = w ++ drop (length w) m.
Proof. unfold has_prefix. rewrite bool_decide_eq_true. intros E. rewrite <- E at 1. by rewrite take_drop. Qed.

Lemma prefix_len w m : has_prefix w m = true -> (length w <= length m)%nat.
Proof. intros E. apply prefix_app in E. apply (f_equal length) in E. rewrite length_app in E. lia. Qed.

Lemma skip_chars_ok s k : (k <= length s)%nat -> skip_chars s k = Ok (drop k s).
Proof. intros H. unfold skip_chars. destruct (Nat.leb_spec k (length s)); [done|lia]. Qed.

(** The longest common beginning of some names. *)
Definition common_prefix (ms : list (list Z)) (p : list Z) : Prop := Forall (fun m => has_prefix p m = true) ms.
Definition longest_prefix (ms : list (list Z)) (p : list Z) : Prop :=
  common_prefix ms p /\ forall q, common_prefix ms q -> (length q <= length p)%nat.

Lemma has_prefix_take p m : has_prefix p m = true <-> take (length p) m = p.
Proof. unfold has_prefix. apply bool_decide_eq_true. Qed.

Lemma common_prefix_found a l : cstring a ->
  longest_prefix (a :: l) (take (find_common_prefix (a :: l)) a).
Proof.
  intros Ha. destruct (find_common_prefix_spec a l Ha) as (H1 & H2 & H3). set (j := find_common_prefix (a :: l)) in *.
  split.
  - apply Forall_cons. split.
    + apply has_prefix_take. rewrite length_take. by rewrite Nat.min_l.
    + apply Forall_forall. intros m Hm. apply has_prefix_take. rewrite length_take, Nat.min_l by done. by apply H2.
  - intros q Hq. apply Forall_cons in Hq as [Hqa Hql]. rewrite length_take, Nat.min_l by done.
    pose proof (prefix_len _ _ Hqa). apply H3; [done|]. intros m Hm. rewrite Forall_forall in Hql.
    specialize (Hql m Hm). apply has_prefix_take in Hqa, Hql. congruence.
Qed.

Lemma longest_unique ms p q : ms <> [] -> longest_prefix ms p -> longest_prefix ms q -> p = q.
Proof.
  intros Hne [Hp Hpl] [Hq Hql]. destruct ms as [|m ms]; [done|].
  pose proof (Hpl q Hq). pose proof (Hql p Hp). apply Forall_cons in Hp as [Hp _]. apply Forall_cons in Hq as [Hq _].
  apply has_prefix_take in Hp, Hq. rewrite <- Hp, <- Hq. f_equal. lia.
Qed.

(** What the rest of [cmd_auto_complete] does with the string to append. *)
Lemma completion_tail w n col s sep list_out (r : res completed) :
  r = (match Some (s, sep) with
      | Some (s, sep) =>
          let k := Z.of_nat (length s + length sep) in
          if CONFIG_SYS_CBSIZE - 2 <=? n + k then mret (Completed 1 w n col [7])
          else mret (Completed 1 (w ++ s ++ sep) (n + k) (col + k)
                    (s ++ sep ++ (match sep with [] => [7] | _ => [] end)))
      | None => mret (Completed 1 w n col list_out)
      end) ->
  exists c t, r = Ok c /\ ac_result c = 1 /\ ac_buf c = w ++ t /\ ac_n c = n + Z.of_nat (length t) /\
    ac_col c = col + Z.of_nat (length t) /\ (t <> [] -> ac_n c < CONFIG_SYS_CBSIZE - 2) /\
    (t = [] \/ t = s ++ sep) /\
    (n + Z.of_nat (length s + length sep) < CONFIG_SYS_CBSIZE - 2 -> t = s ++ sep).
Proof.
  intros ->. cbv zeta. destruct (Z.leb_spec (CONFIG_SYS_CBSIZE - 2) (n + Z.of_nat (length s + length sep))).
  - eexists _, []. split; [done|]. cbn [ac_result ac_buf ac_n ac_col length]. rewrite app_nil_r.
    split_and!; try done; [lia..|by left|lia].
  - eexists _, (s ++ sep). split; [done|]. cbn [ac_result ac_buf ac_n ac_col]. rewrite length_app.
    split_and!; try done. by right.
Qed.

(** C30: Completing a plain word at the prompt: nothing is changed but by appending
    to the buffer within its size; a single match is completed with a space;
    several (at most 18) are completed to exactly their longest common
    beginning. *)
Theorem cmd_auto_complete_correct e table w n col :
  plain_word w -> Z.of_nat (length w) < CONFIG_SYS_CBSIZE -> Forall (fun c => cstring (name c)) table ->
  let ms := List.filter (has_prefix w) (map name table) in
  let room k := n + Z.of_nat (k - length w) < CONFIG_SYS_CBSIZE - 2 in
  exists r t, cmd_auto_complete e table CONFIG_SYS_PROMPT w n col = Ok r /\ ac_result r = 1 /\
    ac_buf r = w ++ t /\ ac_n r = n + Z.of_nat (length t) /\ ac_col r = col + Z.of_nat (length t) /\
    (t <> [] -> ac_n r < CONFIG_SYS_CBSIZE - 2) /\
    (ms = [] -> t = []) /\
    (forall m, ms = [m] -> room (length m + 1)%nat -> ac_buf r = m ++ [ch " "]) /\
    (forall p, (2 <= length ms <= 18)%nat -> longest_prefix ms p -> room (length p) -> ac_buf r = p).
Proof.
  intros Hw Hlen Ht ms room. pose proof Hw as (Hne & Hcw & Hwf).
  assert (Hpre : forall m, m ∈ ms -> has_prefix w m = true /\ cstring m).
  { intros m Hm. apply list_elem_of_In, filter_In in Hm as [Hm ->]. split; [done|].
    apply list_elem_of_In, list_elem_of_fmap in Hm as (c & -> & Hc). rewrite Forall_forall in Ht. by apply Ht. }
  unfold cmd_auto_complete. change (strcmp_spec CONFIG_SYS_PROMPT CONFIG_SYS_PROMPT =? 0) with true. cbn [negb].
  destruct (Z.leb_spec CONFIG_SYS_CBSIZE (Z.of_nat (length w))); [lia|]. cbv zeta.
  unfold CONFIG_SYS_MAXARGS. rewrite (make_argv_plain w 15 Hw). unfold complete_cmdv. change (20 <? 2) with false.
  cbv iota. cbn [length]. rewrite (plain_last w Hw). change ((1 <? 1)%nat || false) with false. cbv iota zeta.
  rewrite (before_absent w Hwf). pose proof (partial_matches_ok w 20 (map name table) []) as Hpm. cbv zeta in Hpm.
  fold ms in Hpm. cbn [app length] in Hpm. rewrite Hpm. clear Hpm.
  change (Z.max 0 (20 - 2 - Z.of_nat 0)) with 18. change (20 - 2 - Z.of_nat 0) with 18.
  set (cmdv := if Z.of_nat (length ms) <=? 18 then ms else take (Z.to_nat 18) ms ++ [zs "..."]).
  rewrite (res_bind_ok (mret (Z.of_nat (length cmdv), cmdv)) _ _ eq_refl). cbv beta iota.
  destruct ms as [|m1 ms'] eqn:Ems.
  { eexists _, []. split; [done|]. cbn. rewrite app_nil_r. split_and!; try done; lia. }
  destruct (Hpre m1) as [Hp1 Hc1]; [left|]. pose proof (prefix_len w m1 Hp1) as Hl1.
  assert (Hcm : exists l, cmdv = m1 :: l).
  { unfold cmdv. destruct (Z.leb_spec (Z.of_nat (length (m1 :: ms'))) 18); [by eexists|].
    change (Z.to_nat 18) with 18%nat. by eexists. }
  destruct Hcm as [l Hcm]. rewrite Hcm. cbn [hd].
  assert (Hskip : skip_chars m1 (length w) = Ok (drop (length w) m1)) by (by apply skip_chars_ok).
  assert (Hdrop : w ++ drop (length w) m1 = m1) by (by rewrite <- prefix_app).
  destruct l as [|m2 l].
  - cbn [length]. change (Z.of_nat 1 =? 0) with false. change (Z.of_nat 1 =? 1) with true. cbv iota.
    rewrite (res_bind_ok (last_arg [w]) _ w eq_refl), (res_bind_ok _ _ _ Hskip). cbv beta.
    destruct (completion_tail w n col (drop (length w) m1) (zs " ")
      (print_argv None (zs "  ") (zs " ") 78 [m1] ++ CONFIG_SYS_PROMPT ++ w) _ eq_refl)
      as (r & t & Hr & H1 & H2 & H3 & H4 & H5 & H6 & H7).
    exists r, t. split; [exact Hr|]. split_and!; try done.
    + intros m Hm Hroom. injection Hm as -> ->. rewrite H2, H7, app_assoc, Hdrop; [done|].
      rewrite length_drop. cbn [length zs]. unfold room in Hroom. simpl length. lia.
    + intros p Hl. exfalso. apply (f_equal length) in Hcm. unfold cmdv in Hcm.
      destruct (Z.leb_spec (Z.of_nat (length (m1 :: ms'))) 18);
        [|rewrite length_app in Hcm]; cbn [length] in Hcm, Hl; [lia|].
      rewrite length_take in Hcm. cbn [length] in Hcm. lia.
  - cbn [length]. destruct (Z.eqb_spec (Z.of_nat (S (S (length l)))) 0); [lia|].
    destruct (Z.eqb_spec (Z.of_nat (S (S (length l)))) 1); [lia|].
    destruct (Z.ltb_spec 1 (Z.of_nat (S (S (length l))))); [|lia]. cbn [andb].
    set (j := find_common_prefix (m1 :: m2 :: l)).
    assert (Hnone : forall out, longest_prefix cmdv (take j m1) /\ (j <= length w)%nat ->
      exists r t, (Ok (Completed 1 w n col out) : res completed) = Ok r /\ ac_result r = 1 /\ ac_buf r = w ++ t /\
      ac_n r = n + Z.of_nat (length t) /\ ac_col r = col + Z.of_nat (length t) /\
      (t <> [] -> ac_n r < CONFIG_SYS_CBSIZE - 2) /\ (m1 :: ms' = [] -> t = []) /\
      (forall m, m1 :: ms' = [m] -> room (length m + 1)%nat -> ac_buf r = m ++ [ch " "]) /\
      (forall p, (2 <= length (m1 :: ms') <= 18)%nat -> longest_prefix (m1 :: ms') p -> room (length p) -> ac_buf r = p)).
    { intros out [Hlp Hj]. eexists _, []. split; [done|]. cbn. rewrite app_nil_r. split_and!; try done; [lia..| |].
      - intros m Hm. exfalso. injection Hm as -> ->. unfold cmdv in Hcm. simpl in Hcm. discriminate.
      - intros p Hl Hp _. unfold cmdv in Hlp. cbn [length] in Hlp.
        destruct (Z.leb_spec (Z.of_nat (S (length ms'))) 18); [|lia].
        assert (p = take j m1) as -> by (by apply (longest_unique (m1 :: ms'))).
        destruct Hp as [_ Hmax]. specialize (Hmax w). rewrite length_take in Hmax.
        assert (Hcw' : common_prefix (m1 :: ms') w) by (apply Forall_forall; intros m Hm; by apply Hpre).
        specialize (Hmax Hcw'). apply has_prefix_take in Hp1. rewrite <- Hp1 at 1. f_equal. lia. }
    assert (Hlp : longest_prefix cmdv (take j m1)) by (rewrite Hcm; by apply common_prefix_found).
    destruct (Nat.eqb_spec j 0) as [Ej|Ej]; cbn [negb]; [apply Hnone; split; [done|lia]|].
    rewrite (res_bind_ok (last_arg [w]) _ w eq_refl). cbv beta.
    destruct (Nat.ltb_spec (length w) j) as [Hj|Hj]; [|apply Hnone; by split].
    rewrite (res_bind_ok _ _ _ Hskip). cbv beta.
    destruct (completion_tail w n col (take (j - length w) (drop (length w) m1)) []
      (print_argv None (zs "  ") (zs " ") 78 (m1 :: m2 :: l) ++ CONFIG_SYS_PROMPT ++ w) _ eq_refl)
      as (r & t & Hr & H1 & H2 & H3 & H4 & H5 & H6 & H7).
    exists r, t. split; [exact Hr|]. split_and!; try done.
    + intros m Hm. exfalso. injection Hm as -> ->. unfold cmdv in Hcm. simpl in Hcm. discriminate.
    + intros p Hl Hp Hroom. unfold cmdv in Hlp. cbn [length] in Hlp, Hl.
      destruct (Z.leb_spec (Z.of_nat (S (length ms'))) 18); [|lia].
      assert (p = take j m1) as -> by (by apply (longest_unique (m1 :: ms'))).
      destruct (find_common_prefix_spec m1 (m2 :: l) Hc1) as (Hjm & _ & _). fold j in Hjm.
      assert (Hcat : w ++ take (j - length w) (drop (length w) m1) = take j m1).
      { rewrite <- Hdrop at 2. rewrite take_app. rewrite (take_ge w) by lia. done. }
      rewrite H2, H7, app_nil_r; [exact Hcat|]. unfold room in Hroom.
      apply (f_equal length) in Hcat. rewrite length_app in Hcat. change (length (@nil Z)) with 0%nat. lia.
Qed.

(** ** Concrete tables *)

Definition entry_of (n : list Z) (c : option completer) : cmd_tbl := Cmd n 16 1 0 None None c.
Definition bench_table : list cmd_tbl :=
  [entry_of (zs "cp") None; entry_of (zs "bootm") None; entry_of (zs "bootd") None;
   entry_of (zs "printenv") (Some Var_complete)].

Lemma bench_names : Forall (fun c => cstring (name c)) bench_table.
Proof. unfold bench_table. repeat constructor. Defined.

Lemma find_cmd_tbl_correct_witness :
  cstring (zs "cp.b") /\ Forall (fun c => cstring (name c)) bench_table /\ selects (zs "cp") bench_table 0.
Proof.
  assert (Hc : cstring (zs "cp.b")) by (apply (bool_decide_unpack _); vm_compute; exact I).
  split; [exact Hc|]. split; [exact bench_names|].
  exact (find_cmd_tbl_correct (zs "cp.b") bench_table Hc bench_names).
Defined.

Lemma sort_commands_correct_witness :
  Forall ascii_name bench_table /\
  exists a, sort_commands bench_table = Ok a /\ Permutation bench_table a /\ StronglySorted cmd_le a.
Proof.
  assert (Ha : Forall ascii_name bench_table).
  { unfold bench_table, ascii_name, ascii7. apply (bool_decide_unpack _). vm_compute. exact I. }
  split; [exact Ha|]. exact (sort_commands_correct bench_table Ha).
Defined.

Lemma cmd_auto_complete_correct_witness :
  plain_word (zs "bo") /\
  exists r, cmd_auto_complete bench bench_table CONFIG_SYS_PROMPT (zs "bo") 2 10 = Ok r /\ ac_buf r = zs "boot".
Proof.
  assert (Hw : plain_word (zs "bo")).
  { split; [discriminate|]. split; [apply (bool_decide_unpack _); vm_compute; exact I|].
    repeat constructor; discriminate. }
  split; [exact Hw|].
  destruct (cmd_auto_complete_correct bench bench_table (zs "bo") 2 10 Hw eq_refl bench_names)
    as (r & t & E & _ & _ & _ & _ & _ & _ & _ & H).
  exists r. split; [exact E|]. apply H; [split; apply Nat.leb_le; vm_compute; reflexivity| |reflexivity].
  assert (Hb : cstring (zs "bootm")) by (apply (bool_decide_unpack _); vm_compute; exact I).
  exact (common_prefix_found (zs "bootm") [zs "bootd"] Hb).
Defined.

(** A size suffix in the word: the end of the only match is searched behind its NUL. *)
Example complete_suffix_faults :
  cmd_auto_complete bench bench_table CONFIG_SYS_PROMPT (zs "cp.b") 4 10 = Fault.
Proof. vm_compute. reflexivity. Qed.

(** A blank after the command and one variable that matches: the length of the
    command is skipped in the variable's name. *)
Example complete_space_faults :
  cmd_auto_complete (make_env 20 [(zs "ab", zs "1")]) bench_table CONFIG_SYS_PROMPT (zs "printenv ") 9 10 = Fault.
Proof. vm_compute. reflexivity. Qed.
