(* ===== verification/Cli.v ===== *)
(** * The command line (common/main.c)

    Splitting a line into arguments, replacing the macros in it, running the
    commands, reading a line from the console and the main loop.  Strings are
    lists of their bytes before the NUL; what is printed is not kept.

    A command is what [call] does: it is given the function of the table entry,
    the flags and the arguments and changes the state [W] of the rest of the
    program, which holds the environment ([env_of]). *)

From S2P Require Import Prelude.
From S2P Require Import Ctype.
From S2P Require Import CString.
From S2P Require Import Vsprintf.
From S2P Require Import Env.
From S2P Require Import Command.

(** ** parse_line *)

(** The arguments, and whether [argv] is ended by a [NULL]: with
    [CONFIG_SYS_MAXARGS] arguments and more characters it is not. *)
Fixpoint parse_args (n : nat) (line : list Z) : list (list Z) * bool :=
  match n with
  | O => ([], false)
  | S n' =>
      match skip_blanks line with
      | [] => ([], true)
      | line =>
          let '(w, r) := word_end line in
          match r with
          | [] => ([w], true)
          | _ :: r => let '(args, ended) := parse_args n' r in (w :: args, ended)
          end
      end
  end.

Definition parse_line (line : list Z) : list (list Z) * bool := parse_args CONFIG_SYS_MAXARGS line.

(** ** process_macros *)

Definition ESC : Z := 92.
Definition QUOTE : Z := 39.

(** [getenv] and the string it points to. *)
Definition getenv_value (e : env_state) (name : list Z) : res (option (list Z)) :=
  i ← getenv e name;
  match i with
  | None => mret None
  | Some i => '(v, _) ← entry_text (area_fuel e) e i; mret (Some v)
  end.

Definition cbsize : nat := Z.to_nat CONFIG_SYS_CBSIZE.

(** The body of the [switch]: one character [c] after the escape handling;
    [input] is what follows it.  New state, [varname_start] (the input from
    there on) and output; [outputcnt] is the room left in the output. *)
Definition macro_char (e : env_state) (c prev state : Z) (varname_start input out : list Z)
    : res (Z * list Z * list Z) :=
  let outputcnt := (cbsize - length out)%nat in
  if state =? 0 then
    if (c =? QUOTE) && negb (prev =? ESC) then mret (3, varname_start, out)
    else if (c =? ch "$") && negb (prev =? ESC) then mret (1, varname_start, out)
    else mret (0, varname_start, out ++ [c])
  else if state =? 1 then
    if (c =? ch "(") || (c =? ch "{") then mret (2, input, out)
    else mret (0, varname_start, out ++ take outputcnt [ch "$"; c])
  else if state =? 2 then
    if (c =? ch ")") || (c =? ch "}") then
      let envname := take (length varname_start - length input - 1) varname_start in
      envval ← getenv_value e envname;
      mret (0, varname_start, out ++ take outputcnt (default [] envval))
    else mret (2, varname_start, out)
  else
    if (c =? QUOTE) && negb (prev =? ESC) then mret (0, varname_start, out)
    else mret (3, varname_start, out ++ [c]).

Fixpoint macro_loop (e : env_state) (input : list Z) (prev state : Z) (varname_start out : list Z)
    : res (list Z) :=
  match input with
  | [] => mret out
  | c :: input =>
      if (cbsize <=? length out)%nat then mret out
      else if negb (state =? 3) && ((c =? ESC) && negb (prev =? ESC)) then
        match input with
        | [] => mret out
        | c' :: input =>
            '(state, varname_start, out) ← macro_char e c' c state varname_start input out;
            macro_loop e input c' state varname_start out
        end
      else
        '(state, varname_start, out) ← macro_char e c prev state varname_start input out;
        macro_loop e input c state varname_start out
  end.

(** The NUL is written behind the output, or over its last byte when it is full. *)
Definition process_macros (e : env_state) (input : list Z) : res (list Z) :=
  out ← macro_loop e input 0 0 [] [];
  mret (if (length out <? cbsize)%nat then out else take (cbsize - 1) out).

(** ** run_command *)

Definition CMD_FLAG_REPEAT : Z := 1.
Definition CMD_FLAG_BOOTD : Z := 2.

(** The token up to the next separator and what follows the separator.  [prev]
    is the character before; a quote at the very start of the buffer makes the
    code read the byte in front of it. *)
Fixpoint find_sep (prev : res Z) (start inquotes : bool) (s : list Z) : res (list Z * option (list Z)) :=
  match s with
  | [] => mret ([], None)
  | c :: s' =>
      inquotes ← (if c =? QUOTE then
                    p ← prev; mret (if negb (p =? ESC) then negb inquotes else inquotes)
                  else mret inquotes);
      stop ← (if negb inquotes && (c =? ch ";") && negb start then
                p ← prev; mret (negb (p =? ESC))
              else mret false);
      if (stop : bool) then mret ([], Some s')
      else
        '(t, r) ← find_sep (Ok c) false inquotes s';
        mret (c :: t, r)
  end.

Section Run.
Context {W : Type}.
Context (env_of : W -> env_state).
Context (call : nat -> Z -> list (list Z) -> W -> res (Z * W)).
Context (had_ctrlc : W -> bool) (clear_ctrlc : W -> W).
Context (table : list cmd_tbl).
Context (do_bootd : option nat).       (* the function of "bootd" when CONFIG_CMD_BOOTD is set *)

(** What one token does: [None] for [return -1], otherwise the new [rc] ([None]
    if it is not changed), flags and repeatable. *)
Inductive token_result :=
| Stopped
| Next (rc : option Z) (flag repeatable : Z).

Definition run_token (token : list Z) (flag repeatable : Z) (w : W) : res (token_result * W) :=
  finaltoken ← process_macros (env_of w) token;
  let '(argv, _) := parse_line finaltoken in
  match argv with
  | [] => mret (Next (Some (-1)) flag repeatable, w)
  | name :: _ =>
      match find_cmd_tbl name table with
      | None => mret (Next (Some (-1)) flag repeatable, w)
      | Some i =>
          cmdtp ← arr_get table i;
          if maxargs cmdtp <? Z.of_nat (length argv) then mret (Next (Some (-1)) flag repeatable, w)
          else
            let bootd := match do_bootd with Some f => (cmd cmdtp =? f)%nat | None => false end in
            if bootd && negb (Z.land flag CMD_FLAG_BOOTD =? 0) then mret (Next (Some (-1)) flag repeatable, w)
            else
              let flag := if bootd then Z.lor flag CMD_FLAG_BOOTD else flag in
              '(r, w) ← call (cmd cmdtp) flag argv w;
              let rc := if negb (r =? 0) then Some (-1) else None in
              if had_ctrlc w then mret (Stopped, w)
              else mret (Next rc flag (Z.land repeatable (Command.repeatable cmdtp)), w)
      end
  end.

(** The loop over the tokens; [prev] as in [find_sep]. *)
Fixpoint run_tokens (fuel : nat) (prev : res Z) (str : list Z) (flag rc repeatable : Z) (w : W) : res (Z * W) :=
  match str with
  | [] => mret ((if negb (rc =? 0) then rc else repeatable), w)
  | _ =>
      match fuel with
      | O => OutOfFuel
      | S fuel' =>
          '(token, rest) ← find_sep prev true false str;
          '(t, w) ← run_token token flag repeatable w;
          match t with
          | Stopped => mret (-1, w)
          | Next r flag repeatable =>
              run_tokens fuel' (Ok 0) (default [] rest) flag (default rc r) repeatable w
          end
      end
  end.

(** [None] is a null pointer. *)
Definition run_command (cmd : option (list Z)) (flag : Z) (w : W) : res (Z * W) :=
  let w := clear_ctrlc w in
  match cmd with
  | None | Some [] => mret (-1, w)
  | Some s =>
      if CONFIG_SYS_CBSIZE <=? Z.of_nat (length s) then mret (-1, w)
      else run_tokens (length s) Fault s flag 0 1 w
  end.

(** The arguments behind "run". *)
Fixpoint run_vars (names : list (list Z)) (flag : Z) (w : W) : res (Z * W) :=
  match names with
  | [] => mret (0, w)
  | n :: names =>
      arg ← getenv_value (env_of w) n;
      match arg with
      | None => mret (1, w)
      | Some s =>
          '(r, w) ← run_command (Some s) flag w;
          if r =? -1 then mret (1, w) else run_vars names flag w
      end
  end.

Definition do_run (flag : Z) (argv : list (list Z)) (w : W) : res (Z * W) :=
  if (length argv <? 2)%nat then mret (1, w) else run_vars (tl argv) flag w.

(** ** The main loop *)

Record loop_state := Loop { lastcommand : list Z; rc : Z; world : W }.

(** One round, [len] and [console_buffer] being what [readline] gave. *)
Definition main_round (len : Z) (console_buffer : list Z) (l : loop_state) : res loop_state :=
  let last := if 0 <? len then console_buffer else lastcommand l in
  let flag := if len =? 0 then CMD_FLAG_REPEAT else 0 in
  '(rc, w) ← (if len =? -1 then mret (rc l, world l) else run_command (Some last) flag (world l));
  mret (Loop (if rc <=? 0 then [] else last) rc w).

Fixpoint main_rounds (lines : list (Z * list Z)) (l : loop_state) : res loop_state :=
  match lines with
  | [] => mret l
  | (len, buf) :: lines => l ← main_round len buf l; main_rounds lines l
  end.

(** What happens before the loop: the delay and the boot command.  [abortboot]
    is the answer of the function of this name. *)
Definition autoboot (config_bootdelay : Z) (abortboot : Z -> bool) (w : W) : res W :=
  s ← getenv_value (env_of w) (zs "bootdelay");
  let bootdelay := match s with Some s => s32 (fst (simple_strtol s 10)) | None => config_bootdelay end in
  s ← getenv_value (env_of w) (zs "bootcmd");
  match s with
  | Some s =>
      if (0 <=? bootdelay) && negb (abortboot bootdelay) then
        '(_, w) ← run_command (Some s) 0 w; mret w
      else mret w
  | None => mret w
  end.

End Run.

(** ** abortboot *)

(** The inner loop of one second: the answer, and how many times the keyboard
    was polled ([k] counts the polls, [tstc k] answers them). *)
Fixpoint poll_second (n : nat) (tstc : nat -> bool) (k delays : nat) : bool * nat * nat :=
  match n with
  | O => (false, k, delays)
  | S n' => if tstc k then (true, (k + 1)%nat, delays) else poll_second n' tstc (k + 1) (delays + 1)
  end.

Fixpoint count_down (seconds : nat) (tstc : nat -> bool) (k delays : nat) : bool * nat * nat :=
  match seconds with
  | O => (false, k, delays)
  | S seconds' =>
      let '(abort, k, delays) := poll_second 100 tstc k delays in
      if abort then (true, k, delays) else count_down seconds' tstc k delays
  end.

(** With [CONFIG_ZERO_BOOTDELAY_CHECK] ([zero_check]) a key pressed before is
    seen.  The answer and the number of delays of 10 ms. *)
Definition abortboot (zero_check : bool) (tstc : nat -> bool) (bootdelay : Z) : bool * nat :=
  if zero_check && (0 <=? bootdelay) then
    if tstc 0%nat then (true, O)
    else let '(abort, _, delays) := count_down (Z.to_nat bootdelay) tstc 1 0 in (abort, delays)
  else let '(abort, _, delays) := count_down (Z.to_nat bootdelay) tstc 0 0 in (abort, delays).

(** ** readline

    The version without command line editing, for the buffer [console_buffer]
    (which the completion works on whatever buffer is given).  [auto] is what
    the completion needs when [CONFIG_AUTO_COMPLETE] is set.  The characters to
    come are a list; behind its end the code waits for ever, [OutOfFuel]. *)

Record line_state := Line {
  l_buf : list Z;      (* the characters before p *)
  l_n : Z;
  l_col : Z
}.

(** The next tab stop. *)
Definition next_tab (col : Z) : Z := col + (8 - Z.land col 7).

(** Typing the line again. *)
Definition retype (l : list Z) (col : Z) : Z :=
  fold_left (fun col c => if c =? 9 then next_tab col else col + 1) l col.

(** The new state and the character [p] then points to. *)
Definition delete_char (plen : Z) (s : line_state) : res (line_state * Z) :=
  if l_n s =? 0 then mret (s, 0)
  else
    match list.last (l_buf s) with
    | None => Fault
    | Some c =>
        let buf := removelast (l_buf s) in
        let col := if c =? 9 then retype buf (if plen <? l_col s then plen else l_col s) else l_col s - 1 in
        mret (Line buf (l_n s - 1) col, c)
    end.

(** Deleting on while [p] does not point to a blank. *)
Fixpoint delete_word (fuel : nat) (plen : Z) (s : line_state) (c : Z) : res line_state :=
  if (0 <? l_n s) && negb (c =? ch " ") then
    match fuel with
    | O => OutOfFuel
    | S fuel' => '(s, c) ← delete_char plen s; delete_word fuel' plen s c
    end
  else mret s.

(** Storing a character, a tab being shown as blanks. *)
Definition store_char (c : Z) (s : line_state) : line_state :=
  Line (l_buf s ++ [c]) (l_n s + 1) (if c =? 9 then next_tab (l_col s) else l_col s + 1).

Definition normal_char (auto : option (env_state * list cmd_tbl)) (prompt : list Z) (c : Z) (s : line_state)
    : res line_state :=
  if l_n s <? CONFIG_SYS_CBSIZE - 2 then
    match auto with
    | Some (e, table) =>
        if c =? 9 then
          r ← cmd_auto_complete e table prompt (l_buf s) (l_n s) (l_col s);
          if negb (ac_result r =? 0) then
            if ac_n r <=? Z.of_nat (length (ac_buf r))
            then mret (Line (take (Z.to_nat (ac_n r)) (ac_buf r)) (ac_n r) (ac_col r)) else Fault
          else mret (store_char c s)
        else mret (store_char c s)
    | None => mret (store_char c s)
    end
  else mret s.

(** The result, the string in the buffer, and the characters not read. *)
Fixpoint readline_loop (auto : option (env_state * list cmd_tbl)) (prompt : list Z) (plen : Z) (input : list Z)
    (s : line_state) : res (Z * list Z * list Z) :=
  match input with
  | [] => OutOfFuel
  | c :: input =>
      if (c =? 13) || (c =? 10) then mret (Z.of_nat (length (l_buf s)), l_buf s, input)
      else if c =? 0 then readline_loop auto prompt plen input s
      else if c =? 3 then mret (-1, [], input)
      else if c =? 0x15 then
        readline_loop auto prompt plen input (Line [] 0 (if plen <? l_col s then plen else l_col s))
      else if c =? 0x17 then
        '(s, d) ← delete_char plen s;
        s ← delete_word (length (l_buf s)) plen s d;
        readline_loop auto prompt plen input s
      else if (c =? 8) || (c =? 0x7F) then
        '(s, _) ← delete_char plen s;
        readline_loop auto prompt plen input s
      else
        s ← normal_char auto prompt c s;
        readline_loop auto prompt plen input s
  end.

Definition readline (auto : option (env_state * list cmd_tbl)) (prompt : list Z) (input : list Z)
    : res (Z * list Z * list Z) :=
  let plen := Z.of_nat (length prompt) in
  readline_loop auto prompt plen input (Line [] 0 plen).

(** ** Arguments *)

Lemma parse_args_words n line : fst (parse_args n line) = take n (words line).
Proof.
  revert line. induction n as [|n IH]; intros line; [done|]. cbn [parse_args].
  destruct (skip_blanks line) as [|c s'] eqn:E; [by rewrite words_none|].
  pose proof (words_first line c s' E) as H. destruct (word_end (c :: s')) as [w r]. rewrite H.
  destruct r as [|x r]; cbn [take]; [by rewrite take_nil|]. rewrite <- IH. by destruct (parse_args n r).
Qed.

(** [parse_line] gives the first [CONFIG_SYS_MAXARGS] words, and ends [argv] when
    the line has no more than these. *)
Theorem parse_line_correct line :
  fst (parse_line line) = take CONFIG_SYS_MAXARGS (words line) /\
  ((length (words line) < CONFIG_SYS_MAXARGS)%nat -> snd (parse_line line) = true) /\
  ((CONFIG_SYS_MAXARGS < length (words line))%nat -> snd (parse_line line) = false).
Proof.
  split; [apply parse_args_words|]. unfold parse_line. generalize CONFIG_SYS_MAXARGS as n. intros n. revert line.
  induction n as [|n IH]; intros line; [split; [lia|done]|]. cbn [parse_args].
  destruct (skip_blanks line) as [|c s'] eqn:E; [rewrite words_none by done; split; [done|simpl; lia]|].
  pose proof (words_first line c s' E) as H. destruct (word_end (c :: s')) as [w r]. rewrite H.
  destruct r as [|x r]; cbn [length]; [split; [done|simpl; lia]|].
  destruct (IH r) as (H2 & H3). destruct (parse_args n r) as [args ended]. cbn [snd] in *.
  split; intros; [apply H2|apply H3]; lia.
Qed.

(** ** Macros *)

(** A line seen as pieces: text, and variables written with parentheses or braces. *)
Inductive piece := Text (s : list Z) | Macro (brace : bool) (name : list Z).

Definition piece_text (p : piece) : list Z :=
  match p with
  | Text s => s
  | Macro b n => ch "$" :: (if b then ch "{" else ch "(") :: n ++ [if b then ch "}" else ch ")"]
  end.
Definition piece_value (l : list (list Z * list Z)) (p : piece) : list Z :=
  match p with Text s => s | Macro _ n => default [] (env_lookup n l) end.

(** No escapes, quotes or macros in a text; no escapes or ends in a name. *)
Definition plain_char (c : Z) : Prop := c <> ESC /\ c <> QUOTE /\ c <> ch "$".
Definition macro_name (n : list Z) : Prop :=
  good_name n /\ Forall (fun c => c <> ESC /\ c <> ch ")" /\ c <> ch "}") n.
Definition good_piece (p : piece) : Prop :=
  match p with Text s => Forall plain_char s | Macro _ n => macro_name n end.

Lemma getenv_value_ok e l name : env_repr e l -> good_name name -> getenv_value e name = Ok (env_lookup name l).
Proof.
  intros Hr Hn. pose proof (getenv_ok e l name Hr Hn) as H. unfold getenv_value.
  destruct (env_lookup name l) as [v|] eqn:E; [|by rewrite (res_bind_ok _ _ _ H)].
  destruct H as (i & Hi & post & Hp). rewrite (res_bind_ok _ _ _ Hi). cbv beta iota.
  destruct Hr as (Hv & Hg & _).
  assert (Hcv : cstring v).
  { clear Hp. induction l as [|[n w] l IH]; [done|]. apply Forall_cons in Hg as [[_ Hw] Hg]. cbn [env_lookup] in E.
    destruct (decide (name = n)); [by injection E as <-|by apply IH]. }
  assert (Hd : env_data e = take i (env_data e) ++ v ++ 0 :: post) by (by rewrite <- Hp, take_drop).
  assert (Hi2 : i = length (take i (env_data e))).
  { rewrite length_take. destruct (decide (i <= length (env_data e))%nat); [lia|].
    rewrite drop_ge in Hp by lia. by destruct v. }
  pose proof (area_fuel_ge e _ _ _ Hv Hd) as Hf.
  assert (Hf2 : (length v < area_fuel e)%nat) by lia.
  by rewrite (res_bind_ok _ _ _ (entry_text_ok e v post _ _ i Hv Hd Hcv Hi2 Hf2)).
Qed.

Lemma cbsize_pos : (0 < cbsize)%nat.
Proof. unfold cbsize, CONFIG_SYS_CBSIZE. lia. Qed.

(** Text is copied. *)
Lemma macro_loop_text e s : Forall plain_char s -> forall rest prev vn out,
  prev <> ESC -> (length out + length s < cbsize)%nat ->
  exists prev', prev' <> ESC /\
    macro_loop e (s ++ rest) prev 0 vn out = macro_loop e rest prev' 0 vn (out ++ s).
Proof.
  induction 1 as [|c s (H1 & H2 & H3) Hs IH]; intros rest prev vn out Hp Hlen.
  - exists prev. by rewrite app_nil_r.
  - cbn [app macro_loop length] in *. destruct (Nat.leb_spec cbsize (length out)); [lia|].
    destruct (Z.eqb_spec c ESC); [done|]. change (negb (0 =? 3) && (false && negb (prev =? ESC))) with false.
    cbv iota. unfold macro_char. cbn [Z.eqb]. destruct (Z.eqb_spec c QUOTE); [done|].
    destruct (Z.eqb_spec c (ch "$")); [done|]. cbn [andb].
    rewrite (res_bind_ok (mret (0, vn, out ++ [c])) _ _ eq_refl). cbv beta iota.
    destruct (IH rest c vn (out ++ [c])) as (prev' & Hp' & E); [done|rewrite length_app; simpl; lia|].
    exists prev'. split; [done|]. by rewrite E, <- app_assoc.
Qed.

(** The characters of a name are passed over. *)
Lemma macro_loop_name e n : Forall (fun c => c <> ESC /\ c <> ch ")" /\ c <> ch "}") n -> forall rest prev vn out,
  prev <> ESC -> (length out < cbsize)%nat ->
  exists prev', prev' <> ESC /\ macro_loop e (n ++ rest) prev 2 vn out = macro_loop e rest prev' 2 vn out.
Proof.
  induction 1 as [|c n (H1 & H2 & H3) Hn IH]; intros rest prev vn out Hp Hlen; [by exists prev|].
  cbn [app macro_loop]. destruct (Nat.leb_spec cbsize (length out)); [lia|].
  destruct (Z.eqb_spec c ESC); [done|]. change (negb (2 =? 3) && (false && negb (prev =? ESC))) with false.
  cbv iota. unfold macro_char. cbn [Z.eqb Pos.eqb]. destruct (Z.eqb_spec c (ch ")")); [done|].
  destruct (Z.eqb_spec c (ch "}")); [done|]. cbn [orb].
  rewrite (res_bind_ok (mret (2, vn, out)) _ _ eq_refl). cbv beta iota. by apply IH.
Qed.

Lemma brace_not_esc (b : bool) : (if b then ch "{" else ch "(") <> ESC /\ (if b then ch "}" else ch ")") <> ESC.
Proof. by destruct b. Qed.

(** One character that does not start an escape. *)
Lemma macro_loop_step e c input prev state vn out :
  c <> ESC -> (length out < cbsize)%nat ->
  macro_loop e (c :: input) prev state vn out =
  ('(state, vn, out) ← macro_char e c prev state vn input out; macro_loop e input c state vn out).
Proof.
  intros Hc Hlen. cbn [macro_loop]. destruct (Nat.leb_spec cbsize (length out)); [lia|].
  destruct (Z.eqb_spec c ESC); [done|]. by rewrite andb_false_r.
Qed.

(** A macro is replaced by the value of its variable. *)
Lemma macro_loop_macro e l b n rest prev vn out :
  env_repr e l -> macro_name n -> prev <> ESC ->
  (length out + length (default [] (env_lookup n l)) < cbsize)%nat ->
  exists prev' vn', prev' <> ESC /\
    macro_loop e (piece_text (Macro b n) ++ rest) prev 0 vn out =
    macro_loop e rest prev' 0 vn' (out ++ default [] (env_lookup n l)).
Proof.
  intros Hr [Hg Hn] Hp Hlen. destruct (brace_not_esc b) as [Hb1 Hb2]. cbn [piece_text app].
  set (lb := if b then ch "{" else ch "(") in *. set (rb := if b then ch "}" else ch ")") in *.
  assert (Hlb : (lb =? ch "(") || (lb =? ch "{") = true) by (by destruct b).
  assert (Hrb : (rb =? ch ")") || (rb =? ch "}") = true) by (by destruct b).
  assert (E1 : macro_char e (ch "$") prev 0 vn (lb :: n ++ rb :: rest) out = Ok (1, vn, out)).
  { unfold macro_char. change (0 =? 0) with true. cbv iota zeta. change (ch "$" =? QUOTE) with false.
    change (ch "$" =? ch "$") with true. by destruct (Z.eqb_spec prev ESC). }
  assert (E2 : macro_char e lb (ch "$") 1 vn (n ++ rb :: rest) out = Ok (2, n ++ rb :: rest, out)).
  { unfold macro_char. change (1 =? 0) with false. change (1 =? 1) with true. cbv iota zeta. by rewrite Hlb. }
  assert (E3 : forall p1, macro_char e rb p1 2 (n ++ rb :: rest) rest out =
    Ok (0, n ++ rb :: rest, out ++ default [] (env_lookup n l))).
  { intros p1. unfold macro_char. change (2 =? 0) with false. change (2 =? 1) with false. change (2 =? 2) with true.
    cbv iota zeta. rewrite Hrb.
    assert (En : take (length (n ++ rb :: rest) - length rest - 1) (n ++ rb :: rest) = n).
    { apply take_app_length'. rewrite length_app. cbn [length]. lia. }
    rewrite En, (res_bind_ok _ _ _ (getenv_value_ok e l n Hr Hg)).
    by rewrite (take_ge (default [] (env_lookup n l))) by lia. }
  rewrite <- app_assoc. cbn [app]. rewrite macro_loop_step by (done || lia).
  rewrite (res_bind_ok _ _ _ E1). cbv beta iota. rewrite macro_loop_step by (done || lia).
  rewrite (res_bind_ok _ _ _ E2). cbv beta iota.
  destruct (macro_loop_name e n Hn (rb :: rest) lb (n ++ rb :: rest) out Hb1) as (p1 & Hp1 & ->); [lia|].
  rewrite macro_loop_step by (done || lia). rewrite (res_bind_ok _ _ _ (E3 p1)).
  exists rb, (n ++ rb :: rest). split; done.
Qed.

Lemma macro_loop_pieces e l : env_repr e l -> forall ps prev vn out,
  Forall good_piece ps -> prev <> ESC -> (length out + length (flat_map (piece_value l) ps) < cbsize)%nat ->
  macro_loop e (flat_map piece_text ps) prev 0 vn out = Ok (out ++ flat_map (piece_value l) ps).
Proof.
  intros Hr. induction ps as [|p ps IH]; intros prev vn out Hps Hp Hlen; cbn [flat_map] in *.
  - by rewrite app_nil_r.
  - apply Forall_cons in Hps as [Hg Hps]. rewrite length_app in Hlen. destruct p as [s|b n]; cbn [piece_value] in *.
    + destruct (macro_loop_text e s Hg (flat_map piece_text ps) prev vn out Hp) as (prev' & Hp' & E); [lia|].
      cbn [piece_text]. rewrite E, IH; [by rewrite <- app_assoc|done|done|rewrite length_app; lia].
    + destruct (macro_loop_macro e l b n (flat_map piece_text ps) prev vn out Hr Hg Hp) as (prev' & vn' & Hp' & E); [lia|].
      rewrite E, IH; [by rewrite <- app_assoc|done|done|rewrite length_app; lia].
Qed.

Lemma process_macros_ok e l ps : env_repr e l -> Forall good_piece ps ->
  (length (flat_map (piece_value l) ps) < cbsize)%nat ->
  process_macros e (flat_map piece_text ps) = Ok (flat_map (piece_value l) ps).
Proof.
  intros Hr Hps Hlen. unfold process_macros.
  rewrite (res_bind_ok _ _ _ (macro_loop_pieces e l Hr ps 0 [] [] Hps ltac:(done) Hlen)). cbn [app].
  by destruct (Nat.ltb_spec (length (flat_map (piece_value l) ps)) cbsize); [|lia].
Qed.

(** Every macro of a line is replaced by the value of its variable, an unknown one
    by nothing, and the rest is copied, when the result fits the buffer. *)
Theorem process_macros_correct e l ps :
  env_repr e l -> Forall good_piece ps -> (length (flat_map (piece_value l) ps) < cbsize)%nat ->
  process_macros e (flat_map piece_text ps) = Ok (flat_map (piece_value l) ps).
Proof. apply process_macros_ok. Qed.

Lemma macro_char_room e c prev state vn input out r :
  (length out < cbsize)%nat -> macro_char e c prev state vn input out = Ok r -> (length (snd r) <= cbsize)%nat.
Proof.
  intros Hlen. unfold macro_char. cbv zeta.
  assert (H1 : (length (out ++ [c]) <= cbsize)%nat) by (rewrite length_app; simpl; lia).
  assert (H2 : forall t, (length (out ++ take (cbsize - length out) t) <= cbsize)%nat).
  { intros t. rewrite length_app, length_take. lia. }
  repeat match goal with
  | |- (if ?b then _ else _) = _ -> _ => destruct b
  | |- mret _ = Ok _ -> _ => intros [= <-]; cbn [snd]; try done; lia
  end.
  destruct (getenv_value e _) as [v| |]; try done. intros [= <-]. apply H2.
Qed.

Lemma macro_loop_room e : forall input prev state vn out r,
  (length out <= cbsize)%nat -> macro_loop e input prev state vn out = Ok r -> (length r <= cbsize)%nat.
Proof.
  intros input. remember (length input) as n eqn:En. revert input En. induction n as [n IH] using lt_wf_ind.
  intros [|c input] En prev state vn out r Hlen; cbn [macro_loop]; [by intros [= <-]|].
  destruct (Nat.leb_spec cbsize (length out)); [by intros [= <-]|].
  destruct (negb (state =? 3) && ((c =? ESC) && negb (prev =? ESC))).
  - destruct input as [|c' input]; [by intros [= <-]|].
    destruct (macro_char e c' c state vn input out) as [[[st vn'] out']| |] eqn:E; try done.
    apply macro_char_room in E; [|done]. cbn [snd] in E.
    apply (IH (length input)); [subst n; simpl; lia|done|done].
  - destruct (macro_char e c prev state vn input out) as [[[st vn'] out']| |] eqn:E; try done.
    apply macro_char_room in E; [|done]. cbn [snd] in E.
    apply (IH (length input)); [subst n; simpl; lia|done|done].
Qed.

(** Whatever the input, the string written by [process_macros] and its NUL fit
    into the [CONFIG_SYS_CBSIZE] bytes of the output. *)
Theorem process_macros_bounded e input :
  match process_macros e input with Ok out => (length out < cbsize)%nat | _ => True end.
Proof.
  unfold process_macros. destruct (macro_loop e input 0 0 [] []) as [out| |] eqn:E; try done.
  cbn [mbind res_bind]. destruct (Nat.ltb_spec (length out) cbsize) as [H|H]; [done|].
  cbn. rewrite length_take. pose proof cbsize_pos. lia.
Qed.

(** ** Running commands *)






Section Running.
Context {W : Type}.
Context (env_of : W -> env_state).
Context (call : nat -> Z -> list (list Z) -> W -> res (Z * W)).
Context (had_ctrlc : W -> bool) (clear_ctrlc : W -> W).
Context (table : list cmd_tbl).






(** A line that was not executed to the end, or may not be repeated, is
    forgotten: an empty line after it runs nothing.  A repeatable one is run
    again with the repeat flag. *)
Theorem main_rounds_repeat len buf (l l1 : loop_state (W := W)) bootd :
  main_round env_of call had_ctrlc clear_ctrlc table bootd len buf l = Ok l1 ->
  let round2 := main_round env_of call had_ctrlc clear_ctrlc table bootd 0 [] l1 in
  (rc l1 <= 0 -> round2 = Ok (Loop [] (-1) (clear_ctrlc (world l1)))) /\
  (0 < rc l1 -> 0 < len -> round2 =
     '(r, w) ← run_command env_of call had_ctrlc clear_ctrlc table bootd (Some buf) CMD_FLAG_REPEAT (world l1);
     mret (Loop (if r <=? 0 then [] else buf) r w)).
Proof.
  unfold main_round. intros E. cbv zeta in E |- *. change (0 <? 0) with false. change (0 =? 0) with true.
  change (0 =? -1) with false. cbv iota.
  match type of E with (?m ≫= _) = _ => destruct m as [[r w]| |] eqn:Er; try done end.
  injection E as <-. cbn [lastcommand rc world]. split.
  - intros Hr. destruct (Z.leb_spec r 0); [|lia]. done.
  - intros Hr Hl. destruct (Z.leb_spec r 0); [lia|]. destruct (Z.ltb_spec 0 len); [|lia]. done.
Qed.

End Running.

(** ** The boot delay *)

Lemma poll_second_spec tstc : forall n k d,
  match poll_second n tstc k d with
  | (true, _, d') => (exists j, (k <= j < k + n)%nat /\ tstc j = true) /\ (d <= d' <= d + n)%nat
  | (false, k', d') => (forall j, (k <= j < k + n)%nat -> tstc j = false) /\ k' = (k + n)%nat /\ d' = (d + n)%nat
  end.
Proof.
  induction n as [|n IH]; intros k d; cbn [poll_second].
  - split_and!; [intros; lia|lia|lia].
  - destruct (tstc k) eqn:E; [split; [exists k; split; [lia|done]|lia]|].
    specialize (IH (k + 1)%nat (d + 1)%nat). destruct (poll_second n tstc (k + 1) (d + 1)) as [[[] k'] d'].
    + destruct IH as [(j & Hj & Ht) Hd]. split; [exists j; split; [lia|done]|lia].
    + destruct IH as (H & -> & ->). split_and!; [|lia|lia]. intros j Hj. destruct (decide (j = k)) as [->|]; [done|].
      apply H. lia.
Qed.

Lemma count_down_spec tstc : forall s k d,
  match count_down s tstc k d with
  | (true, _, d') => (exists j, (k <= j < k + 100 * s)%nat /\ tstc j = true) /\ (d <= d' <= d + 100 * s)%nat
  | (false, _, d') => (forall j, (k <= j < k + 100 * s)%nat -> tstc j = false) /\ d' = (d + 100 * s)%nat
  end.
Proof.
  induction s as [|s IH]; intros k d; cbn [count_down]; [split; [intros; lia|lia]|].
  pose proof (poll_second_spec tstc 100 k d) as H. destruct (poll_second 100 tstc k d) as [[[] k'] d'].
  - destruct H as [(j & Hj & Ht) Hd]. split; [exists j; split; [lia|done]|lia].
  - destruct H as (H & -> & ->). specialize (IH (k + 100)%nat (d + 100)%nat).
    destruct (count_down s tstc (k + 100) (d + 100)) as [[[] k2] d2].
    + destruct IH as [(j & Hj & Ht) Hd]. split; [exists j; split; [lia|done]|lia].
    + destruct IH as (H2 & ->). split; [|lia]. intros j Hj. destruct (decide (j < k + 100)%nat); [apply H; lia|].
      apply H2. lia.
Qed.

(** With the check for a key before the delay: the boot is stopped exactly when
    one of the polls, one before and a hundred for each second, sees a key; no
    key means waiting the whole delay, and it is never longer. *)
Theorem abortboot_correct tstc bootdelay :
  0 <= bootdelay ->
  let '(abort, delays) := abortboot true tstc bootdelay in
  (abort = true <-> exists k, Z.of_nat k <= 100 * bootdelay /\ tstc k = true) /\
  Z.of_nat delays <= 100 * bootdelay /\ (abort = false -> Z.of_nat delays = 100 * bootdelay).
Proof.
  intros Hb. unfold abortboot. destruct (Z.leb_spec 0 bootdelay); [|lia]. cbn [andb].
  destruct (tstc 0%nat) eqn:E0.
  - split_and!; [|lia|done]. split; [|done]. intros _. exists 0%nat. split; [lia|done].
  - pose proof (count_down_spec tstc (Z.to_nat bootdelay) 1 0) as H'.
    destruct (count_down (Z.to_nat bootdelay) tstc 1 0) as [[[] k'] d'].
    + destruct H' as [(j & Hj & Ht) Hd]. split_and!; [|lia|done]. split; [|done]. intros _. exists j. split; [lia|done].
    + destruct H' as [Hn ->]. split_and!; [|lia|lia]. split; [done|]. intros (k & Hk & Ht).
      destruct k as [|k]; [congruence|]. rewrite Hn in Ht by lia. done.
Qed.

(** ** Reading a line *)

(** Deleting a word from the end of the line, whose characters come last first. *)
Fixpoint drop_word (r : list Z) : list Z :=
  match r with
  | [] => []
  | c :: r => if c =? ch " " then r else drop_word r
  end.

(** What a key does to the line. *)
Definition edit (buf : list Z) (c : Z) : list Z :=
  if c =? 0 then buf
  else if c =? 0x15 then []
  else if c =? 0x17 then rev (drop_word (rev buf))
  else if (c =? 8) || (c =? 0x7F) then removelast buf
  else if (length buf <? cbsize - 2)%nat then buf ++ [c] else buf.

(** Length, line and what is left of the input; [None]: the line is not finished. *)
Fixpoint edit_line (buf input : list Z) : option (Z * list Z * list Z) :=
  match input with
  | [] => None
  | c :: input =>
      if (c =? 13) || (c =? 10) then Some (Z.of_nat (length buf), buf, input)
      else if c =? 3 then Some (-1, [], input)
      else edit_line (edit buf c) input
  end.

Definition line_ok (s : line_state) : Prop :=
  l_n s = Z.of_nat (length (l_buf s)) /\ (length (l_buf s) <= cbsize - 2)%nat.

Lemma delete_char_ok plen s : line_ok s ->
  exists s', delete_char plen s = Ok (s', default 0 (list.last (l_buf s))) /\ line_ok s' /\
    l_buf s' = removelast (l_buf s).
Proof.
  intros [Hn Hlen]. unfold delete_char. destruct (Z.eqb_spec (l_n s) 0) as [E|E].
  - assert (Hb : l_buf s = []) by (apply nil_length_inv; lia). exists s. rewrite Hb. split_and!; try done.
  - destruct (list.last (l_buf s)) as [c|] eqn:El.
    + eexists. split; [done|]. split; [|done]. apply last_Some in El as [l' El]. unfold line_ok. cbn [l_n l_buf].
      rewrite El in *. rewrite removelast_last. rewrite length_app in *. simpl in *. lia.
    + apply last_None in El. rewrite El in Hn. simpl in Hn. lia.
Qed.

Lemma rev_removelast (l : list Z) : rev (removelast l) = tl (rev l).
Proof.
  induction l as [|x l IH] using rev_ind; [done|]. rewrite removelast_last, rev_app_distr. done.
Qed.

Lemma delete_word_ok plen : forall fuel s c, line_ok s -> (length (l_buf s) <= fuel)%nat ->
  exists s', delete_word fuel plen s c = Ok s' /\ line_ok s' /\
    l_buf s' = if c =? ch " " then l_buf s else rev (drop_word (rev (l_buf s))).
Proof.
  induction fuel as [|fuel IH]; intros s c Hs Hf; cbn [delete_word].
  - assert (Hb : l_buf s = []) by (apply nil_length_inv; lia). pose proof Hs as [Hn Hlen].
    rewrite Hn, Hb. cbn. exists s. rewrite Hb. split_and!; [done|done|by destruct (c =? ch " ")].
  - pose proof Hs as [Hn _]. destruct (Z.ltb_spec 0 (l_n s)) as [Hpos|Hz]; cbn [andb].
    2: { assert (Hb : l_buf s = []) by (apply nil_length_inv; lia).
         exists s. split_and!; [done|done|]. rewrite Hb. by destruct (c =? ch " "). }
    destruct (Z.eqb_spec c (ch " ")) as [->|Hc]; cbn [negb]; [by exists s|].
    destruct (delete_char_ok plen s Hs) as (s1 & E & Hs1 & Hb1). rewrite (res_bind_ok _ _ _ E). cbv beta iota.
    destruct (list.last (l_buf s)) as [d|] eqn:El; [|apply last_None in El; rewrite El in Hn; simpl in Hn; lia].
    apply last_Some in El as [l' El]. rewrite El, removelast_last in Hb1.
    destruct (IH s1 d Hs1) as (s2 & E2 & Hs2 & Hb2).
    { rewrite Hb1. rewrite El, length_app in Hf. simpl in Hf. lia. }
    exists s2. split_and!; [done|done|]. rewrite Hb2, El, Hb1, rev_app_distr. cbn [rev app drop_word].
    destruct (d =? ch " "); [by rewrite rev_involutive|done].
Qed.

Lemma readline_loop_ok prompt plen : forall input s, line_ok s ->
  readline_loop None prompt plen input s =
    match edit_line (l_buf s) input with Some r => Ok r | None => OutOfFuel end.
Proof.
  induction input as [|c input IH]; intros s Hs; [done|]. cbn [readline_loop edit_line].
  destruct ((c =? 13) || (c =? 10)); [done|]. unfold edit.
  destruct (Z.eqb_spec c 0) as [->|]; [by rewrite IH|]. destruct (c =? 3); [done|].
  destruct (c =? 0x15); [rewrite IH; [done|split; [done|simpl; lia]]|].
  destruct (Z.eqb_spec c 0x17).
  { destruct (delete_char_ok plen s Hs) as (s1 & E & Hs1 & Hb1). rewrite (res_bind_ok _ _ _ E). cbv beta iota.
    destruct (delete_word_ok plen (length (l_buf s1)) s1 (default 0 (list.last (l_buf s))) Hs1) as (s2 & E2 & Hs2 & Hb2);
      [done|]. rewrite (res_bind_ok _ _ _ E2), IH by done. rewrite Hb2, Hb1.
    destruct (list.last (l_buf s)) as [d|] eqn:El.
    - apply last_Some in El as [l' ->]. rewrite removelast_last, rev_app_distr. cbn [rev app drop_word default from_option].
      unfold id. destruct (d =? ch " "); [by rewrite rev_involutive|done].
    - apply last_None in El. by rewrite El. }
  destruct ((c =? 8) || (c =? 0x7F)).
  { destruct (delete_char_ok plen s Hs) as (s1 & E & Hs1 & Hb1). rewrite (res_bind_ok _ _ _ E). cbv beta iota.
    by rewrite IH, Hb1. }
  destruct Hs as [Hn Hlen]. unfold normal_char. rewrite Hn.
  assert (Eb : (Z.of_nat (length (l_buf s)) <? CONFIG_SYS_CBSIZE - 2) = (length (l_buf s) <? cbsize - 2)%nat).
  { unfold cbsize. destruct (Nat.ltb_spec (length (l_buf s)) (Z.to_nat CONFIG_SYS_CBSIZE - 2)),
      (Z.ltb_spec (Z.of_nat (length (l_buf s))) (CONFIG_SYS_CBSIZE - 2)); unfold CONFIG_SYS_CBSIZE in *; lia. }
  rewrite Eb. destruct (Nat.ltb_spec (length (l_buf s)) (cbsize - 2)).
  - rewrite (res_bind_ok (mret (store_char c s)) _ _ eq_refl). rewrite IH; [done|].
    unfold line_ok, store_char. cbn [l_n l_buf]. rewrite length_app. cbn [length]. split; lia.
  - rewrite (res_bind_ok (mret s) _ _ eq_refl). rewrite IH; [done|]. by split.
Qed.

Lemma edit_length buf c : (length buf <= cbsize - 2)%nat -> (length (edit buf c) <= cbsize - 2)%nat.
Proof.
  intros H. unfold edit.
  assert (Hd : forall r, (length (drop_word r) <= length r)%nat).
  { induction r as [|x r IH]; cbn [drop_word]; [done|]. destruct (x =? ch " "); simpl; lia. }
  assert (Hr : (length (removelast buf) <= length buf)%nat).
  { clear H. induction buf as [|x [|y l] IH]; [done|simpl; lia|]. change (removelast (x :: y :: l)) with (x :: removelast (y :: l)).
    cbn [length] in *. lia. }
  destruct (c =? 0), (c =? 0x15), (c =? 0x17), ((c =? 8) || (c =? 0x7F)); try lia; try (simpl; lia).
  - rewrite length_rev. specialize (Hd (rev buf)). rewrite length_rev in Hd. lia.
  - rewrite length_rev. specialize (Hd (rev buf)). rewrite length_rev in Hd. lia.
  - destruct (Nat.ltb_spec (length buf) (cbsize - 2)); [rewrite length_app; cbn [length]|]; lia.
Qed.

Lemma edit_line_bound : forall input buf len l rest, (length buf <= cbsize - 2)%nat ->
  edit_line buf input = Some (len, l, rest) -> (length l <= cbsize - 2)%nat /\ (len = -1 \/ len = Z.of_nat (length l)).
Proof.
  induction input as [|c input IH]; intros buf len l rest Hb; cbn [edit_line]; [done|].
  destruct ((c =? 13) || (c =? 10)); [intros [= <- <- _]; split; [done|by right]|].
  destruct (c =? 3); [intros [= <- <- _]; split; [simpl; lia|by left]|]. apply IH. by apply edit_length.
Qed.

(** C29: [readline] is the line editor [edit_line]: it never reads or writes outside
    the buffer, answers as soon as the input has an end of line or a ^C, and the
    line and its NUL fit into [CONFIG_SYS_CBSIZE] bytes. *)
Theorem readline_correct prompt input :
  match edit_line [] input with
  | Some (len, l, rest) =>
      readline None prompt input = Ok (len, l, rest) /\ (length l + 2 <= cbsize)%nat /\
      (len = -1 \/ len = Z.of_nat (length l))
  | None => readline None prompt input = OutOfFuel
  end.
Proof.
  unfold readline. rewrite readline_loop_ok by (split; [done|simpl; lia]). cbn [l_buf].
  destruct (edit_line [] input) as [[[len l] rest]|] eqn:E; [|done].
  apply edit_line_bound in E as [H1 H2]; [|simpl; lia]. split_and!; try done. unfold cbsize, CONFIG_SYS_CBSIZE in *. lia.
Qed.

(** ** Concrete runs *)

(** A state with an environment, a ^C flag and the calls made so far. *)
Record bench_world := World { w_env : env_state; w_stop : bool; w_calls : list (nat * list (list Z)) }.

Definition bench_call (f : nat) (flag : Z) (argv : list (list Z)) (w : bench_world) : res (Z * bench_world) :=
  Ok ((if (f =? 9)%nat then 1 else 0), World (w_env w) (w_stop w) (w_calls w ++ [(f, argv)])).
Definition bench_clear (w : bench_world) : bench_world := World (w_env w) false (w_calls w).
Definition bench_cmds : list cmd_tbl :=
  [Cmd (zs "echo") 16 1 1 None None None; Cmd (zs "reset") 1 0 2 None None None; Cmd (zs "fail") 2 1 9 None None None].
Definition bench_state : bench_world := World bench true [].




Lemma main_rounds_repeat_witness :
  let round := main_round w_env bench_call w_stop bench_clear bench_cmds None in
  exists l1, round 4 (zs "fail") (Loop [] 1 bench_state) = Ok l1 /\
    round 0 [] l1 = Ok (Loop [] (-1) (world l1)).
Proof.
  eexists. split; [vm_compute; reflexivity|].
  apply (main_rounds_repeat w_env bench_call w_stop bench_clear bench_cmds 4 (zs "fail") (Loop [] 1 bench_state)
    (Loop [] (-1) (World bench false [(9%nat, [zs "fail"])])) None); [vm_compute; reflexivity|].
  vm_compute. discriminate.
Defined.

Definition macro_line : list piece := [Text (zs "tftp "); Macro true (zs "ab"); Text (zs " x")].

Lemma process_macros_correct_witness :
  env_repr bench two_vars /\ Forall good_piece macro_line /\
  process_macros bench (zs "tftp ${ab} x") = Ok (zs "tftp 1 x").
Proof.
  assert (Hg : Forall good_piece macro_line).
  { unfold macro_line, good_piece, macro_name, plain_char. repeat constructor; try discriminate.
    - apply (bool_decide_unpack _). vm_compute. exact I. }
  split; [exact bench_repr|]. split; [exact Hg|].
  apply (process_macros_correct bench two_vars macro_line bench_repr Hg). vm_compute. repeat constructor.
Defined.

Lemma abortboot_correct_witness :
  0 <= 3 /\ abortboot true (fun k => (k =? 150)%nat) 3 = (true, 149%nat) /\
  (exists k, Z.of_nat k <= 100 * 3 /\ (k =? 150)%nat = true).
Proof.
  split; [lia|]. split; [vm_compute; reflexivity|].
  apply (proj1 (abortboot_correct (fun k => (k =? 150)%nat) 3 ltac:(lia))). vm_compute. reflexivity.
Defined.

(** Sixteen words and a blank: the arguments are not ended by a [NULL]. *)
Example parse_line_unterminated :
  parse_line (flat_map (fun _ => zs "a ") (seq 0 16)) = (replicate 16 (zs "a"), false).
Proof. vm_compute. reflexivity. Qed.

(** A quote as the first character: the byte before the buffer is read. *)
Example run_command_leading_quote :
  run_command w_env bench_call w_stop bench_clear bench_cmds None (Some (zs "'echo' a")) 0 bench_state = Fault.
Proof. vm_compute. reflexivity. Qed.
