(* ===== verification/Flash.v ===== *)
(** * NOR flash (common/flash.c, board/stm/dragon/flash.c)

    Protecting and writing address ranges, and the board's driver for the chip on
    the 16-bit bus: identification, sector erase, programming and the wait for
    the chip.

    The chip is hardware.  The class [NorBus] is the bus as the driver uses it,
    reads and writes of 16-bit words and the ready pin; the class [NorChip] states
    what the data sheet documents of the command sequences and of the status bits
    while the chip is busy.  The instance at the end of the file is an executable
    chip that satisfies it.

    A [flash_info_t] is a record with its two arrays as lists, so an index behind
    them is a [Fault].  Addresses are [ulong]s: 32-bit [Z]s. *)

From S2P Require Import Prelude.

(** ** Data *)

Record flash_info := Info {
  size : Z;
  sector_count : Z;
  flash_id : Z;
  start : list Z;
  protect : list Z
}.

Definition with_protect (i : flash_info) (p : list Z) : flash_info :=
  Info (size i) (sector_count i) (flash_id i) (start i) p.

Definition FLASH_UNKNOWN : Z := 0xFFFF.
Definition FLASH_VENDMASK : Z := 0xFFFF0000.
Definition FLASH_MAN_SST : Z := 0x00100000.
Definition FLAG_PROTECT_SET : Z := 1.
Definition FLAG_PROTECT_CLEAR : Z := 2.
Definition ERR_OK : Z := 0.
Definition ERR_PROTECTED : Z := 4.
Definition ERR_INVAL : Z := 8.

Definition CONFIG_SYS_MAX_FLASH_SECT : Z := 512.

(** ** flash_protect *)

(** The last address of the bank and of a sector. *)
Definition bank_end (info : flash_info) : res Z :=
  s ← arr_get (start info) 0; mret (u32 (s + size info - 1)).

Definition sector_end (info : flash_info) (b_end : Z) (i : nat) : res Z :=
  if Z.of_nat i =? s16 (sector_count info - 1) then mret b_end
  else s ← arr_get (start info) (i + 1); mret (u32 (s - 1)).

(** [n] sectors are left, from [i] on. *)
Fixpoint protect_loop (n i : nat) (flag from to b_end : Z) (info : flash_info) : res flash_info :=
  match n with
  | O => mret info
  | S n' =>
      e ← sector_end info b_end i;
      s ← arr_get (start info) i;
      info ← (if (from <=? e) && (s <=? to) then
                if negb (Z.land flag FLAG_PROTECT_CLEAR =? 0) then
                  p ← arr_set (protect info) i 0; mret (with_protect info p)
                else if negb (Z.land flag FLAG_PROTECT_SET =? 0) then
                  p ← arr_set (protect info) i 1; mret (with_protect info p)
                else mret info
              else mret info);
      protect_loop n' (i + 1) flag from to b_end info
  end.

Definition flash_protect (flag from to : Z) (info : flash_info) : res flash_info :=
  b_end ← bank_end info;
  if (sector_count info =? 0) || (size info =? 0) || (to <? from) then mret info
  else
    s ← arr_get (start info) 0;
    if (flash_id info =? FLASH_UNKNOWN) || (to <? s) || (b_end <? from) then mret info
    else protect_loop (Z.to_nat (sector_count info)) 0 flag from to b_end info.

(** [addr2info]: the index of the bank. *)
Fixpoint addr2info (banks : list flash_info) (addr : Z) : res (option nat) :=
  match banks with
  | [] => mret None
  | info :: banks =>
      s ← arr_get (start info) 0;
      if negb (flash_id info =? FLASH_UNKNOWN) && (s <=? addr) && (addr <=? u32 (s + size info - 1))
      then mret (Some O)
      else r ← addr2info banks addr; mret (option_map S r)
  end.

(** ** The driver *)

Class NorBus (C : Type) := {
  bus_read : Z -> C -> Z * C;
  bus_write : Z -> Z -> C -> C;
  ready_pin : C -> bool * C
}.

(** [NOR_ONGOING] is a value the code never returns. *)
Inductive NOR_Status := NOR_SUCCESS | NOR_ERROR | NOR_TIMEOUT.

Definition NOR_FLASH_START_ADDR : Z := 0x64000000.
Definition BlockErase_Timeout : Z := 0x00A00000.
Definition Program_Timeout : Z := 0x00001400.

Section Driver.
Context {C : Type} `{HB : !NorBus C}.

(** The two loops on the ready pin, as long as it has the level given. *)
Fixpoint wait_pin (timeout : nat) (level : bool) (c : C) : C :=
  let '(p, c) := ready_pin c in
  if Bool.eqb p level then
    match timeout with O => c | S t => wait_pin t level c end
  else c.

Definition toggled (v1 v2 : Z) : bool := negb (Z.land v1 0x40 =? Z.land v2 0x40).

Fixpoint poll_status (Timeout : nat) (c : C) : NOR_Status * C :=
  match Timeout with
  | O => (NOR_TIMEOUT, c)
  | S Timeout' =>
      let '(val1, c) := bus_read NOR_FLASH_START_ADDR c in
      let '(val2, c) := bus_read NOR_FLASH_START_ADDR c in
      if negb (toggled val1 val2) then (NOR_SUCCESS, c)
      else
        let '(val1, c) := bus_read NOR_FLASH_START_ADDR c in
        let '(val2, c) := bus_read NOR_FLASH_START_ADDR c in
        if negb (toggled val1 val2) then (NOR_SUCCESS, c)
        else if Z.land val1 0x20 =? 0x20 then (NOR_ERROR, c)
        else poll_status Timeout' c
  end.

Definition FSMC_NOR_GetStatus (Timeout : Z) (c : C) : NOR_Status * C :=
  let c := wait_pin (Z.to_nat Timeout) true c in
  let c := wait_pin (Z.to_nat Timeout) false c in
  poll_status (Z.to_nat Timeout) c.

(** [base[i]] for a pointer to 16-bit words. *)
Definition word_addr (base i : Z) : Z := u32 (base + 2 * i).

Definition is_success (s : NOR_Status) : bool := match s with NOR_SUCCESS => true | _ => false end.

(** [irq]: whether interrupts are enabled; [disable_interrupts] returns it. *)
Record hw := HW { chip : C; irq : bool }.

(** The unlock cycles and the command behind them. *)
Definition nor_command (base cmd : Z) (c : C) : C :=
  let c := bus_write (word_addr base 0x5555) 0x00AA c in
  let c := bus_write (word_addr base 0x2AAA) 0x0055 c in
  bus_write (word_addr base 0x5555) cmd c.

Definition nor_program (base addr data : Z) (c : C) : C := bus_write addr data (nor_command base 0x00A0 c).

Definition nor_erase_sector (base addr : Z) (c : C) : C :=
  let c := nor_command base 0x0080 c in
  let c := bus_write (word_addr base 0x5555) 0x00AA c in
  let c := bus_write (word_addr base 0x2AAA) 0x0055 c in
  bus_write addr 0x0030 c.

Definition write_data (info : flash_info) (dest data : Z) (h : hw) : res (Z * hw) :=
  base ← arr_get (start info) 0;
  let '(v, c) := bus_read dest (chip h) in
  if negb (Z.land v data =? data) then mret (2, HW c (irq h))
  else
    let flag := irq h in
    let c := nor_program base dest data c in
    let irq := flag in            (* false, and enabled again if it was *)
    let '(st, c) := FSMC_NOR_GetStatus Program_Timeout c in
    let c := bus_write dest 0x00F0 c in
    mret ((if is_success st then 0 else 1), HW c irq).

(** [src] is what can be read from the source pointer on; [cnt] a [ulong]. *)
Fixpoint write_loop (fuel : nat) (info : flash_info) (src : list Z) (wp cnt : Z) (h : hw) : res (Z * hw) :=
  if cnt =? 0 then mret (0, h)
  else
    match fuel with
    | O => OutOfFuel
    | S fuel' =>
        match src with
        | lo :: hi :: src =>
            let data := Z.lor lo (Z.shiftl hi 8) in
            '(rc, h) ← write_data info wp data h;
            if negb (rc =? 0) then mret (rc, h)
            else write_loop fuel' info src (u32 (wp + 2)) (u32 (cnt - 2)) h
        | _ => Fault
        end
    end.

Definition write_buff (info : flash_info) (src : list Z) (addr cnt : Z) (h : hw) : res (Z * hw) :=
  if flash_id info =? FLASH_UNKNOWN then mret (4, h)
  else write_loop (S (length src)) info src addr cnt h.

(** Erasing the sectors from [sect] on, [n] of them; interrupts are off. *)
Fixpoint erase_loop (n sect : nat) (info : flash_info) (h : hw) : res (Z * hw) :=
  match n with
  | O => mret (0, h)
  | S n' =>
      p ← arr_get (protect info) sect;
      if p =? 0 then
        base ← arr_get (start info) 0;
        addr ← arr_get (start info) sect;
        let c := nor_erase_sector base addr (chip h) in
        let '(st, c) := FSMC_NOR_GetStatus BlockErase_Timeout c in
        let c := bus_write addr 0x00F0 c in
        if is_success st then erase_loop n' (sect + 1) info (HW c (irq h))
        else mret (1, HW c (irq h))
      else erase_loop n' (sect + 1) info h
  end.

(** Counting the protected sectors reads every one of them. *)
Fixpoint count_protected (n sect : nat) (info : flash_info) : res Z :=
  match n with
  | O => mret 0
  | S n' =>
      p ← arr_get (protect info) sect;
      k ← count_protected n' (sect + 1) info;
      mret (if p =? 0 then k else k + 1)
  end.

Definition flash_erase (info : flash_info) (s_first s_last : Z) (h : hw) : res (Z * hw) :=
  if (s_first <? 0) || (s_last <? s_first) then mret (1, h)
  else
    let n := Z.to_nat (s_last - s_first + 1) in
    prot ← count_protected n (Z.to_nat s_first) info;
    erase_loop n (Z.to_nat s_first) info (HW (chip h) false).

(** ** flash_write of common/flash.c *)

(** Whether a protected sector of the bank is touched. *)
Fixpoint hits_protected (n i : nat) (info : flash_info) (addr fin : Z) : res bool :=
  match n with
  | O => mret false
  | S n' =>
      s ← arr_get (start info) i;
      e_addr ← (if Z.of_nat i =? s16 (sector_count info - 1)
                then b ← arr_get (start info) 0; mret (u32 (b + size info))
                else arr_get (start info) (i + 1));
      p ← arr_get (protect info) i;
      if (s <=? fin) && (addr <? e_addr) && negb (p =? 0) then mret true
      else hits_protected n' (i + 1) info addr fin
  end.

Fixpoint any_protected (banks : list flash_info) (addr fin : Z) : res bool :=
  match banks with
  | [] => mret false
  | info :: banks =>
      b ← hits_protected (Z.to_nat (sector_count info)) 0 info addr fin;
      if (b : bool) then mret true else any_protected banks addr fin
  end.

Fixpoint write_banks (banks : list flash_info) (src : list Z) (addr cnt : Z) (h : hw) : res (Z * hw) :=
  match banks with
  | [] => mret (ERR_OK, h)
  | info :: banks =>
      if cnt =? 0 then mret (ERR_OK, h)
      else
        s ← arr_get (start info) 0;
        let room := u32 (s + size info - addr) in
        let len := if cnt <? room then cnt else room in
        '(i, h) ← write_buff info src addr len h;
        if negb (i =? 0) then mret (i, h)
        else write_banks banks (drop (Z.to_nat len) src) (u32 (addr + len)) (u32 (cnt - len)) h
  end.

Definition flash_write (banks : list flash_info) (src : list Z) (addr cnt : Z) (h : hw) : res (Z * hw) :=
  let fin := u32 (addr + cnt - 1) in
  info_first ← addr2info banks addr;
  info_last ← addr2info banks fin;
  if cnt =? 0 then mret (ERR_OK, h)
  else
    match info_first, info_last with
    | Some a, Some b =>
        let used := take (b + 1 - a) (drop a banks) in
        p ← any_protected used addr fin;
        if (p : bool) then mret (ERR_PROTECTED, h) else write_banks used src addr cnt h
    | _, _ => mret (ERR_INVAL, h)
    end.

(** ** Identification *)

Definition MAN_IDS : list (Z * Z) :=
  [(0x01, 0x00000000); (0x04, 0x00010000); (0xBF, FLASH_MAN_SST); (0x20, 0x00040000); (0x89, 0x00300000)].

Definition SST39VF1601 : Z := 0x234b.
Definition INTEL_28F320J3A_ID : Z := 0x16.
Definition FLASH_28F320J3A : Z := 0xC0.

(** [addr[i]] read. *)
Definition read_word (addr i : Z) (c : C) : Z * C := bus_read (word_addr addr i) c.

Definition flash_get_size (addr : Z) (info : flash_info) (c : C) : res (Z * flash_info * C) :=
  let c := nor_command addr 0x0090 c in
  let '(manuf, c) := read_word addr 0 c in
  match find (fun p => fst p =? manuf) MAN_IDS with
  | None =>
      let c := bus_write (word_addr addr 0) 0xF0 c in
      mret (0, Info 0 0 FLASH_UNKNOWN (start info) (protect info), c)
  | Some (_, id) =>
      let '(device, c) := read_word addr 1 c in
      let c := bus_write (word_addr addr 0) 0xF0 c in
      let c := nor_command addr 0x0098 c in
      let '(sh, c) := read_word addr 0x27 c in
      if 31 <=? sh then Fault
      else
        let sz := u32 (Z.shiftl 1 sh) in
        let '(hi, c) := read_word addr 0x2e c in
        let '(lo, c) := read_word addr 0x2d c in
        let sectors := u32 (Z.lor (Z.shiftl hi 8) lo) in
        let '(known, info) :=
          if device =? INTEL_28F320J3A_ID then
            (true, Info 0x00400000 32 (id + FLASH_28F320J3A) (start info) (protect info))
          else if device =? SST39VF1601 then
            (true, Info sz (u16 (sectors + 1)) (id + SST39VF1601) (start info) (protect info))
          else (false, Info (size info) (sector_count info) FLASH_UNKNOWN (start info) (protect info)) in
        let info := if (known : bool) && (CONFIG_SYS_MAX_FLASH_SECT <? sector_count info)
                    then Info (size info) CONFIG_SYS_MAX_FLASH_SECT (flash_id info) (start info) (protect info)
                    else info in
        let c := bus_write (word_addr addr 0) 0xF0 c in
        mret ((if (known : bool) then size info else 0), info, c)
  end.

(** Sector addresses, 4 KiB each, for the vendor SST only. *)
Fixpoint offsets_loop (n i : nat) (base : Z) (info : flash_info) : res flash_info :=
  match n with
  | O => mret info
  | S n' =>
      st ← arr_set (start info) i (u32 (base + Z.of_nat i * 0x1000));
      p ← arr_set (protect info) i 0;
      offsets_loop n' (i + 1) base (Info (size info) (sector_count info) (flash_id info) st p)
  end.

Definition flash_get_offsets (base : Z) (info : flash_info) : res flash_info :=
  if flash_id info =? FLASH_UNKNOWN then mret info
  else if Z.land (flash_id info) FLASH_VENDMASK =? FLASH_MAN_SST
  then offsets_loop (Z.to_nat (sector_count info)) 0 base info
  else mret info.

(** The banks one after the other, all looked for at the same address; then the
    sectors of the environment in the first bank are protected.  The total size. *)
Fixpoint init_banks (bases : list Z) (infos : list flash_info) (c : C) : res (list flash_info * Z * C) :=
  match bases, infos with
  | base :: bases, info :: infos =>
      let info := Info (size info) (sector_count info) FLASH_UNKNOWN (start info) (protect info) in
      '(sz, info, c) ← flash_get_size NOR_FLASH_START_ADDR info c;
      info ← (if flash_id info =? FLASH_UNKNOWN then mret info
              else
                info ← flash_get_offsets base info;
                mret (Info sz (sector_count info) (flash_id info) (start info) (protect info)));
      '(infos, total, c) ← init_banks bases infos c;
      mret (info :: infos, u32 (sz + total), c)
  | _, _ => mret ([], 0, c)
  end.

Definition flash_init (env_addr env_sect_size : Z) (bases : list Z) (infos : list flash_info) (c : C)
    : res (Z * list flash_info * C) :=
  '(infos, total, c) ← init_banks bases infos c;
  match infos with
  | [] => Fault
  | info :: infos =>
      info ← flash_protect FLAG_PROTECT_SET env_addr (u32 (env_addr + env_sect_size - 1)) info;
      mret (total, info :: infos, c)
  end.

End Driver.

Arguments hw : clear implicits.

(** ** What the chip promises

    [word] is the content of the array as [idle] reads see it; [busy c w k b]:
    the chip works on an operation that leaves the content [w], for [k] more
    reads, of which each gives status bits: DQ6 is [b] and toggles, DQ5 is 0. *)

Class NorChip (C : Type) `{HB : !NorBus C} := {
  chip_base : Z;
  program_reads : nat;
  erase_reads : nat;
  word : C -> Z -> Z;
  idle : C -> Prop;
  busy : C -> (Z -> Z) -> nat -> bool -> Prop;
  idle_read a c : idle c -> bus_read a c = (word c a, c);
  idle_reset a c : idle c -> idle (bus_write a 0x00F0 c) /\ forall x, word (bus_write a 0x00F0 c) x = word c x;
  pin_idle c : idle c -> idle (snd (ready_pin c)) /\ forall x, word (snd (ready_pin c)) x = word c x;
  pin_busy c w k b : busy c w k b -> busy (snd (ready_pin c)) w k b;
  busy_read a c w k b : busy c w (S k) b ->
    Z.testbit (fst (bus_read a c)) 6 = b /\ Z.testbit (fst (bus_read a c)) 5 = false /\
    busy (snd (bus_read a c)) w k (negb b);
  busy_end c w b : busy c w 0 b -> idle c /\ forall x, word c x = w x;
  program_starts a d c : idle c ->
    exists k b, (k <= program_reads)%nat /\
      busy (nor_program chip_base a d c) (fun x => if x =? a then Z.land (word c a) d else word c x) k b;
  erase_starts a c : idle c ->
    exists k b, (k <= erase_reads)%nat /\
      busy (nor_erase_sector chip_base a c) (fun x => if (x - chip_base) / 0x1000 =? (a - chip_base) / 0x1000 then 0xFFFF else word c x) k b;
  program_in_time : (program_reads + 4 <= 4 * Z.to_nat Program_Timeout)%nat;
  erase_in_time : (erase_reads + 4 <= 4 * Z.to_nat BlockErase_Timeout)%nat
}.

(** ** Waiting for the chip *)

Section Chip_proofs.
Context {C : Type} `{HB : !NorBus C, HC : !NorChip C}.

Lemma wait_pin_busy level : forall t (c : C) w k b, busy c w k b -> busy (wait_pin t level c) w k b.
Proof.
  induction t as [|t IH]; intros c w k b Hb; cbn [wait_pin]; pose proof (pin_busy c w k b Hb) as H;
    destruct (ready_pin c) as [p c']; cbn [snd] in H; destruct (Bool.eqb p level); try done. by apply IH.
Qed.

Lemma toggled_bits v1 v2 : toggled v1 v2 = xorb (Z.testbit v1 6) (Z.testbit v2 6).
Proof.
  unfold toggled. rewrite <- negb_involutive. f_equal.
  assert (H : forall v, Z.land v 0x40 = if Z.testbit v 6 then 0x40 else 0).
  { intros v. change 0x40 with (Z.shiftl (Z.ones 1) 6). rewrite land_mask_shift by lia.
    rewrite <- Z.testbit_spec' by lia. by destruct (Z.testbit v 6). }
  rewrite !H. by destruct (Z.testbit v1 6), (Z.testbit v2 6).
Qed.

Lemma dq5 v : Z.testbit v 5 = false -> (Z.land v 0x20 =? 0x20) = false.
Proof.
  intros H. change (Z.land v 0x20) with (Z.land v (Z.shiftl (Z.ones 1) 5)). rewrite land_mask_shift by lia.
  change (2 ^ 1) with 2. rewrite <- Z.testbit_spec' by lia. by rewrite H.
Qed.

(** Two reads of a busy chip: either more than that was left and DQ6 toggles, or
    the operation is over afterwards. *)
Lemma read_pair (c : C) w k b : busy c w k b ->
  let '(v1, c1) := bus_read NOR_FLASH_START_ADDR c in
  let '(v2, c2) := bus_read NOR_FLASH_START_ADDR c1 in
  (exists k', k = S (S k') /\ toggled v1 v2 = true /\ busy c2 w k' b /\ Z.testbit v1 5 = false) \/
  ((k <= 1)%nat /\ idle c2 /\ (forall x, word c2 x = w x) /\ (k = 0%nat -> toggled v1 v2 = false) /\
   (k = 1%nat -> Z.testbit v1 5 = false)).
Proof.
  intros Hb. destruct k as [|k].
  - apply busy_end in Hb as [Hi Hw]. rewrite (idle_read _ _ Hi), (idle_read _ _ Hi). right.
    split_and!; try done; [lia|]. intros _. rewrite toggled_bits. by destruct (Z.testbit _ 6).
  - pose proof (busy_read NOR_FLASH_START_ADDR c w k b Hb) as H.
    destruct (bus_read NOR_FLASH_START_ADDR c) as [v1 c1]. cbn [fst snd] in H. destruct H as (H6 & H5 & Hb1).
    destruct k as [|k].
    + apply busy_end in Hb1 as [Hi Hw]. rewrite (idle_read _ _ Hi). right. split_and!; try done; lia.
    + pose proof (busy_read NOR_FLASH_START_ADDR c1 w k (negb b) Hb1) as H.
      destruct (bus_read NOR_FLASH_START_ADDR c1) as [v2 c2]. cbn [fst snd] in H. destruct H as (H6' & _ & Hb2).
      rewrite negb_involutive in Hb2. left. exists k. split_and!; try done.
      rewrite toggled_bits, H6, H6'. by destruct b.
Qed.

Lemma poll_status_ok w : forall t (c : C) k b, busy c w k b -> (k + 4 <= 4 * t)%nat ->
  fst (poll_status t c) = NOR_SUCCESS /\ idle (snd (poll_status t c)) /\
  forall x, word (snd (poll_status t c)) x = w x.
Proof.
  induction t as [|t IH]; intros c k b Hb Hk; [lia|]. cbn [poll_status].
  pose proof (read_pair c w k b Hb) as H. destruct (bus_read NOR_FLASH_START_ADDR c) as [v1 c1].
  destruct (bus_read NOR_FLASH_START_ADDR c1) as [v2 c2].
  assert (Hnext : forall c' k' b', busy c' w k' b' -> (k' + 6 <= 4 * S t)%nat ->
    let '(v3, c3) := bus_read NOR_FLASH_START_ADDR c' in
    let '(v4, c4) := bus_read NOR_FLASH_START_ADDR c3 in
    let r := if negb (toggled v3 v4) then (NOR_SUCCESS, c4)
             else if Z.land v3 0x20 =? 0x20 then (NOR_ERROR, c4) else poll_status t c4 in
    fst r = NOR_SUCCESS /\ idle (snd r) /\ forall x, word (snd r) x = w x).
  { clear c1 c2 v1 v2 H. intros c' k' b' Hb' Hk'. pose proof (read_pair c' w k' b' Hb') as H.
    destruct (bus_read NOR_FLASH_START_ADDR c') as [v3 c3]. destruct (bus_read NOR_FLASH_START_ADDR c3) as [v4 c4].
    cbv zeta. destruct H as [(k2 & -> & Ht2 & Hb2 & H5)|(Hle & Hi & Hw & H0 & H1)].
    - rewrite Ht2, (dq5 _ H5). cbn [negb]. apply (IH c4 k2 b'); [done|lia].
    - destruct (toggled v3 v4) eqn:E; cbn [negb]; [|done]. destruct k' as [|[|k']]; [|rewrite (dq5 _ (H1 eq_refl))|lia].
      { specialize (H0 eq_refl). congruence. }
      destruct t as [|t]; [lia|]. cbn [poll_status]. rewrite (idle_read _ _ Hi), (idle_read _ _ Hi).
      unfold toggled. rewrite Z.eqb_refl. done. }
  destruct H as [(k' & -> & Ht & Hb2 & _)|(Hle & Hi & Hw & H0 & _)].
  - rewrite Ht. cbn [negb]. specialize (Hnext c2 k' b Hb2 ltac:(lia)).
    destruct (bus_read NOR_FLASH_START_ADDR c2) as [v3 c3]. by destruct (bus_read NOR_FLASH_START_ADDR c3) as [v4 c4].
  - destruct (toggled v1 v2) eqn:E; cbn [negb]; [|done].
    rewrite (idle_read _ _ Hi), (idle_read _ _ Hi). unfold toggled. rewrite Z.eqb_refl. done.
Qed.

Lemma get_status_ok T (c : C) w k b : busy c w k b -> (k + 4 <= 4 * Z.to_nat T)%nat ->
  fst (FSMC_NOR_GetStatus T c) = NOR_SUCCESS /\ idle (snd (FSMC_NOR_GetStatus T c)) /\
  forall x, word (snd (FSMC_NOR_GetStatus T c)) x = w x.
Proof.
  intros Hb Hk. unfold FSMC_NOR_GetStatus. apply (poll_status_ok w _ _ k b); [|done].
  by do 2 apply wait_pin_busy.
Qed.

End Chip_proofs.

(** ** Programming *)

Section Write_proofs.
Context {C : Type} `{HB : !NorBus C, HC : !NorChip C}.
Implicit Types (h : hw C) (info : flash_info).

(** A bank that the chip [HC] is behind. *)
Definition on_chip info : Prop := flash_id info <> FLASH_UNKNOWN /\ head (start info) = Some chip_base.

Lemma start_0 info : on_chip info -> arr_get (start info) 0 = Ok chip_base.
Proof. intros [_ H]. destruct (start info) as [|s l]; [done|]. by injection H as ->. Qed.

(** [write_data] refuses a word that would need a bit set, and otherwise programs
    exactly this word; interrupts are left as they were. *)
Lemma write_data_ok info a d h : on_chip info -> idle (chip h) ->
  exists c', write_data info a d h = Ok ((if Z.land (word (chip h) a) d =? d then 0 else 2), HW c' (irq h)) /\
    idle c' /\
    forall x, word c' x = if (Z.land (word (chip h) a) d =? d) && (x =? a) then d else word (chip h) x.
Proof.
  intros Hi Hc. unfold write_data. rewrite (res_bind_ok _ _ _ (start_0 info Hi)), (idle_read a _ Hc). cbv beta iota.
  destruct (Z.eqb_spec (Z.land (word (chip h) a) d) d) as [E|E]; cbn [negb andb].
  - destruct (program_starts a d (chip h) Hc) as (k & b & Hk & Hb).
    pose proof program_in_time as Htime.
    destruct (get_status_ok Program_Timeout _ _ k b Hb) as (H1 & H2 & H3); [lia|].
    destruct (FSMC_NOR_GetStatus Program_Timeout (nor_program chip_base a d (chip h))) as [st c]. cbn [fst snd] in *.
    subst st. destruct (idle_reset a c H2) as [H4 H5]. eexists. split; [done|]. split; [done|].
    intros x. rewrite H5, H3. destruct (x =? a); congruence.
  - exists (chip h). split; [done|]. by split.
Qed.

(** The 16-bit words of the source. *)
Fixpoint words_of (src : list Z) : list Z :=
  match src with lo :: hi :: src => Z.lor lo (Z.shiftl hi 8) :: words_of src | _ => [] end.

(** How many of the words, written from [a] on, only clear bits. *)
Fixpoint writable (m : Z -> Z) (a : Z) (ws : list Z) : nat :=
  match ws with
  | [] => O
  | d :: ws => if Z.land (m a) d =? d then S (writable m (a + 2) ws) else O
  end.

(** The content after writing the words. *)
Fixpoint written (m : Z -> Z) (a : Z) (ws : list Z) (x : Z) : Z :=
  match ws with
  | [] => m x
  | d :: ws => if x =? a then d else written m (a + 2) ws x
  end.

Lemma writable_ext (m m' : Z -> Z) : forall ws a, (forall x, a <= x -> m x = m' x) -> writable m a ws = writable m' a ws.
Proof.
  induction ws as [|d ws IH]; intros a H; [done|]. cbn [writable]. rewrite H by lia.
  by rewrite (IH (a + 2)) by (intros; apply H; lia).
Qed.

Lemma written_before (m : Z -> Z) : forall ws a x, x < a -> written m a ws x = m x.
Proof.
  induction ws as [|d ws IH]; intros a x H; [done|]. cbn [written]. destruct (Z.eqb_spec x a); [lia|]. apply IH. lia.
Qed.

Lemma written_ext (m m' : Z -> Z) : forall ws a x, m x = m' x -> written m a ws x = written m' a ws x.
Proof.
  induction ws as [|d ws IH]; intros a x H; [done|]. cbn [written]. destruct (x =? a); [done|]. by apply IH.
Qed.

Lemma write_loop_ok info : on_chip info -> forall src tail fuel a h,
  (length src < fuel)%nat -> Nat.even (length src) = true -> idle (chip h) ->
  0 <= a -> a + Z.of_nat (length src) <= 4294967296 ->
  let ws := words_of src in let n := writable (word (chip h)) a ws in
  exists c', write_loop fuel info (src ++ tail) a (Z.of_nat (length src)) h =
      Ok ((if (n =? length ws)%nat then 0 else 2), HW c' (irq h)) /\
    idle c' /\ forall x, word c' x = written (word (chip h)) a (take n ws) x.
Proof.
  intros Hi src tail. remember (length src) as m eqn:Em. revert src Em.
  induction m as [m IH] using lt_wf_ind. intros src Em fuel a h Hf He Hc Ha Hend.
  destruct src as [|lo [|hi src]]; cbn [words_of writable app]; cbv zeta.
  - subst m. exists (chip h). destruct fuel; cbn; by destruct h.
  - subst m. discriminate.
  - destruct fuel as [|fuel]; [lia|]. cbn [write_loop]. subst m.
    destruct (Z.eqb_spec (Z.of_nat (length (lo :: hi :: src))) 0) as [E0|_]; [simpl in E0; lia|].
    set (d := Z.lor lo (Z.shiftl hi 8)).
    destruct (write_data_ok info a d h Hi Hc) as (c1 & E1 & Hc1 & Hw1). rewrite (res_bind_ok _ _ _ E1). cbv beta iota.
    destruct (Z.land (word (chip h) a) d =? d) eqn:Ed; cbn [andb] in Hw1.
    + change (negb (0 =? 0)) with false. cbv iota. cbn [length] in *.
      destruct (decide (src = [])) as [->|Hne].
      { cbn [length]. change (u32 (Z.of_nat 2 - 2)) with 0. exists c1. cbn [words_of writable length take written].
        destruct fuel as [|fuel]; [simpl in Hf; lia|]. by split_and!. }
      assert (Hl2 : (1 <= length src)%nat) by (destruct src; [done|simpl; lia]).
      replace (u32 (a + 2)) with (a + 2) by (rewrite u32_small; lia).
      replace (u32 (Z.of_nat (S (S (length src))) - 2)) with (Z.of_nat (length src)) by (rewrite u32_small; lia).
      destruct (IH (length src) ltac:(lia) src eq_refl fuel (a + 2) (HW c1 (irq h))) as (c' & E & Hc' & Hw'); try done; try lia.
      cbn [chip irq] in *.
      assert (Ewr : writable (word c1) (a + 2) (words_of src) = writable (word (chip h)) (a + 2) (words_of src)).
      { apply writable_ext. intros x Hx. rewrite Hw1. destruct (Z.eqb_spec x a); [lia|done]. }
      rewrite Ewr in *. exists c'. split; [exact E|]. split; [done|]. intros x. rewrite Hw'. cbn [take written].
      destruct (Z.eqb_spec x a) as [->|Hx].
      * rewrite written_before by lia. rewrite Hw1. by rewrite Z.eqb_refl.
      * apply written_ext. rewrite Hw1. by destruct (Z.eqb_spec x a).
    + change (negb (2 =? 0)) with true. cbv iota. exists c1. by split_and!.
Qed.

Lemma write_buff_ok info src tail a h : on_chip info -> Nat.even (length src) = true -> idle (chip h) ->
  0 <= a -> a + Z.of_nat (length src) <= 4294967296 ->
  let ws := words_of src in let n := writable (word (chip h)) a ws in
  exists c', write_buff info (src ++ tail) a (Z.of_nat (length src)) h =
      Ok ((if (n =? length ws)%nat then 0 else 2), HW c' (irq h)) /\
    idle c' /\ forall x, word c' x = written (word (chip h)) a (take n ws) x.
Proof.
  intros Hi He Hc Ha Hend. unfold write_buff. destruct (Z.eqb_spec (flash_id info) FLASH_UNKNOWN); [by destruct Hi|].
  apply write_loop_ok; try done. rewrite length_app. lia.
Qed.

End Write_proofs.

(** ** Banks of 4 KiB sectors *)

Section Bank_proofs.
Context {C : Type} `{HB : !NorBus C, HC : !NorChip C}.
Implicit Types (h : hw C) (info : flash_info).

(** A bank as [flash_get_offsets] lays it out for the chip: [n] sectors. *)
Record wf_bank (n : nat) info : Prop := {
  wf_known : flash_id info <> FLASH_UNKNOWN;
  wf_count : sector_count info = Z.of_nat n;
  wf_n : (0 < n <= 512)%nat;
  wf_size : size info = Z.of_nat n * 0x1000;
  wf_base : 0 <= chip_base;
  wf_top : chip_base + Z.of_nat n * 0x1000 < 4294967296;
  wf_start i : (i < n)%nat -> start info !! i = Some (chip_base + Z.of_nat i * 0x1000);
  wf_protect : (n <= length (protect info))%nat
}.

Lemma wf_start0 n info : wf_bank n info -> arr_get (start info) 0 = Ok chip_base.
Proof.
  intros W. unfold arr_get. rewrite (wf_start n info W 0) by (pose proof (wf_n _ _ W); lia). simpl. f_equal. lia.
Qed.

Lemma wf_on_chip n info : wf_bank n info -> on_chip info.
Proof.
  intros W. split; [apply (wf_known _ _ W)|]. pose proof (wf_start n info W 0) as H. pose proof (wf_n _ _ W).
  destruct (start info); cbn in *; [by specialize (H ltac:(lia))|]. rewrite H by lia. f_equal. lia.
Qed.

Definition sect_lo (i : nat) : Z := chip_base + Z.of_nat i * 0x1000.
Definition sect_hi (i : nat) : Z := sect_lo i + 0xFFF.

(** Sector [i] has an address between [from] and [to]. *)
Definition touches (from to : Z) (i : nat) : bool := (from <=? sect_hi i) && (sect_lo i <=? to).

Lemma wf_sector_start n info i : wf_bank n info -> (i < n)%nat -> arr_get (start info) i = Ok (sect_lo i).
Proof. intros W Hi. unfold arr_get. by rewrite (wf_start n info W i Hi). Qed.

Lemma wf_last n info i : wf_bank n info -> (Z.of_nat i =? s16 (sector_count info - 1)) = (S i =? n)%nat.
Proof.
  intros W. pose proof (wf_n _ _ W). rewrite (wf_count _ _ W).
  assert (E : s16 (Z.of_nat n - 1) = Z.of_nat n - 1) by (unfold s16, u16; cbv zeta; btest; zmod). rewrite E.
  destruct (Nat.eqb_spec (S i) n), (Z.eqb_spec (Z.of_nat i) (Z.of_nat n - 1)); lia.
Qed.

Lemma wf_sector_end n info i : wf_bank n info -> (i < n)%nat ->
  sector_end info (chip_base + size info - 1) i = Ok (sect_hi i).
Proof.
  intros W Hi. unfold sector_end. rewrite (wf_last n info i W). pose proof (wf_top _ _ W). pose proof (wf_base _ _ W).
  destruct (Nat.eqb_spec (S i) n) as [E|E].
  - rewrite (wf_size _ _ W). unfold sect_hi, sect_lo. simpl. f_equal. lia.
  - rewrite (res_bind_ok _ _ _ (wf_sector_start n info (i + 1) W ltac:(lia))). simpl. f_equal.
    rewrite u32_small; unfold sect_hi, sect_lo; lia.
Qed.

Lemma wf_with_protect n info p : wf_bank n info -> length p = length (protect info) -> wf_bank n (with_protect info p).
Proof. intros [] Hl. split; try done. cbn [protect with_protect]. by rewrite Hl. Qed.

(** ** flash_protect *)

Lemma protect_loop_ok flag from to v b_end : (flag = FLAG_PROTECT_CLEAR /\ v = 0) \/ (flag = FLAG_PROTECT_SET /\ v = 1) ->
  forall k i n info, wf_bank n info -> b_end = chip_base + size info - 1 -> (i + k = n)%nat ->
  exists p, protect_loop k i flag from to b_end info = Ok (with_protect info p) /\
    length p = length (protect info) /\
    forall j, p !! j = if (i <=? j)%nat && (j <? n)%nat && touches from to j then Some v else protect info !! j.
Proof.
  intros Hv. induction k as [|k IH]; intros i n info W Hbe Hn; cbn [protect_loop].
  - exists (protect info). split; [by destruct info|]. split; [done|]. intros j.
    destruct (Nat.leb_spec i j), (Nat.ltb_spec j n); try lia; done.
  - rewrite Hbe. rewrite (res_bind_ok _ _ _ (wf_sector_end n info i W ltac:(lia))).
    rewrite (res_bind_ok _ _ _ (wf_sector_start n info i W ltac:(lia))).
    change ((from <=? sect_hi i) && (sect_lo i <=? to)) with (touches from to i).
    assert (Hlt : (i < length (protect info))%nat) by (pose proof (wf_protect _ _ W); lia).
    set (p1 := if touches from to i then <[i := v]> (protect info) else protect info).
    assert (Hp1 : length p1 = length (protect info)) by (unfold p1; destruct (touches from to i); [apply length_insert|done]).
    assert (E : (if touches from to i then
        if negb (Z.land flag FLAG_PROTECT_CLEAR =? 0) then p ← arr_set (protect info) i 0; mret (with_protect info p)
        else if negb (Z.land flag FLAG_PROTECT_SET =? 0) then p ← arr_set (protect info) i 1; mret (with_protect info p)
        else mret info else mret info) = Ok (with_protect info p1)).
    { unfold p1. destruct (touches from to i); [|by destruct info].
      rewrite (arr_set_ok _ i 0 Hlt), (arr_set_ok _ i 1 Hlt). destruct Hv as [[-> ->]|[-> ->]]; reflexivity. }
    rewrite (res_bind_ok _ _ _ E).
    destruct (IH (i + 1)%nat n (with_protect info p1) (wf_with_protect n info p1 W Hp1) Hbe ltac:(lia))
      as (p & Ep & Hlen & Hp).
    rewrite <- Hbe. exists p. split; [by rewrite Ep|].
    cbn [protect with_protect] in Hlen, Hp. split; [congruence|]. intros j. rewrite Hp.
    destruct (decide (j = i)) as [->|Hne].
    + destruct (Nat.leb_spec (i + 1) i); [lia|]. destruct (Nat.leb_spec i i), (Nat.ltb_spec i n); try lia. cbn [andb].
      unfold p1. destruct (touches from to i); [|done]. by apply list_lookup_insert_eq.
    + assert (Ej : (i + 1 <=? j)%nat = (i <=? j)%nat) by (destruct (Nat.leb_spec (i + 1) j), (Nat.leb_spec i j); lia || done).
      rewrite Ej. destruct ((i <=? j)%nat && (j <? n)%nat && touches from to j); [done|].
      unfold p1. destruct (touches from to i); [|done]. by rewrite list_lookup_insert_ne.
Qed.

(** [flash_protect] sets or clears the flag of exactly the sectors that have an
    address in the range. *)
Theorem flash_protect_correct n info flag v from to :
  wf_bank n info -> (flag = FLAG_PROTECT_CLEAR /\ v = 0) \/ (flag = FLAG_PROTECT_SET /\ v = 1) ->
  exists p, flash_protect flag from to info = Ok (with_protect info p) /\ length p = length (protect info) /\
    forall j, p !! j = if (j <? n)%nat && (from <=? to) && touches from to j then Some v else protect info !! j.
Proof.
  intros W Hv. unfold flash_protect. pose proof (wf_n _ _ W). pose proof (wf_top _ _ W). pose proof (wf_base _ _ W).
  assert (Ebe : bank_end info = Ok (chip_base + size info - 1)).
  { unfold bank_end. rewrite (res_bind_ok _ _ _ (wf_start0 n info W)). simpl. f_equal. apply u32_small.
    rewrite (wf_size _ _ W). lia. }
  rewrite (res_bind_ok _ _ _ Ebe), (res_bind_ok _ _ _ (wf_start0 n info W)).
  rewrite (wf_count _ _ W), (wf_size _ _ W).
  destruct (Z.eqb_spec (Z.of_nat n) 0); [lia|]. destruct (Z.eqb_spec (Z.of_nat n * 0x1000) 0); [lia|].
  destruct (Z.eqb_spec (flash_id info) FLASH_UNKNOWN); [by destruct (wf_known _ _ W)|]. cbn [orb].
  assert (Hid : forall g : nat -> bool, (forall j, (j < n)%nat -> g j = false) ->
    exists p, Ok info = Ok (with_protect info p) /\ length p = length (protect info) /\
      forall j, p !! j = if (j <? n)%nat && g j then Some v else protect info !! j).
  { intros g Hg. exists (protect info). split; [by destruct info|]. split; [done|]. intros j.
    destruct (Nat.ltb_spec j n); [|done]. by rewrite Hg. }
  destruct (Z.ltb_spec to from).
  { destruct (Hid (fun j => (from <=? to) && touches from to j)) as (p & E & Hl & Hp).
    - intros j _. by destruct (Z.leb_spec from to); [lia|].
    - exists p. split_and!; [exact E|done|]. intros j. rewrite Hp. by rewrite andb_assoc. }
  destruct ((to <? chip_base) || (chip_base + Z.of_nat n * 4096 - 1 <? from)) eqn:Eo.
  { destruct (Hid (fun j => (from <=? to) && touches from to j)) as (p & E & Hl & Hp).
    - intros j Hj. apply orb_true_iff in Eo. rewrite !Z.ltb_lt in Eo. unfold touches, sect_hi, sect_lo.
      apply andb_false_iff. right. apply andb_false_iff. rewrite !Z.leb_gt. lia.
    - exists p. split_and!; [exact E|done|]. intros j. rewrite Hp. by rewrite andb_assoc. }
  rewrite Nat2Z.id. rewrite <- (wf_size _ _ W).
  destruct (protect_loop_ok flag from to v _ Hv n 0 n info W eq_refl eq_refl) as (p & E & Hl & Hp).
  exists p. split_and!; [exact E|done|]. intros j. rewrite Hp. cbn [Nat.leb andb].
  by destruct (Z.leb_spec from to); [rewrite andb_true_r|lia].
Qed.

(** ** flash_write *)

Definition is_protected info (j : nat) : bool := negb (default 0 (protect info !! j) =? 0).

Definition in_bank info (a : Z) : bool := (chip_base <=? a) && (a <? chip_base + size info).

Lemma addr2info_one n info a : wf_bank n info ->
  addr2info [info] a = Ok (if in_bank info a then Some 0%nat else None).
Proof.
  intros W. cbn [addr2info]. rewrite (res_bind_ok _ _ _ (wf_start0 n info W)).
  destruct (Z.eqb_spec (flash_id info) FLASH_UNKNOWN); [by destruct (wf_known _ _ W)|]. cbn [negb andb].
  pose proof (wf_top _ _ W). pose proof (wf_base _ _ W). pose proof (wf_n _ _ W).
  rewrite u32_small by (rewrite (wf_size _ _ W); lia). unfold in_bank.
  destruct (Z.leb_spec chip_base a), (Z.leb_spec a (chip_base + size info - 1)),
    (Z.ltb_spec a (chip_base + size info)); try lia; done.
Qed.

Lemma hits_protected_ok n info a fin : wf_bank n info -> forall k i, (i + k = n)%nat ->
  hits_protected k i info a fin = Ok (existsb (fun j => touches a fin j && is_protected info j) (seq i k)).
Proof.
  intros W. induction k as [|k IH]; intros i Hn; [done|]. cbn [hits_protected seq existsb].
  rewrite (res_bind_ok _ _ _ (wf_sector_start n info i W ltac:(lia))), (wf_last n info i W).
  pose proof (wf_top _ _ W). pose proof (wf_base _ _ W).
  assert (E : (if (S i =? n)%nat then b ← arr_get (start info) 0; mret (u32 (b + size info))
               else arr_get (start info) (i + 1)) = Ok (sect_hi i + 1)).
  { destruct (Nat.eqb_spec (S i) n).
    - rewrite (res_bind_ok _ _ _ (wf_start0 n info W)). simpl. f_equal.
      rewrite u32_small; rewrite (wf_size _ _ W); unfold sect_hi, sect_lo; lia.
    - rewrite (wf_sector_start n info (i + 1) W) by lia. f_equal. unfold sect_hi, sect_lo. lia. }
  rewrite (res_bind_ok _ _ _ E).
  assert (Hlt : (i < length (protect info))%nat) by (pose proof (wf_protect _ _ W); lia).
  apply lookup_lt_is_Some in Hlt as [p Hp].
  assert (Ep : arr_get (protect info) i = Ok p) by (unfold arr_get; by rewrite Hp).
  rewrite (res_bind_ok _ _ _ Ep). unfold is_protected at 1. rewrite Hp. change (default 0 (Some p)) with p.
  assert (Et : (sect_lo i <=? fin) && (a <? sect_hi i + 1) = touches a fin i).
  { unfold touches. rewrite andb_comm. f_equal. by destruct (Z.ltb_spec a (sect_hi i + 1)), (Z.leb_spec a (sect_hi i)); try lia. }
  rewrite Et. destruct (touches a fin i && negb (p =? 0)); [done|]. cbn [orb].
  replace (S i) with (i + 1)%nat by lia. apply IH. lia.
Qed.

(** Inside the bank and clear of protected sectors. *)
Lemma flash_write_programs n info src tail a h :
  wf_bank n info -> idle (chip h) -> Nat.even (length src) = true -> src <> [] ->
  0 <= a -> a + Z.of_nat (length src) <= 4294967296 ->
  let cnt := Z.of_nat (length src) in let ws := words_of src in
  let fin := a + cnt - 1 in let k := writable (word (chip h)) a ws in
  in_bank info a = true -> in_bank info fin = true ->
  existsb (fun j => touches a fin j && is_protected info j) (seq 0 n) = false ->
  exists c', flash_write [info] (src ++ tail) a cnt h =
      Ok ((if (k =? length ws)%nat then ERR_OK else 2), HW c' (irq h)) /\
    idle c' /\ forall x, word c' x = written (word (chip h)) a (take k ws) x.
Proof.
  intros W Hc He Hne Ha Hend cnt ws fin k Ea Ef Hp. pose proof (wf_n _ _ W) as Hn.
  assert (Hcnt : 0 < cnt) by (unfold cnt; destruct src; [done|simpl; lia]).
  unfold flash_write. rewrite (u32_small (a + cnt - 1)) by (unfold cnt; lia). fold fin.
  rewrite (res_bind_ok _ _ _ (addr2info_one n info a W)), (res_bind_ok _ _ _ (addr2info_one n info fin W)), Ea, Ef.
  destruct (Z.eqb_spec cnt 0); [lia|]. change (take (0 + 1 - 0) (drop 0 [info])) with [info]. cbn [any_protected].
  rewrite (wf_count _ _ W), Nat2Z.id. pose proof (hits_protected_ok n info a fin W n 0 eq_refl) as Eh. rewrite Hp in Eh.
  rewrite (res_bind_ok (b ← _; _) _ false) by (by rewrite (res_bind_ok _ _ _ Eh)). cbv iota.
  cbn [write_banks]. destruct (Z.eqb_spec cnt 0); [lia|]. rewrite (res_bind_ok _ _ _ (wf_start0 n info W)). cbv zeta.
  pose proof (wf_top _ _ W). pose proof (wf_base _ _ W). unfold in_bank in Ea, Ef. rewrite (wf_size _ _ W) in *.
  apply andb_true_iff in Ea as [Ea1 Ea2]. apply andb_true_iff in Ef as [_ Ef2].
  apply Z.leb_le in Ea1. apply Z.ltb_lt in Ea2, Ef2. unfold fin in Ef2.
  rewrite (u32_small (chip_base + Z.of_nat n * 4096 - a)) by lia.
  assert (El : (if cnt <? chip_base + Z.of_nat n * 4096 - a then cnt else chip_base + Z.of_nat n * 4096 - a) = cnt).
  { destruct (Z.ltb_spec cnt (chip_base + Z.of_nat n * 4096 - a)); lia. }
  rewrite El. destruct (write_buff_ok info src tail a h (wf_on_chip n info W) He Hc Ha Hend) as (c' & E & Hc' & Hw).
  unfold cnt in *. rewrite (res_bind_ok _ _ _ E). cbv beta iota. fold ws in Hw |- *. fold k in Hw |- *.
  exists c'. split; [|by split]. by destruct (k =? length ws)%nat.
Qed.

(** C31: Writing the bytes [src], an even number of them and at least one, to a range
    that does not wrap around, of a well-formed bank whose chip is idle: outside the
    bank and on protected sectors nothing happens; otherwise the words are programmed
    one by one up to the first that would need a bit set, and nothing else changes. An
    odd number of bytes runs over the flash, see [write_buff_odd]. *)
Theorem flash_write_correct n info src tail a h :
  wf_bank n info -> idle (chip h) -> Nat.even (length src) = true -> src <> [] ->
  0 <= a -> a + Z.of_nat (length src) <= 4294967296 ->
  let cnt := Z.of_nat (length src) in let ws := words_of src in
  let fin := a + cnt - 1 in let k := writable (word (chip h)) a ws in
  if negb (in_bank info a && in_bank info fin) then
    flash_write [info] (src ++ tail) a cnt h = Ok (ERR_INVAL, h)
  else if existsb (fun j => touches a fin j && is_protected info j) (seq 0 n) then
    flash_write [info] (src ++ tail) a cnt h = Ok (ERR_PROTECTED, h)
  else
    exists c', flash_write [info] (src ++ tail) a cnt h =
        Ok ((if (k =? length ws)%nat then ERR_OK else 2), HW c' (irq h)) /\
      idle c' /\ forall x, word c' x = written (word (chip h)) a (take k ws) x.
Proof.
  intros W Hc He Hne Ha Hend cnt ws fin k.
  assert (Hcnt : 0 < cnt) by (unfold cnt; destruct src; [done|simpl; lia]).
  pose proof (flash_write_programs n info src tail a h W Hc He Hne Ha Hend) as Hok. cbv zeta in Hok. fold cnt ws fin k in Hok.
  pose proof (hits_protected_ok n info a fin W n 0 eq_refl) as Eh.
  assert (Hgo : flash_write [info] (src ++ tail) a cnt h =
    if negb (in_bank info a && in_bank info fin) then Ok (ERR_INVAL, h)
    else p ← any_protected [info] a fin; if (p : bool) then Ok (ERR_PROTECTED, h) else write_banks [info] (src ++ tail) a cnt h).
  { unfold flash_write. rewrite (u32_small (a + cnt - 1)) by (unfold cnt; lia). fold fin.
    rewrite (res_bind_ok _ _ _ (addr2info_one n info a W)), (res_bind_ok _ _ _ (addr2info_one n info fin W)).
    destruct (Z.eqb_spec cnt 0); [lia|]. by destruct (in_bank info a), (in_bank info fin). }
  destruct (in_bank info a), (in_bank info fin); cbn [negb andb] in *; try exact Hgo.
  destruct (existsb _ _) eqn:Ep; [|by apply Hok]. rewrite Hgo. cbn [any_protected].
  rewrite (wf_count _ _ W), Nat2Z.id. rewrite (res_bind_ok (b ← _; _) _ true); [done|]. by rewrite (res_bind_ok _ _ _ Eh).
Qed.

(** Erased words can all be written. *)
Lemma writable_erased (m : Z -> Z) : forall ws a, Forall (fun d => 0 <= d < 65536) ws ->
  (forall x, a <= x < a + 2 * Z.of_nat (length ws) -> m x = 0xFFFF) -> writable m a ws = length ws.
Proof.
  induction ws as [|d ws IH]; intros a Hd Hm; [done|]. apply Forall_cons in Hd as [Hd Hds]. cbn [writable length] in *.
  rewrite Hm by lia. change 0xFFFF with (Z.ones 16). rewrite Z.land_comm, Z.land_ones by lia.
  rewrite Z.mod_small by lia. rewrite Z.eqb_refl. f_equal. apply IH; [done|]. intros x Hx. apply Hm. lia.
Qed.

(** ** flash_erase *)

Definition sector_index (x : Z) : Z := (x - chip_base) / 0x1000.

Lemma sector_index_lo j : sector_index (sect_lo j) = Z.of_nat j.
Proof.
  unfold sector_index, sect_lo. replace (chip_base + Z.of_nat j * 4096 - chip_base) with (Z.of_nat j * 4096) by lia.
  by apply Z.div_mul.
Qed.

Lemma count_protected_ok info : forall k i, (i + k <= length (protect info))%nat ->
  exists r, count_protected k i info = Ok r.
Proof.
  induction k as [|k IH]; intros i H; [by exists 0|]. cbn [count_protected].
  destruct (lookup_lt_is_Some_2 (protect info) i) as [p Hp]; [lia|].
  assert (Ep : arr_get (protect info) i = Ok p) by (unfold arr_get; by rewrite Hp). rewrite (res_bind_ok _ _ _ Ep).
  destruct (IH (i + 1)%nat) as [r Er]; [lia|]. rewrite (res_bind_ok _ _ _ Er). by eexists.
Qed.

Lemma erase_loop_ok n info : wf_bank n info -> forall k i h, (i + k <= n)%nat -> idle (chip h) ->
  exists c', erase_loop k i info h = Ok (0, HW c' (irq h)) /\ idle c' /\
    forall x, word c' x = if existsb (fun j => (sector_index x =? Z.of_nat j) && negb (is_protected info j)) (seq i k)
                          then 0xFFFF else word (chip h) x.
Proof.
  intros W. induction k as [|k IH]; intros i h Hk Hc; [exists (chip h); by destruct h|].
  cbn [erase_loop seq existsb].
  assert (Hlt : (i < length (protect info))%nat) by (pose proof (wf_protect _ _ W); lia).
  apply lookup_lt_is_Some in Hlt as [p Hp].
  assert (Ep : arr_get (protect info) i = Ok p) by (unfold arr_get; by rewrite Hp). rewrite (res_bind_ok _ _ _ Ep).
  assert (Epr : is_protected info i = negb (p =? 0)) by (unfold is_protected; by rewrite Hp).
  rewrite Epr. destruct (p =? 0); cbn [negb].
  - rewrite (res_bind_ok _ _ _ (wf_start0 n info W)).
    rewrite (res_bind_ok _ _ _ (wf_sector_start n info i W ltac:(lia))). cbv zeta.
    destruct (erase_starts (sect_lo i) (chip h) Hc) as (r & b & Hr & Hb). pose proof erase_in_time as Htime.
    destruct (get_status_ok BlockErase_Timeout _ _ r b Hb) as (H1 & H2 & H3); [lia|].
    destruct (FSMC_NOR_GetStatus BlockErase_Timeout (nor_erase_sector chip_base (sect_lo i) (chip h))) as [st c].
    cbn [fst snd] in *. subst st. destruct (idle_reset (sect_lo i) c H2) as [H4 H5]. cbn [is_success].
    destruct (IH (i + 1)%nat (HW (bus_write (sect_lo i) 0x00F0 c) (irq h))) as (c' & E & Hc' & Hw); [lia|done|].
    replace (S i) with (i + 1)%nat by lia. exists c'. split; [exact E|]. split; [done|]. intros x. rewrite Hw.
    cbn [chip]. rewrite H5, H3. fold (sector_index x). fold (sector_index (sect_lo i)). rewrite sector_index_lo, andb_true_r.
    destruct (existsb _ (seq (i + 1) k)); [by rewrite orb_true_r|]. rewrite orb_false_r.
    by destruct (sector_index x =? Z.of_nat i).
  - replace (S i) with (i + 1)%nat by lia. destruct (IH (i + 1)%nat h) as (c' & E & Hc' & Hw); [lia|done|].
    exists c'. split; [exact E|]. split; [done|]. intros x. by rewrite Hw, andb_false_r.
Qed.

(** [flash_erase] on sectors of the bank erases exactly the unprotected ones and
    answers 0; it leaves interrupts disabled. *)
Lemma flash_erase_ok n info s_first s_last h :
  wf_bank n info -> idle (chip h) -> 0 <= s_first <= s_last -> s_last < Z.of_nat n ->
  exists c', flash_erase info s_first s_last h = Ok (0, HW c' false) /\ idle c' /\
    forall x, word c' x =
      if (s_first <=? sector_index x) && (sector_index x <=? s_last) &&
         negb (is_protected info (Z.to_nat (sector_index x)))
      then 0xFFFF else word (chip h) x.
Proof.
  intros W Hc Hs Hn. unfold flash_erase.
  destruct (Z.ltb_spec s_first 0); [lia|]. destruct (Z.ltb_spec s_last s_first); [lia|]. cbn [orb].
  pose proof (wf_protect _ _ W).
  destruct (count_protected_ok info (Z.to_nat (s_last - s_first + 1)) (Z.to_nat s_first)) as [r Er]; [lia|].
  rewrite (res_bind_ok _ _ _ Er).
  destruct (erase_loop_ok n info W (Z.to_nat (s_last - s_first + 1)) (Z.to_nat s_first) (HW (chip h) false))
    as (c' & E & Hc' & Hw); [lia|done|].
  exists c'. split; [exact E|]. split; [done|]. intros x. rewrite Hw. cbn [chip].
  assert (Eb : existsb (fun j => (sector_index x =? Z.of_nat j) && negb (is_protected info j))
      (seq (Z.to_nat s_first) (Z.to_nat (s_last - s_first + 1))) =
    (s_first <=? sector_index x) && (sector_index x <=? s_last) && negb (is_protected info (Z.to_nat (sector_index x)))).
  { apply eq_true_iff_eq. rewrite existsb_exists, !andb_true_iff, !Z.leb_le. split.
    - intros (j & Hj & Hb). apply in_seq in Hj. apply andb_true_iff in Hb as [Hb1 Hb2]. apply Z.eqb_eq in Hb1.
      rewrite Hb1, Nat2Z.id. split; [lia|done].
    - intros [[Hx1 Hx2] Hx3]. exists (Z.to_nat (sector_index x)). split; [apply in_seq; lia|].
      apply andb_true_iff. split; [apply Z.eqb_eq; lia|done]. }
  by rewrite Eb.
Qed.

End Bank_proofs.

(** ** A chip to run *)

Inductive stage := Ready | Unlock1 | Unlock2 | Program | Erase1 | Erase2 | Erase3.

(** Where the command sequence stands, the busy reads left and the status bits. *)
Record sim := Sim { s_mem : Z -> Z; s_stage : stage; s_busy : nat; s_dq6 : bool; s_pin : bool }.

Definition sim_base : Z := 0x64000000.
Definition U1 : Z := word_addr sim_base 0x5555.
Definition U2 : Z := word_addr sim_base 0x2AAA.

Definition sim_read (a : Z) (c : sim) : Z * sim :=
  match s_busy c with
  | O => (s_mem c a, c)
  | S k => ((if s_dq6 c then 0x40 else 0), Sim (s_mem c) (s_stage c) k (negb (s_dq6 c)) (s_pin c))
  end.

Definition sim_to (c : sim) (st : stage) : sim := Sim (s_mem c) st (s_busy c) (s_dq6 c) (s_pin c).

Definition sim_write (a d : Z) (c : sim) : sim :=
  match s_stage c with
  | Ready => if (a =? U1) && (d =? 0xAA) then sim_to c Unlock1 else sim_to c Ready
  | Unlock1 => if (a =? U2) && (d =? 0x55) then sim_to c Unlock2 else sim_to c Ready
  | Unlock2 => if (a =? U1) && (d =? 0xA0) then sim_to c Program
               else if (a =? U1) && (d =? 0x80) then sim_to c Erase1 else sim_to c Ready
  | Program => Sim (fun x => if x =? a then Z.land (s_mem c a) d else s_mem c x) Ready 5 true (s_pin c)
  | Erase1 => if (a =? U1) && (d =? 0xAA) then sim_to c Erase2 else sim_to c Ready
  | Erase2 => if (a =? U2) && (d =? 0x55) then sim_to c Erase3 else sim_to c Ready
  | Erase3 =>
      if d =? 0x30
      then Sim (fun x => if (x - sim_base) / 0x1000 =? (a - sim_base) / 0x1000 then 0xFFFF else s_mem c x)
             Ready 7 false (s_pin c)
      else sim_to c Ready
  end.

#[export] Instance sim_bus : NorBus sim := {
  bus_read := sim_read;
  bus_write := sim_write;
  ready_pin c := (s_pin c, Sim (s_mem c) (s_stage c) (s_busy c) (s_dq6 c) (negb (s_pin c)))
}.

#[export] Instance sim_chip : NorChip sim.
Proof.
  refine {|
    chip_base := sim_base; program_reads := 5; erase_reads := 7;
    word := s_mem;
    idle c := s_busy c = 0%nat /\ s_stage c = Ready;
    busy c w k b := s_busy c = k /\ s_dq6 c = b /\ s_stage c = Ready /\ forall x, s_mem c x = w x
  |}.
  - intros a c [Hb _]. cbn. unfold sim_read. by rewrite Hb.
  - intros a c [Hb Hs]. cbn. unfold sim_write. rewrite Hs. change (0xF0 =? 0xAA) with false. by rewrite andb_false_r.
  - intros c [Hb Hs]. done.
  - intros c w k b H. exact H.
  - intros a c w k b (Hb & Hd & Hs & Hw). cbn. unfold sim_read. rewrite Hb, Hd. cbn. by destruct b.
  - intros c w b (Hb & _ & Hs & Hw). done.
  - intros a d [m st k q p] [Hb Hs]. cbn [s_busy s_stage] in Hb, Hs. subst. exists 5%nat, true. by repeat split.
  - intros a [m st k q p] [Hb Hs]. cbn [s_busy s_stage] in Hb, Hs. subst. exists 7%nat, false. by repeat split.
  - unfold Program_Timeout. lia.
  - unfold BlockErase_Timeout. lia.
Defined.

(** A bank of two sectors, the second protected, the first erased. *)
Definition bench_bank : flash_info := Info 0x2000 2 (FLASH_MAN_SST + SST39VF1601) [sim_base; sim_base + 0x1000] [0; 1].
Definition bench_hw : hw sim := HW (Sim (fun x => if x <? sim_base + 0x1000 then 0xFFFF else 7) Ready 0 false true) true.

Lemma bench_bank_wf : wf_bank 2 bench_bank.
Proof.
  split.
  - by vm_compute.
  - reflexivity.
  - lia.
  - reflexivity.
  - by vm_compute.
  - by vm_compute.
  - intros [|[|i]] Hi; [reflexivity|reflexivity|lia].
  - simpl. lia.
Defined.

Lemma flash_protect_correct_witness :
  wf_bank 2 bench_bank /\
  exists p, flash_protect FLAG_PROTECT_SET sim_base (sim_base + 0xFFF) bench_bank = Ok (with_protect bench_bank p) /\
    p !! 0%nat = Some 1.
Proof.
  split; [exact bench_bank_wf|].
  destruct (flash_protect_correct 2 bench_bank FLAG_PROTECT_SET 1 sim_base (sim_base + 0xFFF) bench_bank_wf
    (or_intror (conj eq_refl eq_refl))) as (p & E & _ & Hp).
  exists p. split; [exact E|]. rewrite Hp. vm_compute. reflexivity.
Defined.

Lemma flash_write_correct_witness :
  wf_bank 2 bench_bank /\ idle (chip bench_hw) /\
  exists c', flash_write [bench_bank] (zs "boot") (sim_base + 2) 4 bench_hw = Ok (ERR_OK, HW c' true) /\
    word c' (sim_base + 2) = 0x6F62.
Proof.
  split; [exact bench_bank_wf|]. split; [by split|].
  pose proof (flash_write_correct 2 bench_bank (zs "boot") [] (sim_base + 2) bench_hw bench_bank_wf (conj eq_refl eq_refl)
    eq_refl ltac:(discriminate) ltac:(vm_compute; discriminate) ltac:(vm_compute; discriminate)) as H.
  destruct H as (c' & E & _ & Hw). exists c'. split; [exact E|]. rewrite Hw. vm_compute. reflexivity.
Defined.

(** An odd length: the count runs past 0 and the source is read behind its end. *)
Example write_buff_odd : write_buff bench_bank (zs "abc") sim_base 3 bench_hw = Fault.
Proof. vm_compute. reflexivity. Qed.

(** A bank that ends with the address space: its protected last sector is not seen. *)
Example hits_protected_top :
  let top := Info 0x2000 2 (FLASH_MAN_SST + SST39VF1601) [0xFFFFE000; 0xFFFFF000] [0; 1] in
  hits_protected 2 0 top 0xFFFFF000 0xFFFFF003 = Ok false.
Proof. vm_compute. reflexivity. Qed.
