(* ===== verification/LineEdit.v ===== *)
(** * Command line editing and history (common/main.c, CONFIG_CMDLINE_EDITING)

    The history ring and the line editor with its keys.  The buffer being edited
    and the history lines are arrays, so that a write behind their end is a
    [Fault] and the characters behind the end of the line are there; what is sent
    to the console is collected in order.  The characters typed are a list; when
    it ends without an end of line the code waits for ever, [OutOfFuel].

    The reference is an editor on two lists, the text before and after the
    cursor, and a history that is the list of the last lines.  A terminal that
    shows the output ([term]) relates the two sides for the user: at every end of
    line the screen shows the prompt and the line. *)

From S2P Require Import Prelude Env Command.

(** ** The history *)

Definition HIST_MAX : nat := 20.
Definition HIST_SIZE : nat := 256.
Definition CREAD_HIST_CHAR : Z := 33.

(** [hist_list[i]] is always [hist_lines[i]]; the rows follow one another in
    memory, so a line that is too long runs into the next one. *)
Record history := Hist {
  hist_max : nat;
  hist_add_idx : nat;
  hist_cur : Z;
  hist_num : Z;
  hist_lines : list Z
}.

(** [strcpy(dst + off, s)]: the string and its NUL. *)
Definition write_str (mem : list Z) (off : nat) (s : list Z) : res (list Z) :=
  if (off + length s + 1 <=? length mem)%nat
  then Ok (take off mem ++ s ++ 0 :: drop (off + length s + 1) mem) else Fault.

(** The string at an offset. *)
Fixpoint read_cstr (mem : list Z) : res (list Z) :=
  match mem with
  | [] => Fault
  | c :: mem => if c =? 0 then mret [] else s ← read_cstr mem; mret (c :: s)
  end.

Fixpoint init_rows (n i : nat) (mem : list Z) : res (list Z) :=
  match n with
  | O => mret mem
  | S n => mem ← arr_set mem (HIST_SIZE * i) 0; init_rows n (i + 1) mem
  end.

Definition hist_init (h : history) : res history :=
  mem ← init_rows HIST_MAX 0 (hist_lines h); mret (Hist 0 0 (-1) 0 mem).

Definition cread_add_to_hist (line : list Z) (h : history) : res history :=
  mem ← write_str (hist_lines h) (HIST_SIZE * hist_add_idx h) line;
  let add := (if HIST_MAX <=? hist_add_idx h + 1 then 0 else hist_add_idx h + 1)%nat in
  let max := (if hist_max h <? add then add else hist_max h)%nat in
  mret (Hist max add (hist_cur h) (u32 (hist_num h + 1)) mem).

Definition with_cur (h : history) (cur : Z) : history :=
  Hist (hist_max h) (hist_add_idx h) cur (hist_num h) (hist_lines h).

Definition hist_line (h : history) (i : Z) : res (list Z) :=
  read_cstr (drop (HIST_SIZE * Z.to_nat i) (hist_lines h)).

(** [None] is [NULL]. *)
Definition hist_prev (h : history) : res (option (list Z) * history) :=
  if hist_cur h <? 0 then mret (None, h)
  else
    let cur := hist_cur h - 1 in
    let cur := if cur <? 0 then Z.of_nat (hist_max h) else cur in
    if cur =? Z.of_nat (hist_add_idx h) then mret (None, h)
    else s ← hist_line h cur; mret (Some s, with_cur h cur).

Definition hist_next (h : history) : res (option (list Z) * history) :=
  if hist_cur h <? 0 then mret (None, h)
  else if hist_cur h =? Z.of_nat (hist_add_idx h) then mret (None, h)
  else
    let cur := hist_cur h + 1 in
    let cur := if Z.of_nat (hist_max h) <? cur then 0 else cur in
    if cur =? Z.of_nat (hist_add_idx h) then mret (Some [], with_cur h cur)
    else s ← hist_line h cur; mret (Some s, with_cur h cur).

(** ** The line editor *)

Record edit := Edit {
  e_buf : list Z;        (* the whole array *)
  num : nat;
  eol_num : nat;
  insert_mode : bool;
  esc_save : list Z;     (* its first [esc_len] characters *)
  e_hist : history;
  e_out : list Z
}.

Definition say (s : list Z) (st : edit) : edit :=
  Edit (e_buf st) (num st) (eol_num st) (insert_mode st) (esc_save st) (e_hist st) (e_out st ++ s).
Definition set_esc (esc : list Z) (st : edit) : edit :=
  Edit (e_buf st) (num st) (eol_num st) (insert_mode st) esc (e_hist st) (e_out st).
Definition set_pos (n e : nat) (st : edit) : edit :=
  Edit (e_buf st) n e (insert_mode st) (esc_save st) (e_hist st) (e_out st).
Definition set_buf (b : list Z) (st : edit) : edit :=
  Edit b (num st) (eol_num st) (insert_mode st) (esc_save st) (e_hist st) (e_out st).
Definition set_hist (h : history) (st : edit) : edit :=
  Edit (e_buf st) (num st) (eol_num st) (insert_mode st) (esc_save st) h (e_out st).
Definition toggle_insert (st : edit) : edit :=
  Edit (e_buf st) (num st) (eol_num st) (negb (insert_mode st)) (esc_save st) (e_hist st) (e_out st).

Definition CTL_CH (c : ascii) : Z := ch c - ch "a" + 1.
Definition CTL_BACKSPACE : Z := 8.
Definition BEEP : Z := 7.

(** [printf("%.*s", n, s)]: at most [n] characters, up to a NUL. *)
Fixpoint putnstr (n : nat) (s : list Z) : list Z :=
  match n, s with
  | S n, c :: s => if c =? 0 then [] else c :: putnstr n s
  | _, _ => []
  end.

Definition backspaces (n : nat) : list Z := repeat CTL_BACKSPACE n.
Definition blanks (n : nat) : list Z := repeat 32 n.

(** [memmove(&buf[dst], &buf[src], n)]. *)
Definition buf_move (dst src n : nat) (buf : list Z) : res (list Z) :=
  if (dst + n <=? length buf)%nat && (src + n <=? length buf)%nat
  then Ok (take dst buf ++ take n (drop src buf) ++ drop (dst + n) buf) else Fault.

Definition BEGINNING_OF_LINE (st : edit) : edit := set_pos 0 (eol_num st) (say (backspaces (num st)) st).

Definition ERASE_TO_EOL (st : edit) : edit :=
  if (num st <? eol_num st)%nat then
    set_pos (num st) (num st) (say (blanks (eol_num st - num st) ++ backspaces (eol_num st - num st)) st)
  else st.

Definition REFRESH_TO_EOL (st : edit) : edit :=
  if (num st <? eol_num st)%nat then
    set_pos (eol_num st) (eol_num st) (say (putnstr (eol_num st - num st) (drop (num st) (e_buf st))) st)
  else st.

(** [len] is an [unsigned long]: 0 is no limit. *)
Definition cread_add_char (ichar : Z) (insert : bool) (len : Z) (st : edit) : res edit :=
  let grows := insert || (num st =? eol_num st)%nat in
  if grows && (u32 (len - 1) <? Z.of_nat (eol_num st)) then mret (say [BEEP] st)
  else
    let eol := if grows then S (eol_num st) else eol_num st in
    if insert then
      let wlen := (eol - num st)%nat in
      buf ← (if (1 <? wlen)%nat then buf_move (num st + 1) (num st) (wlen - 1) (e_buf st) else mret (e_buf st));
      buf ← arr_set buf (num st) ichar;
      mret (set_pos (num st + 1) eol (set_buf buf
             (say (putnstr wlen (drop (num st) buf) ++ backspaces (wlen - 1)) st)))
    else
      buf ← arr_set (e_buf st) (num st) ichar;
      mret (set_pos (num st + 1) eol (set_buf buf (say (putnstr 1 (drop (num st) buf)) st))).

Fixpoint cread_add_str (str : list Z) (insert : bool) (len : Z) (st : edit) : res edit :=
  match str with
  | [] => mret st
  | c :: str => st ← cread_add_char c insert len st; cread_add_str str insert len st
  end.

(** The text already in the buffer is added to the buffer itself: each character
    is read after the ones before it were stored. *)
Fixpoint cread_add_own (n i : nat) (len : Z) (st : edit) : res edit :=
  match n with
  | O => mret st
  | S n => c ← arr_get (e_buf st) i; st ← cread_add_char c true len st; cread_add_own n (i + 1) len st
  end.

Definition delete_here (st : edit) : res edit :=
  if (num st <? eol_num st)%nat then
    let wlen := (eol_num st - num st - 1)%nat in
    st ← (if negb (wlen =? 0)%nat then
            buf ← buf_move (num st) (num st + 1) wlen (e_buf st);
            mret (set_buf buf (say (putnstr wlen (drop (num st) buf)) st))
          else mret st);
    mret (set_pos (num st) (eol_num st - 1) (say (blanks 1 ++ backspaces (wlen + 1)) st))
  else mret st.

Definition delete_back (st : edit) : res edit :=
  match num st with
  | O => mret st
  | S n =>
      let wlen := (eol_num st - num st)%nat in
      buf ← buf_move n (n + 1) wlen (e_buf st);
      mret (set_pos n (eol_num st - 1) (set_buf buf
             (say (backspaces 1 ++ putnstr wlen (drop n buf) ++ blanks 1 ++ backspaces (wlen + 1)) st)))
  end.

(** ^P and ^N. *)
Definition recall (prev : bool) (st : edit) : res edit :=
  let st := set_esc [] st in
  '(hline, h) ← (if prev then hist_prev (e_hist st) else hist_next (e_hist st));
  let st := set_hist h st in
  match hline with
  | None => mret (say [BEEP] st)
  | Some s =>
      let st := ERASE_TO_EOL (BEGINNING_OF_LINE st) in
      buf ← write_str (e_buf st) 0 s;
      let st := set_buf buf st in
      n ← read_cstr (e_buf st);
      mret (REFRESH_TO_EOL (set_pos (num st) (length n) st))
  end.

(** The tab key; [auto] is what the completion needs when CONFIG_AUTO_COMPLETE is
    set. *)
Definition complete (env : env_state) (table : list cmd_tbl) (prompt : option (list Z)) (st : edit) : res edit :=
  if (num st <? eol_num st)%nat then mret (say [BEEP] st)
  else
    prompt ← of_option prompt;
    buf ← arr_set (e_buf st) (num st) 0;
    s ← read_cstr buf;
    let col := Z.of_nat (length prompt + eol_num st) in
    r ← cmd_auto_complete env table prompt s (Z.of_nat (num st)) col;
    buf ← write_str buf 0 (ac_buf r);
    let st := say (ac_out r) (set_buf buf st) in
    if negb (ac_result r =? 0) then
      let d := Z.to_nat (ac_n r - Z.of_nat (num st)) in
      mret (set_pos (num st + d) (eol_num st + d) st)
    else mret st.

(** The keys, with their character: the state, or -1 after ^C. *)
Definition press (auto : option (env_state * list cmd_tbl)) (prompt : option (list Z)) (len : Z) (ichar : Z) (st : edit)
    : res (option edit) :=
  if ichar =? 0x1b then
    if (length (esc_save st) =? 0)%nat then mret (Some (set_esc [ichar] st))
    else mret (Some (set_esc [] (say (zs "impossible condition #876" ++ [10]) st)))
  else if ichar =? CTL_CH "a" then mret (Some (BEGINNING_OF_LINE st))
  else if ichar =? CTL_CH "c" then mret None
  else if ichar =? CTL_CH "f" then
    if (num st <? eol_num st)%nat then
      c ← arr_get (e_buf st) (num st); mret (Some (set_pos (num st + 1) (eol_num st) (say [c] st)))
    else mret (Some st)
  else if ichar =? CTL_CH "b" then
    match num st with
    | O => mret (Some st)
    | S n => mret (Some (set_pos n (eol_num st) (say (backspaces 1) st)))
    end
  else if ichar =? CTL_CH "d" then st ← delete_here st; mret (Some st)
  else if ichar =? CTL_CH "k" then mret (Some (ERASE_TO_EOL st))
  else if ichar =? CTL_CH "e" then mret (Some (REFRESH_TO_EOL st))
  else if ichar =? CTL_CH "o" then mret (Some (toggle_insert st))
  else if (ichar =? CTL_CH "x") || (ichar =? CTL_CH "u") then mret (Some (ERASE_TO_EOL (BEGINNING_OF_LINE st)))
  else if (ichar =? 255) || (ichar =? 127) || (ichar =? 8) then st ← delete_back st; mret (Some st)
  else if ichar =? CTL_CH "p" then st ← recall true st; mret (Some st)
  else if ichar =? CTL_CH "n" then st ← recall false st; mret (Some st)
  else
    match auto with
    | Some (env, table) =>
        if ichar =? 9 then st ← complete env table prompt st; mret (Some st)
        else st ← cread_add_char ichar (insert_mode st) len st; mret (Some st)
    | None => st ← cread_add_char ichar (insert_mode st) len st; mret (Some st)
    end.

(** The key an escape sequence ends with. *)
Definition arrow (ichar : Z) : option Z :=
  if ichar =? ch "D" then Some (CTL_CH "b")
  else if ichar =? ch "C" then Some (CTL_CH "f")
  else if ichar =? ch "H" then Some (CTL_CH "a")
  else if ichar =? ch "A" then Some (CTL_CH "p")
  else if ichar =? ch "B" then Some (CTL_CH "n")
  else None.

(** One character of input other than an end of line. *)
Definition feed (auto : option (env_state * list cmd_tbl)) (prompt : option (list Z)) (len : Z) (ichar : Z) (st : edit)
    : res (option edit) :=
  match esc_save st with
  | [] => press auto prompt len ichar st
  | [_] =>
      if ichar =? ch "[" then mret (Some (set_esc (esc_save st ++ [ichar]) st))
      else st ← cread_add_str (esc_save st) (insert_mode st) len st; mret (Some (set_esc [] st))
  | _ =>
      match arrow ichar with
      | Some key => press auto prompt len key (set_esc [] st)
      | None =>
          st ← cread_add_str (esc_save st ++ [ichar]) (insert_mode st) len st; mret (Some (set_esc [] st))
      end
  end.

(** What [cread_line] leaves: its result, [*len], the buffer, the history and
    the console output; and the characters not read. *)
Record cread_result := Cread {
  cr_rc : Z; cr_len : nat; cr_buf : list Z; cr_hist : history; cr_out : list Z; cr_rest : list Z
}.

(** After the end of line. *)
Definition cread_end (st : edit) (rest : list Z) : res cread_result :=
  buf ← arr_set (e_buf st) (eol_num st) 0;
  c ← arr_get buf 0;
  h ← (if negb (c =? 0) && negb (c =? CREAD_HIST_CHAR)
       then line ← read_cstr buf; cread_add_to_hist line (e_hist st) else mret (e_hist st));
  mret (Cread 0 (eol_num st) buf (with_cur h (Z.of_nat (hist_add_idx h))) (e_out st) rest).

Fixpoint cread_loop (auto : option (env_state * list cmd_tbl)) (prompt : option (list Z)) (len : Z) (input : list Z) (st : edit)
    : res cread_result :=
  match input with
  | [] => OutOfFuel
  | ichar :: input =>
      if (ichar =? 10) || (ichar =? 13) then cread_end (say [10] st) input
      else
        r ← feed auto prompt len ichar st;
        match r with
        | Some st => cread_loop auto prompt len input st
        | None =>
            buf ← arr_set (e_buf st) 0 0;
            mret (Cread (-1) (Z.to_nat len) buf (e_hist st) (e_out st) input)
        end
  end.

Definition cread_line (auto : option (env_state * list cmd_tbl)) (prompt : option (list Z)) (buf : list Z) (len : Z)
    (h : history) (input : list Z) : res cread_result :=
  init ← read_cstr buf;
  let st := Edit buf 0 0 true [] h [] in
  st ← (if negb (length init =? 0)%nat then cread_add_own (length init) 0 len st else mret st);
  cread_loop auto prompt len input st.

(** [readline_into_buffer] after relocation; [initted] is its static variable.
    The result, the buffer, the history and the output. *)
Definition MAX_CMDBUF_SIZE : Z := 256.

Definition readline_into_buffer (auto : option (env_state * list cmd_tbl)) (prompt : option (list Z)) (buf : list Z)
    (initted : bool) (h : history) (input : list Z) : res (Z * cread_result) :=
  h ← (if initted then mret h else hist_init h);
  r ← cread_line auto prompt buf MAX_CMDBUF_SIZE h input;
  let r := Cread (cr_rc r) (cr_len r) (cr_buf r) (cr_hist r) (default [] prompt ++ cr_out r) (cr_rest r) in
  mret (if cr_rc r <? 0 then cr_rc r else Z.of_nat (cr_len r), r).

(** [readline] empties the buffer before; [console_buffer] has CONFIG_SYS_CBSIZE
    bytes. *)
Definition edit_readline (auto : option (env_state * list cmd_tbl)) (prompt : option (list Z)) (buf : list Z)
    (initted : bool) (h : history) (input : list Z) : res (Z * cread_result) :=
  buf ← arr_set buf 0 0; readline_into_buffer auto prompt buf initted h input.

(** ** A terminal

    What is left of the cursor and what is under and right of it. *)

Record term := Term { t_left : list Z; t_right : list Z }.

Definition term_put (t : term) (c : Z) : term :=
  if c =? CTL_BACKSPACE then
    match list.last (t_left t) with
    | Some x => Term (removelast (t_left t)) (x :: t_right t)
    | None => t
    end
  else if c =? BEEP then t
  else Term (t_left t ++ [c]) (tl (t_right t)).

Definition term_run (t : term) (out : list Z) : term := fold_left term_put out t.

(** Characters that are typed and shown as one. *)
Definition visible (c : Z) : Prop := 32 <= c < 255 /\ c <> 127.

#[export] Instance visible_dec c : Decision (visible c).
Proof. unfold visible. apply _. Defined.

(** The screen behind [P] (the prompt) shows [b] before the cursor and [a] from
    the cursor on. *)
Definition shows (P b a out : list Z) : Prop :=
  exists k, term_run (Term P []) out = Term (P ++ b) (a ++ blanks k).

Lemma term_run_app t o1 o2 : term_run t (o1 ++ o2) = term_run (term_run t o1) o2.
Proof. apply fold_left_app. Qed.

Lemma term_text s : Forall visible s -> forall l r, term_run (Term l r) s = Term (l ++ s) (drop (length s) r).
Proof.
  induction 1 as [|c s [Hc _] _ IH]; intros l r; [by rewrite app_nil_r|].
  unfold term_run in *. cbn [fold_left]. unfold term_put at 2, CTL_BACKSPACE, BEEP.
  destruct (Z.eqb_spec c 8); [lia|]. destruct (Z.eqb_spec c 7); [lia|]. cbn [t_left t_right].
  rewrite IH, <- app_assoc. f_equal. destruct r; cbn [tl length drop]; [by rewrite drop_nil|done].
Qed.

Lemma term_back s : forall l r, term_run (Term (l ++ s) r) (backspaces (length s)) = Term l (s ++ r).
Proof.
  induction s as [|c s IH] using rev_ind; intros l r; [by rewrite app_nil_r|].
  rewrite length_app, Nat.add_comm. unfold term_run in *. cbn [length backspaces repeat Nat.add fold_left].
  unfold term_put at 2. change (CTL_BACKSPACE =? CTL_BACKSPACE) with true. cbn [t_left t_right].
  rewrite app_assoc, last_snoc, removelast_last. change (repeat CTL_BACKSPACE (length s)) with (backspaces (length s)).
  rewrite IH. by rewrite <- app_assoc.
Qed.

Lemma visible_blanks n : Forall visible (blanks n).
Proof. apply Forall_forall. intros x Hx. apply list_elem_of_In, repeat_spec in Hx as ->. by vm_compute. Qed.

Lemma blanks_app n m : blanks n ++ blanks m = blanks (n + m).
Proof. symmetry. apply repeat_app. Qed.

Lemma drop_blanks n m : drop n (blanks m) = blanks (m - n).
Proof. revert m. induction n as [|n IH]; intros [|m]; try done. apply IH. Qed.

(** Writing text over the screen and going back over part of it. *)
Lemma shows_write P b a out s t k :
  term_run (Term P []) out = Term (P ++ b) (a ++ blanks k) -> Forall visible (s ++ t) ->
  term_run (Term P []) (out ++ s ++ t ++ backspaces (length t)) =
    Term (P ++ b ++ s) (t ++ drop (length (s ++ t)) (a ++ blanks k)).
Proof.
  intros H Hv. rewrite term_run_app, H, (app_assoc s t), term_run_app, term_text by done.
  rewrite !app_assoc, term_back. by rewrite <- !app_assoc.
Qed.

Lemma shows_beep P b a out : shows P b a out -> shows P b a (out ++ [BEEP]).
Proof. intros [k H]. exists k. by rewrite term_run_app, H. Qed.

Lemma shows_insert P b a c out :
  shows P b a out -> Forall visible (c :: a) -> shows P (b ++ [c]) a (out ++ (c :: a) ++ backspaces (length a)).
Proof.
  intros [k H] Hv. exists (k - 1)%nat. etransitivity; [exact (shows_write P b a out [c] a k H Hv)|]. f_equal. f_equal.
  cbn [app length]. rewrite (drop_app_ge a) by lia. by rewrite drop_blanks; f_equal; lia.
Qed.

Lemma shows_over P b d a c out :
  shows P b (d ++ a) out -> visible c -> (length d <= 1)%nat -> (d = [] -> a = []) ->
  shows P (b ++ [c]) a (out ++ [c]).
Proof.
  intros [k H] Hc Hd Ha. exists (k - (1 - length d))%nat. rewrite term_run_app, H, term_text by (by apply Forall_singleton).
  rewrite <- app_assoc. f_equal. destruct d as [|x [|y d]]; cbn [length app drop] in *; [|by rewrite Nat.sub_0_r|lia].
  rewrite (Ha eq_refl). cbn [app]. by rewrite drop_blanks.
Qed.

Lemma shows_left P b c a out : shows P (b ++ [c]) a out -> shows P b (c :: a) (out ++ backspaces 1).
Proof.
  intros [k H]. exists k. rewrite term_run_app, H, app_assoc. exact (term_back [c] (P ++ b) (a ++ blanks k)).
Qed.

Lemma shows_home P b a out : shows P b a out -> shows P [] (b ++ a) (out ++ backspaces (length b)).
Proof. intros [k H]. exists k. by rewrite term_run_app, H, term_back, app_nil_r, app_assoc. Qed.

Lemma shows_refresh P b a out : shows P b a out -> Forall visible a -> shows P (b ++ a) [] (out ++ a).
Proof.
  intros [k H] Hv. exists k. rewrite term_run_app, H, term_text, app_assoc by done. f_equal. cbn [app].
  by rewrite drop_app_length.
Qed.

Lemma shows_erase P b a out : shows P b a out -> shows P b [] (out ++ blanks (length a) ++ backspaces (length a)).
Proof.
  intros [k H]. exists (length a + k)%nat. pose proof (shows_write P b a out [] (blanks (length a)) k H (visible_blanks _)) as E.
  cbn [app] in E. unfold blanks in E at 2. rewrite repeat_length in E. rewrite E, app_nil_r. f_equal.
  unfold blanks at 2. rewrite repeat_length, drop_app_length. apply blanks_app.
Qed.

Lemma shows_delete P b c a out :
  shows P b (c :: a) out -> Forall visible a -> shows P b a (out ++ a ++ blanks 1 ++ backspaces (length a + 1)).
Proof.
  intros [k H] Hv. exists (S k).
  assert (Hv' : Forall visible (a ++ blanks 1)) by (apply Forall_app; split; [done|apply visible_blanks]).
  pose proof (shows_write P b (c :: a) out [] (a ++ blanks 1) k H Hv') as E. cbn [app] in E.
  rewrite length_app in E. cbn [length blanks repeat] in E. rewrite <- app_assoc in E. cbn [app blanks repeat].
  cbn [app] in E. rewrite E, app_nil_r. f_equal. rewrite <- app_assoc. f_equal. cbn [app repeat]. f_equal.
  rewrite Nat.add_1_r. cbn [drop]. by rewrite drop_app_length.
Qed.

Lemma shows_rub P b c a out :
  shows P (b ++ [c]) a out -> Forall visible a ->
  shows P b a (out ++ backspaces 1 ++ a ++ blanks 1 ++ backspaces (length a + 1)).
Proof. intros H Hv. rewrite app_assoc. eapply shows_delete; [by apply shows_left|done]. Qed.

Lemma putnstr_text s rest : Forall visible s -> putnstr (length s) (s ++ rest) = s.
Proof.
  induction 1 as [|c s [Hc _] _ IH]; [done|]. cbn [length putnstr app]. destruct (Z.eqb_spec c 0); [lia|]. by rewrite IH.
Qed.

(** ** The history as a list

    Its lines, the newest first; the one the cursor is at, [Some 0] being the
    line that is typed. *)

Record past := Past { p_lines : list (list Z); p_cur : option nat }.

Definition remember (line : list Z) (p : past) : past :=
  Past (if (match line with [] => true | c :: _ => c =? CREAD_HIST_CHAR end) then p_lines p
        else take (HIST_MAX - 1) (line :: p_lines p)) (Some 0%nat).

Definition older (p : past) : option (list Z * past) :=
  k ← p_cur p; s ← p_lines p !! k; Some (s, Past (p_lines p) (Some (S k))).

Definition newer (p : past) : option (list Z * past) :=
  match p_cur p with
  | Some (S k) => Some (match k with O => [] | S j => default [] (p_lines p !! j) end, Past (p_lines p) (Some k))
  | _ => None
  end.

(** ** Strings in memory *)

Definition str_at (mem : list Z) (off : nat) (s : list Z) : Prop :=
  forall i, (i <= length s)%nat -> mem !! (off + i)%nat = (s ++ [0]) !! i.

Lemma write_str_ok mem off s : (off + length s + 1 <= length mem)%nat ->
  exists mem', write_str mem off s = Ok mem' /\ length mem' = length mem /\
    (exists rest, mem' = take off mem ++ s ++ 0 :: rest) /\ str_at mem' off s /\
    forall i, (i < off \/ off + length s < i)%nat -> mem' !! i = mem !! i.
Proof.
  intros H. eexists. split; [unfold write_str; destruct (Nat.leb_spec (off + length s + 1) (length mem)); [done|lia]|].
  assert (Hl : length (take off mem) = off) by (rewrite length_take; lia).
  split_and!.
  - rewrite !length_app, length_cons, Hl, length_drop. lia.
  - by eexists.
  - intros i Hi. rewrite lookup_app_r by lia. rewrite Hl. replace (off + i - off)%nat with i by lia.
    change (0 :: drop (off + length s + 1) mem) with ([0] ++ drop (off + length s + 1) mem).
    rewrite app_assoc, lookup_app_l; [done|]. rewrite length_app. simpl. lia.
  - intros i [Hi|Hi].
    + rewrite lookup_app_l by lia. by apply lookup_take_lt.
    + change (0 :: drop (off + length s + 1) mem) with ([0] ++ drop (off + length s + 1) mem).
      rewrite !app_assoc, lookup_app_r; rewrite !length_app, Hl; cbn [length]; [|lia].
      rewrite lookup_drop. f_equal. lia.
Qed.

Lemma str_at_read mem off s : str_at mem off s -> Forall (fun c => c <> 0) s -> read_cstr (drop off mem) = Ok s.
Proof.
  intros H Hs. revert off H. induction Hs as [|c s Hc Hs IH]; intros off H.
  - pose proof (H 0%nat (le_n _)) as E. rewrite Nat.add_0_r in E. by rewrite (drop_S _ _ _ E).
  - pose proof (H 0%nat (Nat.le_0_l _)) as E. rewrite Nat.add_0_r in E. rewrite (drop_S _ _ _ E). cbn [read_cstr].
    destruct (Z.eqb_spec c 0); [done|]. rewrite (res_bind_ok _ _ s); [done|]. apply IH.
    intros i Hi. transitivity (mem !! (off + S i)%nat); [f_equal; lia|]. apply (H (S i)). simpl. lia.
Qed.

Lemma visible_nonzero s : Forall visible s -> Forall (fun c => c <> 0) s.
Proof. intros H. eapply Forall_impl; [exact H|]. intros c [Hc _]. lia. Qed.

Lemma read_cstr_text s rest : Forall visible s -> read_cstr (s ++ 0 :: rest) = Ok s.
Proof.
  induction 1 as [|c s [Hc _] _ IH]; [done|]. cbn [read_cstr app]. destruct (Z.eqb_spec c 0); [lia|].
  by rewrite (res_bind_ok _ _ _ IH).
Qed.

(** ** The ring *)

(** The row of the [k]-th last line; [slot 0] is the row for the line typed. *)
Definition slot (h : history) (k : nat) : nat :=
  if (k <=? hist_add_idx h)%nat then hist_add_idx h - k else hist_add_idx h + hist_max h + 1 - k.

Record hist_ok (h : history) (p : past) : Prop := {
  hk_len : length (hist_lines h) = (HIST_SIZE * HIST_MAX)%nat;
  hk_max : hist_max h = length (p_lines p);
  hk_cap : (length (p_lines p) <= HIST_MAX - 1)%nat;
  hk_add : (hist_add_idx h <= hist_max h)%nat;
  hk_full : (hist_max h < HIST_MAX - 1)%nat -> hist_add_idx h = hist_max h;
  hk_rows k s : p_lines p !! k = Some s -> str_at (hist_lines h) (HIST_SIZE * slot h (S k)) s;
  hk_text : Forall (fun s => Forall visible s /\ (length s < HIST_SIZE)%nat) (p_lines p);
  hk_cur : match p_cur p with
           | None => hist_cur h = -1
           | Some k => (k <= length (p_lines p))%nat /\ hist_cur h = Z.of_nat (slot h k)
           end
}.

Lemma hist_line_ok h p k s : hist_ok h p -> p_lines p !! k = Some s -> hist_line h (Z.of_nat (slot h (S k))) = Ok s.
Proof.
  intros W E. unfold hist_line. rewrite Nat2Z.id. apply str_at_read; [by eapply hk_rows|]. apply visible_nonzero.
  pose proof (hk_text _ _ W) as H. rewrite Forall_lookup in H. by destruct (H _ _ E).
Qed.

Lemma hist_prev_ok h p : hist_ok h p ->
  match older p with
  | None => hist_prev h = Ok (None, h)
  | Some (s, p') => exists h', hist_prev h = Ok (Some s, h') /\ hist_ok h' p'
  end.
Proof.
  intros W. pose proof (hk_cur _ _ W) as Hc. pose proof (hk_add _ _ W). pose proof (hk_max _ _ W) as Hm.
  unfold older, hist_prev. destruct (p_cur p) as [k|] eqn:Ek; cbn [mbind option_bind]; [|by rewrite Hc].
  destruct Hc as [Hk Hc]. rewrite Hc. destruct (Z.ltb_spec (Z.of_nat (slot h k)) 0); [lia|]. cbv zeta.
  assert (Es : (if Z.of_nat (slot h k) - 1 <? 0 then Z.of_nat (hist_max h) else Z.of_nat (slot h k) - 1) =
    if (k <? length (p_lines p))%nat then Z.of_nat (slot h (S k)) else Z.of_nat (hist_add_idx h)).
  { unfold slot. destruct (Nat.leb_spec k (hist_add_idx h)), (Nat.leb_spec (S k) (hist_add_idx h)),
      (Nat.ltb_spec k (length (p_lines p))); btest; lia. }
  rewrite Es. destruct (p_lines p !! k) as [s|] eqn:E; cbn [mbind option_bind].
  - pose proof (lookup_lt_Some _ _ _ E). destruct (Nat.ltb_spec k (length (p_lines p))); [|lia].
    destruct (Z.eqb_spec (Z.of_nat (slot h (S k))) (Z.of_nat (hist_add_idx h))) as [e|].
    { unfold slot in e. destruct (Nat.leb_spec (S k) (hist_add_idx h)); lia. }
    rewrite (res_bind_ok _ _ _ (hist_line_ok h p k s W E)). eexists. split; [done|].
    destruct W. split; try done; cbn [p_cur p_lines]; (split; [lia|done]).
  - apply lookup_ge_None in E. destruct (Nat.ltb_spec k (length (p_lines p))); [lia|]. by rewrite Z.eqb_refl.
Qed.

Lemma hist_next_ok h p : hist_ok h p ->
  match newer p with
  | None => hist_next h = Ok (None, h)
  | Some (s, p') => exists h', hist_next h = Ok (Some s, h') /\ hist_ok h' p'
  end.
Proof.
  intros W. pose proof (hk_cur _ _ W) as Hc. pose proof (hk_add _ _ W). pose proof (hk_max _ _ W) as Hm.
  unfold newer, hist_next. destruct (p_cur p) as [k|] eqn:Ek; [|by rewrite Hc].
  destruct Hc as [Hk Hc]. rewrite Hc. destruct (Z.ltb_spec (Z.of_nat (slot h k)) 0); [lia|]. cbv zeta.
  destruct k as [|k].
  { unfold slot. cbn [Nat.leb]. by rewrite Nat.sub_0_r, Z.eqb_refl. }
  destruct (Z.eqb_spec (Z.of_nat (slot h (S k))) (Z.of_nat (hist_add_idx h))) as [e|].
  { unfold slot in e. destruct (Nat.leb_spec (S k) (hist_add_idx h)); lia. }
  assert (Es : (if Z.of_nat (hist_max h) <? Z.of_nat (slot h (S k)) + 1 then 0 else Z.of_nat (slot h (S k)) + 1) =
    Z.of_nat (slot h k)).
  { unfold slot. destruct (Nat.leb_spec k (hist_add_idx h)), (Nat.leb_spec (S k) (hist_add_idx h)); btest; lia. }
  rewrite Es.
  assert (W' : hist_ok (with_cur h (Z.of_nat (slot h k))) (Past (p_lines p) (Some k))).
  { destruct W. split; try done; cbn [p_cur p_lines]; (split; [lia|done]). }
  destruct k as [|j].
  - unfold slot at 1. cbn [Nat.leb]. rewrite Nat.sub_0_r, Z.eqb_refl. by eexists.
  - destruct (Z.eqb_spec (Z.of_nat (slot h (S j))) (Z.of_nat (hist_add_idx h))) as [e|].
    { unfold slot in e. destruct (Nat.leb_spec (S j) (hist_add_idx h)); lia. }
    destruct (lookup_lt_is_Some_2 (p_lines p) j) as [s E]; [lia|]. rewrite E.
    rewrite (res_bind_ok _ _ _ (hist_line_ok h p j s W E)). by eexists.
Qed.

Lemma cread_add_to_hist_ok h p line : hist_ok h p -> Forall visible line -> (length line < HIST_SIZE)%nat ->
  exists h', cread_add_to_hist line h = Ok h' /\
    hist_ok (with_cur h' (Z.of_nat (hist_add_idx h'))) (Past (take (HIST_MAX - 1) (line :: p_lines p)) (Some 0%nat)).
Proof.
  intros W Hv Hl. pose proof (hk_add _ _ W). pose proof (hk_max _ _ W) as Hm. pose proof (hk_cap _ _ W) as Hcap.
  pose proof (hk_full _ _ W) as Hf. pose proof (hk_len _ _ W) as Hlen.
  unfold HIST_SIZE, HIST_MAX in Hl, Hcap, Hf, Hlen.
  destruct (write_str_ok (hist_lines h) (HIST_SIZE * hist_add_idx h) line) as (mem & E & Hlm & _ & Hat & Hother);
    [unfold HIST_SIZE; lia|].
  unfold cread_add_to_hist. rewrite (res_bind_ok _ _ _ E). eexists. split; [done|]. unfold HIST_SIZE in *.
  set (h' := with_cur _ _).
  assert (Hadd : hist_add_idx h' = if (19 <=? hist_add_idx h)%nat then 0%nat else S (hist_add_idx h)).
  { unfold h'. cbn [with_cur hist_add_idx]. unfold HIST_MAX.
    destruct (Nat.leb_spec 19 (hist_add_idx h)), (Nat.leb_spec 20 (hist_add_idx h + 1)); lia. }
  assert (Hmax : hist_max h' = if (19 <=? hist_max h)%nat then 19%nat else S (hist_max h)).
  { unfold h'. cbn [with_cur hist_max]. unfold HIST_MAX. destruct (Nat.leb_spec 19 (hist_max h)),
      (Nat.leb_spec 20 (hist_add_idx h + 1)); try (destruct (Nat.ltb_spec (hist_max h) (hist_add_idx h + 1))); try lia.
    all: destruct (Nat.ltb_spec (hist_max h) 0); lia. }
  assert (Hs1 : slot h' 1 = hist_add_idx h).
  { unfold slot. rewrite Hadd, Hmax. destruct (Nat.leb_spec 19 (hist_add_idx h)), (Nat.leb_spec 19 (hist_max h)); cbn; lia. }
  assert (Hsk : forall k, (S k <= length (p_lines p))%nat -> (S k < 19)%nat -> slot h' (S (S k)) = slot h (S k)).
  { intros k Hk Hk'. unfold slot. rewrite Hadd, Hmax. destruct (Nat.leb_spec 19 (hist_add_idx h)), (Nat.leb_spec 19 (hist_max h));
      destruct (Nat.leb_spec (S k) (hist_add_idx h)); cbv iota; try (destruct (Nat.leb_spec (S (S k)) (S (hist_add_idx h))));
      try (destruct (Nat.leb_spec (S (S k)) 0)); lia. }
  assert (Hlines : length (p_lines (Past (take (HIST_MAX - 1) (line :: p_lines p)) (Some 0%nat))) = hist_max h').
  { cbn [p_lines]. rewrite length_take, Hmax, length_cons. unfold HIST_MAX. destruct (Nat.leb_spec 19 (hist_max h)); lia. }
  split.
  - unfold h'. cbn [with_cur hist_lines]. unfold HIST_SIZE, HIST_MAX. lia.
  - done.
  - rewrite Hlines, Hmax. unfold HIST_MAX. destruct (Nat.leb_spec 19 (hist_max h)); lia.
  - rewrite Hadd, Hmax. destruct (Nat.leb_spec 19 (hist_add_idx h)), (Nat.leb_spec 19 (hist_max h)); lia.
  - rewrite Hadd, Hmax. unfold HIST_MAX. destruct (Nat.leb_spec 19 (hist_add_idx h)), (Nat.leb_spec 19 (hist_max h)); lia.
  - intros k s Hk. change (hist_lines h') with mem. cbn [p_lines] in Hk.
    assert (Hk19 : (k < 19)%nat) by (apply lookup_lt_Some in Hk; rewrite length_take in Hk; unfold HIST_MAX in Hk; lia).
    rewrite lookup_take_lt in Hk by (unfold HIST_MAX; lia). destruct k as [|k]; [injection Hk as <-; by rewrite Hs1|].
    change ((line :: p_lines p) !! S k) with (p_lines p !! k) in Hk. pose proof (lookup_lt_Some _ _ _ Hk).
    rewrite Hsk by lia. intros i Hi. rewrite Hother; [by apply (hk_rows _ _ W)|].
    pose proof (hk_text _ _ W) as Ht. rewrite Forall_lookup in Ht. destruct (Ht _ _ Hk) as [_ Hls]. unfold HIST_SIZE in *.
    unfold slot. destruct (Nat.leb_spec (S k) (hist_add_idx h)); lia.
  - cbn [p_lines]. apply Forall_take. constructor; [by split|exact (hk_text _ _ W)].
  - cbn [p_cur]. split; [lia|]. unfold h' at 1, slot. cbn [with_cur hist_cur Nat.leb]. by rewrite Nat.sub_0_r.
Qed.

Lemma init_rows_ok : forall n i mem, (HIST_SIZE * (i + n) <= length mem)%nat ->
  exists mem', init_rows n i mem = Ok mem' /\ length mem' = length mem.
Proof.
  induction n as [|n IH]; intros i mem H; [by eexists|]. cbn [init_rows].
  rewrite (res_bind_ok _ _ _ (arr_set_ok mem (HIST_SIZE * i) 0 ltac:(unfold HIST_SIZE in *; lia))).
  destruct (IH (i + 1)%nat (<[(HIST_SIZE * i)%nat := 0]> mem)) as (mem' & E & Hl).
  { rewrite length_insert. unfold HIST_SIZE in *. lia. }
  exists mem'. split; [exact E|]. by rewrite Hl, length_insert.
Qed.

Lemma hist_init_ok h : length (hist_lines h) = (HIST_SIZE * HIST_MAX)%nat ->
  exists h', hist_init h = Ok h' /\ hist_ok h' (Past [] None).
Proof.
  intros H. unfold hist_init. destruct (init_rows_ok HIST_MAX 0 (hist_lines h)) as (mem & E & Hl); [by rewrite H|].
  rewrite (res_bind_ok _ _ _ E). eexists. split; [done|]. split; cbn [hist_lines hist_max p_lines hist_add_idx length p_cur]; try done.
  - by rewrite Hl.
  - unfold HIST_MAX. lia.
Qed.

(** ** The reference editor *)

Record zip := Zip { z_before : list Z; z_after : list Z; z_insert : bool; z_past : past }.

Inductive key :=
| KChar (c : Z) | KHome | KEnd | KLeft | KRight | KDelete | KBack | KKill | KKillLine | KToggle | KOlder | KNewer.

Definition recall_line (r : option (list Z * past)) (z : zip) : zip :=
  match r with Some (s, p) => Zip s [] (z_insert z) p | None => z end.

(** At most [len] characters, an overwritten one not counted. *)
Definition press_key (len : nat) (z : zip) (k : key) : zip :=
  let '(Zip b a i p) := z in
  match k with
  | KChar c =>
      match i, a with
      | false, _ :: a => Zip (b ++ [c]) a i p
      | _, _ => if (len <=? length (b ++ a))%nat then z else Zip (b ++ [c]) a i p
      end
  | KHome => Zip [] (b ++ a) i p
  | KEnd => Zip (b ++ a) [] i p
  | KLeft => match list.last b with Some c => Zip (removelast b) (c :: a) i p | None => z end
  | KRight => match a with c :: a => Zip (b ++ [c]) a i p | [] => z end
  | KDelete => Zip b (tl a) i p
  | KBack => Zip (removelast b) a i p
  | KKill => Zip b [] i p
  | KKillLine => Zip [] [] i p
  | KToggle => Zip b a (negb i) p
  | KOlder => recall_line (older p) z
  | KNewer => recall_line (newer p) z
  end.

(** The characters a key sends, and the ones that do the same. *)
Definition key_chars (k : key) : list Z :=
  match k with
  | KChar c => [c]
  | KHome => [CTL_CH "a"] | KEnd => [CTL_CH "e"] | KLeft => [CTL_CH "b"] | KRight => [CTL_CH "f"]
  | KDelete => [CTL_CH "d"] | KBack => [8; 127; 255] | KKill => [CTL_CH "k"]
  | KKillLine => [CTL_CH "u"; CTL_CH "x"] | KToggle => [CTL_CH "o"]
  | KOlder => [CTL_CH "p"] | KNewer => [CTL_CH "n"]
  end.

Definition key_arrow (k : key) : list Z :=
  match k with
  | KHome => [ch "H"] | KLeft => [ch "D"] | KRight => [ch "C"] | KOlder => [ch "A"] | KNewer => [ch "B"]
  | _ => []
  end.

Definition sends (k : key) (bytes : list Z) : Prop :=
  match k with KChar c => visible c | _ => True end /\
  ((exists c, c ∈ key_chars k /\ bytes = [c]) \/ (exists c, c ∈ key_arrow k /\ bytes = [0x1b; ch "["; c])).

Inductive typed : list key -> list Z -> Prop :=
| typed_nil : typed [] []
| typed_cons k bytes ks input : sends k bytes -> typed ks input -> typed (k :: ks) (bytes ++ input).

Record edit_ok (P : list Z) (cap : nat) (st : edit) (z : zip) : Prop := {
  ek_buf : exists tail, e_buf st = z_before z ++ z_after z ++ tail;
  ek_cap : length (e_buf st) = cap;
  ek_num : num st = length (z_before z);
  ek_eol : eol_num st = length (z_before z ++ z_after z);
  ek_ins : insert_mode st = z_insert z;
  ek_esc : esc_save st = [];
  ek_hist : hist_ok (e_hist st) (z_past z);
  ek_text : Forall visible (z_before z ++ z_after z);
  ek_shows : shows P (z_before z) (z_after z) (e_out st)
}.

(** Both sides taken apart. *)
Ltac open_ok W st z :=
  destruct st as [buf n e i esc hh out], z as [b a zi zp]; destruct W as [[tail Wb] Wc Wn We Wi We' Wh Wt Ws];
  cbn [e_buf num eol_num insert_mode esc_save e_hist e_out z_before z_after z_insert z_past] in *; subst n e i esc.

Ltac close_ok := split; cbn [e_buf num eol_num insert_mode esc_save e_hist e_out z_before z_after z_insert z_past];
  try done.

Lemma older_text h p s p' : hist_ok h p -> older p = Some (s, p') -> Forall visible s /\ (length s < HIST_SIZE)%nat.
Proof.
  intros W E. pose proof (hk_text _ _ W) as Ht. rewrite Forall_lookup in Ht. unfold older in E.
  destruct (p_cur p) as [k|]; [|done]. cbn [mbind option_bind] in E. destruct (p_lines p !! k) as [x|] eqn:Ek; [|done].
  cbn in E. injection E as <- <-. by apply (Ht k).
Qed.

Lemma newer_text h p s p' : hist_ok h p -> newer p = Some (s, p') -> Forall visible s /\ (length s < HIST_SIZE)%nat.
Proof.
  intros W E. pose proof (hk_text _ _ W) as Ht. rewrite Forall_lookup in Ht. unfold newer in E.
  destruct (p_cur p) as [[|[|k]]|]; try done; injection E as <- <-; [split; [done|unfold HIST_SIZE; simpl; lia]|].
  destruct (p_lines p !! k) as [x|] eqn:Ek; [by apply (Ht k)|]. split; [done|]. unfold HIST_SIZE. simpl. lia.
Qed.

Section Editing.
Context (P : list Z) (cap : nat).

Lemma ok_say_beep st z : edit_ok P cap st z -> edit_ok P cap (say [BEEP] st) z.
Proof. intros W. open_ok W st z. unfold say. close_ok; [by eexists|]. by apply shows_beep. Qed.

Lemma buf_move_right b (c : Z) a x tail :
  buf_move (length b + 1) (length b) (length a) (b ++ a ++ x :: tail) =
    Ok (b ++ hd c (a ++ [x]) :: a ++ tail).
Proof.
  unfold buf_move. rewrite !length_app, length_cons.
  destruct (Nat.leb_spec (length b + 1 + length a) (length b + (length a + S (length tail)))); [|lia].
  destruct (Nat.leb_spec (length b + length a) (length b + (length a + S (length tail)))); [|lia].
  cbn [andb]. f_equal. rewrite drop_app_length, take_app_length.
  rewrite (take_app_ge b), (drop_app_ge b) by lia. replace (length b + 1 - length b)%nat with 1%nat by lia.
  replace (length b + 1 + length a - length b)%nat with (S (length a)) by lia.
  rewrite <- app_assoc. f_equal. change (x :: tail) with ([x] ++ tail). rewrite (app_assoc a [x] tail).
  rewrite (drop_app_length' (a ++ [x])) by (rewrite length_app; simpl; lia). rewrite take_app_le by (rewrite length_app; simpl; lia).
  by destruct a.
Qed.

Lemma buf_move_left b c a tail :
  buf_move (length b) (length b + 1) (length a) (b ++ (c :: a) ++ tail) = Ok (b ++ a ++ list.drop (length a) (c :: a) ++ tail).
Proof.
  unfold buf_move. rewrite !length_app, length_cons.
  destruct (Nat.leb_spec (length b + length a) (length b + (S (length a) + length tail))); [|lia].
  destruct (Nat.leb_spec (length b + 1 + length a) (length b + (S (length a) + length tail))); [|lia].
  cbn [andb]. f_equal. rewrite take_app_length. f_equal. rewrite (drop_app_ge b) by lia.
  replace (length b + 1 - length b)%nat with 1%nat by lia. cbn [app drop]. rewrite drop_0, take_app_length. f_equal.
  rewrite (drop_app_ge b) by lia. replace (length b + length a - length b)%nat with (length a) by lia.
  change (c :: a ++ tail) with ((c :: a) ++ tail). rewrite drop_app_le by (simpl; lia). done.
Qed.

Context (len : Z).
Hypothesis Hlen : 1 <= len < 4294967296.
Hypothesis Hcap : (Z.to_nat len <= cap)%nat.

Lemma add_char_ok st z c : edit_ok P cap st z -> visible c ->
  exists st', cread_add_char c (z_insert z) len st = Ok st' /\ edit_ok P cap st' (press_key (Z.to_nat len) z (KChar c)).
Proof.
  intros W Hc. pose proof (ok_say_beep st z W) as Wbeep. pose proof W as W0. open_ok W st z.
  apply Forall_app in Wt as Wt'. destruct Wt' as [Wvb Wva].
  unfold cread_add_char. cbn [e_buf num eol_num]. rewrite (u32_small (len - 1)) by lia.
  assert (Hfull : (len - 1 <? Z.of_nat (length (b ++ a))) = (Z.to_nat len <=? length (b ++ a))%nat).
  { destruct (Z.ltb_spec (len - 1) (Z.of_nat (length (b ++ a)))), (Nat.leb_spec (Z.to_nat len) (length (b ++ a))); lia. }
  assert (Hge : (length b =? length (b ++ a))%nat = match a with [] => true | _ => false end).
  { rewrite length_app. destruct a; simpl; [apply Nat.eqb_eq|apply Nat.eqb_neq]; lia. }
  assert (Hlb : length buf = (length b + length a + length tail)%nat) by (rewrite Wb, !length_app; lia).
  unfold press_key. destruct zi.
  - cbn [orb andb]. rewrite Hfull. destruct (Nat.leb_spec (Z.to_nat len) (length (b ++ a))) as [|Hroom]; [by eexists|].
    rewrite length_app in Hroom. destruct tail as [|x tail]; [simpl in Hlb; lia|].
    rewrite !length_app. replace (S (length b + length a) - length b)%nat with (S (length a)) by lia.
    assert (E : exists y, (if (1 <? S (length a))%nat then buf_move (length b + 1) (length b) (S (length a) - 1) buf
                 else mret buf) = Ok (b ++ y :: a ++ tail)).
    { destruct (Nat.ltb_spec 1 (S (length a))).
      - eexists. rewrite Nat.sub_1_r. cbn [Nat.pred]. rewrite Wb. apply (buf_move_right b 0).
      - destruct a; [|simpl in *; lia]. exists x. by rewrite Wb. }
    destruct E as [y E]. rewrite (res_bind_ok _ _ _ E), (res_bind_ok _ _ _ (arr_set_app_mid b y c (a ++ tail) _ eq_refl)).
    eexists. split; [done|]. rewrite drop_app_length. change (c :: a ++ tail) with ((c :: a) ++ tail).
    change (S (length a)) with (length (c :: a)). rewrite putnstr_text by by constructor.
    cbn [length]. rewrite Nat.sub_1_r. cbn [Nat.pred].
    unfold set_pos, set_buf, say. close_ok.
    + exists tail. by rewrite <- !app_assoc.
    + rewrite <- Wc, Hlb, length_app, length_cons, length_app. simpl. lia.
    + rewrite length_app. simpl. lia.
    + rewrite !length_app. simpl. lia.
    + rewrite <- app_assoc. apply Forall_app. split; [done|]. by constructor.
    + by apply shows_insert; [|constructor].
  - cbn [orb]. rewrite Hge. destruct a as [|d a].
    + cbn [andb]. rewrite Hfull. destruct (Nat.leb_spec (Z.to_nat len) (length (b ++ []))) as [|Hroom]; [by eexists|].
      rewrite app_nil_r in Hroom. destruct tail as [|x tail]; [simpl in Hlb; lia|].
      rewrite Wb. cbn [app]. rewrite (res_bind_ok _ _ _ (arr_set_app_mid b x c tail _ eq_refl)).
      eexists. split; [done|]. rewrite drop_app_length. cbn [putnstr]. destruct (Z.eqb_spec c 0); [destruct Hc; lia|].
      unfold set_pos, set_buf, say. close_ok.
      * exists tail. by rewrite <- app_assoc.
      * rewrite <- Wc, Hlb, length_app. simpl. lia.
      * rewrite length_app. simpl. lia.
      * rewrite !app_nil_r, length_app. simpl. lia.
      * rewrite app_nil_r. apply Forall_app. split; [done|by apply Forall_singleton].
      * apply (shows_over P b []); try done; simpl; lia.
    + cbn [andb]. rewrite Wb. cbn [app]. rewrite (res_bind_ok _ _ _ (arr_set_app_mid b d c (a ++ tail) _ eq_refl)).
      eexists. split; [done|]. rewrite drop_app_length. cbn [putnstr]. destruct (Z.eqb_spec c 0); [destruct Hc; lia|].
      apply Forall_cons in Wva as [_ Wva]. unfold set_pos, set_buf, say. close_ok.
      * exists tail. by rewrite <- app_assoc.
      * rewrite <- Wc, Hlb, length_app. simpl. rewrite length_app. lia.
      * rewrite length_app. simpl. lia.
      * rewrite !length_app. simpl. lia.
      * rewrite <- app_assoc. apply Forall_app. split; [done|by constructor].
      * apply (shows_over P b [d]); try done; simpl; lia.
Qed.

Lemma delete_here_ok st z : edit_ok P cap st z ->
  exists st', delete_here st = Ok st' /\ edit_ok P cap st' (press_key (Z.to_nat len) z KDelete).
Proof.
  intros W. pose proof W as W0. open_ok W st z. unfold delete_here. cbn [num eol_num e_buf press_key tl].
  destruct a as [|c a].
  { destruct (Nat.ltb_spec (length b) (length (b ++ []))) as [Hlt|]; [rewrite app_nil_r in Hlt; lia|by eexists]. }
  apply Forall_app in Wt as Wt'. destruct Wt' as [Wvb Wva]. apply Forall_cons in Wva as [_ Wva].
  rewrite length_app, length_cons. destruct (Nat.ltb_spec (length b) (length b + S (length a))); [|lia].
  replace (length b + S (length a) - length b - 1)%nat with (length a) by lia.
  set (st0 := Edit _ _ _ _ _ _ _).
  assert (E : exists t, (if negb (length a =? 0)%nat then
                 buf' ← buf_move (length b) (length b + 1) (length a) buf;
                 mret (set_buf buf' (say (putnstr (length a) (drop (length b) buf')) st0)) else mret st0) =
            Ok (set_buf (b ++ a ++ t) (say a st0)) /\ length (b ++ a ++ t) = cap).
  { destruct (Nat.eqb_spec (length a) 0) as [Hz|Hz]; cbn [negb].
    - destruct a; [|simpl in Hz; lia]. exists (c :: tail). split; [|by rewrite <- Wc, Wb].
      unfold st0, set_buf, say. cbn. by rewrite app_nil_r, Wb.
    - rewrite Wb, (res_bind_ok _ _ _ (buf_move_left b c a tail)). eexists. split.
      + by rewrite drop_app_length, putnstr_text.
      + rewrite <- Wc, Wb, !length_app, length_drop, !length_cons. lia. }
  destruct E as (t & E & Ht). rewrite (res_bind_ok _ _ _ E). eexists. split; [done|].
  unfold st0, set_pos, set_buf, say. close_ok.
  - by exists t.
  - rewrite !length_app. simpl. lia.
  - apply Forall_app. by split.
  - rewrite <- app_assoc. eapply shows_delete; [exact Ws|done].
Qed.

Lemma delete_back_ok st z : edit_ok P cap st z ->
  exists st', delete_back st = Ok st' /\ edit_ok P cap st' (press_key (Z.to_nat len) z KBack).
Proof.
  intros W. pose proof W as W0. open_ok W st z. unfold delete_back. cbn [num eol_num e_buf press_key].
  destruct b as [|c b _] using rev_ind; [by eexists|]. rewrite removelast_last.
  apply Forall_app in Wt as Wt'. destruct Wt' as [Wvb Wva]. apply Forall_app in Wvb as [Wvb _].
  rewrite !length_app. cbn [length]. rewrite Nat.add_1_r. cbv iota beta.
  replace (S (length b) + length a - S (length b))%nat with (length a) by lia.
  rewrite <- app_assoc in Wb. cbn [app] in Wb. rewrite Wb.
  change (b ++ c :: a ++ tail) with (b ++ (c :: a) ++ tail).
  rewrite <- (Nat.add_1_r (length b)), (res_bind_ok _ _ _ (buf_move_left b c a tail)).
  rewrite drop_app_length, putnstr_text by done. eexists. split; [done|].
  unfold set_pos, set_buf, say. close_ok.
  - by eexists.
  - rewrite <- Wc, Wb, !length_app, length_drop, !length_cons, !length_app. lia.
  - rewrite length_app. simpl. lia.
  - apply Forall_app. by split.
  - by apply (shows_rub P b c).
Qed.

Lemma beginning_ok st z : edit_ok P cap st z -> edit_ok P cap (BEGINNING_OF_LINE st) (press_key (Z.to_nat len) z KHome).
Proof. intros W. open_ok W st z. close_ok; [by exists tail; rewrite Wb, app_assoc|]. by apply shows_home. Qed.

Lemma erase_ok st z : edit_ok P cap st z -> edit_ok P cap (ERASE_TO_EOL st) (press_key (Z.to_nat len) z KKill).
Proof.
  intros W. pose proof W as W0. open_ok W st z. unfold ERASE_TO_EOL. cbn [num eol_num press_key]. rewrite length_app.
  destruct (Nat.ltb_spec (length b) (length b + length a)).
  - replace (length b + length a - length b)%nat with (length a) by lia. unfold set_pos, say. close_ok.
    + by eexists.
    + by rewrite app_nil_r.
    + rewrite app_nil_r. by apply Forall_app in Wt as [? _].
    + by apply shows_erase.
  - destruct a; [|simpl in *; lia]. rewrite app_nil_r in W0. by rewrite Nat.add_0_r.
Qed.

Lemma refresh_ok st z : edit_ok P cap st z -> edit_ok P cap (REFRESH_TO_EOL st) (press_key (Z.to_nat len) z KEnd).
Proof.
  intros W. pose proof W as W0. open_ok W st z. unfold REFRESH_TO_EOL. cbn [num eol_num e_buf press_key]. rewrite length_app.
  destruct (Nat.ltb_spec (length b) (length b + length a)).
  - apply Forall_app in Wt as Wt'. destruct Wt' as [_ Wva].
    replace (length b + length a - length b)%nat with (length a) by lia.
    rewrite Wb, drop_app_length, putnstr_text by done. unfold set_pos, say. close_ok.
    + exists tail. by rewrite <- app_assoc.
    + by rewrite <- Wc, Wb.
    + by rewrite length_app.
    + by rewrite app_nil_r, length_app.
    + by rewrite app_nil_r.
    + by apply shows_refresh.
  - destruct a; [|simpl in *; lia]. rewrite !app_nil_r in W0. by rewrite app_nil_r, Nat.add_0_r.
Qed.

Hypothesis Hrow : (HIST_SIZE <= cap)%nat.

(** Showing a recalled line. *)
Lemma recall_shown st z s h p : edit_ok P cap st z -> hist_ok h p -> Forall visible s -> (length s < HIST_SIZE)%nat ->
  exists st', (let st := ERASE_TO_EOL (BEGINNING_OF_LINE (set_hist h st)) in
     buf ← write_str (e_buf st) 0 s;
     let st := set_buf buf st in
     n ← read_cstr (e_buf st);
     mret (REFRESH_TO_EOL (set_pos (num st) (length n) st))) = Ok st' /\ edit_ok P cap st' (Zip s [] (z_insert z) p).
Proof.
  intros W Hh Hv Hs.
  assert (W1 : edit_ok P cap (set_hist h st) (Zip (z_before z) (z_after z) (z_insert z) p)).
  { open_ok W st z. close_ok. by eexists. }
  apply beginning_ok, erase_ok in W1. destruct z as [b a zi p0]. cbn [press_key z_before z_after z_insert] in W1.
  set (st1 := ERASE_TO_EOL _) in *. clearbody st1. cbv zeta.
  destruct (write_str_ok (e_buf st1) 0 s) as (mem & E & Hlm & [rest Hm] & _); [rewrite (ek_cap _ _ _ _ W1); lia|].
  rewrite take_0 in Hm. cbn [app] in Hm. rewrite (res_bind_ok _ _ _ E). cbn [e_buf set_buf].
  rewrite (res_bind_ok _ _ s) by (rewrite Hm; by apply read_cstr_text). eexists. split; [done|].
  pose proof (ek_cap _ _ _ _ W1) as Hc1. 
  destruct st1 as [buf n e i esc hh out], W1 as [[tail Wb] Wc Wn We Wi We' Wh Wt Ws].
  cbn [e_buf num eol_num insert_mode esc_save e_hist e_out z_before z_after z_insert z_past app length] in *. subst n e i esc.
  unfold REFRESH_TO_EOL, set_pos, set_buf, say. cbn [e_buf num eol_num insert_mode esc_save e_hist e_out].
  destruct Ws as [k Hk]. cbn [app] in Hk. destruct (Nat.ltb_spec 0 (length s)).
  - cbn [e_buf num eol_num insert_mode esc_save e_hist e_out]. rewrite Nat.sub_0_r, Hm, drop_0, putnstr_text by done.
    close_ok.
    + by exists (0 :: rest).
    + congruence.
    + by rewrite app_nil_r.
    + by rewrite app_nil_r.
    + exists (k - length s)%nat. rewrite term_run_app, Hk, term_text, app_nil_r by done. cbn [app]. by rewrite drop_blanks.
  - destruct s; [|simpl in *; lia]. close_ok; [by exists (0 :: rest)|congruence|by exists k].
Qed.

Lemma recall_ok st z (prev : bool) : edit_ok P cap st z ->
  exists st', recall prev st = Ok st' /\
    edit_ok P cap st' (press_key (Z.to_nat len) z (if prev then KOlder else KNewer)).
Proof.
  intros W. unfold recall.
  assert (W1 : edit_ok P cap (set_esc [] st) z) by (open_ok W st z; close_ok; by eexists).
  change (e_hist st) with (e_hist (set_esc [] st)). set (st1 := set_esc [] st) in *. clearbody st1. clear W st.
  cbv zeta. pose proof (ek_hist _ _ _ _ W1) as Hh.
  assert (Hnone : forall h, h = e_hist st1 -> exists st', Ok (say [BEEP] (set_hist h st1)) = Ok st' /\ edit_ok P cap st' z).
  { intros h ->. eexists. split; [done|]. apply ok_say_beep. by destruct st1. }
  pose proof (hist_prev_ok _ _ Hh) as Hp. pose proof (hist_next_ok _ _ Hh) as Hn.
  destruct prev.
  - replace (press_key (Z.to_nat len) z KOlder) with (recall_line (older (z_past z)) z) by (by destruct z).
    destruct (older (z_past z)) as [[s p]|] eqn:Eo.
    + destruct Hp as (h' & Ep & Hok). rewrite (res_bind_ok _ _ _ Ep). apply recall_shown; [done..| |].
      all: destruct (older_text _ _ _ _ Hh Eo); done.
    + rewrite (res_bind_ok _ _ _ Hp). by apply Hnone.
  - replace (press_key (Z.to_nat len) z KNewer) with (recall_line (newer (z_past z)) z) by (by destruct z).
    destruct (newer (z_past z)) as [[s p]|] eqn:Eo.
    + destruct Hn as (h' & Ep & Hok). rewrite (res_bind_ok _ _ _ Ep). apply recall_shown; [done..| |].
      all: destruct (newer_text _ _ _ _ Hh Eo); done.
    + rewrite (res_bind_ok _ _ _ Hn). by apply Hnone.
Qed.

End Editing.

(** ** Keys *)

Section Keys.
Context (auto : option (env_state * list cmd_tbl)) (prompt : option (list Z)).
Context (P : list Z) (cap : nat) (len : Z).
Hypothesis Hlen : 1 <= len < 4294967296.
Hypothesis Hcap : (Z.to_nat len <= cap)%nat.
Hypothesis Hrow : (HIST_SIZE <= cap)%nat.

Lemma press_visible c st : visible c ->
  press auto prompt len c st = (st ← cread_add_char c (insert_mode st) len st; mret (Some st)).
Proof.
  intros [H1 H2]. unfold press.
  repeat match goal with |- context [c =? ?k] => destruct (Z.eqb_spec c k) as [e|_]; [exfalso; vm_compute in e; lia|] end.
  cbn [orb]. by destruct auto as [[env table]|].
Qed.

(** Applying a lemma on a step of the editor under [press]. *)
Ltac by_step L :=
  let st' := fresh in let E := fresh in let W' := fresh in
  destruct L as (st' & E & W'); [try eassumption..|]; exists st'; split; [exact (res_bind_ok _ (fun s => mret (Some s)) _ E)|done].

Lemma press_ok k c st z : edit_ok P cap st z -> match k with KChar c => visible c | _ => True end -> c ∈ key_chars k ->
  exists st', press auto prompt len c st = Ok (Some st') /\ edit_ok P cap st' (press_key (Z.to_nat len) z k).
Proof.
  intros W Hv Hc. destruct k; cbn [key_chars] in Hc; rewrite ?elem_of_cons, ?elem_of_nil in Hc.
  - destruct Hc as [->|[]]. rewrite press_visible, (ek_ins _ _ _ _ W) by done. by_step (add_char_ok P cap len Hlen Hcap st z c0 W Hv).
  - destruct Hc as [->|[]]. eexists. split; [reflexivity|]. by apply beginning_ok.
  - destruct Hc as [->|[]]. eexists. split; [reflexivity|]. by apply refresh_ok.
  - destruct Hc as [->|[]]. change (press _ _ _ _ st) with
      (match num st with O => mret (Some st) | S n => mret (Some (set_pos n (eol_num st) (say (backspaces 1) st))) end : res _).
    pose proof W as W0. open_ok W st z. cbn [press_key]. destruct b as [|x b _] using rev_ind; [by eexists|].
    rewrite last_snoc, removelast_last. rewrite (length_app b). cbn [length]. rewrite Nat.add_1_r.
    eexists. split; [done|]. unfold set_pos, say. close_ok.
    + exists tail. by rewrite Wb, <- app_assoc.
    + by rewrite <- app_assoc.
    + by rewrite <- app_assoc in Wt.
    + by apply shows_left.
  - destruct Hc as [->|[]]. change (press _ _ _ _ st) with
      (if (num st <? eol_num st)%nat then
         c ← arr_get (e_buf st) (num st); mret (Some (set_pos (num st + 1) (eol_num st) (say [c] st)))
       else mret (Some st)).
    pose proof W as W0. open_ok W st z. cbn [press_key]. destruct a as [|x a].
    { destruct (Nat.ltb_spec (length b) (length (b ++ []))) as [Hlt|]; [rewrite app_nil_r in Hlt; lia|by eexists]. }
    destruct (Nat.ltb_spec (length b) (length (b ++ x :: a))) as [|Hge]; [|rewrite length_app in Hge; simpl in Hge; lia].
    rewrite (res_bind_ok _ _ x) by (rewrite Wb; by apply arr_get_app_mid).
    eexists. split; [done|]. pose proof (proj1 (Forall_app _ _ _) Wt) as [_ Wva]. apply Forall_cons in Wva as [Wx _].
    unfold set_pos, say. close_ok.
    + exists tail. by rewrite Wb, <- app_assoc.
    + rewrite length_app. simpl. lia.
    + by rewrite <- app_assoc.
    + by rewrite <- app_assoc.
    + apply (shows_over P b [x]); try done; simpl; lia.
  - destruct Hc as [->|[]]. by_step (delete_here_ok P cap len Hlen Hcap st z W).
  - assert (E : press auto prompt len c st = (st ← delete_back st; mret (Some st))) by (by destruct Hc as [->|[->|[->|[]]]]).
    rewrite E. by_step (delete_back_ok P cap len Hlen Hcap st z W).
  - destruct Hc as [->|[]]. eexists. split; [reflexivity|]. by apply erase_ok.
  - assert (E : press auto prompt len c st = Ok (Some (ERASE_TO_EOL (BEGINNING_OF_LINE st))))
      by (by destruct Hc as [->|[->|[]]]).
    rewrite E. eexists. split; [reflexivity|]. pose proof (erase_ok P cap len Hlen Hcap _ _ (beginning_ok P cap len st z W)) as W'.
    by destruct z.
  - destruct Hc as [->|[]]. eexists. split; [reflexivity|]. open_ok W st z. unfold toggle_insert. close_ok. by eexists.
  - destruct Hc as [->|[]]. by_step (recall_ok P cap len Hlen Hcap Hrow st z true W).
  - destruct Hc as [->|[]]. by_step (recall_ok P cap len Hlen Hcap Hrow st z false W).
Qed.

Lemma key_arrow_char k c : c ∈ key_arrow k -> exists c', arrow c = Some c' /\ c' ∈ key_chars k.
Proof.
  intros H. destruct k; cbn [key_arrow] in H; try (by apply not_elem_of_nil in H); apply list_elem_of_singleton in H as ->;
    eexists; (split; [reflexivity|]); by apply list_elem_of_singleton.
Qed.

(** A character that is no end of line. *)
Definition not_end (c : Z) : Prop := (c =? 10) || (c =? 13) = false.

Lemma loop_step c input st st' : not_end c -> feed auto prompt len c st = Ok (Some st') ->
  cread_loop auto prompt len (c :: input) st = cread_loop auto prompt len input st'.
Proof. intros Hc E. cbn [cread_loop]. rewrite Hc. by rewrite (res_bind_ok _ _ _ E). Qed.

Lemma key_char_not_end k c : match k with KChar c => visible c | _ => True end -> c ∈ key_chars k -> not_end c.
Proof.
  intros Hv Hc. destruct k; cbn [key_chars] in Hc; rewrite ?elem_of_cons, ?elem_of_nil in Hc.
  1: { destruct Hc as [->|[]]. destruct Hv. unfold not_end. by btest; try lia. }
  all: by repeat destruct Hc as [->|Hc].
Qed.

Lemma sends_ok k bytes input st z : edit_ok P cap st z -> sends k bytes ->
  exists st', cread_loop auto prompt len (bytes ++ input) st = cread_loop auto prompt len input st' /\
    edit_ok P cap st' (press_key (Z.to_nat len) z k).
Proof.
  intros W [Hv [(c & Hc & ->)|(c & Hc & ->)]]; cbn [app]; pose proof (ek_esc _ _ _ _ W) as He.
  - destruct (press_ok k c st z W Hv Hc) as (st' & E & W'). exists st'. split; [|done].
    apply loop_step; [by apply (key_char_not_end k)|]. unfold feed. by rewrite He.
  - destruct (key_arrow_char k c Hc) as (c' & Ea & Hc'). destruct (press_ok k c' st z W Hv Hc') as (st' & E & W').
    exists st'. split; [|done]. rewrite (loop_step 0x1b _ st (set_esc [0x1b] st)); [|done|unfold feed, press; rewrite !He; reflexivity].
    rewrite (loop_step (ch "[") _ _ (set_esc [0x1b; ch "["] st)); [|done|reflexivity].
    apply loop_step.
    + destruct k; cbn [key_arrow] in Hc; try (by apply not_elem_of_nil in Hc); by apply list_elem_of_singleton in Hc as ->.
    + unfold feed. cbn [esc_save set_esc]. rewrite Ea. rewrite <- E. f_equal. destruct st. cbn in He. by subst.
Qed.

Lemma typed_ok ks bytes input : typed ks bytes -> forall st z, edit_ok P cap st z ->
  exists st', cread_loop auto prompt len (bytes ++ input) st = cread_loop auto prompt len input st' /\
    edit_ok P cap st' (fold_left (press_key (Z.to_nat len)) ks z).
Proof.
  induction 1 as [|k bytes ks input' Hs Ht IH]; intros st z W; [by exists st|].
  rewrite <- app_assoc. destruct (sends_ok k bytes (input' ++ input) st z W Hs) as (st1 & E1 & W1).
  destruct (IH st1 _ W1) as (st' & E & W'). exists st'. split; [by rewrite E1|done].
Qed.

(** The text that is in the buffer at the start. *)
Lemma add_own_ok : forall n i st b a p, (i + n = length b + length a)%nat -> (length b = i)%nat ->
  (length b + length a <= Z.to_nat len)%nat -> Forall visible (b ++ a) ->
  edit_ok P cap st (Zip b [] true p) -> (exists t, e_buf st = b ++ a ++ 0 :: t) ->
  exists st', cread_add_own n i len st = Ok st' /\ edit_ok P cap st' (Zip (b ++ a) [] true p).
Proof.
  induction n as [|n IH]; intros i st b a p Hn Hi Hl Hv W [t Ht].
  { destruct a; [|simpl in Hn; lia]. rewrite app_nil_r. by exists st. }
  destruct a as [|c a]; [simpl in Hn; lia|]. cbn [cread_add_own].
  rewrite (res_bind_ok _ _ c) by (rewrite Ht; by apply arr_get_app_mid).
  pose proof (proj1 (Forall_app _ _ _) Hv) as [_ Hva]. apply Forall_cons in Hva as [Hc _].
  destruct (add_char_ok P cap len Hlen Hcap st _ c W Hc) as (st1 & E1 & W1). cbn [z_insert] in E1.
  rewrite (res_bind_ok _ _ _ E1). cbn [press_key] in W1. rewrite app_nil_r in W1. cbn [length] in Hn, Hl.
  destruct (Nat.leb_spec (Z.to_nat len) (length b)); [lia|].
  replace (b ++ c :: a) with ((b ++ [c]) ++ a) in * by (by rewrite <- app_assoc).
  apply IH; [rewrite length_app; simpl; lia..|done|done|].
  exists t. rewrite <- app_assoc. pose proof (ek_num _ _ _ _ W) as Hnum. cbn [z_before] in Hnum.
  pose proof (ek_eol _ _ _ _ W) as Heol. cbn [z_before z_after] in Heol. rewrite app_nil_r in Heol.
  unfold cread_add_char in E1. rewrite (u32_small (len - 1)) in E1 by lia. cbn [orb andb] in E1.
  destruct (Z.ltb_spec (len - 1) (Z.of_nat (eol_num st))) as [Hlt|]; [lia|].
  rewrite Hnum, Heol in E1. replace (S (length b) - length b)%nat with 1%nat in E1 by lia. cbn [Nat.ltb Nat.leb] in E1.
  rewrite (res_bind_ok (mret (e_buf st)) _ _ eq_refl) in E1. rewrite Ht in E1.
  rewrite (res_bind_ok _ _ _ (arr_set_app_mid b c c (a ++ 0 :: t) _ eq_refl)) in E1.
  injection E1 as <-. done.
Qed.

End Keys.

(** ** The line editor is the reference editor *)

Lemma cread_end_ok P cap st z rest : edit_ok P cap st z -> (length (z_before z ++ z_after z) < HIST_SIZE)%nat ->
  (HIST_SIZE <= cap)%nat -> let line := z_before z ++ z_after z in
  exists r, cread_end (say [10] st) rest = Ok r /\ cr_rc r = 0 /\ cr_len r = length line /\ cr_rest r = rest /\
    take (S (length line)) (cr_buf r) = line ++ [0] /\ hist_ok (cr_hist r) (remember line (z_past z)) /\
    exists out, cr_out r = out ++ [10] /\ shows P (z_before z) (z_after z) out.
Proof.
  intros W Hl Hrow line. open_ok W st z. fold line in Hl, Wt |- *. unfold cread_end, say.
  cbn [e_buf eol_num e_hist e_out]. fold line. rewrite app_assoc in Wb. fold line in Wb.
  destruct tail as [|x tail]; [apply (f_equal length) in Wb; rewrite app_nil_r in Wb; lia|].
  rewrite Wb, (res_bind_ok _ _ _ (arr_set_app_mid line x 0 tail _ eq_refl)).
  rewrite (res_bind_ok _ _ (deref line)) by (by destruct line).
  assert (Ht : take (S (length line)) (line ++ 0 :: tail) = line ++ [0]).
  { change (0 :: tail) with ([0] ++ tail). rewrite app_assoc, take_app_length' by (rewrite length_app; simpl; lia). done. }
  unfold remember. assert (Hx : match line with [] => true | c :: _ => c =? CREAD_HIST_CHAR end =
    negb (negb (deref line =? 0) && negb (deref line =? CREAD_HIST_CHAR))).
  { destruct line as [|c l]; [done|]. apply Forall_cons in Wt as [[Hc _] _]. cbn [deref]. destruct (Z.eqb_spec c 0); [lia|].
    by destruct (c =? CREAD_HIST_CHAR). }
  rewrite Hx. destruct (negb (deref line =? 0) && negb (deref line =? CREAD_HIST_CHAR)); cbn [negb].
  - destruct (cread_add_to_hist_ok hh zp line Wh Wt Hl) as (h' & E & Hok).
    rewrite (res_bind_ok (_ ≫= _) _ h') by (by rewrite (res_bind_ok _ _ _ (read_cstr_text line tail Wt))).
    eexists. split; [done|]. cbn [cr_rc cr_len cr_rest cr_buf cr_hist cr_out]. split_and!; try done. by eexists.
  - eexists. split; [done|]. cbn [cr_rc cr_len cr_rest cr_buf cr_hist cr_out]. split_and!; try done; [|by eexists].
    destruct Wh. split; try done. cbn [p_cur hist_cur with_cur]. split; [lia|].
    unfold slot. cbn. by rewrite Nat.sub_0_r.
Qed.

(** C7: Typing keys and ending the line: the buffer holds the reference editor's line,
    the history remembers it (unless empty or starting with an exclamation mark),
    and the screen showed the prompt and the line.  A line as long as the buffer
    is ended behind it.  ^C discards the line. *)
Theorem cread_line_correct auto prompt P buf init tail len h p ks bytes rest :
  buf = init ++ 0 :: tail -> Forall visible init -> (length init <= Z.to_nat len)%nat ->
  1 <= len < 4294967296 -> (Z.to_nat len <= length buf)%nat -> (HIST_SIZE <= length buf)%nat ->
  hist_ok h p -> typed ks bytes ->
  let z := fold_left (press_key (Z.to_nat len)) ks (Zip init [] true p) in
  let line := z_before z ++ z_after z in
  (forall e, e = 10 \/ e = 13 ->
    ((length line < HIST_SIZE)%nat ->
      exists r, cread_line auto prompt buf len h (bytes ++ e :: rest) = Ok r /\
        cr_rc r = 0 /\ cr_len r = length line /\ cr_rest r = rest /\
        take (S (length line)) (cr_buf r) = line ++ [0] /\ hist_ok (cr_hist r) (remember line (z_past z)) /\
        exists out, cr_out r = out ++ [10] /\ shows P (z_before z) (z_after z) out) /\
    (length line = length buf -> cread_line auto prompt buf len h (bytes ++ e :: rest) = Fault)) /\
  exists r, cread_line auto prompt buf len h (bytes ++ 3 :: rest) = Ok r /\
    cr_rc r = -1 /\ cr_rest r = rest /\ deref (cr_buf r) = 0 /\ hist_ok (cr_hist r) (z_past z).
Proof.
  intros Hbuf Hv Hi Hlen Hcap Hrow Hh Ht z line.
  set (st0 := Edit buf 0 0 true [] h []).
  assert (W0 : edit_ok P (length buf) st0 (Zip [] [] true p)) by (close_ok; [by exists buf|exists 0%nat; by rewrite app_nil_r]).
  assert (H : exists st, (forall input, cread_line auto prompt buf len h input = cread_loop auto prompt len input st) /\
    edit_ok P (length buf) st (Zip init [] true p)).
  { assert (Ei : read_cstr buf = Ok init) by (rewrite Hbuf; by apply read_cstr_text).
    destruct (Nat.eqb_spec (length init) 0) as [Hz|Hz].
    - destruct init; [|done]. exists st0. split; [|done]. intros input. unfold cread_line. by rewrite (res_bind_ok _ _ _ Ei).
    - destruct (add_own_ok P (length buf) len Hlen Hcap Hrow (length init) 0 st0 [] init p) as (st & E & W); [done..|by exists tail|].
      exists st. split; [|done]. intros input. unfold cread_line. rewrite (res_bind_ok _ _ _ Ei). fold st0.
      apply Nat.eqb_neq in Hz. rewrite Hz. cbn [negb]. by rewrite (res_bind_ok _ _ _ E). }
  destruct H as (st1 & E1 & W1).
  destruct (typed_ok auto prompt P (length buf) len Hlen Hcap Hrow ks bytes (3 :: rest) Ht _ _ W1) as (st & E3 & W).
  split.
  - intros e He.
    destruct (typed_ok auto prompt P (length buf) len Hlen Hcap Hrow ks bytes (e :: rest) Ht _ _ W1) as (st' & E & W').
    rewrite E1, E. fold z in W'.
    assert (Ee : cread_loop auto prompt len (e :: rest) st' = cread_end (say [10] st') rest) by (by destruct He as [->| ->]).
    rewrite Ee. split; [intros Hl; by apply (cread_end_ok P (length buf))|].
    intros Hl. unfold cread_end. cbn [say e_buf eol_num]. rewrite (ek_eol _ _ _ _ W'). unfold arr_set.
    rewrite decide_False; [done|]. rewrite (ek_cap _ _ _ _ W'). fold line. lia.
  - rewrite E1, E3. fold z in W. cbn [cread_loop]. pose proof (ek_esc _ _ _ _ W) as He.
    rewrite (res_bind_ok _ _ None) by (unfold feed; by rewrite He).
    pose proof (ek_cap _ _ _ _ W) as Hc. destruct (e_buf st) as [|x b] eqn:Eb; [unfold HIST_SIZE in *; simpl in *; lia|].
    eexists. split; [done|]. split_and!; try done. exact (ek_hist _ _ _ _ W).
Qed.

(** ** Examples *)

Definition empty_history : history := Hist 0 0 (-1) 0 (repeat 0 (HIST_SIZE * HIST_MAX)).
Definition console : list Z := repeat 0 256.

Lemma empty_history_ok : hist_ok empty_history (Past [] None).
Proof.
  split; cbn [hist_lines hist_max p_lines hist_add_idx length p_cur empty_history]; try done.
  unfold HIST_MAX. lia.
Defined.

(** "l", the left arrow, "s", end of line. *)
Lemma cread_line_correct_witness :
  hist_ok empty_history (Past [] None) /\ typed [KChar (ch "l"); KLeft; KChar (ch "s")] [ch "l"; 0x1b; ch "["; ch "D"; ch "s"] /\
  exists r, cread_line None None console 256 empty_history [ch "l"; 0x1b; ch "["; ch "D"; ch "s"; 13] = Ok r /\
    take 3 (cr_buf r) = zs "sl" ++ [0] /\ hist_ok (cr_hist r) (Past [zs "sl"] (Some 0%nat)).
Proof.
  assert (Ht : typed [KChar (ch "l"); KLeft; KChar (ch "s")] [ch "l"; 0x1b; ch "["; ch "D"; ch "s"]).
  { apply (typed_cons _ [ch "l"] _ [0x1b; ch "["; ch "D"; ch "s"]).
    { split; [apply (bool_decide_unpack _); vm_compute; exact I|left]. exists (ch "l"). by split; [left|]. }
    apply (typed_cons _ [0x1b; ch "["; ch "D"] _ [ch "s"]).
    { split; [exact I|right]. exists (ch "D"). by split; [left|]. }
    apply (typed_cons _ [ch "s"] _ []); [|constructor].
    split; [apply (bool_decide_unpack _); vm_compute; exact I|left]. exists (ch "s"). by split; [left|]. }
  split; [exact empty_history_ok|]. split; [exact Ht|].
  pose proof (cread_line_correct None None [] console [] (repeat 0 255) 256 empty_history (Past [] None)
    [KChar (ch "l"); KLeft; KChar (ch "s")] [ch "l"; 0x1b; ch "["; ch "D"; ch "s"] [] eq_refl (List.Forall_nil _)
    ltac:(apply Nat.le_0_l) ltac:(lia) ltac:(apply (bool_decide_unpack _); vm_compute; exact I)
    ltac:(apply (bool_decide_unpack _); vm_compute; exact I) empty_history_ok Ht) as [H _].
  destruct (H 13 (or_intror eq_refl)) as [H1 _].
  destruct (H1 ltac:(apply (bool_decide_unpack _); vm_compute; exact I)) as (r & E & _ & _ & _ & Hb & Hh & _).
  exists r. split; [exact E|]. split; [exact Hb|exact Hh].
Defined.

(** A line of 256 characters fills the console buffer and is ended behind it. *)
Example readline_full_line :
  edit_readline None None console true empty_history (repeat (ch "x") 256 ++ [13]) = Fault /\
  exists r, edit_readline None None console true empty_history (repeat (ch "x") 255 ++ [13]) = Ok (255, r).
Proof. split; [vm_compute; reflexivity|]. eexists. vm_compute. reflexivity. Qed.

(** In a larger buffer such a line runs into the next row of the history. *)
Example hist_long_line :
  match edit_readline None None (repeat 0 300) true empty_history (repeat (ch "x") 256 ++ [13]) with
  | Ok (_, r) => hist_line (cr_hist r) 0 = Ok (repeat (ch "x") 256) /\ hist_lines (cr_hist r) !! 256%nat = Some 0
  | _ => False
  end.
Proof. vm_compute. by split. Qed.

(** Recalling, editing and completing. *)
Example edit_and_recall :
  match edit_readline None (Some (zs "> ")) console true empty_history (zs "help me" ++ [1; 4; 4; 13]) with
  | Ok (n, r) =>
      n = 5 /\ match edit_readline None (Some (zs "> ")) (cr_buf r) true (cr_hist r) (16 :: zs "!" ++ [2; 2; 0x0b; 13]) with
               | Ok (n, r) => n = 4 /\ take 5 (cr_buf r) = zs "lp m" ++ [0]
               | _ => False
               end
  | _ => False
  end.
Proof. vm_compute. by split; [|split]. Qed.
