(* ===== verification/FlashCmd.v ===== *)
(** * Flash commands (common/cmd_flash.c)

    Sector and address specifications, and erasing and protecting by address, over
    the banks of [Flash]: [flash_info] is a list of banks, its length
    CONFIG_SYS_MAX_FLASH_BANKS.  Partitions (CONFIG_CMD_MTDPARTS), DataFlash and
    chips with locking of their own (CONFIG_SYS_FLASH_PROTECTION) are not
    configured for this board and are left out.  Messages are left out.

    The last section puts the pieces together: the environment of EnvFlash saved
    through these functions and the driver of Flash to the chip. *)

From S2P Require Import Prelude Ctype CString Vsprintf Crc Env EnvFlash Flash.

(** An [int] used as an index. *)
Definition index (i : Z) : res nat := if i <? 0 then Fault else mret (Z.to_nat i).

Definition str_eq (a b : list Z) : bool := strcmp_spec a b =? 0.

(** [strchr] where the character is cut out: the text before and behind it. *)
Fixpoint split_at (c : Z) (s : list Z) : option (list Z * list Z) :=
  match s with
  | [] => None
  | x :: s => if x =? c then Some ([], s) else '(a, b) ← split_at c s; Some (x :: a, b)
  end.

(** A whole string as a number. *)
Definition whole_number (s : list Z) (base : Z) : option Z :=
  let '(v, ep) := simple_strtoul s base in
  if (length ep =? length s)%nat || negb (deref ep =? 0) then None else Some v.

Inductive spec := No_spec | Bad_spec | Spec (bank : nat) (first last : Z).

Definition abbrev_spec (banks : list flash_info) (str : list Z) : spec :=
  match split_at (ch ":") str with
  | None => No_spec
  | Some (str, p) =>
      match whole_number str 10 with
      | None => Bad_spec
      | Some b =>
          let bank := s32 b in
          if (bank <? 1) || (Z.of_nat (length banks) <? bank) then Bad_spec
          else
            match banks !! Z.to_nat (bank - 1) with
            | None => Bad_spec
            | Some fp =>
                if flash_id fp =? FLASH_UNKNOWN then Bad_spec
                else
                  let '(str, p) := match split_at (ch "-") p with Some (a, b) => (a, Some b) | None => (p, None) end in
                  match whole_number str 10 with
                  | None => Bad_spec
                  | Some f =>
                      let first := s32 f in
                      if sector_count fp <=? first then Bad_spec
                      else
                        match p with
                        | None => Spec (Z.to_nat (bank - 1)) first first
                        | Some p =>
                            match whole_number p 10 with
                            | None => Bad_spec
                            | Some l =>
                                let last := s32 l in
                                if (last <? first) || (sector_count fp <=? last) then Bad_spec
                                else Spec (Z.to_nat (bank - 1)) first last
                            end
                        end
                  end
            end
      end
  end.

(** The end of the sector that holds the address, looked for in sector [i] and the
    [n - 1] sectors behind it. *)
Fixpoint roundb_sects (n i : nat) (info : flash_info) (addr : Z) : res (option Z) :=
  match n with
  | O => mret None
  | S n' =>
      e ← (if Z.of_nat i =? sector_count info - 1
           then s ← arr_get (start info) 0; mret (u32 (s + size info - 1))
           else s ← arr_get (start info) (i + 1); mret (u32 (s - 1)));
      s ← arr_get (start info) i;
      if (addr <=? e) && (s <=? addr) then mret (Some (if addr <? e then e else addr))
      else roundb_sects n' (i + 1) info addr
  end.

(** [None]: the address is not in flash, 1 is returned. *)
Fixpoint flash_sect_roundb (banks : list flash_info) (addr : Z) : res (option Z) :=
  match banks with
  | [] => mret None
  | info :: banks =>
      r ← roundb_sects (Z.to_nat (sector_count info)) 0 info addr;
      match r with Some e => mret (Some e) | None => flash_sect_roundb banks addr end
  end.

(** [None] is -1. *)
Definition addr_spec (banks : list flash_info) (arg1 arg2 : list Z) : res (option (Z * Z)) :=
  match whole_number arg1 16 with
  | None => mret None
  | Some addr_first =>
      let len_used := deref arg2 =? ch "+" in
      match whole_number (if len_used then tl arg2 else arg2) 16 with
      | None => mret None
      | Some v =>
          if len_used then
            r ← flash_sect_roundb banks (u32 (addr_first + v - 1));
            mret (option_map (fun l => (addr_first, l)) r)
          else mret (Some (addr_first, v))
      end
  end.

(** The first and last sector of one bank that the range begins and ends with,
    looked for from sector [i] on; [f] and [l] are what was found before. *)
Fixpoint scan_sects (n i : nat) (info : flash_info) (b_end addr_first addr_last f l : Z) : res (Z * Z) :=
  match n with
  | O => mret (f, l)
  | S n' =>
      e ← sector_end info b_end i;
      s ← arr_get (start info) i;
      if (e <? addr_first) || (addr_last <? s) then scan_sects n' (i + 1) info b_end addr_first addr_last f l
      else
        let f := if addr_first =? s then Z.of_nat i else f in
        let l := if addr_last =? e then Z.of_nat i else l in
        scan_sects n' (i + 1) info b_end addr_first addr_last f l
  end.

(** The result, [s_first] and [s_last] of the banks, and [*s_count]. *)
Fixpoint fill_banks (banks : list flash_info) (addr_first addr_last count : Z) : res (Z * list (Z * Z) * Z) :=
  match banks with
  | [] => mret (0, [], count)
  | info :: banks' =>
      let none := repeat (-1, -1) (length banks') in
      if addr_last <? addr_first then mret (0, (-1, -1) :: none, count)
      else if flash_id info =? FLASH_UNKNOWN then
        '(rc, rs, count) ← fill_banks banks' addr_first addr_last count; mret (rc, (-1, -1) :: rs, count)
      else
        b_end ← bank_end info;
        let s_end := s16 (sector_count info - 1) in
        '(f, l) ← scan_sects (Z.to_nat (sector_count info)) 0 info b_end addr_first addr_last (-1) (-1);
        if 0 <=? f then
          if (l <? 0) && negb (b_end <? addr_last) then mret (1, (f, l) :: none, count)
          else
            let l := if l <? 0 then s_end else l in
            if l <? f then mret (1, (f, l) :: none, count)
            else
              next ← (if l =? s_end then mret (u32 (b_end + 1)) else k ← index (l + 1); arr_get (start info) k);
              '(rc, rs, count) ← fill_banks banks' next addr_last (count + (l - f + 1));
              mret (rc, (f, l) :: rs, count)
        else
          s0 ← arr_get (start info) 0;
          if (s0 <=? addr_first) && (addr_first <? b_end) then mret (1, (f, l) :: none, count)
          else if 0 <=? l then mret (1, (f, l) :: none, count)
          else
            '(rc, rs, count) ← fill_banks banks' addr_first addr_last count;
            mret (rc, (f, l) :: rs, count)
  end.

Definition flash_fill_sect_ranges (banks : list flash_info) (addr_first addr_last : Z) : res (Z * list (Z * Z) * Z) :=
  fill_banks banks addr_first addr_last 0.

(** ** Erasing *)

Section Erase.
Context {C : Type} `{HB : !NorBus C}.

Fixpoint erase_banks (banks : list flash_info) (ranges : list (Z * Z)) (h : hw C) : res (Z * hw C) :=
  match banks, ranges with
  | info :: banks, (f, l) :: ranges =>
      if 0 <=? f then
        '(rc, h) ← flash_erase info f l h;
        if rc =? 0 then erase_banks banks ranges h else mret (rc, h)
      else erase_banks banks ranges h
  | _, _ => mret (0, h)
  end.

Definition flash_sect_erase (banks : list flash_info) (addr_first addr_last : Z) (h : hw C) : res (Z * hw C) :=
  '(rc, ranges, planned) ← flash_fill_sect_ranges banks addr_first addr_last;
  if negb (planned =? 0) && (rc =? 0) then erase_banks banks ranges h
  else mret ((if rc =? 0 then 1 else rc), h).

(** "erase all": every bank, the last result. *)
Fixpoint erase_all (banks : list flash_info) (rc : Z) (h : hw C) : res (Z * hw C) :=
  match banks with
  | [] => mret (rc, h)
  | info :: banks =>
      '(rc, h) ← flash_erase info 0 (sector_count info - 1) h; erase_all banks rc h
  end.

Definition do_flerase (banks : list flash_info) (argv : list (list Z)) (h : hw C) : res (Z * hw C) :=
  match argv with
  | _ :: arg1 :: args =>
      if str_eq arg1 (zs "all") then erase_all banks 0 h
      else
        match abbrev_spec banks arg1 with
        | Bad_spec => mret (1, h)
        | Spec b f l => info ← of_option (banks !! b); flash_erase info f l h
        | No_spec =>
            match args with
            | [arg2] =>
                if str_eq arg1 (zs "bank") then
                  let bank := fst (simple_strtoul arg2 16) in
                  if (bank <? 1) || (Z.of_nat (length banks) <? bank) then mret (1, h)
                  else
                    info ← of_option (banks !! Z.to_nat (bank - 1));
                    flash_erase info 0 (sector_count info - 1) h
                else
                  r ← addr_spec banks arg1 arg2;
                  match r with
                  | None => mret (1, h)
                  | Some (a, l) => if l <=? a then mret (1, h) else flash_sect_erase banks a l h
                  end
            | _ => mret (1, h)
            end
        end
  | _ => mret (1, h)
  end.

End Erase.

(** ** Protecting *)

(** [info->protect[i] = p] for the [n] sectors from [i] on. *)
Fixpoint protect_sects (n : nat) (i : Z) (p : Z) (info : flash_info) : res flash_info :=
  match n with
  | O => mret info
  | S n' =>
      k ← index i;
      l ← arr_set (protect info) k p;
      protect_sects n' (i + 1) p (with_protect info l)
  end.

Fixpoint protect_banks (banks : list flash_info) (ranges : list (Z * Z)) (p : Z) : res (list flash_info) :=
  match banks, ranges with
  | info :: banks, (f, l) :: ranges =>
      info ← (if negb (flash_id info =? FLASH_UNKNOWN) && (0 <=? f) && (f <=? l)
              then protect_sects (Z.to_nat (l - f + 1)) f p info else mret info);
      banks ← protect_banks banks ranges p;
      mret (info :: banks)
  | _, _ => mret banks
  end.

Definition flash_sect_protect (p : Z) (addr_first addr_last : Z) (banks : list flash_info)
    : res (Z * list flash_info) :=
  '(rc, ranges, planned) ← flash_fill_sect_ranges banks addr_first addr_last;
  if negb (planned =? 0) && (rc =? 0) then banks ← protect_banks banks ranges p; mret (0, banks)
  else mret ((if rc =? 0 then 1 else rc), banks).

Definition protect_bank (p : Z) (info : flash_info) : res flash_info :=
  protect_sects (Z.to_nat (sector_count info)) 0 p info.

Fixpoint protect_all (p : Z) (banks : list flash_info) : res (list flash_info) :=
  match banks with
  | [] => mret []
  | info :: banks =>
      info ← (if flash_id info =? FLASH_UNKNOWN then mret info else protect_bank p info);
      banks ← protect_all p banks;
      mret (info :: banks)
  end.

Definition do_protect (argv : list (list Z)) (banks : list flash_info) : res (Z * list flash_info) :=
  match argv with
  | _ :: arg1 :: arg2 :: args =>
      if negb (str_eq arg1 (zs "off") || str_eq arg1 (zs "on")) then mret (1, banks)
      else
        let p := if str_eq arg1 (zs "off") then 0 else 1 in
        if str_eq arg2 (zs "all") then banks ← protect_all p banks; mret (0, banks)
        else
          match abbrev_spec banks arg2 with
          | Bad_spec => mret (1, banks)
          | Spec b f l =>
              info ← of_option (banks !! b);
              info ← protect_sects (Z.to_nat (l - f + 1)) f p info;
              mret (0, <[b := info]> banks)
          | No_spec =>
              match args with
              | [arg3] =>
                  if str_eq arg2 (zs "bank") then
                    let bank := fst (simple_strtoul arg3 16) in
                    if (bank <? 1) || (Z.of_nat (length banks) <? bank) then mret (1, banks)
                    else
                      let b := Z.to_nat (bank - 1) in
                      info ← of_option (banks !! b);
                      if flash_id info =? FLASH_UNKNOWN then mret (1, banks)
                      else info ← protect_bank p info; mret (0, <[b := info]> banks)
                  else
                    r ← addr_spec banks arg2 arg3;
                    match r with
                    | None => mret (1, banks)
                    | Some (a, l) => if l <=? a then mret (1, banks) else flash_sect_protect p a l banks
                    end
              | _ => mret (1, banks)
              end
          end
  | _ => mret (1, banks)
  end.

(** ** Ranges of sectors *)

Section Ranges.
Context {C : Type} `{HB : !NorBus C, HC : !NorChip C}.
Implicit Types (h : hw C) (info : flash_info).

(** The number of the sector among [n] that starts (ends) at an address, or -1. *)
Definition start_of (n : nat) (a : Z) : Z :=
  let d := a - chip_base in
  if (0 <=? d) && (d <? Z.of_nat n * 0x1000) && (d mod 0x1000 =? 0) then d / 0x1000 else -1.
Definition end_of (n : nat) (l : Z) : Z := start_of n (l - 0xFFF).

Lemma start_of_spec n a i : (i < n)%nat -> (start_of n a =? Z.of_nat i) = (a =? sect_lo i).
Proof.
  intros Hi. unfold start_of, sect_lo. cbv zeta.
  destruct (Z.eqb_spec a (chip_base + Z.of_nat i * 4096)) as [->|Hne].
  - replace (chip_base + Z.of_nat i * 4096 - chip_base) with (Z.of_nat i * 4096) by lia.
    rewrite Z.mod_mul, Z.div_mul by lia. destruct (Z.leb_spec 0 (Z.of_nat i * 4096)); [|lia].
    destruct (Z.ltb_spec (Z.of_nat i * 4096) (Z.of_nat n * 4096)); [|lia]. by apply Z.eqb_refl.
  - apply Z.eqb_neq. destruct (Z.leb_spec 0 (a - chip_base)); cbn [andb]; [|lia].
    destruct (Z.ltb_spec (a - chip_base) (Z.of_nat n * 4096)); cbn [andb]; [|lia].
    destruct (Z.eqb_spec ((a - chip_base) mod 4096) 0); [|lia]. intros Hd. apply Hne. zmod.
Qed.

Lemma start_of_range n a : start_of n a = -1 \/ exists i, (i < n)%nat /\ start_of n a = Z.of_nat i /\ a = sect_lo i.
Proof.
  destruct (decide (start_of n a = -1)) as [|Hne]; [by left|right].
  assert (H : 0 <= start_of n a < Z.of_nat n).
  { unfold start_of in *. cbv zeta in *. destruct (Z.leb_spec 0 (a - chip_base)); cbn [andb] in *; [|lia].
    destruct (Z.ltb_spec (a - chip_base) (Z.of_nat n * 4096)); cbn [andb] in *; [|lia].
    destruct (Z.eqb_spec ((a - chip_base) mod 4096) 0); [|lia]. zmod. }
  exists (Z.to_nat (start_of n a)). split; [lia|]. split; [lia|].
  apply Z.eqb_eq. rewrite <- (start_of_spec n) by lia. apply Z.eqb_eq. lia.
Qed.

Lemma start_of_lo n i : (i < n)%nat -> start_of n (sect_lo i) = Z.of_nat i.
Proof. intros Hi. apply Z.eqb_eq. rewrite start_of_spec by done. apply Z.eqb_refl. Qed.

Lemma end_of_hi n j : (j < n)%nat -> end_of n (sect_hi j) = Z.of_nat j.
Proof. intros Hj. unfold end_of, sect_hi. replace (sect_lo j + 4095 - 4095) with (sect_lo j) by lia. by apply start_of_lo. Qed.

Lemma bank_end_ok n info : wf_bank n info -> bank_end info = Ok (chip_base + size info - 1).
Proof.
  intros W. unfold bank_end. rewrite (res_bind_ok _ _ _ (wf_start0 n info W)).
  pose proof (wf_size _ _ W). pose proof (wf_n _ _ W). pose proof (wf_base _ _ W). pose proof (wf_top _ _ W).
  by rewrite u32_small by lia.
Qed.

Lemma s_end_ok n info : wf_bank n info -> s16 (sector_count info - 1) = Z.of_nat n - 1.
Proof. intros W. pose proof (wf_n _ _ W). rewrite (wf_count _ _ W). unfold s16, u16. cbv zeta. btest; zmod. Qed.

(** The scan: what is found from sector [i] on overrides what was found before. *)
Lemma scan_sects_ok n info a l : wf_bank n info -> a <= l -> forall k i f0 l0,
  (i + k = n)%nat ->
  scan_sects k i info (chip_base + size info - 1) a l f0 l0 = Ok
    ((if Z.of_nat i <=? start_of n a then start_of n a else f0),
     (if Z.of_nat i <=? end_of n l then end_of n l else l0)).
Proof.
  intros W Hal. induction k as [|k IH]; intros i f0 l0 Hn; cbn [scan_sects].
  - unfold mret, res_ret. do 2 f_equal.
    + destruct (start_of_range n a) as [-> | (j & Hj & -> & _)]; [|destruct (Z.leb_spec (Z.of_nat i) (Z.of_nat j))]; try lia.
      destruct (Z.leb_spec (Z.of_nat i) (-1)); [lia|done].
    + unfold end_of. destruct (start_of_range n (l - 0xFFF)) as [-> | (j & Hj & -> & _)];
        [|destruct (Z.leb_spec (Z.of_nat i) (Z.of_nat j))]; try lia.
      destruct (Z.leb_spec (Z.of_nat i) (-1)); [lia|done].
  - pose proof (wf_n _ _ W).
    rewrite (res_bind_ok _ _ (sect_hi i)) by (apply (wf_sector_end n); [done|lia]).
    rewrite (res_bind_ok _ _ _ (wf_sector_start n info i W ltac:(lia))).
    pose proof (start_of_spec n a i ltac:(lia)) as Hs.
    assert (He : (end_of n l =? Z.of_nat i) = (l =? sect_hi i)).
    { unfold end_of. rewrite start_of_spec by lia. unfold sect_hi. destruct (Z.eqb_spec (l - 4095) (sect_lo i)),
        (Z.eqb_spec l (sect_lo i + 4095)); lia. }
    assert (Hhi : sect_hi i = sect_lo i + 4095) by done.
    replace (Z.of_nat i <=? start_of n a) with ((Z.of_nat (i + 1) <=? start_of n a) || (start_of n a =? Z.of_nat i))
      by (destruct (Z.leb_spec (Z.of_nat (i + 1)) (start_of n a)), (Z.eqb_spec (start_of n a) (Z.of_nat i)),
            (Z.leb_spec (Z.of_nat i) (start_of n a)); try done; lia).
    replace (Z.of_nat i <=? end_of n l) with ((Z.of_nat (i + 1) <=? end_of n l) || (end_of n l =? Z.of_nat i))
      by (destruct (Z.leb_spec (Z.of_nat (i + 1)) (end_of n l)), (Z.eqb_spec (end_of n l) (Z.of_nat i)),
            (Z.leb_spec (Z.of_nat i) (end_of n l)); try done; lia).
    destruct ((sect_hi i <? a) || (l <? sect_lo i)) eqn:Eo.
    + rewrite IH by lia. rewrite Hs, He.
      destruct (Z.eqb_spec a (sect_lo i)), (Z.eqb_spec l (sect_hi i)), (Z.ltb_spec (sect_hi i) a),
        (Z.ltb_spec l (sect_lo i)); try lia; try done; by rewrite !orb_false_r.
    + cbv zeta. rewrite IH by lia. rewrite Hs, He. f_equal. f_equal.
      * destruct (Z.leb_spec (Z.of_nat (i + 1)) (start_of n a)); [done|]. cbn [orb]. rewrite <- Hs.
        by destruct (Z.eqb_spec (start_of n a) (Z.of_nat i)).
      * destruct (Z.leb_spec (Z.of_nat (i + 1)) (end_of n l)); [done|]. cbn [orb]. rewrite <- He.
        by destruct (Z.eqb_spec (end_of n l) (Z.of_nat i)).
Qed.

(** The sectors meant by a range of addresses in the one bank of the board: from
    the sector that starts at [a] to the one that ends at [l]; an [l] behind the
    bank means its last sector. *)
Definition sect_range (n : nat) (a l : Z) : option (Z * Z) :=
  if l <? a then None
  else if start_of n a <? 0 then None
  else if 0 <=? end_of n l then Some (start_of n a, end_of n l)
  else if chip_base + Z.of_nat n * 0x1000 - 1 <? l then Some (start_of n a, Z.of_nat n - 1)
  else None.

Lemma sect_range_le n a l i j : sect_range n a l = Some (i, j) -> 0 <= i <= j /\ j < Z.of_nat n.
Proof.
  unfold sect_range. destruct (Z.ltb_spec l a); [done|].
  destruct (start_of_range n a) as [-> | (i' & Hi & -> & ->)]; [done|].
  destruct (Z.ltb_spec (Z.of_nat i') 0); [done|]. unfold end_of.
  destruct (start_of_range n (l - 0xFFF)) as [-> | (j' & Hj & -> & Ej)].
  - change (0 <=? -1) with false. cbv iota. destruct (_ <? l); [|done]. intros [= <- <-]. lia.
  - destruct (Z.leb_spec 0 (Z.of_nat j')); [|lia]. intros [= <- <-]. unfold sect_lo in *. lia.
Qed.

Lemma fill_one n info a l : wf_bank n info -> exists rc rs c,
  flash_fill_sect_ranges [info] a l = Ok (rc, rs, c) /\
  match sect_range n a l with
  | Some (i, j) => rc = 0 /\ rs = [(i, j)] /\ c = j - i + 1
  | None => negb (c =? 0) && (rc =? 0) = false /\ (rc = 0 \/ rc = 1)
  end.
Proof.
  intros W. unfold flash_fill_sect_ranges, sect_range. cbn [fill_banks length repeat].
  destruct (Z.ltb_spec l a) as [|Hal]; [by eexists _, _, _; split; [|split; [|left]]|].
  destruct (Z.eqb_spec (flash_id info) FLASH_UNKNOWN); [by destruct (wf_known _ _ W)|].
  pose proof (bank_end_ok n info W) as Hb. rewrite (res_bind_ok _ _ _ Hb). cbv zeta. rewrite (s_end_ok n info W).
  rewrite (wf_count _ _ W), Nat2Z.id. pose proof (wf_n _ _ W).
  pose proof (scan_sects_ok n info a l W Hal n 0 (-1) (-1) eq_refl) as Es. rewrite (res_bind_ok _ _ _ Es). cbv beta iota.
  rewrite (wf_size _ _ W) in *. set (b_end := chip_base + Z.of_nat n * 4096 - 1) in *. change (Z.of_nat 0) with 0.
  destruct (start_of_range n a) as [Ea | (i & Hi & Ea & Hlo)]; rewrite Ea.
  - change (0 <=? -1) with false. change (-1 <? 0) with true. cbv iota. rewrite (res_bind_ok _ _ _ (wf_start0 n info W)).
    destruct ((chip_base <=? a) && (a <? b_end)); [by eexists _, _, _; split; [|split; [|right]]|].
    destruct (Z.leb_spec 0 (end_of n l)) as [H0|H0];
      [destruct (Z.leb_spec 0 (end_of n l)); [|lia]; by eexists _, _, _; split; [|split; [|right]]|].
    change (0 <=? -1) with false. cbv iota. by eexists _, _, _; split; [|split; [|left]].
  - destruct (Z.leb_spec 0 (Z.of_nat i)); [|lia]. destruct (Z.leb_spec 0 (Z.of_nat i)); [|lia].
    destruct (Z.ltb_spec (Z.of_nat i) 0); [lia|].
    assert (Hgo : forall L, Z.of_nat i <= L < Z.of_nat n -> exists rc rs c,
      (if L <? Z.of_nat i then mret (1, [(Z.of_nat i, L)], 0)
       else
         next ← (if L =? Z.of_nat n - 1 then mret (u32 (b_end + 1)) else k ← index (L + 1); arr_get (start info) k);
         '(rc, rs, count) ← fill_banks [] next l (0 + (L - Z.of_nat i + 1));
         mret (rc, (Z.of_nat i, L) :: rs, count)) = Ok (rc, rs, c) /\
      rc = 0 /\ rs = [(Z.of_nat i, L)] /\ c = L - Z.of_nat i + 1).
    { intros L HL. destruct (Z.ltb_spec L (Z.of_nat i)); [lia|]. destruct (Z.eqb_spec L (Z.of_nat n - 1)).
      - eexists _, _, _. split; [reflexivity|]. split_and!; try done; lia.
      - unfold index. destruct (Z.ltb_spec (L + 1) 0); [lia|].
        rewrite (res_bind_ok _ _ (sect_lo (Z.to_nat (L + 1)))).
        + eexists _, _, _. split; [reflexivity|]. split_and!; try done; lia.
        + rewrite (res_bind_ok _ _ (Z.to_nat (L + 1)) eq_refl). apply (wf_sector_start n); [done|lia]. }
    unfold end_of in *. destruct (start_of_range n (l - 0xFFF)) as [El | (j & Hj & El & Hhi)]; rewrite El.
    + change (0 <=? -1) with false. change (-1 <? 0) with true. cbv iota. cbn [andb].
      destruct (b_end <? l); cbn [negb]; [apply Hgo; lia|by eexists _, _, _; split; [|split; [|right]]].
    + destruct (Z.leb_spec 0 (Z.of_nat j)); [|lia]. destruct (Z.leb_spec 0 (Z.of_nat j)); [|lia].
      destruct (Z.ltb_spec (Z.of_nat j) 0); [lia|]. cbn [andb]. apply Hgo. unfold sect_lo in *. lia.
Qed.

(** ** Erasing and protecting a range *)

(** Erasing by addresses erases the unprotected sectors of the range; a range that
    does not fit the sectors is refused with 1 and nothing happens. *)
Lemma flash_sect_erase_ok n info a l h : wf_bank n info -> idle (chip h) ->
  match sect_range n a l with
  | Some (i, j) =>
      exists c', flash_sect_erase [info] a l h = Ok (0, HW c' false) /\ idle c' /\
        forall x, word c' x =
          if (i <=? sector_index x) && (sector_index x <=? j) && negb (is_protected info (Z.to_nat (sector_index x)))
          then 0xFFFF else word (chip h) x
  | None => flash_sect_erase [info] a l h = Ok (1, h)
  end.
Proof.
  intros W Hc. unfold flash_sect_erase. destruct (fill_one n info a l W) as (rc & rs & c & E & H).
  rewrite (res_bind_ok _ _ _ E). cbv beta iota. destruct (sect_range n a l) as [[i j]|] eqn:Er.
  - destruct H as (-> & -> & ->). destruct (sect_range_le n a l i j Er) as [Hi Hj].
    destruct (Z.eqb_spec (j - i + 1) 0); [lia|]. change (0 =? 0) with true. cbn [andb negb erase_banks].
    destruct (Z.leb_spec 0 i); [|lia]. destruct (flash_erase_ok n info i j h W Hc Hi Hj) as (c' & E' & Hc' & Hw).
    exists c'. rewrite (res_bind_ok _ _ _ E'). by split.
  - destruct H as [-> [-> | ->]]; done.
Qed.

Lemma protect_sects_ok p : forall k i info, 0 <= i -> i + Z.of_nat k <= Z.of_nat (length (protect info)) ->
  exists q, protect_sects k i p info = Ok (with_protect info q) /\ length q = length (protect info) /\
    forall j, q !! j = if (i <=? Z.of_nat j) && (Z.of_nat j <? i + Z.of_nat k) then Some p else protect info !! j.
Proof.
  induction k as [|k IH]; intros i info Hi Hl.
  - exists (protect info). split; [by destruct info|]. split; [done|]. intros j.
    destruct (Z.leb_spec i (Z.of_nat j)), (Z.ltb_spec (Z.of_nat j) (i + Z.of_nat 0)); try done; lia.
  - cbn [protect_sects]. unfold index. destruct (Z.ltb_spec i 0); [lia|].
    rewrite (res_bind_ok _ _ (Z.to_nat i) eq_refl).
    rewrite (res_bind_ok _ _ _ (arr_set_ok (protect info) (Z.to_nat i) p ltac:(lia))).
    destruct (IH (i + 1) (with_protect info (<[Z.to_nat i := p]> (protect info)))) as (q & E & Hq & Hj); [lia| |].
    { cbn [with_protect protect]. rewrite length_insert. lia. }
    cbn [with_protect protect] in *. rewrite length_insert in Hq. exists q. split; [exact E|]. split; [done|].
    intros j. rewrite Hj. destruct (decide (j = Z.to_nat i)) as [->|Hne].
    + rewrite list_lookup_insert_eq by lia. rewrite Z2Nat.id by lia.
      destruct (Z.leb_spec (i + 1) i), (Z.leb_spec i i), (Z.ltb_spec i (i + Z.of_nat (S k))); try lia; done.
    + rewrite list_lookup_insert_ne by done.
      destruct (Z.leb_spec (i + 1) (Z.of_nat j)), (Z.leb_spec i (Z.of_nat j)),
        (Z.ltb_spec (Z.of_nat j) (i + 1 + Z.of_nat k)), (Z.ltb_spec (Z.of_nat j) (i + Z.of_nat (S k))); try lia; done.
Qed.

(** Protecting (or releasing) by addresses sets the flag of exactly the sectors of
    the range, which must fit the sectors. *)
Lemma flash_sect_protect_ok n info p a l : wf_bank n info ->
  match sect_range n a l with
  | Some (i, j) =>
      exists q, flash_sect_protect p a l [info] = Ok (0, [with_protect info q]) /\ length q = length (protect info) /\
        forall k, q !! k = if (i <=? Z.of_nat k) && (Z.of_nat k <=? j) then Some p else protect info !! k
  | None => flash_sect_protect p a l [info] = Ok (1, [info])
  end.
Proof.
  intros W. unfold flash_sect_protect. destruct (fill_one n info a l W) as (rc & rs & c & E & H).
  rewrite (res_bind_ok _ _ _ E). cbv beta iota. destruct (sect_range n a l) as [[i j]|] eqn:Er.
  - destruct H as (-> & -> & ->). destruct (sect_range_le n a l i j Er) as [Hi Hj].
    destruct (Z.eqb_spec (j - i + 1) 0); [lia|]. change (0 =? 0) with true. cbn [andb negb protect_banks].
    destruct (Z.eqb_spec (flash_id info) FLASH_UNKNOWN); [by destruct (wf_known _ _ W)|].
    destruct (Z.leb_spec 0 i), (Z.leb_spec i j); try lia. cbn [negb andb]. pose proof (wf_protect _ _ W).
    destruct (protect_sects_ok p (Z.to_nat (j - i + 1)) i info) as (q & E' & Hq & Hl); [lia..|].
    exists q. split; [by rewrite (res_bind_ok (_ ≫= _) _ [with_protect info q]); [|rewrite (res_bind_ok _ _ _ E')]|].
    split; [done|]. intros k. rewrite Hl. replace (Z.of_nat k <? i + Z.of_nat (Z.to_nat (j - i + 1))) with (Z.of_nat k <=? j);
      [done|]. destruct (Z.leb_spec (Z.of_nat k) j), (Z.ltb_spec (Z.of_nat k) (i + Z.of_nat (Z.to_nat (j - i + 1)))); lia.
  - destruct H as [-> [-> | ->]]; done.
Qed.

(** ** The commands *)

Lemma str_eq_ne a b : cstring a -> cstring b -> a <> b -> str_eq a b = false.
Proof. intros Ha Hb Hne. unfold str_eq. apply Z.eqb_neq. intros E. by apply strcmp_spec_zero in E. Qed.

Lemma split_at_none c s : Forall (fun x => x <> c) s -> split_at c s = None.
Proof.
  induction 1 as [|x s Hx _ IH]; [done|]. cbn [split_at]. destruct (Z.eqb_spec x c); [done|]. by rewrite IH.
Qed.

Lemma whole_number_digits base ds : 2 <= base <= 16 -> ds <> [] -> Forall (digit_of base) ds ->
  whole_number ds base = Some (u32 (digits_value base ds 0)).
Proof.
  intros Hb Hne Hd. unfold whole_number. pose proof (strtoul_digits base ds [] Hb Hne Hd I (List.Forall_nil _)) as E.
  rewrite app_nil_r in E. rewrite E. by destruct ds.
Qed.

Lemma hex_not (c x : Z) : digit_of 16 c -> isxdigit x = false -> c <> x.
Proof. intros (_ & H & _) Hx ->. congruence. Qed.

Lemma hex_no_word ds w : Forall (digit_of 16) ds -> cstring w -> Exists (fun x => isxdigit x = false) w ->
  str_eq ds w = false.
Proof.
  intros Hd Hw He. apply str_eq_ne; [|done|].
  - eapply Forall_impl; [exact Hd|]. intros c (Hb & Hx & _). unfold byte, nonzero_byte in *.
    destruct (decide (c = 0)) as [->|]; [by vm_compute in Hx|lia].
  - intros ->. apply Exists_exists in He as (x & Hx & Hn). rewrite Forall_forall in Hd.
    destruct (Hd x Hx) as (_ & H & _). congruence.
Qed.

Lemma in_bank_sector n info x : wf_bank n info -> in_bank info x = true ->
  exists i, (i < n)%nat /\ sector_index x = Z.of_nat i /\ sect_lo i <= x <= sect_hi i.
Proof.
  intros W H. unfold in_bank in H. rewrite (wf_size _ _ W) in H. apply andb_true_iff in H as [H1 H2].
  apply Z.leb_le in H1. apply Z.ltb_lt in H2. exists (Z.to_nat (sector_index x)). unfold sect_hi, sect_lo, sector_index in *.
  assert (0 <= (x - chip_base) / 4096 < Z.of_nat n) by zmod. rewrite Z2Nat.id by lia. split; [lia|]. split; [done|]. zmod.
Qed.

Lemma roundb_sects_ok n info x : wf_bank n info -> in_bank info x = true -> forall k i, (i + k = n)%nat ->
  Z.of_nat i <= sector_index x -> roundb_sects k i info x = Ok (Some (sect_hi (Z.to_nat (sector_index x)))).
Proof.
  intros W Hin. destruct (in_bank_sector n info x W Hin) as (j & Hj & Es & Hx). rewrite Es, Nat2Z.id.
  pose proof (wf_top _ _ W). pose proof (wf_base _ _ W). pose proof (wf_size _ _ W).
  induction k as [|k IH]; intros i Hn Hi; [lia|]. cbn [roundb_sects].
  rewrite (res_bind_ok _ _ (sect_hi i)).
  - rewrite (res_bind_ok _ _ _ (wf_sector_start n info i W ltac:(lia))). unfold sect_hi, sect_lo in *.
    destruct (decide (i = j)) as [->|].
    + destruct (Z.leb_spec x (chip_base + Z.of_nat j * 4096 + 4095)); [|lia].
      destruct (Z.leb_spec (chip_base + Z.of_nat j * 4096) x); [|lia]. cbn [andb].
      destruct (Z.ltb_spec x (chip_base + Z.of_nat j * 4096 + 4095)); unfold mret, res_ret; do 2 f_equal; lia.
    + destruct (Z.leb_spec x (chip_base + Z.of_nat i * 4096 + 4095)); [lia|]. cbn [andb]. apply IH; lia.
  - rewrite (wf_count _ _ W). destruct (Z.eqb_spec (Z.of_nat i) (Z.of_nat n - 1)).
    + rewrite (res_bind_ok _ _ _ (wf_start0 n info W)). unfold mret, res_ret. f_equal. unfold sect_hi, sect_lo.
      rewrite u32_small; lia.
    + rewrite (res_bind_ok _ _ _ (wf_sector_start n info (i + 1) W ltac:(lia))). unfold mret, res_ret. f_equal.
      unfold sect_hi, sect_lo. rewrite u32_small; lia.
Qed.

Lemma roundb_sects_out n info x : wf_bank n info -> in_bank info x = false -> forall k i, (i + k = n)%nat ->
  roundb_sects k i info x = Ok None.
Proof.
  intros W Hout. pose proof (wf_top _ _ W). pose proof (wf_base _ _ W). pose proof (wf_size _ _ W) as Hsz.
  unfold in_bank in Hout. rewrite Hsz in Hout.
  induction k as [|k IH]; intros i Hn; [done|]. cbn [roundb_sects]. rewrite (res_bind_ok _ _ (sect_hi i)).
  - rewrite (res_bind_ok _ _ _ (wf_sector_start n info i W ltac:(lia))). unfold sect_hi, sect_lo in *.
    destruct (Z.leb_spec x (chip_base + Z.of_nat i * 4096 + 4095)), (Z.leb_spec (chip_base + Z.of_nat i * 4096) x);
      cbn [andb]; try (apply IH; lia).
    destruct (Z.leb_spec chip_base x), (Z.ltb_spec x (chip_base + Z.of_nat n * 4096)); try done; lia.
  - rewrite (wf_count _ _ W). destruct (Z.eqb_spec (Z.of_nat i) (Z.of_nat n - 1)).
    + rewrite (res_bind_ok _ _ _ (wf_start0 n info W)). unfold mret, res_ret. f_equal. unfold sect_hi, sect_lo.
      rewrite u32_small; lia.
    + rewrite (res_bind_ok _ _ _ (wf_sector_start n info (i + 1) W ltac:(lia))). unfold mret, res_ret. f_equal.
      unfold sect_hi, sect_lo. rewrite u32_small; lia.
Qed.

Lemma flash_sect_roundb_ok n info x : wf_bank n info ->
  flash_sect_roundb [info] x = Ok (if in_bank info x then Some (sect_hi (Z.to_nat (sector_index x))) else None).
Proof.
  intros W. cbn [flash_sect_roundb]. rewrite (wf_count _ _ W), Nat2Z.id. destruct (in_bank info x) eqn:E.
  - rewrite (res_bind_ok _ _ (Some (sect_hi (Z.to_nat (sector_index x))))); [done|].
    apply (roundb_sects_ok n); [done..|]. destruct (in_bank_sector n info x W E) as (j & _ & -> & _). lia.
  - by rewrite (res_bind_ok _ _ None) by (by apply (roundb_sects_out n)).
Qed.

(** The last address of "start end" and of "start +length", which is rounded up to
    the end of its sector and must lie in the flash. *)
Definition range_end info (plus : bool) (a v : Z) : option Z :=
  if plus then
    let x := u32 (a + v - 1) in if in_bank info x then Some (sect_hi (Z.to_nat (sector_index x))) else None
  else Some v.

Lemma addr_spec_ok n info (plus : bool) (da dv : list Z) : wf_bank n info ->
  da <> [] -> dv <> [] -> Forall (digit_of 16) da -> Forall (digit_of 16) dv ->
  let a := u32 (digits_value 16 da 0) in let v := u32 (digits_value 16 dv 0) in
  addr_spec [info] da (if plus then ch "+" :: dv else dv) = Ok (option_map (fun l => (a, l)) (range_end info plus a v)).
Proof.
  intros W Hna Hnv Hda Hdv a v. unfold addr_spec. rewrite whole_number_digits by (done || lia). fold a.
  assert (Hp : (deref (if plus then ch "+" :: dv else dv) =? ch "+") = plus).
  { destruct plus; [done|]. destruct dv as [|c dv]; [done|]. apply Forall_cons in Hdv as [Hc _]. apply Z.eqb_neq.
    by apply (hex_not _ _ Hc). }
  rewrite Hp. replace (if plus then tl (if plus then ch "+" :: dv else dv) else if plus then ch "+" :: dv else dv) with dv
    by (by destruct plus). rewrite whole_number_digits by (done || lia). fold v. unfold range_end. destruct plus; [|done].
  rewrite (res_bind_ok _ _ _ (flash_sect_roundb_ok n info _ W)). by destruct (in_bank info _).
Qed.

(** "erase start end" and "erase start +length", the numbers in hexadecimal: the
    unprotected sectors of the range are erased when it starts and ends with
    sectors; otherwise 1 is returned and nothing happens. *)
Theorem do_flerase_correct n info (plus : bool) (cmd da dv : list Z) h : wf_bank n info -> idle (chip h) ->
  da <> [] -> dv <> [] -> Forall (digit_of 16) da -> Forall (digit_of 16) dv ->
  let a := u32 (digits_value 16 da 0) in let v := u32 (digits_value 16 dv 0) in
  let run := do_flerase [info] [cmd; da; (if plus then ch "+" :: dv else dv)] h in
  match l ← range_end info plus a v; if l <=? a then None else sect_range n a l with
  | Some (i, j) =>
      exists c', run = Ok (0, HW c' false) /\ idle c' /\
        forall x, word c' x =
          if (i <=? sector_index x) && (sector_index x <=? j) && negb (is_protected info (Z.to_nat (sector_index x)))
          then 0xFFFF else word (chip h) x
  | None => run = Ok (1, h)
  end.
Proof.
  intros W Hc Hna Hnv Hda Hdv a v run.
  assert (E : run = match range_end info plus a v with
                    | None => Ok (1, h)
                    | Some l => if l <=? a then Ok (1, h) else flash_sect_erase [info] a l h
                    end).
  { unfold run, do_flerase. unfold abbrev_spec.
    rewrite hex_no_word; [|done|by vm_compute; repeat constructor|by right; left].
    rewrite split_at_none by (eapply Forall_impl; [exact Hda|]; intros x Hx; by apply (hex_not x _ Hx)).
    rewrite hex_no_word; [|done|by vm_compute; repeat constructor|by right; right; left].
    rewrite (res_bind_ok _ _ _ (addr_spec_ok n info plus da dv W Hna Hnv Hda Hdv)). fold a v.
    by destruct (range_end info plus a v) as [l|]. }
  rewrite E. destruct (range_end info plus a v) as [l|]; [|done]. cbn [mbind option_bind]. destruct (l <=? a); [done|].
  by apply flash_sect_erase_ok.
Qed.

(** ** Saving the environment through the driver

    The environment takes the whole sector [i] (CONFIG_ENV_SIZE is
    CONFIG_ENV_SECT_SIZE).  [board_*] are the calls of common/env_flash.c; a fault
    would be the result -1. *)

Definition board : Type := flash_info * hw C.

Definition sector_bytes (i : nat) (f : board) : list Z :=
  flat_map (fun k => let w := word (chip (snd f)) (sect_lo i + 2 * Z.of_nat k) in [Z.land w 255; Z.shiftr w 8])
    (seq 0 2048).

Definition board_protect (i : nat) (b : bool) (f : board) : Z * board :=
  match flash_sect_protect (if b then 1 else 0) (sect_lo i) (sect_hi i) [fst f] with
  | Ok (r, [info]) => (r, (info, snd f))
  | _ => (-1, f)
  end.

Definition board_erase (i : nat) (f : board) : Z * board :=
  match flash_sect_erase [fst f] (sect_lo i) (sect_hi i) (snd f) with
  | Ok (r, h) => (r, (fst f, h))
  | _ => (-1, f)
  end.

Definition board_write (i : nat) (l : list Z) (f : board) : Z * board :=
  match Flash.flash_write [fst f] l (sect_lo i) (Z.of_nat (length l)) (snd f) with
  | Ok (r, h) => (r, (fst f, h))
  | _ => (-1, f)
  end.

Lemma half_SS k : (S (S k) / 2 = S (k / 2))%nat.
Proof. replace (S (S k)) with (1 * 2 + k)%nat by lia. rewrite Nat.div_add_l by lia. lia. Qed.

Lemma words_of_length src : length (words_of src) = (length src / 2)%nat.
Proof.
  remember (length src) as m eqn:Em. revert src Em. induction m as [m IH] using lt_wf_ind. intros src ->.
  destruct src as [|a [|b src]]; [done|done|]. cbn [words_of length].
  rewrite (IH (length src) ltac:(simpl; lia) src eq_refl).
  by rewrite half_SS.
Qed.

Lemma words_of_range src : Forall byte src -> Forall (fun d => 0 <= d < 65536) (words_of src).
Proof.
  remember (length src) as m eqn:Em. revert src Em. induction m as [m IH] using lt_wf_ind. intros src -> Hb.
  destruct src as [|a [|b src]]; [constructor|constructor|]. cbn [words_of].
  apply Forall_cons in Hb as [Ha Hb]. apply Forall_cons in Hb as [Hb Hs]. unfold byte in *. constructor.
  - rewrite Z.lor_comm, lor_shiftl_add by (simpl; lia). simpl. lia.
  - apply (IH (length src)); [simpl; lia|done|done].
Qed.

Lemma env_word_bytes a b : byte a -> byte b -> let w := Z.lor a (Z.shiftl b 8) in [Z.land w 255; Z.shiftr w 8] = [a; b].
Proof.
  unfold byte. intros Ha Hb. cbv zeta. rewrite Z.lor_comm, lor_shiftl_add by (simpl; lia).
  change 255 with (Z.ones 8). rewrite Z.land_ones, Z.shiftr_div_pow2 by lia. change (2 ^ 8) with 256. f_equal; [zmod|].
  f_equal. zmod.
Qed.

(** Reading back what was written. *)
Lemma written_bytes (m : Z -> Z) src : forall a, Forall byte src -> Nat.even (length src) = true ->
  flat_map (fun k => let w := written m a (words_of src) (a + 2 * Z.of_nat k) in [Z.land w 255; Z.shiftr w 8])
    (seq 0 (length src / 2)) = src.
Proof.
  remember (length src) as n eqn:En. revert src En. induction n as [n IH] using lt_wf_ind. intros src -> a Hb He.
  destruct src as [|x [|y src]]; [done|done|]. apply Forall_cons in Hb as [Hx Hb]. apply Forall_cons in Hb as [Hy Hs].
  cbn [words_of length]. rewrite half_SS. cbn [seq flat_map]. cbv zeta. change (2 * Z.of_nat 0) with 0. rewrite Z.add_0_r. cbn [written]. rewrite Z.eqb_refl.
  pose proof (env_word_bytes x y Hx Hy) as Hw. cbv zeta in Hw. rewrite Hw. cbn [app]. do 2 f_equal.
  rewrite <- seq_shift, flat_map_concat_map, map_map, <- flat_map_concat_map.
  transitivity (flat_map (fun k => let w := written m (a + 2) (words_of src) (a + 2 + 2 * Z.of_nat k) in [Z.land w 255; Z.shiftr w 8])
    (seq 0 (length src / 2))).
  - apply flat_map_ext. intros k. cbv zeta. destruct (Z.eqb_spec (a + 2 * Z.of_nat (S k)) a); [lia|].
    by replace (a + 2 * Z.of_nat (S k)) with (a + 2 + 2 * Z.of_nat k) by lia.
  - apply (IH (length src)); [simpl; lia|done|done|done].
Qed.

Lemma written_after (m : Z -> Z) : forall ws a x, a + 2 * Z.of_nat (length ws) <= x -> written m a ws x = m x.
Proof.
  induction ws as [|d ws IH]; intros a x H; [done|]. cbn [written length] in *. destruct (Z.eqb_spec x a); [lia|].
  apply IH. lia.
Qed.

Lemma sect_range_one n i : (i < n)%nat -> sect_range n (sect_lo i) (sect_hi i) = Some (Z.of_nat i, Z.of_nat i).
Proof.
  intros Hi. unfold sect_range. rewrite (start_of_lo n i Hi), (end_of_hi n i Hi). unfold sect_hi.
  destruct (Z.ltb_spec (sect_lo i + 4095) (sect_lo i)); [lia|]. destruct (Z.ltb_spec (Z.of_nat i) 0); [lia|].
  by destruct (Z.leb_spec 0 (Z.of_nat i)); [|lia].
Qed.

Lemma bank_wf_with_protect n info q : wf_bank n info -> length q = length (protect info) -> wf_bank n (with_protect info q).
Proof. intros W Hq. destruct W. split; try done. cbn [with_protect protect]. lia. Qed.

Lemma board_protect_ok n i b info h : wf_bank n info -> (i < n)%nat ->
  exists q, board_protect i b (info, h) = (0, (with_protect info q, h)) /\ length q = length (protect info) /\
    forall k, q !! k = if decide (k = i) then Some (b2z b) else protect info !! k.
Proof.
  intros W Hi. pose proof (flash_sect_protect_ok n info (b2z b) (sect_lo i) (sect_hi i) W) as H.
  rewrite (sect_range_one n i Hi) in H. destruct H as (q & E & Hq & Hk). exists q. split; [|split; [done|]].
  - unfold board_protect. cbn [fst snd]. change (if b then 1 else 0) with (b2z b). by rewrite E.
  - intros k. rewrite Hk. case_decide as Hd.
    + subst. by rewrite Z.leb_refl.
    + destruct (Z.leb_spec (Z.of_nat i) (Z.of_nat k)), (Z.leb_spec (Z.of_nat k) (Z.of_nat i)); try done; lia.
Qed.

(** Writing a whole sector of bytes into an erased, unprotected one. *)
Lemma board_write_ok n i l info h : wf_bank n info -> (i < n)%nat -> idle (chip h) ->
  is_protected info i = false -> length l = 4096%nat -> Forall byte l ->
  (forall x, sect_lo i <= x < sect_lo i + 4096 -> word (chip h) x = 0xFFFF) ->
  exists c', board_write i l (info, h) = (0, (info, HW c' (irq h))) /\ idle c' /\
    forall x, word c' x = written (word (chip h)) (sect_lo i) (words_of l) x.
Proof.
  intros W Hi Hc Hp Hl Hb He. pose proof (wf_top _ _ W). pose proof (wf_base _ _ W). pose proof (wf_size _ _ W) as Hsz.
  assert (Hlw : length (words_of l) = 2048%nat) by (rewrite words_of_length, Hl; done).
  assert (Hk : writable (word (chip h)) (sect_lo i) (words_of l) = 2048%nat).
  { rewrite writable_erased; [done|by apply words_of_range|]. rewrite Hlw. intros x Hx. apply He. lia. }
  pose proof (flash_write_programs n info l [] (sect_lo i) h W Hc) as Hw. cbv zeta in Hw.
  rewrite app_nil_r, Hl, Hk, Hlw in Hw. change (Z.of_nat 4096) with 4096 in Hw. change (2048 =? 2048)%nat with true in Hw.
  rewrite take_ge in Hw by lia. unfold board_write. cbn [fst snd]. rewrite Hl. change (Z.of_nat 4096) with 4096.
  unfold sect_lo in *. destruct Hw as (c' & E & Hc' & Hw); try done; [by destruct l|lia|lia| | | |].
  - unfold in_bank. rewrite Hsz. destruct (Z.leb_spec chip_base (chip_base + Z.of_nat i * 4096)); [|lia].
    destruct (Z.ltb_spec (chip_base + Z.of_nat i * 4096) (chip_base + Z.of_nat n * 4096)); [done|lia].
  - unfold in_bank. rewrite Hsz. destruct (Z.leb_spec chip_base (chip_base + Z.of_nat i * 4096 + 4096 - 1)); [|lia].
    destruct (Z.ltb_spec (chip_base + Z.of_nat i * 4096 + 4096 - 1) (chip_base + Z.of_nat n * 4096)); [done|lia].
  - apply not_true_iff_false. intros Hx. apply existsb_exists in Hx as (j & _ & Hj). apply andb_true_iff in Hj as [Ht Hj].
    assert (j = i) as ->; [|congruence]. unfold touches, sect_hi, sect_lo in Ht. apply andb_true_iff in Ht as [H1 H2].
    apply Z.leb_le in H1, H2. lia.
  - exists c'. by rewrite E.
Qed.

(** C3: [saveenv] on the board: it succeeds, writes only the environment's sector and
    leaves it protected (and interrupts disabled); after a reset the same
    environment is loaded. *)
Theorem board_saveenv_reload n i info h (e e0 : env_state) l :
  wf_bank n info -> (i < n)%nat -> idle (chip h) ->
  env_repr e l -> Forall byte (env_data e) -> crc e = crc32 0 (env_ptr e + 4) (env_data e) ->
  0 <= crc e < 4294967296 -> length (env_bytes e) = 4096%nat -> length (env_data e0) = length (env_data e) ->
  exists info' c',
    saveenv_single (sector_bytes i) (board_protect i) (board_erase i) (board_write i) 0 e (info, h) =
      (0, (info', HW c' false)) /\
    wf_bank n info' /\ idle c' /\
    (forall k, protect info' !! k = if decide (k = i) then Some 1 else protect info !! k) /\
    (forall x, sector_index x <> Z.of_nat i -> word c' x = word (chip h) x) /\
    let e1 := env_init_single (sector_bytes i) 0 e0 (info', HW c' false) in
    let e2 := env_relocate_single (sector_bytes i) 0 e1 (info', HW c' false) in
    env_valid e1 = 1 /\ env_data e2 = env_data e /\ crc e2 = crc e /\ env_repr e2 l.
Proof.
  intros W Hi Hc Hr Hb Hcrc Hcr Hlen Hl0.
  assert (Hsec : forall f, length (sector_bytes i f) = 4096%nat).
  { intros f. unfold sector_bytes. rewrite flat_map_concat_map, length_concat, map_map. cbn [length].
    by vm_compute. }
  assert (Heb : Forall byte (env_bytes e)) by (apply Forall_app_2; [apply le32_bytes_byte|done]).
  destruct (board_protect_ok n i false info h W Hi) as (q1 & E1 & Hq1 & Hk1).
  pose proof (bank_wf_with_protect n info q1 W Hq1) as W1.
  pose proof (flash_sect_erase_ok n (with_protect info q1) (sect_lo i) (sect_hi i) h W1 Hc) as H2.
  rewrite (sect_range_one n i Hi) in H2. destruct H2 as (c2 & E2 & Hc2 & Hw2).
  assert (Hun : is_protected (with_protect info q1) i = false).
  { unfold is_protected. cbn [with_protect protect]. by rewrite Hk1, decide_True. }
  assert (He2 : forall x, word c2 x = if sector_index x =? Z.of_nat i then 0xFFFF else word (chip h) x).
  { intros x. rewrite Hw2. destruct (Z.eqb_spec (sector_index x) (Z.of_nat i)) as [->|Hne].
    - by rewrite Z.leb_refl, Nat2Z.id, Hun.
    - destruct (Z.leb_spec (Z.of_nat i) (sector_index x)), (Z.leb_spec (sector_index x) (Z.of_nat i)); try done; lia. }
  assert (Hidx : forall x, (sector_index x =? Z.of_nat i) = (sect_lo i <=? x) && (x <? sect_lo i + 4096)).
  { intros x. unfold sector_index, sect_lo. destruct (Z.eqb_spec ((x - chip_base) / 4096) (Z.of_nat i)),
      (Z.leb_spec (chip_base + Z.of_nat i * 4096) x), (Z.ltb_spec x (chip_base + Z.of_nat i * 4096 + 4096)); try done; zmod. }
  destruct (board_write_ok n i (env_bytes e) (with_protect info q1) (HW c2 false) W1 Hi Hc2 Hun Hlen Heb) as (c3 & E3 & Hc3 & Hw3).
  { intros x Hx. cbn [chip]. rewrite He2, Hidx. destruct (Z.leb_spec (sect_lo i) x), (Z.ltb_spec x (sect_lo i + 4096)); try lia. done. }
  cbn [irq chip] in E3, Hw3.
  destruct (board_protect_ok n i true (with_protect info q1) (HW c3 false) W1 Hi) as (q4 & E4 & Hq4 & Hk4).
  assert (Hsb : save_buffer (sector_bytes i) 0 e (info, h) = env_bytes e).
  { unfold save_buffer. rewrite drop_ge by (rewrite Hsec, Hlen; lia). by rewrite take_0, app_nil_r. }
  assert (Hs : sector_bytes i (with_protect (with_protect info q1) q4, HW c3 false) = env_bytes e).
  { unfold sector_bytes. cbn [snd chip]. rewrite <- (written_bytes (word c2) (env_bytes e) (sect_lo i) Heb) by (by rewrite Hlen).
    rewrite Hlen. change (4096 / 2)%nat with 2048%nat. apply flat_map_ext. intros k. by rewrite Hw3. }
  exists (with_protect (with_protect info q1) q4), c3. split_and!.
  - unfold saveenv_single. rewrite E1. change (negb (0 =? 0)) with false. cbv iota beta.
    unfold board_erase at 1. cbn [fst snd]. rewrite E2. change (negb (0 =? 0)) with false. cbv iota beta zeta.
    change (take 0 (sector_bytes i (info, h)) ++ env_bytes e ++ drop (0 + length (env_bytes e)) (sector_bytes i (info, h)))
      with (save_buffer (sector_bytes i) 0 e (info, h)). rewrite Hsb, E3. cbv iota beta. by rewrite E4.
  - by apply bank_wf_with_protect.
  - done.
  - intros k. cbn [with_protect protect] in *. rewrite Hk4. case_decide; [done|]. by rewrite Hk1, decide_False.
  - intros x Hx. apply Z.eqb_neq in Hx. rewrite Hw3. rewrite Hidx in Hx.
    assert (Hlw : length (words_of (env_bytes e)) = 2048%nat) by (rewrite words_of_length, Hlen; done).
    transitivity (word c2 x); [|by rewrite He2, Hidx, Hx].
    destruct (Z.leb_spec (sect_lo i) x); [|by apply written_before]. cbn [andb] in Hx. apply Z.ltb_ge in Hx.
    apply written_after. rewrite Hlw. lia.
  - apply (reload_saved (sector_bytes i) 0 e e0 (info, h)); try done; [rewrite Hsec, Hlen; lia|]. by rewrite Hs, Hsb.
Qed.

End Ranges.

(** ** Examples *)

(** Erasing both sectors of the bank by address: the protected one stays. *)
Lemma do_flerase_correct_witness :
  wf_bank 2 bench_bank /\ idle (chip bench_hw) /\
  exists c', do_flerase [bench_bank] [zs "erase"; zs "64000000"; zs "+1001"] bench_hw = Ok (0, HW c' false) /\
    word c' (sim_base + 0x1000) = 7.
Proof.
  split; [exact bench_bank_wf|]. split; [by split|].
  pose proof (do_flerase_correct 2 bench_bank true (zs "erase") (zs "64000000") (zs "1001") bench_hw bench_bank_wf
    (conj eq_refl eq_refl) ltac:(discriminate) ltac:(discriminate)
    ltac:(unfold digit_of, byte; apply (bool_decide_unpack _); vm_compute; exact I)
    ltac:(unfold digit_of, byte; apply (bool_decide_unpack _); vm_compute; exact I)) as H.
  destruct H as (c' & E & _ & Hw). exists c'. split; [exact E|]. rewrite Hw. vm_compute. reflexivity.
Defined.

Definition board_env : env_state := make_env 4092 two_vars.

Lemma board_env_repr : env_repr board_env two_vars.
Proof.
  split; [by vm_compute|]. split; [|split].
  - unfold two_vars, good_entry, good_name. apply (bool_decide_unpack _). vm_compute. exact I.
  - apply (bool_decide_unpack _). vm_compute. exact I.
  - eexists (replicate _ 0). reflexivity.
Defined.

Lemma board_saveenv_reload_witness :
  env_repr board_env two_vars /\
  exists info' c', saveenv_single (sector_bytes 1) (board_protect 1) (board_erase 1) (board_write 1) 0 board_env
      (bench_bank, bench_hw) = (0, (info', HW c' false)) /\
    env_valid (env_init_single (sector_bytes 1) 0 board_env (info', HW c' false)) = 1.
Proof.
  split; [exact board_env_repr|].
  destruct (board_saveenv_reload 2 1 bench_bank bench_hw board_env board_env two_vars bench_bank_wf ltac:(lia)
    (conj eq_refl eq_refl) board_env_repr
    ltac:(unfold byte; apply (bool_decide_unpack _); vm_compute; exact I)
    ltac:(vm_compute; reflexivity) ltac:(vm_compute; split; congruence) ltac:(vm_compute; reflexivity) eq_refl)
    as (info' & c' & E & _ & _ & _ & _ & H & _).
  exists info', c'. split; [exact E|exact H].
Defined.

(** A sector number above 2^31 is negative as an [int] and passes the tests. *)
Example protect_negative_sector :
  abbrev_spec [bench_bank] (zs "1:4294967295") = Spec 0 (-1) (-1) /\
  do_protect [zs "protect"; zs "on"; zs "1:4294967295"] [bench_bank] = Fault.
Proof. split; vm_compute; reflexivity. Qed.

(** The end address may lie anywhere behind the flash, and "start end" takes the
    last address and not the one behind it. *)
Example erase_behind_flash :
  flash_fill_sect_ranges [bench_bank] sim_base 0xFFFFFFFF = Ok (0, [(0, 1)], 2) /\
  addr_spec [bench_bank] (zs "64000000") (zs "64001000") = Ok (Some (0x64000000, 0x64001000)) /\
  flash_fill_sect_ranges [bench_bank] sim_base 0x64001000 = Ok (1, [(0, -1)], 0).
Proof. split_and!; vm_compute; reflexivity. Qed.

Example specs :
  abbrev_spec [bench_bank] (zs "1:0-1") = Spec 0 0 1 /\ abbrev_spec [bench_bank] (zs "1:1") = Spec 0 1 1 /\
  abbrev_spec [bench_bank] (zs "1:1-0") = Bad_spec /\ abbrev_spec [bench_bank] (zs "2:0") = Bad_spec /\
  abbrev_spec [bench_bank] (zs "1:0-") = Bad_spec /\ abbrev_spec [bench_bank] (zs "all") = No_spec.
Proof. split_and!; vm_compute; reflexivity. Qed.

Example protect_commands :
  do_protect [zs "protect"; zs "off"; zs "all"] [bench_bank] = Ok (0, [with_protect bench_bank [0; 0]]) /\
  do_protect [zs "protect"; zs "on"; zs "1:0-1"] [bench_bank] = Ok (0, [with_protect bench_bank [1; 1]]) /\
  do_protect [zs "protect"; zs "on"; zs "64000000"; zs "+1"] [bench_bank] = Ok (0, [with_protect bench_bank [1; 1]]) /\
  do_protect [zs "protect"; zs "up"; zs "all"] [bench_bank] = Ok (1, [bench_bank]).
Proof. split_and!; vm_compute; reflexivity. Qed.
