(* ===== verification/Digest.v ===== *)
(** * Hashing in blocks (lib_generic/sha1.c, sha256.c)

    What SHA-1 and SHA-256 share: words in big-endian order, the context with the
    byte count, the state and the incomplete block, and the update and finish
    functions, which differ in the two files only in the block function, the
    number of state words and the type of the length.  [process] is the block
    function.

    A context represents a message: its blocks have been processed and the rest is
    in the buffer.  So the way a message is cut does not matter, and finishing
    processes the padded message. *)

From S2P Require Import Prelude.

(** ** Words and bytes *)

Definition GET_UINT32_BE (b : list Z) (i : nat) : Z :=
  Z.lor (Z.lor (Z.lor (Z.shiftl (nth i b 0) 24) (Z.shiftl (nth (i + 1) b 0) 16))
    (Z.shiftl (nth (i + 2) b 0) 8)) (nth (i + 3) b 0).

Definition PUT_UINT32_BE (n : Z) : list Z :=
  [u8 (Z.shiftr n 24); u8 (Z.shiftr n 16); u8 (Z.shiftr n 8); u8 n].

Definition rotl (x n : Z) : Z := Z.lor (u32 (Z.shiftl x n)) (Z.shiftr x (32 - n)).
Definition rotr (x n : Z) : Z := Z.lor (Z.shiftr x n) (u32 (Z.shiftl x (32 - n))).

(** ** The context *)

Record sha_context := Sha { total0 : Z; total1 : Z; state : list Z; buffer : list Z }.

Definition padding : list Z := 0x80 :: replicate 63 0.

Section Stream.
Context (process : list Z -> list Z -> list Z).

(** [n] blocks of 64 bytes. *)
Fixpoint process_blocks (n : nat) (st input : list Z) : list Z :=
  match n with
  | O => st
  | S n => process_blocks n (process st (take 64 input)) (drop 64 input)
  end.

(** [memcpy(buffer + lft, input, length)]. *)
Definition fill_buffer (buf : list Z) (lft : nat) (input : list Z) : list Z :=
  take lft buf ++ input ++ drop (lft + length input) buf.

(** [input] is the bytes to add; their number is the length argument. *)
Definition sha_update (ctx : sha_context) (input : list Z) : sha_context :=
  let len := Z.of_nat (length input) in
  if len =? 0 then ctx
  else
    let lft := Z.to_nat (Z.land (total0 ctx) 0x3F) in
    let fill := (64 - lft)%nat in
    let t0 := u32 (total0 ctx + len) in
    let t1 := if t0 <? len then u32 (total1 ctx + 1) else total1 ctx in
    let '(st, buf, lft, input) :=
      if negb (lft =? 0)%nat && (fill <=? length input)%nat then
        let buf := fill_buffer (buffer ctx) lft (take fill input) in
        (process (state ctx) buf, buf, 0%nat, drop fill input)
      else (state ctx, buffer ctx, lft, input) in
    let n := (length input / 64)%nat in
    let st := process_blocks n st input in
    let input := drop (64 * n) input in
    let buf := if (length input =? 0)%nat then buf else fill_buffer buf lft input in
    Sha t0 t1 st buf.

Definition sha_finish (ctx : sha_context) : list Z :=
  let high := Z.lor (Z.shiftr (total0 ctx) 29) (u32 (Z.shiftl (total1 ctx) 3)) in
  let low := u32 (Z.shiftl (total0 ctx) 3) in
  let msglen := PUT_UINT32_BE high ++ PUT_UINT32_BE low in
  let last := Z.land (total0 ctx) 0x3F in
  let padn := Z.to_nat (if last <? 56 then 56 - last else 120 - last) in
  let ctx := sha_update ctx (take padn padding) in
  let ctx := sha_update ctx msglen in
  flat_map PUT_UINT32_BE (state ctx).

(** ** The message a context stands for *)

Definition hash_blocks (s0 m : list Z) : list Z := process_blocks (length m / 64) s0 m.
Definition hash_rest (m : list Z) : list Z := drop (64 * (length m / 64)) m.

Record absorbed (s0 : list Z) (ctx : sha_context) (m : list Z) : Prop := {
  ab_total : total0 ctx + 4294967296 * total1 ctx = Z.of_nat (length m) mod 18446744073709551616;
  ab_total0 : 0 <= total0 ctx < 4294967296;
  ab_total1 : 0 <= total1 ctx < 4294967296;
  ab_state : state ctx = hash_blocks s0 m;
  ab_len : length (buffer ctx) = 64%nat;
  ab_rest : take (length m mod 64) (buffer ctx) = hash_rest m
}.

Lemma process_blocks_add n k : forall st m,
  process_blocks (n + k) st m = process_blocks k (process_blocks n st m) (drop (64 * n) m).
Proof.
  induction n as [|n IH]; intros st m; [done|]. cbn [process_blocks Nat.add]. rewrite IH, drop_drop. do 2 f_equal. lia.
Qed.

Lemma process_blocks_app n : forall st m m', (64 * n <= length m)%nat ->
  process_blocks n st (m ++ m') = process_blocks n st m.
Proof.
  induction n as [|n IH]; intros st m m' H; [done|]. cbn [process_blocks].
  rewrite take_app_le, drop_app_le by lia. apply IH. rewrite length_drop. lia.
Qed.

Lemma hash_rest_length m : length (hash_rest m) = (length m mod 64)%nat.
Proof. unfold hash_rest. rewrite length_drop. pose proof (Nat.div_mod_eq (length m) 64). lia. Qed.

Lemma hash_rest_spec m : take (64 * (length m / 64)) m ++ hash_rest m = m.
Proof. apply take_drop. Qed.

(** Adding to a message: what was processed stays, the rest goes on. *)
Lemma hash_blocks_app s0 m m' : hash_blocks s0 (m ++ m') =
  hash_blocks (hash_blocks s0 m) (hash_rest m ++ m').
Proof.
  unfold hash_blocks, hash_rest. set (q := (length m / 64)%nat). pose proof (Nat.div_mod_eq (length m) 64) as Hd. fold q in Hd.
  assert (E : (length (m ++ m') / 64 = q + length (drop (64 * q) m ++ m') / 64)%nat).
  { rewrite !length_app, length_drop. replace (length m + length m')%nat with (q * 64 + (length m - 64 * q + length m'))%nat by lia.
    by rewrite Nat.div_add_l by lia. }
  rewrite E, process_blocks_add. rewrite process_blocks_app by lia. f_equal. by rewrite drop_app_le by lia.
Qed.

Lemma hash_rest_app m m' : hash_rest (m ++ m') = hash_rest (hash_rest m ++ m').
Proof.
  unfold hash_rest. set (q := (length m / 64)%nat). pose proof (Nat.div_mod_eq (length m) 64) as Hd. fold q in Hd.
  assert (E : (length (m ++ m') / 64 = q + length (drop (64 * q) m ++ m') / 64)%nat).
  { rewrite !length_app, length_drop. replace (length m + length m')%nat with (q * 64 + (length m - 64 * q + length m'))%nat by lia.
    by rewrite Nat.div_add_l by lia. }
  rewrite E. replace (64 * (q + length (drop (64 * q) m ++ m') / 64))%nat
    with (64 * q + 64 * (length (drop (64 * q) m ++ m') / 64))%nat by lia.
  rewrite <- drop_drop. f_equal. by rewrite drop_app_le by lia.
Qed.

Lemma low_bits x n : 0 <= n -> Z.land x (Z.ones n) = x mod 2 ^ n.
Proof. intros. by apply Z.land_ones. Qed.

Lemma absorbed_left s0 ctx m : absorbed s0 ctx m -> Z.to_nat (Z.land (total0 ctx) 0x3F) = (length m mod 64)%nat.
Proof.
  intros W. pose proof (ab_total _ _ _ W). pose proof (ab_total0 _ _ _ W). pose proof (ab_total1 _ _ _ W).
  change 0x3F with (Z.ones 6). rewrite low_bits by lia. change (2 ^ 6) with 64.
  assert (E : total0 ctx mod 64 = Z.of_nat (length m mod 64)); [|rewrite E; lia].
  rewrite Nat2Z.inj_mod. change (Z.of_nat 64) with 64. zmod.
Qed.

Lemma fill_buffer_length buf lft inp : (lft + length inp <= length buf)%nat ->
  length (fill_buffer buf lft inp) = length buf.
Proof. intros H. unfold fill_buffer. rewrite !length_app, length_take, length_drop. lia. Qed.

Lemma fill_buffer_take buf lft inp : (lft + length inp <= length buf)%nat ->
  take (lft + length inp) (fill_buffer buf lft inp) = take lft buf ++ inp.
Proof.
  intros H. unfold fill_buffer. rewrite app_assoc. apply take_app_length'. rewrite length_app, length_take. lia.
Qed.

(** Both words of the byte count. *)
Lemma count_add t0 t1 len L :
  t0 + 4294967296 * t1 = L mod 18446744073709551616 -> 0 <= t0 < 4294967296 -> 0 <= t1 < 4294967296 ->
  0 <= len < 4294967296 ->
  u32 (t0 + len) + 4294967296 * (if u32 (t0 + len) <? len then u32 (t1 + 1) else t1) =
    (L + len) mod 18446744073709551616.
Proof. intros H H0 H1 Hl. unfold u32. destruct (Z.ltb_spec ((t0 + len) mod 4294967296) len); zmod. Qed.

(** Adding bytes to the context adds them to the message. *)
Lemma sha_update_ok s0 ctx m inp : absorbed s0 ctx m -> Z.of_nat (length inp) < 4294967296 ->
  absorbed s0 (sha_update ctx inp) (m ++ inp).
Proof.
  intros W Hlen. unfold sha_update. cbv zeta. destruct (Z.eqb_spec (Z.of_nat (length inp)) 0) as [Hz|Hnz].
  { destruct inp; [|simpl in Hz; lia]. by rewrite app_nil_r. }
  rewrite (absorbed_left s0 ctx m W). set (r := (length m mod 64)%nat).
  assert (Hr : (r < 64)%nat) by (apply Nat.mod_upper_bound; lia).
  pose proof (count_add _ _ _ _ (ab_total _ _ _ W) (ab_total0 _ _ _ W) (ab_total1 _ _ _ W) (conj (Nat2Z.is_nonneg _) Hlen)) as Hc.
  set (t0 := u32 _) in *. set (t1 := if t0 <? _ then _ else _) in *.
  assert (Ht0 : 0 <= t0 < 4294967296) by apply u32_range.
  assert (Ht1 : 0 <= t1 < 4294967296) by (unfold t1; destruct (_ <? _); [apply u32_range|apply W]).
  pose proof (ab_len _ _ _ W) as Hb. pose proof (ab_rest _ _ _ W) as Hrest. fold r in Hrest.
  (* a state, buffer and rest of the input that stand for the whole message *)
  assert (H : forall st buf lft input, hash_blocks st (take lft buf ++ input) = hash_blocks s0 (m ++ inp) ->
    hash_rest (take lft buf ++ input) = hash_rest (m ++ inp) -> length buf = 64%nat ->
    lft = 0%nat \/ (lft + length input < 64)%nat ->
    let n := (length input / 64)%nat in
    let rest := drop (64 * n) input in
    absorbed s0 (Sha t0 t1 (process_blocks n st input)
      (if (length rest =? 0)%nat then buf else fill_buffer buf lft rest)) (m ++ inp)).
  { intros st buf lft input Hst Hre Hbl Hleft n rest.
    assert (Hlt : length (take lft buf) = lft) by (rewrite length_take; lia).
    assert (Hn : process_blocks n st input = hash_blocks st (take lft buf ++ input)).
    { destruct Hleft as [-> | Hsmall]; [by rewrite take_0|]. unfold hash_blocks, n. rewrite length_app, Hlt.
      by rewrite !Nat.div_small by lia. }
    assert (Hrest' : take lft buf ++ rest = hash_rest (take lft buf ++ input)).
    { destruct Hleft as [-> | Hsmall]; [by rewrite take_0|]. unfold hash_rest, rest, n. rewrite length_app, Hlt.
      by rewrite !Nat.div_small by lia. }
    assert (Hlr : (lft + length rest < 64)%nat).
    { pose proof (f_equal length Hrest') as E. rewrite length_app, Hlt, hash_rest_length in E. rewrite E.
      apply Nat.mod_upper_bound. lia. }
    assert (Hml : (length (m ++ inp) mod 64)%nat = (lft + length rest)%nat).
    { rewrite <- hash_rest_length, <- Hre, <- Hrest', length_app, Hlt. done. }
    split; cbn [total0 total1 state buffer]; try done.
    - rewrite Hc. rewrite length_app. f_equal. lia.
    - by rewrite Hn, Hst.
    - destruct (Nat.eqb_spec (length rest) 0); [done|]. rewrite fill_buffer_length; lia.
    - rewrite Hml, <- Hre, <- Hrest'. destruct (Nat.eqb_spec (length rest) 0) as [E|].
      + rewrite E, Nat.add_0_r. destruct rest; [by rewrite app_nil_r|done].
      + apply fill_buffer_take. lia. }
  destruct (negb (r =? 0)%nat && (64 - r <=? length inp)%nat) eqn:Ebr.
  - apply andb_true_iff in Ebr as [E1 E2]. apply negb_true_iff, Nat.eqb_neq in E1. apply Nat.leb_le in E2.
    set (blk := fill_buffer (buffer ctx) r (take (64 - r) inp)).
    assert (Hblk : blk = hash_rest m ++ take (64 - r) inp).
    { pose proof (fill_buffer_take (buffer ctx) r (take (64 - r) inp)) as E. rewrite length_take in E.
      rewrite <- Hrest, <- E by lia. fold blk. rewrite take_ge; [done|]. unfold blk.
      rewrite fill_buffer_length by (rewrite length_take; lia). lia. }
    assert (Hl64 : length blk = 64%nat) by (rewrite Hblk, length_app, hash_rest_length, length_take; fold r; lia).
    assert (Ecut : hash_rest m ++ inp = blk ++ drop (64 - r) inp) by (rewrite Hblk, <- app_assoc; by rewrite take_drop).
    assert (Ediv : (length (blk ++ drop (64 - r) inp) / 64 = S (length (drop (64 - r) inp) / 64))%nat).
    { rewrite length_app, Hl64. change (64 + length (drop (64 - r) inp))%nat with (1 * 64 + length (drop (64 - r) inp))%nat.
      rewrite Nat.div_add_l by lia. lia. }
    apply (H _ blk 0%nat (drop (64 - r) inp)); [| |done|by left]; rewrite take_0; cbn [app].
    + rewrite hash_blocks_app, Ecut. unfold hash_blocks at 2. rewrite Ediv. cbn [process_blocks].
      rewrite take_app_length', drop_app_length' by done. by rewrite (ab_state _ _ _ W).
    + rewrite hash_rest_app, Ecut. unfold hash_rest. rewrite Ediv.
      replace (64 * S (length (drop (64 - r) inp) / 64))%nat with (64 + 64 * (length (drop (64 - r) inp) / 64))%nat by lia.
      rewrite <- drop_drop. by rewrite drop_app_length' by done.
  - apply (H (state ctx) (buffer ctx) r inp).
    + by rewrite Hrest, (hash_blocks_app s0 m inp), (ab_state _ _ _ W).
    + by rewrite Hrest, (hash_rest_app m inp).
    + done.
    + apply andb_false_iff in Ebr as [E|E].
      * apply negb_false_iff, Nat.eqb_eq in E. by left.
      * apply Nat.leb_gt in E. right. lia.
Qed.

(** ** Finishing *)

(** The padding of FIPS 180: a one bit, zeros, the length in bits. *)
Definition pad (m : list Z) : list Z :=
  let n := Z.of_nat (length m) in
  let bits := u64 (8 * n) in
  m ++ [0x80] ++ replicate (Z.to_nat ((55 - n) mod 64)) 0 ++ PUT_UINT32_BE (bits / 4294967296) ++ PUT_UINT32_BE (u32 bits).

Lemma pad_length m : (length (pad m) mod 64 = 0)%nat.
Proof.
  unfold pad. cbv zeta. rewrite !length_app, length_replicate. cbn [length PUT_UINT32_BE].
  apply Nat2Z.inj. rewrite Nat2Z.inj_mod. change (Z.of_nat 64) with 64. change (Z.of_nat 0) with 0.
  assert (0 <= (55 - Z.of_nat (length m)) mod 64 < 64) by (apply Z.mod_pos_bound; lia).
  rewrite !Nat2Z.inj_add, Z2Nat.id by lia. zmod.
Qed.

Lemma sha_finish_ok s0 ctx m : absorbed s0 ctx m ->
  sha_finish ctx = flat_map PUT_UINT32_BE (hash_blocks s0 (pad m)).
Proof.
  intros W. unfold sha_finish. cbv zeta. pose proof (ab_total _ _ _ W) as Ht. pose proof (ab_total0 _ _ _ W) as H0.
  pose proof (ab_total1 _ _ _ W) as H1.
  assert (Hlast : Z.land (total0 ctx) 63 = Z.of_nat (length m) mod 64).
  { change 63 with (Z.ones 6). rewrite low_bits by lia. change (2 ^ 6) with 64. zmod. }
  rewrite Hlast. set (last := Z.of_nat (length m) mod 64). assert (Hl : 0 <= last < 64) by (apply Z.mod_pos_bound; lia).
  set (padn := Z.to_nat _).
  assert (Hpad : take padn padding = [0x80] ++ replicate (Z.to_nat ((55 - Z.of_nat (length m)) mod 64)) 0).
  { assert (E : padn = S (Z.to_nat ((55 - Z.of_nat (length m)) mod 64))).
    { unfold padn. destruct (Z.ltb_spec last 56); unfold last in *; zmod. }
    assert (0 <= (55 - Z.of_nat (length m)) mod 64 < 64) by (apply Z.mod_pos_bound; lia).
    rewrite E. unfold padding. cbn [take app]. f_equal. rewrite take_replicate. f_equal. lia. }
  assert (Hbits : Z.lor (Z.shiftr (total0 ctx) 29) (u32 (Z.shiftl (total1 ctx) 3)) = u64 (8 * Z.of_nat (length m)) / 4294967296 /\
    u32 (Z.shiftl (total0 ctx) 3) = u32 (u64 (8 * Z.of_nat (length m)))).
  { rewrite Z.shiftr_div_pow2, !Z.shiftl_mul_pow2 by lia. change (2 ^ 29) with 536870912. change (2 ^ 3) with 8.
    assert (Eu : u32 (total1 ctx * 8) = Z.shiftl (total1 ctx mod 536870912) 3).
    { rewrite Z.shiftl_mul_pow2 by lia. change (2 ^ 3) with 8. unfold u32. zmod. }
    split.
    - rewrite Eu, Z.lor_comm, lor_shiftl_add by (change (2 ^ 3) with 8; zmod). change (2 ^ 3) with 8. unfold u64. zmod.
    - unfold u32, u64. zmod. }
  destruct Hbits as [-> ->]. rewrite Hpad.
  set (z := [0x80] ++ _). set (ln := PUT_UINT32_BE (_ / _) ++ _).
  assert (Hz : Z.of_nat (length z) < 4294967296).
  { unfold z. rewrite length_app, length_replicate. cbn [length].
    assert (0 <= (55 - Z.of_nat (length m)) mod 64 < 64) by (apply Z.mod_pos_bound; lia). lia. }
  pose proof (sha_update_ok s0 _ _ ln (sha_update_ok s0 ctx m z W Hz) ltac:(unfold ln; vm_compute; done)) as W'.
  rewrite (ab_state _ _ _ W'). do 2 f_equal. unfold pad, z, ln. by rewrite <- !app_assoc.
Qed.

(** Any way to cut the message. *)
Lemma sha_chunks_ok s0 ctx cs : Forall (fun c : list Z => Z.of_nat (length c) < 4294967296) cs -> forall m, absorbed s0 ctx m ->
  absorbed s0 (fold_left sha_update cs ctx) (m ++ concat cs).
Proof.
  intros H. revert ctx. induction H as [|c cs Hc _ IH]; intros ctx m W; [by rewrite app_nil_r|].
  cbn [fold_left concat]. rewrite app_assoc. apply IH. by apply sha_update_ok.
Qed.

Lemma absorbed_start s0 buf : length buf = 64%nat -> absorbed s0 (Sha 0 0 s0 buf) [].
Proof. intros H. split; cbn [total0 total1 state buffer length]; try done; lia. Qed.

End Stream.

(** ** Reference hashes: a fold over the blocks of the padded message *)

Definition blocks (m : list Z) : list (list Z) :=
  map (fun i => take 64 (drop (64 * i) m)) (seq 0 (length m / 64)).

Definition md_hash (compress : list Z -> list Z -> list Z) (s0 m : list Z) : list Z :=
  fold_left compress (blocks (pad m)) s0.

Lemma process_blocks_fold f : forall n st m,
  process_blocks f n st m = fold_left f (map (fun i => take 64 (drop (64 * i) m)) (seq 0 n)) st.
Proof.
  induction n as [|n IH]; intros st m; [done|]. cbn [process_blocks seq map fold_left]. rewrite IH.
  change (64 * 0)%nat with 0%nat. rewrite drop_0. rewrite <- seq_shift, map_map. f_equal. apply map_ext. intros i.
  rewrite drop_drop. do 2 f_equal. lia.
Qed.

(** A block function that agrees with the reference on well-formed states. *)
Lemma hash_blocks_fold (P : list Z -> Prop) f g s0 m :
  (forall st b, P st -> f st b = g st b /\ P (g st b)) -> P s0 -> hash_blocks f s0 m = fold_left g (blocks m) s0.
Proof.
  intros H Hs. unfold hash_blocks. rewrite process_blocks_fold. fold (blocks m). revert s0 Hs.
  induction (blocks m) as [|b bs IH]; intros s0 Hs; [done|]. cbn [fold_left]. destruct (H s0 b Hs) as [-> Hp]. by apply IH.
Qed.

(** ** The bit functions as the standards write them *)

Definition Ch (x y z : Z) : Z := Z.lxor (Z.land x y) (Z.land (Z.lnot x) z).
Definition Maj (x y z : Z) : Z := Z.lxor (Z.lxor (Z.land x y) (Z.land x z)) (Z.land y z).

Ltac by_bits := apply Z.bits_inj'; intros i Hi; repeat (rewrite Z.lxor_spec || rewrite Z.land_spec || rewrite Z.lor_spec ||
  rewrite Z.lnot_spec by done); repeat (let b := fresh in match goal with |- context [Z.testbit ?x ?i] =>
    generalize (Z.testbit x i); intros b; destruct b end); done.

Lemma select_Ch x y z : Z.lxor z (Z.land x (Z.lxor y z)) = Ch x y z.
Proof. unfold Ch. by_bits. Qed.

Lemma majority_Maj x y z : Z.lor (Z.land x y) (Z.land z (Z.lor x y)) = Maj x y z.
Proof. unfold Maj. by_bits. Qed.
