(* ===== verification/Sha256.v ===== *)
(** * SHA-256 (lib_generic/sha256.c)

    The 64 lines of [sha256_process] are the table [sha256_rows]: the registers the
    macro [P] is applied to, the message word and the constant of each.  The
    reference is the hash of FIPS 180: constants from the roots of the primes, a
    message schedule, rounds on shifted working variables, padding. *)

From S2P Require Import Prelude Digest.

(** ** The code *)

Definition SHR (x n : Z) : Z := Z.shiftr x n.
Definition ROTR (x n : Z) : Z := rotr x n.

Definition S0 (x : Z) : Z := Z.lxor (Z.lxor (ROTR x 7) (ROTR x 18)) (SHR x 3).
Definition S1 (x : Z) : Z := Z.lxor (Z.lxor (ROTR x 17) (ROTR x 19)) (SHR x 10).
Definition S2 (x : Z) : Z := Z.lxor (Z.lxor (ROTR x 2) (ROTR x 13)) (ROTR x 22).
Definition S3 (x : Z) : Z := Z.lxor (Z.lxor (ROTR x 6) (ROTR x 11)) (ROTR x 25).

Definition F0 (x y z : Z) : Z := Z.lor (Z.land x y) (Z.land z (Z.lor x y)).
Definition F1 (x y z : Z) : Z := Z.lxor z (Z.land x (Z.lxor y z)).

Definition sha256_starts (buf : list Z) : sha_context :=
  Sha 0 0 [0x6A09E667; 0xBB67AE85; 0x3C6EF372; 0xA54FF53A; 0x510E527F; 0x9B05688C; 0x1F83D9AB; 0x5BE0CD19] buf.

(** The message word of a round: [W[t]], or [R(t)], which computes and stores it. *)
Inductive word_ref := W (t : nat) | R (t : nat).

Definition get_word (r : word_ref) (w : list Z) : Z * list Z :=
  match r with
  | W t => (nth t w 0, w)
  | R t =>
      let x := u32 (S1 (nth (t - 2) w 0) + nth (t - 7) w 0 + S0 (nth (t - 15) w 0) + nth (t - 16) w 0) in
      (x, <[t := x]> w)
  end.

(** The macro [P] on the registers with the given numbers (A is 0). *)
Definition P (regs : list Z) (args : list nat) (x k : Z) : list Z :=
  let arg i := nth (nth i args 0%nat) regs 0 in
  let temp1 := u32 (arg 7%nat + S3 (arg 4%nat) + F1 (arg 4%nat) (arg 5%nat) (arg 6%nat) + k + x) in
  let temp2 := u32 (S2 (arg 0%nat) + F0 (arg 0%nat) (arg 1%nat) (arg 2%nat)) in
  <[nth 7 args 0%nat := u32 (temp1 + temp2)]> (<[nth 3 args 0%nat := u32 (arg 3%nat + temp1)]> regs).

Definition sha256_row (s : list Z * list Z) (row : list nat * word_ref * Z) : list Z * list Z :=
  let '(regs, w) := s in
  let '(args, r, k) := row in
  let '(x, w) := get_word r w in
  (P regs args x k, w).

Definition sha256_rows : list (list nat * word_ref * Z) :=
  [
   ([0; 1; 2; 3; 4; 5; 6; 7]%nat, W 0, 0x428A2F98);
   ([7; 0; 1; 2; 3; 4; 5; 6]%nat, W 1, 0x71374491);
   ([6; 7; 0; 1; 2; 3; 4; 5]%nat, W 2, 0xB5C0FBCF);
   ([5; 6; 7; 0; 1; 2; 3; 4]%nat, W 3, 0xE9B5DBA5);
   ([4; 5; 6; 7; 0; 1; 2; 3]%nat, W 4, 0x3956C25B);
   ([3; 4; 5; 6; 7; 0; 1; 2]%nat, W 5, 0x59F111F1);
   ([2; 3; 4; 5; 6; 7; 0; 1]%nat, W 6, 0x923F82A4);
   ([1; 2; 3; 4; 5; 6; 7; 0]%nat, W 7, 0xAB1C5ED5);
   ([0; 1; 2; 3; 4; 5; 6; 7]%nat, W 8, 0xD807AA98);
   ([7; 0; 1; 2; 3; 4; 5; 6]%nat, W 9, 0x12835B01);
   ([6; 7; 0; 1; 2; 3; 4; 5]%nat, W 10, 0x243185BE);
   ([5; 6; 7; 0; 1; 2; 3; 4]%nat, W 11, 0x550C7DC3);
   ([4; 5; 6; 7; 0; 1; 2; 3]%nat, W 12, 0x72BE5D74);
   ([3; 4; 5; 6; 7; 0; 1; 2]%nat, W 13, 0x80DEB1FE);
   ([2; 3; 4; 5; 6; 7; 0; 1]%nat, W 14, 0x9BDC06A7);
   ([1; 2; 3; 4; 5; 6; 7; 0]%nat, W 15, 0xC19BF174);
   ([0; 1; 2; 3; 4; 5; 6; 7]%nat, R 16, 0xE49B69C1);
   ([7; 0; 1; 2; 3; 4; 5; 6]%nat, R 17, 0xEFBE4786);
   ([6; 7; 0; 1; 2; 3; 4; 5]%nat, R 18, 0x0FC19DC6);
   ([5; 6; 7; 0; 1; 2; 3; 4]%nat, R 19, 0x240CA1CC);
   ([4; 5; 6; 7; 0; 1; 2; 3]%nat, R 20, 0x2DE92C6F);
   ([3; 4; 5; 6; 7; 0; 1; 2]%nat, R 21, 0x4A7484AA);
   ([2; 3; 4; 5; 6; 7; 0; 1]%nat, R 22, 0x5CB0A9DC);
   ([1; 2; 3; 4; 5; 6; 7; 0]%nat, R 23, 0x76F988DA);
   ([0; 1; 2; 3; 4; 5; 6; 7]%nat, R 24, 0x983E5152);
   ([7; 0; 1; 2; 3; 4; 5; 6]%nat, R 25, 0xA831C66D);
   ([6; 7; 0; 1; 2; 3; 4; 5]%nat, R 26, 0xB00327C8);
   ([5; 6; 7; 0; 1; 2; 3; 4]%nat, R 27, 0xBF597FC7);
   ([4; 5; 6; 7; 0; 1; 2; 3]%nat, R 28, 0xC6E00BF3);
   ([3; 4; 5; 6; 7; 0; 1; 2]%nat, R 29, 0xD5A79147);
   ([2; 3; 4; 5; 6; 7; 0; 1]%nat, R 30, 0x06CA6351);
   ([1; 2; 3; 4; 5; 6; 7; 0]%nat, R 31, 0x14292967);
   ([0; 1; 2; 3; 4; 5; 6; 7]%nat, R 32, 0x27B70A85);
   ([7; 0; 1; 2; 3; 4; 5; 6]%nat, R 33, 0x2E1B2138);
   ([6; 7; 0; 1; 2; 3; 4; 5]%nat, R 34, 0x4D2C6DFC);
   ([5; 6; 7; 0; 1; 2; 3; 4]%nat, R 35, 0x53380D13);
   ([4; 5; 6; 7; 0; 1; 2; 3]%nat, R 36, 0x650A7354);
   ([3; 4; 5; 6; 7; 0; 1; 2]%nat, R 37, 0x766A0ABB);
   ([2; 3; 4; 5; 6; 7; 0; 1]%nat, R 38, 0x81C2C92E);
   ([1; 2; 3; 4; 5; 6; 7; 0]%nat, R 39, 0x92722C85);
   ([0; 1; 2; 3; 4; 5; 6; 7]%nat, R 40, 0xA2BFE8A1);
   ([7; 0; 1; 2; 3; 4; 5; 6]%nat, R 41, 0xA81A664B);
   ([6; 7; 0; 1; 2; 3; 4; 5]%nat, R 42, 0xC24B8B70);
   ([5; 6; 7; 0; 1; 2; 3; 4]%nat, R 43, 0xC76C51A3);
   ([4; 5; 6; 7; 0; 1; 2; 3]%nat, R 44, 0xD192E819);
   ([3; 4; 5; 6; 7; 0; 1; 2]%nat, R 45, 0xD6990624);
   ([2; 3; 4; 5; 6; 7; 0; 1]%nat, R 46, 0xF40E3585);
   ([1; 2; 3; 4; 5; 6; 7; 0]%nat, R 47, 0x106AA070);
   ([0; 1; 2; 3; 4; 5; 6; 7]%nat, R 48, 0x19A4C116);
   ([7; 0; 1; 2; 3; 4; 5; 6]%nat, R 49, 0x1E376C08);
   ([6; 7; 0; 1; 2; 3; 4; 5]%nat, R 50, 0x2748774C);
   ([5; 6; 7; 0; 1; 2; 3; 4]%nat, R 51, 0x34B0BCB5);
   ([4; 5; 6; 7; 0; 1; 2; 3]%nat, R 52, 0x391C0CB3);
   ([3; 4; 5; 6; 7; 0; 1; 2]%nat, R 53, 0x4ED8AA4A);
   ([2; 3; 4; 5; 6; 7; 0; 1]%nat, R 54, 0x5B9CCA4F);
   ([1; 2; 3; 4; 5; 6; 7; 0]%nat, R 55, 0x682E6FF3);
   ([0; 1; 2; 3; 4; 5; 6; 7]%nat, R 56, 0x748F82EE);
   ([7; 0; 1; 2; 3; 4; 5; 6]%nat, R 57, 0x78A5636F);
   ([6; 7; 0; 1; 2; 3; 4; 5]%nat, R 58, 0x84C87814);
   ([5; 6; 7; 0; 1; 2; 3; 4]%nat, R 59, 0x8CC70208);
   ([4; 5; 6; 7; 0; 1; 2; 3]%nat, R 60, 0x90BEFFFA);
   ([3; 4; 5; 6; 7; 0; 1; 2]%nat, R 61, 0xA4506CEB);
   ([2; 3; 4; 5; 6; 7; 0; 1]%nat, R 62, 0xBEF9A3F7);
   ([1; 2; 3; 4; 5; 6; 7; 0]%nat, R 63, 0xC67178F2)
  ].

(** [W[16]] to [W[63]] are written before they are read. *)
Definition sha256_process (st data : list Z) : list Z :=
  let w := map (fun t => GET_UINT32_BE data (4 * t)) (seq 0 16) ++ replicate 48 0 in
  let '(regs, _) := fold_left sha256_row sha256_rows (st, w) in
  zip_with (fun s r => u32 (s + r)) st regs.

Definition sha256_update : sha_context -> list Z -> sha_context := sha_update sha256_process.
Definition sha256_finish : sha_context -> list Z := sha_finish sha256_process.

(** ** FIPS 180-4 *)

Definition primes : list Z :=
  filter (fun p => forallb (fun d => negb (p mod d =? 0)) (map Z.of_nat (seq 2 (Z.to_nat (p - 2))))) (map Z.of_nat (seq 2 310)).

(** The cube root, bit by bit. *)
Fixpoint cbrt (k : nat) (r n : Z) : Z :=
  match k with
  | O => r
  | S k => let r' := r + 2 ^ Z.of_nat k in cbrt k (if r' * r' * r' <=? n then r' else r) n
  end.

(** The first 32 bits of the fractional parts of the square roots of the first 8
    primes and of the cube roots of the first 64. *)
Definition H256 : list Z := map (fun p => u32 (Z.sqrt (p * 2 ^ 64))) (take 8 primes).
Definition K256 : list Z := map (fun p => u32 (cbrt 36 0 (p * 2 ^ 96))) primes.

(** 4.1.2, 6.2.2. *)
Definition Sigma0 (x : Z) : Z := Z.lxor (Z.lxor (rotr x 2) (rotr x 13)) (rotr x 22).
Definition Sigma1 (x : Z) : Z := Z.lxor (Z.lxor (rotr x 6) (rotr x 11)) (rotr x 25).
Definition sigma0 (x : Z) : Z := Z.lxor (Z.lxor (rotr x 7) (rotr x 18)) (Z.shiftr x 3).
Definition sigma1 (x : Z) : Z := Z.lxor (Z.lxor (rotr x 17) (rotr x 19)) (Z.shiftr x 10).

Fixpoint schedule (n : nat) (w : list Z) : list Z :=
  match n with
  | O => w
  | S n =>
      let t := length w in
      schedule n (w ++ [u32 (sigma1 (nth (t - 2) w 0) + nth (t - 7) w 0 + sigma0 (nth (t - 15) w 0) + nth (t - 16) w 0)])
  end.

Definition round (v : list Z) (kw : Z * Z) : list Z :=
  match v with
  | [a; b; c; d; e; f; g; h] =>
      let T1 := u32 (h + Sigma1 e + Ch e f g + fst kw + snd kw) in
      let T2 := u32 (Sigma0 a + Maj a b c) in
      [u32 (T1 + T2); a; b; c; u32 (d + T1); e; f; g]
  | _ => v
  end.

Definition message_words (b : list Z) : list Z := map (fun t => GET_UINT32_BE b (4 * t)) (seq 0 16).

Definition compress256 (h b : list Z) : list Z :=
  zip_with (fun s r => u32 (s + r)) h (fold_left round (combine K256 (schedule 48 (message_words b))) h).

Definition SHA256 (m : list Z) : list Z := flat_map PUT_UINT32_BE (md_hash compress256 H256 m).

Example primes_64 : length primes = 64%nat.
Proof. vm_compute. reflexivity. Qed.
Example K256_first : take 3 K256 = [0x428a2f98; 0x71374491; 0xb5c0fbcf].
Proof. vm_compute. reflexivity. Qed.
Example sha256_abc : sha256_finish (sha256_update (sha256_starts (replicate 64 7)) (zs "abc")) =
  flat_map PUT_UINT32_BE [0xba7816bf; 0x8f01cfea; 0x414140de; 0x5dae2223; 0xb00361a3; 0x96177a9c; 0xb410ff61; 0xf20015ad].
Proof. vm_compute. reflexivity. Qed.
Example sha256_abc_spec : SHA256 (zs "abc") =
  flat_map PUT_UINT32_BE [0xba7816bf; 0x8f01cfea; 0x414140de; 0x5dae2223; 0xb00361a3; 0x96177a9c; 0xb410ff61; 0xf20015ad].
Proof. vm_compute. reflexivity. Qed.

(** ** The rows are the rounds *)

(** After [t] rows the working variable [i] is in register [(i - t) mod 8]. *)
Definition turned (j : nat) (v : list Z) : list Z := drop j v ++ take j v.
Definition row_args (t : nat) : list nat := map (fun i => (i + (8 - t mod 8)) mod 8)%nat (seq 0 8).
Definition row_word (t : nat) : word_ref := if (t <? 16)%nat then W t else R t.

Lemma sha256_rows_table : sha256_rows = map (fun t => (row_args t, row_word t, nth t K256 0)) (seq 0 64).
Proof. vm_compute. reflexivity. Qed.

Lemma sha256_P_round j v x k : (j < 8)%nat -> length v = 8%nat ->
  P (turned j v) (map (fun i => (i + (8 - j)) mod 8)%nat (seq 0 8)) x k = turned (S j) (round v (k, x)).
Proof.
  intros Hj Hv. do 8 (destruct v as [|? v]; [done|]). destruct v; [|done].
  do 8 (destruct j as [|j]; [unfold P, F0, F1; cbn -[Z.lor Z.land Z.lxor Z.add u32 S2 S3 Ch Maj Sigma0 Sigma1];
    by rewrite ?select_Ch, ?majority_Maj|]). lia.
Qed.

Lemma sha256_round_length v kw : length v = 8%nat -> length (round v kw) = 8%nat.
Proof. intros Hv. do 8 (destruct v as [|? v]; [done|]). by destruct v. Qed.

Lemma turned_8 v : length v = 8%nat -> turned 8 v = v.
Proof. intros Hv. unfold turned. by rewrite drop_ge, take_ge by lia. Qed.

Lemma sha256_turned_mod t v : length v = 8%nat -> turned (S (t mod 8)) v = turned (S t mod 8) v.
Proof.
  intros Hv. pose proof (Nat.mod_upper_bound t 8 ltac:(lia)). destruct (decide (t mod 8 = 7)%nat) as [E|E].
  - rewrite E. replace (S t mod 8)%nat with 0%nat.
    + rewrite turned_8 by done. unfold turned. by rewrite drop_0, take_0, app_nil_r.
    + rewrite (Nat.div_mod_eq t 8), E. replace (S (8 * (t / 8) + 7)) with ((t / 8 + 1) * 8)%nat by lia. by rewrite Nat.Div0.mod_mul.
  - replace (S t mod 8)%nat with (S (t mod 8)); [done|]. rewrite (Nat.div_mod_eq t 8) at 2.
    replace (S (8 * (t / 8) + t mod 8)) with (S (t mod 8) + (t / 8) * 8)%nat by lia.
    rewrite Nat.Div0.mod_add. symmetry. apply Nat.mod_small. lia.
Qed.

(** The schedule: its length, and that it only grows. *)
Lemma sha256_schedule_length n : forall w, length (schedule n w) = (n + length w)%nat.
Proof. induction n as [|n IH]; intros w; [done|]. cbn [schedule]. rewrite IH, length_app. simpl. lia. Qed.

Lemma sha256_schedule_prefix n : forall w i, (i < length w)%nat -> nth i (schedule n w) 0 = nth i w 0.
Proof.
  induction n as [|n IH]; intros w i Hi; [done|]. cbn [schedule]. rewrite IH by (rewrite length_app; lia). by rewrite app_nth1.
Qed.

Definition sched_word (w : list Z) (t : nat) : Z :=
  u32 (sigma1 (nth (t - 2) w 0) + nth (t - 7) w 0 + sigma0 (nth (t - 15) w 0) + nth (t - 16) w 0).

Lemma sha256_schedule_nth n : forall w t, (16 <= length w)%nat -> (length w <= t < n + length w)%nat ->
  nth t (schedule n w) 0 = sched_word (schedule n w) t.
Proof.
  induction n as [|n IH]; intros w t H16 Ht; [lia|]. cbn [schedule]. set (x := u32 _).
  destruct (decide (t = length w)) as [->|].
  - unfold sched_word. rewrite !sha256_schedule_prefix by (rewrite length_app; simpl; lia).
    rewrite app_nth2 by lia. rewrite Nat.sub_diag. cbn [nth]. unfold x. by rewrite !app_nth1 by lia.
  - apply IH; rewrite length_app; simpl; lia.
Qed.

(** The first [t] rows. *)
Lemma sha256_rows_ok (sched w0 st : list Z) : length st = 8%nat -> length sched = 64%nat -> length w0 = 64%nat ->
  (forall i, (i < 16)%nat -> nth i w0 0 = nth i sched 0) ->
  (forall t, (16 <= t < 64)%nat -> nth t sched 0 = sched_word sched t) ->
  forall t, (t <= 64)%nat ->
  exists w, fold_left sha256_row (map (fun t => (row_args t, row_word t, nth t K256 0)) (seq 0 t)) (st, w0) =
      (turned (t mod 8) (fold_left round (map (fun t => (nth t K256 0, nth t sched 0)) (seq 0 t)) st), w) /\
    length w = 64%nat /\ (forall i, (i < max t 16)%nat -> nth i w 0 = nth i sched 0) /\
    length (fold_left round (map (fun t => (nth t K256 0, nth t sched 0)) (seq 0 t)) st) = 8%nat.
Proof.
  intros Hst Hs Hw0 H0 Hsched. induction t as [|t IH]; intros Ht.
  { exists w0. split_and!; try done. unfold turned. cbn [seq map fold_left]. by rewrite app_nil_r. }
  destruct IH as (w & E & Hlw & Hw & Hlv); [lia|]. rewrite seq_S, !map_app, !fold_left_app, E. cbn [map fold_left Nat.add].
  set (v := fold_left round _ st) in *.
  assert (Hget : exists w', get_word (row_word t) w = (nth t sched 0, w') /\ length w' = 64%nat /\
    forall i, (i < max (S t) 16)%nat -> nth i w' 0 = nth i sched 0).
  { unfold row_word. destruct (Nat.ltb_spec t 16); cbn [get_word].
    - exists w. split; [f_equal; apply Hw; lia|]. split; [done|]. intros i Hi. apply Hw. lia.
    - assert (Ex : u32 (S1 (nth (t - 2) w 0) + nth (t - 7) w 0 + S0 (nth (t - 15) w 0) + nth (t - 16) w 0) = nth t sched 0).
      { rewrite !Hw by lia. rewrite (Hsched t) by lia. done. }
      rewrite Ex. eexists. split; [done|]. split; [by rewrite length_insert|]. intros i Hi.
      rewrite !nth_lookup. destruct (decide (i = t)) as [->|].
      + by rewrite list_lookup_insert_eq, <- nth_lookup by lia.
      + rewrite list_lookup_insert_ne, <- !nth_lookup by done. apply Hw. lia. }
  destruct Hget as (w' & Eg & Hlw' & Hw'). exists w'. unfold sha256_row. rewrite Eg. unfold row_args.
  rewrite sha256_P_round; [|apply Nat.mod_upper_bound; lia|done].
  rewrite sha256_turned_mod by (by apply sha256_round_length). split_and!; try done. by apply sha256_round_length.
Qed.

Lemma combine_nth (l1 l2 : list Z) n : length l1 = n -> length l2 = n ->
  combine l1 l2 = map (fun t => (nth t l1 0, nth t l2 0)) (seq 0 n).
Proof.
  revert l1 l2. induction n as [|n IH]; intros [|a l1] [|b l2] H1 H2; try done. cbn [combine seq map]. f_equal.
  rewrite <- seq_shift, map_map. apply IH; simpl in *; lia.
Qed.

Lemma sha256_process_ok st b : length st = 8%nat -> sha256_process st b = compress256 st b /\ length (compress256 st b) = 8%nat.
Proof.
  intros Hst. unfold sha256_process, compress256. rewrite sha256_rows_table.
  set (mw := message_words b). assert (Hmw : length mw = 16%nat) by (unfold mw, message_words; by rewrite length_map, length_seq).
  set (sched := schedule 48 mw). assert (Hls : length sched = 64%nat) by (unfold sched; rewrite sha256_schedule_length; lia).
  destruct (sha256_rows_ok sched (mw ++ replicate 48 0) st Hst Hls) with (t := 64%nat) as (w & E & _ & _ & Hl).
  - rewrite length_app, length_replicate. lia.
  - intros i Hi. unfold sched. rewrite sha256_schedule_prefix by lia. apply app_nth1. lia.
  - intros t Ht. apply sha256_schedule_nth; lia.
  - lia.
  - unfold mw, message_words in E. rewrite E. cbv iota beta. change (64 mod 8)%nat with 0%nat.
    rewrite (combine_nth K256 sched 64 eq_refl Hls). unfold turned at 1. rewrite drop_0, take_0, app_nil_r.
    split; [done|]. rewrite length_zip_with, Hl, Hst. done.
Qed.

(** C37: The digest of a message is the SHA-256 of FIPS 180, whatever pieces it is
    handed over in. *)
Theorem sha256_correct buf (cs : list (list Z)) : length buf = 64%nat ->
  Forall (fun c => Z.of_nat (length c) < 4294967296) cs ->
  sha256_finish (fold_left sha256_update cs (sha256_starts buf)) = SHA256 (concat cs).
Proof.
  intros Hb Hc. unfold sha256_finish, sha256_update.
  pose proof (sha_chunks_ok sha256_process H256 (sha256_starts buf) cs Hc []) as H.
  rewrite (sha_finish_ok sha256_process H256 _ (concat cs)).
  - unfold SHA256, md_hash. f_equal.
    apply (hash_blocks_fold (fun st => length st = 8%nat)); [|done]. intros st b Hst. by apply sha256_process_ok.
  - apply H. by apply absorbed_start.
Qed.

Lemma sha256_correct_witness :
  sha256_finish (fold_left sha256_update [zs "a"; []; zs "bc"] (sha256_starts (replicate 64 7))) = SHA256 (zs "abc").
Proof.
  apply (sha256_correct (replicate 64 7) [zs "a"; []; zs "bc"] eq_refl).
  repeat (constructor; [reflexivity|]). constructor.
Defined.
