(* ===== verification/Sha1.v ===== *)
(** * SHA-1 (lib_generic/sha1.c)

    The 80 lines of [sha1_process] are the table [sha1_rows]: the registers the
    macro [P] is applied to, the message word, and the [F] and [K] defined there.
    The reference is the hash of FIPS 180 and the HMAC of RFC 2104 with it. *)

From S2P Require Import Prelude Digest.

(** ** The code *)

Definition S (x n : Z) : Z := rotl x n.

Definition F_ch (x y z : Z) : Z := Z.lxor z (Z.land x (Z.lxor y z)).
Definition F_par (x y z : Z) : Z := Z.lxor (Z.lxor x y) z.
Definition F_maj (x y z : Z) : Z := Z.lor (Z.land x y) (Z.land z (Z.lor x y)).

Definition sha1_starts (buf : list Z) : sha_context :=
  Sha 0 0 [0x67452301; 0xEFCDAB89; 0x98BADCFE; 0x10325476; 0xC3D2E1F0] buf.

(** The message word of a round: [W[t]], or [R(t)], which computes it in the ring of
    16 words. *)
Inductive word_ref := W (t : nat) | R (t : nat).

Definition get_word (r : word_ref) (w : list Z) : Z * list Z :=
  match r with
  | W t => (nth t w 0, w)
  | R t =>
      let temp := Z.lxor (Z.lxor (Z.lxor (nth ((t - 3) mod 16) w 0) (nth ((t - 8) mod 16) w 0))
        (nth ((t - 14) mod 16) w 0)) (nth (t mod 16) w 0) in
      (S temp 1, <[(t mod 16)%nat := S temp 1]> w)
  end.

(** The macro [P] on the registers with the given numbers (A is 0). *)
Definition P (regs : list Z) (args : list nat) (x : Z) (F : Z -> Z -> Z -> Z) (K : Z) : list Z :=
  let arg i := nth (nth i args 0%nat) regs 0 in
  let e := u32 (arg 4%nat + (S (arg 0%nat) 5 + F (arg 1%nat) (arg 2%nat) (arg 3%nat) + K + x)) in
  <[nth 1 args 0%nat := S (arg 1%nat) 30]> (<[nth 4 args 0%nat := e]> regs).

Definition row : Type := list nat * word_ref * (Z -> Z -> Z -> Z) * Z.

Definition sha1_row (s : list Z * list Z) (r : row) : list Z * list Z :=
  let '(regs, w) := s in
  let '(args, ref, F, K) := r in
  let '(x, w) := get_word ref w in
  (P regs args x F K, w).

Definition sha1_rows : list row :=
  [
   ([0; 1; 2; 3; 4]%nat, W 0, F_ch, 0x5A827999);
   ([4; 0; 1; 2; 3]%nat, W 1, F_ch, 0x5A827999);
   ([3; 4; 0; 1; 2]%nat, W 2, F_ch, 0x5A827999);
   ([2; 3; 4; 0; 1]%nat, W 3, F_ch, 0x5A827999);
   ([1; 2; 3; 4; 0]%nat, W 4, F_ch, 0x5A827999);
   ([0; 1; 2; 3; 4]%nat, W 5, F_ch, 0x5A827999);
   ([4; 0; 1; 2; 3]%nat, W 6, F_ch, 0x5A827999);
   ([3; 4; 0; 1; 2]%nat, W 7, F_ch, 0x5A827999);
   ([2; 3; 4; 0; 1]%nat, W 8, F_ch, 0x5A827999);
   ([1; 2; 3; 4; 0]%nat, W 9, F_ch, 0x5A827999);
   ([0; 1; 2; 3; 4]%nat, W 10, F_ch, 0x5A827999);
   ([4; 0; 1; 2; 3]%nat, W 11, F_ch, 0x5A827999);
   ([3; 4; 0; 1; 2]%nat, W 12, F_ch, 0x5A827999);
   ([2; 3; 4; 0; 1]%nat, W 13, F_ch, 0x5A827999);
   ([1; 2; 3; 4; 0]%nat, W 14, F_ch, 0x5A827999);
   ([0; 1; 2; 3; 4]%nat, W 15, F_ch, 0x5A827999);
   ([4; 0; 1; 2; 3]%nat, R 16, F_ch, 0x5A827999);
   ([3; 4; 0; 1; 2]%nat, R 17, F_ch, 0x5A827999);
   ([2; 3; 4; 0; 1]%nat, R 18, F_ch, 0x5A827999);
   ([1; 2; 3; 4; 0]%nat, R 19, F_ch, 0x5A827999);
   ([0; 1; 2; 3; 4]%nat, R 20, F_par, 0x6ED9EBA1);
   ([4; 0; 1; 2; 3]%nat, R 21, F_par, 0x6ED9EBA1);
   ([3; 4; 0; 1; 2]%nat, R 22, F_par, 0x6ED9EBA1);
   ([2; 3; 4; 0; 1]%nat, R 23, F_par, 0x6ED9EBA1);
   ([1; 2; 3; 4; 0]%nat, R 24, F_par, 0x6ED9EBA1);
   ([0; 1; 2; 3; 4]%nat, R 25, F_par, 0x6ED9EBA1);
   ([4; 0; 1; 2; 3]%nat, R 26, F_par, 0x6ED9EBA1);
   ([3; 4; 0; 1; 2]%nat, R 27, F_par, 0x6ED9EBA1);
   ([2; 3; 4; 0; 1]%nat, R 28, F_par, 0x6ED9EBA1);
   ([1; 2; 3; 4; 0]%nat, R 29, F_par, 0x6ED9EBA1);
   ([0; 1; 2; 3; 4]%nat, R 30, F_par, 0x6ED9EBA1);
   ([4; 0; 1; 2; 3]%nat, R 31, F_par, 0x6ED9EBA1);
   ([3; 4; 0; 1; 2]%nat, R 32, F_par, 0x6ED9EBA1);
   ([2; 3; 4; 0; 1]%nat, R 33, F_par, 0x6ED9EBA1);
   ([1; 2; 3; 4; 0]%nat, R 34, F_par, 0x6ED9EBA1);
   ([0; 1; 2; 3; 4]%nat, R 35, F_par, 0x6ED9EBA1);
   ([4; 0; 1; 2; 3]%nat, R 36, F_par, 0x6ED9EBA1);
   ([3; 4; 0; 1; 2]%nat, R 37, F_par, 0x6ED9EBA1);
   ([2; 3; 4; 0; 1]%nat, R 38, F_par, 0x6ED9EBA1);
   ([1; 2; 3; 4; 0]%nat, R 39, F_par, 0x6ED9EBA1);
   ([0; 1; 2; 3; 4]%nat, R 40, F_maj, 0x8F1BBCDC);
   ([4; 0; 1; 2; 3]%nat, R 41, F_maj, 0x8F1BBCDC);
   ([3; 4; 0; 1; 2]%nat, R 42, F_maj, 0x8F1BBCDC);
   ([2; 3; 4; 0; 1]%nat, R 43, F_maj, 0x8F1BBCDC);
   ([1; 2; 3; 4; 0]%nat, R 44, F_maj, 0x8F1BBCDC);
   ([0; 1; 2; 3; 4]%nat, R 45, F_maj, 0x8F1BBCDC);
   ([4; 0; 1; 2; 3]%nat, R 46, F_maj, 0x8F1BBCDC);
   ([3; 4; 0; 1; 2]%nat, R 47, F_maj, 0x8F1BBCDC);
   ([2; 3; 4; 0; 1]%nat, R 48, F_maj, 0x8F1BBCDC);
   ([1; 2; 3; 4; 0]%nat, R 49, F_maj, 0x8F1BBCDC);
   ([0; 1; 2; 3; 4]%nat, R 50, F_maj, 0x8F1BBCDC);
   ([4; 0; 1; 2; 3]%nat, R 51, F_maj, 0x8F1BBCDC);
   ([3; 4; 0; 1; 2]%nat, R 52, F_maj, 0x8F1BBCDC);
   ([2; 3; 4; 0; 1]%nat, R 53, F_maj, 0x8F1BBCDC);
   ([1; 2; 3; 4; 0]%nat, R 54, F_maj, 0x8F1BBCDC);
   ([0; 1; 2; 3; 4]%nat, R 55, F_maj, 0x8F1BBCDC);
   ([4; 0; 1; 2; 3]%nat, R 56, F_maj, 0x8F1BBCDC);
   ([3; 4; 0; 1; 2]%nat, R 57, F_maj, 0x8F1BBCDC);
   ([2; 3; 4; 0; 1]%nat, R 58, F_maj, 0x8F1BBCDC);
   ([1; 2; 3; 4; 0]%nat, R 59, F_maj, 0x8F1BBCDC);
   ([0; 1; 2; 3; 4]%nat, R 60, F_par, 0xCA62C1D6);
   ([4; 0; 1; 2; 3]%nat, R 61, F_par, 0xCA62C1D6);
   ([3; 4; 0; 1; 2]%nat, R 62, F_par, 0xCA62C1D6);
   ([2; 3; 4; 0; 1]%nat, R 63, F_par, 0xCA62C1D6);
   ([1; 2; 3; 4; 0]%nat, R 64, F_par, 0xCA62C1D6);
   ([0; 1; 2; 3; 4]%nat, R 65, F_par, 0xCA62C1D6);
   ([4; 0; 1; 2; 3]%nat, R 66, F_par, 0xCA62C1D6);
   ([3; 4; 0; 1; 2]%nat, R 67, F_par, 0xCA62C1D6);
   ([2; 3; 4; 0; 1]%nat, R 68, F_par, 0xCA62C1D6);
   ([1; 2; 3; 4; 0]%nat, R 69, F_par, 0xCA62C1D6);
   ([0; 1; 2; 3; 4]%nat, R 70, F_par, 0xCA62C1D6);
   ([4; 0; 1; 2; 3]%nat, R 71, F_par, 0xCA62C1D6);
   ([3; 4; 0; 1; 2]%nat, R 72, F_par, 0xCA62C1D6);
   ([2; 3; 4; 0; 1]%nat, R 73, F_par, 0xCA62C1D6);
   ([1; 2; 3; 4; 0]%nat, R 74, F_par, 0xCA62C1D6);
   ([0; 1; 2; 3; 4]%nat, R 75, F_par, 0xCA62C1D6);
   ([4; 0; 1; 2; 3]%nat, R 76, F_par, 0xCA62C1D6);
   ([3; 4; 0; 1; 2]%nat, R 77, F_par, 0xCA62C1D6);
   ([2; 3; 4; 0; 1]%nat, R 78, F_par, 0xCA62C1D6);
   ([1; 2; 3; 4; 0]%nat, R 79, F_par, 0xCA62C1D6)
  ].

Definition sha1_process (st data : list Z) : list Z :=
  let w := map (fun t => GET_UINT32_BE data (4 * t)) (seq 0 16) in
  let '(regs, _) := fold_left sha1_row sha1_rows (st, w) in
  zip_with (fun s r => u32 (s + r)) st regs.

(** The length is an [int]. *)
Definition sha1_update (ctx : sha_context) (input : list Z) : sha_context :=
  if s32 (Z.of_nat (length input)) <=? 0 then ctx else sha_update sha1_process ctx input.

Definition sha1_finish : sha_context -> list Z := sha_finish sha1_process.

Definition sha1_csum (buf input : list Z) : list Z := sha1_finish (sha1_update (sha1_starts buf) input).

(** The loop of the watchdog variant over what is left of the input. *)
Fixpoint csum_loop (fuel : nat) (ctx : sha_context) (input : list Z) (chunk_sz : Z) : res sha_context :=
  if (length input =? 0)%nat then mret ctx
  else
    match fuel with
    | O => OutOfFuel
    | Datatypes.S fuel =>
        let chunk := Z.of_nat (length input) in
        let chunk := Z.to_nat (if chunk_sz <? chunk then chunk_sz else chunk) in
        csum_loop fuel (sha1_update ctx (take chunk input)) (drop chunk input) chunk_sz
    end.

Definition sha1_csum_wd (buf input : list Z) (chunk_sz : Z) : res (list Z) :=
  ctx ← csum_loop (length input) (sha1_starts buf) input chunk_sz; mret (sha1_finish ctx).

(** The first 64 bytes of the key are added to a pad. *)
Fixpoint xor_key (pad key : list Z) : list Z :=
  match pad, key with
  | p :: pad, k :: key => Z.lxor p k :: xor_key pad key
  | _, _ => pad
  end.

Definition sha1_hmac (buf key input : list Z) : list Z :=
  let k_ipad := xor_key (replicate 64 0x36) key in
  let k_opad := xor_key (replicate 64 0x5C) key in
  let ctx := sha1_update (sha1_starts buf) k_ipad in
  let tmpbuf := sha1_finish (sha1_update ctx input) in
  let ctx := sha1_update (sha1_starts buf) k_opad in
  sha1_finish (sha1_update ctx tmpbuf).

(** ** FIPS 180 and RFC 2104 *)

Definition H160 : list Z := [0x67452301; 0xEFCDAB89; 0x98BADCFE; 0x10325476; 0xC3D2E1F0].

(** The functions and constants of the four stages: 2^30 times the roots of 2, 3,
    5 and 10. *)
Definition stage_f (t : nat) : Z -> Z -> Z -> Z :=
  match (t / 20)%nat with O => Ch | 2%nat => Maj | _ => fun x y z => Z.lxor (Z.lxor x y) z end.
Definition stage_k (t : nat) : Z :=
  Z.sqrt (match (t / 20)%nat with O => 2 | 1%nat => 3 | 2%nat => 5 | _ => 10 end * 2 ^ 60).

Definition sched_word (w : list Z) (t : nat) : Z :=
  rotl (Z.lxor (Z.lxor (Z.lxor (nth (t - 3) w 0) (nth (t - 8) w 0)) (nth (t - 14) w 0)) (nth (t - 16) w 0)) 1.

Fixpoint schedule (n : nat) (w : list Z) : list Z :=
  match n with O => w | Datatypes.S n => schedule n (w ++ [sched_word w (length w)]) end.

Definition round (v : list Z) (t : nat) (w : Z) : list Z :=
  match v with
  | [a; b; c; d; e] => [u32 (rotl a 5 + stage_f t b c d + e + stage_k t + w); a; rotl b 30; c; d]
  | _ => v
  end.

Definition message_words (b : list Z) : list Z := map (fun t => GET_UINT32_BE b (4 * t)) (seq 0 16).

Definition compress160 (h b : list Z) : list Z :=
  let w := schedule 64 (message_words b) in
  zip_with (fun s r => u32 (s + r)) h (fold_left (fun v t => round v t (nth t w 0)) (seq 0 80) h).

Definition SHA1 (m : list Z) : list Z := flat_map PUT_UINT32_BE (md_hash compress160 H160 m).

(** Keys of at most 64 bytes. *)
Definition HMAC (H : list Z -> list Z) (key text : list Z) : list Z :=
  let k0 := key ++ replicate (64 - length key) 0 in
  H (map (Z.lxor 0x5C) k0 ++ H (map (Z.lxor 0x36) k0 ++ text)).

Example sha1_abc : sha1_csum (replicate 64 7) (zs "abc") =
  flat_map PUT_UINT32_BE [0xA9993E36; 0x4706816A; 0xBA3E2571; 0x7850C26C; 0x9CD0D89D].
Proof. vm_compute. reflexivity. Qed.
Example sha1_abc_spec : SHA1 (zs "abc") = flat_map PUT_UINT32_BE [0xA9993E36; 0x4706816A; 0xBA3E2571; 0x7850C26C; 0x9CD0D89D].
Proof. vm_compute. reflexivity. Qed.

(** ** The rows are the rounds *)

(** After [t] rows the working variable [i] is in register [(i - t) mod 5]. *)
Definition turned (j : nat) (v : list Z) : list Z := drop j v ++ take j v.
Definition row_args (t : nat) : list nat := map (fun i => (i + (5 - t mod 5)) mod 5)%nat (seq 0 5).
Definition row_word (t : nat) : word_ref := if (t <? 16)%nat then W t else R t.
Definition row_f (t : nat) : Z -> Z -> Z -> Z :=
  match (t / 20)%nat with O => F_ch | 2%nat => F_maj | _ => F_par end.
Definition row_at (t : nat) : row := (row_args t, row_word t, row_f t, stage_k t).

Lemma sha1_rows_table : sha1_rows = map row_at (seq 0 80).
Proof. vm_compute. reflexivity. Qed.

Lemma sha1_row_f_stage t x y z : row_f t x y z = stage_f t x y z.
Proof.
  unfold row_f, stage_f. destruct (t / 20)%nat as [|[|[|n]]]; try done; [apply select_Ch|apply majority_Maj].
Qed.

Lemma sum_order e a f k x : e + (a + f + k + x) = a + f + e + k + x.
Proof. lia. Qed.

Lemma sha1_P_round j v x t : (j < 5)%nat -> length v = 5%nat ->
  P (turned j v) (map (fun i => (i + (5 - j)) mod 5)%nat (seq 0 5)) x (row_f t) (stage_k t) =
    turned (Datatypes.S j) (round v t x).
Proof.
  intros Hj Hv. do 5 (destruct v as [|? v]; [done|]). destruct v; [|done].
  do 5 (destruct j as [|j]; [unfold P, S; cbn -[Z.add u32 rotl row_f stage_f stage_k]; rewrite sha1_row_f_stage;
    unfold turned; cbn -[Z.add u32 rotl stage_f stage_k]; rewrite sum_order; reflexivity|]). lia.
Qed.

Lemma sha1_round_length v t w : length v = 5%nat -> length (round v t w) = 5%nat.
Proof. intros Hv. do 5 (destruct v as [|? v]; [done|]). by destruct v. Qed.

Lemma sha1_turned_mod t v : length v = 5%nat -> turned (Datatypes.S (t mod 5)) v = turned (Datatypes.S t mod 5) v.
Proof.
  intros Hv. pose proof (Nat.mod_upper_bound t 5 ltac:(lia)). destruct (decide (t mod 5 = 4)%nat) as [E|E].
  - rewrite E. replace (Datatypes.S t mod 5)%nat with 0%nat.
    + unfold turned. rewrite drop_0, take_0, app_nil_r. by rewrite drop_ge, take_ge by lia.
    + rewrite (Nat.div_mod_eq t 5), E. replace (Datatypes.S (5 * (t / 5) + 4)) with ((t / 5 + 1) * 5)%nat by lia.
      by rewrite Nat.Div0.mod_mul.
  - replace (Datatypes.S t mod 5)%nat with (Datatypes.S (t mod 5)); [done|]. rewrite (Nat.div_mod_eq t 5) at 2.
    replace (Datatypes.S (5 * (t / 5) + t mod 5)) with (Datatypes.S (t mod 5) + (t / 5) * 5)%nat by lia.
    rewrite Nat.Div0.mod_add. symmetry. apply Nat.mod_small. lia.
Qed.

Lemma sha1_schedule_length n : forall w, length (schedule n w) = (n + length w)%nat.
Proof. induction n as [|n IH]; intros w; [done|]. cbn [schedule]. rewrite IH, length_app. simpl. lia. Qed.

Lemma sha1_schedule_prefix n : forall w i, (i < length w)%nat -> nth i (schedule n w) 0 = nth i w 0.
Proof.
  induction n as [|n IH]; intros w i Hi; [done|]. cbn [schedule]. rewrite IH by (rewrite length_app; lia). by rewrite app_nth1.
Qed.

Lemma sha1_schedule_nth n : forall w t, (16 <= length w)%nat -> (length w <= t < n + length w)%nat ->
  nth t (schedule n w) 0 = sched_word (schedule n w) t.
Proof.
  induction n as [|n IH]; intros w t H16 Ht; [lia|]. cbn [schedule]. set (x := sched_word w (length w)).
  destruct (decide (t = length w)) as [->|].
  - unfold sched_word at 1. rewrite !sha1_schedule_prefix by (rewrite length_app; simpl; lia).
    rewrite app_nth2 by lia. rewrite Nat.sub_diag. cbn [nth]. unfold x, sched_word. by rewrite !app_nth1 by lia.
  - apply IH; rewrite length_app; simpl; lia.
Qed.

(** The ring holds the last 16 words of the schedule. *)
Definition ring_ok (sched w : list Z) (t : nat) : Prop :=
  length w = 16%nat /\ forall i, (i < max t 16)%nat -> (t <= i + 16)%nat -> nth (i mod 16) w 0 = nth i sched 0.

Lemma sha1_get_word_ok sched w t : (t < 80)%nat -> ring_ok sched w t ->
  (forall t, (16 <= t < 80)%nat -> nth t sched 0 = sched_word sched t) ->
  exists w', get_word (row_word t) w = (nth t sched 0, w') /\ ring_ok sched w' (Datatypes.S t).
Proof.
  intros Ht [Hl Hw] Hs. unfold row_word. destruct (Nat.ltb_spec t 16); cbn [get_word].
  - exists w. pose proof (Hw t) as E. rewrite Nat.mod_small in E by lia. rewrite E by lia. split; [done|]. split; [done|].
    intros i Hi1 Hi2. apply Hw; lia.
  - assert (E : S (Z.lxor (Z.lxor (Z.lxor (nth ((t - 3) mod 16) w 0) (nth ((t - 8) mod 16) w 0))
        (nth ((t - 14) mod 16) w 0)) (nth (t mod 16) w 0)) 1 = nth t sched 0).
    { replace (t mod 16)%nat with ((t - 16) mod 16)%nat.
      - rewrite !Hw by lia. by rewrite (Hs t) by lia.
      - replace t with (t - 16 + 1 * 16)%nat at 2 by lia. by rewrite Nat.Div0.mod_add. }
    rewrite E. eexists. split; [done|]. split; [by rewrite length_insert|]. intros i Hi1 Hi2.
    pose proof (Nat.mod_upper_bound t 16 ltac:(lia)). rewrite nth_lookup. destruct (decide (i = t)) as [->|Hne].
    + by rewrite list_lookup_insert_eq by lia.
    + rewrite list_lookup_insert_ne; [rewrite <- nth_lookup; apply Hw; lia|]. intros Em.
      pose proof (Nat.div_mod_eq t 16). pose proof (Nat.div_mod_eq i 16). lia.
Qed.

Lemma sha1_rows_ok (sched w0 st : list Z) : length st = 5%nat -> ring_ok sched w0 0 ->
  (forall t, (16 <= t < 80)%nat -> nth t sched 0 = sched_word sched t) ->
  forall t, (t <= 80)%nat -> let v := fold_left (fun v t => round v t (nth t sched 0)) (seq 0 t) st in
  exists w, fold_left sha1_row (map row_at (seq 0 t)) (st, w0) = (turned (t mod 5) v, w) /\
    ring_ok sched w t /\ length v = 5%nat.
Proof.
  intros Hst H0 Hs. induction t as [|t IH]; intros Ht v; unfold v.
  { exists w0. split_and!; try done. unfold turned. cbn [seq fold_left]. by rewrite app_nil_r. }
  destruct IH as (w & E & Hw & Hlv); [lia|]. rewrite seq_S, !map_app, !fold_left_app, E. cbn [map fold_left Nat.add].
  clear v. set (v := fold_left _ (seq 0 t) st) in *.
  destruct (sha1_get_word_ok sched w t ltac:(lia) Hw Hs) as (w' & Eg & Hw'). exists w'.
  unfold sha1_row, row_at. rewrite Eg. unfold row_args. rewrite sha1_P_round; [|apply Nat.mod_upper_bound; lia|done].
  rewrite sha1_turned_mod by (by apply sha1_round_length). split_and!; try done. by apply sha1_round_length.
Qed.

Lemma sha1_process_ok st b : length st = 5%nat -> sha1_process st b = compress160 st b /\ length (compress160 st b) = 5%nat.
Proof.
  intros Hst. unfold sha1_process, compress160. rewrite sha1_rows_table. cbv zeta.
  set (mw := message_words b). assert (Hmw : length mw = 16%nat) by (unfold mw, message_words; by rewrite length_map, length_seq).
  set (sched := schedule 64 mw).
  destruct (sha1_rows_ok sched mw st Hst) with (t := 80%nat) as (w & E & _ & Hl).
  - split; [done|]. intros i Hi _. unfold sched. rewrite sha1_schedule_prefix by lia. by rewrite Nat.mod_small by lia.
  - intros t Ht. apply sha1_schedule_nth; lia.
  - lia.
  - unfold mw, message_words in E. rewrite E. cbv iota beta. change (80 mod 5)%nat with 0%nat.
    unfold turned at 1. rewrite drop_0, take_0, app_nil_r. split; [done|]. rewrite length_zip_with, Hl, Hst. done.
Qed.

(** ** Digests *)

Definition int_length (m : list Z) : Prop := Z.of_nat (length m) < 2147483648.

Lemma sha1_update_eq ctx input : int_length input -> sha1_update ctx input = sha_update sha1_process ctx input.
Proof.
  unfold int_length. intros H. unfold sha1_update. rewrite s32_small by lia. destruct (Z.leb_spec (Z.of_nat (length input)) 0); [|done].
  unfold sha_update. cbv zeta. by destruct (Z.eqb_spec (Z.of_nat (length input)) 0); [|lia].
Qed.

Lemma sha1_update_ok ctx m inp : absorbed sha1_process H160 ctx m -> int_length inp ->
  absorbed sha1_process H160 (sha1_update ctx inp) (m ++ inp).
Proof. intros W H. rewrite sha1_update_eq by done. apply sha_update_ok; [done|]. unfold int_length in H. lia. Qed.

Lemma sha1_chunks_ok cs : Forall int_length cs -> forall ctx m, absorbed sha1_process H160 ctx m ->
  absorbed sha1_process H160 (fold_left sha1_update cs ctx) (m ++ concat cs).
Proof.
  induction 1 as [|c cs Hc _ IH]; intros ctx m W; [by rewrite app_nil_r|].
  cbn [fold_left concat]. rewrite app_assoc. apply IH. by apply sha1_update_ok.
Qed.

Lemma sha1_finish_ok ctx m : absorbed sha1_process H160 ctx m -> sha1_finish ctx = SHA1 m.
Proof.
  intros W. unfold sha1_finish. rewrite (sha_finish_ok sha1_process H160 ctx m W). unfold SHA1, md_hash. f_equal.
  apply (hash_blocks_fold (fun st => length st = 5%nat)); [|done]. intros st b Hst. by apply sha1_process_ok.
Qed.

Lemma sha1_digest buf m1 m2 : length buf = 64%nat -> int_length m1 -> int_length m2 ->
  sha1_finish (sha1_update (sha1_update (sha1_starts buf) m1) m2) = SHA1 (m1 ++ m2).
Proof.
  intros Hb H1 H2. apply sha1_finish_ok. apply sha1_update_ok; [|done]. apply (sha1_update_ok _ []); [|done]. by apply absorbed_start.
Qed.

Lemma csum_loop_ok chunk_sz : 0 < chunk_sz -> forall fuel ctx m input, (length input <= fuel)%nat -> int_length input ->
  absorbed sha1_process H160 ctx m ->
  exists ctx', csum_loop fuel ctx input chunk_sz = Ok ctx' /\ absorbed sha1_process H160 ctx' (m ++ input).
Proof.
  intros Hc. induction fuel as [|fuel IH]; intros ctx m input Hf Hi W; cbn [csum_loop].
  { destruct input; [|simpl in Hf; lia]. exists ctx. by rewrite app_nil_r. }
  destruct (Nat.eqb_spec (length input) 0) as [Hz|Hz].
  { destruct input; [|done]. exists ctx. by rewrite app_nil_r. }
  cbv zeta. set (c := Z.to_nat _).
  assert (Hcr : (0 < c <= length input)%nat).
  { unfold c. destruct (Z.ltb_spec chunk_sz (Z.of_nat (length input))); lia. }
  unfold int_length in *. destruct (IH (sha1_update ctx (take c input)) (m ++ take c input) (drop c input)) as (ctx' & E & W').
  - rewrite length_drop. lia.
  - rewrite length_drop. lia.
  - apply sha1_update_ok; [done|]. unfold int_length. rewrite length_take. lia.
  - exists ctx'. split; [done|]. by rewrite <- app_assoc, take_drop in W'.
Qed.

(** C35: The digest is the SHA-1 of FIPS 180 for a message in any pieces; the watchdog
    variant computes the same for every positive chunk size, and with chunk size 0
    never ends. *)
Theorem sha1_correct buf (cs : list (list Z)) chunk_sz : length buf = 64%nat -> Forall int_length cs ->
  let m := concat cs in
  sha1_finish (fold_left sha1_update cs (sha1_starts buf)) = SHA1 m /\
  (int_length m -> 0 < chunk_sz -> sha1_csum_wd buf m chunk_sz = Ok (SHA1 m)) /\
  (m <> [] -> forall fuel, csum_loop fuel (sha1_starts buf) m 0 = OutOfFuel).
Proof.
  intros Hb Hc m. assert (W0 : absorbed sha1_process H160 (sha1_starts buf) []) by (by apply absorbed_start). split_and!.
  - apply sha1_finish_ok. by apply (sha1_chunks_ok cs Hc _ []).
  - intros Hm Hz. destruct (csum_loop_ok chunk_sz Hz (length m) (sha1_starts buf) [] m (le_n _) Hm W0) as (ctx & E & W).
    unfold sha1_csum_wd. rewrite (res_bind_ok _ _ _ E). unfold mret, res_ret. f_equal. by apply sha1_finish_ok.
  - intros Hm fuel. generalize (sha1_starts buf). induction fuel as [|fuel IH]; intros ctx; cbn [csum_loop].
    + by destruct (Nat.eqb_spec (length m) 0) as [E|]; [destruct m|].
    + destruct (Nat.eqb_spec (length m) 0) as [E|]; [by destruct m|]. cbv zeta.
      destruct (Z.ltb_spec 0 (Z.of_nat (length m))); [|lia]. change (Z.to_nat 0) with 0%nat. rewrite take_0, drop_0.
      unfold sha1_update. change (s32 (Z.of_nat (length (@nil Z))) <=? 0) with true. cbv iota. apply IH.
Qed.

Lemma xor_key_map p : forall key n, (length key <= n)%nat ->
  xor_key (replicate n p) key = map (Z.lxor p) (key ++ replicate (n - length key) 0).
Proof.
  induction key as [|k key IH]; intros n Hn; cbn [length app].
  - rewrite Nat.sub_0_r. clear. induction n as [|n IH]; [done|]. cbn [replicate map]. rewrite Z.lxor_0_r, <- IH. by destruct n.
  - destruct n as [|n]; [simpl in Hn; lia|]. cbn [replicate xor_key map Nat.sub]. rewrite IH by (simpl in Hn; lia). done.
Qed.

Lemma xor_key_take : forall pad key, xor_key pad key = xor_key pad (take (length pad) key).
Proof. induction pad as [|p pad IH]; intros [|k key]; try done. cbn [length take xor_key]. by rewrite <- IH. Qed.

Lemma SHA1_length m : length (SHA1 m) = 20%nat.
Proof.
  unfold SHA1, md_hash. assert (H : forall bs st, length st = 5%nat -> length (fold_left compress160 bs st) = 5%nat).
  { induction bs as [|b bs IH]; intros st Hst; [done|]. apply IH. by apply sha1_process_ok. }
  specialize (H (blocks (pad m)) H160 eq_refl). revert H. generalize (fold_left compress160 (blocks (pad m)) H160).
  intros l Hl. do 5 (destruct l as [|? l]; [done|]). by destruct l.
Qed.

(** [sha1_hmac] is the HMAC of RFC 2104 with the first 64 bytes of the key. *)
Theorem sha1_hmac_correct buf key input : length buf = 64%nat -> int_length input ->
  sha1_hmac buf key input = HMAC SHA1 (take 64 key) input.
Proof.
  intros Hb Hi. unfold sha1_hmac, HMAC. cbv zeta.
  assert (Hk : forall p, xor_key (replicate 64 p) key = map (Z.lxor p) (take 64 key ++ replicate (64 - length (take 64 key)) 0)).
  { intros p. rewrite xor_key_take, length_replicate. apply xor_key_map. rewrite length_take. lia. }
  rewrite !Hk. set (k0 := _ ++ _).
  assert (Hl : forall p, int_length (map (Z.lxor p) k0)).
  { intros p. unfold int_length. rewrite length_map. unfold k0. rewrite length_app, length_replicate, length_take. lia. }
  rewrite (sha1_digest buf _ input) by (done || apply Hl). rewrite sha1_digest; [done|done|apply Hl|]. unfold int_length. rewrite SHA1_length. lia.
Qed.

Lemma sha1_correct_witness :
  sha1_finish (fold_left sha1_update [zs "a"; []; zs "bc"] (sha1_starts (replicate 64 7))) = SHA1 (zs "abc") /\
  sha1_csum_wd (replicate 64 7) (zs "abc") 2 = Ok (SHA1 (zs "abc")).
Proof.
  destruct (sha1_correct (replicate 64 7) [zs "a"; []; zs "bc"] 2 eq_refl) as (H1 & H2 & _).
  { repeat (constructor; [reflexivity|]). constructor. }
  split; [exact H1|]. apply H2; reflexivity.
Defined.

Lemma sha1_hmac_correct_witness :
  sha1_hmac (replicate 64 7) (zs "Jefe") (zs "what do ya want for nothing?") =
    HMAC SHA1 (zs "Jefe") (zs "what do ya want for nothing?").
Proof. exact (sha1_hmac_correct (replicate 64 7) (zs "Jefe") (zs "what do ya want for nothing?") eq_refl eq_refl). Defined.

(** The second vector of RFC 2202. *)
Example hmac_vector : sha1_hmac (replicate 64 7) (zs "Jefe") (zs "what do ya want for nothing?") =
  flat_map PUT_UINT32_BE [0xeffcdf6a; 0xe5eb2fa2; 0xd27416d5; 0xf184df9c; 0x259a7c79].
Proof. vm_compute. reflexivity. Qed.

(** The sixth: a key of 80 bytes should be hashed first. *)
Example hmac_long_key :
  let key := replicate 80 0xaa in let text := zs "Test Using Larger Than Block-Size Key - Hash Key First" in
  HMAC SHA1 (SHA1 key) text = flat_map PUT_UINT32_BE [0xaa4ae5e1; 0x5272d00e; 0x95705637; 0xce8a3b55; 0xed402112] /\
  sha1_hmac (replicate 64 7) key text <> HMAC SHA1 (SHA1 key) text.
Proof. split; [vm_compute; reflexivity|]. vm_compute. discriminate. Qed.
