(* ===== verification/Eth.v ===== *)
(** * Ethernet devices (net/eth.c)

    The registered devices form a ring; [devices] lists it from [eth_devices] on,
    and a pointer to a device is its index.  The environment is given by its
    contents, the list of names and values of [Env.env_repr], with the operations
    that theorems [Env.getenv_correct] and [Env.setenv_correct] show [getenv] and
    [setenv] to be; a variable is assumed to fit and not to be write-protected.
    Initialising a device is driver code: [dev_init dev k] is what the [k]th call
    of an [init] returns for the device. *)

From S2P Require Import Prelude Ctype Vsprintf Env.

(** ** The environment seen by the network code *)

Record environment := Environ { vars : list (list Z * list Z); env_id : Z }.

Definition var (e : environment) (name : list Z) : option (list Z) := env_lookup name (vars e).

Definition set_var (e : environment) (name : list Z) (value : option (list Z)) : environment :=
  Environ (env_remove name (vars e) ++ match value with Some v => [(name, v)] | None => [] end) (s32 (env_id e + 1)).

(** ** Hardware addresses *)

Fixpoint enetaddr_loop (n : nat) (addr : option (list Z)) : list Z :=
  match n with
  | O => []
  | S n =>
      match addr with
      | None => 0 :: enetaddr_loop n None
      | Some s =>
          let '(v, e) := simple_strtoul s 16 in
          u8 v :: enetaddr_loop n (Some (if negb (deref e =? 0) then tl e else e))
      end
  end.

Definition eth_parse_enetaddr (addr : option (list Z)) : list Z := enetaddr_loop 6 addr.

Definition is_zero_ether_addr (addr : list Z) : bool := fold_left Z.lor addr 0 =? 0.
Definition is_multicast_ether_addr (addr : list Z) : bool := negb (Z.land 0x01 (nth 0 addr 0) =? 0).
Definition is_valid_ether_addr (addr : list Z) : bool :=
  negb (is_multicast_ether_addr addr) && negb (is_zero_ether_addr addr).

Definition eth_getenv_enetaddr (e : environment) (name : list Z) : list Z * bool :=
  let enetaddr := eth_parse_enetaddr (var e name) in (enetaddr, is_valid_ether_addr enetaddr).

Definition eth_setenv_enetaddr (e : environment) (name enetaddr : list Z) : res environment :=
  '(buf, _) ← sprintf true (zs "%pM") [A_ptr 1 enetaddr];
  mret (set_var e name (Some buf)).

Definition eth_getenv_enetaddr_by_index (e : environment) (index : nat) : res (list Z * bool) :=
  '(enetvar, _) ← sprintf true (if (index =? 0)%nat then zs "ethaddr" else zs "eth%daddr") [A_int (Z.of_nat index)];
  mret (eth_getenv_enetaddr e enetvar).

(** ** Devices *)

Definition ETH_STATE_INIT : Z := 0.
Definition ETH_STATE_PASSIVE : Z := 1.
Definition ETH_STATE_ACTIVE : Z := 2.

Record eth_device := Dev { dname : list Z; enetaddr : list Z; dstate : Z }.

(** [act] and [act_id] are the static variables of [eth_set_current],
    [first_failed] that of [eth_try_another]; [inits] counts the calls of [init]. *)
Record eth := Eth {
  devices : list eth_device;
  eth_current : option nat;
  first_failed : option nat;
  NetRestartWrap : Z;
  act : option (list Z);
  act_id : Z;
  inits : nat;
  env : environment
}.

Definition with_devices (s : eth) (d : list eth_device) : eth :=
  Eth d (eth_current s) (first_failed s) (NetRestartWrap s) (act s) (act_id s) (inits s) (env s).
Definition with_current (s : eth) (c : option nat) : eth :=
  Eth (devices s) c (first_failed s) (NetRestartWrap s) (act s) (act_id s) (inits s) (env s).
Definition with_failed (s : eth) (f : option nat) : eth :=
  Eth (devices s) (eth_current s) f (NetRestartWrap s) (act s) (act_id s) (inits s) (env s).
Definition with_wrap (s : eth) (w : Z) : eth :=
  Eth (devices s) (eth_current s) (first_failed s) w (act s) (act_id s) (inits s) (env s).
Definition with_act (s : eth) (a : option (list Z)) (i : Z) : eth :=
  Eth (devices s) (eth_current s) (first_failed s) (NetRestartWrap s) a i (inits s) (env s).
Definition with_inits (s : eth) (k : nat) : eth :=
  Eth (devices s) (eth_current s) (first_failed s) (NetRestartWrap s) (act s) (act_id s) k (env s).
Definition with_env (s : eth) (e : environment) : eth :=
  Eth (devices s) (eth_current s) (first_failed s) (NetRestartWrap s) (act s) (act_id s) (inits s) e.

(** [dev->next]. *)
Definition next_dev (s : eth) (i : nat) : nat := (S i mod length (devices s))%nat.

Definition dev_name (s : eth) (i : nat) : list Z := default [] (dname <$> devices s !! i).

(** Change the device [i]. *)
Definition set_dev (s : eth) (i : nat) (f : eth_device -> eth_device) : eth := with_devices s (alter f i (devices s)).

Fixpoint by_name_loop (devname : list Z) (l : list eth_device) (i : nat) : option nat :=
  match l with
  | [] => None
  | d :: l => if str_eq devname (dname d) then Some i else by_name_loop devname l (S i)
  end.

Definition eth_get_dev_by_name (s : eth) (devname : list Z) : option nat := by_name_loop devname (devices s) 0.

Definition eth_get_dev_by_index (s : eth) (index : Z) : option nat :=
  if (0 <=? index) && (index <? Z.of_nat (length (devices s))) then Some (Z.to_nat index) else None.

(** The search for [eth_current] goes round for ever when there is none. *)
Definition eth_get_dev_index (s : eth) : res Z :=
  match devices s, eth_current s with
  | [], _ => mret (-1)
  | _, Some i => mret (Z.of_nat i)
  | _, None => OutOfFuel
  end.

(** [ethact] names the current device. *)
Definition update_ethact (s : eth) : eth :=
  match eth_current s with
  | None => s
  | Some c =>
      let name := dev_name s c in
      match var (env s) (zs "ethact") with
      | Some act => if str_eq act name then s else with_env s (set_var (env s) (zs "ethact") (Some name))
      | None => with_env s (set_var (env s) (zs "ethact") (Some name))
      end
  end.

Definition eth_register (s : eth) (dev : eth_device) : eth :=
  let dev := Dev (dname dev) (enetaddr dev) ETH_STATE_INIT in
  match devices s with
  | [] => update_ethact (with_current (with_devices s [dev]) (Some 0%nat))
  | l => with_devices s (l ++ [dev])
  end.

(** The loop of [eth_initialize] over the devices. *)
Fixpoint initialize_loop (n eth_number : nat) (ethprime : option (list Z)) (s : eth) : res eth :=
  match n with
  | O => mret s
  | S n =>
      let s := match ethprime with
               | Some p => if str_eq (dev_name s eth_number) p then with_current s (Some eth_number) else s
               | None => s
               end in
      '(env_enetaddr, _) ← eth_getenv_enetaddr_by_index (env s) eth_number;
      let s := if negb (is_zero_ether_addr env_enetaddr)
               then set_dev s eth_number (fun d => Dev (dname d) env_enetaddr (dstate d)) else s in
      initialize_loop n (S eth_number) ethprime s
  end.

(** [probed] are the devices that the board or the CPU registers. *)
Definition eth_initialize (s : eth) (probed : list eth_device) : res (Z * eth) :=
  let s := fold_left eth_register probed (with_current (with_devices s []) None) in
  match devices s with
  | [] => mret (0, s)
  | l =>
      s ← initialize_loop (length l) 0 (var (env s) (zs "ethprime")) s;
      let s := match eth_current s with
               | Some _ => update_ethact s
               | None => with_env s (set_var (env s) (zs "ethact") None)
               end in
      mret (Z.of_nat (length l), s)
  end.

Definition eth_try_another (s : eth) (first_restart : bool) : eth :=
  let rotate := match var (env s) (zs "ethrotate") with Some r => negb (str_eq r (zs "no")) | None => true end in
  if negb rotate then s
  else
    match eth_current s with
    | None => s
    | Some c =>
        let s := if first_restart then with_failed s (Some c) else s in
        let s := update_ethact (with_current s (Some (next_dev s c))) in
        if bool_decide (first_failed s = eth_current s) then with_wrap s 1 else s
    end.

(** The addresses of the environment go to the devices. *)
Fixpoint sync_loop (n eth_number : nat) (s : eth) : res eth :=
  match n with
  | O => mret s
  | S n =>
      '(env_enetaddr, valid) ← eth_getenv_enetaddr_by_index (env s) eth_number;
      let s := if (valid : bool) then set_dev s eth_number (fun d => Dev (dname d) env_enetaddr (dstate d)) else s in
      sync_loop n (S eth_number) s
  end.

Section Init.
Context (dev_init : nat -> nat -> Z).

Fixpoint eth_init_loop (fuel : nat) (old_current : nat) (s : eth) : res (Z * eth) :=
  match fuel with
  | O => OutOfFuel
  | S fuel =>
      c ← of_option (eth_current s);
      let r := dev_init c (inits s) in
      let s := with_inits s (S (inits s)) in
      if 0 <=? r then mret (0, set_dev s c (fun d => Dev (dname d) (enetaddr d) ETH_STATE_ACTIVE))
      else
        let s := eth_try_another s false in
        if bool_decide (eth_current s = Some old_current) then mret (-1, s) else eth_init_loop fuel old_current s
  end.

Definition eth_init (s : eth) : res (Z * eth) :=
  match eth_current s with
  | None => mret (-1, s)
  | Some c => s ← sync_loop (length (devices s)) 0 s; eth_init_loop (length (devices s)) c s
  end.
End Init.

Definition eth_halt (s : eth) : eth :=
  match eth_current s with
  | None => s
  | Some c => set_dev s c (fun d => Dev (dname d) (enetaddr d) ETH_STATE_PASSIVE)
  end.

(** Once round the ring for the device called [act]. *)
Fixpoint set_current_loop (fuel : nat) (old_current : nat) (act : list Z) (s : eth) : res (bool * eth) :=
  match fuel with
  | O => OutOfFuel
  | S fuel =>
      c ← of_option (eth_current s);
      if str_eq (dev_name s c) act then mret (true, s)
      else
        let s := with_current s (Some (next_dev s c)) in
        if bool_decide (eth_current s = Some old_current) then mret (false, s) else set_current_loop fuel old_current act s
  end.

Definition eth_set_current (s : eth) : res eth :=
  match eth_current s with
  | None => mret s
  | Some c =>
      let s := if bool_decide (act s = None) || negb (act_id s =? env_id (env s))
               then with_act s (var (env s) (zs "ethact")) (env_id (env s)) else s in
      '(found, s) ← match act s with Some a => set_current_loop (length (devices s)) c a s | None => mret (false, s) end;
      if (found : bool) then mret s
      else
        c ← of_option (eth_current s);
        mret (with_env s (set_var (env s) (zs "ethact") (Some (dev_name s c))))
  end.

Definition eth_get_name (s : eth) : list Z :=
  match eth_current s with Some c => dev_name s c | None => zs "unknown" end.

Lemma conv_d net rest n args w : conversion net (ch "d" :: rest) (A_int n :: args) w =
  Ok (Conv (number (u64 (s32 (u32 n))) 10 (-1) (-1) SIGN) [] rest args).
Proof. reflexivity. Qed.

Lemma conv_mac rest addr args w : conversion true (ch "p" :: ch "M" :: rest) (A_ptr 1 addr :: args) w =
  (out ← mac_address_string addr (-1) (-1) 0; Ok (Conv out [] (skip_alnum rest) args)).
Proof. reflexivity. Qed.

Lemma loop_char net fuel c fmt args out st : c <> ch "%" ->
  vsprintf_loop net (S fuel) (c :: fmt) args out st = vsprintf_loop net fuel fmt args (out ++ [c]) st.
Proof. intros H. cbn [vsprintf_loop]. by destruct (Z.eqb_spec c (ch "%")). Qed.

Lemma loop_conv net fuel fmt args out st r : conversion net fmt args (Z.of_nat (length out)) = Ok r ->
  vsprintf_loop net (S fuel) (ch "%" :: fmt) args out st =
    vsprintf_loop net fuel (c_fmt r) (c_args r) (out ++ c_out r) (st ++ c_store r).
Proof. intros H. cbn [vsprintf_loop]. cbn [Z.eqb negb]. rewrite Z.eqb_refl. cbn [negb]. by rewrite (res_bind_ok _ _ _ H). Qed.

Definition mac_text (b : list Z) : list Z :=
  match b with
  | [b0; b1; b2; b3; b4; b5] =>
      pack_hex_byte b0 ++ [ch ":"] ++ pack_hex_byte b1 ++ [ch ":"] ++ pack_hex_byte b2 ++ [ch ":"] ++
      pack_hex_byte b3 ++ [ch ":"] ++ pack_hex_byte b4 ++ [ch ":"] ++ pack_hex_byte b5
  | _ => []
  end.

Lemma mac_printed b : length b = 6%nat -> sprintf true (zs "%pM") [A_ptr 1 b] = Ok (mac_text b, []).
Proof.
  intros Hl. do 6 (destruct b as [|? b]; [done|]). destruct b; [|done].
  unfold sprintf, vsprintf. change (zs "%pM") with (ch "%" :: [ch "p"; ch "M"]). cbn [length].
  erewrite loop_conv; [|rewrite conv_mac; unfold mac_address_string; reflexivity].
  cbn [c_fmt c_args c_out c_store skip_alnum app vsprintf_loop]. unfold mac_text, pack_hex_byte.
  repeat match goal with |- context [hex_asc_hi ?z] => generalize (hex_asc_hi z); intros ? end.
  repeat match goal with |- context [hex_asc_lo ?z] => generalize (hex_asc_lo z); intros ? end. reflexivity.
Qed.

(** What is printed is read back. *)
Lemma strtoul_hex_byte b rest : byte b -> stops 16 rest -> Forall byte rest ->
  simple_strtoul (pack_hex_byte b ++ rest) 16 = (b, rest).
Proof.
  intros Hb Hs Hr.
  set (P := fun b => bool_decide (byte (hex_asc_hi b)) && bool_decide (byte (hex_asc_lo b)) &&
    isxdigit (hex_asc_hi b) && isxdigit (hex_asc_lo b) &&
    (digit_value (hex_asc_hi b) <? 16) && (digit_value (hex_asc_lo b) <? 16) &&
    (u32 (digits_value 16 (pack_hex_byte b) 0) =? b)).
  assert (H : P b = true) by (apply byte_forall; [vm_compute; reflexivity|done]).
  unfold P in H. rewrite !andb_true_iff, !bool_decide_eq_true, !Z.ltb_lt, Z.eqb_eq in H.
  destruct H as ((((((B1 & B2) & X1) & X2) & V1) & V2) & E). rewrite strtoul_digits; [by rewrite E|lia|done| |done|done].
  unfold pack_hex_byte. apply Forall_cons. split; [done|]. apply Forall_cons. done.
Qed.

Lemma enetaddr_step n b rest : byte b -> Forall byte rest ->
  enetaddr_loop (S n) (Some (pack_hex_byte b ++ [ch ":"] ++ rest)) = b :: enetaddr_loop n (Some rest).
Proof.
  intros Hb Hr. cbn [enetaddr_loop]. rewrite strtoul_hex_byte; [|done|by split; [left|]|constructor; [by vm_compute|done]].
  cbn [app deref]. unfold u8. by rewrite Z.mod_small by apply Hb.
Qed.

Lemma pack_bytes b : byte b -> Forall byte (pack_hex_byte b).
Proof.
  intros Hb. set (P := fun b => bool_decide (Forall byte (pack_hex_byte b))).
  assert (H : P b = true) by (apply byte_forall; [vm_compute; reflexivity|done]). by apply bool_decide_eq_true in H.
Qed.

Lemma parse_mac_text b : length b = 6%nat -> Forall byte b -> eth_parse_enetaddr (Some (mac_text b)) = b.
Proof.
  intros Hl Hb. do 6 (destruct b as [|? b]; [done|]). destruct b; [|done].
  repeat match goal with H : Forall byte (_ :: _) |- _ => apply Forall_cons in H as [? H] end.
  unfold eth_parse_enetaddr, mac_text.
  assert (Hc : forall b l, byte b -> Forall byte l -> Forall byte (pack_hex_byte b ++ [ch ":"] ++ l)).
  { intros x l Hx Hl'. apply Forall_app. split; [by apply pack_bytes|]. constructor; [vm_compute; split; congruence|done]. }
  do 5 (rewrite enetaddr_step; [f_equal|done|repeat (apply Hc; [done|]); by apply pack_bytes]).
  cbn [enetaddr_loop]. rewrite <- (app_nil_r (pack_hex_byte _)). rewrite strtoul_hex_byte by done.
  unfold u8. by rewrite Z.mod_small by done.
Qed.


Definition enet_var (i : nat) : list Z :=
  if (i =? 0)%nat then zs "ethaddr" else zs "eth" ++ number (u64 (s32 (u32 (Z.of_nat i)))) 10 (-1) (-1) SIGN ++ zs "addr".

Lemma enet_var_text i : sprintf true (if (i =? 0)%nat then zs "ethaddr" else zs "eth%daddr") [A_int (Z.of_nat i)] = Ok (enet_var i, []).
Proof.
  unfold enet_var. destruct (i =? 0)%nat; [reflexivity|]. unfold sprintf, vsprintf.
  change (zs "eth%daddr") with (ch "e" :: ch "t" :: ch "h" :: ch "%" :: ch "d" :: zs "addr"). cbn [length].
  do 3 (rewrite loop_char by done). erewrite loop_conv by apply conv_d. cbn [c_fmt c_args c_out c_store].
  generalize (number (u64 (s32 (u32 (Z.of_nat i)))) 10 (-1) (-1) SIGN). intros l.
  change (zs "addr") with (ch "a" :: ch "d" :: ch "d" :: ch "r" :: []).
  cbn [length]. do 4 (rewrite loop_char by done). cbn [vsprintf_loop]. rewrite <- !app_assoc. reflexivity.
Qed.

(** ** The environment *)

Lemma env_lookup_absent name l : name ∉ l.*1 -> env_lookup name l = None.
Proof.
  induction l as [|[n v] l IH]; [done|]. cbn. rewrite elem_of_cons. intros H. rewrite decide_False by tauto. apply IH. tauto.
Qed.

Lemma env_remove_same name l : NoDup l.*1 -> env_lookup name (env_remove name l) = None.
Proof.
  induction l as [|[n v] l IH]; [done|]. cbn. rewrite NoDup_cons. intros [Hn Hl]. case_decide.
  - subst. by apply env_lookup_absent.
  - cbn [env_lookup]. rewrite decide_False by done. by apply IH.
Qed.

Lemma var_set_ne e name other v : name <> other -> var (set_var e other v) name = var e name.
Proof.
  intros H. unfold var, set_var. cbn [vars]. rewrite env_lookup_app, env_lookup_remove_ne by done.
  destruct (env_lookup name (vars e)); [done|]. destruct v; [|done]. cbn [env_lookup]. by rewrite decide_False.
Qed.

Lemma var_set_same e name v : NoDup (vars e).*1 -> var (set_var e name v) name = v.
Proof.
  intros H. unfold var, set_var. cbn [vars]. rewrite env_lookup_app, env_remove_same by done.
  destruct v; [|done]. cbn [env_lookup]. by rewrite decide_True.
Qed.

(** A hardware address stored in the environment is found there again. *)
Theorem enetaddr_roundtrip e name addr : NoDup (vars e).*1 -> length addr = 6%nat -> Forall byte addr ->
  exists e', eth_setenv_enetaddr e name addr = Ok e' /\
    eth_getenv_enetaddr e' name = (addr, is_valid_ether_addr addr) /\
    forall other, other <> name -> var e' other = var e other.
Proof.
  intros Hn Hl Hb. eexists. split; [|split].
  - unfold eth_setenv_enetaddr. rewrite mac_printed by done. reflexivity.
  - unfold eth_getenv_enetaddr. by rewrite var_set_same, parse_mac_text by done.
  - intros other Ho. by apply var_set_ne.
Qed.

(** ** Rotation and initialisation *)

Definition rotating (e : environment) : Prop := var e (zs "ethrotate") <> Some (zs "no").

(** The address of the environment, when it has a valid one, replaces that of the
    device. *)
Definition sync_dev (e : environment) (i : nat) (d : eth_device) : eth_device :=
  let '(a, valid) := eth_getenv_enetaddr e (enet_var i) in if (valid : bool) then Dev (dname d) a (dstate d) else d.

Definition activate (d : eth_device) : eth_device := Dev (dname d) (enetaddr d) ETH_STATE_ACTIVE.

Lemma by_index_ok e i : eth_getenv_enetaddr_by_index e i = Ok (eth_getenv_enetaddr e (enet_var i)).
Proof. unfold eth_getenv_enetaddr_by_index. by rewrite enet_var_text. Qed.

Lemma with_devices_twice s d d' : with_devices (with_devices s d) d' = with_devices s d'.
Proof. done. Qed.

Lemma sync_loop_ok n : forall k s, exists D, sync_loop n k s = Ok (with_devices s D) /\
  forall i, D !! i = if bool_decide (k <= i < k + n)%nat then sync_dev (env s) i <$> devices s !! i else devices s !! i.
Proof.
  induction n as [|n IH]; intros k s; cbn [sync_loop].
  { exists (devices s). split; [by destruct s|]. intros i. by rewrite bool_decide_eq_false_2 by lia. }
  rewrite by_index_ok. unfold mbind, res_bind. destruct (eth_getenv_enetaddr (env s) (enet_var k)) as [a v] eqn:E.
  assert (Hs : forall D, let s1 := with_devices s D in
    (forall i, D !! i = if bool_decide (i = k) then sync_dev (env s) i <$> devices s !! i else devices s !! i) ->
    exists D', sync_loop n (S k) s1 = Ok (with_devices s D') /\
    forall i, D' !! i = if bool_decide (k <= i < k + S n)%nat then sync_dev (env s) i <$> devices s !! i else devices s !! i).
  { intros D s1 HD. destruct (IH (S k) s1) as (D' & E' & H'). exists D'. split; [by rewrite E'|]. intros i. rewrite H'.
    unfold s1. cbn [env devices with_devices]. rewrite HD. repeat case_bool_decide; try done; try lia. }
  destruct v.
  - apply Hs. intros i. case_bool_decide as Hi.
    + subst i. rewrite list_lookup_alter_eq. unfold sync_dev. by rewrite E.
    + by rewrite list_lookup_alter_ne by done.
  - assert (Es : with_devices s (devices s) = s) by (by destruct s). specialize (Hs (devices s)). cbv zeta in Hs.
    rewrite Es in Hs. apply Hs. intros i. case_bool_decide as Hi; [|done].
    subst i. unfold sync_dev. rewrite E. clear. by destruct (devices s !! k).
Qed.

Lemma update_ethact_same s : devices (update_ethact s) = devices s /\ eth_current (update_ethact s) = eth_current s /\
  inits (update_ethact s) = inits s /\ first_failed (update_ethact s) = first_failed s /\
  (rotating (env s) -> rotating (env (update_ethact s))) /\ NetRestartWrap (update_ethact s) = NetRestartWrap s.
Proof.
  unfold update_ethact. destruct (eth_current s) eqn:Ec; [|by rewrite Ec].
  assert (H : forall v, rotating (env s) -> rotating (set_var (env s) (zs "ethact") v)).
  { intros v. unfold rotating. by rewrite var_set_ne by (vm_compute; congruence). }
  repeat case_match; split_and!; try done; by apply H.
Qed.

Lemma try_another_ok s first c : rotating (env s) -> eth_current s = Some c ->
  let s' := eth_try_another s first in
  devices s' = devices s /\ eth_current s' = Some (next_dev s c) /\ inits s' = inits s /\ rotating (env s') /\
  first_failed s' = (if first then Some c else first_failed s) /\
  NetRestartWrap s' = if bool_decide (first_failed s' = eth_current s') then 1 else NetRestartWrap s.
Proof.
  intros Hr Hc s'. unfold s', eth_try_another.
  assert (E : match var (env s) (zs "ethrotate") with Some r => negb (str_eq r (zs "no")) | None => true end = true).
  { unfold rotating in Hr. destruct (var _ _) as [r|]; [|done]. unfold str_eq. rewrite bool_decide_eq_false_2; [done|congruence]. }
  rewrite E, Hc. cbn [negb]. set (s1 := if first then _ else s).
  assert (H1 : devices s1 = devices s /\ env s1 = env s /\ inits s1 = inits s /\ NetRestartWrap s1 = NetRestartWrap s /\
    first_failed s1 = if first then Some c else first_failed s) by (unfold s1; by destruct first).
  destruct H1 as (D1 & V1 & I1 & W1 & F1). clearbody s1.
  set (s2 := with_current s1 (Some (next_dev s1 c))). destruct (update_ethact_same s2) as (D & C & I & F & R & W).
  unfold s2 in *. cbn [with_current devices eth_current inits env first_failed NetRestartWrap] in *.
  rewrite V1 in R. set (s3 := update_ethact _) in *. clearbody s3. unfold next_dev in *. rewrite D1 in *.
  case_bool_decide as Hw; cbn [with_wrap devices eth_current inits env first_failed NetRestartWrap];
    split_and!; try congruence; try tauto.
  - by rewrite bool_decide_eq_true_2.
  - rewrite bool_decide_eq_false_2 by done. congruence.
Qed.

Section Init.
Context (dev_init : nat -> nat -> Z).

(** The answer of the [k]th device from [c] on. *)
Definition answer (s : eth) (c k : nat) : Z := dev_init ((c + k) mod length (devices s))%nat (inits s + k).

Lemma init_loop_ok s0 c n : n = length (devices s0) -> (c < n)%nat -> forall m s j,
  (j + m = n)%nat -> (0 < m)%nat -> devices s = devices s0 -> eth_current s = Some ((c + j) mod n)%nat ->
  inits s = (inits s0 + j)%nat -> rotating (env s) ->
  (forall k, (j <= k < n)%nat -> (forall i, (j <= i < k)%nat -> answer s0 c i < 0) -> 0 <= answer s0 c k ->
    exists s', eth_init_loop dev_init m c s = Ok (0, s') /\ eth_current s' = Some ((c + k) mod n)%nat /\
      inits s' = (inits s0 + S k)%nat /\ devices s' = alter activate ((c + k) mod n)%nat (devices s0)) /\
  ((forall i, (j <= i < n)%nat -> answer s0 c i < 0) ->
    exists s', eth_init_loop dev_init m c s = Ok (-1, s') /\ eth_current s' = Some c /\
      inits s' = (inits s0 + n)%nat /\ devices s' = devices s0).
Proof.
  intros Hn Hc. induction m as [|m IH]; intros s j Hj Hm Hd Hcur Hi Hr; [lia|]. cbn [eth_init_loop].
  rewrite Hcur. cbn [of_option]. unfold mbind, res_bind.
  assert (Ea : dev_init ((c + j) mod n)%nat (inits s) = answer s0 c j) by (unfold answer; by rewrite Hi, <- Hn).
  rewrite Ea. set (s1 := with_inits s (S (inits s))).
  destruct (Z.leb_spec 0 (answer s0 c j)) as [Hok|Hbad].
  { split.
    - intros k Hk Hbefore _. destruct (decide (k = j)) as [->|]; [|specialize (Hbefore j ltac:(lia)); lia].
      eexists. split; [done|]. cbn [eth_current inits devices set_dev with_devices s1 with_inits]. unfold s1.
      cbn [eth_current inits devices set_dev with_devices with_inits]. rewrite Hd, Hi. split_and!; try done; lia.
    - intros Hall. specialize (Hall j ltac:(lia)). lia. }
  destruct (try_another_ok s1 false ((c + j) mod n)%nat Hr Hcur) as (D & C & I & R & _ & _).
  set (s2 := eth_try_another s1 false) in *. unfold next_dev in C. unfold s1 in D, C, I.
  cbn [devices inits with_inits] in D, C, I. rewrite Hd, <- Hn in C.
  assert (C' : eth_current s2 = Some ((c + S j) mod n)%nat).
  { rewrite C. f_equal. replace (c + S j)%nat with (S (c + j)) by lia.
    replace (S ((c + j) mod n))%nat with (1 + (c + j) mod n)%nat by lia. rewrite Nat.Div0.add_mod_idemp_r. f_equal. }
  rewrite C'. destruct (decide (m = 0%nat)) as [->|Hm0].
  { assert (S j = n) by lia. rewrite bool_decide_eq_true_2.
    - split.
      + intros k Hk _ Hk2. replace k with j in Hk2 by lia. lia.
      + intros _. exists s2. split; [done|]. split; [|split; [lia|by rewrite D]].
        rewrite C'. f_equal. replace (c + S j)%nat with (c + 1 * n)%nat by lia. rewrite Nat.Div0.mod_add. by apply Nat.mod_small.
    - f_equal. replace (c + S j)%nat with (c + 1 * n)%nat by lia. rewrite Nat.Div0.mod_add. by apply Nat.mod_small. }
  rewrite bool_decide_eq_false_2.
  2: { intros [= E]. destruct (decide (c + S j < n)%nat); [rewrite Nat.mod_small in E by lia; lia|].
       replace (c + S j)%nat with ((c + S j - n) + 1 * n)%nat in E by lia.
       rewrite Nat.Div0.mod_add, Nat.mod_small in E by lia. lia. }
  destruct (IH s2 (S j)) as [H1 H2]; [lia|lia|by rewrite D|done|lia|done|]. split.
  - intros k Hk Hbefore Hk2. destruct (decide (k = j)) as [->|]; [lia|]. apply H1; [lia|intros; apply Hbefore; lia|done].
  - intros Hall. apply H2. intros. apply Hall. lia.
Qed.

(** [eth_init] gives every device its address of the environment and tries the
    devices once round from the current one: the first whose [init] succeeds is
    active and current afterwards; when all fail, the result is -1 and the current
    device is as before. *)
Theorem eth_init_correct s c : let n := length (devices s) in
  eth_current s = Some c -> (c < n)%nat -> rotating (env s) ->
  (forall k, (k < n)%nat -> (forall j, (j < k)%nat -> answer s c j < 0) -> 0 <= answer s c k ->
    exists s', eth_init dev_init s = Ok (0, s') /\ eth_current s' = Some ((c + k) mod n)%nat /\
      forall i, devices s' !! i =
        (fun d => if bool_decide (i = (c + k) mod n)%nat then activate (sync_dev (env s) i d) else sync_dev (env s) i d)
          <$> devices s !! i) /\
  ((forall j, (j < n)%nat -> answer s c j < 0) ->
    exists s', eth_init dev_init s = Ok (-1, s') /\ eth_current s' = Some c /\
      forall i, devices s' !! i = sync_dev (env s) i <$> devices s !! i).
Proof.
  intros n Hcur Hc Hr. unfold eth_init. rewrite Hcur.
  destruct (sync_loop_ok (length (devices s)) 0 s) as (D & E & HD). rewrite (res_bind_ok _ _ _ E).
  assert (HD' : forall i, D !! i = sync_dev (env s) i <$> devices s !! i).
  { intros i. rewrite HD. case_bool_decide; [done|]. by rewrite !lookup_ge_None_2 by lia. }
  assert (Hl : length D = n).
  { apply Nat.le_antisymm.
    - apply lookup_ge_None. rewrite HD'. by rewrite lookup_ge_None_2.
    - apply Nat.nlt_ge. intros Hlt. assert (is_Some (D !! length D)) as Hs.
      { rewrite HD'. apply fmap_is_Some. by apply lookup_lt_is_Some. } apply lookup_lt_is_Some in Hs. lia. }
  cbn [devices with_devices]. rewrite Hl.
  destruct (init_loop_ok (with_devices s D) c n (eq_sym Hl) Hc n (with_devices s D) 0) as [H1 H2]; try done; try lia.
  { cbn. rewrite Hcur, Nat.add_0_r. by rewrite Nat.mod_small. }
  assert (Ha : forall k, answer (with_devices s D) c k = answer s c k) by (intros k; unfold answer; cbn; by rewrite Hl).
  split.
  - intros k Hk Hb Hok. destruct (H1 k) as (s' & E' & C & _ & Hdev).
    + lia.
    + intros i Hi. rewrite Ha. apply Hb. lia.
    + by rewrite Ha.
    + exists s'. split; [done|]. split; [done|]. intros i. rewrite Hdev. cbn [devices with_devices].
      destruct (decide (i = (c + k) mod n)%nat) as [Hi|Hi].
      * rewrite bool_decide_eq_true_2 by done. subst i. rewrite list_lookup_alter_eq, HD'. by destruct (devices s !! _).
      * rewrite bool_decide_eq_false_2 by done. by rewrite list_lookup_alter_ne, HD' by done.
  - intros Hall. destruct H2 as (s' & E' & C & _ & Hdev).
    + intros i Hi. rewrite Ha. apply Hall. lia.
    + exists s'. split; [done|]. split; [done|]. intros i. rewrite Hdev. cbn. by rewrite HD'.
Qed.
End Init.

(** Two devices, the first of which does not start. *)
Definition two_devices : eth :=
  Eth [Dev (zs "stm0") [2; 0; 0; 0; 0; 1] ETH_STATE_INIT; Dev (zs "stm1") [2; 0; 0; 0; 0; 2] ETH_STATE_INIT]
    (Some 0%nat) None 0 None 0 0 (Environ [(zs "eth1addr", zs "02:00:00:00:00:2a")] 1).

Lemma eth_init_correct_witness : exists s',
  eth_init (fun d _ => if (d =? 0)%nat then -1 else 0) two_devices = Ok (0, s') /\ eth_current s' = Some 1%nat /\
  forall i, devices s' !! i =
    (fun d => if bool_decide (i = 1)%nat then activate (sync_dev (env two_devices) i d) else sync_dev (env two_devices) i d)
      <$> devices two_devices !! i.
Proof.
  destruct (eth_init_correct (fun d _ => if (d =? 0)%nat then -1 else 0) two_devices 0 eq_refl) as [H _].
  - cbv. lia.
  - vm_compute. congruence.
  - apply (H 1%nat).
    + cbv. lia.
    + intros j Hj. destruct j; [by vm_compute|lia].
    + by vm_compute.
Defined.

Lemma enetaddr_roundtrip_witness : exists e',
  eth_setenv_enetaddr (env two_devices) (zs "ethaddr") [0; 0x1a; 0xff; 3; 4; 5] = Ok e' /\
    eth_getenv_enetaddr e' (zs "ethaddr") = ([0; 0x1a; 0xff; 3; 4; 5], is_valid_ether_addr [0; 0x1a; 0xff; 3; 4; 5]) /\
    forall other, other <> zs "ethaddr" -> var e' other = var (env two_devices) other.
Proof.
  apply (enetaddr_roundtrip (env two_devices) (zs "ethaddr") [0; 0x1a; 0xff; 3; 4; 5]).
  - cbn. apply NoDup_singleton.
  - reflexivity.
  - apply (bool_decide_unpack _). vm_compute. exact I.
Defined.
