(* ===== verification/Net.v ===== *)
(** * The network loop (net/net.c)

    Frames are lists of bytes.  A received frame is in a buffer that may be longer
    than the frame: what the code reads behind the frame is what the buffer holds,
    and reading behind the buffer is a [Fault].  An [IPaddr_t] is the little-endian
    word of its four bytes, that is, in network byte order as in the code.

    The globals are grouped in the records below; the protocol that the loop was
    started for (TFTP here) is an interface, the class [NetClient]: a state of its
    own and what its start, packet and timeout handlers do.  A function pointer is
    the name of the handler.  [now] is the time [get_timer(0)] returns; it stands
    still while one packet or one turn of the loop is handled.  [sent] lists the
    frames given to the device, the last one last. *)

From S2P Require Import Prelude Ctype Vsprintf Env Eth.

(** ** Byte order and buffers *)

Definition ntohs (x : Z) : Z := Z.lor (u16 (Z.shiftl x 8)) (Z.shiftr (u16 x) 8).
Definition htons : Z -> Z := ntohs.

(** The two bytes of a value in network order. *)
Definition be16 (x : Z) : list Z := [u8 (Z.shiftr x 8); u8 x].
(** The four bytes of an address. *)
Definition ip_bytes (ip : Z) : list Z := [u8 ip; u8 (Z.shiftr ip 8); u8 (Z.shiftr ip 16); u8 (Z.shiftr ip 24)].

Definition get8 (p : list Z) (i : nat) : res Z := arr_get p i.
Definition get16 (p : list Z) (i : nat) : res Z :=
  a ← get8 p i; b ← get8 p (i + 1); mret (256 * a + b).
Definition NetReadIP (p : list Z) (i : nat) : res Z :=
  a ← get8 p i; b ← get8 p (i + 1); c ← get8 p (i + 2); d ← get8 p (i + 3);
  mret (a + 256 * b + 65536 * c + 16777216 * d).
(** [n] bytes from [i] on. *)
Definition get_bytes (p : list Z) (i n : nat) : res (list Z) :=
  if (i + n <=? length p)%nat then Ok (take n (drop i p)) else Fault.
(** Write bytes at [i]. *)
Definition put_bytes (p : list Z) (i : nat) (bs : list Z) : res (list Z) :=
  if (i + length bs <=? length p)%nat then Ok (take i p ++ bs ++ drop (i + length bs) p) else Fault.

(** ** Constants *)

Definition ETHER_HDR_SIZE : Z := 14.
Definition E802_HDR_SIZE : Z := 22.
Definition VLAN_ETHER_HDR_SIZE : Z := 18.
Definition PROT_IP : Z := 0x0800.
Definition PROT_ARP : Z := 0x0806.
Definition PROT_RARP : Z := 0x8035.
Definition PROT_VLAN : Z := 0x8100.
Definition IP_OFFS : Z := 0x1fff.
Definition IP_FLAGS_DFRAG : Z := 0x4000.
Definition IP_FLAGS_MFRAG : Z := 0x2000.
Definition IP_HDR_SIZE_NO_UDP : Z := 20.
Definition IP_HDR_SIZE : Z := 28.
Definition ARP_HDR_SIZE : Z := 28.
Definition PKTSIZE_ALIGN : nat := 1536.
Definition VLAN_NONE : Z := 4095.
Definition VLAN_IDMASK : Z := 0x0fff.
Definition NETLOOP_CONTINUE : Z := 1.
Definition NETLOOP_RESTART : Z := 2.
Definition NETLOOP_SUCCESS : Z := 3.
Definition NETLOOP_FAIL : Z := 4.
Definition ARP_TIMEOUT : Z := 5000.
Definition ARP_TIMEOUT_COUNT : Z := 5.
Definition NetBcastAddr : list Z := replicate 6 0xff.
Definition NetEtherNullAddr : list Z := replicate 6 0.

(** ** State *)

(** Where a pointer to a hardware address points. *)
Inductive mac_ref := MacServer | MacPing | MacBcast.

Inductive rxhand := startAgainHandler | PingHandler | ClientHandler.
Inductive thand := startAgainTimeout | PingTimeout | ClientTimeout.

Record addresses := Addresses {
  NetOurIP : Z;
  NetServerIP : Z;
  NetOurSubnetMask : Z;
  NetOurGatewayIP : Z;
  NetOurVLAN : Z;
  NetOurNativeVLAN : Z;
  NetOurEther : list Z;
  NetServerEther : list Z;
  env_changed_id : Z
}.

Definition set_NetOurIP (v : Z) (s : addresses) : addresses :=
  Addresses v (NetServerIP s) (NetOurSubnetMask s) (NetOurGatewayIP s) (NetOurVLAN s) (NetOurNativeVLAN s) (NetOurEther s) (NetServerEther s) (env_changed_id s).
Definition set_NetServerIP (v : Z) (s : addresses) : addresses :=
  Addresses (NetOurIP s) v (NetOurSubnetMask s) (NetOurGatewayIP s) (NetOurVLAN s) (NetOurNativeVLAN s) (NetOurEther s) (NetServerEther s) (env_changed_id s).
Definition set_NetOurSubnetMask (v : Z) (s : addresses) : addresses :=
  Addresses (NetOurIP s) (NetServerIP s) v (NetOurGatewayIP s) (NetOurVLAN s) (NetOurNativeVLAN s) (NetOurEther s) (NetServerEther s) (env_changed_id s).
Definition set_NetOurGatewayIP (v : Z) (s : addresses) : addresses :=
  Addresses (NetOurIP s) (NetServerIP s) (NetOurSubnetMask s) v (NetOurVLAN s) (NetOurNativeVLAN s) (NetOurEther s) (NetServerEther s) (env_changed_id s).
Definition set_NetOurVLAN (v : Z) (s : addresses) : addresses :=
  Addresses (NetOurIP s) (NetServerIP s) (NetOurSubnetMask s) (NetOurGatewayIP s) v (NetOurNativeVLAN s) (NetOurEther s) (NetServerEther s) (env_changed_id s).
Definition set_NetOurNativeVLAN (v : Z) (s : addresses) : addresses :=
  Addresses (NetOurIP s) (NetServerIP s) (NetOurSubnetMask s) (NetOurGatewayIP s) (NetOurVLAN s) v (NetOurEther s) (NetServerEther s) (env_changed_id s).
Definition set_NetOurEther (v : list Z) (s : addresses) : addresses :=
  Addresses (NetOurIP s) (NetServerIP s) (NetOurSubnetMask s) (NetOurGatewayIP s) (NetOurVLAN s) (NetOurNativeVLAN s) v (NetServerEther s) (env_changed_id s).
Definition set_NetServerEther (v : list Z) (s : addresses) : addresses :=
  Addresses (NetOurIP s) (NetServerIP s) (NetOurSubnetMask s) (NetOurGatewayIP s) (NetOurVLAN s) (NetOurNativeVLAN s) (NetOurEther s) v (env_changed_id s).
Definition set_env_changed_id (v : Z) (s : addresses) : addresses :=
  Addresses (NetOurIP s) (NetServerIP s) (NetOurSubnetMask s) (NetOurGatewayIP s) (NetOurVLAN s) (NetOurNativeVLAN s) (NetOurEther s) (NetServerEther s) v.

Record arp_state := Arp {
  NetArpWaitPacketIP : Z;
  NetArpWaitReplyIP : Z;
  NetArpWaitPacketMAC : option mac_ref;
  NetArpWaitTxPacket : list Z;
  NetArpWaitTxPacketSize : Z;
  NetArpWaitTimerStart : Z;
  NetArpWaitTry : Z
}.

Definition set_NetArpWaitPacketIP (v : Z) (s : arp_state) : arp_state :=
  Arp v (NetArpWaitReplyIP s) (NetArpWaitPacketMAC s) (NetArpWaitTxPacket s) (NetArpWaitTxPacketSize s) (NetArpWaitTimerStart s) (NetArpWaitTry s).
Definition set_NetArpWaitReplyIP (v : Z) (s : arp_state) : arp_state :=
  Arp (NetArpWaitPacketIP s) v (NetArpWaitPacketMAC s) (NetArpWaitTxPacket s) (NetArpWaitTxPacketSize s) (NetArpWaitTimerStart s) (NetArpWaitTry s).
Definition set_NetArpWaitPacketMAC (v : option mac_ref) (s : arp_state) : arp_state :=
  Arp (NetArpWaitPacketIP s) (NetArpWaitReplyIP s) v (NetArpWaitTxPacket s) (NetArpWaitTxPacketSize s) (NetArpWaitTimerStart s) (NetArpWaitTry s).
Definition set_NetArpWaitTxPacket (v : list Z) (s : arp_state) : arp_state :=
  Arp (NetArpWaitPacketIP s) (NetArpWaitReplyIP s) (NetArpWaitPacketMAC s) v (NetArpWaitTxPacketSize s) (NetArpWaitTimerStart s) (NetArpWaitTry s).
Definition set_NetArpWaitTxPacketSize (v : Z) (s : arp_state) : arp_state :=
  Arp (NetArpWaitPacketIP s) (NetArpWaitReplyIP s) (NetArpWaitPacketMAC s) (NetArpWaitTxPacket s) v (NetArpWaitTimerStart s) (NetArpWaitTry s).
Definition set_NetArpWaitTimerStart (v : Z) (s : arp_state) : arp_state :=
  Arp (NetArpWaitPacketIP s) (NetArpWaitReplyIP s) (NetArpWaitPacketMAC s) (NetArpWaitTxPacket s) (NetArpWaitTxPacketSize s) v (NetArpWaitTry s).
Definition set_NetArpWaitTry (v : Z) (s : arp_state) : arp_state :=
  Arp (NetArpWaitPacketIP s) (NetArpWaitReplyIP s) (NetArpWaitPacketMAC s) (NetArpWaitTxPacket s) (NetArpWaitTxPacketSize s) (NetArpWaitTimerStart s) v.

Record loop_state := Loop {
  NetState : Z;
  NetTryCount : Z;
  NetRestarted : bool;
  NetDevExists : bool;
  packetHandler : option rxhand;
  timeHandler : option thand;
  timeStart : Z;
  timeDelta : Z;
  NetBootFileXferSize : Z
}.

Definition set_NetState (v : Z) (s : loop_state) : loop_state :=
  Loop v (NetTryCount s) (NetRestarted s) (NetDevExists s) (packetHandler s) (timeHandler s) (timeStart s) (timeDelta s) (NetBootFileXferSize s).
Definition set_NetTryCount (v : Z) (s : loop_state) : loop_state :=
  Loop (NetState s) v (NetRestarted s) (NetDevExists s) (packetHandler s) (timeHandler s) (timeStart s) (timeDelta s) (NetBootFileXferSize s).
Definition set_NetRestarted (v : bool) (s : loop_state) : loop_state :=
  Loop (NetState s) (NetTryCount s) v (NetDevExists s) (packetHandler s) (timeHandler s) (timeStart s) (timeDelta s) (NetBootFileXferSize s).
Definition set_NetDevExists (v : bool) (s : loop_state) : loop_state :=
  Loop (NetState s) (NetTryCount s) (NetRestarted s) v (packetHandler s) (timeHandler s) (timeStart s) (timeDelta s) (NetBootFileXferSize s).
Definition set_packetHandler (v : option rxhand) (s : loop_state) : loop_state :=
  Loop (NetState s) (NetTryCount s) (NetRestarted s) (NetDevExists s) v (timeHandler s) (timeStart s) (timeDelta s) (NetBootFileXferSize s).
Definition set_timeHandler (v : option thand) (s : loop_state) : loop_state :=
  Loop (NetState s) (NetTryCount s) (NetRestarted s) (NetDevExists s) (packetHandler s) v (timeStart s) (timeDelta s) (NetBootFileXferSize s).
Definition set_timeStart (v : Z) (s : loop_state) : loop_state :=
  Loop (NetState s) (NetTryCount s) (NetRestarted s) (NetDevExists s) (packetHandler s) (timeHandler s) v (timeDelta s) (NetBootFileXferSize s).
Definition set_timeDelta (v : Z) (s : loop_state) : loop_state :=
  Loop (NetState s) (NetTryCount s) (NetRestarted s) (NetDevExists s) (packetHandler s) (timeHandler s) (timeStart s) v (NetBootFileXferSize s).
Definition set_NetBootFileXferSize (v : Z) (s : loop_state) : loop_state :=
  Loop (NetState s) (NetTryCount s) (NetRestarted s) (NetDevExists s) (packetHandler s) (timeHandler s) (timeStart s) (timeDelta s) v.

Record ping_state := Ping {
  NetPingIP : Z;
  PingSeqNo : Z;
  ping_mac : list Z
}.

Definition set_NetPingIP (v : Z) (s : ping_state) : ping_state :=
  Ping v (PingSeqNo s) (ping_mac s).
Definition set_PingSeqNo (v : Z) (s : ping_state) : ping_state :=
  Ping (NetPingIP s) v (ping_mac s).
Definition set_ping_mac (v : list Z) (s : ping_state) : ping_state :=
  Ping (NetPingIP s) (PingSeqNo s) v.
(** [C] is the state of the client. *)
Record net (C : Type) := Net {
  addrs : addresses;
  arp : arp_state;
  loop : loop_state;
  ping : ping_state;
  edev : eth;
  NetIPID : Z;
  NetTxPacket : list Z;
  now : Z;
  sent : list (list Z);
  client : C
}.
Arguments Net {_} _ _ _ _ _ _ _ _ _ _.
Arguments addrs {_} _.
Arguments arp {_} _.
Arguments loop {_} _.
Arguments ping {_} _.
Arguments edev {_} _.
Arguments NetIPID {_} _.
Arguments NetTxPacket {_} _.
Arguments now {_} _.
Arguments sent {_} _.
Arguments client {_} _.

(** The protocols modelled. *)
Inductive proto_t := TFTP | PING | BOOTP | DHCP.

Class NetClient (C : Type) := {
  client_start : proto_t -> ST (net C) unit;
  (* the frame, the packet from its payload to the end of the buffer, dest, src, len *)
  client_rx : list Z -> list Z -> Z -> Z -> Z -> ST (net C) unit;
  client_timeout : ST (net C) unit
}.

Record config := Config { CONFIG_CMD_PING : bool; CONFIG_UDP_CHECKSUM : bool }.

(** ** Checksums *)

Fixpoint cksum_loop (len : nat) (p : list Z) (xsum : Z) : Z :=
  match len with
  | O => xsum
  | S len => cksum_loop len (drop 2 p) (u32 (xsum + (nth 0 p 0 + 256 * nth 1 p 0)))
  end.

Definition NetCksum (p : list Z) (len : nat) : Z :=
  let xsum := cksum_loop len p 0 in
  let xsum := Z.land xsum 0xffff + Z.shiftr xsum 16 in
  let xsum := Z.land xsum 0xffff + Z.shiftr xsum 16 in
  Z.land xsum 0xffff.

Definition NetCksumOk (p : list Z) (len : nat) : bool := Z.land (NetCksum p len + 1) 0xfffe =? 0.

(** [~NetCksum] as it is stored: a little-endian half word. *)
Definition cksum_bytes (sum : Z) : list Z := let c := u16 (Z.lnot sum) in [u8 c; u8 (Z.shiftr c 8)].

(** ** Headers *)

Definition vlan_of (vlan : Z) : Z := let v := ntohs vlan in if v =? 65535 then VLAN_NONE else v.

Definition NetEthHdrSize (a : addresses) : Z :=
  if Z.land (vlan_of (NetOurVLAN a)) VLAN_IDMASK =? VLAN_NONE then ETHER_HDR_SIZE else VLAN_ETHER_HDR_SIZE.

(** The header [NetSetEther] writes. *)
Definition ether_header (a : addresses) (addr : list Z) (prot : Z) : list Z :=
  let myvlanid := vlan_of (NetOurVLAN a) in
  addr ++ NetOurEther a ++
  (if Z.land myvlanid VLAN_IDMASK =? VLAN_NONE then be16 prot
   else be16 PROT_VLAN ++ be16 (Z.land myvlanid VLAN_IDMASK) ++ be16 prot).

Definition NetSetEther (a : addresses) (pkt : list Z) (addr : list Z) (prot : Z) : res (list Z * nat) :=
  let h := ether_header a addr prot in
  pkt ← put_bytes pkt 0 h; mret (pkt, length h).

(** The IP and UDP header with a given checksum field. *)
Definition ip_header (a : addresses) (id sum dest dport sport len : Z) : list Z :=
  [0x45; 0] ++ be16 (IP_HDR_SIZE + len) ++ be16 id ++ be16 IP_FLAGS_DFRAG ++ [255; 17] ++
  [u8 sum; u8 (Z.shiftr sum 8)] ++ ip_bytes (NetOurIP a) ++ ip_bytes dest ++
  be16 sport ++ be16 dport ++ be16 (8 + len) ++ [0; 0].

(** At [off] of the packet; [NetIPID] has been read. *)
Definition NetSetIP (a : addresses) (id : Z) (pkt : list Z) (off : nat) (dest dport sport len : Z) : res (list Z) :=
  pkt ← (if Z.land len 1 =? 0 then mret pkt else put_bytes pkt (off + Z.to_nat (IP_HDR_SIZE + len)) [0]);
  let h := ip_header a id 0 dest dport sport len in
  let sum := u16 (Z.lnot (NetCksum h 10)) in
  put_bytes pkt off (ip_header a id sum dest dport sport len).

Definition arp_packet (op : Z) (sha : list Z) (spa : list Z) (tha : list Z) (tpa : list Z) : list Z :=
  be16 1 ++ be16 PROT_IP ++ [6; 4] ++ be16 op ++ sha ++ spa ++ tha ++ tpa.

(** ** Operations on the state *)

Section Net.
Context {C : Type}.
Implicit Types s : net C.

Definition set_addrs (v : addresses) s : net C :=
  Net v (arp s) (loop s) (ping s) (edev s) (NetIPID s) (NetTxPacket s) (now s) (sent s) (client s).
Definition set_arp (v : arp_state) s : net C :=
  Net (addrs s) v (loop s) (ping s) (edev s) (NetIPID s) (NetTxPacket s) (now s) (sent s) (client s).
Definition set_loop (v : loop_state) s : net C :=
  Net (addrs s) (arp s) v (ping s) (edev s) (NetIPID s) (NetTxPacket s) (now s) (sent s) (client s).
Definition set_ping (v : ping_state) s : net C :=
  Net (addrs s) (arp s) (loop s) v (edev s) (NetIPID s) (NetTxPacket s) (now s) (sent s) (client s).
Definition set_edev (v : eth) s : net C :=
  Net (addrs s) (arp s) (loop s) (ping s) v (NetIPID s) (NetTxPacket s) (now s) (sent s) (client s).
Definition set_ipid (v : Z) s : net C :=
  Net (addrs s) (arp s) (loop s) (ping s) (edev s) v (NetTxPacket s) (now s) (sent s) (client s).
Definition set_tx (v : list Z) s : net C :=
  Net (addrs s) (arp s) (loop s) (ping s) (edev s) (NetIPID s) v (now s) (sent s) (client s).
Definition set_now (v : Z) s : net C :=
  Net (addrs s) (arp s) (loop s) (ping s) (edev s) (NetIPID s) (NetTxPacket s) v (sent s) (client s).
Definition set_sent (v : list (list Z)) s : net C :=
  Net (addrs s) (arp s) (loop s) (ping s) (edev s) (NetIPID s) (NetTxPacket s) (now s) v (client s).
Definition set_client (v : C) s : net C :=
  Net (addrs s) (arp s) (loop s) (ping s) (edev s) (NetIPID s) (NetTxPacket s) (now s) (sent s) v.

Definition upd_addrs (f : addresses -> addresses) : ST (net C) unit := modify (fun s => set_addrs (f (addrs s)) s).
Definition upd_arp (f : arp_state -> arp_state) : ST (net C) unit := modify (fun s => set_arp (f (arp s)) s).
Definition upd_loop (f : loop_state -> loop_state) : ST (net C) unit := modify (fun s => set_loop (f (loop s)) s).
Definition upd_eth (f : eth -> eth) : ST (net C) unit := modify (fun s => set_edev (f (edev s)) s).

Definition set_state (v : Z) : ST (net C) unit := upd_loop (set_NetState v).

(** [eth_send]: the first [len] bytes of a packet. *)
Definition eth_send (pkt : list Z) (len : Z) : ST (net C) unit :=
  s ← get;
  match eth_current (edev s) with
  | None => mret tt
  | Some _ => frame ← lift (get_bytes pkt 0 (Z.to_nat len)); modify (fun s => set_sent (sent s ++ [frame]) s)
  end.

(** The bytes a pointer to a hardware address points to, and writing there. *)
Definition mac_value s (m : mac_ref) : list Z :=
  match m with
  | MacServer => NetServerEther (addrs s)
  | MacPing => ping_mac (ping s)
  | MacBcast => NetBcastAddr
  end.
Definition mac_store (m : mac_ref) (v : list Z) : ST (net C) unit :=
  match m with
  | MacServer => upd_addrs (set_NetServerEther v)
  | MacPing => modify (fun s => set_ping (set_ping_mac v (ping s)) s)
  | MacBcast => mret tt
  end.

Definition next_ipid : ST (net C) Z :=
  s ← get; put (set_ipid (u32 (NetIPID s + 1)) s);; mret (NetIPID s).

(** ** ARP requests *)

Definition ArpRequest : ST (net C) unit :=
  s ← get;
  let a := addrs s in
  let wait := NetArpWaitPacketIP (arp s) in
  let reply :=
    if negb (Z.land wait (NetOurSubnetMask a) =? Z.land (NetOurIP a) (NetOurSubnetMask a)) then
      if NetOurGatewayIP a =? 0 then wait else NetOurGatewayIP a
    else wait in
  '(pkt, n) ← lift (NetSetEther a (NetTxPacket s) NetBcastAddr PROT_ARP);
  pkt ← lift (put_bytes pkt n (arp_packet 1 (NetOurEther a) (ip_bytes (NetOurIP a)) (replicate 6 0) (ip_bytes reply)));
  modify (set_tx pkt);;
  upd_arp (set_NetArpWaitReplyIP reply);;
  eth_send pkt (Z.of_nat n + ARP_HDR_SIZE).

(** ** Timeouts and starting again *)

Definition NetSetHandler (f : rxhand) : ST (net C) unit := upd_loop (set_packetHandler (Some f)).

Definition NetSetTimeout (iv : Z) (f : thand) : ST (net C) unit :=
  s ← get;
  if iv =? 0 then upd_loop (set_timeHandler None)
  else upd_loop (fun l => set_timeDelta iv (set_timeStart (now s) (set_timeHandler (Some f) l))).

(** [netretry]: for ever, or how often. *)
Definition retry_of (nretry : option (list Z)) : bool * Z :=
  match nretry with
  | None => (true, 0)
  | Some v =>
      if str_eq v (zs "yes") then (true, 0)
      else if str_eq v (zs "no") then (false, 0)
      else if str_eq v (zs "once") then (false, 1)
      else (false, fst (simple_strtoul v 0))
  end.

Context (dev_init : nat -> nat -> Z).

Definition net_eth_init : ST (net C) Z :=
  s ← get; '(r, e) ← lift (eth_init dev_init (edev s)); put (set_edev e s);; mret r.

Definition NetStartAgain : ST (net C) unit :=
  s ← get;
  let '(retry_forever, retrycnt) := retry_of (var (env (edev s)) (zs "netretry")) in
  if negb retry_forever && (retrycnt <=? u32 (NetTryCount (loop s))) then
    upd_eth eth_halt;; set_state NETLOOP_FAIL
  else
    upd_loop (fun l => set_NetTryCount (s32 (NetTryCount l + 1)) l);;
    upd_eth eth_halt;;
    upd_eth (fun e => eth_try_another e (negb (NetRestarted (loop s))));;
    _ ← net_eth_init;
    s ← get;
    if negb (NetRestartWrap (edev s) =? 0) then
      upd_eth (fun e => with_wrap e 0);;
      if NetDevExists (loop s) then NetSetTimeout 10000 startAgainTimeout;; NetSetHandler startAgainHandler
      else set_state NETLOOP_FAIL
    else set_state NETLOOP_RESTART.

Definition ArpTimeoutCheck : ST (net C) unit :=
  s ← get;
  if NetArpWaitPacketIP (arp s) =? 0 then mret tt
  else
    let t := now s in
    if ARP_TIMEOUT <? u32 (t - NetArpWaitTimerStart (arp s)) then
      let n := s32 (NetArpWaitTry (arp s) + 1) in
      upd_arp (set_NetArpWaitTry n);;
      if ARP_TIMEOUT_COUNT <=? n then upd_arp (set_NetArpWaitTry 0);; NetStartAgain
      else upd_arp (set_NetArpWaitTimerStart t);; ArpRequest
    else mret tt.

(** ** Sending *)

(** Start waiting for the hardware address of [dest]. *)
Definition arp_wait (pkt : list Z) (size : Z) : ST (net C) unit :=
  s ← get;
  upd_arp (fun r => set_NetArpWaitTimerStart (now s) (set_NetArpWaitTry 1
    (set_NetArpWaitTxPacketSize size (set_NetArpWaitTxPacket pkt r))));;
  ArpRequest.

(** The payload is in [NetTxPacket] behind the headers. *)
Definition NetSendUDPPacket (ether : mac_ref) (dest dport sport len : Z) : ST (net C) Z :=
  let dest := if dest =? 0 then 0xFFFFFFFF else dest in
  let ether := if dest =? 0xFFFFFFFF then MacBcast else ether in
  s ← get;
  let a := addrs s in
  if bool_decide (mac_value s ether = NetEtherNullAddr) then
    upd_arp (fun r => set_NetArpWaitPacketMAC (Some ether) (set_NetArpWaitPacketIP dest r));;
    '(pkt, n) ← lift (NetSetEther a (NetArpWaitTxPacket (arp s)) (mac_value s ether) PROT_IP);
    id ← next_ipid;
    pkt ← lift (NetSetIP a id pkt n dest dport sport len);
    payload ← lift (get_bytes (NetTxPacket s) (n + Z.to_nat IP_HDR_SIZE) (Z.to_nat len));
    pkt ← lift (put_bytes pkt (n + Z.to_nat IP_HDR_SIZE) payload);
    arp_wait pkt (Z.of_nat n + IP_HDR_SIZE + len);;
    mret 1
  else
    '(pkt, n) ← lift (NetSetEther a (NetTxPacket s) (mac_value s ether) PROT_IP);
    id ← next_ipid;
    pkt ← lift (NetSetIP a id pkt n dest dport sport len);
    modify (set_tx pkt);;
    eth_send pkt (Z.of_nat n + IP_HDR_SIZE + len);;
    mret 0.

(** ** Ping *)

Definition icmp_echo (type seq : Z) : list Z :=
  let h sum := be16 (256 * type) ++ sum ++ [0; 0] ++ be16 seq in
  h (cksum_bytes (NetCksum (h [0; 0]) 4)).

Definition ip_header_icmp (a : addresses) (id dest : Z) : list Z :=
  let h sum := [0x45; 0] ++ be16 (IP_HDR_SIZE_NO_UDP + 8) ++ be16 id ++ be16 IP_FLAGS_DFRAG ++ [255; 1] ++
    sum ++ ip_bytes (NetOurIP a) ++ ip_bytes dest in
  h (cksum_bytes (NetCksum (h [0; 0]) 10)).

Definition PingSend : ST (net C) Z :=
  modify (fun s => set_ping (set_ping_mac NetEtherNullAddr (ping s)) s);;
  s ← get;
  let a := addrs s in
  let p := NetPingIP (ping s) in
  upd_arp (fun r => set_NetArpWaitPacketMAC (Some MacPing) (set_NetArpWaitPacketIP p r));;
  '(pkt, n) ← lift (NetSetEther a (NetArpWaitTxPacket (arp s)) (mac_value s MacPing) PROT_IP);
  id ← next_ipid;
  pkt ← lift (put_bytes pkt n (ip_header_icmp a id p ++ icmp_echo 8 (PingSeqNo (ping s))));
  modify (fun s => set_ping (set_PingSeqNo (u16 (PingSeqNo (ping s) + 1)) (ping s)) s);;
  arp_wait pkt (Z.of_nat n + IP_HDR_SIZE_NO_UDP + 8);;
  mret 1.

Definition PingStart : ST (net C) unit :=
  NetSetTimeout 10000 PingTimeout;; NetSetHandler PingHandler;; _ ← PingSend; mret tt.

(** ** Handlers by name *)

Context `{!NetClient C}.

(** [frame] is what [NetRxPacket] points to. *)
Definition run_handler (frame pkt : list Z) (dest src len : Z) : ST (net C) unit :=
  s ← get;
  match packetHandler (loop s) with
  | None => fault
  | Some startAgainHandler => mret tt
  | Some PingHandler =>
      tmp ← lift (NetReadIP pkt 12);
      if negb (tmp =? NetPingIP (ping s)) then mret tt else set_state NETLOOP_SUCCESS
  | Some ClientHandler => client_rx frame pkt dest src len
  end.

Definition run_timeout (x : thand) : ST (net C) unit :=
  match x with
  | startAgainTimeout => set_state NETLOOP_RESTART
  | PingTimeout => upd_eth eth_halt;; set_state NETLOOP_FAIL
  | ClientTimeout => client_timeout
  end.

(** ** Receiving *)

Definition put_at (off : nat) (bs : list Z) (p : list Z) : ST (net C) (list Z) := lift (put_bytes p off bs).

(** An ARP request for our address is answered in the buffer it came in. *)
Definition arp_reply (inpkt : list Z) (off : nat) : ST (net C) unit :=
  s ← get;
  let a := addrs s in
  et_src ← lift (get_bytes inpkt 6 6);
  '(pkt, n) ← lift (NetSetEther a inpkt et_src PROT_ARP);
  pkt ← put_at (off + 6) (be16 2) pkt;
  sha ← lift (get_bytes pkt (off + 8) 6);
  pkt ← put_at (off + 18) sha pkt;
  spa ← lift (get_bytes pkt (off + 14) 4);
  pkt ← put_at (off + 24) spa pkt;
  pkt ← put_at (off + 8) (NetOurEther a) pkt;
  pkt ← put_at (off + 14) (ip_bytes (NetOurIP a)) pkt;
  eth_send pkt (Z.of_nat n + ARP_HDR_SIZE).

(** The awaited answer sends the waiting packet. *)
Definition arp_answer (inpkt : list Z) (off : nat) : ST (net C) unit :=
  s ← get;
  match NetArpWaitPacketMAC (arp s) with
  | None => mret tt
  | Some mac =>
      if NetArpWaitPacketIP (arp s) =? 0 then mret tt
      else
        tmp ← lift (NetReadIP inpkt (off + 14));
        if negb (tmp =? NetArpWaitReplyIP (arp s)) then mret tt
        else
          sha ← lift (get_bytes inpkt (off + 8) 6);
          mac_store mac sha;;
          s ← get;
          pkt ← put_at 0 (mac_value s mac) (NetArpWaitTxPacket (arp s));
          upd_arp (set_NetArpWaitTxPacket pkt);;
          eth_send pkt (NetArpWaitTxPacketSize (arp s));;
          upd_arp (fun r => set_NetArpWaitPacketMAC None (set_NetArpWaitTxPacketSize 0 (set_NetArpWaitPacketIP 0 r)))
  end.

Definition receive_arp (inpkt : list Z) (off : nat) (len : Z) : ST (net C) unit :=
  s ← get;
  if len <? ARP_HDR_SIZE then mret tt
  else
    hrd ← lift (get16 inpkt off);
    pro ← lift (get16 inpkt (off + 2));
    hln ← lift (get8 inpkt (off + 4));
    pln ← lift (get8 inpkt (off + 5));
    op ← lift (get16 inpkt (off + 6));
    tpa ← lift (NetReadIP inpkt (off + 24));
    if negb (hrd =? 1) then mret tt
    else if negb (pro =? PROT_IP) then mret tt
    else if negb (hln =? 6) then mret tt
    else if negb (pln =? 4) then mret tt
    else if NetOurIP (addrs s) =? 0 then mret tt
    else if negb (tpa =? NetOurIP (addrs s)) then mret tt
    else if op =? 1 then arp_reply inpkt off
    else if op =? 2 then arp_answer inpkt off
    else mret tt.

(** The handler is called with a null packet. *)
Definition receive_rarp (inpkt : list Z) (off : nat) (len : Z) : ST (net C) unit :=
  if len <? ARP_HDR_SIZE then mret tt
  else
    hrd ← lift (get16 inpkt off);
    pro ← lift (get16 inpkt (off + 2));
    hln ← lift (get8 inpkt (off + 4));
    pln ← lift (get8 inpkt (off + 5));
    op ← lift (get16 inpkt (off + 6));
    if negb (op =? 4) || negb (hrd =? 1) || negb (pro =? PROT_IP) || negb (hln =? 6) || negb (pln =? 4) then mret tt
    else
      tpa ← lift (NetReadIP inpkt (off + 24));
      spa ← lift (NetReadIP inpkt (off + 14));
      sha ← lift (get_bytes inpkt (off + 8) 6);
      upd_addrs (fun a => let a := set_NetOurIP tpa a in
        set_NetServerEther sha (if NetServerIP a =? 0 then set_NetServerIP spa a else a));;
      run_handler inpkt [] 0 0 0.

(** An echo request is answered in its buffer. *)
Definition icmp_reply (inpkt : list Z) (off : nat) (len : Z) : ST (net C) unit :=
  s ← get;
  let a := addrs s in
  et_src ← lift (get_bytes inpkt 6 6);
  pkt ← put_at 0 et_src inpkt;
  pkt ← put_at 6 (NetOurEther a) pkt;
  pkt ← put_at (off + 10) [0; 0] pkt;
  pkt ← put_at (off + 6) [0; 0] pkt;
  ip_src ← lift (get_bytes pkt (off + 12) 4);
  pkt ← put_at (off + 16) ip_src pkt;
  pkt ← put_at (off + 12) (ip_bytes (NetOurIP a)) pkt;
  pkt ← put_at (off + 10) (cksum_bytes (NetCksum (drop off pkt) 10)) pkt;
  pkt ← put_at (off + 20) [0] pkt;
  pkt ← put_at (off + 22) [0; 0] pkt;
  pkt ← put_at (off + 22) (cksum_bytes (NetCksum (drop (off + 20) pkt) (Z.to_nat (Z.shiftr (len - IP_HDR_SIZE_NO_UDP) 1)))) pkt;
  eth_send pkt (ETHER_HDR_SIZE + len).

Context (cfg : config).

Definition receive_icmp (inpkt : list Z) (off : nat) (len : Z) : ST (net C) unit :=
  type ← lift (get8 inpkt (off + 20));
  if negb (CONFIG_CMD_PING cfg) then mret tt
  else if type =? 0 then run_handler inpkt (drop off inpkt) 0 0 0
  else if type =? 8 then icmp_reply inpkt off len
  else mret tt.

(** The sum over the UDP header and its data; the last odd byte is the high one. *)
Fixpoint udp_sum_loop (fuel : nat) (inpkt : list Z) (sumptr : nat) (sumlen xsum : Z) : res Z :=
  if 1 <? sumlen then
    match fuel with
    | O => OutOfFuel
    | S fuel => w ← get16 inpkt sumptr; udp_sum_loop fuel inpkt (sumptr + 2) (sumlen - 2) (u32 (xsum + w))
    end
  else if 0 <? sumlen then b ← get8 inpkt sumptr; mret (u32 (xsum + Z.land (Z.shiftl b 8) 0xff00))
  else mret xsum.

Fixpoint fold_carries (fuel : nat) (xsum : Z) : res Z :=
  if Z.shiftr xsum 16 =? 0 then mret xsum
  else
    match fuel with
    | O => OutOfFuel
    | S fuel => fold_carries fuel (Z.land xsum 0xffff + Z.land (Z.shiftr xsum 16) 0xffff)
    end.

Definition udp_xsum (inpkt : list Z) (off : nat) : res Z :=
  p ← get8 inpkt (off + 9);
  udp_len ← get16 inpkt (off + 24);
  s1 ← get16 inpkt (off + 12); s0 ← get16 inpkt (off + 14);
  d1 ← get16 inpkt (off + 16); d0 ← get16 inpkt (off + 18);
  xsum ← udp_sum_loop (Z.to_nat 32768) inpkt (off + 20) udp_len (p + udp_len + s1 + s0 + d1 + d0);
  fold_carries 3 xsum.

Definition receive_udp (inpkt : list Z) (off : nat) : ST (net C) unit :=
  udp_src ← lift (get16 inpkt (off + 20));
  udp_dst ← lift (get16 inpkt (off + 22));
  udp_len ← lift (get16 inpkt (off + 24));
  sum ← lift (get16 inpkt (off + 26));
  ok ← (if CONFIG_UDP_CHECKSUM cfg && negb (sum =? 0) then
          xsum ← lift (udp_xsum inpkt off); mret ((xsum =? 0) || (xsum =? 0xffff))
        else mret true);
  if negb ok then mret tt
  else run_handler inpkt (drop (off + Z.to_nat IP_HDR_SIZE) inpkt) udp_dst udp_src (u32 (udp_len - 8)).

Definition receive_ip (inpkt : list Z) (off : nat) (len : Z) : ST (net C) unit :=
  if len <? IP_HDR_SIZE then mret tt
  else
    s ← get;
    ip_len ← lift (get16 inpkt (off + 2));
    hl_v ← lift (get8 inpkt off);
    ip_off ← lift (get16 inpkt (off + 6));
    ip_p ← lift (get8 inpkt (off + 9));
    dst ← lift (NetReadIP inpkt (off + 16));
    if len <? ip_len then mret tt
    else if negb (Z.land hl_v 0xf0 =? 0x40) then mret tt
    else if 5 <? Z.land hl_v 0x0f then mret tt
    else if negb (NetCksumOk (drop off inpkt) 10) then mret tt
    else if negb (NetOurIP (addrs s) =? 0) && negb (dst =? NetOurIP (addrs s)) && negb (dst =? 0xFFFFFFFF) then mret tt
    else if negb (Z.land ip_off (Z.lor IP_OFFS IP_FLAGS_MFRAG) =? 0) then mret tt
    else if ip_p =? 1 then receive_icmp inpkt off ip_len
    else if negb (ip_p =? 17) then mret tt
    else receive_udp inpkt off.

(** By the type of the frame, if its VLAN is ours. *)
Definition receive_type (x : Z) (inpkt : list Z) (off : nat) (len vlanid : Z) : ST (net C) unit :=
  s ← get;
  let my := Z.land (vlan_of (NetOurVLAN (addrs s))) VLAN_IDMASK in
  let native := Z.land (vlan_of (NetOurNativeVLAN (addrs s))) VLAN_IDMASK in
  if negb (my =? VLAN_NONE) && negb ((if vlanid =? VLAN_NONE then native else vlanid) =? my) then mret tt
  else if x =? PROT_ARP then receive_arp inpkt off len
  else if x =? PROT_RARP then receive_rarp inpkt off len
  else if x =? PROT_IP then receive_ip inpkt off len
  else mret tt.

Definition NetReceive (inpkt : list Z) (len : Z) : ST (net C) unit :=
  if len <? ETHER_HDR_SIZE then mret tt
  else
    s ← get;
    x ← lift (get16 inpkt 12);
    if x <? 1514 then
      x ← lift (get16 inpkt 20);
      receive_type x inpkt (Z.to_nat E802_HDR_SIZE) (len - E802_HDR_SIZE) VLAN_NONE
    else if negb (x =? PROT_VLAN) then receive_type x inpkt (Z.to_nat ETHER_HDR_SIZE) (len - ETHER_HDR_SIZE) VLAN_NONE
    else if len <? VLAN_ETHER_HDR_SIZE then mret tt
    else if Z.land (ntohs (NetOurVLAN (addrs s))) VLAN_IDMASK =? VLAN_NONE then mret tt
    else
      cti ← lift (get16 inpkt 14);
      x ← lift (get16 inpkt 16);
      receive_type x inpkt (Z.to_nat VLAN_ETHER_HDR_SIZE) (len - VLAN_ETHER_HDR_SIZE) (Z.land cti VLAN_IDMASK).

(** ** The loop *)

(** What a turn of the loop finds: the frames received with their lengths, whether
    ctrl-C was pressed, the time. *)
Record turn := Turn { t_frames : list (list Z * Z); t_ctrlc : bool; t_time : Z }.

Definition getenv_IPaddr (e : environment) (name : list Z) : Z := string_to_ip (var e name).

Definition string_to_VLAN (v : option (list Z)) : Z :=
  match v with
  | None => htons VLAN_NONE
  | Some s =>
      htons (if (deref s <? ch "0") || (ch "9" <? deref s) then VLAN_NONE else u16 (fst (simple_strtoul s 10)))
  end.
Definition getenv_VLAN (e : environment) (name : list Z) : Z := string_to_VLAN (var e name).

(** [bi_ip_addr] is the address in the board info. *)
Definition NetInitLoop (bi_ip_addr : Z) : ST (net C) unit :=
  s ← get;
  let e := env (edev s) in
  let a := addrs s in
  if env_changed_id a =? env_id e then mret tt
  else
    upd_addrs (fun a =>
      set_env_changed_id (env_id e)
        (set_NetOurVLAN (getenv_VLAN e (zs "vlan"))
        (set_NetOurNativeVLAN (getenv_VLAN e (zs "nvlan"))
        (set_NetServerIP (getenv_IPaddr e (zs "serverip"))
        (set_NetOurSubnetMask (getenv_IPaddr e (zs "netmask"))
        (set_NetOurGatewayIP (getenv_IPaddr e (zs "gatewayip"))
        (set_NetOurIP bi_ip_addr a))))))).

Definition net_check_prereq (protocol : proto_t) : ST (net C) Z :=
  s ← get;
  let a := addrs s in
  let unset :=
    match protocol with
    | TFTP => (NetServerIP a =? 0) || (NetOurIP a =? 0)
    | PING => (NetPingIP (ping s) =? 0) || (NetOurIP a =? 0)
    | BOOTP | DHCP => false
    end in
  if unset then mret 1
  else if bool_decide (NetOurEther a = NetEtherNullAddr) then
    num ← lift (eth_get_dev_index (edev s));
    if num =? -1 then mret 1 else NetStartAgain;; mret 2
  else mret 0.

(** From the label [restart]; [Some r] when the loop returns. *)
Definition net_restart (bi_ip_addr : Z) (protocol : proto_t) : ST (net C) (option Z) :=
  s ← get;
  c ← lift (of_option (eth_current (edev s)));
  d ← lift (of_option (devices (edev s) !! c));
  upd_addrs (set_NetOurEther (enetaddr d));;
  set_state NETLOOP_CONTINUE;;
  NetInitLoop bi_ip_addr;;
  r ← net_check_prereq protocol;
  if r =? 1 then upd_eth eth_halt;; mret (Some (-1))
  else if r =? 2 then mret None
  else
    upd_loop (set_NetDevExists true);;
    match protocol with
    | TFTP => client_start TFTP
    | PING => PingStart
    | BOOTP | DHCP => upd_addrs (set_NetOurIP 0);; client_start protocol
    end;;
    upd_loop (set_NetBootFileXferSize 0);;
    mret None.

Fixpoint eth_rx (frames : list (list Z * Z)) : ST (net C) unit :=
  match frames with
  | [] => mret tt
  | (inpkt, len) :: frames => NetReceive inpkt len;; eth_rx frames
  end.

Context (load_addr : C -> Z).

(** The file size and address go to the environment. *)
Definition net_success : ST (net C) Z :=
  s ← get;
  let size := NetBootFileXferSize (loop s) in
  (if 0 <? size then
     '(buf, _) ← lift (sprintf true (zs "%lX") [A_int size]);
     upd_eth (fun e => with_env e (set_var (env e) (zs "filesize") (Some buf)));;
     '(buf, _) ← lift (sprintf true (zs "%lX") [A_int (load_addr (client s))]);
     upd_eth (fun e => with_env e (set_var (env e) (zs "fileaddr") (Some buf)))
   else mret tt);;
  upd_eth eth_halt;;
  mret (s32 size).

(** One turn of the reception loop. *)
Definition net_turn (bi_ip_addr : Z) (protocol : proto_t) (t : turn) : ST (net C) (option Z) :=
  modify (set_now (t_time t));;
  s ← get;
  (if bool_decide (eth_current (edev s) = None) then mret tt else eth_rx (t_frames t));;
  if t_ctrlc t then upd_eth eth_halt;; mret (Some (-1))
  else
    ArpTimeoutCheck;;
    s ← get;
    (match timeHandler (loop s) with
     | Some x =>
         if timeDelta (loop s) <? u32 (now s - timeStart (loop s)) then
           upd_loop (set_timeHandler None);; run_timeout x
         else mret tt
     | None => mret tt
     end);;
    s ← get;
    let st := NetState (loop s) in
    if st =? NETLOOP_RESTART then upd_loop (set_NetRestarted true);; net_restart bi_ip_addr protocol
    else if st =? NETLOOP_SUCCESS then r ← net_success; mret (Some r)
    else if st =? NETLOOP_FAIL then mret (Some (-1))
    else mret None.

(** [None]: still in the loop after the given turns. *)
Fixpoint net_turns (bi_ip_addr : Z) (protocol : proto_t) (ts : list turn) : ST (net C) (option Z) :=
  match ts with
  | [] => mret None
  | t :: ts =>
      r ← net_turn bi_ip_addr protocol t;
      match r with Some v => mret (Some v) | None => net_turns bi_ip_addr protocol ts end
  end.

Definition NetLoop (bi_ip_addr : Z) (protocol : proto_t) (ts : list turn) : ST (net C) (option Z) :=
  upd_loop (fun l => set_NetTryCount 1 (set_NetDevExists false (set_NetRestarted false l)));;
  upd_arp (fun r => set_NetArpWaitTxPacketSize 0 (set_NetArpWaitReplyIP 0 (set_NetArpWaitPacketIP 0 (set_NetArpWaitPacketMAC None r))));;
  upd_eth eth_halt;;
  s ← get;
  e ← lift (eth_set_current (edev s));
  modify (set_edev e);;
  r ← net_eth_init;
  if r <? 0 then upd_eth eth_halt;; mret (Some (-1))
  else
    r ← net_restart bi_ip_addr protocol;
    match r with Some v => mret (Some v) | None => net_turns bi_ip_addr protocol ts end.
End Net.

(** ** Addresses as text *)

Definition ip_to_string (x : Z) : res (list Z) :=
  let x := htonl x in
  '(s, _) ← sprintf true (zs "%d.%d.%d.%d")
    [A_int (Z.land (Z.shiftr x 24) 0xff); A_int (Z.land (Z.shiftr x 16) 0xff); A_int (Z.land (Z.shiftr x 8) 0xff);
     A_int (Z.land x 0xff)];
  mret s.

Definition VLAN_to_string (x : Z) : res (list Z) :=
  let x := vlan_of x in
  if x =? VLAN_NONE then mret (zs "none")
  else '(s, _) ← sprintf true (zs "%d") [A_int (Z.land x VLAN_IDMASK)]; mret s.

(** At most [size - 1] characters, without an enclosing quotation mark. *)
Fixpoint copy_name_loop (src : list Z) (size : Z) : list Z :=
  match src with
  | [] => []
  | c :: src => if (0 <? size - 1) && negb (c =? 34) then c :: copy_name_loop src (size - 1) else []
  end.

Definition copy_filename (src : list Z) (size : Z) : list Z :=
  if deref src =? 34 then copy_name_loop (tl src) (size - 1) else copy_name_loop src size.

(** ** Bytes *)

Lemma u16_range x : 0 <= u16 x < 65536.
Proof. apply Z.mod_pos_bound. lia. Qed.

Lemma be16_value x : 256 * u8 (Z.shiftr x 8) + u8 x = u16 x.
Proof. rewrite Z.shiftr_div_pow2 by lia. change (2 ^ 8) with 256. unfold u8, u16. zmod. Qed.

Lemma le16_value x : u8 x + 256 * u8 (Z.shiftr x 8) = u16 x.
Proof. rewrite <- be16_value. lia. Qed.

Lemma ip_value ip : 0 <= ip < 4294967296 ->
  u8 ip + 256 * u8 (Z.shiftr ip 8) + 65536 * u8 (Z.shiftr ip 16) + 16777216 * u8 (Z.shiftr ip 24) = ip.
Proof.
  intros H. rewrite !Z.shiftr_div_pow2 by lia. change (2 ^ 8) with 256. change (2 ^ 16) with 65536.
  change (2 ^ 24) with 16777216. unfold u8. zmod.
Qed.

Lemma put_bytes_ok p i bs : (i + length bs <= length p)%nat ->
  put_bytes p i bs = Ok (take i p ++ bs ++ drop (i + length bs) p).
Proof. intros H. unfold put_bytes. by rewrite (proj2 (Nat.leb_le _ _) H). Qed.

Lemma put_length (p : list Z) i bs : (i + length bs <= length p)%nat ->
  length (take i p ++ bs ++ drop (i + length bs) p) = length p.
Proof. intros H. rewrite !length_app, length_take, length_drop. lia. Qed.

Lemma get_bytes_ok p i n : (i + n <= length p)%nat -> get_bytes p i n = Ok (take n (drop i p)).
Proof. intros H. unfold get_bytes. by rewrite (proj2 (Nat.leb_le _ _) H). Qed.

(** ** The checksum *)

Fixpoint word_sum (n : nat) (p : list Z) : Z :=
  match n with O => 0 | S n => nth 0 p 0 + 256 * nth 1 p 0 + word_sum n (drop 2 p) end.

Lemma nth_byte i p : Forall byte p -> byte (nth i p 0).
Proof.
  intros H. destruct (nth_in_or_default i p 0) as [Hi| ->]; [|done].
  rewrite Forall_forall in H. apply H. by apply list_elem_of_In.
Qed.

Lemma word_sum_range n : forall p, Forall byte p -> 0 <= word_sum n p <= 65535 * Z.of_nat n.
Proof.
  induction n as [|n IH]; intros p H; cbn [word_sum]; [lia|]. pose proof (nth_byte 0 p H). pose proof (nth_byte 1 p H).
  pose proof (IH (drop 2 p) (Forall_drop _ _ _ H)). unfold byte in *. lia.
Qed.

Lemma cksum_loop_sum n : forall p x, Forall byte p -> 0 <= x -> x + 65535 * Z.of_nat n < 4294967296 ->
  cksum_loop n p x = x + word_sum n p.
Proof.
  induction n as [|n IH]; intros p x H H0 Hx; cbn [cksum_loop word_sum]; [lia|].
  pose proof (nth_byte 0 p H) as B0. pose proof (nth_byte 1 p H) as B1. unfold byte in B0, B1.
  rewrite u32_small by lia. rewrite IH; [lia|by apply Forall_drop|lia|lia].
Qed.

Definition fold16 (x : Z) : Z := x mod 65536 + x / 65536.

Lemma NetCksum_fold n p : Forall byte p -> Z.of_nat n <= 32768 -> NetCksum p n = fold16 (fold16 (word_sum n p)) mod 65536.
Proof.
  intros H Hn. unfold NetCksum. rewrite cksum_loop_sum by (done || lia). rewrite Z.add_0_l.
  change 0xffff with (Z.ones 16). rewrite !Z.land_ones, !Z.shiftr_div_pow2 by lia. reflexivity.
Qed.

(** A sum with its complement in a zero field is accepted. *)
Lemma cksum_accepts p q n : Forall byte p -> Forall byte q -> (0 < n <= 100)%nat -> 0 < word_sum n p ->
  word_sum n q = word_sum n p + u16 (Z.lnot (NetCksum p n)) -> NetCksumOk q n = true.
Proof.
  intros Hp Hq Hn Hpos Hs. unfold NetCksumOk. rewrite (NetCksum_fold n q) by (done || lia). rewrite Hs.
  rewrite (NetCksum_fold n p) by (done || lia). unfold Z.lnot, u16, fold16.
  pose proof (word_sum_range n p Hp) as Hr. set (S0 := word_sum n p) in *. clearbody S0.
  assert (0 < S0 < 6553600) as HS by lia. clear - HS.
  set (c := ((S0 mod 65536 + S0 / 65536) mod 65536 + (S0 mod 65536 + S0 / 65536) / 65536) mod 65536).
  assert (Hc : exists k, S0 = 65535 * k + c /\ 0 < c <= 65535 /\ 0 <= k < 101).
  { unfold c. set (y := S0 mod 65536 + S0 / 65536). assert (Hy : S0 = 65535 * (S0 / 65536) + y) by (unfold y; zmod).
    assert (0 < y < 65636) by (unfold y; zmod).
    exists (S0 / 65536 + y / 65536). assert (E : (y mod 65536 + y / 65536) mod 65536 = y mod 65536 + y / 65536) by zmod.
    rewrite E. assert (y = 65535 * (y / 65536) + (y mod 65536 + y / 65536)) by zmod. split; [lia|]. zmod. }
  destruct Hc as (k & E & Hc & Hk). clearbody c. replace (Z.pred (- c) mod 65536) with (65535 - c) by zmod.
  replace (S0 + (65535 - c)) with (65535 * (k + 1)) by lia.
  assert (E1 : 65535 * (k + 1) mod 65536 + 65535 * (k + 1) / 65536 = 65535) by zmod.
  rewrite E1. reflexivity.
Qed.

Lemma be16_bytes x : Forall byte (be16 x).
Proof. repeat constructor; apply u8_range. Qed.

Lemma ip_bytes_bytes x : Forall byte (ip_bytes x).
Proof. repeat constructor; apply u8_range. Qed.

Lemma ip_header_bytes a id sum dest dport sport len : Forall byte (ip_header a id sum dest dport sport len).
Proof.
  assert (Hc : forall x y, byte x -> byte y -> Forall byte [x; y]) by (intros; apply Forall_cons; split; [done|by apply Forall_singleton]).
  unfold ip_header. rewrite !Forall_app.
  split_and!; first [apply be16_bytes | apply ip_bytes_bytes | apply Hc; [exact (u8_range _)|exact (u8_range _)] | by apply Hc].
Qed.

Lemma ip_header_sum a id sum dest dport sport len rest : 0 <= sum < 65536 ->
  word_sum 10 (ip_header a id sum dest dport sport len ++ rest) = word_sum 10 (ip_header a id 0 dest dport sport len) + sum /\
  0 < word_sum 10 (ip_header a id 0 dest dport sport len).
Proof.
  intros Hs. rewrite <- (Z.mod_small sum 65536) at 2 by lia. change (sum mod 65536) with (u16 sum). rewrite <- (le16_value sum).
  unfold ip_header, be16, ip_bytes. cbn -[u8 Z.shiftr Z.mul Z.add]. change (u8 0) with 0. change (u8 (Z.shiftr 0 8)) with 0.
  split; [lia|].
  repeat match goal with |- context [u8 ?x] => let y := fresh "b" in pose proof (u8_range x); set (y := u8 x) in *; clearbody y end. lia.
Qed.

Lemma ip_header_ok a id dest dport sport len rest : Forall byte rest ->
  NetCksumOk (ip_header a id (u16 (Z.lnot (NetCksum (ip_header a id 0 dest dport sport len) 10))) dest dport sport len ++ rest) 10 = true.
Proof.
  intros Hr. pose proof (u16_range (Z.lnot (NetCksum (ip_header a id 0 dest dport sport len) 10))) as Hs.
  destruct (ip_header_sum a id _ dest dport sport len rest Hs) as [Hsum Hpos].
  apply (cksum_accepts (ip_header a id 0 dest dport sport len)); [apply ip_header_bytes| |lia|done|done].
  apply Forall_app. split; [apply ip_header_bytes|done].
Qed.

(** ** Frames *)

Definition no_vlan (a : addresses) : Prop := Z.land (vlan_of (NetOurVLAN a)) VLAN_IDMASK = VLAN_NONE.

(** Hardware addresses of six bytes, IP addresses of 32 bits, no VLAN. *)
Record addrs_ok (a : addresses) : Prop := {
  ok_vlan : no_vlan a;
  ok_ether : length (NetOurEther a) = 6%nat;
  ok_server : length (NetServerEther a) = 6%nat;
  ok_ip : 0 <= NetOurIP a < 4294967296
}.

Definition udp_frame (a : addresses) (mac : list Z) (id dest dport sport : Z) (payload : list Z) : list Z :=
  let len := Z.of_nat (length payload) in
  ether_header a mac PROT_IP ++
  ip_header a id (u16 (Z.lnot (NetCksum (ip_header a id 0 dest dport sport len) 10))) dest dport sport len ++ payload.

Lemma ether_header_plain a mac prot : no_vlan a -> ether_header a mac prot = mac ++ NetOurEther a ++ be16 prot.
Proof. intros H. unfold ether_header, no_vlan in *. by rewrite H. Qed.

Lemma ether_length a mac prot : addrs_ok a -> length mac = 6%nat -> length (ether_header a mac prot) = 14%nat.
Proof. intros W Hm. rewrite ether_header_plain by apply W. rewrite !length_app, Hm, (ok_ether _ W). done. Qed.

Lemma ip_header_length a id sum dest dport sport len : length (ip_header a id sum dest dport sport len) = 28%nat.
Proof. done. Qed.

(** What a packet that is being put together holds: [n] bytes [h] from the start. *)
Definition starts_with (p h : list Z) : Prop := take (length h) p = h.

Lemma starts_with_put p i bs : (i + length bs <= length p)%nat ->
  starts_with (take i p ++ bs ++ drop (i + length bs) p) (take i p ++ bs).
Proof.
  intros H. unfold starts_with. rewrite app_assoc. apply take_app_length'. by rewrite length_app.
Qed.

Lemma drop_put (p : list Z) i bs j : (i + length bs <= j)%nat -> (i + length bs <= length p)%nat ->
  drop j (take i p ++ bs ++ drop (i + length bs) p) = drop j p.
Proof.
  intros Hj H. rewrite !drop_app, !drop_drop, !length_take.
  rewrite (drop_ge (take i p)) by (rewrite length_take; lia). rewrite (drop_ge bs) by lia. cbn [app]. f_equal. lia.
Qed.

Lemma take_put (p : list Z) i bs j : (j <= i)%nat -> (i <= length p)%nat ->
  take j (take i p ++ bs ++ drop (i + length bs) p) = take j p.
Proof. intros Hj H. rewrite take_app_le by (rewrite length_take; lia). rewrite take_take. f_equal. lia. Qed.

(** Both headers before a payload of [len] bytes. *)
Lemma headers_written a id pkt mac dest dport sport (len : nat) : addrs_ok a -> length mac = 6%nat ->
  length pkt = PKTSIZE_ALIGN -> (42 + len < PKTSIZE_ALIGN)%nat ->
  exists pkt1 pkt2, NetSetEther a pkt mac PROT_IP = Ok (pkt1, 14%nat) /\
    NetSetIP a id pkt1 14 dest dport sport (Z.of_nat len) = Ok pkt2 /\ length pkt2 = PKTSIZE_ALIGN /\
    take 42 pkt2 = ether_header a mac PROT_IP ++
      ip_header a id (u16 (Z.lnot (NetCksum (ip_header a id 0 dest dport sport (Z.of_nat len)) 10))) dest dport sport (Z.of_nat len) /\
    take len (drop 42 pkt2) = take len (drop 42 pkt).
Proof.
  intros W Hm Hl Hlen. unfold PKTSIZE_ALIGN in *. set (eh := ether_header a mac PROT_IP).
  assert (He : length eh = 14%nat) by (by apply ether_length).
  set (ih := ip_header a id _ dest dport sport _). assert (Hi : length ih = 28%nat) by done.
  set (pkt1 := take 0 pkt ++ eh ++ drop (0 + length eh) pkt).
  assert (H1 : length pkt1 = 1536%nat) by (unfold pkt1; rewrite put_length; lia).
  assert (T1 : take 14 pkt1 = eh).
  { unfold pkt1. rewrite take_0. cbn [app]. apply take_app_length'. done. }
  assert (D1 : drop 42 pkt1 = drop 42 pkt) by (unfold pkt1; apply drop_put; lia).
  assert (Hz : exists pkt2, (if Z.land (Z.of_nat len) 1 =? 0 then mret pkt1
      else put_bytes pkt1 (14 + Z.to_nat (IP_HDR_SIZE + Z.of_nat len)) [0]) = Ok pkt2 /\
    length pkt2 = 1536%nat /\ take 14 pkt2 = eh /\ take len (drop 42 pkt2) = take len (drop 42 pkt)).
  { destruct (_ =? 0).
    - exists pkt1. split_and!; try done. by rewrite D1.
    - unfold IP_HDR_SIZE. replace (14 + Z.to_nat (28 + Z.of_nat len))%nat with (42 + len)%nat by lia.
      rewrite put_bytes_ok by (cbn [length]; lia). eexists. split; [done|]. rewrite put_length by (cbn [length]; lia).
      split; [done|]. rewrite take_put by lia. split; [done|].
      rewrite <- D1. rewrite !take_drop_commute. rewrite take_put by lia. done. }
  assert (E0 : put_bytes pkt 0 eh = Ok pkt1) by (apply put_bytes_ok; lia).
  destruct Hz as (pkt2 & Ez & H2 & T2 & D2). clearbody pkt1.
  exists pkt1, (take 14 pkt2 ++ ih ++ drop (14 + length ih) pkt2). split; [|split; [|split; [|split]]].
  - unfold NetSetEther. fold eh. rewrite (res_bind_ok _ _ _ E0). by rewrite He.
  - unfold NetSetIP. rewrite (res_bind_ok _ _ _ Ez). fold ih. apply put_bytes_ok. lia.
  - by rewrite put_length by lia.
  - rewrite T2, app_assoc. apply take_app_length'. rewrite length_app. lia.
  - by rewrite drop_put by lia.
Qed.

Section Frames.
Context {C : Type}.
Implicit Types s : net C.

(** A host that can send. *)
Record net_ok s : Prop := {
  ok_addrs : addrs_ok (addrs s);
  ok_tx : length (NetTxPacket s) = PKTSIZE_ALIGN;
  ok_wait : length (NetArpWaitTxPacket (arp s)) = PKTSIZE_ALIGN;
  ok_ping : length (ping_mac (ping s)) = 6%nat;
  ok_dev : eth_current (edev s) <> None
}.

Lemma ok_mac s m : net_ok s -> length (mac_value s m) = 6%nat.
Proof. intros W. destruct m; cbn; [apply (ok_server _ (ok_addrs _ W))|apply W|done]. Qed.

(** The payload that is in place. *)
Definition payload_in s (payload : list Z) : Prop :=
  take (length payload) (drop 42 (NetTxPacket s)) = payload /\ (42 + length payload < PKTSIZE_ALIGN)%nat.

Lemma eth_send_ok s pkt len : eth_current (edev s) <> None -> (Z.to_nat len <= length pkt)%nat ->
  eth_send pkt len s = Ok (tt, set_sent (sent s ++ [take (Z.to_nat len) pkt]) s).
Proof.
  intros Hd Hl. unfold eth_send. rewrite (bind_ok _ _ _ _ _ (eq_refl : get s = Ok (s, s))).
  destruct (eth_current (edev s)); [|done]. rewrite get_bytes_ok by lia. done.
Qed.

Definition sent_udp s (mac : list Z) (dest dport sport : Z) (payload : list Z) (tx : list Z) : net C :=
  set_sent (sent s ++ [udp_frame (addrs s) mac (NetIPID s) dest dport sport payload]) (set_tx tx (set_ipid (u32 (NetIPID s + 1)) s)).

Definition bcast (dest : Z) : Z := if dest =? 0 then 0xFFFFFFFF else dest.
Definition mac_for (ether : mac_ref) (dest : Z) : mac_ref := if bcast dest =? 0xFFFFFFFF then MacBcast else ether.

(** With a known hardware address the datagram is sent at once. *)
Lemma NetSendUDPPacket_known s ether dest dport sport payload : net_ok s -> payload_in s payload ->
  let mac := mac_value s (mac_for ether dest) in mac <> NetEtherNullAddr ->
  exists tx, length tx = PKTSIZE_ALIGN /\
    NetSendUDPPacket ether dest dport sport (Z.of_nat (length payload)) s =
      Ok (0, sent_udp s mac (bcast dest) dport sport payload tx).
Proof.
  intros W [Hp Hlen] mac Hmac. unfold NetSendUDPPacket. fold (bcast dest). fold (mac_for ether dest).
  rewrite (bind_ok _ _ _ _ _ (eq_refl : get s = Ok (s, s))). fold mac. rewrite bool_decide_eq_false_2 by done.
  destruct (headers_written (addrs s) (NetIPID s) (NetTxPacket s) mac (bcast dest) dport sport (length payload))
    as (pkt1 & pkt2 & E1 & E2 & H2 & T2 & D2); [apply W|by apply ok_mac|apply W|done|].
  exists pkt2. split; [done|]. rewrite E1. cbn [lift mbind ST_bind]. unfold next_ipid, get, put, mbind, ST_bind, mret, ST_ret. cbn [lift].
  rewrite E2. unfold modify. cbn [lift]. cbv beta iota. rewrite eth_send_ok; cbn [set_tx set_ipid edev sent].
  - unfold sent_udp. do 4 f_equal. unfold udp_frame. rewrite app_assoc, <- T2.
    unfold IP_HDR_SIZE. replace (Z.to_nat _) with (42 + length payload)%nat by lia. rewrite <- take_take_drop, D2. by rewrite Hp.
  - apply W.
  - unfold IP_HDR_SIZE, PKTSIZE_ALIGN in *. rewrite H2. lia.
Qed.
End Frames.

(** ** Reading a frame *)

Lemma get8_app l1 l2 n i : n = length l1 -> get8 (l1 ++ l2) (n + i) = get8 l2 i.
Proof. intros ->. unfold get8, arr_get. rewrite lookup_app_r by lia. do 2 f_equal. lia. Qed.

Lemma get16_app l1 l2 n i : n = length l1 -> get16 (l1 ++ l2) (n + i) = get16 l2 i.
Proof. intros H. unfold get16. rewrite <- Nat.add_assoc. by rewrite !get8_app by done. Qed.

Lemma NetReadIP_app l1 l2 n i : n = length l1 -> NetReadIP (l1 ++ l2) (n + i) = NetReadIP l2 i.
Proof. intros H. unfold NetReadIP. rewrite <- !Nat.add_assoc. by rewrite !get8_app by done. Qed.

Lemma get_bytes_app l1 l2 n i k : n = length l1 -> get_bytes (l1 ++ l2) (n + i) k = get_bytes l2 i k.
Proof.
  intros ->. unfold get_bytes. rewrite length_app. replace (length l1 + i + k <=? length l1 + length l2)%nat with (i + k <=? length l2)%nat.
  - destruct (_ <=? _)%nat; [|done]. do 2 f_equal. rewrite drop_app_ge by lia. f_equal. lia.
  - destruct (Nat.leb_spec (i + k) (length l2)), (Nat.leb_spec (length l1 + i + k) (length l1 + length l2)); try done; lia.
Qed.

(** The fields of an IP and UDP header. *)
Lemma ip_fields a id sum dest dport sport len rest : 0 <= dest < 4294967296 -> 0 <= len -> 28 + len < 65536 ->
  0 <= dport < 65536 -> 0 <= sport < 65536 ->
  let p := ip_header a id sum dest dport sport len ++ rest in
  get16 p 2 = Ok (28 + len) /\ get8 p 0 = Ok 0x45 /\ get16 p 6 = Ok IP_FLAGS_DFRAG /\ get8 p 9 = Ok 17 /\
  NetReadIP p 16 = Ok dest /\ get16 p 20 = Ok sport /\ get16 p 22 = Ok dport /\ get16 p 24 = Ok (8 + len) /\ get16 p 26 = Ok 0.
Proof.
  intros Hd Hl Hl2 Hp Hs p.
  assert (E16 : forall x, 0 <= x < 65536 -> Ok (256 * u8 (Z.shiftr x 8) + u8 x) = Ok x).
  { intros x Hx. rewrite be16_value. unfold u16. by rewrite Z.mod_small. }
  split_and!.
  - exact (E16 (28 + len) ltac:(lia)).
  - done.
  - done.
  - done.
  - transitivity (Ok (u8 dest + 256 * u8 (Z.shiftr dest 8) + 65536 * u8 (Z.shiftr dest 16) + 16777216 * u8 (Z.shiftr dest 24)));
      [done|by rewrite ip_value].
  - exact (E16 sport Hs).
  - exact (E16 dport Hp).
  - exact (E16 (8 + len) ltac:(lia)).
  - done.
Qed.

Section Receiving.
Context {C : Type} `{!NetClient C}.
Implicit Types s : net C.

Lemma ether_type a mac prot rest : addrs_ok a -> length mac = 6%nat -> 0 <= prot < 65536 ->
  get16 (ether_header a mac prot ++ rest) 12 = Ok prot.
Proof.
  intros W Hm Hp. rewrite ether_header_plain by apply W. rewrite <- !app_assoc, (app_assoc mac).
  change 12%nat with (12 + 0)%nat. rewrite get16_app by (rewrite length_app, Hm, (ok_ether _ W); done).
  transitivity (Ok (256 * u8 (Z.shiftr prot 8) + u8 prot)); [done|]. rewrite be16_value. unfold u16. by rewrite Z.mod_small.
Qed.

(** A frame of a plain Ethernet type goes to the handler of its type. *)
Lemma NetReceive_plain s cfg a mac prot body len : addrs_ok a -> length mac = 6%nat ->
  1514 <= prot < 65536 -> prot <> PROT_VLAN -> 14 <= len -> no_vlan (addrs s) ->
  NetReceive cfg (ether_header a mac prot ++ body) len s =
    (if prot =? PROT_ARP then receive_arp (ether_header a mac prot ++ body) 14 (len - 14)
     else if prot =? PROT_RARP then receive_rarp (ether_header a mac prot ++ body) 14 (len - 14)
     else if prot =? PROT_IP then receive_ip cfg (ether_header a mac prot ++ body) 14 (len - 14)
     else mret tt) s.
Proof.
  intros W Hm Hp Hv Hl Hn. unfold NetReceive. unfold ETHER_HDR_SIZE. destruct (Z.ltb_spec len 14); [lia|].
  unfold get, mbind, ST_bind. rewrite ether_type by (done || lia). cbn [lift].
  destruct (Z.ltb_spec prot 1514); [lia|]. destruct (Z.eqb_spec prot PROT_VLAN); [done|]. cbn [negb].
  unfold receive_type, get, mbind, ST_bind. unfold no_vlan in Hn. rewrite Hn. reflexivity.
Qed.

(** [len] is the length of the payload, [junk] what follows the frame in the buffer. *)
Lemma NetReceive_udp s cfg a mac id dest dport sport payload junk : addrs_ok a -> length mac = 6%nat ->
  0 <= dest < 4294967296 -> 0 <= dport < 65536 -> 0 <= sport < 65536 -> (28 + length payload < 1536)%nat ->
  Forall byte (payload ++ junk) -> no_vlan (addrs s) -> NetOurIP (addrs s) = 0 \/ NetOurIP (addrs s) = dest \/ dest = 0xFFFFFFFF ->
  let frame := udp_frame a mac id dest dport sport payload in
  NetReceive cfg (frame ++ junk) (Z.of_nat (length frame)) s =
    run_handler (frame ++ junk) (payload ++ junk) dport sport (Z.of_nat (length payload)) s.
Proof.
  intros W Hm Hd Hdp Hsp Hl Hb Hn Hip frame. unfold frame, udp_frame. cbv zeta. rewrite <- !app_assoc.
  rewrite !length_app, ip_header_length, (ether_length _ _ _ W Hm).
  rewrite NetReceive_plain by (done || lia). change (PROT_IP =? PROT_ARP) with false. change (PROT_IP =? PROT_RARP) with false.
  change (PROT_IP =? PROT_IP) with true. cbv iota.
  set (len := Z.of_nat (length payload)). set (sum := u16 _).
  pose proof (ip_header_ok a id dest dport sport len (payload ++ junk) Hb) as Hck. fold sum in Hck. clearbody sum.
  destruct (ip_fields a id sum dest dport sport len (payload ++ junk) Hd ltac:(lia) ltac:(lia) Hdp Hsp)
    as (F2 & F0 & F6 & F9 & F16 & F20 & F22 & F24 & F26).
  pose proof (ether_length a mac PROT_IP W Hm) as He. set (eh := ether_header a mac PROT_IP) in *. clearbody eh.
  set (ih := ip_header a id sum dest dport sport len ++ payload ++ junk) in *.
  assert (Hdrop : drop 14 (eh ++ ih) = ih) by (by apply drop_app_length').
  assert (Hpay : drop (14 + Z.to_nat IP_HDR_SIZE) (eh ++ ih) = payload ++ junk).
  { rewrite <- drop_drop, Hdrop. done. }
  assert (G0 : get8 (eh ++ ih) 14 = Ok 0x45) by (change 14%nat with (14 + 0)%nat; by rewrite get8_app).
  unfold receive_ip. unfold IP_HDR_SIZE at 1. destruct (Z.ltb_spec (Z.of_nat (14 + (28 + length payload)) - 14) 28); [lia|].
  unfold get, mbind, ST_bind.
  rewrite !get16_app, !NetReadIP_app, G0, !get8_app by done.
  rewrite F2, F6, F9, F16. cbn [lift].
  destruct (Z.ltb_spec (Z.of_nat (14 + (28 + length payload)) - 14) (28 + len)); [unfold len in *; lia|].
  change (negb (Z.land 69 240 =? 64)) with false. change (5 <? Z.land 69 15) with false. cbv iota.
  rewrite Hdrop, Hck. cbn [negb].
  replace (negb (NetOurIP (addrs s) =? 0) && negb (dest =? NetOurIP (addrs s)) && negb (dest =? 4294967295)) with false.
  2: { destruct Hip as [->|[<-| ->]]; [done|by rewrite Z.eqb_refl, andb_false_r|by rewrite Z.eqb_refl, andb_false_r]. }
  change (negb (Z.land IP_FLAGS_DFRAG (Z.lor IP_OFFS IP_FLAGS_MFRAG) =? 0)) with false. cbv iota.
  change (17 =? 1) with false. change (negb (17 =? 17)) with false. cbv iota.
  unfold receive_udp, mbind, ST_bind. rewrite !get16_app by done. rewrite F20, F22, F24, F26. cbn [lift].
  rewrite andb_false_r. cbv iota. unfold mret, ST_ret. cbn [negb]. rewrite Hpay.
  replace (u32 (8 + len - 8)) with len; [done|]. rewrite u32_small; lia.
Qed.
End Receiving.

(** ** Finding a hardware address *)

Section Arp.
Context {C : Type} `{!NetClient C}.
Implicit Types s : net C.

(** Who is asked: the destination or the gateway. *)
Definition asked (a : addresses) (dest : Z) : Z :=
  if negb (Z.land dest (NetOurSubnetMask a) =? Z.land (NetOurIP a) (NetOurSubnetMask a)) then
    if NetOurGatewayIP a =? 0 then dest else NetOurGatewayIP a
  else dest.

Definition arp_request (a : addresses) (ip : Z) : list Z :=
  ether_header a NetBcastAddr PROT_ARP ++
  arp_packet 1 (NetOurEther a) (ip_bytes (NetOurIP a)) (replicate 6 0) (ip_bytes ip).

Definition arp_response (a : addresses) (sha spa : list Z) : list Z :=
  ether_header a sha PROT_ARP ++ arp_packet 2 (NetOurEther a) (ip_bytes (NetOurIP a)) sha spa.

Lemma six_bytes (l : list Z) : length l = 6%nat -> exists a b c d e f, l = [a; b; c; d; e; f].
Proof. intros H. do 6 (destruct l as [|? l]; [done|]). destruct l; [|done]. by repeat eexists. Qed.

Lemma arp_packet_length op sha spa tha tpa : length sha = 6%nat -> length tha = 6%nat -> length spa = 4%nat -> length tpa = 4%nat ->
  length (arp_packet op sha spa tha tpa) = 28%nat.
Proof. intros H1 H2 H3 H4. unfold arp_packet. rewrite !length_app, H1, H2, H3, H4. done. Qed.

Lemma ArpRequest_ok s : net_ok s -> let ip := asked (addrs s) (NetArpWaitPacketIP (arp s)) in
  exists tx, length tx = PKTSIZE_ALIGN /\
  ArpRequest s = Ok (tt, set_sent (sent s ++ [arp_request (addrs s) ip])
    (set_arp (set_NetArpWaitReplyIP ip (arp s)) (set_tx tx s))).
Proof.
  intros W ip. unfold ArpRequest, get, modify, upd_arp, mbind, ST_bind. cbv beta iota zeta. fold (asked (addrs s) (NetArpWaitPacketIP (arp s))).
  fold ip. pose proof (ok_tx _ W) as Ht. unfold PKTSIZE_ALIGN in *.
  set (eh := ether_header (addrs s) NetBcastAddr PROT_ARP).
  assert (He : length eh = 14%nat) by (apply ether_length; [apply W|done]).
  unfold NetSetEther. fold eh. rewrite put_bytes_ok by lia. rewrite take_0. unfold mbind, res_bind. cbn [lift app Nat.add mret res_ret].
  set (ap := arp_packet _ _ _ _ _). assert (Ha : length ap = 28%nat) by (apply arp_packet_length; try done; apply W).
  rewrite put_bytes_ok by (rewrite length_app, length_drop; lia). cbn [lift].
  assert (E : take (length eh) (eh ++ drop (length eh) (NetTxPacket s)) = eh) by (by apply take_app_length').
  rewrite E. set (tx := eh ++ ap ++ _). exists tx.
  assert (Hl : length tx = 1536%nat) by (unfold tx; rewrite !length_app, length_drop, length_app, length_drop; lia).
  split; [done|]. unfold modify. rewrite eth_send_ok; [|apply W|unfold ARP_HDR_SIZE; lia]. do 3 f_equal. cbn [set_arp set_tx sent]. f_equal.
  unfold ARP_HDR_SIZE. replace (Z.to_nat _) with (length (eh ++ ap)) by (rewrite length_app; lia).
  unfold tx. rewrite app_assoc. by rewrite take_app_length.
Qed.

(** A request for our address is answered with it, whatever follows the frame. *)
Lemma NetReceive_arp_request s cfg a junk : net_ok s -> addrs_ok a -> NetOurIP (addrs s) <> 0 ->
  NetReceive cfg (arp_request a (NetOurIP (addrs s)) ++ junk) 42 s =
    Ok (tt, set_sent (sent s ++ [arp_response (addrs s) (NetOurEther a) (ip_bytes (NetOurIP a))]) s).
Proof.
  intros W Wa Hip. pose proof (ok_addrs _ W) as Ws. unfold arp_request. rewrite <- app_assoc.
  rewrite NetReceive_plain by (first [done | lia | apply Ws]).
  change (PROT_ARP =? PROT_ARP) with true. cbv iota. rewrite ether_header_plain by apply Wa.
  destruct (six_bytes _ (ok_ether _ Wa)) as (a0 & a1 & a2 & a3 & a4 & a5 & Ea).
  destruct (six_bytes _ (ok_ether _ Ws)) as (b0 & b1 & b2 & b3 & b4 & b5 & Eb).
  pose proof (ip_value _ (ok_ip _ Ws)) as Eip.
  set (our := NetOurIP (addrs s)) in *. rewrite Ea. set (buf := (_ ++ _) ++ _).
  assert (R : receive_arp buf 14 (42 - 14) s = arp_reply buf 14 s).
  { transitivity ((if our =? 0 then mret tt else
      if negb (u8 our + 256 * u8 (Z.shiftr our 8) + 65536 * u8 (Z.shiftr our 16) + 16777216 * u8 (Z.shiftr our 24) =? our) then mret tt
      else arp_reply buf 14) s).
    - reflexivity.
    - rewrite Eip, Z.eqb_refl. by destruct (Z.eqb_spec our 0). }
  rewrite R. unfold arp_reply, get, mbind, ST_bind. cbv beta iota.
  assert (E1 : get_bytes buf 6 6 = Ok [a0; a1; a2; a3; a4; a5]) by reflexivity. rewrite E1. cbn [lift].
  assert (E2 : NetSetEther (addrs s) buf [a0; a1; a2; a3; a4; a5] PROT_ARP =
    Ok ([a0; a1; a2; a3; a4; a5; b0; b1; b2; b3; b4; b5; 8; 6] ++ drop 14 buf, 14%nat)).
  { unfold NetSetEther. rewrite ether_header_plain by apply Ws. rewrite Eb. reflexivity. }
  rewrite E2. cbn [lift]. fold our. rewrite Eb. unfold arp_response. rewrite ether_header_plain by apply Ws. rewrite Eb.
  unfold eth_send, get, mbind, ST_bind. pose proof (ok_dev _ W) as Hd.
  cbn. by destruct (eth_current (edev s)).
Qed.

(** A host waiting for the address of [ip] with a packet for it: [NetArpWaitPacketMAC]
    points to [m]. *)
Record waiting s (m : mac_ref) (ip : Z) (size : nat) : Prop := {
  w_mac : NetArpWaitPacketMAC (arp s) = Some m;
  w_ip : NetArpWaitPacketIP (arp s) <> 0;
  w_reply : NetArpWaitReplyIP (arp s) = ip;
  w_size : NetArpWaitTxPacketSize (arp s) = Z.of_nat size;
  w_fits : (6 <= size <= PKTSIZE_ALIGN)%nat;
  w_bcast : m <> MacBcast
}.

Definition store_mac s (m : mac_ref) (v : list Z) : net C :=
  match m with
  | MacServer => set_addrs (set_NetServerEther v (addrs s)) s
  | MacPing => set_ping (set_ping_mac v (ping s)) s
  | MacBcast => s
  end.

Definition answered s (m : mac_ref) (mac : list Z) (size : nat) : net C :=
  let s := store_mac s m mac in
  let pkt := mac ++ drop 6 (NetArpWaitTxPacket (arp s)) in
  set_arp (set_NetArpWaitPacketMAC None (set_NetArpWaitTxPacketSize 0 (set_NetArpWaitPacketIP 0
    (set_NetArpWaitTxPacket pkt (arp s))))) (set_sent (sent s ++ [take size pkt]) s).

(** The answer to the request sends the waiting packet to the address in it; any
    other answer changes nothing. *)
Lemma NetReceive_arp_response s cfg a m size spa junk : net_ok s -> addrs_ok a -> NetOurIP (addrs s) <> 0 ->
  waiting s m spa size -> NetOurIP a = spa -> 0 <= spa < 4294967296 ->
  NetReceive cfg (arp_response a (NetOurEther (addrs s)) (ip_bytes (NetOurIP (addrs s))) ++ junk) 42 s =
    Ok (tt, answered s m (NetOurEther a) size).
Proof.
  intros W Wa Hip Hw Hspa Hr. pose proof (ok_addrs _ W) as Ws. unfold arp_response. rewrite <- app_assoc.
  rewrite NetReceive_plain by (first [done | lia | apply Ws]).
  change (PROT_ARP =? PROT_ARP) with true. cbv iota. rewrite ether_header_plain by apply Wa.
  destruct (six_bytes _ (ok_ether _ Wa)) as (a0 & a1 & a2 & a3 & a4 & a5 & Ea).
  destruct (six_bytes _ (ok_ether _ Ws)) as (b0 & b1 & b2 & b3 & b4 & b5 & Eb).
  pose proof (ip_value _ (ok_ip _ Ws)) as Eip. pose proof (ip_value _ Hr) as Er. rewrite Hspa.
  set (our := NetOurIP (addrs s)) in *. rewrite Ea, Eb. set (buf := (_ ++ _) ++ _).
  assert (R : receive_arp buf 14 (42 - 14) s = arp_answer buf 14 s).
  { transitivity ((if our =? 0 then mret tt else
      if negb (u8 our + 256 * u8 (Z.shiftr our 8) + 65536 * u8 (Z.shiftr our 16) + 16777216 * u8 (Z.shiftr our 24) =? our) then mret tt
      else arp_answer buf 14) s).
    - reflexivity.
    - rewrite Eip, Z.eqb_refl. by destruct (Z.eqb_spec our 0). }
  rewrite R. unfold arp_answer, get, mbind, ST_bind. cbv beta iota. rewrite (w_mac _ _ _ _ Hw).
  pose proof (w_ip _ _ _ _ Hw). destruct (Z.eqb_spec (NetArpWaitPacketIP (arp s)) 0); [done|].
  assert (E1 : NetReadIP buf (14 + 14) = Ok spa) by (rewrite <- Er; reflexivity).
  assert (E2 : get_bytes buf (14 + 8) 6 = Ok [a0; a1; a2; a3; a4; a5]) by reflexivity.
  rewrite E1. cbn [lift]. rewrite (w_reply _ _ _ _ Hw), Z.eqb_refl. cbn [negb]. rewrite E2. cbn [lift].
  set (mac := [a0; a1; a2; a3; a4; a5]). clearbody buf.
  assert (E3 : mac_store m mac s = Ok (tt, store_mac s m mac)) by (by destruct m).
  rewrite E3. set (s1 := store_mac s m mac).
  assert (A1 : arp s1 = arp s /\ edev s1 = edev s /\ sent s1 = sent s) by (by destruct m). destruct A1 as (A1 & D1 & S1).
  assert (V1 : mac_value s1 m = mac) by (pose proof (w_bcast _ _ _ _ Hw); by destruct m).
  rewrite V1, A1. pose proof (ok_wait _ W) as Hl. unfold PKTSIZE_ALIGN in *.
  unfold put_at. rewrite put_bytes_ok by (rewrite Hl; cbn [length mac]; lia). rewrite take_0. cbn [lift app Nat.add].
  pose proof (w_fits _ _ _ _ Hw). unfold PKTSIZE_ALIGN in *.
  unfold upd_arp, modify. rewrite eth_send_ok.
  - cbv beta iota. rewrite (w_size _ _ _ _ Hw), Nat2Z.id. unfold answered. fold s1. by rewrite A1.
  - cbn [edev set_arp]. rewrite D1. apply W.
  - rewrite (w_size _ _ _ _ Hw), Nat2Z.id, length_app, length_drop, Hl. cbn [length mac]. lia.
Qed.
End Arp.

Section Exchange.
Context {C : Type}.
Implicit Types s : net C.

(** With an unknown hardware address the datagram waits and a request goes out. *)
Lemma NetSendUDPPacket_unknown s ether dest dport sport payload : net_ok s -> payload_in s payload ->
  let m := mac_for ether dest in let ip := asked (addrs s) (bcast dest) in mac_value s m = NetEtherNullAddr ->
  exists s', NetSendUDPPacket ether dest dport sport (Z.of_nat (length payload)) s = Ok (1, s') /\
    net_ok s' /\ waiting s' m ip (42 + length payload) /\
    take (42 + length payload) (NetArpWaitTxPacket (arp s')) =
      udp_frame (addrs s) NetEtherNullAddr (NetIPID s) (bcast dest) dport sport payload /\
    sent s' = sent s ++ [arp_request (addrs s) ip] /\
    addrs s' = addrs s /\ edev s' = edev s /\ ping s' = ping s /\ loop s' = loop s /\ client s' = client s.
Proof.
  intros W [Hp Hlen] m ip Hmac. unfold NetSendUDPPacket. fold (bcast dest). fold m.
  rewrite (bind_ok _ _ _ _ _ (eq_refl : get s = Ok (s, s))). fold m. change (if bcast dest =? 4294967295 then MacBcast else ether) with m.
  rewrite bool_decide_eq_true_2 by done. rewrite Hmac.
  destruct (headers_written (addrs s) (NetIPID s) (NetArpWaitTxPacket (arp s)) NetEtherNullAddr (bcast dest) dport sport (length payload))
    as (pkt1 & pkt2 & E1 & E2 & H2 & T2 & _); [apply W|done|apply W|done|].
  unfold upd_arp at 1, modify. unfold mbind at 1, ST_bind at 1. rewrite E1. cbn [lift mbind ST_bind].
  unfold next_ipid, get, put, mbind, ST_bind, mret, ST_ret. cbn [lift NetIPID set_arp]. rewrite E2. cbn [lift].
  unfold PKTSIZE_ALIGN, IP_HDR_SIZE in *. change (14 + Z.to_nat 28)%nat with 42%nat.
  pose proof (ok_tx _ W) as Ht. unfold PKTSIZE_ALIGN in Ht. rewrite Nat2Z.id.
  rewrite get_bytes_ok by lia. cbn [lift]. rewrite Hp. rewrite put_bytes_ok by lia. cbn [lift].
  set (wp := take 42 pkt2 ++ _). assert (Hwp : length wp = 1536%nat) by (unfold wp; rewrite put_length; lia).
  assert (Twp : take (42 + length payload) wp = take 42 pkt2 ++ payload).
  { unfold wp. rewrite app_assoc. apply take_app_length'. rewrite length_app, length_take. lia. }
  clearbody wp. unfold arp_wait, get, upd_arp, modify, mbind, ST_bind. cbv beta iota.
  match goal with |- context [ArpRequest ?x] => set (s1 := x) end.
  assert (W1 : net_ok s1) by (destruct W; by split).
  destruct (ArpRequest_ok s1 W1) as (tx & Htx & Ereq). rewrite Ereq. eexists. split; [done|].
  change (NetArpWaitPacketIP (arp s1)) with (bcast dest). change (addrs s1) with (addrs s). fold ip.
  assert (Hm : m <> MacBcast) by (intros E; unfold m in *; rewrite E in Hmac; done).
  split_and!; try done.
  - destruct W; split; done.
  - split; cbn; try done.
    + unfold bcast. destruct (Z.eqb_spec dest 0); lia.
    + lia.
    + unfold PKTSIZE_ALIGN. lia.
  - cbn [NetArpWaitTxPacket arp set_sent set_arp set_NetArpWaitReplyIP s1 set_NetArpWaitTimerStart set_NetArpWaitTry set_NetArpWaitTxPacketSize set_NetArpWaitTxPacket]. rewrite Twp, T2. unfold udp_frame. by rewrite <- app_assoc.
Qed.

Lemma udp_frame_mac a mac id dest dport sport payload : no_vlan a -> length mac = 6%nat ->
  mac ++ drop 6 (udp_frame a NetEtherNullAddr id dest dport sport payload) = udp_frame a mac id dest dport sport payload.
Proof.
  intros Hn Hm. unfold udp_frame. cbv zeta. rewrite !ether_header_plain by done. rewrite <- !app_assoc.
  by rewrite drop_app_length' by done.
Qed.

(** C26: A host [sA] sends its first datagram to a host [sB] of its network whose
    hardware address it does not know: it asks for the address, [sB] answers the
    request, the answer makes [sA] send the datagram, and [sB] hands exactly the
    payload to its handler; [sA] then knows the address. *)
Theorem first_datagram_delivered {D : Type} `{!NetClient C, !NetClient D} cfg (sA : net C) (sB : net D)
    ether dport sport payload junk1 junk2 junk3 :
  net_ok sA -> net_ok sB -> payload_in sA payload ->
  let dest := NetOurIP (addrs sB) in
  dest <> 0 -> dest <> 0xFFFFFFFF -> NetOurIP (addrs sA) <> 0 ->
  mac_value sA ether = NetEtherNullAddr -> asked (addrs sA) dest = dest ->
  0 <= dport < 65536 -> 0 <= sport < 65536 -> Forall byte (payload ++ junk3) ->
  exists sA1 request sB1 response sA2 frame,
    NetSendUDPPacket ether dest dport sport (Z.of_nat (length payload)) sA = Ok (1, sA1) /\
    sent sA1 = sent sA ++ [request] /\
    NetReceive cfg (request ++ junk1) (Z.of_nat (length request)) sB = Ok (tt, sB1) /\
    sent sB1 = sent sB ++ [response] /\
    NetReceive cfg (response ++ junk2) (Z.of_nat (length response)) sA1 = Ok (tt, sA2) /\
    sent sA2 = sent sA1 ++ [frame] /\
    NetArpWaitPacketIP (arp sA2) = 0 /\ mac_value sA2 ether = NetOurEther (addrs sB) /\
    NetReceive cfg (frame ++ junk3) (Z.of_nat (length frame)) sB1 =
      run_handler (frame ++ junk3) (payload ++ junk3) dport sport (Z.of_nat (length payload)) sB1.
Proof.
  intros WA WB Hpay dest Hd0 HdF HipA Hmac Hask Hdp Hsp Hbytes.
  pose proof (ok_addrs _ WA) as WAa. pose proof (ok_addrs _ WB) as WBa.
  assert (Eb : bcast dest = dest) by (unfold bcast; by destruct (Z.eqb_spec dest 0)).
  assert (Em : mac_for ether dest = ether) by (unfold mac_for; rewrite Eb; by destruct (Z.eqb_spec dest 4294967295)).
  destruct (NetSendUDPPacket_unknown sA ether dest dport sport payload WA Hpay) as
    (sA1 & E1 & W1 & Hw & Hwp & S1 & A1 & D1 & P1 & L1 & C1); [by rewrite Em|]. rewrite Eb, Em, Hask in *.
  set (request := arp_request (addrs sA) dest) in *.
  set (sB1 := set_sent (sent sB ++ [arp_response (addrs sB) (NetOurEther (addrs sA)) (ip_bytes (NetOurIP (addrs sA)))]) sB).
  set (response := arp_response (addrs sB) (NetOurEther (addrs sA)) (ip_bytes (NetOurIP (addrs sA)))) in *.
  assert (Lq : length request = 42%nat).
  { unfold request, arp_request. rewrite length_app, ether_length by done. by rewrite arp_packet_length by (done || apply WAa). }
  assert (Lr : length response = 42%nat).
  { unfold response, arp_response. rewrite length_app, ether_length by (done || apply WAa).
    by rewrite arp_packet_length by (done || apply WAa || apply WBa). }
  set (sA2 := answered sA1 ether (NetOurEther (addrs sB)) (42 + length payload)).
  set (frame := udp_frame (addrs sA) (NetOurEther (addrs sB)) (NetIPID sA) dest dport sport payload).
  exists sA1, request, sB1, response, sA2, frame. rewrite Lq, Lr. split_and!; try done.
  - by apply NetReceive_arp_request.
  - unfold response. rewrite <- A1. apply (NetReceive_arp_response sA1 cfg (addrs sB) ether (42 + length payload) dest); try done.
    + by rewrite A1.
    + apply WBa.
  - unfold sA2, answered. cbn [sent set_arp set_sent]. replace (sent (store_mac sA1 ether (NetOurEther (addrs sB)))) with (sent sA1) by (by destruct ether).
    replace (arp (store_mac sA1 ether (NetOurEther (addrs sB)))) with (arp sA1) by (by destruct ether). do 2 f_equal.
    unfold frame. rewrite <- udp_frame_mac by apply WAa || apply WBa. rewrite <- Hwp.
    assert (L6 : length (NetOurEther (addrs sB)) = 6%nat) by apply WBa.
    rewrite take_app_ge by lia. rewrite L6. f_equal. rewrite take_drop_commute. do 2 f_equal.
  - unfold sA2, answered. pose proof (w_bcast _ _ _ _ Hw). by destruct ether.
  - unfold frame. apply NetReceive_udp; try done; try apply WBa.
    + destruct Hpay as [_ Hl]. unfold PKTSIZE_ALIGN in Hl. lia.
    + by right; left.
Qed.
End Exchange.

(** ** Addresses as text *)

Lemma decimal_byte b : byte b -> let l := number (u64 (s32 (u32 b))) 10 (-1) (-1) SIGN in
  l <> [] /\ Forall (digit_of 10) l /\ digits_value 10 l 0 = b.
Proof.
  intros Hb. set (P := fun b => let l := number (u64 (s32 (u32 b))) 10 (-1) (-1) SIGN in
    bool_decide (l <> []) && forallb (fun c => bool_decide (byte c) && isxdigit c && (digit_value c <? 10)) l && (digits_value 10 l 0 =? b)).
  assert (H : P b = true) by (apply byte_forall; [vm_compute; reflexivity|done]).
  unfold P in H. cbv zeta in *. rewrite !andb_true_iff, bool_decide_eq_true, Z.eqb_eq in H. destruct H as ((Hn & Hf) & Hv).
  split_and!; try done. apply Forall_forall. intros c Hc. rewrite forallb_forall in Hf. specialize (Hf c).
  rewrite !andb_true_iff, bool_decide_eq_true, Z.ltb_lt in Hf. unfold digit_of. destruct Hf as ((? & ?) & ?); [by apply list_elem_of_In|].
  by split_and!.
Qed.

Lemma strtoul_decimal_byte b rest : byte b -> stops 10 rest -> Forall byte rest ->
  simple_strtoul (number (u64 (s32 (u32 b))) 10 (-1) (-1) SIGN ++ rest) 10 = (b, rest).
Proof.
  intros Hb Hs Hr. destruct (decimal_byte b Hb) as (Hn & Hd & Hv). rewrite strtoul_digits by (done || lia).
  rewrite Hv, u32_small; [done|]. unfold byte in Hb. lia.
Qed.

Definition dotted (a b c d : Z) : list Z :=
  let n x := number (u64 (s32 (u32 x))) 10 (-1) (-1) SIGN in
  n a ++ ch "." :: n b ++ ch "." :: n c ++ ch "." :: n d.

Lemma dotted_printed a b c d : sprintf true (zs "%d.%d.%d.%d") [A_int a; A_int b; A_int c; A_int d] = Ok (dotted a b c d, []).
Proof.
  unfold sprintf, vsprintf, dotted.
  change (zs "%d.%d.%d.%d") with (ch "%" :: ch "d" :: ch "." :: ch "%" :: ch "d" :: ch "." :: ch "%" :: ch "d" :: ch "." :: ch "%" :: [ch "d"]).
  cbn [length].
  do 3 (erewrite loop_conv by apply conv_d; cbn [c_fmt c_args c_out c_store]; rewrite loop_char by done).
  erewrite loop_conv by apply conv_d. cbn [c_fmt c_args c_out c_store vsprintf_loop].
  cbn [app]. rewrite <- !app_assoc. reflexivity.
Qed.

Lemma dotted_step n b rest addr : byte b -> Forall byte rest -> 0 <= addr < 16777216 ->
  string_to_ip_loop (S n) (number (u64 (s32 (u32 b))) 10 (-1) (-1) SIGN ++ ch "." :: rest) addr =
    string_to_ip_loop n rest (addr * 256 + b).
Proof.
  intros Hb Hr Ha. cbn [string_to_ip_loop]. rewrite strtoul_decimal_byte; [|done|by split; [left|]|constructor; [by vm_compute|done]].
  cbn [deref tl]. change (negb (ch "." =? 0)) with true. cbv iota. f_equal.
  unfold byte in Hb. change 0xFF with (Z.ones 8). rewrite Z.land_ones by lia. change (2 ^ 8) with 256. rewrite (Z.mod_small b) by lia.
  rewrite u32_small; [|rewrite Z.shiftl_mul_pow2 by lia; change (2 ^ 8) with 256; lia].
  apply lor_shiftl_add; lia.
Qed.

(** An address is read back from its text. *)
Theorem ip_roundtrip x : 0 <= x < 4294967296 -> exists s, ip_to_string x = Ok s /\ string_to_ip (Some s) = x.
Proof.
  intros Hx. set (a := u8 x). set (b := u8 (x / 256)). set (c := u8 (x / 65536)). set (d := u8 (x / 16777216)).
  assert (Ex : x = a + 256 * b + 65536 * c + 16777216 * d) by (unfold a, b, c, d, u8; zmod).
  assert (Ha : byte a) by apply u8_range. assert (Hb : byte b) by apply u8_range.
  assert (Hc : byte c) by apply u8_range. assert (Hd : byte d) by apply u8_range.
  clearbody a b c d. subst x. clear Hx.
  assert (Eh : htonl (a + 256 * b + 65536 * c + 16777216 * d) = ((a * 256 + b) * 256 + c) * 256 + d).
  { replace (a + 256 * b + 65536 * c + 16777216 * d) with (((d * 256 + c) * 256 + b) * 256 + a) by lia.
    rewrite htonl_bytes by done. lia. }
  exists (dotted a b c d). split.
  - unfold ip_to_string. rewrite Eh. set (y := ((a * 256 + b) * 256 + c) * 256 + d).
    unfold byte in *. change 0xff with (Z.ones 8). rewrite !Z.land_ones, !Z.shiftr_div_pow2 by lia.
    replace (y / 2 ^ 24 mod 2 ^ 8) with a by (change (2 ^ 8) with 256; change (2 ^ 24) with 16777216; unfold y; zmod).
    replace (y / 2 ^ 16 mod 2 ^ 8) with b by (change (2 ^ 8) with 256; change (2 ^ 16) with 65536; unfold y; zmod).
    replace (y / 2 ^ 8 mod 2 ^ 8) with c by (change (2 ^ 8) with 256; unfold y; zmod).
    replace (y mod 2 ^ 8) with d by (change (2 ^ 8) with 256; unfold y; zmod).
    by rewrite dotted_printed.
  - unfold string_to_ip, dotted. cbv zeta.
    assert (HF : forall x l, byte x -> Forall byte l -> Forall byte (number (u64 (s32 (u32 x))) 10 (-1) (-1) SIGN ++ l)).
    { intros x l Hx Hl. apply Forall_app. split; [|done]. destruct (decimal_byte x Hx) as (_ & H & _).
      eapply Forall_impl; [exact H|]. intros ? [? _]. done. }
    assert (HD : forall l, Forall byte l -> Forall byte (ch "." :: l)) by (intros; constructor; [by vm_compute|done]).
    assert (HN : forall x, byte x -> Forall byte (number (u64 (s32 (u32 x))) 10 (-1) (-1) SIGN)).
    { intros x Hx. rewrite <- (app_nil_r (number _ _ _ _ _)). by apply HF. }
    do 3 (rewrite dotted_step; [|done|repeat first [apply HF; [done|] | apply HD | by apply HN]|unfold byte in *; lia]). cbn [string_to_ip_loop].
    rewrite <- (app_nil_r (number _ _ _ _ _)), strtoul_decimal_byte by done.
    rewrite <- (htonl_bytes a b c d) by done. f_equal.
    unfold byte in *. change 0xFF with (Z.ones 8). rewrite Z.land_ones by lia. change (2 ^ 8) with 256. rewrite (Z.mod_small d) by lia.
    rewrite u32_small; [|rewrite Z.shiftl_mul_pow2 by lia; change (2 ^ 8) with 256; lia].
    rewrite lor_shiftl_add by (lia || (change (2 ^ 8) with 256; lia)). change (2 ^ 8) with 256. lia.
Qed.

(** ** On concrete hosts *)

(** A client that ignores everything. *)
#[local] Instance deaf : NetClient unit :=
  {| client_start := fun _ => mret tt; client_rx := fun _ _ _ _ _ => mret tt; client_timeout := mret tt |}.

(** A host 10.0.0.[n] with one device. *)
Definition host {C : Type} (n : Z) (c : C) : net C :=
  let mac := [2; 0; 0; 0; 0; n] in
  Net (Addresses (10 + 16777216 * n) (10 + 16777216 * 2) 0x00ffffff 0 0xffff 0xffff mac NetEtherNullAddr 1)
    (Arp 0 0 None (replicate PKTSIZE_ALIGN 0) 0 0 0)
    (Loop NETLOOP_CONTINUE 1 false true (Some ClientHandler) None 0 0 0)
    (Ping 0 0 NetEtherNullAddr)
    (Eth [Dev (zs "stm0") mac ETH_STATE_ACTIVE] (Some 0%nat) None 0 None 0 1
      (Environ [(zs "ethact", zs "stm0"); (zs "netretry", zs "no")] 1))
    0 (replicate PKTSIZE_ALIGN 0) 0 [] c.

Lemma host_ok {C : Type} (c : C) n : byte n -> net_ok (host n c).
Proof. unfold byte. intros Hn. split; try done. split; try done. cbn. lia. Qed.

Lemma ip_roundtrip_witness : exists s, ip_to_string 0x0100000a = Ok s /\ string_to_ip (Some s) = 0x0100000a.
Proof. apply (ip_roundtrip 0x0100000a). lia. Defined.

Lemma first_datagram_delivered_witness : exists sA1 request sB1 response sA2 frame,
  NetSendUDPPacket MacServer (10 + 16777216 * 2) 69 1024 2 (set_tx (replicate 42 0 ++ [1; 2] ++ replicate 1492 0) (host 1 tt)) = Ok (1, sA1) /\
  sent sA1 = [request] /\
  NetReceive (Config false true) (request ++ [7]) (Z.of_nat (length request)) (host 2 tt) = Ok (tt, sB1) /\
  sent sB1 = [response] /\
  NetReceive (Config false true) (response ++ [8]) (Z.of_nat (length response)) sA1 = Ok (tt, sA2) /\
  sent sA2 = sent sA1 ++ [frame] /\
  NetArpWaitPacketIP (arp sA2) = 0 /\ mac_value sA2 MacServer = [2; 0; 0; 0; 0; 2] /\
  NetReceive (Config false true) (frame ++ [9]) (Z.of_nat (length frame)) sB1 = run_handler (frame ++ [9]) [1; 2; 9] 69 1024 2 sB1.
Proof.
  apply (first_datagram_delivered (Config false true) (set_tx (replicate 42 0 ++ [1; 2] ++ replicate 1492 0) (host 1 tt)) (host 2 tt)
    MacServer 69 1024 [1; 2] [7] [8] [9]).
  - destruct (host_ok tt 1 ltac:(by vm_compute)). split; try done.
  - by apply host_ok.
  - split; [done|]. cbv. lia.
  - done.
  - done.
  - done.
  - done.
  - done.
  - lia.
  - lia.
  - apply (bool_decide_unpack _). vm_compute. exact I.
Defined.

(** An echo request with an odd number of bytes is answered with a checksum that
    leaves the last byte out: the receiver's sum over all bytes is wrong. *)
Definition echo_request (data : list Z) : list Z :=
  let len := 28 + Z.of_nat (length data) in
  let h sum := [0x45; 0] ++ be16 len ++ [0; 1; 0; 0; 64; 1] ++ sum ++ [10; 0; 0; 2; 10; 0; 0; 1] in
  [2; 0; 0; 0; 0; 1] ++ [2; 0; 0; 0; 0; 2] ++ [8; 0] ++ h (cksum_bytes (NetCksum (h [0; 0]) 10)) ++
  [8; 0; 0; 0; 0; 0; 0; 1] ++ data.

(** The sum over the ICMP part of the last frame sent, padded to whole words. *)
Definition reply_sum (s : net unit) : Z :=
  let icmp := drop 34 (default [] (list.last (sent s))) in NetCksum (icmp ++ [0]) ((length icmp + 1) / 2).

Definition echo_sum (data : list Z) : res Z :=
  '(_, s) ← NetReceive (Config true false) (echo_request data) (42 + Z.of_nat (length data)) (host 1 tt); mret (reply_sum s).

Example echo_even : echo_sum [1; 2] = Ok 0xffff.
Proof. vm_compute. reflexivity. Qed.
Example echo_odd : echo_sum [1; 2; 3] = Ok 3.
Proof. vm_compute. reflexivity. Qed.
