(* ===== verification/Tftp.v ===== *)
(** * TFTP (net/tftp.c, common/cmd_net.c)

    The client of the network loop: an instance of [NetClient].  [mem] is the
    memory the file is stored to; what is printed is left out.  The configuration
    is that of the boards: no multicast, no size option, no fixed ports, no direct
    flash.

    The second half: the packets it sends. *)

From S2P Require Import Prelude Mem Ctype Vsprintf Env Eth Net.

(** ** Constants *)

Definition WELL_KNOWN_PORT : Z := 69.
Definition TIMEOUT : Z := 5000.
Definition TIMEOUT_COUNT : Z := 10.
Definition TFTP_RRQ : Z := 1.
Definition TFTP_WRQ : Z := 2.
Definition TFTP_DATA : Z := 3.
Definition TFTP_ACK : Z := 4.
Definition TFTP_ERROR : Z := 5.
Definition TFTP_OACK : Z := 6.
Definition TFTP_ERR_FILE_NOT_FOUND : Z := 1.
Definition TFTP_ERR_ACCESS_DENIED : Z := 2.
Definition STATE_RRQ : Z := 1.
Definition STATE_DATA : Z := 2.
Definition STATE_TOO_LARGE : Z := 3.
Definition STATE_BAD_MAGIC : Z := 4.
Definition STATE_OACK : Z := 5.
Definition TFTP_BLOCK_SIZE : Z := 512.
Definition TFTP_SEQUENCE_SIZE : Z := 65536.
Definition MAX_LEN : nat := 128.

(** ** State *)

Record tftp := Tftp {
  TftpServerIP : Z;
  TftpServerPort : Z;
  TftpOurPort : Z;
  TftpTimeoutCount : Z;
  TftpTimeoutCountMax : Z;
  TftpBlock : Z;
  TftpLastBlock : Z;
  TftpBlockWrap : Z;
  TftpBlockWrapOffset : Z;
  TftpState : Z;
  TftpBlkSize : Z;
  TftpBlkSizeOption : Z;
  TftpTimeoutMSecs : Z;
  TftpRRQTimeoutCountMax : Z;
  tftp_filename : list Z;
  BootFile : list Z;
  load_addr : Z;
  mem : gmap Z Z
}.

Definition set_TftpServerIP (v : Z) (s : tftp) : tftp :=
  Tftp v (TftpServerPort s) (TftpOurPort s) (TftpTimeoutCount s) (TftpTimeoutCountMax s) (TftpBlock s) (TftpLastBlock s) (TftpBlockWrap s) (TftpBlockWrapOffset s) (TftpState s) (TftpBlkSize s) (TftpBlkSizeOption s) (TftpTimeoutMSecs s) (TftpRRQTimeoutCountMax s) (tftp_filename s) (BootFile s) (load_addr s) (mem s).
Definition set_TftpServerPort (v : Z) (s : tftp) : tftp :=
  Tftp (TftpServerIP s) v (TftpOurPort s) (TftpTimeoutCount s) (TftpTimeoutCountMax s) (TftpBlock s) (TftpLastBlock s) (TftpBlockWrap s) (TftpBlockWrapOffset s) (TftpState s) (TftpBlkSize s) (TftpBlkSizeOption s) (TftpTimeoutMSecs s) (TftpRRQTimeoutCountMax s) (tftp_filename s) (BootFile s) (load_addr s) (mem s).
Definition set_TftpOurPort (v : Z) (s : tftp) : tftp :=
  Tftp (TftpServerIP s) (TftpServerPort s) v (TftpTimeoutCount s) (TftpTimeoutCountMax s) (TftpBlock s) (TftpLastBlock s) (TftpBlockWrap s) (TftpBlockWrapOffset s) (TftpState s) (TftpBlkSize s) (TftpBlkSizeOption s) (TftpTimeoutMSecs s) (TftpRRQTimeoutCountMax s) (tftp_filename s) (BootFile s) (load_addr s) (mem s).
Definition set_TftpTimeoutCount (v : Z) (s : tftp) : tftp :=
  Tftp (TftpServerIP s) (TftpServerPort s) (TftpOurPort s) v (TftpTimeoutCountMax s) (TftpBlock s) (TftpLastBlock s) (TftpBlockWrap s) (TftpBlockWrapOffset s) (TftpState s) (TftpBlkSize s) (TftpBlkSizeOption s) (TftpTimeoutMSecs s) (TftpRRQTimeoutCountMax s) (tftp_filename s) (BootFile s) (load_addr s) (mem s).
Definition set_TftpTimeoutCountMax (v : Z) (s : tftp) : tftp :=
  Tftp (TftpServerIP s) (TftpServerPort s) (TftpOurPort s) (TftpTimeoutCount s) v (TftpBlock s) (TftpLastBlock s) (TftpBlockWrap s) (TftpBlockWrapOffset s) (TftpState s) (TftpBlkSize s) (TftpBlkSizeOption s) (TftpTimeoutMSecs s) (TftpRRQTimeoutCountMax s) (tftp_filename s) (BootFile s) (load_addr s) (mem s).
Definition set_TftpBlock (v : Z) (s : tftp) : tftp :=
  Tftp (TftpServerIP s) (TftpServerPort s) (TftpOurPort s) (TftpTimeoutCount s) (TftpTimeoutCountMax s) v (TftpLastBlock s) (TftpBlockWrap s) (TftpBlockWrapOffset s) (TftpState s) (TftpBlkSize s) (TftpBlkSizeOption s) (TftpTimeoutMSecs s) (TftpRRQTimeoutCountMax s) (tftp_filename s) (BootFile s) (load_addr s) (mem s).
Definition set_TftpLastBlock (v : Z) (s : tftp) : tftp :=
  Tftp (TftpServerIP s) (TftpServerPort s) (TftpOurPort s) (TftpTimeoutCount s) (TftpTimeoutCountMax s) (TftpBlock s) v (TftpBlockWrap s) (TftpBlockWrapOffset s) (TftpState s) (TftpBlkSize s) (TftpBlkSizeOption s) (TftpTimeoutMSecs s) (TftpRRQTimeoutCountMax s) (tftp_filename s) (BootFile s) (load_addr s) (mem s).
Definition set_TftpBlockWrap (v : Z) (s : tftp) : tftp :=
  Tftp (TftpServerIP s) (TftpServerPort s) (TftpOurPort s) (TftpTimeoutCount s) (TftpTimeoutCountMax s) (TftpBlock s) (TftpLastBlock s) v (TftpBlockWrapOffset s) (TftpState s) (TftpBlkSize s) (TftpBlkSizeOption s) (TftpTimeoutMSecs s) (TftpRRQTimeoutCountMax s) (tftp_filename s) (BootFile s) (load_addr s) (mem s).
Definition set_TftpBlockWrapOffset (v : Z) (s : tftp) : tftp :=
  Tftp (TftpServerIP s) (TftpServerPort s) (TftpOurPort s) (TftpTimeoutCount s) (TftpTimeoutCountMax s) (TftpBlock s) (TftpLastBlock s) (TftpBlockWrap s) v (TftpState s) (TftpBlkSize s) (TftpBlkSizeOption s) (TftpTimeoutMSecs s) (TftpRRQTimeoutCountMax s) (tftp_filename s) (BootFile s) (load_addr s) (mem s).
Definition set_TftpState (v : Z) (s : tftp) : tftp :=
  Tftp (TftpServerIP s) (TftpServerPort s) (TftpOurPort s) (TftpTimeoutCount s) (TftpTimeoutCountMax s) (TftpBlock s) (TftpLastBlock s) (TftpBlockWrap s) (TftpBlockWrapOffset s) v (TftpBlkSize s) (TftpBlkSizeOption s) (TftpTimeoutMSecs s) (TftpRRQTimeoutCountMax s) (tftp_filename s) (BootFile s) (load_addr s) (mem s).
Definition set_TftpBlkSize (v : Z) (s : tftp) : tftp :=
  Tftp (TftpServerIP s) (TftpServerPort s) (TftpOurPort s) (TftpTimeoutCount s) (TftpTimeoutCountMax s) (TftpBlock s) (TftpLastBlock s) (TftpBlockWrap s) (TftpBlockWrapOffset s) (TftpState s) v (TftpBlkSizeOption s) (TftpTimeoutMSecs s) (TftpRRQTimeoutCountMax s) (tftp_filename s) (BootFile s) (load_addr s) (mem s).
Definition set_TftpBlkSizeOption (v : Z) (s : tftp) : tftp :=
  Tftp (TftpServerIP s) (TftpServerPort s) (TftpOurPort s) (TftpTimeoutCount s) (TftpTimeoutCountMax s) (TftpBlock s) (TftpLastBlock s) (TftpBlockWrap s) (TftpBlockWrapOffset s) (TftpState s) (TftpBlkSize s) v (TftpTimeoutMSecs s) (TftpRRQTimeoutCountMax s) (tftp_filename s) (BootFile s) (load_addr s) (mem s).
Definition set_TftpTimeoutMSecs (v : Z) (s : tftp) : tftp :=
  Tftp (TftpServerIP s) (TftpServerPort s) (TftpOurPort s) (TftpTimeoutCount s) (TftpTimeoutCountMax s) (TftpBlock s) (TftpLastBlock s) (TftpBlockWrap s) (TftpBlockWrapOffset s) (TftpState s) (TftpBlkSize s) (TftpBlkSizeOption s) v (TftpRRQTimeoutCountMax s) (tftp_filename s) (BootFile s) (load_addr s) (mem s).
Definition set_TftpRRQTimeoutCountMax (v : Z) (s : tftp) : tftp :=
  Tftp (TftpServerIP s) (TftpServerPort s) (TftpOurPort s) (TftpTimeoutCount s) (TftpTimeoutCountMax s) (TftpBlock s) (TftpLastBlock s) (TftpBlockWrap s) (TftpBlockWrapOffset s) (TftpState s) (TftpBlkSize s) (TftpBlkSizeOption s) (TftpTimeoutMSecs s) v (tftp_filename s) (BootFile s) (load_addr s) (mem s).
Definition set_tftp_filename (v : list Z) (s : tftp) : tftp :=
  Tftp (TftpServerIP s) (TftpServerPort s) (TftpOurPort s) (TftpTimeoutCount s) (TftpTimeoutCountMax s) (TftpBlock s) (TftpLastBlock s) (TftpBlockWrap s) (TftpBlockWrapOffset s) (TftpState s) (TftpBlkSize s) (TftpBlkSizeOption s) (TftpTimeoutMSecs s) (TftpRRQTimeoutCountMax s) v (BootFile s) (load_addr s) (mem s).
Definition set_BootFile (v : list Z) (s : tftp) : tftp :=
  Tftp (TftpServerIP s) (TftpServerPort s) (TftpOurPort s) (TftpTimeoutCount s) (TftpTimeoutCountMax s) (TftpBlock s) (TftpLastBlock s) (TftpBlockWrap s) (TftpBlockWrapOffset s) (TftpState s) (TftpBlkSize s) (TftpBlkSizeOption s) (TftpTimeoutMSecs s) (TftpRRQTimeoutCountMax s) (tftp_filename s) v (load_addr s) (mem s).
Definition set_load_addr (v : Z) (s : tftp) : tftp :=
  Tftp (TftpServerIP s) (TftpServerPort s) (TftpOurPort s) (TftpTimeoutCount s) (TftpTimeoutCountMax s) (TftpBlock s) (TftpLastBlock s) (TftpBlockWrap s) (TftpBlockWrapOffset s) (TftpState s) (TftpBlkSize s) (TftpBlkSizeOption s) (TftpTimeoutMSecs s) (TftpRRQTimeoutCountMax s) (tftp_filename s) (BootFile s) v (mem s).
Definition set_mem (v : gmap Z Z) (s : tftp) : tftp :=
  Tftp (TftpServerIP s) (TftpServerPort s) (TftpOurPort s) (TftpTimeoutCount s) (TftpTimeoutCountMax s) (TftpBlock s) (TftpLastBlock s) (TftpBlockWrap s) (TftpBlockWrapOffset s) (TftpState s) (TftpBlkSize s) (TftpBlkSizeOption s) (TftpTimeoutMSecs s) (TftpRRQTimeoutCountMax s) (tftp_filename s) (BootFile s) (load_addr s) v.

Abbreviation N := (ST (net tftp)).

Definition upd_tftp (f : tftp -> tftp) : N unit := modify (fun s => set_client (f (client s)) s).

(** ** Storing and sending *)

(** The first [len] bytes behind a pointer. *)
Definition bytes_of (src : list Z) (len : Z) : res (list Z) :=
  if len <=? Z.of_nat (length src) then Ok (take (Z.to_nat len) src) else Fault.

Definition store_block (block : Z) (src : list Z) (len : Z) : N unit :=
  s ← get;
  let c := client s in
  let offset := u32 (u32 (block * TftpBlkSize c) + TftpBlockWrapOffset c) in
  let newsize := u32 (offset + len) in
  data ← lift (bytes_of src len);
  upd_tftp (fun c => set_mem (write_bytes (mem c) (u32 (load_addr c + offset)) data) c);;
  if NetBootFileXferSize (loop s) <? newsize then upd_loop (set_NetBootFileXferSize newsize) else mret tt.

(** The packet for the state. *)
Definition tftp_packet (c : tftp) : res (list Z) :=
  let st := TftpState c in
  if st =? STATE_RRQ then
    '(secs, _) ← sprintf true (zs "%lu") [A_int (TftpTimeoutMSecs c / 1000)];
    '(blk, _) ← sprintf true (zs "blksize%c%d%c") [A_int 0; A_int (TftpBlkSizeOption c); A_int 0];
    mret (be16 TFTP_RRQ ++ tftp_filename c ++ [0] ++ zs "octet" ++ [0] ++ zs "timeout" ++ [0] ++ secs ++ [0] ++ blk)
  else if (st =? STATE_OACK) || (st =? STATE_DATA) then mret (be16 TFTP_ACK ++ be16 (TftpBlock c))
  else if st =? STATE_TOO_LARGE then mret (be16 TFTP_ERROR ++ be16 3 ++ zs "File too large" ++ [0])
  else if st =? STATE_BAD_MAGIC then mret (be16 TFTP_ERROR ++ be16 2 ++ zs "File has bad magic" ++ [0])
  else mret [].

Definition TftpSend : N unit :=
  s ← get;
  let c := client s in
  pkt ← lift (tftp_packet c);
  tx ← lift (put_bytes (NetTxPacket s) (Z.to_nat (NetEthHdrSize (addrs s) + IP_HDR_SIZE)) pkt);
  modify (set_tx tx);;
  _ ← NetSendUDPPacket MacServer (TftpServerIP c) (TftpServerPort c) (TftpOurPort c) (Z.of_nat (length pkt));
  mret tt.

(** ** Receiving *)

(** [strcmp(pkt + i, lit) == 0]. *)
Fixpoint str_at (pkt : list Z) (i : nat) (lit : list Z) : res bool :=
  c ← get8 pkt i;
  match lit with
  | [] => mret (c =? 0)
  | l :: lit => if c =? l then str_at pkt (S i) lit else mret false
  end.

(** A number in the buffer, which must end in it. *)
Definition strtoul_at (pkt : list Z) (i : nat) (base : Z) : res Z :=
  let '(v, e) := simple_strtoul (drop i pkt) base in match e with [] => Fault | _ => mret v end.

(** The search for the [blksize] option from [i] on: the block size at the end. *)
Fixpoint oack_loop (fuel : nat) (pkt : list Z) (i : nat) (len blksize : Z) : res Z :=
  if Z.of_nat i + 8 <? len then
    match fuel with
    | O => OutOfFuel
    | S fuel =>
        found ← str_at pkt i (zs "blksize");
        blksize ← (if (found : bool) then v ← strtoul_at pkt (i + 8) 10; mret (u16 v) else mret blksize);
        oack_loop fuel pkt (S i) len blksize
    end
  else mret blksize.

Section Tftp.
Context (dev_init : nat -> nat -> Z).

Definition handle_oack (pkt : list Z) (src len : Z) : N unit :=
  upd_tftp (fun c => set_TftpServerPort src (set_TftpState STATE_OACK c));;
  s ← get;
  blksize ← lift (oack_loop (S (length pkt)) pkt 0 len (TftpBlkSize (client s)));
  upd_tftp (set_TftpBlkSize blksize);;
  TftpSend.

(** From the first test on the block number on. *)
Definition handle_block (pkt : list Z) (len : Z) : N unit :=
  s ← get;
  let c := client s in
  if TftpBlock c =? TftpLastBlock c then mret tt
  else
    upd_tftp (fun c => set_TftpTimeoutCountMax TIMEOUT_COUNT (set_TftpLastBlock (TftpBlock c) c));;
    NetSetTimeout (TftpTimeoutMSecs c) ClientTimeout;;
    store_block (u32 (TftpBlock c - 1)) (drop 2 pkt) len;;
    TftpSend;;
    if len <? TftpBlkSize c then set_state NETLOOP_SUCCESS else mret tt.

Definition handle_data (pkt : list Z) (src len : Z) : N unit :=
  if len <? 2 then mret tt
  else
    let len := len - 2 in
    block ← lift (get16 pkt 0);
    upd_tftp (set_TftpBlock block);;
    (if block =? 0 then
       upd_tftp (fun c => set_TftpBlockWrapOffset (u32 (TftpBlockWrapOffset c + TftpBlkSize c * TFTP_SEQUENCE_SIZE))
         (set_TftpBlockWrap (u32 (TftpBlockWrap c + 1)) c))
     else mret tt);;
    s ← get;
    let st := TftpState (client s) in
    if (st =? STATE_RRQ) || (st =? STATE_OACK) then
      upd_tftp (fun c => set_TftpBlockWrapOffset 0 (set_TftpBlockWrap 0 (set_TftpLastBlock 0
        (set_TftpServerPort src (set_TftpState STATE_DATA c)))));;
      if negb (block =? 1) then NetStartAgain dev_init else handle_block pkt len
    else handle_block pkt len.

Definition handle_error (pkt : list Z) : N unit :=
  code ← lift (get16 pkt 0);
  if (code =? TFTP_ERR_FILE_NOT_FOUND) || (code =? TFTP_ERR_ACCESS_DENIED) then
    upd_eth eth_halt;; set_state NETLOOP_FAIL
  else NetStartAgain dev_init.

Definition TftpHandler (pkt : list Z) (dest src len : Z) : N unit :=
  s ← get;
  let c := client s in
  if negb (dest =? TftpOurPort c) then mret tt
  else if negb (TftpState c =? STATE_RRQ) && negb (src =? TftpServerPort c) then mret tt
  else if len <? 2 then mret tt
  else
    let len := len - 2 in
    proto ← lift (get16 pkt 0);
    let pkt := drop 2 pkt in
    if proto =? TFTP_OACK then handle_oack pkt src len
    else if proto =? TFTP_DATA then handle_data pkt src len
    else if proto =? TFTP_ERROR then handle_error pkt
    else mret tt.

Definition TftpTimeout : N unit :=
  upd_tftp (fun c => set_TftpTimeoutCount (s32 (TftpTimeoutCount c + 1)) c);;
  s ← get;
  let c := client s in
  if TftpTimeoutCountMax c <? TftpTimeoutCount c then NetStartAgain dev_init
  else NetSetTimeout (TftpTimeoutMSecs c) ClientTimeout;; TftpSend.

(** ** Starting *)

Definition default_filename (ip : Z) : res (list Z) :=
  '(s, _) ← sprintf true (zs "%02lX%02lX%02lX%02lX.img")
    [A_int (Z.land ip 0xFF); A_int (Z.land (Z.shiftr ip 8) 0xFF); A_int (Z.land (Z.shiftr ip 16) 0xFF);
     A_int (Z.land (Z.shiftr ip 24) 0xFF)];
  mret s.

(** [strchr(BootFile, ':')]: what follows the colon. *)
Fixpoint after_colon (s : list Z) : option (list Z) :=
  match s with [] => None | c :: s => if c =? ch ":" then Some s else after_colon s end.

Definition TftpStart : N unit :=
  s ← get;
  let e := env (edev s) in
  upd_tftp (fun c => match var e (zs "tftpblocksize") with
                     | Some v => set_TftpBlkSizeOption (u16 (fst (simple_strtol v 10))) c
                     | None => c
                     end);;
  upd_tftp (fun c => match var e (zs "tftptimeout") with
                     | Some v => set_TftpTimeoutMSecs (u32 (fst (simple_strtol v 10))) c
                     | None => c
                     end);;
  upd_tftp (fun c => if TftpTimeoutMSecs c <? 1000 then set_TftpTimeoutMSecs 1000 c else c);;
  let boot := BootFile (client s) in
  '(ip, name) ← (match boot with
                 | [] => name ← lift (default_filename (NetOurIP (addrs s))); mret (NetServerIP (addrs s), name)
                 | _ => match after_colon boot with
                        | None => mret (NetServerIP (addrs s), boot)
                        | Some name => mret (string_to_ip (Some boot), name)
                        end
                 end);
  upd_tftp (fun c => set_tftp_filename (take (MAX_LEN - 1) name) (set_TftpServerIP ip c));;
  upd_tftp (fun c => set_TftpTimeoutCountMax (TftpRRQTimeoutCountMax c) c);;
  s ← get;
  NetSetTimeout (TftpTimeoutMSecs (client s)) ClientTimeout;;
  NetSetHandler ClientHandler;;
  upd_tftp (fun c => set_TftpOurPort (1024 + now s mod 3072) (set_TftpState STATE_RRQ
    (set_TftpTimeoutCount 0 (set_TftpServerPort WELL_KNOWN_PORT c))));;
  upd_tftp (set_TftpBlock 0);;
  upd_addrs (set_NetServerEther NetEtherNullAddr);;
  upd_tftp (set_TftpBlkSize TFTP_BLOCK_SIZE);;
  TftpSend.

#[export] Instance tftp_client : NetClient tftp :=
  {| client_start := fun _ => TftpStart; client_rx := fun _ => TftpHandler; client_timeout := TftpTimeout |}.

(** ** The command *)

(** The arguments of [netboot_common]: load address and file name, unless there
    are too many. *)
Definition netboot_args (argv : list (list Z)) : N bool :=
  s ← get;
  upd_tftp (fun c => match var (env (edev s)) (zs "loadaddr") with
                     | Some v => set_load_addr (fst (simple_strtoul v 16)) c
                     | None => c
                     end);;
  match argv with
  | [_] => mret true
  | [_; a] =>
      let '(addr, e) := simple_strtoul a 16 in
      upd_tftp (fun c => match e with [] => set_load_addr addr c | _ => set_BootFile (copy_filename a 128) c end);;
      mret true
  | [_; a; f] =>
      upd_tftp (fun c => set_BootFile (copy_filename f 128) (set_load_addr (fst (simple_strtoul a 16)) c));; mret true
  | _ => mret false
  end.

(** One variable of [netboot_update_env]. *)
Definition update_ip (name : list Z) (ip : Z) : N unit :=
  if ip =? 0 then mret tt
  else text ← lift (ip_to_string ip); upd_eth (fun e => with_env e (set_var (env e) name (Some text))).

Definition netboot_update_env : N unit :=
  s ← get;
  let a := addrs s in
  update_ip (zs "gatewayip") (NetOurGatewayIP a);;
  update_ip (zs "netmask") (NetOurSubnetMask a);;
  update_ip (zs "ipaddr") (NetOurIP a);;
  update_ip (zs "serverip") (NetServerIP a).

(** [do_bootm] is what booting the image returns; [None]: still in the loop. *)
Definition do_tftpb (cfg : config) (do_bootm : net tftp -> Z) (bi_ip_addr : Z) (argv : list (list Z)) (ts : list turn) : N (option Z) :=
  ok ← netboot_args argv;
  if negb ok then mret (Some 1)
  else
    r ← NetLoop dev_init cfg (fun c => load_addr c) bi_ip_addr TFTP ts;
    match r with
    | None => mret None
    | Some size =>
        if size <? 0 then mret (Some 1)
        else
          netboot_update_env;;
          if size =? 0 then mret (Some 0)
          else
            s ← get;
            if bool_decide (var (env (edev s)) (zs "autostart") = Some (zs "yes")) then mret (Some (do_bootm s))
            else mret (Some 0)
    end.
End Tftp.

(** ** Packets *)

Definition data_packet (block : Z) (data : list Z) : list Z := be16 TFTP_DATA ++ be16 block ++ data.
Definition ack_packet (block : Z) : list Z := be16 TFTP_ACK ++ be16 block.


(** ** The first request *)

Lemma put_dec_length num : (length (put_dec num) <= 25)%nat.
Proof.
  assert (H : forall f num, (length (put_dec_loop f num) <= 5 * f)%nat).
  { induction f as [|f IH]; intros n; cbn [put_dec_loop]; [simpl; lia|]. destruct (n <? 100000).
    - unfold put_dec_trunc. cbv zeta. repeat (case_match; cbn [length]); lia.
    - case_match. rewrite length_app. match goal with |- context [put_dec_loop f ?q] => specialize (IH q) end.
      match goal with |- context [put_dec_full ?r] => change (length (put_dec_full r)) with 5%nat end. lia. }
  apply H.
Qed.

Lemma conv_lu net rest n args w : conversion net (ch "l" :: ch "u" :: rest) (A_int n :: args) w =
  Ok (Conv (number (u32 n) 10 (-1) (-1) 0) [] rest args).
Proof. reflexivity. Qed.

Lemma conv_c net rest n args w : conversion net (ch "c" :: rest) (A_int n :: args) w = Ok (Conv [u8 (u32 n)] [] rest args).
Proof. reflexivity. Qed.

Lemma lu_printed n : sprintf true (zs "%lu") [A_int n] = Ok (number (u32 n) 10 (-1) (-1) 0, []).
Proof.
  unfold sprintf, vsprintf. change (zs "%lu") with (ch "%" :: ch "l" :: [ch "u"]). cbn [length].
  erewrite loop_conv by apply conv_lu. reflexivity.
Qed.

Lemma blksize_printed n : sprintf true (zs "blksize%c%d%c") [A_int 0; A_int n; A_int 0] =
  Ok (zs "blksize" ++ [0] ++ number (u64 (s32 (u32 n))) 10 (-1) (-1) SIGN ++ [0], []).
Proof.
  unfold sprintf, vsprintf.
  change (zs "blksize%c%d%c") with (ch "b" :: ch "l" :: ch "k" :: ch "s" :: ch "i" :: ch "z" :: ch "e" :: ch "%" :: ch "c" :: ch "%" :: ch "d" :: ch "%" :: [ch "c"]).
  cbn [length]. do 7 (rewrite loop_char by done). erewrite loop_conv by apply conv_c. cbn [c_fmt c_args c_out c_store].
  erewrite loop_conv by apply conv_d. cbn [c_fmt c_args c_out c_store].
  erewrite loop_conv by apply conv_c. cbn [c_fmt c_args c_out c_store vsprintf_loop].
  change (u8 (u32 0)) with 0. cbn [app]. reflexivity.
Qed.

Definition rrq_packet (c : tftp) : list Z :=
  be16 TFTP_RRQ ++ tftp_filename c ++ [0] ++ zs "octet" ++ [0] ++ zs "timeout" ++ [0] ++
  number (u32 (TftpTimeoutMSecs c / 1000)) 10 (-1) (-1) 0 ++ [0] ++
  zs "blksize" ++ [0] ++ number (u64 (s32 (u32 (TftpBlkSizeOption c)))) 10 (-1) (-1) SIGN ++ [0].

Lemma rrq_packet_ok c : TftpState c = STATE_RRQ -> tftp_packet c = Ok (rrq_packet c).
Proof. intros E. unfold tftp_packet. rewrite E, lu_printed, blksize_printed. reflexivity. Qed.

Lemma rrq_packet_length c : (length (tftp_filename c) < MAX_LEN)%nat -> (42 + length (rrq_packet c) < PKTSIZE_ALIGN)%nat.
Proof.
  intros H. unfold rrq_packet. rewrite !length_app. cbn [length be16]. change (length (zs "octet")) with 5%nat.
  change (length (zs "timeout")) with 7%nat. change (length (zs "blksize")) with 7%nat.
  rewrite number_dec by (pose proof (u32_range (TftpTimeoutMSecs c / 1000)); lia). rewrite length_rev.
  pose proof (put_dec_length (u32 (TftpTimeoutMSecs c / 1000))).
  set (z := s32 _). assert (Hz : -2147483648 <= z < 2147483648).
  { unfold z, s32. cbv zeta. pose proof (u32_range (u32 (TftpBlkSizeOption c))). btest; lia. }
  rewrite number_dec_signed by lia. unfold MAX_LEN, PKTSIZE_ALIGN in *.
  destruct (z <? 0); cbn [length]; rewrite length_rev; [pose proof (put_dec_length (- z))|pose proof (put_dec_length z)]; lia.
Qed.
Lemma conv_02lX net rest n args w : conversion net (ch "0" :: ch "2" :: ch "l" :: ch "X" :: rest) (A_int n :: args) w =
  Ok (Conv (number (u32 n) 16 2 (-1) 1) [] rest args).
Proof. reflexivity. Qed.
Lemma default_filename_ok ip : exists s, default_filename ip = Ok s.
Proof.
  eexists. unfold default_filename, sprintf, vsprintf.
  set (f := zs "%02lX%02lX%02lX%02lX.img"). vm_compute in f. subst f. cbn [length]. 
  do 4 (erewrite loop_conv by apply conv_02lX; cbn [c_fmt c_args c_out c_store]).
  do 4 (rewrite loop_char by done). reflexivity.
Qed.

Lemma NetSetTimeout_ok {C : Type} iv f (s : net C) : exists l, NetSetTimeout iv f s = Ok (tt, set_loop l s) /\
  NetState l = NetState (loop s) /\ packetHandler l = packetHandler (loop s) /\
  NetBootFileXferSize l = NetBootFileXferSize (loop s).
Proof. unfold NetSetTimeout, get, mbind, ST_bind, upd_loop, modify. destruct (iv =? 0); by eexists. Qed.

(** The packet in place, still to be sent. *)
Lemma TftpSend_in_place (s : net tftp) p : net_ok s -> tftp_packet (client s) = Ok p -> (42 + length p < PKTSIZE_ALIGN)%nat ->
  exists tx0, let s1 := set_tx tx0 s in net_ok s1 /\ payload_in s1 p /\
    TftpSend s = (_ ← NetSendUDPPacket MacServer (TftpServerIP (client s)) (TftpServerPort (client s))
      (TftpOurPort (client s)) (Z.of_nat (length p)); mret tt) s1.
Proof.
  intros W Hp Hl. unfold TftpSend.
  rewrite (bind_ok _ _ _ _ _ (eq_refl : get s = Ok (s, s))). rewrite Hp. unfold mbind, ST_bind. cbn [lift].
  assert (Hh : Z.to_nat (NetEthHdrSize (addrs s) + IP_HDR_SIZE) = 42%nat).
  { unfold NetEthHdrSize. pose proof (ok_vlan _ (ok_addrs _ W)) as Hv. unfold no_vlan in Hv. by rewrite Hv. }
  rewrite Hh. pose proof (ok_tx _ W) as Ht. rewrite put_bytes_ok by (unfold PKTSIZE_ALIGN in *; lia). cbn [lift].
  set (tx0 := take 42 _ ++ _). exists tx0. cbv zeta. unfold modify. set (s1 := set_tx tx0 s).
  split_and!; [..|done].
  - destruct W. split; try done. cbn. unfold tx0. rewrite put_length; unfold PKTSIZE_ALIGN in *; lia.
  - split; [|done]. cbn [NetTxPacket set_tx s1]. unfold tx0. unfold PKTSIZE_ALIGN in *.
    rewrite drop_app_length' by (rewrite length_take; lia). apply take_app_length'. done.
Qed.
