(* ===== verification/TftpLink.v ===== *)
(** * A transfer (the client of Tftp.v, a server, the network between them)

    What the client does with each packet of a transfer, as lemmas on [session]:
    the state in which a number of blocks of a file is stored.  Then the client is
    put together with a server and a network that may lose and repeat packets, as a
    step relation, with its invariant: a transfer that ends with success has stored
    exactly the file, and one that has not been given up can still end so.  The
    server numbers its blocks modulo 65536, sends the next block when the one it
    sends is acknowledged and repeats it after a timeout.  Last, how a transfer
    starts, and what a repeated block number 0 does to it. *)

From stdpp Require Import relations.
From S2P Require Import Prelude Mem Ctype Vsprintf Env Eth Net Tftp.

Section Proofs.
Context (dev_init : nat -> nat -> Z).
Implicit Types s : net tftp.

(** The server can be reached: its hardware address is known. *)
Record reachable s : Prop := {
  re_net : net_ok s;
  re_mac : NetServerEther (addrs s) <> NetEtherNullAddr;
  re_ip : TftpServerIP (client s) <> 0 /\ TftpServerIP (client s) <> 0xFFFFFFFF
}.

(** The state after sending [p] to the server. *)
Definition after_send s (p tx : list Z) : net tftp :=
  let c := client s in
  sent_udp s (NetServerEther (addrs s)) (TftpServerIP c) (TftpServerPort c) (TftpOurPort c) p tx.

Lemma TftpSend_known s p : reachable s -> tftp_packet (client s) = Ok p -> (42 + length p < PKTSIZE_ALIGN)%nat ->
  exists tx, length tx = PKTSIZE_ALIGN /\ TftpSend s = Ok (tt, after_send s p tx).
Proof.
  intros R Hp Hl. pose proof (re_net _ R) as W. pose proof (re_ip _ R) as [I1 I2].
  destruct (TftpSend_in_place s p W Hp Hl) as (tx0 & W1 & P1 & E1). rewrite E1. clear E1. set (s1 := set_tx tx0 s) in *.
  destruct (NetSendUDPPacket_known s1 MacServer (TftpServerIP (client s)) (TftpServerPort (client s)) (TftpOurPort (client s)) p W1 P1)
    as (tx & Htx & E).
  { unfold mac_for, bcast. destruct (Z.eqb_spec (TftpServerIP (client s)) 0); [done|].
    destruct (Z.eqb_spec (TftpServerIP (client s)) 4294967295); [done|]. apply (re_mac _ R). }
  exists tx. split; [done|]. rewrite (bind_ok _ _ _ _ _ E). unfold mac_for, bcast.
  destruct (Z.eqb_spec (TftpServerIP (client s)) 0); [done|].
  by destruct (Z.eqb_spec (TftpServerIP (client s)) 4294967295).
Qed.

(** ** A transfer *)

(** The file [F] in blocks of [b] bytes from port [P] to our port [Q], to be stored
    at [L] in the memory [M0]. *)
Context (F : list Z) (b : nat) (L P Q : Z) (M0 : gmap Z Z).
Hypothesis Hb : 0 < Z.of_nat b < 65536.
Hypothesis HF : Forall byte F.
Hypothesis Hsize : Z.of_nat (length F) < 4294967296.
Hypothesis HL : 0 <= L /\ L + Z.of_nat (length F) < 4294967296.

(** The blocks are numbered from 1; the last one is short. *)
Definition block (k : nat) : list Z := take b (drop (b * (k - 1)) F).
Definition nblocks : nat := (length F / b + 1)%nat.
Definition wire (k : nat) : Z := Z.of_nat k mod 65536.
Definition data_for (k : nat) : list Z := data_packet (wire k) (block k).

(** What the client knows after the first [r] blocks. *)
Definition progress (c : tftp) (r : nat) : Prop :=
  match r with
  | O => (TftpState c = STATE_RRQ \/ TftpState c = STATE_OACK /\ TftpServerPort c = P) /\ TftpBlock c = 0
  | _ => TftpState c = STATE_DATA /\ TftpServerPort c = P /\ TftpBlock c = wire r /\ TftpLastBlock c = wire r /\
         TftpBlockWrapOffset c = u32 (Z.of_nat r / 65536 * 65536 * Z.of_nat b)
  end.

Record stored s (r : nat) : Prop := {
  se_reach : reachable s;
  se_our : TftpOurPort (client s) = Q;
  se_blk : TftpBlkSize (client s) = Z.of_nat b;
  se_load : load_addr (client s) = L;
  se_name : (length (tftp_filename (client s)) < MAX_LEN)%nat;
  se_handler : packetHandler (loop s) = Some ClientHandler;
  se_state : NetState (loop s) = if (r =? nblocks)%nat then NETLOOP_SUCCESS else NETLOOP_CONTINUE;
  se_xfer : NetBootFileXferSize (loop s) = Z.of_nat (Nat.min (r * b) (length F));
  se_mem : mem (client s) = write_bytes M0 L (take (r * b) F)
}.

Definition session s (r : nat) : Prop := stored s r /\ progress (client s) r.

Lemma block_length k : (1 <= k <= nblocks)%nat -> length (block k) = Nat.min b (length F - (k - 1) * b).
Proof. intros _. unfold block. by rewrite length_take, length_drop, (Nat.mul_comm b). Qed.

Lemma block_fits k : (1 <= k <= nblocks)%nat -> ((k - 1) * b <= length F)%nat.
Proof.
  rewrite Nat.mul_comm. unfold nblocks. intros Hk. pose proof (Nat.div_mod_eq (length F) b).
  assert (b * (k - 1) <= b * (length F / b))%nat by (apply Nat.mul_le_mono_l; lia). lia.
Qed.

Lemma last_block k : (1 <= k <= nblocks)%nat -> (length (block k) < b)%nat <-> k = nblocks.
Proof.
  intros Hk. rewrite block_length by done. pose proof (block_fits k Hk). unfold nblocks in *.
  pose proof (Nat.div_mod_eq (length F) b). pose proof (Nat.mod_upper_bound (length F) b ltac:(lia)). split.
  - intros Hlt. assert (length F - b * (k - 1) < b)%nat by lia. assert (~ (k - 1 < length F / b)%nat); [|lia].
    intros Hc. assert (b * (k - 1 + 1) <= b * (length F / b))%nat by (apply Nat.mul_le_mono_l; lia). lia.
  - intros ->. replace (length F / b + 1 - 1)%nat with (length F / b)%nat by lia. lia.
Qed.

Lemma take_block k : (1 <= k)%nat -> take (k * b) F = take ((k - 1) * b) F ++ block k.
Proof. intros Hk. unfold block. rewrite (Nat.mul_comm b), take_take_drop. f_equal. nia. Qed.

(** Where a block goes. *)
Lemma block_offset k : (1 <= k <= nblocks)%nat ->
  u32 (u32 (u32 (wire k - 1) * Z.of_nat b) + u32 (Z.of_nat k / 65536 * 65536 * Z.of_nat b)) = Z.of_nat ((k - 1) * b).
Proof.
  intros Hk. pose proof (block_fits k Hk) as Hf. unfold wire.
  assert (E : u32 (u32 (u32 (Z.of_nat k mod 65536 - 1) * Z.of_nat b) + u32 (Z.of_nat k / 65536 * 65536 * Z.of_nat b)) =
    u32 ((Z.of_nat k mod 65536 - 1) * Z.of_nat b + Z.of_nat k / 65536 * 65536 * Z.of_nat b)).
  { unfold u32. rewrite Z.mul_mod_idemp_l by lia. by rewrite <- Z.add_mod by lia. }
  rewrite E.
  replace ((Z.of_nat k mod 65536 - 1) * Z.of_nat b + Z.of_nat k / 65536 * 65536 * Z.of_nat b)
    with ((65536 * (Z.of_nat k / 65536) + Z.of_nat k mod 65536 - 1) * Z.of_nat b) by ring.
  rewrite <- Z.div_mod by lia. assert (Ek : (Z.of_nat k - 1) * Z.of_nat b = Z.of_nat ((k - 1) * b)) by (rewrite Nat2Z.inj_mul, Nat2Z.inj_sub by lia; lia).
  rewrite Ek. apply u32_small. clear E Ek. revert Hf. generalize ((k - 1) * b)%nat. lia.
Qed.


(** The state after a new block: [tx] is the packet buffer. *)
Lemma store_block_ok s k junk : stored s (k - 1) -> (1 <= k <= nblocks)%nat ->
  let c := client s in
  TftpBlockWrapOffset c = u32 (Z.of_nat k / 65536 * 65536 * Z.of_nat b) ->
  store_block (u32 (wire k - 1)) (block k ++ junk) (Z.of_nat (length (block k))) s =
    Ok (tt, let s' := set_client (set_mem (write_bytes (mem c) (L + Z.of_nat ((k - 1) * b)) (block k)) c) s in
            set_loop (set_NetBootFileXferSize (Z.of_nat (Nat.min (k * b) (length F))) (loop s')) s').
Proof.
  intros S Hk c Hw. unfold store_block. rewrite (bind_ok _ _ _ _ _ (eq_refl : get s = Ok (s, s))). fold c.
  rewrite Hw. pose proof (se_blk _ _ S) as Eb. fold c in Eb. rewrite Eb, block_offset by done.
  pose proof (block_fits k Hk) as Hf. pose proof (block_length k Hk) as Hl.
  assert (Hend : (Nat.min (k * b) (length F) = (k - 1) * b + length (block k))%nat).
  { rewrite Hl. replace (k * b)%nat with ((k - 1) * b + b)%nat by nia. lia. }
  pose proof (se_xfer _ _ S) as Hx. set (off := ((k - 1) * b)%nat) in *. clearbody off. set (fin := Nat.min (k * b) (length F)) in *. clearbody fin.
  replace (Nat.min off (length F)) with off in Hx by lia.
  assert (Eg : bytes_of (block k ++ junk) (Z.of_nat (length (block k))) = Ok (block k)).
  { unfold bytes_of. rewrite length_app, Nat2Z.id, take_app_length. by destruct (Z.leb_spec (Z.of_nat (length (block k))) (Z.of_nat (length (block k) + length junk))); [|lia]. }
  rewrite Eg. unfold mbind, ST_bind. cbn [lift].
  unfold upd_tftp, modify. cbn [loop set_client]. rewrite Hx.
  pose proof (se_load _ _ S) as EL. fold c in EL. fold c. rewrite EL.
  rewrite (u32_small (L + _)) by lia. rewrite (u32_small (Z.of_nat off + _)) by lia.
  replace (Z.of_nat off + Z.of_nat (length (block k))) with (Z.of_nat fin) by lia.
  destruct (Z.ltb_spec (Z.of_nat off) (Z.of_nat fin)); [done|].
  unfold mret, ST_ret. do 2 f_equal. replace (Z.of_nat fin) with (NetBootFileXferSize (loop s)) by lia.
  by destruct s as [? ? [] ? ? ? ? ? ? ?].
Qed.

(** A change of the client that leaves alone what [stored] is about. *)
Lemma stored_client s r c : stored s r ->
  TftpServerIP c = TftpServerIP (client s) -> TftpOurPort c = TftpOurPort (client s) ->
  TftpBlkSize c = TftpBlkSize (client s) -> load_addr c = load_addr (client s) ->
  tftp_filename c = tftp_filename (client s) -> mem c = mem (client s) -> stored (set_client c s) r.
Proof.
  intros S E1 E2 E3 E4 E5 E6. destruct S as [[[] Rm Ri] S1 S2 S3 S4 S5 S6 S7 S8].
  split; cbn [client set_client loop]; rewrite ?E1, ?E2, ?E3, ?E4, ?E5, ?E6; try done.
  split; [by split|done|]. cbn [client set_client]. by rewrite E1.
Qed.

Lemma wire_range k : 0 <= wire k < 65536.
Proof. apply Z.mod_pos_bound. lia. Qed.

Lemma wire_step k : (1 <= k)%nat -> wire k <> wire (k - 1).
Proof. intros Hk. unfold wire. zmod. Qed.

Lemma be16_get x rest : 0 <= x < 65536 -> get16 (be16 x ++ rest) 0 = Ok x.
Proof. intros Hx. transitivity (Ok (256 * u8 (Z.shiftr x 8) + u8 x)); [done|]. rewrite be16_value. unfold u16. by rewrite Z.mod_small. Qed.

Definition ack_frame s (k : nat) : list Z :=
  udp_frame (addrs s) (NetServerEther (addrs s)) (NetIPID s) (TftpServerIP (client s)) P Q (ack_packet (wire k)).

(** The rest of the state that matters later. *)
Record same_host s s' : Prop := {
  sh_addrs : addrs s' = addrs s;
  sh_ip : TftpServerIP (client s') = TftpServerIP (client s)
}.

Lemma handle_block_new s k junk : stored s (k - 1) -> (1 <= k <= nblocks)%nat ->
  let c := client s in
  TftpState c = STATE_DATA -> TftpServerPort c = P -> TftpBlock c = wire k -> TftpLastBlock c <> wire k ->
  TftpBlockWrapOffset c = u32 (Z.of_nat k / 65536 * 65536 * Z.of_nat b) ->
  exists s', handle_block (be16 (wire k) ++ block k ++ junk) (Z.of_nat (length (block k))) s = Ok (tt, s') /\
    session s' k /\ sent s' = sent s ++ [ack_frame s k] /\ same_host s s' /\
    TftpTimeoutCount (client s') = TftpTimeoutCount c /\ TftpTimeoutCountMax (client s') = TIMEOUT_COUNT.
Proof.
  intros S Hk c Hst Hport Hblk Hlast Hwrap. unfold handle_block.
  rewrite (bind_ok _ _ _ _ _ (eq_refl : get s = Ok (s, s))). fold c. rewrite Hblk.
  destruct (Z.eqb_spec (wire k) (TftpLastBlock c)); [done|].
  set (c1 := set_TftpTimeoutCountMax TIMEOUT_COUNT (set_TftpLastBlock (wire k) c)).
  set (s1 := set_client c1 s).
  assert (S1 : stored s1 (k - 1)) by (by apply stored_client).
  unfold upd_tftp at 1, modify. unfold mbind at 1, ST_bind at 1. fold c. rewrite Hblk. fold c1. fold s1.
  (* the timeout *)
  set (s2 := if TftpTimeoutMSecs c =? 0 then set_loop (set_timeHandler None (loop s1)) s1
    else set_loop (set_timeDelta (TftpTimeoutMSecs c) (set_timeStart (now s1) (set_timeHandler (Some ClientTimeout) (loop s1)))) s1).
  assert (E2 : NetSetTimeout (TftpTimeoutMSecs c) ClientTimeout s1 = Ok (tt, s2)).
  { unfold NetSetTimeout, get, mbind, ST_bind, s2, upd_loop, modify. by destruct (_ =? 0). }
  rewrite (bind_ok _ _ _ _ _ E2).
  assert (S2 : stored s2 (k - 1)).
  { unfold s2. destruct S1 as [[[] Rm Ri] T1 T2 T3 T4 T5 T6 T7 T8]. by destruct (_ =? 0); (split; [split; [split|..]|..]). }
  assert (C2 : client s2 = c1) by (unfold s2; by destruct (_ =? 0)).
  assert (A2 : addrs s2 = addrs s /\ sent s2 = sent s /\ NetIPID s2 = NetIPID s) by (unfold s2; by destruct (_ =? 0)).
  destruct A2 as (A2 & N2 & I2). clearbody s2.
  (* the block *)
  change (drop 2 (be16 (wire k) ++ block k ++ junk)) with (block k ++ junk).
  pose proof (store_block_ok s2 k junk S2 Hk) as E3. rewrite C2 in E3. specialize (E3 Hwrap).
  rewrite (bind_ok _ _ _ _ _ E3).
  set (c3 := set_mem _ c1). set (s3 := set_loop _ _).
  assert (R3 : reachable s3).
  { destruct S2 as [[[] Rm Ri] T1 T2 T3 T4 T5 T6 T7 T8]. split; [by split|done|]. rewrite C2 in Ri. exact Ri. }
  (* the acknowledgement *)
  assert (P3 : tftp_packet (client s3) = Ok (ack_packet (wire k))).
  { unfold tftp_packet. change (TftpState (client s3)) with (TftpState c). rewrite Hst.
    change (STATE_DATA =? STATE_RRQ) with false. change ((STATE_DATA =? STATE_OACK) || (STATE_DATA =? STATE_DATA)) with true.
    cbv iota. unfold mret, res_ret, ack_packet. change (TftpBlock (client s3)) with (TftpBlock c). by rewrite Hblk. }
  destruct (TftpSend_known s3 (ack_packet (wire k)) R3 P3) as (tx & Htx & E4); [unfold PKTSIZE_ALIGN; cbn [length ack_packet be16 app]; lia|].
  rewrite (bind_ok _ _ _ _ _ E4). set (s4 := after_send s3 _ tx).
  set (s5 := if (length (block k) <? b)%nat then set_loop (set_NetState NETLOOP_SUCCESS (loop s4)) s4 else s4).
  assert (E5 : (if Z.of_nat (length (block k)) <? TftpBlkSize c then set_state NETLOOP_SUCCESS else mret tt) s4 = Ok (tt, s5)).
  { rewrite (se_blk _ _ S : TftpBlkSize c = _). unfold s5.
    destruct (Nat.ltb_spec (length (block k)) b), (Z.ltb_spec (Z.of_nat (length (block k))) (Z.of_nat b)); try done; lia. }
  exists s5. split; [exact E5|].
  assert (H5 : client s5 = c3 /\ addrs s5 = addrs s /\ sent s5 = sent s ++ [ack_frame s k]).
  { assert (H4 : client s4 = c3 /\ addrs s4 = addrs s /\ sent s4 = sent s ++ [ack_frame s k]).
    { split; [done|]. split; [exact A2|]. unfold s4, after_send, sent_udp. cbn [sent set_sent].
      change (sent s3) with (sent s2). rewrite N2. unfold ack_frame. change (addrs s3) with (addrs s2). rewrite A2.
      change (NetIPID s3) with (NetIPID s2). rewrite I2. change (client s3) with c3.
      change (TftpServerIP c3) with (TftpServerIP c). change (TftpServerPort c3) with (TftpServerPort c).
      change (TftpOurPort c3) with (TftpOurPort c). rewrite Hport. by rewrite (se_our _ _ S : TftpOurPort c = Q). }
    unfold s5. by destruct (_ <? _)%nat. }
  destruct H5 as (C5 & A5 & N5). split; [split|split; [done|split; [split; [done|by rewrite C5]|by rewrite C5]]].
  - pose proof (last_block k Hk) as Hlb. pose proof (se_mem _ _ S2) as M2. rewrite C2 in M2.
    destruct S2 as [[[] Rm Ri] T1 T2 T3 T4 T5 T6 T7 T8]. rewrite C2 in *.
    assert (W4 : net_ok s4) by (by split).
    assert (H5 : net_ok s5 /\ packetHandler (loop s5) = Some ClientHandler /\
      NetState (loop s5) = (if (k =? nblocks)%nat then NETLOOP_SUCCESS else NETLOOP_CONTINUE) /\
      NetBootFileXferSize (loop s5) = Z.of_nat (Nat.min (k * b) (length F))).
    { unfold s5. replace (k - 1 =? nblocks)%nat with false in T6 by (symmetry; apply Nat.eqb_neq; lia).
      destruct (Nat.ltb_spec (length (block k)) b), (Nat.eqb_spec k nblocks); try lia; split_and!; try done; destruct W4; by split. }
    destruct H5 as (W5 & H51 & H52 & H53).
    split; rewrite ?C5; try done.
    + split; [done| |rewrite C5; done]. rewrite A5, <- A2. exact Rm.
    + rewrite take_block by lia. rewrite write_bytes_app. pose proof (block_fits k Hk).
      rewrite length_take, Nat.min_l by done. unfold c3. cbn [mem set_mem]. by rewrite M2.
  - rewrite C5. destruct k as [|k]; [lia|]. unfold progress.
    split_and!; [exact Hst|exact Hport|exact Hblk|done|exact Hwrap].
Qed.

(** A new block is stored and acknowledged; the last one ends the transfer. *)
Lemma handler_new s k junk : session s (k - 1) -> (1 <= k <= nblocks)%nat ->
  exists s', TftpHandler dev_init (data_for k ++ junk) Q P (4 + Z.of_nat (length (block k))) s = Ok (tt, s') /\
    session s' k /\ sent s' = sent s ++ [ack_frame s k] /\ same_host s s' /\
    TftpTimeoutCount (client s') = TftpTimeoutCount (client s) /\ TftpTimeoutCountMax (client s') = TIMEOUT_COUNT.
Proof.
  intros [S Hp] Hk. unfold TftpHandler. rewrite (bind_ok _ _ _ _ _ (eq_refl : get s = Ok (s, s))). cbv zeta.
  rewrite (se_our _ _ S), Z.eqb_refl. cbn [negb].
  set (c := client s) in *. pose proof (wire_range k) as Hw.
  assert (Hsrc : negb (TftpState c =? STATE_RRQ) && negb (P =? TftpServerPort c) = false).
  { destruct (k - 1)%nat; cbn in Hp.
    - destruct Hp as [[->|[_ ->]] _]; [done|]. by rewrite Z.eqb_refl, andb_false_r.
    - destruct Hp as (_ & -> & _). by rewrite Z.eqb_refl, andb_false_r. }
  rewrite Hsrc. destruct (Z.ltb_spec (4 + Z.of_nat (length (block k))) 2); [lia|].
  unfold data_for, data_packet. rewrite <- !app_assoc.
  rewrite be16_get by (unfold TFTP_DATA; lia). unfold mbind at 1, ST_bind at 1. cbn [lift].
  change (TFTP_DATA =? TFTP_OACK) with false. change (TFTP_DATA =? TFTP_DATA) with true. cbv iota.
  change (drop 2 (be16 TFTP_DATA ++ be16 (wire k) ++ block k ++ junk)) with (be16 (wire k) ++ block k ++ junk).
  replace (4 + Z.of_nat (length (block k)) - 2) with (2 + Z.of_nat (length (block k))) by lia.
  unfold handle_data. destruct (Z.ltb_spec (2 + Z.of_nat (length (block k))) 2); [lia|]. cbv zeta.
  replace (2 + Z.of_nat (length (block k)) - 2) with (Z.of_nat (length (block k))) by lia.
  rewrite be16_get by done. unfold mbind at 1, ST_bind at 1. cbn [lift].
  set (s1 := set_client (set_TftpBlock (wire k) c) s).
  rewrite (bind_ok _ _ _ _ _ (eq_refl : upd_tftp (set_TftpBlock (wire k)) s = Ok (tt, s1))).
  assert (S1 : stored s1 (k - 1)) by (by apply stored_client).
  destruct (decide (k = 1%nat)) as [->|Hk1].
  - (* the first block *)
    change (wire 1) with 1 in *. change (1 =? 0) with false. cbv iota. rewrite (bind_ok _ _ s1 _ _ (eq_refl : (mret tt : N unit) s1 = Ok (tt, s1))).
    rewrite (bind_ok _ _ _ _ _ (eq_refl : get s1 = Ok (s1, s1))).
    change (TftpState (client s1)) with (TftpState c). destruct Hp as [Hst _].
    replace ((TftpState c =? STATE_RRQ) || (TftpState c =? STATE_OACK)) with true by (destruct Hst as [->|[-> _]]; done).
    change (negb (1 =? 1)) with false. cbv iota.
    set (c2 := set_TftpBlockWrapOffset 0 (set_TftpBlockWrap 0 (set_TftpLastBlock 0 (set_TftpServerPort P
      (set_TftpState STATE_DATA (client s1)))))). set (s2 := set_client c2 s1).
    rewrite (bind_ok _ _ s1 _ _ (eq_refl : upd_tftp (fun c => set_TftpBlockWrapOffset 0 (set_TftpBlockWrap 0 (set_TftpLastBlock 0
      (set_TftpServerPort P (set_TftpState STATE_DATA c))))) s1 = Ok (tt, s2))).
    assert (S2 : stored s2 (1 - 1)) by (by apply stored_client).
    destruct (handle_block_new s2 1 junk S2 Hk) as (s' & E & H1 & H2 & [H3 H4] & H5 & H6); try done.
    exists s'. split; [exact E|]. split; [done|]. split; [exact H2|]. split; [by split|done].
  - (* a later block *)
    destruct (k - 1)%nat as [|r] eqn:Er; [lia|]. cbn in Hp. destruct Hp as (Hst & Hport & Hblk & Hlast & Hwrap).
    assert (Ek : k = Datatypes.S (Datatypes.S r)) by lia. rewrite <- Er in S, S1.
    set (c2 := if wire k =? 0 then set_TftpBlockWrapOffset (u32 (TftpBlockWrapOffset c + TftpBlkSize c * TFTP_SEQUENCE_SIZE))
      (set_TftpBlockWrap (u32 (TftpBlockWrap c + 1)) (set_TftpBlock (wire k) c)) else set_TftpBlock (wire k) c).
    set (s2 := set_client c2 s).
    assert (E2 : (if wire k =? 0 then upd_tftp (fun c => set_TftpBlockWrapOffset (u32 (TftpBlockWrapOffset c + TftpBlkSize c * TFTP_SEQUENCE_SIZE))
         (set_TftpBlockWrap (u32 (TftpBlockWrap c + 1)) c)) else mret tt) s1 = Ok (tt, s2)) by (unfold s2, c2; by destruct (_ =? 0)).
    rewrite (bind_ok _ _ _ _ _ E2). rewrite (bind_ok _ _ _ _ _ (eq_refl : get s2 = Ok (s2, s2))).
    assert (S2 : stored s2 (k - 1)) by (unfold s2, c2; destruct (_ =? 0); by apply stored_client).
    assert (C2 : TftpState c2 = STATE_DATA /\ TftpServerPort c2 = P /\ TftpBlock c2 = wire k /\ TftpLastBlock c2 = wire (k - 1) /\
      TftpTimeoutCount c2 = TftpTimeoutCount c /\ TftpServerIP c2 = TftpServerIP c).
    { unfold c2. rewrite Er. by destruct (_ =? 0). }
    destruct C2 as (C21 & C22 & C23 & C24 & C25 & C26). change (client s2) with c2. rewrite C21.
    change ((STATE_DATA =? STATE_RRQ) || (STATE_DATA =? STATE_OACK)) with false. cbv iota.
    destruct (handle_block_new s2 k junk S2 Hk) as (s' & E & H1 & H2 & [H3 H4] & H5 & H6); try done.
    + change (client s2) with c2. rewrite C24. pose proof (wire_step k). lia.
    + change (client s2) with c2. unfold c2. destruct (Z.eqb_spec (wire k) 0) as [Hz|Hz].
      * cbn [TftpBlockWrapOffset set_TftpBlockWrapOffset]. rewrite Hwrap, (se_blk _ _ S : TftpBlkSize c = _). unfold TFTP_SEQUENCE_SIZE. unfold wire in Hz.
        replace (Z.of_nat k / 65536) with (Z.of_nat (Datatypes.S r) / 65536 + 1) by zmod.
        unfold u32. rewrite Z.add_mod_idemp_l by lia. f_equal. lia.
      * cbn [TftpBlockWrapOffset set_TftpBlock]. rewrite Hwrap. unfold wire in Hz.
        by replace (Z.of_nat k / 65536) with (Z.of_nat (Datatypes.S r) / 65536) by zmod.
    + change (client s2) with c2 in *. rewrite C25 in H5. rewrite C26 in H4. exists s'. split; [exact E|]. split; [done|].
      split; [|split; [by split|done]]. rewrite H2. unfold ack_frame. change (client s2) with c2. by rewrite C26.
Qed.

(** A block that was received already changes nothing, unless its number is 0. *)
Lemma handler_duplicate s r junk : session s r -> (1 <= r)%nat -> wire r <> 0 ->
  TftpHandler dev_init (data_for r ++ junk) Q P (4 + Z.of_nat (length (block r))) s = Ok (tt, s).
Proof.
  intros [S Hp] Hr Hw0. unfold TftpHandler. rewrite (bind_ok _ _ _ _ _ (eq_refl : get s = Ok (s, s))). cbv zeta.
  rewrite (se_our _ _ S), Z.eqb_refl. cbn [negb]. destruct r as [|r]; [lia|].
  destruct Hp as (Hst & Hport & Hblk & Hlast & Hwrap). set (k := Datatypes.S r) in *. pose proof (wire_range k) as Hw.
  rewrite Hst, Hport, Z.eqb_refl, andb_false_r. destruct (Z.ltb_spec (4 + Z.of_nat (length (block k))) 2); [lia|].
  unfold data_for, data_packet. rewrite <- !app_assoc.
  rewrite be16_get by (unfold TFTP_DATA; lia). unfold mbind at 1, ST_bind at 1. cbn [lift].
  change (TFTP_DATA =? TFTP_OACK) with false. change (TFTP_DATA =? TFTP_DATA) with true. cbv iota.
  change (drop 2 (be16 TFTP_DATA ++ be16 (wire k) ++ block k ++ junk)) with (be16 (wire k) ++ block k ++ junk).
  unfold handle_data. destruct (Z.ltb_spec (4 + Z.of_nat (length (block k)) - 2) 2); [lia|]. cbv zeta.
  rewrite be16_get by done. unfold mbind at 1, ST_bind at 1. cbn [lift].
  assert (E1 : upd_tftp (set_TftpBlock (wire k)) s = Ok (tt, s)).
  { unfold upd_tftp, modify. do 2 f_equal. rewrite <- Hblk. destruct s as [? ? ? ? ? ? ? ? ? []]. done. }
  rewrite (bind_ok _ _ _ _ _ E1). destruct (Z.eqb_spec (wire k) 0); [done|].
  rewrite (bind_ok _ _ s _ _ (eq_refl : (mret tt : N unit) s = Ok (tt, s))). rewrite (bind_ok _ _ _ _ _ (eq_refl : get s = Ok (s, s))).
  rewrite Hst. change ((STATE_DATA =? STATE_RRQ) || (STATE_DATA =? STATE_OACK)) with false. cbv iota.
  unfold handle_block. rewrite (bind_ok _ _ _ _ _ (eq_refl : get s = Ok (s, s))). by rewrite Hblk, Hlast, Z.eqb_refl.
Qed.

(** ** Timeouts *)

Lemma stored_loop s r l : stored s r -> NetState l = NetState (loop s) -> packetHandler l = packetHandler (loop s) ->
  NetBootFileXferSize l = NetBootFileXferSize (loop s) -> stored (set_loop l s) r.
Proof.
  intros [[[] Rm Ri] T1 T2 T3 T4 T5 T6 T7 T8] E1 E2 E3.
  split; cbn [loop set_loop client]; by rewrite ?E1, ?E2, ?E3.
Qed.

Lemma stored_send s r p tx : stored s r -> length tx = PKTSIZE_ALIGN -> stored (after_send s p tx) r.
Proof. intros [[[] Rm Ri] T1 T2 T3 T4 T5 T6 T7 T8] Htx. by split. Qed.

(** What was sent last before block [r + 1] arrived. *)
Definition request_frame s : list Z :=
  let c := client s in
  udp_frame (addrs s) (NetServerEther (addrs s)) (NetIPID s) (TftpServerIP c) (TftpServerPort c) Q (rrq_packet c).

Lemma TftpTimeout_resend s r : session s r -> 0 <= TftpTimeoutCount (client s) < TftpTimeoutCountMax (client s) ->
  TftpTimeoutCountMax (client s) < 2147483648 ->
  exists s' frame, TftpTimeout dev_init s = Ok (tt, s') /\ session s' r /\ sent s' = sent s ++ [frame] /\
    (frame = ack_frame s r \/ r = 0%nat /\ TftpState (client s) = STATE_RRQ /\ frame = request_frame s) /\ same_host s s' /\
    TftpTimeoutCount (client s') = TftpTimeoutCount (client s) + 1 /\
    TftpTimeoutCountMax (client s') = TftpTimeoutCountMax (client s).
Proof.
  intros [S Hp] Hc Hm. unfold TftpTimeout. set (c := client s) in *.
  set (c1 := set_TftpTimeoutCount (TftpTimeoutCount c + 1) c). set (s1 := set_client c1 s).
  assert (E1 : upd_tftp (fun c => set_TftpTimeoutCount (s32 (TftpTimeoutCount c + 1)) c) s = Ok (tt, s1)).
  { unfold upd_tftp, modify, s1, c1. do 3 f_equal. fold c. rewrite s32_small by lia. done. }
  rewrite (bind_ok _ _ _ _ _ E1), (bind_ok _ _ _ _ _ (eq_refl : get s1 = Ok (s1, s1))).
  change (client s1) with c1. change (TftpTimeoutCountMax c1) with (TftpTimeoutCountMax c).
  change (TftpTimeoutCount c1) with (TftpTimeoutCount c + 1).
  destruct (Z.ltb_spec (TftpTimeoutCountMax c) (TftpTimeoutCount c + 1)); [lia|].
  assert (S1 : stored s1 r) by (by apply stored_client).
  destruct (NetSetTimeout_ok (TftpTimeoutMSecs c1) ClientTimeout s1) as (l & E2 & L1 & L2 & L3).
  rewrite (bind_ok _ _ _ _ _ E2). set (s2 := set_loop l s1).
  assert (S2 : stored s2 r) by (by apply stored_loop).
  pose proof (se_our _ _ S : TftpOurPort c = Q) as EQ.
  assert (Hpkt : exists p, tftp_packet c1 = Ok p /\ (42 + length p < PKTSIZE_ALIGN)%nat /\
    (TftpServerPort c = P /\ p = ack_packet (wire r) \/ r = 0%nat /\ TftpState c = STATE_RRQ /\ p = rrq_packet c)).
  { destruct (decide (TftpState c = STATE_RRQ)) as [Hr|Hr].
    - exists (rrq_packet c). split; [exact (rrq_packet_ok c1 Hr)|]. split; [apply rrq_packet_length, (se_name _ _ S)|].
      right. destruct r; [done|]. destruct Hp as [Hst _]. by rewrite Hr in Hst.
    - assert (Ha : (TftpState c = STATE_OACK \/ TftpState c = STATE_DATA) /\ TftpServerPort c = P /\ TftpBlock c = wire r).
      { destruct r; cbn in Hp.
        - destruct Hp as [[?|[? ?]] ?]; [done|]. split; [by left|done].
        - destruct Hp as (? & ? & ? & _). split; [by right|done]. }
      destruct Ha as (Hst & Hport & Hblk). exists (ack_packet (wire r)). split; [|split; [|by left]].
      + unfold tftp_packet. change (TftpState c1) with (TftpState c). change (TftpBlock c1) with (TftpBlock c).
        rewrite Hblk. by destruct Hst as [->| ->].
      + unfold PKTSIZE_ALIGN. cbn [length ack_packet be16 app]. lia. }
  destruct Hpkt as (p & Hpk & Hlen & Hcase).
  destruct (TftpSend_known s2 p (se_reach _ _ S2) Hpk Hlen) as (tx & Htx & E3). rewrite E3.
  exists (after_send s2 p tx), (udp_frame (addrs s) (NetServerEther (addrs s)) (NetIPID s) (TftpServerIP c) (TftpServerPort c) Q p).
  split; [done|]. split; [|split; [|split; [|split; [by split|done]]]].
  - split; [by apply stored_send|]. destruct r; exact Hp.
  - unfold after_send, sent_udp. cbn [sent set_sent]. change (TftpOurPort (client s2)) with (TftpOurPort c). by rewrite EQ.
  - destruct Hcase as [[-> ->]|(-> & Hr & ->)]; [by left|]. right. done.
Qed.

(** ** The client with a server over a network that loses and repeats *)

(** The block that a frame acknowledges. *)
Definition ack_of (frame : list Z) : option Z :=
  match get16 frame 42, get16 frame 44 with
  | Ok op, Ok n => if op =? TFTP_ACK then Some n else None
  | _, _ => None
  end.

Definition acks_sent (s s' : net tftp) : list Z := omap ack_of (drop (length (sent s)) (sent s')).

Definition running (s : net tftp) : Prop := NetState (loop s) = NETLOOP_CONTINUE /\ packetHandler (loop s) = Some ClientHandler.

(** The client, the block the server is sending, the blocks on their way to the
    client and the acknowledgements on their way to the server, in order. *)
Record system := Sys { cl : net tftp; srv : nat; to_client : list nat; to_server : list Z }.

(** The server goes on to the next block when the one it sends is acknowledged. *)
Definition srv_ack (a : Z) (k : nat) : nat := if (a =? wire k) && (k <? nblocks)%nat then Datatypes.S k else k.

(** A packet that arrives may arrive again ([q'] still holds it). *)
Definition taken {A} (q : list A) (x : A) (q' : list A) : Prop := exists rest, q = x :: rest /\ (q' = rest \/ q' = q).

#[local] Instance this_client : NetClient tftp := tftp_client dev_init.

(** The server is the host with the addresses [aS]; its frames are received with
    [NetReceive]. *)
Context (cfg : config) (aS : addresses).

Definition data_frame (a : addresses) (mac : list Z) (id : Z) (k : nat) : list Z :=
  udp_frame aS mac id (NetOurIP a) Q P (data_for k).

Inductive step : system -> system -> Prop :=
| data_arrives w k q c' mac id junk : running (cl w) -> taken (to_client w) k q -> length mac = 6%nat -> Forall byte junk ->
    let frame := data_frame (addrs (cl w)) mac id k in
    NetReceive cfg (frame ++ junk) (Z.of_nat (length frame)) (cl w) = Ok (tt, c') ->
    step w (Sys c' (srv w) q (to_server w ++ acks_sent (cl w) c'))
| data_lost w k rest : to_client w = k :: rest -> step w (Sys (cl w) (srv w) rest (to_server w))
| client_times_out w c' : running (cl w) -> run_timeout ClientTimeout (cl w) = Ok (tt, c') ->
    step w (Sys c' (srv w) (to_client w) (to_server w ++ acks_sent (cl w) c'))
| ack_arrives w a q : taken (to_server w) a q ->
    step w (Sys (cl w) (srv_ack a (srv w))
      (to_client w ++ if (srv_ack a (srv w) =? srv w)%nat then [] else [srv_ack a (srv w)]) q)
| ack_lost w a rest : to_server w = a :: rest -> step w (Sys (cl w) (srv w) (to_client w) rest)
| server_times_out w : step w (Sys (cl w) (srv w) (to_client w ++ [srv w]) (to_server w)).

(** The timeout counter does not overflow. *)
Definition counts_ok (s : net tftp) : Prop := 0 <= TftpTimeoutCount (client s) < 2147483647 /\ TftpTimeoutCountMax (client s) < 2147483647.

(** The client at the beginning, the server about to send the first block. *)
Definition start (w : system) : Prop :=
  session (cl w) 0 /\ counts_ok (cl w) /\ srv w = 1%nat /\ to_client w = [] /\ to_server w = [].

Definition given_up (s : net tftp) : Prop := ~ running s /\ NetState (loop s) <> NETLOOP_SUCCESS.

(** The client has [r] blocks.  Either the server sends the next one, then all
    acknowledgements on their way are for the last one; or it still sends the last
    one, then no other block is on its way. *)
Definition in_step (r : nat) (w : system) : Prop :=
  (srv w = Datatypes.S r /\ (r < nblocks)%nat /\ Forall (fun a => a = wire r) (to_server w) /\
    exists i j, to_client w = replicate i r ++ replicate j (Datatypes.S r) /\ (r = 0%nat -> i = 0%nat)) \/
  (srv w = r /\ (1 <= r <= nblocks)%nat /\ Forall (fun k => k = r) (to_client w) /\
    exists i j, to_server w = replicate i (wire (r - 1)) ++ replicate j (wire r)).

Definition inv (w : system) : Prop :=
  given_up (cl w) \/ exists r, session (cl w) r /\ counts_ok (cl w) /\ in_step r w.

Lemma udp_payload a mac id dest dport sport p i : addrs_ok a -> length mac = 6%nat ->
  get16 (udp_frame a mac id dest dport sport p) (42 + i) = get16 p i.
Proof.
  intros W Hm. unfold udp_frame. cbv zeta. rewrite app_assoc. apply get16_app.
  by rewrite length_app, (ether_length _ _ _ W Hm).
Qed.

Lemma ack_of_ack s k : reachable s -> ack_of (ack_frame s k) = Some (wire k).
Proof.
  intros R. pose proof (ok_addrs _ (re_net _ R)) as W. unfold ack_of, ack_frame.
  rewrite (udp_payload _ _ _ _ _ _ _ 0), (udp_payload _ _ _ _ _ _ _ 2) by (done || apply W).
  assert (E : get16 (ack_packet (wire k)) 2 = Ok (wire k)).
  { transitivity (get16 (be16 (wire k) ++ []) 0); [done|]. apply be16_get, wire_range. }
  rewrite E. done.
Qed.

Lemma ack_of_request (s : net tftp) : reachable s -> ack_of (request_frame s) = None.
Proof.
  intros R. pose proof (ok_addrs _ (re_net _ R)) as W. unfold ack_of, request_frame.
  rewrite (udp_payload _ _ _ _ _ _ _ 0), (udp_payload _ _ _ _ _ _ _ 2) by (done || apply W). change (get16 (rrq_packet (client s)) 0) with (Ok 1 : res Z). by destruct (get16 _ _).
Qed.

Lemma acks_one s s' frame : sent s' = sent s ++ [frame] -> acks_sent s s' = omap ack_of [frame].
Proof. intros E. unfold acks_sent. rewrite E. by rewrite drop_app_length. Qed.

Lemma acks_none s : acks_sent s s = [].
Proof. unfold acks_sent. by rewrite drop_all. Qed.

Lemma NetStartAgain_gives_up s s' : running s -> NetStartAgain dev_init s = Ok (tt, s') -> given_up s'.
Proof.
  intros [Hst _]. unfold NetStartAgain. rewrite (bind_ok _ _ _ _ _ (eq_refl : get s = Ok (s, s))).
  destruct (retry_of _) as [forever cnt]. unfold given_up, running.
  destruct (negb forever && (cnt <=? _)).
  { intros [= <-]. cbn. split; [intros [? _]|]; done. }
  set (l1 := set_NetTryCount (s32 (NetTryCount (loop s) + 1)) (loop s)). set (s1 := set_loop l1 s).
  set (s2 := set_edev (eth_halt (edev s1)) s1). set (s3 := set_edev (eth_try_another (edev s2) (negb (NetRestarted (loop s)))) s2).
  intros H. rewrite (bind_ok _ _ _ _ _ (eq_refl : upd_loop (fun l => set_NetTryCount (s32 (NetTryCount l + 1)) l) s = Ok (tt, s1))) in H.
  rewrite (bind_ok _ _ _ _ _ (eq_refl : upd_eth eth_halt s1 = Ok (tt, s2))) in H.
  rewrite (bind_ok _ _ _ _ _ (eq_refl : upd_eth (fun e => eth_try_another e (negb (NetRestarted (loop s)))) s2 = Ok (tt, s3))) in H.
  assert (H1 : NetState (loop s3) = NETLOOP_CONTINUE) by exact Hst. clearbody s3.
  destruct (net_eth_init dev_init s3) as [[r s4]| |] eqn:E; [|by unfold mbind, ST_bind in H; rewrite E in H..].
  rewrite (bind_ok _ _ _ _ _ E), (bind_ok _ _ _ _ _ (eq_refl : get s4 = Ok (s4, s4))) in H.
  assert (H2 : loop s4 = loop s3).
  { unfold net_eth_init, get, put, mbind, ST_bind in E. destruct (eth_init _ _) as [[? ?]| |]; [|done|done]. by injection E as <- <-. }
  rewrite <- H2 in H1. clear H2 E. destruct (negb (NetRestartWrap (edev s4) =? 0)).
  - set (s5 := set_edev (with_wrap (edev s4) 0) s4).
    rewrite (bind_ok _ _ _ _ _ (eq_refl : upd_eth (fun e => with_wrap e 0) s4 = Ok (tt, s5))) in H.
    destruct (NetDevExists (loop s4)).
    + destruct (NetSetTimeout_ok 10000 startAgainTimeout s5) as (l & E5 & L1 & _). rewrite (bind_ok _ _ _ _ _ E5) in H.
      injection H as <-. cbn. rewrite L1. change (loop s5) with (loop s4). rewrite H1. split; [intros [_ ?]|]; done.
    + injection H as <-. cbn. split; [intros [? _]|]; done.
  - injection H as <-. cbn. split; [intros [? _]|]; done.
Qed.

(** What a packet does to the client: a new block, a block it has. *)
Hypothesis HaS : addrs_ok aS.
Hypothesis Hmtu : (b <= 1468)%nat.
Hypothesis HP : 0 <= P < 65536.
Hypothesis HQ : 0 <= Q < 65536.

Lemma block_bound k : (length (block k) <= b)%nat.
Proof. unfold block. rewrite length_take. lia. Qed.

Lemma receive_block s r mac id k junk : session s r -> running s -> length mac = 6%nat -> Forall byte junk ->
  let frame := data_frame (addrs s) mac id k in
  NetReceive cfg (frame ++ junk) (Z.of_nat (length frame)) s =
    TftpHandler dev_init (data_for k ++ junk) Q P (4 + Z.of_nat (length (block k))) s.
Proof.
  intros [S _] [_ Hh] Hm Hj frame. pose proof (ok_addrs _ (re_net _ (se_reach _ _ S))) as W. pose proof (block_bound k).
  assert (Hl : length (data_for k) = (4 + length (block k))%nat) by done.
  unfold frame, data_frame. rewrite NetReceive_udp; try done.
  - rewrite Hl. unfold run_handler. rewrite (bind_ok _ _ _ _ _ (eq_refl : get s = Ok (s, s))), Hh. cbn [client_rx this_client tftp_client].
    f_equal. lia.
  - apply W.
  - rewrite Hl. lia.
  - unfold data_for, data_packet, block. rewrite !Forall_app. split_and!; [by repeat constructor|..|done].
    + repeat constructor; apply u8_range.
    + by apply Forall_take, Forall_drop.
  - apply W.
  - by right; left.
Qed.

Lemma receive_new s r mac id junk : session s r -> running s -> counts_ok s -> (r < nblocks)%nat -> length mac = 6%nat -> Forall byte junk ->
  let frame := data_frame (addrs s) mac id (Datatypes.S r) in
  exists s', NetReceive cfg (frame ++ junk) (Z.of_nat (length frame)) s = Ok (tt, s') /\
    session s' (Datatypes.S r) /\ counts_ok s' /\ acks_sent s s' = [wire (Datatypes.S r)].
Proof.
  intros S R [Hc _] Hr Hm Hj frame. unfold frame. rewrite (receive_block _ r) by done.
  assert (S0 : session s (Datatypes.S r - 1)) by (by replace (Datatypes.S r - 1)%nat with r by lia).
  destruct (handler_new s (Datatypes.S r) junk S0 ltac:(lia)) as (s' & E & H1 & H2 & H3 & H4 & H5).
  exists s'. split; [done|]. split; [done|]. split.
  - split; [by rewrite H4|]. rewrite H5. unfold TIMEOUT_COUNT. lia.
  - rewrite (acks_one _ _ _ H2). cbn. rewrite ack_of_ack; [done|]. apply S.
Qed.

Lemma receive_old s r mac id junk : session s r -> running s -> (1 <= r)%nat -> wire r <> 0 -> length mac = 6%nat -> Forall byte junk ->
  let frame := data_frame (addrs s) mac id r in
  NetReceive cfg (frame ++ junk) (Z.of_nat (length frame)) s = Ok (tt, s).
Proof. intros S R Hr Hw Hm Hj frame. unfold frame. rewrite (receive_block _ r) by done. by apply handler_duplicate. Qed.

Lemma timeout_resends s r : session s r -> counts_ok s -> TftpTimeoutCount (client s) < TftpTimeoutCountMax (client s) ->
  exists s', run_timeout ClientTimeout s = Ok (tt, s') /\ session s' r /\ counts_ok s' /\
    (acks_sent s s' = [wire r] \/ r = 0%nat /\ acks_sent s s' = []).
Proof.
  intros S [C1 C2] Hlt. destruct (TftpTimeout_resend s r S) as (s' & frame & E & H1 & H2 & H3 & H4 & H5 & H6); [lia|lia|].
  exists s'. split; [exact E|]. split; [done|]. split; [unfold counts_ok; lia|]. rewrite (acks_one _ _ _ H2). cbn.
  destruct H3 as [->|(-> & H & ->)].
  - left. rewrite ack_of_ack; [done|]. apply S.
  - right. rewrite ack_of_request; [done|]. apply S.
Qed.

Lemma timeout_gives_up s s' : running s -> counts_ok s -> TftpTimeoutCountMax (client s) <= TftpTimeoutCount (client s) ->
  run_timeout ClientTimeout s = Ok (tt, s') -> given_up s'.
Proof.
  intros R [C1 C2] Hle. cbn [run_timeout client_timeout this_client tftp_client]. unfold TftpTimeout.
  set (s1 := set_client (set_TftpTimeoutCount (TftpTimeoutCount (client s) + 1) (client s)) s).
  assert (E1 : upd_tftp (fun c => set_TftpTimeoutCount (s32 (TftpTimeoutCount c + 1)) c) s = Ok (tt, s1)).
  { unfold upd_tftp, modify, s1. do 3 f_equal. by rewrite s32_small by lia. }
  rewrite (bind_ok _ _ _ _ _ E1), (bind_ok _ _ _ _ _ (eq_refl : get s1 = Ok (s1, s1))).
  change (TftpTimeoutCountMax (client s1)) with (TftpTimeoutCountMax (client s)).
  change (TftpTimeoutCount (client s1)) with (TftpTimeoutCount (client s) + 1).
  destruct (Z.ltb_spec (TftpTimeoutCountMax (client s)) (TftpTimeoutCount (client s) + 1)); [|lia].
  intros E. by apply (NetStartAgain_gives_up s1).
Qed.

(** ** The invariant *)

Lemma session_running s r : session s r -> running s -> (r < nblocks)%nat \/ (nblocks < r)%nat.
Proof. intros [S _] [Hst _]. rewrite (se_state _ _ S) in Hst. destruct (Nat.eqb_spec r nblocks); [done|lia]. Qed.

Lemma running_session s r : session s r -> r <> nblocks -> running s.
Proof.
  intros [S _] Hr. split; [|apply (se_handler _ _ S)]. rewrite (se_state _ _ S). by destruct (Nat.eqb_spec r nblocks).
Qed.

Lemma start_inv w : start w -> inv w.
Proof.
  intros (S & C & E1 & E2 & E3). right. exists 0%nat. split; [done|]. split; [done|]. left. rewrite E1, E2, E3.
  split_and!; [done|unfold nblocks; lia|done|]. by exists 0%nat, 0%nat.
Qed.

(** The queues of [in_step]: some of one value, then some of another. *)
Lemma queue_head {A} (i j : nat) (x y z : A) rest : replicate i x ++ replicate j y = z :: rest ->
  (z = x /\ (0 < i)%nat /\ rest = replicate (i - 1) x ++ replicate j y) \/
  (z = y /\ i = 0%nat /\ (0 < j)%nat /\ rest = replicate (j - 1) y).
Proof.
  destruct i as [|i]; cbn.
  - destruct j as [|j]; [done|]. intros [= <- <-]. right. split_and!; first [done|lia|f_equal; lia].
  - intros [= <- <-]. left. split_and!; first [done|lia|by do 2 f_equal; lia].
Qed.

Lemma queue_taken {A} (i j : nat) (x y z : A) q : taken (replicate i x ++ replicate j y) z q ->
  (z = x /\ (0 < i)%nat \/ z = y /\ i = 0%nat /\ (0 < j)%nat) /\
  exists i' j', q = replicate i' x ++ replicate j' y /\ (i = 0%nat -> i' = 0%nat).
Proof.
  intros (rest & E & Hq). destruct (queue_head _ _ _ _ _ _ E) as [(-> & Hi & ->)|(-> & -> & Hj & ->)]; (split; [lia || eauto|]).
  - destruct Hq as [->| ->]; [exists (i - 1)%nat, j|exists i, j]; split; lia || done.
  - destruct Hq as [->| ->]; [exists 0%nat, (j - 1)%nat|exists 0%nat, j]; done.
Qed.

Lemma all_replicate {A} (l : list A) x : Forall (fun y => y = x) l -> l = replicate (length l) x.
Proof. induction 1 as [|y l -> _ IH]; [done|]. cbn. by rewrite <- IH. Qed.

Lemma all_taken {A} (l : list A) x y q : Forall (fun y => y = x) l -> taken l y q -> y = x /\ Forall (fun y => y = x) q.
Proof. intros H (rest & -> & Hq). apply Forall_cons in H as [-> H]. split; [done|]. destruct Hq as [->| ->]; [done|]. by constructor. Qed.

Lemma queue_snoc {A} (i j : nat) (x y : A) : (replicate i x ++ replicate j y) ++ [y] = replicate i x ++ replicate (Datatypes.S j) y.
Proof. rewrite <- app_assoc. f_equal. change [y] with (replicate 1 y). rewrite <- replicate_add. f_equal. lia. Qed.

Lemma all_snoc {A} (l l' : list A) x : Forall (fun y => y = x) l -> l' = [x] \/ l' = [] -> Forall (fun y => y = x) (l ++ l').
Proof. intros H [->| ->]; [|by rewrite app_nil_r]. apply Forall_app. split; [done|]. by constructor. Qed.

(** What the transfer is for. *)
Definition file_stored (s : net tftp) : Prop :=
  NetBootFileXferSize (loop s) = Z.of_nat (length F) /\ mem (client s) = write_bytes M0 L F.

Lemma session_done s r : session s r -> NetState (loop s) = NETLOOP_SUCCESS -> file_stored s.
Proof.
  intros [S _] Hst. rewrite (se_state _ _ S) in Hst. destruct (Nat.eqb_spec r nblocks) as [->|]; [|done].
  assert (Hle : (length F <= nblocks * b)%nat).
  { unfold nblocks. pose proof (Nat.div_mod_eq (length F) b). pose proof (Nat.mod_upper_bound (length F) b ltac:(lia)). lia. }
  split; [rewrite (se_xfer _ _ S); lia|]. rewrite (se_mem _ _ S). by rewrite take_ge.
Qed.
Section Few.
(** The block numbers do not wrap. *)
Hypothesis Hfew : Z.of_nat nblocks < 65536.

Lemma wire_small k : (k <= nblocks)%nat -> wire k = Z.of_nat k.
Proof. intros Hk. unfold wire. apply Z.mod_small. lia. Qed.

Lemma deliver_inv w r k q c' mac id junk : session (cl w) r -> counts_ok (cl w) -> in_step r w -> running (cl w) ->
  taken (to_client w) k q -> length mac = 6%nat -> Forall byte junk ->
  let frame := data_frame (addrs (cl w)) mac id k in
  NetReceive cfg (frame ++ junk) (Z.of_nat (length frame)) (cl w) = Ok (tt, c') ->
  inv (Sys c' (srv w) q (to_server w ++ acks_sent (cl w) c')).
Proof.
  intros S C I R Hq Hm Hj frame E. right.
  assert (Hold : (1 <= r)%nat -> k = r -> c' = cl w).
  { intros Hr ->. unfold frame in E. rewrite (receive_old _ r) in E; try done; [by injection E|].
    destruct (session_running _ _ S R); [rewrite wire_small; lia|].
    destruct I as [(_ & ? & _)|(_ & ? & _)]; lia. }
  destruct I as [(Es & Hr & Ha & i & j & Eq & Hi)|(Es & Hr & Ha & i & j & Eq)].
  - rewrite Eq in Hq. destruct (queue_taken _ _ _ _ _ _ Hq) as (Hk & i' & j' & -> & Hi').
    destruct Hk as [[-> Hpos]|(-> & -> & Hpos)].
    + rewrite Hold by lia. exists r. rewrite acks_none, app_nil_r. split; [done|]. split; [done|]. left. split_and!; try done.
      exists i', j'. split; [done|]. lia.
    + destruct (receive_new _ r mac id junk S R C Hr Hm Hj) as (s' & E' & S' & C' & Ea). unfold frame in E. rewrite E in E'. injection E' as <-.
      exists (Datatypes.S r). split; [done|]. split; [done|]. right. cbn [srv to_client to_server]. rewrite Ea.
      split; [done|]. split; [lia|]. split.
      * rewrite Hi' by done. cbn. by apply Forall_replicate.
      * rewrite (all_replicate _ _ Ha). exists (length (to_server w)), 1%nat. do 3 f_equal. lia.
  - destruct (all_taken _ _ _ _ Ha Hq) as [-> Hq']. rewrite Hold by lia. exists r. rewrite acks_none, app_nil_r.
    split; [done|]. split; [done|]. right. split_and!; try done; try lia. by exists i, j.
Qed.

Lemma timeout_inv w r c' : session (cl w) r -> counts_ok (cl w) -> in_step r w -> running (cl w) ->
  run_timeout ClientTimeout (cl w) = Ok (tt, c') ->
  inv (Sys c' (srv w) (to_client w) (to_server w ++ acks_sent (cl w) c')).
Proof.
  intros S C I R E.
  destruct (Z.lt_ge_cases (TftpTimeoutCount (client (cl w))) (TftpTimeoutCountMax (client (cl w)))) as [Hlt|Hge];
    [|left; by apply (timeout_gives_up (cl w))].
  right. destruct (timeout_resends _ r S C Hlt) as (s' & E' & S' & C' & Ha). rewrite E in E'. injection E' as <-.
  exists r. split; [done|]. split; [done|]. destruct I as [(Es & Hr & Hs & Hc)|(Es & Hr & Hs & i & j & Ej)].
  - left. split_and!; try done. apply all_snoc; [done|]. destruct Ha as [->|[_ ->]]; [by left|by right].
  - right. split_and!; try done; try lia. exists i, (Datatypes.S j). cbn [to_server]. destruct Ha as [->|[-> _]]; [|lia].
    rewrite Ej. apply queue_snoc.
Qed.

Lemma ack_inv w r a q : session (cl w) r -> counts_ok (cl w) -> in_step r w -> taken (to_server w) a q ->
  inv (Sys (cl w) (srv_ack a (srv w)) (to_client w ++ if (srv_ack a (srv w) =? srv w)%nat then [] else [srv_ack a (srv w)]) q).
Proof.
  intros S C I Hq. right. exists r. split; [done|]. split; [done|].
  assert (Hsame : srv_ack a (srv w) = srv w -> forall P : nat -> list nat -> Prop, P (srv w) (to_client w) ->
    P (srv_ack a (srv w)) (to_client w ++ if (srv_ack a (srv w) =? srv w)%nat then [] else [srv_ack a (srv w)])).
  { intros E T HT. rewrite E, Nat.eqb_refl, app_nil_r. exact HT. }
  unfold in_step. cbn [srv to_client to_server].
  destruct I as [(Es & Hr & Hs & i & j & Ej & Hi)|(Es & Hr & Hs & i & j & Ej)].
  - destruct (all_taken _ _ _ _ Hs Hq) as [-> Hq']. apply (Hsame ltac:(unfold srv_ack; rewrite Es, !wire_small by lia; by destruct (Z.eqb_spec (Z.of_nat r) (Z.of_nat (Datatypes.S r))); [lia|])
      (fun k l => (k = _ /\ _ /\ _ /\ exists i j, l = _ /\ _) \/ (k = _ /\ _ /\ Forall _ l /\ _))).
    left. split_and!; try done. by exists i, j.
  - rewrite Ej in Hq. destruct (queue_taken _ _ _ _ _ _ Hq) as (Hk & i' & j' & -> & Hi').
    destruct Hk as [[-> Hpos]|(-> & -> & Hpos)].
    + apply (Hsame ltac:(unfold srv_ack; rewrite Es, !wire_small by lia; by destruct (Z.eqb_spec (Z.of_nat (r - 1)) (Z.of_nat r)); [lia|])
      (fun k l => (k = _ /\ _ /\ _ /\ exists i j, l = _ /\ _) \/ (k = _ /\ _ /\ Forall _ l /\ _))).
      right. split_and!; try done; try lia. by exists i', j'.
    + destruct (Nat.ltb_spec r nblocks) as [Hlt|Hge].
      * left. unfold srv_ack. rewrite Es, Z.eqb_refl. cbn [andb]. destruct (Nat.ltb_spec r nblocks); [|lia].
        destruct (Nat.eqb_spec (Datatypes.S r) r); [lia|]. split_and!; [done|done| |].
        -- rewrite Hi' by done. cbn. by apply Forall_replicate.
        -- rewrite (all_replicate _ _ Hs). exists (length (to_client w)), 1%nat. split; [done|lia].
      * apply (Hsame ltac:(unfold srv_ack; rewrite Es; destruct (Nat.ltb_spec r nblocks); [lia|by rewrite andb_false_r])
      (fun k l => (k = _ /\ _ /\ _ /\ exists i j, l = _ /\ _) \/ (k = _ /\ _ /\ Forall _ l /\ _))).
        right. split_and!; try done; try lia. by exists i', j'.
Qed.

Lemma step_inv w w' : inv w -> step w w' -> inv w'.
Proof.
  intros [G|(r & S & C & I)] Hs.
  - left. destruct Hs as [w k q c' mac id junk R| |w c' R| | |]; try exact G; by destruct G.
  - destruct Hs as [w k q c' mac id junk R Hq Hm Hj fr E|w k rest Eq|w c' R E|w a q Hq|w a rest Eq|w].
    + by apply (deliver_inv w r k q c' mac id junk).
    + right. exists r. split; [done|]. split; [done|]. destruct I as [(Es & Hr & Hs & i & j & Ej & Hi)|(Es & Hr & Hs & Hc)].
      * rewrite Ej in Eq. left. split_and!; try done.
        destruct (queue_head _ _ _ _ _ _ Eq) as [(_ & ? & ->)|(_ & -> & ? & ->)]; [exists (i - 1)%nat, j|exists 0%nat, (j - 1)%nat]; split; done || lia.
      * right. split_and!; try done; try lia. rewrite Eq in Hs. by apply Forall_cons in Hs as [_ Hs].
    + by apply (timeout_inv w r c').
    + by apply (ack_inv w r a q).
    + right. exists r. split; [done|]. split; [done|]. destruct I as [(Es & Hr & Hs & Hc)|(Es & Hr & Hs & i & j & Ej)].
      * left. split_and!; try done. rewrite Eq in Hs. by apply Forall_cons in Hs as [_ Hs].
      * right. split_and!; try done; try lia. rewrite Ej in Eq.
        destruct (queue_head _ _ _ _ _ _ Eq) as [(_ & ? & ->)|(_ & -> & ? & ->)]; [exists (i - 1)%nat, j|exists 0%nat, (j - 1)%nat]; done.
    + right. exists r. split; [done|]. split; [done|]. destruct I as [(Es & Hr & Hs & i & j & Ej & Hi)|(Es & Hr & Hs & Hc)].
      * left. split_and!; try done. exists i, (Datatypes.S j). cbn [to_client srv]. rewrite Ej, Es. split; [apply queue_snoc|done].
      * right. split_and!; try done; try lia. cbn [to_client srv]. apply all_snoc; [done|]. left. by rewrite Es.
Qed.

Lemma steps_inv w w' : rtc step w w' -> inv w -> inv w'.
Proof. induction 1 as [|? ? ? Hs _ IH]; [done|]. intros I. apply IH. by eapply step_inv. Qed.
End Few.

(** ** Getting through *)

(** The block is on its way and nothing else: without further loss the transfer
    ends, however many blocks it has. *)
Lemma clean_run n w r : session (cl w) r -> counts_ok (cl w) -> nblocks = (r + n)%nat -> (0 < n)%nat ->
  srv w = Datatypes.S r -> to_client w = [Datatypes.S r] -> to_server w = [] ->
  exists w', rtc step w w' /\ NetState (loop (cl w')) = NETLOOP_SUCCESS /\ file_stored (cl w').
Proof.
  revert w r. induction n as [|n IH]; intros w r S C En Hn Es Ec Ea; [lia|].
  assert (R : running (cl w)) by (apply (running_session _ r); [done|lia]).
  destruct (receive_new _ r (replicate 6 0) 0 [] S R C ltac:(lia) eq_refl (Forall_nil_2 _)) as (s' & E & S' & C' & Ek).
  assert (H1 : step w (Sys s' (srv w) [] (to_server w ++ acks_sent (cl w) s'))).
  { eapply (data_arrives w (Datatypes.S r) []); [done| |by exact (eq_refl : length (replicate 6 0) = 6%nat)|apply Forall_nil_2|exact E].
    exists []. rewrite Ec. split; [done|by left]. }
  rewrite Ea, Ek, Es in H1. cbn [app] in H1. destruct n as [|n].
  - eexists. split; [by apply rtc_once|]. cbn [cl]. assert (Hst : NetState (loop s') = NETLOOP_SUCCESS).
    { rewrite (se_state _ _ (proj1 S')). by replace (Datatypes.S r =? nblocks)%nat with true by (symmetry; apply Nat.eqb_eq; lia). }
    split; [done|]. by apply (session_done _ (Datatypes.S r)).
  - set (w1 := Sys s' (Datatypes.S r) [] [wire (Datatypes.S r)]) in *.
    assert (H2 : step w1 (Sys s' (Datatypes.S (Datatypes.S r)) [Datatypes.S (Datatypes.S r)] [])).
    { pose proof (ack_arrives w1 (wire (Datatypes.S r)) []) as H. unfold srv_ack in H. cbn [srv w1 to_client cl] in H.
      rewrite Z.eqb_refl in H. destruct (Nat.ltb_spec (Datatypes.S r) nblocks); [|lia]. cbn [andb] in H.
      destruct (Nat.eqb_spec (Datatypes.S (Datatypes.S r)) (Datatypes.S r)); [lia|]. apply H. exists []. split; [done|by left]. }
    destruct (IH (Sys s' (Datatypes.S (Datatypes.S r)) [Datatypes.S (Datatypes.S r)] []) (Datatypes.S r)) as (w' & H3 & H4); try done; try lia.
    exists w'. split; [|done]. eapply rtc_l; [exact H1|]. eapply rtc_l; [exact H2|exact H3].
Qed.

Lemma lose_data w : rtc step w (Sys (cl w) (srv w) [] (to_server w)).
Proof.
  destruct w as [c k q a]. induction q as [|x q IH]; [done|]. eapply rtc_l; [by eapply data_lost|]. exact IH.
Qed.

Lemma lose_acks w : rtc step w (Sys (cl w) (srv w) (to_client w) []).
Proof.
  destruct w as [c k q a]. induction a as [|x a IH]; [done|]. eapply rtc_l; [by eapply ack_lost|]. exact IH.
Qed.

Lemma lose_all w : rtc step w (Sys (cl w) (srv w) [] []).
Proof. etrans; [apply lose_data|]. apply (lose_acks (Sys _ _ _ _)). Qed.

(** From a state in which all is lost. *)
Lemma recover s r : session s r -> counts_ok s -> (r < nblocks)%nat ->
  exists w', rtc step (Sys s (Datatypes.S r) [] []) w' /\ NetState (loop (cl w')) = NETLOOP_SUCCESS /\ file_stored (cl w').
Proof.
  intros S C Hr. destruct (clean_run (nblocks - r) (Sys s (Datatypes.S r) [Datatypes.S r] []) r) as (w' & H & Hw); try done; try lia.
  exists w'. split; [|done]. eapply rtc_l; [apply server_times_out|]. exact H.
Qed.

(** C2: A transfer that ends with success has stored exactly the file: whatever data
    packets and acknowledgements were lost or repeated on the way, which keep their
    order, the memory is what it was with the file written at the load address, and
    the size is the file's. For a file of fewer than 65536 blocks of at most 1468
    bytes that fits at the load address, from the moment the options are settled: the
    server sends data only, no OACK. With more blocks a repeated packet 0 spoils the
    file, see [repeated_zero_moves]. *)
Theorem tftp_safe w w' : Z.of_nat nblocks < 65536 -> start w -> rtc step w w' ->
  NetState (loop (cl w')) = NETLOOP_SUCCESS -> file_stored (cl w').
Proof.
  intros Hfew Hw Hs Hst. destruct (steps_inv Hfew _ _ Hs (start_inv _ Hw)) as [[_ G]|(r & S & _)]; [done|].
  by apply (session_done _ r).
Qed.

(** C8: Unless the client has given up, or is at its last timeout, it can still get
    the whole file, whatever data packets and acknowledgements were lost or repeated
    before. For a file of fewer than 65536 blocks of at most 1468 bytes that fits at
    the load address, from the moment the options are settled, from a server that
    sends data only. *)
Theorem tftp_live w w' : Z.of_nat nblocks < 65536 -> start w -> rtc step w w' -> running (cl w') ->
  TftpTimeoutCount (client (cl w')) < TftpTimeoutCountMax (client (cl w')) ->
  exists w'', rtc step w' w'' /\ NetState (loop (cl w'')) = NETLOOP_SUCCESS /\ file_stored (cl w'').
Proof.
  intros Hfew Hw Hs R Hlt. destruct (steps_inv Hfew _ _ Hs (start_inv _ Hw)) as [[G _]|(r & S & C & I)]; [done|].
  assert (Hr : (r < nblocks)%nat).
  { destruct (session_running _ _ S R) as [?|?]; [done|]. exfalso. destruct I as [(_ & ? & _)|(_ & ? & _)]; lia. }
  destruct I as [(Es & _)|(Es & H1 & _)].
  - destruct (recover (cl w') r S C Hr) as (w'' & H & Hw'').
    exists w''. split; [|done]. etrans; [apply lose_all|]. by rewrite Es.
  - destruct (timeout_resends _ r S C Hlt) as (s' & E & S' & C' & Ha). destruct Ha as [Ha|[-> _]]; [|lia].
    destruct (clean_run (nblocks - r) (Sys s' (Datatypes.S r) [Datatypes.S r] []) r) as (w'' & H & Hw''); try done; try lia.
    exists w''. split; [|done]. etrans; [apply lose_all|].
    eapply rtc_l; [by eapply client_times_out|]. cbn [cl srv to_client to_server]. rewrite Ha. cbn [app].
    eapply rtc_l; [|exact H]. set (w1 := Sys _ _ _ _).
    pose proof (ack_arrives w1 (wire r) []) as Hk. unfold srv_ack in Hk. cbn [srv w1 to_client cl app] in Hk.
    rewrite Es, Z.eqb_refl in Hk. destruct (Nat.ltb_spec r nblocks); [|lia]. cbn [andb] in Hk.
    destruct (Nat.eqb_spec (Datatypes.S r) r); [lia|]. apply Hk. exists []. split; [done|by left].
Qed.

(** When nothing is lost the transfer succeeds, also when the block numbers wrap. *)
Theorem tftp_wraps w : start w ->
  exists w', rtc step w w' /\ NetState (loop (cl w')) = NETLOOP_SUCCESS /\ file_stored (cl w').
Proof.
  destruct w as [c k q a]. intros (S & C & Ek & Eq & Ea). cbn in *. subst k q a. apply (recover c 0); [done|done|unfold nblocks; lia].
Qed.
End Proofs.

(** ** From the start to the first request *)

Section Starting.
Context (dev_init : nat -> nat -> Z).
#[local] Instance client_here : NetClient tftp := tftp_client dev_init.
Implicit Types s : net tftp.

(** The server that the boot file name or the environment names. *)
Definition tftp_server s : Z :=
  match BootFile (client s) with
  | [] => NetServerIP (addrs s)
  | boot => match after_colon boot with None => NetServerIP (addrs s) | Some _ => string_to_ip (Some boot) end
  end.

(** What the environment's settings leave alone. *)
Definition settings_only (f : tftp -> tftp) : Prop := forall c,
  BootFile (f c) = BootFile c /\ TftpRRQTimeoutCountMax (f c) = TftpRRQTimeoutCountMax c /\
  load_addr (f c) = load_addr c /\ mem (f c) = mem c.

(** Before the first packet: everything but the client, the handlers and the
    server's hardware address is as it was. *)
Lemma TftpStart_ok s : exists s', TftpStart s = TftpSend s' /\
  addrs s' = set_NetServerEther NetEtherNullAddr (addrs s) /\ arp s' = arp s /\ edev s' = edev s /\ ping s' = ping s /\
  sent s' = sent s /\ NetTxPacket s' = NetTxPacket s /\ NetIPID s' = NetIPID s /\
  NetState (loop s') = NetState (loop s) /\ packetHandler (loop s') = Some ClientHandler /\
  let c := client s' in
  TftpServerIP c = tftp_server s /\ TftpServerPort c = WELL_KNOWN_PORT /\ TftpOurPort c = 1024 + now s mod 3072 /\
  TftpTimeoutCount c = 0 /\ TftpTimeoutCountMax c = TftpRRQTimeoutCountMax (client s) /\ TftpBlock c = 0 /\
  TftpState c = STATE_RRQ /\ TftpBlkSize c = TFTP_BLOCK_SIZE /\ (length (tftp_filename c) < MAX_LEN)%nat /\
  load_addr c = load_addr (client s) /\ mem c = mem (client s) /\ BootFile c = BootFile (client s).
Proof.
  unfold TftpStart. rewrite (bind_ok _ _ _ _ _ (eq_refl : get s = Ok (s, s))). cbv zeta.
  assert (U : forall A f s (k : unit -> N A), (upd_tftp f ≫= k) s = k tt (set_client (f (client s)) s)) by done.
  set (f1 := fun c : tftp => match var _ (zs "tftpblocksize") with Some _ => _ | None => c end).
  set (f2 := fun c : tftp => match var _ (zs "tftptimeout") with Some _ => _ | None => c end).
  set (f3 := fun c : tftp => if _ <? 1000 then _ else c).
  assert (K : settings_only (fun c => f3 (f2 (f1 c)))) by (split; unfold f3, f2, f1; by repeat case_match).
  change (fun c : tftp => if TftpTimeoutMSecs c <? 1000 then set_TftpTimeoutMSecs 1000 c else c) with f3.
  rewrite !U. cbn [client set_client]. specialize (K (client s)). set (c3 := f3 (f2 (f1 (client s)))) in *. clearbody c3.
  set (s1 := set_client c3 _). destruct K as (K1 & K2 & K3 & K4).
  match goal with |- context [mbind _ ?m s1] => assert (En : exists name, m s1 = Ok ((tftp_server s, name), s1)) end.
  { unfold tftp_server. destruct (BootFile (client s)) as [|x l].
    - destruct (default_filename_ok (NetOurIP (addrs s))) as (name & Hn). exists name. rewrite Hn. done.
    - destruct (after_colon (x :: l)) as [name|]; by eexists. }
  destruct En as (name & En). rewrite (bind_ok _ _ _ _ _ En). clear En. rewrite !U.
  set (s2 := set_client _ _). rewrite (bind_ok _ _ _ _ _ (eq_refl : get s2 = Ok (s2, s2))).
  destruct (NetSetTimeout_ok (TftpTimeoutMSecs (client s2)) ClientTimeout s2) as (l & El & L1 & L2 & L3).
  rewrite (bind_ok _ _ _ _ _ El). set (s3 := set_loop (set_packetHandler (Some ClientHandler) l) (set_loop l s2)).
  rewrite (bind_ok _ _ _ _ _ (eq_refl : NetSetHandler ClientHandler (set_loop l s2) = Ok (tt, s3))).
  rewrite !U. set (s4 := set_client _ _).
  set (s5 := set_addrs (set_NetServerEther NetEtherNullAddr (addrs s4)) s4).
  rewrite (bind_ok _ _ _ _ _ (eq_refl : upd_addrs (set_NetServerEther NetEtherNullAddr) s4 = Ok (tt, s5))).
  rewrite U. eexists. split; [reflexivity|]. clear U. split_and!; try done.
  - cbn. unfold MAX_LEN. rewrite length_take. lia.
Qed.

(** The loop is started; the server's hardware address is asked for, and when the
    answer comes the request goes to the well-known port of the server: the state
    is that of a transfer of which nothing has arrived yet, whatever the file is
    and from whatever port it will come. *)
Theorem tftp_handshake cfg s a junk : net_ok s -> addrs_ok a -> NetState (loop s) = NETLOOP_CONTINUE ->
  NetOurIP (addrs s) <> 0 -> tftp_server s <> 0 -> tftp_server s <> 0xFFFFFFFF ->
  NetOurIP a = asked (addrs s) (tftp_server s) -> NetOurEther a <> NetEtherNullAddr ->
  TftpRRQTimeoutCountMax (client s) < 2147483647 ->
  let Q := 1024 + now s mod 3072 in
  exists s1 s2 p,
    (TftpStart;; upd_loop (set_NetBootFileXferSize 0)) s = Ok (tt, s1) /\
    sent s1 = sent s ++ [arp_request (addrs s) (NetOurIP a)] /\
    NetReceive cfg (arp_response a (NetOurEther (addrs s)) (ip_bytes (NetOurIP (addrs s))) ++ junk) 42 s1 = Ok (tt, s2) /\
    sent s2 = sent s1 ++ [udp_frame (addrs s) (NetOurEther a) (NetIPID s) (tftp_server s) WELL_KNOWN_PORT Q p] /\
    tftp_packet (client s2) = Ok p /\
    forall F P, start F 512 (load_addr (client s)) P Q (mem (client s)) (Sys s2 1 [] []).
Proof.
  intros W Wa Hst Hip Hd0 HdF Ha Hmac Hmax Q.
  destruct (TftpStart_ok s) as (s0 & E0 & A0 & R0 & D0 & P0 & S0 & T0 & I0 & N0 & H0 & C0).
  cbv zeta in C0. destruct C0 as (C1 & C2 & C3 & C4 & C5 & C6 & C7 & C8 & C9 & C10 & C11 & _).
  assert (W0 : net_ok s0).
  { destruct W as [[]]. split; [rewrite A0; by split|by rewrite T0|by rewrite R0|by rewrite P0|by rewrite D0]. }
  set (p := rrq_packet (client s0)).
  assert (Hp : tftp_packet (client s0) = Ok p) by (by apply rrq_packet_ok).
  destruct (TftpSend_in_place s0 p W0 Hp) as (tx0 & W1 & Hin & E1); [by apply rrq_packet_length|].
  set (s1 := set_tx tx0 s0) in *. rewrite C1, C2, C3 in E1. fold Q in E1.
  assert (Eb : bcast (tftp_server s) = tftp_server s) by (unfold bcast; by destruct (Z.eqb_spec (tftp_server s) 0)).
  assert (Em : mac_for MacServer (tftp_server s) = MacServer).
  { unfold mac_for. rewrite Eb. by destruct (Z.eqb_spec (tftp_server s) 4294967295). }
  destruct (NetSendUDPPacket_unknown s1 MacServer (tftp_server s) WELL_KNOWN_PORT Q p W1 Hin) as
    (s2 & E2 & W2 & Hw & Hwp & S2 & A2 & D2 & P2 & L2 & B2); [rewrite Em; cbn; by rewrite A0|]. rewrite Eb, Em in *.
  change (addrs s1) with (addrs s0) in *. assert (Eask : asked (addrs s0) (tftp_server s) = NetOurIP a) by (by rewrite A0).
  rewrite Eask in *.
  set (s3 := set_loop (set_NetBootFileXferSize 0 (loop s2)) s2).
  assert (W3 : net_ok s3) by (destruct W2; by split).
  assert (Hw3 : waiting s3 MacServer (NetOurIP a) (42 + length p)) by (destruct Hw; by split).
  set (s4 := answered s3 MacServer (NetOurEther a) (42 + length p)).
  assert (E4 : NetReceive cfg (arp_response a (NetOurEther (addrs s)) (ip_bytes (NetOurIP (addrs s))) ++ junk) 42 s3 = Ok (tt, s4)).
  { pose proof (NetReceive_arp_response s3 cfg a MacServer (42 + length p) (NetOurIP a) junk W3 Wa) as H.
    change (addrs s3) with (addrs s2) in H. rewrite A2, A0 in H. apply H; try done. apply Wa. }
  exists s3, s4, p. split_and!; try done.
  - assert (E : TftpStart s = Ok (tt, s2)) by (by rewrite E0, E1, (bind_ok _ _ _ _ _ E2)). by rewrite (bind_ok _ _ _ _ _ E).
  - rewrite <- S0. change (sent s3) with (sent s2). rewrite S2. change (sent s1) with (sent s0). f_equal. f_equal. rewrite A0. done.
  - change (sent s4) with (sent s3 ++ [take (42 + length p) (NetOurEther a ++ drop 6 (NetArpWaitTxPacket (arp s2)))]).
    do 2 f_equal. assert (L6 : length (NetOurEther a) = 6%nat) by apply Wa.
    rewrite take_app_ge by lia. rewrite L6.
    replace (udp_frame (addrs s)) with (udp_frame (addrs s0)) by (by rewrite A0).
    rewrite <- udp_frame_mac by (first [done | apply W0 ]). rewrite <- I0.
    change (NetIPID s1) with (NetIPID s0) in Hwp. rewrite <- Hwp. f_equal. rewrite take_drop_commute. do 2 f_equal.
  - change (client s4) with (client s2). by rewrite B2.
  - assert (E : client s4 = client s0) by (change (client s4) with (client s2); by rewrite B2).
    assert (El : loop s4 = set_NetBootFileXferSize 0 (loop s0)) by (change (loop s4) with (loop s3); unfold s3; cbn [loop set_loop]; by rewrite L2).
    assert (W4 : net_ok s4).
    { pose proof (ok_ether _ Wa) as La. destruct W3 as [[] T1 T2 T3 T4]. split; [split|..]; try done.
      cbn [arp set_arp s4 answered NetArpWaitTxPacket set_NetArpWaitPacketMAC set_NetArpWaitTxPacketSize set_NetArpWaitPacketIP set_NetArpWaitTxPacket].
      change (arp (store_mac s3 MacServer (NetOurEther a))) with (arp s3). rewrite length_app, length_drop, T2, La.
      unfold PKTSIZE_ALIGN. lia. }
    intros F P.
    assert (S4 : stored F 512 (load_addr (client s)) Q (mem (client s)) s4 0).
    { split; rewrite ?El, ?E; try done; [split; rewrite ?E; try done; by rewrite C1|].
      cbn [NetState set_NetBootFileXferSize]. rewrite N0, Hst. by rewrite (proj2 (Nat.eqb_neq _ _)) by (unfold nblocks; lia). }
    split; [split; [done|]|]; cbn [cl srv to_client to_server]; rewrite ?E.
    + split; [by left|done].
    + split_and!; try done; unfold counts_ok; rewrite E, C4, C5; lia.
Qed.
End Starting.

(** ** A repeated block number 0

    The offset of the next 65536 blocks is added when a packet numbered 0 comes,
    before the test that ignores repeated packets. *)

(** C40: A packet numbered 0 that comes a second time stores nothing, but moves the
    place of everything that follows by 65536 blocks. *)
Theorem repeated_zero_moves dev_init (s : net tftp) data :
  TftpState (client s) = STATE_DATA -> TftpBlock (client s) = 0 -> TftpLastBlock (client s) = 0 ->
  TftpHandler dev_init (data_packet 0 data) (TftpOurPort (client s)) (TftpServerPort (client s)) (4 + Z.of_nat (length data)) s =
    Ok (tt, set_client (set_TftpBlockWrapOffset (u32 (TftpBlockWrapOffset (client s) + TftpBlkSize (client s) * 65536))
      (set_TftpBlockWrap (u32 (TftpBlockWrap (client s) + 1)) (client s))) s).
Proof.
  set (c := client s). intros Hst Hblk Hlast. unfold TftpHandler. rewrite (bind_ok _ _ _ _ _ (eq_refl : get s = Ok (s, s))). cbv zeta. fold c.
  rewrite Hst, !Z.eqb_refl. cbn [negb]. rewrite andb_false_r. destruct (Z.ltb_spec (4 + Z.of_nat (length data)) 2); [lia|].
  unfold data_packet. rewrite be16_get by (unfold TFTP_DATA; lia). unfold mbind at 1, ST_bind at 1. cbn [lift].
  change (TFTP_DATA =? TFTP_OACK) with false. change (TFTP_DATA =? TFTP_DATA) with true. cbv iota.
  change (drop 2 (be16 TFTP_DATA ++ be16 0 ++ data)) with (be16 0 ++ data).
  unfold handle_data. destruct (Z.ltb_spec (4 + Z.of_nat (length data) - 2) 2); [lia|]. cbv zeta.
  rewrite be16_get by lia. unfold mbind at 1, ST_bind at 1. cbn [lift].
  assert (E1 : upd_tftp (set_TftpBlock 0) s = Ok (tt, s)).
  { unfold upd_tftp, modify. do 2 f_equal. fold c. rewrite <- Hblk. unfold c. destruct s as [? ? ? ? ? ? ? ? ? []]. done. }
  rewrite (bind_ok _ _ _ _ _ E1). rewrite Z.eqb_refl. set (s1 := set_client _ s).
  match goal with |- context [mbind _ ?m s] => rewrite (bind_ok _ _ _ _ _ (eq_refl : m s = Ok (tt, s1))) end.
  rewrite (bind_ok _ _ _ _ _ (eq_refl : get s1 = Ok (s1, s1))). change (TftpState (client s1)) with (TftpState c). rewrite Hst.
  change ((STATE_DATA =? STATE_RRQ) || (STATE_DATA =? STATE_OACK)) with false. cbv iota.
  unfold handle_block. rewrite (bind_ok _ _ _ _ _ (eq_refl : get s1 = Ok (s1, s1))).
  change (TftpBlock (client s1)) with (TftpBlock c). change (TftpLastBlock (client s1)) with (TftpLastBlock c).
  by rewrite Hblk, Hlast.
Qed.

(** ** On a concrete host *)

Definition bench_client : tftp :=
  Tftp (10 + 16777216 * 2) 69 1024 0 10 0 0 0 0 STATE_RRQ 512 1468 5000 10 (zs "uImage") (zs "uImage") 0x1000 ∅.

(** The server's hardware address is known. *)
Definition bench : net tftp :=
  let s := host 1 bench_client in set_addrs (set_NetServerEther [2; 0; 0; 0; 0; 2] (addrs s)) s.

Definition bench_cfg : config := Config true true.
Definition no_devices : nat -> nat -> Z := fun _ _ => 0.
Definition bench_server : addresses := addrs (host 2 tt).
Definition bench_sys : system := Sys bench 1 [] [].

Lemma bench_start P : start [1; 2; 3] 512 0x1000 P 1024 ∅ bench_sys.
Proof.
  assert (W : net_ok bench) by (destruct (host_ok bench_client 1 ltac:(by vm_compute)) as [[]]; by split).
  split; [split; [|split; [by left|done]]|done]. split; try done. cbn. unfold MAX_LEN. lia.
Qed.

Lemma bench_server_ok : addrs_ok bench_server.
Proof. exact (ok_addrs _ (host_ok tt 2 ltac:(by vm_compute))). Qed.

Lemma tftp_safe_witness : exists w', rtc (step no_devices [1; 2; 3] 512 69 1024 bench_cfg bench_server) bench_sys w' /\
  file_stored [1; 2; 3] 0x1000 ∅ (cl w').
Proof.
  assert (HF : Forall byte [1; 2; 3]) by (apply (bool_decide_unpack _); vm_compute; exact I).
  destruct (recover no_devices [1; 2; 3] 512 0x1000 69 1024 ∅ ltac:(lia) HF ltac:(done) ltac:(done) bench_cfg bench_server
    bench_server_ok ltac:(lia) ltac:(lia) ltac:(lia) bench 0) as (w' & Hs & Hst & _).
  - apply (bench_start 69).
  - done.
  - unfold nblocks. cbn. lia.
  - exists w'. split; [exact Hs|].
    apply (tftp_safe no_devices [1; 2; 3] 512 0x1000 69 1024 ∅ ltac:(lia) HF ltac:(done) ltac:(done) bench_cfg bench_server
      bench_server_ok ltac:(lia) ltac:(lia) ltac:(lia) bench_sys w'); [done|by apply bench_start|done|done].
Defined.

Lemma tftp_live_witness : exists w', rtc (step no_devices [1; 2; 3] 512 69 1024 bench_cfg bench_server) bench_sys w' /\
  NetState (loop (cl w')) = NETLOOP_SUCCESS /\ file_stored [1; 2; 3] 0x1000 ∅ (cl w').
Proof.
  assert (HF : Forall byte [1; 2; 3]) by (apply (bool_decide_unpack _); vm_compute; exact I).
  apply (tftp_live no_devices [1; 2; 3] 512 0x1000 69 1024 ∅ ltac:(lia) HF ltac:(done) ltac:(done) bench_cfg bench_server
      bench_server_ok ltac:(lia) ltac:(lia) ltac:(lia) bench_sys bench_sys); [done|by apply bench_start|done|done|done].
Defined.

Lemma tftp_wraps_witness : exists w', rtc (step no_devices [1; 2; 3] 512 69 1024 bench_cfg bench_server) bench_sys w' /\
  NetState (loop (cl w')) = NETLOOP_SUCCESS /\ file_stored [1; 2; 3] 0x1000 ∅ (cl w').
Proof.
  assert (HF : Forall byte [1; 2; 3]) by (apply (bool_decide_unpack _); vm_compute; exact I).
  apply (tftp_wraps no_devices [1; 2; 3] 512 0x1000 69 1024 ∅ ltac:(lia) HF ltac:(done) ltac:(done) bench_cfg bench_server
      bench_server_ok ltac:(lia) ltac:(lia) ltac:(lia) bench_sys). by apply bench_start.
Defined.

Lemma tftp_handshake_witness : exists s1 s2 p,
  (TftpStart;; upd_loop (set_NetBootFileXferSize 0)) (host 1 bench_client) = Ok (tt, s1) /\
  sent s1 = [arp_request (addrs (host 1 bench_client)) (10 + 16777216 * 2)] /\
  NetReceive (NetClient0 := tftp_client no_devices) bench_cfg (arp_response bench_server [2; 0; 0; 0; 0; 1] [10; 0; 0; 1] ++ [7]) 42 s1 = Ok (tt, s2) /\
  sent s2 = sent s1 ++ [udp_frame (addrs (host 1 bench_client)) [2; 0; 0; 0; 0; 2] 0 (10 + 16777216 * 2) WELL_KNOWN_PORT 1024 p] /\
  tftp_packet (client s2) = Ok p /\
  forall F P, start F 512 0x1000 P 1024 ∅ (Sys s2 1 [] []).
Proof.
  apply (tftp_handshake no_devices bench_cfg (host 1 bench_client) bench_server [7]); try done; by apply host_ok.
Defined.

(** The client in the middle of a transfer, block 65536 just received. *)
Definition at_zero : net tftp :=
  set_client (set_TftpState STATE_DATA (set_TftpServerPort 1069 (set_TftpBlockWrapOffset 0x2000000 bench_client))) bench.

Lemma repeated_zero_moves_witness :
  TftpHandler no_devices (data_packet 0 [5]) 1024 1069 5 at_zero =
    Ok (tt, set_client (set_TftpBlockWrapOffset 0x4000000 (set_TftpBlockWrap 1 (client at_zero))) at_zero).
Proof. apply (repeated_zero_moves no_devices at_zero [5]); done. Defined.


(** What is at the places after 65536 and after 131072 blocks when block 65536 came
    [n] times more and then the next block. *)
Definition next_block_at (n : nat) : res (option Z * option Z) :=
  let zero := TftpHandler no_devices (data_packet 0 [5]) 1024 1069 5 in
  let fix times n : N unit := match n with O => mret tt | S n => zero;; times n end in
  '(_, s) ← (times n;; TftpHandler no_devices (data_packet 1 [6]) 1024 1069 5) at_zero;
  mret (mem (client s) !! (0x1000 + 0x2000000), mem (client s) !! (0x1000 + 0x4000000)).

Example next_block_in_place : next_block_at 0 = Ok (Some 6, None).
Proof. vm_compute. reflexivity. Qed.
Example next_block_moved : next_block_at 1 = Ok (None, Some 6).
Proof. vm_compute. reflexivity. Qed.

(** A frame with the first block whose UDP length field is [ulen]; its UDP checksum
    is 0, that is, not used. *)
Definition short_frame (ulen : Z) : list Z :=
  let len := 32 + 3 in
  let h sum := [0x45; 0] ++ be16 len ++ [0; 1; 0; 0; 64; 17] ++ sum ++ [10; 0; 0; 2; 10; 0; 0; 1] in
  [2; 0; 0; 0; 0; 1] ++ [2; 0; 0; 0; 0; 2] ++ [8; 0] ++ h (cksum_bytes (NetCksum (h [0; 0]) 10)) ++
  be16 1069 ++ be16 1024 ++ be16 ulen ++ [0; 0] ++ data_packet 1 [1; 2; 3].

(** What is stored of it at the load address. *)
Definition short_result (ulen : Z) : res (list Z) :=
  let frame := short_frame ulen in
  '(_, s) ← NetReceive (NetClient0 := tftp_client no_devices) bench_cfg frame (Z.of_nat (length frame)) bench;
  mret (omap (fun i => mem (client s) !! (0x1000 + i)) [0; 1; 2; 3; 4]).

Example udp_length_right : short_result 15 = Ok [1; 2; 3].
Proof. vm_compute. reflexivity. Qed.
(** The length field is not compared with the length of the frame: with less than
    8 the block is nearly 4 GiB long. *)
Example udp_length_underflow : short_result 7 = Fault.
Proof. vm_compute. reflexivity. Qed.
