(* ===== verification/Bootp.v ===== *)
(** * BOOTP and DHCP (net/bootp.c, common/cmd_net.c)

    Both clients, of which CONFIG_CMD_DHCP chooses one, and the TFTP client that they
    start: together an instance of [NetClient], whose state has that of Tftp inside.
    [runs_tftp] says whose functions the packet and timeout handlers are.  A packet [pkt]
    begins with the BOOTP header and goes on to the end of the buffer it came in.  The
    names the server sends are kept up to the NUL.  What is printed is left out, and so
    are the random delay, vendor extensions, NFS and the time server. *)

From S2P Require Import Prelude Mem Ctype Vsprintf Env Eth Net Tftp TftpLink.

(** ** Constants *)

Definition BOOTP_VENDOR_MAGIC : Z := 0x63825363.
Definition TIMEOUT : Z := 5000.
Definition TIMEOUT_COUNT : Z := 5.
Definition SELECT_TIMEOUT : Z := 3000.
Definition PORT_BOOTPS : Z := 67.
Definition PORT_BOOTPC : Z := 68.
Definition CONFIG_DHCP_MIN_EXT_LEN : Z := 64.
Definition OP_BOOTREQUEST : Z := 1.
Definition OP_BOOTREPLY : Z := 2.
Definition HWT_ETHER : Z := 1.
Definition HWL_ETHER : Z := 6.
Definition DHCP_DISCOVER : Z := 1.
Definition DHCP_OFFER : Z := 2.
Definition DHCP_REQUEST : Z := 3.
Definition DHCP_ACK : Z := 5.
Definition DHCP_NAK : Z := 6.
Definition PKTSIZE : nat := 1518.

(** Offsets in a [Bootp_t]. *)
Definition bp_id : nat := 4.
Definition bp_yiaddr : nat := 16.
Definition bp_siaddr : nat := 20.
Definition bp_file : nat := 108.
Definition bp_vend : nat := 236.

Inductive dhcp_state_t := INIT | INIT_REBOOT | REBOOTING | SELECTING | REQUESTING | REBINDING | BOUND | RENEWING.

Record bootp_config := BootpConfig {
  CONFIG_CMD_DHCP : bool;
  CONFIG_BOOTP_SUBNETMASK : bool;
  CONFIG_BOOTP_TIMEOFFSET : bool;
  CONFIG_BOOTP_GATEWAY : bool;
  CONFIG_BOOTP_DNS : bool;
  CONFIG_BOOTP_DNS2 : bool;
  CONFIG_BOOTP_HOSTNAME : bool;
  CONFIG_BOOTP_BOOTFILESIZE : bool;
  CONFIG_BOOTP_BOOTPATH : bool;
  CONFIG_BOOTP_NISDOMAIN : bool;
  CONFIG_BOOTP_NTPSERVER : bool;
  CONFIG_BOOTP_SEND_HOSTNAME : bool
}.

Definition OPT_SIZE (c : bootp_config) : Z := if CONFIG_CMD_DHCP c then 312 else 64.
Definition BOOTP_HDR_SIZE (c : bootp_config) : Z := Z.of_nat bp_vend + OPT_SIZE c.

(** ** State *)

Record bootp := Bootp {
  dhcp_state : dhcp_state_t;
  dhcp_leasetime : Z;
  NetDHCPServerIP : Z;
  BootpID : Z;
  BootpTry : Z;
  NetOurDNSIP : Z;
  NetOurDNS2IP : Z;
  NetOurHostName : list Z;
  NetOurRootPath : list Z;
  NetOurNISDomain : list Z;
  NetBootFileSize : Z;
  runs_tftp : bool;
  loader : tftp
}.

Definition set_dhcp_state (v : dhcp_state_t) (s : bootp) : bootp :=
  Bootp v (dhcp_leasetime s) (NetDHCPServerIP s) (BootpID s) (BootpTry s) (NetOurDNSIP s) (NetOurDNS2IP s) (NetOurHostName s) (NetOurRootPath s) (NetOurNISDomain s) (NetBootFileSize s) (runs_tftp s) (loader s).
Definition set_dhcp_leasetime (v : Z) (s : bootp) : bootp :=
  Bootp (dhcp_state s) v (NetDHCPServerIP s) (BootpID s) (BootpTry s) (NetOurDNSIP s) (NetOurDNS2IP s) (NetOurHostName s) (NetOurRootPath s) (NetOurNISDomain s) (NetBootFileSize s) (runs_tftp s) (loader s).
Definition set_NetDHCPServerIP (v : Z) (s : bootp) : bootp :=
  Bootp (dhcp_state s) (dhcp_leasetime s) v (BootpID s) (BootpTry s) (NetOurDNSIP s) (NetOurDNS2IP s) (NetOurHostName s) (NetOurRootPath s) (NetOurNISDomain s) (NetBootFileSize s) (runs_tftp s) (loader s).
Definition set_BootpID (v : Z) (s : bootp) : bootp :=
  Bootp (dhcp_state s) (dhcp_leasetime s) (NetDHCPServerIP s) v (BootpTry s) (NetOurDNSIP s) (NetOurDNS2IP s) (NetOurHostName s) (NetOurRootPath s) (NetOurNISDomain s) (NetBootFileSize s) (runs_tftp s) (loader s).
Definition set_BootpTry (v : Z) (s : bootp) : bootp :=
  Bootp (dhcp_state s) (dhcp_leasetime s) (NetDHCPServerIP s) (BootpID s) v (NetOurDNSIP s) (NetOurDNS2IP s) (NetOurHostName s) (NetOurRootPath s) (NetOurNISDomain s) (NetBootFileSize s) (runs_tftp s) (loader s).
Definition set_NetOurDNSIP (v : Z) (s : bootp) : bootp :=
  Bootp (dhcp_state s) (dhcp_leasetime s) (NetDHCPServerIP s) (BootpID s) (BootpTry s) v (NetOurDNS2IP s) (NetOurHostName s) (NetOurRootPath s) (NetOurNISDomain s) (NetBootFileSize s) (runs_tftp s) (loader s).
Definition set_NetOurDNS2IP (v : Z) (s : bootp) : bootp :=
  Bootp (dhcp_state s) (dhcp_leasetime s) (NetDHCPServerIP s) (BootpID s) (BootpTry s) (NetOurDNSIP s) v (NetOurHostName s) (NetOurRootPath s) (NetOurNISDomain s) (NetBootFileSize s) (runs_tftp s) (loader s).
Definition set_NetOurHostName (v : list Z) (s : bootp) : bootp :=
  Bootp (dhcp_state s) (dhcp_leasetime s) (NetDHCPServerIP s) (BootpID s) (BootpTry s) (NetOurDNSIP s) (NetOurDNS2IP s) v (NetOurRootPath s) (NetOurNISDomain s) (NetBootFileSize s) (runs_tftp s) (loader s).
Definition set_NetOurRootPath (v : list Z) (s : bootp) : bootp :=
  Bootp (dhcp_state s) (dhcp_leasetime s) (NetDHCPServerIP s) (BootpID s) (BootpTry s) (NetOurDNSIP s) (NetOurDNS2IP s) (NetOurHostName s) v (NetOurNISDomain s) (NetBootFileSize s) (runs_tftp s) (loader s).
Definition set_NetOurNISDomain (v : list Z) (s : bootp) : bootp :=
  Bootp (dhcp_state s) (dhcp_leasetime s) (NetDHCPServerIP s) (BootpID s) (BootpTry s) (NetOurDNSIP s) (NetOurDNS2IP s) (NetOurHostName s) (NetOurRootPath s) v (NetBootFileSize s) (runs_tftp s) (loader s).
Definition set_NetBootFileSize (v : Z) (s : bootp) : bootp :=
  Bootp (dhcp_state s) (dhcp_leasetime s) (NetDHCPServerIP s) (BootpID s) (BootpTry s) (NetOurDNSIP s) (NetOurDNS2IP s) (NetOurHostName s) (NetOurRootPath s) (NetOurNISDomain s) v (runs_tftp s) (loader s).
Definition set_runs_tftp (v : bool) (s : bootp) : bootp :=
  Bootp (dhcp_state s) (dhcp_leasetime s) (NetDHCPServerIP s) (BootpID s) (BootpTry s) (NetOurDNSIP s) (NetOurDNS2IP s) (NetOurHostName s) (NetOurRootPath s) (NetOurNISDomain s) (NetBootFileSize s) v (loader s).
Definition set_loader (v : tftp) (s : bootp) : bootp :=
  Bootp (dhcp_state s) (dhcp_leasetime s) (NetDHCPServerIP s) (BootpID s) (BootpTry s) (NetOurDNSIP s) (NetOurDNS2IP s) (NetOurHostName s) (NetOurRootPath s) (NetOurNISDomain s) (NetBootFileSize s) (runs_tftp s) v.

Abbreviation B := (ST (net bootp)).

Definition upd_bootp (f : bootp -> bootp) : B unit := modify (fun s => set_client (f (client s)) s).

(** The TFTP client, in the same network. *)
Definition with_client {C D} (c : C) (s : net D) : net C :=
  Net (addrs s) (arp s) (loop s) (ping s) (edev s) (NetIPID s) (NetTxPacket s) (now s) (sent s) c.
Definition as_tftp (s : net bootp) : net tftp := with_client (loader (client s)) s.
Definition on_tftp {A} (f : ST (net tftp) A) : B A := fun s =>
  match f (as_tftp s) with
  | Ok (a, t) => Ok (a, with_client (set_loader (client t) (client s)) t)
  | Fault => Fault
  | OutOfFuel => OutOfFuel
  end.

(** ** Requests *)

Definition when (c : bool) (l : list Z) : list Z := if c then l else [].

(** The header of a request: [secs] since the start, our hardware address, the file. *)
Definition request_header (id secs : Z) (mac file : list Z) : list Z :=
  [OP_BOOTREQUEST; HWT_ETHER; HWL_ETHER; 0] ++ ip_bytes id ++ be16 secs ++ replicate 18 0 ++
  mac ++ replicate 10 0 ++ replicate 64 0 ++ file ++ replicate (128 - length file) 0.

(** What is asked for, one code each. *)
Definition parameter_list (c : bootp_config) : list Z :=
  when (CONFIG_BOOTP_SUBNETMASK c) [1] ++ when (CONFIG_BOOTP_TIMEOFFSET c) [2] ++ when (CONFIG_BOOTP_GATEWAY c) [3] ++
  when (CONFIG_BOOTP_DNS c) [6] ++ when (CONFIG_BOOTP_HOSTNAME c) [12] ++ when (CONFIG_BOOTP_BOOTFILESIZE c) [13] ++
  when (CONFIG_BOOTP_BOOTPATH c) [17] ++ when (CONFIG_BOOTP_NISDOMAIN c) [40] ++ when (CONFIG_BOOTP_NTPSERVER c) [42].

Definition DhcpExtended (c : bootp_config) (e : environment) (message_type ServerID RequestedIP : Z) : list Z :=
  let size := 576 - 312 + OPT_SIZE c in
  let ext :=
    [99; 130; 83; 99] ++ [53; 1; message_type] ++ [57; 2; u8 (Z.shiftr size 8); Z.land size 0xff] ++
    when (negb (ServerID =? 0)) ([54; 4] ++ ip_bytes ServerID) ++
    when (negb (RequestedIP =? 0)) ([50; 4] ++ ip_bytes RequestedIP) ++
    match var e (zs "hostname") with
    | Some h => when (CONFIG_BOOTP_SEND_HOSTNAME c) ([12; u8 (Z.of_nat (length h))] ++ h)
    | None => []
    end ++
    [55; Z.of_nat (length (parameter_list c))] ++ parameter_list c ++ [255] in
  ext ++ replicate (Z.to_nat (CONFIG_DHCP_MIN_EXT_LEN + 1) - length ext) 0.

(** A field of [n] bytes to be filled in. *)
Definition blank_field (code : Z) (n : nat) : list Z := [code; Z.of_nat n] ++ replicate n 0.

Definition BootpExtended (c : bootp_config) : list Z :=
  [99; 130; 83; 99] ++
  when (CONFIG_BOOTP_SUBNETMASK c) (blank_field 1 4) ++ when (CONFIG_BOOTP_GATEWAY c) (blank_field 3 4) ++
  when (CONFIG_BOOTP_DNS c) (blank_field 6 4) ++ when (CONFIG_BOOTP_HOSTNAME c) (blank_field 12 32) ++
  when (CONFIG_BOOTP_BOOTFILESIZE c) (blank_field 13 2) ++ when (CONFIG_BOOTP_BOOTPATH c) (blank_field 17 32) ++
  when (CONFIG_BOOTP_NISDOMAIN c) (blank_field 40 32) ++ [255].

(** The packet is put together in [NetTxPacket] and broadcast. *)
Definition broadcast (header ext : list Z) : B unit :=
  s ← get;
  let a := addrs s in
  let tx := replicate PKTSIZE 0 ++ drop PKTSIZE (NetTxPacket s) in
  '(pkt, n) ← lift (NetSetEther a tx NetBcastAddr PROT_IP);
  let off := (n + Z.to_nat IP_HDR_SIZE)%nat in
  pkt ← lift (put_bytes pkt off header);
  pkt ← lift (put_bytes pkt (off + length header) ext);
  let iplen := Z.of_nat (length header) + Z.of_nat (length ext) in
  id ← next_ipid;
  pkt ← lift (NetSetIP a id pkt n 0xFFFFFFFF PORT_BOOTPS PORT_BOOTPC iplen);
  modify (set_tx pkt);;
  eth_send pkt (Z.of_nat off + iplen).

(** The lower four bytes of our hardware address plus the time, in network order. *)
Definition new_id (mac : list Z) (now : Z) : Z :=
  let hi := Z.lor (Z.shiftl (nth 2 mac 0) 24) (Z.shiftl (nth 3 mac 0) 16) in
  let lo := Z.lor (Z.shiftl (nth 4 mac 0) 8) (nth 5 mac 0) in
  htonl (u32 (Z.lor hi lo + now)).

Section Bootp.
Context (cfg : bootp_config) (dev_init : nat -> nat -> Z).

Definition BootpRequest : B unit :=
  upd_bootp (set_dhcp_state INIT);;
  upd_bootp (fun b => set_BootpTry (s32 (BootpTry b + 1)) b);;
  s ← get;
  let a := addrs s in
  let id := new_id (NetOurEther a) (now s) in
  upd_bootp (set_BootpID id);;
  NetSetTimeout SELECT_TIMEOUT ClientTimeout;;
  (if CONFIG_CMD_DHCP cfg then upd_bootp (set_dhcp_state SELECTING) else mret tt);;
  NetSetHandler ClientHandler;;
  upd_bootp (set_runs_tftp false);;
  broadcast
    (request_header id (now s / 1000) (NetOurEther a) (copy_filename (BootFile (loader (client s))) 128))
    (if CONFIG_CMD_DHCP cfg then DhcpExtended cfg (env (edev s)) DHCP_DISCOVER 0 0 else BootpExtended cfg).

Definition BootpTimeout : B unit :=
  s ← get;
  if TIMEOUT_COUNT <=? BootpTry (client s) then NetStartAgain dev_init
  else NetSetTimeout TIMEOUT ClientTimeout;; BootpRequest.

(** ** Replies *)

Definition BootpCheckPkt (id : Z) (pkt : list Z) (dest src len : Z) : res Z :=
  if negb (dest =? PORT_BOOTPC) || negb (src =? PORT_BOOTPS) then mret (-1)
  else if len <? Z.of_nat bp_vend then mret (-2)
  else
    op ← get8 pkt 0;
    if negb (op =? OP_BOOTREQUEST) && negb (op =? OP_BOOTREPLY) && negb (op =? DHCP_OFFER) && negb (op =? DHCP_ACK)
       && negb (op =? DHCP_NAK) then mret (-3)
    else
      htype ← get8 pkt 1;
      if negb (htype =? HWT_ETHER) then mret (-4)
      else
        hlen ← get8 pkt 2;
        if negb (hlen =? HWL_ETHER) then mret (-5)
        else
          i ← NetReadIP pkt bp_id;
          if negb (i =? id) then mret (-6) else mret 0.

(** The string at [p], which must end in the buffer. *)
Fixpoint str_of (p : list Z) : res (list Z) :=
  match p with
  | [] => Fault
  | c :: p => if c =? 0 then mret [] else s ← str_of p; mret (c :: s)
  end.

Definition BootpCopyNetParams (frame pkt : list Z) : B unit :=
  ip ← lift (NetReadIP pkt bp_yiaddr); upd_addrs (set_NetOurIP ip);;
  tmp_ip ← lift (NetReadIP pkt bp_siaddr);
  (if negb (tmp_ip =? 0) then upd_addrs (set_NetServerIP tmp_ip) else mret tt);;
  mac ← lift (get_bytes frame 6 6); upd_addrs (set_NetServerEther mac);;
  file ← lift (str_of (drop bp_file pkt));
  (if negb (deref file =? 0) then upd_bootp (fun b => set_loader (set_BootFile (copy_filename file 128) (loader b)) b) else mret tt);;
  s ← get;
  let name := BootFile (loader (client s)) in
  if negb (deref name =? 0) then upd_eth (fun e => with_env e (set_var (env e) (zs "bootfile") (Some name))) else mret tt.

Definition truncate_sz (maxlen curlen : Z) : Z := if maxlen <=? curlen then maxlen - 1 else curlen.

(** A name of the option at [i], in an array of [maxlen] bytes. *)
Definition option_name (pkt : list Z) (i : nat) (maxlen size : Z) : res (list Z) :=
  name ← get_bytes pkt (i + 2) (Z.to_nat (truncate_sz maxlen size)); mret (until_nul name).

(** [TftpStart], which makes its functions the handlers. *)
Definition start_tftp : B unit := on_tftp TftpStart;; upd_bootp (set_runs_tftp true).

(** Load the file unless the environment says no. *)
Definition autoload : B unit :=
  s ← get;
  match var (env (edev s)) (zs "autoload") with
  | Some v => if deref v =? ch "n" then set_state NETLOOP_SUCCESS else start_tftp
  | None => start_tftp
  end.

Definition vendor_magic (pkt : list Z) : res bool :=
  m ← NetReadIP pkt bp_vend; mret (m =? htonl BOOTP_VENDOR_MAGIC).

(** *** BOOTP: what is known already is kept *)

Definition BootpVendorFieldProcess (pkt : list Z) (i : nat) : B unit :=
  code ← lift (get8 pkt i);
  size ← lift (get8 pkt (i + 1));
  upd_bootp (set_NetBootFileSize 0);;
  s ← get;
  let b := client s in
  if code =? 1 then
    if NetOurSubnetMask (addrs s) =? 0 then ip ← lift (NetReadIP pkt (i + 2)); upd_addrs (set_NetOurSubnetMask ip) else mret tt
  else if code =? 3 then
    if NetOurGatewayIP (addrs s) =? 0 then ip ← lift (NetReadIP pkt (i + 2)); upd_addrs (set_NetOurGatewayIP ip) else mret tt
  else if code =? 6 then
    (if NetOurDNSIP b =? 0 then ip ← lift (NetReadIP pkt (i + 2)); upd_bootp (set_NetOurDNSIP ip) else mret tt);;
    if CONFIG_BOOTP_DNS2 cfg && (NetOurDNS2IP b =? 0) && (4 <? size) then ip ← lift (NetReadIP pkt (i + 6)); upd_bootp (set_NetOurDNS2IP ip)
    else mret tt
  else if code =? 12 then
    if deref (NetOurHostName b) =? 0 then name ← lift (option_name pkt i 32 size); upd_bootp (set_NetOurHostName name) else mret tt
  else if code =? 13 then
    if size =? 2 then n ← lift (get16 pkt (i + 2)); upd_bootp (set_NetBootFileSize n)
    else if size =? 4 then _ ← lift (get16 pkt (i + 2)); n ← lift (get16 pkt (i + 4)); upd_bootp (set_NetBootFileSize n)
    else mret tt
  else if code =? 17 then
    if deref (NetOurRootPath b) =? 0 then name ← lift (option_name pkt i 64 size); upd_bootp (set_NetOurRootPath name) else mret tt
  else if code =? 40 then
    if deref (NetOurNISDomain b) =? 0 then name ← lift (option_name pkt i 32 size); upd_bootp (set_NetOurNISDomain name) else mret tt
  else mret tt.

(** The fields from [i] up to [last]; each turn goes on by a byte at least. *)
Fixpoint vendor_loop (fuel : nat) (pkt : list Z) (i : nat) (last : Z) : B unit :=
  if Z.of_nat i <? last then
    match fuel with
    | O => out_of_fuel
    | S fuel =>
        code ← lift (get8 pkt i);
        if code =? 0xff then mret tt
        else if code =? 0 then vendor_loop fuel pkt (i + 1) last
        else
          size ← lift (get8 pkt (i + 1));
          let next := (i + Z.to_nat size + 2)%nat in
          (if Z.of_nat next <=? last then BootpVendorFieldProcess pkt i else mret tt);;
          vendor_loop fuel pkt next last
    end
  else mret tt.

Definition BootpVendorProcess (pkt : list Z) (i : nat) (size : Z) : B unit := vendor_loop (length pkt) pkt i (Z.of_nat i + size).

Definition BootpHandler (frame pkt : list Z) (dest src len : Z) : B unit :=
  s ← get;
  r ← lift (BootpCheckPkt (BootpID (client s)) pkt dest src len);
  if negb (r =? 0) then mret tt
  else
    BootpCopyNetParams frame pkt;;
    magic ← lift (vendor_magic pkt);
    (if (magic : bool) then BootpVendorProcess pkt (bp_vend + 4) len else mret tt);;
    NetSetTimeout 0 ClientTimeout;;
    autoload.

(** *** DHCP *)

(** One option, at [i]: the packet, to which a boot file is written. *)
Definition dhcp_option (pkt : list Z) (i : nat) (code oplen : Z) : B (list Z) :=
  if code =? 1 then ip ← lift (NetReadIP pkt (i + 2)); upd_addrs (set_NetOurSubnetMask ip);; mret pkt
  else if code =? 3 then ip ← lift (NetReadIP pkt (i + 2)); upd_addrs (set_NetOurGatewayIP ip);; mret pkt
  else if code =? 6 then
    ip ← lift (NetReadIP pkt (i + 2)); upd_bootp (set_NetOurDNSIP ip);;
    (if CONFIG_BOOTP_DNS2 cfg && (4 <? oplen) then ip ← lift (NetReadIP pkt (i + 6)); upd_bootp (set_NetOurDNS2IP ip) else mret tt);;
    mret pkt
  else if code =? 12 then name ← lift (option_name pkt i 32 oplen); upd_bootp (set_NetOurHostName name);; mret pkt
  else if code =? 17 then name ← lift (option_name pkt i 64 oplen); upd_bootp (set_NetOurRootPath name);; mret pkt
  else if code =? 51 then t ← lift (NetReadIP pkt (i + 2)); upd_bootp (set_dhcp_leasetime t);; mret pkt
  else if code =? 54 then ip ← lift (NetReadIP pkt (i + 2)); upd_bootp (set_NetDHCPServerIP ip);; mret pkt
  else if code =? 67 then
    let size := truncate_sz 128 oplen in
    c ← lift (get8 pkt bp_file);
    if (c =? 0) && (0 <? size) then
      name ← lift (get_bytes pkt (i + 2) (Z.to_nat size));
      lift (put_bytes pkt bp_file (name ++ [0]))
    else mret pkt
  else mret pkt.

(** The options from [i] up to [last]; each turn goes on by two bytes at least. *)
Fixpoint options_loop (fuel : nat) (pkt : list Z) (i : nat) (last : Z) : B (list Z) :=
  if Z.of_nat i <? last then
    match fuel with
    | O => out_of_fuel
    | S fuel =>
        code ← lift (get8 pkt i);
        if code =? 0xff then mret pkt
        else
          oplen ← lift (get8 pkt (i + 1));
          pkt ← dhcp_option pkt i code oplen;
          options_loop fuel pkt (i + Z.to_nat oplen + 2) last
    end
  else mret pkt.

Definition DhcpOptionsProcess (pkt : list Z) (i : nat) : B (list Z) :=
  options_loop (length pkt) pkt i (Z.of_nat i + BOOTP_HDR_SIZE cfg).

(** Without an end: only that of the buffer ends the loop. *)
Fixpoint message_type_loop (fuel : nat) (pkt : list Z) (i : nat) : res Z :=
  match fuel with
  | O => OutOfFuel
  | S fuel =>
      code ← get8 pkt i;
      if code =? 0xff then mret (-1)
      else if code =? 53 then get8 pkt (i + 2)
      else n ← get8 pkt (i + 1); message_type_loop fuel pkt (i + Z.to_nat n + 2)
  end.

Definition DhcpMessageType (pkt : list Z) : res Z :=
  magic ← vendor_magic pkt;
  if negb magic then mret (-1) else message_type_loop (S (length pkt)) pkt (bp_vend + 4).

Definition DhcpSendRequestPkt (offer : list Z) : B unit :=
  s ← get;
  id ← lift (NetReadIP offer bp_id);
  OfferedIP ← lift (NetReadIP offer bp_yiaddr);
  broadcast (request_header id (now s / 1000) (NetOurEther (addrs s)) [])
    (DhcpExtended cfg (env (edev s)) DHCP_REQUEST (NetDHCPServerIP (client s)) OfferedIP).

Definition vendor_options (pkt : list Z) : B (list Z) :=
  magic ← lift (vendor_magic pkt);
  if (magic : bool) then DhcpOptionsProcess pkt (bp_vend + 4) else mret pkt.

Definition DhcpHandler (frame pkt : list Z) (dest src len : Z) : B unit :=
  s ← get;
  r ← lift (BootpCheckPkt (BootpID (client s)) pkt dest src len);
  if negb (r =? 0) then mret tt
  else
    match dhcp_state (client s) with
    | SELECTING =>
        upd_bootp (set_dhcp_state REQUESTING);;
        pkt ← vendor_options pkt;
        NetSetTimeout TIMEOUT ClientTimeout;;
        DhcpSendRequestPkt pkt
    | REQUESTING =>
        type ← lift (DhcpMessageType pkt);
        if type =? DHCP_ACK then
          pkt ← vendor_options pkt;
          BootpCopyNetParams frame pkt;;
          upd_bootp (set_dhcp_state BOUND);;
          autoload
        else mret tt
    | _ => mret tt
    end.

(** ** The client *)

#[export] Instance bootp_client : NetClient bootp := {|
  client_start protocol :=
    match protocol with
    | BOOTP | DHCP => upd_bootp (set_BootpTry 0);; BootpRequest
    | _ => start_tftp
    end;
  client_rx frame pkt dest src len :=
    s ← get;
    if runs_tftp (client s) then on_tftp (TftpHandler dev_init pkt dest src len)
    else if CONFIG_CMD_DHCP cfg then DhcpHandler frame pkt dest src len
    else BootpHandler frame pkt dest src len;
  client_timeout := s ← get; if runs_tftp (client s) then on_tftp (TftpTimeout dev_init) else BootpTimeout
|}.

(** ** The commands *)

Definition update_text (name value : list Z) : B unit :=
  if deref value =? 0 then mret tt else upd_eth (fun e => with_env e (set_var (env e) name (Some value))).

Definition netboot_update_env : B unit :=
  s ← get;
  let a := addrs s in
  let b := client s in
  on_tftp (update_ip (zs "gatewayip") (NetOurGatewayIP a));;
  on_tftp (update_ip (zs "netmask") (NetOurSubnetMask a));;
  update_text (zs "hostname") (NetOurHostName b);;
  update_text (zs "rootpath") (NetOurRootPath b);;
  on_tftp (update_ip (zs "ipaddr") (NetOurIP a));;
  on_tftp (update_ip (zs "serverip") (NetServerIP a));;
  on_tftp (update_ip (zs "dnsip") (NetOurDNSIP b));;
  (if CONFIG_BOOTP_DNS2 cfg then on_tftp (update_ip (zs "dnsip2") (NetOurDNS2IP b)) else mret tt);;
  update_text (zs "domain") (NetOurNISDomain b).

(** bootp, dhcp and tftpboot, by the protocol. *)
Definition netboot_common (net_cfg : config) (protocol : proto_t) (do_bootm : net bootp -> Z) (bi_ip_addr : Z) (argv : list (list Z)) (ts : list turn) : B (option Z) :=
  ok ← on_tftp (netboot_args argv);
  if negb ok then mret (Some 1)
  else
    r ← NetLoop dev_init net_cfg (fun b => load_addr (loader b)) bi_ip_addr protocol ts;
    match r with
    | None => mret None
    | Some size =>
        if size <? 0 then mret (Some 1)
        else
          netboot_update_env;;
          if size =? 0 then mret (Some 0)
          else
            s ← get;
            if bool_decide (var (env (edev s)) (zs "autostart") = Some (zs "yes")) then mret (Some (do_bootm s))
            else mret (Some 0)
    end.
End Bootp.

(** ** What the server sends *)

(** An option: its code and its data. *)
Abbreviation opt := (Z * list Z)%type.
Definition option_bytes (o : opt) : list Z := o.1 :: Z.of_nat (length o.2) :: o.2.
Definition options_area (opts : list opt) : list Z := flat_map option_bytes opts ++ [255].

(** An address that an option holds. *)
Definition ip_of (data : list Z) : Z := nth 0 data 0 + 256 * nth 1 data 0 + 65536 * nth 2 data 0 + 16777216 * nth 3 data 0.

(** Options of one type, and what each says. *)
Definition says {A} (code : Z) (f : list Z -> A) (o : opt) : option A := if o.1 =? code then Some (f o.2) else None.
Definition says_dns2 (cfg : bootp_config) (o : opt) : option Z :=
  if (o.1 =? 6) && CONFIG_BOOTP_DNS2 cfg && (4 <? Z.of_nat (length o.2)) then Some (ip_of (drop 4 o.2)) else None.
Definition name_of (maxlen : Z) (data : list Z) : list Z := until_nul (take (Z.to_nat (maxlen - 1)) data).

(** The last option that says something counts. *)
Fixpoint learned {A} (old : A) (f : opt -> option A) (opts : list opt) : A :=
  match opts with [] => old | o :: opts => learned (match f o with Some v => v | None => old end) f opts end.

(** The first one counts that says something known, if it was unknown before. *)
Fixpoint kept {A} (known : A -> bool) (old : A) (f : opt -> option A) (opts : list opt) : A :=
  if known old then old
  else match opts with [] => old | o :: opts => kept known (match f o with Some v => v | None => old end) f opts end.
Definition known_ip (ip : Z) : bool := negb (ip =? 0).
Definition known_name (name : list Z) : bool := negb (deref name =? 0).

Record option_ok (o : opt) : Prop := {
  oo_code : 1 <= o.1 < 255;
  oo_size : (length o.2 < 256)%nat;
  oo_bytes : Forall byte o.2;
  oo_address : o.1 ∈ [1; 3; 6; 51; 54] -> (4 <= length o.2)%nat;
  oo_dns2 : o.1 = 6 -> (4 < length o.2)%nat -> (8 <= length o.2)%nat;
  oo_type : o.1 = 53 -> length o.2 = 1%nat;
  oo_file : o.1 = 67 -> cstring o.2 /\ o.2 <> []
}.

(** The type of a DHCP message. *)
Fixpoint message_type (opts : list opt) : Z :=
  match opts with [] => -1 | o :: opts => if o.1 =? 53 then deref o.2 else message_type opts end.

(** A reply: what the client reads of it, and what it does not. *)
Record reply := Reply {
  r_op : Z;
  r_hops : Z;
  r_id : Z;
  r_secs : list Z;
  r_yiaddr : Z;
  r_siaddr : Z;
  r_names : list Z;
  r_file : list Z;
  r_options : list opt
}.

Definition before_file (r : reply) : list Z :=
  [r_op r; HWT_ETHER; HWL_ETHER; r_hops r] ++ ip_bytes (r_id r) ++ r_secs r ++ ip_bytes (r_yiaddr r) ++ ip_bytes (r_siaddr r) ++ r_names r.
Definition file_field (file : list Z) : list Z := file ++ replicate (128 - length file) 0.
Definition reply_packet (r : reply) : list Z :=
  before_file r ++ file_field (r_file r) ++ [99; 130; 83; 99] ++ options_area (r_options r).

Record reply_ok (r : reply) : Prop := {
  rp_op : r_op r ∈ [OP_BOOTREPLY; DHCP_ACK; DHCP_NAK];
  rp_hops : byte (r_hops r);
  rp_id : 0 <= r_id r < 4294967296;
  rp_secs : length (r_secs r) = 8%nat /\ Forall byte (r_secs r);
  rp_yiaddr : 0 <= r_yiaddr r < 4294967296;
  rp_siaddr : 0 <= r_siaddr r < 4294967296;
  rp_names : length (r_names r) = 84%nat /\ Forall byte (r_names r);
  rp_file : cstring (r_file r) /\ (length (r_file r) < 128)%nat;
  rp_options : Forall option_ok (r_options r);
  rp_size : (length (options_area (r_options r)) <= 548)%nat
}.

(** ** Reading a packet *)

Lemma get8_drop p i j : get8 p (i + j) = get8 (drop i p) j.
Proof. unfold get8, arr_get. by rewrite lookup_drop. Qed.

Lemma get8_head p i c rest : drop i p = c :: rest -> get8 p i = Ok c.
Proof. intros E. rewrite <- (Nat.add_0_r i), get8_drop, E. done. Qed.

Lemma get8_next p i c d rest : drop i p = c :: d :: rest -> get8 p (i + 1) = Ok d.
Proof. intros E. by rewrite get8_drop, E. Qed.

Lemma NetReadIP_drop p i j : NetReadIP p (i + j) = NetReadIP (drop i p) j.
Proof. unfold NetReadIP. by rewrite <- !Nat.add_assoc, !get8_drop. Qed.

Lemma read_ip_of data rest : (4 <= length data)%nat -> NetReadIP (data ++ rest) 0 = Ok (ip_of data).
Proof. destruct data as [|a [|b [|c [|d data]]]]; cbn [length]; intros; [lia..|]. reflexivity. Qed.

Lemma ip_of_bytes x rest : 0 <= x < 4294967296 -> ip_of (ip_bytes x ++ rest) = x.
Proof. intros H. unfold ip_of, ip_bytes. cbn [app nth]. by apply ip_value. Qed.

Lemma read_ip_bytes p i x rest : 0 <= x < 4294967296 -> drop i p = ip_bytes x ++ rest -> NetReadIP p i = Ok x.
Proof.
  intros H E. rewrite <- (Nat.add_0_r i), NetReadIP_drop, E, read_ip_of by done. rewrite <- (app_nil_r (ip_bytes x)), ip_of_bytes; done.
Qed.

Lemma get_bytes_drop p i j n : get_bytes p (i + j) n = if (i <=? length p)%nat then get_bytes (drop i p) j n else get_bytes p (i + j) n.
Proof.
  destruct (Nat.leb_spec i (length p)); [|done]. unfold get_bytes. rewrite length_drop, drop_drop.
  replace (i + j + n <=? length p)%nat with (j + n <=? length p - i)%nat; [done|].
  destruct (Nat.leb_spec (j + n) (length p - i)), (Nat.leb_spec (i + j + n) (length p)); done || lia.
Qed.

Lemma get_bytes_head p i n data rest : drop i p = data ++ rest -> data <> [] -> (n <= length data)%nat -> get_bytes p i n = Ok (take n data).
Proof.
  intros E Hd Hn. pose proof (f_equal length E) as El. rewrite length_drop, length_app in El.
  rewrite <- (Nat.add_0_r i), get_bytes_drop. rewrite (proj2 (Nat.leb_le i (length p))) by (destruct data; cbn [length] in *; [done|lia]).
  rewrite E, get_bytes_ok by (rewrite length_app; lia). rewrite drop_0, take_app_le by done. done.
Qed.

(** What one option gives to read, from its place in the packet. *)
Lemma option_reads p i o rest : drop i p = option_bytes o ++ rest ->
  get8 p i = Ok o.1 /\ get8 p (i + 1) = Ok (Z.of_nat (length o.2)) /\
  (forall n, (n <= length o.2)%nat -> get_bytes p (i + 2) n = Ok (take n o.2)) /\
  ((4 <= length o.2)%nat -> NetReadIP p (i + 2) = Ok (ip_of o.2)) /\
  ((8 <= length o.2)%nat -> NetReadIP p (i + 6) = Ok (ip_of (drop 4 o.2))) /\
  drop (i + length o.2 + 2) p = rest.
Proof.
  destruct o as [c d]. cbn [fst snd]. unfold option_bytes. cbn [app fst snd]. intros E. pose proof (f_equal length E) as El. rewrite length_drop in El. cbn [length] in El. rewrite length_app in El.
  split; [by eapply get8_head|]. split; [by eapply get8_next|]. split; [|split; [|split]].
  - intros n Hn. rewrite get_bytes_drop, (proj2 (Nat.leb_le i (length p))), E by lia.
    rewrite get_bytes_ok by (cbn [length]; rewrite length_app; lia). change (drop 2 (c :: Z.of_nat (length d) :: d ++ rest)) with (d ++ rest). by rewrite take_app_le.
  - intros Hd. rewrite NetReadIP_drop, E. change (NetReadIP (c :: Z.of_nat (length d) :: d ++ rest) 2) with (NetReadIP (d ++ rest) 0). by apply read_ip_of.
  - intros Hd. rewrite NetReadIP_drop, E. change (NetReadIP (c :: Z.of_nat (length d) :: d ++ rest) 6) with (NetReadIP (d ++ rest) 4).
    destruct d as [|x0 [|x1 [|x2 [|x3 d]]]]; cbn [length] in *; [lia..|]. change (NetReadIP ((x0 :: x1 :: x2 :: x3 :: d) ++ rest) 4) with (NetReadIP (d ++ rest) 0).
    change (drop 4 (x0 :: x1 :: x2 :: x3 :: d)) with d. apply read_ip_of. lia.
  - rewrite <- Nat.add_assoc, <- drop_drop, E, (Nat.add_comm (length d)). change (drop (2 + length d) (c :: Z.of_nat (length d) :: d ++ rest)) with (drop (length d) (d ++ rest)). by rewrite drop_app_length.
Qed.

(** The file name in its field. *)
Definition field_holds (field file : list Z) : Prop := length field = 128%nat /\ cstring file /\ exists rest, field = file ++ 0 :: rest.

Lemma field_holds_file file : cstring file -> (length file < 128)%nat -> field_holds (file_field file) file.
Proof.
  intros Hc Hl. unfold file_field. split; [rewrite length_app, length_replicate; lia|]. split; [done|].
  destruct (128 - length file)%nat as [|n] eqn:E; [lia|]. by exists (replicate n 0).
Qed.

Lemma field_begin field file pre tail : field_holds field file -> length pre = bp_file -> get8 (pre ++ field ++ tail) bp_file = Ok (deref file).
Proof.
  intros (_ & _ & rest & ->) Hp. rewrite <- (Nat.add_0_r bp_file), get8_app by done. by destruct file.
Qed.

Lemma deref_zero f : cstring f -> (deref f =? 0) = bool_decide (f = []).
Proof. intros H. destruct f as [|c f]; [done|]. apply Forall_cons in H as [H _]. cbn [deref]. rewrite bool_decide_eq_false_2 by done. unfold nonzero_byte in H. apply Z.eqb_neq. lia. Qed.

(** ** What the options change *)

Lemma learned_app {A} (f : opt -> option A) l1 : forall old l2, learned (learned old f l1) f l2 = learned old f (l1 ++ l2).
Proof. induction l1 as [|o l1 IH]; intros; cbn [learned app]; [done|apply IH]. Qed.

Lemma kept_nil {A} (known : A -> bool) old f : kept known old f [] = old.
Proof. cbn. by destruct (known old). Qed.

Lemma kept_cons {A} (known : A -> bool) old f o l :
  kept known old f (o :: l) = kept known (if known old then old else match f o with Some v => v | None => old end) f l.
Proof. cbn [kept]. destruct (known old) eqn:E; [|done]. destruct l; cbn [kept]; by rewrite E. Qed.

Lemma kept_app {A} (known : A -> bool) f l1 : forall old l2, kept known (kept known old f l1) f l2 = kept known old f (l1 ++ l2).
Proof. induction l1 as [|o l1 IH]; intros; [by rewrite kept_nil|]. cbn [app]. by rewrite !kept_cons, IH. Qed.

Definition learn_addrs (opts : list opt) (a : addresses) : addresses :=
  set_NetOurGatewayIP (learned (NetOurGatewayIP a) (says 3 ip_of) opts)
    (set_NetOurSubnetMask (learned (NetOurSubnetMask a) (says 1 ip_of) opts) a).
Definition learn_client (cfg : bootp_config) (opts : list opt) (b : bootp) : bootp :=
  set_NetOurDNSIP (learned (NetOurDNSIP b) (says 6 ip_of) opts)
  (set_NetOurDNS2IP (learned (NetOurDNS2IP b) (says_dns2 cfg) opts)
  (set_NetOurHostName (learned (NetOurHostName b) (says 12 (name_of 32)) opts)
  (set_NetOurRootPath (learned (NetOurRootPath b) (says 17 (name_of 64)) opts)
  (set_dhcp_leasetime (learned (dhcp_leasetime b) (says 51 ip_of) opts)
  (set_NetDHCPServerIP (learned (NetDHCPServerIP b) (says 54 ip_of) opts) b))))).
Definition dhcp_learned (cfg : bootp_config) (opts : list opt) (s : net bootp) : net bootp :=
  set_client (learn_client cfg opts (client s)) (set_addrs (learn_addrs opts (addrs s)) s).
Definition boot_file (file : list Z) (opts : list opt) : list Z := kept known_name file (says 67 (take 127)) opts.

Lemma dhcp_learned_app cfg l1 l2 s : dhcp_learned cfg l2 (dhcp_learned cfg l1 s) = dhcp_learned cfg (l1 ++ l2) s.
Proof. unfold dhcp_learned, learn_client, learn_addrs. cbn. by rewrite !learned_app. Qed.

Lemma dhcp_learned_nil cfg s : dhcp_learned cfg [] s = s.
Proof. by destruct s as [[] ? ? ? ? ? ? ? ? []]. Qed.

Lemma truncate_name maxlen (data : list Z) : 0 < maxlen -> let n := Z.to_nat (truncate_sz maxlen (Z.of_nat (length data))) in
  (n <= length data)%nat /\ take n data = take (Z.to_nat (maxlen - 1)) data.
Proof.
  intros Hm n. unfold n, truncate_sz. destruct (Z.leb_spec maxlen (Z.of_nat (length data))); [split; [lia|done]|].
  rewrite Nat2Z.id. split; [done|]. rewrite !take_ge; done || lia.
Qed.

Lemma option_name_ok p i o rest maxlen : drop i p = option_bytes o ++ rest -> 0 < maxlen ->
  option_name p i maxlen (Z.of_nat (length o.2)) = Ok (name_of maxlen o.2).
Proof.
  intros E Hm. destruct (option_reads _ _ _ _ E) as (_ & _ & Hb & _). destruct (truncate_name maxlen o.2 Hm) as [Hn Et].
  unfold option_name. rewrite (res_bind_ok _ _ _ (Hb _ Hn)). unfold name_of. by rewrite Et.
Qed.

(** ** DHCP options *)

Section Learning.
Context (cfg : bootp_config).

(** An option that is no boot file. *)
Lemma boot_file_other file c d : c <> 67 -> boot_file file [(c, d)] = file.
Proof. intros Hc. unfold boot_file. rewrite kept_cons, kept_nil. unfold says. cbn [fst]. rewrite (proj2 (Z.eqb_neq c 67)) by done. by destruct (known_name file). Qed.

(** A boot file of the options is written over an empty one. *)
Lemma boot_file_written pre field tail file d : length pre = bp_file -> field_holds field file -> cstring d -> d <> [] ->
  let size := truncate_sz 128 (Z.of_nat (length d)) in
  exists field',
    (if (deref file =? 0) && (0 <? size) then put_bytes (pre ++ field ++ tail) bp_file (take (Z.to_nat size) d ++ [0])
     else Ok (pre ++ field ++ tail)) = Ok (pre ++ field' ++ tail) /\ field_holds field' (boot_file file [(67, d)]).
Proof.
  intros Hp Hf Hc Hd size. pose proof Hf as (Hl & Hcf & rest & Ef). unfold boot_file. rewrite kept_cons, kept_nil. unfold says. cbn [fst snd].
  change (67 =? 67) with true. cbv iota. destruct (truncate_name 128 d eq_refl) as [Hn Et]. fold size in Hn, Et.
  change (Z.to_nat (128 - 1)) with 127%nat in Et. rewrite <- Et. unfold known_name. destruct (deref file =? 0); cbn [negb andb].
  - assert (Hs : 0 < size) by (destruct d; [done|unfold size, truncate_sz; cbn [length]; destruct (Z.leb_spec 128 (Z.of_nat (S (length d)))); lia]).
    rewrite (proj2 (Z.ltb_lt 0 size)) by done. cbn [andb]. set (name := take (Z.to_nat size) d).
    assert (Hnl : length name = Z.to_nat size) by (unfold name; rewrite length_take; lia).
    assert (Hn2 : (length name < 128)%nat) by (rewrite Hnl; unfold size, truncate_sz in *; destruct (Z.leb_spec 128 (Z.of_nat (length d))); lia).
    exists (name ++ 0 :: drop (length name + 1) field). split.
    + rewrite put_bytes_ok by (rewrite !length_app, Hp, Hl; cbn [length]; lia). f_equal. rewrite take_app_length' by done. f_equal.
      rewrite (app_assoc pre), drop_app_le by (rewrite !length_app, Hp, Hl; cbn [length]; lia).
      rewrite drop_app_ge by (rewrite Hp; lia). rewrite Hp, length_app. cbn [length]. replace (bp_file + (length name + 1) - bp_file)%nat with (length name + 1)%nat by lia.
      by rewrite <- !app_assoc.
    + assert (Hcn : cstring name) by (by apply Forall_take). split; [|split; [done|by eexists]].
      rewrite length_app. cbn [length]. rewrite length_drop, Hl. lia.
  - by exists field.
Qed.

(** The packet is in three pieces: before the file name, its field, the rest. *)
Lemma dhcp_option_ok pre field tail file i o rest s :
  length pre = bp_file -> field_holds field file -> option_ok o -> drop i (pre ++ field ++ tail) = option_bytes o ++ rest ->
  exists field', dhcp_option cfg (pre ++ field ++ tail) i o.1 (Z.of_nat (length o.2)) s = Ok (pre ++ field' ++ tail, dhcp_learned cfg [o] s) /\
    field_holds field' (boot_file file [o]).
Proof.
  intros Hp Hf Ho E. destruct (option_reads _ _ _ _ E) as (_ & _ & Hb & H4 & H8 & _).
  pose proof (fun m => option_name_ok _ _ _ _ m E) as Hname. pose proof (field_begin _ _ _ tail Hf Hp) as H0.
  destruct o as [c d]. cbn [fst snd] in *. pose proof (oo_address _ Ho) as Ha. pose proof (oo_dns2 _ Ho) as Hd2. pose proof (oo_file _ Ho) as Hff. cbn [fst snd] in Ha, Hd2, Hff.
  assert (He : dhcp_learned cfg [(c, d)] s = dhcp_learned cfg [(c, d)] s) by done. revert He. destruct s as [[] ? ? ? ? ? ? ? ? []]. intros _.
  unfold dhcp_option.
  destruct (Z.eqb_spec c 1) as [->|N1]; [rewrite H4 by (apply Ha, (bool_decide_unpack _); exact I); exists field; by rewrite boot_file_other|].
  destruct (Z.eqb_spec c 3) as [->|N3]; [rewrite H4 by (apply Ha, (bool_decide_unpack _); exact I); exists field; by rewrite boot_file_other|].
  destruct (Z.eqb_spec c 6) as [->|N6].
  { rewrite H4 by (apply Ha, (bool_decide_unpack _); exact I). exists field. rewrite boot_file_other by done. split; [|done].
    unfold dhcp_learned, learn_client, learned, says_dns2. cbn [fst snd]. change (6 =? 6) with true. cbn [andb].
    destruct (CONFIG_BOOTP_DNS2 cfg); cbn [andb]; [|done]. destruct (Z.ltb_spec 4 (Z.of_nat (length d))); [|done]. by rewrite H8 by (apply Hd2; lia). }
  destruct (Z.eqb_spec c 12) as [->|N12]; [rewrite Hname by done; exists field; by rewrite boot_file_other|].
  destruct (Z.eqb_spec c 17) as [->|N17]; [rewrite Hname by done; exists field; by rewrite boot_file_other|].
  destruct (Z.eqb_spec c 51) as [->|N51]; [rewrite H4 by (apply Ha, (bool_decide_unpack _); exact I); exists field; by rewrite boot_file_other|].
  destruct (Z.eqb_spec c 54) as [->|N54]; [rewrite H4 by (apply Ha, (bool_decide_unpack _); exact I); exists field; by rewrite boot_file_other|].
  match goal with |- context [Ok (_, dhcp_learned cfg [(c, d)] ?s0)] => assert (Hn : dhcp_learned cfg [(c, d)] s0 = s0) end.
  { unfold dhcp_learned, learn_addrs, learn_client, learned, says, says_dns2. cbn [fst snd].
    do 7 (rewrite (proj2 (Z.eqb_neq _ _)) by eassumption). reflexivity. }
  rewrite Hn. destruct (Z.eqb_spec c 67) as [->|N67]; [|exists field; by rewrite boot_file_other].
  destruct (Hff eq_refl) as [Hc Hd]. destruct (boot_file_written pre field tail file d Hp Hf Hc Hd) as (field' & Ew & Hf'). cbv zeta in Ew.
  exists field'. split; [|done]. cbv zeta. rewrite (bind_ok (lift _) _ _ _ _ (f_equal (fun r => lift r _) H0)). revert Ew.
  destruct (truncate_name 128 d eq_refl) as [Hn128 _]. destruct ((deref file =? 0) && _); intros Ew; [|by injection Ew as ->].
  rewrite (bind_ok (lift _) _ _ _ _ (f_equal (fun r => lift r _) (Hb _ Hn128))). by rewrite Ew.
Qed.

Lemma boot_file_app f l1 l2 : boot_file (boot_file f l1) l2 = boot_file f (l1 ++ l2).
Proof. apply kept_app. Qed.

Lemma options_area_cons o opts : options_area (o :: opts) = option_bytes o ++ options_area opts.
Proof. unfold options_area. cbn [flat_map]. by rewrite <- app_assoc. Qed.

(** All of them. *)
Lemma options_loop_ok pre tail last : length pre = bp_file -> forall opts fuel field file i rest s,
  field_holds field file -> Forall option_ok opts -> (bp_vend <= i)%nat -> drop i (pre ++ field ++ tail) = options_area opts ++ rest ->
  Z.of_nat (i + length (options_area opts)) <= last -> (length opts < fuel)%nat ->
  exists field', options_loop cfg fuel (pre ++ field ++ tail) i last s = Ok (pre ++ field' ++ tail, dhcp_learned cfg opts s) /\
    field_holds field' (boot_file file opts).
Proof.
  intros Hp. induction opts as [|o opts IH]; intros fuel field file i rest s Hf Ho Hi E Hl Hfu; (destruct fuel as [|fuel]; [lia|]); cbn [options_loop].
  - cbn in Hl. rewrite (proj2 (Z.ltb_lt _ _)) by lia. rewrite (get8_head _ _ _ _ E). exists field. split; [|unfold boot_file; by rewrite kept_nil].
    by rewrite dhcp_learned_nil.
  - apply Forall_cons in Ho as [Ho Hos]. rewrite options_area_cons in E, Hl. rewrite <- app_assoc in E. rewrite length_app in Hl.
    change (length (option_bytes o)) with (S (S (length o.2))) in Hl.
    destruct (option_reads _ _ _ _ E) as (G0 & G1 & _ & _ & _ & Er).
    destruct (dhcp_option_ok pre field tail file i o _ s Hp Hf Ho E) as (field1 & E1 & Hf1).
    rewrite (proj2 (Z.ltb_lt _ _)) by lia. rewrite (bind_ok (lift _) _ _ _ _ (f_equal (fun r => lift r s) G0)).
    rewrite (proj2 (Z.eqb_neq o.1 255)) by (pose proof (oo_code _ Ho); lia). rewrite (bind_ok (lift _) _ _ _ _ (f_equal (fun r => lift r s) G1)).
    rewrite (bind_ok _ _ _ _ _ E1). rewrite Nat2Z.id.
    destruct (IH fuel field1 (boot_file file [o]) (i + length o.2 + 2)%nat rest (dhcp_learned cfg [o] s)) as (field2 & E2 & Hf2); [done|done|lia| |lia|cbn [length] in *; lia|].
    + rewrite <- Er. assert (Hlen : (length (pre ++ field) <= i + length o.2 + 2)%nat) by (rewrite length_app, Hp, (proj1 Hf); unfold bp_vend, bp_file in *; lia).
      assert (Hlen1 : length field1 = length field) by (by rewrite (proj1 Hf), (proj1 Hf1)).
      rewrite !app_assoc. rewrite !drop_app_ge by (rewrite ?length_app, ?Hlen1 in *; lia). by rewrite !length_app, Hlen1.
    + exists field2. rewrite E2, dhcp_learned_app, boot_file_app in *. done.
Qed.
End Learning.

(** ** A reply in its buffer *)

(** With what the field of the file name holds by now. *)
Definition in_buffer (r : reply) (field junk : list Z) : list Z :=
  before_file r ++ field ++ [99; 130; 83; 99] ++ options_area (r_options r) ++ junk.

Lemma reply_in_buffer r junk : reply_packet r ++ junk = in_buffer r (file_field (r_file r)) junk.
Proof. unfold reply_packet, in_buffer. by rewrite <- !app_assoc. Qed.

Section Reply.
Context (r : reply) (W : reply_ok r).

Lemma before_file_length : length (before_file r) = bp_file.
Proof. unfold before_file. rewrite !length_app, (proj1 (rp_secs _ W)), (proj1 (rp_names _ W)). done. Qed.

Lemma in_buffer_at (i : nat) (l : list Z) field junk : (exists pre post, before_file r = pre ++ l ++ post /\ length pre = i) ->
  exists rest, drop i (in_buffer r field junk) = l ++ rest.
Proof. intros (pre & post & E & Hl). unfold in_buffer. rewrite E, <- !app_assoc. rewrite drop_app_length' by done. by eexists. Qed.

Lemma at_yiaddr field junk : exists rest, drop bp_yiaddr (in_buffer r field junk) = ip_bytes (r_yiaddr r) ++ rest.
Proof.
  apply in_buffer_at. exists ([r_op r; HWT_ETHER; HWL_ETHER; r_hops r] ++ ip_bytes (r_id r) ++ r_secs r), (ip_bytes (r_siaddr r) ++ r_names r).
  split; [by unfold before_file; rewrite <- ?app_assoc|]. rewrite !length_app, (proj1 (rp_secs _ W)). done.
Qed.

Lemma at_siaddr field junk : exists rest, drop bp_siaddr (in_buffer r field junk) = ip_bytes (r_siaddr r) ++ rest.
Proof.
  apply in_buffer_at. exists ([r_op r; HWT_ETHER; HWL_ETHER; r_hops r] ++ ip_bytes (r_id r) ++ r_secs r ++ ip_bytes (r_yiaddr r)), (r_names r).
  split; [by unfold before_file; rewrite <- ?app_assoc|]. rewrite !length_app, (proj1 (rp_secs _ W)). done.
Qed.

Lemma at_id field junk : exists rest, drop bp_id (in_buffer r field junk) = ip_bytes (r_id r) ++ rest.
Proof.
  apply in_buffer_at. exists [r_op r; HWT_ETHER; HWL_ETHER; r_hops r], (r_secs r ++ ip_bytes (r_yiaddr r) ++ ip_bytes (r_siaddr r) ++ r_names r).
  split; [by unfold before_file; rewrite <- ?app_assoc|]. done.
Qed.

Lemma read_yiaddr field junk : NetReadIP (in_buffer r field junk) bp_yiaddr = Ok (r_yiaddr r).
Proof. destruct (at_yiaddr field junk) as (rest & E). eapply read_ip_bytes; [apply W|exact E]. Qed.

Lemma read_siaddr field junk : NetReadIP (in_buffer r field junk) bp_siaddr = Ok (r_siaddr r).
Proof. destruct (at_siaddr field junk) as (rest & E). eapply read_ip_bytes; [apply W|exact E]. Qed.

Lemma read_id field junk : NetReadIP (in_buffer r field junk) bp_id = Ok (r_id r).
Proof. destruct (at_id field junk) as (rest & E). eapply read_ip_bytes; [apply W|exact E]. Qed.

Lemma reply_checked field junk len : Z.of_nat bp_vend <= len -> BootpCheckPkt (r_id r) (in_buffer r field junk) PORT_BOOTPC PORT_BOOTPS len = Ok 0.
Proof.
  intros Hl. unfold BootpCheckPkt. change (negb (PORT_BOOTPC =? PORT_BOOTPC) || negb (PORT_BOOTPS =? PORT_BOOTPS)) with false. cbv iota.
  rewrite (proj2 (Z.ltb_ge len _)) by lia. change (get8 (in_buffer r field junk) 0) with (Ok (r_op r)).
  change (get8 (in_buffer r field junk) 1) with (Ok HWT_ETHER). change (get8 (in_buffer r field junk) 2) with (Ok HWL_ETHER).
  rewrite read_id. unfold mbind, res_bind. rewrite (Z.eqb_refl (r_id r)). pose proof (rp_op _ W) as Ho.
  rewrite !elem_of_cons, elem_of_nil in Ho. destruct Ho as [->|[->|[->|[]]]]; reflexivity.
Qed.

Lemma vend_at field junk : length field = 128%nat -> drop bp_vend (in_buffer r field junk) = [99; 130; 83; 99] ++ options_area (r_options r) ++ junk.
Proof.
  intros Hf. unfold in_buffer. rewrite (app_assoc (before_file r)). apply drop_app_length'. rewrite length_app, before_file_length, Hf. done.
Qed.

Lemma options_at field junk : length field = 128%nat -> drop (bp_vend + 4) (in_buffer r field junk) = options_area (r_options r) ++ junk.
Proof. intros Hf. by rewrite <- drop_drop, vend_at. Qed.

Lemma magic_there field junk : length field = 128%nat -> vendor_magic (in_buffer r field junk) = Ok true.
Proof.
  intros Hf. unfold vendor_magic. rewrite <- (Nat.add_0_r bp_vend), NetReadIP_drop, vend_at by done.
  rewrite (read_ip_of [99; 130; 83; 99]) by done. reflexivity.
Qed.

Lemma str_of_app f rest : cstring f -> str_of (f ++ 0 :: rest) = Ok f.
Proof.
  induction f as [|c f IH]; intros H; [done|]. apply Forall_cons in H as [Hc H]. cbn [app str_of]. unfold nonzero_byte in Hc.
  rewrite (proj2 (Z.eqb_neq c 0)) by lia. by rewrite (IH H).
Qed.

Lemma file_there field file junk : field_holds field file -> str_of (drop bp_file (in_buffer r field junk)) = Ok file.
Proof.
  intros (_ & Hc & rest & ->). unfold in_buffer. rewrite drop_app_length' by (symmetry; apply before_file_length). rewrite <- app_assoc. by apply str_of_app.
Qed.

Lemma message_type_at p : forall opts i rest fuel, Forall option_ok opts -> drop i p = options_area opts ++ rest -> (length opts < fuel)%nat ->
  message_type_loop fuel p i = Ok (message_type opts).
Proof.
  induction opts as [|o opts IH]; intros i rest fuel Ho E Hf; (destruct fuel as [|fuel]; [lia|]); cbn [message_type_loop message_type].
  - by rewrite (get8_head _ _ _ _ E).
  - apply Forall_cons in Ho as [Ho Hos]. rewrite options_area_cons, <- app_assoc in E. destruct (option_reads _ _ _ _ E) as (G0 & G1 & _ & _ & _ & Er).
    rewrite (res_bind_ok _ _ _ G0). rewrite (proj2 (Z.eqb_neq o.1 255)) by (pose proof (oo_code _ Ho); lia). destruct (Z.eqb_spec o.1 53) as [H53|].
    + pose proof (oo_type _ Ho H53) as Ht. rewrite get8_drop, E. destruct o as [c [|t [|]]]; done.
    + rewrite (res_bind_ok _ _ _ G1), Nat2Z.id. eapply IH; [done|exact Er|cbn [length] in Hf; lia].
Qed.

Lemma options_fit (opts : list opt) : (length opts < length (options_area opts))%nat.
Proof. induction opts as [|o opts IH]; [cbn; lia|]. rewrite options_area_cons, length_app. cbn [length]. change (length (option_bytes o)) with (S (S (length o.2))). lia. Qed.

Lemma type_of_reply field junk : length field = 128%nat -> DhcpMessageType (in_buffer r field junk) = Ok (message_type (r_options r)).
Proof.
  intros Hf. unfold DhcpMessageType. rewrite (res_bind_ok _ _ _ (magic_there field junk Hf)). cbn [negb].
  eapply message_type_at; [apply W|by apply options_at|]. pose proof (options_fit (r_options r)).
  unfold in_buffer. rewrite !length_app. lia.
Qed.

(** The options of a reply, for the DHCP client. *)
Lemma vendor_options_ok cfg junk s : CONFIG_CMD_DHCP cfg = true ->
  exists field, vendor_options cfg (reply_packet r ++ junk) s = Ok (in_buffer r field junk, dhcp_learned cfg (r_options r) s) /\
    field_holds field (boot_file (r_file r) (r_options r)).
Proof.
  intros Hc. rewrite reply_in_buffer. set (f0 := file_field (r_file r)).
  pose proof (field_holds_file _ (proj1 (rp_file _ W)) (proj2 (rp_file _ W))) as Hf. fold f0 in Hf.
  unfold vendor_options. rewrite (bind_ok (lift _) _ _ _ _ (f_equal (fun x => lift x s) (magic_there f0 junk (proj1 Hf)))).
  unfold DhcpOptionsProcess. pose proof (options_fit (r_options r)) as Hn. pose proof (rp_size _ W) as Hs.
  destruct (options_loop_ok cfg (before_file r) ([99; 130; 83; 99] ++ options_area (r_options r) ++ junk) (Z.of_nat (bp_vend + 4) + BOOTP_HDR_SIZE cfg)
    before_file_length (r_options r) (length (in_buffer r f0 junk)) f0 (r_file r) (bp_vend + 4) junk s) as (field & E & Hf').
  - done.
  - apply W.
  - lia.
  - by apply options_at, Hf.
  - unfold BOOTP_HDR_SIZE, OPT_SIZE. rewrite Hc. unfold bp_vend in *. lia.
  - unfold in_buffer. rewrite !length_app. lia.
  - exists field. split; [exact E|done].
Qed.
End Reply.

(** ** Sending a request *)

Lemma put_two (p : list Z) i a b : (i + length a + length b <= length p)%nat ->
  (p1 ← put_bytes p i a; put_bytes p1 (i + length a) b) = put_bytes p i (a ++ b).
Proof.
  intros H. rewrite put_bytes_ok by lia. unfold mbind, res_bind. rewrite put_bytes_ok by (rewrite put_length; lia).
  rewrite put_bytes_ok by (rewrite length_app; lia). f_equal. rewrite drop_put by lia.
  rewrite (app_assoc (take i p)), take_app_length' by (rewrite length_app, length_take; lia).
  by rewrite <- !app_assoc, length_app, Nat.add_assoc.
Qed.

Lemma put_swap (p : list Z) i a j b : (i + length a <= j)%nat -> (j + length b <= length p)%nat ->
  (p1 ← put_bytes p i a; put_bytes p1 j b) = (p1 ← put_bytes p j b; put_bytes p1 i a).
Proof.
  intros H1 H2. rewrite (put_bytes_ok p i), (put_bytes_ok p j) by lia. unfold mbind, res_bind. rewrite !put_bytes_ok by (rewrite put_length; lia).
  f_equal. rewrite drop_put by lia. rewrite (take_app_le _ _ i) by (rewrite length_take; lia). rewrite take_take, Nat.min_l by lia.
  rewrite (drop_app_le _ _ (i + length a)) by (rewrite length_take; lia).
  rewrite (app_assoc (take i p)), take_app, take_ge by (rewrite length_app, length_take; lia).
  rewrite length_app, length_take, Nat.min_l by lia. rewrite <- !app_assoc. do 3 f_equal.
  by rewrite skipn_firstn_comm.
Qed.

Lemma put_bytes_length (p : list Z) i b q : put_bytes p i b = Ok q -> length q = length p.
Proof. unfold put_bytes. destruct (Nat.leb_spec (i + length b) (length p)); [|done]. intros E. injection E as <-. by apply put_length. Qed.

Section Broadcast.
Context (s : net bootp) (W : net_ok s).

Lemma broadcast_ok header ext : (42 + length (header ++ ext) < PKTSIZE_ALIGN)%nat ->
  exists tx, length tx = PKTSIZE_ALIGN /\
    broadcast header ext s = Ok (tt, sent_udp s NetBcastAddr 0xFFFFFFFF PORT_BOOTPS PORT_BOOTPC (header ++ ext) tx).
Proof.
  intros Hl. set (payload := header ++ ext) in *. unfold broadcast. rewrite (bind_ok _ _ _ _ _ (eq_refl : get s = Ok (s, s))). cbv zeta.
  set (tx0 := replicate PKTSIZE 0 ++ drop PKTSIZE (NetTxPacket s)).
  assert (H0 : length tx0 = PKTSIZE_ALIGN).
  { unfold tx0. rewrite length_app, length_replicate, length_drop, (ok_tx _ W). done. }
  set (eh := ether_header (addrs s) NetBcastAddr PROT_IP). assert (He : length eh = 14%nat) by (apply ether_length; [apply W|done]).
  set (tx1 := take 42 tx0 ++ payload ++ drop (42 + length payload) tx0). assert (E1 : put_bytes tx0 42 payload = Ok tx1) by (apply put_bytes_ok; lia).
  assert (H1 : length tx1 = PKTSIZE_ALIGN) by (unfold tx1; rewrite put_length; lia).
  destruct (headers_written (addrs s) (NetIPID s) tx1 NetBcastAddr 0xFFFFFFFF PORT_BOOTPS PORT_BOOTPC (length payload) (ok_addrs _ W) eq_refl H1 Hl)
    as (pkt1 & pkt2 & F1 & F2 & L2 & T2 & D2).
  unfold NetSetEther in F1. fold eh in F1. rewrite He in F1.
  assert (G1 : (p1 ← put_bytes tx0 0 eh; put_bytes p1 42 payload) = Ok pkt1).
  { rewrite put_swap by (rewrite ?He; lia). rewrite E1. unfold mbind, res_bind in F1 |- *. destruct (put_bytes tx1 0 eh); [by injection F1 as ->|done..]. }
  unfold NetSetEther. fold eh. destruct (put_bytes tx0 0 eh) as [p0| |] eqn:E0; [|done..].
  unfold mbind at 1, res_bind at 1 in G1. rewrite (bind_ok (lift _) _ s (p0, 14%nat) s) by (unfold mbind, res_bind; by rewrite He).
  change (14 + Z.to_nat IP_HDR_SIZE)%nat with 42%nat.
  assert (Hp0 : length p0 = PKTSIZE_ALIGN) by (by rewrite (put_bytes_length _ _ _ _ E0)).
  unfold payload in G1. rewrite <- put_two in G1 by (unfold payload in Hl; rewrite length_app in Hl; lia).
  destruct (put_bytes p0 42 header) as [p1| |] eqn:E2; [|done..]. unfold mbind at 1, res_bind at 1 in G1.
  rewrite (bind_ok (lift _) _ s p1 s) by done. rewrite (bind_ok (lift _) _ s pkt1 s) by (by rewrite G1).
  set (s1 := set_ipid (u32 (NetIPID s + 1)) s). rewrite (bind_ok _ _ s (NetIPID s) s1) by done.
  replace (Z.of_nat (length header) + Z.of_nat (length ext)) with (Z.of_nat (length payload)) by (unfold payload; rewrite length_app; lia).
  rewrite (bind_ok (lift _) _ s1 pkt2 s1) by (by rewrite F2).
  rewrite (bind_ok _ _ s1 tt (set_tx pkt2 s1)) by done.
  exists pkt2. split; [done|]. rewrite eth_send_ok; [|apply W|rewrite L2; lia].
  unfold sent_udp. do 3 f_equal. cbn [sent set_tx set_ipid s1]. do 2 f_equal.
  replace (Z.to_nat (Z.of_nat 42 + Z.of_nat (length payload))) with (42 + length payload)%nat by lia.
  unfold udp_frame. rewrite app_assoc, <- T2. rewrite <- take_take_drop, D2. f_equal.
  unfold tx1. rewrite drop_app_ge by (rewrite length_take; lia). rewrite length_take, Nat.min_l by lia. rewrite Nat.sub_diag, drop_0. by apply take_app_length'.
Qed.
End Broadcast.

(** ** What the server reads *)

Fixpoint parse_options (fuel : nat) (p : list Z) : option (list opt) :=
  match fuel, p with
  | S fuel, c :: p =>
      if c =? 255 then Some []
      else if c =? 0 then parse_options fuel p
      else
        match p with
        | n :: p => if (Z.to_nat n <=? length p)%nat then cons (c, take (Z.to_nat n) p) <$> parse_options fuel (drop (Z.to_nat n) p) else None
        | [] => None
        end
  | _, _ => None
  end.

Record request := Request { q_id : Z; q_mac : list Z; q_file : list Z; q_options : list opt }.

Definition read_request (p : list Z) : option request :=
  if bool_decide (take 3 p = [OP_BOOTREQUEST; HWT_ETHER; HWL_ETHER]) && bool_decide (take 4 (drop bp_vend p) = [99; 130; 83; 99]) then
    Request (ip_of (drop bp_id p)) (take 6 (drop 28 p)) (until_nul (take 128 (drop bp_file p))) <$> parse_options (length p) (drop (bp_vend + 4) p)
  else None.

(** The options of a request. *)
Definition dhcp_options (c : bootp_config) (e : environment) (type server ip : Z) : list opt :=
  let size := 576 - 312 + OPT_SIZE c in
  [(53, [type]); (57, [u8 (Z.shiftr size 8); Z.land size 0xff])] ++
  (if negb (server =? 0) then [(54, ip_bytes server)] else []) ++
  (if negb (ip =? 0) then [(50, ip_bytes ip)] else []) ++
  match var e (zs "hostname") with Some h => if CONFIG_BOOTP_SEND_HOSTNAME c then [(12, h)] else [] | None => [] end ++
  [(55, parameter_list c)].
Definition bootp_options (c : bootp_config) : list opt :=
  let field b code n := if (b : bool) then [(code, replicate n 0)] else [] in
  field (CONFIG_BOOTP_SUBNETMASK c) 1 4%nat ++ field (CONFIG_BOOTP_GATEWAY c) 3 4%nat ++ field (CONFIG_BOOTP_DNS c) 6 4%nat ++
  field (CONFIG_BOOTP_HOSTNAME c) 12 32%nat ++ field (CONFIG_BOOTP_BOOTFILESIZE c) 13 2%nat ++ field (CONFIG_BOOTP_BOOTPATH c) 17 32%nat ++
  field (CONFIG_BOOTP_NISDOMAIN c) 40 32%nat.

(** A host name that is sent fits an option. *)
Definition hostname_fits (c : bootp_config) (e : environment) : Prop :=
  match var e (zs "hostname") with Some h => CONFIG_CMD_DHCP c && CONFIG_BOOTP_SEND_HOSTNAME c = true -> (length h < 256)%nat | None => True end.

Lemma parse_area rest : forall opts fuel, Forall (fun o : opt => 1 <= o.1 < 255) opts -> (length opts < fuel)%nat ->
  parse_options fuel (options_area opts ++ rest) = Some opts.
Proof.
  induction opts as [|[c d] opts IH]; intros fuel Ho Hf; (destruct fuel as [|fuel]; [lia|]); [done|].
  apply Forall_cons in Ho as [Ho Hos]. rewrite options_area_cons, <- app_assoc. unfold option_bytes. cbn [app parse_options fst snd] in *.
  rewrite (proj2 (Z.eqb_neq c 255)), (proj2 (Z.eqb_neq c 0)) by lia. rewrite Nat2Z.id, length_app.
  rewrite (proj2 (Nat.leb_le _ _)) by lia. rewrite take_app_length, drop_app_length, IH; [done|done|cbn [length] in Hf; lia].
Qed.

Lemma parameter_list_length c : (length (parameter_list c) <= 9)%nat.
Proof.
  assert (W : forall b x, (length (when b [x]) <= 1)%nat) by (by intros []; cbn; lia).
  unfold parameter_list. rewrite !length_app.
  pose proof (W (CONFIG_BOOTP_SUBNETMASK c) 1). pose proof (W (CONFIG_BOOTP_TIMEOFFSET c) 2). pose proof (W (CONFIG_BOOTP_GATEWAY c) 3).
  pose proof (W (CONFIG_BOOTP_DNS c) 6). pose proof (W (CONFIG_BOOTP_HOSTNAME c) 12). pose proof (W (CONFIG_BOOTP_BOOTFILESIZE c) 13).
  pose proof (W (CONFIG_BOOTP_BOOTPATH c) 17). pose proof (W (CONFIG_BOOTP_NISDOMAIN c) 40). pose proof (W (CONFIG_BOOTP_NTPSERVER c) 42). lia.
Qed.

Lemma flat_if {A B} (b : bool) (f : A -> list B) l : flat_map f (if b then l else []) = if b then flat_map f l else [].
Proof. by destruct b. Qed.

Lemma DhcpExtended_options c e type server ip : CONFIG_CMD_DHCP c = true -> hostname_fits c e -> exists n,
  DhcpExtended c e type server ip = [99; 130; 83; 99] ++ options_area (dhcp_options c e type server ip) ++ replicate n 0 /\ (n <= 65)%nat.
Proof.
  intros Hc Hh. unfold DhcpExtended. cbv zeta. set (ext := [99; 130; 83; 99] ++ [53; 1; type] ++ _). exists (Z.to_nat (CONFIG_DHCP_MIN_EXT_LEN + 1) - length ext)%nat.
  split; [|unfold CONFIG_DHCP_MIN_EXT_LEN; lia]. rewrite app_assoc. f_equal.
  assert (Eh : flat_map option_bytes (match var e (zs "hostname") with Some h => if CONFIG_BOOTP_SEND_HOSTNAME c then [(12, h)] else [] | None => [] end) =
    match var e (zs "hostname") with Some h => when (CONFIG_BOOTP_SEND_HOSTNAME c) ([12; u8 (Z.of_nat (length h))] ++ h) | None => [] end).
  { unfold hostname_fits in Hh. rewrite Hc in Hh. destruct (var e (zs "hostname")) as [h|]; [|done]. destruct (CONFIG_BOOTP_SEND_HOSTNAME c); [|done]. specialize (Hh eq_refl).
    cbn [flat_map when]. rewrite app_nil_r, u8_small by lia. done. }
  unfold ext, options_area, dhcp_options. cbv zeta. rewrite !flat_map_app, Eh, !flat_if. rewrite <- !app_assoc.
  cbn [flat_map]. rewrite !app_nil_r. reflexivity.
Qed.

(** Options of at most a given size. *)
Lemma options_area_length opts n : Forall (fun o : opt => length o.2 <= n)%nat opts -> (length (options_area opts) <= length opts * (n + 2) + 1)%nat.
Proof.
  induction opts as [|o opts IH]; intros H; [cbn; lia|]. apply Forall_cons in H as [Ho H]. rewrite options_area_cons, length_app. specialize (IH H).
  cbn [length]. change (length (option_bytes o)) with (S (S (length o.2))). lia.
Qed.

Lemma dhcp_options_ok c e type server ip : CONFIG_CMD_DHCP c = true -> hostname_fits c e ->
  Forall (fun o : opt => 1 <= o.1 < 255) (dhcp_options c e type server ip) /\ (length (options_area (dhcp_options c e type server ip)) <= 400)%nat.
Proof.
  intros Hc Hh. unfold hostname_fits in Hh. rewrite Hc in Hh. pose proof (parameter_list_length c) as Hp. unfold dhcp_options. cbv zeta.
  generalize (u8 (Z.shiftr (576 - 312 + OPT_SIZE c) 8)), (Z.land (576 - 312 + OPT_SIZE c) 255). intros x y.
  assert (Hl : (length (parameter_list c) <= 255)%nat) by lia.
  split.
  - destruct (negb (server =? 0)), (negb (ip =? 0)), (var e (zs "hostname")); try destruct (CONFIG_BOOTP_SEND_HOSTNAME c); try specialize (Hh eq_refl); repeat (constructor; [cbn; lia|]); constructor.
  - destruct (negb (server =? 0)), (negb (ip =? 0)), (var e (zs "hostname")); try destruct (CONFIG_BOOTP_SEND_HOSTNAME c);
      try specialize (Hh eq_refl); unfold options_area, option_bytes, ip_bytes; cbn [flat_map app fst snd]; rewrite ?app_nil_r; repeat (cbn [length]; rewrite ?length_app); lia.
Qed.

Lemma BootpExtended_options c : BootpExtended c = [99; 130; 83; 99] ++ options_area (bootp_options c) ++ [].
Proof. unfold BootpExtended, options_area, bootp_options. cbv zeta. rewrite !flat_map_app, !flat_if, <- !app_assoc. reflexivity. Qed.

Lemma bootp_options_ok c : Forall (fun o : opt => 1 <= o.1 < 255) (bootp_options c) /\ (length (options_area (bootp_options c)) <= 400)%nat.
Proof.
  assert (K : forall (b : bool) x n, 1 <= x < 255 -> (n <= 32)%nat ->
    Forall (fun o : opt => 1 <= o.1 < 255 /\ (length o.2 <= 32)%nat) (if b then [(x, replicate n 0)] else []) /\ (length (if b then [(x, replicate n 0%Z)] else []) <= 1)%nat).
  { intros [] x n Hx Hn; (split; [|cbn; lia]); [|done]. apply Forall_singleton. cbn [fst snd]. by rewrite length_replicate. }
  unfold bootp_options. cbv beta zeta.
  destruct (K (CONFIG_BOOTP_SUBNETMASK c) 1 4%nat) as [K1 L1]; [lia..|]. destruct (K (CONFIG_BOOTP_GATEWAY c) 3 4%nat) as [K2 L2]; [lia..|].
  destruct (K (CONFIG_BOOTP_DNS c) 6 4%nat) as [K3 L3]; [lia..|]. destruct (K (CONFIG_BOOTP_HOSTNAME c) 12 32%nat) as [K4 L4]; [lia..|].
  destruct (K (CONFIG_BOOTP_BOOTFILESIZE c) 13 2%nat) as [K5 L5]; [lia..|]. destruct (K (CONFIG_BOOTP_BOOTPATH c) 17 32%nat) as [K6 L6]; [lia..|].
  destruct (K (CONFIG_BOOTP_NISDOMAIN c) 40 32%nat) as [K7 L7]; [lia..|]. match goal with |- Forall _ ?l /\ _ => set (l0 := l) end.
  assert (H : Forall (fun o : opt => 1 <= o.1 < 255 /\ (length o.2 <= 32)%nat) l0) by (unfold l0; rewrite !Forall_app; by split_and!).
  assert (Hn : (length l0 <= 7)%nat) by (unfold l0; rewrite !length_app; lia).
  split; [eapply Forall_impl; [exact H|by intros o []]|]. pose proof (options_area_length l0 32) as Ha.
  assert (H2 : Forall (fun o : opt => length o.2 <= 32)%nat l0) by (eapply Forall_impl; [exact H|by intros o []]). specialize (Ha H2). lia.
Qed.

Lemma until_nul_zeros f n : until_nul (f ++ replicate n 0) = until_nul f.
Proof. induction f as [|c f IH]; [by destruct n|]. cbn [app until_nul]. by rewrite IH. Qed.

Lemma request_header_length id secs mac file : length mac = 6%nat -> (length file < 128)%nat -> length (request_header id secs mac file) = bp_vend.
Proof. intros Hm Hf. unfold request_header. rewrite !length_app, !length_replicate, Hm. cbn. unfold bp_vend. lia. Qed.

(** What is sent, as the server reads it. *)
Lemma request_read id secs mac file opts n : 0 <= id < 4294967296 -> length mac = 6%nat -> (length file < 128)%nat ->
  Forall (fun o : opt => 1 <= o.1 < 255) opts ->
  read_request (request_header id secs mac file ++ [99; 130; 83; 99] ++ options_area opts ++ replicate n 0) = Some (Request id mac (until_nul file) opts).
Proof.
  intros Hid Hm Hf Ho. set (tail := [99; 130; 83; 99] ++ options_area opts ++ replicate n 0). set (p := request_header id secs mac file ++ tail).
  assert (Ev : drop bp_vend p = tail) by (apply drop_app_length'; symmetry; by apply request_header_length).
  assert (Eo : drop (bp_vend + 4) p = options_area opts ++ replicate n 0) by (by rewrite <- drop_drop, Ev).
  unfold read_request. rewrite Ev, Eo. rewrite bool_decide_eq_true_2 by done. rewrite bool_decide_eq_true_2 by done. cbn [andb].
  rewrite parse_area; [|done|].
  2: { pose proof (options_fit opts). unfold p. rewrite length_app. unfold tail. rewrite !length_app. lia. }
  cbn [fmap option_fmap option_map]. do 2 f_equal.
  - assert (E : p = [OP_BOOTREQUEST; HWT_ETHER; HWL_ETHER; 0] ++ ip_bytes id ++ (be16 secs ++ replicate 18 0 ++ mac ++ replicate 10 0 ++ replicate 64 0 ++ file ++ replicate (128 - length file) 0 ++ tail))
      by (unfold p, request_header; by rewrite <- !app_assoc).
    rewrite E, drop_app_length' by done. by apply ip_of_bytes.
  - assert (E : p = ([OP_BOOTREQUEST; HWT_ETHER; HWL_ETHER; 0] ++ ip_bytes id ++ be16 secs ++ replicate 18 0) ++ mac ++ (replicate 10 0 ++ replicate 64 0 ++ file ++ replicate (128 - length file) 0 ++ tail))
      by (unfold p, request_header; by rewrite <- !app_assoc).
    rewrite E, drop_app_length' by done. by apply take_app_length'.
  - assert (E : p = ([OP_BOOTREQUEST; HWT_ETHER; HWL_ETHER; 0] ++ ip_bytes id ++ be16 secs ++ replicate 18 0 ++ mac ++ replicate 10 0 ++ replicate 64 0) ++ (file ++ replicate (128 - length file) 0) ++ tail)
      by (unfold p, request_header; by rewrite <- !app_assoc).
    rewrite E, drop_app_length' by (rewrite !length_app, !length_replicate, Hm; done).
    rewrite take_app_length' by (rewrite length_app, length_replicate; lia). apply until_nul_zeros.
Qed.

Lemma copy_name_length l : forall size, (length (copy_name_loop l size) <= Z.to_nat (size - 1))%nat.
Proof.
  induction l as [|c l IH]; intros size; cbn [copy_name_loop]; [cbn; lia|]. destruct (Z.ltb_spec 0 (size - 1)); cbn [andb]; [|cbn; lia].
  destruct (negb _); cbn [length]; [|lia]. specialize (IH (size - 1)). lia.
Qed.

Lemma copy_filename_length l : (length (copy_filename l 128) < 128)%nat.
Proof. unfold copy_filename. destruct (_ =? 34); [pose proof (copy_name_length (tl l) (128 - 1))|pose proof (copy_name_length l 128)]; lia. Qed.

Lemma htonl_range x : 0 <= x < 4294967296 -> 0 <= htonl x < 4294967296.
Proof.
  intros H. assert (E : x = ((x / 16777216 * 256 + x / 65536 mod 256) * 256 + x / 256 mod 256) * 256 + x mod 256) by zmod.
  rewrite E, htonl_bytes by (unfold byte; zmod). zmod.
Qed.

(** ** The steps of the client *)

Lemma new_id_range mac t : 0 <= new_id mac t < 4294967296.
Proof. apply htonl_range, u32_range. Qed.

Definition request_options (cfg : bootp_config) (e : environment) : list opt :=
  if CONFIG_CMD_DHCP cfg then dhcp_options cfg e DHCP_DISCOVER 0 0 else bootp_options cfg.

Lemma request_ext cfg e : hostname_fits cfg e -> exists n, (n <= 65)%nat /\
  (if CONFIG_CMD_DHCP cfg then DhcpExtended cfg e DHCP_DISCOVER 0 0 else BootpExtended cfg) =
    [99; 130; 83; 99] ++ options_area (request_options cfg e) ++ replicate n 0.
Proof.
  intros H. unfold request_options. destruct (CONFIG_CMD_DHCP cfg) eqn:Hc.
  - destruct (DhcpExtended_options cfg e DHCP_DISCOVER 0 0 Hc H) as (n & E & Hn). by exists n.
  - exists 0%nat. split; [lia|]. apply BootpExtended_options.
Qed.

Lemma request_options_ok cfg e : hostname_fits cfg e ->
  Forall (fun o : opt => 1 <= o.1 < 255) (request_options cfg e) /\ (length (options_area (request_options cfg e)) <= 400)%nat.
Proof. intros H. unfold request_options. destruct (CONFIG_CMD_DHCP cfg) eqn:Hc; [by apply dhcp_options_ok|apply bootp_options_ok]. Qed.

(** The state after a broadcast: the client may have changed before it. *)
Record broadcasted (s s' : net bootp) (q : list Z) : Prop := {
  bc_ok : net_ok s';
  bc_addrs : addrs s' = addrs s;
  bc_edev : edev s' = edev s;
  bc_now : now s' = now s;
  bc_handler : packetHandler (loop s') = Some ClientHandler;
  bc_state : NetState (loop s') = NetState (loop s);
  bc_sent : sent s' = sent s ++ [udp_frame (addrs s) NetBcastAddr (NetIPID s) 0xFFFFFFFF PORT_BOOTPS PORT_BOOTPC q]
}.

(** A request that fits is sent. *)
Lemma request_sent s0 s id secs file opts n ext : net_ok s -> 0 <= id < 4294967296 -> (length file < 128)%nat -> Forall (fun o : opt => 1 <= o.1 < 255) opts ->
  ext = [99; 130; 83; 99] ++ options_area opts ++ replicate n 0 -> (length (options_area opts) <= 400)%nat -> (n <= 65)%nat ->
  packetHandler (loop s) = Some ClientHandler -> NetState (loop s) = NetState (loop s0) ->
  addrs s = addrs s0 -> edev s = edev s0 -> now s = now s0 -> sent s = sent s0 -> NetIPID s = NetIPID s0 ->
  exists s' q, broadcast (request_header id secs (NetOurEther (addrs s)) file) ext s = Ok (tt, s') /\ broadcasted s0 s' q /\ client s' = client s /\
    read_request q = Some (Request id (NetOurEther (addrs s)) (until_nul file) opts).
Proof.
  intros W Hid Hf Ho -> Hl Hn Hh Hst Ea Ed Et Es Ei. pose proof (ok_ether _ (ok_addrs _ W)) as Hm.
  set (h := request_header _ _ _ _). assert (Hhl : length h = bp_vend) by (by apply request_header_length).
  destruct (broadcast_ok s W h ([99; 130; 83; 99] ++ options_area opts ++ replicate n 0)) as (tx & Htx & E).
  { rewrite !length_app, Hhl, length_replicate. unfold bp_vend, PKTSIZE_ALIGN. cbn [length]. lia. }
  eexists _, _. split; [exact E|]. split; [|split; [done|by apply request_read]].
  split; try done. 
  - destruct W. by split.
  - cbn. by rewrite Es, Ea, Ei.
Qed.

Lemma BootpRequest_ok cfg s : net_ok s -> hostname_fits cfg (env (edev s)) ->
  let id := new_id (NetOurEther (addrs s)) (now s) in
  exists s' q, BootpRequest cfg s = Ok (tt, s') /\ broadcasted s s' q /\
    client s' = set_runs_tftp false (set_dhcp_state (if CONFIG_CMD_DHCP cfg then SELECTING else INIT)
      (set_BootpID id (set_BootpTry (s32 (BootpTry (client s) + 1)) (client s)))) /\
    read_request q = Some (Request id (NetOurEther (addrs s)) (until_nul (copy_filename (BootFile (loader (client s))) 128)) (request_options cfg (env (edev s)))).
Proof.
  intros W Hh id. unfold BootpRequest. set (c1 := set_dhcp_state INIT (client s)). set (s1 := set_client c1 s).
  rewrite (bind_ok _ _ s tt s1) by done. set (c2 := set_BootpTry (s32 (BootpTry c1 + 1)) c1). set (s2 := set_client c2 s1).
  rewrite (bind_ok _ _ s1 tt s2) by done. rewrite (bind_ok _ _ _ _ _ (eq_refl : get s2 = Ok (s2, s2))). cbv zeta.
  change (addrs s2) with (addrs s). change (now s2) with (now s). fold id. set (c3 := set_BootpID id c2). set (s3 := set_client c3 s2).
  rewrite (bind_ok _ _ s2 tt s3) by done. destruct (NetSetTimeout_ok SELECT_TIMEOUT ClientTimeout s3) as (l & E3 & L1 & _ & _).
  rewrite (bind_ok _ _ _ _ _ E3). set (c4 := set_dhcp_state (if CONFIG_CMD_DHCP cfg then SELECTING else INIT) c3).
  assert (E4 : (if CONFIG_CMD_DHCP cfg then upd_bootp (set_dhcp_state SELECTING) else mret tt) (set_loop l s3) = Ok (tt, set_client c4 (set_loop l s3))).
  { unfold c4. destruct (CONFIG_CMD_DHCP cfg); [done|]. unfold c3, c2, c1. by destruct (client s). }
  rewrite (bind_ok _ _ _ _ _ E4). set (s5 := set_loop (set_packetHandler (Some ClientHandler) l) (set_client c4 s3)).
  rewrite (bind_ok _ _ _ tt s5) by done. set (s6 := set_client (set_runs_tftp false c4) s5). rewrite (bind_ok _ _ s5 tt s6) by done.
  change (edev s2) with (edev s). change (loader (client s2)) with (loader (client s)).
  destruct (request_ext cfg (env (edev s)) Hh) as (n & Hn & Ex). destruct (request_options_ok cfg (env (edev s)) Hh) as [Ho Hol].
  destruct (request_sent s s6 id (now s / 1000) (copy_filename (BootFile (loader (client s))) 128) _ n _ ltac:(by destruct W) (new_id_range _ _) (copy_filename_length _) Ho Ex Hol Hn)
    as (s' & q & E & B & C & R); try done.
  exists s', q. split; [exact E|]. split; [done|]. split; [rewrite C; unfold s6, c4, c3, c2, c1; by destruct (client s)|done].
Qed.

(** The state after the addresses and the file were copied. *)
Definition new_name (file old : list Z) : list Z := match file with [] => old | _ => copy_filename file 128 end.
Definition net_params (r : reply) (file mac : list Z) (s : net bootp) : net bootp :=
  let a := set_NetOurIP (r_yiaddr r) (addrs s) in
  let a := if r_siaddr r =? 0 then a else set_NetServerIP (r_siaddr r) a in
  let b := client s in
  let name := new_name file (BootFile (loader b)) in
  let s := set_client (set_loader (set_BootFile name (loader b)) b) (set_addrs (set_NetServerEther mac a) s) in
  if deref name =? 0 then s else set_edev (with_env (edev s) (set_var (env (edev s)) (zs "bootfile") (Some name))) s.

Lemma BootpCopyNetParams_ok r field file junk frame mac s : reply_ok r -> field_holds field file -> get_bytes frame 6 6 = Ok mac ->
  BootpCopyNetParams frame (in_buffer r field junk) s = Ok (tt, net_params r file mac s).
Proof.
  intros W Hf Hm. unfold BootpCopyNetParams.
  rewrite (bind_ok (lift _) _ _ _ _ (f_equal (fun x => lift x s) (read_yiaddr r W field junk))).
  set (a1 := set_NetOurIP (r_yiaddr r) (addrs s)). set (s1 := set_addrs a1 s). rewrite (bind_ok _ _ s tt s1) by done.
  rewrite (bind_ok (lift _) _ _ _ _ (f_equal (fun x => lift x s1) (read_siaddr r W field junk))).
  set (a2 := if r_siaddr r =? 0 then a1 else set_NetServerIP (r_siaddr r) a1). set (s2 := set_addrs a2 s).
  rewrite (bind_ok _ _ s1 tt s2) by (unfold s2, a2, s1; by destruct (r_siaddr r =? 0)).
  rewrite (bind_ok (lift _) _ s2 mac s2) by (by rewrite Hm). set (s3 := set_addrs (set_NetServerEther mac a2) s). rewrite (bind_ok _ _ s2 tt s3) by done.
  rewrite (bind_ok (lift _) _ _ _ _ (f_equal (fun x => lift x s3) (file_there r W field file junk Hf))).
  set (name := new_name file (BootFile (loader (client s)))). set (s4 := set_client (set_loader (set_BootFile name (loader (client s))) (client s)) s3).
  assert (E4 : (if negb (deref file =? 0) then upd_bootp (fun b => set_loader (set_BootFile (copy_filename file 128) (loader b)) b) else mret tt) s3 = Ok (tt, s4)).
  { rewrite deref_zero by apply Hf. unfold s4, name, s3. destruct file; [|done]. cbn. destruct s as [? ? ? ? ? ? ? ? ? []]. cbn. by destruct loader0. }
  rewrite (bind_ok _ _ _ _ _ E4), (bind_ok _ _ _ _ _ (eq_refl : get s4 = Ok (s4, s4))). cbv zeta.
  change (BootFile (loader (client s4))) with name. unfold net_params. fold name a1 a2. cbv zeta. destruct (deref name =? 0); done.
Qed.

(** What a client has learned, but for the options. *)
Record leased (old new : net bootp) (r : reply) (file : list Z) : Prop := {
  le_ip : NetOurIP (addrs new) = r_yiaddr r;
  le_server : NetServerIP (addrs new) = if r_siaddr r =? 0 then NetServerIP (addrs old) else r_siaddr r;
  le_file : BootFile (loader (client new)) = new_name file (BootFile (loader (client old)));
  le_env : deref (new_name file (BootFile (loader (client old)))) <> 0 ->
    var (env (edev new)) (zs "bootfile") = Some (new_name file (BootFile (loader (client old))))
}.

Lemma net_params_leased r file mac s : NoDup (vars (env (edev s))).*1 -> leased s (net_params r file mac s) r file.
Proof.
  intros Hn. unfold net_params. set (name := new_name _ _). cbv zeta. destruct (Z.eqb_spec (deref name) 0) as [Hz|Hz].
  - split; [by cbn; destruct (r_siaddr r =? 0)|by cbn; destruct (r_siaddr r =? 0)|done|intros H; by destruct H].
  - split; [by cbn; destruct (r_siaddr r =? 0)|by cbn; destruct (r_siaddr r =? 0)|done|].
    intros _. apply (var_set_same (env (edev s))). done.
Qed.

(** Only some of the state matters. *)
Lemma leased_same s s1 s2 s3 r file : leased s1 s2 r file ->
  NetServerIP (addrs s1) = NetServerIP (addrs s) -> BootFile (loader (client s1)) = BootFile (loader (client s)) ->
  NetOurIP (addrs s3) = NetOurIP (addrs s2) -> NetServerIP (addrs s3) = NetServerIP (addrs s2) -> BootFile (loader (client s3)) = BootFile (loader (client s2)) ->
  edev s3 = edev s2 -> leased s s3 r file.
Proof. intros [] Es El Ei Es3 El3 Ee3. split; rewrite <- ?Es, <- ?El, ?Ei, ?Es3, ?El3, ?Ee3; done. Qed.

(** Whether the environment forbids to load the file. *)
Definition no_load (s : net bootp) : bool :=
  match var (env (edev s)) (zs "autoload") with Some v => deref v =? ch "n" | None => false end.

(** What they leave alone. *)
Lemma net_params_rest r file mac s : let s' := net_params r file mac s in
  NetOurSubnetMask (addrs s') = NetOurSubnetMask (addrs s) /\ NetOurGatewayIP (addrs s') = NetOurGatewayIP (addrs s) /\
  client s' = set_loader (set_BootFile (new_name file (BootFile (loader (client s)))) (loader (client s))) (client s) /\
  sent s' = sent s /\ loop s' = loop s /\ no_load s' = no_load s.
Proof.
  cbv zeta. unfold net_params. set (name := new_name _ _). cbv zeta. destruct (deref name =? 0); [by destruct (r_siaddr r =? 0)|].
  split; [by destruct (r_siaddr r =? 0)|]. split; [by destruct (r_siaddr r =? 0)|]. do 3 (split; [done|]).
  unfold no_load. cbn [edev set_edev env with_env]. by rewrite (var_set_ne (env (edev s))).
Qed.

Lemma net_params_ok r file mac s : net_ok s -> reply_ok r -> length mac = 6%nat -> net_ok (net_params r file mac s).
Proof.
  intros [[] ? ? ? ?] Hr Hm. pose proof (rp_yiaddr _ Hr). unfold net_params. cbv zeta. destruct (deref _ =? 0); split; try done; (split; [| | |]); cbn; by destruct (r_siaddr r =? 0).
Qed.

(** The server that the file's name or the reply gives. *)
Definition server_of (name : list Z) (ip : Z) : Z :=
  match name with
  | [] => ip
  | boot => match after_colon boot with None => ip | Some _ => string_to_ip (Some boot) end
  end.
Definition file_server (s : net bootp) : Z := server_of (BootFile (loader (client s))) (NetServerIP (addrs s)).

(** What loading the file, or not, leaves alone. *)
Record unchanged (old new : net bootp) : Prop := {
  un_addrs : exists mac, addrs new = set_NetServerEther mac (addrs old);
  un_client : exists b t, client new = set_runs_tftp b (set_loader t (client old)) /\ BootFile t = BootFile (loader (client old));
  un_edev : edev new = edev old
}.

(** TFTP is started: it asks for the server. *)
Record loading (old new : net bootp) (server : Z) : Prop := {
  lo_tftp : runs_tftp (client new) = true;
  lo_state : TftpState (loader (client new)) = STATE_RRQ;
  lo_server : TftpServerIP (loader (client new)) = server;
  lo_sent : sent new = sent old ++ [arp_request (addrs new) (asked (addrs new) server)];
  lo_loop : NetState (loop new) = NetState (loop old)
}.

Lemma start_tftp_ok s : net_ok s -> file_server s <> 0 -> file_server s <> 0xFFFFFFFF ->
  exists s', start_tftp s = Ok (tt, s') /\ unchanged s s' /\ loading s s' (file_server s).
Proof.
  intros W H0 HF. set (t := as_tftp s). assert (Wt : net_ok t) by (destruct W; by split).
  destruct (TftpStart_ok t) as (s0 & E0 & A0 & R0 & D0 & P0 & S0 & T0 & I0 & N0 & _ & C0).
  cbv zeta in C0. destruct C0 as (C1 & C2 & C3 & _ & _ & _ & C7 & _ & C9 & _ & _ & C10).
  assert (W0 : net_ok s0).
  { destruct Wt as [[]]. split; [rewrite A0; by split|by rewrite T0|by rewrite R0|by rewrite P0|by rewrite D0]. }
  set (p := rrq_packet (client s0)). assert (Hp : tftp_packet (client s0) = Ok p) by (by apply rrq_packet_ok).
  destruct (TftpSend_in_place s0 p W0 Hp) as (tx0 & W1 & Hin & E1); [by apply rrq_packet_length|]. set (s1 := set_tx tx0 s0) in *. rewrite C1 in E1.
  assert (Et : tftp_server t = file_server s).
  { unfold tftp_server, file_server, server_of. change (BootFile (client t)) with (BootFile (loader (client s))). by destruct (BootFile (loader (client s))). }
  rewrite Et in *. clear Et.
  assert (Eb : bcast (file_server s) = file_server s) by (unfold bcast; by destruct (Z.eqb_spec (file_server s) 0)).
  assert (Em : mac_for MacServer (file_server s) = MacServer).
  { unfold mac_for. rewrite Eb. by destruct (Z.eqb_spec (file_server s) 4294967295). }
  destruct (NetSendUDPPacket_unknown s1 MacServer (file_server s) (TftpServerPort (client s0)) (TftpOurPort (client s0)) p W1 Hin) as
    (s2 & E2 & _ & _ & _ & S2 & A2 & D2 & P2 & L2 & B2); [rewrite Em; cbn; by rewrite A0|]. rewrite Eb in S2.
  assert (E : TftpStart t = Ok (tt, s2)) by (by rewrite E0, E1, (bind_ok _ _ _ _ _ E2)).
  set (s3 := with_client (set_loader (client s2) (client s)) s2).
  assert (E3 : on_tftp TftpStart s = Ok (tt, s3)) by (unfold on_tftp; fold t; by rewrite E).
  exists (set_client (set_runs_tftp true (client s3)) s3). split; [unfold start_tftp; by rewrite (bind_ok _ _ _ _ _ E3)|].
  change (addrs s1) with (addrs s0) in *. change (sent s1) with (sent s0) in *. change (client s1) with (client s0) in *.
  change (addrs t) with (addrs s) in *. change (sent t) with (sent s) in *. change (edev t) with (edev s) in *.
  split.
  - split; cbn; [exists NetEtherNullAddr; by rewrite A2, A0|exists true, (client s2); by rewrite B2, C10|by rewrite D2].
  - split; cbn; rewrite ?B2, ?S2, ?A2, ?A0, ?S0; try done. rewrite L2. exact N0.
Qed.

(** ** The vendor area of BOOTP *)

(** The size of the boot file, which every other option forgets again. *)
Definition size_of (data : list Z) : Z :=
  match data with [a; b] => 256 * a + b | [_; _; a; b] => 256 * a + b | _ => 0 end.
Definition says_size (o : opt) : option Z := Some (if o.1 =? 13 then size_of o.2 else 0).

Definition keep_addrs (opts : list opt) (a : addresses) : addresses :=
  set_NetOurGatewayIP (kept known_ip (NetOurGatewayIP a) (says 3 ip_of) opts)
    (set_NetOurSubnetMask (kept known_ip (NetOurSubnetMask a) (says 1 ip_of) opts) a).
Definition keep_client (cfg : bootp_config) (opts : list opt) (b : bootp) : bootp :=
  set_NetOurDNSIP (kept known_ip (NetOurDNSIP b) (says 6 ip_of) opts)
  (set_NetOurDNS2IP (kept known_ip (NetOurDNS2IP b) (says_dns2 cfg) opts)
  (set_NetOurHostName (kept known_name (NetOurHostName b) (says 12 (name_of 32)) opts)
  (set_NetOurRootPath (kept known_name (NetOurRootPath b) (says 17 (name_of 64)) opts)
  (set_NetOurNISDomain (kept known_name (NetOurNISDomain b) (says 40 (name_of 32)) opts)
  (set_NetBootFileSize (learned (NetBootFileSize b) says_size opts) b))))).
Definition bootp_kept (cfg : bootp_config) (opts : list opt) (s : net bootp) : net bootp :=
  set_client (keep_client cfg opts (client s)) (set_addrs (keep_addrs opts (addrs s)) s).

Lemma bootp_kept_app cfg l1 l2 s : bootp_kept cfg l2 (bootp_kept cfg l1 s) = bootp_kept cfg (l1 ++ l2) s.
Proof. unfold bootp_kept, keep_client, keep_addrs. cbn. by rewrite !learned_app, !kept_app. Qed.

Lemma bootp_kept_nil cfg s : bootp_kept cfg [] s = s.
Proof. unfold bootp_kept, keep_client, keep_addrs. rewrite !kept_nil. by destruct s as [[] ? ? ? ? ? ? ? ? []]. Qed.

Lemma kept_one {A} (known : A -> bool) old f o : kept known old f [o] = if known old then old else match f o with Some v => v | None => old end.
Proof. by rewrite kept_cons, kept_nil. Qed.

Lemma get16_drop p i j : get16 p (i + j) = get16 (drop i p) j.
Proof. unfold get16. by rewrite <- !Nat.add_assoc, !get8_drop. Qed.

(** The size of the boot file is read where it has two bytes or four. *)
Lemma read_size p i c d rest (s : net bootp) : drop i p = option_bytes (c, d) ++ rest ->
  (if Z.of_nat (length d) =? 2 then n ← lift (get16 p (i + 2)); upd_bootp (set_NetBootFileSize n)
   else if Z.of_nat (length d) =? 4 then _ ← lift (get16 p (i + 2)); n ← lift (get16 p (i + 4)); upd_bootp (set_NetBootFileSize n)
   else mret tt) (set_client (set_NetBootFileSize 0 (client s)) s) = Ok (tt, set_client (set_NetBootFileSize (size_of d) (client s)) s).
Proof.
  intros E. rewrite !get16_drop, E. unfold option_bytes. cbn [fst snd].
  destruct d as [|x0 [|x1 [|x2 [|x3 [|x4 d]]]]]; try done. cbn [length].
  rewrite (proj2 (Z.eqb_neq _ 2)), (proj2 (Z.eqb_neq _ 4)) by lia. done.
Qed.

Lemma if_same {A} (b : bool) (x : A) : (if b then x else x) = x.
Proof. by destruct b. Qed.

(** What an option with a code of its own says. *)
Ltac field_is := unfold says; cbn [fst snd Z.eqb Pos.eqb andb negb]; rewrite ?if_same.

Lemma BootpVendorFieldProcess_ok cfg p i o rest s : option_ok o -> drop i p = option_bytes o ++ rest ->
  BootpVendorFieldProcess cfg p i s = Ok (tt, bootp_kept cfg [o] s).
Proof.
  intros Ho E. destruct (option_reads _ _ _ _ E) as (G0 & G1 & Hb & H4 & H8 & _). pose proof (fun m => option_name_ok _ _ _ _ m E) as Hname.
  pose proof (oo_address _ Ho) as Ha. pose proof (oo_dns2 _ Ho) as Hd2. unfold BootpVendorFieldProcess. rewrite G0, G1. destruct o as [c d].
  pose proof (read_size p i c d rest s E) as Hsize. cbn [fst snd] in *.
  unfold bootp_kept, keep_addrs, keep_client. rewrite !kept_one. cbn [learned]. unfold says_size, says_dns2, known_ip, known_name. cbn [fst snd].
  rewrite (bind_ok (lift (Ok c)) _ s c s) by done. rewrite (bind_ok (lift (Ok _)) _ s (Z.of_nat (length d)) s) by done.
  set (s1 := set_client (set_NetBootFileSize 0 (client s)) s) in *. rewrite (bind_ok _ _ s tt s1) by done. rewrite (bind_ok _ _ _ _ _ (eq_refl : get s1 = Ok (s1, s1))). cbv zeta.
  revert s1 Hsize. destruct s as [[ip sip mask gw ? ? ? ? ?] ? ? ? ? ? ? ? ? [? ? ? ? ? dns dns2 host root nis ? ? ?]]. intros s1 Hsize.
  cbn [addrs client NetOurSubnetMask NetOurGatewayIP NetOurDNSIP NetOurDNS2IP NetOurHostName NetOurRootPath NetOurNISDomain].
  destruct (Z.eqb_spec c 1) as [->|N1].
  { field_is. change (NetOurSubnetMask (addrs s1)) with mask. destruct (mask =? 0); [|done]. by rewrite H4 by (apply Ha, (bool_decide_unpack _); exact I). }
  destruct (Z.eqb_spec c 3) as [->|N3].
  { field_is. change (NetOurGatewayIP (addrs s1)) with gw. destruct (gw =? 0); [|done]. by rewrite H4 by (apply Ha, (bool_decide_unpack _); exact I). }
  destruct (Z.eqb_spec c 6) as [->|N6].
  { field_is. change (NetOurDNSIP (client s1)) with dns. change (NetOurDNS2IP (client s1)) with dns2. rewrite H4 by (apply Ha, (bool_decide_unpack _); exact I).
    destruct (CONFIG_BOOTP_DNS2 cfg); cbn [andb]; [|rewrite ?if_same; by destruct (dns =? 0)].
    destruct (Z.ltb_spec 4 (Z.of_nat (length d))); [|rewrite ?if_same, andb_false_r; by destruct (dns =? 0)].
    rewrite H8 by (apply Hd2; [done|lia]). by destruct (dns =? 0), (dns2 =? 0). }
  destruct (Z.eqb_spec c 12) as [->|N12].
  { field_is. change (NetOurHostName (client s1)) with host. destruct (deref host =? 0); [|done]. by rewrite Hname. }
  destruct (Z.eqb_spec c 13) as [->|N13]; [field_is; rewrite Hsize; done|].
  destruct (Z.eqb_spec c 17) as [->|N17].
  { field_is. change (NetOurRootPath (client s1)) with root. destruct (deref root =? 0); [|done]. by rewrite Hname. }
  destruct (Z.eqb_spec c 40) as [->|N40].
  { field_is. change (NetOurNISDomain (client s1)) with nis. destruct (deref nis =? 0); [|done]. by rewrite Hname. }
  unfold says. cbn [fst snd]. repeat (rewrite (proj2 (Z.eqb_neq c _)) by eassumption). cbn [andb]. by rewrite !if_same.
Qed.

Lemma vendor_loop_ok cfg p last rest : forall opts fuel i s, Forall option_ok opts -> drop i p = options_area opts ++ rest ->
  Z.of_nat (i + length (options_area opts)) <= last -> (length opts < fuel)%nat ->
  vendor_loop cfg fuel p i last s = Ok (tt, bootp_kept cfg opts s).
Proof.
  induction opts as [|o opts IH]; intros fuel i s Ho E Hl Hfu; (destruct fuel as [|fuel]; [lia|]); cbn [vendor_loop].
  - cbn in Hl. rewrite (proj2 (Z.ltb_lt _ _)) by lia. rewrite (get8_head _ _ _ _ E). by rewrite bootp_kept_nil.
  - apply Forall_cons in Ho as [Ho Hos]. rewrite options_area_cons in E, Hl. rewrite <- app_assoc in E. rewrite length_app in Hl.
    change (length (option_bytes o)) with (S (S (length o.2))) in Hl. assert (Hpos : (0 < length (options_area opts))%nat) by (pose proof (options_fit opts); lia).
    destruct (option_reads _ _ _ _ E) as (G0 & G1 & _ & _ & _ & Er). pose proof (oo_code _ Ho).
    rewrite (proj2 (Z.ltb_lt _ _)) by lia. rewrite (bind_ok (lift _) _ _ _ _ (f_equal (fun r => lift r s) G0)).
    rewrite (proj2 (Z.eqb_neq o.1 255)), (proj2 (Z.eqb_neq o.1 0)) by lia. rewrite (bind_ok (lift _) _ _ _ _ (f_equal (fun r => lift r s) G1)).
    cbv zeta. rewrite Nat2Z.id. rewrite (proj2 (Z.leb_le _ _)) by lia. rewrite (bind_ok _ _ _ _ _ (BootpVendorFieldProcess_ok cfg p i o _ s Ho E)).
    rewrite IH; [by rewrite bootp_kept_app|done|exact Er|lia|cbn [length] in Hfu; lia].
Qed.

(** ** The exchanges *)

(** What follows a lease: the loop ends, or the file is asked for. *)
Definition goes_on (s s' : net bootp) (server : Z) : Prop :=
  if no_load s then NetState (loop s') = NETLOOP_SUCCESS /\ sent s' = sent s /\ runs_tftp (client s') = runs_tftp (client s)
  else loading s s' server.

Lemma autoload_ok s : net_ok s -> file_server s <> 0 -> file_server s <> 0xFFFFFFFF ->
  exists s', autoload s = Ok (tt, s') /\ unchanged s s' /\ goes_on s s' (file_server s).
Proof.
  intros W H0 HF. unfold autoload, goes_on, no_load. rewrite (bind_ok _ _ _ _ _ (eq_refl : get s = Ok (s, s))).
  destruct (start_tftp_ok s W H0 HF) as (s' & E & U & L). destruct (var _ _) as [v|]; [destruct (deref v =? ch "n")|]; [|by exists s'..].
  eexists. split; [reflexivity|]. split; [|done]. split; [exists (NetServerEther (addrs s)); cbn; by destruct (addrs s)|exists (runs_tftp (client s)), (loader (client s)); cbn; by destruct (client s)|done].
Qed.

Lemma goes_on_from s s1 s2 server : goes_on s1 s2 server -> no_load s1 = no_load s -> sent s1 = sent s -> NetState (loop s1) = NetState (loop s) ->
  runs_tftp (client s1) = runs_tftp (client s) -> goes_on s s2 server.
Proof.
  unfold goes_on. intros H En Es El Er. rewrite En in H. destruct (no_load s); [by rewrite <- Es, <- Er|].
  destruct H. split; rewrite <- ?Es, <- ?El; done.
Qed.

Lemma leased_unchanged s s1 s2 r file : leased s s1 r file -> unchanged s1 s2 -> leased s s2 r file.
Proof. intros L [[mac Ea] (b & t & Ec & Et) Ee]. apply (leased_same s s s1 s2 r file L); rewrite ?Ea, ?Ec; done. Qed.

(** The server that a reply and what was known before give. *)
Definition reply_server (s : net bootp) (r : reply) (file : list Z) : Z :=
  server_of (new_name file (BootFile (loader (client s)))) (if r_siaddr r =? 0 then NetServerIP (addrs s) else r_siaddr r).

Lemma leased_server s s1 r file : leased s s1 r file -> file_server s1 = reply_server s r file.
Proof. intros []. unfold file_server, reply_server. by rewrite le_server0, le_file0. Qed.

Lemma reply_bytes r : reply_ok r -> Forall byte (reply_packet r).
Proof.
  intros W. unfold reply_packet, before_file, file_field. rewrite !Forall_app.
  assert (Ho : Forall byte (options_area (r_options r))).
  { pose proof (rp_options _ W) as H. induction (r_options r) as [|o l IH]; [repeat constructor; unfold byte; lia|].
    apply Forall_cons in H as [Ho H]. rewrite options_area_cons. apply Forall_app. split; [|by apply IH]. destruct Ho. unfold option_bytes.
    repeat constructor; unfold byte in *; try lia. done. }
  split_and!; try apply W; try apply ip_bytes_bytes; try done.
  - pose proof (rp_op _ W) as H. pose proof (rp_hops _ W). rewrite !elem_of_cons, elem_of_nil in H.
    rewrite !Forall_cons, Forall_nil. split_and!; try done. by destruct H as [->|[->|[->|[]]]].
  - eapply Forall_impl; [apply (proj1 (rp_file _ W))|]. intros b. unfold nonzero_byte, byte. lia.
  - apply Forall_replicate. done.
  - repeat constructor; unfold byte; lia.
Qed.

Lemma reply_length r : reply_ok r -> (240 <= length (reply_packet r) <= 788)%nat.
Proof.
  intros W. unfold reply_packet. rewrite !length_app, (before_file_length r W). unfold file_field. rewrite length_app, length_replicate.
  pose proof (proj2 (rp_file _ W)). pose proof (rp_size _ W). unfold bp_file. cbn [length]. lia.
Qed.

Section Exchange.
Context (cfg : bootp_config) (dev_init : nat -> nat -> Z) (net_cfg : config) (aS : addresses) (Wa : addrs_ok aS).
#[local] Instance client_here : NetClient bootp := bootp_client cfg dev_init.

(** A reply of the server, sent to any address. *)
Definition reply_frame (mac : list Z) (pid dest : Z) (r : reply) : list Z := udp_frame aS mac pid dest PORT_BOOTPC PORT_BOOTPS (reply_packet r).

Lemma reply_source mac pid dest r junk : length mac = 6%nat -> get_bytes (reply_frame mac pid dest r ++ junk) 6 6 = Ok (NetOurEther aS).
Proof.
  intros Hm. unfold reply_frame, udp_frame. cbv zeta. rewrite ether_header_plain by apply Wa. rewrite <- !app_assoc.
  match goal with |- get_bytes (mac ++ ?l) _ _ = _ => rewrite (get_bytes_app mac l 6 0 6 (eq_sym Hm) : get_bytes (mac ++ l) 6 6 = _) end. pose proof (ok_ether _ Wa) as He.
  rewrite get_bytes_ok by (rewrite length_app; lia). rewrite drop_0. f_equal. by apply take_app_length'.
Qed.

(** It comes to the handler. *)
Lemma reply_received s mac pid dest r junk : no_vlan (addrs s) -> NetOurIP (addrs s) = 0 -> packetHandler (loop s) = Some ClientHandler -> runs_tftp (client s) = false ->
  length mac = 6%nat -> 0 <= dest < 4294967296 -> reply_ok r -> Forall byte junk ->
  let frame := reply_frame mac pid dest r in
  NetReceive net_cfg (frame ++ junk) (Z.of_nat (length frame)) s =
    (if CONFIG_CMD_DHCP cfg then DhcpHandler cfg else BootpHandler cfg) (frame ++ junk) (reply_packet r ++ junk) PORT_BOOTPC PORT_BOOTPS (Z.of_nat (length (reply_packet r))) s.
Proof.
  intros Hv Hip Hh Hr Hm Hd W Hj frame. pose proof (reply_length r W). unfold frame, reply_frame. rewrite NetReceive_udp; try done; [|lia| |by left].
  - unfold run_handler. rewrite (bind_ok _ _ _ _ _ (eq_refl : get s = Ok (s, s))), Hh. cbn [client_rx client_here bootp_client].
    rewrite (bind_ok _ _ _ _ _ (eq_refl : get s = Ok (s, s))), Hr. by destruct (CONFIG_CMD_DHCP cfg).
  - apply Forall_app. split; [by apply reply_bytes|done].
Qed.

(** Of the options the first counts that says what was not known before. *)
Record retained (old new : net bootp) (opts : list opt) : Prop := {
  re_mask : NetOurSubnetMask (addrs new) = kept known_ip (NetOurSubnetMask (addrs old)) (says 1 ip_of) opts;
  re_gateway : NetOurGatewayIP (addrs new) = kept known_ip (NetOurGatewayIP (addrs old)) (says 3 ip_of) opts;
  re_dns : NetOurDNSIP (client new) = kept known_ip (NetOurDNSIP (client old)) (says 6 ip_of) opts;
  re_host : NetOurHostName (client new) = kept known_name (NetOurHostName (client old)) (says 12 (name_of 32)) opts;
  re_root : NetOurRootPath (client new) = kept known_name (NetOurRootPath (client old)) (says 17 (name_of 64)) opts;
  re_domain : NetOurNISDomain (client new) = kept known_name (NetOurNISDomain (client old)) (says 40 (name_of 32)) opts
}.

Lemma retained_unchanged s s1 s2 opts : retained s s1 opts -> unchanged s1 s2 -> retained s s2 opts.
Proof. intros [] [[mac Ea] (b & t & Ec & _) _]. split; rewrite ?Ea, ?Ec; done. Qed.

(** A reply with our identification. *)
Lemma bootp_reply_taken s mac pid dest r junk : CONFIG_CMD_DHCP cfg = false ->
  net_ok s -> NetOurIP (addrs s) = 0 -> NoDup (vars (env (edev s))).*1 -> packetHandler (loop s) = Some ClientHandler -> runs_tftp (client s) = false ->
  BootpID (client s) = r_id r -> length mac = 6%nat -> 0 <= dest < 4294967296 -> reply_ok r -> Forall byte junk ->
  let server := reply_server s r (r_file r) in server <> 0 -> server <> 0xFFFFFFFF ->
  exists s', NetReceive net_cfg (reply_frame mac pid dest r ++ junk) (Z.of_nat (length (reply_frame mac pid dest r))) s = Ok (tt, s') /\
    leased s s' r (r_file r) /\ retained s s' (r_options r) /\ goes_on s s' server.
Proof.
  intros Hc W Hip Hn Hph Hr Hid Hm Hd Wr Hj server H0 HF. pose proof (ok_vlan _ (ok_addrs _ W)) as Hv.
  pose proof (field_holds_file _ (proj1 (rp_file _ Wr)) (proj2 (rp_file _ Wr))) as Hf. set (f := file_field (r_file r)) in *.
  set (s2 := net_params r (r_file r) (NetOurEther aS) s). pose proof (net_params_leased r (r_file r) (NetOurEther aS) s Hn) as L. fold s2 in L.
  assert (W2 : net_ok s2) by (apply net_params_ok; [done|done|apply Wa]).
  set (s3 := bootp_kept cfg (r_options r) s2). set (s4 := set_loop (set_timeHandler None (loop s3)) s3).
  destruct (net_params_rest r (r_file r) (NetOurEther aS) s) as (Em & Eg & Eb & Es & El & En). fold s2 in Em, Eg, Eb, Es, El, En.
  assert (L4 : leased s s4 r (r_file r)) by (by eapply leased_same; [exact L|..]).
  assert (R4 : retained s s4 (r_options r)).
  { split; [change (NetOurSubnetMask (addrs s4)) with (kept known_ip (NetOurSubnetMask (addrs s2)) (says 1 ip_of) (r_options r)); by rewrite Em
      |change (NetOurGatewayIP (addrs s4)) with (kept known_ip (NetOurGatewayIP (addrs s2)) (says 3 ip_of) (r_options r)); by rewrite Eg|..];
      change (client s4) with (keep_client cfg (r_options r) (client s2)); by rewrite Eb. }
  pose proof (leased_server _ _ _ _ L4) as Ef. fold server in Ef.
  destruct (autoload_ok s4) as (s5 & E5 & U & K); [destruct W2 as [[]]; by split|by rewrite Ef..|]. exists s5.
  split; [|split; [by eapply leased_unchanged|split; [by eapply retained_unchanged|]]].
  2: { rewrite Ef in K. apply (goes_on_from s s4); [done|exact En|exact Es|change (NetState (loop s4)) with (NetState (loop s2)); by rewrite El|].
       change (runs_tftp (client s4)) with (runs_tftp (client s2)). by rewrite Eb. }
  rewrite reply_received by done. rewrite Hc. unfold BootpHandler. rewrite (bind_ok _ _ _ _ _ (eq_refl : get s = Ok (s, s))). rewrite reply_in_buffer. fold f. rewrite Hid.
  pose proof (reply_length r Wr) as Hlen. rewrite (bind_ok (lift _) _ s 0 s) by (by rewrite reply_checked by (done || (unfold bp_vend; lia))). rewrite Z.eqb_refl. cbn [negb].
  rewrite (bind_ok _ _ _ _ _ (BootpCopyNetParams_ok r f (r_file r) junk _ (NetOurEther aS) s Wr Hf (reply_source mac pid dest r junk Hm))). fold s2.
  rewrite (bind_ok (lift _) _ s2 true s2) by (by rewrite magic_there by (done || apply Hf)).
  rewrite (bind_ok _ _ s2 tt s3); [|].
  2: { unfold BootpVendorProcess. eapply vendor_loop_ok; [apply Wr|by apply options_at, Hf| |].
       - assert (Hlr : length (reply_packet r) = (bp_vend + 4 + length (options_area (r_options r)))%nat).
         { unfold reply_packet. rewrite !length_app, (before_file_length r Wr). fold f. rewrite (proj1 Hf). unfold bp_vend, bp_file. cbn [length]. lia. }
         rewrite Hlr. lia.
       - pose proof (options_fit (r_options r)). unfold in_buffer. rewrite !length_app. lia. }
  rewrite (bind_ok _ _ s3 tt s4) by done. exact E5.
Qed.

(** BOOTP (without CONFIG_CMD_DHCP), for a host that has no address yet: the client
    broadcasts a request that the server can read.  The reply comes next, with the
    identification of the request and in good form ([reply_ok]), to whatever address and
    with whatever behind it in the buffer.  It gives the client its address, the server's
    address and the file's name, which the environment gets too, and of the options the
    first that says what was not known yet.  Then the loop ends with success if the
    environment forbids to load the file, and otherwise TFTP asks for the server, which
    has an address. *)
Theorem bootp_configures s mac pid dest r junk : CONFIG_CMD_DHCP cfg = false ->
  net_ok s -> NetOurIP (addrs s) = 0 -> NoDup (vars (env (edev s))).*1 -> length mac = 6%nat -> 0 <= dest < 4294967296 -> reply_ok r -> Forall byte junk ->
  let server := reply_server s r (r_file r) in server <> 0 -> server <> 0xFFFFFFFF ->
  exists s1 q rq,
    BootpRequest cfg s = Ok (tt, s1) /\
    sent s1 = sent s ++ [udp_frame (addrs s) NetBcastAddr (NetIPID s) 0xFFFFFFFF PORT_BOOTPS PORT_BOOTPC q] /\ edev s1 = edev s /\
    read_request q = Some rq /\ q_id rq = new_id (NetOurEther (addrs s)) (now s) /\ q_mac rq = NetOurEther (addrs s) /\ q_options rq = bootp_options cfg /\
    (r_id r = q_id rq ->
     exists s2, NetReceive net_cfg (reply_frame mac pid dest r ++ junk) (Z.of_nat (length (reply_frame mac pid dest r))) s1 = Ok (tt, s2) /\
       leased s s2 r (r_file r) /\ retained s s2 (r_options r) /\ goes_on s1 s2 server).
Proof.
  intros Hc W Hip Hn Hm Hd Wr Hj server H0 HF. assert (Hh : hostname_fits cfg (env (edev s))) by (unfold hostname_fits; rewrite Hc; by destruct (var _ _)).
  destruct (BootpRequest_ok cfg s W Hh) as (s1 & q & E1 & B & C & R). rewrite Hc in C. exists s1, q. eexists. split; [exact E1|]. split; [apply B|]. split; [apply B|]. split; [exact R|].
  cbn [q_mac q_id q_options]. split; [done|]. split; [done|]. split; [unfold request_options; by rewrite Hc|]. intros Hid.
  pose proof (bc_addrs _ _ _ B) as Ba. pose proof (bc_edev _ _ _ B) as Be.
  assert (Es : reply_server s1 r (r_file r) = server) by (unfold reply_server; by rewrite Ba, C).
  destruct (bootp_reply_taken s1 mac pid dest r junk Hc) as (s2 & E2 & L & K & G); rewrite ?Ba, ?Be, ?C, ?Es; try done; [apply B|apply B|].
  exists s2. split; [exact E2|]. rewrite Es in G. split; [by eapply leased_same; [exact L|rewrite ?Ba, ?C..]|]. split; [|done].
  destruct K. split; rewrite <- ?Ba; rewrite C in *; done.
Qed.


(** *** DHCP *)

(** What was learned from the options of both replies. *)
Record settled (old new : net bootp) (opts : list opt) : Prop := {
  se_mask : NetOurSubnetMask (addrs new) = learned (NetOurSubnetMask (addrs old)) (says 1 ip_of) opts;
  se_gateway : NetOurGatewayIP (addrs new) = learned (NetOurGatewayIP (addrs old)) (says 3 ip_of) opts;
  se_dns : NetOurDNSIP (client new) = learned (NetOurDNSIP (client old)) (says 6 ip_of) opts;
  se_host : NetOurHostName (client new) = learned (NetOurHostName (client old)) (says 12 (name_of 32)) opts;
  se_root : NetOurRootPath (client new) = learned (NetOurRootPath (client old)) (says 17 (name_of 64)) opts;
  se_lease : dhcp_leasetime (client new) = learned (dhcp_leasetime (client old)) (says 51 ip_of) opts;
  se_server : NetDHCPServerIP (client new) = learned (NetDHCPServerIP (client old)) (says 54 ip_of) opts
}.

Lemma dhcp_learned_ok opts s : net_ok s -> net_ok (dhcp_learned cfg opts s).
Proof. intros [[]]. by split. Qed.

Lemma settled_learned opts s : settled s (dhcp_learned cfg opts s) opts.
Proof. by split. Qed.

(** An offer in the state SELECTING: it is asked for. *)
Lemma offer_taken s mac pid dest r junk : CONFIG_CMD_DHCP cfg = true -> net_ok s -> hostname_fits cfg (env (edev s)) -> NetOurIP (addrs s) = 0 ->
  packetHandler (loop s) = Some ClientHandler -> runs_tftp (client s) = false -> dhcp_state (client s) = SELECTING -> BootpID (client s) = r_id r ->
  length mac = 6%nat -> 0 <= dest < 4294967296 -> reply_ok r -> Forall byte junk ->
  exists s' q, NetReceive net_cfg (reply_frame mac pid dest r ++ junk) (Z.of_nat (length (reply_frame mac pid dest r))) s = Ok (tt, s') /\
    broadcasted (dhcp_learned cfg (r_options r) s) s' q /\ client s' = learn_client cfg (r_options r) (set_dhcp_state REQUESTING (client s)) /\
    read_request q = Some (Request (r_id r) (NetOurEther (addrs s)) []
      (dhcp_options cfg (env (edev s)) DHCP_REQUEST (learned (NetDHCPServerIP (client s)) (says 54 ip_of) (r_options r)) (r_yiaddr r))).
Proof.
  intros Hc W Hh Hip Hph Hr Hst Hid Hm Hd Wr Hj. pose proof (ok_vlan _ (ok_addrs _ W)) as Hv. rewrite reply_received by done. rewrite Hc. unfold DhcpHandler.
  rewrite (bind_ok _ _ _ _ _ (eq_refl : get s = Ok (s, s))). rewrite Hid. pose proof (reply_length r Wr) as Hlen.
  rewrite (bind_ok (lift _) _ s 0 s) by (rewrite reply_in_buffer; by rewrite reply_checked by (done || (unfold bp_vend; lia))). rewrite Z.eqb_refl. cbn [negb]. rewrite Hst.
  set (s1 := set_client (set_dhcp_state REQUESTING (client s)) s). rewrite (bind_ok _ _ s tt s1) by done.
  destruct (vendor_options_ok r Wr cfg junk s1 Hc) as (field & E1 & Hf). rewrite (bind_ok _ _ _ _ _ E1). set (s2 := dhcp_learned cfg (r_options r) s1).
  destruct (NetSetTimeout_ok TIMEOUT ClientTimeout s2) as (l & E2 & L1 & L2 & _). rewrite (bind_ok _ _ _ _ _ E2). set (s3 := set_loop l s2).
  unfold DhcpSendRequestPkt. rewrite (bind_ok _ _ _ _ _ (eq_refl : get s3 = Ok (s3, s3))).
  rewrite (bind_ok (lift _) _ s3 (r_id r) s3) by (by rewrite read_id). rewrite (bind_ok (lift _) _ s3 (r_yiaddr r) s3) by (by rewrite read_yiaddr).
  set (server := learned (NetDHCPServerIP (client s)) (says 54 ip_of) (r_options r)). change (NetDHCPServerIP (client s3)) with server. change (env (edev s3)) with (env (edev s)).
  destruct (DhcpExtended_options cfg (env (edev s)) DHCP_REQUEST server (r_yiaddr r) Hc Hh) as (n & Ex & Hn).
  destruct (dhcp_options_ok cfg (env (edev s)) DHCP_REQUEST server (r_yiaddr r) Hc Hh) as [Ho Hol].
  destruct (request_sent (dhcp_learned cfg (r_options r) s) s3 (r_id r) (now s3 / 1000) [] _ n _ ltac:(destruct W as [[]]; by split) (rp_id _ Wr) ltac:(cbn; lia) Ho Ex Hol Hn)
    as (s' & q & E & B & C & R); try done; [change (packetHandler l = Some ClientHandler); by rewrite L2|].
  exists s', q. split; [exact E|]. split; [exact B|]. split; [by rewrite C|exact R].
Qed.

(** The settings outlast what follows. *)
Lemma settled_loader s s1 s2 opts t : settled s s1 opts -> NetOurSubnetMask (addrs s2) = NetOurSubnetMask (addrs s1) ->
  NetOurGatewayIP (addrs s2) = NetOurGatewayIP (addrs s1) -> client s2 = set_loader t (client s1) -> settled s s2 opts.
Proof. intros [] Em Eg Ec. split; rewrite ?Em, ?Eg, ?Ec; done. Qed.

Lemma settled_state s s1 opts st : settled s s1 opts -> settled s (set_client (set_dhcp_state st (client s1)) s1) opts.
Proof. intros []. by split. Qed.

Lemma settled_unchanged s s1 s2 opts : settled s s1 opts -> unchanged s1 s2 -> settled s s2 opts.
Proof. intros [] [[mac Ea] (b & t & Ec & _) _]. split; rewrite ?Ea, ?Ec; done. Qed.

Lemma unchanged_state s s' : unchanged s s' -> dhcp_state (client s') = dhcp_state (client s).
Proof. intros [_ (b & t & Ec & _) _]. by rewrite Ec. Qed.

(** What the client is after the acknowledgement, before it goes on. *)
Definition bound (s : net bootp) (r : reply) : net bootp :=
  let s2 := net_params r (boot_file (r_file r) (r_options r)) (NetOurEther aS) (dhcp_learned cfg (r_options r) s) in
  set_client (set_dhcp_state BOUND (client s2)) s2.

Lemma bound_ok s r : net_ok s -> reply_ok r -> NoDup (vars (env (edev s))).*1 -> let s3 := bound s r in
  net_ok s3 /\ leased s s3 r (boot_file (r_file r) (r_options r)) /\ settled s s3 (r_options r) /\ no_load s3 = no_load s /\ sent s3 = sent s /\
  NetState (loop s3) = NetState (loop s) /\ runs_tftp (client s3) = runs_tftp (client s).
Proof.
  intros W Wr Hn s3. unfold bound in s3. set (s1 := dhcp_learned cfg (r_options r) s) in *. set (name := boot_file _ _) in *.
  assert (W1 : net_ok s1) by (by apply dhcp_learned_ok). set (s2 := net_params r name (NetOurEther aS) s1) in *.
  assert (W2 : net_ok s2) by (apply net_params_ok; [done|done|apply Wa]).
  pose proof (net_params_leased r name (NetOurEther aS) s1 Hn) as L. fold s2 in L.
  destruct (net_params_rest r name (NetOurEther aS) s1) as (Em & Eg & Ec & Es & El & En). fold s2 in Em, Eg, Ec, Es, El, En.
  pose proof (settled_state s s2 _ BOUND (settled_loader s s1 s2 _ _ (settled_learned (r_options r) s) Em Eg Ec)) as S. fold s3 in S.
  split; [destruct W2; by split|]. split; [apply (leased_same s s1 s2 s3 r name L); done|]. split; [exact S|]. split; [exact En|]. split; [exact Es|].
  split; [change (loop s3) with (loop s2); by rewrite El|]. change (runs_tftp (client s3)) with (runs_tftp (client s2)). by rewrite Ec.
Qed.

(** The acknowledgement in the state REQUESTING. *)
Lemma ack_taken s mac pid dest r junk : CONFIG_CMD_DHCP cfg = true -> net_ok s -> NetOurIP (addrs s) = 0 -> NoDup (vars (env (edev s))).*1 ->
  packetHandler (loop s) = Some ClientHandler -> runs_tftp (client s) = false -> dhcp_state (client s) = REQUESTING -> BootpID (client s) = r_id r ->
  length mac = 6%nat -> 0 <= dest < 4294967296 -> reply_ok r -> message_type (r_options r) = DHCP_ACK -> Forall byte junk ->
  let file := boot_file (r_file r) (r_options r) in let server := reply_server s r file in server <> 0 -> server <> 0xFFFFFFFF ->
  exists s', NetReceive net_cfg (reply_frame mac pid dest r ++ junk) (Z.of_nat (length (reply_frame mac pid dest r))) s = Ok (tt, s') /\
    dhcp_state (client s') = BOUND /\ leased s s' r file /\ settled s s' (r_options r) /\ goes_on s s' server.
Proof.
  intros Hc W Hip Hn Hph Hr Hst Hid Hm Hd Wr Ht Hj file server H0 HF. pose proof (ok_vlan _ (ok_addrs _ W)) as Hv. pose proof (reply_length r Wr) as Hlen.
  destruct (bound_ok s r W Wr Hn) as (W3 & L & S & En & Es & El & Er). fold file in L.
  pose proof (leased_server _ _ _ _ L) as Ef. fold server in Ef.
  destruct (autoload_ok (bound s r)) as (s4 & E4 & U & K); [done|by rewrite Ef..|]. exists s4. rewrite Ef in K. split.
  2: { split; [by rewrite (unchanged_state _ _ U)|]. split; [by eapply leased_unchanged|]. split; [by eapply settled_unchanged|]. by apply (goes_on_from s (bound s r)). }
  rewrite reply_received by done. rewrite Hc. unfold DhcpHandler. rewrite (bind_ok _ _ _ _ _ (eq_refl : get s = Ok (s, s))). rewrite Hid.
  rewrite (bind_ok (lift _) _ s 0 s) by (rewrite reply_in_buffer; by rewrite reply_checked by (done || (unfold bp_vend; lia))). rewrite Z.eqb_refl. cbn [negb]. rewrite Hst.
  pose proof (field_holds_file _ (proj1 (rp_file _ Wr)) (proj2 (rp_file _ Wr))) as Hf0.
  rewrite (bind_ok (lift _) _ s (message_type (r_options r)) s) by (rewrite reply_in_buffer; by rewrite type_of_reply by (done || apply Hf0)). rewrite Ht, Z.eqb_refl.
  destruct (vendor_options_ok r Wr cfg junk s Hc) as (field & E1 & Hf). rewrite (bind_ok _ _ _ _ _ E1).
  rewrite (bind_ok _ _ _ _ _ (BootpCopyNetParams_ok r field file junk _ (NetOurEther aS) (dhcp_learned cfg (r_options r) s) Wr Hf (reply_source mac pid dest r junk Hm))).
  fold file in E4. revert E4. unfold bound. fold file. cbv zeta. set (s2 := net_params _ _ _ _). intros E4.
  rewrite (bind_ok _ _ s2 tt (set_client (set_dhcp_state BOUND (client s2)) s2)) by done. exact E4.
Qed.

(** C28: DHCP, for a host that has no address yet: the client broadcasts a request for any
    server.  The two replies come next, both with its identification and in good form
    ([reply_ok]), to whatever address and with whatever behind them in the buffer.  The
    first, of whatever type, is taken for the offer: the client asks the server that it
    names for the address in it, in a form that the server can read.  The second is an
    acknowledgement: its address is the client's, with the last that the options of both
    replies say, and the file's name is in the environment.  Then the loop ends with
    success if the environment forbids to load the file, and otherwise TFTP asks for the
    server, which has an address. *)
Theorem dhcp_configures s mac1 pid1 dest1 offer junk1 mac2 pid2 dest2 ack junk2 : CONFIG_CMD_DHCP cfg = true ->
  net_ok s -> hostname_fits cfg (env (edev s)) -> NetOurIP (addrs s) = 0 -> NoDup (vars (env (edev s))).*1 ->
  length mac1 = 6%nat -> 0 <= dest1 < 4294967296 -> reply_ok offer -> Forall byte junk1 ->
  length mac2 = 6%nat -> 0 <= dest2 < 4294967296 -> reply_ok ack -> message_type (r_options ack) = DHCP_ACK -> Forall byte junk2 ->
  let file := boot_file (r_file ack) (r_options ack) in
  let server := reply_server s ack file in server <> 0 -> server <> 0xFFFFFFFF ->
  let e := env (edev s) in
  let dhcp_server := learned (NetDHCPServerIP (client s)) (says 54 ip_of) (r_options offer) in
  exists s1 q rq,
    BootpRequest cfg s = Ok (tt, s1) /\
    sent s1 = sent s ++ [udp_frame (addrs s) NetBcastAddr (NetIPID s) 0xFFFFFFFF PORT_BOOTPS PORT_BOOTPC q] /\
    read_request q = Some rq /\ q_id rq = new_id (NetOurEther (addrs s)) (now s) /\ q_mac rq = NetOurEther (addrs s) /\ q_options rq = dhcp_options cfg e DHCP_DISCOVER 0 0 /\
    (r_id offer = q_id rq -> r_id ack = q_id rq ->
     exists s2 a2 id2 q2 s3,
       NetReceive net_cfg (reply_frame mac1 pid1 dest1 offer ++ junk1) (Z.of_nat (length (reply_frame mac1 pid1 dest1 offer))) s1 = Ok (tt, s2) /\
       sent s2 = sent s1 ++ [udp_frame a2 NetBcastAddr id2 0xFFFFFFFF PORT_BOOTPS PORT_BOOTPC q2] /\ edev s2 = edev s /\
       read_request q2 = Some (Request (q_id rq) (NetOurEther (addrs s)) [] (dhcp_options cfg e DHCP_REQUEST dhcp_server (r_yiaddr offer))) /\
       NetReceive net_cfg (reply_frame mac2 pid2 dest2 ack ++ junk2) (Z.of_nat (length (reply_frame mac2 pid2 dest2 ack))) s2 = Ok (tt, s3) /\
       dhcp_state (client s3) = BOUND /\ leased s s3 ack file /\ settled s s3 (r_options offer ++ r_options ack) /\ goes_on s2 s3 server).
Proof.
  intros Hc W Hh Hip Hn Hm1 Hd1 W1 Hj1 Hm2 Hd2 W2 Ht Hj2 file server H0 HF e dhcp_server.
  destruct (BootpRequest_ok cfg s W Hh) as (s1 & q & E1 & [Bo Ba Be _ Bh _ Bs] & C & R). rewrite Hc in C. exists s1, q. eexists. split; [exact E1|]. split; [exact Bs|]. split; [exact R|].
  cbn [q_mac q_id q_options]. split; [done|]. split; [done|]. split; [unfold request_options; by rewrite Hc|]. intros Hi1 Hi2.
  destruct (offer_taken s1 mac1 pid1 dest1 offer junk1) as (s2 & q2 & E2 & [Bo2 Ba2 Be2 _ Bh2 _ Bs2] & C2 & R2); rewrite ?Be, ?Ba, ?C; try done.
  assert (Ea : NetServerIP (addrs s2) = NetServerIP (addrs s)) by (rewrite Ba2; cbn [addrs dhcp_learned set_client set_addrs]; by rewrite Ba).
  assert (El : BootFile (loader (client s2)) = BootFile (loader (client s))) by (rewrite C2, C; done).
  assert (Es : reply_server s2 ack file = server) by (unfold reply_server; by rewrite Ea, El).
  destruct (ack_taken s2 mac2 pid2 dest2 ack junk2) as (s3 & E3 & S1 & S2 & S3 & S4); fold file; rewrite ?Es; rewrite ?Be2, ?Ba2, ?C2, ?C; cbn [addrs edev dhcp_learned set_client set_addrs]; rewrite ?Be, ?Ba; try done.
  fold file in S2, S4. rewrite Es in S4.
  exists s2, (addrs (dhcp_learned cfg (r_options offer) s1)), (NetIPID s1), q2, s3. split; [exact E2|]. split; [exact Bs2|]. split; [rewrite Be2; exact Be|].
  split; [rewrite R2, Hi1, Ba, Be, C; done|]. split; [exact E3|]. split; [done|]. split; [by apply (leased_same s s2 s3 s3 ack file S2)|]. split; [|done].
  destruct S3. split; [rewrite se_mask0, Ba2|rewrite se_gateway0, Ba2|rewrite se_dns0, C2|rewrite se_host0, C2|rewrite se_root0, C2|rewrite se_lease0, C2|rewrite se_server0, C2];
    rewrite <- learned_app; cbn [addrs dhcp_learned set_client set_addrs]; rewrite ?Ba, ?C; done.
Qed.
End Exchange.

(** ** Runs *)

Definition sample_cfg (dhcp : bool) : bootp_config := BootpConfig dhcp true false true true false true false true false false false.
Definition sample_loader : tftp := Tftp 0 0 0 0 10 0 0 0 0 0 512 1468 5000 10 [] [] 0x1000 ∅.
Definition sample_client : bootp := Bootp INIT 0 0 0 0 0 0 [] [] [] 0 false sample_loader.

(** A board without an address. *)
Definition board : net bootp := set_addrs (set_NetOurSubnetMask 0 (set_NetOurIP 0 (addrs (host 1 sample_client)))) (host 1 sample_client).
Definition board_id : Z := new_id (NetOurEther (addrs board)) (now board).
Definition server_addrs : addresses := addrs (host 2 tt).

Lemma board_ok : net_ok board.
Proof. split; try reflexivity; [split; [reflexivity..|by vm_compute]|discriminate]. Qed.

Definition sample_reply (opts : list opt) : reply := Reply OP_BOOTREPLY 0 board_id (replicate 8 0) 0x1000000a 0x0200000a (replicate 84 0) (zs "uImage") opts.
Definition offer_opts : list opt := [(53, [DHCP_OFFER]); (1, [255; 255; 0; 0]); (54, [10; 0; 0; 2])].
Definition ack_opts : list opt := [(53, [DHCP_ACK]); (1, [255; 255; 255; 0]); (3, [10; 0; 0; 254]); (12, zs "board")].

Lemma options_checked (opts : list opt) :
  forallb (fun o => (1 <=? o.1) && (o.1 <? 255) && (length o.2 <? 256)%nat && forallb (fun b => (0 <=? b) && (b <? 256)) o.2 &&
    (negb (existsb (Z.eqb o.1) [1; 3; 6; 51; 54]) || (length o.2 =? 4)%nat) && (negb (o.1 =? 53) || (length o.2 =? 1)%nat) && negb (o.1 =? 67)) opts = true ->
  Forall option_ok opts.
Proof.
  induction opts as [|[c d] opts IH]; [constructor|]. cbn [forallb fst snd]. rewrite !andb_true_iff, !orb_true_iff, !negb_true_iff.
  intros [[[[[[[H1 H2] H3] H4] H5] H6] H7] H]. constructor; [|by apply IH]. apply Z.leb_le in H1. apply Z.ltb_lt in H2. apply Nat.ltb_lt in H3.
  assert (Ha : c ∈ [1; 3; 6; 51; 54] -> length d = 4%nat).
  { intros Hin. destruct H5 as [H5|H5]; [exfalso|by apply Nat.eqb_eq]. apply not_true_iff_false in H5. apply H5, existsb_exists. exists c. split; [by apply list_elem_of_In|apply Z.eqb_refl]. }
  split; cbn [fst snd]; try done.
  - apply Forall_forall. intros b Hb. rewrite forallb_forall in H4. apply list_elem_of_In, H4 in Hb. unfold byte. lia.
  - intros Hin. rewrite Ha; done.
  - intros -> Hd. rewrite Ha in Hd; [lia|]. by apply (bool_decide_unpack _).
  - intros ->. destruct H6 as [H6|H6]; [done|by apply Nat.eqb_eq].
  - intros ->. done.
Qed.

Lemma sample_reply_ok opts : Forall option_ok opts -> (length (options_area opts) <=? 548)%nat = true -> reply_ok (sample_reply opts).
Proof.
  intros Ho Hl. apply Nat.leb_le in Hl. split; cbn [sample_reply r_op r_hops r_id r_secs r_yiaddr r_siaddr r_names r_file r_options]; try done.
  - by apply (bool_decide_unpack _).
  - split; [done|]. by apply Forall_replicate.
  - split; [done|]. by apply Forall_replicate.
  - split; [|by vm_compute; lia]. repeat constructor; unfold nonzero_byte; vm_compute; lia.
Qed.

Lemma dhcp_configures_witness : let cfg := sample_cfg true in let run f := @NetReceive bootp (bootp_client cfg (fun _ _ => 0)) (Config false true) (f ++ [1; 2; 3]) (Z.of_nat (length f)) in
  exists s1 s2 s3, BootpRequest cfg board = Ok (tt, s1) /\
    run (reply_frame server_addrs (NetOurEther (addrs board)) 5 0xFFFFFFFF (sample_reply offer_opts)) s1 = Ok (tt, s2) /\
    run (reply_frame server_addrs (NetOurEther (addrs board)) 6 0xFFFFFFFF (sample_reply ack_opts)) s2 = Ok (tt, s3) /\
    dhcp_state (client s3) = BOUND /\ NetOurIP (addrs s3) = 0x1000000a /\ NetOurSubnetMask (addrs s3) = 0x00ffffff /\
    NetOurHostName (client s3) = zs "board" /\ NetDHCPServerIP (client s3) = 0x0200000a /\ runs_tftp (client s3) = true.
Proof.
  cbv zeta. assert (Wa : addrs_ok server_addrs) by (split; [reflexivity..|vm_compute; split; congruence]).
  assert (Wo : reply_ok (sample_reply offer_opts)) by (apply sample_reply_ok; [apply options_checked|]; vm_compute; reflexivity).
  assert (Wk : reply_ok (sample_reply ack_opts)) by (apply sample_reply_ok; [apply options_checked|]; vm_compute; reflexivity).
  assert (J : Forall byte [1; 2; 3]) by (repeat constructor; unfold byte; lia).
  assert (Hh : hostname_fits (sample_cfg true) (env (edev board))) by exact I.
  assert (Hn : NoDup (vars (env (edev board))).*1) by (apply (bool_decide_unpack _); vm_compute; exact I).
  assert (Hd : 0 <= 0xFFFFFFFF < 4294967296) by lia.
  assert (Es : reply_server board (sample_reply ack_opts) (boot_file (r_file (sample_reply ack_opts)) (r_options (sample_reply ack_opts))) = 0x0200000a) by (vm_compute; reflexivity).
  destruct (dhcp_configures (sample_cfg true) (fun _ _ => 0) (Config false true) server_addrs Wa board (NetOurEther (addrs board)) 5 0xFFFFFFFF (sample_reply offer_opts) [1; 2; 3]
    (NetOurEther (addrs board)) 6 0xFFFFFFFF (sample_reply ack_opts) [1; 2; 3] eq_refl board_ok Hh eq_refl Hn
    eq_refl Hd Wo J eq_refl Hd Wk eq_refl J) as (s1 & q & rq & E1 & _ & _ & Hid & _ & _ & H); [by rewrite Es|by rewrite Es|].
  destruct H as (s2 & a2 & id2 & q2 & s3 & E2 & _ & Ee & _ & E3 & S & L & T & G); [by rewrite Hid..|].
  exists s1, s2, s3. split; [exact E1|]. split; [exact E2|]. split; [exact E3|]. split; [exact S|].
  destruct L as [L _ _ _], T as [T1 _ _ T2 _ _ T3]. split; [exact L|]. split; [exact T1|]. split; [exact T2|]. split; [exact T3|].
  revert G. unfold goes_on, no_load. rewrite Ee. by intros [].
Defined.

Lemma bootp_configures_witness : let cfg := sample_cfg false in let run f := @NetReceive bootp (bootp_client cfg (fun _ _ => 0)) (Config false true) (f ++ [1; 2; 3]) (Z.of_nat (length f)) in
  exists s1 s2, BootpRequest cfg board = Ok (tt, s1) /\
    run (reply_frame server_addrs (NetOurEther (addrs board)) 5 0xFFFFFFFF (sample_reply ack_opts)) s1 = Ok (tt, s2) /\
    NetOurIP (addrs s2) = 0x1000000a /\ NetOurGatewayIP (addrs s2) = 0xfe00000a /\ NetOurHostName (client s2) = zs "board" /\ runs_tftp (client s2) = true.
Proof.
  cbv zeta. assert (Wa : addrs_ok server_addrs) by (split; [reflexivity..|vm_compute; split; congruence]).
  assert (Wk : reply_ok (sample_reply ack_opts)) by (apply sample_reply_ok; [apply options_checked|]; vm_compute; reflexivity).
  assert (J : Forall byte [1; 2; 3]) by (repeat constructor; unfold byte; lia).
  assert (Hn : NoDup (vars (env (edev board))).*1) by (apply (bool_decide_unpack _); vm_compute; exact I).
  assert (Hd : 0 <= 0xFFFFFFFF < 4294967296) by lia.
  assert (Es : reply_server board (sample_reply ack_opts) (r_file (sample_reply ack_opts)) = 0x0200000a) by (vm_compute; reflexivity).
  destruct (bootp_configures (sample_cfg false) (fun _ _ => 0) (Config false true) server_addrs Wa board (NetOurEther (addrs board)) 5 0xFFFFFFFF (sample_reply ack_opts) [1; 2; 3]
    eq_refl board_ok eq_refl Hn eq_refl Hd Wk J) as (s1 & q & rq & E1 & _ & Ee & _ & Hid & _ & _ & H); [by rewrite Es|by rewrite Es|].
  destruct H as (s2 & E2 & L & T & G); [by rewrite Hid|].
  exists s1, s2. split; [exact E1|]. split; [exact E2|].
  destruct L as [L _ _ _], T as [_ T1 _ T2 _ _]. split; [exact L|]. split; [exact T1|]. split; [exact T2|].
  revert G. unfold goes_on, no_load. rewrite Ee. by intros [].
Defined.

(** *** What goes wrong *)

(** A packet with any bytes as options. *)
Definition raw_packet (l : list Z) : list Z := before_file (sample_reply []) ++ file_field (zs "uImage") ++ [99; 130; 83; 99] ++ l.
Definition waiting_for (st : dhcp_state_t) : net bootp := set_client (set_BootpID board_id (set_dhcp_state st (client board))) board.

(** A byte of padding is taken for an option with a length: the gateway behind it is lost. *)
Example padding_hides_option :
  let area pad := pad ++ [3; 4; 10; 0; 0; 254; 255] ++ replicate 700 0 in
  match DhcpOptionsProcess (sample_cfg true) (raw_packet (area [])) (bp_vend + 4) board, DhcpOptionsProcess (sample_cfg true) (raw_packet (area [0])) (bp_vend + 4) board with
  | Ok (_, s1), Ok (_, s2) => (NetOurGatewayIP (addrs s1) =? 0xfe00000a) && (NetOurGatewayIP (addrs s2) =? 0) | _, _ => false end = true.
Proof. vm_compute. reflexivity. Qed.

(** While an offer is awaited, a refusal is taken for one. *)
Example refusal_taken_for_offer :
  let pkt := raw_packet ([53; 1; DHCP_NAK; 255] ++ replicate 320 0) in
  match DhcpHandler (sample_cfg true) [] pkt PORT_BOOTPC PORT_BOOTPS (Z.of_nat (length pkt)) (waiting_for SELECTING) with
  | Ok (_, s) => match dhcp_state (client s) with REQUESTING => (length (sent s) =? 1)%nat | _ => false end | _ => false end = true.
Proof. vm_compute. reflexivity. Qed.

(** While an acknowledgement is awaited, a refusal changes nothing. *)
Example refusal_ignored :
  let pkt := raw_packet ([53; 1; DHCP_NAK; 255] ++ replicate 320 0) in
  DhcpHandler (sample_cfg true) [] pkt PORT_BOOTPC PORT_BOOTPS (Z.of_nat (length pkt)) (waiting_for REQUESTING) = Ok (tt, waiting_for REQUESTING).
Proof. vm_compute. reflexivity. Qed.

(** Without an end the type of a message is looked for behind the packet. *)
Example options_without_end : DhcpMessageType (raw_packet [1; 4; 255; 255; 255; 0]) = Fault.
Proof. vm_compute. reflexivity. Qed.

(** Options are read behind the packet too: here what an earlier one left in the buffer. *)
Example stale_options_read :
  let r := sample_reply [] in let pkt := before_file r ++ file_field (zs "uImage") ++ [99; 130; 83; 99] in
  match DhcpHandler (sample_cfg true) [] (pkt ++ [54; 4; 9; 9; 9; 9; 255]) PORT_BOOTPC PORT_BOOTPS (Z.of_nat (length pkt)) (waiting_for SELECTING) with
  | Ok (_, s) => NetDHCPServerIP (client s) =? 0x09090909 | _ => false end = true.
Proof. vm_compute. reflexivity. Qed.

(** The size of the boot file is forgotten at the next field. *)
Example file_size_forgotten :
  let area := [13; 2; 1; 0; 12; 1; 65; 255] in
  match vendor_loop (sample_cfg false) 400 (raw_packet area) (bp_vend + 4) 300 board, vendor_loop (sample_cfg false) 400 (raw_packet (take 4 area ++ [255])) (bp_vend + 4) 300 board with
  | Ok (_, s1), Ok (_, s2) => (NetBootFileSize (client s1) =? 0) && (NetBootFileSize (client s2) =? 256) | _, _ => false end = true.
Proof. vm_compute. reflexivity. Qed.
