(* ===== verification/Stm32.v ===== *)
(** * The STM32F10x port: timer, clocks, embedded flash

    cpu/arm_cortexm3/timer.c, the tick counter; cpu/arm_cortexm3/stm32f10x/clock.c
    and envm.c.  The registers of the tick counter are a record; a reading of its
    value is an argument, for the delay loop a sequence of readings.  The routines of
    the vendor's flash library appear as the operations they are called for, listed in
    order with what the code writes to the flash by itself. *)

From S2P Require Import Prelude.

(** ** Clocks (stm32f10x/clock.c) *)

Definition CLOCK_SYSCLK : nat := 0.
Definition CLOCK_HCLK : nat := 1.
Definition CLOCK_PCLK1 : nat := 2.
Definition CLOCK_PCLK2 : nat := 3.
Definition CLOCK_SYSTICK : nat := 4.
Definition CLOCK_END : nat := 5.

(** [clock_val] after [clock_init]. *)
Definition clock_init (clock_val : list Z) : list Z :=
  <[CLOCK_SYSTICK := 0]> (<[CLOCK_PCLK2 := 0]> (<[CLOCK_PCLK1 := 0]> (<[CLOCK_HCLK := 0]> (<[CLOCK_SYSCLK := 0]> clock_val)))).

Definition clock_get (clock_val : list Z) (clck : nat) : res Z := arr_get clock_val clck.

(** ** The timer (timer.c) *)

Definition CM3_SYSTICK_LOAD_RELOAD_MSK : Z := 0xFFFFFF.
Definition CM3_SYSTICK_CTRL_EN : Z := 1.
Definition CM3_SYSTICK_CTRL_SYSTICK_CPU : Z := 4.
Definition CONFIG_SYS_HZ : Z := 1000.

(** The registers of the tick counter and the two variables of the file. *)
Record timer := Timer {
  ctrl : Z;
  load : Z;
  val : Z;
  timestamp : Z;
  lastdec : Z
}.

(** [systick_cpu] is [CONFIG_ARMCORTEXM3_SYSTICK_CPU]. *)
Definition timer_init (systick_cpu : bool) (s : timer) : timer :=
  Timer (if systick_cpu then Z.lor CM3_SYSTICK_CTRL_EN CM3_SYSTICK_CTRL_SYSTICK_CPU else CM3_SYSTICK_CTRL_EN)
    (CM3_SYSTICK_LOAD_RELOAD_MSK - 1) 0 0 (lastdec s).

(** The update of the time stamp with the reading [now]. *)
Definition advance (now : Z) (s : timer) : timer :=
  let delta := if now <=? lastdec s then u32 (lastdec s - now)
               else u32 (lastdec s + CM3_SYSTICK_LOAD_RELOAD_MSK - 1 - now) in
  Timer (ctrl s) (load s) (val s) (u64 (timestamp s + delta)) now.

Definition get_timer (clock_val : list Z) (base now : Z) (s : timer) : res (Z * timer) :=
  let s := advance now s in
  clk ← clock_get clock_val CLOCK_SYSTICK;
  let hz := clk / CONFIG_SYS_HZ in
  if hz =? 0 then Fault else mret (u32 (timestamp s / hz - base), s).

Definition reset_timer (now : Z) (s : timer) : timer := Timer (ctrl s) (load s) (val s) 0 now.

(** The two waiting loops of [__udelay] on the readings [rd] of the counter, from
    the [i]th reading on: the number of readings taken at the end. *)
Fixpoint wait_wrapped (fuel : nat) (rd : nat -> Z) (i : nat) (tmp lim : Z) : res nat :=
  match fuel with
  | O => OutOfFuel
  | S fuel =>
      if rd i <? tmp then wait_wrapped fuel rd (S i) tmp lim
      else if lim <? rd (S i) then wait_wrapped fuel rd (S (S i)) tmp lim
      else mret (S (S i))
  end.

Fixpoint wait_down (fuel : nat) (rd : nat -> Z) (i : nat) (tmp lim : Z) : res nat :=
  match fuel with
  | O => OutOfFuel
  | S fuel =>
      if lim <? rd i then
        if rd (S i) <=? tmp then wait_down fuel rd (S (S i)) tmp lim else mret (S (S i))
      else mret (S i)
  end.

Definition __udelay (fuel : nat) (clock_val : list Z) (rd : nat -> Z) (usec : Z) : res nat :=
  clk ← clock_get clock_val CLOCK_SYSTICK;
  let clc := u32 (usec * (clk / 1000000)) in
  let tmp := rd 0%nat in
  if tmp <? clc then wait_wrapped fuel rd 1 tmp (u32 (CM3_SYSTICK_LOAD_RELOAD_MSK - 1 - clc + tmp))
  else wait_down fuel rd 1 tmp (u32 (tmp - clc)).

Definition get_tbclk (clock_val : list Z) : res Z := clock_get clock_val CLOCK_SYSTICK.

(** ** Embedded flash (stm32f10x/envm.c) *)

Definition STM32_FLASH_BASE : Z := 0x08000000.
Definition STM32_FLASH_SIZE : Z := 512 * 1024.
Definition flash_bsize : list Z := replicate 4 (16 * 1024) ++ [64 * 1024] ++ replicate 7 (128 * 1024).
Definition STM32_FLASH_BLOCKS : nat := length flash_bsize.
Definition EINVAL : Z := 22.
Definition EBUSY : Z := 16.

(** What is done to the flash: calls of the library, and stores. *)
Inductive flash_op :=
  | FLASH_Unlock
  | FLASH_Lock
  | FLASH_ErasePage (addr : Z)
  | FLASH_ProgramWord (addr data : Z)
  | Store32 (addr data : Z).

(** From block [i] that begins at [base] on. *)
Fixpoint get_block_loop (sizes : list Z) (addr base i : Z) : Z :=
  match sizes with
  | [] => - EINVAL
  | size :: sizes => if addr =? base then i else get_block_loop sizes addr (base + size) (i + 1)
  end.

Definition stm32_flash_get_block (addr : Z) : Z := get_block_loop flash_bsize addr STM32_FLASH_BASE 0.

(** The number of blocks whose sizes add up to [size]: the block behind them. *)
Fixpoint erase_count (fuel : nat) (erasesize size : Z) (num : nat) : res nat :=
  if erasesize <? size then
    match fuel with
    | O => OutOfFuel
    | S fuel => b ← arr_get flash_bsize num; erase_count fuel (u32 (erasesize + b)) size (S num)
    end
  else mret num.

Definition stm32_flash_erase (offset size : Z) : res (Z * list flash_op) :=
  let n := stm32_flash_get_block offset in
  if n <? 0 then mret (n, [])
  else
    num ← erase_count (S STM32_FLASH_BLOCKS) 0 size (Z.to_nat n);
    mret (0, FLASH_Unlock :: map (fun i => FLASH_ErasePage (u32 (offset + Z.of_nat i * 2048))) (seq (Z.to_nat n) (num - Z.to_nat n))
      ++ [FLASH_Lock]).

(** The copying loop: two words of the buffer are read in each turn. *)
Fixpoint program_loop (words : nat) (dst offset : Z) (src : list Z) : res (list flash_op) :=
  match words with
  | O => mret []
  | S words =>
      a ← arr_get src 0;
      b ← arr_get src 1;
      ops ← program_loop words (u32 (dst + 4)) (u32 (offset + 1)) (drop 2 src);
      mret (Store32 dst a :: FLASH_ProgramWord offset b :: ops)
  end.

(** [src]: the words from [buf] on that may be read; [busy]: the status flag. *)
Definition stm32_flash_program (busy : bool) (offset : Z) (src : list Z) (size : Z) : res (Z * list flash_op) :=
  let words := u32 (size + 4 - 1) / 4 in
  if busy then mret (- EBUSY, [])
  else ops ← program_loop (Z.to_nat words) offset offset src; mret (0, FLASH_Unlock :: ops ++ [FLASH_Lock]).

Definition envm_write (busy : bool) (offset : Z) (src : list Z) (size : Z) : res (Z * list flash_op) :=
  if (offset <? STM32_FLASH_BASE) || (STM32_FLASH_BASE + STM32_FLASH_SIZE <? u32 (offset + size)) then mret (0, [])
  else
    '(r, ops) ← stm32_flash_erase offset size;
    if r <? 0 then mret (0, ops)
    else
      '(r, ops') ← stm32_flash_program busy offset src size;
      if r <? 0 then mret (0, ops ++ ops') else mret (size, ops ++ ops').

(** ** The timer counts *)

(** The counter counts down from its reload value and starts again: its period is
    one more than that. *)
Definition reading (v0 t : Z) : Z := (v0 - t) mod CM3_SYSTICK_LOAD_RELOAD_MSK.

(** How often it has started again between two times. *)
Definition restarts (v0 t t' : Z) : Z := (v0 - t) / CM3_SYSTICK_LOAD_RELOAD_MSK - (v0 - t') / CM3_SYSTICK_LOAD_RELOAD_MSK.

Lemma reading_range v0 t : 0 <= reading v0 t < CM3_SYSTICK_LOAD_RELOAD_MSK.
Proof. apply Z.mod_pos_bound. reflexivity. Qed.

Lemma reading_later v0 t e : 0 <= e < CM3_SYSTICK_LOAD_RELOAD_MSK ->
  reading v0 (t + e) = if e <=? reading v0 t then reading v0 t - e else reading v0 t + CM3_SYSTICK_LOAD_RELOAD_MSK - e.
Proof.
  unfold reading, CM3_SYSTICK_LOAD_RELOAD_MSK. intros He. replace (v0 - (t + e)) with (v0 - t - e) by lia. set (a := v0 - t). clearbody a.
  rewrite <- Zminus_mod_idemp_l. pose proof (Z.mod_pos_bound a 0xffffff ltac:(lia)). set (m := a mod 0xffffff) in *. clearbody m.
  destruct (Z.leb_spec e m); [apply Z.mod_small; lia|]. symmetry. apply (Z.mod_unique_pos _ _ (-1)); lia.
Qed.

Lemma advance_step v0 s t t' : lastdec s = reading v0 t -> t <= t' < t + CM3_SYSTICK_LOAD_RELOAD_MSK ->
  advance (reading v0 t') s = Timer (ctrl s) (load s) (val s) (u64 (timestamp s + (t' - t) - restarts v0 t t')) (reading v0 t').
Proof.
  intros El Ht. unfold advance. rewrite El. f_equal. f_equal.
  pose proof (reading_range v0 t) as R. pose proof (reading_range v0 t') as R'. unfold restarts.
  unfold reading, CM3_SYSTICK_LOAD_RELOAD_MSK in *.
  pose proof (Z.div_mod (v0 - t) 0xffffff ltac:(lia)). pose proof (Z.div_mod (v0 - t') 0xffffff ltac:(lia)).
  set (q := (v0 - t) / 0xffffff) in *. set (q' := (v0 - t') / 0xffffff) in *.
  set (m := (v0 - t) mod 0xffffff) in *. set (m' := (v0 - t') mod 0xffffff) in *. clearbody q q' m m'.
  destruct (Z.leb_spec m' m); rewrite u32_small; lia.
Qed.

(** The time stamp after readings at the times of a list. *)
Definition readings (v0 : Z) (ts : list Z) (s : timer) : timer := fold_left (fun s t => advance (reading v0 t) s) ts s.

Lemma last_cons_default {A} (x d : A) l : List.last (x :: l) d = List.last l x.
Proof.
  assert (H : forall l (y d e : A), List.last (y :: l) d = List.last (y :: l) e).
  { clear. induction l as [|z l IH]; intros y d e; [done|]. apply IH. }
  destruct l as [|y l]; [done|]. exact (H l y d x).
Qed.

(** Times in order, less than a period apart. *)
Fixpoint close_times (t : Z) (ts : list Z) : Prop :=
  match ts with [] => True | t' :: ts => t <= t' < t + CM3_SYSTICK_LOAD_RELOAD_MSK /\ close_times t' ts end.

(** If the counter is read at least once in a period, the time stamp grows by the
    ticks that passed, less one for every time that the counter started again. *)
Theorem timestamp_counts v0 s t ts : lastdec s = reading v0 t -> 0 <= timestamp s < 18446744073709551616 -> close_times t ts ->
  let t' := List.last ts t in
  timestamp (readings v0 ts s) = u64 (timestamp s + (t' - t) - restarts v0 t t') /\
  lastdec (readings v0 ts s) = reading v0 t'.
Proof.
  revert s t. induction ts as [|t1 ts IH]; intros s t El Hr Hc; cbv zeta.
  - split; [|done]. cbn. unfold restarts. rewrite Z.sub_diag, Z.sub_diag, u64_small; lia.
  - destruct Hc as [Ht Hc]. cbn [readings fold_left]. rewrite (advance_step v0 s t t1 El Ht). set (s1 := Timer _ _ _ _ _).
    destruct (IH s1 t1 eq_refl) as [H1 H2]; [apply Z.mod_pos_bound; lia|done|]. unfold readings in *.
    assert (E : List.last (t1 :: ts) t = List.last ts t1).
    { apply last_cons_default. }
    rewrite E. split; [|done]. rewrite H1. unfold s1, u64. cbn [timestamp]. set (t' := List.last ts t1).
    rewrite <- Z.add_sub_assoc, Zplus_mod_idemp_l. f_equal. unfold restarts. lia.
Qed.

(** How far the time stamp is behind. *)
Lemma restarts_bound v0 t t' : t <= t' -> 0 <= restarts v0 t t' <= (t' - t) / CM3_SYSTICK_LOAD_RELOAD_MSK + 1.
Proof. intros H. unfold restarts, CM3_SYSTICK_LOAD_RELOAD_MSK. zmod. Qed.

(** [clock_init] of this port sets every frequency to 0, so that [get_timer] divides
    by zero, whatever the state of the timer is. *)
Theorem get_timer_divides_by_zero clock_val base now s : length clock_val = CLOCK_END ->
  get_timer (clock_init clock_val) base now s = Fault.
Proof.
  intros Hl. unfold get_timer, clock_get, clock_init. do 5 (destruct clock_val as [|? clock_val]; [done|]). by destruct clock_val.
Qed.

(** ** The delay *)

Section Delay.
Context (v0 : Z) (T : nat -> Z) (G : Z).
Hypothesis Hticks : forall i, T i < T (S i) <= T i + G.
#[local] Abbreviation M := CM3_SYSTICK_LOAD_RELOAD_MSK.

Definition rd (i : nat) : Z := reading v0 (T i).
Definition elapsed (i : nat) : Z := T i - T 0%nat.

Lemma elapsed_mono i j : (i <= j)%nat -> elapsed i <= elapsed j.
Proof. unfold elapsed. induction 1 as [|j _ IH]; [lia|]. pose proof (Hticks j). lia. Qed.

Lemma elapsed_pos i : Z.of_nat i <= elapsed i.
Proof. unfold elapsed. induction i as [|i IH]; [lia|]. pose proof (Hticks i). lia. Qed.

Lemma rd_elapsed i : elapsed i < M -> rd i = if elapsed i <=? rd 0%nat then rd 0%nat - elapsed i else rd 0%nat + M - elapsed i.
Proof.
  intros H. unfold rd. rewrite <- reading_later.
  - f_equal. unfold elapsed. lia.
  - pose proof (elapsed_pos i). lia.
Qed.

Lemma wait_down_ok clc fuel i : 0 <= clc <= rd 0%nat -> clc + 3 * G < M -> (1 <= i)%nat -> elapsed (i - 1) <= clc + G ->
  clc + G + 1 - Z.of_nat i < Z.of_nat fuel ->
  exists k, wait_down fuel rd i (rd 0%nat) (rd 0%nat - clc) = Ok (S k) /\ clc <= elapsed k <= clc + 3 * G.
Proof.
  intros Hc HG. revert i. induction fuel as [|fuel IH]; intros i Hi He Hf.
  { exfalso. pose proof (elapsed_pos (i - 1)). lia. }
  destruct i as [|i]; [lia|]. replace (S i - 1)%nat with i in He by lia.
  assert (H1 : elapsed i < elapsed (S i) <= elapsed i + G) by (unfold elapsed; pose proof (Hticks i); lia).
  assert (H2 : elapsed (S i) < elapsed (S (S i)) <= elapsed (S i) + G) by (unfold elapsed; pose proof (Hticks (S i)); lia).
  pose proof (elapsed_pos i). pose proof (reading_range v0 (T 0%nat)) as R0. fold (rd 0%nat) in R0.
  pose proof (rd_elapsed (S i)) as E1. pose proof (rd_elapsed (S (S i))) as E2. cbn [wait_down].
  destruct (Z.ltb_spec (rd 0%nat - clc) (rd (S i))).
  - destruct (Z.leb_spec (rd (S (S i))) (rd 0%nat)).
    + assert (elapsed (S i) < clc).
      { destruct (Z.leb_spec (elapsed (S i)) (rd 0%nat)); [lia|].
        destruct (Z.leb_spec (elapsed (S (S i))) (rd 0%nat)); lia. }
      apply (IH (S (S (S i)))); [lia|replace (S (S (S i)) - 1)%nat with (S (S i)) by lia; lia|lia].
    + exists (S (S i)). split; [done|]. destruct (Z.leb_spec (elapsed (S (S i))) (rd 0%nat)); lia.
  - exists (S i). split; [done|]. destruct (Z.leb_spec (elapsed (S i)) (rd 0%nat)); lia.
Qed.

Lemma wait_wrapped_ok clc fuel i : rd 0%nat < clc -> clc + 3 * G < M -> (1 <= i)%nat -> elapsed (i - 1) <= clc ->
  clc + 1 - Z.of_nat i < Z.of_nat fuel ->
  exists k, wait_wrapped fuel rd i (rd 0%nat) (M - 1 - clc + rd 0%nat) = Ok (S k) /\ clc <= elapsed k <= clc + 3 * G.
Proof.
  intros Hc HG. revert i. induction fuel as [|fuel IH]; intros i Hi He Hf.
  { exfalso. pose proof (elapsed_pos (i - 1)). lia. }
  destruct i as [|i]; [lia|]. replace (S i - 1)%nat with i in He by lia.
  assert (H1 : elapsed i < elapsed (S i) <= elapsed i + G) by (unfold elapsed; pose proof (Hticks i); lia).
  assert (H2 : elapsed (S i) < elapsed (S (S i)) <= elapsed (S i) + G) by (unfold elapsed; pose proof (Hticks (S i)); lia).
  pose proof (elapsed_pos i). pose proof (reading_range v0 (T 0%nat)) as R0. fold (rd 0%nat) in R0.
  pose proof (rd_elapsed (S i)) as E1. pose proof (rd_elapsed (S (S i))) as E2. cbn [wait_wrapped].
  destruct (Z.ltb_spec (rd (S i)) (rd 0%nat)).
  - apply (IH (S (S i))); [lia| |lia]. replace (S (S i) - 1)%nat with (S i) by lia. destruct (Z.leb_spec (elapsed (S i)) (rd 0%nat)); lia.
  - destruct (Z.ltb_spec (M - 1 - clc + rd 0%nat) (rd (S (S i)))).
    + apply (IH (S (S (S i)))); [lia| |lia]. replace (S (S (S i)) - 1)%nat with (S (S i)) by lia.
      destruct (Z.leb_spec (elapsed (S (S i))) (rd 0%nat)); lia.
    + exists (S (S i)). split; [done|]. destruct (Z.leb_spec (elapsed (S (S i))) (rd 0%nat)), (Z.leb_spec (elapsed (S i)) (rd 0%nat)); lia.
Qed.

Lemma udelay_ticks clock_val clk usec : clock_val !! CLOCK_SYSTICK = Some clk ->
  let clc := usec * (clk / 1000000) in
  0 <= clc -> clc + 3 * G < M ->
  exists k, __udelay (Z.to_nat (clc + G + 1)) clock_val rd usec = Ok (S k) /\ clc <= elapsed k <= clc + 3 * G.
Proof.
  intros Hclk clc H0 HG. unfold __udelay, clock_get, arr_get. rewrite Hclk. cbn [of_option]. unfold mbind, res_bind. cbv zeta. fold clc.
  pose proof (Hticks 0). pose proof (reading_range v0 (T 0%nat)) as R0. fold (rd 0%nat) in R0. unfold M in *.
  assert (E0 : elapsed (1 - 1) = 0) by (unfold elapsed; cbn [Nat.sub]; lia).
  rewrite (u32_small clc) by lia. destruct (Z.ltb_spec (rd 0%nat) clc).
  - rewrite u32_small by lia. apply wait_wrapped_ok; unfold M; lia.
  - rewrite u32_small by lia. apply wait_down_ok; unfold M; lia.
Qed.

(** C34: A delay, measured in time: with a counter that runs at [clk] Hz, [usec]
    microseconds are [usec * clk / 1000000] of its ticks. When successive readings of
    the counter are at least one and at most [G] ticks apart, and the delay is shorter
    than the counter's period, [__udelay] ends, after no fewer ticks than those when
    [clk] is a whole number of MHz, and otherwise early by the fraction of a MHz that
    it drops; it ends at most three readings late, whether or not the counter starts
    again. The frequency is the one [clock_get] knows; on this port that is 0, see
    [udelay_port]. *)
Theorem udelay_correct clock_val clk usec : clock_val !! CLOCK_SYSTICK = Some clk ->
  0 <= clk -> 0 <= usec -> usec * (clk / 1000000) + 3 * G < M ->
  exists k, __udelay (Z.to_nat (usec * (clk / 1000000) + G + 1)) clock_val rd usec = Ok (S k) /\
    usec * (clk - clk mod 1000000) <= 1000000 * elapsed k <= usec * clk + 1000000 * (3 * G).
Proof.
  intros Hclk Hc Hu HG. assert (0 <= clk / 1000000) by (apply Z.div_pos; lia).
  destruct (udelay_ticks clock_val clk usec Hclk ltac:(cbv zeta; nia) HG) as (k & E & H1). exists k. split; [exact E|].
  pose proof (Z.div_mod clk 1000000 ltac:(lia)). pose proof (Z.mod_pos_bound clk 1000000 ltac:(lia)).
  set (q := clk / 1000000) in *. set (r := clk mod 1000000) in *. replace clk with (1000000 * q + r) by lia. nia.
Qed.
End Delay.

(** ** The embedded flash *)

(** A buffer that holds just the words to be written is read past its end. *)
Theorem program_reads_past_end offset src : (0 < length src)%nat -> 4 * Z.of_nat (length src) + 4 < 4294967296 ->
  stm32_flash_program false offset src (4 * Z.of_nat (length src)) = Fault.
Proof.
  intros Hl Hb. unfold stm32_flash_program. cbv zeta. rewrite u32_small by lia.
  replace ((4 * Z.of_nat (length src) + 4 - 1) / 4) with (Z.of_nat (length src)) by zmod. rewrite Nat2Z.id.
  assert (H : forall words dst off l, (length l < 2 * words)%nat -> program_loop words dst off l = Fault).
  { induction words as [|words IH]; intros dst off l Hw; [lia|]. cbn [program_loop].
    destruct l as [|a [|b l]]; [done|done|]. cbn [arr_get lookup list_lookup of_option length] in *.
    unfold mbind, res_bind. unfold arr_get. cbn [lookup list_lookup of_option]. change (drop 2 (a :: b :: l)) with l. by rewrite IH by lia. }
  by rewrite H by lia.
Qed.

(** Where the blocks of [flash_bsize] begin. *)
Definition block_start (i : nat) : Z := STM32_FLASH_BASE + fold_right Z.add 0 (take i flash_bsize).

Lemma get_block_start i : (i < STM32_FLASH_BLOCKS)%nat -> stm32_flash_get_block (block_start i) = Z.of_nat i.
Proof.
  intros Hi. unfold STM32_FLASH_BLOCKS in Hi. change (length flash_bsize) with 12%nat in Hi. do 12 (destruct i as [|i]; [reflexivity|]). lia.
Qed.

Lemma bsize_all : Forall (fun b => 0 < b <= 131072) flash_bsize.
Proof. apply (bool_decide_unpack _). vm_compute. exact I. Qed.

(** The sizes of [k] blocks from block [n] on. *)
Definition span (n k : nat) : Z := fold_right Z.add 0 (take k (drop n flash_bsize)).

Lemma span_nonneg n k : 0 <= span n k.
Proof.
  assert (F : Forall (fun b => 0 < b <= 131072) (take k (drop n flash_bsize))) by (apply Forall_take, Forall_drop, bsize_all).
  unfold span. induction F as [|x l Hx _ IH]; cbn; lia.
Qed.

Lemma bsize_bounds b : b ∈ flash_bsize -> 0 < b <= 131072.
Proof. intros H. by apply (proj1 (Forall_forall _ _) bsize_all). Qed.

Lemma erase_count_ok fuel acc size n : (n <= STM32_FLASH_BLOCKS)%nat -> (STM32_FLASH_BLOCKS - n < fuel)%nat ->
  0 <= acc -> acc + span n (STM32_FLASH_BLOCKS - n) < 4294967296 -> size <= acc + span n (STM32_FLASH_BLOCKS - n) ->
  exists k, (n + k <= STM32_FLASH_BLOCKS)%nat /\ erase_count fuel acc size n = Ok (n + k)%nat /\ size <= acc + span n k /\
    (forall j, (j < k)%nat -> acc + span n j < size).
Proof.
  revert acc n. induction fuel as [|fuel IH]; intros acc n Hn Hf Ha Hb Hs; [lia|]. cbn [erase_count].
  destruct (Z.ltb_spec acc size).
  - assert (Hlt : (n < STM32_FLASH_BLOCKS)%nat).
    { destruct (decide (n = STM32_FLASH_BLOCKS)) as [->|]; [|lia]. rewrite Nat.sub_diag in Hs. cbn in Hs. lia. }
    destruct (lookup_lt_is_Some_2 flash_bsize n Hlt) as [bs Eb]. unfold arr_get. rewrite Eb. unfold mbind, res_bind. cbn [of_option].
    pose proof (bsize_bounds bs (list_elem_of_lookup_2 _ _ _ Eb)) as Hbs.
    assert (Es : forall k, span n (S k) = bs + span (S n) k) by (intros k; unfold span; by rewrite (drop_S _ _ _ Eb)).
    replace (STM32_FLASH_BLOCKS - n)%nat with (S (STM32_FLASH_BLOCKS - S n)) in Hb, Hs by lia. rewrite Es in Hb, Hs.
    pose proof (span_nonneg (S n) (STM32_FLASH_BLOCKS - S n)) as Hp.
    rewrite u32_small by lia. destruct (IH (acc + bs) (S n)) as (k & H1 & H2 & H3 & H4); [lia|lia|lia|lia|lia|].
    exists (S k). split; [lia|]. split; [rewrite H2; f_equal; lia|]. rewrite Es. split; [lia|].
    intros [|j] Hj; [change (span n 0) with 0; lia|]. rewrite Es. specialize (H4 j). lia.
  - exists 0%nat. split; [lia|]. split; [by rewrite Nat.add_0_r|]. split; [change (span n 0) with 0; lia|]. lia.
Qed.

Lemma blocks_end n : (n < STM32_FLASH_BLOCKS)%nat -> block_start n + span n (STM32_FLASH_BLOCKS - n) = STM32_FLASH_BASE + 2 * STM32_FLASH_SIZE.
Proof.
  intros Hi. change STM32_FLASH_BLOCKS with 12%nat in *. do 12 (destruct n as [|n]; [reflexivity|]). lia.
Qed.

Lemma block_start_ge n : STM32_FLASH_BASE <= block_start n.
Proof. unfold block_start. pose proof (span_nonneg 0 n) as H. unfold span in H. rewrite drop_0 in H. lia. Qed.

(** Erasing counts in the blocks of the table, of 16 to 128 KiB, but for each of them
    it erases a page of 2 KiB, the pages from the block's number times 2 KiB behind
    the offset on. *)
Theorem erase_correct n size : (n < STM32_FLASH_BLOCKS)%nat -> 0 <= size -> block_start n + size <= STM32_FLASH_BASE + 2 * STM32_FLASH_SIZE ->
  exists k, stm32_flash_erase (block_start n) size = Ok (0, FLASH_Unlock ::
      map (fun i => FLASH_ErasePage (u32 (block_start n + Z.of_nat i * 2048))) (seq n k) ++ [FLASH_Lock]) /\
    size <= span n k /\ forall j, (j < k)%nat -> span n j < size.
Proof.
  intros Hn Hs He. pose proof (blocks_end n Hn) as Hend. pose proof (block_start_ge n).
  unfold STM32_FLASH_BASE, STM32_FLASH_SIZE in *.
  destruct (erase_count_ok (S STM32_FLASH_BLOCKS) 0 size n) as (k & Hk & E & H1 & H2); [lia..|].
  exists k. split; [|by split].
  unfold stm32_flash_erase. rewrite get_block_start by done. destruct (Z.ltb_spec (Z.of_nat n) 0); [lia|].
  rewrite Nat2Z.id, E. unfold mbind, res_bind. by replace (n + k - n)%nat with k by lia.
Qed.

(** So nothing can be written to the embedded flash from a buffer that holds just
    what is to be written. *)
Theorem envm_write_reads_past_end n src : (n < STM32_FLASH_BLOCKS)%nat -> (0 < length src)%nat ->
  block_start n + 4 * Z.of_nat (length src) <= STM32_FLASH_BASE + STM32_FLASH_SIZE ->
  envm_write false (block_start n) src (4 * Z.of_nat (length src)) = Fault.
Proof.
  intros Hn Hl He. unfold envm_write. pose proof (block_start_ge n). 
  destruct (erase_correct n (4 * Z.of_nat (length src)) Hn) as (k & E & _); [lia|unfold STM32_FLASH_BASE, STM32_FLASH_SIZE in *; lia|].
  unfold STM32_FLASH_BASE, STM32_FLASH_SIZE in *. rewrite u32_small by lia.
  destruct (Z.ltb_spec (block_start n) 134217728); [lia|].
  destruct (Z.ltb_spec (134217728 + 512 * 1024) (block_start n + 4 * Z.of_nat (length src))); [lia|]. cbn [orb].
  rewrite E. unfold mbind at 1, res_bind at 1. cbv iota beta zeta. change (0 <? 0) with false. cbv iota.
  rewrite program_reads_past_end by lia. done.
Qed.

(** ** Concrete runs *)

Lemma timestamp_counts_witness :
  let s := Timer 5 0xFFFFFE 0 0 10 in
  timestamp (readings 10 [8; 12; 0x1000000] s) = u64 (0x1000000 - 1) /\ lastdec (readings 10 [8; 12; 0x1000000] s) = reading 10 0x1000000.
Proof.
  apply (timestamp_counts 10 (Timer 5 0xFFFFFE 0 0 10) 0 [8; 12; 0x1000000]); [reflexivity|cbn; lia|].
  cbn. unfold CM3_SYSTICK_LOAD_RELOAD_MSK. lia.
Defined.

Lemma get_timer_divides_by_zero_witness :
  get_timer (clock_init (replicate 5 72000000)) 0 1000 (timer_init true (Timer 0 0 0 0 0)) = Fault.
Proof. apply get_timer_divides_by_zero. reflexivity. Defined.

(** A counter that is read every ten ticks. *)
Definition every_ten (i : nat) : Z := 10 * Z.of_nat i.

Lemma udelay_correct_witness : exists k,
  __udelay (Z.to_nat (72 + 10 + 1)) [0; 0; 0; 0; 72000000] (rd 40 every_ten) 1 = Ok (S k) /\
  72000000 <= 1000000 * elapsed every_ten k <= 72000000 + 1000000 * 30.
Proof.
  apply (udelay_correct 40 every_ten 10) with (clk := 72000000) (usec := 1).
  - intros i. unfold every_ten. lia.
  - reflexivity.
  - lia.
  - lia.
  - change (1 * (72000000 / 1000000)) with 72. unfold CM3_SYSTICK_LOAD_RELOAD_MSK. lia.
Defined.

Example udelay_readings : __udelay 100 [0; 0; 0; 0; 72000000] (rd 40 every_ten) 1 = Ok 9%nat.
Proof. vm_compute. reflexivity. Qed.

(** With the frequencies of this port there is no delay. *)
Example udelay_port : __udelay 100 (clock_init (replicate 5 0)) (rd 40 every_ten) 1000000 = Ok 2%nat.
Proof. vm_compute. reflexivity. Qed.

Lemma program_reads_past_end_witness : stm32_flash_program false STM32_FLASH_BASE [1; 2; 3] 12 = Fault.
Proof. apply (program_reads_past_end STM32_FLASH_BASE [1; 2; 3]); cbn; lia. Defined.

Lemma envm_write_reads_past_end_witness : envm_write false 0x08004000 [1; 2] 8 = Fault.
Proof. apply (envm_write_reads_past_end 1 [1; 2]); first [by vm_compute | vm_compute; lia]. Defined.

Lemma erase_correct_witness : exists k, stm32_flash_erase 0x08004000 0x5000 = Ok (0, FLASH_Unlock ::
      map (fun i => FLASH_ErasePage (u32 (0x08004000 + Z.of_nat i * 2048))) (seq 1 k) ++ [FLASH_Lock]) /\
    0x5000 <= span 1 k /\ forall j, (j < k)%nat -> span 1 j < 0x5000.
Proof. apply (erase_correct 1 0x5000); first [by vm_compute | vm_compute; lia]. Defined.

(** 16 KiB at the second block: one page of 2 KiB, not at the block's begin. *)
Example erase_16k : stm32_flash_erase 0x08004000 0x4000 = Ok (0, [FLASH_Unlock; FLASH_ErasePage 0x08004800; FLASH_Lock]).
Proof. reflexivity. Qed.

(** With more words behind the buffer: every other word is stored, and the words
    between are programmed at addresses one byte apart. *)
Example program_four : stm32_flash_program false 0x08000000 [1; 2; 3; 4; 5; 6; 7; 8] 16 = Ok (0,
  [FLASH_Unlock; Store32 0x08000000 1; FLASH_ProgramWord 0x08000000 2; Store32 0x08000004 3; FLASH_ProgramWord 0x08000001 4;
   Store32 0x08000008 5; FLASH_ProgramWord 0x08000002 6; Store32 0x0800000C 7; FLASH_ProgramWord 0x08000003 8; FLASH_Lock]).
Proof. reflexivity. Qed.

(** The sum of offset and size may wrap: the check passes and the table of blocks is
    read past its end. *)
Example size_wraps : envm_write false 0x08000000 [1; 2] 0xFFFFFFF0 = Fault.
Proof. reflexivity. Qed.
