(* ===== verification/NandEcc.v ===== *)
(** * Software ECC of NAND pages (drivers/mtd/nand/nand_ecc.c)

    Three bytes of parity for each block of 256 bytes: which of the 2048 bits was
    flipped, if one was.  [smc] is [CONFIG_MTD_NAND_ECC_SMC], the order of the first
    two bytes. *)

From S2P Require Import Prelude Ctype.

Definition nand_ecc_precalc_table : list Z :=
  [0x00; 0x55; 0x56; 0x03; 0x59; 0x0c; 0x0f; 0x5a; 0x5a; 0x0f; 0x0c; 0x59; 0x03; 0x56; 0x55; 0x00;
   0x65; 0x30; 0x33; 0x66; 0x3c; 0x69; 0x6a; 0x3f; 0x3f; 0x6a; 0x69; 0x3c; 0x66; 0x33; 0x30; 0x65;
   0x66; 0x33; 0x30; 0x65; 0x3f; 0x6a; 0x69; 0x3c; 0x3c; 0x69; 0x6a; 0x3f; 0x65; 0x30; 0x33; 0x66;
   0x03; 0x56; 0x55; 0x00; 0x5a; 0x0f; 0x0c; 0x59; 0x59; 0x0c; 0x0f; 0x5a; 0x00; 0x55; 0x56; 0x03;
   0x69; 0x3c; 0x3f; 0x6a; 0x30; 0x65; 0x66; 0x33; 0x33; 0x66; 0x65; 0x30; 0x6a; 0x3f; 0x3c; 0x69;
   0x0c; 0x59; 0x5a; 0x0f; 0x55; 0x00; 0x03; 0x56; 0x56; 0x03; 0x00; 0x55; 0x0f; 0x5a; 0x59; 0x0c;
   0x0f; 0x5a; 0x59; 0x0c; 0x56; 0x03; 0x00; 0x55; 0x55; 0x00; 0x03; 0x56; 0x0c; 0x59; 0x5a; 0x0f;
   0x6a; 0x3f; 0x3c; 0x69; 0x33; 0x66; 0x65; 0x30; 0x30; 0x65; 0x66; 0x33; 0x69; 0x3c; 0x3f; 0x6a;
   0x6a; 0x3f; 0x3c; 0x69; 0x33; 0x66; 0x65; 0x30; 0x30; 0x65; 0x66; 0x33; 0x69; 0x3c; 0x3f; 0x6a;
   0x0f; 0x5a; 0x59; 0x0c; 0x56; 0x03; 0x00; 0x55; 0x55; 0x00; 0x03; 0x56; 0x0c; 0x59; 0x5a; 0x0f;
   0x0c; 0x59; 0x5a; 0x0f; 0x55; 0x00; 0x03; 0x56; 0x56; 0x03; 0x00; 0x55; 0x0f; 0x5a; 0x59; 0x0c;
   0x69; 0x3c; 0x3f; 0x6a; 0x30; 0x65; 0x66; 0x33; 0x33; 0x66; 0x65; 0x30; 0x6a; 0x3f; 0x3c; 0x69;
   0x03; 0x56; 0x55; 0x00; 0x5a; 0x0f; 0x0c; 0x59; 0x59; 0x0c; 0x0f; 0x5a; 0x00; 0x55; 0x56; 0x03;
   0x66; 0x33; 0x30; 0x65; 0x3f; 0x6a; 0x69; 0x3c; 0x3c; 0x69; 0x6a; 0x3f; 0x65; 0x30; 0x33; 0x66;
   0x65; 0x30; 0x33; 0x66; 0x3c; 0x69; 0x6a; 0x3f; 0x3f; 0x6a; 0x69; 0x3c; 0x66; 0x33; 0x30; 0x65;
   0x00; 0x55; 0x56; 0x03; 0x59; 0x0c; 0x0f; 0x5a; 0x5a; 0x0f; 0x0c; 0x59; 0x03; 0x56; 0x55; 0x00].

(** The registers [reg1], [reg2], [reg3]. *)
Record regs := Regs { reg1 : Z; reg2 : Z; reg3 : Z }.

(** One turn of the loop: byte [b] at index [i]. *)
Definition ecc_step (i b : Z) (r : regs) : res regs :=
  idx ← arr_get nand_ecc_precalc_table (Z.to_nat b);
  let reg1 := Z.lxor (reg1 r) (Z.land idx 0x3f) in
  if negb (Z.land idx 0x40 =? 0) then mret (Regs reg1 (Z.lxor (reg2 r) (u8 (Z.lnot (u8 i)))) (Z.lxor (reg3 r) (u8 i)))
  else mret (Regs reg1 (reg2 r) (reg3 r)).

Fixpoint ecc_loop (n : nat) (i : Z) (dat : list Z) (r : regs) : res regs :=
  match n with
  | O => mret r
  | S n => b ← arr_get dat 0; r ← ecc_step i b r; ecc_loop n (i + 1) (tl dat) r
  end.

Definition line_parity_high (reg2 reg3 : Z) : Z :=
  let tmp1 := Z.shiftr (Z.land reg3 0x80) 0 in
  let tmp1 := Z.lor tmp1 (Z.shiftr (Z.land reg2 0x80) 1) in
  let tmp1 := Z.lor tmp1 (Z.shiftr (Z.land reg3 0x40) 1) in
  let tmp1 := Z.lor tmp1 (Z.shiftr (Z.land reg2 0x40) 2) in
  let tmp1 := Z.lor tmp1 (Z.shiftr (Z.land reg3 0x20) 2) in
  let tmp1 := Z.lor tmp1 (Z.shiftr (Z.land reg2 0x20) 3) in
  let tmp1 := Z.lor tmp1 (Z.shiftr (Z.land reg3 0x10) 3) in
  Z.lor tmp1 (Z.shiftr (Z.land reg2 0x10) 4).

Definition line_parity_low (reg2 reg3 : Z) : Z :=
  let tmp2 := Z.shiftl (Z.land reg3 0x08) 4 in
  let tmp2 := Z.lor tmp2 (Z.shiftl (Z.land reg2 0x08) 3) in
  let tmp2 := Z.lor tmp2 (Z.shiftl (Z.land reg3 0x04) 3) in
  let tmp2 := Z.lor tmp2 (Z.shiftl (Z.land reg2 0x04) 2) in
  let tmp2 := Z.lor tmp2 (Z.shiftl (Z.land reg3 0x02) 2) in
  let tmp2 := Z.lor tmp2 (Z.shiftl (Z.land reg2 0x02) 1) in
  let tmp2 := Z.lor tmp2 (Z.shiftl (Z.land reg3 0x01) 1) in
  Z.lor tmp2 (Z.shiftl (Z.land reg2 0x01) 0).

Definition nand_calculate_ecc (smc : bool) (dat : list Z) : res (list Z) :=
  r ← ecc_loop 256 0 dat (Regs 0 0 0);
  let tmp1 := line_parity_high (reg2 r) (reg3 r) in
  let tmp2 := line_parity_low (reg2 r) (reg3 r) in
  let code2 := u8 (Z.lor (Z.shiftl (Z.lnot (reg1 r)) 2) 0x03) in
  mret (if smc then [u8 (Z.lnot tmp2); u8 (Z.lnot tmp1); code2] else [u8 (Z.lnot tmp1); u8 (Z.lnot tmp2); code2]).

Fixpoint countbits_loop (fuel : nat) (byte res : Z) : Z :=
  match fuel with
  | O => res
  | S fuel => if byte =? 0 then res else countbits_loop fuel (Z.shiftr byte 1) (res + Z.land byte 0x01)
  end.

(** A 32-bit value is zero after 32 shifts. *)
Definition countbits (byte : Z) : Z := countbits_loop 32 byte 0.

Definition EBADMSG : Z := 74.

Definition byte_offset (s0 s1 : Z) : Z :=
  let byteoffs := Z.land (Z.shiftl s1 0) 0x80 in
  let byteoffs := Z.lor byteoffs (Z.land (Z.shiftl s1 1) 0x40) in
  let byteoffs := Z.lor byteoffs (Z.land (Z.shiftl s1 2) 0x20) in
  let byteoffs := Z.lor byteoffs (Z.land (Z.shiftl s1 3) 0x10) in
  let byteoffs := Z.lor byteoffs (Z.land (Z.shiftr s0 4) 0x08) in
  let byteoffs := Z.lor byteoffs (Z.land (Z.shiftr s0 3) 0x04) in
  let byteoffs := Z.lor byteoffs (Z.land (Z.shiftr s0 2) 0x02) in
  Z.lor byteoffs (Z.land (Z.shiftr s0 1) 0x01).

Definition bit_number (s2 : Z) : Z :=
  let bitnum := Z.land (Z.shiftr s2 5) 0x04 in
  let bitnum := Z.lor bitnum (Z.land (Z.shiftr s2 4) 0x02) in
  Z.lor bitnum (Z.land (Z.shiftr s2 3) 0x01).

(** The decision on the differences of the three bytes. *)
Definition correct_syndromes (dat : list Z) (s0 s1 s2 : Z) : res (Z * list Z) :=
  if Z.lor (Z.lor s0 s1) s2 =? 0 then mret (0, dat)
  else if (Z.land (Z.lxor s0 (Z.shiftr s0 1)) 0x55 =? 0x55) && (Z.land (Z.lxor s1 (Z.shiftr s1 1)) 0x55 =? 0x55)
       && (Z.land (Z.lxor s2 (Z.shiftr s2 1)) 0x54 =? 0x54) then
    let byteoffs := byte_offset s0 s1 in
    let bitnum := bit_number s2 in
    b ← arr_get dat (Z.to_nat byteoffs);
    mret (1, <[Z.to_nat byteoffs := u8 (Z.lxor b (Z.shiftl 1 bitnum))]> dat)
  else if countbits (Z.lor (Z.lor s0 (Z.shiftl s1 8)) (Z.shiftl s2 16)) =? 1 then mret (1, dat)
  else mret (- EBADMSG, dat).

Definition nand_correct_data (smc : bool) (dat read_ecc calc_ecc : list Z) : res (Z * list Z) :=
  c0 ← arr_get calc_ecc 0; c1 ← arr_get calc_ecc 1; c2 ← arr_get calc_ecc 2;
  r0 ← arr_get read_ecc 0; r1 ← arr_get read_ecc 1; r2 ← arr_get read_ecc 2;
  let '(s0, s1) := if smc then (Z.lxor c0 r0, Z.lxor c1 r1) else (Z.lxor c1 r1, Z.lxor c0 r0) in
  correct_syndromes dat s0 s1 (Z.lxor c2 r2).

(** ** The code is linear *)

Definition rx (a b : regs) : regs := Regs (Z.lxor (reg1 a) (reg1 b)) (Z.lxor (reg2 a) (reg2 b)) (Z.lxor (reg3 a) (reg3 b)).

Definition regs_ok (r : regs) : Prop := byte (reg1 r) /\ byte (reg2 r) /\ byte (reg3 r).

Definition parity (b : Z) : Z := nth (Z.to_nat b) nand_ecc_precalc_table 0.

(** What byte [b] at [i] adds to the registers. *)
Definition contrib (i b : Z) : regs :=
  let idx := parity b in
  if Z.testbit idx 6 then Regs (Z.land idx 0x3f) (255 - i) i else Regs (Z.land idx 0x3f) 0 0.

Lemma byte_equal (f g : Z -> Z) : forallb (fun a => f a =? g a) (seqZ 0 256) = true -> forall a, byte a -> f a = g a.
Proof. intros H a Ha. apply Z.eqb_eq. by apply (byte_forall (fun a => f a =? g a)). Qed.

Definition is_byte (x : Z) : bool := (0 <=? x) && (x <? 256).

Lemma is_byte_ok x : is_byte x = true -> byte x.
Proof. unfold is_byte, byte. rewrite andb_true_iff, Z.leb_le, Z.ltb_lt. done. Qed.

Lemma byte_lxor a b : byte a -> byte b -> byte (Z.lxor a b).
Proof.
  unfold byte. intros Ha Hb. rewrite <- (Z.mod_small a (2 ^ 8)), <- (Z.mod_small b (2 ^ 8)) by lia.
  rewrite <- !Z.land_ones by lia. assert (E : Z.lxor (Z.land a (Z.ones 8)) (Z.land b (Z.ones 8)) = Z.land (Z.lxor a b) (Z.ones 8)).
  { apply Z.bits_inj'. intros n Hn. rewrite Z.lxor_spec, !Z.land_spec, Z.lxor_spec.
    by destruct (Z.testbit a n), (Z.testbit b n), (Z.testbit (Z.ones 8) n). }
  rewrite E, Z.land_ones by lia. apply Z.mod_pos_bound. lia.
Qed.

(** A function of a byte that is the sum of what it is on the bits. *)
Definition sum_of_bits (f : Z -> Z) (b : Z) : Z :=
  fold_right (fun k acc => Z.lxor (if Z.testbit b k then f (Z.shiftl 1 k) else 0) acc) 0 (seqZ 0 8).

Lemma lxor_swap a b c d : Z.lxor (Z.lxor a b) (Z.lxor c d) = Z.lxor (Z.lxor a c) (Z.lxor b d).
Proof. rewrite !Z.lxor_assoc. f_equal. rewrite <- !Z.lxor_assoc. f_equal. apply Z.lxor_comm. Qed.

Lemma sum_of_bits_lxor f a b : sum_of_bits f (Z.lxor a b) = Z.lxor (sum_of_bits f a) (sum_of_bits f b).
Proof.
  unfold sum_of_bits. generalize (seqZ 0 8). intros l. induction l as [|k l IH]; cbn [fold_right]; [done|].
  rewrite IH, Z.lxor_spec, lxor_swap. f_equal.
  destruct (Z.testbit a k), (Z.testbit b k); cbn [xorb]; by rewrite ?Z.lxor_nilpotent, ?Z.lxor_0_r, ?Z.lxor_0_l.
Qed.

Lemma byte_linear f : forallb (fun a => f a =? sum_of_bits f a) (seqZ 0 256) = true ->
  forall a b, byte a -> byte b -> f (Z.lxor a b) = Z.lxor (f a) (f b).
Proof.
  intros H a b Ha Hb. rewrite (byte_equal _ _ H (Z.lxor a b)), (byte_equal _ _ H a), (byte_equal _ _ H b) by (done || by apply byte_lxor).
  apply sum_of_bits_lxor.
Qed.

Lemma parity_lxor a b : byte a -> byte b -> parity (Z.lxor a b) = Z.lxor (parity a) (parity b).
Proof. apply byte_linear. vm_compute. reflexivity. Qed.

Lemma parity_byte b : byte b -> byte (parity b).
Proof. intros Hb. apply is_byte_ok. by apply (byte_forall (fun b => is_byte (parity b))); [vm_compute|]. Qed.

Lemma contrib_lxor i a b : byte i -> byte a -> byte b -> contrib i (Z.lxor a b) = rx (contrib i a) (contrib i b).
Proof.
  intros Hi Ha Hb. unfold contrib. rewrite parity_lxor, Z.lxor_spec by done.
  assert (E : Z.land (Z.lxor (parity a) (parity b)) 63 = Z.lxor (Z.land (parity a) 63) (Z.land (parity b) 63)).
  { apply Z.bits_inj'. intros n Hn. rewrite !Z.land_spec, !Z.lxor_spec, !Z.land_spec. by destruct (Z.testbit (parity a) n), (Z.testbit (parity b) n), (Z.testbit 63 n). }
  rewrite E. unfold rx. destruct (Z.testbit (parity a) 6), (Z.testbit (parity b) 6); cbn [xorb reg1 reg2 reg3]; f_equal;
    by rewrite ?Z.lxor_nilpotent, ?Z.lxor_0_r, ?Z.lxor_0_l.
Qed.

Lemma contrib_ok i b : byte i -> byte b -> regs_ok (contrib i b).
Proof.
  intros Hi Hb. unfold contrib, regs_ok. assert (byte (Z.land (parity b) 0x3f)).
  { unfold byte. change 0x3f with (Z.ones 6). rewrite Z.land_ones by lia. pose proof (Z.mod_pos_bound (parity b) (2 ^ 6) ltac:(lia)). lia. }
  unfold byte in *. destruct (Z.testbit (parity b) 6); cbn [reg1 reg2 reg3]; lia.
Qed.

Lemma rx_ok a b : regs_ok a -> regs_ok b -> regs_ok (rx a b).
Proof. intros (A1 & A2 & A3) (B1 & B2 & B3). unfold regs_ok, rx; cbn [reg1 reg2 reg3]. split_and!; by apply byte_lxor. Qed.

Lemma rx_assoc a b c : rx a (rx b c) = rx (rx a b) c.
Proof. unfold rx. cbn [reg1 reg2 reg3]. by rewrite !Z.lxor_assoc. Qed.

Lemma rx_comm a b : rx a b = rx b a.
Proof. unfold rx. f_equal; apply Z.lxor_comm. Qed.

Lemma rx_cancel a b : rx a (rx a b) = b.
Proof. unfold rx. cbn [reg1 reg2 reg3]. rewrite <- !Z.lxor_assoc, !Z.lxor_nilpotent, !Z.lxor_0_l. by destruct b. Qed.

Lemma ecc_step_ok i b r : byte i -> byte b -> ecc_step i b r = Ok (rx r (contrib i b)).
Proof.
  intros Hi Hb. unfold ecc_step, contrib, rx.
  assert (E : arr_get nand_ecc_precalc_table (Z.to_nat b) = Ok (parity b)).
  { unfold arr_get, parity. destruct (nand_ecc_precalc_table !! Z.to_nat b) as [x|] eqn:E; [by rewrite (nth_lookup_Some _ _ _ _ E)|].
    apply lookup_ge_None in E. change (length nand_ecc_precalc_table) with 256%nat in E. unfold byte in Hb. lia. }
  rewrite E. unfold mbind, res_bind.
  assert (E6 : negb (Z.land (parity b) 0x40 =? 0) = Z.testbit (parity b) 6).
  { apply eqb_prop. apply (byte_forall (fun b => Bool.eqb (negb (Z.land (parity b) 0x40 =? 0)) (Z.testbit (parity b) 6))); [vm_compute; reflexivity|done]. }
  rewrite E6. destruct (Z.testbit (parity b) 6); cbn [reg1 reg2 reg3]; [|by rewrite !Z.lxor_0_r].
  unfold byte in Hi. rewrite (u8_small i) by lia. do 3 f_equal. unfold Z.lnot, u8. zmod.
Qed.

(** The sum over bytes from index [i] on. *)
Fixpoint total (i : Z) (dat : list Z) : regs :=
  match dat with [] => Regs 0 0 0 | b :: dat => rx (contrib i b) (total (i + 1) dat) end.

Lemma ecc_loop_ok dat i r : Forall byte dat -> 0 <= i -> i + Z.of_nat (length dat) <= 256 ->
  ecc_loop (length dat) i dat r = Ok (rx r (total i dat)).
Proof.
  revert i r. induction dat as [|b dat IH]; intros i r HF Hi Hl; cbn [ecc_loop length total].
  - unfold rx. cbn [reg1 reg2 reg3]. rewrite !Z.lxor_0_r. by destruct r.
  - apply Forall_cons in HF as [Hb HF]. cbn [length] in Hl. unfold arr_get. cbn [lookup list_lookup of_option]. unfold mbind at 1, res_bind at 1.
    rewrite ecc_step_ok by (unfold byte in *; lia || done). unfold mbind, res_bind. cbn [tl].
    rewrite IH by (done || lia). by rewrite rx_assoc.
Qed.

Definition flip (i : nat) (j : Z) (dat : list Z) : list Z := alter (fun b => Z.lxor b (Z.shiftl 1 j)) i dat.

Lemma bit_byte j : 0 <= j < 8 -> byte (Z.shiftl 1 j).
Proof. intros Hj. assert (j = 0 \/ j = 1 \/ j = 2 \/ j = 3 \/ j = 4 \/ j = 5 \/ j = 6 \/ j = 7) as E by lia. by destruct_or! E; subst. Qed.

Lemma flip_length i j dat : length (flip i j dat) = length dat.
Proof. apply length_alter. Qed.

Lemma flip_bytes i j dat : 0 <= j < 8 -> Forall byte dat -> Forall byte (flip i j dat).
Proof.
  intros Hj. revert i. induction dat as [|b dat IH]; intros i HF; [done|]. apply Forall_cons in HF as [Hb HF].
  destruct i as [|i]; cbn; constructor; try done; [apply byte_lxor; [done|by apply bit_byte]|by apply IH].
Qed.

Lemma flip_flip i j dat : flip i j (flip i j dat) = dat.
Proof.
  revert i. induction dat as [|b dat IH]; intros i; [done|]. destruct i as [|i]; cbn; [|f_equal; apply IH].
  by rewrite Z.lxor_assoc, Z.lxor_nilpotent, Z.lxor_0_r.
Qed.

Lemma total_flip i k j dat : Forall byte dat -> 0 <= i -> i + Z.of_nat (length dat) <= 256 -> (k < length dat)%nat -> 0 <= j < 8 ->
  total i (flip k j dat) = rx (total i dat) (contrib (i + Z.of_nat k) (Z.shiftl 1 j)).
Proof.
  revert i k. induction dat as [|b dat IH]; intros i k HF Hi Hl Hk Hj; [cbn in Hk; lia|]. apply Forall_cons in HF as [Hb HF]. cbn [length] in *.
  destruct k as [|k]; cbn [flip alter list_alter total].
  - rewrite contrib_lxor by (apply bit_byte || unfold byte in *; lia || done). replace (i + Z.of_nat 0) with i by lia.
    rewrite <- !rx_assoc. f_equal. apply rx_comm.
  - fold (flip k j dat). change (list_alter _ k dat) with (flip k j dat). rewrite IH by (done || lia). rewrite rx_assoc. f_equal. f_equal. lia.
Qed.

(** The line parity is linear as well: what comes from one register goes to the even
    bits, what comes from the other to the odd ones. *)
Definition high (r : regs) : Z := line_parity_high (reg2 r) (reg3 r).
Definition low (r : regs) : Z := line_parity_low (reg2 r) (reg3 r).

Lemma lor_disjoint a b m : a = Z.land a m -> b = Z.land b (Z.lnot m) -> Z.lor a b = Z.lxor a b.
Proof.
  intros Ha Hb. rewrite Ha, Hb. apply Z.bits_inj'. intros n Hn.
  rewrite Z.lor_spec, Z.lxor_spec, !Z.land_spec, Z.lnot_spec by done. by destruct (Z.testbit a n), (Z.testbit b n), (Z.testbit m n).
Qed.

Lemma line_split (f : Z -> Z -> Z) : (forall a b, f a b = Z.lor (f a 0) (f 0 b)) ->
  forallb (fun a => f a 0 =? Z.land (f a 0) 0x55) (seqZ 0 256) = true ->
  forallb (fun b => f 0 b =? Z.land (f 0 b) (Z.lnot 0x55)) (seqZ 0 256) = true ->
  forall a b, byte a -> byte b -> f a b = Z.lxor (f a 0) (f 0 b).
Proof.
  intros Hf H1 H2 a b Ha Hb. rewrite Hf. apply (lor_disjoint _ _ 0x55).
  - by apply (byte_equal (fun a => f a 0) (fun a => Z.land (f a 0) 0x55)).
  - by apply (byte_equal (fun b => f 0 b) (fun b => Z.land (f 0 b) (Z.lnot 0x55))).
Qed.

Lemma line_lxor (f : Z -> Z -> Z) : (forall a b, byte a -> byte b -> f a b = Z.lxor (f a 0) (f 0 b)) ->
  forallb (fun a => f a 0 =? sum_of_bits (fun a => f a 0) a) (seqZ 0 256) = true ->
  forallb (fun b => f 0 b =? sum_of_bits (f 0) b) (seqZ 0 256) = true ->
  forall a b c d, byte a -> byte b -> byte c -> byte d -> f (Z.lxor a c) (Z.lxor b d) = Z.lxor (f a b) (f c d).
Proof.
  intros Hf H1 H2 a b c d Ha Hb Hc Hd. rewrite (Hf (Z.lxor a c)), (Hf a b), (Hf c d) by (done || by apply byte_lxor).
  rewrite (byte_linear (fun a => f a 0) H1 a c), (byte_linear (f 0) H2 b d) by done. apply lxor_swap.
Qed.

Ltac by_terms := clear; intros ? ?; apply Z.bits_inj'; intros n Hn;
  cbv beta zeta delta [line_parity_high line_parity_low]; rewrite ?Z.land_0_l, ?Z.shiftl_0_l, ?Z.shiftr_0_l, ?Z.lor_0_l, ?Z.lor_0_r, !Z.lor_spec;
  repeat match goal with |- context [Z.testbit ?x n] => destruct (Z.testbit x n) end; reflexivity.

Lemma line_high_split a b : byte a -> byte b -> line_parity_high a b = Z.lxor (line_parity_high a 0) (line_parity_high 0 b).
Proof. apply line_split; [by_terms|vm_compute; reflexivity..]. Qed.

Lemma line_low_split a b : byte a -> byte b -> line_parity_low a b = Z.lxor (line_parity_low a 0) (line_parity_low 0 b).
Proof. apply line_split; [by_terms|vm_compute; reflexivity..]. Qed.

Lemma high_rx a b : regs_ok a -> regs_ok b -> high (rx a b) = Z.lxor (high a) (high b).
Proof. intros (_ & A2 & A3) (_ & B2 & B3). apply (line_lxor line_parity_high); try done; [apply line_high_split|vm_compute; reflexivity..]. Qed.

Lemma low_rx a b : regs_ok a -> regs_ok b -> low (rx a b) = Z.lxor (low a) (low b).
Proof. intros (_ & A2 & A3) (_ & B2 & B3). apply (line_lxor line_parity_low); try done; [apply line_low_split|vm_compute; reflexivity..]. Qed.

Lemma high_byte r : regs_ok r -> byte (high r).
Proof.
  intros (_ & H2 & H3). unfold high. rewrite line_high_split by done. apply byte_lxor; apply is_byte_ok.
  - by apply (byte_forall (fun a => is_byte (line_parity_high a 0))); [vm_compute|].
  - by apply (byte_forall (fun a => is_byte (line_parity_high 0 a))); [vm_compute|].
Qed.

Lemma low_byte r : regs_ok r -> byte (low r).
Proof.
  intros (_ & H2 & H3). unfold low. rewrite line_low_split by done. apply byte_lxor; apply is_byte_ok.
  - by apply (byte_forall (fun a => is_byte (line_parity_low a 0))); [vm_compute|].
  - by apply (byte_forall (fun a => is_byte (line_parity_low 0 a))); [vm_compute|].
Qed.

(** The third byte, and what is left of the inversions when two codes are compared. *)
Definition third (x : Z) : Z := u8 (Z.lor (Z.shiftl (Z.lnot x) 2) 0x03).

Lemma inverted_lxor f g : forallb (fun a => f a =? Z.lxor 0xff (g a)) (seqZ 0 256) = true ->
  forall a b, byte a -> byte b -> Z.lxor (f a) (f b) = Z.lxor (g a) (g b).
Proof.
  intros H a b Ha Hb. rewrite (byte_equal _ _ H a), (byte_equal _ _ H b) by done.
  by rewrite lxor_swap, Z.lxor_nilpotent, Z.lxor_0_l.
Qed.

Lemma lnot_lxor a b : byte a -> byte b -> Z.lxor (u8 (Z.lnot a)) (u8 (Z.lnot b)) = Z.lxor a b.
Proof. apply (inverted_lxor (fun a => u8 (Z.lnot a)) (fun a => a)). vm_compute. reflexivity. Qed.

Lemma third_lxor a b : byte a -> byte b -> Z.lxor (third a) (third b) = u8 (Z.shiftl (Z.lxor a b) 2).
Proof.
  intros Ha Hb. rewrite (inverted_lxor third (fun a => u8 (Z.shiftl a 2))) by (done || (vm_compute; reflexivity)).
  symmetry. apply (byte_linear (fun a => u8 (Z.shiftl a 2))); [vm_compute; reflexivity|done..].
Qed.

(** ** Codes and syndromes *)

Definition code (smc : bool) (r : regs) : list Z :=
  if smc then [u8 (Z.lnot (low r)); u8 (Z.lnot (high r)); third (reg1 r)] else [u8 (Z.lnot (high r)); u8 (Z.lnot (low r)); third (reg1 r)].

Definition block_ok (dat : list Z) : Prop := length dat = 256%nat /\ Forall byte dat.

Lemma total_ok i dat : Forall byte dat -> 0 <= i -> i + Z.of_nat (length dat) <= 256 -> regs_ok (total i dat).
Proof.
  revert i. induction dat as [|b dat IH]; intros i HF Hi Hl; cbn [total].
  - unfold regs_ok, byte. cbn [reg1 reg2 reg3]. lia.
  - apply Forall_cons in HF as [Hb HF]. cbn [length] in Hl. apply rx_ok; [apply contrib_ok; [unfold byte; lia|done]|apply IH; done || lia].
Qed.

Lemma calculate_ok smc dat : block_ok dat -> nand_calculate_ecc smc dat = Ok (code smc (total 0 dat)).
Proof.
  intros [Hl HF]. unfold nand_calculate_ecc. rewrite <- Hl at 1. rewrite ecc_loop_ok by (done || lia). unfold mbind, res_bind.
  replace (rx (Regs 0 0 0) (total 0 dat)) with (total 0 dat); [by destruct smc|].
  unfold rx. cbn [reg1 reg2 reg3]. rewrite !Z.lxor_0_l. by destruct (total 0 dat).
Qed.

(** What is done with the difference [d] of two blocks' registers. *)
Definition correct (dat : list Z) (d : regs) : res (Z * list Z) :=
  correct_syndromes dat (low d) (high d) (u8 (Z.shiftl (reg1 d) 2)).

Lemma correct_ok smc dat r r' : regs_ok r -> regs_ok r' ->
  nand_correct_data smc dat (code smc r) (code smc r') = correct dat (rx r' r).
Proof.
  intros H H'. pose proof (high_byte _ H). pose proof (high_byte _ H'). pose proof (low_byte _ H). pose proof (low_byte _ H').
  pose proof (proj1 H). pose proof (proj1 H'). unfold correct. rewrite low_rx, high_rx by done.
  unfold rx; cbn [reg1]. rewrite <- third_lxor by done.
  rewrite <- (lnot_lxor (low r') (low r)), <- (lnot_lxor (high r') (high r)) by done. by destruct smc.
Qed.

(** ** One error *)

Definition one (i : nat) (j : Z) : regs := contrib (Z.of_nat i) (Z.shiftl 1 j).

(** The form of the syndromes that is corrected. *)
Definition single (s0 s1 s2 : Z) : bool :=
  (Z.land (Z.lxor s0 (Z.shiftr s0 1)) 0x55 =? 0x55) && (Z.land (Z.lxor s1 (Z.shiftr s1 1)) 0x55 =? 0x55)
       && (Z.land (Z.lxor s2 (Z.shiftr s2 1)) 0x54 =? 0x54).

Definition third_syndrome (d : regs) : Z := u8 (Z.shiftl (reg1 d) 2).

Definition nonzero (s0 s1 s2 : Z) : bool := negb (Z.lor (Z.lor s0 s1) s2 =? 0).

(** The syndromes [d] are of that form and name bit [j] of byte [i]. *)
Definition names (d : regs) (i : nat) (j : Z) : bool :=
  nonzero (low d) (high d) (third_syndrome d) && single (low d) (high d) (third_syndrome d) &&
  (byte_offset (low d) (high d) =? Z.of_nat i) && (bit_number (third_syndrome d) =? j).

Lemma names_spec d i j : names d i j = true ->
  nonzero (low d) (high d) (third_syndrome d) = true /\ single (low d) (high d) (third_syndrome d) = true /\
  byte_offset (low d) (high d) = Z.of_nat i /\ bit_number (third_syndrome d) = j.
Proof. unfold names. rewrite !andb_true_iff, !Z.eqb_eq. tauto. Qed.

Lemma names_all : forallb (fun i => forallb (fun j => names (one i j) i j) (seqZ 0 8)) (seq 0 256) = true.
Proof. vm_compute. reflexivity. Qed.

Lemma names_ok i j : (i < 256)%nat -> 0 <= j < 8 -> names (one i j) i j = true.
Proof.
  intros Hi Hj. pose proof names_all as H. rewrite forallb_forall in H. specialize (H i ltac:(apply in_seq; lia)).
  rewrite forallb_forall in H. apply (H j). apply list_elem_of_In, elem_of_seqZ. lia.
Qed.

Lemma correct_single dat s0 s1 s2 : nonzero s0 s1 s2 = true -> single s0 s1 s2 = true ->
  correct_syndromes dat s0 s1 s2 =
  (b ← arr_get dat (Z.to_nat (byte_offset s0 s1));
   mret (1, <[Z.to_nat (byte_offset s0 s1) := u8 (Z.lxor b (Z.shiftl 1 (bit_number s2)))]> dat)).
Proof.
  unfold nonzero, single, correct_syndromes. rewrite negb_true_iff. intros H1 H2. by rewrite H1, H2.
Qed.

Lemma correct_named dat d i j : names d i j = true ->
  correct dat d = (b ← arr_get dat i; mret (1, <[i := u8 (Z.lxor b (Z.shiftl 1 j))]> dat)).
Proof.
  intros N. destruct (names_spec _ _ _ N) as (N1 & N2 & N3 & N4).
  rewrite (correct_single dat _ _ _ N1 N2 : correct dat d = _). by rewrite N3, N4, Nat2Z.id.
Qed.

Lemma flip_lookup i j dat b : dat !! i = Some b -> flip i j dat !! i = Some (Z.lxor b (Z.shiftl 1 j)).
Proof. intros H. unfold flip. by rewrite list_lookup_alter_eq, H. Qed.

Lemma flip_block i j dat : 0 <= j < 8 -> block_ok dat -> block_ok (flip i j dat).
Proof. intros Hj [Hl HF]. split; [by rewrite flip_length|by apply flip_bytes]. Qed.

Lemma block_total dat : block_ok dat -> regs_ok (total 0 dat).
Proof. intros [Hl HF]. apply total_ok; done || lia. Qed.

Lemma block_flip i j dat : block_ok dat -> (i < 256)%nat -> 0 <= j < 8 -> total 0 (flip i j dat) = rx (total 0 dat) (one i j).
Proof. intros [Hl HF] Hi Hj. rewrite total_flip by (done || lia). by rewrite Z.add_0_l. Qed.

Lemma put_back i j dat b : block_ok dat -> 0 <= j < 8 -> dat !! i = Some b ->
  <[i := u8 (Z.lxor (Z.lxor b (Z.shiftl 1 j)) (Z.shiftl 1 j))]> (flip i j dat) = dat.
Proof.
  intros [Hl HF] Hj Eb. rewrite Z.lxor_assoc, Z.lxor_nilpotent, Z.lxor_0_r.
  pose proof (proj1 (Forall_lookup _ _) HF i b Eb) as Hbb. unfold byte in Hbb. rewrite u8_small by lia.
  apply list_eq. intros k. destruct (decide (k = i)) as [->|].
  - rewrite list_lookup_insert_eq by (rewrite flip_length; by eapply lookup_lt_Some). done.
  - rewrite list_lookup_insert_ne by done. unfold flip. by rewrite list_lookup_alter_ne.
Qed.

(** ** Faults *)

(** What may have happened to a block and its code. *)
Inductive fault := NoFault | DataBit (i : nat) (j : Z) | CodeBit (p : nat) (q : Z).

Definition fault_ok (f : fault) : Prop :=
  match f with NoFault => True | DataBit i j => (i < 256)%nat /\ 0 <= j < 8 | CodeBit p q => (p < 3)%nat /\ 0 <= q < 8 end.

Definition hit_data (f : fault) (dat : list Z) : list Z := match f with DataBit i j => flip i j dat | _ => dat end.
Definition hit_code (f : fault) (e : list Z) : list Z := match f with CodeBit p q => flip p q e | _ => e end.
Definition repaired (f : fault) : Z := match f with NoFault => 0 | _ => 1 end.

Lemma rx_same a : rx a a = Regs 0 0 0.
Proof. unfold rx. by rewrite !Z.lxor_nilpotent. Qed.

Lemma correct_none dat : correct dat (Regs 0 0 0) = Ok (0, dat).
Proof. reflexivity. Qed.

Lemma data_bit_corrected smc dat i j : block_ok dat -> (i < 256)%nat -> 0 <= j < 8 ->
  nand_correct_data smc (flip i j dat) (code smc (total 0 dat)) (code smc (total 0 (flip i j dat))) = Ok (1, dat).
Proof.
  intros Hb Hi Hj. pose proof (flip_block i j dat Hj Hb) as Hb'.
  rewrite correct_ok by (by apply block_total). rewrite block_flip, rx_comm, rx_cancel, (correct_named _ _ _ _ (names_ok i j Hi Hj)) by done.
  destruct (lookup_lt_is_Some_2 dat i) as [b Eb]; [destruct Hb; lia|]. unfold arr_get. rewrite (flip_lookup _ _ _ _ Eb).
  unfold mbind, res_bind. cbn [of_option]. by rewrite put_back.
Qed.

(** A flipped bit of the code leaves one bit in the syndromes. *)
Definition lone (s0 s1 s2 : Z) : bool :=
  nonzero s0 s1 s2 && negb (single s0 s1 s2) && (countbits (Z.lor (Z.lor s0 (Z.shiftl s1 8)) (Z.shiftl s2 16)) =? 1).

Lemma correct_lone dat s0 s1 s2 : lone s0 s1 s2 = true -> correct_syndromes dat s0 s1 s2 = Ok (1, dat).
Proof.
  unfold lone, nonzero, single, correct_syndromes. rewrite !andb_true_iff, !negb_true_iff. intros ((H1 & H2) & H3). by rewrite H1, H2, H3.
Qed.

Lemma lone_bit : forallb (fun q => lone (Z.shiftl 1 q) 0 0 && lone 0 (Z.shiftl 1 q) 0 && lone 0 0 (Z.shiftl 1 q)) (seqZ 0 8) = true.
Proof. vm_compute. reflexivity. Qed.

Lemma lxor_flipped a b : Z.lxor a (Z.lxor a b) = b.
Proof. by rewrite <- Z.lxor_assoc, Z.lxor_nilpotent, Z.lxor_0_l. Qed.

Lemma code_bit_ignored smc dat a b c p q : (p < 3)%nat -> 0 <= q < 8 ->
  nand_correct_data smc dat (flip p q [a; b; c]) [a; b; c] = Ok (1, dat).
Proof.
  intros Hp Hq. pose proof lone_bit as H. rewrite forallb_forall in H. specialize (H q ltac:(apply list_elem_of_In, elem_of_seqZ; lia)).
  rewrite !andb_true_iff in H. destruct H as ((H0 & H1) & H2).
  assert (E : p = 0%nat \/ p = 1%nat \/ p = 2%nat) by lia.
  destruct_or! E; subst p; destruct smc; unfold nand_correct_data, flip, alter, list_alter, arr_get, mbind, res_bind; cbn [lookup list_lookup of_option];
    rewrite !Z.lxor_nilpotent, lxor_flipped; by apply correct_lone.
Qed.

(** C15: Of a block and its code in which at most one bit was flipped, the block is
    recovered. *)
Theorem single_fault_repaired smc dat f : block_ok dat -> fault_ok f ->
  exists e e', nand_calculate_ecc smc dat = Ok e /\ nand_calculate_ecc smc (hit_data f dat) = Ok e' /\
    nand_correct_data smc (hit_data f dat) (hit_code f e) e' = Ok (repaired f, dat).
Proof.
  intros Hb Hf. assert (Hb' : block_ok (hit_data f dat)) by (destruct f; try done; apply flip_block; [apply Hf|done]).
  eexists _, _. split; [by apply calculate_ok|]. split; [by apply calculate_ok|].
  destruct f as [|i j|p q]; cbn [hit_data hit_code repaired fault_ok] in *.
  - rewrite correct_ok by (by apply block_total). by rewrite rx_same, correct_none.
  - destruct Hf. by apply data_bit_corrected.
  - destruct Hf. unfold code. destruct smc; by apply code_bit_ignored.
Qed.

(** ** Two errors *)

Lemma land_lxor_l a b c : Z.land (Z.lxor a b) c = Z.lxor (Z.land a c) (Z.land b c).
Proof. apply Z.bits_inj'. intros n Hn. rewrite !Z.land_spec, !Z.lxor_spec, !Z.land_spec. by destruct (Z.testbit a n), (Z.testbit b n), (Z.testbit c n). Qed.

(** Which pairs of bits have one bit set. *)
Definition pairs (s m : Z) : Z := Z.land (Z.lxor s (Z.shiftr s 1)) m.

Lemma pairs_lxor a b m : pairs (Z.lxor a b) m = Z.lxor (pairs a m) (pairs b m).
Proof. unfold pairs. rewrite Z.shiftr_lxor, lxor_swap. apply land_lxor_l. Qed.

Lemma single_pairs s0 s1 s2 : single s0 s1 s2 = true <-> pairs s0 0x55 = 0x55 /\ pairs s1 0x55 = 0x55 /\ pairs s2 0x54 = 0x54.
Proof. unfold single, pairs. rewrite !andb_true_iff, !Z.eqb_eq. tauto. Qed.

Lemma countbits_loop_one n w r : 0 <= w -> 0 <= r -> r <= countbits_loop n w r /\
  (w < 2 ^ Z.of_nat n -> countbits_loop n w r = r -> w = 0) /\
  (w < 2 ^ Z.of_nat n -> countbits_loop n w r = r + 1 -> exists k, 0 <= k < Z.of_nat n /\ w = 2 ^ k).
Proof.
  revert w r. induction n as [|n IH]; intros w r Hw Hr; cbn [countbits_loop].
  { split; [lia|]. split; [|lia]. change (2 ^ Z.of_nat 0) with 1. lia. }
  destruct (Z.eqb_spec w 0) as [->|Hn]; [split; [lia|]; split; [done|lia]|].
  assert (D : w = 2 * Z.shiftr w 1 + Z.land w 1).
  { rewrite (Z.land_ones w 1 ltac:(lia) : Z.land w 1 = _), Z.shiftr_div_pow2 by lia. apply Z.div_mod. lia. }
  assert (B : 0 <= Z.land w 1 < 2). { rewrite (Z.land_ones w 1 ltac:(lia) : Z.land w 1 = _). apply Z.mod_pos_bound. lia. }
  replace (2 ^ Z.of_nat (S n)) with (2 * 2 ^ Z.of_nat n) by (rewrite Nat2Z.inj_succ, Z.pow_succ_r; lia).
  destruct (IH (Z.shiftr w 1) (r + Z.land w 1)) as (I1 & I2 & I3); [lia..|]. split; [lia|]. split.
  - intros Hlt He. assert (E : Z.land w 1 = 0) by lia. specialize (I2 ltac:(lia) ltac:(lia)). lia.
  - intros Hlt He. assert (E : Z.land w 1 = 0 \/ Z.land w 1 = 1) by lia. destruct E as [E|E].
    + destruct I3 as (k & Hk & Ek); [lia|lia|]. exists (Z.succ k). rewrite Z.pow_succ_r by lia. lia.
    + exists 0. specialize (I2 ltac:(lia) ltac:(lia)). change (2 ^ 0) with 1. lia.
Qed.

Lemma word_parts s0 s1 s2 : byte s0 -> byte s1 -> byte s2 ->
  let w := Z.lor (Z.lor s0 (Z.shiftl s1 8)) (Z.shiftl s2 16) in
  0 <= w < 2 ^ 24 /\ s0 = u8 w /\ s1 = u8 (Z.shiftr w 8) /\ s2 = u8 (Z.shiftr w 16).
Proof.
  intros H0 H1 H2 w. assert (E : w = s0 + 256 * s1 + 65536 * s2).
  { unfold w. rewrite (Z.lor_comm s0), (lor_shiftl_add s1 s0 8) by (unfold byte in *; lia). unfold byte in *.
    rewrite Z.lor_comm, lor_shiftl_add by lia. lia. }
  unfold byte in *. rewrite !Z.shiftr_div_pow2 by lia. rewrite E. unfold u8. zmod.
Qed.

(** Syndromes in which no pair has one bit have more than one bit. *)
Definition even_pairs (s0 s1 s2 : Z) : bool := (pairs s0 0x55 =? 0) && (pairs s1 0x55 =? 0) && (pairs s2 0x54 =? 0) && (Z.land s2 3 =? 0).

Lemma power_odd : forallb (fun k => negb (even_pairs (u8 (2 ^ k)) (u8 (Z.shiftr (2 ^ k) 8)) (u8 (Z.shiftr (2 ^ k) 16)))) (seqZ 0 24) = true.
Proof. vm_compute. reflexivity. Qed.

Lemma even_not_one s0 s1 s2 : byte s0 -> byte s1 -> byte s2 -> even_pairs s0 s1 s2 = true ->
  countbits (Z.lor (Z.lor s0 (Z.shiftl s1 8)) (Z.shiftl s2 16)) <> 1.
Proof.
  intros H0 H1 H2 He Hc. destruct (word_parts s0 s1 s2 H0 H1 H2) as (Hw & E0 & E1 & E2).
  set (w := Z.lor (Z.lor s0 (Z.shiftl s1 8)) (Z.shiftl s2 16)) in *. unfold countbits in Hc.
  destruct (countbits_loop_one 32 w 0) as (_ & _ & H3); [lia..|]. destruct H3 as (k & Hk & Ek); [|done|].
  { change (2 ^ Z.of_nat 32) with (2 ^ 32). lia. }
  assert (k < 24). { destruct (Z.lt_ge_cases k 24) as [|Hge]; [done|]. pose proof (Z.pow_le_mono_r 2 24 k ltac:(lia) Hge). lia. }
  pose proof power_odd as P. rewrite forallb_forall in P. specialize (P k ltac:(apply list_elem_of_In, elem_of_seqZ; lia)).
  cbv beta in P. rewrite <- Ek, <- E0, <- E1, <- E2, He in P. done.
Qed.

Lemma rx_syndromes a b : regs_ok a -> regs_ok b -> low (rx a b) = Z.lxor (low a) (low b) /\ high (rx a b) = Z.lxor (high a) (high b) /\
  third_syndrome (rx a b) = Z.lxor (third_syndrome a) (third_syndrome b).
Proof.
  intros Ha Hb. split_and!; [by apply low_rx|by apply high_rx|].
  apply (byte_linear (fun x => u8 (Z.shiftl x 2))); [vm_compute; reflexivity|apply Ha|apply Hb].
Qed.

Lemma third_low d : Z.land (third_syndrome d) 3 = 0.
Proof.
  unfold third_syndrome, u8. change 3 with (Z.ones 2). change (2 ^ 8) with 256. rewrite Z.land_ones, Z.shiftl_mul_pow2 by lia. zmod.
Qed.

Lemma lxor_zero_lor a b c : nonzero a b c = false -> a = 0 /\ b = 0 /\ c = 0.
Proof. unfold nonzero. rewrite negb_false_iff, Z.eqb_eq, !Z.lor_eq_0_iff. tauto. Qed.

(** Two different named syndromes add up to neither no error nor one. *)
Lemma two_named dat a b i j k l : regs_ok a -> regs_ok b -> names a i j = true -> names b k l = true -> (i, j) <> (k, l) ->
  correct dat (rx a b) = Ok (- EBADMSG, dat).
Proof.
  intros Ha Hb Na Nb Hne. destruct (names_spec _ _ _ Na) as (_ & Sa & A1 & A2), (names_spec _ _ _ Nb) as (_ & Sb & B1 & B2).
  pose proof (rx_ok _ _ Ha Hb) as Hd. destruct (rx_syndromes a b Ha Hb) as (L & H & T).
  apply single_pairs in Sa as (P0 & P1 & P2), Sb as (Q0 & Q1 & Q2).
  assert (He : even_pairs (low (rx a b)) (high (rx a b)) (third_syndrome (rx a b)) = true).
  { unfold even_pairs. rewrite third_low, L, H, T, !pairs_lxor, P0, P1, P2, Q0, Q1, Q2. reflexivity. }
  assert (Hz : nonzero (low (rx a b)) (high (rx a b)) (third_syndrome (rx a b)) = true).
  { destruct (nonzero _ _ _) eqn:E; [done|]. apply lxor_zero_lor in E as (E0 & E1 & E2). exfalso. apply Hne.
    rewrite L in E0. rewrite H in E1. rewrite T in E2. apply Z.lxor_eq in E0, E1, E2. rewrite E0, E1 in A1. rewrite E2 in A2.
    f_equal; lia. }
  assert (Hs : single (low (rx a b)) (high (rx a b)) (third_syndrome (rx a b)) = false).
  { destruct (single _ _ _) eqn:E; [|done]. apply single_pairs in E as (E & _). unfold even_pairs in He. by rewrite E in He. }
  pose proof (even_not_one _ _ _ (low_byte _ Hd) (high_byte _ Hd) (u8_range _ : byte (third_syndrome (rx a b))) He) as Hc.
  apply Z.eqb_neq in Hc. unfold nonzero in Hz. apply negb_true_iff in Hz. unfold single in Hs.
  change (correct dat (rx a b)) with (correct_syndromes dat (low (rx a b)) (high (rx a b)) (third_syndrome (rx a b))).
  unfold correct_syndromes. by rewrite Hz, Hs, Hc.
Qed.

(** C20: Two flipped bits of a block are reported, and nothing is changed. *)
Theorem two_errors_detected smc dat i j k l : block_ok dat -> (i < 256)%nat -> 0 <= j < 8 -> (k < 256)%nat -> 0 <= l < 8 -> (i, j) <> (k, l) ->
  exists e e', nand_calculate_ecc smc dat = Ok e /\ nand_calculate_ecc smc (flip k l (flip i j dat)) = Ok e' /\
    nand_correct_data smc (flip k l (flip i j dat)) e e' = Ok (- EBADMSG, flip k l (flip i j dat)).
Proof.
  intros Hb Hi Hj Hk Hl Hne. pose proof (flip_block i j dat Hj Hb) as Hb'. pose proof (flip_block k l _ Hl Hb') as Hb2.
  eexists _, _. split; [by apply calculate_ok|]. split; [by apply calculate_ok|].
  rewrite correct_ok by (by apply block_total). rewrite !block_flip by done. rewrite rx_comm, <- (rx_assoc _ (one i j)), rx_cancel.
  apply (two_named _ _ _ i j k l); try done; try (by apply names_ok); apply contrib_ok; unfold byte; try lia; by apply bit_byte.
Qed.

(** ** Runs *)

Definition sample : list Z := map (fun i => u8 (i * 7 + 3)) (seqZ 0 256).

Lemma sample_ok : block_ok sample.
Proof. split; [reflexivity|]. apply (bool_decide_unpack _). vm_compute. exact I. Qed.

Example sample_code : nand_calculate_ecc false sample = Ok [255; 255; 255].
Proof. vm_compute. reflexivity. Qed.

Lemma single_fault_repaired_witness : exists e e', nand_calculate_ecc false sample = Ok e /\
  nand_calculate_ecc false (hit_data (DataBit 200 5) sample) = Ok e' /\
  nand_correct_data false (hit_data (DataBit 200 5) sample) (hit_code (DataBit 200 5) e) e' = Ok (1, sample).
Proof. apply (single_fault_repaired false sample (DataBit 200 5)); [apply sample_ok|cbn; lia]. Defined.

Lemma two_errors_detected_witness : exists e e', nand_calculate_ecc true sample = Ok e /\
  nand_calculate_ecc true (flip 17 0 (flip 200 5 sample)) = Ok e' /\
  nand_correct_data true (flip 17 0 (flip 200 5 sample)) e e' = Ok (-74, flip 17 0 (flip 200 5 sample)).
Proof. apply (two_errors_detected true sample 200 5 17 0); [apply sample_ok|lia..|congruence]. Defined.

(** Three errors may go unseen: those that turn one code word into another. *)
Example three_errors_miscorrected : let dat := flip 0 0 (flip 1 0 (flip 2 0 sample)) in
  exists e e', nand_calculate_ecc false sample = Ok e /\ nand_calculate_ecc false dat = Ok e' /\ nand_correct_data false dat e e' = Ok (1, flip 3 0 dat).
Proof. eexists _, _. split; [vm_compute; reflexivity|]. split; [vm_compute; reflexivity|]. vm_compute. reflexivity. Qed.
