(* ===== verification/Display.v ===== *)
(** * Sizes and memory dumps on the console (lib_generic/display_options.c)

    Both functions are for printing, so they return their text.  [display_options]
    only prints the version. *)

From S2P Require Import Prelude Mem Ctype Vsprintf.

(** [printf] without [CONFIG_CMD_NET]'s address formats: the text. *)
Definition printf (fmt : list Z) (args : list va_arg) : res (list Z) :=
  '(out, _) ← sprintf false fmt args; mret out.

(** [print_size]; [phys_size_t] and [ulong] have 32 bits. *)
Definition size_unit (size : Z) : Z * Z :=
  if size <? Z.shiftl 1 30 then
    if size <? Z.shiftl 1 20 then (Z.shiftl 1 10, ch "k") else (Z.shiftl 1 20, ch "M")
  else (Z.shiftl 1 30, ch "G").

(** The whole units and the tenths. *)
Definition size_parts (size d : Z) : Z * Z :=
  let n := size / d in
  if negb (size mod d =? 0) then
    let m := u32 (u32 (10 * u32 (size - u32 (n * d))) + d / 2) / d in
    if 10 <=? m then (u32 (n + 1), m - 10) else (n, m)
  else (n, 0).

Definition print_size (size : Z) (s : list Z) : res (list Z) :=
  let '(d, c) := size_unit size in
  let '(n, m) := size_parts size d in
  whole ← printf (zs "%2ld") [A_int n];
  tenth ← (if negb (m =? 0) then printf (zs ".%ld") [A_int m] else mret []);
  unit ← printf (zs " %cB%s") [A_int c; A_str (Some s)];
  mret (whole ++ tenth ++ unit).

(** ** print_buffer *)

Definition MAX_LINE_LENGTH_BYTES : Z := 64.
Definition DEFAULT_LINE_LENGTH_BYTES : Z := 16.

(** One value of [width] bytes: its text and its bytes in [linebuf]. *)
Definition print_value (data width : Z) : M (list Z * list Z) :=
  if width =? 4 then
    w ← load32 data; out ← lift (printf (zs " %08x") [A_int w]);
    mret (out, [u8 w; u8 (w / 256); u8 (w / 65536); u8 (w / 16777216)])
  else if width =? 2 then
    w ← load16 data; out ← lift (printf (zs " %04x") [A_int w]); mret (out, [u8 w; u8 (w / 256)])
  else
    w ← load8 data; out ← lift (printf (zs " %02x") [A_int w]); mret (out, [w]).

Fixpoint print_values (n : nat) (data width : Z) : M (list Z * list Z) :=
  match n with
  | O => mret ([], [])
  | S n => '(out, b) ← print_value data width; '(outs, bs) ← print_values n (data + width) width; mret (out ++ outs, b ++ bs)
  end.

Definition ascii_column (bs : list Z) : list Z := map (fun b => if isprint b && (b <? 0x80) then b else ch ".") bs.

(** The values of a line go into [linebuf]; more than fit there is a fault.
    Fuel: every line reads at least one value further on.  [ctrlc k] is what [ctrlc]
    answers after line [k]. *)
Fixpoint print_lines (fuel : nat) (ctrlc : nat -> bool) (k : nat) (addr data width count linelen : Z) : M (Z * list Z) :=
  if count =? 0 then mret (0, []) else
  match fuel with
  | O => out_of_fuel
  | S fuel =>
      head ← lift (printf (zs "%08lx:") [A_int addr]);
      let linelen := if count <? linelen then count else linelen in
      if MAX_LINE_LENGTH_BYTES <? linelen * width then fault else
      '(values, linebuf) ← print_values (Z.to_nat linelen) data width;
      let line := head ++ values ++ zs "    " ++ ascii_column linebuf ++ [10] in
      if ctrlc k then mret (-1, line)
      else
        '(r, rest) ← print_lines fuel ctrlc (S k) (u32 (addr + linelen * width)) (data + linelen * width) width (count - linelen) linelen;
        mret (r, line ++ rest)
  end.

Definition line_length (width linelen : Z) : Z :=
  let linelen := if MAX_LINE_LENGTH_BYTES <? u32 (linelen * width) then MAX_LINE_LENGTH_BYTES / width else linelen in
  if linelen <? 1 then DEFAULT_LINE_LENGTH_BYTES / width else linelen.

Definition print_buffer (ctrlc : nat -> bool) (addr data width count linelen : Z) : M (Z * list Z) :=
  fuel ← mem_fuel; print_lines fuel ctrlc 0 addr data width count (line_length width linelen).

(** [flash_perror]; the last line names the file and the line. *)
Definition flash_error (err : Z) : res (list Z) :=
  match err with
  | 0 => mret []
  | 1 => mret (zs "Timeout writing to Flash" ++ [10])
  | 2 => mret (zs "Flash not Erased" ++ [10])
  | 4 => mret (zs "Can't write to protected Flash sectors" ++ [10])
  | 8 => mret (zs "Outside available Flash" ++ [10])
  | 16 => mret (zs "Start and/or end address not on sector boundary" ++ [10])
  | 32 => mret (zs "Unknown Vendor of Flash" ++ [10])
  | 64 => mret (zs "Unknown Type of Flash" ++ [10])
  | 128 => mret (zs "General Flash Programming Error" ++ [10])
  | _ => printf (zs "%s[%d] FIXME: rc=%d" ++ [10]) [A_str (Some (zs "flash.c")); A_int 221; A_int err]
  end.

(** ** Properties *)

(** Below one gigabyte the whole units and tenths printed are the size rounded to
    the nearest tenth of the unit. *)
Theorem print_size_rounds size : 0 <= size < Z.shiftl 1 30 ->
  let '(n, m) := size_parts size (fst (size_unit size)) in
  0 <= m < 10 /\ - fst (size_unit size) <= 20 * size - 2 * fst (size_unit size) * (10 * n + m) <= fst (size_unit size).
Proof.
  change (Z.shiftl 1 30) with 1073741824. intros Hs. unfold size_unit.
  change (Z.shiftl 1 30) with 1073741824. change (Z.shiftl 1 20) with 1048576. change (Z.shiftl 1 10) with 1024.
  destruct (Z.ltb_spec size 1073741824); [|lia]. unfold size_parts.
  assert (S : forall d, d = 1024 \/ d = 1048576 -> u32 (u32 (10 * u32 (size - u32 (size / d * d))) + d / 2) = 10 * (size mod d) + d / 2).
  { intros d Hd. assert (size - size / d * d = size mod d) by (destruct_or! Hd; subst; zmod).
    assert (0 <= size mod d < d /\ 0 <= size / d * d <= size) by (destruct_or! Hd; subst; zmod).
    rewrite (u32_small (size / d * d)) by lia. rewrite H0, (u32_small (size mod d)), (u32_small (10 * _)) by lia. apply u32_small.
    destruct_or! Hd; subst; zmod. }
  assert (N : forall d, d = 1024 \/ d = 1048576 -> u32 (size / d + 1) = size / d + 1).
  { intros d Hd. apply u32_small. destruct_or! Hd; subst; zmod. }
  destruct (Z.ltb_spec size 1048576); cbn [fst].
  - specialize (S 1024 ltac:(lia)). specialize (N 1024 ltac:(lia)). rewrite S, N. clear S N.
    destruct (Z.eqb_spec (size mod 1024) 0); cbn [negb]; [zmod|]. destruct (Z.leb_spec 10 ((10 * (size mod 1024) + 1024 / 2) / 1024)); zmod.
  - specialize (S 1048576 ltac:(lia)). specialize (N 1048576 ltac:(lia)). rewrite S, N. clear S N.
    destruct (Z.eqb_spec (size mod 1048576) 0); cbn [negb]; [zmod|]. destruct (Z.leb_spec 10 ((10 * (size mod 1048576) + 1048576 / 2) / 1048576)); zmod.
Qed.

Lemma print_size_rounds_witness : let '(n, m) := size_parts 1572864 (fst (size_unit 1572864)) in
  0 <= m < 10 /\ - 1048576 <= 20 * 1572864 - 2 * 1048576 * (10 * n + m) <= 1048576.
Proof. exact (print_size_rounds 1572864 ltac:(vm_compute; split; congruence)). Defined.

(** From one gigabyte on the tenths overflow: 1.5 GB is printed as 1.1 GB. *)
Example print_size_overflows : print_size 0x60000000 [] = Ok (zs " 1.1 GB").
Proof. vm_compute. reflexivity. Qed.

(** ** Dumps *)

(** [printf] of a fixed format with arguments of its types. *)
Ltac printf_ok := eexists; lazy -[number string u32 u64 s32]; reflexivity.

Lemma flash_error_ok err : exists t, flash_error err = Ok t.
Proof. unfold flash_error. repeat match goal with |- context [match ?p with _ => _ end] => is_var p; destruct p end; first [by eexists | clear; printf_ok]. Qed.

Definition width_ok (width : Z) : Prop := width = 1 \/ width = 2 \/ width = 4.

(** A value is printed, and its bytes are those in memory. *)
Lemma print_value_ok m p l width : width_ok width -> Z.of_nat (length l) = width -> bytes_at m p l ->
  exists t, print_value p width m = Ok ((t, l), m).
Proof.
  intros Hw Hl Hb. pose proof (bytes_at_bytes _ _ _ Hb) as HF. unfold print_value. destruct Hw as [->|[->| ->]]; cbn [Z.eqb Pos.eqb].
  - destruct l as [|b0 [|]]; try (cbn in Hl; lia). destruct Hb as [[H0 _] _]. rewrite (bind_ok _ _ _ _ _ (load8_ok _ _ _ H0)).
    assert (E : exists t, printf (zs " %02x") [A_int b0] = Ok t) by printf_ok. destruct E as [t ->]. by eexists.
  - destruct l as [|b0 [|b1 [|]]]; try (cbn in Hl; lia). rewrite (bind_ok _ _ _ _ _ (load16_ok _ _ _ _ Hb)).
    assert (E : exists t, printf (zs " %04x") [A_int (b0 + 256 * b1)] = Ok t) by printf_ok. destruct E as [t ->].
    rewrite !Forall_cons in HF. destruct HF as (H0 & H1 & _). unfold byte in *. eexists. unfold mbind, ST_bind, lift, mret, ST_ret.
    do 4 f_equal; [unfold u8; zmod|f_equal; unfold u8; zmod].
  - destruct l as [|b0 [|b1 [|b2 [|b3 [|]]]]]; try (cbn in Hl; lia). rewrite (bind_ok _ _ _ _ _ (load32_ok _ _ _ _ _ _ Hb)).
    rewrite !Forall_cons in HF. destruct HF as (H0 & H1 & H2 & H3 & _).
    destruct (u8_div_word b0 b1 b2 b3 H0 H1 H2 H3) as (E0 & E1 & E2 & E3). set (w := b0 + _ + _ + _) in *.
    assert (E : exists t, printf (zs " %08x") [A_int w] = Ok t) by (clear; printf_ok). destruct E as [t ->].
    eexists. unfold mbind, ST_bind, lift, mret, ST_ret. by rewrite E0, E1, E2, E3.
Qed.

Lemma print_values_ok m width n : width_ok width -> forall p l, Z.of_nat (length l) = Z.of_nat n * width -> bytes_at m p l ->
  exists t, print_values n p width m = Ok ((t, l), m).
Proof.
  intros Hw. induction n as [|n IH]; intros p l Hl Hb; cbn [print_values].
  - destruct l; [by eexists|cbn in Hl; lia].
  - assert (W : 0 < width) by (destruct Hw as [->|[->| ->]]; lia).
    rewrite <- (take_drop (Z.to_nat width) l) in Hb. apply bytes_at_app in Hb as [H1 H2].
    assert (L : Z.of_nat (length (take (Z.to_nat width) l)) = width) by (rewrite length_take; nia).
    rewrite L in H2. destruct (print_value_ok m p _ width Hw L H1) as [t Ht]. rewrite (bind_ok _ _ _ _ _ Ht).
    destruct (IH (p + width) (drop (Z.to_nat width) l)) as [ts Hts]; [rewrite length_drop; nia|done|]. rewrite (bind_ok _ _ _ _ _ Hts).
    cbv beta iota. rewrite take_drop. by eexists.
Qed.

(** The last column of a dump of [l] in lines of [k] bytes. *)
Fixpoint columns (fuel : nat) (k : nat) (l : list Z) : list (list Z) :=
  match fuel, l with
  | S fuel, _ :: _ => ascii_column (take k l) :: columns fuel k (drop k l)
  | _, _ => []
  end.

(** A text of lines ending in the given columns. *)
Inductive dump_of : list (list Z) -> list Z -> Prop :=
| dump_nil : dump_of [] []
| dump_line head col cols rest : dump_of cols rest -> dump_of (col :: cols) (head ++ zs "    " ++ col ++ [10] ++ rest).

Lemma print_lines_ok m width fuel : width_ok width -> forall k addr p l count linelen,
  Z.of_nat (length l) = count * width -> bytes_at m p l -> 0 <= count -> 0 < linelen -> linelen * width <= 64 -> (Z.to_nat count <= fuel)%nat ->
  exists t, print_lines fuel (fun _ => false) k addr p width count linelen m = Ok ((0, t), m) /\ dump_of (columns fuel (Z.to_nat (linelen * width)) l) t.
Proof.
  intros Hw. assert (W : 0 < width) by (destruct Hw as [->|[->| ->]]; lia).
  induction fuel as [|fuel IH]; intros k addr p l count linelen Hl Hb Hc Hn H64 Hf; cbn [print_lines columns]; destruct (Z.eqb_spec count 0) as [->|Hz];
    try lia.
  - exists []. destruct l; [split; [done|constructor]|cbn in Hl; lia].
  - exists []. destruct l; [split; [done|constructor]|cbn in Hl; lia].
  - assert (E : exists t, printf (zs "%08lx:") [A_int addr] = Ok t) by (clear; printf_ok). destruct E as [hd Ehd].
    rewrite (bind_ok (lift _) _ m hd m) by (by rewrite Ehd). cbv zeta. set (n := if count <? linelen then count else linelen).
    assert (Hnn : 0 < n <= count /\ n <= linelen /\ (n = linelen \/ n = count)) by (unfold n; destruct (Z.ltb_spec count linelen); lia).
    unfold MAX_LINE_LENGTH_BYTES. destruct (Z.ltb_spec 64 (n * width)); [nia|].
    rewrite <- (take_drop (Z.to_nat (n * width)) l) in Hb. apply bytes_at_app in Hb as [H1 H2].
    assert (L : Z.of_nat (length (take (Z.to_nat (n * width)) l)) = n * width) by (rewrite length_take; nia).
    rewrite L in H2. destruct (print_values_ok m width (Z.to_nat n) Hw p _ ltac:(rewrite L; lia) H1) as [tv Hv].
    rewrite (bind_ok _ _ _ _ _ Hv). cbv beta iota.
    destruct (IH (S k) (u32 (addr + n * width)) (p + n * width) (drop (Z.to_nat (n * width)) l) (count - n) n) as (ts & Hts & Hd);
      [rewrite length_drop; nia|done|lia|lia|lia|lia|].
    rewrite (bind_ok _ _ _ _ _ Hts). cbv beta iota. eexists. split; [reflexivity|].
    destruct l as [|b l]; [cbn in Hl; nia|].
    assert (Et : take (Z.to_nat (linelen * width)) (b :: l) = take (Z.to_nat (n * width)) (b :: l) /\
                 columns fuel (Z.to_nat (linelen * width)) (drop (Z.to_nat (linelen * width)) (b :: l)) =
                 columns fuel (Z.to_nat (n * width)) (drop (Z.to_nat (n * width)) (b :: l))).
    { destruct Hnn as (_ & ? & [->|En]); [done|]. rewrite !take_ge, !drop_ge by nia. split; [done|]. by destruct fuel. }
    destruct Et as [-> ->]. rewrite <- !app_assoc, (app_assoc hd). by constructor.
Qed.

Lemma columns_fuel k f : (0 < k)%nat -> forall g l, (length l <= f)%nat -> (length l <= g)%nat -> columns f k l = columns g k l.
Proof.
  intros Hk. induction f as [|f IH]; intros g l Hf Hg; destruct l as [|b l]; destruct g as [|g]; try done; try (cbn in *; lia).
  cbn [columns]. f_equal. apply IH; rewrite length_drop; cbn [length] in *; lia.
Qed.

(** The lines [print_buffer] makes, for widths and lengths that do not overflow. *)
Lemma line_length_ok width linelen : width_ok width -> 0 <= linelen -> linelen * width < 4294967296 ->
  0 < line_length width linelen /\ line_length width linelen * width <= 64.
Proof.
  intros Hw H0 H1. unfold line_length, MAX_LINE_LENGTH_BYTES, DEFAULT_LINE_LENGTH_BYTES.
  destruct Hw as [->|[->| ->]]; rewrite u32_small by lia;
    match goal with |- context [64 <? ?x] => destruct (Z.ltb_spec 64 x) end; try (vm_compute; split; [reflexivity|congruence]);
    destruct (Z.ltb_spec linelen 1); try (vm_compute; split; [reflexivity|congruence]); lia.
Qed.

(** A dump of mapped memory ends, changes nothing and shows every byte once and in
    order, whatever the width and the length of the lines. *)
Theorem print_buffer_correct m addr p l width count linelen :
  width_ok width -> Z.of_nat (length l) = count * width -> bytes_at m p l -> 0 <= linelen -> linelen * width < 4294967296 ->
  exists t, print_buffer (fun _ => false) addr p width count linelen m = Ok ((0, t), m) /\
    dump_of (columns (length l) (Z.to_nat (line_length width linelen * width)) l) t.
Proof.
  intros Hw Hl Hb H0 H1. destruct (line_length_ok width linelen Hw H0 H1) as [Hp H64].
  assert (W : 0 < width) by (destruct Hw as [->|[->| ->]]; lia). pose proof (size_bytes _ _ _ Hb) as Hs.
  destruct (print_lines_ok m width (S (size m)) Hw 0 addr p l count (line_length width linelen)) as (t & Ht & Hd); try done; try nia.
  exists t. split; [unfold print_buffer; by rewrite (bind_ok _ _ _ _ _ (mem_fuel_ok m))|].
  assert (0 < line_length width linelen * width) by nia. rewrite (columns_fuel (Z.to_nat (line_length width linelen * width)) (length l) ltac:(lia) (S (size m))) by lia. done.
Qed.

Lemma print_buffer_correct_witness :
  exists t, print_buffer (fun _ => false) 0x40 0x40 2 6 4 (mem_of 0x40 (zs "hello world!")) = Ok ((0, t), mem_of 0x40 (zs "hello world!")) /\
    dump_of [zs "hello wo"; zs "rld!"] t.
Proof. apply (print_buffer_correct _ 0x40 0x40 (zs "hello world!") 2 6 4); [by right; left|reflexivity|mem_decide|lia|lia]. Defined.

(** The product of the line length and the width may overflow; the buffer of a line
    then does. *)
Example print_buffer_overflows : print_buffer (fun _ => false) 0 0x40 4 0x11 0x40000000 (mem_of 0x40 (replicate 80 0)) = Fault.
Proof. vm_compute. reflexivity. Qed.
