(* ===== verification/Image.v ===== *)
(** * The legacy image format (common/image.c, include/image.h)

    A legacy image is a header of 64 bytes, big-endian, followed by its data; the
    data of a multi-file image begins with a table of sizes.  The header is read in
    the flat memory of Mem, addresses have 32 bits.  The board has no FIT images, no
    DataFlash and no clock, so those variants are left out. *)

From S2P Require Import Prelude Mem Ctype Vsprintf Crc CString Display.

(** ** The codes of the header *)

Definition IH_OS_INVALID : Z := 0.
Definition IH_OS_OPENBSD : Z := 1.
Definition IH_OS_NETBSD : Z := 2.
Definition IH_OS_FREEBSD : Z := 3.
Definition IH_OS_4_4BSD : Z := 4.
Definition IH_OS_LINUX : Z := 5.
Definition IH_OS_SVR4 : Z := 6.
Definition IH_OS_ESIX : Z := 7.
Definition IH_OS_SOLARIS : Z := 8.
Definition IH_OS_IRIX : Z := 9.
Definition IH_OS_SCO : Z := 10.
Definition IH_OS_DELL : Z := 11.
Definition IH_OS_NCR : Z := 12.
Definition IH_OS_LYNXOS : Z := 13.
Definition IH_OS_VXWORKS : Z := 14.
Definition IH_OS_PSOS : Z := 15.
Definition IH_OS_QNX : Z := 16.
Definition IH_OS_U_BOOT : Z := 17.
Definition IH_OS_RTEMS : Z := 18.
Definition IH_OS_ARTOS : Z := 19.
Definition IH_OS_UNITY : Z := 20.
Definition IH_OS_INTEGRITY : Z := 21.
Definition IH_ARCH_INVALID : Z := 0.
Definition IH_ARCH_ALPHA : Z := 1.
Definition IH_ARCH_ARM : Z := 2.
Definition IH_ARCH_I386 : Z := 3.
Definition IH_ARCH_IA64 : Z := 4.
Definition IH_ARCH_MIPS : Z := 5.
Definition IH_ARCH_MIPS64 : Z := 6.
Definition IH_ARCH_PPC : Z := 7.
Definition IH_ARCH_S390 : Z := 8.
Definition IH_ARCH_SH : Z := 9.
Definition IH_ARCH_SPARC : Z := 10.
Definition IH_ARCH_SPARC64 : Z := 11.
Definition IH_ARCH_M68K : Z := 12.
Definition IH_ARCH_NIOS : Z := 13.
Definition IH_ARCH_MICROBLAZE : Z := 14.
Definition IH_ARCH_NIOS2 : Z := 15.
Definition IH_ARCH_BLACKFIN : Z := 16.
Definition IH_ARCH_AVR32 : Z := 17.
Definition IH_ARCH_ST200 : Z := 18.
Definition IH_TYPE_INVALID : Z := 0.
Definition IH_TYPE_STANDALONE : Z := 1.
Definition IH_TYPE_KERNEL : Z := 2.
Definition IH_TYPE_RAMDISK : Z := 3.
Definition IH_TYPE_MULTI : Z := 4.
Definition IH_TYPE_FIRMWARE : Z := 5.
Definition IH_TYPE_SCRIPT : Z := 6.
Definition IH_TYPE_FILESYSTEM : Z := 7.
Definition IH_TYPE_FLATDT : Z := 8.
Definition IH_TYPE_KWBIMAGE : Z := 9.
Definition IH_TYPE_IMXIMAGE : Z := 10.
Definition IH_COMP_NONE : Z := 0.
Definition IH_COMP_GZIP : Z := 1.
Definition IH_COMP_BZIP2 : Z := 2.
Definition IH_COMP_LZMA : Z := 3.
Definition IH_COMP_LZO : Z := 4.

Definition IH_MAGIC : Z := 0x27051956.
Definition IH_NMLEN : Z := 32.

(** ** Names of the codes *)

(** An entry: code, short name, long name.  The code of the last one is negative. *)
Record table_entry := Entry { te_id : Z; te_sname : option (list Z); te_lname : list Z }.

Definition uimage_arch : list table_entry :=
  [Entry IH_ARCH_INVALID None (zs "Invalid ARCH");
   Entry IH_ARCH_ALPHA (Some (zs "alpha")) (zs "Alpha");
   Entry IH_ARCH_ARM (Some (zs "arm")) (zs "ARM");
   Entry IH_ARCH_I386 (Some (zs "x86")) (zs "Intel x86");
   Entry IH_ARCH_IA64 (Some (zs "ia64")) (zs "IA64");
   Entry IH_ARCH_M68K (Some (zs "m68k")) (zs "M68K");
   Entry IH_ARCH_MICROBLAZE (Some (zs "microblaze")) (zs "MicroBlaze");
   Entry IH_ARCH_MIPS (Some (zs "mips")) (zs "MIPS");
   Entry IH_ARCH_MIPS64 (Some (zs "mips64")) (zs "MIPS 64 Bit");
   Entry IH_ARCH_NIOS (Some (zs "nios")) (zs "NIOS");
   Entry IH_ARCH_NIOS2 (Some (zs "nios2")) (zs "NIOS II");
   Entry IH_ARCH_PPC (Some (zs "powerpc")) (zs "PowerPC");
   Entry IH_ARCH_PPC (Some (zs "ppc")) (zs "PowerPC");
   Entry IH_ARCH_S390 (Some (zs "s390")) (zs "IBM S390");
   Entry IH_ARCH_SH (Some (zs "sh")) (zs "SuperH");
   Entry IH_ARCH_SPARC (Some (zs "sparc")) (zs "SPARC");
   Entry IH_ARCH_SPARC64 (Some (zs "sparc64")) (zs "SPARC 64 Bit");
   Entry IH_ARCH_BLACKFIN (Some (zs "blackfin")) (zs "Blackfin");
   Entry IH_ARCH_AVR32 (Some (zs "avr32")) (zs "AVR32");
   Entry (-1) (Some (zs "")) (zs "")].

Definition uimage_os : list table_entry :=
  [Entry IH_OS_INVALID None (zs "Invalid OS");
   Entry IH_OS_LINUX (Some (zs "linux")) (zs "Linux");
   Entry IH_OS_NETBSD (Some (zs "netbsd")) (zs "NetBSD");
   Entry IH_OS_RTEMS (Some (zs "rtems")) (zs "RTEMS");
   Entry IH_OS_U_BOOT (Some (zs "u-boot")) (zs "U-Boot");
   Entry (-1) (Some (zs "")) (zs "")].

Definition uimage_type : list table_entry :=
  [Entry IH_TYPE_INVALID None (zs "Invalid Image");
   Entry IH_TYPE_FILESYSTEM (Some (zs "filesystem")) (zs "Filesystem Image");
   Entry IH_TYPE_FIRMWARE (Some (zs "firmware")) (zs "Firmware");
   Entry IH_TYPE_KERNEL (Some (zs "kernel")) (zs "Kernel Image");
   Entry IH_TYPE_MULTI (Some (zs "multi")) (zs "Multi-File Image");
   Entry IH_TYPE_RAMDISK (Some (zs "ramdisk")) (zs "RAMDisk Image");
   Entry IH_TYPE_SCRIPT (Some (zs "script")) (zs "Script");
   Entry IH_TYPE_STANDALONE (Some (zs "standalone")) (zs "Standalone Program");
   Entry IH_TYPE_FLATDT (Some (zs "flat_dt")) (zs "Flat Device Tree");
   Entry IH_TYPE_KWBIMAGE (Some (zs "kwbimage")) (zs "Kirkwood Boot Image");
   Entry IH_TYPE_IMXIMAGE (Some (zs "imximage")) (zs "Freescale i.MX Boot Image");
   Entry (-1) (Some (zs "")) (zs "")].

Definition uimage_comp : list table_entry :=
  [Entry IH_COMP_NONE (Some (zs "none")) (zs "uncompressed");
   Entry IH_COMP_BZIP2 (Some (zs "bzip2")) (zs "bzip2 compressed");
   Entry IH_COMP_GZIP (Some (zs "gzip")) (zs "gzip compressed");
   Entry IH_COMP_LZMA (Some (zs "lzma")) (zs "lzma compressed");
   Entry IH_COMP_LZO (Some (zs "lzo")) (zs "lzo compressed");
   Entry (-1) (Some (zs "")) (zs "")].

Fixpoint get_table_entry_name (table : list table_entry) (msg : list Z) (id : Z) : res (list Z) :=
  match table with
  | [] => Fault
  | t :: table =>
      if te_id t <? 0 then mret msg
      else if te_id t =? id then mret (te_lname t) else get_table_entry_name table msg id
  end.

Definition genimg_get_os_name (os : Z) := get_table_entry_name uimage_os (zs "Unknown OS") os.
Definition genimg_get_arch_name (arch : Z) := get_table_entry_name uimage_arch (zs "Unknown Architecture") arch.
Definition genimg_get_type_name (type : Z) := get_table_entry_name uimage_type (zs "Unknown Image") type.
Definition genimg_get_comp_name (comp : Z) := get_table_entry_name uimage_comp (zs "Unknown Compression") comp.

Fixpoint get_table_entry_id (table : list table_entry) (name : list Z) : res Z :=
  match table with
  | [] => Fault
  | t :: table =>
      if te_id t <? 0 then mret (-1)
      else if bool_decide (te_sname t = Some name) then mret (te_id t) else get_table_entry_id table name
  end.

Definition genimg_get_os_id (name : list Z) := get_table_entry_id uimage_os name.
Definition genimg_get_arch_id (name : list Z) := get_table_entry_id uimage_arch name.
Definition genimg_get_type_id (name : list Z) := get_table_entry_id uimage_type name.
Definition genimg_get_comp_id (name : list Z) := get_table_entry_id uimage_comp name.

(** ** The header in memory *)

Definition image_get_header_size : Z := 64.
(** The processor is little-endian: [be32_to_cpu] swaps as [htonl] does. *)
Definition uimage_to_cpu (x : Z) : Z := htonl x.

Definition image_get_hdr_l (offset hdr : Z) : M Z := w ← load32 (hdr + offset); mret (uimage_to_cpu w).
Definition image_get_hdr_b (offset hdr : Z) : M Z := load8 (hdr + offset).
Definition image_get_magic := image_get_hdr_l 0.
Definition image_get_hcrc := image_get_hdr_l 4.
Definition image_get_size := image_get_hdr_l 12.
Definition image_get_load := image_get_hdr_l 16.
Definition image_get_ep := image_get_hdr_l 20.
Definition image_get_dcrc := image_get_hdr_l 24.
Definition image_get_os := image_get_hdr_b 28.
Definition image_get_arch := image_get_hdr_b 29.
Definition image_get_type := image_get_hdr_b 30.
Definition image_get_comp := image_get_hdr_b 31.

(** [n] bytes from [p] on; running through memory ends at the latest behind it. *)
Fixpoint load_loop (fuel : nat) (p n : Z) : M (list Z) :=
  if n <=? 0 then mret [] else
  match fuel with
  | O => out_of_fuel
  | S fuel => b ← load8 p; bs ← load_loop fuel (p + 1) (n - 1); mret (b :: bs)
  end.
Definition load_bytes (p n : Z) : M (list Z) := fuel ← mem_fuel; load_loop fuel p n.

Definition image_get_name (hdr : Z) : Z := hdr + 32.
Definition image_get_data_size (hdr : Z) : M Z := image_get_size hdr.
Definition image_get_data (hdr : Z) : Z := u32 (hdr + image_get_header_size).
Definition image_get_image_size (hdr : Z) : M Z := size ← image_get_size hdr; mret (u32 (size + image_get_header_size)).
Definition image_get_image_end (hdr : Z) : M Z := size ← image_get_image_size hdr; mret (u32 (hdr + size)).

Definition image_check_magic (hdr : Z) : M bool := m ← image_get_magic hdr; mret (m =? IH_MAGIC).
Definition image_check_type (hdr type : Z) : M bool := t ← image_get_type hdr; mret (t =? type).
Definition image_check_arch (hdr arch : Z) : M bool := a ← image_get_arch hdr; mret (a =? arch).
Definition image_check_os (hdr os : Z) : M bool := o ← image_get_os hdr; mret (o =? os).
Definition image_check_target_arch (hdr : Z) : M bool := image_check_arch hdr IH_ARCH_ARM.

(** ** Checksums *)

Definition CHUNKSZ_CRC32 : Z := 64 * 1024.

(** [image_set_hcrc (&header, 0)] on a copy of the header. *)
Definition image_set_hcrc_0 (header : list Z) : list Z := take 4 header ++ [0; 0; 0; 0] ++ drop 8 header.

(** The copy is on the stack, aligned. *)
Definition image_check_hcrc (hdr : Z) : M bool :=
  header ← load_bytes hdr image_get_header_size;
  let hcrc := crc32 0 0 (image_set_hcrc_0 header) in
  h ← image_get_hcrc hdr;
  mret (hcrc =? h).

Definition image_check_dcrc (hdr : Z) : M bool :=
  let data := image_get_data hdr in
  len ← image_get_data_size hdr;
  buf ← load_bytes data len;
  dcrc ← lift (crc32_wd false 0 data buf CHUNKSZ_CRC32);
  d ← image_get_dcrc hdr;
  mret (dcrc =? d).

(** ** Multi-file images *)

Fixpoint count_loop (fuel : nat) (size : Z) (count : Z) : M Z :=
  match fuel with
  | O => out_of_fuel
  | S fuel => w ← load32 size; if w =? 0 then mret count else count_loop fuel (size + 4) (u32 (count + 1))
  end.

(** Number of non-empty slots. *)
Definition image_multi_count (hdr : Z) : M Z := fuel ← mem_fuel; count_loop fuel (image_get_data hdr) 0.

(** The sizes before the requested one, each rounded up to four bytes. *)
Fixpoint offset_loop (n : nat) (size offset : Z) : M Z :=
  match n with
  | O => mret offset
  | S n => w ← load32 size; offset_loop n (size + 4) (u32 (offset + Z.land (u32 (uimage_to_cpu w + 3)) 0xfffffffc))
  end.

(** Address and length of component [idx]. *)
Definition image_multi_getimg (hdr idx : Z) : M (Z * Z) :=
  count ← image_multi_count hdr;
  let size := image_get_data hdr in
  let img_data := u32 (image_get_data hdr + u32 ((count + 1) * 4)) in
  if idx <? count then
    w ← load32 (size + idx * 4);
    offset ← offset_loop (Z.to_nat idx) size 0;
    mret (u32 (img_data + offset), uimage_to_cpu w)
  else mret (0, 0).

(** ** Printing the header *)

Definition genimg_print_size (size : Z) : res (list Z) :=
  out ← printf (zs "%d Bytes = ") [A_int size];
  rest ← print_size size [10];
  mret (out ++ rest).

Definition image_print_type (hdr : Z) : M (list Z) :=
  o ← image_get_os hdr; os ← lift (genimg_get_os_name o);
  a ← image_get_arch hdr; arch ← lift (genimg_get_arch_name a);
  t ← image_get_type hdr; type ← lift (genimg_get_type_name t);
  c ← image_get_comp hdr; comp ← lift (genimg_get_comp_name c);
  lift (printf (zs "%s %s %s (%s)" ++ [10]) [A_str (Some arch); A_str (Some os); A_str (Some type); A_str (Some comp)]).

(** The string at the name, of at most [n] bytes. *)
Fixpoint name_text (n : nat) (p : Z) : M (list Z) :=
  match n with
  | O => mret []
  | S n => c ← load8 p; if c =? 0 then mret [] else s ← name_text n (p + 1); mret (c :: s)
  end.

(** One line of the contents of a multi-file image or a script. *)
Definition print_component (hdr type i : Z) : M (list Z) :=
  '(data, len) ← image_multi_getimg hdr i;
  head ← lift (printf (zs "%s   Image %d: ") [A_str (Some (zs "   ")); A_int i]);
  size ← lift (genimg_print_size len);
  off ← (if (type =? IH_TYPE_SCRIPT) && (0 <? i)
         then lift (printf (zs "%s    Offset = 0x%08lx" ++ [10]) [A_str (Some (zs "   ")); A_int data]) else mret []);
  mret (head ++ size ++ off).

(** Fuel: there are fewer components than addresses. *)
Fixpoint print_components (fuel : nat) (hdr type i count : Z) : M (list Z) :=
  if count <=? i then mret [] else
  match fuel with
  | O => out_of_fuel
  | S fuel => line ← print_component hdr type i; rest ← print_components fuel hdr type (i + 1) count; mret (line ++ rest)
  end.

Definition image_print_contents (hdr : Z) : M (list Z) :=
  let p := Some (zs "   ") in
  name ← name_text (Z.to_nat IH_NMLEN) (image_get_name hdr);
  l1 ← lift (printf (zs "%sImage Name:   %.*s" ++ [10]) [A_str p; A_int IH_NMLEN; A_str (Some name)]);
  l2 ← lift (printf (zs "%sImage Type:   ") [A_str p]);
  t2 ← image_print_type hdr;
  l3 ← lift (printf (zs "%sData Size:    ") [A_str p]);
  s ← image_get_data_size hdr;
  t3 ← lift (genimg_print_size s);
  ld ← image_get_load hdr;
  l4 ← lift (printf (zs "%sLoad Address: %08x" ++ [10]) [A_str p; A_int ld]);
  ep ← image_get_ep hdr;
  l5 ← lift (printf (zs "%sEntry Point:  %08x" ++ [10]) [A_str p; A_int ep]);
  let head := l1 ++ l2 ++ t2 ++ l3 ++ t3 ++ l4 ++ l5 in
  type ← image_get_type hdr;
  if (type =? IH_TYPE_MULTI) || (type =? IH_TYPE_SCRIPT) then
    count ← image_multi_count hdr;
    l6 ← lift (printf (zs "%sContents:" ++ [10]) [A_str p]);
    fuel ← mem_fuel;
    rest ← print_components fuel hdr type 0 count;
    mret (head ++ l6 ++ rest)
  else mret head.

(** ** Verification *)

Definition IMAGE_FORMAT_INVALID : Z := 0.
Definition IMAGE_FORMAT_LEGACY : Z := 1.

Definition genimg_get_format (img_addr : Z) : M Z :=
  ok ← image_check_magic img_addr; mret (if (ok : bool) then IMAGE_FORMAT_LEGACY else IMAGE_FORMAT_INVALID).

(** Without DataFlash the image is where it is. *)
Definition genimg_get_image (img_addr : Z) : Z := img_addr.

(** The checks common to kernels and RAM disks, and the data's if [verify]; the text
    of the header is printed on the way. *)
Definition image_get_ramdisk (rd_addr arch : Z) (verify : bool) : M (option Z) :=
  ok ← image_check_magic rd_addr; if negb ok then mret None else
  ok ← image_check_hcrc rd_addr; if negb ok then mret None else
  image_print_contents rd_addr;;
  ok ← (if verify then image_check_dcrc rd_addr else mret true : M bool); if negb ok then mret None else
  os ← image_check_os rd_addr IH_OS_LINUX;
  if negb os then mret None else
  a ← image_check_arch rd_addr arch;
  if negb a then mret None else
  t ← image_check_type rd_addr IH_TYPE_RAMDISK;
  if negb t then mret None else mret (Some rd_addr).

(** [memmove_wd] without a watchdog. *)
Definition memmove_wd (to from len : Z) : M unit := memmove to from len;; mret tt.

(** ** Reading memory *)

Lemma load_loop_ok l : forall fuel p m, bytes_at m p l -> (length l <= fuel)%nat -> load_loop fuel p (Z.of_nat (length l)) m = Ok (l, m).
Proof.
  induction l as [|b l IH]; intros fuel p m Hb Hf; destruct fuel as [|fuel]; cbn [load_loop length] in *; try done; try lia.
  destruct Hb as [[Hb _] Hl]. destruct (Z.leb_spec (Z.of_nat (S (length l))) 0); [lia|]. mload Hb.
  replace (Z.of_nat (S (length l)) - 1) with (Z.of_nat (length l)) by lia. by mstep (IH fuel (p + 1) m Hl ltac:(lia)).
Qed.

Lemma load_bytes_ok m p l : bytes_at m p l -> load_bytes p (Z.of_nat (length l)) m = Ok (l, m).
Proof. intros Hb. unfold load_bytes. mfuel. apply load_loop_ok; [done|]. apply size_bytes in Hb. lia. Qed.

Lemma bytes_at_slice m p l s i n :
  bytes_at m p l -> s = take n (drop i l) -> (i <= length l)%nat -> bytes_at m (p + Z.of_nat i) s.
Proof.
  intros Hb -> Hi. rewrite <- (take_drop i l), bytes_at_app, length_take_le in Hb by done. destruct Hb as [_ Hb].
  rewrite <- (take_drop n (drop i l)), bytes_at_app in Hb. apply Hb.
Qed.

(** ** Big-endian words *)

Definition be32_bytes (w : Z) : list Z := [u8 (w / 16777216); u8 (w / 65536); u8 (w / 256); u8 w].

Definition be32_value (l : list Z) : Z := fold_left (fun acc b => acc * 256 + b) l 0.


Lemma be32_bytes_ok w : Forall byte (be32_bytes w).
Proof. repeat constructor; apply u8_range. Qed.

Lemma be32_bytes_value w : word32 w -> be32_value (be32_bytes w) = w.
Proof. unfold word32, be32_value, be32_bytes, u8. cbn [fold_left]. intros H. zmod. Qed.

Lemma be32_value_bytes l : length l = 4%nat -> Forall byte l -> be32_bytes (be32_value l) = l /\ word32 (be32_value l).
Proof.
  destruct l as [|a [|b [|c [|d [|e l]]]]]; try done. intros _ HF. rewrite !Forall_cons in HF. destruct HF as (Ha & Hb & Hc & Hd & _).
  unfold byte, word32, be32_value, be32_bytes, u8 in *. cbn [fold_left]. split; [|lia]. repeat f_equal; zmod.
Qed.

Lemma uimage_word a b c d : byte a -> byte b -> byte c -> byte d ->
  uimage_to_cpu (a + 256 * b + 65536 * c + 16777216 * d) = be32_value [a; b; c; d].
Proof.
  intros Ha Hb Hc Hd. unfold uimage_to_cpu, be32_value. cbn [fold_left].
  replace (a + 256 * b + 65536 * c + 16777216 * d) with (((d * 256 + c) * 256 + b) * 256 + a) by lia.
  rewrite htonl_bytes by done. lia.
Qed.

Lemma load_be32 m p w : word32 w -> bytes_at m p (be32_bytes w) ->
  exists v, load32 p m = Ok (v, m) /\ uimage_to_cpu v = w /\ (v = 0 <-> w = 0).
Proof.
  intros Hw Hb. pose proof (be32_bytes_value w Hw) as E. pose proof (be32_bytes_ok w) as HF. unfold be32_bytes in *.
  eexists. split; [apply (load32_ok _ _ _ _ _ _ Hb)|]. rewrite !Forall_cons in HF. destruct HF as (Ha & Hb' & Hc & Hd & _).
  rewrite uimage_word, E by done. split; [done|]. unfold byte, be32_value in *. cbn [fold_left] in E. lia.
Qed.

Lemma hdr_l_ok m hdr off w : word32 w -> bytes_at m (hdr + off) (be32_bytes w) -> image_get_hdr_l off hdr m = Ok (w, m).
Proof. intros Hw Hb. destruct (load_be32 _ _ _ Hw Hb) as (v & E & Ev & _). unfold image_get_hdr_l. mstep E. by rewrite Ev. Qed.

Lemma lxor_word a b : word32 a -> word32 b -> word32 (Z.lxor a b).
Proof.
  unfold word32. intros Ha Hb. change 4294967296 with (2 ^ 32) in *.
  rewrite <- (Z.mod_small a (2 ^ 32)), <- (Z.mod_small b (2 ^ 32)), <- !Z.land_ones by lia.
  assert (E : Z.lxor (Z.land a (Z.ones 32)) (Z.land b (Z.ones 32)) = Z.land (Z.lxor a b) (Z.ones 32)).
  { apply Z.bits_inj'. intros n Hn. rewrite Z.lxor_spec, !Z.land_spec, Z.lxor_spec.
    by destruct (Z.testbit a n), (Z.testbit b n), (Z.testbit (Z.ones 32) n). }
  rewrite E, Z.land_ones by lia. apply Z.mod_pos_bound. lia.
Qed.

Lemma DO_CRC_word crc x : word32 crc -> word32 (DO_CRC crc x).
Proof.
  intros Hc. apply lxor_word.
  - assert (H : forallb (fun i => (0 <=? tab_get crc_table i) && (tab_get crc_table i <? 4294967296)) (seqZ 0 256) = true) by (vm_compute; reflexivity).
    rewrite forallb_forall in H. specialize (H (Z.land (Z.lxor crc x) 255)). rewrite andb_true_iff, Z.leb_le, Z.ltb_lt in H.
    apply H. apply list_elem_of_In, elem_of_seqZ. pose proof (land255_range (Z.lxor crc x)). lia.
  - unfold word32 in *. rewrite Z.shiftr_div_pow2 by lia. change (2 ^ 8) with 256. zmod.
Qed.

Lemma crc32_word crc p buf : word32 crc -> Forall byte buf -> word32 (crc32 crc p buf).
Proof.
  intros Hc HF. rewrite crc32_bytes by done. assert (Hf : word32 0xffffffff) by (unfold word32; lia).
  apply lxor_word; [|done]. pose proof (lxor_word _ _ Hc Hf) as H1. revert H1. generalize (Z.lxor crc 0xffffffff) as c.
  clear HF. induction buf as [|x buf IH]; intros c Hw; cbn [fold_left]; [done|]. by apply IH, DO_CRC_word.
Qed.

(** ** Headers

    What a tool that makes images writes. *)

Record header := Header { h_time : Z; h_size : Z; h_load : Z; h_ep : Z; h_dcrc : Z;
  h_os : Z; h_arch : Z; h_type : Z; h_comp : Z; h_name : list Z }.

Definition header_ok (h : header) : Prop :=
  word32 (h_time h) /\ word32 (h_size h) /\ word32 (h_load h) /\ word32 (h_ep h) /\ word32 (h_dcrc h) /\
  byte (h_os h) /\ byte (h_arch h) /\ byte (h_type h) /\ byte (h_comp h) /\ length (h_name h) = 32%nat /\ Forall byte (h_name h).

Definition header_bytes (hcrc : Z) (h : header) : list Z :=
  be32_bytes IH_MAGIC ++ be32_bytes hcrc ++ be32_bytes (h_time h) ++ be32_bytes (h_size h) ++ be32_bytes (h_load h) ++
  be32_bytes (h_ep h) ++ be32_bytes (h_dcrc h) ++ [h_os h; h_arch h; h_type h; h_comp h] ++ h_name h.

Definition header_crc (h : header) : Z := crc32 0 0 (header_bytes 0 h).
Definition make_header (h : header) : list Z := header_bytes (header_crc h) h.

Lemma header_bytes_ok c h : header_ok h -> Forall byte (header_bytes c h) /\ length (header_bytes c h) = 64%nat.
Proof.
  intros (_ & _ & _ & _ & _ & Ho & Ha & Ht & Hc & Hl & Hn). split.
  - unfold header_bytes. repeat (apply Forall_app; split; [apply be32_bytes_ok|]). apply Forall_app. split; [|done]. rewrite !Forall_cons. by split_and!.
  - unfold header_bytes, be32_bytes. cbn [app length]. by rewrite Hl.
Qed.

Lemma header_crc_word h : header_ok h -> word32 (header_crc h).
Proof. intros H. apply crc32_word; [unfold word32; lia|]. by apply header_bytes_ok. Qed.

Lemma blank_hcrc c h : image_set_hcrc_0 (header_bytes c h) = header_bytes 0 h.
Proof. reflexivity. Qed.

Section Fields.
Context (m : mem) (a c : Z) (h : header) (Hh : header_ok h) (Hc : word32 c) (Hb : bytes_at m a (header_bytes c h)).

Lemma word_field i w : word32 w -> be32_bytes w = take 4 (drop i (header_bytes c h)) -> (i <= 64)%nat ->
  image_get_hdr_l (Z.of_nat i) a m = Ok (w, m).
Proof.
  intros Hw E Hi. apply hdr_l_ok; [done|]. eapply bytes_at_slice; [exact Hb|exact E|]. by destruct (header_bytes_ok c h Hh) as [_ ->].
Qed.

Lemma byte_field i b : header_bytes c h !! i = Some b -> image_get_hdr_b (Z.of_nat i) a m = Ok (b, m).
Proof. intros Hi. apply load8_ok. eapply bytes_at_lookup; [exact Hb|exact Hi]. Qed.

Lemma get_magic : image_get_magic a m = Ok (IH_MAGIC, m).
Proof. apply (word_field 0); [unfold word32, IH_MAGIC; lia|reflexivity|lia]. Qed.
Lemma get_hcrc : image_get_hcrc a m = Ok (c, m).
Proof. apply (word_field 4); [done|reflexivity|lia]. Qed.
Lemma get_size : image_get_size a m = Ok (h_size h, m).
Proof. apply (word_field 12); [apply Hh|reflexivity|lia]. Qed.
Lemma get_load : image_get_load a m = Ok (h_load h, m).
Proof. apply (word_field 16); [apply Hh|reflexivity|lia]. Qed.
Lemma get_ep : image_get_ep a m = Ok (h_ep h, m).
Proof. apply (word_field 20); [apply Hh|reflexivity|lia]. Qed.
Lemma get_dcrc : image_get_dcrc a m = Ok (h_dcrc h, m).
Proof. apply (word_field 24); [apply Hh|reflexivity|lia]. Qed.
Lemma get_os : image_get_os a m = Ok (h_os h, m).
Proof. by apply (byte_field 28). Qed.
Lemma get_arch : image_get_arch a m = Ok (h_arch h, m).
Proof. by apply (byte_field 29). Qed.
Lemma get_type : image_get_type a m = Ok (h_type h, m).
Proof. by apply (byte_field 30). Qed.
Lemma get_comp : image_get_comp a m = Ok (h_comp h, m).
Proof. by apply (byte_field 31). Qed.

Lemma check_magic_ok : image_check_magic a m = Ok (true, m).
Proof. unfold image_check_magic. by mstep get_magic. Qed.

Lemma check_hcrc_ok : image_check_hcrc a m = Ok (header_crc h =? c, m).
Proof.
  unfold image_check_hcrc. destruct (header_bytes_ok c h Hh) as [_ Hl].
  pose proof (load_bytes_ok _ _ _ Hb) as L. rewrite Hl in L. mstep L. by mstep get_hcrc.
Qed.
End Fields.

(** ** Which headers are accepted *)

(** The fields of 64 bytes. *)
Definition read_header (l : list Z) : header :=
  let w i := be32_value (take 4 (drop i l)) in let b i := nth i l 0 in
  Header (w 8%nat) (w 12%nat) (w 16%nat) (w 20%nat) (w 24%nat) (b 28%nat) (b 29%nat) (b 30%nat) (b 31%nat) (drop 32 l).

Lemma split_word l i : (i + 4 <= length l)%nat -> Forall byte l ->
  drop i l = be32_bytes (be32_value (take 4 (drop i l))) ++ drop (i + 4) l /\ word32 (be32_value (take 4 (drop i l))).
Proof.
  intros Hl HF. destruct (be32_value_bytes (take 4 (drop i l))) as [-> Hw].
  - rewrite length_take, length_drop. lia.
  - by apply Forall_take, Forall_drop.
  - rewrite <- drop_drop, take_drop. done.
Qed.

Lemma split_byte l i : (i < length l)%nat -> drop i l = nth i l 0 :: drop (S i) l.
Proof.
  intros Hl. destruct (lookup_lt_is_Some_2 l i Hl) as [b Hb]. rewrite (drop_S _ _ _ Hb). by rewrite (nth_lookup_Some _ _ _ _ Hb).
Qed.

Lemma read_header_ok l : length l = 64%nat -> Forall byte l ->
  header_ok (read_header l) /\
  l = be32_bytes (be32_value (take 4 l)) ++ be32_bytes (be32_value (take 4 (drop 4 l))) ++ drop 8 (header_bytes 0 (read_header l)).
Proof.
  intros Hl HF.
  assert (W : forall i j, j = (i + 4)%nat -> (j <= 64)%nat -> drop i l = be32_bytes (be32_value (take 4 (drop i l))) ++ drop j l /\ word32 (be32_value (take 4 (drop i l)))).
  { intros i j -> Hi. apply split_word; [lia|done]. }
  assert (B : forall i, (i < 64)%nat -> byte (nth i l 0)).
  { intros i Hi. destruct (lookup_lt_is_Some_2 l i ltac:(lia)) as [b Hb]. rewrite (nth_lookup_Some _ _ _ _ Hb). by apply (proj1 (Forall_lookup _ _) HF i). }
  split.
  - unfold header_ok, read_header. cbn [h_time h_size h_load h_ep h_dcrc h_os h_arch h_type h_comp h_name].
    split_and!; try (by eapply W; [reflexivity|lia]); try (apply B; lia); [rewrite length_drop; lia|by apply Forall_drop].
  - change (drop 8 (header_bytes 0 (read_header l))) with
      (be32_bytes (be32_value (take 4 (drop 8 l))) ++ be32_bytes (be32_value (take 4 (drop 12 l))) ++ be32_bytes (be32_value (take 4 (drop 16 l))) ++
       be32_bytes (be32_value (take 4 (drop 20 l))) ++ be32_bytes (be32_value (take 4 (drop 24 l))) ++ [nth 28 l 0; nth 29 l 0; nth 30 l 0; nth 31 l 0] ++ drop 32 l).
    cbn [app]. rewrite <- (split_byte l 31), <- (split_byte l 30), <- (split_byte l 29), <- (split_byte l 28) by lia.
    rewrite <- (proj1 (W 24%nat 28%nat eq_refl ltac:(lia))), <- (proj1 (W 20%nat 24%nat eq_refl ltac:(lia))), <- (proj1 (W 16%nat 20%nat eq_refl ltac:(lia))), <- (proj1 (W 12%nat 16%nat eq_refl ltac:(lia))),
      <- (proj1 (W 8%nat 12%nat eq_refl ltac:(lia))), <- (proj1 (W 4%nat 8%nat eq_refl ltac:(lia))). apply (proj1 (W 0%nat 4%nat eq_refl ltac:(lia))).
Qed.

(** C24: The headers whose magic number and checksum are accepted are exactly those
    that [make_header] builds: the layout with the magic number, any bytes in the
    other fields, and the checksum of the whole with its own field blanked. *)
Theorem header_accepted m a l : bytes_at m a l -> length l = 64%nat ->
  (image_check_magic a m = Ok (true, m) /\ image_check_hcrc a m = Ok (true, m)) <-> (exists h, header_ok h /\ l = make_header h).
Proof.
  intros Hb Hl. split.
  - intros [Hm Hc]. pose proof (bytes_at_bytes _ _ _ Hb) as HF. destruct (read_header_ok l Hl HF) as [Ho E].
    set (h := read_header l) in *. exists h. split; [done|].
    destruct (be32_value_bytes (take 4 l)) as [_ W0]; [rewrite length_take; lia|by apply Forall_take|].
    destruct (be32_value_bytes (take 4 (drop 4 l))) as [_ W4]; [rewrite length_take, length_drop; lia|by apply Forall_take, Forall_drop|].
    set (w0 := be32_value (take 4 l)) in *. set (w4 := be32_value (take 4 (drop 4 l))) in *.
    assert (E0 : w0 = IH_MAGIC).
    { assert (G : image_get_magic a m = Ok (w0, m)).
      { apply hdr_l_ok; [done|]. rewrite Z.add_0_r. rewrite E in Hb. by apply bytes_at_app in Hb as [Hb _]. }
      unfold image_check_magic in Hm. rewrite (bind_ok _ _ _ _ _ G) in Hm. injection Hm as Hm. by apply Z.eqb_eq in Hm. }
    assert (E' : l = header_bytes w4 h) by (rewrite E, E0; reflexivity).
    rewrite E' in Hb. rewrite (check_hcrc_ok m a w4 h Ho W4 Hb) in Hc. injection Hc as Hc. apply Z.eqb_eq in Hc.
    unfold make_header. by rewrite Hc.
  - intros (h & Ho & ->). pose proof (header_crc_word h Ho) as Hw. split; [by eapply check_magic_ok|].
    by rewrite (check_hcrc_ok m a _ h Ho Hw Hb), Z.eqb_refl.
Qed.

(** ** Images *)

(** The header [h] at [a], with its data behind it. *)
Definition image_at (m : mem) (a : Z) (h : header) (data : list Z) : Prop :=
  header_ok h /\ h_size h = Z.of_nat (length data) /\ 0 <= a /\ a + 64 + h_size h < 4294967296 /\
  bytes_at m a (make_header h ++ data).

Lemma image_at_header m a h data : image_at m a h data -> bytes_at m a (header_bytes (header_crc h) h).
Proof. intros (_ & _ & _ & _ & Hb). by apply bytes_at_app in Hb as [Hb _]. Qed.

Lemma image_at_data m a h data : image_at m a h data -> image_get_data a = a + 64 /\ bytes_at m (a + 64) data.
Proof.
  intros (Ho & Hs & Ha & Hl & Hb). unfold image_get_data, image_get_header_size.
  apply bytes_at_app in Hb as [_ Hb]. unfold make_header in Hb. rewrite (proj2 (header_bytes_ok _ h Ho)) in Hb. change (Z.of_nat 64) with 64 in Hb.
  split; [|done]. apply u32_small. pose proof (Zle_0_nat (length data)). lia.
Qed.

Lemma crc32_anywhere crc p q buf : Forall byte buf -> crc32 crc p buf = crc32 crc q buf.
Proof. intros HF. by rewrite !crc32_bytes. Qed.

Lemma check_dcrc_ok m a h data : image_at m a h data -> image_check_dcrc a m = Ok (crc32 0 0 data =? h_dcrc h, m).
Proof.
  intros Hi. pose proof (image_at_header _ _ _ _ Hi) as Hb. destruct (image_at_data _ _ _ _ Hi) as [Ed Hd].
  destruct Hi as (Ho & Hs & _). pose proof (header_crc_word h Ho) as Hw. unfold image_check_dcrc, image_get_data_size. cbv zeta. rewrite Ed.
  mstep (get_size m a _ h Ho Hb). rewrite Hs. mstep (load_bytes_ok _ _ _ Hd). unfold crc32_wd.
  rewrite (bind_ok (lift (Ok _)) _ m _ m eq_refl). cbv beta. mstep (get_dcrc m a _ h Ho Hb).
  by rewrite (crc32_anywhere 0 (a + 64) 0) by (by eapply bytes_at_bytes).
Qed.

(** ** Multi-file images *)

Definition pad4 (n : Z) : Z := 4 * ((n + 3) / 4).

(** The components one after the other, all but the last filled up to words. *)
Fixpoint join_components (l : list (list Z)) : list Z :=
  match l with
  | [] => []
  | [c] => c
  | c :: l => c ++ replicate (Z.to_nat (pad4 (Z.of_nat (length c)) - Z.of_nat (length c))) 0 ++ join_components l
  end.

Definition size_table (l : list (list Z)) : list Z := flat_map (fun c => be32_bytes (Z.of_nat (length c))) l.

Definition multi_payload (l : list (list Z)) : list Z := size_table l ++ be32_bytes 0 ++ join_components l.

Definition component_ok (c : list Z) : Prop := 0 < Z.of_nat (length c) < 4294967293.

Definition offset_of (n : nat) (l : list (list Z)) : Z := foldr (fun c acc => pad4 (Z.of_nat (length c)) + acc) 0 (take n l).

Lemma length_size_table l : length (size_table l) = (4 * length l)%nat.
Proof. induction l as [|c l IH]; [done|]. unfold size_table in *. cbn [flat_map length app be32_bytes]. rewrite IH. lia. Qed.

Lemma count_loop_ok l rest : forall fuel p k m, Forall component_ok l -> bytes_at m p (size_table l ++ be32_bytes 0 ++ rest) ->
  (length l < fuel)%nat -> 0 <= k -> k + Z.of_nat (length l) < 4294967296 ->
  count_loop fuel p k m = Ok (k + Z.of_nat (length l), m).
Proof.
  induction l as [|c l IH]; intros fuel p k m HF Hb Hf Hk Hl; destruct fuel as [|fuel]; cbn [length] in *; try lia; cbn [count_loop].
  - apply bytes_at_app in Hb as [_ Hb]. apply bytes_at_app in Hb as [Hb _]. rewrite Z.add_0_r in Hb.
    destruct (load_be32 m p 0) as (v & E & _ & E0); [unfold word32; lia|done|]. mstep E. rewrite (proj2 E0 eq_refl). cbn [Z.eqb].
    by rewrite Z.add_0_r.
  - apply Forall_cons in HF as [Hc HF]. unfold component_ok in Hc. change (size_table (c :: l)) with (be32_bytes (Z.of_nat (length c)) ++ size_table l) in Hb.
    rewrite <- app_assoc in Hb. apply bytes_at_app in Hb as [Hw Hb]. change (Z.of_nat (length (be32_bytes _))) with 4 in Hb.
    destruct (load_be32 m p (Z.of_nat (length c))) as (v & E & _ & E0); [unfold word32; lia|done|]. mstep E.
    destruct (Z.eqb_spec v 0) as [Ev|_]; [apply E0 in Ev; lia|]. rewrite IH by (done || lia || (rewrite u32_small; lia)).
    rewrite u32_small by lia. do 2 f_equal. lia.
Qed.

Lemma pad4_mask n : 0 <= n -> n + 3 < 4294967296 -> Z.land (u32 (n + 3)) 0xfffffffc = pad4 n.
Proof.
  intros H0 H1. rewrite u32_small by lia. change 0xfffffffc with (Z.shiftl (Z.ones 30) 2). rewrite land_mask_shift, Z.shiftl_mul_pow2 by lia.
  unfold pad4. change (2 ^ 2) with 4. change (2 ^ 30) with 1073741824. zmod.
Qed.

Lemma pad4_bounds n : n <= pad4 n <= n + 3.
Proof. unfold pad4. zmod. Qed.

Lemma offset_of_nonneg n l : 0 <= offset_of n l.
Proof.
  unfold offset_of. induction (take n l) as [|c k IH]; cbn [foldr]; [lia|]. pose proof (pad4_bounds (Z.of_nat (length c))). lia.
Qed.

Lemma offset_loop_ok rest n : forall l p off m, Forall component_ok l -> bytes_at m p (size_table l ++ rest) -> (n <= length l)%nat ->
  0 <= off -> off + offset_of n l < 4294967296 -> offset_loop n p off m = Ok (off + offset_of n l, m).
Proof.
  induction n as [|n IH]; intros l p off m HF Hb Hn Ho Hl; cbn [offset_loop].
  - unfold offset_of. cbn [take foldr]. by rewrite Z.add_0_r.
  - destruct l as [|c l]; cbn [length] in Hn; [lia|]. apply Forall_cons in HF as [Hc HF]. unfold component_ok in Hc.
    change (size_table (c :: l)) with (be32_bytes (Z.of_nat (length c)) ++ size_table l) in Hb.
    rewrite <- app_assoc in Hb. apply bytes_at_app in Hb as [Hw Hb]. change (Z.of_nat (length (be32_bytes _))) with 4 in Hb.
    destruct (load_be32 m p (Z.of_nat (length c))) as (v & E & Ev & _); [unfold word32; lia|done|]. mstep E. rewrite Ev.
    change (offset_of (S n) (c :: l)) with (pad4 (Z.of_nat (length c)) + offset_of n l) in *. pose proof (offset_of_nonneg n l).
    pose proof (pad4_bounds (Z.of_nat (length c))). rewrite pad4_mask, u32_small by lia. rewrite (IH l) by (done || lia). do 2 f_equal. lia.
Qed.

Lemma component_place l : forall idx c, l !! idx = Some c ->
  exists pre post, join_components l = pre ++ c ++ post /\ Z.of_nat (length pre) = offset_of idx l.
Proof.
  induction l as [|d l IH]; intros idx c Hi; [done|]. destruct idx as [|idx].
  - injection Hi as ->. exists []. destruct l as [|e l]; [exists []; by rewrite app_nil_r|]. eexists. split; [reflexivity|done].
  - cbn [lookup list_lookup] in Hi. destruct (IH idx c Hi) as (pre & post & E & Ep). destruct l as [|e l]; [done|].
    change (join_components (d :: e :: l)) with
      (d ++ replicate (Z.to_nat (pad4 (Z.of_nat (length d)) - Z.of_nat (length d))) 0 ++ join_components (e :: l)).
    rewrite E. eexists (d ++ replicate _ 0 ++ pre), post. split; [by rewrite !app_assoc|].
    change (offset_of (S idx) (d :: e :: l)) with (pad4 (Z.of_nat (length d)) + offset_of idx (e :: l)). rewrite <- Ep.
    rewrite !length_app, length_replicate. pose proof (pad4_bounds (Z.of_nat (length d))). lia.
Qed.

Lemma multi_count_ok m a h l : Forall component_ok l -> image_at m a h (multi_payload l) ->
  image_multi_count a m = Ok (Z.of_nat (length l), m) /\ Z.of_nat (length l) < 1073741824.
Proof.
  intros HF Hi. destruct (image_at_data _ _ _ _ Hi) as [Ed Hd]. destruct Hi as (_ & Hs & Ha & Hl & _).
  assert (Hn : Z.of_nat (length l) < 1073741824).
  { rewrite Hs in Hl. unfold multi_payload in Hl. rewrite length_app, length_size_table in Hl. lia. }
  split; [|done]. unfold image_multi_count. mfuel. rewrite Ed. rewrite (count_loop_ok l (join_components l)); [done|done|exact Hd| |lia|lia].
  pose proof (size_bytes _ _ _ Hd) as Hz. unfold multi_payload in Hz. rewrite length_app, length_size_table in Hz. lia.
Qed.

Lemma multi_getimg_ok m a h l idx : Forall component_ok l -> image_at m a h (multi_payload l) ->
  0 <= idx ->
  match l !! Z.to_nat idx with
  | Some c => exists p, image_multi_getimg a idx m = Ok ((p, Z.of_nat (length c)), m) /\ bytes_at m p c
  | None => image_multi_getimg a idx m = Ok ((0, 0), m)
  end.
Proof.
  intros HF Hi H0. destruct (multi_count_ok _ _ _ _ HF Hi) as [Hc Hn]. destruct (image_at_data _ _ _ _ Hi) as [Ed Hd].
  destruct Hi as (_ & Hs & Ha & Hl & _). unfold image_multi_getimg. mstep Hc. cbv zeta.
  destruct (l !! Z.to_nat idx) as [c|] eqn:E.
  2: { apply lookup_ge_None in E. destruct (Z.ltb_spec idx (Z.of_nat (length l))); [lia|done]. }
  pose proof (lookup_lt_Some _ _ _ E) as Hidx. destruct (Z.ltb_spec idx (Z.of_nat (length l))); [|lia]. rewrite Ed.
  destruct (component_place l _ _ E) as (pre & post & Ej & Ep).
  assert (Hc' : component_ok c) by (by apply (proj1 (Forall_lookup _ _) HF _ _ E)). unfold component_ok in Hc'.
  assert (Hsz : length (multi_payload l) = (4 * length l + 4 + length pre + length c + length post)%nat).
  { unfold multi_payload. rewrite Ej, !length_app, length_size_table. change (length (be32_bytes 0)) with 4%nat. lia. }
  rewrite Hs, Hsz in Hl.
  destruct (load_be32 m (a + 64 + idx * 4) (Z.of_nat (length c))) as (v & Ev & Ew & _).
  { unfold word32; lia. }
  { rewrite <- (take_drop (Z.to_nat idx) l), (drop_S _ _ _ E) in Hd. unfold multi_payload, size_table in Hd. rewrite flat_map_app, <- app_assoc in Hd.
    apply bytes_at_app in Hd as [_ Hd]. cbn [flat_map] in Hd. rewrite <- app_assoc in Hd. apply bytes_at_app in Hd as [Hd _].
    fold (size_table (take (Z.to_nat idx) l)) in Hd. rewrite length_size_table, length_take_le in Hd by lia.
    replace (a + 64 + idx * 4) with (a + 64 + Z.of_nat (4 * Z.to_nat idx)) by lia. done. }
  assert (EO : offset_loop (Z.to_nat idx) (a + 64) 0 m = Ok (0 + offset_of (Z.to_nat idx) l, m)).
  { eapply (offset_loop_ok (be32_bytes 0 ++ join_components l)); [exact HF|exact Hd|lia|lia|rewrite <- Ep; lia]. }
  mstep Ev. mstep EO. unfold multi_payload in Hd.
  rewrite Ew. eexists. split; [reflexivity|]. rewrite Ej in Hd. do 3 apply bytes_at_app in Hd as [_ Hd]. apply bytes_at_app in Hd as [Hd _].
  rewrite length_size_table, Ep in Hd. change (Z.of_nat (length (be32_bytes 0))) with 4 in Hd.
  rewrite Z.add_0_l. rewrite (u32_small ((_ + 1) * 4)), (u32_small (a + 64 + _)), u32_small by lia.
  by replace (a + 64 + (Z.of_nat (length l) + 1) * 4 + offset_of (Z.to_nat idx) l) with (a + 64 + Z.of_nat (4 * length l) + 4 + offset_of (Z.to_nat idx) l) by lia.
Qed.

(** C25: A component of a multi-file image is found where it was put, with its
    length; past the last one nothing is. *)
Theorem multi_getimg_correct m a h l idx : Forall component_ok l -> image_at m a h (multi_payload l) ->
  0 <= idx ->
  match l !! Z.to_nat idx with
  | Some c => exists p, image_multi_getimg a idx m = Ok ((p, Z.of_nat (length c)), m) /\ bytes_at m p c
  | None => image_multi_getimg a idx m = Ok ((0, 0), m)
  end.
Proof. apply multi_getimg_ok. Qed.

(** ** Printing *)


Lemma print_whole n : exists t, printf (zs "%2ld") [A_int n] = Ok t.
Proof. printf_ok. Qed.
Lemma print_tenth n : exists t, printf (zs ".%ld") [A_int n] = Ok t.
Proof. printf_ok. Qed.
Lemma print_unit c s : exists t, printf (zs " %cB%s") [A_int c; A_str s] = Ok t.
Proof. printf_ok. Qed.

Lemma print_size_ok size s : exists t, print_size size s = Ok t.
Proof.
  unfold print_size. destruct (size_unit size) as [d c]. destruct (size_parts size d) as [n m].
  destruct (print_whole n) as [t1 ->], (print_tenth m) as [t2 E2], (print_unit c (Some s)) as [t3 ->]. unfold mbind, res_bind.
  destruct (negb (m =? 0)); rewrite ?E2; by eexists.
Qed.

Lemma genimg_print_size_ok size : exists t, genimg_print_size size = Ok t.
Proof.
  unfold genimg_print_size. assert (E : exists t, printf (zs "%d Bytes = ") [A_int size] = Ok t) by printf_ok. destruct E as [t ->].
  destruct (print_size_ok size [10]) as [t' E']. unfold mbind, res_bind. rewrite E'. by eexists.
Qed.

Lemma table_name_ok tab msg id : existsb (fun t => te_id t <? 0) tab = true -> exists t, get_table_entry_name tab msg id = Ok t.
Proof.
  induction tab as [|t tab IH]; cbn [existsb get_table_entry_name]; [done|]. destruct (te_id t <? 0); [by eexists|]. cbn [orb]. intros H.
  destruct (te_id t =? id); [by eexists|by apply IH].
Qed.

(** Computations that only read and give some result. *)
Definition reads {A} (c : M A) (m : mem) : Prop := exists x, c m = Ok (x, m).

Lemma reads_ret {A} (x : A) m : reads (mret x) m.
Proof. by exists x. Qed.

Lemma reads_lift {A} (r : res A) m : (exists x, r = Ok x) -> reads (lift r) m.
Proof. intros [x ->]. by exists x. Qed.

Lemma reads_bind {A B} (c : M A) (k : A -> M B) m : reads c m -> (forall x, reads (k x) m) -> reads (c ≫= k) m.
Proof. intros [x Hx] Hk. destruct (Hk x) as [y Hy]. exists y. by mstep Hx. Qed.

Lemma reads_bind_eq {A B} (c : M A) (k : A -> M B) m x : c m = Ok (x, m) -> reads (k x) m -> reads (c ≫= k) m.
Proof. intros Hx [y Hy]. exists y. by mstep Hx. Qed.

Lemma name_text_reads l : forall p m, bytes_at m p l -> reads (name_text (length l) p) m.
Proof.
  induction l as [|b l IH]; intros p m Hb; cbn [length name_text]; [apply reads_ret|]. destruct Hb as [[Hb _] Hl].
  eapply reads_bind_eq; [by apply load8_ok|]. destruct (b =? 0); [apply reads_ret|]. apply reads_bind; [by apply IH|]. intros s. apply reads_ret.
Qed.

(** An image whose printing reads nothing but itself. *)
Definition printable (h : header) (data : list Z) : Prop :=
  (h_type h <> IH_TYPE_MULTI /\ h_type h <> IH_TYPE_SCRIPT) \/ exists l, Forall component_ok l /\ data = multi_payload l.

Section Printing.
Context (m : mem) (a : Z) (h : header) (data : list Z) (Hi : image_at m a h data).

Lemma print_type_reads : reads (image_print_type a) m.
Proof.
  pose proof (proj1 Hi) as Ho. pose proof (image_at_header _ _ _ _ Hi) as Hb. unfold image_print_type.
  eapply reads_bind_eq; [eapply get_os; done|]. apply reads_bind; [by apply reads_lift, table_name_ok|]. intros os.
  eapply reads_bind_eq; [eapply get_arch; done|]. apply reads_bind; [by apply reads_lift, table_name_ok|]. intros arch.
  eapply reads_bind_eq; [eapply get_type; done|]. apply reads_bind; [by apply reads_lift, table_name_ok|]. intros type.
  eapply reads_bind_eq; [eapply get_comp; done|]. apply reads_bind; [by apply reads_lift, table_name_ok|]. intros comp.
  apply reads_lift. printf_ok.
Qed.

Lemma print_component_reads l type i : Forall component_ok l -> data = multi_payload l -> 0 <= i < Z.of_nat (length l) ->
  reads (print_component a type i) m.
Proof.
  intros HF E Hr. unfold print_component. subst data. pose proof (multi_getimg_ok m a h l i HF Hi ltac:(lia)) as G.
  destruct (lookup_lt_is_Some_2 l (Z.to_nat i)) as [c Ec]; [lia|]. rewrite Ec in G. destruct G as (p & G & _).
  eapply reads_bind_eq; [exact G|]. apply reads_bind; [apply reads_lift; printf_ok|]. intros hd.
  apply reads_bind; [apply reads_lift, genimg_print_size_ok|]. intros sz.
  apply reads_bind; [|intros off; apply reads_ret]. destruct (_ && _); [|apply reads_ret]. apply reads_lift. printf_ok.
Qed.

Lemma print_components_reads l type fuel : Forall component_ok l -> data = multi_payload l -> forall i, 0 <= i ->
  (Z.to_nat (Z.of_nat (length l) - i) <= fuel)%nat -> reads (print_components fuel a type i (Z.of_nat (length l))) m.
Proof.
  intros HF E. induction fuel as [|fuel IH]; intros i H0 Hf; cbn [print_components]; destruct (Z.leb_spec (Z.of_nat (length l)) i);
    try apply reads_ret; [lia|].
  apply reads_bind; [by apply (print_component_reads l)|]. intros line. apply reads_bind; [apply IH; lia|]. intros rest. apply reads_ret.
Qed.

Lemma print_contents_reads : printable h data -> reads (image_print_contents a) m.
Proof.
  intros Hp. unfold image_print_contents. cbv zeta. pose proof (proj1 Hi) as Ho. pose proof (image_at_header _ _ _ _ Hi) as Hb. pose proof Ho as Ho'. destruct Ho' as (_ & _ & _ & _ & _ & _ & _ & _ & _ & Hn & _).
  apply reads_bind.
  { replace (Z.to_nat IH_NMLEN) with (length (h_name h)) by (by rewrite Hn). apply name_text_reads.
    unfold image_get_name. eapply (bytes_at_slice _ _ _ _ 32 32); [exact Hb|change (drop 32 (header_bytes (header_crc h) h)) with (h_name h); by rewrite take_ge by lia|].
    rewrite (proj2 (header_bytes_ok _ h Ho)). lia. }
  intros name. apply reads_bind; [apply reads_lift; printf_ok|]. intros l1. apply reads_bind; [apply reads_lift; printf_ok|]. intros l2.
  apply reads_bind; [apply print_type_reads|]. intros t2. apply reads_bind; [apply reads_lift; printf_ok|]. intros l3.
  eapply reads_bind_eq; [eapply get_size; done|]. apply reads_bind; [apply reads_lift, genimg_print_size_ok|]. intros t3.
  eapply reads_bind_eq; [eapply get_load; done|]. apply reads_bind; [apply reads_lift; printf_ok|]. intros l4.
  eapply reads_bind_eq; [eapply get_ep; done|]. apply reads_bind; [apply reads_lift; printf_ok|]. intros l5.
  eapply reads_bind_eq; [eapply get_type; done|]. destruct Hp as [[H1 H2]|(l & HF & E)].
  { apply Z.eqb_neq in H1, H2. rewrite H1, H2. apply reads_ret. }
  destruct (_ || _); [|apply reads_ret]. pose proof Hi as Hi'. rewrite E in Hi'.
  destruct (multi_count_ok m a h l HF Hi') as [Hc _].
  eapply reads_bind_eq; [exact Hc|]. apply reads_bind; [apply reads_lift; printf_ok|]. intros l6.
  eapply reads_bind_eq; [apply mem_fuel_ok|]. apply reads_bind; [|intros rest; apply reads_ret].
  apply (print_components_reads l); [done|done|lia|].
  destruct (image_at_data _ _ _ _ Hi') as [_ Hd]. apply size_bytes in Hd. unfold multi_payload in Hd. rewrite length_app, length_size_table in Hd. lia.
Qed.
End Printing.

(** ** Verification *)

Lemma check_type_ok m a h data t : image_at m a h data -> image_check_type a t m = Ok (h_type h =? t, m).
Proof. intros Hi. unfold image_check_type. by mstep (get_type m a _ h (image_at_header _ _ _ _ Hi)). Qed.

Lemma check_arch_ok m a h data t : image_at m a h data -> image_check_arch a t m = Ok (h_arch h =? t, m).
Proof. intros Hi. unfold image_check_arch. by mstep (get_arch m a _ h (image_at_header _ _ _ _ Hi)). Qed.

Lemma check_os_ok m a h data t : image_at m a h data -> image_check_os a t m = Ok (h_os h =? t, m).
Proof. intros Hi. unfold image_check_os. by mstep (get_os m a _ h (image_at_header _ _ _ _ Hi)). Qed.

(** The data is what its checksum in the header says. *)
Definition data_intact (h : header) (data : list Z) : bool := crc32 0 0 data =? h_dcrc h.

Lemma image_magic_ok m a h data : image_at m a h data -> image_check_magic a m = Ok (true, m).
Proof. intros Hi. exact (check_magic_ok m a _ h (proj1 Hi) (image_at_header _ _ _ _ Hi)). Qed.

Lemma image_hcrc_ok m a h data : image_at m a h data -> image_check_hcrc a m = Ok (true, m).
Proof.
  intros Hi. rewrite (check_hcrc_ok m a _ h (proj1 Hi) (header_crc_word _ (proj1 Hi)) (image_at_header _ _ _ _ Hi)). by rewrite Z.eqb_refl.
Qed.

(** A RAM disk image is accepted exactly if it is one for Linux on this
    architecture and, where that is verified, its data is intact. *)
Theorem image_get_ramdisk_correct m a h data arch verify : image_at m a h data -> printable h data ->
  image_get_ramdisk a arch verify m =
  Ok (if (negb verify || data_intact h data) && (h_os h =? IH_OS_LINUX) && (h_arch h =? arch) && (h_type h =? IH_TYPE_RAMDISK) then Some a else None, m).
Proof.
  intros Hi Hp. unfold image_get_ramdisk. mstep (image_magic_ok _ _ _ _ Hi). cbn [negb]. mstep (image_hcrc_ok _ _ _ _ Hi). cbn [negb].
  destruct (print_contents_reads m a h data Hi Hp) as [t Ht]. mstep Ht.
  assert (E : (if verify then image_check_dcrc a else mret true : M bool) m = Ok (negb verify || data_intact h data, m)).
  { destruct verify; cbn [negb orb]; [by apply check_dcrc_ok|done]. }
  mstep E. destruct (negb verify || data_intact h data); cbn [negb andb]; [|done].
  mstep (check_os_ok _ _ _ _ IH_OS_LINUX Hi). destruct (h_os h =? IH_OS_LINUX); cbn [negb andb]; [|done].
  mstep (check_arch_ok _ _ _ _ arch Hi). destruct (h_arch h =? arch); cbn [negb andb]; [|done].
  mstep (check_type_ok _ _ _ _ IH_TYPE_RAMDISK Hi). by destruct (h_type h =? IH_TYPE_RAMDISK).
Qed.

(** ** Runs *)

Definition text32 (s : list Z) : list Z := take 32 (s ++ replicate 32 0).

(** A multi-file image of two components. *)
Definition sample_parts : list (list Z) := [zs "kernel"; zs "disk"].
Definition sample_header (data : list Z) (type : Z) : header :=
  Header 0 (Z.of_nat (length data)) 0x8000 0x8040 (crc32 0 0 data) IH_OS_LINUX IH_ARCH_ARM type IH_COMP_NONE (text32 (zs "Linux")).
Definition sample_image (data : list Z) (type : Z) : list Z := make_header (sample_header data type) ++ data.
Definition sample_mem : mem := mem_of 0x1000 (sample_image (multi_payload sample_parts) IH_TYPE_MULTI).

Lemma image_sample_ok : image_at sample_mem 0x1000 (sample_header (multi_payload sample_parts) IH_TYPE_MULTI) (multi_payload sample_parts).
Proof.
  split; [|split; [reflexivity|split; [lia|split; [vm_compute; reflexivity|]]]].
  - unfold header_ok, word32, byte. split_and!; try (vm_compute; congruence); try reflexivity. apply (bool_decide_unpack _). vm_compute. exact I.
  - mem_decide.
Qed.

Lemma sample_parts_ok : Forall component_ok sample_parts.
Proof. unfold component_ok. repeat constructor; vm_compute; congruence. Qed.

Example sample_second : match image_multi_getimg 0x1000 1 sample_mem with Ok (r, _) => Some r | _ => None end = Some (0x1000 + 64 + 12 + 8, 4).
Proof. vm_compute. reflexivity. Qed.

Example sample_text : option_map fst (match image_print_contents 0x1000 sample_mem with Ok r => Some r | _ => None end) = Some (
  zs "   Image Name:   Linux" ++ [10] ++ zs "   Image Type:   ARM Linux Multi-File Image (uncompressed)" ++ [10] ++
  zs "   Data Size:    24 Bytes =  0 kB" ++ [10] ++ zs "   Load Address: 00008000" ++ [10] ++ zs "   Entry Point:  00008040" ++ [10] ++
  zs "   Contents:" ++ [10] ++ zs "      Image 0: 6 Bytes =  0 kB" ++ [10] ++ zs "      Image 1: 4 Bytes =  0 kB" ++ [10]).
Proof. vm_compute. reflexivity. Qed.

Lemma header_accepted_witness :
  (image_check_magic 0x1000 sample_mem = Ok (true, sample_mem) /\ image_check_hcrc 0x1000 sample_mem = Ok (true, sample_mem)) <->
  (exists h, header_ok h /\ take 64 (sample_image (multi_payload sample_parts) IH_TYPE_MULTI) = make_header h).
Proof. apply header_accepted; [mem_decide|reflexivity]. Defined.

Lemma multi_getimg_correct_witness :
  exists p, image_multi_getimg 0x1000 1 sample_mem = Ok ((p, 4), sample_mem) /\ bytes_at sample_mem p (zs "disk").
Proof.
  pose proof (multi_getimg_correct sample_mem 0x1000 (sample_header (multi_payload sample_parts) IH_TYPE_MULTI) sample_parts 1 sample_parts_ok image_sample_ok ltac:(lia)) as H.
  assert (E : sample_parts !! Z.to_nat 1 = Some (zs "disk")) by reflexivity. rewrite E in H. exact H.
Defined.

Definition disk_mem : mem := mem_of 0x1000 (sample_image (zs "files") IH_TYPE_RAMDISK).

Lemma disk_ok : image_at disk_mem 0x1000 (sample_header (zs "files") IH_TYPE_RAMDISK) (zs "files").
Proof.
  split; [|split; [reflexivity|split; [lia|split; [vm_compute; reflexivity|]]]].
  - unfold header_ok, word32, byte. split_and!; try (vm_compute; congruence); try reflexivity. apply (bool_decide_unpack _). vm_compute. exact I.
  - mem_decide.
Qed.

Lemma image_get_ramdisk_correct_witness : image_get_ramdisk 0x1000 IH_ARCH_ARM true disk_mem = Ok (Some 0x1000, disk_mem).
Proof.
  rewrite (image_get_ramdisk_correct disk_mem 0x1000 (sample_header (zs "files") IH_TYPE_RAMDISK) (zs "files") IH_ARCH_ARM true disk_ok);
    [|left; split; discriminate].
  assert (E : data_intact (sample_header (zs "files") IH_TYPE_RAMDISK) (zs "files") = true) by (vm_compute; reflexivity). rewrite E. reflexivity.
Defined.

(** The image type is not checked where the components are counted: an empty RAM disk
    image with type multi is followed through whatever comes behind it. *)
Example count_runs_away :
  let m := mem_of 0x1000 (sample_image [] IH_TYPE_MULTI) in
  let ok (c : M bool) := match c m with Ok (b, _) => b | _ => false end in
  ok (image_check_hcrc 0x1000) && ok (image_check_dcrc 0x1000) = true /\ image_multi_count 0x1000 m = Fault.
Proof. split; vm_compute; reflexivity. Qed.
