(* ===== verification/Bootm.v ===== *)
(** * Booting (common/cmd_bootm.c, common/image.c, lib_arm/bootm.c, lib_generic/gunzip.c)

    From the arguments of the bootm command to the jump into the kernel with its list
    of tags.  The state is the memory, the environment and [images].  What is jumped
    to is the argument [prog]: it may return, as a standalone program does.  zlib is
    third-party code, the arguments [inflateInit2] and [inflate].  The board has no
    LMB, no FIT images, no watchdog and no interrupts; messages are dropped. *)

From S2P Require Import Prelude Mem Ctype Vsprintf Crc CString Env Command Cli Display Image.

(** ** The state *)

Record image_info_t := Image_info {
  info_start : Z; info_end : Z; info_image_start : Z; info_image_len : Z; info_load : Z;
  info_comp : Z; info_type : Z; info_os : Z
}.

Record bootm_headers_t := Headers {
  legacy_hdr_os : Z;
  legacy_hdr_os_copy : list Z;
  legacy_hdr_valid : bool;
  os_info : image_info_t;
  ep : Z;
  rd_start : Z;
  rd_end : Z;
  verify : bool;
  boot_state : Z
}.

Record boot := Boot { b_mem : mem; b_env : env_state; images : bootm_headers_t }.

Abbreviation B := (ST boot).

Definition on_mem {A} (c : M A) : B A := fun s =>
  match c (b_mem s) with
  | Ok (a, m) => Ok (a, Boot m (b_env s) (images s))
  | Fault => Fault
  | OutOfFuel => OutOfFuel
  end.

Definition set_images (i : bootm_headers_t) : B unit := modify (fun s => Boot (b_mem s) (b_env s) i).

Definition env_var (name : list Z) : B (option (list Z)) := fun s => lift (getenv_value (b_env s) name) s.

Definition BOOTM_STATE_START : Z := 0x00000001.
Definition BOOTM_STATE_LOADOS : Z := 0x00000002.
Definition BOOTM_STATE_OS_CMDLINE : Z := 0x00000010.
Definition BOOTM_STATE_OS_BD_T : Z := 0x00000020.
Definition BOOTM_STATE_OS_PREP : Z := 0x00000040.
Definition BOOTM_STATE_OS_GO : Z := 0x00000080.

(** What control is given to. *)
Inductive jump :=
| Linux (entry machid params : Z)
| NetBSD (entry : Z) (os_hdr : option Z) (cmdline : list Z)
| RTEMS (entry : Z)
| Standalone (entry : Z) (args : list (list Z))
| Reset.

(** ** gunzip *)

Definition HEAD_CRC : Z := 2.
Definition EXTRA_FIELD : Z := 4.
Definition ORIG_NAME : Z := 8.
Definition COMMENT : Z := 0x10.
Definition RESERVED : Z := 0xe0.
Definition DEFLATED : Z := 8.
Definition Z_OK : Z := 0.
Definition Z_STREAM_END : Z := 1.

(** [while (src[i++] != 0)] *)
Fixpoint skip_string (fuel : nat) (src i : Z) : M Z :=
  match fuel with
  | O => out_of_fuel
  | S fuel => c ← load8 (src + i); if c =? 0 then mret (i + 1) else skip_string fuel src (i + 1)
  end.

Section Gunzip.
Context (inflateInit2 : M Z).
(** Source and its length, destination and its room; the code and [next_out]. *)
Context (inflate : Z -> Z -> Z -> Z -> M (Z * Z)).

Definition zunzip (dst dstlen src len : Z) (stoponerr : bool) (offset : Z) : M (Z * Z) :=
  r ← inflateInit2;
  if negb (r =? Z_OK) then mret (-1, len)
  else
    '(r, next_out) ← inflate (src + offset) (u32 (len - offset)) dst dstlen;
    if negb (r =? Z_STREAM_END) && stoponerr then mret (-1, len) else mret (0, u32 (next_out - dst)).

(** The length of the header, if it is not too long. *)
Definition gunzip_header (src : Z) : M (option Z) :=
  flags ← load8 (src + 3);
  method ← load8 (src + 2);
  if negb (method =? DEFLATED) || negb (Z.land flags RESERVED =? 0) then mret None
  else
    fuel ← mem_fuel;
    i ← (if negb (Z.land flags EXTRA_FIELD =? 0)
         then lo ← load8 (src + 10); hi ← load8 (src + 11); mret (12 + lo + Z.shiftl hi 8) else mret 10);
    i ← (if negb (Z.land flags ORIG_NAME =? 0) then skip_string fuel src i else mret i);
    i ← (if negb (Z.land flags COMMENT =? 0) then skip_string fuel src i else mret i);
    mret (Some (if negb (Z.land flags HEAD_CRC =? 0) then i + 2 else i)).

Definition gunzip (dst dstlen src len : Z) : M (Z * Z) :=
  h ← gunzip_header src;
  match h with
  | None => mret (-1, len)
  | Some i => if len <=? i then mret (-1, len) else zunzip dst dstlen src len true i
  end.

(** ** Loading the image *)

Definition CONFIG_SYS_BOOTM_LEN : Z := 0x800000.
Definition BOOTM_ERR_RESET : Z := -1.
Definition BOOTM_ERR_OVERLAP : Z := -2.
Definition BOOTM_ERR_UNIMPLEMENTED : Z := -3.

(** The check after an image was loaded up to [load_end]. *)
Definition load_overlap (os : image_info_t) (load_end : Z) : Z :=
  if (info_load os <? info_end os) && (info_start os <? load_end) then BOOTM_ERR_OVERLAP else 0.

Definition bootm_load_os (os : image_info_t) : M Z :=
  let comp := info_comp os in
  let load := info_load os in
  let image_start := info_image_start os in
  let image_len := info_image_len os in
  if comp =? IH_COMP_NONE then
    (if load =? info_start os then mret tt
     else if negb (load =? image_start) then memmove_wd load image_start image_len else mret tt);;
    mret (load_overlap os (u32 (load + image_len)))
  else if comp =? IH_COMP_GZIP then
    '(r, image_len) ← gunzip load CONFIG_SYS_BOOTM_LEN image_start image_len;
    if negb (r =? 0) then mret BOOTM_ERR_RESET else mret (load_overlap os (u32 (load + image_len)))
  else mret BOOTM_ERR_UNIMPLEMENTED.
End Gunzip.

(** ** Finding the images *)

Definition empty_info : image_info_t := Image_info 0 0 0 0 0 0 0 0.
Definition empty_headers : bootm_headers_t := Headers 0 (replicate 64 0) false empty_info 0 0 0 false 0.

Definition with_verify (i : bootm_headers_t) (v : bool) : bootm_headers_t :=
  Headers (legacy_hdr_os i) (legacy_hdr_os_copy i) (legacy_hdr_valid i) (os_info i) (ep i) (rd_start i) (rd_end i) v (boot_state i).
Definition with_legacy (i : bootm_headers_t) (hdr : Z) (copy : list Z) : bootm_headers_t :=
  Headers hdr copy true (os_info i) (ep i) (rd_start i) (rd_end i) (verify i) (boot_state i).
Definition with_os (i : bootm_headers_t) (o : image_info_t) : bootm_headers_t :=
  Headers (legacy_hdr_os i) (legacy_hdr_os_copy i) (legacy_hdr_valid i) o (ep i) (rd_start i) (rd_end i) (verify i) (boot_state i).
Definition with_ep (i : bootm_headers_t) (e : Z) : bootm_headers_t :=
  Headers (legacy_hdr_os i) (legacy_hdr_os_copy i) (legacy_hdr_valid i) (os_info i) e (rd_start i) (rd_end i) (verify i) (boot_state i).
Definition with_rd (i : bootm_headers_t) (s e : Z) : bootm_headers_t :=
  Headers (legacy_hdr_os i) (legacy_hdr_os_copy i) (legacy_hdr_valid i) (os_info i) (ep i) s e (verify i) (boot_state i).
Definition with_state (i : bootm_headers_t) (s : Z) : bootm_headers_t :=
  Headers (legacy_hdr_os i) (legacy_hdr_os_copy i) (legacy_hdr_valid i) (os_info i) (ep i) (rd_start i) (rd_end i) (verify i) s.

(** The fields of the copy of the header. *)
Definition copy_type (i : bootm_headers_t) : res Z := arr_get (legacy_hdr_os_copy i) 30.
Definition copy_ep (i : bootm_headers_t) : res Z :=
  b0 ← arr_get (legacy_hdr_os_copy i) 20; b1 ← arr_get (legacy_hdr_os_copy i) 21;
  b2 ← arr_get (legacy_hdr_os_copy i) 22; b3 ← arr_get (legacy_hdr_os_copy i) 23;
  mret (uimage_to_cpu (b0 + 256 * b1 + 65536 * b2 + 16777216 * b3)).

Definition getenv_yesno (var : list Z) : B bool :=
  s ← env_var var; mret (match s with Some s => negb (deref s =? ch "n") | None => true end).

Definition image_get_kernel (img_addr : Z) (verify : bool) : M (option Z) :=
  ok ← image_check_magic img_addr; if negb ok then mret None else
  ok ← image_check_hcrc img_addr; if negb ok then mret None else
  image_print_contents img_addr;;
  ok ← (if verify then image_check_dcrc img_addr else mret true : M bool); if negb ok then mret None else
  ok ← image_check_target_arch img_addr; if negb ok then mret None else
  mret (Some img_addr).

(** Address and length of the kernel in the image, if its type is one to boot. *)
Definition kernel_data (hdr : Z) : M (option (Z * Z)) :=
  type ← image_get_type hdr;
  if type =? IH_TYPE_KERNEL then len ← image_get_data_size hdr; mret (Some (image_get_data hdr, len))
  else if type =? IH_TYPE_MULTI then r ← image_multi_getimg hdr 0; mret (Some r)
  else if type =? IH_TYPE_STANDALONE then len ← image_get_data_size hdr; mret (Some (image_get_data hdr, len))
  else mret None.

(** The image's address ([None]: no valid one), the data and its length. *)
Definition boot_get_kernel (load_addr : Z) (argv : list (list Z)) : B (option Z * Z * Z) :=
  let img_addr := match argv !! 1%nat with None => load_addr | Some a => fst (simple_strtoul a 16) end in
  let img_addr := genimg_get_image img_addr in
  format ← on_mem (genimg_get_format img_addr);
  if negb (format =? IMAGE_FORMAT_LEGACY) then mret (None, 0, 0) else
  i ← gets images;
  k ← on_mem (image_get_kernel img_addr (verify i));
  match k with
  | None => mret (None, 0, 0)
  | Some hdr =>
      d ← on_mem (kernel_data hdr);
      match d with
      | None => mret (None, 0, 0)
      | Some (os_data, os_len) =>
          copy ← on_mem (load_bytes hdr image_get_header_size);
          set_images (with_legacy i hdr copy);;
          mret (Some img_addr, os_data, os_len)
      end
  end.

(** Address and length of the RAM disk, or the error. *)
Definition ramdisk_data (arch : Z) (argv : list (list Z)) (i : bootm_headers_t) : M (option (Z * Z)) :=
  match argv !! 2%nat with
  | Some a =>
      if bool_decide (a = zs "-") then mret (Some (0, 0))
      else
        let rd_addr := genimg_get_image (fst (simple_strtoul a 16)) in
        format ← genimg_get_format rd_addr;
        if negb (format =? IMAGE_FORMAT_LEGACY) then mret None else
        rd_hdr ← image_get_ramdisk rd_addr arch (verify i);
        match rd_hdr with
        | None => mret None
        | Some hdr => len ← image_get_data_size hdr; mret (Some (image_get_data hdr, len))
        end
  | None =>
      t ← lift (copy_type i);
      if legacy_hdr_valid i && (t =? IH_TYPE_MULTI) then r ← image_multi_getimg (legacy_hdr_os i) 1; mret (Some r)
      else mret (Some (0, 0))
  end.

(** The result, [rd_start] and [rd_end]. *)
Definition boot_get_ramdisk (arch : Z) (argv : list (list Z)) (i : bootm_headers_t) : M (Z * Z * Z) :=
  d ← ramdisk_data arch argv i;
  mret match d with
       | None => (1, 0, 0)
       | Some (rd_data, rd_len) => if rd_data =? 0 then (0, 0, 0) else (0, rd_data, u32 (rd_data + rd_len))
       end.

(** The parameters of a valid image. *)
Definition image_params (hdr os_data os_len : Z) : M image_info_t :=
  type ← image_get_type hdr; comp ← image_get_comp hdr; os ← image_get_os hdr;
  e ← image_get_image_end hdr; load ← image_get_load hdr;
  mret (Image_info 0 e os_data os_len load comp type os).

Definition IH_INITRD_ARCH : Z := IH_ARCH_ARM.

Definition bootm_start (load_addr : Z) (argv : list (list Z)) : B Z :=
  set_images empty_headers;;
  v ← getenv_yesno (zs "verify");
  set_images (with_verify empty_headers v);;
  '(os_hdr, os_data, os_len) ← boot_get_kernel load_addr argv;
  i ← gets images;
  set_images (with_os i (Image_info 0 0 os_data os_len 0 0 0 0));;
  if os_len =? 0 then mret 1 else
  match os_hdr with
  | None => mret 1
  | Some os_hdr =>
      format ← on_mem (genimg_get_format os_hdr);
      if negb (format =? IMAGE_FORMAT_LEGACY) then mret 1 else
      o ← on_mem (image_params os_hdr os_data os_len);
      i ← gets images;
      set_images (with_os i o);;
      if negb (legacy_hdr_valid i) then mret 1 else
      e ← lift (copy_ep i);
      i ← gets images;
      set_images (with_ep i e);;
      i ← gets images;
      '(ret, s, e) ← (if ((info_type o =? IH_TYPE_KERNEL) || (info_type o =? IH_TYPE_MULTI)) && (info_os o =? IH_OS_LINUX)
                      then on_mem (boot_get_ramdisk IH_INITRD_ARCH argv i) else mret (0, 0, 0));
      set_images (with_rd i s e);;
      if negb (ret =? 0) then mret 1
      else
        let o := Image_info os_hdr (info_end o) (info_image_start o) (info_image_len o) (info_load o) (info_comp o) (info_type o) (info_os o) in
        set_images (with_state (with_os (with_rd i s e) o) BOOTM_STATE_START);;
        mret 0
  end.

(** ** The list of tags (lib_arm/bootm.c) *)

Definition ATAG_NONE : Z := 0x00000000.
Definition ATAG_CORE : Z := 0x54410001.
Definition ATAG_MEM : Z := 0x54410002.
Definition ATAG_CMDLINE : Z := 0x54410009.

(** [sizeof (struct tag_header)]; [tag_size] of a structure of [n] bytes. *)
Definition tag_header_size : Z := 8.
Definition tag_size (n : Z) : Z := Z.shiftr (tag_header_size + n) 2.

Definition tag_next (t : Z) : M Z := size ← load32 t; mret (u32 (t + 4 * size)).

Fixpoint skip_blanks (s : list Z) : list Z :=
  match s with
  | c :: s' => if c =? ch " " then skip_blanks s' else s
  | [] => []
  end.

(** [strstr (s, t) != NULL] *)
Fixpoint has_substring (t s : list Z) : bool :=
  bool_decide (take (length t) s = t) || match s with [] => false | _ :: s' => has_substring t s' end.

Section Tags.
(** The board's parameters: [bi_boot_params] and [bi_dram]. *)
Context (bi_boot_params : Z) (bi_dram : list (Z * Z)).

Definition CONFIG_NR_DRAM_BANKS : nat := 3.

Definition setup_start_tag : M Z :=
  let params := bi_boot_params in
  store32 (params + 4) ATAG_CORE;;
  store32 params (tag_size 12);;
  store32 (params + 8) 0;;
  store32 (params + 12) 0;;
  store32 (params + 16) 0;;
  tag_next params.

Fixpoint memory_tags_loop (n i : nat) (params : Z) : M Z :=
  match n with
  | O => mret params
  | S n =>
      store32 (params + 4) ATAG_MEM;;
      store32 params (tag_size 8);;
      '(start, size) ← lift (arr_get bi_dram i);
      store32 (params + 12) start;;
      store32 (params + 8) size;;
      params ← tag_next params;
      memory_tags_loop n (S i) params
  end.

Definition setup_memory_tags (params : Z) : M Z := memory_tags_loop CONFIG_NR_DRAM_BANKS 0 params.

(** The board's Ethernet address behind the command line [p], unless it has one. *)
Definition append_ethaddr (params : Z) (p : list Z) (ethaddr : option (list Z)) : M unit :=
  match ethaddr with
  | Some e =>
      if negb (has_substring (zs "ethaddr=") p) then
        text ← lift (printf (zs " ethaddr=%s") [A_str (Some e)]);
        store_bytes (params + 8 + Z.of_nat (length p)) (text ++ [0]);;
        n ← strlen (params + 8);
        store32 params (Z.shiftr (tag_header_size + n + 1 + 4) 2)
      else mret tt
  | None => mret tt
  end.

(** [commandline] and [ethaddr] are what [getenv] gives for bootargs and ethaddr. *)
Definition setup_commandline_tag (params : Z) (commandline ethaddr : option (list Z)) : M Z :=
  match commandline with
  | None => mret params
  | Some commandline =>
      let p := skip_blanks commandline in
      if bool_decide (p = []) then mret params
      else
        store32 (params + 4) ATAG_CMDLINE;;
        store32 params (Z.shiftr (tag_header_size + Z.of_nat (length p) + 1 + 4) 2);;
        store_bytes (params + 8) (p ++ [0]);;
        append_ethaddr params p ethaddr;;
        tag_next params
  end.

Definition setup_end_tag (params : Z) : M unit :=
  store32 (params + 4) ATAG_NONE;;
  store32 params 0.

(** ** The operating systems *)

Context (bi_arch_number : Z).
(** What the program jumped to does, if it returns. *)
Context (prog : jump -> boot -> res boot).
(** Whether [malloc] has that much. *)
Context (malloc_ok : Z -> bool).

Definition run (j : jump) : B unit := fun s => match prog j s with Ok s => Ok (tt, s) | Fault => Fault | OutOfFuel => OutOfFuel end.

Definition do_bootm_linux (flag : Z) (argv : list (list Z)) : B Z :=
  commandline ← env_var (zs "bootargs");
  if negb (flag =? 0) && negb (flag =? BOOTM_STATE_OS_GO) then mret 1 else
  i ← gets images;
  let theKernel := ep i in
  s ← env_var (zs "machid");
  let machid := match s with Some s => s32 (fst (simple_strtoul s 16)) | None => s32 bi_arch_number end in
  params ← on_mem setup_start_tag;
  params ← on_mem (setup_memory_tags params);
  ethaddr ← env_var (zs "ethaddr");
  params ← on_mem (setup_commandline_tag params commandline ethaddr);
  on_mem (setup_end_tag params);;
  run (Linux theKernel machid bi_boot_params);;
  mret 1.

(** The arguments from the third on, with blanks between them. *)
Definition netbsd_args (argv : list (list Z)) : list Z :=
  match drop 2 argv with [] => [] | a :: l => a ++ flat_map (fun x => ch " " :: x) l end.

Definition do_bootm_netbsd (flag : Z) (argv : list (list Z)) : B Z :=
  if negb (flag =? 0) && negb (flag =? BOOTM_STATE_OS_GO) then mret 1 else
  i ← gets images;
  t ← lift (copy_type i);
  os_hdr ← (if t =? IH_TYPE_MULTI
            then '(_, kernel_len) ← on_mem (image_multi_getimg (legacy_hdr_os i) 1);
                 mret (if negb (kernel_len =? 0) then Some (legacy_hdr_os i) else None)
            else mret None);
  cmdline ← (if (2 <? length argv)%nat then
               let len := list_sum (map (fun a => (length a + 1)%nat) (drop 2 argv)) in
               if malloc_ok (Z.of_nat len) then mret (netbsd_args argv) else fault
             else s ← env_var (zs "bootargs"); mret (default [] s));
  run (NetBSD (ep i) os_hdr cmdline);;
  mret 1.

Definition do_bootm_rtems (flag : Z) (argv : list (list Z)) : B Z :=
  if negb (flag =? 0) && negb (flag =? BOOTM_STATE_OS_GO) then mret 1 else
  i ← gets images;
  run (RTEMS (ep i));;
  mret 1.

Inductive boot_os_fn := Fn_linux | Fn_netbsd | Fn_rtems.

(** The table of functions; the last one there is decides its length. *)
Definition boot_os : list (option boot_os_fn) :=
  <[Z.to_nat IH_OS_RTEMS := Some Fn_rtems]> (<[Z.to_nat IH_OS_NETBSD := Some Fn_netbsd]> (<[Z.to_nat IH_OS_LINUX := Some Fn_linux]>
    (replicate (S (Z.to_nat IH_OS_RTEMS)) None))).

(** A call through the table; a null pointer is a fault. *)
Definition call_boot_fn (f : option boot_os_fn) (flag : Z) (argv : list (list Z)) : B Z :=
  match f with
  | Some Fn_linux => do_bootm_linux flag argv
  | Some Fn_netbsd => do_bootm_netbsd flag argv
  | Some Fn_rtems => do_bootm_rtems flag argv
  | None => fault
  end.

(** ** The command *)

Context (inflateInit2 : M Z) (inflate : Z -> Z -> Z -> Z -> M (Z * Z)).
Context (load_addr : Z).
Context (console_assign : Z -> list Z -> Z) (env_overwrite : bool) (baudrate_table : list Z).

(** The entry point, that is in the processor's order, is swapped once more. *)
Definition bootm_start_standalone (argv : list (list Z)) : B Z :=
  s ← env_var (zs "autostart");
  i ← gets images;
  if bool_decide (s = Some (zs "no")) then
    buf ← lift (printf (zs "%lX") [A_int (info_image_len (os_info i))]);
    '(_, e) ← (fun s => lift (setenv console_assign env_overwrite baudrate_table (b_env s) (zs "filesize") (Some buf)) s);
    modify (fun s => Boot (b_mem s) e (images s));;
    mret 0
  else
    let appl := htonl (ep i) in
    run (Standalone appl (tl argv));;
    mret 0.

Definition sub (s : list Z) (state : Z) : cmd_tbl := Cmd s 0 1 (Z.to_nat state) (Some []) (Some []) None.
Definition cmd_bootm_sub : list cmd_tbl :=
  [sub (zs "start") BOOTM_STATE_START; sub (zs "loados") BOOTM_STATE_LOADOS; sub (zs "cmdline") BOOTM_STATE_OS_CMDLINE;
   sub (zs "bdt") BOOTM_STATE_OS_BD_T; sub (zs "prep") BOOTM_STATE_OS_PREP; sub (zs "go") BOOTM_STATE_OS_GO].

Definition do_bootm_subcommand (argv : list (list Z)) : B Z :=
  a1 ← lift (arr_get argv 1);
  match find_cmd_tbl a1 cmd_bootm_sub with
  | None => mret 1
  | Some c =>
      c ← lift (arr_get cmd_bootm_sub c);
      let state := Z.of_nat (cmd c) in
      if state =? BOOTM_STATE_START then bootm_start load_addr (tl argv)
      else
        i ← gets images;
        if state <=? boot_state i then mret 1
        else
          set_images (with_state i (Z.lor (boot_state i) state));;
          boot_fn ← lift (arr_get boot_os (Z.to_nat (info_os (os_info i))));
          if state =? BOOTM_STATE_LOADOS then on_mem (bootm_load_os inflateInit2 inflate (os_info i))
          else if state =? BOOTM_STATE_OS_GO then call_boot_fn boot_fn BOOTM_STATE_OS_GO argv;; mret 0
          else call_boot_fn boot_fn state argv
  end.

Definition do_reset : B Z := run Reset;; mret 0.

(** What follows an error of [bootm_load_os]; [true]: the command ends. *)
Definition load_failed (ret : Z) : B bool :=
  if ret <? 0 then
    (if ret =? BOOTM_ERR_RESET then do_reset;; mret tt else mret tt);;
    i ← gets images;
    (if (ret =? BOOTM_ERR_OVERLAP) && negb (legacy_hdr_valid i) then do_reset;; mret tt else mret tt);;
    mret (ret =? BOOTM_ERR_UNIMPLEMENTED)
  else mret false.

(** The operating system's function and, should it return, the reset. *)
Definition boot_image (argv : list (list Z)) : B Z :=
  i ← gets images;
  if info_type (os_info i) =? IH_TYPE_STANDALONE then bootm_start_standalone argv;; mret 0
  else
    boot_fn ← lift (arr_get boot_os (Z.to_nat (info_os (os_info i))));
    match boot_fn with
    | None => mret 1
    | Some _ => call_boot_fn boot_fn 0 argv;; do_reset;; mret 1
    end.

Definition do_bootm (argv : list (list Z)) : B Z :=
  let sub := match argv !! 1%nat with
             | Some a => let c := deref (snd (simple_strtoul a 16)) in negb (c =? 0) && negb (c =? ch ":") && negb (c =? ch "#")
             | None => false
             end in
  if sub then do_bootm_subcommand argv
  else
    r ← bootm_start load_addr argv;
    if negb (r =? 0) then mret 1
    else
      i ← gets images;
      ret ← on_mem (bootm_load_os inflateInit2 inflate (os_info i));
      stop ← load_failed ret;
      if (stop : bool) then mret 1 else boot_image argv.

(** ** iminfo *)

Definition image_info (addr : Z) : M Z :=
  format ← genimg_get_format addr;
  if negb (format =? IMAGE_FORMAT_LEGACY) then mret 1 else
  ok ← image_check_magic addr; if negb ok then mret 1 else
  ok ← image_check_hcrc addr; if negb ok then mret 1 else
  image_print_contents addr;;
  ok ← image_check_dcrc addr; if negb ok then mret 1 else
  mret 0.

Fixpoint iminfo_loop (args : list (list Z)) (rcode : Z) : M Z :=
  match args with
  | [] => mret rcode
  | a :: args => r ← image_info (fst (simple_strtoul a 16)); iminfo_loop args (if negb (r =? 0) then 1 else rcode)
  end.

Definition do_iminfo (argv : list (list Z)) : M Z :=
  if (length argv <? 2)%nat then image_info load_addr else iminfo_loop (tl argv) 0.
End Tags.

(** ** Lists of tags *)

(** What the kernel reads. *)
Inductive atag :=
| Core (flags pagesize rootdev : Z)
| Memory (size start : Z)
| Cmdline (s : list Z).

Definition tag_id (t : atag) : Z := match t with Core _ _ _ => ATAG_CORE | Memory _ _ => ATAG_MEM | Cmdline _ => ATAG_CMDLINE end.

Definition tag_body (t : atag) : list Z :=
  match t with
  | Core f p r => le32 f ++ le32 p ++ le32 r
  | Memory size start => le32 size ++ le32 start
  | Cmdline s => s ++ [0]
  end.

(** The tags [l] from [p] up to [q]: each begins with its size in words, that covers
    it. *)
Fixpoint tags_seg (m : mem) (p : Z) (l : list atag) (q : Z) : Prop :=
  match l with
  | [] => p = q
  | t :: l => exists n, word32 n /\ 8 + Z.of_nat (length (tag_body t)) <= 4 * n /\
                        bytes_at m p (le32 n ++ le32 (tag_id t) ++ tag_body t) /\ tags_seg m (p + 4 * n) l q
  end.

(** A whole list: it ends with an empty tag. *)
Definition tags_at (m : mem) (p : Z) (l : list atag) : Prop :=
  exists q, tags_seg m p l q /\ bytes_at m q (le32 0 ++ le32 ATAG_NONE).

Lemma tags_seg_le m l : forall p q, tags_seg m p l q -> p <= q.
Proof.
  induction l as [|t l IH]; intros p q; cbn [tags_seg]; [lia|]. intros (n & _ & Hn & _ & Hl). apply IH in Hl. lia.
Qed.

Lemma tags_seg_app m l1 l2 : forall p q r, tags_seg m p l1 q -> tags_seg m q l2 r -> tags_seg m p (l1 ++ l2) r.
Proof.
  induction l1 as [|t l1 IH]; intros p q r; cbn [tags_seg app]; [by intros ->|]. intros (n & Hw & Hn & Hb & Hl) H2. exists n. split_and!; try done.
  by eapply IH.
Qed.

Lemma tags_seg_changed m m' lo hi l : forall p q, changed m m' lo hi -> q <= lo \/ hi <= p -> tags_seg m p l q -> tags_seg m' p l q.
Proof.
  induction l as [|t l IH]; intros p q Hc Hd; cbn [tags_seg]; [done|]. intros (n & Hw & Hn & Hb & Hl). pose proof (tags_seg_le _ _ _ _ Hl).
  exists n. split_and!; try done.
  - eapply bytes_at_changed; [exact Hc| |exact Hb]. rewrite !length_app. change (length (le32 _)) with 4%nat. lia.
  - apply IH; [done|lia|done].
Qed.

(** Reads a word of a chain of writes at other places. *)
Ltac written := repeat first [apply write_bytes_at; apply le32_bytes | apply bytes_at_write; [cbn [length le32]; lia|]].

(** The same for several words. *)
Ltac words_written :=
  repeat (apply bytes_at_app; split; change (Z.of_nat (length (le32 _))) with 4); rewrite <- ?Z.add_assoc; cbn [Z.add Pos.add Pos.succ]; written.

Ltac room := repeat apply mapped_write; first [eassumption | eapply mapped_sub; [eassumption|lia|lia]].

(** One store of a chain. *)
Ltac store := erewrite bind_ok by (apply (store32_w _ _ _ 4); [room|lia|first [assumption | unfold word32; lia]]); cbv beta.

Lemma tag_next_ok m p n : word32 n -> bytes_at m p (le32 n) -> 0 <= p -> p + 4 * n < 4294967296 -> tag_next p m = Ok (p + 4 * n, m).
Proof. intros Hw Hb H0 H1. unfold tag_next. mstep (load32_w _ _ _ Hw Hb). unfold word32 in Hw. by rewrite u32_small by lia. Qed.

(** A chain of writes within the bounds. *)
Ltac changes := repeat (apply changed_more; [|lia|cbn [length le32]; lia]); apply changed_refl.

Lemma tag_next_bind {A} (k : Z -> M A) m p n q : word32 n -> bytes_at m p (le32 n) -> 0 <= p -> p + 4 * n < 4294967296 -> q = p + 4 * n ->
  (tag_next p ≫= k) m = k q m.
Proof. intros Hw Hb H0 H1 ->. by mstep (tag_next_ok m p n Hw Hb H0 H1). Qed.

Lemma start_tag_ok m bp : mapped m bp 20 -> 0 <= bp -> bp + 20 < 4294967296 ->
  exists m', setup_start_tag bp m = Ok (bp + 20, m') /\ changed m m' bp (bp + 20) /\ tags_seg m' bp [Core 0 0 0] (bp + 20).
Proof.
  intros Hm H0 H1. unfold setup_start_tag. cbv zeta. change (tag_size 12) with 5. unfold ATAG_CORE at 1. do 5 store.
  eexists. split; [apply (tag_next_ok _ _ 5); [unfold word32; lia|written|done|lia]|]. split; [changes|].
  cbn [tags_seg]. exists 5. split; [unfold word32; lia|]. split; [cbn; lia|]. split; [|lia]. cbn [tag_id tag_body]. words_written.
Qed.

Section MemoryTags.
Context (bi_dram : list (Z * Z)).

Lemma memory_tag_ok m p i n start size : mapped m p 16 -> 0 <= p -> p + 16 < 4294967296 ->
  bi_dram !! i = Some (start, size) -> word32 start -> word32 size ->
  exists m', memory_tags_loop bi_dram (S n) i p m = memory_tags_loop bi_dram n (S i) (p + 16) m' /\
    changed m m' p (p + 16) /\ tags_seg m' p [Memory size start] (p + 16).
Proof.
  intros Hm H0 H1 Hi Hs Hz. cbn [memory_tags_loop]. change (tag_size 8) with 4. unfold ATAG_MEM at 1. do 2 store.
  rewrite (bind_ok (lift _) _ _ (start, size) (write_bytes (write_bytes m (p + 4) (le32 1413545986)) p (le32 4))) by (unfold arr_get; by rewrite Hi).
  cbv beta iota. do 2 store. eexists. split.
  { apply (tag_next_bind _ _ p 4); [unfold word32; lia|written|done|lia|lia]. }
  split; [changes|]. cbn [tags_seg]. exists 4. split; [unfold word32; lia|]. split; [cbn; lia|]. split; [|lia]. cbn [tag_id tag_body]. words_written.
Qed.

Definition memory_tags (l : list (Z * Z)) : list atag := map (fun b => Memory (snd b) (fst b)) l.

Lemma memory_tags_ok n : forall m p i, mapped m p (16 * Z.of_nat n) -> 0 <= p -> p + 16 * Z.of_nat n < 4294967296 ->
  (i + n <= length bi_dram)%nat -> Forall (fun b => word32 (fst b) /\ word32 (snd b)) bi_dram ->
  exists m', memory_tags_loop bi_dram n i p m = Ok (p + 16 * Z.of_nat n, m') /\ changed m m' p (p + 16 * Z.of_nat n) /\
    tags_seg m' p (memory_tags (take n (drop i bi_dram))) (p + 16 * Z.of_nat n).
Proof.
  induction n as [|n IH]; intros m p i Hm H0 H1 Hl HF.
  { exists m. cbn [memory_tags_loop take memory_tags map tags_seg]. rewrite Z.add_0_r. split_and!; done. }
  destruct (lookup_lt_is_Some_2 bi_dram i ltac:(lia)) as [[start size] Hi].
  destruct (proj1 (Forall_lookup _ _) HF i _ Hi) as [Hs Hz]. cbn [fst snd] in Hs, Hz.
  destruct (memory_tag_ok m p i n start size) as (m1 & -> & C1 & T1); try done; [eapply mapped_sub; [exact Hm|lia|lia]|lia|].
  destruct (IH m1 (p + 16) (S i)) as (m2 & -> & C2 & T2); [eapply mapped_changed; [exact C1|]; eapply mapped_sub; [exact Hm|lia|lia]|lia|lia|lia|done|].
  replace (p + 16 + 16 * Z.of_nat n) with (p + 16 * Z.of_nat (S n)) in * by lia. exists m2. split; [done|]. split.
  - eapply changed_trans; [exact C1|exact C2|lia].
  - rewrite (drop_S _ _ _ Hi). cbn [take]. unfold memory_tags. cbn [map]. fold memory_tags.
    apply (tags_seg_app m2 [_] _ p (p + 16)); [|done]. by eapply (tags_seg_changed m1); [exact C2|lia|].
Qed.
End MemoryTags.

(** ** The command line *)

Lemma string_all s : Z.of_nat (length s) < 4294967296 -> string (Some s) (-1) (-1) 0 = s.
Proof.
  intros Hl. unfold string. change (u32 (-1)) with 4294967295. rewrite Z.min_l by lia. change (negb (has 0 LEFT)) with true. cbv iota.
  unfold field_loop. rewrite Nat2Z.id, firstn_all.
  replace (Z.to_nat (-1 - Z.of_nat (length s))) with 0%nat by lia. cbn [replicate app].
  replace (Z.to_nat (Z.min (-1) (Z.of_nat (length s)) - 1 - Z.of_nat (length s))) with 0%nat by lia. cbn [replicate]. apply app_nil_r.
Qed.

Lemma ethaddr_text e : Z.of_nat (length e) < 4294967296 -> printf (zs " ethaddr=%s") [A_str (Some e)] = Ok (zs " ethaddr=" ++ e).
Proof.
  intros Hl. transitivity (Ok (zs " ethaddr=" ++ string (Some e) (-1) (-1) 0)); [|by rewrite string_all].
  lazy -[string app]. reflexivity.
Qed.

(** The command line the kernel is given. *)
Definition kernel_cmdline (commandline ethaddr : option (list Z)) : option (list Z) :=
  match commandline with
  | None => None
  | Some c =>
      let p := skip_blanks c in
      if bool_decide (p = []) then None
      else Some (p ++ match ethaddr with
                      | Some e => if has_substring (zs "ethaddr=") p then [] else zs " ethaddr=" ++ e
                      | None => []
                      end)
  end.

Definition cmdline_tags (commandline ethaddr : option (list Z)) : list atag :=
  match kernel_cmdline commandline ethaddr with Some s => [Cmdline s] | None => [] end.

Definition cmdline_room (commandline ethaddr : option (list Z)) : Z :=
  match kernel_cmdline commandline ethaddr with Some s => Z.of_nat (length s) + 13 | None => 0 end.

Definition cmdline_words (n : Z) : Z := Z.shiftr (tag_header_size + n + 1 + 4) 2.

Lemma cmdline_words_ok n : 0 <= n -> n + 13 < 4294967296 -> word32 (cmdline_words n) /\ n + 9 <= 4 * cmdline_words n <= n + 13.
Proof. intros H0 H1. unfold cmdline_words, tag_header_size, word32. rewrite Z.shiftr_div_pow2 by lia. change (2 ^ 2) with 4. split; zmod. Qed.

Lemma skip_blanks_cstring s : cstring s -> cstring (skip_blanks s).
Proof.
  induction s as [|c s IH]; cbn [skip_blanks]; [done|]. intros Hs. destruct (c =? ch " "); [apply IH; by apply cstring_cons in Hs as [_ Hs]|done].
Qed.

Lemma cstring_bytes s : cstring s -> Forall byte (s ++ [0]).
Proof.
  intros Hs. apply Forall_app. split; [eapply Forall_impl; [exact Hs|]; unfold nonzero_byte, byte; lia|]. rewrite Forall_singleton. unfold byte. lia.
Qed.

Lemma cstring_cstr m p s : cstring s -> cstr (write_bytes m p (s ++ [0])) p s.
Proof. intros Hs. split; [done|]. by apply write_bytes_at, cstring_bytes. Qed.

(** The tag when it is written with its final size. *)
Lemma cmdline_tag_end m p s : cstring s -> 0 <= p -> p + Z.of_nat (length s) + 13 < 4294967296 ->
  bytes_at m p (le32 (cmdline_words (Z.of_nat (length s)))) -> bytes_at m (p + 4) (le32 ATAG_CMDLINE) -> bytes_at m (p + 8) (s ++ [0]) ->
  tag_next p m = Ok (p + 4 * cmdline_words (Z.of_nat (length s)), m) /\
  tags_seg m p [Cmdline s] (p + 4 * cmdline_words (Z.of_nat (length s))).
Proof.
  intros Hs H0 H1 B0 B1 B2. destruct (cmdline_words_ok (Z.of_nat (length s))) as [Hw Hn]; [lia..|]. split.
  - apply tag_next_ok; try done. lia.
  - cbn [tags_seg]. exists (cmdline_words (Z.of_nat (length s))). split; [done|]. cbn [tag_body tag_id]. rewrite length_app. cbn [length]. split; [lia|].
    split; [|lia]. apply bytes_at_app. split; [done|]. apply bytes_at_app. split; [done|]. change (Z.of_nat (length (le32 _))) with 4.
    by replace (p + 4 + 4) with (p + 8) by lia.
Qed.

(** A command line tag under construction. *)
Definition cmdline_at (m : mem) (p : Z) (s : list Z) : Prop :=
  bytes_at m p (le32 (cmdline_words (Z.of_nat (length s)))) /\ bytes_at m (p + 4) (le32 ATAG_CMDLINE) /\ bytes_at m (p + 8) (s ++ [0]).

Lemma append_ethaddr_ok m p s e : cstring s -> cstring e -> has_substring (zs "ethaddr=") s = false -> cmdline_at m p s ->
  mapped m p (Z.of_nat (length s + 9 + length e) + 9) -> 0 <= p -> p + Z.of_nat (length s + 9 + length e) + 13 < 4294967296 ->
  exists m', append_ethaddr p s (Some e) m = Ok (tt, m') /\ changed m m' p (p + Z.of_nat (length s + 9 + length e) + 9) /\
    cmdline_at m' p (s ++ zs " ethaddr=" ++ e).
Proof.
  intros Hs He Es (B0 & B1 & B2) Hm H0 H1. unfold append_ethaddr. rewrite Es. cbn [negb].
  rewrite (bind_ok (lift _) _ m (zs " ethaddr=" ++ e) m) by (rewrite ethaddr_text by lia; done). cbv beta.
  assert (Ht : cstring (zs " ethaddr=" ++ e)) by (apply cstring_app; split; [apply (bool_decide_unpack _); vm_compute; exact I|done]).
  assert (Hl : length (zs " ethaddr=" ++ e) = (9 + length e)%nat) by (by rewrite length_app). set (tail := zs " ethaddr=" ++ e) in *. clearbody tail.
  rewrite (bind_ok _ _ _ _ _ (store_bytes_ok (tail ++ [0]) m (p + 8 + Z.of_nat (length s))
    ltac:(rewrite length_app, Hl; cbn [length]; eapply mapped_sub; [exact Hm|lia|lia]) (cstring_bytes _ Ht))). cbv beta.
  set (m1 := write_bytes m _ _). assert (C1 : changed m m1 (p + 8 + Z.of_nat (length s)) (p + Z.of_nat (length s + 9 + length e) + 9)).
  { apply changed_write; [lia|]. rewrite length_app, Hl. cbn [length]. lia. }
  assert (S1 : bytes_at m1 (p + 8) ((s ++ tail) ++ [0])).
  { rewrite <- app_assoc. apply bytes_at_app in B2 as [B2 _]. apply bytes_at_app. split; [|by apply write_bytes_at, cstring_bytes].
    eapply bytes_at_changed; [exact C1|lia|exact B2]. }
  rewrite (bind_ok _ _ _ _ _ (strlen_ok m1 (p + 8) (s ++ tail) (conj (proj2 (cstring_app _ _) (conj Hs Ht)) S1))). cbv beta.
  fold (cmdline_words (Z.of_nat (length (s ++ tail)))). rewrite length_app, Hl in *.
  destruct (cmdline_words_ok (Z.of_nat (length s + (9 + length e)))) as [Hw _]; [lia..|].
  eexists. split; [apply (store32_w _ _ _ 4); [apply mapped_write; eapply mapped_sub; [exact Hm|lia|lia]|lia|done]|]. split.
  - apply changed_more; [eapply changed_wider; [exact C1|lia|lia]|lia|cbn [length le32]; lia].
  - unfold cmdline_at. rewrite length_app, Hl. split; [written|]. split; apply bytes_at_write; try (cbn [length le32]; lia); [|exact S1].
    eapply bytes_at_changed; [exact C1|cbn [length le32]; lia|exact B1].
Qed.

Lemma commandline_tag_ok m p commandline ethaddr :
  (forall c, commandline = Some c -> cstring c) -> (forall e, ethaddr = Some e -> cstring e) ->
  mapped m p (cmdline_room commandline ethaddr) -> 0 <= p -> p + cmdline_room commandline ethaddr < 4294967296 ->
  exists m' q, setup_commandline_tag p commandline ethaddr m = Ok (q, m') /\ changed m m' p q /\
    p <= q <= p + cmdline_room commandline ethaddr /\ tags_seg m' p (cmdline_tags commandline ethaddr) q.
Proof.
  intros Hc He. unfold cmdline_room, cmdline_tags, kernel_cmdline, setup_commandline_tag. destruct commandline as [c|].
  2: { intros _ _ _. exists m, p. split_and!; [done|done|lia..|done]. }
  specialize (Hc c eq_refl). apply skip_blanks_cstring in Hc. set (s := skip_blanks c) in *. clearbody s. clear c. cbv zeta.
  case_bool_decide as Hn. { intros _ _ _. exists m, p. split_and!; [done|done|lia..|done]. }
  unfold ATAG_CMDLINE at 1. fold (cmdline_words (Z.of_nat (length s))).
  set (tail := match ethaddr with Some e => _ | None => _ end). intros Hm H0 H1. rewrite length_app in Hm, H1.
  destruct (cmdline_words_ok (Z.of_nat (length s))) as [Hw Hws]; [lia..|].
  do 2 store. set (m2 := write_bytes (write_bytes m _ _) _ _).
  assert (Hm2 : mapped m2 (p + 8) (Z.of_nat (length (s ++ [0])))) by (rewrite length_app; cbn [length]; unfold m2; room).
  mstep (store_bytes_ok _ _ _ Hm2 (cstring_bytes _ Hc)). set (m3 := write_bytes m2 _ _).
  assert (C3 : changed m m3 p (p + Z.of_nat (length s) + 9)).
  { unfold m3, m2. apply changed_more; [changes|lia|rewrite length_app; cbn [length]; lia]. }
  assert (B3 : cmdline_at m3 p s) by (unfold m3, m2; split_and!; [written..|by apply write_bytes_at, cstring_bytes]).
  assert (Hend : forall m4, append_ethaddr p s ethaddr m3 = Ok (tt, m4) -> changed m m4 p (p + Z.of_nat (length s + length tail) + 9) ->
    cstring tail -> cmdline_at m4 p (s ++ tail) -> exists m' q, (append_ethaddr p s ethaddr;; tag_next p) m3 = Ok (q, m') /\ changed m m' p q /\
    p <= q <= p + (Z.of_nat (length (s ++ tail)) + 13) /\ tags_seg m' p [Cmdline (s ++ tail)] q).
  { intros m4 E4 C4 Ht (B0 & B1 & B2). rewrite length_app.
    assert (Hst : cstring (s ++ tail)) by (by apply cstring_app).
    destruct (cmdline_tag_end m4 p (s ++ tail) Hst H0) as [T1 T2]; try done; [rewrite length_app; lia|].
    rewrite length_app in T1, T2. destruct (cmdline_words_ok (Z.of_nat (length s + length tail))) as [_ Hq]; [lia..|].
    exists m4. eexists. split; [mstep E4; exact T1|]. split; [eapply changed_wider; [exact C4|lia|lia]|]. split; [lia|exact T2]. }
  destruct ethaddr as [e|]; [destruct (has_substring (zs "ethaddr=") s) eqn:Es|].
  - apply (Hend m3); [unfold append_ethaddr; by rewrite Es|eapply changed_wider; [exact C3|lia|cbn [length]; lia]|constructor|unfold tail; by rewrite app_nil_r].
  - specialize (He e eq_refl). assert (Htl : length tail = (9 + length e)%nat) by (unfold tail; by rewrite length_app). rewrite Htl in Hm, H1, Hend.
    destruct (append_ethaddr_ok m3 p s e Hc He Es B3) as (m4 & E4 & C4 & B4);
      [eapply mapped_changed; [exact C3|]; eapply mapped_sub; [exact Hm|lia|lia]|done|lia|].
    apply (Hend m4); [exact E4| |by apply cstring_app; split; [apply (bool_decide_unpack _); vm_compute; exact I|]|exact B4].
    destruct C3 as [C31 C32], C4 as [C41 C42]. split; [intros a Ha; rewrite C41, C31 by lia; done|auto].
  - apply (Hend m3); [done|eapply changed_wider; [exact C3|lia|cbn [length]; lia]|constructor|unfold tail; by rewrite app_nil_r].
Qed.

(** ** Starting Linux *)

Definition with_mem (s : boot) (m : mem) : boot := Boot m (b_env s) (images s).

Lemma on_mem_bind {A C} (c : M A) (k : A -> B C) s a m : c (b_mem s) = Ok (a, m) -> (on_mem c ≫= k) s = k a (with_mem s m).
Proof. intros H. unfold mbind, ST_bind, on_mem. by rewrite H. Qed.

Lemma env_var_bind {C} n (k : option (list Z) -> B C) s v : getenv_value (b_env s) n = Ok v -> (env_var n ≫= k) s = k v s.
Proof. intros H. unfold mbind, ST_bind, env_var, lift. by rewrite H. Qed.

Lemma gets_bind {S A C} (f : S -> A) (k : A -> ST S C) s : (gets f ≫= k) s = k (f s) s.
Proof. done. Qed.

Lemma set_images_bind {C} i (k : unit -> B C) s : (set_images i ≫= k) s = k tt (Boot (b_mem s) (b_env s) i).
Proof. done. Qed.

Lemma lift_bind {S A C} (r : res A) (k : A -> ST S C) s a : r = Ok a -> (lift r ≫= k) s = k a s.
Proof. by intros ->. Qed.

Definition linux_tags (bi_dram : list (Z * Z)) (commandline ethaddr : option (list Z)) : list atag :=
  Core 0 0 0 :: memory_tags (take CONFIG_NR_DRAM_BANKS bi_dram) ++ cmdline_tags commandline ethaddr.

Definition tags_room (commandline ethaddr : option (list Z)) : Z := 20 + 48 + cmdline_room commandline ethaddr + 8.

Definition machid_of (v : option (list Z)) (bi_arch_number : Z) : Z :=
  match v with Some s => s32 (fst (simple_strtoul s 16)) | None => s32 bi_arch_number end.

Lemma cmdline_room_nonneg c e : 0 <= cmdline_room c e.
Proof. unfold cmdline_room. destruct (kernel_cmdline c e); lia. Qed.

(** What the environment says that a kernel is to be given. *)
Record linux_env (e : env_state) := Linux_env {
  le_args : option (list Z); le_machid : option (list Z); le_eth : option (list Z);
  le_args_ok : getenv_value e (zs "bootargs") = Ok le_args;
  le_machid_ok : getenv_value e (zs "machid") = Ok le_machid;
  le_eth_ok : getenv_value e (zs "ethaddr") = Ok le_eth;
  le_args_str : forall c, le_args = Some c -> cstring c;
  le_eth_str : forall c, le_eth = Some c -> cstring c
}.
Arguments le_args {e} _.
Arguments le_machid {e} _.
Arguments le_eth {e} _.

Section Linux.
Context (bp : Z) (dram : list (Z * Z)) (arch : Z) (prog : jump -> boot -> res boot).
Context (Hd : (CONFIG_NR_DRAM_BANKS <= length dram)%nat) (Hdw : Forall (fun b => word32 (fst b) /\ word32 (snd b)) dram).

Lemma do_bootm_linux_ok flag argv s (v : linux_env (b_env s)) :
  flag = 0 \/ flag = BOOTM_STATE_OS_GO -> mapped (b_mem s) bp (tags_room (le_args v) (le_eth v)) ->
  0 <= bp -> bp + tags_room (le_args v) (le_eth v) < 4294967296 ->
  exists m', do_bootm_linux bp dram arch prog flag argv s =
    (run prog (Linux (ep (images s)) (machid_of (le_machid v) arch) bp);; mret 1) (with_mem s m') /\
    changed (b_mem s) m' bp (bp + tags_room (le_args v) (le_eth v)) /\
    tags_at m' bp (linux_tags dram (le_args v) (le_eth v)).
Proof.
  intros Hf Hm H0 H1. unfold tags_room in *. pose proof (cmdline_room_nonneg (le_args v) (le_eth v)) as Hr. set (R := cmdline_room _ _) in *.
  assert (Ef : negb (flag =? 0) && negb (flag =? BOOTM_STATE_OS_GO) = false) by (destruct Hf as [-> | ->]; reflexivity).
  unfold do_bootm_linux. rewrite (env_var_bind _ _ _ _ (le_args_ok _ v)), Ef. cbv iota. rewrite gets_bind. cbv zeta.
  rewrite (env_var_bind _ _ _ _ (le_machid_ok _ v)). fold (machid_of (le_machid v) arch).
  destruct (start_tag_ok (b_mem s) bp) as (m1 & E1 & C1 & T1); [eapply mapped_sub; [exact Hm|lia|lia]|done|lia|].
  rewrite (on_mem_bind _ _ _ _ _ E1).
  destruct (memory_tags_ok dram 3 m1 (bp + 20) 0) as (m2 & E2 & C2 & T2);
    [eapply mapped_changed; [exact C1|]; eapply mapped_sub; [exact Hm|lia|lia]|lia|lia|exact Hd|done|].
  rewrite (on_mem_bind (setup_memory_tags dram (bp + 20)) _ (with_mem s m1) (bp + 20 + 16 * Z.of_nat 3) m2 E2). change (bp + 20 + 16 * Z.of_nat 3) with (bp + 20 + 48) in *.
  change (getenv_value (b_env (with_mem (with_mem s m1) m2))) with (getenv_value (b_env s)).
  rewrite (env_var_bind _ _ (with_mem (with_mem s m1) m2) (le_eth v) (le_eth_ok _ v)).
  pose proof (changed_trans _ _ _ _ _ _ C1 C2 ltac:(lia)) as C12.
  destruct (commandline_tag_ok m2 (bp + 20 + 48) (le_args v) (le_eth v) (le_args_str _ v) (le_eth_str _ v)) as (m3 & q & E3 & C3 & Hq & T3);
    [eapply mapped_changed; [exact C12|]; eapply mapped_sub; [exact Hm|lia|lia]|lia|lia|].
  rewrite (on_mem_bind _ _ (with_mem (with_mem s m1) m2) q m3 E3). pose proof (changed_trans _ _ _ _ _ _ C12 C3 ltac:(lia)) as C13.
  set (m4 := write_bytes (write_bytes m3 (q + 4) (le32 ATAG_NONE)) q (le32 0)).
  assert (Hm3 : mapped m3 q 8) by (eapply mapped_changed; [exact C13|]; eapply mapped_sub; [exact Hm|lia|lia]).
  assert (E4 : setup_end_tag q m3 = Ok (tt, m4)).
  { unfold setup_end_tag, ATAG_NONE. store. unfold m4, ATAG_NONE. apply (store32_w _ _ _ 4); [room|lia|unfold word32; lia]. }
  rewrite (on_mem_bind _ _ (with_mem (with_mem (with_mem s m1) m2) m3) tt m4 E4).
  assert (C4 : changed m3 m4 q (q + 8)) by (unfold m4; changes).
  exists m4. split; [done|]. split.
  - eapply changed_wider; [exact (changed_trans _ _ _ _ _ _ C13 C4 ltac:(lia))|lia|unfold R; lia].
  - exists q. split; [|unfold m4; words_written]. eapply (tags_seg_changed m3); [exact C4|lia|].
    unfold linux_tags. apply (tags_seg_app m3 [_] _ bp (bp + 20)).
    { eapply (tags_seg_changed m1); [exact (changed_trans _ _ _ _ _ _ C2 C3 ltac:(lia))|lia|exact T1]. }
    apply (tags_seg_app m3 _ _ (bp + 20) (bp + 20 + 48)); [|done]. eapply (tags_seg_changed m2); [exact C3|lia|]. exact T2.
Qed.
End Linux.

(** ** Finding a valid kernel *)

Definition kernel_ok (h : header) (data : list Z) (verify : bool) : bool :=
  (negb verify || data_intact h data) && (h_arch h =? IH_ARCH_ARM).

Lemma image_get_kernel_ok m a h data v : image_at m a h data -> printable h data ->
  image_get_kernel a v m = Ok (if kernel_ok h data v then Some a else None, m).
Proof.
  intros Hi Hp. unfold image_get_kernel, kernel_ok. mstep (image_magic_ok _ _ _ _ Hi). cbn [negb]. mstep (image_hcrc_ok _ _ _ _ Hi). cbn [negb].
  destruct (print_contents_reads m a h data Hi Hp) as [t Ht]. mstep Ht.
  assert (E : (if v then image_check_dcrc a else mret true : M bool) m = Ok (negb v || data_intact h data, m)).
  { destruct v; cbn [negb orb]; [by apply check_dcrc_ok|done]. }
  mstep E. destruct (negb v || data_intact h data); cbn [negb andb]; [|done].
  unfold image_check_target_arch. mstep (check_arch_ok _ _ _ _ IH_ARCH_ARM Hi). by destruct (h_arch h =? IH_ARCH_ARM).
Qed.

Lemma image_format_ok m a h data : image_at m a h data -> genimg_get_format a m = Ok (IMAGE_FORMAT_LEGACY, m).
Proof. intros Hi. unfold genimg_get_format. by mstep (image_magic_ok _ _ _ _ Hi). Qed.

Lemma copy_header m a h data : image_at m a h data -> load_bytes a image_get_header_size m = Ok (make_header h, m).
Proof.
  intros Hi. pose proof (image_at_header _ _ _ _ Hi) as Hb. pose proof (load_bytes_ok _ _ _ Hb) as L.
  by rewrite (proj2 (header_bytes_ok _ h (proj1 Hi))) in L.
Qed.

Lemma copy_type_ok i h : legacy_hdr_os_copy i = make_header h -> copy_type i = Ok (h_type h).
Proof. intros E. unfold copy_type. rewrite E. reflexivity. Qed.

Lemma copy_ep_ok i h : header_ok h -> legacy_hdr_os_copy i = make_header h -> copy_ep i = Ok (h_ep h).
Proof.
  intros Ho E. unfold copy_ep. rewrite E. pose proof Ho as (_ & _ & _ & Hw & _).
  transitivity (Ok (uimage_to_cpu (u8 (h_ep h / 16777216) + 256 * u8 (h_ep h / 65536) + 65536 * u8 (h_ep h / 256) + 16777216 * u8 (h_ep h)))); [reflexivity|].
  rewrite uimage_word by apply u8_range. f_equal. by apply be32_bytes_value.
Qed.

(** The types of images that are one program. *)
Definition single_program (h : header) : bool := (h_type h =? IH_TYPE_KERNEL) || (h_type h =? IH_TYPE_STANDALONE).

Lemma single_printable h data : single_program h = true -> printable h data.
Proof. unfold single_program. rewrite orb_true_iff, !Z.eqb_eq. intros [E|E]; left; rewrite E; split; discriminate. Qed.

Lemma kernel_data_single m a h data : image_at m a h data -> single_program h = true -> kernel_data a m = Ok (Some (a + 64, h_size h), m).
Proof.
  intros Hi Hs. destruct (image_at_data _ _ _ _ Hi) as [Ed _]. pose proof (image_at_header _ _ _ _ Hi) as Hb.
  pose proof (get_size m a _ h (proj1 Hi) Hb) as G. unfold kernel_data. mstep (get_type m a _ h Hb).
  unfold single_program in Hs. destruct (h_type h =? IH_TYPE_KERNEL) eqn:E1; cbn [orb] in Hs.
  - unfold image_get_data_size. mstep G. by rewrite Ed.
  - rewrite Hs. apply Z.eqb_eq in Hs. rewrite Hs. cbn. unfold image_get_data_size. mstep G. by rewrite Ed.
Qed.

(** The image that the first argument names. *)
Definition named_image (load_addr : Z) (argv : list (list Z)) : Z :=
  match argv !! 1%nat with None => load_addr | Some a => fst (simple_strtoul a 16) end.

Lemma getenv_yesno_ok n s v : getenv_value (b_env s) n = Ok v ->
  getenv_yesno n s = Ok (match v with Some t => negb (deref t =? ch "n") | None => true end, s).
Proof. intros H. unfold getenv_yesno. by rewrite (env_var_bind _ _ _ _ H). Qed.

Lemma on_mem_boot {A C} (c : M A) (k : A -> B C) m m' e i a : c m = Ok (a, m') -> (on_mem c ≫= k) (Boot m e i) = k a (Boot m' e i).
Proof. intros H. unfold mbind, ST_bind, on_mem. cbn [b_mem b_env images]. by rewrite H. Qed.

Section Start.
Context (load_addr : Z) (argv : list (list Z)) (m : mem) (e : env_state) (i0 : bootm_headers_t) (h : header) (data : list Z) (v : option (list Z)).
Context (Hi : image_at m (named_image load_addr argv) h data).
Context (Hv : getenv_value e (zs "verify") = Ok v).

Definition verifies : bool := match v with Some t => negb (deref t =? ch "n") | None => true end.

Lemma start_reads_verify {C} (k : B C) : (set_images empty_headers;; v ← getenv_yesno (zs "verify"); set_images (with_verify empty_headers v);; k) (Boot m e i0) =
  k (Boot m e (with_verify empty_headers verifies)).
Proof.
  rewrite set_images_bind. rewrite (bind_ok _ _ _ _ _ (getenv_yesno_ok _ (Boot m e empty_headers) v Hv)). by rewrite set_images_bind.
Qed.

Definition found : bootm_headers_t := with_legacy (with_verify empty_headers verifies) (named_image load_addr argv) (make_header h).

Lemma get_kernel_found : single_program h = true -> kernel_ok h data verifies = true ->
  boot_get_kernel load_addr argv (Boot m e (with_verify empty_headers verifies)) =
  Ok ((Some (named_image load_addr argv), named_image load_addr argv + 64, h_size h), Boot m e found).
Proof.
  intros Hs Hk. unfold boot_get_kernel. cbv zeta. fold (named_image load_addr argv). unfold genimg_get_image. set (a := named_image load_addr argv) in *.
  rewrite (on_mem_boot _ _ _ _ _ _ _ (image_format_ok _ _ _ _ Hi)). cbn [Z.eqb negb IMAGE_FORMAT_LEGACY Pos.eqb]. rewrite gets_bind.
  rewrite (on_mem_boot _ _ _ _ _ _ _ (image_get_kernel_ok m a h data _ Hi (single_printable _ _ Hs))).
  cbn [images verify with_verify with_mem b_mem b_env]. rewrite Hk. rewrite (on_mem_boot _ _ _ _ _ _ _ (kernel_data_single _ _ _ _ Hi Hs)). cbv iota.
  rewrite (on_mem_boot _ _ _ _ _ _ _ (copy_header _ _ _ _ Hi)). done.
Qed.

Lemma get_kernel_refused : single_program h = true -> kernel_ok h data verifies = false ->
  boot_get_kernel load_addr argv (Boot m e (with_verify empty_headers verifies)) =
  Ok ((None, 0, 0), Boot m e (with_verify empty_headers verifies)).
Proof.
  intros Hs Hk. unfold boot_get_kernel. cbv zeta. fold (named_image load_addr argv). unfold genimg_get_image. set (a := named_image load_addr argv) in *.
  rewrite (on_mem_boot _ _ _ _ _ _ _ (image_format_ok _ _ _ _ Hi)). cbn [Z.eqb negb IMAGE_FORMAT_LEGACY Pos.eqb]. rewrite gets_bind.
  rewrite (on_mem_boot _ _ _ _ _ _ _ (image_get_kernel_ok m a h data _ Hi (single_printable _ _ Hs))).
  cbn [images verify with_verify with_mem b_mem b_env]. by rewrite Hk.
Qed.

Definition started : bootm_headers_t :=
  let a := named_image load_addr argv in
  Headers a (make_header h) true (Image_info a (a + 64 + h_size h) (a + 64) (h_size h) (h_load h) (h_comp h) (h_type h) (h_os h))
    (h_ep h) 0 0 verifies BOOTM_STATE_START.

Lemma image_params_ok a : image_at m a h data -> forall d l,
  image_params a d l m = Ok (Image_info 0 (a + 64 + h_size h) d l (h_load h) (h_comp h) (h_type h) (h_os h), m).
Proof.
  intros Ha d l. pose proof (image_at_header _ _ _ _ Ha) as Hb. destruct Ha as (Ho & Hs & Ha0 & Hl & _). unfold image_params.
  mstep (get_type _ a _ h Hb). mstep (get_comp _ a _ h Hb). mstep (get_os _ a _ h Hb).
  assert (E : image_get_image_end a m = Ok (a + 64 + h_size h, m)).
  { unfold image_get_image_end. assert (G : image_get_image_size a m = Ok (h_size h + 64, m)).
    { unfold image_get_image_size. mstep (get_size _ a _ h Ho Hb). unfold image_get_header_size. by rewrite u32_small by lia. }
    mstep G. rewrite u32_small by lia. unfold mret, ST_ret. do 2 f_equal. lia. }
  mstep E. by mstep (get_load _ a _ h Ho Hb).
Qed.

(** A valid kernel, not a multi-file image, without a RAM disk. *)
Lemma bootm_start_ok : single_program h = true -> kernel_ok h data verifies = true -> h_size h <> 0 -> argv !! 2%nat = None ->
  bootm_start load_addr argv (Boot m e i0) = Ok (0, Boot m e started).
Proof.
  intros Hs Hk Hz Hr. unfold bootm_start. rewrite start_reads_verify. rewrite (bind_ok _ _ _ _ _ (get_kernel_found Hs Hk)). cbv beta iota.
  set (a := named_image load_addr argv) in *.
  rewrite gets_bind, set_images_bind. apply Z.eqb_neq in Hz. rewrite Hz. cbn [b_mem b_env images].
  rewrite (on_mem_boot _ _ _ _ _ _ _ (image_format_ok _ _ _ _ Hi)). cbn [Z.eqb negb IMAGE_FORMAT_LEGACY Pos.eqb with_mem b_mem b_env images].
  rewrite (on_mem_boot _ _ _ _ _ _ _ (image_params_ok a Hi _ _)). cbn [with_mem b_mem b_env images].
  rewrite gets_bind, set_images_bind. cbn [images legacy_hdr_valid with_os found with_legacy negb b_mem b_env].
  rewrite (lift_bind _ _ _ (h_ep h)) by (apply copy_ep_ok; [apply Hi|done]). rewrite gets_bind, set_images_bind, gets_bind. cbn [images b_mem b_env].
  match goal with |- (mbind ?k ?c) ?x = _ => assert (E : c x = Ok ((0, 0, 0), x)) end.
  { destruct (_ && _) eqn:Ec; [|done]. unfold on_mem. cbn [b_mem b_env images]. unfold boot_get_ramdisk, ramdisk_data. rewrite Hr.
    unfold mbind, ST_bind, lift. rewrite (copy_type_ok _ h) by done. cbn [legacy_hdr_valid with_ep with_os with_legacy andb].
    assert (Em : (h_type h =? IH_TYPE_MULTI) = false).
    { unfold single_program in Hs. rewrite orb_true_iff, !Z.eqb_eq in Hs. by destruct Hs as [-> | ->]. }
    by rewrite Em. }
  rewrite (bind_ok _ _ _ _ _ E). cbv beta iota. rewrite set_images_bind. cbn [Z.eqb negb]. by rewrite set_images_bind.
Qed.

Lemma bootm_start_refused : single_program h = true -> kernel_ok h data verifies = false ->
  exists i, bootm_start load_addr argv (Boot m e i0) = Ok (1, Boot m e i).
Proof.
  intros Hs Hk. unfold bootm_start. rewrite start_reads_verify. rewrite (bind_ok _ _ _ _ _ (get_kernel_refused Hs Hk)). cbv beta iota.
  rewrite gets_bind, set_images_bind. by eexists.
Qed.
End Start.

(** ** The command *)

Definition plain_number (argv : list (list Z)) : Prop :=
  match argv !! 1%nat with Some a => snd (simple_strtoul a 16) = [] | None => True end.

Section Command.
Context (load_addr bp arch : Z) (dram : list (Z * Z)) (prog : jump -> boot -> res boot) (malloc_ok : Z -> bool).
Context (inflateInit2 : M Z) (inflate : Z -> Z -> Z -> Z -> M (Z * Z)).
Context (console_assign : Z -> list Z -> Z) (env_overwrite : bool) (baudrate_table : list Z).

Abbreviation bootm := (do_bootm bp dram arch prog malloc_ok inflateInit2 inflate load_addr console_assign env_overwrite baudrate_table).

Lemma do_bootm_start argv s : plain_number argv ->
  bootm argv s = (r ← bootm_start load_addr argv;
    if negb (r =? 0) then mret 1
    else
      i ← gets images;
      ret ← on_mem (bootm_load_os inflateInit2 inflate (os_info i));
      stop ← load_failed prog ret;
      if (stop : bool) then mret 1
      else boot_image bp dram arch prog malloc_ok console_assign env_overwrite baudrate_table argv) s.
Proof. unfold plain_number, do_bootm. destruct (argv !! 1%nat) as [a|]; [|done]. intros ->. done. Qed.

(** Where an uncompressed kernel is when it is started: a kernel to be loaded where its
    image begins is left behind its header. *)
Definition kernel_place (a : Z) (h : header) : Z := if h_load h =? a then a + 64 else h_load h.

Lemma load_plain m a h data : image_at m a h data -> h_comp h = IH_COMP_NONE -> mapped m (h_load h) (h_size h) ->
  exists ret m', bootm_load_os inflateInit2 inflate
      (Image_info a (a + 64 + h_size h) (a + 64) (h_size h) (h_load h) (h_comp h) (h_type h) (h_os h)) m = Ok (ret, m') /\
    (ret = 0 \/ ret = BOOTM_ERR_OVERLAP) /\ changed m m' (h_load h) (h_load h + h_size h) /\ bytes_at m' (kernel_place a h) data.
Proof.
  intros Hi Hc Hm. destruct (image_at_data _ _ _ _ Hi) as [_ Hd]. destruct Hi as (_ & Hs & _).
  set (o := Image_info _ _ _ _ _ _ _ _).
  assert (O : forall l, load_overlap o l = 0 \/ load_overlap o l = BOOTM_ERR_OVERLAP) by (intros l; unfold load_overlap; destruct (_ && _); auto).
  unfold bootm_load_os, o. cbn [info_comp info_load info_image_start info_image_len info_start]. fold o. rewrite Hc. cbn [Z.eqb IH_COMP_NONE].
  unfold kernel_place. destruct (Z.eqb_spec (h_load h) a) as [E|E].
  { exists (load_overlap o (u32 (h_load h + h_size h))), m. split_and!; [done|apply O|done..]. }
  destruct (Z.eqb_spec (h_load h) (a + 64)) as [E'|E']; cbn [negb].
  { exists (load_overlap o (u32 (h_load h + h_size h))), m. split_and!; [done|apply O|done|by rewrite E']. }
  unfold memmove_wd. rewrite Hs in Hm |- *. eexists _, _. split.
  { assert (Em : (memmove (h_load h) (a + 64) (Z.of_nat (length data));; mret tt) m = Ok (tt, write_bytes m (h_load h) data)).
    { by rewrite (bind_ok _ _ _ _ _ (memmove_ok m (h_load h) (a + 64) data Hd Hm)). }
    rewrite (bind_ok _ _ _ _ _ Em). reflexivity. }
  split; [apply O|]. split; [apply changed_write; lia|]. apply write_bytes_at. by eapply bytes_at_bytes.
Qed.

(** C4: bootm of a valid, uncompressed Linux kernel: it is loaded where its header
    says and entered at its entry point, with the machine number and a list of tags
    that holds the banks of memory and the command line of the environment. *)
Theorem boot_linux_correct argv m e i0 h data v (le : linux_env e) :
  let a := named_image load_addr argv in
  image_at m a h data -> plain_number argv -> argv !! 2%nat = None ->
  getenv_value e (zs "verify") = Ok v -> kernel_ok h data (verifies v) = true ->
  h_type h = IH_TYPE_KERNEL -> h_os h = IH_OS_LINUX -> h_comp h = IH_COMP_NONE -> data <> [] ->
  (CONFIG_NR_DRAM_BANKS <= length dram)%nat -> Forall (fun b => word32 (fst b) /\ word32 (snd b)) dram ->
  mapped m (h_load h) (h_size h) ->
  let room := tags_room (le_args le) (le_eth le) in
  mapped m bp room -> 0 <= bp -> bp + room < 4294967296 ->
  bp + room <= kernel_place a h \/ kernel_place a h + h_size h <= bp ->
  exists m' i, bytes_at m' (kernel_place a h) data /\ tags_at m' bp (linux_tags dram (le_args le) (le_eth le)) /\
    (forall x, x < h_load h \/ h_load h + h_size h <= x -> x < bp \/ bp + room <= x -> m' !! x = m !! x) /\
    bootm argv (Boot m e i0) =
    (run prog (Linux (h_ep h) (machid_of (le_machid le) arch) bp);; do_reset prog;; mret 1) (Boot m' e i).
Proof.
  intros a Hi Hp Hr Hv Hk Ht Ho Hc Hz Hd Hdw Hm room Hmb H0 H1 Hdis.
  assert (Hs : single_program h = true) by (unfold single_program; by rewrite Ht).
  pose proof (proj1 (proj2 Hi)) as Hsz. assert (Hz' : h_size h <> 0) by (rewrite Hsz; destruct data; cbn; [done|lia]).
  rewrite do_bootm_start by done. rewrite (bind_ok _ _ _ _ _ (bootm_start_ok load_addr argv m e i0 h data v Hi Hv Hs Hk Hz' Hr)). cbv beta.
  cbn [Z.eqb negb]. rewrite gets_bind. unfold started at 1. cbv zeta. cbn [images os_info]. fold a.
  destruct (load_plain m a h data Hi Hc Hm) as (ret & m1 & E1 & Hret & C1 & B1). rewrite (on_mem_boot _ _ _ _ _ _ _ E1).
  set (i := started load_addr argv h v). assert (E2 : load_failed prog ret (Boot m1 e i) = Ok (false, Boot m1 e i)).
  { unfold load_failed. destruct Hret as [-> | ->]; reflexivity. }
  rewrite (bind_ok _ _ _ _ _ E2). cbv iota. unfold boot_image. rewrite gets_bind. cbn [images]. unfold i at 1 2, started. cbn [os_info info_type info_os].
  rewrite Ht, Ho. change (IH_TYPE_KERNEL =? IH_TYPE_STANDALONE) with false. cbv iota.
  rewrite (lift_bind _ _ _ (Some Fn_linux)) by reflexivity. cbv iota. unfold call_boot_fn.
  destruct (do_bootm_linux_ok bp dram arch prog Hd Hdw 0 argv (Boot m1 e i) le) as (m2 & E3 & C2 & T2);
    [by left|eapply mapped_changed; [exact C1|exact Hmb]|done|done|].
  change (b_env (Boot m1 e i)) with e in *. fold room in C2.
  exists m2, i. split_and!; [|done| |].
  - eapply bytes_at_changed; [exact C2|lia|exact B1].
  - intros x Hx1 Hx2. destruct C1 as [C1 _], C2 as [C2 _]. cbn [b_mem] in C2. by rewrite C2, C1 by lia.
  - transitivity ((do_bootm_linux bp dram arch prog 0 argv;; do_reset prog;; mret 1) (Boot m1 e i)); [done|].
    unfold mbind at 1, ST_bind at 1. rewrite E3. cbn [images with_mem b_env]. unfold i at 1, started. cbn [ep].
    unfold mbind, ST_bind. destruct (run prog _ _) as [[u s]| |]; done.
Qed.

(** C23: An image of a single program (a kernel or a standalone program) that is not
    for this architecture or, unless "verify" says no, whose data do not have their
    checksum, is refused: nothing is started and memory is as it was. A damaged
    multi-file image can do more, since its components are printed first. *)
Theorem boot_refused argv m e i0 h data v :
  image_at m (named_image load_addr argv) h data -> plain_number argv -> getenv_value e (zs "verify") = Ok v ->
  single_program h = true -> kernel_ok h data (verifies v) = false ->
  exists i, bootm argv (Boot m e i0) = Ok (1, Boot m e i).
Proof.
  intros Hi Hp Hv Hs Hk. rewrite do_bootm_start by done.
  destruct (bootm_start_refused load_addr argv m e i0 h data v Hi Hv Hs Hk) as [i E]. exists i. by rewrite (bind_ok _ _ _ _ _ E).
Qed.
End Command.

(** ** What else happens *)

Section Defects.
Context (load_addr bp arch : Z) (dram : list (Z * Z)) (prog : jump -> boot -> res boot) (malloc_ok : Z -> bool).
Context (inflateInit2 : M Z) (inflate : Z -> Z -> Z -> Z -> M (Z * Z)).
Context (console_assign : Z -> list Z -> Z) (env_overwrite : bool) (baudrate_table : list Z).

Abbreviation bootm := (do_bootm bp dram arch prog malloc_ok inflateInit2 inflate load_addr console_assign env_overwrite baudrate_table).

(** An uncompressed image up to the choice of what to do with it. *)
Lemma boot_loaded argv m e i0 h data v :
  image_at m (named_image load_addr argv) h data -> plain_number argv -> argv !! 2%nat = None ->
  getenv_value e (zs "verify") = Ok v -> single_program h = true -> kernel_ok h data (verifies v) = true ->
  h_comp h = IH_COMP_NONE -> data <> [] -> mapped m (h_load h) (h_size h) ->
  exists m', bytes_at m' (kernel_place (named_image load_addr argv) h) data /\
    bootm argv (Boot m e i0) =
    boot_image bp dram arch prog malloc_ok console_assign env_overwrite baudrate_table argv (Boot m' e (started load_addr argv h v)).
Proof.
  intros Hi Hp Hr Hv Hs Hk Hc Hz Hm. pose proof (proj1 (proj2 Hi)) as Hsz. assert (Hz' : h_size h <> 0) by (rewrite Hsz; destruct data; cbn; [done|lia]).
  rewrite do_bootm_start by done. rewrite (bind_ok _ _ _ _ _ (bootm_start_ok load_addr argv m e i0 h data v Hi Hv Hs Hk Hz' Hr)). cbv beta.
  cbn [Z.eqb negb]. rewrite gets_bind. unfold started at 1. cbv zeta. cbn [images os_info].
  destruct (load_plain inflateInit2 inflate m _ h data Hi Hc Hm) as (ret & m1 & E1 & Hret & _ & B1). rewrite (on_mem_boot _ _ _ _ _ _ _ E1).
  exists m1. split; [done|]. set (i := started load_addr argv h v). assert (E2 : load_failed prog ret (Boot m1 e i) = Ok (false, Boot m1 e i)).
  { unfold load_failed. destruct Hret as [-> | ->]; reflexivity. }
  by rewrite (bind_ok _ _ _ _ _ E2).
Qed.

(** A standalone program is not entered at the entry point of its header but at the
    address with the opposite order of bytes. *)
Theorem standalone_entry_swapped argv m e i0 h data v auto :
  image_at m (named_image load_addr argv) h data -> plain_number argv -> argv !! 2%nat = None ->
  getenv_value e (zs "verify") = Ok v -> h_type h = IH_TYPE_STANDALONE -> kernel_ok h data (verifies v) = true ->
  h_comp h = IH_COMP_NONE -> data <> [] -> mapped m (h_load h) (h_size h) ->
  getenv_value e (zs "autostart") = Ok auto -> auto <> Some (zs "no") ->
  exists m' i, bytes_at m' (kernel_place (named_image load_addr argv) h) data /\
    bootm argv (Boot m e i0) = (run prog (Standalone (be32_value (le32 (h_ep h))) (tl argv));; mret 0) (Boot m' e i).
Proof.
  intros Hi Hp Hr Hv Ht Hk Hc Hz Hm Ha Hn. assert (Hs : single_program h = true) by (unfold single_program; by rewrite Ht).
  destruct (boot_loaded argv m e i0 h data v) as (m' & B & E); try done. exists m', (started load_addr argv h v). split; [done|].
  rewrite E. unfold boot_image. rewrite gets_bind. unfold started at 1. cbn [images os_info info_type]. rewrite Ht. cbn [Z.eqb Pos.eqb IH_TYPE_STANDALONE].
  assert (Ep : htonl (h_ep h) = be32_value (le32 (h_ep h))).
  { destruct Hi as ((_ & _ & _ & Hw & _) & _). rewrite <- (le32_value _ Hw) at 1. apply uimage_word; apply u8_range. }
  set (S := Boot m' e (started load_addr argv h v)).
  assert (Es : bootm_start_standalone prog console_assign env_overwrite baudrate_table argv S =
               (run prog (Standalone (be32_value (le32 (h_ep h))) (tl argv));; mret 0) S).
  { unfold bootm_start_standalone. rewrite (env_var_bind _ _ S _ Ha), gets_bind. case_bool_decide; [done|]. cbv zeta. cbn [S images].
    unfold started. cbn [ep]. by rewrite Ep. }
  unfold mbind at 1, ST_bind at 1. rewrite Es. unfold mbind, ST_bind. by destruct (run prog _ _) as [[]| |].
Qed.

(** An image for an operating system behind the last one of the table makes bootm
    read past the end of the table, after it has been loaded. *)
Theorem unknown_os_faults argv m e i0 h data v :
  image_at m (named_image load_addr argv) h data -> plain_number argv -> argv !! 2%nat = None ->
  getenv_value e (zs "verify") = Ok v -> h_type h = IH_TYPE_KERNEL -> kernel_ok h data (verifies v) = true ->
  h_comp h = IH_COMP_NONE -> data <> [] -> mapped m (h_load h) (h_size h) ->
  IH_OS_RTEMS < h_os h -> bootm argv (Boot m e i0) = Fault.
Proof.
  intros Hi Hp Hr Hv Ht Hk Hc Hz Hm Ho. assert (Hs : single_program h = true) by (unfold single_program; by rewrite Ht).
  destruct (boot_loaded argv m e i0 h data v) as (m' & _ & E); try done. rewrite E. unfold boot_image. rewrite gets_bind.
  unfold started at 1 2. cbn [images os_info info_type info_os]. rewrite Ht. cbn [Z.eqb Pos.eqb IH_TYPE_KERNEL IH_TYPE_STANDALONE].
  assert (Ef : arr_get boot_os (Z.to_nat (h_os h)) = Fault).
  { unfold arr_get. rewrite lookup_ge_None_2; [done|]. change (length boot_os) with 19%nat. unfold IH_OS_RTEMS in Ho. lia. }
  rewrite Ef. done.
Qed.

(** Without a start before it, a sub-command of the operating system's calls a null
    pointer. *)
Example cmdline_before_start m e : bootm [zs "bootm"; zs "cmdline"] (Boot m e empty_headers) = Fault.
Proof. reflexivity. Qed.
End Defects.

(** ** A run *)

Definition sample_env : env_state :=
  make_env 100 [(zs "bootargs", zs "  console=ttyS2"); (zs "ethaddr", zs "C0:B1:3C:88:88:85")].

Definition sample_boot_header : header :=
  let data := zs "kernel code" in
  Header 0 (Z.of_nat (length data)) 0x2000 0x2001 (crc32 0 0 data) IH_OS_LINUX IH_ARCH_ARM IH_TYPE_KERNEL IH_COMP_NONE (text32 (zs "Linux")).

Definition sample_boot_mem : mem :=
  write_bytes (write_bytes (mem_of 0x1000 (make_header sample_boot_header ++ zs "kernel code")) 0x2000 (replicate 16 0)) 0x100 (replicate 160 0).

Definition sample_dram : list (Z * Z) := [(0x20000000, 0x8000); (0x64000000, 0x400000); (0, 0)].

(** A kernel that leaves its arguments behind. *)
Definition witness_kernel (j : jump) (s : boot) : res boot :=
  match j with
  | Linux entry machid params => Ok (Boot (<[0 := entry]> (<[1 := machid]> (<[2 := params]> ∅))) (b_env s) (images s))
  | _ => Ok s
  end.

Definition sample_bootm : list (list Z) -> B Z :=
  do_bootm 0x100 sample_dram 0x200 witness_kernel (fun _ => true) (mret 0) (fun _ _ _ _ => mret (0, 0)) 0x1000 (fun _ _ => 0) false rates.

Example sample_run : match sample_bootm [zs "bootm"; zs "1000"] (Boot sample_boot_mem sample_env empty_headers) with
  | Ok (r, s) => Some (r, b_mem s !! 0, b_mem s !! 1, b_mem s !! 2)
  | _ => None
  end = Some (1, Some 0x2001, Some 0x200, Some 0x100).
Proof. vm_compute. reflexivity. Qed.

Lemma sample_boot_ok : image_at sample_boot_mem 0x1000 sample_boot_header (zs "kernel code").
Proof.
  split; [|split; [reflexivity|split; [lia|split; [vm_compute; reflexivity|]]]].
  - unfold header_ok, word32, byte. split_and!; try (vm_compute; congruence); try reflexivity. apply (bool_decide_unpack _). vm_compute. exact I.
  - mem_decide.
Qed.

Lemma sample_linux_env : linux_env sample_env.
Proof.
  refine (Linux_env _ (Some (zs "  console=ttyS2")) None (Some (zs "C0:B1:3C:88:88:85")) _ _ _ _ _); try (vm_compute; reflexivity).
  - intros c [= <-]. apply (bool_decide_unpack _). vm_compute. exact I.
  - intros c [= <-]. apply (bool_decide_unpack _). vm_compute. exact I.
Defined.

Lemma boot_linux_correct_witness : exists m' i, bytes_at m' 0x2000 (zs "kernel code") /\
  tags_at m' 0x100 [Core 0 0 0; Memory 0x8000 0x20000000; Memory 0x400000 0x64000000; Memory 0 0;
    Cmdline (zs "console=ttyS2 ethaddr=C0:B1:3C:88:88:85")] /\
  sample_bootm [zs "bootm"; zs "1000"] (Boot sample_boot_mem sample_env empty_headers) =
  (run witness_kernel (Linux 0x2001 0x200 0x100);; do_reset witness_kernel;; mret 1) (Boot m' sample_env i).
Proof.
  destruct (boot_linux_correct 0x1000 0x100 0x200 sample_dram witness_kernel (fun _ => true) (mret 0) (fun _ _ _ _ => mret (0, 0)) (fun _ _ => 0) false rates
    [zs "bootm"; zs "1000"] sample_boot_mem sample_env empty_headers sample_boot_header (zs "kernel code") None sample_linux_env)
    as (m' & i & H1 & H2 & _ & H3).
  - exact sample_boot_ok.
  - vm_compute. reflexivity.
  - reflexivity.
  - vm_compute. reflexivity.
  - vm_compute. reflexivity.
  - reflexivity.
  - reflexivity.
  - reflexivity.
  - discriminate.
  - vm_compute. lia.
  - apply (bool_decide_unpack _). vm_compute. exact I.
  - mem_decide.
  - mem_decide.
  - lia.
  - vm_compute. reflexivity.
  - left. vm_compute. congruence.
  - exists m', i. split; [exact H1|split; [exact H2|exact H3]].
Defined.

(** Variations of the sample: [arch], [type] and [os] of the header. *)
Definition other_header (arch type os : Z) : header :=
  let data := zs "kernel code" in
  Header 0 (Z.of_nat (length data)) 0x2000 0x2001 (crc32 0 0 data) os arch type IH_COMP_NONE (text32 (zs "Linux")).
Definition other_mem (h : header) : mem :=
  write_bytes (mem_of 0x1000 (make_header h ++ zs "kernel code")) 0x2000 (replicate 16 0).

Lemma other_ok arch type os : byte arch -> byte type -> byte os ->
  image_at (other_mem (other_header arch type os)) 0x1000 (other_header arch type os) (zs "kernel code").
Proof.
  intros Ha Ht Ho. assert (Hh : header_ok (other_header arch type os)).
  { unfold header_ok, other_header. cbn [h_time h_size h_load h_ep h_dcrc h_os h_arch h_type h_comp h_name].
    do 5 (split; [vm_compute; split; congruence|]). split; [exact Ho|]. split; [exact Ha|]. split; [exact Ht|].
    split; [vm_compute; split; congruence|]. split; [reflexivity|]. apply (bool_decide_unpack _). vm_compute. exact I. }
  split; [done|]. split; [reflexivity|]. split; [lia|]. split; [vm_compute; reflexivity|].
  unfold other_mem. apply bytes_at_write; [|apply write_bytes_at].
  - rewrite length_app. unfold make_header. rewrite (proj2 (header_bytes_ok _ _ Hh)). vm_compute. right. congruence.
  - apply Forall_app. split; [by apply header_bytes_ok|]. apply (bool_decide_unpack _). vm_compute. exact I.
Qed.

Definition kernel_for_mips : header := other_header IH_ARCH_MIPS IH_TYPE_KERNEL IH_OS_LINUX.
Definition program : header := other_header IH_ARCH_ARM IH_TYPE_STANDALONE IH_OS_U_BOOT.
Definition kernel_of_unknown : header := other_header IH_ARCH_ARM IH_TYPE_KERNEL 200.

Lemma boot_refused_witness : exists i, sample_bootm [zs "bootm"; zs "1000"] (Boot (other_mem kernel_for_mips) sample_env empty_headers) =
  Ok (1, Boot (other_mem kernel_for_mips) sample_env i).
Proof.
  apply (boot_refused 0x1000 0x100 0x200 sample_dram witness_kernel (fun _ => true) (mret 0) (fun _ _ _ _ => mret (0, 0)) (fun _ _ => 0) false rates
    [zs "bootm"; zs "1000"] (other_mem kernel_for_mips) sample_env empty_headers kernel_for_mips (zs "kernel code") None).
  - apply other_ok; vm_compute; split; congruence.
  - vm_compute. reflexivity.
  - vm_compute. reflexivity.
  - reflexivity.
  - vm_compute. reflexivity.
Defined.

Lemma standalone_entry_swapped_witness : exists m' i, bytes_at m' 0x2000 (zs "kernel code") /\
  sample_bootm [zs "bootm"; zs "1000"] (Boot (other_mem program) sample_env empty_headers) =
  (run witness_kernel (Standalone 0x01200000 [zs "1000"]);; mret 0) (Boot m' sample_env i).
Proof.
  destruct (standalone_entry_swapped 0x1000 0x100 0x200 sample_dram witness_kernel (fun _ => true) (mret 0) (fun _ _ _ _ => mret (0, 0)) (fun _ _ => 0) false rates
    [zs "bootm"; zs "1000"] (other_mem program) sample_env empty_headers program (zs "kernel code") None None) as (m' & i & H1 & H2).
  - apply other_ok; vm_compute; split; congruence.
  - vm_compute. reflexivity.
  - reflexivity.
  - vm_compute. reflexivity.
  - reflexivity.
  - vm_compute. reflexivity.
  - reflexivity.
  - discriminate.
  - mem_decide.
  - vm_compute. reflexivity.
  - discriminate.
  - exists m', i. split; [exact H1|exact H2].
Defined.

Lemma unknown_os_faults_witness : sample_bootm [zs "bootm"; zs "1000"] (Boot (other_mem kernel_of_unknown) sample_env empty_headers) = Fault.
Proof.
  apply (unknown_os_faults 0x1000 0x100 0x200 sample_dram witness_kernel (fun _ => true) (mret 0) (fun _ _ _ _ => mret (0, 0)) (fun _ _ => 0) false rates
    [zs "bootm"; zs "1000"] (other_mem kernel_of_unknown) sample_env empty_headers kernel_of_unknown (zs "kernel code") None).
  - apply other_ok; vm_compute; split; congruence.
  - vm_compute. reflexivity.
  - reflexivity.
  - vm_compute. reflexivity.
  - reflexivity.
  - vm_compute. reflexivity.
  - reflexivity.
  - discriminate.
  - mem_decide.
  - vm_compute. reflexivity.
Defined.

(** ** gunzip *)

(** The fields of a gzip header (RFC 1952). *)
Record gzip := Gzip { gz_extra : option (list Z); gz_name : option (list Z); gz_comment : option (list Z); gz_crc : bool }.

Definition gzip_ok (g : gzip) : Prop :=
  match gz_extra g with Some x => Forall byte x /\ Z.of_nat (length x) < 65536 | None => True end /\
  match gz_name g with Some s => cstring s | None => True end /\ match gz_comment g with Some s => cstring s | None => True end.

Definition gzip_flags (g : gzip) : Z :=
  (if gz_crc g then HEAD_CRC else 0) + (if gz_extra g is Some _ then EXTRA_FIELD else 0) + (if gz_name g is Some _ then ORIG_NAME else 0) +
  (if gz_comment g is Some _ then COMMENT else 0).

Definition gzip_extra_bytes (g : gzip) : list Z :=
  match gz_extra g with Some x => [u8 (Z.of_nat (length x)); u8 (Z.of_nat (length x) / 256)] ++ x | None => [] end.
Definition gzip_string (s : option (list Z)) : list Z := match s with Some s => s ++ [0] | None => [] end.

Definition gzip_header (g : gzip) (rest : list Z) : list Z :=
  [0x1f; 0x8b; DEFLATED; gzip_flags g] ++ rest ++ gzip_extra_bytes g ++ gzip_string (gz_name g) ++ gzip_string (gz_comment g) ++
  (if gz_crc g then [0; 0] else []).

Lemma skip_string_ok s : forall fuel m src i, cstring s -> bytes_at m (src + i) (s ++ [0]) -> (length s < fuel)%nat ->
  skip_string fuel src i m = Ok (i + Z.of_nat (length s) + 1, m).
Proof.
  induction s as [|c s IH]; intros fuel m src i Hs Hb Hf; destruct fuel as [|fuel]; cbn [length] in Hf; try lia; cbn [skip_string app bytes_at] in *.
  - destruct Hb as [[Hb _] _]. mload Hb. cbn [Z.eqb length]. unfold mret, ST_ret. do 2 f_equal. lia.
  - apply cstring_cons in Hs as [Hc Hs]. destruct Hb as [[Hb _] Hl]. mload Hb. unfold nonzero_byte in Hc. destruct (Z.eqb_spec c 0); [lia|].
    replace (src + i + 1) with (src + (i + 1)) in Hl by lia. rewrite (IH fuel m src (i + 1) Hs Hl ltac:(lia)). do 2 f_equal. cbn [length]. lia.
Qed.


Section Header.
Context (m : mem) (src : Z) (g : gzip) (rest : list Z).
Context (Hg : gzip_ok g) (Hr : length rest = 6%nat) (Hb : bytes_at m src (gzip_header g rest)).

(** The places of the parts. *)
Lemma gzip_parts : load8 (src + 3) m = Ok (gzip_flags g, m) /\ load8 (src + 2) m = Ok (DEFLATED, m) /\
  bytes_at m (src + 10) (gzip_extra_bytes g) /\
  bytes_at m (src + (10 + Z.of_nat (length (gzip_extra_bytes g)))) (gzip_string (gz_name g)) /\
  bytes_at m (src + (10 + Z.of_nat (length (gzip_extra_bytes g)) + Z.of_nat (length (gzip_string (gz_name g))))) (gzip_string (gz_comment g)).
Proof.
  unfold gzip_header in Hb. split; [apply load8_ok; exact (proj1 (bytes_at_lookup _ _ _ 3 _ Hb eq_refl))|].
  split; [apply load8_ok; exact (proj1 (bytes_at_lookup _ _ _ 2 _ Hb eq_refl))|].
  apply bytes_at_app in Hb as [_ H1]. apply bytes_at_app in H1 as [_ H1]. apply bytes_at_app in H1 as [He H1]. apply bytes_at_app in H1 as [Hn H1].
  apply bytes_at_app in H1 as [Hc _]. rewrite Hr in *. cbn [length] in *.
  replace (src + Z.of_nat 4 + Z.of_nat 6) with (src + 10) in * by lia. split; [done|].
  split; [by replace (src + (10 + Z.of_nat (length (gzip_extra_bytes g)))) with (src + 10 + Z.of_nat (length (gzip_extra_bytes g))) by lia|].
  by replace (src + (10 + Z.of_nat (length (gzip_extra_bytes g)) + Z.of_nat (length (gzip_string (gz_name g))))) with
    (src + 10 + Z.of_nat (length (gzip_extra_bytes g)) + Z.of_nat (length (gzip_string (gz_name g)))) by lia.
Qed.

Lemma gzip_flags_bits : Z.land (gzip_flags g) RESERVED = 0 /\
  negb (Z.land (gzip_flags g) EXTRA_FIELD =? 0) = bool_decide (is_Some (gz_extra g)) /\
  negb (Z.land (gzip_flags g) ORIG_NAME =? 0) = bool_decide (is_Some (gz_name g)) /\
  negb (Z.land (gzip_flags g) COMMENT =? 0) = bool_decide (is_Some (gz_comment g)) /\
  negb (Z.land (gzip_flags g) HEAD_CRC =? 0) = gz_crc g.
Proof. unfold gzip_flags. destruct g as [[x|] [n|] [c|] []]; vm_compute; tauto. Qed.

Lemma extra_length : (if bool_decide (is_Some (gz_extra g)) then lo ← load8 (src + 10); hi ← load8 (src + 11); mret (12 + lo + Z.shiftl hi 8) else mret 10) m =
  Ok (10 + Z.of_nat (length (gzip_extra_bytes g)), m).
Proof.
  destruct gzip_parts as (_ & _ & He & _). destruct Hg as (Hx & _). unfold gzip_extra_bytes in *.
  destruct (gz_extra g) as [x|]; [|done]. destruct Hx as [_ Hx]. rewrite bool_decide_eq_true_2 by (by eexists).
  cbn [app bytes_at] in He. destruct He as ([H0 _] & [H1 _] & _). replace (src + 10 + 1) with (src + 11) in H1 by lia.
  mload H0. mload H1. unfold mret, ST_ret. do 2 f_equal. rewrite Z.shiftl_mul_pow2 by lia. change (2 ^ 8) with 256. rewrite length_app.
  change (length [_; _]) with 2%nat. unfold u8. zmod.
Qed.

Lemma string_length fuel s b i : (forall t, s = Some t -> cstring t) -> b = bool_decide (is_Some s) -> bytes_at m (src + i) (gzip_string s) ->
  (size m < fuel)%nat -> (if b then skip_string fuel src i else mret i) m = Ok (i + Z.of_nat (length (gzip_string s)), m).
Proof.
  intros Hs -> Hs2 Hf. destruct s as [t|]; cbn [gzip_string] in *.
  - rewrite bool_decide_eq_true_2 by (by eexists). pose proof (size_bytes _ _ _ Hs2) as Hz. rewrite length_app in Hz. cbn [length] in Hz.
    rewrite (skip_string_ok t fuel m src i) by (done || by apply Hs || lia). do 2 f_equal. rewrite length_app. cbn [length]. lia.
  - cbn. by rewrite Z.add_0_r.
Qed.

(** The header of gzip data, with any of its optional fields, is skipped exactly. *)
Theorem gunzip_header_skipped : gunzip_header src m = Ok (Some (Z.of_nat (length (gzip_header g rest))), m).
Proof.
  destruct gzip_parts as (E3 & E2 & _ & Hn & Hc). destruct gzip_flags_bits as (F0 & F1 & F2 & F3 & F4). destruct Hg as (_ & Hgn & Hgc).
  unfold gunzip_header. mstep E3. mstep E2. rewrite F0. cbn [Z.eqb Pos.eqb DEFLATED negb orb]. mfuel. rewrite F1. mstep extra_length.
  rewrite (bind_ok _ _ _ _ _ (string_length (S (size m)) (gz_name g) _ _ ltac:(intros t Ht; by rewrite Ht in Hgn) F2 Hn ltac:(lia))).
  rewrite (bind_ok _ _ _ _ _ (string_length (S (size m)) (gz_comment g) _ _ ltac:(intros t Ht; by rewrite Ht in Hgc) F3 Hc ltac:(lia))).
  rewrite F4. unfold mret, ST_ret. do 3 f_equal. unfold gzip_header. rewrite !length_app, Hr. cbn [length]. destruct (gz_crc g); cbn [length]; lia.
Qed.
End Header.

Lemma gunzip_header_skipped_witness :
  gunzip_header 0x40 (mem_of 0x40 (gzip_header (Gzip (Some [1; 2; 3]) (Some (zs "vmlinux")) None true) (replicate 6 0))) =
  Ok (Some 25, mem_of 0x40 (gzip_header (Gzip (Some [1; 2; 3]) (Some (zs "vmlinux")) None true) (replicate 6 0))).
Proof.
  apply (gunzip_header_skipped _ 0x40 (Gzip (Some [1; 2; 3]) (Some (zs "vmlinux")) None true) (replicate 6 0)).
  - split; [split; [apply (bool_decide_unpack _); vm_compute; exact I|done]|]. split; [apply (bool_decide_unpack _); vm_compute; exact I|done].
  - reflexivity.
  - mem_decide.
Defined.
