(* ===== verification/Ram.v ===== *)
(** * Sizing and testing RAM (common/memsize.c and [mtest] of common/cmd_mem.c)

    Both access words through [volatile] pointers to find out what the hardware does
    with them, so the model is over any hardware: the class [Bus].  A class of its
    own, [MirroredRam], states how a smaller chip answers in a larger window, and
    [StuckRam] how a chip with one broken bit does.  [mtest] is the short version,
    without CONFIG_SYS_ALT_MEMTEST. *)

From S2P Require Import Prelude Mem Vsprintf Display.

(** What a word access at an address does. *)
Class Bus (S : Type) := {
  peek : Z -> S -> Z;
  poke : Z -> Z -> S -> S;
}.

Section Sizing.
Context {S : Type} `{!Bus S}.

(** ** get_ram_size *)

(** [save] is the used part of the array, the entry written last in front; its index
    [i] is the length.  Reading in front of the array and writing behind it is a fault.
    Fuel: [cnt] is halved or doubled, so 32 rounds are enough. *)
Definition SAVE_SIZE : nat := 32.

Definition word_at (base cnt : Z) : Z := u32 (base + 4 * cnt).

Fixpoint save_loop (fuel : nat) (cnt base : Z) (save : list Z) (s : S) : res (list Z * S) :=
  if 0 <? cnt then
    match fuel with
    | O => OutOfFuel
    | Datatypes.S fuel =>
        if (SAVE_SIZE <=? length save)%nat then Fault
        else save_loop fuel (Z.shiftr cnt 1) base (peek (word_at base cnt) s :: save) (poke (word_at base cnt) (u32 (Z.lnot cnt)) s)
    end
  else Ok (save, s).

Fixpoint restore_loop (fuel : nat) (cnt words base : Z) (save : list Z) (s : S) : res S :=
  if cnt <? words then
    match fuel, save with
    | O, _ => OutOfFuel
    | _, [] => Fault
    | Datatypes.S fuel, x :: save => restore_loop fuel (u32 (Z.shiftl cnt 1)) words base save (poke (word_at base cnt) x s)
    end
  else Ok s.

(** The size found, if a word does not hold what was written, and the state. *)
Fixpoint check_loop (fuel : nat) (cnt words base : Z) (save : list Z) (s : S) : res (option Z * S) :=
  if cnt <? words then
    match fuel, save with
    | O, _ => OutOfFuel
    | _, [] => Fault
    | Datatypes.S fuel, x :: save =>
        let val := peek (word_at base cnt) s in
        let s := poke (word_at base cnt) x s in
        if negb (val =? u32 (Z.lnot cnt)) then
          s ← restore_loop fuel (u32 (Z.shiftl cnt 1)) words base save s;
          mret (Some (u32 (cnt * 4)), s)
        else check_loop fuel (u32 (Z.shiftl cnt 1)) words base save s
    end
  else Ok (None, s).

Definition get_ram_size (base maxsize : Z) (s : S) : res (Z * S) :=
  let words := u32 maxsize / 4 in
  '(save, s) ← save_loop 32 (Z.shiftr words 1) base [] s;
  if (SAVE_SIZE <=? length save)%nat then Fault else
  let save_i := peek (u32 base) s in
  let s := poke (u32 base) 0 s in
  if negb (peek (u32 base) s =? 0) then
    s ← restore_loop 32 1 words base save (poke (u32 base) save_i s);
    mret (0, s)
  else
    '(size, s) ← check_loop 32 1 words base save s;
    mret (match size with Some size => size | None => maxsize end, s).

(** ** mtest *)

(** The hardware, what was printed and how often [ctrlc] was asked. *)
Record test := Test { bus : S; console : list Z; polls : nat }.

Abbreviation T := (ST test).

Definition puts (l : list Z) : T unit := modify (fun t => Test (bus t) (console t ++ l) (polls t)).
Definition print (fmt : list Z) (args : list va_arg) : T unit := l ← lift (printf fmt args); puts l.
Definition read_word (a : Z) : T Z := gets (fun t => peek a (bus t)).
Definition write_word (a v : Z) : T unit := modify (fun t => Test (poke a v (bus t)) (console t) (polls t)).

(** [ctrlc] answers from the keyboard: [keys k] is its answer to the [k]th question. *)
Context (keys : nat -> bool).

Definition ctrlc : T bool := fun t => Ok (keys (polls t), Test (bus t) (console t) (Datatypes.S (polls t))).

(** [addr] points to words, so [addr+=4] goes on by sixteen bytes.  Fuel: the number
    of these steps; if the last step passes the end of the address space, the loop
    has no end. *)
Definition addr_step : Z := 4 * 4.

Definition loop_fuel (start fin : Z) : nat := Z.to_nat ((fin - start) / addr_step + 1).

Fixpoint write_loop (fuel : nat) (addr fin val incr : Z) : T unit :=
  if addr <? fin then
    match fuel with
    | O => out_of_fuel
    | Datatypes.S fuel => write_word addr val;; write_loop fuel (u32 (addr + addr_step)) fin (u32 (val + incr)) incr
    end
  else mret tt.

(** The number of errors, or [None] after Ctrl-C. *)
Fixpoint read_loop (fuel : nat) (addr fin val incr errs : Z) : T (option Z) :=
  if addr <? fin then
    match fuel with
    | O => out_of_fuel
    | Datatypes.S fuel =>
        readback ← read_word addr;
        if negb (readback =? val) then
          print ([10] ++ zs "Mem error @ 0x%08X: found %08lX, expected %08lX" ++ [10]) [A_int addr; A_int readback; A_int val];;
          stop ← ctrlc;
          if (stop : bool) then puts [10];; mret None
          else read_loop fuel (u32 (addr + addr_step)) fin (u32 (val + incr)) incr (u32 (errs + 1))
        else read_loop fuel (u32 (addr + addr_step)) fin (u32 (val + incr)) incr errs
    end
  else mret (Some errs).

Definition next_pattern (pattern : Z) : Z :=
  if negb (Z.land pattern 0x80000000 =? 0) then u32 (- pattern) else u32 (Z.lnot pattern).

(** Fuel: one for each pass and one for the end.  Without a limit the test runs until
    Ctrl-C. *)
Fixpoint test_loop (fuel : nat) (start fin pattern incr errs iterations iteration_limit : Z) : T Z :=
  match fuel with
  | O => out_of_fuel
  | Datatypes.S fuel =>
      stop ← ctrlc;
      if (stop : bool) then puts [10];; mret 1
      else if negb (iteration_limit =? 0) && (iteration_limit <? iterations) then
        print (zs "Tested %d iteration(s) with %lu errors." ++ [10]) [A_int (iterations - 1); A_int errs];;
        mret (b2z (negb (errs =? 0)))
      else
        print ([13] ++ zs "Pattern %08lX  Writing...%12s" ++ replicate 10 8) [A_int pattern; A_str (Some [])];;
        write_loop (loop_fuel start fin) start fin pattern incr;;
        puts (zs "Reading...");;
        r ← read_loop (loop_fuel start fin) start fin pattern incr errs;
        match r with
        | None => mret 1
        | Some errs => test_loop fuel start fin (next_pattern pattern) (u32 (- incr)) errs (s32 (iterations + 1)) iteration_limit
        end
  end.

(** [CONFIG_SYS_MEMTEST_START] and [CONFIG_SYS_MEMTEST_END]. *)
Context (memtest_start memtest_end : Z).

Definition arg_hex (argv : list (list Z)) (i : nat) (default : Z) : Z :=
  match argv !! i with Some a => fst (simple_strtoul a 16) | None => default end.

Definition do_mem_mtest (fuel : nat) (argv : list (list Z)) : T Z :=
  test_loop fuel (arg_hex argv 1 memtest_start) (arg_hex argv 2 memtest_end) (arg_hex argv 3 0) 1 0 1 (s32 (arg_hex argv 4 0)).
End Sizing.

Arguments test : clear implicits.

(** ** A chip that is smaller than the window

    A chip of [2 ^ k] words is selected by an address decoder that ignores the higher
    address lines, so that it appears in the window again and again. *)

Definition ram_cell (k a : Z) : Z := a / 4 mod 2 ^ k.

Class MirroredRam (k : Z) (S : Type) `{!Bus S} := {
  peek_range a s : 0 <= peek a s < 4294967296;
  peek_mirror a b s : ram_cell k a = ram_cell k b -> peek a s = peek b s;
  peek_poke a b v s : peek a (poke b v s) = if bool_decide (ram_cell k a = ram_cell k b) then u32 v else peek a s;
}.

Section Mirrored.
Context {S : Type} `{!Bus S} (k : nat) `{!MirroredRam (Z.of_nat k) S}.
Context (base : Z) (n : nat).
Context (Hbase : 0 <= base) (Halign : base mod (4 * 2 ^ Z.of_nat k) = 0) (Hk : (k <= n)%nat).
Context (Hn : (n <= 29)%nat) (Htop : base + 4 * 2 ^ Z.of_nat n <= 4294967296).

Abbreviation cell := (ram_cell (Z.of_nat k)).

(** The words written to are those at the powers of two. *)
Definition probe (j : nat) : Z := word_at base (2 ^ Z.of_nat j).

Lemma pow_mono i j : (i <= j)%nat -> 2 ^ Z.of_nat i <= 2 ^ Z.of_nat j.
Proof. intros H. apply Z.pow_le_mono_r; lia. Qed.

Lemma pow_lt i j : (i < j)%nat -> 2 ^ Z.of_nat i < 2 ^ Z.of_nat j.
Proof. intros H. apply Z.pow_lt_mono_r; lia. Qed.

Lemma pow_pos j : 0 < 2 ^ Z.of_nat j.
Proof. apply Z.pow_pos_nonneg; lia. Qed.

Lemma pow_n : 2 ^ Z.of_nat n <= 536870912.
Proof. apply (pow_mono n 29). done. Qed.

Lemma base_cell : cell base = 0.
Proof.
  unfold ram_cell. apply Z.mod_divide; [pose proof (pow_pos k); lia|].
  apply Z.mod_divide in Halign as [q Hq]; [|pose proof (pow_pos k); lia].
  exists q. rewrite Hq. replace (q * (4 * 2 ^ Z.of_nat k)) with (q * 2 ^ Z.of_nat k * 4) by lia. by rewrite Z.div_mul.
Qed.

Lemma probe_cell j : (j < n)%nat -> cell (probe j) = if (j <? k)%nat then 2 ^ Z.of_nat j else 0.
Proof.
  intros Hj. pose proof (pow_pos j). pose proof (pow_pos k). pose proof (pow_lt j n ltac:(lia)).
  unfold probe, word_at. rewrite u32_small by lia. pose proof base_cell as Hb. unfold ram_cell in *.
  replace (base + 4 * 2 ^ Z.of_nat j) with (base + 2 ^ Z.of_nat j * 4) by lia. rewrite Z.div_add by lia.
  rewrite <- Z.add_mod_idemp_l, Hb, Z.add_0_l by lia.
  destruct (Nat.ltb_spec j k).
  - apply Z.mod_small. split; [lia|]. apply Z.pow_lt_mono_r; lia.
  - apply Z.mod_divide; [lia|]. exists (2 ^ Z.of_nat (j - k)). rewrite <- Z.pow_add_r by lia. f_equal. lia.
Qed.

Lemma probe_apart i j : (i < j)%nat -> (j < n)%nat -> (i < k)%nat -> cell (probe i) <> cell (probe j).
Proof.
  intros Hij Hj Hi. rewrite !probe_cell by lia. pose proof (pow_pos i). destruct (Nat.ltb_spec i k); [|lia].
  destruct (Nat.ltb_spec j k); [|lia]. pose proof (pow_lt i j Hij). lia.
Qed.

(** *** The loops as recursions on the number of the probe *)

Definition mark (j : nat) : Z := u32 (Z.lnot (2 ^ Z.of_nat j)).

Fixpoint marked (j : nat) (s : S) : S :=
  match j with O => s | Datatypes.S j => marked j (poke (probe j) (mark j) s) end.

Fixpoint saved (j : nat) (s : S) : list Z :=
  match j with O => [] | Datatypes.S j => saved j (poke (probe j) (mark j) s) ++ [peek (probe j) s] end.

Fixpoint undo (i : nat) (l : list Z) (s : S) : S :=
  match l with [] => s | x :: l => undo (Datatypes.S i) l (poke (probe i) x s) end.

Definition count_of (j : nat) : Z := match j with O => 0 | Datatypes.S j => 2 ^ Z.of_nat j end.

Lemma saved_length j : forall s, length (saved j s) = j.
Proof. induction j as [|j IH]; intros s; cbn [saved]; [done|]. rewrite length_app, IH. cbn. lia. Qed.

Lemma count_of_half j : Z.shiftr (2 ^ Z.of_nat j) 1 = count_of j.
Proof.
  rewrite Z.shiftr_div_pow2 by lia. destruct j as [|j]; [done|]. cbn [count_of]. rewrite Nat2Z.inj_succ, Z.pow_succ_r by lia.
  rewrite Z.mul_comm. by apply Z.div_mul.
Qed.

Lemma twice j : (j < n)%nat -> u32 (Z.shiftl (2 ^ Z.of_nat j) 1) = 2 ^ Z.of_nat (Datatypes.S j).
Proof.
  intros Hj. pose proof (pow_pos j). pose proof pow_n. pose proof (pow_mono (Datatypes.S j) n ltac:(lia)) as Hp.
  rewrite Nat2Z.inj_succ, Z.pow_succ_r in * by lia. rewrite Z.shiftl_mul_pow2 by lia. rewrite u32_small; lia.
Qed.

Lemma save_loop_ok j : (j <= n)%nat -> forall fuel save s, (j <= fuel)%nat -> (length save + j <= 32)%nat ->
  save_loop fuel (count_of j) base save s = Ok (saved j s ++ save, marked j s).
Proof.
  induction j as [|j IH]; intros Hj fuel save s Hf Hl; [by destruct fuel|].
  destruct fuel as [|fuel]; [lia|]. cbn [count_of saved marked save_loop]. pose proof (pow_pos j).
  destruct (Z.ltb_spec 0 (2 ^ Z.of_nat j)); [|lia]. destruct (Nat.leb_spec SAVE_SIZE (length save)); [unfold SAVE_SIZE in *; lia|].
  rewrite count_of_half, IH by (cbn [length]; lia). by rewrite <- app_assoc.
Qed.

Lemma probe_below i : (i < n)%nat -> (2 ^ Z.of_nat i <? 2 ^ Z.of_nat n) = true.
Proof. intros Hi. apply Z.ltb_lt, Z.pow_lt_mono_r; lia. Qed.

Lemma restore_loop_ok l : forall fuel i s, (i + length l)%nat = n -> (length l <= fuel)%nat ->
  restore_loop fuel (2 ^ Z.of_nat i) (2 ^ Z.of_nat n) base l s = Ok (undo i l s).
Proof.
  induction l as [|x l IH]; intros fuel i s Hi Hf; cbn [length] in *.
  - rewrite Nat.add_0_r in Hi. subst i. destruct fuel; cbn [restore_loop]; by rewrite Z.ltb_irrefl.
  - destruct fuel as [|fuel]; [lia|]. cbn [restore_loop undo]. rewrite probe_below, twice by lia. apply IH; lia.
Qed.

(** The check finds out where the chip ends, and restores what it passes. *)
Lemma check_loop_ok l : forall fuel i s, (i + length l)%nat = n -> (length l <= fuel)%nat -> (i <= k)%nat ->
  (forall j, (i <= j < k)%nat -> peek (probe j) s = mark j) -> peek base s = 0 ->
  check_loop fuel (2 ^ Z.of_nat i) (2 ^ Z.of_nat n) base l s = Ok (if (k <? n)%nat then Some (4 * 2 ^ Z.of_nat k) else None, undo i l s).
Proof.
  induction l as [|x l IH]; intros fuel i s Hi Hf Hik Hm Hz; cbn [length] in *.
  - rewrite Nat.add_0_r in Hi. subst i. destruct (Nat.ltb_spec k n); [lia|]. destruct fuel; cbn [check_loop]; by rewrite Z.ltb_irrefl.
  - destruct fuel as [|fuel]; [lia|]. cbn [check_loop undo]. rewrite probe_below by lia. fold (probe i). fold (mark i).
    destruct (Nat.eq_dec i k) as [->|Hne].
    + assert (E : peek (probe k) s = 0).
      { rewrite <- Hz. apply peek_mirror. rewrite probe_cell, base_cell by lia. by rewrite Nat.ltb_irrefl. }
      assert (Hmk : mark k <> 0).
      { pose proof (pow_pos k). pose proof (pow_mono k n ltac:(lia)). pose proof pow_n. unfold mark, Z.lnot, u32. zmod. }
      rewrite E. destruct (Z.eqb_spec 0 (mark k)); [congruence|]. cbn [negb]. rewrite twice, restore_loop_ok by lia.
      destruct (Nat.ltb_spec k n); [|lia]. cbn [mbind res_bind mret res_ret]. unfold mret, res_ret. do 3 f_equal.
      pose proof (pow_mono k n ltac:(lia)). pose proof pow_n. pose proof (pow_pos k). rewrite u32_small; lia.
    + rewrite Hm, Z.eqb_refl by lia. cbn [negb]. rewrite twice by lia. apply IH; [lia..| |].
      * intros j Hj. rewrite peek_poke. rewrite bool_decide_false; [apply Hm; lia|]. intros E. symmetry in E.
        destruct (probe_apart i j); [lia..|done].
      * rewrite peek_poke, bool_decide_false; [done|]. rewrite base_cell, probe_cell by lia. destruct (Nat.ltb_spec i k); [|lia].
        pose proof (pow_pos i). lia.
Qed.

(** *** What the loops do to the words *)

Definition covered (j : nat) (a : Z) : bool := existsb (fun i => bool_decide (cell a = cell (probe i))) (seq 0 j).

Lemma covered_S j a : covered (Datatypes.S j) a = covered j a || bool_decide (cell a = cell (probe j)).
Proof. unfold covered. rewrite seq_S, existsb_app. cbn. by rewrite orb_false_r. Qed.

Lemma undo_snoc l x : forall i s, undo i (l ++ [x]) s = poke (probe (i + length l)) x (undo i l s).
Proof.
  induction l as [|y l IH]; intros i s; cbn [undo app length]; [by rewrite Nat.add_0_r|]. rewrite IH. by rewrite Nat.add_succ_r.
Qed.

(** Restoring in the opposite order of saving restores every word written to,
    whatever aliases there are. *)
Lemma undo_saved j : forall s t a, peek a (undo 0 (saved j s) t) = if covered j a then peek a s else peek a t.
Proof.
  induction j as [|j IH]; intros s t a; cbn [saved]; [done|].
  rewrite undo_snoc, saved_length, peek_poke, IH, covered_S. cbn [Nat.add].
  destruct (bool_decide_reflect (cell a = cell (probe j))) as [E|E].
  - rewrite orb_true_r, u32_small by apply peek_range. symmetry. by apply peek_mirror.
  - rewrite orb_false_r. destruct (covered j a); [|done]. by rewrite peek_poke, bool_decide_false.
Qed.

Lemma marked_probe j m : forall s, (j < m)%nat -> (m <= n)%nat -> (j < k)%nat -> peek (probe j) (marked m s) = mark j.
Proof.
  assert (K : forall m s, (m <= j)%nat -> (j < n)%nat -> (j < k)%nat -> peek (probe j) (marked m s) = peek (probe j) s).
  { intros m'. induction m' as [|m' IH]; intros s Hm Hn' Hj; cbn [marked]; [done|]. rewrite IH by lia.
    rewrite peek_poke, bool_decide_false; [done|]. intros E. symmetry in E. destruct (probe_apart m' j); [lia..|done]. }
  induction m as [|m IH]; intros s Hj Hm Hk'; [lia|]. cbn [marked]. destruct (Nat.eq_dec j m) as [->|].
  - rewrite K by lia. rewrite peek_poke, bool_decide_true by done. apply u32_small. apply u32_range.
  - apply IH; lia.
Qed.

Lemma marked_other j a : forall s, covered j a = false -> peek a (marked j s) = peek a s.
Proof.
  induction j as [|j IH]; intros s; cbn [marked]; [done|]. rewrite covered_S. intros [H1 H2]%orb_false_iff. rewrite IH by done.
  rewrite peek_poke. by rewrite H2.
Qed.

Lemma covered_base a : cell a = cell base -> covered n a = (k <? n)%nat.
Proof.
  intros E. destruct (Nat.ltb_spec k n).
  - apply existsb_exists. exists k. rewrite in_seq. split; [lia|]. apply bool_decide_true. rewrite E, base_cell, probe_cell by lia.
    by rewrite Nat.ltb_irrefl.
  - apply not_true_iff_false. intros (i & Hi & He)%existsb_exists. apply in_seq in Hi. apply bool_decide_eq_true_1 in He.
    rewrite E, base_cell, probe_cell in He by lia. destruct (Nat.ltb_spec i k); [|lia]. pose proof (pow_pos i). lia.
Qed.

(** C16: In a window of [4 * 2 ^ n] bytes the size found is that of the chip, wherever
    it repeats itself.  Every word has its old contents again, except that the first
    one of a chip which fills the window is left zero. *)
Theorem ram_size_found s : exists s',
  get_ram_size base (4 * 2 ^ Z.of_nat n) s = Ok (4 * 2 ^ Z.of_nat k, s') /\
  (forall a, peek a s' = if (k =? n)%nat && bool_decide (cell a = cell base) then 0 else peek a s).
Proof.
  pose proof (pow_pos n). pose proof pow_n. unfold get_ram_size. rewrite !u32_small by lia.
  rewrite (Z.mul_comm 4 (2 ^ _)), Z.div_mul by done. rewrite count_of_half, save_loop_ok by (cbn [length]; lia).
  rewrite app_nil_r. cbn [mbind res_bind]. unfold mbind, res_bind. rewrite saved_length.
  destruct (Nat.leb_spec SAVE_SIZE n); [unfold SAVE_SIZE in *; lia|].
  rewrite peek_poke, bool_decide_true by done. change (u32 0) with 0. change (negb (0 =? 0)) with false. cbv iota.
  change 1 with (2 ^ Z.of_nat 0). erewrite check_loop_ok; [|rewrite saved_length; lia..|lia| |].
  - eexists. split.
    + unfold mret, res_ret. do 2 f_equal. destruct (Nat.ltb_spec k n); [done|]. replace k with n by lia. lia.
    + intros a. rewrite undo_saved. destruct (bool_decide_reflect (cell a = cell base)) as [E|E].
      * rewrite covered_base by done. destruct (Nat.ltb_spec k n), (Nat.eqb_spec k n); try lia; [done|]. cbn [andb].
        by rewrite peek_poke, bool_decide_true.
      * rewrite andb_false_r. destruct (covered n a) eqn:C; [done|]. rewrite peek_poke, bool_decide_false by done. by apply marked_other.
  - intros j Hj. rewrite peek_poke, bool_decide_false; [apply marked_probe; lia|]. rewrite base_cell, probe_cell by lia.
    destruct (Nat.ltb_spec j k); [|lia]. pose proof (pow_pos j). lia.
  - by rewrite peek_poke, bool_decide_true.
Qed.
End Mirrored.

(** ** A chip with stuck bits

    Word [a] has the bits of [zeros a] stuck at zero and those of [ones a] at one. *)

Definition stuck (zeros ones w : Z) : Z := Z.lor (Z.ldiff w zeros) ones.

Class StuckRam (zeros ones : Z -> Z) (S : Type) `{!Bus S} := {
  stuck_poke a b v s : a mod 4 = 0 -> b mod 4 = 0 ->
    peek a (poke b v s) = if bool_decide (a = b) then stuck (zeros a) (ones a) (u32 v) else peek a s;
}.

Lemma lnot_word w : word32 w -> u32 (Z.lnot w) = 4294967295 - w.
Proof. unfold word32, Z.lnot, u32. intros H. zmod. Qed.

Lemma testbit_word w i : word32 w -> 32 <= i -> Z.testbit w i = false.
Proof. intros H Hi. apply (testbit_high w 32); [done|lia]. Qed.

Lemma testbit_complement w i : word32 w -> 0 <= i < 32 -> Z.testbit (4294967295 - w) i = negb (Z.testbit w i).
Proof.
  intros H Hi. rewrite <- lnot_word by done. unfold u32. change 4294967296 with (2 ^ 32).
  rewrite Z.mod_pow2_bits_low by lia. apply Z.lnot_spec; lia.
Qed.

(** A word is held right together with its complement only if no bit is stuck. *)
Lemma stuck_both z o w : word32 z -> word32 o -> word32 w ->
  stuck z o w = w -> stuck z o (4294967295 - w) = 4294967295 - w -> z = 0 /\ o = 0.
Proof.
  intros Hz Ho Hw E1 E2.
  assert (K : forall i, 0 <= i -> Z.testbit z i = false /\ Z.testbit o i = false).
  { intros i Hi. destruct (Z.lt_ge_cases i 32) as [Hi'|Hi']; [|split; by apply testbit_word].
    apply (f_equal (fun x => Z.testbit x i)) in E1, E2. unfold stuck in *. rewrite Z.lor_spec, Z.ldiff_spec in E1, E2.
    rewrite testbit_complement in E2 by (done || lia). destruct (Z.testbit w i), (Z.testbit z i), (Z.testbit o i); done. }
  split; apply Z.bits_inj'; intros i Hi; rewrite Z.bits_0; by apply K.
Qed.

Lemma stuck_none w : stuck 0 0 w = w.
Proof. unfold stuck. by rewrite Z.ldiff_0_r, Z.lor_0_r. Qed.

(** The words [mtest] uses: every fourth one. *)
Definition nth_word (start : Z) (i : nat) : Z := start + addr_step * Z.of_nat i.
Definition nth_value (val incr : Z) (i : nat) : Z := u32 (val + Z.of_nat i * incr).
Definition words_tested (start fin : Z) : nat := Z.to_nat ((fin - start + 15) / addr_step).

Section Stuck.
Context {S : Type} `{!Bus S} (zeros ones : Z -> Z) `{!StuckRam zeros ones S}.
Context (Hzeros : forall a, word32 (zeros a)) (Hones : forall a, word32 (ones a)).

Abbreviation held a w := (stuck (zeros a) (ones a) w).

(** What a pass needs of its range. *)
Definition range_ok (start fin : Z) : Prop := 0 <= start /\ start mod 4 = 0 /\ fin <= 4294967280.

Lemma aligned start i : start mod 4 = 0 -> nth_word start i mod 4 = 0.
Proof. unfold nth_word, addr_step. intros H. zmod. Qed.

Lemma next_word start i : nth_word (start + addr_step) i = nth_word start (Datatypes.S i).
Proof. unfold nth_word, addr_step. lia. Qed.

Lemma next_value val incr i : nth_value (u32 (val + incr)) incr i = nth_value val incr (Datatypes.S i).
Proof. unfold nth_value, u32. rewrite Z.add_mod_idemp_l by done. f_equal. lia. Qed.

Lemma words_tested_end start fin : fin <= start -> words_tested start fin = 0%nat.
Proof. unfold words_tested, addr_step. intros H. zmod. Qed.

Lemma words_tested_step start fin : start < fin -> words_tested start fin = Datatypes.S (words_tested (start + addr_step) fin).
Proof. unfold words_tested, addr_step. intros H. zmod. Qed.

Lemma range_step start fin : range_ok start fin -> start < fin -> u32 (start + addr_step) = start + addr_step /\ range_ok (start + addr_step) fin.
Proof. unfold range_ok, addr_step. intros (H1 & H2 & H3) H. rewrite u32_small by lia. repeat split; [lia| |done]. zmod. Qed.

(** A writing pass leaves in every tested word what the chip makes of its value. *)
Lemma test_write_ok fuel : forall start fin val incr (t : test S), range_ok start fin -> (words_tested start fin <= fuel)%nat ->
  exists t', write_loop fuel start fin val incr t = Ok (tt, t') /\ console t' = console t /\ polls t' = polls t /\
    (forall i, (i < words_tested start fin)%nat -> peek (nth_word start i) (bus t') = held (nth_word start i) (nth_value val incr i)) /\
    (forall a, a mod 4 = 0 -> (forall i, (i < words_tested start fin)%nat -> a <> nth_word start i) -> peek a (bus t') = peek a (bus t)).
Proof.
  induction fuel as [|fuel IH]; intros start fin val incr t Hr Hf; cbn [write_loop]; destruct (Z.ltb_spec start fin) as [Hlt|Hge].
  - rewrite words_tested_step in Hf by done. lia.
  - rewrite words_tested_end by done. exists t. split_and!; [done..|lia|done].
  - rewrite words_tested_step in * by done. destruct (range_step _ _ Hr Hlt) as [-> Hr'].
    destruct (IH (start + addr_step) fin (u32 (val + incr)) incr (Test (poke start val (bus t)) (console t) (polls t)) Hr' ltac:(lia))
      as (t' & E & Hc & Hp & Hin & Hout). exists t'.
    split; [by rewrite (bind_ok _ _ _ tt (Test (poke start val (bus t)) (console t) (polls t)))|]. do 2 (split; [done|]).
    destruct Hr as (H0 & H4 & Hfin). split.
    + intros [|i] Hi.
      * unfold nth_word in *. rewrite Z.mul_0_r, Z.add_0_r. rewrite Hout; [|done|unfold addr_step; intros; lia]. cbn [bus].
        rewrite stuck_poke, bool_decide_true by done. unfold nth_value. f_equal. f_equal. lia.
      * rewrite <- next_word, <- next_value. apply Hin. lia.
    + intros a Ha Hn. rewrite Hout; [|done|intros i Hi; rewrite next_word; apply Hn; lia]. cbn [bus].
      rewrite stuck_poke, bool_decide_false; [done| |done..]. intros ->. apply (Hn 0%nat ltac:(lia)). unfold nth_word. lia.
  - rewrite words_tested_end by done. exists t. split_and!; [done..|lia|done].
Qed.

Context (keys : nat -> bool).

(** A reading pass that is not interrupted counts the words that differ. *)
Lemma test_read_ok fuel : forall start fin val incr errs (t : test S), range_ok start fin -> (words_tested start fin <= fuel)%nat ->
  0 <= errs -> errs + Z.of_nat (words_tested start fin) < 4294967296 -> word32 val -> (forall i, keys i = false) ->
  exists errs' t', read_loop keys fuel start fin val incr errs t = Ok (Some errs', t') /\ bus t' = bus t /\
    errs <= errs' <= errs + Z.of_nat (words_tested start fin) /\
    (errs' = errs <-> forall i, (i < words_tested start fin)%nat -> peek (nth_word start i) (bus t) = nth_value val incr i).
Proof.
  induction fuel as [|fuel IH]; intros start fin val incr errs t Hr Hf He Hmax Hv Hk; cbn [read_loop]; destruct (Z.ltb_spec start fin) as [Hlt|Hge].
  - rewrite words_tested_step in Hf by done. lia.
  - rewrite words_tested_end by done. exists errs, t. split_and!; [done..|lia|lia|]. split; [lia|done].
  - rewrite words_tested_step in * by done. destruct (range_step _ _ Hr Hlt) as [-> Hr'].
    assert (Z0 : nth_word start 0 = start) by (unfold nth_word; lia).
    assert (V0 : nth_value val incr 0 = val) by (unfold nth_value; rewrite Z.mul_0_l, Z.add_0_r; by apply u32_small).
    rewrite (bind_ok _ _ _ (peek start (bus t)) t) by done.
    destruct (Z.eqb_spec (peek start (bus t)) val) as [E|E]; cbn [negb].
    + destruct (IH (start + addr_step) fin (u32 (val + incr)) incr errs t Hr' ltac:(lia) He ltac:(lia) (u32_range _) Hk) as (errs' & t' & Hx & Hb & Hl & Hiff).
      exists errs', t'. split_and!; [done..|lia|lia|]. rewrite Hiff. split.
      * intros H [|i] Hi; [by rewrite Z0, V0|]. rewrite <- next_word, <- next_value. apply H. lia.
      * intros H i Hi. rewrite next_word, next_value. apply H. lia.
    + set (x := peek start (bus t)) in *.
      assert (P : exists l, printf ([10] ++ zs "Mem error @ 0x%08X: found %08lX, expected %08lX" ++ [10]) [A_int start; A_int x; A_int val] = Ok l)
        by (clear; printf_ok). destruct P as [l P].
      set (t1 := Test (bus t) (console t ++ l) (Datatypes.S (polls t))).
      assert (P1 : print ([10] ++ zs "Mem error @ 0x%08X: found %08lX, expected %08lX" ++ [10]) [A_int start; A_int x; A_int val] t = Ok (tt, Test (bus t) (console t ++ l) (polls t))).
      { unfold print. rewrite P. done. }
      rewrite (bind_ok _ _ _ _ _ P1). rewrite (bind_ok _ _ _ false t1) by (unfold ctrlc; cbn [polls]; by rewrite Hk).
      rewrite (u32_small (errs + 1)) by lia.
      destruct (IH (start + addr_step) fin (u32 (val + incr)) incr (errs + 1) t1 Hr' ltac:(lia) ltac:(lia) ltac:(lia) (u32_range _) Hk) as (errs' & t' & Hx & Hb & Hl & _).
      exists errs', t'. split_and!; [done..|lia|lia|]. split; [lia|]. intros H. specialize (H 0%nat ltac:(lia)). rewrite Z0, V0 in H. done.
  - rewrite words_tested_end by done. exists errs, t. split_and!; [done..|lia|lia|]. split; [lia|done].
Qed.

(** The words of a range that hold their values, in a pass. *)
Definition pass_good (start fin val incr : Z) : Prop :=
  forall i, (i < words_tested start fin)%nat -> held (nth_word start i) (nth_value val incr i) = nth_value val incr i.

Lemma loop_fuel_enough start fin : (words_tested start fin <= loop_fuel start fin)%nat.
Proof. unfold words_tested, loop_fuel, addr_step. zmod. Qed.

(** One round of the test. *)
Lemma test_round fuel start fin pattern incr errs iterations limit (t : test S) : range_ok start fin -> word32 pattern -> (forall i, keys i = false) ->
  0 <= errs -> errs + Z.of_nat (words_tested start fin) < 4294967296 -> limit = 0 \/ iterations <= limit ->
  exists errs' t', test_loop keys (Datatypes.S fuel) start fin pattern incr errs iterations limit t =
      test_loop keys fuel start fin (next_pattern pattern) (u32 (- incr)) errs' (s32 (iterations + 1)) limit t' /\
    errs <= errs' <= errs + Z.of_nat (words_tested start fin) /\ (errs' = errs <-> pass_good start fin pattern incr).
Proof.
  intros Hr Hp Hk He Hmax Hlim. cbn [test_loop].
  set (t1 := Test (bus t) (console t) (Datatypes.S (polls t))). rewrite (bind_ok _ _ _ false t1) by (unfold ctrlc; by rewrite Hk).
  assert (C : negb (limit =? 0) && (limit <? iterations) = false).
  { destruct Hlim as [-> | Hl]; [done|]. destruct (Z.ltb_spec limit iterations); [lia|]. by rewrite andb_false_r. }
  rewrite C.
  assert (P : exists l, printf ([13] ++ zs "Pattern %08lX  Writing...%12s" ++ replicate 10 8) [A_int pattern; A_str (Some [])] = Ok l)
    by (clear; printf_ok). destruct P as [l P].
  rewrite (bind_ok _ _ _ tt (Test (bus t) (console t ++ l) (Datatypes.S (polls t)))) by (unfold print; by rewrite P).
  destruct (test_write_ok (loop_fuel start fin) start fin pattern incr (Test (bus t) (console t ++ l) (Datatypes.S (polls t))) Hr
    (loop_fuel_enough _ _)) as (t2 & E2 & _ & _ & Hin & _). rewrite (bind_ok _ _ _ _ _ E2).
  set (t3 := Test (bus t2) (console t2 ++ zs "Reading...") (polls t2)). rewrite (bind_ok _ _ _ tt t3) by done.
  destruct (test_read_ok (loop_fuel start fin) start fin pattern incr errs t3 Hr (loop_fuel_enough _ _) He Hmax Hp Hk)
    as (errs' & t4 & E4 & _ & Hl & Hiff). rewrite (bind_ok _ _ _ _ _ E4). cbv beta iota. exists errs', t4. split_and!; [done|lia|lia|].
  rewrite Hiff. cbn [t3 bus]. unfold pass_good. split; intros H i Hi; specialize (H i Hi); rewrite Hin in * by done; done.
Qed.

Lemma test_end fuel start fin pattern incr errs iterations limit (t : test S) : (forall i, keys i = false) -> limit <> 0 -> limit < iterations ->
  exists t', test_loop keys (Datatypes.S fuel) start fin pattern incr errs iterations limit t = Ok (b2z (negb (errs =? 0)), t').
Proof.
  intros Hk Hl Hlt. cbn [test_loop]. set (t1 := Test (bus t) (console t) (Datatypes.S (polls t))).
  rewrite (bind_ok _ _ _ false t1) by (unfold ctrlc; by rewrite Hk).
  destruct (Z.eqb_spec limit 0); [done|]. destruct (Z.ltb_spec limit iterations); [|lia]. cbn [negb andb].
  set (it := iterations - 1). assert (P : exists l, printf (zs "Tested %d iteration(s) with %lu errors." ++ [10]) [A_int it; A_int errs] = Ok l) by (clear; printf_ok).
  destruct P as [l P]. eexists. rewrite (bind_ok _ _ _ tt (Test (bus t1) (console t1 ++ l) (polls t1))) by (unfold print; by rewrite P). done.
Qed.

Lemma next_pattern_low p : 0 <= p < 2147483648 -> next_pattern p = 4294967295 - p.
Proof.
  intros H. unfold next_pattern. replace (Z.land p 2147483648) with 0; [by rewrite lnot_word by (unfold word32; lia)|].
  symmetry. apply Z.bits_inj'. intros i Hi. rewrite Z.bits_0, Z.land_spec. change 2147483648 with (2 ^ 31).
  destruct (Z.eq_dec i 31) as [->|Hn]; [|by rewrite Z.pow2_bits_false, andb_false_r by lia].
  rewrite (testbit_high p 31) by (done || lia). done.
Qed.

Lemma complement_value p i : word32 p -> nth_value (4294967295 - p) (u32 (Z.opp 1)) i = 4294967295 - nth_value p 1 i.
Proof.
  intros H. unfold nth_value. change (u32 (Z.opp 1)) with 4294967295. unfold word32, u32 in *.
  replace (4294967295 - p + Z.of_nat i * 4294967295) with (4294967295 - (p + Z.of_nat i * 1) + Z.of_nat i * 4294967296) by lia.
  rewrite Z.mod_add by lia. zmod.
Qed.

Context (memtest_start memtest_end : Z).

(** C17: With a limit of two rounds, a pattern without the highest bit and no Ctrl-C,
    [mtest] ends, and reports an error exactly if a word it uses, which is every fourth
    one of the range, has a stuck bit. *)
Theorem mtest_finds_stuck_bits argv (t : test S) :
  let start := arg_hex argv 1 memtest_start in
  let fin := arg_hex argv 2 memtest_end in
  range_ok start fin -> 0 <= arg_hex argv 3 0 < 2147483648 -> arg_hex argv 4 0 = 2 -> (forall i, keys i = false) ->
  exists rc t', do_mem_mtest keys memtest_start memtest_end 3 argv t = Ok (rc, t') /\
    (rc = 0 \/ rc = 1) /\
    (rc = 0 <-> forall i, (i < words_tested start fin)%nat -> zeros (nth_word start i) = 0 /\ ones (nth_word start i) = 0).
Proof.
  intros start fin Hr Hp Hl Hk. unfold do_mem_mtest. rewrite Hl. fold start fin. change (s32 2) with 2.
  set (pattern := arg_hex argv 3 0) in *. pose proof Hr as (H0 & _ & Hfin).
  assert (B : Z.of_nat (words_tested start fin) <= 268435456) by (unfold words_tested, addr_step; zmod).
  destruct (test_round 2 start fin pattern 1 0 1 2 t Hr ltac:(unfold word32; lia) Hk) as (e1 & t1 & -> & L1 & I1); [lia..|].
  rewrite next_pattern_low by done. change (s32 (1 + 1)) with 2.
  destruct (test_round 1 start fin (4294967295 - pattern) (u32 (Z.opp 1)) e1 2 2 t1 Hr ltac:(unfold word32; lia) Hk) as (e2 & t2 & -> & L2 & I2); [lia..|].
  change (s32 (2 + 1)) with 3. edestruct (test_end 0 start fin) as [t3 ->]; [done|lia|lia|]. exists (b2z (negb (e2 =? 0))), t3. split; [done|].
  split; [destruct (e2 =? 0); [by left|by right]|].
  assert (E : b2z (negb (e2 =? 0)) = 0 <-> e1 = 0 /\ e2 = e1) by (destruct (Z.eqb_spec e2 0); cbn; lia). rewrite E, I1, I2. unfold pass_good. split.
  - intros [G1 G2] i Hi. specialize (G1 i Hi). specialize (G2 i Hi). rewrite complement_value in G2 by (unfold word32; lia).
    exact (stuck_both _ _ _ (Hzeros _) (Hones _) (u32_range _) G1 G2).
  - intros G. split; intros i Hi; destruct (G i Hi) as [-> ->]; apply stuck_none.
Qed.
End Stuck.

(** ** Chips to try *)

(** A chip of [2 ^ k] words from address 0. *)
Record mirror (k : Z) := Mirror { words : gmap Z Z }.
Arguments Mirror {k} _.
Arguments words {k} _.

#[export] Instance mirror_bus k : Bus (mirror k) := {
  peek a s := u32 (default 0 (words s !! ram_cell k a));
  poke a v s := Mirror (<[ram_cell k a := v]> (words s));
}.

#[export] Instance mirror_ram k : MirroredRam k (mirror k).
Proof.
  split; cbn [peek poke mirror_bus words].
  - intros. apply u32_range.
  - intros a b s ->. done.
  - intros a b v s. destruct (bool_decide_reflect (ram_cell k a = ram_cell k b)) as [->|E].
    + by rewrite lookup_insert_eq.
    + by rewrite lookup_insert_ne by congruence.
Qed.

Definition small_chip : mirror 2 := Mirror {[0 := 7; 1 := 8; 2 := 9; 3 := 10]}.

Lemma ram_size_found_witness : exists s', get_ram_size 0x20000000 64 small_chip = Ok (16, s') /\
  (forall a, peek a s' = peek a small_chip).
Proof.
  destruct (ram_size_found (S := mirror 2) 2 0x20000000 4 ltac:(lia) eq_refl ltac:(lia) ltac:(lia) ltac:(vm_compute; congruence) small_chip)
    as (s' & E & H). exists s'. split; [exact E|exact H].
Defined.

(** A chip that fills the window loses its first word. *)
Example ram_size_clears_first : exists s', get_ram_size 0x20000000 16 small_chip = Ok (16, s') /\ peek 0x20000000 s' = 0 /\ peek 0x20000000 small_chip = 7.
Proof. eexists. split_and!; [vm_compute; reflexivity..]. Qed.

(** With a window that is not a power of two the last word checked was not saved. *)
Example ram_size_odd_window : get_ram_size 0x20000000 24 (Mirror ∅ : mirror 10) = Fault.
Proof. vm_compute. reflexivity. Qed.

(** A chip with bit 5 of the word at [bad] stuck at one. *)
Record broken (bad : Z) := Broken { cells : gmap Z Z }.
Arguments Broken {bad} _.
Arguments cells {bad} _.
Definition broken_bits (bad a : Z) : Z := if a =? bad then 0x20 else 0.

#[export] Instance broken_bus bad : Bus (broken bad) := {
  peek a s := stuck 0 (broken_bits bad a) (default 0 (cells s !! (a / 4)));
  poke a v s := Broken (<[a / 4 := u32 v]> (cells s));
}.

#[export] Instance broken_ram bad : StuckRam (fun _ => 0) (broken_bits bad) (broken bad).
Proof.
  split; cbn [peek poke broken_bus cells]. intros a b v s Ha Hb. destruct (bool_decide_reflect (a = b)) as [->|E].
  - by rewrite lookup_insert_eq.
  - rewrite lookup_insert_ne; [done|]. intros H. apply E. pose proof (Z.div_mod a 4 ltac:(lia)). pose proof (Z.div_mod b 4 ltac:(lia)). lia.
Qed.

Definition mtest_args (pattern limit : String.string) : list (list Z) := [zs "mtest"; zs "20000000"; zs "20000030"; zs pattern; zs limit].

Lemma mtest_finds_stuck_bits_witness : exists t' : test (broken 0x20000010),
  do_mem_mtest (fun _ => false) 0 0 3 (mtest_args "0" "2") (Test (Broken ∅) [] 0) = Ok (1, t').
Proof.
  destruct (mtest_finds_stuck_bits (S := broken 0x20000010) (fun _ => 0) (broken_bits 0x20000010)
    ltac:(intros; unfold word32; lia) ltac:(intros a; unfold word32, broken_bits; destruct (a =? _); lia)
    (fun _ => false) 0 0 (mtest_args "0" "2") (Test (Broken ∅) [] 0)) as (rc & t' & E & Hrc & Hiff).
  - vm_compute. repeat split; congruence.
  - vm_compute. split; congruence.
  - reflexivity.
  - done.
  - exists t'. destruct Hrc as [-> | ->]; [|exact E].
    destruct (proj1 Hiff eq_refl 1%nat ltac:(vm_compute; lia)) as [_ B]. exfalso. revert B. vm_compute. congruence.
Defined.

(** A stuck bit in the words between is never seen, *)
Example mtest_misses_words : exists t' : test (broken 0x20000004),
  do_mem_mtest (fun _ => false) 0 0 9 (mtest_args "0" "8") (Test (Broken ∅) [] 0) = Ok (0, t').
Proof. eexists. vm_compute. reflexivity. Qed.

(** and a range up to the end of the address space is tested for ever. *)
Example mtest_wraps_around : write_loop (S := broken 0) (loop_fuel 0xffffffe0 0xffffffff) 0xffffffe0 0xffffffff 0 1 (Test (Broken ∅) [] 0) = OutOfFuel.
Proof. vm_compute. reflexivity. Qed.
