(* ===== verification/MemCmd.v ===== *)
(** * The memory commands (common/cmd_mem.c)

    [md], [mm], [nm], [mw], [cmp], [cp], [base] and [crc32]; [mtest] is in Ram, and
    [loop] never returns.  RAM is the memory of Mem, the flash that [cp] writes the
    driver of Flash.  The commands keep their last address, size and length in
    globals, so that pressing Enter goes on where the last one stopped. *)

From S2P Require Import Prelude Mem Ctype CString Vsprintf Crc Command Flash Display Image.

Record globals := Globals {
  dp_last_addr : Z;
  dp_last_size : Z;
  dp_last_length : Z;
  mm_last_addr : Z;
  mm_last_size : Z;
  base_address : Z;
}.

Definition initial_globals : globals := Globals 0 0 0x40 0 0 0.

Definition set_dp (addr size length : Z) (g : globals) : globals :=
  Globals addr size length (mm_last_addr g) (mm_last_size g) (base_address g).
Definition set_mm (addr size : Z) (g : globals) : globals :=
  Globals (dp_last_addr g) (dp_last_size g) (dp_last_length g) addr size (base_address g).
Definition set_base (b : Z) (g : globals) : globals :=
  Globals (dp_last_addr g) (dp_last_size g) (dp_last_length g) (mm_last_addr g) (mm_last_size g) b.

(** What [readline] will get: a line or Ctrl-C. *)
Inductive typed := Line (s : list Z) | Ctrl_C.

(** ** Objects of one, two or four bytes *)

Definition load_unit (size p : Z) : M Z := if size =? 4 then load32 p else if size =? 2 then load16 p else load8 p.
Definition store_unit (size p v : Z) : M unit := if size =? 4 then store32 p v else if size =? 2 then store16 p v else store8 p v.

Definition CMD_FLAG_REPEAT : Z := 1.
Definition DISP_LINE_LEN : Z := 16.

Section Commands.
Context {C : Type} `{HB : !NorBus C}.

Record shell := Shell {
  ram : mem;
  dev : hw C;
  vars : globals;
  text : list Z;
  keyboard : list typed;
}.

Abbreviation K := (ST shell).

(** The answers of [ctrlc] while a dump is printed, and the flash banks. *)
Context (ctrlc : nat -> bool) (banks : list flash_info).

Definition on_ram {A} (f : M A) : K A := fun s =>
  match f (ram s) with Ok (a, m) => Ok (a, Shell m (dev s) (vars s) (text s) (keyboard s)) | Fault => Fault | OutOfFuel => OutOfFuel end.
Definition set_vars (f : globals -> globals) : K unit := modify (fun s => Shell (ram s) (dev s) (f (vars s)) (text s) (keyboard s)).
Definition puts (l : list Z) : K unit := modify (fun s => Shell (ram s) (dev s) (vars s) (text s ++ l) (keyboard s)).
Definition print (fmt : list Z) (args : list va_arg) : K unit := l ← lift (printf fmt args); puts l.
Definition cmd_usage (cmdtp : cmd_tbl) : K Z := '(_, t) ← lift (Command.cmd_usage cmdtp); puts t;; mret 1.

(** The length and the line; without one, it waits for ever. *)
Definition readline (prompt : list Z) : K (Z * list Z) :=
  puts prompt;;
  s ← get;
  match keyboard s with
  | [] => out_of_fuel
  | Line l :: rest => put (Shell (ram s) (dev s) (vars s) (text s) rest);; mret (Z.of_nat (length l), l)
  | Ctrl_C :: rest => put (Shell (ram s) (dev s) (vars s) (text s) rest);; mret (-1, [])
  end.

Definition arg (argv : list (list Z)) (i : nat) : K (list Z) := lift (arr_get argv i).
Definition hex (argv : list (list Z)) (i : nat) : K Z := a ← arg argv i; mret (fst (simple_strtoul a 16)).
(** An address, to which [base_address] is added. *)
Definition based (argv : list (list Z)) (i : nat) : K Z := a ← hex argv i; b ← gets (fun s => base_address (vars s)); mret (u32 (a + b)).

(** ** md *)

Definition do_mem_md (cmdtp : cmd_tbl) (flag : Z) (argv : list (list Z)) : K Z :=
  g ← gets vars;
  if (length argv <? 2)%nat then cmd_usage cmdtp
  else
    p ← (if Z.land flag CMD_FLAG_REPEAT =? 0 then
           a0 ← arg argv 0;
           let size := cmd_get_data_size a0 4 in
           if size <? 0 then mret None
           else
             addr ← based argv 1;
             len ← (if (2 <? length argv)%nat then hex argv 2 else mret (dp_last_length g));
             mret (Some (addr, size, len))
         else mret (Some (dp_last_addr g, dp_last_size g, dp_last_length g)));
    match p with
    | None => mret 1
    | Some (addr, size, len) =>
        if size =? 0 then fault
        else
          '(_, t) ← on_ram (print_buffer ctrlc addr addr size len (DISP_LINE_LEN / size));
          puts t;;
          set_vars (set_dp (u32 (addr + size * len)) size len);;
          mret 0
    end.

(** ** mw *)

Fixpoint fill_loop (count : nat) (size addr writeval : Z) : M unit :=
  match count with
  | O => mret tt
  | S count => store_unit size addr writeval;; fill_loop count size (u32 (addr + size)) writeval
  end.

Definition do_mem_mw (cmdtp : cmd_tbl) (argv : list (list Z)) : K Z :=
  if (length argv <? 3)%nat || (4 <? length argv)%nat then cmd_usage cmdtp
  else
    a0 ← arg argv 0;
    let size := cmd_get_data_size a0 4 in
    if size <? 1 then mret 1
    else
      addr ← based argv 1;
      writeval ← hex argv 2;
      count ← (if (length argv =? 4)%nat then hex argv 3 else mret 1);
      on_ram (fill_loop (Z.to_nat count) size addr writeval);;
      mret 0.

(** ** cmp *)

Definition unit_name (size : Z) : list Z := if size =? 4 then zs "word" else if size =? 2 then zs "halfword" else zs "byte".

Definition differ_format (size : Z) : list Z :=
  if size =? 4 then zs "word at 0x%08lx (0x%08lx) != word at 0x%08lx (0x%08lx)" ++ [10]
  else if size =? 2 then zs "halfword at 0x%08lx (0x%04x) != halfword at 0x%08lx (0x%04x)" ++ [10]
  else zs "byte at 0x%08lx (0x%02x) != byte at 0x%08lx (0x%02x)" ++ [10].

Fixpoint compare_loop (count : nat) (size addr1 addr2 ngood : Z) : K (Z * Z) :=
  match count with
  | O => mret (0, ngood)
  | S count =>
      v1 ← on_ram (load_unit size addr1);
      v2 ← on_ram (load_unit size addr2);
      if negb (v1 =? v2) then
        print (differ_format size) [A_int addr1; A_int v1; A_int addr2; A_int v2];;
        mret (1, ngood)
      else compare_loop count size (u32 (addr1 + size)) (u32 (addr2 + size)) (u32 (ngood + 1))
  end.

Definition do_mem_cmp (cmdtp : cmd_tbl) (argv : list (list Z)) : K Z :=
  if negb (length argv =? 4)%nat then cmd_usage cmdtp
  else
    a0 ← arg argv 0;
    let size := cmd_get_data_size a0 4 in
    if size <? 0 then mret 1
    else
      addr1 ← based argv 1;
      addr2 ← based argv 2;
      count ← hex argv 3;
      '(rcode, ngood) ← compare_loop (Z.to_nat count) size addr1 addr2 0;
      print (zs "Total of %ld %s%s were the same" ++ [10])
        [A_int ngood; A_str (Some (unit_name size)); A_str (Some (if ngood =? 1 then [] else zs "s"))];;
      mret rcode.

(** ** cp *)

Fixpoint copy_loop (count : nat) (size addr dest : Z) : M unit :=
  match count with
  | O => mret tt
  | S count => v ← load_unit size addr; store_unit size dest v;; copy_loop count size (u32 (addr + size)) (u32 (dest + size))
  end.

Definition flash_perror (err : Z) : K unit := l ← lift (flash_error err); puts l.


Definition on_flash (src : list Z) (addr cnt : Z) : K Z := fun s =>
  match flash_write banks src addr cnt (dev s) with
  | Ok (rc, h) => Ok (rc, Shell (ram s) h (vars s) (text s) (keyboard s))
  | Fault => Fault
  | OutOfFuel => OutOfFuel
  end.

Definition do_mem_cp (cmdtp : cmd_tbl) (argv : list (list Z)) : K Z :=
  if negb (length argv =? 4)%nat then cmd_usage cmdtp
  else
    a0 ← arg argv 0;
    let size := cmd_get_data_size a0 4 in
    if size <? 0 then mret 1
    else
      addr ← based argv 1;
      dest ← based argv 2;
      count ← hex argv 3;
      if count =? 0 then puts (zs "Zero length ???" ++ [10]);; mret 1
      else
        bank ← lift (addr2info banks dest);
        match bank with
        | Some _ =>
            puts (zs "Copy to Flash... ");;
            src ← on_ram (load_bytes addr (u32 (count * size)));
            rc ← on_flash src dest (u32 (count * size));
            if negb (rc =? 0) then flash_perror rc;; mret 1
            else puts (zs "done" ++ [10]);; mret 0
        | None => on_ram (copy_loop (Z.to_nat count) size addr dest);; mret 0
        end.

(** ** base *)

Definition do_mem_base (argv : list (list Z)) : K Z :=
  (if (1 <? length argv)%nat then b ← hex argv 1; set_vars (set_base b) else mret tt);;
  b ← gets (fun s => base_address (vars s));
  print (zs "Base Address: 0x%08lx" ++ [10]) [A_int b];;
  mret 0.

(** ** mm and nm *)

(** The value at the address and the question. *)
Definition show_unit (size addr : Z) : K unit :=
  print (zs "%08lx:") [A_int addr];;
  v ← on_ram (load_unit size addr);
  print (if size =? 4 then zs " %08x" else if size =? 2 then zs " %04x" else zs " %02x") [A_int v].

(** Fuel: each turn takes a line. *)
Fixpoint modify_loop (fuel : nat) (incrflag : bool) (size addr : Z) : K Z :=
  match fuel with
  | O => out_of_fuel
  | S fuel =>
      show_unit size addr;;
      '(nbytes, console_buffer) ← readline (zs " ? ");
      if (nbytes =? 0) || ((nbytes =? 1) && (deref console_buffer =? ch "-")) then
        modify_loop fuel incrflag size (if incrflag then u32 (if negb (nbytes =? 0) then addr - size else addr + size) else addr)
      else
        let '(i, endp) := simple_strtoul console_buffer 16 in
        let nbytes := Z.of_nat (length console_buffer) - Z.of_nat (length endp) in
        if negb (nbytes =? 0) then
          on_ram (store_unit size addr i);;
          modify_loop fuel incrflag size (if incrflag then u32 (addr + size) else addr)
        else mret addr
  end.

Definition mod_mem (cmdtp : cmd_tbl) (incrflag : bool) (flag : Z) (argv : list (list Z)) : K Z :=
  if negb (length argv =? 2)%nat then cmd_usage cmdtp
  else
    g ← gets vars;
    p ← (if Z.land flag CMD_FLAG_REPEAT =? 0 then
           a0 ← arg argv 0;
           let size := cmd_get_data_size a0 4 in
           if size <? 0 then mret None else addr ← based argv 1; mret (Some (addr, size))
         else mret (Some (mm_last_addr g, mm_last_size g)));
    match p with
    | None => mret 1
    | Some (addr, size) =>
        n ← gets (fun s => length (keyboard s));
        addr ← modify_loop (S n) incrflag size addr;
        set_vars (set_mm addr size);;
        mret 0
    end.

Definition do_mem_mm (cmdtp : cmd_tbl) (flag : Z) (argv : list (list Z)) : K Z := mod_mem cmdtp true flag argv.
Definition do_mem_nm (cmdtp : cmd_tbl) (flag : Z) (argv : list (list Z)) : K Z := mod_mem cmdtp false flag argv.

(** ** crc32 *)

Definition do_mem_crc (cmdtp : cmd_tbl) (argv : list (list Z)) : K Z :=
  if (length argv <? 3)%nat then cmd_usage cmdtp
  else
    addr ← based argv 1;
    len ← hex argv 2;
    buf ← on_ram (load_bytes addr len);
    let crc := crc32 0 addr buf in
    print (zs "CRC32 for %08lx ... %08lx ==> %08lx" ++ [10]) [A_int addr; A_int (u32 (addr + len - 1)); A_int crc];;
    (if (3 <? length argv)%nat then ptr ← hex argv 3; on_ram (store32 ptr crc) else mret tt);;
    mret 0.
End Commands.

Arguments shell C : clear implicits.

(** ** Objects in memory *)

Definition unit_bytes (size v : Z) : list Z := if size =? 4 then le32 v else if size =? 2 then [u8 v; u8 (v / 256)] else [u8 v].
Definition unit_value (l : list Z) : Z := fold_right (fun b v => b + 256 * v) 0 l.

Lemma width_pos size : width_ok size -> 0 < size <= 4.
Proof. intros [->|[->| ->]]; lia. Qed.

Lemma unit_bytes_length size v : width_ok size -> Z.of_nat (length (unit_bytes size v)) = size.
Proof. by intros [->|[->| ->]]. Qed.

Lemma unit_bytes_bytes size v : width_ok size -> Forall byte (unit_bytes size v).
Proof. intros [->|[->| ->]]; repeat constructor; apply u8_range. Qed.

Lemma store_unit_ok m p size v n : width_ok size -> mapped m p n -> size <= n ->
  store_unit size p v m = Ok (tt, write_bytes m p (unit_bytes size v)).
Proof.
  intros Hw Hm Hn. destruct Hw as [->|[->| ->]]; unfold store_unit; cbn [Z.eqb Pos.eqb].
  - exact (store8_raw m p v n Hm ltac:(lia)).
  - exact (store16_w m p v n Hm ltac:(lia)).
  - unfold store32. rewrite (bind_ok _ _ _ _ _ (store8_raw m p v n Hm ltac:(lia))).
    assert (K : forall i, 0 <= i < 4 -> mapped m (p + i) 1) by (intros i Hi; eapply mapped_sub; [exact Hm|lia|lia]).
    erewrite bind_ok by (eapply store8_raw; [apply mapped_insert, K; lia|lia]).
    erewrite bind_ok by (eapply store8_raw; [apply mapped_insert, mapped_insert, K; lia|lia]).
    erewrite store8_raw by (try apply mapped_insert, mapped_insert, mapped_insert, K; lia). simpl.
    replace (p + 1 + 1) with (p + 2) by lia. by replace (p + 2 + 1) with (p + 3) by lia.
Qed.

Lemma load_unit_ok m p size l : width_ok size -> Z.of_nat (length l) = size -> bytes_at m p l ->
  load_unit size p m = Ok (unit_value l, m).
Proof.
  intros [->|[->| ->]] Hl Hb; unfold load_unit; cbn [Z.eqb Pos.eqb].
  - destruct l as [|b0 [|]]; try (cbn in Hl; lia). destruct Hb as [[H0 _] _]. rewrite (load8_ok _ _ _ H0).
    unfold unit_value. cbn [fold_right]. do 2 f_equal. lia.
  - destruct l as [|b0 [|b1 [|]]]; try (cbn in Hl; lia). rewrite (load16_ok _ _ _ _ Hb). unfold unit_value. cbn [fold_right]. do 2 f_equal. lia.
  - destruct l as [|b0 [|b1 [|b2 [|b3 [|]]]]]; try (cbn in Hl; lia). rewrite (load32_ok _ _ _ _ _ _ Hb).
    unfold unit_value. cbn [fold_right]. do 2 f_equal. lia.
Qed.

Lemma unit_value_cons b l : unit_value (b :: l) = b + 256 * unit_value l.
Proof. done. Qed.

Lemma unit_value_inj l1 : forall l2, length l1 = length l2 -> Forall byte l1 -> Forall byte l2 -> unit_value l1 = unit_value l2 -> l1 = l2.
Proof.
  induction l1 as [|a l1 IH]; intros [|b l2] Hl H1 H2 E; try done. apply Forall_cons in H1 as [Ha H1]. apply Forall_cons in H2 as [Hb H2].
  rewrite !unit_value_cons in E. unfold byte in *. assert (a = b) by lia. subst. f_equal. apply IH; [by injection Hl|done..|lia].
Qed.

(** Storing a value that was loaded writes its bytes. *)
Lemma unit_bytes_value size l : width_ok size -> Z.of_nat (length l) = size -> Forall byte l -> unit_bytes size (unit_value l) = l.
Proof.
  intros Hw Hl HF. apply unit_value_inj; [pose proof (unit_bytes_length size (unit_value l) Hw); lia|by apply unit_bytes_bytes|done|].
  destruct Hw as [->|[->| ->]]; [destruct l as [|b0 [|]]|destruct l as [|b0 [|b1 [|]]]|destruct l as [|b0 [|b1 [|b2 [|b3 [|]]]]]]; try (cbn in Hl; lia);
    rewrite ?Forall_cons in HF; unfold byte in HF; unfold unit_bytes, unit_value, le32, u8; cbn [fold_right Z.eqb Pos.eqb]; zmod.
Qed.

(** A list of bytes cut after its first object. *)
Lemma first_unit m p size l n : width_ok size -> Z.of_nat (length l) = Z.of_nat (S n) * size -> bytes_at m p l ->
  exists u rest, l = u ++ rest /\ Z.of_nat (length u) = size /\ Z.of_nat (length rest) = Z.of_nat n * size /\
    bytes_at m p u /\ bytes_at m (p + size) rest.
Proof.
  intros Hw Hl Hb. pose proof (width_pos size Hw).
  exists (take (Z.to_nat size) l), (drop (Z.to_nat size) l). rewrite take_drop.
  assert (Hu : Z.of_nat (length (take (Z.to_nat size) l)) = size) by (rewrite length_take; nia).
  rewrite <- (take_drop (Z.to_nat size) l) in Hb. apply bytes_at_app in Hb as [Hb1 Hb2]. rewrite Hu in Hb2.
  split_and!; [done..| |done|done]. rewrite length_drop. nia.
Qed.

(** ** Loops *)

Lemma fill_loop_ok n size v : width_ok size -> forall m p, mapped m p (Z.of_nat n * size) -> 0 <= p -> p + Z.of_nat n * size <= 4294967296 ->
  fill_loop n size p v m = Ok (tt, write_bytes m p (concat (replicate n (unit_bytes size v)))).
Proof.
  intros Hw. pose proof (width_pos size Hw). induction n as [|n IH]; intros m p Hm Hp Htop; cbn [fill_loop replicate concat]; [done|].
  rewrite (bind_ok _ _ _ _ _ (store_unit_ok m p size v _ Hw Hm ltac:(nia))).
  rewrite write_bytes_app, unit_bytes_length by done. destruct n as [|n]; [done|]. rewrite u32_small by nia.
  apply IH; [|lia|nia]. apply mapped_write. eapply mapped_sub; [exact Hm|lia|nia].
Qed.

Lemma copy_loop_ok n size : width_ok size -> forall m src dest l, Z.of_nat (length l) = Z.of_nat n * size -> bytes_at m src l ->
  mapped m dest (Z.of_nat n * size) -> 0 <= src -> 0 <= dest -> src + Z.of_nat n * size <= 4294967296 -> dest + Z.of_nat n * size <= 4294967296 ->
  dest <= src \/ src + Z.of_nat n * size <= dest ->
  copy_loop n size src dest m = Ok (tt, write_bytes m dest l).
Proof.
  intros Hw. pose proof (width_pos size Hw). induction n as [|n IH]; intros m src dest l Hl Hb Hm H0 H1 Hs Hd Hov; cbn [copy_loop].
  - destruct l; [done|cbn in Hl; lia].
  - destruct (first_unit m src size l n Hw Hl Hb) as (u & rest & -> & Hu & Hr & Bu & Br).
    rewrite (bind_ok _ _ _ _ _ (load_unit_ok m src size u Hw Hu Bu)).
    rewrite (bind_ok _ _ _ _ _ (store_unit_ok m dest size _ _ Hw Hm ltac:(nia))).
    rewrite unit_bytes_value by (done || by eapply bytes_at_bytes). rewrite write_bytes_app, Hu.
    destruct n as [|n]; [destruct rest; [done|cbn in Hr; lia]|]. rewrite !u32_small by nia.
    apply IH; [done| |apply mapped_write; eapply mapped_sub; [exact Hm|lia|nia]|lia|lia|nia|nia|nia].
    apply bytes_at_write; [lia|done].
Qed.

(** ** What the commands do *)

Section Commands_proofs.
Context {C : Type} `{HB : !NorBus C}.
Context (banks : list flash_info).

Abbreviation state := (shell C).
Abbreviation quiet := (fun _ : nat => false).

(** The number an argument stands for, and the address. *)
Definition hex_value (a : list Z) : Z := fst (simple_strtoul a 16).
Definition address (s : state) (a : list Z) : Z := u32 (hex_value a + base_address (vars s)).

Definition with_ram (s : state) (m : mem) : state := Shell m (dev s) (vars s) (text s) (keyboard s).
Definition with_text (s : state) (t : list Z) : state := Shell (ram s) (dev s) (vars s) (text s ++ t) (keyboard s).
Definition with_vars (s : state) (g : globals) : state := Shell (ram s) (dev s) g (text s) (keyboard s).

Lemma hex_value_range a : 0 <= hex_value a < 4294967296.
Proof.
  unfold hex_value, simple_strtoul. destruct (strtoul_prefix a 16) as [cp base].
  assert (K : forall r, 0 <= r < 4294967296 -> 0 <= fst (strtoul_loop u32 cp base r) < 4294967296).
  { induction cp as [|c cp IH]; intros r Hr; cbn [strtoul_loop]; [done|]. destruct (_ && _); [apply IH, u32_range|done]. }
  by apply K.
Qed.

Lemma hex_ok argv i a (s : state) : argv !! i = Some a -> hex argv i s = Ok (hex_value a, s).
Proof. intros H. unfold hex, arg, arr_get. by rewrite H. Qed.

Lemma based_ok argv i a (s : state) : argv !! i = Some a -> based argv i s = Ok (address s a, s).
Proof. intros H. unfold based. by rewrite (bind_ok _ _ _ _ _ (hex_ok _ _ _ s H)). Qed.

Lemma on_ram_ok {A} (f : M A) (s : state) a m : f (ram s) = Ok (a, m) -> on_ram f s = Ok (a, with_ram s m).
Proof. intros H. unfold on_ram. by rewrite H. Qed.

Lemma with_ram_id (s : state) : with_ram s (ram s) = s.
Proof. by destruct s. Qed.

Lemma print_ok fmt args (s : state) t : printf fmt args = Ok t -> print fmt args s = Ok (tt, with_text s t).
Proof. intros H. unfold print. by rewrite H. Qed.

(** The size the name of the command asks for. *)
Lemma size_ok name : 0 <= cmd_get_data_size name 4 -> width_ok (cmd_get_data_size name 4).
Proof.
  unfold cmd_get_data_size, width_ok. destruct (_ && _); [|lia]. intros H.
  repeat match goal with |- context [if ?b then _ else _] => destruct b end; lia.
Qed.

(** [mw] fills the objects from the address on with the value, and no other byte
    changes. *)
Theorem mw_fills cmdtp name a v n (s : state) :
  let size := cmd_get_data_size name 4 in
  let count := hex_value n in
  0 <= size -> mapped (ram s) (address s a) (count * size) -> address s a + count * size <= 4294967296 ->
  do_mem_mw cmdtp [name; a; v; n] s =
    Ok (0, with_ram s (write_bytes (ram s) (address s a) (concat (replicate (Z.to_nat count) (unit_bytes size (hex_value v)))))).
Proof.
  intros size count Hs Hm Ht. pose proof (hex_value_range n) as [Hc _]. fold count in Hc. pose proof (size_ok name Hs) as Hw. fold size in Hw. pose proof (width_pos size Hw). unfold do_mem_mw. cbn [length Nat.ltb Nat.leb orb].
  rewrite (bind_ok _ _ s name s eq_refl). cbv zeta. fold size. destruct (Z.ltb_spec size 1); [lia|].
  rewrite (bind_ok _ _ _ _ _ (based_ok [name; a; v; n] 1 a s eq_refl)), (bind_ok _ _ _ _ _ (hex_ok [name; a; v; n] 2 v s eq_refl)).
  cbn [Nat.eqb]. rewrite (bind_ok _ _ _ _ _ (hex_ok [name; a; v; n] 3 n s eq_refl)). fold count.
  erewrite bind_ok by (apply on_ram_ok, fill_loop_ok; [done|by rewrite Z2Nat.id by done|apply u32_range|by rewrite Z2Nat.id by done]). done.
Qed.

(** [cp] outside flash copies the objects, also when the destination overlaps the
    source from below, and no other byte changes. *)
Theorem cp_copies cmdtp name a d n (s : state) l :
  let size := cmd_get_data_size name 4 in
  let count := hex_value n in
  0 <= size -> 0 < count -> addr2info banks (address s d) = Ok None ->
  Z.of_nat (length l) = count * size -> bytes_at (ram s) (address s a) l -> mapped (ram s) (address s d) (count * size) ->
  address s a + count * size <= 4294967296 -> address s d + count * size <= 4294967296 ->
  address s d <= address s a \/ address s a + count * size <= address s d ->
  do_mem_cp banks cmdtp [name; a; d; n] s = Ok (0, with_ram s (write_bytes (ram s) (address s d) l)).
Proof.
  intros size count Hs Hc Hf Hl Hb Hm H1 H2 Hov. pose proof (size_ok name Hs) as Hw. fold size in Hw. unfold do_mem_cp. cbn [length Nat.eqb negb].
  rewrite (bind_ok _ _ s name s eq_refl). cbv zeta. fold size. destruct (Z.ltb_spec size 0); [lia|].
  rewrite (bind_ok _ _ _ _ _ (based_ok [name; a; d; n] 1 a s eq_refl)), (bind_ok _ _ _ _ _ (based_ok [name; a; d; n] 2 d s eq_refl)).
  rewrite (bind_ok _ _ _ _ _ (hex_ok [name; a; d; n] 3 n s eq_refl)). fold count. destruct (Z.eqb_spec count 0); [lia|].
  rewrite (bind_ok (lift _) _ s None s) by (by rewrite Hf). cbv iota.
  erewrite bind_ok by (apply on_ram_ok, (copy_loop_ok (Z.to_nat count) size Hw (ram s) (address s a) (address s d) l);
    rewrite ?Z2Nat.id by lia; first [done|apply u32_range]). done.
Qed.

Lemma flash_perror_ok rc (s : state) : exists t, flash_perror rc s = Ok (tt, with_text s t).
Proof. destruct (flash_error_ok rc) as [t E]. exists t. unfold flash_perror. by rewrite (bind_ok (lift _) _ s t s) by (by rewrite E). Qed.

(** A destination in flash is written by the flash driver: what it returns is reported,
    and the number of bytes is taken modulo 2^32. *)
Lemma cp_to_flash cmdtp name a d n (s : state) l bank rc h :
  let size := cmd_get_data_size name 4 in
  let count := hex_value n in
  0 <= size -> count <> 0 -> addr2info banks (address s d) = Ok (Some bank) ->
  Z.of_nat (length l) = u32 (count * size) -> bytes_at (ram s) (address s a) l ->
  flash_write banks l (address s d) (u32 (count * size)) (dev s) = Ok (rc, h) ->
  exists t, do_mem_cp banks cmdtp [name; a; d; n] s = Ok (b2z (negb (rc =? 0)), Shell (ram s) h (vars s) (text s ++ zs "Copy to Flash... " ++ t) (keyboard s)) /\
    (rc = 0 -> t = zs "done" ++ [10]).
Proof.
  intros size count Hs Hc Hf Hl Hb Hw. unfold do_mem_cp. cbn [length Nat.eqb negb].
  rewrite (bind_ok _ _ s name s eq_refl). cbv zeta. fold size. destruct (Z.ltb_spec size 0); [lia|].
  rewrite (bind_ok _ _ _ _ _ (based_ok [name; a; d; n] 1 a s eq_refl)), (bind_ok _ _ _ _ _ (based_ok [name; a; d; n] 2 d s eq_refl)).
  rewrite (bind_ok _ _ _ _ _ (hex_ok [name; a; d; n] 3 n s eq_refl)). fold count. destruct (Z.eqb_spec count 0); [done|].
  rewrite (bind_ok (lift _) _ s (Some bank) s) by (by rewrite Hf). cbv iota.
  set (s1 := with_text s (zs "Copy to Flash... ")). rewrite (bind_ok (puts _) _ s tt s1 eq_refl).
  pose proof (load_bytes_ok _ _ _ Hb) as L. rewrite Hl in L. rewrite (bind_ok _ _ _ _ _ (on_ram_ok _ s1 _ _ L)). change (with_ram s1 (ram s)) with s1.
  set (s2 := Shell (ram s) h (vars s) (text s ++ zs "Copy to Flash... ") (keyboard s)).
  rewrite (bind_ok (on_flash _ _ _ _) _ s1 rc s2) by (unfold on_flash; cbn [dev s1 with_text]; by rewrite Hw).
  destruct (Z.eqb_spec rc 0) as [->|Hrc]; cbn [negb b2z].
  - exists (zs "done" ++ [10]). split; [|done]. rewrite app_assoc. done.
  - destruct (flash_perror_ok rc s2) as [t P]. rewrite (bind_ok _ _ _ _ _ P). exists t. split; [|done].
    unfold mret, ST_ret, with_text, s2. cbn [text ram dev vars keyboard]. by rewrite app_assoc.
Qed.

(** [cmp]: the number of objects that are the same, up to the first that differs. *)
Definition same_units (size k : Z) (l1 l2 : list Z) : Prop :=
  take (Z.to_nat (k * size)) l1 = take (Z.to_nat (k * size)) l2 /\
  (l1 <> l2 -> take (Z.to_nat ((k + 1) * size)) l1 <> take (Z.to_nat ((k + 1) * size)) l2).

Lemma same_units_skip size k u l1 l2 : 0 < size -> 0 <= k -> Z.of_nat (length u) = size ->
  same_units size k l1 l2 -> same_units size (k + 1) (u ++ l1) (u ++ l2).
Proof.
  intros Hs Hk Hu [E D].
  assert (T : forall j l, 0 <= j -> take (Z.to_nat ((j + 1) * size)) (u ++ l) = u ++ take (Z.to_nat (j * size)) l).
  { intros j l Hj. rewrite take_app. rewrite (take_ge u) by nia. do 2 f_equal. nia. }
  split; [by rewrite !T, E by lia|]. intros Hne. rewrite !T by lia. intros H%app_inv_head. apply D; [|done]. by intros ->.
Qed.

Lemma compare_loop_ok n size : width_ok size -> forall a1 a2 l1 l2 ngood (s : state),
  Z.of_nat (length l1) = Z.of_nat n * size -> Z.of_nat (length l2) = Z.of_nat n * size ->
  bytes_at (ram s) a1 l1 -> bytes_at (ram s) a2 l2 -> 0 <= a1 -> 0 <= a2 -> 0 <= ngood ->
  a1 + Z.of_nat n * size <= 4294967296 -> a2 + Z.of_nat n * size <= 4294967296 -> ngood + Z.of_nat n < 4294967296 ->
  exists k t, compare_loop n size a1 a2 ngood s = Ok ((b2z (negb (bool_decide (l1 = l2))), ngood + k), with_text s t) /\
    0 <= k <= Z.of_nat n /\ (l1 = l2 -> k = Z.of_nat n) /\ same_units size k l1 l2.
Proof.
  intros Hw. pose proof (width_pos size Hw). induction n as [|n IH]; intros a1 a2 l1 l2 ngood s Hl1 Hl2 B1 B2 P1 P2 Hg T1 T2 Hmax; cbn [compare_loop].
  - destruct l1, l2; try (cbn in *; lia). exists 0, []. rewrite bool_decide_true by done. split; [|by repeat split; try lia].
    unfold with_text. rewrite app_nil_r, Z.add_0_r. by destruct s.
  - destruct (first_unit _ _ _ _ n Hw Hl1 B1) as (u1 & r1 & -> & Lu1 & Lr1 & Bu1 & Br1).
    destruct (first_unit _ _ _ _ n Hw Hl2 B2) as (u2 & r2 & -> & Lu2 & Lr2 & Bu2 & Br2).
    rewrite (bind_ok _ _ _ _ _ (on_ram_ok _ s _ _ (load_unit_ok _ _ _ _ Hw Lu1 Bu1))), with_ram_id.
    rewrite (bind_ok _ _ _ _ _ (on_ram_ok _ s _ _ (load_unit_ok _ _ _ _ Hw Lu2 Bu2))), with_ram_id.
    assert (Eu : unit_value u1 = unit_value u2 <-> u1 = u2).
    { split; [|by intros ->]. apply unit_value_inj; [lia|by eapply bytes_at_bytes..]. }
    destruct (Z.eqb_spec (unit_value u1) (unit_value u2)) as [E|E]; cbn [negb].
    + apply Eu in E. subst u2. destruct n as [|n].
      * destruct r1, r2; try (cbn in *; lia). cbn [compare_loop]. exists 1, []. rewrite bool_decide_true by done.
        rewrite u32_small by lia. split; [unfold with_text; rewrite app_nil_r; by destruct s|by repeat split; try lia].
      * rewrite !u32_small by nia.
        destruct (IH (a1 + size) (a2 + size) r1 r2 (ngood + 1) s Lr1 Lr2 Br1 Br2) as (k & t & E & Hk & Hall & Hsame); [lia..|nia|nia|lia|].
        exists (k + 1), t. rewrite E. split; [|split; [lia|split; [|by apply same_units_skip; try lia]]].
        -- do 3 f_equal; [|lia]. do 2 f_equal. apply bool_decide_ext. split; [by intros ->|by intros H0%app_inv_head].
        -- intros H0%app_inv_head. rewrite Hall by done. lia.
    + assert (Hne : u1 <> u2) by (by intros ->). set (v1 := unit_value u1) in *. set (v2 := unit_value u2) in *.
      assert (P : exists t, printf (differ_format size) [A_int a1; A_int v1; A_int a2; A_int v2] = Ok t).
      { clear -Hw. destruct Hw as [->|[->| ->]]; printf_ok. }
      destruct P as [t P]. rewrite (bind_ok _ _ _ _ _ (print_ok _ _ s _ P)). exists 0, t.
      assert (Hd : u1 ++ r1 <> u2 ++ r2) by (intros H0; apply app_inj_1 in H0 as [? _]; [done|lia]).
      rewrite bool_decide_false by done. rewrite Z.add_0_r. split; [done|]. split; [lia|]. split; [done|]. split; [done|].
      intros _. rewrite Z.mul_1_l, !take_app_le by lia. rewrite !take_ge by lia. done.
Qed.

(** [cmp] returns 0 exactly if the two ranges hold the same, and the number it
    prints is that of the objects before the first difference. *)
Theorem cmp_correct cmdtp name a1 a2 n (s : state) l1 l2 :
  let size := cmd_get_data_size name 4 in
  let count := hex_value n in
  0 <= size -> Z.of_nat (length l1) = count * size -> Z.of_nat (length l2) = count * size ->
  bytes_at (ram s) (address s a1) l1 -> bytes_at (ram s) (address s a2) l2 ->
  address s a1 + count * size <= 4294967296 -> address s a2 + count * size <= 4294967296 ->
  exists k t total, do_mem_cmp cmdtp [name; a1; a2; n] s = Ok (b2z (negb (bool_decide (l1 = l2))), with_text s (t ++ total)) /\
    0 <= k <= count /\ (l1 = l2 -> k = count) /\ same_units size k l1 l2 /\
    printf (zs "Total of %ld %s%s were the same" ++ [10])
      [A_int k; A_str (Some (unit_name size)); A_str (Some (if k =? 1 then [] else zs "s"))] = Ok total.
Proof.
  intros size count Hs L1 L2 B1 B2 T1 T2. pose proof (hex_value_range n) as [Hc Hmax]. fold count in Hc, Hmax. pose proof (size_ok name Hs) as Hw. fold size in Hw. unfold do_mem_cmp. cbn [length Nat.eqb negb].
  rewrite (bind_ok _ _ s name s eq_refl). cbv zeta. fold size. destruct (Z.ltb_spec size 0); [lia|].
  rewrite (bind_ok _ _ _ _ _ (based_ok [name; a1; a2; n] 1 a1 s eq_refl)), (bind_ok _ _ _ _ _ (based_ok [name; a1; a2; n] 2 a2 s eq_refl)).
  rewrite (bind_ok _ _ _ _ _ (hex_ok [name; a1; a2; n] 3 n s eq_refl)). fold count.
  destruct (compare_loop_ok (Z.to_nat count) size Hw (address s a1) (address s a2) l1 l2 0 s) as (k & t & E & Hk & Hall & Hsame);
    rewrite ?Z2Nat.id in * by lia; try done; try apply u32_range. rewrite (bind_ok _ _ _ _ _ E). cbv beta iota. rewrite Z.add_0_l.
  assert (P : exists total, printf (zs "Total of %ld %s%s were the same" ++ [10])
      [A_int k; A_str (Some (unit_name size)); A_str (Some (if k =? 1 then [] else zs "s"))] = Ok total).
  { clear -Hw. destruct (k =? 1); destruct Hw as [->|[->| ->]]; printf_ok. }
  destruct P as [total P]. rewrite (bind_ok _ _ _ _ _ (print_ok _ _ _ _ P)). exists k, t, total. split; [|done].
  unfold mret, ST_ret, with_text. cbn [text ram dev vars keyboard]. by rewrite app_assoc.
Qed.

(** *** md *)

Lemma md_dump l size count addr (s : state) : width_ok size -> Z.of_nat (length l) = count * size -> bytes_at (ram s) addr l ->
  exists t, on_ram (print_buffer quiet addr addr size count (DISP_LINE_LEN / size)) s = Ok ((0, t), s) /\
    dump_of (columns (length l) 16 l) t.
Proof.
  intros Hw Hl Hb.
  assert (G : 0 <= DISP_LINE_LEN / size /\ DISP_LINE_LEN / size * size < 4294967296 /\ Z.to_nat (line_length size (DISP_LINE_LEN / size) * size) = 16%nat).
  { destruct Hw as [->|[->| ->]]; vm_compute; repeat split; congruence. }
  destruct G as (G1 & G2 & G3).
  destruct (print_buffer_correct (ram s) addr addr l size count (DISP_LINE_LEN / size)) as (t & E & D); try done.
  rewrite G3 in D. exists t. split; [|done]. by rewrite (on_ram_ok _ s _ _ E), with_ram_id.
Qed.

(** [md] shows the objects asked for, every byte once and in order, and the same
    command repeated goes on with the objects behind them. *)
Theorem md_continues cmdtp name a n (s : state) l1 l2 :
  let size := cmd_get_data_size name 4 in
  let count := hex_value n in
  0 <= size -> Z.of_nat (length l1) = count * size -> Z.of_nat (length l2) = count * size ->
  bytes_at (ram s) (address s a) (l1 ++ l2) -> address s a + 2 * (count * size) < 4294967296 ->
  exists t1 t2 s1 s2,
    do_mem_md quiet cmdtp 0 [name; a; n] s = Ok (0, s1) /\ text s1 = text s ++ t1 /\ dump_of (columns (length l1) 16 l1) t1 /\
    do_mem_md quiet cmdtp CMD_FLAG_REPEAT [name; a; n] s1 = Ok (0, s2) /\ text s2 = text s1 ++ t2 /\ dump_of (columns (length l2) 16 l2) t2 /\
    ram s2 = ram s.
Proof.
  intros size count Hs L1 L2 Hb Ht. pose proof (size_ok name Hs) as Hw. fold size in Hw. pose proof (width_pos size Hw).
  pose proof (hex_value_range n) as [Hc _]. fold count in Hc. apply bytes_at_app in Hb as [B1 B2]. rewrite L1 in B2.
  pose proof (u32_range (hex_value a + base_address (vars s))) as [Ha _]. fold (address s a) in Ha.
  destruct (md_dump l1 size count (address s a) s Hw L1 B1) as (t1 & E1 & D1).
  set (g1 := set_dp (u32 (address s a + size * count)) size count (vars s)).
  set (s1 := with_vars (with_text s t1) g1).
  assert (R1 : do_mem_md quiet cmdtp 0 [name; a; n] s = Ok (0, s1)).
  { unfold do_mem_md. rewrite (bind_ok _ _ s (vars s) s eq_refl). cbn [length Nat.ltb Nat.leb].
    rewrite (bind_ok _ _ s (Some (address s a, size, count)) s).
    - cbv beta iota. destruct (Z.eqb_spec size 0); [lia|]. by rewrite (bind_ok _ _ _ _ _ E1).
    - change (Z.land 0 CMD_FLAG_REPEAT =? 0) with true. cbv iota. rewrite (bind_ok _ _ s name s eq_refl). cbv zeta. fold size.
      destruct (Z.ltb_spec size 0); [lia|]. rewrite (bind_ok _ _ _ _ _ (based_ok [name; a; n] 1 a s eq_refl)).
      by rewrite (bind_ok _ _ _ _ _ (hex_ok [name; a; n] 2 n s eq_refl)). }
  assert (B2' : bytes_at (ram s1) (u32 (address s a + size * count)) l2).
  { rewrite u32_small by nia. by rewrite (Z.mul_comm size count). }
  destruct (md_dump l2 size count _ s1 Hw L2 B2') as (t2 & E2 & D2).
  set (a2 := u32 (address s a + size * count)) in *.
  exists t1, t2, s1, (with_vars (with_text s1 t2) (set_dp (u32 (a2 + size * count)) size count g1)).
  split; [exact R1|]. do 2 (split; [done|]). split; [|done].
  unfold do_mem_md. rewrite (bind_ok _ _ s1 g1 s1 eq_refl). cbn [length Nat.ltb Nat.leb].
  rewrite (bind_ok _ _ s1 (Some (a2, size, count)) s1) by done.
  cbv beta iota. destruct (Z.eqb_spec size 0); [lia|]. by rewrite (bind_ok _ _ _ _ _ E2).
Qed.

(** *** mm and nm as an editor of memory *)

(** What a line at the question means. *)
Inductive edit := Next | Back | Set_value (v : Z).

Definition asks (l : typed) (e : edit) : Prop :=
  match e with
  | Next => l = Line []
  | Back => l = Line (zs "-")
  | Set_value v => exists line endp, l = Line line /\ line <> zs "-" /\ simple_strtoul line 16 = (v, endp) /\ (length endp < length line)%nat
  end.

(** A line without a number ends the command. *)
Definition ends (l : typed) : Prop :=
  match l with Line line => line <> [] /\ line <> zs "-" /\ length (snd (simple_strtoul line 16)) = length line | Ctrl_C => True end.

Definition edit_step (incr : bool) (size : Z) (e : edit) (p : Z * mem) : Z * mem :=
  let '(a, m) := p in
  match e with
  | Next => (if incr then u32 (a + size) else a, m)
  | Back => (if incr then u32 (a - size) else a, m)
  | Set_value v => (if incr then u32 (a + size) else a, write_bytes m a (unit_bytes size v))
  end.

Fixpoint edit_all (incr : bool) (size : Z) (es : list edit) (p : Z * mem) : Z * mem :=
  match es with [] => p | e :: es => edit_all incr size es (edit_step incr size e p) end.

(** Every object that is shown is there. *)
Definition object_at (size : Z) (p : Z * mem) : Prop := exists l, Z.of_nat (length l) = size /\ bytes_at (snd p) (fst p) l.

Fixpoint objects_there (incr : bool) (size : Z) (es : list edit) (p : Z * mem) : Prop :=
  object_at size p /\ match es with [] => True | e :: es => objects_there incr size es (edit_step incr size e p) end.

Lemma show_unit_ok size addr (s : state) : width_ok size -> object_at size (addr, ram s) ->
  exists t, show_unit size addr s = Ok (tt, with_text s t).
Proof.
  intros Hw (l & Hl & Hb). unfold show_unit.
  assert (P : exists t, printf (zs "%08lx:") [A_int addr] = Ok t) by (clear; printf_ok). destruct P as [t P].
  rewrite (bind_ok _ _ _ _ _ (print_ok _ _ s _ P)).
  rewrite (bind_ok _ _ _ _ _ (on_ram_ok _ (with_text s t) _ _ (load_unit_ok _ _ _ _ Hw Hl Hb))). set (v := unit_value l).
  assert (Q : exists t, printf (if size =? 4 then zs " %08x" else if size =? 2 then zs " %04x" else zs " %02x") [A_int v] = Ok t).
  { clear -Hw. destruct Hw as [->|[->| ->]]; printf_ok. }
  destruct Q as [u Q]. exists (t ++ u). rewrite (print_ok _ _ _ _ Q). unfold with_text, with_ram. cbn [text ram dev vars keyboard]. by rewrite app_assoc.
Qed.

Definition typing (s : state) (m : mem) (t : list Z) (k : list typed) : state := Shell m (dev s) (vars s) t k.

Lemma readline_ok prompt s l k : readline prompt (typing s (ram s) (text s) (Line l :: k)) =
  Ok ((Z.of_nat (length l), l), typing s (ram s) (text s ++ prompt) k).
Proof. done. Qed.

Lemma modify_loop_end fuel incr size addr l k (s : state) : width_ok size -> ends l -> object_at size (addr, ram s) -> keyboard s = l :: k ->
  exists t, modify_loop (S fuel) incr size addr s = Ok (addr, typing s (ram s) t k).
Proof.
  intros Hw He Ho Hk. cbn [modify_loop]. destruct (show_unit_ok size addr s Hw Ho) as [t E]. rewrite (bind_ok _ _ _ _ _ E).
  destruct s as [m d g x kb]. cbn [keyboard] in Hk. subst kb. destruct l as [line|].
  - destruct He as (H1 & H2 & H3). eexists.
    rewrite (bind_ok _ _ _ (Z.of_nat (length line), line) (Shell m d g ((x ++ t) ++ zs " ? ") k)) by done. cbv beta iota.
    destruct (Z.eqb_spec (Z.of_nat (length line)) 0); [destruct line; [done|cbn in *; lia]|]. cbn [orb].
    assert (N : (Z.of_nat (length line) =? 1) && (deref line =? ch "-") = false).
    { destruct line as [|c [|]]; try done; [|cbn [length]; destruct (Z.eqb_spec (Z.of_nat (S (S (length l)))) 1); [lia|done]].
      cbn [deref length]. destruct (Z.eqb_spec c (ch "-")) as [->|]; [by destruct H2|done]. }
    rewrite N. destruct (simple_strtoul line 16) as [i endp]. cbn [snd] in H3. rewrite H3, Z.sub_diag. done.
  - eexists. rewrite (bind_ok _ _ _ (-1, []) (Shell m d g ((x ++ t) ++ zs " ? ") k)) by done. reflexivity.
Qed.

Lemma modify_loop_step fuel incr size addr e l k (s : state) : width_ok size -> asks l e -> object_at size (addr, ram s) -> keyboard s = l :: k ->
  exists t, modify_loop (S fuel) incr size addr s =
    modify_loop fuel incr size (fst (edit_step incr size e (addr, ram s))) (typing s (snd (edit_step incr size e (addr, ram s))) t k).
Proof.
  intros Hw Ha Ho Hk. cbn [modify_loop]. destruct (show_unit_ok size addr s Hw Ho) as [t E]. rewrite (bind_ok _ _ _ _ _ E).
  destruct s as [m d g x kb]. cbn [keyboard] in Hk. subst kb. cbn [ram] in *. destruct e as [| |v]; cbn [asks] in Ha.
  - subst l. exists ((x ++ t) ++ zs " ? "). reflexivity.
  - subst l. exists ((x ++ t) ++ zs " ? "). reflexivity.
  - destruct Ha as (line & endp & -> & H2 & Hv & Hlen). exists ((x ++ t) ++ zs " ? ").
    rewrite (bind_ok _ _ _ (Z.of_nat (length line), line) (Shell m d g ((x ++ t) ++ zs " ? ") k)) by done. cbv beta iota.
    destruct (Z.eqb_spec (Z.of_nat (length line)) 0); [lia|]. cbn [orb].
    assert (N : (Z.of_nat (length line) =? 1) && (deref line =? ch "-") = false).
    { destruct line as [|c [|]]; try done; [|cbn [length]; destruct (Z.eqb_spec (Z.of_nat (S (S (length l)))) 1); [lia|done]].
      cbn [deref length]. destruct (Z.eqb_spec c (ch "-")) as [->|]; [by destruct H2|done]. }
    rewrite N, Hv. destruct (Z.eqb_spec (Z.of_nat (length line) - Z.of_nat (length endp)) 0); [lia|]. cbn [negb].
    destruct Ho as (lo & Hlo & Hb). pose proof (bytes_at_mapped _ _ _ Hb) as Hm. cbn [fst snd] in *. rewrite Hlo in Hm.
    erewrite bind_ok by (apply (on_ram_ok _ (Shell m d g ((x ++ t) ++ zs " ? ") k)), (store_unit_ok m addr size v size Hw Hm); lia).
    done.
Qed.

Lemma modify_loop_ok incr size : width_ok size -> forall es ls fuel addr fin k (s : state),
  Forall2 asks ls es -> ends fin -> keyboard s = ls ++ fin :: k -> objects_there incr size es (addr, ram s) -> (length ls < fuel)%nat ->
  exists t, modify_loop fuel incr size addr s =
    Ok (fst (edit_all incr size es (addr, ram s)), typing s (snd (edit_all incr size es (addr, ram s))) t k).
Proof.
  intros Hw. induction es as [|e es IH]; intros ls fuel addr fin k s HF He Hk Ho Hf.
  - apply Forall2_nil_inv_r in HF. subst ls. destruct fuel as [|fuel]; [cbn in Hf; lia|]. destruct Ho as [Ho _].
    by apply (modify_loop_end fuel incr size addr fin k s).
  - apply Forall2_cons_inv_r in HF as (l & ls' & Ha & HF & ->). destruct fuel as [|fuel]; [cbn in Hf; lia|]. destruct Ho as [Ho Hos].
    destruct (modify_loop_step fuel incr size addr e l (ls' ++ fin :: k) s Hw Ha Ho Hk) as [t ->].
    set (p := edit_step incr size e (addr, ram s)) in *.
    destruct (IH ls' fuel (fst p) fin k (typing s (snd p) t (ls' ++ fin :: k))) as [t' E]; try done; [by destruct p|cbn [length] in Hf; lia|].
    change (ram (typing s (snd p) t (ls' ++ fin :: k))) with (snd p) in E. rewrite <- surjective_pairing in E. by exists t'.
Qed.

(** C19: [mm] and [nm] are an editor of memory: each line keeps, goes back or replaces
    the object shown, [mm] moves on and [nm] does not, a line that is no number ends
    the command, and the last address is kept for the next time. *)
Theorem mod_mem_edits cmdtp incr name a (s : state) es ls fin k :
  let size := cmd_get_data_size name 4 in
  let p := (address s a, ram s) in
  0 <= size -> Forall2 asks ls es -> ends fin -> keyboard s = ls ++ fin :: k -> objects_there incr size es p ->
  exists t, mod_mem cmdtp incr 0 [name; a] s =
    Ok (0, Shell (snd (edit_all incr size es p)) (dev s) (set_mm (fst (edit_all incr size es p)) size (vars s)) t k).
Proof.
  intros size p Hs HF He Hk Ho. pose proof (size_ok name Hs) as Hw. fold size in Hw. unfold mod_mem. cbn [length Nat.eqb negb].
  rewrite (bind_ok _ _ s (vars s) s eq_refl). rewrite (bind_ok _ _ s (Some (address s a, size)) s).
  - cbv beta iota. rewrite (bind_ok _ _ s (length (keyboard s)) s eq_refl).
    destruct (modify_loop_ok incr size Hw es ls (S (length (keyboard s))) (address s a) fin k s) as [t E]; try done.
    { rewrite Hk, length_app. cbn. lia. }
    rewrite (bind_ok _ _ _ _ _ E). exists t. done.
  - change (Z.land 0 CMD_FLAG_REPEAT =? 0) with true. cbv iota. rewrite (bind_ok _ _ s name s eq_refl). cbv zeta. fold size.
    destruct (Z.ltb_spec size 0); [lia|]. by rewrite (bind_ok _ _ _ _ _ (based_ok [name; a] 1 a s eq_refl)).
Qed.

(** *** crc32 *)

Lemma crc_text a e crc : exists t, printf (zs "CRC32 for %08lx ... %08lx ==> %08lx" ++ [10]) [A_int a; A_int e; A_int crc] = Ok t.
Proof. printf_ok. Qed.

(** [crc32] with a third argument leaves the checksum of the range there, as a word,
    and changes nothing else; [base_address] is added to the range only. *)
Theorem crc_saved cmdtp name a n d (s : state) l :
  Z.of_nat (length l) = hex_value n -> bytes_at (ram s) (address s a) l -> mapped (ram s) (hex_value d) 4 ->
  exists t, do_mem_crc cmdtp [name; a; n; d] s =
    Ok (0, with_ram (with_text s t) (write_bytes (ram s) (hex_value d) (le32 (Z.lxor (bits_crc32 0xffffffff l) 0xffffffff)))).
Proof.
  intros Hl Hb Hm. unfold do_mem_crc. cbn [length Nat.ltb Nat.leb].
  rewrite (bind_ok _ _ _ _ _ (based_ok [name; a; n; d] 1 a s eq_refl)), (bind_ok _ _ _ _ _ (hex_ok [name; a; n; d] 2 n s eq_refl)).
  rewrite <- Hl. rewrite (bind_ok _ _ _ _ _ (on_ram_ok _ s _ _ (load_bytes_ok _ _ _ Hb))), with_ram_id. cbv zeta.
  set (ad := address s a). set (en := u32 (ad + Z.of_nat (length l) - 1)). set (crc := crc32 0 ad l).
  destruct (crc_text ad en crc) as [t P]. rewrite (bind_ok _ _ _ _ _ (print_ok _ _ s _ P)). exists t.
  erewrite bind_ok by (rewrite (bind_ok _ _ _ _ _ (hex_ok [name; a; n; d] 3 d (with_text s t) eq_refl));
    apply on_ram_ok, (store_unit_ok (ram (with_text s t)) (hex_value d) 4 crc 4); [by right; right|exact Hm|lia]).
  assert (E : crc = Z.lxor (bits_crc32 0xffffffff l) 0xffffffff).
  { unfold crc. pose proof (bytes_at_bytes _ _ _ Hb) as HF. rewrite crc32_bytes, fold_DO_CRC_bits by done. by rewrite Z.lxor_0_l. }
  by rewrite <- E.
Qed.
End Commands_proofs.

(** ** Runs *)

Definition sample_cmd : cmd_tbl := Cmd (zs "mm") 4 1 0 None None None.
Definition sample_ram : mem := mem_of 0x40 (zs "hello world! hello earth!").
Definition sample_shell (k : list typed) : shell sim := Shell sample_ram bench_hw initial_globals [] k.

Lemma mw_fills_witness : do_mem_mw sample_cmd [zs "mw.w"; zs "42"; zs "2d2a"; zs "3"] (sample_shell []) =
  Ok (0, with_ram (sample_shell []) (write_bytes sample_ram 0x42 (zs "*-*-*-"))).
Proof. apply (mw_fills sample_cmd (zs "mw.w") (zs "42") (zs "2d2a") (zs "3") (sample_shell [])); [vm_compute; congruence|mem_decide|vm_compute; congruence]. Defined.

Lemma cp_copies_witness : do_mem_cp [bench_bank] sample_cmd [zs "cp.b"; zs "46"; zs "44"; zs "5"] (sample_shell []) =
  Ok (0, with_ram (sample_shell []) (write_bytes sample_ram 0x44 (zs "world"))).
Proof.
  apply (cp_copies [bench_bank] sample_cmd (zs "cp.b") (zs "46") (zs "44") (zs "5") (sample_shell []) (zs "world"));
    [vm_compute; congruence|reflexivity|reflexivity|reflexivity|mem_decide|mem_decide|vm_compute; congruence|vm_compute; congruence|left; vm_compute; congruence].
Defined.

(** A destination inside the source is overwritten before it is read. *)
Example cp_overlaps :
  match do_mem_cp [bench_bank] sample_cmd [zs "cp.b"; zs "40"; zs "42"; zs "5"] (sample_shell []) with
  | Ok (r, s) => (r =? 0) && bool_decide (bytes_at (ram s) 0x40 (zs "heheheho"))
  | _ => false
  end = true.
Proof. vm_compute. reflexivity. Qed.

(** The number of bytes for the flash driver overflows: of 40000001 words one is
    written, and the copy is reported done. *)
Example cp_flash_overflows : exists h, do_mem_cp [bench_bank] sample_cmd [zs "cp.l"; zs "40"; zs "64000000"; zs "40000001"] (sample_shell []) =
    Ok (0, Shell sample_ram h initial_globals (zs "Copy to Flash... done" ++ [10]) []) /\
  flash_write [bench_bank] (zs "hell") 0x64000000 4 bench_hw = Ok (0, h).
Proof.
  assert (G : match flash_write [bench_bank] (zs "hell") 0x64000000 4 bench_hw with Ok (rc, _) => rc =? 0 | _ => false end = true) by (vm_compute; reflexivity).
  destruct (flash_write [bench_bank] (zs "hell") 0x64000000 4 bench_hw) as [[rc h]| |] eqn:E; [|done..].
  apply Z.eqb_eq in G. subst rc. exists h. split; [|done].
  destruct (cp_to_flash [bench_bank] sample_cmd (zs "cp.l") (zs "40") (zs "64000000") (zs "40000001") (sample_shell []) (zs "hell") 0%nat 0 h)
    as (t & R & T); [vm_compute; congruence|vm_compute; congruence|vm_compute; reflexivity|reflexivity|mem_decide|exact E|].
  rewrite R, (T eq_refl). reflexivity.
Qed.

Lemma cmp_correct_witness : exists t, do_mem_cmp sample_cmd [zs "cmp.b"; zs "40"; zs "4d"; zs "8"] (sample_shell []) = Ok (1, with_text (sample_shell []) (t ++ zs "Total of 6 bytes were the same" ++ [10])).
Proof.
  destruct (cmp_correct sample_cmd (zs "cmp.b") (zs "40") (zs "4d") (zs "8") (sample_shell []) (zs "hello wo") (zs "hello ea"))
    as (k & t & total & E & Hk & _ & [Hs Hd] & P); [vm_compute; congruence|reflexivity|reflexivity|mem_decide|mem_decide|vm_compute; congruence..|].
  exists t. assert (k = 6) as ->.
  { change (hex_value (zs "8")) with 8 in Hk. change (cmd_get_data_size (zs "cmp.b") 4) with 1 in *. rewrite !Z.mul_1_r in *. specialize (Hd ltac:(vm_compute; congruence)).
    assert (C : k = 0 \/ k = 1 \/ k = 2 \/ k = 3 \/ k = 4 \/ k = 5 \/ k = 6 \/ k = 7 \/ k = 8) by lia. destruct_or! C; subst k; vm_compute in Hs, Hd; congruence. }
  rewrite E. vm_compute in P. injection P as <-. reflexivity.
Defined.

Lemma md_continues_witness : exists t1 t2 s1 s2,
  do_mem_md (fun _ => false) sample_cmd 0 [zs "md.b"; zs "40"; zs "5"] (sample_shell []) = Ok (0, s1) /\ text s1 = t1 /\ dump_of [zs "hello"] t1 /\
  do_mem_md (fun _ => false) sample_cmd CMD_FLAG_REPEAT [zs "md.b"; zs "40"; zs "5"] s1 = Ok (0, s2) /\ text s2 = text s1 ++ t2 /\ dump_of [zs " worl"] t2 /\
  ram s2 = sample_ram.
Proof.
  exact (md_continues sample_cmd (zs "md.b") (zs "40") (zs "5") (sample_shell []) (zs "hello") (zs " worl")
    ltac:(vm_compute; congruence) eq_refl eq_refl ltac:(mem_decide) ltac:(vm_compute; congruence)).
Defined.

(** A session of [mm]: keep, replace, back, replace, end with a full stop. *)
Lemma mod_mem_edits_witness : exists t, mod_mem sample_cmd true 0 [zs "mm.b"; zs "40"]
    (sample_shell [Line []; Line (zs "41"); Line (zs "-"); Line (zs "42"); Line (zs ".")]) =
  Ok (0, Shell (write_bytes (write_bytes sample_ram 0x41 (zs "A")) 0x41 (zs "B")) bench_hw (set_mm 0x42 1 initial_globals) t []).
Proof.
  apply (mod_mem_edits sample_cmd true (zs "mm.b") (zs "40") (sample_shell [Line []; Line (zs "41"); Line (zs "-"); Line (zs "42"); Line (zs ".")])
    [Next; Set_value 0x41; Back; Set_value 0x42] [Line []; Line (zs "41"); Line (zs "-"); Line (zs "42")] (Line (zs ".")) []).
  - vm_compute; congruence.
  - repeat (constructor; [first [reflexivity | eexists _, []; split_and!; [reflexivity|vm_compute; congruence|reflexivity|vm_compute; lia]]|]). constructor.
  - vm_compute. split_and!; congruence.
  - reflexivity.
  - cbn [objects_there]. split_and!; try exact I; [exists (zs "h")|exists (zs "e")|exists (zs "l")|exists (zs "A")|exists (zs "l")]; (split; [reflexivity|mem_decide]).
Defined.

(** A count without "0x" is hexadecimal, but "0x" alone is one digit: a 0 is written. *)
Example mm_bare_prefix : fst (simple_strtoul (zs "0x") 16) = 0 /\ snd (simple_strtoul (zs "0x") 16) = zs "x".
Proof. done. Qed.
