(* ===== verification/Console.v ===== *)
(** * Console devices (common/stdio.c, common/console.c)

    The list of devices, the three files assigned to them and the functions that read
    and print through them.  A driver's function pointer is a number, which the class
    [Drivers] gives its meaning; a device is a pointer into [heap], the nodes
    allocated so far.  Console multiplexing is not configured. *)

From S2P Require Import Prelude Ctype Vsprintf Env Cli Display.

Definition DEV_FLAGS_INPUT : Z := 0x00000001.
Definition DEV_FLAGS_OUTPUT : Z := 0x00000002.
Definition DEV_FLAGS_SYSTEM : Z := 0x80000000.

Definition stdin : Z := 0.
Definition stdout : Z := 1.
Definition stderr : Z := 2.
Definition MAX_FILES : Z := 3.

(** What [printf] can print: [CONFIG_SYS_CBSIZE + sizeof(CONFIG_SYS_PROMPT) + 16]. *)
Definition CONFIG_SYS_PBSIZE : Z := 256 + 9 + 16.

(** The functions of drivers and what they do to the hardware. *)
Class Drivers (W : Type) := {
  call_start : nat -> W -> Z * W;
  call_putc : nat -> Z -> W -> W;
  call_puts : nat -> list Z -> W -> W;
  call_tstc : nat -> W -> Z * W;
  call_getc : nat -> W -> Z * W;
}.

Record stdio_dev := Stdio_dev {
  flags : Z;
  name : list Z;
  start : option nat;
  putc_fn : option nat;
  puts_fn : option nat;
  tstc_fn : option nat;
  getc_fn : option nat;
}.

Inductive printf_fn := Serial_printf | Printf.

(** The entries of the jump table for applications that belong to the console. *)
Record jump_table := Jt {
  XF_getc : option nat;
  XF_tstc : option nat;
  XF_putc : option nat;
  XF_puts : option nat;
  XF_printf : printf_fn;
}.

(** The number of the serial driver's functions. *)
Definition serial : nat := 0.

Section Console.
Context {W : Type} `{HD : !Drivers W}.

Record console := Con {
  heap : list stdio_dev;
  devs : list nat;
  stdio_devices : list (option nat);
  jt : jump_table;
  devinit : bool;            (* GD_FLG_DEVINIT *)
  silent : bool;             (* GD_FLG_SILENT *)
  disabled : bool;           (* GD_FLG_DISABLE_CONSOLE *)
  have_console : bool;
  ctrlc_disabled : Z;
  ctrlc_was_pressed : bool;
  world : W;
}.

Abbreviation C := (ST console).

(** Whether [calloc] finds room for the node with this number. *)
Context (calloc : nat -> bool).

Definition with_world (c : console) (w : W) : console :=
  Con (heap c) (devs c) (stdio_devices c) (jt c) (devinit c) (silent c) (disabled c) (have_console c) (ctrlc_disabled c) (ctrlc_was_pressed c) w.
Definition with_devices (c : console) (h : list stdio_dev) (l : list nat) : console :=
  Con h l (stdio_devices c) (jt c) (devinit c) (silent c) (disabled c) (have_console c) (ctrlc_disabled c) (ctrlc_was_pressed c) (world c).
Definition with_files (c : console) (f : list (option nat)) (j : jump_table) : console :=
  Con (heap c) (devs c) f j (devinit c) (silent c) (disabled c) (have_console c) (ctrlc_disabled c) (ctrlc_was_pressed c) (world c).
Definition with_flags (c : console) (init sil have : bool) : console :=
  Con (heap c) (devs c) (stdio_devices c) (jt c) init sil (disabled c) have (ctrlc_disabled c) (ctrlc_was_pressed c) (world c).
Definition with_ctrlc (c : console) (off : Z) (pressed : bool) : console :=
  Con (heap c) (devs c) (stdio_devices c) (jt c) (devinit c) (silent c) (disabled c) (have_console c) off pressed (world c).

(** ** The list of devices *)

Definition node (p : nat) : C stdio_dev := h ← gets heap; lift (arr_get h p).

Fixpoint find_by_name (l : list nat) (n : list Z) : C (option nat) :=
  match l with
  | [] => mret None
  | p :: l => d ← node p; if str_eq (name d) n then mret (Some p) else find_by_name l n
  end.

Definition stdio_get_by_name (n : option (list Z)) : C (option nat) :=
  match n with
  | None => mret None
  | Some n => l ← gets devs; find_by_name l n
  end.

(** [strncpy] keeps sixteen characters. *)
Definition stdio_clone (d : stdio_dev) : C (option nat) :=
  c ← get;
  let p := length (heap c) in
  if calloc p then
    put (with_devices c (heap c ++ [Stdio_dev (flags d) (take 16 (name d)) (start d) (putc_fn d) (puts_fn d) (tstc_fn d) (getc_fn d)]) (devs c));;
    mret (Some p)
  else mret None.

Definition stdio_register (d : stdio_dev) : C Z :=
  p ← stdio_clone d;
  match p with
  | None => mret (-1)
  | Some p => modify (fun c => with_devices c (heap c) (devs c ++ [p]));; mret 0
  end.

Definition serial_dev : stdio_dev :=
  Stdio_dev (Z.lor (Z.lor DEV_FLAGS_OUTPUT DEV_FLAGS_INPUT) DEV_FLAGS_SYSTEM) (zs "serial") None (Some serial) (Some serial) (Some serial) (Some serial).

Definition drv_system_init : C Z := stdio_register serial_dev.

(** [stdio_init], with the drivers of other devices before the serial one. *)
Definition stdio_init (others : list stdio_dev) : C Z :=
  modify (fun c => with_devices c (heap c) []);;
  foldr (fun d rest => stdio_register d;; rest) (mret tt) others;;
  drv_system_init;;
  mret 0.

(** [temp_names] has three rows of eight bytes, and a name of sixteen goes into each:
    copying the name of file [l] ends at [8 * l + 16].  The last one does not fit, so
    that removing the node and the reassignment of the files are never reached. *)
Fixpoint save_names (n : nat) (l : nat) (p : nat) : C bool :=
  match n with
  | O => mret true
  | S n =>
      f ← gets stdio_devices;
      a ← lift (arr_get f l);
      if bool_decide (a = Some p) then mret false
      else
        match a with
        | None => fault
        | Some q => _d ← node q; if (24 <? 8 * Z.of_nat l + 16) then fault else save_names n (S l) p
        end
  end.

Definition stdio_deregister (devname : list Z) : C Z :=
  p ← stdio_get_by_name (Some devname);
  match p with
  | None => mret (-1)
  | Some p =>
      ok ← save_names 3 0 p;
      if (ok : bool) then modify (fun c => with_devices c (heap c) (filter (fun q => q <> p) (devs c)));; mret 0 else mret (-1)
  end.

(** ** Assigning files *)

Definition set_file (file : Z) (p : nat) (d : stdio_dev) (c : console) : console :=
  let j := jt c in
  with_files c (<[Z.to_nat file := Some p]> (stdio_devices c))
    (if file =? stdin then Jt (getc_fn d) (tstc_fn d) (XF_putc j) (XF_puts j) (XF_printf j)
     else if file =? stdout then Jt (XF_getc j) (XF_tstc j) (putc_fn d) (puts_fn d) Printf
     else j).

Definition console_setfile (file : Z) (dev : option nat) : C Z :=
  match dev with
  | None => mret (-1)
  | Some p =>
      if (file =? stdin) || (file =? stdout) || (file =? stderr) then
        d ← node p;
        error ← (match start d with
                 | None => mret 0
                 | Some f => fun c => let '(e, w) := call_start f (world c) in Ok (e, with_world c w)
                 end);
        if error <? 0 then mret error
        else modify (set_file file p d);; mret error
      else mret (-1)
  end.

Definition search_device (fl : Z) (n : option (list Z)) : C (option nat) :=
  dev ← stdio_get_by_name n;
  match dev with
  | None => mret None
  | Some p => d ← node p; mret (if negb (Z.land (flags d) fl =? 0) then Some p else None)
  end.

Definition console_assign (file : Z) (devname : list Z) : C Z :=
  if (file =? stdin) || (file =? stdout) || (file =? stderr) then
    dev ← search_device (if file =? stdin then DEV_FLAGS_INPUT else DEV_FLAGS_OUTPUT) (Some devname);
    match dev with
    | Some _ => console_setfile file dev
    | None => mret (-1)
    end
  else mret (-1).

(** ** Reading and printing *)

(** A call through a function pointer. *)
Definition call_in (f : nat -> W -> Z * W) (p : option nat) : C Z :=
  match p with None => fault | Some p => fun c => let '(r, w) := f p (world c) in Ok (r, with_world c w) end.
Definition call_out {A} (f : nat -> A -> W -> W) (p : option nat) (a : A) : C unit :=
  match p with None => fault | Some p => modify (fun c => with_world c (f p a (world c))) end.

(** [stdio_devices[file]]; a null pointer is a fault. *)
Definition file_device (file : Z) : C stdio_dev :=
  if file <? 0 then fault
  else f ← gets stdio_devices; a ← lift (arr_get f (Z.to_nat file)); match a with None => fault | Some p => node p end.

Definition fgetc (file : Z) : C Z := if file <? MAX_FILES then d ← file_device file; call_in call_getc (getc_fn d) else mret (-1).
Definition ftstc (file : Z) : C Z := if file <? MAX_FILES then d ← file_device file; call_in call_tstc (tstc_fn d) else mret (-1).
Definition fputc (file c : Z) : C unit := if file <? MAX_FILES then d ← file_device file; call_out call_putc (putc_fn d) c else mret tt.
Definition fputs (file : Z) (s : list Z) : C unit := if file <? MAX_FILES then d ← file_device file; call_out call_puts (puts_fn d) s else mret tt.

(** The text and its NUL go into [printbuffer]. *)
Definition print_text (fmt : list Z) (args : list va_arg) : C (list Z) :=
  t ← lift (printf fmt args); if CONFIG_SYS_PBSIZE <? Z.of_nat (length t) + 1 then fault else mret t.

Definition fprintf (file : Z) (fmt : list Z) (args : list va_arg) : C unit := t ← print_text fmt args; fputs file t.
Definition serial_printf (fmt : list Z) (args : list va_arg) : C unit := t ← print_text fmt args; call_out call_puts (Some serial) t.

Definition getc : C Z :=
  c ← get;
  if disabled c then mret 0
  else if devinit c then fgetc stdin
  else call_in call_getc (Some serial).

Definition tstc : C Z :=
  c ← get;
  if disabled c then mret 0
  else if devinit c then ftstc stdin
  else call_in call_tstc (Some serial).

Definition putc (x : Z) : C unit :=
  c ← get;
  if silent c then mret tt
  else if disabled c then mret tt
  else if devinit c then fputc stdout x
  else call_out call_putc (Some serial) x.

Definition puts (s : list Z) : C unit :=
  c ← get;
  if silent c then mret tt
  else if disabled c then mret tt
  else if devinit c then fputs stdout s
  else call_out call_puts (Some serial) s.

Definition cprintf (fmt : list Z) (args : list va_arg) : C unit := t ← print_text fmt args; puts t.

(** ** Ctrl-C *)

Definition ctrlc : C Z :=
  c ← get;
  if (ctrlc_disabled c =? 0) && have_console c then
    t ← tstc;
    if negb (t =? 0) then
      k ← getc;
      if k =? 3 then modify (fun c => with_ctrlc c (ctrlc_disabled c) true);; mret 1 else mret 0
    else mret 0
  else mret 0.

Definition disable_ctrlc (disable : Z) : C Z :=
  prev ← gets ctrlc_disabled; modify (fun c => with_ctrlc c disable (ctrlc_was_pressed c));; mret prev.
Definition had_ctrlc : C bool := gets ctrlc_was_pressed.
Definition clear_ctrlc : C unit := modify (fun c => with_ctrlc c (ctrlc_disabled c) false).

(** ** Initialisation *)

Definition console_init_f (env : env_state) : C Z :=
  s ← lift (getenv_value env (zs "silent"));
  modify (fun c => with_flags c (devinit c) (if s is Some _ then true else silent c) true);; mret 0.

Definition print_current (label none : list Z) (file : Z) : C unit :=
  puts label;;
  f ← gets stdio_devices;
  a ← lift (arr_get f (Z.to_nat file));
  match a with
  | None => puts none
  | Some p => d ← node p; cprintf (zs "%s" ++ [10]) [A_str (Some (name d))]
  end.

Definition stdio_print_current_devices : C unit :=
  print_current (zs "In:    ") (zs "No input devices available!" ++ [10]) stdin;;
  print_current (zs "Out:   ") (zs "No output devices available!" ++ [10]) stdout;;
  print_current (zs "Err:   ") (zs "No error devices available!" ++ [10]) stderr.

(** The device of the environment, or the serial one. *)
Definition default_device (fl : Z) (dev : option nat) : C (option nat) :=
  match dev with None => search_device fl (Some (zs "serial")) | Some _ => mret dev end.

Definition console_doenv (file : Z) (dev : option nat) : C unit :=
  match dev with None => mret tt | Some _ => console_setfile file dev;; mret tt end.

(** [console_init_r] with [CONFIG_SYS_CONSOLE_IS_IN_ENV]; [overwrite] is
    [OVERWRITE_CONSOLE]. *)
Definition console_init_r (overwrite : bool) (env : env_state) : C Z :=
  modify (fun c => with_files c (stdio_devices c) (Jt (Some serial) (Some serial) (Some serial) (Some serial) Serial_printf));;
  stdinname ← lift (getenv_value env (zs "stdin"));
  stdoutname ← lift (getenv_value env (zs "stdout"));
  stderrname ← lift (getenv_value env (zs "stderr"));
  inputdev ← (if overwrite then mret None else search_device DEV_FLAGS_INPUT stdinname);
  outputdev ← (if overwrite then mret None else search_device DEV_FLAGS_OUTPUT stdoutname);
  errdev ← (if overwrite then mret None else search_device DEV_FLAGS_OUTPUT stderrname);
  inputdev ← default_device DEV_FLAGS_INPUT inputdev;
  outputdev ← default_device DEV_FLAGS_OUTPUT outputdev;
  errdev ← default_device DEV_FLAGS_OUTPUT errdev;
  console_doenv stdout outputdev;;
  console_doenv stderr errdev;;
  console_doenv stdin inputdev;;
  modify (fun c => with_flags c true (silent c) (have_console c));;
  stdio_print_current_devices;;
  mret 0.

(** Without it: the first devices that can be used. *)
Fixpoint first_devices (l : list nat) (inputdev outputdev : option nat) : C (option nat * option nat) :=
  match l with
  | [] => mret (inputdev, outputdev)
  | p :: l =>
      d ← node p;
      let inputdev := if negb (Z.land (flags d) DEV_FLAGS_INPUT =? 0) && bool_decide (inputdev = None) then Some p else inputdev in
      let outputdev := if negb (Z.land (flags d) DEV_FLAGS_OUTPUT =? 0) && bool_decide (outputdev = None) then Some p else outputdev in
      match inputdev, outputdev with Some _, Some _ => mret (inputdev, outputdev) | _, _ => first_devices l inputdev outputdev end
  end.

(** The names that [setenv] is then given, in the order of the files. *)
Definition console_init_r_first : C (list (list Z)) :=
  l ← gets devs;
  '(inputdev, outputdev) ← first_devices l None None;
  (match outputdev with None => mret tt | Some _ => console_setfile stdout outputdev;; console_setfile stderr outputdev;; mret tt end);;
  (match inputdev with None => mret tt | Some _ => console_setfile stdin inputdev;; mret tt end);;
  modify (fun c => with_flags c true (silent c) (have_console c));;
  stdio_print_current_devices;;
  d0 ← file_device stdin; d1 ← file_device stdout; d2 ← file_device stderr;
  mret [name d0; name d1; name d2].

(** ** coninfo *)

Definition stdio_names : list (list Z) := [zs "stdin"; zs "stdout"; zs "stderr"].

Fixpoint assigned_names (files : list (option nat)) (names : list (list Z)) (p : nat) : C unit :=
  match files, names with
  | f :: files, n :: names => (if bool_decide (f = Some p) then cprintf (zs "%s ") [A_str (Some n)] else mret tt);; assigned_names files names p
  | _, _ => mret tt
  end.

Fixpoint coninfo_loop (l : list nat) : C unit :=
  match l with
  | [] => mret tt
  | p :: l =>
      d ← node p;
      let sh bit c := if negb (Z.land (flags d) bit =? 0) then c else ch "." in
      cprintf (zs "%-8s %08x %c%c%c ") [A_str (Some (name d)); A_int (flags d); A_int (sh DEV_FLAGS_SYSTEM (ch "S")); A_int (sh DEV_FLAGS_INPUT (ch "I")); A_int (sh DEV_FLAGS_OUTPUT (ch "O"))];;
      f ← gets stdio_devices;
      assigned_names f stdio_names p;;
      putc 10;;
      coninfo_loop l
  end.

Definition do_coninfo : C Z := puts (zs "List of available devices:" ++ [10]);; l ← gets devs; coninfo_loop l;; mret 0.
End Console.

Arguments console W : clear implicits.

(** ** What is printed fits *)

Lemma print_name n : Z.of_nat (length n) < 4294967295 -> printf (zs "%s" ++ [10]) [A_str (Some n)] = Ok (n ++ [10]).
Proof.
  intros Hl. pose proof (string_plain n Hl) as E.
  transitivity (Ok (string (Some n) (-1) (-1) 0 ++ [10])); [|by rewrite E]. clear. lazy -[string]. reflexivity.
Qed.

Section Console_proofs.
Context {W : Type} `{HD : !Drivers W}.
Context (calloc : nat -> bool).

Abbreviation state := (console W).

(** ** Searching *)

(** The first registered device of a name, and whether it can be used. *)
Definition named (c : state) (n : list Z) (p : nat) : bool :=
  match heap c !! p with Some d => str_eq (name d) n | None => false end.
Definition can (c : state) (fl : Z) (p : nat) : bool :=
  match heap c !! p with Some d => negb (Z.land (flags d) fl =? 0) | None => false end.
Definition lookup (c : state) (n : option (list Z)) : option nat :=
  match n with Some n => List.find (named c n) (devs c) | None => None end.
Definition usable (c : state) (fl : Z) (n : option (list Z)) : option nat :=
  match lookup c n with Some p => if can c fl p then Some p else None | None => None end.

Definition nodes_ok (c : state) : Prop := forall p, In p (devs c) -> (p < length (heap c))%nat.

Lemma node_ok (c : state) p : (p < length (heap c))%nat -> exists d, heap c !! p = Some d /\ node p c = Ok (d, c).
Proof.
  intros H. destruct (lookup_lt_is_Some_2 _ _ H) as [d E]. exists d. split; [done|]. unfold node, arr_get. unfold mbind, ST_bind. cbn [gets].
  by rewrite E.
Qed.

Lemma find_by_name_ok (c : state) n l : (forall p, In p l -> (p < length (heap c))%nat) ->
  find_by_name l n c = Ok (List.find (named c n) l, c).
Proof.
  induction l as [|p l IH]; intros H; cbn [find_by_name List.find]; [done|].
  destruct (node_ok c p) as (d & Hd & E); [apply H; by left|]. rewrite (bind_ok _ _ _ _ _ E). unfold named at 1. rewrite Hd.
  destruct (str_eq (name d) n); [done|]. apply IH. intros q Hq. apply H. by right.
Qed.

Lemma get_by_name_ok (c : state) n : nodes_ok c -> stdio_get_by_name n c = Ok (lookup c n, c).
Proof. intros H. destruct n as [n|]; [|done]. unfold stdio_get_by_name. rewrite (bind_ok _ _ c (devs c) c eq_refl). by apply find_by_name_ok. Qed.

Lemma lookup_in (c : state) n p : lookup c n = Some p -> In p (devs c).
Proof. destruct n as [n|]; [|done]. intros H. by apply List.find_some in H as [? _]. Qed.

Lemma search_device_ok (c : state) fl n : nodes_ok c -> search_device fl n c = Ok (usable c fl n, c).
Proof.
  intros H. unfold search_device. rewrite (bind_ok _ _ _ _ _ (get_by_name_ok c n H)). unfold usable. destruct (lookup c n) as [p|] eqn:E; [|done].
  destruct (node_ok c p) as (d & Hd & En); [apply H; by eapply lookup_in|]. rewrite (bind_ok _ _ _ _ _ En). unfold can. rewrite Hd. done.
Qed.

Lemma usable_in (c : state) fl n p : usable c fl n = Some p -> In p (devs c) /\ can c fl p = true.
Proof.
  unfold usable. destruct (lookup c n) as [q|] eqn:E; [|done]. destruct (can c fl q) eqn:Hc; [|done]. intros [= <-].
  split; [by eapply lookup_in|done].
Qed.

(** ** Assigning *)

Definition is_file (file : Z) : Prop := file = 0 \/ file = 1 \/ file = 2.
Definition file_flag (file : Z) : Z := if file =? stdin then DEV_FLAGS_INPUT else DEV_FLAGS_OUTPUT.

(** What starting a device says, and the world after it. *)
Definition start_of (d : stdio_dev) (w : W) : Z * W := match start d with None => (0, w) | Some f => call_start f w end.

Lemma console_setfile_ok (c : state) file p d : is_file file -> heap c !! p = Some d ->
  let '(e, w) := start_of d (world c) in
  console_setfile file (Some p) c = Ok (e, if e <? 0 then with_world c w else set_file file p d (with_world c w)).
Proof.
  intros Hf Hd. unfold console_setfile. assert (F : (file =? stdin) || (file =? stdout) || (file =? stderr) = true).
  { unfold stdin, stdout, stderr. destruct Hf as [-> |[-> | ->]]; done. }
  rewrite F. rewrite (bind_ok (node p) _ c d c) by (unfold node, arr_get, mbind, ST_bind; cbn [gets]; by rewrite Hd).
  unfold start_of. destruct (start d) as [f|].
  - destruct (call_start f (world c)) as [e w] eqn:E.
    rewrite (bind_ok _ _ c e (with_world c w)) by (by rewrite E). by destruct (e <? 0).
  - rewrite (bind_ok _ _ c 0 c) by done. cbn [Z.ltb Z.compare]. destruct c. done.
Qed.

(** [console_assign] gives a file the first registered device of the name, if it can
    be used in that direction and starts; otherwise it fails and no file changes. *)
Theorem console_assign_correct (c : state) file n : nodes_ok c ->
  match (if decide (is_file file) then usable c (file_flag file) (Some n) else None) with
  | None => console_assign file n c = Ok (-1, c)
  | Some p =>
      exists d, heap c !! p = Some d /\
      let '(e, w) := start_of d (world c) in
      console_assign file n c = Ok (e, if e <? 0 then with_world c w else set_file file p d (with_world c w))
  end.
Proof.
  intros H. unfold console_assign. destruct (decide (is_file file)) as [Hf|Hf].
  - assert (F : (file =? stdin) || (file =? stdout) || (file =? stderr) = true).
    { unfold stdin, stdout, stderr. destruct Hf as [-> |[-> | ->]]; done. }
    rewrite F. rewrite (bind_ok _ _ _ _ _ (search_device_ok c _ (Some n) H)). fold (file_flag file).
    destruct (usable c (file_flag file) (Some n)) as [p|] eqn:E; [|done]. apply usable_in in E as [Hin _].
    destruct (lookup_lt_is_Some_2 _ _ (H p Hin)) as [d Hd]. exists d. split; [done|]. by apply console_setfile_ok.
  - assert (F : (file =? stdin) || (file =? stdout) || (file =? stderr) = false).
    { unfold is_file, stdin, stdout, stderr in *. lia. }
    by rewrite F.
Qed.

(** ** The state of a console that works *)

Definition complete (d : stdio_dev) : Prop :=
  (Z.land (flags d) DEV_FLAGS_INPUT <> 0 -> is_Some (getc_fn d) /\ is_Some (tstc_fn d)) /\
  (Z.land (flags d) DEV_FLAGS_OUTPUT <> 0 -> is_Some (putc_fn d) /\ is_Some (puts_fn d)).

Definition is_assigned (c : state) (f : nat) : Prop := exists p, stdio_devices c !! f = Some (Some p).

Record console_ok (c : state) : Prop := {
  ok_files : length (stdio_devices c) = 3%nat;
  ok_nodes : nodes_ok c;
  ok_names : Forall (fun d => (length (name d) <= 16)%nat) (heap c);
  ok_complete : Forall complete (heap c);
  ok_assigned f p : stdio_devices c !! f = Some (Some p) -> In p (devs c) /\ can c (file_flag (Z.of_nat f)) p = true;
  ok_serial : exists p, lookup c (Some (zs "serial")) = Some p /\ can c DEV_FLAGS_INPUT p = true /\ can c DEV_FLAGS_OUTPUT p = true;
  ok_init : devinit c = true -> is_assigned c 0 /\ is_assigned c 1 /\ is_assigned c 2;
}.

(** Only these parts of the state matter. *)
Lemma console_ok_same (c c' : state) : heap c' = heap c -> devs c' = devs c -> stdio_devices c' = stdio_devices c -> devinit c' = devinit c ->
  console_ok c -> console_ok c'.
Proof.
  intros E1 E2 E3 E4 [H1 H2 H3 H4 H5 H6 H7].
  split; unfold nodes_ok, is_assigned, lookup, can, named in *; rewrite ?E1, ?E2, ?E3, ?E4; done.
Qed.

Lemma console_ok_world c w : console_ok c -> console_ok (with_world c w).
Proof. by apply console_ok_same. Qed.

Lemma can_flag (c : state) fl p d : heap c !! p = Some d -> can c fl p = true -> Z.land (flags d) fl <> 0.
Proof. unfold can. intros ->. destruct (Z.eqb_spec (Z.land (flags d) fl) 0); done. Qed.

(** An assigned file has a device with the functions of its direction. *)
Lemma file_device_ok (c : state) file : console_ok c -> is_file file -> is_assigned c (Z.to_nat file) ->
  exists d, file_device file c = Ok (d, c) /\ complete d /\ Z.land (flags d) (file_flag file) <> 0 /\ (length (name d) <= 16)%nat.
Proof.
  intros Hc Hf [p Hp]. destruct (ok_assigned c Hc _ _ Hp) as [Hin Hcan]. rewrite Z2Nat.id in Hcan by (destruct Hf as [-> |[-> | ->]]; lia).
  destruct (node_ok c p (ok_nodes c Hc p Hin)) as (d & Hd & E). exists d. split; [|split; [|split]].
  - unfold file_device. destruct (Z.ltb_spec file 0); [destruct Hf as [-> |[-> | ->]]; lia|].
    rewrite (bind_ok _ _ c (stdio_devices c) c eq_refl). unfold arr_get. rewrite Hp. rewrite (bind_ok (lift _) _ c (Some p) c) by done. done.
  - by eapply (proj1 (Forall_lookup _ _) (ok_complete c Hc)).
  - by eapply can_flag.
  - by eapply (proj1 (Forall_lookup _ _) (ok_names c Hc) p).
Qed.

(** A property of the state that the hardware does not take part in. *)
Section Steady.
Context (P : state -> Prop) (HP : forall c, P c -> console_ok c) (Hw : forall c w, P c -> P (with_world c w)).

Lemma call_in_yields f (p : option nat) : is_Some p -> yields P (call_in f p) (fun _ => True).
Proof.
  intros [q ->] c Hc. unfold call_in. destruct (f q (world c)) as [r w] eqn:E. exists r, (with_world c w). split; [done|]. auto.
Qed.

Lemma call_out_yields {A} f (p : option nat) (a : A) : is_Some p -> yields P (call_out f p a) (fun _ => True).
Proof. intros [q ->]. unfold call_out. apply yields_modify. auto. Qed.

(** Each function works before and after the initialisation. *)
Lemma by_file {A} (direct : ST state A) (file : Z) (f : stdio_dev -> ST state A) :
  is_file file -> yields P direct (fun _ => True) ->
  (forall d, complete d -> Z.land (flags d) (file_flag file) <> 0 -> yields P (f d) (fun _ => True)) ->
  forall c, P c -> exists a c', (if devinit c then (d ← file_device file; f d) else direct) c = Ok (a, c') /\ P c' /\ True.
Proof.
  intros Hfile Hd Hf c Hc. destruct (devinit c) eqn:E; [|by apply Hd].
  destruct (file_device_ok c file (HP c Hc) Hfile) as (d & Ed & H1 & H2 & _).
  { destruct (ok_init c (HP c Hc) E) as (H0 & H1 & H2). destruct Hfile as [-> |[-> | ->]]; done. }
  rewrite (bind_ok _ _ _ _ _ Ed). by apply Hf.
Qed.

Lemma getc_yields : yields P getc (fun _ => True).
Proof.
  intros c Hc. unfold getc. rewrite (bind_ok _ _ c c c eq_refl). destruct (disabled c); [by exists 0, c|].
  apply (by_file (call_in call_getc (Some serial)) stdin (fun d => call_in call_getc (getc_fn d))); [by left|by apply call_in_yields| |done].
  intros d [H _] Hf. by apply call_in_yields, H.
Qed.

Lemma tstc_yields : yields P tstc (fun _ => True).
Proof.
  intros c Hc. unfold tstc. rewrite (bind_ok _ _ c c c eq_refl). destruct (disabled c); [by exists 0, c|].
  apply (by_file (call_in call_tstc (Some serial)) stdin (fun d => call_in call_tstc (tstc_fn d))); [by left|by apply call_in_yields| |done].
  intros d [H _] Hf. by apply call_in_yields, H.
Qed.

Lemma putc_yields x : yields P (putc x) (fun _ => True).
Proof.
  intros c Hc. unfold putc. rewrite (bind_ok _ _ c c c eq_refl). destruct (silent c); [by exists tt, c|]. destruct (disabled c); [by exists tt, c|].
  apply (by_file (call_out call_putc (Some serial) x) stdout (fun d => call_out call_putc (putc_fn d) x)); [by right; left|by apply call_out_yields| |done].
  intros d [_ H] Hf. by apply call_out_yields, H.
Qed.

Lemma puts_yields s : yields P (puts s) (fun _ => True).
Proof.
  intros c Hc. unfold puts. rewrite (bind_ok _ _ c c c eq_refl). destruct (silent c); [by exists tt, c|]. destruct (disabled c); [by exists tt, c|].
  apply (by_file (call_out call_puts (Some serial) s) stdout (fun d => call_out call_puts (puts_fn d) s)); [by right; left|by apply call_out_yields| |done].
  intros d [_ H] Hf. by apply call_out_yields, H.
Qed.

Lemma print_current_yields label none file : is_file file -> yields P (print_current label none file) (fun _ => True).
Proof.
  intros Hf. unfold print_current. eapply yields_bind; [apply puts_yields|]. intros _ _ c Hc.
  rewrite (bind_ok _ _ c (stdio_devices c) c eq_refl).
  destruct (lookup_lt_is_Some_2 (stdio_devices c) (Z.to_nat file)) as [a Ha].
  { rewrite (ok_files c (HP c Hc)). destruct Hf as [-> |[-> | ->]]; cbn; lia. }
  unfold arr_get. rewrite Ha. rewrite (bind_ok (lift _) _ c a c) by done. destruct a as [p|]; [|by apply puts_yields].
  destruct (ok_assigned c (HP c Hc) _ _ Ha) as [Hin _]. destruct (node_ok c p (ok_nodes c (HP c Hc) p Hin)) as (d & Hd & E).
  rewrite (bind_ok _ _ _ _ _ E). pose proof (proj1 (Forall_lookup _ _) (ok_names c (HP c Hc)) p d Hd) as Hl. cbv beta in Hl.
  unfold cprintf, print_text. rewrite print_name by lia.
  rewrite (bind_ok _ _ c (name d ++ [10]) c).
  - by apply puts_yields.
  - rewrite (bind_ok (lift _) _ c (name d ++ [10]) c) by done. rewrite length_app. cbn [length].
    destruct (Z.ltb_spec CONFIG_SYS_PBSIZE (Z.of_nat (length (name d) + 1) + 1)); [unfold CONFIG_SYS_PBSIZE in *; lia|done].
Qed.

Lemma print_devices_yields : yields P stdio_print_current_devices (fun _ => True).
Proof.
  unfold stdio_print_current_devices. eapply yields_bind; [apply print_current_yields; by left|]. intros _ _.
  eapply yields_bind; [apply print_current_yields; by right; left|]. intros _ _. apply print_current_yields. by right; right.
Qed.
End Steady.

(** ** Registering *)

Lemma lookup_lt_snoc {A} (l : list A) x p : (p < length l)%nat -> (l ++ [x]) !! p = l !! p.
Proof. intros H. by apply lookup_app_l. Qed.

Lemma can_snoc (c : state) d l fl p : (p < length (heap c))%nat -> can (with_devices c (heap c ++ [d]) l) fl p = can c fl p.
Proof. intros H. unfold can. cbn [heap with_devices]. by rewrite lookup_lt_snoc. Qed.

Lemma find_app {A} (f : A -> bool) l1 l2 x : List.find f l1 = Some x -> List.find f (l1 ++ l2) = Some x.
Proof. induction l1 as [|y l1 IH]; cbn [List.find app]; [done|]. destruct (f y); [done|]. exact IH. Qed.

Lemma find_same {A} (f g : A -> bool) l : (forall x, In x l -> f x = g x) -> List.find f l = List.find g l.
Proof.
  induction l as [|y l IH]; intros H; cbn [List.find]; [done|]. rewrite (H y) by (by left). destruct (g y); [done|].
  apply IH. intros x Hx. apply H. by right.
Qed.

Definition registered (d : stdio_dev) : stdio_dev := Stdio_dev (flags d) (take 16 (name d)) (start d) (putc_fn d) (puts_fn d) (tstc_fn d) (getc_fn d).

Definition with_device (c : state) (d : stdio_dev) : state := with_devices c (heap c ++ [registered d]) (devs c ++ [length (heap c)]).

Lemma stdio_register_ok (c : state) d :
  stdio_register calloc d c = if calloc (length (heap c)) then Ok (0, with_device c d) else Ok (-1, c).
Proof.
  unfold stdio_register, stdio_clone, mbind, ST_bind. cbn [get]. destruct (calloc (length (heap c))); [|done]. cbn [put modify mret]. unfold mret, ST_ret, put, modify. done.
Qed.

(** A new device is found by its name unless an older one has it; nothing else changes. *)
Lemma lookup_with_device (c : state) d n p : nodes_ok c -> lookup c (Some n) = Some p -> lookup (with_device c d) (Some n) = Some p.
Proof.
  intros Hn H. unfold lookup in *. cbn [devs with_device with_devices]. apply find_app. rewrite <- H. apply find_same.
  intros q Hq. unfold named. cbn [heap with_device with_devices]. by rewrite lookup_lt_snoc by (by apply Hn).
Qed.

Lemma register_keeps (c : state) d : complete d -> console_ok c -> console_ok (with_device c d).
Proof.
  intros Hd [H1 H2 H3 H4 H5 H6 H7].
  assert (K : forall fl q, In q (devs c) -> can (with_device c d) fl q = can c fl q) by (intros fl q Hq; by apply can_snoc, H2).
  split.
  - exact H1.
  - intros p Hp. apply in_app_or in Hp. cbn [heap with_device with_devices]. rewrite length_app. cbn [length].
    destruct Hp as [Hp|[<-|[]]]; [specialize (H2 p Hp)|]; lia.
  - apply Forall_app. split; [done|]. constructor; [|done]. cbn [name registered]. rewrite length_take. lia.
  - apply Forall_app. split; [done|]. by constructor.
  - intros f p E. destruct (H5 f p E) as [Hin Hc]. split; [apply in_or_app; by left|]. by rewrite K.
  - destruct H6 as (p & E & Hi & Ho). exists p. pose proof (lookup_in _ _ _ E) as Hin. rewrite !K by done. split; [by apply lookup_with_device|done].
  - exact H7.
Qed.

(** ** Assigning keeps the state *)

Lemma set_file_keeps (c : state) file p d : is_file file -> heap c !! p = Some d -> In p (devs c) -> can c (file_flag file) p = true ->
  console_ok c -> console_ok (set_file file p d c).
Proof.
  intros Hf Hd Hin Hcan [H1 H2 H3 H4 H5 H6 H7].
  assert (Hz : (Z.to_nat file < 3)%nat) by (destruct Hf as [-> |[-> | ->]]; cbn; lia).
  split; cbn [stdio_devices set_file with_files devs heap devinit]; try done.
  - by rewrite length_insert.
  - intros f q E. destruct (decide (Z.to_nat file = f)) as [<-|Hne].
    + rewrite list_lookup_insert_eq in E by (rewrite H1; lia). injection E as <-. split; [done|].
      rewrite Z2Nat.id by (destruct Hf as [-> |[-> | ->]]; lia). exact Hcan.
    + rewrite list_lookup_insert_ne in E by done. exact (H5 f q E).
  - intros Hi. destruct (H7 Hi) as (A0 & A1 & A2).
    assert (K : forall f, is_assigned c f -> is_assigned (set_file file p d c) f).
    { intros f [q Hq]. unfold is_assigned. cbn [stdio_devices set_file with_files]. destruct (decide (Z.to_nat file = f)) as [<-|Hne].
      - exists p. rewrite list_lookup_insert_eq by (rewrite H1; lia). done.
      - exists q. by rewrite list_lookup_insert_ne. }
    split_and!; by apply K.
Qed.

Context (Hstart : forall f w, 0 <= fst (call_start f w)).

Lemma start_of_ok d w : (fst (start_of d w) <? 0) = false.
Proof. unfold start_of. destruct (start d) as [f|]; [pose proof (Hstart f w)|cbn]; lia. Qed.

Lemma assign_yields file n : yields console_ok (console_assign file n) (fun _ => True).
Proof.
  intros c Hc. pose proof (console_assign_correct c file n (ok_nodes c Hc)) as H.
  destruct (decide (is_file file)) as [Hf|Hf]; [|by exists (-1), c].
  destruct (usable c (file_flag file) (Some n)) as [p|] eqn:E; [|by exists (-1), c]. destruct H as (d & Hd & H).
  apply usable_in in E as [Hin Hcan]. pose proof (start_of_ok d (world c)) as Hs. destruct (start_of d (world c)) as [e w]. cbn [fst] in Hs. rewrite Hs in H.
  exists e, (set_file file p d (with_world c w)). split; [done|]. split; [|done].
  apply set_file_keeps; try done. by apply console_ok_world.
Qed.

(** ** Initialisation *)

(** The device of a file: the one the environment names, if it can be used, or the
    serial one. *)
Definition chosen (c : state) (overwrite : bool) (file : Z) (n : option (list Z)) : option nat :=
  match (if overwrite then None else usable c (file_flag file) n) with
  | Some p => Some p
  | None => usable c (file_flag file) (Some (zs "serial"))
  end.

Lemma chosen_some (c : state) ov file n : console_ok c -> is_file file ->
  exists p d, chosen c ov file n = Some p /\ heap c !! p = Some d /\ In p (devs c) /\ can c (file_flag file) p = true.
Proof.
  intros Hc Hf. assert (K : exists p, chosen c ov file n = Some p /\ In p (devs c) /\ can c (file_flag file) p = true).
  { unfold chosen. destruct (if ov then None else usable c (file_flag file) n) as [p|] eqn:E.
    - exists p. split; [done|]. destruct ov; [done|]. by eapply usable_in.
    - destruct (ok_serial c Hc) as (p & Hp & Hi & Ho). exists p. assert (Hcan : can c (file_flag file) p = true).
      { unfold file_flag. by destruct (file =? stdin). }
      unfold usable. rewrite Hp, Hcan. split; [done|]. split; [by eapply lookup_in|done]. }
  destruct K as (p & E & Hin & Hcan). destruct (node_ok c p (ok_nodes c Hc p Hin)) as (d & Hd & _). by exists p, d.
Qed.

Lemma choose_ok (c : state) (ov : bool) file n : nodes_ok c ->
  (dev ← (if ov then mret None else search_device (file_flag file) n); default_device (file_flag file) dev) c = Ok (chosen c ov file n, c).
Proof.
  intros H. unfold chosen.
  rewrite (bind_ok (if ov then mret None else search_device (file_flag file) n) _ c (if ov then None else usable c (file_flag file) n) c)
    by (destruct ov; [done|by apply search_device_ok]).
  unfold default_device. destruct (if ov then None else usable c (file_flag file) n); [done|]. by apply search_device_ok.
Qed.

(** Assigning a file, with the world after starting its device. *)
Lemma doenv_ok (c : state) file p d : is_file file -> heap c !! p = Some d ->
  exists w, console_doenv file (Some p) c = Ok (tt, set_file file p d (with_world c w)).
Proof.
  intros Hf Hd. pose proof (console_setfile_ok c file p d Hf Hd) as E. pose proof (start_of_ok d (world c)) as Hs.
  destruct (start_of d (world c)) as [e w]. cbn [fst] in Hs. rewrite Hs in E. exists w. unfold console_doenv. by rewrite (bind_ok _ _ _ _ _ E).
Qed.

(** The names the environment gives. *)
Record env_names (env : env_state) := Env_names {
  en_in : option (list Z); en_out : option (list Z); en_err : option (list Z);
  en_in_ok : getenv_value env (zs "stdin") = Ok en_in;
  en_out_ok : getenv_value env (zs "stdout") = Ok en_out;
  en_err_ok : getenv_value env (zs "stderr") = Ok en_err;
}.
Arguments en_in {env}.
Arguments en_out {env}.
Arguments en_err {env}.
Arguments en_in_ok {env}.
Arguments en_out_ok {env}.
Arguments en_err_ok {env}.

Definition env_choice (c : state) (ov : bool) (file : Z) (n : option (list Z)) : option nat := if ov then None else usable c (file_flag file) n.

Lemma env_search_ok (c : state) (ov : bool) file n : nodes_ok c ->
  (if ov then mret None else search_device (file_flag file) n) c = Ok (env_choice c ov file n, c).
Proof. intros H. destruct ov; [done|]. by apply search_device_ok. Qed.

Lemma default_ok (c : state) ov file n : nodes_ok c -> default_device (file_flag file) (env_choice c ov file n) c = Ok (chosen c ov file n, c).
Proof.
  intros H. unfold default_device, chosen. fold (env_choice c ov file n). destruct (env_choice c ov file n); [done|]. by apply search_device_ok.
Qed.

(** Assigning the chosen device of a file: the heap, the list and the flags stay. *)
Lemma doenv_chosen (c c1 : state) ov file n : console_ok c -> is_file file -> console_ok c1 -> heap c1 = heap c -> devs c1 = devs c ->
  exists c2, console_doenv file (chosen c ov file n) c1 = Ok (tt, c2) /\ console_ok c2 /\ heap c2 = heap c /\ devs c2 = devs c /\
    stdio_devices c2 = <[Z.to_nat file := chosen c ov file n]> (stdio_devices c1) /\ devinit c2 = devinit c1.
Proof.
  intros Hc Hf Hc1 Eh Ed. destruct (chosen_some c ov file n Hc Hf) as (p & d & -> & Hd & Hin & Hcan).
  rewrite <- Eh in Hd. destruct (doenv_ok c1 file p d Hf Hd) as [w E]. exists (set_file file p d (with_world c1 w)). split; [done|].
  split; [|done]. apply set_file_keeps; [done|done| | |by apply console_ok_world].
  - cbn [devs with_world]. by rewrite Ed.
  - unfold can in *. cbn [heap with_world]. by rewrite Eh.
Qed.

(** The files after [console_init_r]. *)
Lemma console_init_r_files (c : state) ov env (e : env_names env) : console_ok c ->
  exists c', console_init_r ov env c = Ok (0, c') /\ console_ok c' /\ devinit c' = true /\
    stdio_devices c' = [chosen c ov stdin (en_in e); chosen c ov stdout (en_out e); chosen c ov stderr (en_err e)].
Proof.
  intros Hc. unfold console_init_r.
  set (c0 := with_files c (stdio_devices c) (Jt (Some serial) (Some serial) (Some serial) (Some serial) Serial_printf)).
  rewrite (bind_ok (modify _) _ c tt c0) by done. assert (H0 : console_ok c0) by (by apply (console_ok_same c)).
  rewrite (bind_ok (lift _) _ c0 (en_in e) c0) by (by rewrite (en_in_ok e)).
  rewrite (bind_ok (lift _) _ c0 (en_out e) c0) by (by rewrite (en_out_ok e)).
  rewrite (bind_ok (lift _) _ c0 (en_err e) c0) by (by rewrite (en_err_ok e)).
  pose proof (ok_nodes c0 H0) as Hn.
  rewrite (bind_ok _ _ _ _ _ (env_search_ok c0 ov stdin (en_in e) Hn)), (bind_ok _ _ _ _ _ (env_search_ok c0 ov stdout (en_out e) Hn)),
    (bind_ok _ _ _ _ _ (env_search_ok c0 ov stderr (en_err e) Hn)).
  rewrite (bind_ok _ _ _ _ _ (default_ok c0 ov stdin (en_in e) Hn)), (bind_ok _ _ _ _ _ (default_ok c0 ov stdout (en_out e) Hn)),
    (bind_ok _ _ _ _ _ (default_ok c0 ov stderr (en_err e) Hn)).
  destruct (doenv_chosen c0 c0 ov stdout (en_out e)) as (c1 & E1 & H1 & Eh1 & Ed1 & F1 & _); try done; [by right; left|].
  rewrite (bind_ok _ _ _ _ _ E1).
  destruct (doenv_chosen c0 c1 ov stderr (en_err e)) as (c2 & E2 & H2 & Eh2 & Ed2 & F2 & _); try done; [by right; right|].
  rewrite (bind_ok _ _ _ _ _ E2).
  destruct (doenv_chosen c0 c2 ov stdin (en_in e)) as (c3 & E3 & H3 & Eh3 & Ed3 & F3 & _); try done; [by left|].
  rewrite (bind_ok _ _ _ _ _ E3).
  set (L := [chosen c ov stdin (en_in e); chosen c ov stdout (en_out e); chosen c ov stderr (en_err e)]).
  assert (F : stdio_devices c3 = L).
  { rewrite F3, F2, F1. pose proof (ok_files c Hc) as Hl. cbn [stdio_devices with_files c0].
    destruct (stdio_devices c) as [|x0 [|x1 [|x2 [|]]]]; try (cbn in Hl; lia). reflexivity. }
  set (c4 := with_flags c3 true (silent c3) (have_console c3)). rewrite (bind_ok (modify _) _ c3 tt c4) by done.
  assert (H4 : console_ok c4).
  { destruct H3 as [G1 G2 G3 G4 G5 G6 _]. split; try done. intros _. unfold is_assigned. cbn [stdio_devices with_flags c4]. rewrite F. unfold L.
    destruct (chosen_some c ov stdin (en_in e) Hc ltac:(by left)) as (p0 & _ & -> & _).
    destruct (chosen_some c ov stdout (en_out e) Hc ltac:(by right; left)) as (p1 & _ & -> & _).
    destruct (chosen_some c ov stderr (en_err e) Hc ltac:(by right; right)) as (p2 & _ & -> & _).
    split_and!; by eexists. }
  destruct (print_devices_yields (fun c' => console_ok c' /\ devinit c' = true /\ stdio_devices c' = L)) with (s := c4) as (u & c5 & E5 & (H5 & D5 & F5) & _).
  - by intros c' [? _].
  - intros c' w (G1 & G2 & G3). split; [by apply console_ok_world|done].
  - done.
  - rewrite (bind_ok _ _ _ _ _ E5). exists c5. done.
Qed.

(** ** Nothing faults *)

Inductive op :=
| Register (d : stdio_dev) | Assign (file : Z) (n : list Z) | Init (overwrite : bool) (env : env_state)
| Getc | Tstc | Putc (x : Z) | Puts (s : list Z) | Ctrlc | Disable (n : Z) | Clear.

(** Drivers register devices with the functions of their directions, and the
    environment is one that can be read. *)
Definition op_ok (o : op) : Prop :=
  match o with Register d => complete d | Init _ env => inhabited (env_names env) | _ => True end.

Definition run_op (o : op) : ST state unit :=
  match o with
  | Register d => stdio_register calloc d;; mret tt
  | Assign file n => console_assign file n;; mret tt
  | Init ov env => console_init_r ov env;; mret tt
  | Getc => getc;; mret tt
  | Tstc => tstc;; mret tt
  | Putc x => putc x
  | Puts s => puts s
  | Ctrlc => ctrlc;; mret tt
  | Disable n => disable_ctrlc n;; mret tt
  | Clear => clear_ctrlc
  end.

Fixpoint run_ops (ops : list op) : ST state unit := match ops with [] => mret tt | o :: ops => run_op o;; run_ops ops end.

Lemma drop_result {A} (f : ST state A) : yields console_ok f (fun _ => True) -> yields console_ok (f;; mret tt) (fun _ => True).
Proof. intros H. eapply yields_bind; [exact H|]. intros a _. by apply yields_ret. Qed.

Lemma ctrlc_yields : yields console_ok ctrlc (fun _ => True).
Proof.
  intros c Hc. unfold ctrlc. rewrite (bind_ok _ _ c c c eq_refl). destruct (_ && _); [|by exists 0, c].
  destruct (tstc_yields console_ok ltac:(done) console_ok_world c Hc) as (t & c1 & E1 & H1 & _). rewrite (bind_ok _ _ _ _ _ E1).
  destruct (negb (t =? 0)); [|by exists 0, c1].
  destruct (getc_yields console_ok ltac:(done) console_ok_world c1 H1) as (k & c2 & E2 & H2 & _). rewrite (bind_ok _ _ _ _ _ E2).
  destruct (k =? 3); [|by exists 0, c2]. eexists 1, _. split; [reflexivity|]. split; [|done]. by apply (console_ok_same c2).
Qed.

Lemma run_op_yields o : op_ok o -> yields console_ok (run_op o) (fun _ => True).
Proof.
  destruct o as [d|file n|ov env| | |x|s| |n|]; intros Ho; cbn [run_op].
  - apply drop_result. intros c Hc. rewrite stdio_register_ok. destruct (calloc _); eexists _, _; (split; [reflexivity|]); [|done].
    split; [by apply register_keeps|done].
  - apply drop_result, assign_yields.
  - apply drop_result. intros c Hc. destruct Ho as [e]. destruct (console_init_r_files c ov env e Hc) as (c' & E & H & _). by exists 0, c'.
  - by apply drop_result, (getc_yields console_ok ltac:(done) console_ok_world).
  - by apply drop_result, (tstc_yields console_ok ltac:(done) console_ok_world).
  - by apply (putc_yields console_ok ltac:(done) console_ok_world).
  - by apply (puts_yields console_ok ltac:(done) console_ok_world).
  - apply drop_result, ctrlc_yields.
  - apply drop_result. intros c Hc. eexists _, _. split; [reflexivity|]. split; [|done]. by apply (console_ok_same c).
  - apply yields_modify. intros c. by apply console_ok_same.
Qed.

Lemma run_ops_ok ops (c : state) : console_ok c -> Forall op_ok ops -> exists c', run_ops ops c = Ok (tt, c') /\ console_ok c'.
Proof.
  revert c. induction ops as [|o ops IH]; intros c Hc Ho; cbn [run_ops]; [by exists c|]. apply Forall_cons in Ho as [Ho Hos].
  destruct (run_op_yields o Ho c Hc) as (u & c1 & E & H1 & _). rewrite (bind_ok _ _ _ _ _ E). by apply IH.
Qed.
End Console_proofs.

Section Console_theorems.
Context {W : Type} `{HD : !Drivers W}.

(** The [start] functions of all drivers succeed.  [console_init_r] does not look at
    their result: see [console_init_r_start_fails]. *)
Definition all_start : Prop := forall f (w : W), 0 <= fst (call_start f w).

(** C21: As long as the [start] functions of the drivers succeed: whatever is registered,
    assigned, read and printed in any order, before and after the initialisation, no
    operation of the console goes wrong, and the state stays one in which every file has a
    device for its direction.  It starts from a list of devices with a serial one. *)
Theorem console_never_faults (calloc : nat -> bool) ops (c : console W) : all_start -> console_ok c -> Forall op_ok ops ->
  exists c', run_ops calloc ops c = Ok (tt, c') /\ console_ok c'.
Proof. intros Hs. by apply run_ops_ok. Qed.

(** C22: As long as the [start] functions of the drivers succeed: after [console_init_r]
    every file has the device the environment names, or the serial one where it names none
    that can be used, and the console works. *)
Theorem console_init_r_correct (c : console W) ov env (e : env_names env) : all_start -> console_ok c ->
  exists c', console_init_r ov env c = Ok (0, c') /\ console_ok c' /\ devinit c' = true /\
    stdio_devices c' = [chosen c ov stdin (en_in _ e); chosen c ov stdout (en_out _ e); chosen c ov stderr (en_err _ e)].
Proof. intros Hs. by apply console_init_r_files. Qed.
End Console_theorems.

(** ** A desk with a serial line and a display *)

(** What was printed, by which driver, and the keys to come; [broken] makes the display's
    [start] fail. *)
Record desk (broken : bool) := Desk { printed : list (nat * list Z); keys : list Z }.
Arguments Desk {broken}.
Arguments printed {broken}.
Arguments keys {broken}.

#[export] Instance desk_drivers broken : Drivers (desk broken) := {
  call_start f w := (if broken then -1 else 0, w);
  call_putc f x w := Desk (printed w ++ [(f, [x])]) (keys w);
  call_puts f s w := Desk (printed w ++ [(f, s)]) (keys w);
  call_tstc f w := (b2z (negb (bool_decide (keys w = []))), w);
  call_getc f w := match keys w with [] => (0, w) | k :: ks => (k, Desk (printed w) ks) end;
}.

Lemma desk_starts : forall f (w : desk false), 0 <= fst (call_start f w).
Proof. intros f w. cbn. lia. Qed.

Definition lcd : stdio_dev := Stdio_dev DEV_FLAGS_OUTPUT (zs "lcd") (Some 1%nat) (Some 1%nat) (Some 1%nat) None None.

Definition at_reset {broken} (k : list Z) : console (desk broken) :=
  Con [] [] [None; None; None] (Jt None None None None Serial_printf) false false false true 0 false (Desk [] k).

(** The board after [stdio_init] with a display. *)
Definition board_console {broken} (k : list Z) : console (desk broken) :=
  Con [lcd; serial_dev] [0%nat; 1%nat] [None; None; None] (Jt None None None None Serial_printf) false false false true 0 false (Desk [] k).

Example board_console_init : stdio_init (fun _ => true) [lcd] (@at_reset false []) = Ok (0, board_console []).
Proof. reflexivity. Qed.

Lemma board_console_ok broken k : console_ok (@board_console broken k).
Proof.
  split; cbn; try done.
  - intros p [<-|[<-|[]]]; cbn; lia.
  - repeat constructor; cbn; lia.
  - repeat constructor; cbn; try done; by eexists.
  - intros [|[|[|f]]] p; done.
  - exists 1%nat. done.
Defined.

Definition lcd_env : env_state := make_env 100 [(zs "stdin", zs "serial"); (zs "stdout", zs "lcd")].

Definition lcd_env_names : env_names lcd_env.
Proof. refine (Env_names lcd_env (Some (zs "serial")) (Some (zs "lcd")) None _ _ _); vm_compute; reflexivity. Defined.

Lemma console_assign_correct_witness :
  console_assign stdout (zs "lcd") (@board_console false []) = Ok (0, set_file stdout 0 lcd (board_console [])).
Proof.
  pose proof (console_assign_correct (@board_console false []) stdout (zs "lcd") ltac:(intros p [<-|[<-|[]]]; cbn; lia)) as H.
  destruct (decide (is_file stdout)) as [_|N]; [|exfalso; apply N; by right; left].
  change (usable (@board_console false []) (file_flag stdout) (Some (zs "lcd"))) with (Some 0%nat) in H. destruct H as (d & Hd & E).
  injection Hd as <-. exact E.
Defined.

Lemma console_init_r_correct_witness : exists c', console_init_r false lcd_env (@board_console false []) = Ok (0, c') /\
  stdio_devices c' = [Some 1%nat; Some 0%nat; Some 1%nat].
Proof.
  destruct (console_init_r_correct (@board_console false []) false lcd_env lcd_env_names desk_starts (board_console_ok false [])) as (c' & E & _ & _ & F).
  exists c'. split; [exact E|]. exact F.
Defined.

Definition session : list op := [Puts (zs "boot"); Init false lcd_env; Ctrlc; Putc 10; Assign 1 (zs "serial"); Register lcd; Assign 1 (zs "nothing"); Puts (zs "ready"); Getc].

Lemma console_never_faults_witness : exists c', run_ops (fun _ => true) session (@board_console false [3; 65]) = Ok (tt, c') /\ console_ok c'.
Proof.
  apply (console_never_faults (fun _ => true) session (@board_console false [3; 65]) desk_starts (board_console_ok false [3; 65])).
  repeat constructor; cbn; try done; by eexists.
Defined.

(** A device whose start fails is not assigned, but the console is switched over all the
    same: the next character is printed through a null pointer. *)
Example console_init_r_start_fails : console_init_r false lcd_env (@board_console true []) = Fault.
Proof. vm_compute. reflexivity. Qed.

(** Without an output device the message that there is none is printed through it. *)
Example no_output_device : console_init_r false (make_env 100 []) (@at_reset false []) = Fault.
Proof. vm_compute. reflexivity. Qed.

(** The copies of the names overlap and the last one ends behind the array. *)
Example stdio_deregister_overflows :
  match console_init_r true (make_env 100 []) (@board_console false []) with
  | Ok (_, c) => stdio_deregister (zs "lcd") c
  | _ => OutOfFuel
  end = Fault.
Proof. vm_compute. reflexivity. Qed.

(** A key that is not Ctrl-C is lost. *)
Example ctrlc_swallows : ctrlc (@board_console false (zs "go")) = Ok (0, board_console (zs "o")).
Proof. vm_compute. reflexivity. Qed.

(** Text longer than [printbuffer] runs over its end. *)
Example serial_printf_overflows : serial_printf (zs "%s") [A_str (Some (replicate 281 65))] (@board_console false []) = Fault.
Proof. vm_compute. reflexivity. Qed.
