(* ===== verification/XyzModem.v ===== *)
(** * The X- and Y-modem receiver (common/xyzModem.c)

    The serial line is what it will deliver: for each byte the time, in the steps of 20
    microseconds the code waits in, from when the byte before was taken until this one is
    there; it may be there already.  So a silence is a byte that comes late, and after
    the last one there is silence for ever.  The receiver answers with the bytes in
    [sent]. *)

From S2P Require Import Prelude Mem Ctype Vsprintf Crc Display.

Definition SOH : Z := 0x01.
Definition STX : Z := 0x02.
Definition EOT : Z := 0x04.
Definition ACK : Z := 0x06.
Definition BSP : Z := 0x08.
Definition NAK : Z := 0x15.
Definition CAN : Z := 0x18.
Definition EOF : Z := 0x1A.

Definition xyzModem_xmodem : Z := 1.
Definition xyzModem_ymodem : Z := 2.
Definition xyzModem_access : Z := -1.
Definition xyzModem_noZmodem : Z := -2.
Definition xyzModem_timeout : Z := -3.
Definition xyzModem_eof : Z := -4.
Definition xyzModem_cancel : Z := -5.
Definition xyzModem_frame : Z := -6.
Definition xyzModem_cksum : Z := -7.
Definition xyzModem_sequence : Z := -8.

Definition xyzModem_MAX_RETRIES : nat := 20.
Definition xyzModem_MAX_RETRIES_WITH_CRC : Z := 10.
Definition xyzModem_CAN_COUNT : Z := 3.

(** [xyzModem_CHAR_TIMEOUT * 1000 / DELAY] steps of [DELAY] microseconds. *)
Definition DELAY : Z := 20.
Definition CHAR_STEPS : Z := 2000 * 1000 / DELAY.
Definition CHAR_WAIT : nat := Z.to_nat CHAR_STEPS.

(** The packet: its buffer, where the unread part begins and its length. *)
Record packet := Packet {
  pkt : list Z;
  bufp : nat;
  len : Z;
  blk : Z;
  cblk : Z;
  crc1 : Z;
  crc2 : Z;
}.

Record totals := Totals { total_retries : Z; total_SOH : Z; total_STX : Z; total_CAN : Z }.

Record xyz := Xyz {
  frame : packet;
  next_blk : Z;
  mode : Z;
  count : totals;
  crc_mode : bool;
  at_eof : bool;
  tx_ack : bool;
  file_length : Z;
  read_length : Z;
  line : list (Z * Z);
  sent : list Z;
}.

Abbreviation X := (ST xyz).

Definition set_frame (p : packet) (x : xyz) : xyz :=
  Xyz p (next_blk x) (mode x) (count x) (crc_mode x) (at_eof x) (tx_ack x) (file_length x) (read_length x) (line x) (sent x).
Definition set_next (n : Z) (x : xyz) : xyz :=
  Xyz (frame x) n (mode x) (count x) (crc_mode x) (at_eof x) (tx_ack x) (file_length x) (read_length x) (line x) (sent x).
Definition set_count (c : totals) (x : xyz) : xyz :=
  Xyz (frame x) (next_blk x) (mode x) c (crc_mode x) (at_eof x) (tx_ack x) (file_length x) (read_length x) (line x) (sent x).
Definition set_crc_mode (b : bool) (x : xyz) : xyz :=
  Xyz (frame x) (next_blk x) (mode x) (count x) b (at_eof x) (tx_ack x) (file_length x) (read_length x) (line x) (sent x).
Definition set_eof (b : bool) (x : xyz) : xyz :=
  Xyz (frame x) (next_blk x) (mode x) (count x) (crc_mode x) b (tx_ack x) (file_length x) (read_length x) (line x) (sent x).
Definition set_ack (b : bool) (x : xyz) : xyz :=
  Xyz (frame x) (next_blk x) (mode x) (count x) (crc_mode x) (at_eof x) b (file_length x) (read_length x) (line x) (sent x).
Definition set_lengths (f r : Z) (x : xyz) : xyz :=
  Xyz (frame x) (next_blk x) (mode x) (count x) (crc_mode x) (at_eof x) (tx_ack x) f r (line x) (sent x).
Definition set_line (l : list (Z * Z)) (x : xyz) : xyz :=
  Xyz (frame x) (next_blk x) (mode x) (count x) (crc_mode x) (at_eof x) (tx_ack x) (file_length x) (read_length x) l (sent x).
Definition set_sent (s : list Z) (x : xyz) : xyz :=
  Xyz (frame x) (next_blk x) (mode x) (count x) (crc_mode x) (at_eof x) (tx_ack x) (file_length x) (read_length x) (line x) s.

Definition with_pkt (b : list Z) (p : packet) : packet := Packet b (bufp p) (len p) (blk p) (cblk p) (crc1 p) (crc2 p).
Definition with_buf (o : nat) (n : Z) (p : packet) : packet := Packet (pkt p) o n (blk p) (cblk p) (crc1 p) (crc2 p).
Definition with_blk (b : Z) (p : packet) : packet := Packet (pkt p) (bufp p) (len p) b (cblk p) (crc1 p) (crc2 p).
Definition with_cblk (b : Z) (p : packet) : packet := Packet (pkt p) (bufp p) (len p) (blk p) b (crc1 p) (crc2 p).
Definition with_crc1 (b : Z) (p : packet) : packet := Packet (pkt p) (bufp p) (len p) (blk p) (cblk p) b (crc2 p).
Definition with_crc2 (b : Z) (p : packet) : packet := Packet (pkt p) (bufp p) (len p) (blk p) (cblk p) (crc1 p) b.

Definition on_frame (f : packet -> packet) : X unit := modify (fun x => set_frame (f (frame x)) x).
Definition on_count (f : totals -> totals) : X unit := modify (fun x => set_count (f (count x)) x).
Definition retry (t : totals) : totals := Totals (total_retries t + 1) (total_SOH t) (total_STX t) (total_CAN t).

(** ** The line *)

(** Time goes by. *)
Definition elapse (n : Z) (l : list (Z * Z)) : list (Z * Z) := match l with [] => [] | (g, b) :: l => (g - n, b) :: l end.

Definition tstc : X bool := gets (fun x => match line x with [] => false | (g, _) :: _ => g <=? 0 end).
Definition udelay (us : Z) : X unit := modify (fun x => set_line (elapse (us / DELAY) (line x)) x).
Definition getc : X Z := fun x => match line x with [] => OutOfFuel | (_, b) :: l => Ok (b, set_line l x) end.
Definition putc (c : Z) : X unit := modify (fun x => set_sent (sent x ++ [c]) x).

(** The waiting loop: [counter] goes from [CHAR_STEPS] down here. *)
Fixpoint wait_loop (counter : nat) : X unit :=
  ready ← tstc;
  if (ready : bool) then mret tt
  else match counter with O => mret tt | S counter => udelay DELAY;; wait_loop counter end.

(** A byte, or [None] after the timeout. *)
Definition getc_timeout : X (option Z) :=
  wait_loop CHAR_WAIT;;
  ready ← tstc;
  if (ready : bool) then c ← getc; mret (Some c) else mret None.

(** Fuel: each turn takes a byte of the line. *)
Fixpoint flush_loop (fuel : nat) : X unit :=
  match fuel with
  | O => out_of_fuel
  | S fuel => c ← getc_timeout; match c with None => mret tt | Some _ => flush_loop fuel end
  end.
Definition xyzModem_flush : X unit := l ← gets line; flush_loop (S (length l)).

(** ** Numbers *)

Definition _is_hex (c : Z) : bool :=
  ((ch "0" <=? c) && (c <=? ch "9")) || ((ch "A" <=? c) && (c <=? ch "F")) || ((ch "a" <=? c) && (c <=? ch "f")).

Definition _from_hex (c : Z) : Z :=
  if (ch "0" <=? c) && (c <=? ch "9") then c - ch "0"
  else if (ch "a" <=? c) && (c <=? ch "f") then c - ch "a" + 0x0a
  else if (ch "A" <=? c) && (c <=? ch "F") then c - ch "A" + 0x0A
  else 0.

Definition _tolower (c : Z) : Z := if (ch "A" <=? c) && (c <=? ch "Z") then c - ch "A" + ch "a" else c.

(** [parse_num] with the delimiter " ": the number, if it is well formed.  [s] is the
    string before its NUL; a bare "0x" takes the NUL for a digit and is none. *)
Fixpoint parse_digits (fuel : nat) (s : list Z) (first : bool) (radix result : Z) : option Z :=
  match fuel, s with
  | S fuel, _ :: _ =>
      let '(s, radix) := if first && (deref s =? ch "0") && (_tolower (deref (tl s)) =? ch "x") then (drop 2 s, 16) else (s, radix) in
      match s with
      | [] => None
      | c :: s =>
          if _is_hex c && (_from_hex c <? radix) then parse_digits fuel s false radix (u32 (result * radix + _from_hex c))
          else if c =? ch " " then Some result else None
      end
  | _, _ => Some result
  end.

Fixpoint skip_spaces (s : list Z) : list Z := match s with c :: s' => if c =? ch " " then skip_spaces s' else s | [] => [] end.

Definition parse_num (s : list Z) : option Z := let s := skip_spaces s in parse_digits (length s) s true 10 0.

(** ** Packets *)

(** Looking for the start of a packet: its first byte, or what to return. *)
Inductive header := Start (c : Z) | Return (stat : Z).

Fixpoint find_header (fuel : nat) (can_total hdr_chars : Z) : X header :=
  match fuel with
  | O => out_of_fuel
  | S fuel =>
      r ← getc_timeout;
      match r with
      | Some c =>
          let hdr_chars := hdr_chars + 1 in
          if c =? SOH then on_count (fun t => Totals (total_retries t) (total_SOH t + 1) (total_STX t) (total_CAN t));; mret (Start c)
          else if c =? STX then on_count (fun t => Totals (total_retries t) (total_SOH t) (total_STX t + 1) (total_CAN t));; mret (Start c)
          else if c =? CAN then
            on_count (fun t => Totals (total_retries t) (total_SOH t) (total_STX t) (total_CAN t + 1));;
            if can_total + 1 =? xyzModem_CAN_COUNT then mret (Return xyzModem_cancel) else find_header fuel (can_total + 1) hdr_chars
          else if (c =? EOT) && (hdr_chars =? 1) then putc ACK;; mret (Return xyzModem_eof)
          else find_header fuel can_total hdr_chars
      | None =>
          xyzModem_flush;;
          udelay 250000;;
          mret (Return xyzModem_timeout)
      end
  end.

(** The data of a packet goes into [pkt] from [i] on. *)
Fixpoint read_data (n i : nat) : X bool :=
  match n with
  | O => mret true
  | S n =>
      r ← getc_timeout;
      match r with
      | Some c => p ← gets frame; b ← lift (arr_set (pkt p) i c); on_frame (with_pkt b);; read_data n (S i)
      | None => mret false
      end
  end.

(** A byte of the frame. *)
Definition read_field (f : Z -> packet -> packet) : X bool :=
  r ← getc_timeout; match r with Some c => on_frame (f c);; mret true | None => mret false end.

Definition sum_bytes (l : list Z) : Z := fold_left (fun s b => u16 (s + b)) l 0.

Definition check_packet : X Z :=
  x ← get;
  let p := frame x in
  if negb (Z.lxor (blk p) (cblk p) =? 0xFF) then xyzModem_flush;; mret xyzModem_frame
  else
    let data := take (Z.to_nat (len p)) (pkt p) in
    if crc_mode x then mret (if negb (cyg_crc16 data =? Z.lor (Z.shiftl (crc1 p) 8) (crc2 p)) then xyzModem_cksum else 0)
    else mret (if negb (crc1 p =? Z.land (sum_bytes data) 0xFF) then xyzModem_cksum else 0).

Definition read_packet (c : Z) : X Z :=
  ok ← read_field with_blk; if negb ok then mret xyzModem_timeout else
  ok ← read_field with_cblk; if negb ok then mret xyzModem_timeout else
  let n := if c =? SOH then 128 else 1024 in
  on_frame (with_buf 0 n);;
  ok ← read_data (Z.to_nat n) 0; if negb ok then mret xyzModem_timeout else
  ok ← read_field with_crc1; if negb ok then mret xyzModem_timeout else
  x ← get;
  ok ← (if crc_mode x then read_field with_crc2 else mret true); if negb ok then mret xyzModem_timeout else
  check_packet.

Definition xyzModem_get_hdr : X Z :=
  x ← get;
  (if tx_ack x then putc ACK;; modify (set_ack false) else mret tt);;
  l ← gets line;
  h ← find_header (S (length l)) 0 0;
  match h with
  | Return stat => mret stat
  | Start c => read_packet c
  end.

(** The character that asks for a packet. *)
Definition ask : X unit := x ← get; putc (if crc_mode x then ch "C" else NAK).

(** ** Opening *)

(** The string at [i] in [l]; without a NUL it runs on behind the array. *)
Fixpoint string_in (l : list Z) : res (list Z * list Z) :=
  match l with
  | [] => Fault
  | c :: l => if c =? 0 then mret ([], l) else '(s, rest) ← string_in l; mret (c :: s, rest)
  end.

Definition file_info : X unit :=
  p ← gets frame;
  '(_filename, rest) ← lift (string_in (drop (bufp p) (pkt p)));
  '(s, _) ← lift (string_in rest);
  match parse_num s with Some n => modify (fun x => set_lengths n (read_length x) x) | None => mret tt end;;
  modify (fun x => set_frame (with_buf (length (pkt (frame x)) - length rest) (len (frame x)) (frame x)) x).

Fixpoint open_loop (retries : nat) (crc_retries stat : Z) : X (Z * Z) :=
  match retries with
  | O => mret (-1, stat)
  | S retries =>
      stat ← xyzModem_get_hdr;
      if stat =? 0 then
        p ← gets frame;
        (if blk p =? 0 then file_info;; modify (set_ack true) else mret tt);;
        modify (set_next 1);;
        on_frame (fun p => with_buf (bufp p) 0 p);;
        mret (0, 0)
      else if stat =? xyzModem_timeout then
        (if crc_retries - 1 <=? 0 then modify (set_crc_mode false) else mret tt);;
        udelay (5 * 100000);;
        ask;;
        on_count retry;;
        open_loop retries (crc_retries - 1) stat
      else if stat =? xyzModem_cancel then mret (-1, stat)
      else open_loop retries crc_retries stat
  end.

(** The result and [*err]. *)
Definition xyzModem_stream_open (m : Z) : X (Z * Z) :=
  modify (fun x => Xyz (with_buf (bufp (frame x)) 0 (frame x)) (next_blk x) m (Totals 0 0 0 0) true false false 0 0 (line x) (sent x));;
  ask;;
  if m =? xyzModem_xmodem then modify (set_next 1);; mret (0, 0)
  else open_loop xyzModem_MAX_RETRIES xyzModem_MAX_RETRIES_WITH_CRC 0.

(** ** Reading *)

(** The bytes at the end of a block that may be padding. *)
Fixpoint strip_eof (n : nat) (data : list Z) : nat :=
  match n with O => O | S m => if nth m data 0 =? EOF then strip_eof m data else n end.

(** A block in sequence: padding is removed, or what is behind the file's length. *)
Definition accept_block : X unit :=
  modify (fun x => set_ack true (set_next (Z.land (next_blk x + 1) 0xFF) x));;
  x ← get;
  let p := frame x in
  let n := Z.to_nat (len p) in
  let at_end i := nth (n - i) (pkt p) 0 =? EOF in
  (if ((mode x =? xyzModem_xmodem) || (file_length x =? 0)) && (at_end 1%nat && at_end 2%nat && at_end 3%nat) then
     on_frame (with_buf (bufp p) (Z.of_nat (strip_eof n (pkt p))))
   else mret tt);;
  x ← get;
  let p := frame x in
  if negb (mode x =? xyzModem_xmodem) && negb (file_length x =? 0) then
    let read := u32 (read_length x + len p) in
    modify (set_lengths (file_length x) read);;
    if file_length x <? read then on_frame (with_buf (bufp p) (s32 (len p - (read - file_length x)))) else mret tt
  else mret tt.

(** The end of the transmission; the final packet of the Y-modem is asked for. *)
Definition finish : X Z :=
  putc ACK;;
  x ← get;
  stat ← (if mode x =? xyzModem_ymodem then ask;; on_count retry;; s ← xyzModem_get_hdr; putc ACK;; mret s else mret xyzModem_eof);
  modify (set_eof true);;
  mret stat.

(** The next block, with its tries. *)
Fixpoint next_block (retries : nat) (stat : Z) : X Z :=
  match retries with
  | O => mret stat
  | S retries =>
      stat ← xyzModem_get_hdr;
      x ← get;
      if (stat =? 0) && (blk (frame x) =? next_blk x) then accept_block;; mret stat
      else if (stat =? 0) && (blk (frame x) =? Z.land (next_blk x - 1) 0xFF) then putc ACK;; next_block retries stat
      else
        let stat := if stat =? 0 then xyzModem_sequence else stat in
        if stat =? xyzModem_cancel then mret stat
        else if stat =? xyzModem_eof then finish
        else ask;; on_count retry;; next_block retries stat
  end.

(** The bytes of the packet that [memcpy] takes; a negative length is a huge one. *)
Definition packet_bytes (p : packet) (n : Z) : res (list Z) :=
  if (n <? 0) || (Z.of_nat (length (pkt p)) <? Z.of_nat (bufp p) + n) then Fault
  else mret (take (Z.to_nat n) (drop (bufp p) (pkt p))).

(** The bytes read and [*err], which is 0 if it was not set.  Fuel: each turn takes a
    byte of the line or of the size. *)
Fixpoint read_loop (fuel : nat) (size stat : Z) (buf : list Z) : X (list Z * Z) :=
  x ← get;
  if at_eof x || (size <=? 0) then mret (buf, 0) else
  match fuel with
  | O => out_of_fuel
  | S fuel =>
      stat ← (if len (frame x) =? 0 then next_block xyzModem_MAX_RETRIES stat else mret 0);
      if stat <? 0 then on_frame (fun p => with_buf (bufp p) (-1) p);; mret (buf, stat)
      else
        x ← get;
        if at_eof x then read_loop fuel size stat buf
        else
          let p := frame x in
          let n := if size <? len p then size else len p in
          b ← lift (packet_bytes p n);
          on_frame (with_buf (bufp p + Z.to_nat n) (len p - n));;
          read_loop fuel (size - n) stat (buf ++ b)
  end.

Definition xyzModem_stream_read (size : Z) : X (list Z * Z) :=
  l ← gets line; read_loop (Z.to_nat size + length l + 2) size xyzModem_cancel [].

(** ** Closing *)

Fixpoint drain (fuel : nat) : X unit :=
  match fuel with
  | O => out_of_fuel
  | S fuel => ready ← tstc; if (ready : bool) then getc;; drain fuel else mret tt
  end.

(** [xyzModem_stream_terminate] with [getcxmodem], which does not wait. *)
Definition xyzModem_stream_terminate (abort : bool) : X unit :=
  if abort then
    x ← get;
    if (mode x =? xyzModem_xmodem) || (mode x =? xyzModem_ymodem) then
      putc CAN;; putc CAN;; putc CAN;; putc CAN;; putc BSP;; putc BSP;; putc BSP;; putc BSP;;
      xyzModem_flush;;
      modify (set_eof true)
    else mret tt
  else l ← gets line; drain (S (length l));; udelay 250000.

Definition xyzModem_stream_close : X unit :=
  x ← get;
  let t := count x in
  text ← lift (printf (zs "xyzModem - %s mode, %d(SOH)/%d(STX)/%d(CAN) packets, %d retries" ++ [10])
    [A_str (Some (if crc_mode x then zs "CRC" else zs "Cksum")); A_int (total_SOH t); A_int (total_STX t); A_int (total_CAN t); A_int (total_retries t)]);
  modify (fun x => set_sent (sent x ++ text) x).

Definition xyzModem_error (err : Z) : list Z :=
  if err =? xyzModem_access then zs "Can't access file"
  else if err =? xyzModem_noZmodem then zs "Sorry, zModem not available yet"
  else if err =? xyzModem_timeout then zs "Timed out"
  else if err =? xyzModem_eof then zs "End of file"
  else if err =? xyzModem_cancel then zs "Cancelled"
  else if err =? xyzModem_frame then zs "Invalid framing"
  else if err =? xyzModem_cksum then zs "CRC/checksum error"
  else if err =? xyzModem_sequence then zs "Block sequence error"
  else zs "Unknown error".

(** ** Bytes that arrive *)

Lemma char_wait : Z.of_nat CHAR_WAIT = CHAR_STEPS.
Proof. by vm_compute. Qed.

Lemma set_line_id x : set_line (line x) x = x.
Proof. by destruct x. Qed.

Definition waited (n : nat) (g : Z) : Z := if g <=? Z.of_nat n then Z.min g 0 else g - Z.of_nat n.

Lemma wait_loop_ok n : forall x g b l, line x = (g, b) :: l -> wait_loop n x = Ok (tt, set_line ((waited n g, b) :: l) x).
Proof.
  induction n as [|n IH]; intros x g b l Hl; cbn [wait_loop].
  - rewrite (bind_ok tstc _ x (g <=? 0) x) by (unfold tstc, gets; by rewrite Hl).
    unfold waited. change (Z.of_nat 0) with 0. destruct (Z.leb_spec g 0).
    + rewrite Z.min_l, <- Hl, set_line_id by lia. done.
    + rewrite Z.sub_0_r, <- Hl, set_line_id. done.
  - rewrite (bind_ok tstc _ x (g <=? 0) x) by (unfold tstc, gets; by rewrite Hl). destruct (Z.leb_spec g 0).
    + unfold waited. destruct (Z.leb_spec g (Z.of_nat (S n))); [|lia]. rewrite Z.min_l, <- Hl, set_line_id by lia. done.
    + rewrite (bind_ok (udelay DELAY) _ x tt (set_line ((g - 1, b) :: l) x)) by (unfold udelay, modify; by rewrite Hl).
      rewrite (IH _ (g - 1) b l) by done. unfold waited.
      replace (if g - 1 <=? Z.of_nat n then Z.min (g - 1) 0 else g - 1 - Z.of_nat n)
        with (if g <=? Z.of_nat (S n) then Z.min g 0 else g - Z.of_nat (S n)); [done|].
      destruct (Z.leb_spec g (Z.of_nat (S n))), (Z.leb_spec (g - 1) (Z.of_nat n)); lia.
Qed.

Lemma wait_loop_end n : forall x, line x = [] -> wait_loop n x = Ok (tt, x).
Proof.
  induction n as [|n IH]; intros x Hl; cbn [wait_loop];
    rewrite (bind_ok tstc _ x false x) by (unfold tstc, gets; by rewrite Hl); [done|].
  rewrite (bind_ok (udelay DELAY) _ x tt x) by (unfold udelay, modify; rewrite Hl; cbn [elapse]; by rewrite <- Hl, set_line_id).
  by apply IH.
Qed.

(** Nothing comes before the timeout. *)
Definition idle (l : list (Z * Z)) : Prop := match l with [] => True | (g, _) :: _ => CHAR_STEPS < g end.

Lemma getc_timeout_byte x g b l : line x = (g, b) :: l -> g <= CHAR_STEPS -> getc_timeout x = Ok (Some b, set_line l x).
Proof.
  intros Hl Hg. unfold getc_timeout. rewrite (bind_ok _ _ _ _ _ (wait_loop_ok _ x g b l Hl)).
  set (w := waited _ g). assert (Hw : w <= 0).
  { unfold w, waited. rewrite char_wait. destruct (Z.leb_spec g CHAR_STEPS); lia. }
  clearbody w. rewrite (bind_ok tstc _ _ true (set_line ((w, b) :: l) x)); [done|].
  unfold tstc, gets. cbn [line set_line]. by destruct (Z.leb_spec w 0); [|lia].
Qed.

Lemma getc_timeout_idle x : idle (line x) -> getc_timeout x = Ok (None, set_line (elapse CHAR_STEPS (line x)) x).
Proof.
  intros Hi. unfold getc_timeout. destruct (line x) as [|[g b] l] eqn:Hl.
  - rewrite (bind_ok _ _ _ _ _ (wait_loop_end _ x Hl)). cbn [elapse]. rewrite <- Hl, set_line_id.
    rewrite (bind_ok tstc _ _ false x) by (unfold tstc, gets; by rewrite Hl). done.
  - cbn [idle] in Hi. rewrite (bind_ok _ _ _ _ _ (wait_loop_ok _ x g b l Hl)).
    assert (Hw : waited CHAR_WAIT g = g - CHAR_STEPS).
    { unfold waited. rewrite char_wait. destruct (Z.leb_spec g CHAR_STEPS); lia. }
    rewrite Hw. cbn [elapse]. rewrite (bind_ok tstc _ _ false (set_line ((g - CHAR_STEPS, b) :: l) x)); [done|].
    unfold tstc, gets. cbn [line set_line]. destruct (Z.leb_spec (g - CHAR_STEPS) 0); [lia|done].
Qed.

(** These bytes come next, each before the timeout. *)
Fixpoint arrives (l : list Z) (inp rest : list (Z * Z)) : Prop :=
  match l with
  | [] => inp = rest
  | b :: l => exists g inp', inp = (g, b) :: inp' /\ g <= CHAR_STEPS /\ arrives l inp' rest
  end.

Lemma arrives_app l1 l2 inp rest : arrives (l1 ++ l2) inp rest <-> exists mid, arrives l1 inp mid /\ arrives l2 mid rest.
Proof.
  revert inp. induction l1 as [|b l1 IH]; intros inp; cbn [arrives app].
  - split; [by exists inp|]. by intros (mid & -> & H).
  - split.
    + intros (g & inp' & -> & Hg & H). apply IH in H as (mid & H1 & H2). exists mid. split; [by exists g, inp'|done].
    + intros (mid & (g & inp' & -> & Hg & H1) & H2). exists g, inp'. do 2 (split; [done|]). apply IH. by exists mid.
Qed.

Lemma arrives_length l inp rest : arrives l inp rest -> length inp = (length l + length rest)%nat.
Proof. revert inp. induction l as [|b l IH]; intros inp; cbn [arrives length]; [by intros ->|]. intros (g & inp' & -> & _ & H). cbn [length]. rewrite (IH _ H). lia. Qed.

Lemma getc_arrives x b l rest : arrives (b :: l) (line x) rest ->
  exists inp', getc_timeout x = Ok (Some b, set_line inp' x) /\ arrives l inp' rest.
Proof. intros (g & inp' & E & Hg & H). exists inp'. split; [by apply (getc_timeout_byte x g b inp')|done]. Qed.

(** Silence after what is left of the line. *)
Definition quiet_after (inp rest : list (Z * Z)) : Prop := exists junk mid, arrives junk inp mid /\ idle mid /\ rest = elapse CHAR_STEPS mid.

Lemma flush_loop_ok junk : forall fuel x mid, arrives junk (line x) mid -> idle mid -> (length junk < fuel)%nat ->
  flush_loop fuel x = Ok (tt, set_line (elapse CHAR_STEPS mid) x).
Proof.
  induction junk as [|b junk IH]; intros fuel x mid Ha Hi Hf; (destruct fuel as [|fuel]; [cbn in Hf; lia|]); cbn [flush_loop].
  - cbn [arrives] in Ha. rewrite <- Ha in *. by rewrite (bind_ok _ _ _ _ _ (getc_timeout_idle x Hi)).
  - destruct (getc_arrives _ _ _ _ Ha) as (inp' & E & Ha'). rewrite (bind_ok _ _ _ _ _ E).
    rewrite (IH fuel (set_line inp' x) mid) by (done || cbn [length] in Hf; lia). done.
Qed.

Lemma flush_ok x rest : quiet_after (line x) rest -> xyzModem_flush x = Ok (tt, set_line rest x).
Proof.
  intros (junk & mid & Ha & Hi & ->). unfold xyzModem_flush. rewrite (bind_ok _ _ x (line x) x eq_refl).
  apply (flush_loop_ok junk); [done|done|]. rewrite (arrives_length _ _ _ Ha). lia.
Qed.

(** ** Packets on the line *)

Definition block_size (d : list Z) : Prop := length d = 128%nat \/ length d = 1024%nat.
Definition start_of (d : list Z) : Z := if (length d =? 128)%nat then SOH else STX.

Definition trailer (crc : bool) (d : list Z) : list Z :=
  if crc then [cyg_crc16 d / 256; cyg_crc16 d mod 256] else [Z.land (sum_bytes d) 0xFF].

(** A packet as the sender makes it. *)
Definition make_packet (crc : bool) (b : Z) (d : list Z) : list Z := start_of d :: b :: 255 - b :: d ++ trailer crc d.

(** Bytes that the search for a packet passes over. *)
Definition noise (l : list Z) : Prop := Forall (fun c => c <> SOH /\ c <> STX /\ c <> CAN /\ c <> EOT) l.

(** What stays while packets are looked for. *)
Definition same_file (x x' : xyz) : Prop :=
  next_blk x' = next_blk x /\ mode x' = mode x /\ crc_mode x' = crc_mode x /\ at_eof x' = at_eof x /\
  file_length x' = file_length x /\ read_length x' = read_length x /\ length (pkt (frame x')) = length (pkt (frame x)).

Lemma same_file_refl x : same_file x x.
Proof. done. Qed.

Lemma same_file_trans x y z : same_file x y -> same_file y z -> same_file x z.
Proof. intros (A1 & A2 & A3 & A4 & A5 & A6 & A7) (B1 & B2 & B3 & B4 & B5 & B6 & B7). repeat split; congruence. Qed.

Lemma find_header_ok n : forall fuel can chars x c l rest, noise n -> c = SOH \/ c = STX -> arrives (n ++ c :: l) (line x) rest -> (length n < fuel)%nat ->
  exists inp t, find_header fuel can chars x = Ok (Start c, set_count t (set_line inp x)) /\ arrives l inp rest.
Proof.
  induction n as [|b n IH]; intros fuel can chars x c l rest Hn Hc Ha Hf; (destruct fuel as [|fuel]; [cbn in Hf; lia|]); cbn [find_header app] in *.
  - destruct (getc_arrives _ _ _ _ Ha) as (inp & E & Ha'). rewrite (bind_ok _ _ _ _ _ E). cbv zeta.
    destruct Hc as [-> | ->].
    + change (SOH =? SOH) with true. cbv iota. exists inp. eexists. split; [reflexivity|done].
    + change (STX =? SOH) with false. change (STX =? STX) with true. cbv iota. exists inp. eexists. split; [reflexivity|done].
  - apply Forall_cons in Hn as [(N1 & N2 & N3 & N4) Hn]. destruct (getc_arrives _ _ _ _ Ha) as (inp & E & Ha'). rewrite (bind_ok _ _ _ _ _ E). cbv zeta.
    destruct (Z.eqb_spec b SOH); [done|]. destruct (Z.eqb_spec b STX); [done|]. destruct (Z.eqb_spec b CAN); [done|]. destruct (Z.eqb_spec b EOT); [done|].
    cbn [andb]. destruct (IH fuel can (chars + 1) (set_line inp x) c l rest Hn Hc Ha') as (inp' & t & E' & Ha''); [cbn [length] in Hf; lia|].
    exists inp', t. done.
Qed.

(** Only noise and then silence. *)
Lemma find_header_idle n : forall fuel can chars x mid, noise n -> arrives n (line x) mid -> idle mid -> (length n < fuel)%nat ->
  forall rest, quiet_after (elapse CHAR_STEPS mid) rest ->
  find_header fuel can chars x = Ok (Return xyzModem_timeout, set_line (elapse (250000 / DELAY) rest) x).
Proof.
  induction n as [|b n IH]; intros fuel can chars x mid Hn Ha Hi Hf rest Hq; (destruct fuel as [|fuel]; [cbn in Hf; lia|]); cbn [find_header] in *.
  - cbn [arrives] in Ha. subst mid. rewrite (bind_ok _ _ _ _ _ (getc_timeout_idle x Hi)).
    rewrite (bind_ok _ _ _ _ _ (flush_ok (set_line (elapse CHAR_STEPS (line x)) x) rest Hq)). done.
  - apply Forall_cons in Hn as [(N1 & N2 & N3 & N4) Hn]. destruct (getc_arrives _ _ _ _ Ha) as (inp & E & Ha'). rewrite (bind_ok _ _ _ _ _ E). cbv zeta.
    destruct (Z.eqb_spec b SOH); [done|]. destruct (Z.eqb_spec b STX); [done|]. destruct (Z.eqb_spec b CAN); [done|]. destruct (Z.eqb_spec b EOT); [done|].
    cbn [andb]. rewrite (IH fuel can (chars + 1) (set_line inp x) mid) with (rest := rest); try done. cbn [length] in Hf; lia.
Qed.

Lemma read_field_ok f x b l rest : arrives (b :: l) (line x) rest ->
  exists inp, read_field f x = Ok (true, set_frame (f b (frame x)) (set_line inp x)) /\ arrives l inp rest.
Proof. intros Ha. destruct (getc_arrives _ _ _ _ Ha) as (inp & E & Ha'). exists inp. split; [|done]. unfold read_field. by rewrite (bind_ok _ _ _ _ _ E). Qed.

Lemma read_field_idle f x : idle (line x) -> read_field f x = Ok (false, set_line (elapse CHAR_STEPS (line x)) x).
Proof. intros Hi. unfold read_field. by rewrite (bind_ok _ _ _ _ _ (getc_timeout_idle x Hi)). Qed.

Lemma read_data_ok d : forall x i l rest p1 p2 p3, arrives (d ++ l) (line x) rest -> pkt (frame x) = p1 ++ p2 ++ p3 -> length p1 = i -> length p2 = length d ->
  exists inp, read_data (length d) i x = Ok (true, set_frame (with_pkt (p1 ++ d ++ p3) (frame x)) (set_line inp x)) /\ arrives l inp rest.
Proof.
  induction d as [|b d IH]; intros x i l rest p1 p2 p3 Ha Hp Hi Hl; cbn [read_data length app] in *.
  - destruct p2; [|done]. exists (line x). cbn [app] in *. rewrite <- Hp. split; [|done]. by destruct x as [[] ? ? ? ? ? ? ? ? ? ?].
  - destruct p2 as [|y p2]; [done|]. destruct (getc_arrives _ _ _ _ Ha) as (inp & E & Ha'). rewrite (bind_ok _ _ _ _ _ E).
    set (x1 := set_line inp x). rewrite (bind_ok (gets frame) _ x1 (frame x1) x1) by done.
    change (pkt (frame x1)) with (pkt (frame x)). rewrite Hp. cbn [app].
    rewrite (bind_ok (lift _) _ x1 (p1 ++ b :: p2 ++ p3) x1) by (by rewrite arr_set_app_mid).
    set (x2 := set_frame (with_pkt (p1 ++ b :: p2 ++ p3) (frame x1)) x1). rewrite (bind_ok (on_frame _) _ x1 tt x2) by done.
    destruct (IH x2 (S i) l rest (p1 ++ [b]) p2 p3) as (inp' & E' & Ha''); [done|cbn; by rewrite <- app_assoc|rewrite length_app; cbn; lia|by injection Hl|].
    exists inp'. split; [|done]. rewrite E'. rewrite <- app_assoc. done.
Qed.

(** The data stops in the middle. *)
Lemma read_data_idle d : forall n x i mid, arrives d (line x) mid -> idle mid -> (length d < n)%nat -> (i + n <= length (pkt (frame x)))%nat ->
  exists p, read_data n i x = Ok (false, set_frame p (set_line (elapse CHAR_STEPS mid) x)) /\ length (pkt p) = length (pkt (frame x)).
Proof.
  induction d as [|b d IH]; intros n x i mid Ha Hi Hn Hl; (destruct n as [|n]; [cbn in Hn; lia|]); cbn [read_data].
  - cbn [arrives] in Ha. subst mid. rewrite (bind_ok _ _ _ _ _ (getc_timeout_idle x Hi)). exists (frame x). split; [|done]. by destruct x.
  - destruct (getc_arrives _ _ _ _ Ha) as (inp & E & Ha'). rewrite (bind_ok _ _ _ _ _ E).
    set (x1 := set_line inp x). rewrite (bind_ok (gets frame) _ x1 (frame x1) x1) by done.
    rewrite (bind_ok (lift _) _ x1 (<[i := b]> (pkt (frame x1))) x1) by (rewrite arr_set_ok; [done|change (pkt (frame x1)) with (pkt (frame x)); lia]).
    set (x2 := set_frame (with_pkt (<[i := b]> (pkt (frame x1))) (frame x1)) x1). rewrite (bind_ok (on_frame _) _ x1 tt x2) by done.
    destruct (IH n x2 (S i) mid) as (p & E' & Hp); [done|done|cbn [length] in Hn; lia| |].
    { cbn [x2 frame set_frame with_pkt pkt]. rewrite length_insert. change (pkt (frame x1)) with (pkt (frame x)). lia. }
    exists p. split; [by rewrite E'|]. rewrite Hp. cbn [x2 frame set_frame with_pkt pkt]. by rewrite length_insert.
Qed.

Lemma block_size_length d : block_size d -> Z.to_nat (if start_of d =? SOH then 128 else 1024) = length d /\ (if start_of d =? SOH then 128 else 1024) = Z.of_nat (length d).
Proof. unfold block_size, start_of. intros [-> | ->]; done. Qed.

Definition packet_in (x : xyz) (d : list Z) (b cb c1 c2 : Z) : packet :=
  Packet (d ++ drop (length d) (pkt (frame x))) 0 (Z.of_nat (length d)) b cb c1 c2.

(** A packet of the right shape is read up to its check. *)
Lemma read_packet_ok x d b cb tr rest : block_size d -> length (pkt (frame x)) = 1024%nat ->
  length tr = (if crc_mode x then 2 else 1)%nat -> arrives (b :: cb :: d ++ tr) (line x) rest ->
  exists c1 c2, read_packet (start_of d) x = check_packet (set_frame (packet_in x d b cb c1 c2) (set_line rest x)) /\
    tr = (if crc_mode x then [c1; c2] else [c1]).
Proof.
  intros Hd Hp Ht Ha. destruct (block_size_length d Hd) as [Hn Hz]. unfold read_packet.
  destruct (read_field_ok with_blk x b _ rest Ha) as (i1 & E1 & A1). rewrite (bind_ok _ _ _ _ _ E1). cbn [negb].
  set (x1 := set_frame (with_blk b (frame x)) (set_line i1 x)) in *. destruct (read_field_ok with_cblk x1 cb _ rest A1) as (i2 & E2 & A2). rewrite (bind_ok _ _ _ _ _ E2). cbn [negb].
  set (x2 := set_frame (with_cblk cb (frame x1)) (set_line i2 x1)) in *. cbv zeta. rewrite Hn, Hz.
  set (x3 := set_frame (with_buf 0 (Z.of_nat (length d)) (frame x2)) x2). rewrite (bind_ok (on_frame _) _ x2 tt x3) by done.
  destruct (read_data_ok d x3 0 tr rest [] (take (length d) (pkt (frame x))) (drop (length d) (pkt (frame x)))) as (i4 & E4 & A4); [done| |done| |].
  { change (pkt (frame x3)) with (pkt (frame x)). cbn [app]. by rewrite take_drop. }
  { rewrite length_take, Hp. destruct Hd as [-> | ->]; lia. }
  rewrite (bind_ok _ _ _ _ _ E4). cbn [negb app]. set (x4 := set_frame (with_pkt (d ++ drop (length d) (pkt (frame x))) (frame x3)) (set_line i4 x3)) in *.
  destruct tr as [|c1 tr]; [destruct (crc_mode x); done|].
  destruct (read_field_ok with_crc1 x4 c1 tr rest A4) as (i5 & E5 & A5). rewrite (bind_ok _ _ _ _ _ E5). cbn [negb]. set (x5 := set_frame (with_crc1 c1 (frame x4)) (set_line i5 x4)) in *.
  rewrite (bind_ok get _ x5 x5 x5) by done. change (crc_mode x5) with (crc_mode x). destruct (crc_mode x) eqn:Ec.
  - destruct tr as [|c2 [|]]; try done. destruct (read_field_ok with_crc2 x5 c2 [] rest A5) as (i6 & E6 & A6). rewrite (bind_ok _ _ _ _ _ E6). cbn [negb].
    cbn [arrives] in A6. subst i6. exists c1, c2. split; [|done]. done.
  - destruct tr; [|done]. cbn [arrives] in A5. subst i5. rewrite (bind_ok _ _ x5 true x5) by done. cbn [negb]. exists c1, (crc2 (frame x)). done.
Qed.

(** A packet that stops in the middle. *)
Lemma read_packet_idle x d part mid : block_size d -> length (pkt (frame x)) = 1024%nat ->
  arrives part (line x) mid -> idle mid -> (length part < 2 + length d + (if crc_mode x then 2 else 1))%nat ->
  exists p, read_packet (start_of d) x = Ok (xyzModem_timeout, set_frame p (set_line (elapse CHAR_STEPS mid) x)) /\ length (pkt p) = 1024%nat.
Proof.
  intros Hd Hp Ha Hi Hl. destruct (block_size_length d Hd) as [Hn Hz]. unfold read_packet.
  destruct part as [|b part].
  { cbn [arrives] in Ha. subst mid. rewrite (bind_ok _ _ _ _ _ (read_field_idle with_blk x Hi)). cbn [negb]. exists (frame x). split; [by destruct x|done]. }
  destruct (read_field_ok with_blk x b _ mid Ha) as (i1 & E1 & A1). rewrite (bind_ok _ _ _ _ _ E1). cbn [negb]. set (x1 := set_frame (with_blk b (frame x)) (set_line i1 x)) in *.
  destruct part as [|cb part].
  { cbn [arrives] in A1. subst i1. rewrite (bind_ok _ _ _ _ _ (read_field_idle with_cblk x1 Hi)). cbn [negb]. exists (frame x1). done. }
  destruct (read_field_ok with_cblk x1 cb _ mid A1) as (i2 & E2 & A2). rewrite (bind_ok _ _ _ _ _ E2). cbn [negb]. set (x2 := set_frame (with_cblk cb (frame x1)) (set_line i2 x1)) in *.
  cbv zeta. rewrite Hn, Hz. set (x3 := set_frame (with_buf 0 (Z.of_nat (length d)) (frame x2)) x2). rewrite (bind_ok (on_frame _) _ x2 tt x3) by done.
  cbn [length] in Hl. destruct (le_lt_dec (length d) (length part)) as [Hge|Hlt].
  2:{ destruct (read_data_idle part (length d) x3 0 mid) as (p & E & Hlen); [done|done|done|change (pkt (frame x3)) with (pkt (frame x)); destruct Hd; lia|].
      rewrite (bind_ok _ _ _ _ _ E). cbn [negb]. exists p. split; [done|]. rewrite Hlen. exact Hp. }
  rewrite <- (take_drop (length d) part) in A2.
  assert (Lt : length (take (length d) part) = length d) by (rewrite length_take; lia).
  destruct (read_data_ok (take (length d) part) x3 0 (drop (length d) part) mid [] (take (length d) (pkt (frame x))) (drop (length d) (pkt (frame x))))
    as (i4 & E4 & A4); [done| |done| |].
  { change (pkt (frame x3)) with (pkt (frame x)). cbn [app]. by rewrite take_drop. }
  { rewrite length_take, Hp, Lt. destruct Hd as [-> | ->]; lia. }
  rewrite Lt in E4. rewrite (bind_ok _ _ _ _ _ E4). cbn [negb app]. set (x4 := set_frame (with_pkt (take (length d) part ++ drop (length d) (pkt (frame x))) (frame x3)) (set_line i4 x3)) in *.
  assert (Hp4 : length (pkt (frame x4)) = 1024%nat).
  { cbn [x4 frame set_frame with_pkt pkt]. rewrite length_app, Lt, length_drop, Hp. destruct Hd as [-> | ->]; lia. }
  remember (drop (length d) part) as tr. assert (Ltr : (length tr < if crc_mode x then 2 else 1)%nat) by (subst tr; rewrite length_drop; lia). clear Heqtr.
  destruct tr as [|c1 tr].
  { cbn [arrives] in A4. subst i4. rewrite (bind_ok _ _ _ _ _ (read_field_idle with_crc1 x4 Hi)). cbn [negb]. exists (frame x4). done. }
  destruct (read_field_ok with_crc1 x4 c1 tr mid A4) as (i5 & E5 & A5). rewrite (bind_ok _ _ _ _ _ E5). cbn [negb]. set (x5 := set_frame (with_crc1 c1 (frame x4)) (set_line i5 x4)) in *.
  rewrite (bind_ok get _ x5 x5 x5) by done. change (crc_mode x5) with (crc_mode x). destruct (crc_mode x); [|cbn in Ltr; lia].
  destruct tr; [|cbn in Ltr; lia]. cbn [arrives] in A5. subst i5. rewrite (bind_ok _ _ _ _ _ (read_field_idle with_crc2 x5 Hi)). cbn [negb].
  exists (frame x5). done.
Qed.


(** *** The check of a packet *)

Lemma lxor_complement b : byte b -> (Z.lxor b (255 - b) =? 0xFF) = true.
Proof. intros Hb. by apply (byte_forall (fun b => Z.lxor b (255 - b) =? 0xFF)); [vm_compute|]. Qed.

Lemma cyg_crc16_range d : Forall byte d -> 0 <= cyg_crc16 d < 65536.
Proof. intros Hb. by apply cyg_crc16_correct. Qed.

Lemma trailer_length crc d : length (trailer crc d) = (if crc then 2 else 1)%nat.
Proof. by destruct crc. Qed.

Lemma crc_join hi lo : byte lo -> Z.lor (Z.shiftl hi 8) lo = 256 * hi + lo.
Proof. intros Hl. rewrite lor_shiftl_add by (unfold byte in Hl; lia). change (2 ^ 8) with 256. lia. Qed.

(** With its own trailer a packet passes, with another one it does not. *)
Definition trailer_ok (crc : bool) (d tr : list Z) : bool := bool_decide (tr = trailer crc d).

Lemma check_packet_ok x d b cb c1 c2 rest : Forall byte d -> byte c1 -> (crc_mode x = true -> byte c2) -> Z.lxor b cb = 0xFF ->
  let x' := set_frame (packet_in x d b cb c1 c2) (set_line rest x) in
  check_packet x' = Ok (if trailer_ok (crc_mode x) d (if crc_mode x then [c1; c2] else [c1]) then 0 else xyzModem_cksum, x').
Proof.
  intros Hd H1 H2 Hb x'. unfold check_packet. rewrite (bind_ok get _ x' x' x') by done. cbv zeta.
  change (blk (frame x')) with b. change (cblk (frame x')) with cb. rewrite Hb. change (negb (0xFF =? 0xFF)) with false. cbv iota.
  change (take (Z.to_nat (len (frame x'))) (pkt (frame x'))) with (take (Z.to_nat (Z.of_nat (length d))) (d ++ drop (length d) (pkt (frame x)))).
  rewrite Nat2Z.id, take_app_length. change (crc_mode x') with (crc_mode x). change (crc1 (frame x')) with c1. change (crc2 (frame x')) with c2.
  unfold trailer_ok, trailer. destruct (crc_mode x).
  - rewrite crc_join by auto. pose proof (cyg_crc16_range d Hd). pose proof (H2 eq_refl) as Hb2. unfold byte in *.
    destruct (Z.eqb_spec (cyg_crc16 d) (256 * c1 + c2)) as [E|E]; cbn [negb].
    + rewrite bool_decide_true; [done|]. rewrite E. f_equal; [zmod|f_equal; zmod].
    + rewrite bool_decide_false; [done|]. intros [= E1 E2]. apply E. zmod.
  - destruct (Z.eqb_spec c1 (Z.land (sum_bytes d) 0xFF)) as [E|E]; cbn [negb].
    + rewrite bool_decide_true; [done|by rewrite E].
    + rewrite bool_decide_false; [done|]. by intros [= E1].
Qed.

(** ** What a try brings *)

(** After a byte of acknowledgment that was due. *)
Lemma get_hdr_start x : exists x1, xyzModem_get_hdr x =
    (l ← gets line; h ← find_header (S (length l)) 0 0; match h with Return stat => mret stat | Start c => read_packet c end) x1 /\
  line x1 = line x /\ same_file x x1 /\ tx_ack x1 = false /\ frame x1 = frame x.
Proof.
  unfold xyzModem_get_hdr. rewrite (bind_ok get _ x x x) by done. destruct (tx_ack x) eqn:E.
  - eexists. split; [rewrite (bind_ok _ _ x tt (set_ack false (set_sent (sent x ++ [ACK]) x))) by done; reflexivity|]. done.
  - exists x. rewrite (bind_ok _ _ x tt x) by done. done.
Qed.

Lemma find_start x1 n c l rest : noise n -> c = SOH \/ c = STX -> arrives (n ++ c :: l) (line x1) rest ->
  exists x2, (l ← gets line; h ← find_header (S (length l)) 0 0; match h with Return stat => mret stat | Start c => read_packet c end) x1 = read_packet c x2 /\
    arrives l (line x2) rest /\ same_file x1 x2 /\ tx_ack x2 = tx_ack x1 /\ frame x2 = frame x1.
Proof.
  intros Hn Hc Ha. rewrite (bind_ok (gets line) _ x1 (line x1) x1) by done.
  destruct (find_header_ok n (S (length (line x1))) 0 0 x1 c l rest Hn Hc Ha) as (inp & t & E & Ha').
  { rewrite (arrives_length _ _ _ Ha), length_app. lia. }
  rewrite (bind_ok _ _ _ _ _ E). eexists. split; [reflexivity|]. done.
Qed.

Lemma start_of_cases d : start_of d = SOH \/ start_of d = STX.
Proof. unfold start_of. destruct (length d =? 128)%nat; [by left|by right]. Qed.

Definition ready (x : xyz) : Prop := length (pkt (frame x)) = 1024%nat.

(** A packet, whatever its number and trailer. *)
Lemma get_hdr_packet x n b d tr rest : noise n -> byte b -> Forall byte d -> Forall byte tr -> block_size d -> ready x ->
  length tr = (if crc_mode x then 2 else 1)%nat -> arrives (n ++ start_of d :: b :: 255 - b :: d ++ tr) (line x) rest ->
  exists x', xyzModem_get_hdr x = Ok (if trailer_ok (crc_mode x) d tr then 0 else xyzModem_cksum, x') /\
    line x' = rest /\ same_file x x' /\ tx_ack x' = false /\
    exists c1 c2, frame x' = packet_in x d b (255 - b) c1 c2.
Proof.
  intros Hn Hb Hd Htr Hs Hp Hl Ha. destruct (get_hdr_start x) as (x1 & -> & L1 & S1 & A1 & F1). rewrite <- L1 in Ha.
  destruct (find_start x1 n _ _ rest Hn (start_of_cases d) Ha) as (x2 & -> & Ha2 & S2 & A2 & F2).
  assert (S12 : same_file x x2) by (by eapply same_file_trans). assert (Ec : crc_mode x2 = crc_mode x) by apply S12.
  assert (Ef : frame x2 = frame x) by congruence.
  destruct (read_packet_ok x2 d b (255 - b) tr rest Hs) as (c1 & c2 & -> & Et); [by rewrite Ef|by rewrite Ec|done|].
  rewrite Ec in Et. assert (B1 : byte c1) by (rewrite Et in Htr; destruct (crc_mode x); inversion Htr; done).
  assert (B2 : crc_mode x2 = true -> byte c2).
  { rewrite Ec. intros Ec'. rewrite Et, Ec' in Htr. inversion Htr as [|? ? _ Htr']. by inversion Htr'. }
  pose proof (lxor_complement b Hb) as Hx. apply Z.eqb_eq in Hx.
  rewrite (check_packet_ok x2 d b (255 - b) c1 c2 rest Hd B1 B2 Hx). rewrite Ec, <- Et.
  eexists. split; [reflexivity|]. split; [done|]. split; [|split; [by rewrite <- A1, <- A2|]].
  - eapply same_file_trans; [exact S12|]. repeat split; try done. cbn [frame set_frame pkt packet_in]. rewrite length_app, length_drop, Ef.
    unfold ready in Hp. destruct Hs as [-> | ->]; lia.
  - exists c1, c2. cbn [frame set_frame]. unfold packet_in. by rewrite Ef.
Qed.

(** A try that brings no packet: the line afterwards. *)
Inductive bad_try (crc : bool) (inp : list (Z * Z)) : Z -> list (Z * Z) -> Prop :=
| try_damaged n b d tr rest :
    noise n -> byte b -> Forall byte d -> Forall byte tr -> block_size d -> length tr = (if crc then 2 else 1)%nat -> tr <> trailer crc d ->
    arrives (n ++ start_of d :: b :: 255 - b :: d ++ tr) inp rest -> bad_try crc inp xyzModem_cksum rest
| try_misframed n b cb d tr mid rest :
    noise n -> block_size d -> length tr = (if crc then 2 else 1)%nat -> Z.lxor b cb <> 0xFF ->
    arrives (n ++ start_of d :: b :: cb :: d ++ tr) inp mid -> quiet_after mid rest -> bad_try crc inp xyzModem_frame rest
| try_cut n d part mid :
    noise n -> block_size d -> (length part < 2 + length d + (if crc then 2 else 1))%nat ->
    arrives (n ++ start_of d :: part) inp mid -> idle mid -> bad_try crc inp xyzModem_timeout (elapse CHAR_STEPS mid)
| try_silent n mid rest :
    noise n -> arrives n inp mid -> idle mid -> quiet_after (elapse CHAR_STEPS mid) rest -> bad_try crc inp xyzModem_timeout (elapse (250000 / DELAY) rest).

Lemma bad_try_ok x stat rest : ready x -> bad_try (crc_mode x) (line x) stat rest ->
  exists x', xyzModem_get_hdr x = Ok (stat, x') /\ line x' = rest /\ same_file x x' /\ tx_ack x' = false.
Proof.
  intros Hp [n b d tr rest' Hn Hb Hd Htr Hs Hl Hne Ha|n b cb d tr mid rest' Hn Hs Hl Hne Ha Hq|n d part mid Hn Hs Hl Ha Hi|n mid rest' Hn Ha Hi Hq].
  - destruct (get_hdr_packet x n b d tr rest' Hn Hb Hd Htr Hs Hp Hl Ha) as (x' & E & L & S & A & _). exists x'.
    rewrite E. unfold trailer_ok. rewrite bool_decide_false by done. done.
  - destruct (get_hdr_start x) as (x1 & -> & L1 & S1 & A1 & F1). rewrite <- L1 in Ha.
    destruct (find_start x1 n _ _ mid Hn (start_of_cases d) Ha) as (x2 & -> & Ha2 & S2 & A2 & F2).
    assert (S12 : same_file x x2) by (by eapply same_file_trans). assert (Ec : crc_mode x2 = crc_mode x) by apply S12.
    assert (Ef : frame x2 = frame x) by congruence.
    destruct (read_packet_ok x2 d b cb tr mid Hs) as (c1 & c2 & -> & _); [by rewrite Ef|by rewrite Ec|done|].
    set (x3 := set_frame _ _). unfold check_packet. rewrite (bind_ok get _ x3 x3 x3) by done. cbv zeta.
    change (blk (frame x3)) with b. change (cblk (frame x3)) with cb. destruct (Z.eqb_spec (Z.lxor b cb) 0xFF); [done|]. cbn [negb].
    rewrite (bind_ok _ _ _ _ _ (flush_ok x3 rest' Hq)). exists (set_line rest' x3). split; [done|].
    split; [done|]. split; [|by rewrite <- A1, <- A2]. eapply same_file_trans; [exact S12|]. repeat split; try done.
    cbn [frame set_frame set_line pkt packet_in x3]. rewrite length_app, length_drop, Ef. unfold ready in Hp. destruct Hs as [-> | ->]; lia.
  - destruct (get_hdr_start x) as (x1 & -> & L1 & S1 & A1 & F1). rewrite <- L1 in Ha.
    destruct (find_start x1 n _ _ mid Hn (start_of_cases d) Ha) as (x2 & -> & Ha2 & S2 & A2 & F2).
    assert (S12 : same_file x x2) by (by eapply same_file_trans). assert (Ec : crc_mode x2 = crc_mode x) by apply S12.
    assert (Ef : frame x2 = frame x) by congruence.
    destruct (read_packet_idle x2 d part mid Hs) as (p & -> & Hlen); [by rewrite Ef|done|done|by rewrite Ec|].
    eexists. split; [reflexivity|]. split; [done|]. split; [|by rewrite <- A1, <- A2].
    eapply same_file_trans; [exact S12|]. repeat split; try done. cbn [frame set_frame set_line]. rewrite Hlen, Ef. by rewrite Hp.
  - destruct (get_hdr_start x) as (x1 & -> & L1 & S1 & A1 & F1). rewrite <- L1 in Ha.
    rewrite (bind_ok (gets line) _ x1 (line x1) x1) by done.
    erewrite bind_ok by (eapply (find_header_idle n); [done|done|done|rewrite (arrives_length _ _ _ Ha); lia|done]).
    eexists. split; [reflexivity|]. done.
Qed.

(** ** Blocks *)

Definition ends_in_eof (d : list Z) : bool :=
  (nth (length d - 1) d 0 =? EOF) && (nth (length d - 2) d 0 =? EOF) && (nth (length d - 3) d 0 =? EOF).

(** What is taken of a block: without padding, if the length of the file is not known,
    and otherwise up to the end of the file. *)
Definition cut (fl rl : Z) (d : list Z) : list Z :=
  if fl =? 0 then (if ends_in_eof d then take (strip_eof (length d) d) d else d) else take (Z.to_nat (fl - rl)) d.

(** No block begins behind the end of the file. *)
Fixpoint fits (fl rl : Z) (ds : list (list Z)) : Prop :=
  match ds with [] => True | d :: ds => 0 <= rl < fl /\ fits fl (rl + Z.of_nat (length d)) ds end.
Definition file_fits (fl rl : Z) (ds : list (list Z)) : Prop := fl = 0 \/ (0 < fl < 2147483648 /\ fits fl rl ds).

Fixpoint contents (fl rl : Z) (ds : list (list Z)) : list Z :=
  match ds with [] => [] | d :: ds => cut fl rl d ++ contents fl (if fl =? 0 then rl else rl + Z.of_nat (length d)) ds end.

(** The unread bytes of the packet. *)
Definition holds (p : packet) (cur : list Z) : Prop :=
  len p = Z.of_nat (length cur) /\ exists head tail, pkt p = head ++ cur ++ tail /\ bufp p = length head.

Lemma strip_eof_le n d : (strip_eof n d <= n)%nat.
Proof. induction n as [|n IH]; cbn [strip_eof]; [done|]. destruct (_ =? _); lia. Qed.

Lemma strip_eof_app d tail n : (n <= length d)%nat -> strip_eof n (d ++ tail) = strip_eof n d.
Proof. induction n as [|n IH]; intros Hn; cbn [strip_eof]; [done|]. rewrite app_nth1 by lia. by rewrite IH by lia. Qed.

Lemma accept_block_ok x d b cb c1 c2 : block_size d -> ready x -> mode x = xyzModem_ymodem ->
  file_length x = 0 \/ 0 <= read_length x < file_length x /\ file_length x < 2147483648 ->
  let x0 := set_frame (packet_in x d b cb c1 c2) x in
  exists x', accept_block x0 = Ok (tt, x') /\ holds (frame x') (cut (file_length x) (read_length x) d) /\ line x' = line x /\
    next_blk x' = Z.land (next_blk x + 1) 0xFF /\ mode x' = mode x /\ crc_mode x' = crc_mode x /\ at_eof x' = at_eof x /\ ready x' /\
    file_length x' = file_length x /\ read_length x' = (if file_length x =? 0 then read_length x else read_length x + Z.of_nat (length d)).
Proof.
  intros Hs Hp Hm Hf x0. set (tail := drop (length d) (pkt (frame x))).
  assert (Ld : (3 <= length d <= 1024)%nat) by (destruct Hs as [-> | ->]; lia).
  assert (Lp : length (d ++ tail) = 1024%nat) by (unfold tail; rewrite length_app, length_drop; unfold ready in Hp; lia).
  unfold accept_block. set (x1 := set_ack true (set_next (Z.land (next_blk x + 1) 0xFF) x0)). rewrite (bind_ok (modify _) _ x0 tt x1) by done.
  rewrite (bind_ok get _ x1 x1 x1) by done. cbv zeta.
  change (pkt (frame x1)) with (d ++ tail). change (len (frame x1)) with (Z.of_nat (length d)). rewrite Nat2Z.id.
  change (mode x1) with (mode x). change (file_length x1) with (file_length x). rewrite Hm. change (xyzModem_ymodem =? xyzModem_xmodem) with false. cbn [orb negb andb].
  rewrite !app_nth1 by lia. unfold cut, ends_in_eof.
  destruct (Z.eqb_spec (file_length x) 0) as [E0|E0]; cbn [andb].
  - destruct (_ && _ && _).
    + rewrite strip_eof_app by lia. pose proof (strip_eof_le (length d) d) as Hle. set (n := strip_eof (length d) d) in *.
      set (x2 := set_frame (with_buf (bufp (frame x1)) (Z.of_nat n) (frame x1)) x1). rewrite (bind_ok (on_frame _) _ x1 tt x2) by done.
      rewrite (bind_ok get _ x2 x2 x2) by done. cbv zeta. change (mode x2) with (mode x). change (file_length x2) with (file_length x).
      rewrite E0, Hm. cbn [negb andb Z.eqb]. exists x2. split; [done|].
      assert (Hh : holds (frame x2) (take n d)).
      { split; [cbn [frame x2 set_frame with_buf len]; rewrite length_take; lia|]. exists [], (drop n d ++ tail). cbn [frame x2 set_frame with_buf bufp pkt app].
        change (bufp (frame x1)) with 0%nat. change (pkt (frame x1)) with (d ++ tail). by rewrite app_assoc, take_drop. }
      split; [exact Hh|]. cbn. rewrite Hm. repeat split; done.
    + rewrite (bind_ok _ _ x1 tt x1) by done. rewrite (bind_ok get _ x1 x1 x1) by done. cbv zeta. change (mode x1) with (mode x). change (file_length x1) with (file_length x).
      rewrite E0, Hm. cbn [negb andb Z.eqb]. exists x1. split; [done|].
      assert (Hh : holds (frame x1) d) by (split; [done|]; by exists [], tail).
      split; [exact Hh|]. cbn. rewrite Hm. repeat split; done.
  - destruct Hf as [Hf|[Hr Hmax]]; [done|]. rewrite (bind_ok _ _ x1 tt x1) by done. rewrite (bind_ok get _ x1 x1 x1) by done. cbv zeta.
    change (mode x1) with (mode x). change (file_length x1) with (file_length x). change (read_length x1) with (read_length x).
    change (len (frame x1)) with (Z.of_nat (length d)). rewrite Hm. change (xyzModem_ymodem =? xyzModem_xmodem) with false.
    destruct (Z.eqb_spec (file_length x) 0); [done|]. cbn [negb andb]. rewrite u32_small by lia.
    set (read := read_length x + Z.of_nat (length d)).
    set (x2 := set_lengths (file_length x) read x1). rewrite (bind_ok (modify _) _ x1 tt x2) by done.
    destruct (Z.ltb_spec (file_length x) read).
    + assert (Es : s32 (Z.of_nat (length d) - (read - file_length x)) = file_length x - read_length x) by (unfold read in *; rewrite s32_small; lia).
      rewrite Es. eexists. split; [reflexivity|].
      assert (Hh : holds (with_buf (bufp (frame x1)) (file_length x - read_length x) (frame x2)) (take (Z.to_nat (file_length x - read_length x)) d)).
      { split; [cbn [with_buf len]; rewrite length_take; unfold read in *; lia|]. exists [], (drop (Z.to_nat (file_length x - read_length x)) d ++ tail).
        cbn [with_buf bufp pkt app]. change (bufp (frame x1)) with 0%nat. change (pkt (frame x2)) with (d ++ tail). by rewrite app_assoc, take_drop. }
      split; [exact Hh|]. cbn. rewrite Hm. repeat split; done.
    + exists x2. split; [done|]. assert (Hh : holds (frame x2) (take (Z.to_nat (file_length x - read_length x)) d)).
      { rewrite take_ge by (unfold read in *; lia). split; [done|]. by exists [], tail. }
      split; [exact Hh|]. cbn. rewrite Hm. repeat split; done.
Qed.

(** ** Files *)

(** Tries that bring nothing new: damaged packets, silence, or other blocks. *)
Inductive tries (crc : bool) (next : Z) : nat -> list (Z * Z) -> list (Z * Z) -> Prop :=
| tries_none inp : tries crc next 0 inp inp
| tries_bad k inp stat mid rest : bad_try crc inp stat mid -> tries crc next k mid rest -> tries crc next (S k) inp rest
| tries_other k inp n b d mid rest :
    noise n -> byte b -> b <> next -> Forall byte d -> block_size d -> arrives (n ++ make_packet crc b d) inp mid ->
    tries crc next k mid rest -> tries crc next (S k) inp rest.

(** The blocks of a file from [next] on, each after fewer than 20 vain tries, and the
    end of the transmission with the packet behind it. *)
Inductive file_arrives (crc : bool) : Z -> list (list Z) -> list (Z * Z) -> Prop :=
| file_end next k n b d inp mid rest rest' :
    tries crc next k inp mid -> (k < xyzModem_MAX_RETRIES)%nat -> arrives [EOT] mid rest ->
    noise n -> byte b -> Forall byte d -> block_size d -> arrives (n ++ make_packet crc b d) rest rest' ->
    file_arrives crc next [] inp
| file_block next k n d ds inp mid rest :
    tries crc next k inp mid -> (k < xyzModem_MAX_RETRIES)%nat ->
    noise n -> Forall byte d -> block_size d -> arrives (n ++ make_packet crc next d) mid rest ->
    file_arrives crc (Z.land (next + 1) 0xFF) ds rest -> file_arrives crc next (d :: ds) inp.

Lemma trailer_shape crc d : Forall byte d -> Forall byte (trailer crc d) /\ length (trailer crc d) = (if crc then 2 else 1)%nat.
Proof.
  intros Hd. unfold trailer. destruct crc; (split; [|done]).
  - pose proof (cyg_crc16_range d Hd). apply Forall_cons_2; [unfold byte; zmod|apply Forall_singleton; unfold byte; zmod].
  - apply Forall_singleton. unfold byte. change 0xFF with (Z.ones 8). rewrite Z.land_ones by lia. zmod.
Qed.

Lemma good_packet x n b d rest : noise n -> byte b -> Forall byte d -> block_size d -> ready x ->
  arrives (n ++ make_packet (crc_mode x) b d) (line x) rest ->
  exists x', xyzModem_get_hdr x = Ok (0, x') /\ line x' = rest /\ same_file x x' /\ tx_ack x' = false /\
    exists c1 c2, frame x' = packet_in x d b (255 - b) c1 c2.
Proof.
  intros Hn Hb Hd Hs Hr Ha. destruct (trailer_shape (crc_mode x) d Hd) as [Ht Hl].
  destruct (get_hdr_packet x n b d _ rest Hn Hb Hd Ht Hs Hr Hl Ha) as (x' & E & H). exists x'. split; [|done].
  rewrite E. unfold trailer_ok. by rewrite bool_decide_true.
Qed.

Lemma same_file_ready x x' : same_file x x' -> ready x -> ready x'.
Proof. unfold ready. intros (_ & _ & _ & _ & _ & _ & ->). done. Qed.

Lemma set_sent_same x s : same_file x (set_sent s x).
Proof. done. Qed.

(** A try that fails goes on to the next one. *)
Lemma next_block_fail retries stat x x1 st : xyzModem_get_hdr x = Ok (st, x1) -> st = xyzModem_timeout \/ st = xyzModem_frame \/ st = xyzModem_cksum ->
  exists x2 stat', next_block (S retries) stat x = next_block retries stat' x2 /\ line x2 = line x1 /\ same_file x1 x2.
Proof.
  intros E Hst. cbn [next_block]. rewrite (bind_ok _ _ _ _ _ E). rewrite (bind_ok get _ x1 x1 x1) by done.
  assert (E1 : (st =? 0) = false) by (destruct Hst as [-> | [-> | ->]]; done). rewrite E1. cbn [andb].
  assert (E2 : (st =? xyzModem_cancel) = false) by (destruct Hst as [-> | [-> | ->]]; done). cbv zeta. rewrite E2.
  assert (E3 : (st =? xyzModem_eof) = false) by (destruct Hst as [-> | [-> | ->]]; done). rewrite E3.
  eexists _, st. split; [reflexivity|]. done.
Qed.

Lemma next_block_other retries stat x x1 b : xyzModem_get_hdr x = Ok (0, x1) -> blk (frame x1) = b -> b <> next_blk x1 ->
  exists x2 stat', next_block (S retries) stat x = next_block retries stat' x2 /\ line x2 = line x1 /\ same_file x1 x2.
Proof.
  intros E Hb Hne. cbn [next_block]. rewrite (bind_ok _ _ _ _ _ E). rewrite (bind_ok get _ x1 x1 x1) by done. rewrite Hb.
  change (0 =? 0) with true. destruct (Z.eqb_spec b (next_blk x1)); [done|]. cbn [andb]. destruct (_ =? _).
  - eexists _, 0. split; [reflexivity|]. done.
  - cbv zeta. change (xyzModem_sequence =? xyzModem_cancel) with false. change (xyzModem_sequence =? xyzModem_eof) with false. cbv iota.
    eexists _, xyzModem_sequence. split; [reflexivity|]. done.
Qed.

Lemma bad_try_stat crc inp st rest : bad_try crc inp st rest -> st = xyzModem_timeout \/ st = xyzModem_frame \/ st = xyzModem_cksum.
Proof. intros []; auto. Qed.

Lemma next_block_tries k crc next inp mid : tries crc next k inp mid -> forall x retries stat, ready x -> crc = crc_mode x -> next = next_blk x -> inp = line x -> (k < retries)%nat ->
  exists r x' stat', next_block retries stat x = next_block (S r) stat' x' /\ line x' = mid /\ same_file x x'.
Proof.
  induction 1 as [inp|k inp st mid rest Hb Ht IH|k inp n b d mid rest Hn Hb Hne Hd Hs Ha Ht IH]; intros x retries stat Hr Hc Hx Hl Hk;
    (destruct retries as [|retries]; [lia|]).
  - exists retries, x, stat. done.
  - subst. destruct (bad_try_ok x st mid Hr Hb) as (x1 & E & L1 & S1 & _).
    destruct (next_block_fail retries stat x x1 st E (bad_try_stat _ _ _ _ Hb)) as (x2 & stat' & -> & L2 & S2).
    pose proof (same_file_trans _ _ _ S1 S2) as S12. destruct (IH x2 retries stat') as (r & x' & s' & -> & L' & S');
      [by eapply same_file_ready|symmetry; apply S12|symmetry; apply S12|congruence|lia|].
    exists r, x', s'. split; [done|]. split; [done|]. by eapply same_file_trans.
  - subst. destruct (good_packet x n b d mid Hn Hb Hd Hs Hr Ha) as (x1 & E & L1 & S1 & _ & c1 & c2 & Ef).
    destruct (next_block_other retries stat x x1 b E) as (x2 & stat' & -> & L2 & S2); [by rewrite Ef|destruct S1 as [-> _]; done|].
    pose proof (same_file_trans _ _ _ S1 S2) as S12. destruct (IH x2 retries stat') as (r & x' & s' & -> & L' & S');
      [by eapply same_file_ready|symmetry; apply S12|symmetry; apply S12|congruence|lia|].
    exists r, x', s'. split; [done|]. split; [done|]. by eapply same_file_trans.
Qed.

(** ** Reading a file *)

Lemma land_ff a : Z.land a 0xFF = a mod 256.
Proof. change 0xFF with (Z.ones 8). by rewrite Z.land_ones by lia. Qed.

(** The fields the file depends on, as the reader finds them. *)
Definition reading (x : xyz) (crc : bool) (next fl rl : Z) : Prop :=
  ready x /\ mode x = xyzModem_ymodem /\ at_eof x = false /\ crc_mode x = crc /\ next_blk x = next /\ file_length x = fl /\ read_length x = rl /\ byte next.

Lemma reading_same x x' crc next fl rl : reading x crc next fl rl -> same_file x x' -> reading x' crc next fl rl.
Proof.
  intros (A & B & C & D & E & F & G & H) S. pose proof (same_file_ready _ _ S A). destruct S as (S1 & S2 & S3 & S4 & S5 & S6 & _).
  unfold reading. rewrite S1, S2, S3, S4, S5, S6. auto 10.
Qed.

Lemma next_block_good x stat retries k n d crc next fl rl mid rest : reading x crc next fl rl -> fl = 0 \/ 0 <= rl < fl /\ fl < 2147483648 ->
  tries crc next k (line x) mid -> (k < retries)%nat -> noise n -> Forall byte d -> block_size d -> arrives (n ++ make_packet crc next d) mid rest ->
  exists x', next_block retries stat x = Ok (0, x') /\ line x' = rest /\ holds (frame x') (cut fl rl d) /\
    reading x' crc (Z.land (next + 1) 0xFF) fl (if fl =? 0 then rl else rl + Z.of_nat (length d)).
Proof.
  intros Hx Hfl Ht Hk Hn Hd Hs Ha. pose proof Hx as (Hr & Hm & He & Hc & Hnx & Hf & Hrl & Hb).
  destruct (next_block_tries k crc next _ _ Ht x retries stat Hr) as (r & x1 & st & -> & L1 & S1); [done|done|done|done|].
  pose proof (reading_same _ _ _ _ _ _ Hx S1) as (Hr1 & Hm1 & He1 & Hc1 & Hn1 & Hf1 & Hrl1 & _). rewrite <- L1, <- Hc1 in Ha.
  destruct (good_packet x1 n next d rest Hn Hb Hd Hs Hr1 Ha) as (x2 & E2 & L2 & S2 & _ & c1 & c2 & Ef).
  pose proof (reading_same _ _ _ _ _ _ (reading_same _ _ _ _ _ _ Hx S1) S2) as (Hr2 & Hm2 & He2 & Hc2 & Hn2 & Hf2 & Hrl2 & _).
  cbn [next_block]. rewrite (bind_ok _ _ _ _ _ E2), (bind_ok get _ x2 x2 x2) by done. rewrite Ef. cbn [blk packet_in]. change (0 =? 0) with true. rewrite Hn2, Z.eqb_refl. cbn [andb].
  assert (E : packet_in x1 d next (255 - next) c1 c2 = packet_in (set_frame (frame x1) x2) d next (255 - next) c1 c2) by done.
  destruct (accept_block_ok (set_frame (frame x1) x2) d next (255 - next) c1 c2 Hs) as (x3 & E3 & Hh & L3 & Hn3 & Hm3 & Hc3 & He3 & Hr3 & Hf3 & Hrl3);
    [done|done|cbn; rewrite Hf2, Hrl2; done|].
  rewrite <- E in E3. assert (Ex : set_frame (packet_in x1 d next (255 - next) c1 c2) (set_frame (frame x1) x2) = x2) by (rewrite <- Ef; by destruct x2).
  rewrite Ex in E3. rewrite (bind_ok _ _ _ _ _ E3). exists x3. split; [done|]. cbn in Hh, L3, Hn3, Hm3, Hc3, He3, Hf3, Hrl3. rewrite Hf2, Hrl2 in *.
  split; [by rewrite L3|]. split; [done|]. unfold reading. rewrite Hn3, Hm3, Hc3, He3, Hf3, Hrl3, Hn2.
  repeat split; try done. rewrite land_ff. zmod. rewrite land_ff. zmod.
Qed.

Lemma find_header_eot x fuel rest : arrives [EOT] (line x) rest -> (0 < fuel)%nat ->
  find_header fuel 0 0 x = Ok (Return xyzModem_eof, set_sent (sent x ++ [ACK]) (set_line rest x)).
Proof.
  intros Ha Hf. destruct fuel as [|fuel]; [lia|]. cbn [find_header]. destruct (getc_arrives _ _ _ _ Ha) as (inp & E & Ha').
  cbn [arrives] in Ha'. subst inp. rewrite (bind_ok _ _ _ _ _ E). done.
Qed.

Lemma get_hdr_eot x rest : arrives [EOT] (line x) rest -> exists x', xyzModem_get_hdr x = Ok (xyzModem_eof, x') /\ line x' = rest /\ same_file x x'.
Proof.
  intros Ha. destruct (get_hdr_start x) as (x1 & -> & L1 & S1 & _). rewrite <- L1 in Ha. rewrite (bind_ok (gets line) _ x1 (line x1) x1) by done.
  rewrite (bind_ok _ _ _ _ _ (find_header_eot x1 (S (length (line x1))) rest Ha (Nat.lt_0_succ _))). eexists. split; [reflexivity|]. done.
Qed.

Lemma next_block_end x stat k n b d crc next fl rl mid rest rest' : reading x crc next fl rl -> tries crc next k (line x) mid -> (k < xyzModem_MAX_RETRIES)%nat ->
  arrives [EOT] mid rest -> noise n -> byte b -> Forall byte d -> block_size d -> arrives (n ++ make_packet crc b d) rest rest' ->
  exists x', next_block xyzModem_MAX_RETRIES stat x = Ok (0, x') /\ at_eof x' = true.
Proof.
  intros Hx Ht Hk He Hn Hb Hd Hs Ha. pose proof Hx as (Hr & Hm & _ & Hc & Hnx & _).
  destruct (next_block_tries k crc next _ _ Ht x xyzModem_MAX_RETRIES stat Hr) as (r & x1 & st & -> & L1 & S1); [done|done|done|done|]. rewrite <- L1 in He.
  destruct (get_hdr_eot x1 rest He) as (x2 & E2 & L2 & S2). pose proof (reading_same _ _ _ _ _ _ (reading_same _ _ _ _ _ _ Hx S1) S2) as (Hr2 & Hm2 & _ & Hc2 & _).
  cbn [next_block]. rewrite (bind_ok _ _ _ _ _ E2), (bind_ok get _ x2 x2 x2) by done.
  change (xyzModem_eof =? 0) with false. cbn [andb]. cbv zeta. change (xyzModem_eof =? xyzModem_cancel) with false. change (xyzModem_eof =? xyzModem_eof) with true. cbv iota.
  unfold finish. set (x3 := set_sent (sent x2 ++ [ACK]) x2). rewrite (bind_ok (putc ACK) _ x2 tt x3) by done.
  rewrite (bind_ok get _ x3 x3 x3) by done. change (mode x3) with (mode x2). rewrite Hm2. change (xyzModem_ymodem =? xyzModem_ymodem) with true. cbv iota.
  set (x4 := set_sent (sent x3 ++ [if crc_mode x3 then ch "C" else NAK]) x3). set (x5 := set_count (retry (count x4)) x4).
  assert (L5 : line x5 = rest) by done. assert (Hr5 : ready x5) by done. rewrite <- L5 in Ha. rewrite <- Hc2 in Ha. change (crc_mode x2) with (crc_mode x5) in Ha.
  destruct (good_packet x5 n b d rest' Hn Hb Hd Hs Hr5 Ha) as (x6 & E6 & _).
  set (x7 := set_sent (sent x6 ++ [ACK]) x6). rewrite (bind_ok _ _ x3 0 x7).
  - eexists. split; [reflexivity|]. done.
  - rewrite (bind_ok ask _ x3 tt x4) by done. rewrite (bind_ok (on_count _) _ x4 tt x5) by done. rewrite (bind_ok _ _ _ _ _ E6). done.
Qed.

(** The stream before the reader: [R] is still to come. *)
Inductive streams (x : xyz) : list Z -> Prop :=
| streams_end : at_eof x = true -> streams x []
| streams_on crc next fl rl cur ds : reading x crc next fl rl -> holds (frame x) cur -> file_fits fl rl ds -> file_arrives crc next ds (line x) ->
    streams x (cur ++ contents fl rl ds).

Lemma holds_take x cur n : holds (frame x) cur -> (n <= length cur)%nat ->
  packet_bytes (frame x) (Z.of_nat n) = Ok (take n cur) /\
  holds (with_buf (bufp (frame x) + n) (len (frame x) - Z.of_nat n) (frame x)) (drop n cur).
Proof.
  intros [Hl (head & tail & Hp & Hb)] Hn. split.
  - unfold packet_bytes. rewrite Hp, Hb, !length_app. destruct (Z.ltb_spec (Z.of_nat n) 0); [lia|].
    destruct (Z.ltb_spec (Z.of_nat (length head + (length cur + length tail))) (Z.of_nat (length head) + Z.of_nat n)); [lia|]. cbn [orb].
    by rewrite Nat2Z.id, drop_app_length, take_app_le.
  - split; cbn [with_buf len bufp pkt]; [rewrite length_drop; lia|]. exists (head ++ take n cur), tail. split.
    + by rewrite Hp, <- app_assoc, (app_assoc (take n cur)), take_drop.
    + rewrite length_app, length_take. lia.
Qed.

Lemma elapse_length n l : length (elapse n l) = length l.
Proof. by destruct l as [|[g b] l]. Qed.

Lemma quiet_after_length inp rest : quiet_after inp rest -> (length rest <= length inp)%nat.
Proof. intros (junk & mid & Ha & _ & ->). rewrite elapse_length, (arrives_length _ _ _ Ha). lia. Qed.

Lemma bad_try_length crc inp st rest : bad_try crc inp st rest -> (length rest <= length inp)%nat.
Proof.
  intros [n b d tr rest' _ _ _ _ _ _ _ Ha|n b cb d tr mid rest' _ _ _ _ Ha Hq|n d part mid _ _ _ Ha _|n mid rest' _ Ha _ Hq]; rewrite (arrives_length _ _ _ Ha);
    try apply quiet_after_length in Hq; rewrite ?elapse_length in *; lia.
Qed.

Lemma tries_length crc next k inp rest : tries crc next k inp rest -> (length rest <= length inp)%nat.
Proof.
  induction 1 as [inp|k inp st mid rest Hb Ht IH|k inp n b d mid rest _ _ _ _ _ Ha Ht IH]; [done|apply bad_try_length in Hb; lia|].
  rewrite (arrives_length _ _ _ Ha). lia.
Qed.

(** The part of a turn that copies. *)
Lemma read_copy fuel size stat buf x cur : at_eof x = false -> 0 < size -> holds (frame x) cur ->
  let n := Nat.min (Z.to_nat size) (length cur) in
  exists x', (x ← get;
      if at_eof x then read_loop fuel size stat buf
      else let p := frame x in let n := if size <? len p then size else len p in
        b ← lift (packet_bytes p n); on_frame (with_buf (bufp p + Z.to_nat n) (len p - n));; read_loop fuel (size - n) stat (buf ++ b)) x
    = read_loop fuel (size - Z.of_nat n) stat (buf ++ take n cur) x' /\ same_file x x' /\ line x' = line x /\ holds (frame x') (drop n cur).
Proof.
  intros He Hs Hh n. destruct (holds_take x cur n Hh ltac:(lia)) as [Ht Hd]. destruct Hh as [Hl Hp]. set (p' := with_buf _ _ _) in Hd.
  rewrite (bind_ok get _ x x x) by done. rewrite He. cbv zeta.
  assert (En : (if size <? len (frame x) then size else len (frame x)) = Z.of_nat n) by (destruct (Z.ltb_spec size (len (frame x))); lia).
  rewrite En. rewrite (bind_ok (lift _) _ x (take n cur) x) by (unfold lift; by rewrite Ht). rewrite Nat2Z.id.
  rewrite (bind_ok (on_frame _) _ x tt (set_frame p' x)) by done. by exists (set_frame p' x).
Qed.

Lemma read_loop_stop fuel size stat buf x : at_eof x = true \/ size <= 0 -> read_loop fuel size stat buf x = Ok ((buf, 0), x).
Proof.
  intros H. destruct fuel; cbn [read_loop]; rewrite (bind_ok get _ x x x) by done; (destruct (at_eof x); [done|]);
    (destruct H as [?|H]; [done|]); destruct (Z.leb_spec size 0); (lia || done).
Qed.

(** A turn in the middle of a packet, and one that first takes a block from the line. *)
Lemma read_loop_packet fuel size stat buf x cur : at_eof x = false -> 0 < size -> holds (frame x) cur -> cur <> [] ->
  let n := Nat.min (Z.to_nat size) (length cur) in
  exists x', read_loop (S fuel) size stat buf x = read_loop fuel (size - Z.of_nat n) 0 (buf ++ take n cur) x' /\
    same_file x x' /\ line x' = line x /\ holds (frame x') (drop n cur).
Proof.
  intros He Hs Hh Hc n. destruct (read_copy fuel size 0 buf x cur He Hs Hh) as (x' & E & H). exists x'. split; [|done]. unfold n. rewrite <- E.
  cbn [read_loop]. rewrite (bind_ok get _ x x x) by done. rewrite He. destruct (Z.leb_spec size 0); [lia|]. cbn [orb]. destruct Hh as [Hl _].
  destruct (Z.eqb_spec (len (frame x)) 0); [destruct cur; [done|cbn in Hl; lia]|]. rewrite (bind_ok _ _ x 0 x) by done. done.
Qed.

Lemma read_loop_block fuel size stat buf x x1 cur : at_eof x = false -> 0 < size -> len (frame x) = 0 ->
  next_block xyzModem_MAX_RETRIES stat x = Ok (0, x1) -> at_eof x1 = false -> holds (frame x1) cur ->
  let n := Nat.min (Z.to_nat size) (length cur) in
  exists x', read_loop (S fuel) size stat buf x = read_loop fuel (size - Z.of_nat n) 0 (buf ++ take n cur) x' /\
    same_file x1 x' /\ line x' = line x1 /\ holds (frame x') (drop n cur).
Proof.
  intros He Hs Hl E1 He1 Hh n. destruct (read_copy fuel size 0 buf x1 cur He1 Hs Hh) as (x' & E & H). exists x'. split; [|done]. unfold n. rewrite <- E.
  cbn [read_loop]. rewrite (bind_ok get _ x x x) by done. rewrite He, Hl. destruct (Z.leb_spec size 0); [lia|]. cbn [orb].
  change (0 =? 0) with true. cbv iota. by rewrite (bind_ok _ _ _ _ _ E1).
Qed.

Lemma read_loop_eof fuel size stat buf x x1 : at_eof x = false -> 0 < size -> len (frame x) = 0 ->
  next_block xyzModem_MAX_RETRIES stat x = Ok (0, x1) -> at_eof x1 = true -> read_loop (S fuel) size stat buf x = Ok ((buf, 0), x1).
Proof.
  intros He Hs Hl E1 He1. cbn [read_loop]. rewrite (bind_ok get _ x x x) by done. rewrite He, Hl. destruct (Z.leb_spec size 0); [lia|]. cbn [orb].
  change (0 =? 0) with true. cbv iota. rewrite (bind_ok _ _ _ _ _ E1). change (0 <? 0) with false. cbv iota.
  rewrite (bind_ok get _ x1 x1 x1) by done. rewrite He1. apply read_loop_stop. by left.
Qed.

Lemma take_drop_app (a b : list Z) n : let k := Nat.min n (length a) in
  take n (a ++ b) = take k a ++ take (n - k) (drop k a ++ b) /\ drop n (a ++ b) = drop (n - k) (drop k a ++ b).
Proof.
  intros k. destruct (Nat.le_ge_cases n (length a)).
  - assert (k = n) as -> by lia. replace (n - n)%nat with 0%nat by lia. rewrite take_app_le, drop_app_le by done. by rewrite take_0, app_nil_r.
  - assert (k = length a) as -> by lia. rewrite drop_all. cbn [app]. rewrite take_app_ge, drop_app_ge by done. by rewrite firstn_all.
Qed.

Lemma stream_loop_ok fuel : forall x size stat buf R, streams x R -> 0 <= size -> (Z.to_nat size + length (line x) < fuel)%nat ->
  exists x', read_loop fuel size stat buf x = Ok ((buf ++ take (Z.to_nat size) R, 0), x') /\ streams x' (drop (Z.to_nat size) R).
Proof.
  induction fuel as [|fuel IH]; intros x size stat buf R HR Hs Hf; [lia|].
  destruct HR as [He|crc next fl rl cur ds Hx Hh Hfits Ha].
  { exists x. rewrite take_nil, drop_nil, app_nil_r. split; [apply read_loop_stop; by left|by constructor]. }
  destruct (Z.eq_dec size 0) as [->|Hnz]; [exists x; cbn [Z.to_nat take]; rewrite app_nil_r, drop_0; split; [apply read_loop_stop; by right|by eapply streams_on]|].
  assert (He : at_eof x = false) by apply Hx. destruct (decide (cur = [])) as [->|Hc].
  - cbn [app]. assert (Hl : len (frame x) = 0) by apply Hh. inversion Ha as [next' k no b d inp mid rest rest' Ht Hk He' Hn Hb Hd Hz Hp|next' k no d ds' inp mid rest Ht Hk Hn Hd Hz Hp Har]; subst.
    + cbn [contents]. destruct (next_block_end x stat k no b d crc next fl rl mid rest rest') as (x1 & E1 & He1); try done.
      exists x1. rewrite take_nil, drop_nil, app_nil_r. split; [apply read_loop_eof; (done || lia)|by constructor].
    + destruct (next_block_good x stat xyzModem_MAX_RETRIES k no d crc next fl rl mid rest) as (x1 & E1 & L1 & Hh1 & Hx1); try done.
      { destruct Hfits as [?|[? [? _]]]; [by left|right; lia]. }
      destruct (read_loop_block fuel size stat buf x x1 (cut fl rl d)) as (x2 & -> & S2 & L2 & Hh2); try done; [lia|apply Hx1|].
      apply tries_length in Ht. apply arrives_length in Hp. unfold make_packet in Hp. rewrite length_app in Hp. cbn [length] in Hp.
      set (m := Nat.min (Z.to_nat size) (length (cut fl rl d))) in *. set (rl' := if fl =? 0 then rl else rl + Z.of_nat (length d)) in *.
      destruct (IH x2 (size - Z.of_nat m) 0 (buf ++ take m (cut fl rl d)) (drop m (cut fl rl d) ++ contents fl rl' ds')) as (x' & -> & HR').
      * eapply streams_on; [by eapply reading_same|done| |by rewrite L2, L1]. destruct Hfits as [->|[Hm [_ Hfits]]]; [by left|right]. split; [done|]. unfold rl'. by destruct (Z.eqb_spec fl 0); [lia|].
      * lia.
      * rewrite L2, L1. lia.
      * exists x'. cbn [contents]. fold rl'. destruct (take_drop_app (cut fl rl d) (contents fl rl' ds') (Z.to_nat size)) as [-> ->]. fold m.
        replace (Z.to_nat (size - Z.of_nat m)) with (Z.to_nat size - m)%nat in * by lia. by rewrite app_assoc.
  - destruct (read_loop_packet fuel size stat buf x cur) as (x2 & -> & S2 & L2 & Hh2); try done; [lia|].
    set (m := Nat.min (Z.to_nat size) (length cur)) in *. assert (0 < length cur)%nat by (destruct cur; [done|cbn; lia]).
    destruct (IH x2 (size - Z.of_nat m) 0 (buf ++ take m cur) (drop m cur ++ contents fl rl ds)) as (x' & -> & HR').
    + eapply streams_on; [by eapply reading_same|done|done|by rewrite L2].
    + lia.
    + rewrite L2. lia.
    + exists x'. destruct (take_drop_app cur (contents fl rl ds) (Z.to_nat size)) as [-> ->]. fold m.
      replace (Z.to_nat (size - Z.of_nat m)) with (Z.to_nat size - m)%nat in * by lia. by rewrite app_assoc.
Qed.

(** What the reader gives is the stream, in pieces of any size. *)
Lemma stream_read_ok x size R : streams x R -> 0 <= size ->
  exists x', xyzModem_stream_read size x = Ok ((take (Z.to_nat size) R, 0), x') /\ streams x' (drop (Z.to_nat size) R).
Proof.
  intros HR Hs. unfold xyzModem_stream_read. rewrite (bind_ok (gets line) _ x (line x) x) by done.
  apply (stream_loop_ok (Z.to_nat size + length (line x) + 2) x size xyzModem_cancel [] R HR Hs). lia.
Qed.

(** With the length known the padding makes no difference. *)
Lemma contents_known fl ds : forall rl, 0 < fl -> fits fl rl ds -> contents fl rl ds = take (Z.to_nat (fl - rl)) (concat ds).
Proof.
  induction ds as [|d ds IH]; intros rl Hfl Hf; cbn [contents concat fits] in *; [by rewrite take_nil|]. destruct Hf as [Hr Hf].
  assert (E : (fl =? 0) = false) by lia. unfold cut. rewrite E, IH by done. destruct (Nat.le_ge_cases (Z.to_nat (fl - rl)) (length d)).
  - rewrite take_app_le by done. replace (Z.to_nat (fl - (rl + Z.of_nat (length d)))) with 0%nat by lia. by rewrite take_0, app_nil_r.
  - rewrite take_app_ge by done. rewrite (take_ge d) by done. do 2 f_equal. lia.
Qed.

(** ** The block with the name and the length *)

Lemma string_in_ok s rest : Forall (fun c => c <> 0) s -> string_in (s ++ 0 :: rest) = Ok (s, rest).
Proof.
  induction 1 as [|c s Hc Hs IH]; cbn [string_in app]; [done|]. destruct (Z.eqb_spec c 0); [done|]. by rewrite IH.
Qed.

Definition digit (d : Z) : Prop := 0 <= d <= 9.
Definition value (ds : list Z) : Z := fold_left (fun r d => 10 * r + d) ds 0.

Lemma value_from ds : forall r, Forall digit ds -> 0 <= r -> r <= fold_left (fun r d => 10 * r + d) ds r.
Proof. induction ds as [|d ds IH]; intros r Hd Hr; cbn [fold_left]; [lia|]. apply Forall_cons in Hd as [Hd Hds]. unfold digit in Hd. etrans; [|apply IH; [done|lia]]. lia. Qed.

Lemma digit_facts d : digit d -> _is_hex (ch "0" + d) = true /\ _from_hex (ch "0" + d) = d.
Proof. intros Hd. unfold digit in Hd. assert (d = 0 \/ d = 1 \/ d = 2 \/ d = 3 \/ d = 4 \/ d = 5 \/ d = 6 \/ d = 7 \/ d = 8 \/ d = 9) as H by lia. repeat (destruct H as [-> | H]; [done|]). by subst. Qed.

(** The number ends at a space or with the string. *)
Definition number_ends (more : list Z) : Prop := match more with [] => True | c :: _ => c = ch " " end.

Lemma deref_tl_not_x d ds more : Forall digit ds -> number_ends more -> _tolower (deref (tl ((ch "0" + d) :: map (Z.add (ch "0")) ds ++ more))) <> ch "x".
Proof.
  intros Hd Hm. destruct ds as [|e ds]; cbn [map app tl].
  - destruct more as [|c more]; [done|]. cbn in Hm. by subst c.
  - apply Forall_cons in Hd as [He _]. unfold digit in He. assert (e = 0 \/ e = 1 \/ e = 2 \/ e = 3 \/ e = 4 \/ e = 5 \/ e = 6 \/ e = 7 \/ e = 8 \/ e = 9) as H by lia.
    repeat (destruct H as [-> | H]; [done|]). by subst.
Qed.

Lemma parse_digits_ok ds more : forall fuel first r, Forall digit ds -> number_ends more -> 0 <= r -> fold_left (fun r d => 10 * r + d) ds r < 2 ^ 32 ->
  (length ds + (match more with [] => 0 | _ => 1 end) <= fuel)%nat -> (first = true -> ds <> []) ->
  parse_digits fuel (map (Z.add (ch "0")) ds ++ more) first 10 r = Some (fold_left (fun r d => 10 * r + d) ds r).
Proof.
  induction ds as [|d ds IH]; intros fuel first r Hd Hm Hr Hv Hf Hfi; cbn [map app fold_left] in *.
  - destruct first; [by destruct Hfi|]. destruct more as [|c more]; [by destruct fuel|]. destruct fuel as [|fuel]; [cbn in Hf; lia|]. cbn in Hm. by subst c.
  - apply Forall_cons in Hd as [Hd Hds]. destruct fuel as [|fuel]; [cbn in Hf; lia|]. cbn [parse_digits].
    pose proof (deref_tl_not_x d ds more Hds Hm) as Hx. apply Z.eqb_neq in Hx. rewrite Hx, andb_false_r. destruct (digit_facts d Hd) as [-> ->]. unfold digit in Hd.
    destruct (Z.ltb_spec d 10); [|lia]. cbn [andb].
    pose proof (value_from ds (10 * r + d) Hds ltac:(lia)). rewrite u32_small by lia. replace (r * 10 + d) with (10 * r + d) by lia.
    apply IH; (done || lia || cbn [length] in Hf; lia).
Qed.

Lemma parse_num_ok ds more : ds <> [] -> Forall digit ds -> number_ends more -> value ds < 2 ^ 32 ->
  parse_num (map (Z.add (ch "0")) ds ++ more) = Some (value ds).
Proof.
  intros Hne Hd Hm Hv. unfold parse_num. assert (E : skip_spaces (map (Z.add (ch "0")) ds ++ more) = map (Z.add (ch "0")) ds ++ more).
  { destruct ds as [|d ds]; [done|]. cbn [map app skip_spaces]. apply Forall_cons in Hd as [Hd _]. unfold digit in Hd.
    destruct (Z.eqb_spec (ch "0" + d) (ch " ")) as [e|]; [|done]. change (ch "0") with 48 in e. change (ch " ") with 32 in e. lia. }
  rewrite E. apply parse_digits_ok; try done. rewrite length_app, length_map. destruct more; cbn; lia.
Qed.

(** The block that says which file comes and how long it is. *)
Definition file_header (name ds more z : list Z) : list Z := name ++ 0 :: (map (Z.add (ch "0")) ds ++ more) ++ 0 :: z.

Record header_for (name ds more z : list Z) : Prop := HeaderFor {
  name_ok : Forall (fun c => c <> 0) name;
  digits_ok : Forall digit ds;
  digits_some : ds <> [];
  more_ok : Forall (fun c => c <> 0) more;
  more_ends : number_ends more;
  value_ok : value ds < 2 ^ 32;
}.

Lemma file_info_ok x name ds more z tail : header_for name ds more z -> bufp (frame x) = 0%nat -> pkt (frame x) = file_header name ds more z ++ tail ->
  exists x', file_info x = Ok (tt, x') /\ line x' = line x /\ pkt (frame x') = pkt (frame x) /\ (bufp (frame x') <= length (pkt (frame x')))%nat /\
    mode x' = mode x /\ crc_mode x' = crc_mode x /\ at_eof x' = at_eof x /\ file_length x' = value ds /\ read_length x' = read_length x.
Proof.
  intros [Hn Hd Hne Hm He Hv] Hb Hp. unfold file_info. rewrite (bind_ok (gets frame) _ x (frame x) x) by done. 
  set (rest := (map (Z.add (ch "0")) ds ++ more) ++ 0 :: z ++ tail).
  assert (En : string_in (drop (bufp (frame x)) (pkt (frame x))) = Ok (name, rest)).
  { rewrite Hb, Hp, drop_0. unfold file_header. rewrite <- app_assoc. cbn [app]. rewrite string_in_ok by done. unfold rest. by rewrite <- app_assoc. }
  rewrite (bind_ok (lift _) _ x (name, rest) x) by (unfold lift; by rewrite En).
  assert (Hs : Forall (fun c => c <> 0) (map (Z.add (ch "0")) ds ++ more)).
  { apply Forall_app. split; [|done]. apply Forall_map. eapply Forall_impl; [exact Hd|]. cbn. unfold digit. change (ch "0") with 48. lia. }
  rewrite (bind_ok (lift _) _ x (map (Z.add (ch "0")) ds ++ more, z ++ tail) x) by (unfold lift, rest; by rewrite string_in_ok).
  rewrite parse_num_ok by done. set (x1 := set_lengths (value ds) (read_length x) x). rewrite (bind_ok (modify _) _ x tt x1) by done.
  eexists. split; [reflexivity|]. cbn [frame set_frame with_buf bufp pkt line]. do 2 (split; [done|]). split; [apply Nat.le_sub_l|]. done.
Qed.

(** The vain tries before the first block; silence is followed by a delay. *)
Inductive open_tries : nat -> list (Z * Z) -> list (Z * Z) -> Prop :=
| open_none inp : open_tries 0 inp inp
| open_bad k inp stat mid rest : bad_try true inp stat mid ->
    open_tries k (if stat =? xyzModem_timeout then elapse (5 * 100000 / DELAY) mid else mid) rest -> open_tries (S k) inp rest.

Lemma open_loop_tries k inp mid : open_tries k inp mid -> forall x retries crc_retries stat, inp = line x -> ready x -> crc_mode x = true ->
  (k < retries)%nat -> Z.of_nat k < crc_retries ->
  exists r c x' stat', open_loop retries crc_retries stat x = open_loop (S r) c stat' x' /\ line x' = mid /\ same_file x x'.
Proof.
  induction 1 as [inp|k inp st mid rest Hb Ht IH]; intros x retries crcs stat Hl Hr Hc Hk Hz; (destruct retries as [|retries]; [lia|]).
  { by exists retries, crcs, x, stat. }
  subst inp. rewrite <- Hc in Hb. destruct (bad_try_ok x st mid Hr Hb) as (x1 & E & L1 & S1 & _). cbn [open_loop]. rewrite (bind_ok _ _ _ _ _ E).
  pose proof (same_file_ready _ _ S1 Hr) as Hr1. assert (Hc1 : crc_mode x1 = true) by (by destruct S1 as (_ & _ & -> & _)).
  destruct (bad_try_stat _ _ _ _ Hb) as [-> | Hst].
  - change (xyzModem_timeout =? 0) with false. change (xyzModem_timeout =? xyzModem_timeout) with true in *. cbv iota in *.
    destruct (Z.leb_spec (crcs - 1) 0); [lia|]. rewrite (bind_ok _ _ x1 tt x1) by done.
    set (x2 := set_line (elapse (5 * 100000 / DELAY) (line x1)) x1). rewrite (bind_ok (udelay _) _ x1 tt x2) by done.
    set (x3 := set_sent (sent x2 ++ [if crc_mode x2 then ch "C" else NAK]) x2). rewrite (bind_ok ask _ x2 tt x3) by done.
    set (x4 := set_count (retry (count x3)) x3). rewrite (bind_ok (on_count _) _ x3 tt x4) by done.
    destruct (IH x4 retries (crcs - 1) xyzModem_timeout) as (r & c & x' & st' & -> & L' & S'); [by unfold x4, x3, x2; cbn; rewrite L1|done|done|lia|lia|].
    exists r, c, x', st'. split; [done|]. split; [done|]. eapply same_file_trans; [exact S1|]. exact S'.
  - assert (E1 : (st =? 0) = false) by (destruct Hst as [-> | ->]; done). assert (E2 : (st =? xyzModem_timeout) = false) by (destruct Hst as [-> | ->]; done).
    assert (E3 : (st =? xyzModem_cancel) = false) by (destruct Hst as [-> | ->]; done). rewrite E1, E2, E3 in *.
    destruct (IH x1 retries crcs st) as (r & c & x' & st' & -> & L' & S'); [done|done|done|lia|lia|].
    exists r, c, x', st'. split; [done|]. split; [done|]. by eapply same_file_trans.
Qed.

(** Opening finds the length, and the blocks from 1 on are read next. *)
Lemma stream_open_ok x k no name ds more z mid rest : ready x -> header_for name ds more z -> Forall byte (file_header name ds more z) ->
  block_size (file_header name ds more z) -> open_tries k (line x) mid -> (k < 10)%nat -> noise no ->
  arrives (no ++ make_packet true 0 (file_header name ds more z)) mid rest ->
  exists x', xyzModem_stream_open xyzModem_ymodem x = Ok ((0, 0), x') /\ line x' = rest /\ reading x' true 1 (value ds) 0 /\ holds (frame x') [].
Proof.
  intros Hr Hh Hb Hs Ht Hk Hno Ha. unfold xyzModem_stream_open.
  set (x1 := Xyz (with_buf (bufp (frame x)) 0 (frame x)) (next_blk x) xyzModem_ymodem (Totals 0 0 0 0) true false false 0 0 (line x) (sent x)).
  rewrite (bind_ok (modify _) _ x tt x1) by done. set (x2 := set_sent (sent x1 ++ [ch "C"]) x1). rewrite (bind_ok ask _ x1 tt x2) by done.
  change (xyzModem_ymodem =? xyzModem_xmodem) with false. cbv iota.
  destruct (open_loop_tries k _ _ Ht x2 xyzModem_MAX_RETRIES xyzModem_MAX_RETRIES_WITH_CRC 0) as (r & c & x3 & st & -> & L3 & S3); [done|done|done|unfold xyzModem_MAX_RETRIES; lia|unfold xyzModem_MAX_RETRIES_WITH_CRC; lia|].
  destruct S3 as (_ & Sm & Sc & Se & Sf & Srl & Sp). cbn in Sm, Sc, Se, Sf, Srl, Sp. assert (Hr3 : ready x3) by (unfold ready in *; congruence).
  rewrite <- L3, <- Sc in Ha. destruct (good_packet x3 no 0 _ rest Hno ltac:(done) Hb Hs Hr3 Ha) as (x4 & E4 & L4 & S4 & _ & c1 & c2 & Ef).
  cbn [open_loop]. rewrite (bind_ok _ _ _ _ _ E4). change (0 =? 0) with true. cbv iota. rewrite (bind_ok (gets frame) _ x4 (frame x4) x4) by done.
  pose proof (same_file_ready _ _ S4 Hr3) as Hr4. destruct S4 as (_ & Sm4 & Sc4 & Se4 & Sf4 & Srl4 & _).
  destruct (file_info_ok x4 name ds more z (drop (length (file_header name ds more z)) (pkt (frame x3))) Hh) as (x5 & E5 & L5 & P5 & B5 & M5 & C5 & A5 & F5 & R5); [by rewrite Ef|by rewrite Ef|].
  assert (Eb : blk (frame x4) = 0) by (by rewrite Ef). rewrite Eb. change (0 =? 0) with true. cbv iota.
  set (x6 := set_ack true x5). rewrite (bind_ok _ _ x4 tt x6) by (by rewrite (bind_ok _ _ _ _ _ E5)).
  set (x7 := set_next 1 x6). rewrite (bind_ok (modify _) _ x6 tt x7) by done. eexists. split; [reflexivity|]. split; [cbn; congruence|].
  split; [|split; [done|]].
  - unfold reading, ready. cbn. rewrite P5, M5, C5, A5, F5, R5. unfold ready in Hr4. repeat split; congruence || done.
  - exists (take (bufp (frame x5)) (pkt (frame x5))), (drop (bufp (frame x5)) (pkt (frame x5))). cbn. rewrite take_drop, length_take. split; [done|lia].
Qed.

(** Each byte of the blocks came over the line. *)
Lemma file_arrives_length crc next ds inp : file_arrives crc next ds inp -> (length (concat ds) <= length inp)%nat.
Proof.
  induction 1 as [next k n b d inp mid rest rest' Ht _ _ _ _ _ _ _|next k n d ds inp mid rest Ht _ _ _ _ Ha _ IH]; cbn [concat]; [cbn; lia|].
  apply tries_length in Ht. apply arrives_length in Ha. unfold make_packet in Ha. rewrite length_app. repeat (rewrite length_app in Ha || cbn [length] in Ha). lia.
Qed.

(** A whole transfer of [file]: fewer than ten vain tries before the first block, which
    says the name and the length, and then the blocks, the last one padded. *)
Inductive transfer (inp : list (Z * Z)) (file : list Z) : Prop :=
| Transfer k no name ds more z mid rest blocks pad :
    header_for name ds more z -> Forall byte (file_header name ds more z) -> block_size (file_header name ds more z) ->
    open_tries k inp mid -> (k < 10)%nat -> noise no -> arrives (no ++ make_packet true 0 (file_header name ds more z)) mid rest ->
    value ds = Z.of_nat (length file) -> 0 < value ds < 2 ^ 31 -> concat blocks = file ++ pad -> fits (value ds) 0 blocks ->
    file_arrives true 1 blocks rest -> transfer inp file.

(** Then the stream is exactly the file: the length cuts the padding off, and noise,
    damaged, misframed or cut packets, silences and repeated or foreign blocks, fewer
    than twenty between two blocks, make no difference. *)
Lemma ymodem_opened x file : ready x -> transfer (line x) file ->
  exists x', xyzModem_stream_open xyzModem_ymodem x = Ok ((0, 0), x') /\ streams x' file /\ (length file <= length (line x'))%nat.
Proof.
  intros Hr [k no name ds more z mid rest blocks pad Hh Hb Hs Ht Hk Hno Ha Hv Hm Hc Hf Har].
  destruct (stream_open_ok x k no name ds more z mid rest Hr Hh Hb Hs Ht Hk Hno Ha) as (x1 & E1 & L1 & Hx1 & Hh1). exists x1. split; [done|]. split.
  - assert (E : file = [] ++ contents (value ds) 0 blocks).
    { cbn [app]. rewrite contents_known by (lia || done). rewrite Hc, Hv, Z.sub_0_r, Nat2Z.id, take_app_length. done. }
    rewrite E. eapply streams_on; [done|done|right; split; [lia|done]|by rewrite L1].
  - apply file_arrives_length in Har. rewrite Hc, length_app in Har. rewrite L1. lia.
Qed.

(** ** Any sender *)

(** Nothing is known of the line: packets are looked for in whatever comes. *)
Definition later (x x' : xyz) : Prop := same_file x x' /\ (length (line x') <= length (line x))%nat.

Lemma later_refl x : later x x.
Proof. done. Qed.

Lemma later_trans x y z : later x y -> later y z -> later x z.
Proof. intros [A L] [B M]. split; [by eapply same_file_trans|lia]. Qed.

Lemma later_line x l : (length l <= length (line x))%nat -> later x (set_line l x).
Proof. by split. Qed.

Lemma getc_any x : exists r l, getc_timeout x = Ok (r, set_line l x) /\ (length l + (if r is Some _ then 1 else 0) <= length (line x))%nat.
Proof.
  destruct (line x) as [|[g b] l] eqn:Hl.
  - eexists None, _. split; [apply getc_timeout_idle; by rewrite Hl|]. by rewrite Hl.
  - destruct (Z.leb_spec g CHAR_STEPS).
    + exists (Some b), l. split; [by apply (getc_timeout_byte x g b l)|]. cbn. lia.
    + eexists None, _. split; [apply getc_timeout_idle; by rewrite Hl|]. rewrite elapse_length, Hl. lia.
Qed.

Lemma flush_any x : exists l, xyzModem_flush x = Ok (tt, set_line l x) /\ (length l <= length (line x))%nat.
Proof.
  unfold xyzModem_flush. rewrite (bind_ok (gets line) _ x (line x) x) by done.
  enough (H : forall fuel x, (length (line x) < fuel)%nat -> exists l, flush_loop fuel x = Ok (tt, set_line l x) /\ (length l <= length (line x))%nat) by (apply H; lia).
  intros fuel. induction fuel as [|fuel IH]; intros y Hf; [lia|]. cbn [flush_loop].
  destruct (getc_any y) as (r & l & E & Hl). rewrite (bind_ok _ _ _ _ _ E). destruct r; [|exists l; split; [done|lia]].
  destruct (IH (set_line l y)) as (l' & -> & Hl'); [cbn; lia|]. exists l'. split; [done|]. cbn in Hl'. lia.
Qed.

Lemma find_header_any fuel : forall x can chars, (length (line x) < fuel)%nat ->
  exists h x', find_header fuel can chars x = Ok (h, x') /\ later x x' /\
    match h with Start c => (length (line x') < length (line x))%nat | Return st => st = xyzModem_timeout \/ st = xyzModem_cancel \/ st = xyzModem_eof end.
Proof.
  induction fuel as [|fuel IH]; intros x can chars Hf; [lia|]. cbn [find_header]. destruct (getc_any x) as (r & l & E & Hl). rewrite (bind_ok _ _ _ _ _ E).
  destruct r as [c|]; cbv zeta.
  - set (x1 := set_line l x). assert (L1 : later x x1) by (apply later_line; lia). destruct (c =? SOH); [eexists _, _; split; [reflexivity|]; split; [exact L1|cbn; lia]|].
    destruct (c =? STX); [eexists _, _; split; [reflexivity|]; split; [exact L1|cbn; lia]|]. destruct (c =? CAN).
    + rewrite (bind_ok (on_count _) _ x1 tt _ eq_refl). destruct (_ =? _); [eexists _, _; split; [reflexivity|]; split; [exact L1|auto]|].
      match goal with |- context [find_header fuel ?a ?b ?y] => destruct (IH y a b) as (h & x' & E' & L' & Hh); [cbn; lia|] end.
      exists h, x'. split; [done|]. split; [by eapply later_trans; [exact L1|]|]. destruct h; [cbn in Hh; lia|done].
    + destruct (_ && _); [eexists _, _; split; [reflexivity|]; split; [exact L1|auto]|].
      destruct (IH x1 can (chars + 1)) as (h & x' & E' & L' & Hh); [cbn; lia|]. exists h, x'. split; [done|]. split; [by eapply later_trans|]. destruct h; [cbn in Hh; lia|done].
  - destruct (flush_any (set_line l x)) as (l' & E' & Hl'). rewrite (bind_ok _ _ _ _ _ E'). eexists _, _. split; [reflexivity|]. cbn in Hl'.
    split; [|by left]. split; [done|]. cbn. rewrite elapse_length. lia.
Qed.

(** What reading a piece of a packet leaves: [f] holds of the packet. *)
Definition piece (x : xyz) (r : bool) (x' : xyz) (f : packet -> Prop) : Prop := later x x' /\ (r = true -> f (frame x')).

Lemma read_field_any f x : (forall c p, length (pkt (f c p)) = length (pkt p)) ->
  exists r x', read_field f x = Ok (r, x') /\ later x x' /\ (r = true -> exists c, frame x' = f c (frame x)).
Proof.
  intros Hf. destruct (getc_any x) as (r & l & E & Hl). unfold read_field. rewrite (bind_ok _ _ _ _ _ E). destruct r as [c|].
  - eexists true, _. split; [reflexivity|]. split; [|intros _; by exists c]. split; [|cbn; lia]. repeat split. cbn. apply Hf.
  - eexists false, _. split; [reflexivity|]. split; [|done]. apply later_line. lia.
Qed.

Lemma read_data_any n : forall i x, (i + n <= length (pkt (frame x)))%nat ->
  exists r x', read_data n i x = Ok (r, x') /\ later x x' /\ bufp (frame x') = bufp (frame x) /\ len (frame x') = len (frame x).
Proof.
  induction n as [|n IH]; intros i x Hi; cbn [read_data]; [by exists true, x|]. destruct (getc_any x) as (r & l & E & Hl). rewrite (bind_ok _ _ _ _ _ E). destruct r as [c|].
  - set (x1 := set_line l x). rewrite (bind_ok (gets frame) _ x1 (frame x1) x1) by done.
    rewrite (bind_ok (lift _) _ x1 (<[i := c]> (pkt (frame x1))) x1) by (rewrite arr_set_ok; [done|change (frame x1) with (frame x); lia]).
    set (x2 := set_frame (with_pkt (<[i := c]> (pkt (frame x1))) (frame x1)) x1). rewrite (bind_ok (on_frame _) _ x1 tt x2) by done.
    assert (Lp : length (pkt (frame x2)) = length (pkt (frame x))) by (cbn; by rewrite length_insert).
    destruct (IH (S i) x2) as (r & x' & E' & L' & B & N); [rewrite Lp; lia|]. exists r, x'. split; [done|]. split; [|done].
    eapply later_trans; [|exact L']. split; [repeat split; exact Lp|cbn; lia].
  - eexists false, _. split; [reflexivity|]. split; [|done]. apply later_line. lia.
Qed.

(** A packet that was taken lies at the beginning of the buffer. *)
Definition fresh (x : xyz) : Prop := bufp (frame x) = 0%nat /\ (len (frame x) = 128 \/ len (frame x) = 1024).

Lemma check_packet_any x : exists stat x', check_packet x = Ok (stat, x') /\ later x x' /\ (stat = 0 /\ x' = x \/ stat = xyzModem_frame \/ stat = xyzModem_cksum).
Proof.
  unfold check_packet. rewrite (bind_ok get _ x x x) by done. cbv zeta. destruct (negb _).
  - destruct (flush_any x) as (l & E & Hl). rewrite (bind_ok _ _ _ _ _ E). eexists _, _. split; [reflexivity|]. split; [by apply later_line|auto].
  - destruct (crc_mode x); destruct (negb _); eexists _, x; (split; [reflexivity|]); (split; [done|]); auto.
Qed.

(** The statuses of a try without a packet. *)
Definition try_error (stat : Z) : Prop :=
  stat = xyzModem_timeout \/ stat = xyzModem_cancel \/ stat = xyzModem_eof \/ stat = xyzModem_frame \/ stat = xyzModem_cksum.

Lemma read_packet_any c x : ready x -> exists stat x', read_packet c x = Ok (stat, x') /\ later x x' /\ (stat = 0 /\ fresh x' \/ try_error stat).
Proof.
  intros Hr. unfold read_packet, try_error.
  assert (stop : forall r (k : X Z) y, later x y -> (r = true -> exists stat x', k y = Ok (stat, x') /\ later x x' /\ (stat = 0 /\ fresh x' \/ try_error stat)) ->
    exists stat x', (if negb r then mret xyzModem_timeout else k) y = Ok (stat, x') /\ later x x' /\ (stat = 0 /\ fresh x' \/ try_error stat)).
  { intros [] k y Ly H; [by apply H|]. eexists _, y. split; [reflexivity|]. split; [done|]. right. by left. }
  destruct (read_field_any with_blk x) as (r1 & x1 & E1 & L1 & _); [done|]. rewrite (bind_ok _ _ _ _ _ E1). apply stop; [done|]. intros _.
  destruct (read_field_any with_cblk x1) as (r2 & x2 & E2 & L2 & _); [done|]. pose proof (later_trans _ _ _ L1 L2) as L02.
  rewrite (bind_ok _ _ _ _ _ E2). apply stop; [done|]. intros _. cbv zeta. set (n := if c =? SOH then 128 else 1024).
  assert (Hn : n = 128 \/ n = 1024) by (unfold n; destruct (c =? SOH); auto).
  set (x3 := set_frame (with_buf 0 n (frame x2)) x2). rewrite (bind_ok (on_frame _) _ x2 tt x3) by done. assert (L03 : later x x3) by exact L02.
  destruct (read_data_any (Z.to_nat n) 0 x3) as (r4 & x4 & E4 & L4 & B4 & N4).
  { assert (Hr3 : ready x3) by (eapply same_file_ready; [apply L03|done]). rewrite Hr3. destruct Hn as [-> | ->]; cbn; lia. }
  pose proof (later_trans _ _ _ L03 L4) as L04. rewrite (bind_ok _ _ _ _ _ E4). apply stop; [done|]. intros _.
  destruct (read_field_any with_crc1 x4) as (r5 & x5 & E5 & L5 & F5); [done|]. pose proof (later_trans _ _ _ L04 L5) as L05. rewrite (bind_ok _ _ _ _ _ E5). apply stop; [done|]. intros R5.
  destruct (F5 R5) as [v5 Ef5]. rewrite (bind_ok get _ x5 x5 x5) by done.
  assert (H6 : exists r x6, (if crc_mode x5 then read_field with_crc2 else mret true) x5 = Ok (r, x6) /\ later x5 x6 /\ (r = true -> bufp (frame x6) = 0%nat /\ len (frame x6) = n)).
  { destruct (crc_mode x5).
    - destruct (read_field_any with_crc2 x5) as (r6 & x6 & E6 & L6 & F6); [done|]. exists r6, x6. split; [done|]. split; [done|]. intros R6. destruct (F6 R6) as [v6 ->]. rewrite Ef5. cbn. by rewrite B4, N4.
    - exists true, x5. split; [done|]. split; [done|]. intros _. rewrite Ef5. cbn. by rewrite B4, N4. }
  destruct H6 as (r6 & x6 & E6 & L6 & F6). pose proof (later_trans _ _ _ L05 L6) as L06. rewrite (bind_ok _ _ _ _ _ E6). apply stop; [done|]. intros R6. destruct (F6 R6) as [B6 N6].
  destruct (check_packet_any x6) as (st & x7 & E7 & L7 & H7). exists st, x7. split; [done|]. split; [by eapply later_trans|].
  unfold fresh. destruct H7 as [[-> ->]|[-> | ->]]; [left; by rewrite B6, N6|right; unfold try_error; auto 10|right; unfold try_error; auto 10].
Qed.

Lemma get_hdr_any x : ready x -> exists stat x', xyzModem_get_hdr x = Ok (stat, x') /\ later x x' /\
  (stat = 0 /\ fresh x' /\ (length (line x') < length (line x))%nat \/ try_error stat).
Proof.
  intros Hr. destruct (get_hdr_start x) as (x1 & -> & Hl & S1 & _). rewrite (bind_ok (gets line) _ x1 (line x1) x1) by done.
  destruct (find_header_any (S (length (line x1))) x1 0 0) as (h & x2 & E & L2 & Hh); [lia|]. rewrite (bind_ok _ _ _ _ _ E).
  assert (L01 : later x x1) by (split; [done|by rewrite Hl]). pose proof (later_trans _ _ _ L01 L2) as L02. destruct h as [c|st].
  - destruct (read_packet_any c x2) as (st & x3 & -> & L3 & H3); [by eapply same_file_ready; [apply L02|]|].
    exists st, x3. split; [done|]. split; [by eapply later_trans|]. destruct H3 as [[-> F]|H]; [|by right]. left. split; [done|]. split; [done|].
    destruct L3 as [_ L3]. rewrite Hl in Hh. lia.
  - exists st, x2. split; [done|]. split; [done|]. right. unfold try_error. destruct Hh as [-> | [-> | ->]]; auto.
Qed.

(** The sizes of the X-modem, or of the Y-modem without a length, are never negative. *)
Definition unlimited (x : xyz) : Prop := ready x /\ (mode x = xyzModem_xmodem \/ file_length x = 0).

(** The unread part lies in the buffer. *)
Definition in_buffer (x : xyz) : Prop := 0 <= len (frame x) /\ Z.of_nat (bufp (frame x)) + len (frame x) <= 1024.

Lemma unlimited_same x x' : same_file x x' -> unlimited x -> unlimited x'.
Proof. intros S [Hr H]. split; [by eapply same_file_ready|]. destruct S as (_ & -> & _ & _ & -> & _). done. Qed.

Lemma accept_block_any x : unlimited x -> fresh x -> exists x', accept_block x = Ok (tt, x') /\
  line x' = line x /\ unlimited x' /\ in_buffer x'.
Proof.
  intros [Hr Hu] [Hb Hn]. unfold accept_block, in_buffer.
  set (x1 := set_ack true (set_next (Z.land (next_blk x + 1) 0xFF) x)). rewrite (bind_ok (modify _) _ x tt x1) by done. rewrite (bind_ok get _ x1 x1 x1) by done. cbv zeta.
  set (n := Z.to_nat (len (frame x1))). set (c := _ && _).
  assert (H2 : exists x2, (if c then on_frame (with_buf (bufp (frame x1)) (Z.of_nat (strip_eof n (pkt (frame x1))))) else mret tt) x1 = Ok (tt, x2) /\
    line x2 = line x /\ ready x2 /\ mode x2 = mode x /\ file_length x2 = file_length x /\ bufp (frame x2) = 0%nat /\ 0 <= len (frame x2) <= 1024).
  { destruct c.
    - eexists. split; [reflexivity|]. cbn. pose proof (strip_eof_le n (pkt (frame x))) as Hle. repeat (split; [done|]). assert (n = Z.to_nat (len (frame x))) by done. lia.
    - exists x1. split; [done|]. cbn. repeat (split; [done|]). lia. }
  destruct H2 as (x2 & E2 & L2 & R2 & M2 & F2 & B2 & N2). rewrite (bind_ok _ _ _ _ _ E2). rewrite (bind_ok get _ x2 x2 x2) by done. cbv zeta.
  assert (Ec : negb (mode x2 =? xyzModem_xmodem) && negb (file_length x2 =? 0) = false).
  { rewrite M2, F2. destruct Hu as [-> | ->]; [done|]. apply andb_false_r. }
  rewrite Ec. exists x2. split; [done|]. split; [done|]. split; [split; [done|by rewrite M2, F2]|]. rewrite B2. lia.
Qed.

Lemma fresh_in_buffer x : fresh x -> in_buffer x.
Proof. intros [Hb Hn]. unfold in_buffer. rewrite Hb. lia. Qed.

(** What the tries for a block give. *)
Definition block_result (x : xyz) (st : Z) (x' : xyz) : Prop :=
  unlimited x' /\ (length (line x') <= length (line x))%nat /\
  (st < 0 \/ st = 0 /\ (at_eof x' = true \/ in_buffer x' /\ (length (line x') < length (line x))%nat)).

Lemma finish_any x : unlimited x -> exists st x', finish x = Ok (st, x') /\ block_result x st x'.
Proof.
  intros Hu. unfold finish. set (x1 := set_sent (sent x ++ [ACK]) x). rewrite (bind_ok (putc ACK) _ x tt x1) by done. rewrite (bind_ok get _ x1 x1 x1) by done.
  destruct (mode x1 =? xyzModem_ymodem).
  - set (x2 := set_sent (sent x1 ++ [if crc_mode x1 then ch "C" else NAK]) x1). set (x3 := set_count (retry (count x2)) x2).
    destruct (get_hdr_any x3) as (st & x4 & E & [S4 L4] & H4); [apply Hu|]. set (x5 := set_sent (sent x4 ++ [ACK]) x4).
    assert (Hst : st <= 0) by (unfold try_error, xyzModem_timeout, xyzModem_cancel, xyzModem_eof, xyzModem_frame, xyzModem_cksum in H4; lia).
    rewrite (bind_ok _ _ x1 st x5).
    + eexists _, _. split; [reflexivity|]. split; [exact (unlimited_same x3 x4 S4 Hu)|]. split; [exact L4|]. destruct (Z.eq_dec st 0); [right; split; [done|by left]|left; lia].
    + rewrite (bind_ok ask _ x1 tt x2) by done. rewrite (bind_ok (on_count _) _ x2 tt x3) by done. by rewrite (bind_ok _ _ _ _ _ E).
  - rewrite (bind_ok (mret _) _ x1 xyzModem_eof x1) by done. eexists _, _. split; [reflexivity|]. split; [done|]. split; [done|]. by left.
Qed.

Lemma next_block_any retries : forall x x0 stat, unlimited x -> (length (line x) <= length (line x0))%nat ->
  stat < 0 \/ stat = 0 /\ in_buffer x /\ (length (line x) < length (line x0))%nat ->
  exists st x', next_block retries stat x = Ok (st, x') /\ block_result x0 st x'.
Proof.
  induction retries as [|retries IH]; intros x x0 stat Hu Hl Hs; cbn [next_block].
  { exists stat, x. split; [done|]. split; [done|]. split; [done|]. destruct Hs as [?|(? & ? & ?)]; auto 7. }
  destruct (get_hdr_any x) as (st & x1 & E1 & [S1 L1] & H1); [apply Hu|]. rewrite (bind_ok _ _ _ _ _ E1). rewrite (bind_ok get _ x1 x1 x1) by done.
  pose proof (unlimited_same _ _ S1 Hu) as Hu1.
  assert (again : forall stat' y, same_file x1 y -> line y = line x1 -> stat' < 0 -> exists st x', next_block retries stat' y = Ok (st, x') /\ block_result x0 st x').
  { intros stat' y Sy Ly Hneg. apply IH; [by eapply unlimited_same|rewrite Ly; lia|by left]. }
  destruct H1 as [(-> & Hf & L1')|He].
  - change (0 =? 0) with true. cbn [andb]. destruct (blk (frame x1) =? next_blk x1).
    + destruct (accept_block_any x1 Hu1 Hf) as (x2 & E2 & L2 & Hu2 & Hb2). rewrite (bind_ok _ _ _ _ _ E2). exists 0, x2. split; [done|]. split; [done|]. rewrite L2. split; [lia|].
      right. split; [done|]. right. split; [done|lia].
    + destruct (blk (frame x1) =? _).
      * set (x2 := set_sent (sent x1 ++ [ACK]) x1). rewrite (bind_ok (putc ACK) _ x1 tt x2) by done. apply IH; [done|cbn; lia|]. right. split; [done|]. split; [by apply fresh_in_buffer|cbn; lia].
      * cbv zeta. change (xyzModem_sequence =? xyzModem_cancel) with false. change (xyzModem_sequence =? xyzModem_eof) with false. cbv iota.
        set (x2 := set_sent (sent x1 ++ [if crc_mode x1 then ch "C" else NAK]) x1). rewrite (bind_ok ask _ x1 tt x2) by done.
        set (x3 := set_count (retry (count x2)) x2). rewrite (bind_ok (on_count _) _ x2 tt x3) by done. by apply again.
  - assert (Hst : st < 0) by (unfold try_error, xyzModem_timeout, xyzModem_cancel, xyzModem_eof, xyzModem_frame, xyzModem_cksum in He; lia).
    assert (E0 : (st =? 0) = false) by lia. rewrite E0. cbn [andb]. cbv zeta. destruct (st =? xyzModem_cancel).
    { exists st, x1. split; [done|]. split; [done|]. split; [lia|]. by left. }
    destruct (st =? xyzModem_eof).
    { destruct (finish_any x1 Hu1) as (st' & x2 & -> & Hu2 & L2 & H2). exists st', x2. split; [done|]. split; [done|]. split; [lia|].
      destruct H2 as [?|[? [?|[? ?]]]]; [by left|right; auto|right]. split; [done|]. right. split; [done|lia]. }
    set (x2 := set_sent (sent x1 ++ [if crc_mode x1 then ch "C" else NAK]) x1). rewrite (bind_ok ask _ x1 tt x2) by done.
    set (x3 := set_count (retry (count x2)) x2). rewrite (bind_ok (on_count _) _ x2 tt x3) by done. by apply again.
Qed.

Lemma next_block_stat r st st' : r <> 0%nat -> next_block r st = next_block r st'.
Proof. by destruct r. Qed.

(** One turn's copy. *)
Lemma read_copy_any fuel size stat buf x : at_eof x = false -> 0 < size -> unlimited x -> in_buffer x ->
  exists b x', (x ← get;
      if at_eof x then read_loop fuel size stat buf
      else let p := frame x in let n := if size <? len p then size else len p in
        b ← lift (packet_bytes p n); on_frame (with_buf (bufp p + Z.to_nat n) (len p - n));; read_loop fuel (size - n) stat (buf ++ b)) x
    = read_loop fuel (size - Z.of_nat (length b)) stat (buf ++ b) x' /\ unlimited x' /\ in_buffer x' /\ line x' = line x /\ Z.of_nat (length b) <= size /\
      (len (frame x) <> 0 -> b <> []).
Proof.
  intros He Hs [Hr Hu] [Hlen Hbuf]. rewrite (bind_ok get _ x x x) by done. rewrite He. cbv zeta. set (n := if size <? len (frame x) then size else len (frame x)).
  assert (Hn : 0 <= n <= size /\ n <= len (frame x) /\ (len (frame x) <> 0 -> 0 < n)) by (unfold n; destruct (Z.ltb_spec size (len (frame x))); lia).
  unfold ready in Hr. set (b := take (Z.to_nat n) (drop (bufp (frame x)) (pkt (frame x)))). assert (Lb : Z.of_nat (length b) = n) by (unfold b; rewrite length_take, length_drop; lia).
  rewrite (bind_ok (lift _) _ x b x).
  - set (x1 := set_frame (with_buf (bufp (frame x) + Z.to_nat n) (len (frame x) - n) (frame x)) x). rewrite (bind_ok (on_frame _) _ x tt x1) by done.
    exists b, x1. rewrite Lb. split; [done|]. split; [done|]. split; [split; cbn; lia|]. split; [done|]. split; [lia|]. intros Hz Hb. rewrite Hb in Lb. cbn in Lb. lia.
  - unfold lift, packet_bytes. rewrite Hr. destruct (Z.ltb_spec n 0); [lia|]. destruct (Z.ltb_spec (Z.of_nat 1024) (Z.of_nat (bufp (frame x)) + n)); [lia|]. done.
Qed.

Lemma read_loop_any fuel : forall x size stat buf, unlimited x -> in_buffer x -> stat <= 0 -> (Z.to_nat size + length (line x) < fuel)%nat ->
  exists b err x', read_loop fuel size stat buf x = Ok ((buf ++ b, err), x') /\ Z.of_nat (length b) <= Z.max 0 size /\
    (err < 0 \/ err = 0 /\ (at_eof x' = true \/ unlimited x' /\ in_buffer x' /\ Z.of_nat (length b) = Z.max 0 size)).
Proof.
  induction fuel as [|fuel IH]; intros x size stat buf Hu Hb Hst Hf; [lia|].
  destruct (at_eof x) eqn:He.
  { exists [], 0, x. rewrite app_nil_r. split; [apply read_loop_stop; by left|]. split; [cbn; lia|auto]. }
  destruct (Z.leb_spec size 0) as [Hs|Hs].
  { exists [], 0, x. rewrite app_nil_r. split; [apply read_loop_stop; by right|]. split; [cbn; lia|]. right. split; [done|]. right. split; [done|]. split; [done|cbn; lia]. }
  assert (copy : forall y, at_eof y = false -> unlimited y -> in_buffer y -> (length (line y) <= length (line x))%nat -> len (frame y) <> 0 \/ (length (line y) < length (line x))%nat ->
    exists b err x', (x ← get; if at_eof x then read_loop fuel size 0 buf
        else let p := frame x in let n := if size <? len p then size else len p in
          b ← lift (packet_bytes p n); on_frame (with_buf (bufp p + Z.to_nat n) (len p - n));; read_loop fuel (size - n) 0 (buf ++ b)) y = Ok ((buf ++ b, err), x') /\
      Z.of_nat (length b) <= Z.max 0 size /\ (err < 0 \/ err = 0 /\ (at_eof x' = true \/ unlimited x' /\ in_buffer x' /\ Z.of_nat (length b) = Z.max 0 size))).
  { intros y Hey Huy Hby Hly Hpr. destruct (read_copy_any fuel size 0 buf y Hey Hs Huy Hby) as (b & y' & -> & Hu' & Hb' & Ll & Lb & Hne).
    destruct (IH y' (size - Z.of_nat (length b)) 0 (buf ++ b) Hu' Hb') as (b2 & err & x' & -> & Lb2 & H2); [lia| |].
    { rewrite Ll. destruct Hpr as [Hz|Hz]; [|lia]. apply Hne in Hz. destruct b; [done|cbn [length]; lia]. }
    exists (b ++ b2), err, x'. rewrite app_assoc, length_app. split; [done|]. split; [lia|]. destruct H2 as [?|[? [?|(? & ? & ?)]]]; [by left|auto|]. right. split; [done|]. right. split; [done|]. split; [done|lia]. }
  cbn [read_loop]. rewrite (bind_ok get _ x x x) by done. rewrite He. destruct (Z.leb_spec size 0); [lia|]. cbn [orb]. destruct (Z.eqb_spec (len (frame x)) 0) as [Hz|Hz].
  - rewrite (next_block_stat _ stat xyzModem_cancel) by done.
    destruct (next_block_any xyzModem_MAX_RETRIES x x xyzModem_cancel Hu) as (st & x1 & E1 & Hu1 & L1 & H1); [done|by left|]. rewrite (bind_ok _ _ _ _ _ E1).
    destruct H1 as [Hneg|[-> H1]].
    { destruct (Z.ltb_spec st 0); [|lia]. eexists [], st, _. rewrite app_nil_r. split; [reflexivity|]. split; [cbn; lia|by left]. }
    change (0 <? 0) with false. cbv iota. destruct (at_eof x1) eqn:He1.
    { rewrite (bind_ok get _ x1 x1 x1) by done. rewrite He1. exists [], 0, x1. rewrite app_nil_r. split; [apply read_loop_stop; by left|]. split; [cbn; lia|auto]. }
    destruct H1 as [?|[Hb1 L1']]; [done|]. apply copy; auto.
  - rewrite (bind_ok (mret _) _ x 0 x) by done. change (0 <? 0) with false. cbv iota. apply copy; auto.
Qed.

(** C18: On a stream in which no read has failed yet, of X-modem or of Y-modem without
    a length: whatever the sender does and whatever noise comes in the bytes of the
    line, which are finitely many, a read comes to an end, stays in the packet buffer
    and in the caller's buffer, and reports an error or gives as many bytes as asked
    for, or the end of the stream; without an error the stream can be read further in
    the same way. After an error it cannot, see [cancelled_in_the_middle]. *)
Theorem xmodem_read_safe x size : unlimited x -> in_buffer x -> 0 <= size ->
  exists b err x', xyzModem_stream_read size x = Ok ((b, err), x') /\ Z.of_nat (length b) <= size /\
    (err < 0 \/ err = 0 /\ (at_eof x' = true \/ unlimited x' /\ in_buffer x' /\ Z.of_nat (length b) = size)).
Proof.
  intros Hu Hb Hs. unfold xyzModem_stream_read. rewrite (bind_ok (gets line) _ x (line x) x) by done.
  destruct (read_loop_any (Z.to_nat size + length (line x) + 2) x size xyzModem_cancel [] Hu Hb) as (b & err & x' & E & Lb & H); [done|lia|].
  exists b, err, x'. split; [exact E|]. rewrite Z.max_r in * by done. done.
Qed.

(** ** Transfers *)

Definition on_time (l : list Z) : list (Z * Z) := map (pair 0) l.

Lemma arrives_on_time l rest : arrives l (on_time l ++ rest) rest.
Proof. induction l as [|b l IH]; [done|]. exists 0, (on_time l ++ rest). split; [done|]. split; [done|exact IH]. Qed.

Definition start (l : list (Z * Z)) : xyz := Xyz (Packet (repeat 0 1024) 0 0 0 0 0 0) 0 0 (Totals 0 0 0 0) true false false 0 0 l [].

(** "hi!", announced as "a", in one block, which is damaged at first; before it the other
    side is silent for longer than the receiver waits. *)
Definition hi_head : list Z := file_header (zs "a") [3] [] (repeat 0 124).
Definition hi_block : list Z := zs "hi!" ++ repeat EOF 125.
Definition hi_rest : list (Z * Z) :=
  on_time (start_of hi_block :: 1 :: 254 :: hi_block ++ [0; 0]) ++ on_time (make_packet true 1 hi_block) ++ on_time [EOT] ++
  on_time (make_packet true 0 (repeat 0 128)).
Definition hi_line (gap : Z) : list (Z * Z) := (gap, SOH) :: on_time (tl (make_packet true 0 hi_head)) ++ hi_rest.

Lemma no_noise : noise [].
Proof. constructor. Qed.

Lemma hi_transfer : transfer (hi_line 230000) (zs "hi!").
Proof.
  apply (Transfer _ _ 1 [] (zs "a") [3] [] (repeat 0 124) (hi_line (-7500)) hi_rest [hi_block] (repeat EOF 125)).
  - constructor; try (by apply (bool_decide_unpack _); vm_compute).
  - by apply (bool_decide_unpack _); vm_compute.
  - by left.
  - apply (open_bad 0 _ xyzModem_timeout (hi_line 17500)); [|constructor].
    apply (try_silent true (hi_line 230000) [] (hi_line 230000) (hi_line 30000)); [apply no_noise|done|done|]. by exists [], (hi_line 130000).
  - lia.
  - apply no_noise.
  - exists (-7500). eexists. split; [reflexivity|]. split; [done|]. apply arrives_on_time.
  - done.
  - done.
  - done.
  - by split.
  - assert (Hb : Forall byte hi_block) by (by apply (bool_decide_unpack _); vm_compute).
    apply (file_block true 1 1 [] hi_block [] _ (on_time (make_packet true 1 hi_block) ++ on_time [EOT] ++ on_time (make_packet true 0 (repeat 0 128)) ++ [])
      (on_time [EOT] ++ on_time (make_packet true 0 (repeat 0 128)) ++ [])); [|unfold xyzModem_MAX_RETRIES; lia|apply no_noise|done|by left|apply arrives_on_time|].
    + apply (tries_bad true 1 0 _ xyzModem_cksum (on_time (make_packet true 1 hi_block) ++ on_time [EOT] ++ on_time (make_packet true 0 (repeat 0 128)) ++ [])); [|constructor].
      apply (try_damaged true _ [] 1 hi_block [0; 0]);
        [apply no_noise|done|exact Hb|by repeat constructor|by left|reflexivity|by apply (bool_decide_unpack _); vm_compute|rewrite app_nil_r; apply arrives_on_time].
    + apply (file_end true 2 0 [] 0 (repeat 0 128) _ (on_time [EOT] ++ on_time (make_packet true 0 (repeat 0 128)) ++ []) (on_time (make_packet true 0 (repeat 0 128)) ++ []) []);
        [constructor|unfold xyzModem_MAX_RETRIES; lia|apply arrives_on_time|apply no_noise|done|by apply (bool_decide_unpack _); vm_compute|by left|apply arrives_on_time].
Qed.

Lemma xmodem_read_safe_witness : exists b err x',
  xyzModem_stream_read 1024 (start (hi_line 0)) = Ok ((b, err), x') /\ Z.of_nat (length b) <= 1024 /\
    (err < 0 \/ err = 0 /\ (at_eof x' = true \/ unlimited x' /\ in_buffer x' /\ Z.of_nat (length b) = 1024)).
Proof. apply (xmodem_read_safe (start (hi_line 0)) 1024); [by split; [|right]|done|done]. Defined.

(** The sender repeats the block that was received twenty times: it is taken again. *)
Example twentieth_repetition :
  match xyzModem_stream_read 3 (set_next 2 (start (concat (repeat (on_time (make_packet true 1 hi_block)) 20)))) with Ok ((b, err), _) => bool_decide (b = zs "hi!") && (err =? 0) | _ => false end = true.
Proof. by vm_compute. Qed.

(** More blocks than the announced length needs: the length of the second one becomes
    negative, and [memcpy] copies without end. *)
Example longer_than_announced :
  xyzModem_stream_read 10 (set_lengths 3 0 (set_next 1 (set_crc_mode true (Xyz (frame (start [])) 1 xyzModem_ymodem (count (start [])) true false false 3 0
    (on_time (make_packet true 1 hi_block ++ make_packet true 2 hi_block)) [])))) = Fault.
Proof. by vm_compute. Qed.

(** The sender cancels after one block: the reader gets the block, and the next read
    copies -1 bytes. *)
Example cancelled_in_the_middle :
  (r ← xyzModem_stream_read 1024; if snd r =? xyzModem_cancel then xyzModem_stream_read 1024 else mret r)
    (set_next 1 (start (on_time (make_packet true 1 (repeat 1 128) ++ [CAN; CAN; CAN])))) = Fault.
Proof. by vm_compute. Qed.

(** A first block without a NUL is read on behind the packet. *)
Example header_without_end :
  xyzModem_stream_open xyzModem_ymodem (start (on_time (make_packet true 0 (repeat 1 1024)))) = Fault.
Proof. by vm_compute. Qed.

(** Without the length a block that ends in three ^Z loses them, in the middle of the
    file, too. *)
Example file_bytes_lost :
  match xyzModem_stream_read 256 (set_next 1 (start (on_time (make_packet true 1 hi_block ++ make_packet true 2 (repeat 1 128) ++ [EOT])))) with
  | Ok ((b, err), _) => bool_decide (b = zs "hi!" ++ repeat 1 128) && (err =? xyzModem_eof) | _ => false end = true.
Proof. by vm_compute. Qed.
