(* ===== verification/Kermit.v ===== *)
(** * Downloads over the serial line: Kermit (common/cmd_load.c, [loadb])

    The line is the list of the bytes that will come.  [getc] waits as long as it takes
    for the next one, for ever when none comes any more.  The data goes straight into
    memory while a packet is read; so the receiver remembers where it was at the
    beginning of each packet, and goes back there when the packet was bad or comes
    again. *)

From S2P Require Import Prelude Mem Ctype.

Definition START_CHAR : Z := 0x01.
Definition ETX_CHAR : Z := 0x03.
Definition END_CHAR : Z := 0x0D.
Definition SPACE : Z := 0x20.
Definition K_ESCAPE : Z := 0x23.
Definition SEND_TYPE : Z := ch "S".
Definition DATA_TYPE : Z := ch "D".
Definition ACK_TYPE : Z := ch "Y".
Definition NACK_TYPE : Z := ch "N".
Definition BREAK_TYPE : Z := ch "B".

Definition tochar (x : Z) : Z := Z.land (x + SPACE) 0xff.
Definition untochar (x : Z) : Z := Z.land (x - SPACE) 0xff.

(** [os_data_state] is 0 for ever and left out. *)
Record kermit := Kermit {
  ram : mem;
  line : list Z;
  sent : list Z;
  his_eol : Z;
  his_pad_count : Z;
  his_pad_char : Z;
  his_quote : Z;
  os_data_addr : Z;
  os_data_addr_saved : Z;
  bin_start_address : Z;
  k_data_escape : bool;
  k_data_escape_saved : bool;
  send_parms : list Z;
  send_ptr : nat;
}.

Abbreviation K := (ST kermit).

Definition with_ram (m : mem) (k : kermit) : kermit :=
  Kermit m (line k) (sent k) (his_eol k) (his_pad_count k) (his_pad_char k) (his_quote k) (os_data_addr k) (os_data_addr_saved k) (bin_start_address k) (k_data_escape k) (k_data_escape_saved k) (send_parms k) (send_ptr k).
Definition with_line (l : list Z) (k : kermit) : kermit :=
  Kermit (ram k) l (sent k) (his_eol k) (his_pad_count k) (his_pad_char k) (his_quote k) (os_data_addr k) (os_data_addr_saved k) (bin_start_address k) (k_data_escape k) (k_data_escape_saved k) (send_parms k) (send_ptr k).
Definition with_sent (l : list Z) (k : kermit) : kermit :=
  Kermit (ram k) (line k) l (his_eol k) (his_pad_count k) (his_pad_char k) (his_quote k) (os_data_addr k) (os_data_addr_saved k) (bin_start_address k) (k_data_escape k) (k_data_escape_saved k) (send_parms k) (send_ptr k).
Definition with_params (eol count pad quote : Z) (k : kermit) : kermit :=
  Kermit (ram k) (line k) (sent k) eol count pad quote (os_data_addr k) (os_data_addr_saved k) (bin_start_address k) (k_data_escape k) (k_data_escape_saved k) (send_parms k) (send_ptr k).
Definition with_place (a s : Z) (e es : bool) (k : kermit) : kermit :=
  Kermit (ram k) (line k) (sent k) (his_eol k) (his_pad_count k) (his_pad_char k) (his_quote k) a s (bin_start_address k) e es (send_parms k) (send_ptr k).
Definition with_start (a : Z) (k : kermit) : kermit :=
  Kermit (ram k) (line k) (sent k) (his_eol k) (his_pad_count k) (his_pad_char k) (his_quote k) (os_data_addr k) (os_data_addr_saved k) a (k_data_escape k) (k_data_escape_saved k) (send_parms k) (send_ptr k).
Definition with_parms (l : list Z) (p : nat) (k : kermit) : kermit :=
  Kermit (ram k) (line k) (sent k) (his_eol k) (his_pad_count k) (his_pad_char k) (his_quote k) (os_data_addr k) (os_data_addr_saved k) (bin_start_address k) (k_data_escape k) (k_data_escape_saved k) l p.

Definition getc : K Z := fun k => match line k with [] => OutOfFuel | b :: l => Ok (b, with_line l k) end.
Definition puts (s : list Z) : K unit := modify (fun k => with_sent (sent k ++ s) k).

(** ** Sending *)

Definition send_pad : K unit := modify (fun k => with_sent (sent k ++ repeat (his_pad_char k) (Z.to_nat (his_pad_count k))) k).

Definition ktrans (x : Z) : Z :=
  if Z.land x 0x60 =? 0x40 then Z.land x (Z.lnot 0x40) else if Z.land x 0x7f =? 0x3f then Z.lor x 0x40 else x.

Definition fold_sum (sum : Z) : Z := Z.land (sum + Z.land (Z.shiftr sum 6) 0x03) 0x3f.
Definition chk1 (buffer : list Z) : Z := fold_sum (fold_left Z.add (until_nul buffer) 0).

Definition s1_sendpacket (packet : list Z) : K unit := send_pad;; puts (until_nul packet).

(** A packet of our own; [body] are its type and data. *)
Definition send_reply (length n : Z) (body : list Z) : K unit :=
  eol ← gets his_eol;
  let head := tochar length :: tochar n :: body in
  s1_sendpacket (START_CHAR :: head ++ [tochar (chk1 head); eol]).

Definition send_ack (n : Z) : K unit := send_reply 3 n [ACK_TYPE].
Definition send_nack (n : Z) : K unit := send_reply 3 n [NACK_TYPE].

(** ** The data *)

(** [bin_data_init] sets where the data goes; saving and restoring that place. *)
Definition k_data_init : K unit := modify (fun k => with_place (bin_start_address k) (os_data_addr_saved k) false (k_data_escape_saved k) k).
Definition k_data_save : K unit := modify (fun k => with_place (os_data_addr k) (os_data_addr k) (k_data_escape k) (k_data_escape k) k).
Definition k_data_restore : K unit := modify (fun k => with_place (os_data_addr_saved k) (os_data_addr_saved k) (k_data_escape_saved k) (k_data_escape_saved k) k).
Definition set_kerm_bin_mode (addr : Z) : K unit := modify (with_start addr).

Definition on_ram {A} (f : M A) : K A := fun k =>
  match f (ram k) with Ok (a, m) => Ok (a, with_ram m k) | Fault => Fault | OutOfFuel => OutOfFuel end.

Definition bin_data_char (c : Z) : K unit :=
  k ← get;
  on_ram (store8 (os_data_addr k) c);;
  modify (fun k => with_place (os_data_addr k + 1) (os_data_addr_saved k) (k_data_escape k) (k_data_escape_saved k) k).

Definition set_escape (e : bool) : K unit := modify (fun k => with_place (os_data_addr k) (os_data_addr_saved k) e (k_data_escape_saved k) k).

Definition k_data_char (c : Z) : K unit :=
  k ← get;
  if k_data_escape k then bin_data_char (ktrans c);; set_escape false
  else if c =? his_quote k then set_escape true else bin_data_char c.

(** ** The parameters *)

Definition SEND_DATA_SIZE : nat := 20.

(** [*send_ptr++ = c], held back at the end of the buffer. *)
Definition save_parm (c : Z) : K unit :=
  k ← get;
  l ← lift (arr_set (send_parms k) (send_ptr k) c);
  modify (with_parms l (if (SEND_DATA_SIZE <=? S (send_ptr k))%nat then send_ptr k else S (send_ptr k))).

(** What we answer to each parameter, as far as he sent them. *)
Definition our_parms : list Z := [tochar 94; tochar 1; tochar 0; 0x40; tochar END_CHAR; ch "#"; ch "N"; ch "1"; ch "N"].
Definition our_capas : list Z := [tochar 2; tochar 0; tochar 94; tochar 94].

Definition handle_send_packet (n : Z) : K unit :=
  modify (fun k => with_parms (send_parms k) (if (send_ptr k =? SEND_DATA_SIZE - 1)%nat then send_ptr k - 1 else send_ptr k)%nat k);;
  k ← get;
  let bytes := send_ptr k in
  modify (with_params (if (4 <? bytes)%nat then untochar (nth 4 (send_parms k) 0) else END_CHAR)
    (if (2 <? bytes)%nat then untochar (nth 2 (send_parms k) 0) else 0)
    (if (3 <? bytes)%nat then ktrans (nth 3 (send_parms k) 0) else 0)
    (if (5 <? bytes)%nat then nth 5 (send_parms k) 0 else K_ESCAPE));;
  let answer := take bytes our_parms ++ (if (9 <? bytes)%nat then our_capas else []) in
  send_reply (3 + Z.of_nat (length answer)) n (ACK_TYPE :: answer).

(** ** Packets *)

(** The state of [k_recv]: the type of the last packet, also the one before, and the
    sequence numbers. *)
Record recv := Recv { k_state : Z; k_state_saved : Z; n_of : Z; last_n : Z }.

(** A control character where none may be. *)
Definition bad (c : Z) : bool := Z.land c 0xE0 =? 0.

(** [None] is the way to [packet_error]. *)
Definition checked (sum : Z) : K (option (Z * Z)) :=
  c ← getc; mret (if bad c then None else Some (c, sum + Z.land c 0xff)).

(** The data of a packet of type [t]: the sum after it. *)
Fixpoint data_loop (n : nat) (t sum : Z) : K (option Z) :=
  match n with
  | O => mret (Some sum)
  | S n =>
      r ← checked sum;
      match r with
      | None => mret None
      | Some (c, sum) =>
          (if t =? DATA_TYPE then k_data_char c else if t =? SEND_TYPE then save_parm c else mret tt);;
          data_loop n t sum
      end
  end.

(** The two length bytes of a long packet and the check of its head. *)
Definition long_length (sum : Z) : K (option (Z * Z)) :=
  r ← checked sum;
  match r with None => mret None | Some (hi, sum) =>
  r ← checked sum;
  match r with None => mret None | Some (lo, sum) =>
  c ← getc;
  if bad c || negb (c =? tochar (fold_sum sum)) then mret None
  else mret (Some (untochar hi * 95 + untochar lo, sum + Z.land c 0xff))
  end end.

Definition packet_end (sum : Z) : K bool :=
  c ← getc;
  if bad c || negb (c =? tochar (fold_sum sum)) then mret false
  else c ← getc; mret (c =? END_CHAR).

(** From [START] on: whether the packet was good. *)
Definition get_packet (r : recv) : K (bool * recv) :=
  x ← checked 0;
  match x with None => mret (false, r) | Some (c, sum) =>
  let length := untochar c in
  x ← checked sum;
  match x with None => mret (false, r) | Some (c, sum) =>
  let n := untochar c in
  r ← (if n =? last_n r then k_data_restore;; mret (Recv (k_state_saved r) (k_state_saved r) n (last_n r))
       else k_data_save;; mret (Recv (k_state r) (k_state r) n n));
  x ← checked sum;
  match x with None => mret (false, r) | Some (t, sum) =>
  let r := Recv t (k_state_saved r) (n_of r) (last_n r) in
  let length := length - 2 in
  x ← (if length =? -2 then long_length sum else mret (Some (length, sum)));
  match x with None => mret (false, r) | Some (length, sum) =>
  x ← data_loop (Z.to_nat (length - 1)) t sum;
  match x with None => mret (false, r) | Some sum =>
  ok ← packet_end sum; mret (ok, r)
  end end end end end.

(** Waits for the start of a packet; Ctrl-C gives up.  Fuel: each turn takes a byte. *)
Fixpoint wait_start (fuel : nat) : K bool :=
  match fuel with
  | O => out_of_fuel
  | S fuel => c ← getc; if c =? START_CHAR then mret true else if c =? ETX_CHAR then mret false else wait_start fuel
  end.

(** The size that was received. *)
Fixpoint recv_loop (fuel : nat) (r : recv) : K Z :=
  match fuel with
  | O => out_of_fuel
  | S fuel =>
      modify (fun k => with_parms (send_parms k) 0 k);;
      l ← gets line;
      go ← wait_start (S (length l));
      if negb go then mret 0 else
      '(ok, r) ← get_packet r;
      if negb ok then
        k_data_restore;;
        send_nack (n_of r);;
        recv_loop fuel (Recv (k_state_saved r) (k_state_saved r) (n_of r) (last_n r))
      else if k_state r =? SEND_TYPE then handle_send_packet (n_of r);; recv_loop fuel r
      else
        send_ack (n_of r);;
        if k_state r =? BREAK_TYPE then k ← get; mret (u32 (os_data_addr k - bin_start_address k)) else recv_loop fuel r
  end.

Definition k_recv : K Z :=
  modify (with_params END_CHAR 0 0 K_ESCAPE);;
  k_data_init;;
  k_data_save;;
  l ← gets line;
  recv_loop (S (length l)) (Recv 0 0 0 (-1)).

(** ** What a sender sends *)

(** The quoting: control characters, DEL and the quote itself. *)
Definition kencode_char (q c : Z) : list Z :=
  if (Z.land c 0x60 =? 0) || (Z.land c 0x7f =? 0x7f) then [q; Z.lxor c 0x40] else if c =? q then [q; q] else [c].
Definition kencode (q : Z) (l : list Z) : list Z := flat_map (kencode_char q) l.

(** What the receiver makes of it, and whether the last character was a quote. *)
Fixpoint kdecode (q : Z) (esc : bool) (l : list Z) : list Z * bool :=
  match l with
  | [] => ([], esc)
  | c :: l =>
      if esc then let '(out, e) := kdecode q false l in (ktrans c :: out, e)
      else if c =? q then kdecode q true l
      else let '(out, e) := kdecode q false l in (c :: out, e)
  end.

(** The quotes that Kermit allows. *)
Definition good_quote (q : Z) : Prop := 33 <= q <= 62 \/ 96 <= q <= 126.

Lemma kencode_char_facts q c : good_quote q -> byte c -> kdecode q false (kencode_char q c) = ([c], false) /\
  forallb (fun b => negb (bad b) && (b <? 256) && (0 <=? b)) (kencode_char q c) = true.
Proof.
  intros Hq Hc.
  assert (H : forallb (fun c => if (Z.land c 0x60 =? 0) || (Z.land c 0x7f =? 0x7f) then
      (ktrans (Z.lxor c 0x40) =? c) && negb (bad (Z.lxor c 0x40)) && (Z.lxor c 0x40 <? 256) && (0 <=? Z.lxor c 0x40) else negb (bad c)) (map Z.of_nat (seq 0 256)) = true) by by vm_compute.
  rewrite forallb_forall in H. unfold byte in Hc. assert (Hi : In c (map Z.of_nat (seq 0 256))) by (apply in_map_iff; exists (Z.to_nat c); rewrite in_seq; lia). specialize (H c Hi).
  assert (Hq2 : ktrans q = q /\ bad q = false /\ 0 <= q < 256).
  { assert (G : forallb (fun q => (ktrans q =? q) && negb (bad q)) (map Z.of_nat (seq 33 30 ++ seq 96 31)) = true) by by vm_compute.
    rewrite forallb_forall in G. assert (I : In q (map Z.of_nat (seq 33 30 ++ seq 96 31))).
    { apply in_map_iff. exists (Z.to_nat q). split; [unfold good_quote in Hq; lia|]. apply in_app_iff. rewrite !in_seq. unfold good_quote in Hq. lia. }
    apply G, andb_true_iff in I as [I1 I2]. apply Z.eqb_eq in I1. apply negb_true_iff in I2. unfold good_quote in Hq. repeat split; (done || lia). }
  destruct Hq2 as (T & B & R).
  unfold kencode_char. destruct (_ || _) eqn:E.
  - apply andb_true_iff in H as [H H4]. apply andb_true_iff in H as [H H3]. apply andb_true_iff in H as [H1 H2]. apply Z.eqb_eq in H1.
    cbn [kdecode forallb]. rewrite Z.eqb_refl, H1, B, H2, H3, H4. cbn. split; [done|]. destruct (Z.ltb_spec q 256), (Z.leb_spec 0 q); (done || lia).
  - destruct (Z.eqb_spec c q) as [->|Hne].
    + cbn [kdecode forallb]. rewrite Z.eqb_refl, T, B. cbn. split; [done|]. destruct (Z.ltb_spec q 256), (Z.leb_spec 0 q); (done || lia).
    + cbn [kdecode forallb]. destruct (Z.eqb_spec c q); [done|]. split; [done|]. rewrite H. destruct (Z.ltb_spec c 256), (Z.leb_spec 0 c); (done || lia).
Qed.

Lemma kdecode_app q l1 : forall e l2, kdecode q e (l1 ++ l2) =
  let '(o1, e1) := kdecode q e l1 in let '(o2, e2) := kdecode q e1 l2 in (o1 ++ o2, e2).
Proof.
  induction l1 as [|c l1 IH]; intros e l2; cbn [kdecode app]; [by destruct (kdecode q e l2)|].
  destruct e; [|destruct (c =? q)]; rewrite ?IH; repeat destruct (kdecode _ _ _); done.
Qed.

(** Decoding undoes the quoting. *)
Lemma kdecode_encode q l : good_quote q -> Forall byte l -> kdecode q false (kencode q l) = (l, false).
Proof.
  intros Hq. induction 1 as [|c l Hc Hl IH]; [done|]. unfold kencode in *. cbn [flat_map].
  rewrite kdecode_app. destruct (kencode_char_facts q c Hq Hc) as [-> _]. by rewrite IH.
Qed.

Lemma kdecode_length q l : forall e, (length (fst (kdecode q e l)) <= length l)%nat.
Proof.
  induction l as [|c l IH]; intros e; cbn [kdecode length]; [done|].
  destruct e; [|destruct (c =? q)]; [pose proof (IH false)|pose proof (IH true)|pose proof (IH false)]; destruct (kdecode _ _ _); cbn [fst length] in *; lia.
Qed.

(** A byte that may stand in a packet. *)
Definition printable (b : Z) : Prop := byte b /\ bad b = false.

Lemma ktrans_byte c : byte c -> byte (ktrans c).
Proof.
  intros Hc. pose proof (byte_forall (fun c => (0 <=? ktrans c) && (ktrans c <? 256)) ltac:(by vm_compute) c Hc) as H. cbn beta in H.
  apply andb_true_iff in H as [H1 H2]. unfold byte. lia.
Qed.

Lemma kdecode_bytes q l : forall e, Forall byte l -> Forall byte (fst (kdecode q e l)).
Proof.
  induction l as [|c l IH]; intros e Hl; cbn [kdecode]; [constructor|]. apply Forall_cons in Hl as [Hc Hl].
  destruct e; [|destruct (c =? q)]; [pose proof (IH false Hl)|pose proof (IH true Hl)|pose proof (IH false Hl)]; destruct (kdecode _ _ _); cbn [fst] in *; try done;
    constructor; (done || by apply ktrans_byte).
Qed.

Definition sum_of (l : list Z) : Z := fold_right Z.add 0 l.

(** From [START] to the data: a packet with [n] data bytes, long or short. *)
Definition head (long : bool) (seq t : Z) (n : nat) : list Z :=
  if long then
    let h := [tochar 0; tochar seq; t; tochar ((Z.of_nat n + 1) / 95); tochar ((Z.of_nat n + 1) mod 95)] in
    h ++ [tochar (fold_sum (sum_of h))]
  else [tochar (Z.of_nat n + 3); tochar seq; t].
Definition n_ok (long : bool) (n : nat) : Prop := Z.of_nat n <= if long then 9023 else 91.
Definition check_of (long : bool) (seq t : Z) (n : nat) (data : list Z) : Z := tochar (fold_sum (sum_of (head long seq t n) + sum_of data)).
Definition kpacket (long : bool) (seq t : Z) (data : list Z) : list Z :=
  START_CHAR :: head long seq t (length data) ++ data ++ [check_of long seq t (length data) data; END_CHAR].

(** What comes between packets. *)
Definition between (l : list Z) : Prop := Forall (fun c => c <> START_CHAR /\ c <> ETX_CHAR) l.

Definition seq_ok (n : Z) : Prop := 0 <= n < 64.
Definition type_ok (t : Z) : Prop := printable t.

(** Tries with the sequence number [seq] that do not bring the packet.  [fresh]: nothing
    of this packet came yet; then the number must come through. *)
Inductive tries (seq : Z) : bool -> list Z -> list Z -> Prop :=
| tries_none fresh inp : tries seq fresh inp inp
| tries_cut fresh junk long t n data c mid rest : between junk -> type_ok t -> n_ok long n -> Forall printable data -> (length data <= n)%nat -> byte c -> bad c = true ->
    tries seq false mid rest -> tries seq fresh (junk ++ START_CHAR :: head long seq t n ++ data ++ c :: mid) rest
| tries_damaged fresh junk long t data c mid rest : between junk -> type_ok t -> n_ok long (length data) -> Forall printable data -> byte c ->
    c <> check_of long seq t (length data) data ->
    tries seq false mid rest -> tries seq fresh (junk ++ START_CHAR :: head long seq t (length data) ++ data ++ c :: mid) rest
| tries_unended fresh junk long t data c mid rest : between junk -> type_ok t -> n_ok long (length data) -> Forall printable data -> c <> END_CHAR ->
    tries seq false mid rest ->
    tries seq fresh (junk ++ START_CHAR :: head long seq t (length data) ++ data ++ check_of long seq t (length data) data :: c :: mid) rest
| tries_headless junk l c mid rest : between junk -> (length l <= 1)%nat -> Forall printable l -> byte c -> bad c = true ->
    tries seq false mid rest -> tries seq false (junk ++ START_CHAR :: l ++ c :: mid) rest
| tries_again fresh junk long t data mid rest : between junk -> type_ok t -> t <> SEND_TYPE -> t <> BREAK_TYPE -> n_ok long (length data) -> Forall printable data ->
    tries seq false mid rest -> tries seq fresh (junk ++ kpacket long seq t data ++ mid) rest.

Definition packet_arrives (seq t : Z) (data : list Z) (inp rest : list Z) : Prop :=
  type_ok t /\ Forall printable data /\ exists long junk, n_ok long (length data) /\ between junk /\
    tries seq true inp (junk ++ kpacket long seq t data ++ rest).

(** The packets from [seq] on: they carry the encoded data [enc]. *)
Inductive session : Z -> list Z -> list Z -> list Z -> Prop :=
| session_data seq data enc inp mid rest : packet_arrives seq DATA_TYPE data inp mid -> session ((seq + 1) mod 64) enc mid rest ->
    session seq (data ++ enc) inp rest
| session_other seq t data enc inp mid rest : packet_arrives seq t data inp mid -> t <> DATA_TYPE -> t <> SEND_TYPE -> t <> BREAK_TYPE ->
    session ((seq + 1) mod 64) enc mid rest -> session seq enc inp rest
| session_break seq data inp rest : packet_arrives seq BREAK_TYPE data inp rest -> session seq [] inp rest.

(** ** Reading a packet *)

Lemma land_byte c : byte c -> Z.land c 0xff = c.
Proof. intros Hc. change 0xff with (Z.ones 8). rewrite Z.land_ones by lia. by apply Z.mod_small. Qed.

Lemma untochar_tochar x : 0 <= x < 224 -> untochar (tochar x) = x.
Proof.
  intros Hx. unfold untochar, tochar, SPACE. change 0xff with (Z.ones 8). rewrite !Z.land_ones by lia. change (2 ^ 8) with 256. zmod.
Qed.

Lemma tochar_printable x : 0 <= x < 224 -> printable (tochar x).
Proof.
  intros Hx. assert (H : forallb (fun x => negb (bad (tochar x)) && (0 <=? tochar x) && (tochar x <? 256)) (map Z.of_nat (seq 0 224)) = true) by by vm_compute.
  rewrite forallb_forall in H. assert (I : In x (map Z.of_nat (seq 0 224))) by (apply in_map_iff; exists (Z.to_nat x); rewrite in_seq; lia).
  apply H in I. apply andb_true_iff in I as [I I3]. apply andb_true_iff in I as [I1 I2]. apply negb_true_iff in I1. split; [unfold byte; lia|done].
Qed.

Lemma fold_sum_range s : 0 <= fold_sum s < 64.
Proof. unfold fold_sum. change 0x3f with (Z.ones 6). rewrite Z.land_ones by lia. change (2 ^ 6) with 64. zmod. Qed.

Lemma getc_ok k b l : line k = b :: l -> getc k = Ok (b, with_line l k).
Proof. intros E. unfold getc. by rewrite E. Qed.

Lemma checked_ok k sum b l : line k = b :: l -> printable b -> checked sum k = Ok (Some (b, sum + b), with_line l k).
Proof. intros E [Hb Hc]. unfold checked. rewrite (bind_ok _ _ _ _ _ (getc_ok _ _ _ E)), Hc, land_byte by done. done. Qed.

Lemma checked_bad k sum b l : line k = b :: l -> bad b = true -> checked sum k = Ok (None, with_line l k).
Proof. intros E Hc. unfold checked. by rewrite (bind_ok _ _ _ _ _ (getc_ok _ _ _ E)), Hc. Qed.

(** What all packets leave as it is. *)
Definition same_link (k k' : kermit) : Prop :=
  his_eol k' = his_eol k /\ his_pad_count k' = his_pad_count k /\ his_pad_char k' = his_pad_char k /\ his_quote k' = his_quote k /\
  bin_start_address k' = bin_start_address k /\ os_data_addr_saved k' = os_data_addr_saved k /\ k_data_escape_saved k' = k_data_escape_saved k /\ sent k' = sent k.

(** The buffer of the parameters. *)
Definition parms_ok (k : kermit) : Prop := length (send_parms k) = SEND_DATA_SIZE /\ (send_ptr k < SEND_DATA_SIZE)%nat.

Lemma save_parm_ok k c : parms_ok k -> exists k', save_parm c k = Ok (tt, k') /\ same_link k k' /\ parms_ok k' /\ line k' = line k /\ ram k' = ram k /\
  os_data_addr k' = os_data_addr k /\ k_data_escape k' = k_data_escape k /\ send_parms k' = <[send_ptr k := c]> (send_parms k) /\
  ((send_ptr k < 19)%nat -> send_ptr k' = S (send_ptr k)).
Proof.
  intros [Hl Hp]. unfold save_parm. rewrite (bind_ok get _ k k k) by done.
  rewrite (bind_ok (lift _) _ k (<[send_ptr k := c]> (send_parms k)) k) by (rewrite arr_set_ok; [done|unfold SEND_DATA_SIZE in *; lia]).
  eexists. split; [reflexivity|]. unfold SEND_DATA_SIZE in *. split; [done|]. split.
  - split; cbn [send_parms send_ptr with_parms]; [by rewrite length_insert|]. unfold SEND_DATA_SIZE. destruct (Nat.leb_spec 20 (S (send_ptr k))); lia.
  - cbn [line with_parms ram os_data_addr k_data_escape send_parms send_ptr]. do 5 (split; [done|]). intros H. unfold SEND_DATA_SIZE. destruct (Nat.leb_spec 20 (S (send_ptr k))); lia.
Qed.

(** The receiver after data characters. *)
Definition take_data (q : Z) (l : list Z) (k : kermit) : kermit :=
  let '(out, e) := kdecode q (k_data_escape k) l in
  with_place (os_data_addr k + Z.of_nat (length out)) (os_data_addr_saved k) e (k_data_escape_saved k) (with_ram (write_bytes (ram k) (os_data_addr k) out) k).

Lemma bin_data_char_ok k c n : mapped (ram k) (os_data_addr k) n -> 0 < n -> byte c ->
  bin_data_char c k = Ok (tt, with_place (os_data_addr k + 1) (os_data_addr_saved k) (k_data_escape k) (k_data_escape_saved k) (with_ram (<[os_data_addr k := c]> (ram k)) k)).
Proof.
  intros Hm Hn Hc. unfold bin_data_char. rewrite (bind_ok get _ k k k) by done.
  rewrite (bind_ok (on_ram _) _ k tt (with_ram (<[os_data_addr k := c]> (ram k)) k)) by (unfold on_ram; by rewrite (store8_ok _ _ _ n)). done.
Qed.

Lemma k_data_char_ok k c : mapped (ram k) (os_data_addr k) 1 -> byte c -> k_data_char c k = Ok (tt, take_data (his_quote k) [c] k).
Proof.
  intros Hm Hc. unfold k_data_char, take_data. rewrite (bind_ok get _ k k k) by done. cbn [kdecode]. destruct (k_data_escape k) eqn:He.
  - erewrite bind_ok by (apply (bin_data_char_ok k (ktrans c) 1); [done|lia|by apply ktrans_byte]). rewrite He. done.
  - destruct (c =? his_quote k).
    + destruct k. cbn in *. rewrite Z.add_0_r. done.
    + rewrite (bin_data_char_ok k c 1) by (done || lia). rewrite He. done.
Qed.

Lemma take_data_app q l1 l2 k : take_data q (l1 ++ l2) k = take_data q l2 (take_data q l1 k).
Proof.
  unfold take_data. rewrite kdecode_app. destruct (kdecode q (k_data_escape k) l1) as [o1 e1]. cbn [k_data_escape with_place os_data_addr os_data_addr_saved k_data_escape_saved ram with_ram].
  destruct (kdecode q e1 l2) as [o2 e2]. rewrite write_bytes_app, length_app, Nat2Z.inj_add, Z.add_assoc. done.
Qed.

Lemma take_data_link q l k : same_link k (take_data q l k) /\ line (take_data q l k) = line k /\ send_parms (take_data q l k) = send_parms k /\ send_ptr (take_data q l k) = send_ptr k.
Proof. unfold take_data. by destruct (kdecode _ _ _). Qed.

Lemma same_link_trans a b c : same_link a b -> same_link b c -> same_link a c.
Proof. intros (A1 & A2 & A3 & A4 & A5 & A6 & A7 & A8) (B1 & B2 & B3 & B4 & B5 & B6 & B7 & B8). repeat split; congruence. Qed.

Lemma with_line_id k : with_line (line k) k = k.
Proof. by destruct k. Qed.

(** [j] more characters are still to come. *)
Lemma data_loop_data l : forall k j sum rest, Forall printable l -> line k = l ++ rest -> mapped (ram k) (os_data_addr k) (Z.of_nat (length l)) ->
  data_loop (length l + j) DATA_TYPE sum k = data_loop j DATA_TYPE (sum + sum_of l) (with_line rest (take_data (his_quote k) l k)).
Proof.
  induction l as [|c l IH]; intros k j sum rest Hl E Hm.
  - cbn [length plus sum_of fold_right]. unfold take_data. cbn [kdecode length write_bytes]. rewrite !Z.add_0_r. f_equal. cbn [app] in E. rewrite <- E. by destruct k.
  - apply Forall_cons in Hl as [Hc Hl]. cbn [length plus data_loop app] in *. rewrite (bind_ok _ _ _ _ _ (checked_ok k sum c _ E Hc)).
    change (DATA_TYPE =? DATA_TYPE) with true. cbv iota. set (k1 := with_line (l ++ rest) k).
    assert (Hm1 : mapped (ram k) (os_data_addr k) 1) by (eapply mapped_sub; [exact Hm|lia|lia]).
    rewrite (bind_ok _ _ _ _ _ (k_data_char_ok k1 c Hm1 (proj1 Hc))). change (his_quote k1) with (his_quote k).
    rewrite (IH _ j (sum + c) rest Hl).
    + change (his_quote (take_data (his_quote k) [c] k1)) with (his_quote (take_data (his_quote k) [c] k1)).
      destruct (take_data_link (his_quote k) [c] k1) as ((_ & _ & _ & Hq & _) & _). rewrite Hq. change (his_quote k1) with (his_quote k).
      rewrite <- take_data_app. cbn [app sum_of fold_right]. rewrite Z.add_assoc. f_equal.
      unfold take_data, k1. cbn [k_data_escape with_line]. by destruct (kdecode _ _ _).
    + by destruct (take_data_link (his_quote k) [c] k1) as (_ & -> & _).
    + assert (Hr : exists o, (length o <= 1)%nat /\ ram (take_data (his_quote k) [c] k1) = write_bytes (ram k) (os_data_addr k) o /\ os_data_addr (take_data (his_quote k) [c] k1) = os_data_addr k + Z.of_nat (length o)).
      { pose proof (kdecode_length (his_quote k) [c] (k_data_escape k)) as Lk. unfold take_data, k1. cbn [k_data_escape with_line]. destruct (kdecode _ _ _) as [o e]. by exists o. }
      destruct Hr as (o & Lo & -> & ->). apply mapped_write. eapply mapped_sub; [exact Hm|lia|lia].
Qed.

Lemma data_loop_skip t l : t <> DATA_TYPE -> t <> SEND_TYPE -> forall k j sum rest, Forall printable l -> line k = l ++ rest ->
  data_loop (length l + j) t sum k = data_loop j t (sum + sum_of l) (with_line rest k).
Proof.
  intros H1 H2. induction l as [|c l IH]; intros k j sum rest Hl E.
  - cbn [length plus sum_of fold_right app] in *. rewrite Z.add_0_r. rewrite <- E, with_line_id. done.
  - apply Forall_cons in Hl as [Hc Hl]. cbn [length plus data_loop app] in *. rewrite (bind_ok _ _ _ _ _ (checked_ok k sum c _ E Hc)).
    destruct (Z.eqb_spec t DATA_TYPE); [done|]. destruct (Z.eqb_spec t SEND_TYPE); [done|]. set (k1 := with_line (l ++ rest) k). rewrite (bind_ok (mret tt) _ k1 tt k1) by done.
    rewrite (IH k1 j (sum + c) rest Hl) by done. cbn [sum_of fold_right]. by rewrite Z.add_assoc.
Qed.

Lemma data_loop_send l : forall k j sum rest, Forall printable l -> line k = l ++ rest -> parms_ok k ->
  exists k', data_loop (length l + j) SEND_TYPE sum k = data_loop j SEND_TYPE (sum + sum_of l) k' /\ line k' = rest /\ same_link k k' /\ parms_ok k' /\ ram k' = ram k /\
    os_data_addr k' = os_data_addr k /\ k_data_escape k' = k_data_escape k /\
    ((send_ptr k + length l <= 19)%nat -> send_parms k' = take (send_ptr k) (send_parms k) ++ l ++ drop (send_ptr k + length l) (send_parms k) /\ send_ptr k' = (send_ptr k + length l)%nat).
Proof.
  induction l as [|c l IH]; intros k j sum rest Hl E Hp.
  - exists k. cbn [length plus sum_of fold_right app] in *. rewrite !Z.add_0_r, Nat.add_0_r, take_drop. done.
  - apply Forall_cons in Hl as [Hc Hl]. cbn [length plus data_loop app] in *. rewrite (bind_ok _ _ _ _ _ (checked_ok k sum c _ E Hc)).
    change (SEND_TYPE =? DATA_TYPE) with false. change (SEND_TYPE =? SEND_TYPE) with true. cbv iota. set (k1 := with_line (l ++ rest) k).
    destruct (save_parm_ok k1 c Hp) as (k2 & E2 & S2 & P2 & L2 & R2 & A2 & X2 & B2 & N2). rewrite (bind_ok _ _ _ _ _ E2).
    destruct (IH k2 j (sum + c) rest Hl) as (k3 & -> & L3 & S3 & P3 & R3 & A3 & X3 & B3); [by rewrite L2|done|].
    exists k3. cbn [sum_of fold_right]. rewrite Z.add_assoc. split; [done|]. split; [done|]. split; [by eapply same_link_trans; [|exact S3]|]. split; [done|].
    split; [by rewrite R3, R2|]. split; [by rewrite A3, A2|]. split; [by rewrite X3, X2|]. intros Hle. change (send_ptr k1) with (send_ptr k) in *. change (send_parms k1) with (send_parms k) in *.
    destruct Hp as [Lp Pp]. destruct B3 as [-> ->]; [rewrite N2 by lia; lia|]. rewrite N2, B2 by lia. split; [|lia].
    rewrite (take_S_r _ _ c) by (apply list_lookup_insert_eq; unfold SEND_DATA_SIZE in *; lia).
    rewrite take_insert_ge by lia. rewrite drop_insert_lt by lia. rewrite <- app_assoc. cbn [app]. do 4 f_equal. lia.
Qed.

(** Where a packet with the number [n] begins in memory: what comes first goes on from
    here, what comes again goes back here. *)
Definition ready_for (n A : Z) (E fresh : bool) (r : recv) (k : kermit) : Prop :=
  if fresh then os_data_addr k = A /\ k_data_escape k = E /\ last_n r <> n
  else os_data_addr_saved k = A /\ k_data_escape_saved k = E /\ last_n r = n /\ n_of r = n.

Definition at_place (A : Z) (E : bool) (k : kermit) : kermit := with_place A A E E k.

(** What follows the head of a packet. *)
Definition body (n : nat) (t sum : Z) (r : recv) : K (bool * recv) :=
  x ← data_loop n t sum; match x with None => mret (false, r) | Some sum => ok ← packet_end sum; mret (ok, r) end.

Lemma checkpoint_ok n A E fresh r k : ready_for n A E fresh r k ->
  exists s, (if n =? last_n r then k_data_restore;; mret (Recv (k_state_saved r) (k_state_saved r) n (last_n r))
     else k_data_save;; mret (Recv (k_state r) (k_state r) n n)) k = Ok (Recv s s n n, at_place A E k).
Proof.
  unfold ready_for. destruct fresh.
  - intros (<- & <- & H). destruct (Z.eqb_spec n (last_n r)); [done|]. by exists (k_state r).
  - intros (<- & <- & H & _). rewrite H, Z.eqb_refl. by exists (k_state_saved r).
Qed.

Lemma long_length_ok sum hi lo k l : 0 <= hi < 95 -> 0 <= lo < 95 -> let s := sum + tochar hi + tochar lo in
  line k = tochar hi :: tochar lo :: tochar (fold_sum s) :: l -> long_length sum k = Ok (Some (hi * 95 + lo, s + tochar (fold_sum s)), with_line l k).
Proof.
  intros Hh Hl s E. unfold long_length.
  rewrite (bind_ok _ _ _ _ _ (checked_ok k sum _ _ E (tochar_printable hi ltac:(lia)))).
  set (k1 := with_line _ k). rewrite (bind_ok _ _ _ _ _ (checked_ok k1 _ (tochar lo) (tochar (fold_sum s) :: l) eq_refl (tochar_printable lo ltac:(lia)))).
  set (k2 := with_line (tochar (fold_sum s) :: l) k1). rewrite (bind_ok _ _ _ _ _ (getc_ok k2 (tochar (fold_sum s)) l eq_refl)).
  pose proof (fold_sum_range s). destruct (tochar_printable (fold_sum s) ltac:(lia)) as [Hb ->]. fold s. rewrite Z.eqb_refl. cbn [orb negb].
  rewrite land_byte by done. rewrite !untochar_tochar by lia. done.
Qed.

Lemma head_ok long n t d A E fresh r k l : seq_ok n -> type_ok t -> n_ok long d -> ready_for n A E fresh r k -> line k = head long n t d ++ l ->
  exists s, get_packet r k = body d t (sum_of (head long n t d)) (Recv t s n n) (with_line l (at_place A E k)).
Proof.
  intros Hn Ht Hd Hr El. unfold seq_ok in Hn. unfold get_packet, head, n_ok in *. destruct long; cbn [app] in El.
  - destruct Ht as [Hb Ht]. rewrite (bind_ok _ _ _ _ _ (checked_ok k 0 _ _ El (tochar_printable 0 ltac:(lia)))).
    set (l1 := tochar n :: _). set (k1 := with_line l1 k). rewrite (bind_ok _ _ _ _ _ (checked_ok k1 _ (tochar n) _ eq_refl (tochar_printable n ltac:(lia)))). cbv zeta.
    rewrite !untochar_tochar by lia. set (l2 := t :: _). set (k2 := with_line l2 k1). assert (Hr2 : ready_for n A E fresh r k2) by done.
    destruct (checkpoint_ok n A E fresh r k2 Hr2) as [s Es]. rewrite (bind_ok _ _ _ _ _ Es). set (k3 := at_place A E k2).
    rewrite (bind_ok _ _ _ _ _ (checked_ok k3 _ t _ eq_refl (conj Hb Ht))). cbv zeta. change (0 - 2 =? -2) with true. cbv iota.
    set (l4 := tochar _ :: _). set (k4 := with_line l4 k3).
    set (h := [tochar 0; tochar n; t; tochar ((Z.of_nat d + 1) / 95); tochar ((Z.of_nat d + 1) mod 95)]).
    assert (Es4 : 0 + tochar 0 + tochar n + t + tochar ((Z.of_nat d + 1) / 95) + tochar ((Z.of_nat d + 1) mod 95) = sum_of h) by (unfold sum_of, h; cbn [fold_right]; lia).
    erewrite bind_ok by (apply (long_length_ok _ ((Z.of_nat d + 1) / 95) ((Z.of_nat d + 1) mod 95) k4 l); [zmod|zmod|]; rewrite Es4; reflexivity).
    rewrite Es4. replace ((Z.of_nat d + 1) / 95 * 95 + (Z.of_nat d + 1) mod 95 - 1) with (Z.of_nat d) by zmod. rewrite Nat2Z.id. exists s.
    replace (sum_of (h ++ [tochar (fold_sum (sum_of h))])) with (sum_of h + tochar (fold_sum (sum_of h))) by (unfold h, sum_of; cbn [app fold_right]; lia). done.
  - destruct Ht as [Hb Ht]. rewrite (bind_ok _ _ _ _ _ (checked_ok k 0 _ _ El (tochar_printable (Z.of_nat d + 3) ltac:(lia)))).
    set (k1 := with_line _ k). rewrite (bind_ok _ _ _ _ _ (checked_ok k1 _ (tochar n) (t :: l) eq_refl (tochar_printable n ltac:(lia)))). cbv zeta.
    rewrite !untochar_tochar by lia. set (k2 := with_line (t :: l) k1). assert (Hr2 : ready_for n A E fresh r k2) by done.
    destruct (checkpoint_ok n A E fresh r k2 Hr2) as [s Es]. rewrite (bind_ok _ _ _ _ _ Es). set (k3 := at_place A E k2).
    rewrite (bind_ok _ _ _ _ _ (checked_ok k3 _ t l eq_refl (conj Hb Ht))). cbv zeta.
    destruct (Z.eqb_spec (Z.of_nat d + 3 - 2) (-2)); [lia|]. rewrite (bind_ok (mret _) _ _ (Some (Z.of_nat d + 3 - 2, 0 + tochar (Z.of_nat d + 3) + tochar n + t)) (with_line l k3)) by done.
    replace (Z.to_nat (Z.of_nat d + 3 - 2 - 1)) with d by lia. exists s.
    replace (0 + tochar (Z.of_nat d + 3) + tochar n + t) with (sum_of [tochar (Z.of_nat d + 3); tochar n; t]) by (unfold sum_of; cbn [fold_right]; lia). done.
Qed.

(** ** Turns *)

Lemma wait_start_ok junk : forall fuel k l, between junk -> line k = junk ++ START_CHAR :: l -> (length junk < fuel)%nat -> wait_start fuel k = Ok (true, with_line l k).
Proof.
  induction junk as [|c junk IH]; intros fuel k l Hj E Hf; (destruct fuel as [|fuel]; [cbn in Hf; lia|]); cbn [wait_start app] in *; rewrite (bind_ok _ _ _ _ _ (getc_ok _ _ _ E)).
  - done.
  - apply Forall_cons in Hj as [[H1 H2] Hj]. destruct (Z.eqb_spec c START_CHAR); [done|]. destruct (Z.eqb_spec c ETX_CHAR); [done|]. rewrite (IH fuel _ l) by (done || cbn [length] in Hf; lia). done.
Qed.

(** A turn of the loop up to the packet. *)
Lemma recv_turn fuel r k junk l : between junk -> line k = junk ++ START_CHAR :: l ->
  recv_loop (S fuel) r k =
  ('(ok, r) ← get_packet r;
   if negb ok then k_data_restore;; send_nack (n_of r);; recv_loop fuel (Recv (k_state_saved r) (k_state_saved r) (n_of r) (last_n r))
   else if k_state r =? SEND_TYPE then handle_send_packet (n_of r);; recv_loop fuel r
   else send_ack (n_of r);; if k_state r =? BREAK_TYPE then k ← get; mret (u32 (os_data_addr k - bin_start_address k)) else recv_loop fuel r)
    (with_line l (with_parms (send_parms k) 0 k)).
Proof.
  intros Hj E. cbn [recv_loop]. set (k1 := with_parms (send_parms k) 0 k). rewrite (bind_ok (modify _) _ k tt k1) by done.
  rewrite (bind_ok (gets line) _ k1 (line k1) k1) by done. change (line k1) with (line k).
  rewrite (bind_ok _ _ _ _ _ (wait_start_ok junk (S (length (line k))) k1 l Hj E ltac:(rewrite E, length_app; cbn; lia))). done.
Qed.

Lemma packet_end_bad sum k c l : line k = c :: l -> bad c = true \/ c <> tochar (fold_sum sum) -> packet_end sum k = Ok (false, with_line l k).
Proof.
  intros E H. unfold packet_end. rewrite (bind_ok _ _ _ _ _ (getc_ok _ _ _ E)). destruct H as [-> |H]; [done|].
  destruct (Z.eqb_spec c (tochar (fold_sum sum))); [done|]. by rewrite orb_true_r.
Qed.

Lemma packet_end_checked sum k c l : line k = tochar (fold_sum sum) :: c :: l -> packet_end sum k = Ok (c =? END_CHAR, with_line l k).
Proof.
  intros E. unfold packet_end. rewrite (bind_ok _ _ _ _ _ (getc_ok _ _ _ E)). pose proof (fold_sum_range sum). destruct (tochar_printable (fold_sum sum) ltac:(lia)) as [_ ->].
  rewrite Z.eqb_refl. cbn [orb negb]. by rewrite (bind_ok _ _ _ _ _ (getc_ok (with_line (c :: l) k) c l eq_refl)).
Qed.

(** What stays while packets come and go. *)
Definition kept (k k' : kermit) : Prop :=
  his_quote k' = his_quote k /\ bin_start_address k' = bin_start_address k /\ length (send_parms k') = length (send_parms k).

Lemma kept_trans a b c : kept a b -> kept b c -> kept a c.
Proof. intros (A1 & A2 & A3) (B1 & B2 & B3). repeat split; congruence. Qed.

Lemma send_reply_ok length n b k : exists s, send_reply length n b k = Ok (tt, with_sent s k).
Proof. unfold send_reply. rewrite (bind_ok (gets his_eol) _ k (his_eol k) k) by done. cbv zeta. by eexists. Qed.

(** The most a packet can bring. *)
Definition room : Z := 9024.

Lemma n_ok_room long n : n_ok long n -> Z.of_nat n < room.
Proof. unfold n_ok, room. destruct long; lia. Qed.

Lemma changed_write_at m a l hi : a + Z.of_nat (length l) <= hi -> changed m (write_bytes m a l) a hi.
Proof. intros H. apply changed_write; lia. Qed.

(** Data of any type. *)
Lemma body_data t l k j sum rest : Forall printable l -> line k = l ++ rest -> parms_ok k -> mapped (ram k) (os_data_addr k) (Z.of_nat (length l)) ->
  exists k', data_loop (length l + j) t sum k = data_loop j t (sum + sum_of l) k' /\ line k' = rest /\ kept k k' /\
    os_data_addr_saved k' = os_data_addr_saved k /\ k_data_escape_saved k' = k_data_escape_saved k /\
    changed (ram k) (ram k') (os_data_addr k) (os_data_addr k + Z.of_nat (length l)).
Proof.
  intros Hl E Hp Hm. destruct (decide (t = DATA_TYPE)) as [->|H1]; [|destruct (decide (t = SEND_TYPE)) as [->|H2]].
  - eexists. split; [by apply data_loop_data|]. destruct (take_data_link (his_quote k) l k) as ((_ & _ & _ & Hq & Hs & Ha & He & _) & _ & Hsp & _).
    split; [done|]. split; [split; [exact Hq|]; split; [exact Hs|cbn [with_line send_parms]; by rewrite Hsp]|]. split; [exact Ha|]. split; [exact He|].
    pose proof (kdecode_length (his_quote k) l (k_data_escape k)) as Lk. unfold take_data. destruct (kdecode _ _ _) as [o e]. cbn [ram with_line with_place with_ram].
    apply changed_write_at. cbn [fst] in Lk. lia.
  - destruct (data_loop_send l k j sum rest Hl E Hp) as (k' & -> & L & (_ & _ & _ & Hq & Hs & Ha & He & _) & [P _] & R & _).
    exists k'. split; [done|]. split; [done|]. split; [split; [done|]; split; [done|rewrite P; by destruct Hp]|]. do 2 (split; [done|]). rewrite R. apply changed_refl.
  - eexists. split; [by apply data_loop_skip|]. do 4 (split; [done|]). apply changed_refl.
Qed.

(** A turn that fails: a negative answer, and back to where the packet began. *)
Lemma turn_failed fuel r k junk X r1 k1 n A E : between junk -> line k = junk ++ START_CHAR :: X ->
  get_packet r (with_line X (with_parms (send_parms k) 0 k)) = Ok ((false, r1), k1) ->
  last_n r1 = n -> n_of r1 = n -> os_data_addr_saved k1 = A -> k_data_escape_saved k1 = E ->
  exists r2 k2, recv_loop (S fuel) r k = recv_loop fuel r2 k2 /\ line k2 = line k1 /\ ready_for n A E false r2 k2 /\ kept k1 k2 /\ ram k2 = ram k1.
Proof.
  intros Hj El Eg H1 H2 H3 H4. rewrite (recv_turn fuel r k junk X Hj El). rewrite (bind_ok _ _ _ _ _ Eg). cbn [negb].
  set (k2 := with_place (os_data_addr_saved k1) (os_data_addr_saved k1) (k_data_escape_saved k1) (k_data_escape_saved k1) k1).
  rewrite (bind_ok k_data_restore _ k1 tt k2) by done. destruct (send_reply_ok 3 (n_of r1) [NACK_TYPE] k2) as [s Es]. unfold send_nack. rewrite (bind_ok _ _ _ _ _ Es).
  eexists _, _. split; [reflexivity|]. split; [done|]. split; [|done]. by repeat split.
Qed.

Lemma changed_both m1 m2 m3 lo hi : changed m1 m2 lo hi -> changed m2 m3 lo hi -> changed m1 m3 lo hi.
Proof. intros [A B] [C D]. split; [intros a Ha; rewrite C by done; by apply A|auto]. Qed.

(** The whole of a packet: its head has been read. *)
Lemma packet_start long n t d A E fresh r k junk l : between junk -> seq_ok n -> type_ok t -> n_ok long d -> ready_for n A E fresh r k ->
  length (send_parms k) = SEND_DATA_SIZE -> line k = junk ++ START_CHAR :: head long n t d ++ l ->
  exists s k1, get_packet r (with_line (head long n t d ++ l) (with_parms (send_parms k) 0 k)) = body d t (sum_of (head long n t d)) (Recv t s n n) k1 /\
    k1 = with_line l (at_place A E (with_parms (send_parms k) 0 k)).
Proof.
  intros Hj Hn Ht Hd Hr Hp El. set (k0 := with_line _ _). assert (Hr0 : ready_for n A E fresh r k0) by (destruct fresh; exact Hr).
  destruct (head_ok long n t d A E fresh r k0 l Hn Ht Hd Hr0 eq_refl) as [s Es]. exists s. eexists. split; [exact Es|]. done.
Qed.

Lemma tries_one long n t d data X A E fresh r k junk fuel mid : between junk -> seq_ok n -> type_ok t -> n_ok long d -> Forall printable data -> (length data <= d)%nat ->
  ready_for n A E fresh r k -> length (send_parms k) = SEND_DATA_SIZE -> mapped (ram k) A room ->
  line k = junk ++ START_CHAR :: head long n t d ++ data ++ X ->
  (forall k2 r2, line k2 = X -> body (d - length data) t (sum_of (head long n t d) + sum_of data) r2 k2 = Ok ((false, r2), with_line mid k2)) ->
  exists r2 k2, recv_loop (S fuel) r k = recv_loop fuel r2 k2 /\ line k2 = mid /\ ready_for n A E false r2 k2 /\ kept k k2 /\ changed (ram k) (ram k2) A (A + room).
Proof.
  intros Hj Hn Ht Hd Hdata Hle Hr Hp Hm El HX. destruct (packet_start long n t d A E fresh r k junk (data ++ X) Hj Hn Ht Hd Hr Hp El) as (s & k1 & Eg & Ek).
  pose proof (n_ok_room _ _ Hd). unfold body in Eg. replace d with (length data + (d - length data))%nat in Eg at 2 by lia.
  assert (P1 : parms_ok k1) by (rewrite Ek; split; [exact Hp|cbn; unfold SEND_DATA_SIZE; lia]).
  destruct (body_data t data k1 (d - length data) (sum_of (head long n t d)) X Hdata) as (k2 & Eb & L2 & K2 & A2 & X2 & C2); [by rewrite Ek|done| |].
  { rewrite Ek. cbn. eapply mapped_sub; [exact Hm|lia|unfold room in *; lia]. }
  pose proof (HX k2 (Recv t s n n) L2) as E3.
  destruct (turn_failed fuel r k junk (head long n t d ++ data ++ X) (Recv t s n n) (with_line mid k2) n A E Hj El) as (r4 & k4 & E4 & L4 & R4 & K4 & M4).
  - rewrite Eg. rewrite <- E3. unfold body, mbind, ST_bind. by rewrite Eb.
  - done.
  - done.
  - cbn. rewrite A2, Ek. done.
  - cbn. rewrite X2, Ek. done.
  - exists r4, k4. split; [done|]. rewrite L4, M4. split; [done|]. split; [done|]. split.
    + eapply kept_trans; [|exact K4]. rewrite Ek in K2. exact K2.
    + cbn [ram with_line]. rewrite Ek in C2. cbn in C2. eapply changed_wider; [exact C2|lia|unfold room in *; lia].
Qed.

(** What a good packet leaves. *)
Definition taken (t : Z) (data : list Z) (n A : Z) (E : bool) (k : kermit) (r2 : recv) (k2 : kermit) : Prop :=
  kept k k2 /\ os_data_addr_saved k2 = A /\ k_data_escape_saved k2 = E /\ last_n r2 = n /\ n_of r2 = n /\
  if decide (t = DATA_TYPE) then
    let '(out, e) := kdecode (his_quote k) E data in ram k2 = write_bytes (ram k) A out /\ os_data_addr k2 = A + Z.of_nat (length out) /\ k_data_escape k2 = e
  else ram k2 = ram k /\ os_data_addr k2 = A /\ k_data_escape k2 = E.

Lemma packet_good long n t data A E fresh r k junk fuel mid : between junk -> seq_ok n -> type_ok t -> t <> SEND_TYPE -> n_ok long (length data) -> Forall printable data ->
  ready_for n A E fresh r k -> length (send_parms k) = SEND_DATA_SIZE -> mapped (ram k) A room ->
  line k = junk ++ kpacket long n t data ++ mid ->
  exists r2 k2, recv_loop (S fuel) r k = (if t =? BREAK_TYPE then k ← get; mret (u32 (os_data_addr k - bin_start_address k)) else recv_loop fuel r2) k2 /\
    line k2 = mid /\ taken t data n A E k r2 k2.
Proof.
  intros Hj Hn Ht Hs Hd Hdata Hr Hp Hm El. unfold kpacket in El. cbn [app] in El. rewrite <- !app_assoc in El. cbn [app] in El.
  set (X := check_of long n t (length data) data :: END_CHAR :: mid) in *.
  destruct (packet_start long n t (length data) A E fresh r k junk (data ++ X) Hj Hn Ht Hd Hr Hp El) as (s & k1 & Eg & Ek).
  pose proof (n_ok_room _ _ Hd). rewrite (recv_turn fuel r k junk _ Hj El).
  assert (H1 : exists k2, data_loop (length data + 0) t (sum_of (head long n t (length data))) k1 = Ok (Some (sum_of (head long n t (length data)) + sum_of data), with_line X k2) /\
    taken t data n A E k (Recv t s n n) k2).
  { unfold taken. destruct (decide (t = DATA_TYPE)) as [->|Hne].
    - eexists. split; [rewrite (data_loop_data data k1 0 _ X Hdata); [reflexivity|by rewrite Ek|rewrite Ek; cbn; eapply mapped_sub; [exact Hm|lia|unfold room in *; lia]]|].
      destruct (take_data_link (his_quote k1) data k1) as ((_ & _ & _ & Hq & Hb & Ha & He & _) & _ & Hsp & _). unfold kept. rewrite Hq, Hb, Ha, He, Hsp. rewrite Ek.
      split; [done|]. do 4 (split; [done|]). unfold take_data. cbn. by destruct (kdecode _ _ _).
    - exists k1. rewrite (data_loop_skip t data Hne Hs k1 0 _ X Hdata) by (by rewrite Ek). split; [done|]. by rewrite Ek. }
  destruct H1 as (k2 & Ed & Hk). rewrite Nat.add_0_r in Ed.
  pose proof (packet_end_checked (sum_of (head long n t (length data)) + sum_of data) (with_line X k2) END_CHAR mid eq_refl) as Ee.
  assert (Eg' : get_packet r (with_line (head long n t (length data) ++ data ++ X) (with_parms (send_parms k) 0 k)) = Ok ((true, Recv t s n n), with_line mid k2)).
  { rewrite Eg. unfold body. rewrite (bind_ok _ _ _ _ _ Ed). by rewrite (bind_ok _ _ _ _ _ Ee). }
  rewrite (bind_ok _ _ _ _ _ Eg'). cbn [negb k_state]. destruct (Z.eqb_spec t SEND_TYPE); [done|].
  destruct (send_reply_ok 3 n [ACK_TYPE] (with_line mid k2)) as [u Eu]. unfold send_ack. cbn [n_of]. rewrite (bind_ok _ _ _ _ _ Eu).
  exists (Recv t s n n), (with_sent u (with_line mid k2)). split; [done|]. split; [done|]. exact Hk.
Qed.

Lemma taken_ready t data n A E k r2 k2 : taken t data n A E k r2 k2 -> ready_for n A E false r2 k2.
Proof. intros (_ & H1 & H2 & H3 & H4 & _). by repeat split. Qed.

Lemma taken_changed t data n A E k r2 k2 : Z.of_nat (length data) < room -> taken t data n A E k r2 k2 -> changed (ram k) (ram k2) A (A + room).
Proof.
  intros Hd (_ & _ & _ & _ & _ & H). destruct (decide (t = DATA_TYPE)) as [_|_].
  - pose proof (kdecode_length (his_quote k) data E). destruct (kdecode _ _ _) as [o e]. destruct H as (-> & _). apply changed_write_at. cbn [fst] in *. lia.
  - destruct H as (-> & _). apply changed_refl.
Qed.

(** What is reached after vain tries. *)
Definition reaches (n A : Z) (E : bool) (fuel : nat) (r : recv) (k : kermit) (rest : list Z) : Prop :=
  exists fuel' r' k' fresh', recv_loop fuel r k = recv_loop fuel' r' k' /\ line k' = rest /\ ready_for n A E fresh' r' k' /\ kept k k' /\
    changed (ram k) (ram k') A (A + room) /\ (length rest < fuel')%nat.

(** One try and then the others. *)
Lemma reaches_step n A E fuel r k mid rest r2 k2 : recv_loop (S fuel) r k = recv_loop fuel r2 k2 -> line k2 = mid -> ready_for n A E false r2 k2 ->
  kept k k2 -> changed (ram k) (ram k2) A (A + room) ->
  length (send_parms k) = SEND_DATA_SIZE -> mapped (ram k) A room -> (length mid < fuel)%nat ->
  (forall fuel r k A E, line k = mid -> ready_for n A E false r k -> length (send_parms k) = SEND_DATA_SIZE -> mapped (ram k) A room -> (length mid < fuel)%nat ->
     reaches n A E fuel r k rest) -> reaches n A E (S fuel) r k rest.
Proof.
  intros E1 L2 R2 K2 C2 Hp Hm Hf IH. destruct (IH fuel r2 k2 A E L2 R2) as (f & r' & k' & fr & E' & L' & R' & K' & C' & F'); [destruct K2 as (_ & _ & ->); done|by eapply mapped_changed|done|].
  exists f, r', k', fr. rewrite E1. do 3 (split; [done|]). split; [by eapply kept_trans|]. split; [by eapply changed_both|done].
Qed.

(** The vain tries. *)
Lemma tries_ok n fresh inp rest : tries n fresh inp rest -> seq_ok n -> forall fuel r k A E, line k = inp -> ready_for n A E fresh r k ->
  length (send_parms k) = SEND_DATA_SIZE -> mapped (ram k) A room -> (length inp < fuel)%nat -> reaches n A E fuel r k rest.
Proof.
  intros Ht Hn. induction Ht as [fresh inp|fresh junk long t d data c mid rest Hj Hty Hd Hdata Hle Hc Hbad Ht IH|fresh junk long t data c mid rest Hj Hty Hd Hdata Hc Hne Ht IH
    |fresh junk long t data c mid rest Hj Hty Hd Hdata Hne Ht IH|junk l c mid rest Hj Hl Hpl Hc Hbad Ht IH|fresh junk long t data mid rest Hj Hty Hs Hb Hd Hdata Ht IH];
    intros fuel r k A E El Hr Hp Hm Hf; [|destruct fuel as [|fuel]; [lia|]; repeat (rewrite length_app in Hf || cbn [length] in Hf)..].
  - exists fuel, r, k, fresh. do 4 (split; [done|]). split; [apply changed_refl|done].
  - destruct (tries_one long n t d data (c :: mid) A E fresh r k junk fuel mid) as (r2 & k2 & E2 & L2 & R2 & K2 & C2); try done.
    + intros k2 r2 L2. unfold body. destruct (d - length data)%nat; cbn [data_loop].
      * rewrite (bind_ok (mret _) _ k2 _ k2 eq_refl). by rewrite (bind_ok _ _ _ _ _ (packet_end_bad _ k2 c mid L2 (or_introl Hbad))).
      * set (sum := sum_of _ + _). rewrite (bind_ok _ _ k2 None (with_line mid k2)); [done|]. by rewrite (bind_ok _ _ _ _ _ (checked_bad k2 sum c mid L2 Hbad)).
    + eapply reaches_step; try done. lia.
  - destruct (tries_one long n t (length data) data (c :: mid) A E fresh r k junk fuel mid) as (r2 & k2 & E2 & L2 & R2 & K2 & C2); try done.
    + intros k2 r2 L2. unfold body. rewrite Nat.sub_diag. cbn [data_loop]. rewrite (bind_ok (mret _) _ k2 _ k2 eq_refl).
      by rewrite (bind_ok _ _ _ _ _ (packet_end_bad _ k2 c mid L2 (or_intror Hne))).
    + eapply reaches_step; try done. lia.
  - destruct (tries_one long n t (length data) data (check_of long n t (length data) data :: c :: mid) A E fresh r k junk fuel mid) as (r2 & k2 & E2 & L2 & R2 & K2 & C2); try done.
    + intros k2 r2 L2. unfold body. rewrite Nat.sub_diag. cbn [data_loop]. rewrite (bind_ok (mret _) _ k2 _ k2 eq_refl).
      rewrite (bind_ok _ _ _ _ _ (packet_end_checked _ k2 c mid L2)). by destruct (Z.eqb_spec c END_CHAR).
    + eapply reaches_step; try done. lia.
  - pose proof Hr as (H1 & H2 & H3 & H4). assert (Eg : get_packet r (with_line (l ++ c :: mid) (with_parms (send_parms k) 0 k)) = Ok ((false, r), with_line mid (with_parms (send_parms k) 0 k))).
    { unfold get_packet. set (k0 := with_parms (send_parms k) 0 k). destruct l as [|b [|]]; [| |cbn in Hl; lia]; cbn [app].
      - by rewrite (bind_ok _ _ _ _ _ (checked_bad (with_line (c :: mid) k0) 0 c mid eq_refl Hbad)).
      - apply Forall_cons in Hpl as [Hpl _]. rewrite (bind_ok _ _ _ _ _ (checked_ok (with_line (b :: c :: mid) k0) 0 b (c :: mid) eq_refl Hpl)). cbv zeta.
        by rewrite (bind_ok _ _ _ _ _ (checked_bad (with_line (c :: mid) k0) (0 + b) c mid eq_refl Hbad)). }
    destruct (turn_failed fuel r k junk (l ++ c :: mid) r (with_line mid (with_parms (send_parms k) 0 k)) n A E Hj El Eg) as (r2 & k2 & E2 & L2 & R2 & K2 & M2); try done.
    cbn [line with_line] in L2. eapply reaches_step; try done; [rewrite M2; apply changed_refl|lia].
  - destruct (packet_good long n t data A E fresh r k junk fuel mid) as (r2 & k2 & E2 & L2 & T2); try done.
    destruct (Z.eqb_spec t BREAK_TYPE); [done|]. pose proof (n_ok_room _ _ Hd).
    eapply reaches_step; [exact E2|exact L2|by eapply taken_ready|apply T2|by eapply taken_changed|done|done| |done].
    unfold kpacket in Hf. cbn [app length] in Hf. rewrite !length_app in Hf. lia.
Qed.

(** ** A transfer *)

Lemma printable_bytes l : Forall printable l -> Forall byte l.
Proof. intros H. eapply Forall_impl; [exact H|]. by intros b [Hb _]. Qed.

(** A packet with its tries, when its type is not [SEND_TYPE]. *)
Lemma packet_step n t data inp rest fuel r k A E : packet_arrives n t data inp rest -> t <> SEND_TYPE -> seq_ok n -> line k = inp -> ready_for n A E true r k ->
  length (send_parms k) = SEND_DATA_SIZE -> mapped (ram k) A room -> (length inp < fuel)%nat ->
  exists fuel' r' k1 k', recv_loop fuel r k = (if t =? BREAK_TYPE then k ← get; mret (u32 (os_data_addr k - bin_start_address k)) else recv_loop fuel' r') k' /\
    line k' = rest /\ kept k k1 /\ changed (ram k) (ram k1) A (A + room) /\ taken t data n A E k1 r' k' /\ (length rest < fuel')%nat /\ Z.of_nat (length data) < room.
Proof.
  intros (Ht & Hdata & long & junk & Hd & Hj & Htr) Hs Hn El Hr Hp Hm Hf.
  destruct (tries_ok n true inp _ Htr Hn fuel r k A E El Hr Hp Hm Hf) as (f & r1 & k1 & fr & -> & L1 & R1 & K1 & C1 & F1).
  destruct f as [|f]; [lia|]. destruct (packet_good long n t data A E fr r1 k1 junk f rest) as (r2 & k2 & -> & L2 & T2); try done; [destruct K1 as (_ & _ & ->); done|by eapply mapped_changed|].
  exists f, r2, k1, k2. do 5 (split; [done|]). split; [|by eapply n_ok_room]. unfold kpacket in F1. cbn [app] in F1. rewrite length_app in F1. cbn [length] in F1. rewrite !length_app in F1. lia.
Qed.

Lemma session_ok n enc inp rest : session n enc inp rest -> forall fuel r k A E done out e, seq_ok n -> line k = inp -> ready_for n A E true r k ->
  length (send_parms k) = SEND_DATA_SIZE -> A = bin_start_address k + Z.of_nat (length done) -> bytes_at (ram k) (bin_start_address k) done ->
  kdecode (his_quote k) E enc = (out, e) -> mapped (ram k) A (Z.of_nat (length out) + room) -> (length inp < fuel)%nat ->
  exists k', recv_loop fuel r k = Ok (u32 (Z.of_nat (length (done ++ out))), k') /\ line k' = rest /\ bytes_at (ram k') (bin_start_address k) (done ++ out) /\
    changed (ram k) (ram k') A (A + Z.of_nat (length out) + room).
Proof.
  induction 1 as [n data enc inp mid rest Hp Hs IH|n t data enc inp mid rest Hp H1 H2 H3 Hs IH|n data inp rest Hp];
    intros fuel r k A E dn out e Hn El Hr Hsp HA Hb Hk Hm Hf; pose proof Hn as Hn'; unfold seq_ok in Hn'.
  - rewrite kdecode_app in Hk. destruct (kdecode (his_quote k) E data) as [o1 e1] eqn:K1. destruct (kdecode (his_quote k) e1 enc) as [o2 e2] eqn:K2. injection Hk as <- <-.
    rewrite length_app in Hm.
    destruct (packet_step n DATA_TYPE data inp mid fuel r k A E Hp) as (f & r2 & k1 & k2 & -> & L2 & Kp1 & C1 & T2 & F2 & Hd); [done|done|done|done|done|eapply mapped_sub; [exact Hm|lia|unfold room in *; lia]|done|].
    change (DATA_TYPE =? BREAK_TYPE) with false. cbv iota.
    pose proof T2 as (Kp2 & _ & _ & T3 & T4 & T5). destruct (decide (DATA_TYPE = DATA_TYPE)); [|done].
    destruct (kept_trans _ _ _ Kp1 Kp2) as (Hq & Hst & Hlen). assert (Hq1 : his_quote k1 = his_quote k) by apply Kp1. rewrite Hq1, K1 in T5. destruct T5 as (Rm & Ra & Re).
    assert (Ho1 : Forall byte o1).
    { destruct Hp as (_ & Hpr & _). pose proof (kdecode_bytes (his_quote k) data E (printable_bytes _ Hpr)) as Hby. by rewrite K1 in Hby. }
    assert (Lo : (length o1 <= length data)%nat) by (pose proof (kdecode_length (his_quote k) data E) as L; by rewrite K1 in L).
    assert (C2 : changed (ram k1) (ram k2) A (A + Z.of_nat (length o1))) by (rewrite Rm; apply changed_write_at; lia).
    destruct (IH f r2 k2 (A + Z.of_nat (length o1)) e1 (dn ++ o1) o2 e2) as (k3 & -> & L3 & B3 & C3); [unfold seq_ok; zmod|done|by repeat split; [..|rewrite T3; zmod]|congruence| | |by rewrite Hq| |done|].
    + rewrite Hst, length_app. lia.
    + rewrite Hst. apply bytes_at_app. split.
      * eapply bytes_at_changed; [exact C2|lia|]. eapply bytes_at_changed; [exact C1|lia|exact Hb].
      * rewrite Rm, <- HA. by apply write_bytes_at.
    + eapply mapped_changed; [exact C2|]. eapply mapped_changed; [exact C1|]. eapply mapped_sub; [exact Hm|lia|lia].
    + exists k3. rewrite <- app_assoc, Hst in *. do 3 (split; [done|]). rewrite length_app.
      eapply changed_both; [|eapply changed_both].
      * eapply changed_wider; [exact C1|lia|lia].
      * eapply changed_wider; [exact C2|lia|unfold room; lia].
      * eapply changed_wider; [exact C3|lia|lia].
  - destruct (packet_step n t data inp mid fuel r k A E Hp) as (f & r2 & k1 & k2 & -> & L2 & Kp1 & C1 & T2 & F2 & Hd); [done|done|done|done|done|eapply mapped_sub; [exact Hm|lia|unfold room in *; lia]|done|].
    destruct (Z.eqb_spec t BREAK_TYPE); [done|].
    pose proof T2 as (Kp2 & _ & _ & T3 & T4 & T5). destruct (decide (t = DATA_TYPE)); [done|]. destruct T5 as (Rm & Ra & Re).
    destruct (kept_trans _ _ _ Kp1 Kp2) as (Hq & Hst & Hlen).
    destruct (IH f r2 k2 A E dn out e) as (k3 & -> & L3 & B3 & C3); [unfold seq_ok; zmod|done|by repeat split; [..|rewrite T3; zmod]|congruence|by rewrite Hst| |by rewrite Hq| |done|].
    + rewrite Hst, Rm. eapply bytes_at_changed; [exact C1|lia|exact Hb].
    + rewrite Rm. by eapply mapped_changed.
    + exists k3. rewrite Hst in *. do 3 (split; [done|]). rewrite Rm in C3. eapply changed_both; [|exact C3]. eapply changed_wider; [exact C1|lia|lia].
  - destruct (packet_step n BREAK_TYPE data inp rest fuel r k A E Hp) as (f & r2 & k1 & k2 & -> & L2 & Kp1 & C1 & T2 & F2 & Hd); [done|done|done|done|done|eapply mapped_sub; [exact Hm|lia|unfold room in *; lia]|done|].
    change (BREAK_TYPE =? BREAK_TYPE) with true. cbv iota. rewrite (bind_ok get _ k2 k2 k2) by done.
    pose proof T2 as (Kp2 & _ & _ & _ & _ & T5). destruct (decide (BREAK_TYPE = DATA_TYPE)); [done|]. destruct T5 as (Rm & Ra & _). destruct (kept_trans _ _ _ Kp1 Kp2) as (Hq & Hst & Hlen).
    cbn [kdecode] in Hk. injection Hk as <- <-. exists k2. rewrite app_nil_r, Ra, Hst, HA. split; [unfold mret, ST_ret; do 3 f_equal; lia|]. split; [done|].
    rewrite Rm. split; [eapply bytes_at_changed; [exact C1|lia|exact Hb]|]. rewrite <- HA. eapply changed_wider; [exact C1|lia|cbn; lia].
Qed.

(** The quote that the parameters ask for. *)
Definition quote_of (parms : list Z) : Z := if (5 <? length parms)%nat then nth 5 parms 0 else K_ESCAPE.

Lemma handle_send_ok n k : (send_ptr k <= 18)%nat -> exists k', handle_send_packet n k = Ok (tt, k') /\ line k' = line k /\ ram k' = ram k /\
  os_data_addr k' = os_data_addr k /\ k_data_escape k' = k_data_escape k /\ bin_start_address k' = bin_start_address k /\ send_parms k' = send_parms k /\
  his_quote k' = (if (5 <? send_ptr k)%nat then nth 5 (send_parms k) 0 else K_ESCAPE).
Proof.
  intros Hp. unfold handle_send_packet. assert (Np : (send_ptr k =? SEND_DATA_SIZE - 1)%nat = false) by (apply Nat.eqb_neq; unfold SEND_DATA_SIZE; lia).
  set (k1 := with_parms (send_parms k) (send_ptr k) k). rewrite (bind_ok (modify _) _ k tt k1) by (unfold modify; by rewrite Np).
  rewrite (bind_ok get _ k1 k1 k1) by done. cbv zeta.
  match goal with |- context [modify ?f] => rewrite (bind_ok (modify f) _ k1 tt (f k1)) by done; set (k2 := f k1) end.
  match goal with |- context [send_reply ?a ?b ?c k2] => destruct (send_reply_ok a b c k2) as [s Es] end. eexists. split; [exact Es|]. done.
Qed.

Lemma send_packet_ok long n parms A E fresh r k junk fuel mid : between junk -> seq_ok n -> n_ok long (length parms) -> (length parms <= 18)%nat -> Forall printable parms ->
  ready_for n A E fresh r k -> length (send_parms k) = SEND_DATA_SIZE -> line k = junk ++ kpacket long n SEND_TYPE parms ++ mid ->
  exists r2 k2, recv_loop (S fuel) r k = recv_loop fuel r2 k2 /\ line k2 = mid /\ his_quote k2 = quote_of parms /\ length (send_parms k2) = SEND_DATA_SIZE /\
    bin_start_address k2 = bin_start_address k /\ ram k2 = ram k /\ os_data_addr k2 = A /\ k_data_escape k2 = E /\ last_n r2 = n.
Proof.
  intros Hj Hn Hd Hle Hdata Hr Hp El. unfold kpacket in El. cbn [app] in El. rewrite <- !app_assoc in El. cbn [app] in El.
  set (X := check_of long n SEND_TYPE (length parms) parms :: END_CHAR :: mid) in *.
  assert (Ht : type_ok SEND_TYPE) by (split; [by vm_compute|done]).
  destruct (packet_start long n SEND_TYPE (length parms) A E fresh r k junk (parms ++ X) Hj Hn Ht Hd Hr Hp El) as (s & k1 & Eg & Ek).
  rewrite (recv_turn fuel r k junk _ Hj El).
  assert (P1 : parms_ok k1) by (rewrite Ek; split; [exact Hp|cbn; unfold SEND_DATA_SIZE; lia]).
  destruct (data_loop_send parms k1 0 (sum_of (head long n SEND_TYPE (length parms))) X Hdata) as (k2 & Ed & L2 & (_ & _ & _ & _ & Hst & _) & P2 & R2 & A2 & E2 & B2); [by rewrite Ek|done|].
  rewrite Ek in B2. cbn [send_ptr with_line at_place with_place with_parms] in B2. destruct B2 as [Bp Bn]; [lia|]. rewrite take_0 in Bp. cbn [app] in Bp. change (0 + length parms)%nat with (length parms) in *. rewrite Nat.add_0_r in Ed.
  set (sum := sum_of _ + sum_of parms) in *.
  pose proof (packet_end_checked sum k2 END_CHAR mid L2) as Ee.
  assert (Eg' : get_packet r (with_line (head long n SEND_TYPE (length parms) ++ parms ++ X) (with_parms (send_parms k) 0 k)) = Ok ((true, Recv SEND_TYPE s n n), with_line mid k2)).
  { rewrite Eg. unfold body. rewrite (bind_ok _ _ _ _ _ Ed). by rewrite (bind_ok _ _ _ _ _ Ee). }
  rewrite (bind_ok _ _ _ _ _ Eg'). cbn [negb k_state]. change (SEND_TYPE =? SEND_TYPE) with true. cbv iota. cbn [n_of].
  destruct (handle_send_ok n (with_line mid k2)) as (k3 & E3 & L3 & R3 & A3 & X3 & S3 & P3 & Q3); [cbn; lia|]. rewrite (bind_ok _ _ _ _ _ E3).
  exists (Recv SEND_TYPE s n n), k3. cbn [line ram os_data_addr k_data_escape bin_start_address send_parms send_ptr with_line] in *.
  split; [done|]. split; [done|]. split; [|rewrite P3, S3, R3, A3, X3, R2, A2, E2, Hst, Ek; split; [by destruct P2|done]].
  rewrite Q3, Bn, Bp. unfold quote_of. destruct (Nat.ltb_spec 5 (length parms)); [|done]. by rewrite app_nth1 by lia.
Qed.

(** A whole transfer of [file]: the parameters with the quote, any packets that are no
    data, and the data, quoted and cut into packets of any size, long or short; with
    noise between the packets, and before each packet any number of tries that are
    damaged, cut, or repetitions of it. *)
Inductive transfer (inp : list Z) (file rest : list Z) : Prop :=
| Transfer q parms mid :
    good_quote q -> Forall byte file -> quote_of parms = q -> (length parms <= 18)%nat ->
    packet_arrives 0 SEND_TYPE parms inp mid -> session 1 (kencode q file) mid rest -> transfer inp file rest.

(** It brings exactly the file into memory; besides, only the room of one packet behind
    the file may change. *)
Lemma kermit_received k file offset rest : length (send_parms k) = SEND_DATA_SIZE -> transfer (line k) file rest ->
  mapped (ram k) offset (Z.of_nat (length file) + room) -> Z.of_nat (length file) < 2 ^ 32 ->
  exists k', (set_kerm_bin_mode offset;; k_recv) k = Ok (Z.of_nat (length file), k') /\ line k' = rest /\ bytes_at (ram k') offset file /\
    changed (ram k) (ram k') offset (offset + Z.of_nat (length file) + room).
Proof.
  intros Hsp [q parms mid Hq Hf Hqo Hlp (_ & Hpp & long & junk & Hd & Hj & Htr) Hs] Hm Hsz.
  set (k1 := with_start offset k). rewrite (bind_ok (set_kerm_bin_mode offset) _ k tt k1) by done. unfold k_recv.
  set (k2 := with_params END_CHAR 0 0 K_ESCAPE k1). rewrite (bind_ok (modify _) _ k1 tt k2) by done.
  set (k3 := with_place offset (os_data_addr_saved k2) false (k_data_escape_saved k2) k2). rewrite (bind_ok k_data_init _ k2 tt k3) by done.
  set (k4 := with_place offset offset false false k3). rewrite (bind_ok k_data_save _ k3 tt k4) by done.
  rewrite (bind_ok (gets line) _ k4 (line k4) k4) by done.
  assert (R4 : ready_for 0 offset false true (Recv 0 0 0 (-1)) k4) by (by repeat split).
  destruct (tries_ok 0 true (line k) _ Htr ltac:(by split) (S (length (line k4))) (Recv 0 0 0 (-1)) k4 offset false eq_refl R4 Hsp) as (f & r5 & k5 & fr & -> & L5 & R5 & K5 & C5 & F5);
    [eapply mapped_sub; [exact Hm|lia|lia]|cbn; lia|].
  destruct f as [|f]; [lia|]. destruct (send_packet_ok long 0 parms offset false fr r5 k5 junk f mid) as (r6 & k6 & -> & L6 & Q6 & P6 & S6 & M6 & A6 & X6 & N6); try done;
    [destruct K5 as (_ & _ & ->); done|].
  assert (S6' : bin_start_address k6 = offset) by (rewrite S6; destruct K5 as (_ & -> & _); done).
  rewrite Hqo in Q6. pose proof (kdecode_encode q file Hq Hf) as Hk. rewrite <- Q6 in Hk, Hs.
  destruct (session_ok 1 _ mid rest Hs f r6 k6 offset false [] file false) as (k7 & -> & L7 & B7 & C7); try done.
  - split; [done|]. split; [done|]. by rewrite N6.
  - rewrite S6'. cbn. lia.
  - rewrite M6. eapply mapped_changed; [exact C5|exact Hm].
  - unfold kpacket in F5. cbn [app] in F5. rewrite length_app in F5. cbn [length] in F5. rewrite !length_app in F5. lia.
  - exists k7. cbn [app] in *. rewrite S6' in B7. rewrite u32_small by lia. do 3 (split; [done|]). rewrite M6 in C7.
    eapply changed_both; [eapply changed_wider; [exact C5|lia|lia]|exact C7].
Qed.

(** "A#" and a newline with the usual parameters, in two packets; the first of them comes
    damaged and then twice. *)
Definition hi_parms : list Z := zs "~* @-#N1N".
Definition hi_data : list Z := kencode K_ESCAPE (zs "A#" ++ [10]).
Definition hi_bytes : list Z :=
  kpacket false 0 SEND_TYPE hi_parms ++ kpacket false 1 (ch "F") (zs "A") ++
  [7] ++ START_CHAR :: head false 2 DATA_TYPE 2 ++ zs "XY" ++ [9; END_CHAR] ++
  kpacket false 2 DATA_TYPE (take 2 hi_data) ++ kpacket false 2 DATA_TYPE (take 2 hi_data) ++
  kpacket true 3 DATA_TYPE (drop 2 hi_data) ++ kpacket false 4 (ch "Z") [] ++ kpacket false 5 BREAK_TYPE [].

(** A control character instead of the length of the second packet: the first packet's
    data is dropped and replaced by the second's. *)
Example damaged_length_loses_data :
  let l := kpacket false 0 SEND_TYPE hi_parms ++ kpacket false 1 DATA_TYPE (zs "AB") ++ [START_CHAR; 2] ++ kpacket false 2 DATA_TYPE (zs "CD") ++ kpacket false 3 BREAK_TYPE [] in
  match (set_kerm_bin_mode 0x40;; k_recv) (Kermit (mem_of 0x40 [0; 0; 0; 0]) l [] 0 0 0 0 0 0 0 false false (repeat 0 20) 0) with
  | Ok (n, k) => (n =? 2) && bool_decide (ram k = mem_of 0x40 (zs "CD" ++ [0; 0])) | _ => false end = true.
Proof. by vm_compute. Qed.

Lemma nothing_between : between [].
Proof. constructor. Qed.

(** The packet comes as it is. *)
Lemma arrives_at_once long n t data mid : type_ok t -> Forall printable data -> n_ok long (length data) -> packet_arrives n t data (kpacket long n t data ++ mid) mid.
Proof. intros Ht Hd Hn. split; [done|]. split; [done|]. exists long, []. split; [done|]. split; [apply nothing_between|]. apply tries_none. Qed.

#[local] Instance printable_dec b : Decision (printable b).
Proof. unfold printable, byte. apply _. Defined.

Ltac decided := apply (bool_decide_unpack _); vm_compute; exact I.

(** The rest of the line after each packet. *)
Definition hi_rest5 : list Z := kpacket false 5 BREAK_TYPE [].
Definition hi_rest4 : list Z := kpacket false 4 (ch "Z") [] ++ hi_rest5.
Definition hi_rest3 : list Z := kpacket true 3 DATA_TYPE (drop 2 hi_data) ++ hi_rest4.
Definition hi_again : list Z := kpacket false 2 DATA_TYPE (take 2 hi_data) ++ hi_rest3.
Definition hi_rest2 : list Z := [7] ++ START_CHAR :: head false 2 DATA_TYPE 2 ++ zs "XY" ++ 9 :: [END_CHAR] ++ kpacket false 2 DATA_TYPE (take 2 hi_data) ++ hi_again.
Definition hi_rest1 : list Z := kpacket false 1 (ch "F") (zs "A") ++ hi_rest2.

Lemma hi_session : session 1 (kencode K_ESCAPE (zs "A#" ++ [10])) hi_rest1 [].
Proof.
  apply (session_other 1 (ch "F") (zs "A") _ _ hi_rest2); [apply arrives_at_once; [decided|decided|by unfold n_ok]|done|done|done|].
  apply (session_data 2 (take 2 hi_data) (drop 2 hi_data) hi_rest2 hi_rest3).
  - split; [decided|]. split; [decided|]. exists false, []. split; [by unfold n_ok|]. split; [apply nothing_between|].
    apply (tries_cut 2 true [7] false DATA_TYPE 2 (zs "XY") 9); [by repeat constructor|decided|by unfold n_ok|decided|cbn; lia|done|done|].
    apply (tries_again 2 false [END_CHAR] false DATA_TYPE (take 2 hi_data) hi_again); [by repeat constructor|decided|done|done|by unfold n_ok|decided|]. apply tries_none.
  - rewrite <- (app_nil_r (drop 2 hi_data)). apply (session_data 3 (drop 2 hi_data) [] hi_rest3 hi_rest4); [apply arrives_at_once; [decided|decided|by unfold n_ok]|].
    apply (session_other 4 (ch "Z") [] _ _ hi_rest5); [apply arrives_at_once; [decided|decided|by unfold n_ok]|done|done|done|].
    apply (session_break 5 []). unfold hi_rest5. rewrite <- (app_nil_r (kpacket _ _ _ _)). apply arrives_at_once; [decided|decided|by unfold n_ok].
Qed.

Lemma hi_kermit : transfer hi_bytes (zs "A#" ++ [10]) [].
Proof.
  apply (Transfer _ _ _ K_ESCAPE hi_parms hi_rest1).
  - unfold good_quote, K_ESCAPE. lia.
  - decided.
  - reflexivity.
  - cbn. lia.
  - assert (E : hi_bytes = kpacket false 0 SEND_TYPE hi_parms ++ hi_rest1) by (by vm_compute). rewrite E.
    apply arrives_at_once; [decided|decided|by unfold n_ok].
  - exact hi_session.
Qed.
