(* ===== verification/Load.v ===== *)
(** * The download commands (common/cmd_load.c)

    [loady] takes a file with XyzModem, [loadb] with Kermit, [loads] S-records; [saves]
    prints S-records.  What is in flash is written by the driver of Flash, the rest of
    the memory directly.  All of them talk over the serial line the console is on, so
    that their messages and their answers to the sender go the same way. *)

From S2P Require Import Prelude Mem Ctype CString Vsprintf Crc Env Eth Command Flash Display Image XyzModem Kermit Srec.

Section Load.
Context {C : Type} `{HB : !NorBus C}.

Record port := Port {
  memory : mem;
  dev : hw C;
  coming : list (Z * Z);
  said : list Z;
  xm : xyz;
  ker : kermit;
  env : environment;
  do_echo : bool;
  load_addr : Z;
  baudrate : Z;
}.

Abbreviation P := (ST port).

Context (banks : list flash_info).

Definition put_memory (m : mem) (p : port) : port := Port m (dev p) (coming p) (said p) (xm p) (ker p) (env p) (do_echo p) (load_addr p) (baudrate p).
Definition put_dev (h : hw C) (p : port) : port := Port (memory p) h (coming p) (said p) (xm p) (ker p) (env p) (do_echo p) (load_addr p) (baudrate p).
Definition put_coming (l : list (Z * Z)) (p : port) : port := Port (memory p) (dev p) l (said p) (xm p) (ker p) (env p) (do_echo p) (load_addr p) (baudrate p).
Definition put_said (s : list Z) (p : port) : port := Port (memory p) (dev p) (coming p) s (xm p) (ker p) (env p) (do_echo p) (load_addr p) (baudrate p).
Definition put_env (e : environment) (p : port) : port := Port (memory p) (dev p) (coming p) (said p) (xm p) (ker p) e (do_echo p) (load_addr p) (baudrate p).
Definition put_echo (b : bool) (p : port) : port := Port (memory p) (dev p) (coming p) (said p) (xm p) (ker p) (env p) b (load_addr p) (baudrate p).
Definition put_load_addr (a : Z) (p : port) : port := Port (memory p) (dev p) (coming p) (said p) (xm p) (ker p) (env p) (do_echo p) a (baudrate p).
Definition put_baudrate (b : Z) (p : port) : port := Port (memory p) (dev p) (coming p) (said p) (xm p) (ker p) (env p) (do_echo p) (load_addr p) b.

(** ** The line *)

Definition puts (s : list Z) : P unit := modify (fun p => put_said (said p ++ s) p).
Definition print (fmt : list Z) (args : list va_arg) : P unit := l ← lift (printf fmt args); puts l.
Definition tstc : P bool := gets (fun p => match coming p with [] => false | (g, _) :: _ => g <=? 0 end).
Definition udelay (us : Z) : P unit := modify (fun p => put_coming (elapse (us / DELAY) (coming p)) p).
Definition getc : P Z := fun p => match coming p with [] => OutOfFuel | (_, b) :: l => Ok (b, put_coming l p) end.
Fixpoint wait_for (fuel : nat) (c : Z) : P unit :=
  match fuel with O => out_of_fuel | S fuel => b ← getc; if b =? c then mret tt else wait_for fuel c end.

(** The X-modem code runs on the same line, and so does Kermit, for which the times do
    not matter. *)
Definition on_xm {A} (f : ST xyz A) : P A := fun p =>
  match f (set_sent (said p) (set_line (coming p) (xm p))) with
  | Ok (a, x) => Ok (a, Port (memory p) (dev p) (XyzModem.line x) (XyzModem.sent x) x (ker p) (env p) (do_echo p) (load_addr p) (baudrate p))
  | Fault => Fault | OutOfFuel => OutOfFuel end.
Definition on_ker {A} (f : ST kermit A) : P A := fun p =>
  match f (with_sent (said p) (with_line (map snd (coming p)) (with_ram (memory p) (ker p)))) with
  | Ok (a, k) => Ok (a, Port (ram k) (dev p) (drop (length (coming p) - length (Kermit.line k)) (coming p)) (Kermit.sent k) (xm p) k (env p) (do_echo p) (load_addr p) (baudrate p))
  | Fault => Fault | OutOfFuel => OutOfFuel end.
Definition on_mem {A} (f : M A) : P A := fun p =>
  match f (memory p) with Ok (a, m) => Ok (a, put_memory m p) | Fault => Fault | OutOfFuel => OutOfFuel end.

Definition on_flash (data : list Z) (addr n : Z) : P Z := fun p =>
  match flash_write banks data addr n (dev p) with Ok (rc, h) => Ok (rc, put_dev h p) | Fault => Fault | OutOfFuel => OutOfFuel end.

(** Into flash, or into memory: 0, or the error of the driver. *)
Definition store (addr : Z) (data : list Z) (n : Z) : P Z :=
  b ← lift (addr2info banks addr);
  match b with
  | Some _ => on_flash data addr (u32 n)
  | None => if n <? 0 then fault else on_mem (store_bytes addr (take (Z.to_nat n) data));; mret 0
  end.

Definition perror (rc : Z) : P unit := t ← lift (flash_error rc); puts t.
Definition setenv_filesize (fmt : list Z) (size : Z) : P unit :=
  buf ← lift (printf fmt [A_int size]); modify (fun p => put_env (set_var (env p) (zs "filesize") (Some buf)) p).

(** [~0]. *)
Definition aborted : Z := 0xffffffff.

(** Characters that still come are taken for 100 ms. *)
Fixpoint gather (n : nat) : P unit :=
  match n with O => mret tt | S n => (t ← tstc; if (t : bool) then getc;; mret tt else mret tt);; udelay 1000;; gather n end.

(** ** loady *)

(** The address behind the file and its size.  Fuel: each turn but the last brings at
    least a byte, which came over the line or was in the buffer. *)
Fixpoint ymodem_loop (fuel : nat) (offset size addr : Z) : P (option Z) :=
  match fuel with
  | O => out_of_fuel
  | S fuel =>
      '(buf, err) ← on_xm (xyzModem_stream_read 1024);
      let res := Z.of_nat (length buf) in
      if res <=? 0 then mret (Some size)
      else
        let store_addr := u32 (addr + offset) in
        rc ← store store_addr buf res;
        if negb (rc =? 0) then perror rc;; mret None
        else ymodem_loop fuel offset (size + res) (u32 (addr + res))
  end.

Definition load_serial_ymodem (offset : Z) : P Z :=
  '(res, err) ← on_xm (xyzModem_stream_open xyzModem_ymodem);
  p ← get;
  size ← (if res =? 0 then ymodem_loop (length (coming p) + 1024 + 2) offset 0 0
          else print (zs "%s" ++ [10]) [A_str (Some (xyzModem_error err))];; mret (Some 0));
  match size with
  | None => mret aborted
  | Some size =>
      on_xm xyzModem_stream_close;;
      on_xm (xyzModem_stream_terminate false);;
      print (zs "## Total Size      = 0x%08x = %d Bytes" ++ [10]) [A_int size; A_int size];;
      setenv_filesize (zs "%X") size;;
      mret offset
  end.

(** ** loadb *)

Definition load_serial_bin (offset : Z) : P Z :=
  on_ker (set_kerm_bin_mode offset);;
  size ← on_ker k_recv;
  gather 100;;
  print (zs "## Total Size      = 0x%08x = %d Bytes" ++ [10]) [A_int size; A_int size];;
  setenv_filesize (zs "%X") size;;
  mret offset.

Context (CONFIG_SYS_LOAD_ADDR : Z).

(** A change of the baud rate, and back. *)
Definition set_baud (rate : Z) (prompt : list Z) (key : Z) : P unit :=
  print prompt [A_int rate];;
  udelay 50000;;
  modify (put_baudrate rate);;
  udelay 50000;;
  p ← get; wait_for (S (length (coming p))) key.

Definition with_baud {A} (rate : Z) (f : P A) : P A :=
  p ← get;
  let current := baudrate p in
  (if negb (rate =? current) then set_baud rate (zs "## Switch baudrate to %d bps and press ENTER ..." ++ [10]) 13 else mret tt);;
  a ← f;
  (if negb (rate =? current) then set_baud current (zs "## Switch baudrate to %d bps and press ESC ..." ++ [10]) 0x1B else mret tt);;
  mret a.

Definition do_load_serial_bin (argv : list (list Z)) : P Z :=
  p ← get;
  let offset := match var (env p) (zs "loadaddr") with Some s => fst (simple_strtoul s 16) | None => CONFIG_SYS_LOAD_ADDR end in
  let offset := match argv !! 1%nat with Some a => fst (simple_strtoul a 16) | None => offset end in
  let rate := if (length argv =? 3)%nat then s32 (fst (simple_strtoul (nth 2 argv []) 10)) else baudrate p in
  let rate := if rate =? 0 then baudrate p else rate in
  name ← lift (arr_get argv 0);
  with_baud rate
    (if bool_decide (name = zs "loady") then
       print (zs "## Ready for binary (ymodem) download to 0x%08lX at %d bps..." ++ [10]) [A_int offset; A_int rate];;
       load_serial_ymodem offset;;
       mret 0
     else
       print (zs "## Ready for binary (kermit) download to 0x%08lX at %d bps..." ++ [10]) [A_int offset; A_int rate];;
       addr ← load_serial_bin offset;
       if addr =? aborted then
         modify (put_load_addr 0);; puts (zs "## Binary (kermit) download aborted" ++ [10]);; mret 1
       else
         print (zs "## Start Addr      = 0x%08lX" ++ [10]) [A_int addr];;
         modify (put_load_addr addr);;
         mret 0).

(** ** loads *)

Definition SREC_MAXRECLEN : nat := 516.

(** [jt] of the console may hold another [getc]: then Ctrl-C is looked for after each
    character, and what has come is taken from the line. *)
Context (other_getc : bool).

Definition ctrlc : P bool := t ← tstc; if (t : bool) then c ← getc; mret (c =? ETX_CHAR) else mret false.

(** The line up to its end or to [room] characters; [None] is the end of the download. *)
Fixpoint read_loop (room : nat) (buf : list Z) : P (option (list Z)) :=
  match room with
  | O => mret (Some buf)
  | S room =>
      c ← getc;
      e ← gets do_echo;
      (if (e : bool) then puts [c] else mret tt);;
      if (c =? 13) || (c =? 10) then mret (Some buf)
      else if (c =? 0) || (c =? ETX_CHAR) then mret None
      else
        stop ← (if other_getc then ctrlc else mret false);
        if (stop : bool) then mret None else read_loop room (buf ++ [c])
  end.
Definition read_record : P (option (list Z)) := read_loop SREC_MAXRECLEN [].

(** Fuel: each record takes a byte of the line. *)
Fixpoint srec_loop (fuel : nat) (offset start_addr end_addr : Z) (line_count : Z) : P Z :=
  match fuel with
  | O => out_of_fuel
  | S fuel =>
      rec ← read_record;
      match rec with
      | None => mret aborted
      | Some rec =>
          let r := srec_decode rec 0 0 in
          let go start_addr end_addr :=
            e ← gets do_echo;
            let line_count := if (e : bool) then line_count else line_count + 1 in
            (if negb e && (line_count mod 100 =? 0) then puts (zs ".") else mret tt);;
            srec_loop fuel offset start_addr end_addr line_count in
          if ret r <? 0 then mret aborted
          else if (ret r =? SREC_DATA2) || (ret r =? SREC_DATA3) || (ret r =? SREC_DATA4) then
            let store_addr := u32 (addr r + offset) in
            rc ← store store_addr (data r) (count r);
            if negb (rc =? 0) then perror rc;; mret aborted
            else
              let last := u32 (store_addr + count r - 1) in
              go (if store_addr <? start_addr then store_addr else start_addr) (if end_addr <? last then last else end_addr)
          else if (ret r =? SREC_END2) || (ret r =? SREC_END3) || (ret r =? SREC_END4) then
            udelay 10000;;
            let size := u32 (end_addr - start_addr + 1) in
            print ([10] ++ zs "## First Load Addr = 0x%08lX" ++ [10] ++ zs "## Last  Load Addr = 0x%08lX" ++ [10] ++
              zs "## Total Size      = 0x%08lX = %ld Bytes" ++ [10]) [A_int start_addr; A_int end_addr; A_int size; A_int size];;
            setenv_filesize (zs "%lX") size;;
            mret (addr r)
          else go start_addr end_addr
      end
  end.

Definition load_serial (offset : Z) : P Z := p ← get; srec_loop (S (length (coming p))) offset aborted 0 0.

Definition do_load_serial (argv : list (list Z)) : P Z :=
  p ← get;
  modify (put_echo (match var (env p) (zs "loads_echo") with Some s => deref s =? ch "1" | None => false end));;
  let offset := if (length argv =? 2)%nat then fst (simple_strtol (nth 1 argv []) 16) else 0 in
  puts (zs "## Ready for S-Record download ..." ++ [10]);;
  addr ← load_serial offset;
  gather 100;;
  if addr =? aborted then puts (zs "## S-Record download aborted" ++ [10]);; mret 1
  else
    print (zs "## Start Addr      = 0x%08lX" ++ [10]) [A_int addr];;
    modify (put_load_addr addr);;
    mret 0.

(** ** saves *)

Definition SREC_BYTES_PER_RECORD : Z := 16.

(** Whether to stop. *)
Definition write_record (buf : list Z) : P bool := puts buf;; ctrlc.

Definition hex_of (c : Z) : list Z := [nth (Z.to_nat (Z.land (Z.shiftr c 4) 0x0f)) (zs "0123456789ABCDEF") 0; nth (Z.to_nat (Z.land c 0x0f)) (zs "0123456789ABCDEF") 0].

(** The checksum of a record of [reclen] data bytes whose sum is [sum]. *)
Definition record_checksum (address reclen sum : Z) : Z :=
  let length := 4 + reclen + 1 in
  let sum := sum + Z.land length 0xff + Z.land (Z.shiftr length 8) 0xff in
  let sum := sum + Z.land address 0xff + Z.land (Z.shiftr address 8) 0xff + Z.land (Z.shiftr address 16) 0xff + Z.land (Z.shiftr address 24) 0xff in
  Z.land (Z.lnot sum) 0xff.

Definition data_record (address reclen sum : Z) (hex : list Z) : res (list Z) :=
  printf (zs "S3%02X%08lX%s%02X" ++ [10]) [A_int (4 + reclen + 1); A_int address; A_str (Some hex); A_int (record_checksum address reclen sum)].

(** The bytes of the record so far: their number, their sum and their digits. *)
Fixpoint save_loop (fuel : nat) (address count reclen checksum : Z) (hex : list Z) : P bool :=
  match fuel with
  | O => out_of_fuel
  | S fuel =>
      c ← (if count =? 0 then mret None else c ← on_mem (load8 (u32 (address + reclen))); mret (Some c));
      let '(reclen, checksum, hex, count) :=
        match c with Some c => (reclen + 1, checksum + c, hex ++ hex_of c, count - 1) | None => (reclen, checksum, hex, count) end in
      if (reclen =? SREC_BYTES_PER_RECORD) || (count =? 0) then
        stop ← (if reclen =? 0 then mret false else rec ← lift (data_record address reclen checksum hex); write_record rec);
        if (stop : bool) then mret true
        else if count =? 0 then mret false
        else save_loop fuel (u32 (address + reclen)) count 0 0 []
      else save_loop fuel address count reclen checksum hex
  end.

(** Whether it was aborted. *)
Definition save_serial (address count : Z) : P bool :=
  stop ← write_record (zs "S0030000FC" ++ [10]);
  if (stop : bool) then mret true
  else
    stop ← save_loop (S (Z.to_nat count)) address count 0 0 [];
    if (stop : bool) then mret true else write_record (zs "S70500000000FA" ++ [10]).

Definition do_save_serial (argv : list (list Z)) : P Z :=
  let offset := match argv !! 1%nat with Some a => fst (simple_strtoul a 16) | None => 0 end in
  let size := if (length argv =? 3)%nat then fst (simple_strtoul (nth 2 argv []) 16) else 0 in
  puts (zs "## Ready for S-Record upload, press ENTER to proceed ..." ++ [10]);;
  p ← get;
  wait_for (S (length (coming p))) 13;;
  stop ← save_serial offset size;
  (if (stop : bool) then puts (zs "## S-Record upload aborted" ++ [10]) else puts (zs "## S-Record upload complete" ++ [10]));;
  mret 0.

End Load.

(** ** Proofs *)

Section Load_proofs.
Context {C : Type} `{HB : !NorBus C}.
Context (banks : list flash_info).

Abbreviation state := (port (C := C)).

(** No address of the range is in flash. *)
Definition in_ram (a n : Z) : Prop := forall x, a <= x < a + n -> addr2info banks x = Ok None.

(** The receiver, with the line as it is now. *)
Definition xm_of (p : state) : xyz := set_sent (said p) (set_line (coming p) (xm p)).
Definition put_xm (x : xyz) (p : state) : state :=
  Port (memory p) (dev p) (XyzModem.line x) (XyzModem.sent x) x (ker p) (env p) (do_echo p) (load_addr p) (baudrate p).

Lemma on_xm_ok {A} (f : ST xyz A) (p : state) a x : f (xm_of p) = Ok (a, x) -> on_xm f p = Ok (a, put_xm x p).
Proof. unfold on_xm. fold (xm_of p). by intros ->. Qed.

Lemma xm_of_put x p : xm_of (put_xm x p) = x.
Proof. by destruct x. Qed.

Lemma port_print_ok fmt args t (p : state) : printf fmt args = Ok t -> print fmt args p = Ok (tt, put_said (said p ++ t) p).
Proof. intros E. unfold print. rewrite (bind_ok (lift _) _ p t p) by (by rewrite E). done. Qed.

Lemma setenv_filesize_ok fmt n t (p : state) : printf fmt [A_int n] = Ok t ->
  setenv_filesize fmt n p = Ok (tt, put_env (set_var (env p) (zs "filesize") (Some t)) p).
Proof. intros E. unfold setenv_filesize. rewrite (bind_ok (lift _) _ p t p) by (by rewrite E). done. Qed.

Lemma store_ram a data n (p : state) : addr2info banks a = Ok None -> Forall byte data -> n = Z.of_nat (length data) -> mapped (memory p) a n ->
  store banks a data n p = Ok (0, put_memory (write_bytes (memory p) a data) p).
Proof.
  intros Ha Hb -> Hm. unfold store. rewrite (bind_ok (lift _) _ p None p) by (by rewrite Ha).
  destruct (Z.ltb_spec (Z.of_nat (length data)) 0); [lia|]. rewrite Nat2Z.id, take_ge by done.
  rewrite (bind_ok (on_mem _) _ p tt (put_memory (write_bytes (memory p) a data) p)); [done|]. unfold on_mem. by rewrite store_bytes_ok.
Qed.

(** The texts, whatever the numbers. *)
Lemma size_text n : exists t, printf (zs "## Total Size      = 0x%08x = %d Bytes" ++ [10]) [A_int n; A_int n] = Ok t.
Proof. printf_ok. Qed.
Lemma filesize_text n : exists t, printf (zs "%X") [A_int n] = Ok t.
Proof. printf_ok. Qed.
Lemma start_text a : exists t, printf (zs "## Start Addr      = 0x%08lX" ++ [10]) [A_int a] = Ok t.
Proof. printf_ok. Qed.
Lemma ymodem_text a r : exists t, printf (zs "## Ready for binary (ymodem) download to 0x%08lX at %d bps..." ++ [10]) [A_int a; A_int r] = Ok t.
Proof. printf_ok. Qed.
Lemma kermit_text a r : exists t, printf (zs "## Ready for binary (kermit) download to 0x%08lX at %d bps..." ++ [10]) [A_int a; A_int r] = Ok t.
Proof. printf_ok. Qed.
Lemma modem_text s a b c d : exists t, printf (zs "xyzModem - %s mode, %d(SOH)/%d(STX)/%d(CAN) packets, %d retries" ++ [10]) [A_str s; A_int a; A_int b; A_int c; A_int d] = Ok t.
Proof. printf_ok. Qed.

(** ** loady *)

Lemma ymodem_loop_ok fuel : forall (p : state) R offset size addr, streams (xm_of p) R -> Forall byte R -> (length R < fuel)%nat ->
  0 <= offset + addr -> 0 <= addr -> 0 <= offset -> offset + addr + Z.of_nat (length R) < 2 ^ 32 ->
  in_ram (offset + addr) (Z.of_nat (length R)) -> mapped (memory p) (offset + addr) (Z.of_nat (length R)) ->
  exists x, ymodem_loop banks fuel offset size addr p = Ok (Some (size + Z.of_nat (length R)), put_xm x (put_memory (write_bytes (memory p) (offset + addr) R) p)).
Proof.
  induction fuel as [|fuel IH]; intros p R offset size addr HR HBR Hf H0 Ha Ho Hmax Hram Hm; [lia|]. cbn [ymodem_loop].
  destruct (stream_read_ok (xm_of p) 1024 R HR ltac:(lia)) as (x1 & E1 & HR1). change (Z.to_nat 1024) with 1024%nat in *.
  rewrite (bind_ok _ _ _ _ _ (on_xm_ok _ p _ _ E1)). cbv zeta. destruct R as [|b R'] eqn:ER.
  - rewrite take_nil in *. cbn [length Z.of_nat]. change (0 <=? 0) with true. cbv iota. exists x1. rewrite Z.add_0_r. cbn [write_bytes]. by destruct p.
  - rewrite <- ER in *. clear b R' ER. assert (Hne : (0 < length R)%nat \/ R = []) by (destruct R; cbn; [by right|left; lia]).
    set (b := take 1024 R) in *. set (R1 := drop 1024 R) in *. assert (ER : R = b ++ R1) by (unfold b, R1; by rewrite take_drop).
    pose proof (f_equal length ER) as Lb. rewrite length_app in Lb.
    assert (W : forall m a, write_bytes m a R = write_bytes (write_bytes m a b) (a + Z.of_nat (length b)) R1)
      by (intros m a; transitivity (write_bytes m a (b ++ R1)); [by f_equal|apply write_bytes_app]). 
    assert (HBb : Forall byte b) by (by apply Forall_take). assert (HB1 : Forall byte R1) by (by apply Forall_drop).
    assert (Hnil : b = [] -> R = []) by (unfold b; by destruct R). clearbody b R1.
    destruct (Z.leb_spec (Z.of_nat (length b)) 0) as [Hz|Hz].
    { assert (b = []) as Eb by (destruct b; [done|cbn in Hz; lia]). rewrite (Hnil Eb) in *. exists x1. cbn [length write_bytes]. rewrite Z.add_0_r. by destruct p. }
    set (p1 := put_xm x1 p). assert (Es : u32 (addr + offset) = offset + addr) by (rewrite u32_small; lia). rewrite Es.
    assert (Hmb : mapped (memory p1) (offset + addr) (Z.of_nat (length b))) by (eapply mapped_sub; [exact Hm|lia|lia]).
    rewrite (bind_ok _ _ _ _ _ (store_ram (offset + addr) b _ p1 (Hram (offset + addr) ltac:(lia)) HBb eq_refl Hmb)). cbn [negb Z.eqb].
    set (p2 := put_memory (write_bytes (memory p1) (offset + addr) b) p1). rewrite u32_small by lia.
    destruct (IH p2 R1 offset (size + Z.of_nat (length b)) (addr + Z.of_nat (length b))) as (x & E); try lia.
    + assert (X : xm_of p2 = x1) by (unfold p2; by destruct x1). by rewrite X.
    + done.
    + intros a Hx. apply Hram. lia.
    + cbn [memory p2 put_memory]. rewrite Z.add_assoc. apply mapped_write. eapply mapped_sub; [exact Hm|lia|lia].
    + exists x. rewrite E. rewrite Z.add_assoc in *. replace (size + Z.of_nat (length b) + Z.of_nat (length R1)) with (size + Z.of_nat (length R)) by lia.
      by rewrite W.
Qed.

Lemma drain_ok fuel : forall x, (length (XyzModem.line x) < fuel)%nat -> exists l, drain fuel x = Ok (tt, set_line l x).
Proof.
  induction fuel as [|fuel IH]; intros x Hf; [lia|]. cbn [drain]. destruct (XyzModem.line x) as [|[g b] l] eqn:El.
  - exists []. rewrite (bind_ok XyzModem.tstc _ x false x) by (unfold XyzModem.tstc, gets; by rewrite El). rewrite <- El, set_line_id. done.
  - rewrite (bind_ok XyzModem.tstc _ x (g <=? 0) x) by (unfold XyzModem.tstc, gets; by rewrite El). destruct (g <=? 0); [|exists ((g, b) :: l); by rewrite <- El, set_line_id].
    rewrite (bind_ok XyzModem.getc _ x b (set_line l x)) by (unfold XyzModem.getc; by rewrite El). destruct (IH (set_line l x)) as [l' E']; [cbn in *; lia|]. exists l'. by rewrite E'.
Qed.

Lemma terminate_ok x : exists x', xyzModem_stream_terminate false x = Ok (tt, x').
Proof.
  unfold xyzModem_stream_terminate. rewrite (bind_ok (gets XyzModem.line) _ x (XyzModem.line x) x) by done.
  destruct (drain_ok (S (length (XyzModem.line x))) x ltac:(lia)) as [l E]. rewrite (bind_ok _ _ _ _ _ E). by eexists.
Qed.

Lemma close_ok x : exists x', xyzModem_stream_close x = Ok (tt, x').
Proof.
  unfold xyzModem_stream_close. rewrite (bind_ok get _ x x x) by done. cbv zeta.
  destruct (modem_text (Some (if crc_mode x then zs "CRC" else zs "Cksum")) (total_SOH (XyzModem.count x)) (total_STX (XyzModem.count x)) (total_CAN (XyzModem.count x)) (total_retries (XyzModem.count x))) as [t E].
  rewrite (bind_ok (lift _) _ x t x) by (by rewrite E). by eexists.
Qed.

(** What stays but for the line and the receiver. *)
Definition same_board (p p' : state) : Prop := memory p' = memory p /\ dev p' = dev p /\ do_echo p' = do_echo p /\ baudrate p' = baudrate p.

Lemma ymodem_ok (p : state) file offset : ready (xm_of p) -> XyzModem.transfer (coming p) file -> Forall byte file ->
  0 <= offset -> offset + Z.of_nat (length file) < 2 ^ 32 -> in_ram offset (Z.of_nat (length file)) -> mapped (memory p) offset (Z.of_nat (length file)) ->
  exists p' t, load_serial_ymodem banks offset p = Ok (offset, p') /\ printf (zs "%X") [A_int (Z.of_nat (length file))] = Ok t /\
    same_board (put_memory (write_bytes (memory p) offset file) p) p' /\ env p' = set_var (env p) (zs "filesize") (Some t) /\ load_addr p' = load_addr p.
Proof.
  intros Hr Ht HBf Ho Hmax Hram Hm. unfold load_serial_ymodem.
  destruct (ymodem_opened (xm_of p) file Hr Ht) as (x1 & E1 & S1 & L1). rewrite (bind_ok _ _ _ _ _ (on_xm_ok _ p _ _ E1)).
  set (p1 := put_xm x1 p). rewrite (bind_ok get _ p1 p1 p1) by done. change (0 =? 0) with true. cbv iota.
  destruct (ymodem_loop_ok (length (coming p1) + 1024 + 2) p1 file offset 0 0) as (x2 & E2); try (rewrite ?Z.add_0_r; done || lia).
  { unfold p1. by rewrite xm_of_put. }
  { change (coming p1) with (XyzModem.line x1). lia. }
  rewrite Z.add_0_r in E2. rewrite (bind_ok _ _ _ _ _ E2). cbn [Z.add]. set (p2 := put_xm x2 (put_memory (write_bytes (memory p1) offset file) p1)).
  destruct (close_ok (xm_of p2)) as [x3 E3]. rewrite (bind_ok _ _ _ _ _ (on_xm_ok _ p2 _ _ E3)). set (p3 := put_xm x3 p2).
  destruct (terminate_ok (xm_of p3)) as [x4 E4]. rewrite (bind_ok _ _ _ _ _ (on_xm_ok _ p3 _ _ E4)). set (p4 := put_xm x4 p3).
  destruct (size_text (Z.of_nat (length file))) as [t1 T1]. rewrite (bind_ok _ _ _ _ _ (port_print_ok _ _ _ p4 T1)). set (p5 := put_said (said p4 ++ t1) p4).
  destruct (filesize_text (Z.of_nat (length file))) as [t2 T2]. rewrite (bind_ok _ _ _ _ _ (setenv_filesize_ok _ _ _ p5 T2)).
  eexists _, t2. split; [reflexivity|]. split; [done|]. by repeat split.
Qed.

(** ** loadb *)

Lemma gather_ok n : forall p : state, exists l, gather n p = Ok (tt, put_coming l p).
Proof.
  induction n as [|n IH]; intros p; cbn [gather]; [exists (coming p); by destruct p|].
  assert (H : exists l, ((t ← tstc; if (t : bool) then getc;; mret tt else mret tt) : ST state unit) p = Ok (tt, put_coming l p)).
  { destruct (coming p) as [|[g b] l] eqn:El.
    - exists []. rewrite (bind_ok tstc _ p false p) by (unfold tstc, gets; by rewrite El). rewrite <- El. by destruct p.
    - rewrite (bind_ok tstc _ p (g <=? 0) p) by (unfold tstc, gets; by rewrite El). destruct (g <=? 0).
      + exists l. by rewrite (bind_ok getc _ p b (put_coming l p)) by (unfold getc; by rewrite El).
      + exists ((g, b) :: l). rewrite <- El. by destruct p. }
  destruct H as [l E]. rewrite (bind_ok _ _ _ _ _ E). set (p1 := put_coming l p).
  set (l2 := elapse (1000 / DELAY) l). rewrite (bind_ok (udelay 1000) _ p1 tt (put_coming l2 p1)) by done.
  destruct (IH (put_coming l2 p1)) as [l3 E3]. exists l3. by rewrite E3.
Qed.

(** The Kermit receiver, with the line as it is now. *)
Definition ker_of (p : state) : kermit := with_sent (said p) (with_line (map snd (coming p)) (with_ram (memory p) (ker p))).
Definition put_ker (k : kermit) (p : state) : state :=
  Port (ram k) (dev p) (drop (length (coming p) - length (Kermit.line k)) (coming p)) (Kermit.sent k) (xm p) k (env p) (do_echo p) (load_addr p) (baudrate p).

Lemma on_ker_ok {A} (f : ST kermit A) (p : state) a k : f (ker_of p) = Ok (a, k) -> on_ker f p = Ok (a, put_ker k p).
Proof. unfold on_ker. fold (ker_of p). by intros ->. Qed.

Lemma kermit_ok (p : state) file offset rest : length (send_parms (ker p)) = SEND_DATA_SIZE -> Kermit.transfer (map snd (coming p)) file rest ->
  mapped (memory p) offset (Z.of_nat (length file) + room) -> Z.of_nat (length file) < 2 ^ 31 ->
  exists p' t, load_serial_bin offset p = Ok (offset, p') /\ printf (zs "%X") [A_int (Z.of_nat (length file))] = Ok t /\
    bytes_at (memory p') offset file /\ changed (memory p) (memory p') offset (offset + Z.of_nat (length file) + room) /\
    dev p' = dev p /\ env p' = set_var (env p) (zs "filesize") (Some t) /\ load_addr p' = load_addr p /\ baudrate p' = baudrate p.
Proof.
  intros Hsp Ht Hm Hsz. unfold load_serial_bin.
  assert (E0 : set_kerm_bin_mode offset (ker_of p) = Ok (tt, with_start offset (ker_of p))) by done.
  rewrite (bind_ok _ _ _ _ _ (on_ker_ok _ p _ _ E0)). set (p1 := put_ker _ p).
  assert (Ek : ker_of p1 = with_start offset (ker_of p)).
  { unfold p1, ker_of, put_ker. cbn [coming said memory ker Kermit.line with_start with_sent with_line with_ram ram Kermit.sent]. rewrite length_map, Nat.sub_diag, drop_0. done. }
  destruct (kermit_received (ker_of p) file offset rest Hsp Ht Hm ltac:(lia)) as (k2 & E2 & L2 & B2 & C2).
  rewrite (bind_ok _ _ _ _ _ E0) in E2. rewrite <- Ek in E2. rewrite (bind_ok _ _ _ _ _ (on_ker_ok _ p1 _ _ E2)). set (p2 := put_ker k2 p1).
  destruct (gather_ok 100 p2) as [l G]. rewrite (bind_ok _ _ _ _ _ G). set (p3 := put_coming l p2).
  destruct (size_text (Z.of_nat (length file))) as [t1 T1]. rewrite (bind_ok _ _ _ _ _ (port_print_ok _ _ _ p3 T1)). set (p4 := put_said (said p3 ++ t1) p3).
  destruct (filesize_text (Z.of_nat (length file))) as [t2 T2]. rewrite (bind_ok _ _ _ _ _ (setenv_filesize_ok _ _ _ p4 T2)).
  eexists _, t2. split; [reflexivity|]. split; [done|]. split; [exact B2|]. split; [exact C2|]. done.
Qed.

(** ** The commands *)

Lemma with_baud_same {A} (p : state) (f : ST state A) a p' : f p = Ok (a, p') -> with_baud (baudrate p) f p = Ok (a, p').
Proof.
  intros E. unfold with_baud. rewrite (bind_ok get _ p p p) by done. rewrite Z.eqb_refl. cbn [negb]. rewrite (bind_ok (mret tt) _ p tt p) by done.
  rewrite (bind_ok _ _ _ _ _ E). done.
Qed.

Definition hex_value (a : list Z) : Z := fst (simple_strtoul a 16).

Lemma load_command_ok default name a (p : state) : do_load_serial_bin banks default [name; a] p =
  with_baud (baudrate p)
    (if bool_decide (name = zs "loady") then
       print (zs "## Ready for binary (ymodem) download to 0x%08lX at %d bps..." ++ [10]) [A_int (hex_value a); A_int (baudrate p)];;
       load_serial_ymodem banks (hex_value a);;
       mret 0
     else
       print (zs "## Ready for binary (kermit) download to 0x%08lX at %d bps..." ++ [10]) [A_int (hex_value a); A_int (baudrate p)];;
       addr ← load_serial_bin (hex_value a);
       if addr =? aborted then
         modify (put_load_addr 0);; puts (zs "## Binary (kermit) download aborted" ++ [10]);; mret 1
       else
         print (zs "## Start Addr      = 0x%08lX" ++ [10]) [A_int addr];;
         modify (put_load_addr addr);;
         mret 0) p.
Proof.
  unfold do_load_serial_bin. rewrite (bind_ok get _ p p p) by done. cbv zeta. change (length [name; a] =? 3)%nat with false. cbv iota.
  rewrite (bind_ok (lift _) _ p name p) by done. destruct (baudrate p =? 0); done.
Qed.

(** C10: [loady address] takes a whole Y-modem transfer into memory: the bytes of the file
    lie at the address, nothing else in memory changes, and "filesize" is its length,
    whatever noise, damaged or cut packets, silences, repeated or foreign blocks the
    transfer had, fewer than ten before the first block and twenty between two. *)
Theorem loady_loads_file (p : state) default a file : let offset := hex_value a in
  ready (xm_of p) -> XyzModem.transfer (coming p) file -> Forall byte file ->
  0 <= offset -> offset + Z.of_nat (length file) < 2 ^ 32 -> in_ram offset (Z.of_nat (length file)) -> mapped (memory p) offset (Z.of_nat (length file)) ->
  exists p' t, do_load_serial_bin banks default [zs "loady"; a] p = Ok (0, p') /\ memory p' = write_bytes (memory p) offset file /\ dev p' = dev p /\
    printf (zs "%X") [A_int (Z.of_nat (length file))] = Ok t /\ env p' = set_var (env p) (zs "filesize") (Some t).
Proof.
  intros offset Hr Ht HBf Ho Hmax Hram Hm. destruct (ymodem_text offset (baudrate p)) as [t0 T0]. set (p1 := put_said (said p ++ t0) p).
  destruct (ymodem_ok p1 file offset Hr Ht HBf Ho Hmax Hram Hm) as (p' & t & E & T & (B1 & B2 & _) & B5 & _). exists p', t.
  split; [|done]. rewrite load_command_ok, bool_decide_true by done. apply with_baud_same. fold offset.
  rewrite (bind_ok _ _ _ _ _ (port_print_ok _ _ _ p T0)). fold p1. by rewrite (bind_ok _ _ _ _ _ E).
Qed.

(** C11: [loadb address] takes a whole Kermit transfer into memory, with any packet
    sizes, quoting, noise between packets, packets damaged in their type, data,
    checksum or end, cut off or repeated ones: the bytes of the file lie at the
    address, which becomes the load address, and "filesize" is its length; only the
    room of one packet behind the file may change besides. The start, length and
    sequence number of a packet arrive intact, or at least those of the first try for
    it (later ones may be cut anywhere); where they do not, data can be lost, see
    [damaged_length_loses_data]. *)
Theorem loadb_loads_file (p : state) default a file rest : let offset := hex_value a in
  length (send_parms (ker p)) = SEND_DATA_SIZE -> Kermit.transfer (map snd (coming p)) file rest ->
  offset <> aborted -> mapped (memory p) offset (Z.of_nat (length file) + room) -> Z.of_nat (length file) < 2 ^ 31 ->
  exists p' t, do_load_serial_bin banks default [zs "loadb"; a] p = Ok (0, p') /\ bytes_at (memory p') offset file /\
    changed (memory p) (memory p') offset (offset + Z.of_nat (length file) + room) /\ dev p' = dev p /\ load_addr p' = offset /\
    printf (zs "%X") [A_int (Z.of_nat (length file))] = Ok t /\ env p' = set_var (env p) (zs "filesize") (Some t).
Proof.
  intros offset Hsp Ht Ho Hm Hsz. destruct (kermit_text offset (baudrate p)) as [t0 T0]. set (p1 := put_said (said p ++ t0) p).
  destruct (kermit_ok p1 file offset rest Hsp Ht Hm Hsz) as (p2 & t & E & T & B & Ch & D & Ev & _).
  destruct (start_text offset) as [t1 T1]. set (p3 := put_load_addr offset (put_said (said p2 ++ t1) p2)). exists p3, t. split; [|done].
  rewrite load_command_ok, bool_decide_false by done. apply with_baud_same. fold offset.
  rewrite (bind_ok _ _ _ _ _ (port_print_ok _ _ _ p T0)). fold p1. rewrite (bind_ok _ _ _ _ _ E). destruct (Z.eqb_spec offset aborted); [done|].
  rewrite (bind_ok _ _ _ _ _ (port_print_ok _ _ _ p2 T1)). done.
Qed.

(** ** saves and loads *)

(** [k] hexadecimal digits. *)
Fixpoint hexk (k : nat) (num : Z) : list Z :=
  match k with O => [] | S k => hexk k (num / 16) ++ [hex_digit (num mod 16)] end.

Lemma hexk_length k : forall num, length (hexk k num) = k.
Proof. induction k as [|k IH]; intros num; cbn [hexk]; [done|]. rewrite length_app, IH. cbn. lia. Qed.

Lemma hexk_zero k : hexk k 0 = replicate k (ch "0").
Proof. induction k as [|k IH]; [done|]. cbn [hexk]. change (0 / 16) with 0. rewrite IH. change (hex_digit (0 mod 16)) with (ch "0"). by rewrite <- replicate_S_end. Qed.

Lemma digit_loop_hexk fuel : forall k num, 0 < num < 16 ^ Z.of_nat k -> (k <= fuel)%nat ->
  let ds := digit_loop fuel num 15 4 0 in (length ds <= k)%nat /\ replicate (k - length ds) (ch "0") ++ rev ds = hexk k num.
Proof.
  induction fuel as [|fuel IH]; intros k num Hn Hk ds.
  { assert (k = 0)%nat as -> by lia. change (16 ^ Z.of_nat 0) with 1 in Hn. lia. }
  destruct k as [|k]; [change (16 ^ Z.of_nat 0) with 1 in Hn; lia|]. rewrite Nat2Z.inj_succ, Z.pow_succ_r in Hn by lia.
  unfold ds. cbn [digit_loop hexk].
  assert (Eu : Z.land (u8 num) 15 = num mod 16).
  { change 15 with (Z.ones 4). rewrite Z.land_ones by lia. unfold u8. change (2 ^ 4) with 16. zmod. }
  rewrite Eu, Z.lor_0_r. change (nth (Z.to_nat (num mod 16)) digits 0) with (hex_digit (num mod 16)).
  rewrite Z.shiftr_div_pow2 by lia. change (2 ^ 4) with 16. destruct (Z.eqb_spec (num / 16) 0) as [Ez|Ez]; cbn [negb].
  - cbn [length rev app]. rewrite Ez, hexk_zero. split; [lia|]. by replace (S k - 1)%nat with k by lia.
  - destruct (IH k (num / 16)) as [L E]; [split; [zmod|apply Z.div_lt_upper_bound; lia]|lia|]. cbn [length rev]. split; [lia|].
    rewrite app_assoc. cbn [Nat.sub]. by rewrite E.
Qed.

Lemma number_padded k num : 0 <= num < 16 ^ Z.of_nat k -> (1 <= k <= 16)%nat -> number num 16 (Z.of_nat k) (-1) ZEROPAD = hexk k num.
Proof.
  intros Hn Hk. unfold number. cbv zeta. change (has ZEROPAD LEFT) with false. cbv iota. change (has ZEROPAD SPECIAL) with false. change (has ZEROPAD LEFT) with false. change (has ZEROPAD SIGN) with false. cbn [andb negb].
  change (16 =? 10) with false. change (16 =? 16) with true. cbn [negb]. change (has ZEROPAD ZEROPAD) with true. change (has ZEROPAD (ZEROPAD + LEFT)) with true. change (Z.land ZEROPAD SMALL) with 0. change (16 - 1) with 15. cbv iota. cbn [negb].
  set (tmp := if num =? 0 then [ch "0"] else digit_loop 22 num 15 4 0).
  assert (H : (length tmp <= k)%nat /\ replicate (k - length tmp) (ch "0") ++ rev tmp = hexk k num).
  { unfold tmp. destruct (Z.eqb_spec num 0) as [->|].
    - cbn [length rev app]. split; [lia|]. rewrite hexk_zero. replace k with (S (k - 1)) at 2 by lia. by rewrite replicate_S_end.
    - apply digit_loop_hexk; lia. }
  destruct H as [Hl H]. clearbody tmp. destruct (Z.ltb_spec (-1) (Z.of_nat (length tmp))); [|lia]. unfold pad_loop. cbn [app].
  replace (Z.to_nat (Z.of_nat (length tmp) - Z.of_nat (length tmp))) with 0%nat by lia. cbn [replicate app].
  replace (Z.to_nat (Z.min (Z.of_nat k - Z.of_nat (length tmp)) 0 - 1)) with 0%nat by lia. cbn [replicate].
  rewrite app_nil_r. replace (Z.to_nat (Z.of_nat k - Z.of_nat (length tmp))) with (k - length tmp)%nat by lia. exact H.
Qed.

Lemma hexk_pair b : byte b -> hexk 2 b = hex_pair b.
Proof. intros Hb. unfold byte in Hb. cbn [hexk app]. unfold hex_pair. by replace (b / 16 mod 16) with (b / 16) by zmod. Qed.

(** The bytes of an address, most significant first. *)
Definition be4 (a : Z) : list Z := [a / 16777216; a / 65536 mod 256; a / 256 mod 256; a mod 256].

Lemma be4_bytes a : 0 <= a < 2 ^ 32 -> Forall byte (be4 a).
Proof. intros Ha. unfold be4. repeat (apply Forall_cons; split); [..|by apply Forall_nil]; unfold byte; zmod. Qed.

Lemma be4_value a : 0 <= a < 2 ^ 32 -> be_value (be4 a) = a.
Proof. intros Ha. unfold be_value, be4. cbn [fold_left]. zmod. Qed.

Lemma hexk_address a : 0 <= a < 2 ^ 32 -> hexk 8 a = hex_bytes (be4 a).
Proof.
  intros Ha. unfold hex_bytes, be4, hex_pair. cbn [hexk flat_map app].
  repeat match goal with |- _ :: _ = _ :: _ => apply f_equal2; [apply f_equal; zmod|] end. done.
Qed.

Lemma record_text a n h c : printf (zs "S3%02X%08lX%s%02X" ++ [10]) [A_int n; A_int a; A_str (Some h); A_int c] =
  Ok ((((([83; 51] ++ number (u32 n) 16 2 (-1) 1) ++ number (u32 a) 16 8 (-1) 1) ++ string (Some h) (-1) (-1) 0) ++ number (u32 c) 16 2 (-1) 1) ++ [10]).
Proof. lazy -[number string u32 u64 s32]. reflexivity. Qed.

Lemma hex_of_pair b : byte b -> hex_of b = hex_pair b.
Proof.
  intros Hb. unfold byte in Hb. unfold hex_of, hex_pair, hex_digit. change 0x0f with (Z.ones 4). rewrite !Z.land_ones, Z.shiftr_div_pow2 by lia.
  change (2 ^ 4) with 16. by replace (b / 16 mod 16) with (b / 16) by zmod.
Qed.

Lemma complement_mod x : (- x - 1) mod 256 = 255 - x mod 256.
Proof. zmod. Qed.

Lemma record_checksum_ok a l : 0 <= a < 2 ^ 32 -> (length l <= 16)%nat -> record_checksum a (Z.of_nat (length l)) (sum l) = srec_checksum (be4 a) l.
Proof.
  intros Ha Hn. unfold record_checksum, srec_checksum. rewrite !land_ff, !Z.shiftr_div_pow2 by lia. change (2 ^ 8) with 256. change (2 ^ 16) with 65536. change (2 ^ 24) with 16777216.
  change (length (be4 a)) with 4%nat. set (n := Z.of_nat (length l)). assert (Hn' : 0 <= n <= 16) by lia.
  replace ((4 + n + 1) mod 256) with (4 + n + 1) by zmod. replace ((4 + n + 1) / 256 mod 256) with 0 by zmod. replace (a / 16777216 mod 256) with (a / 16777216) by zmod.
  replace (Z.lnot _) with (- (Z.of_nat 4 + n + 1 + sum (be4 a) + sum l) - 1) by (unfold Z.lnot, be4; cbn [sum fold_right]; fold (sum l); lia). apply complement_mod.
Qed.

Lemma hex_bytes_length l : length (hex_bytes l) = (2 * length l)%nat.
Proof. induction l as [|b l IH]; [done|]. unfold hex_bytes in *. cbn [flat_map]. rewrite length_app, IH. cbn. lia. Qed.

(** The record of some bytes, as the format describes it. *)
Definition record_line (a : Z) (l : list Z) : list Z := srec_line (ch "3") (be4 a) l (srec_checksum (be4 a) l).

Lemma data_record_ok a l : 0 <= a < 2 ^ 32 -> Forall byte l -> (length l <= 16)%nat ->
  data_record a (Z.of_nat (length l)) (sum l) (hex_bytes l) = Ok (record_line a l ++ [10]).
Proof.
  intros Ha Hl Hn. unfold data_record. rewrite record_text, record_checksum_ok by done. set (c := srec_checksum (be4 a) l).
  assert (Hc : byte c) by (unfold c, srec_checksum, byte; zmod). pose proof Hc as Hc'. unfold byte in Hc'. rewrite !u32_small by lia.
  set (n := 4 + Z.of_nat (length l) + 1). assert (Hb : byte n) by (unfold byte, n; lia). pose proof Hb as Hb'. unfold byte in Hb'.
  change 1 with ZEROPAD.
  pose proof (number_padded 2 n ltac:(change (16 ^ Z.of_nat 2) with 256; lia) ltac:(lia)) as P1. pose proof (number_padded 2 c ltac:(change (16 ^ Z.of_nat 2) with 256; lia) ltac:(lia)) as P2.
  pose proof (number_padded 8 a ltac:(change (16 ^ Z.of_nat 8) with (2 ^ 32); lia) ltac:(lia)) as P3.
  assert (Hs : Z.of_nat (length (hex_bytes l)) < 4294967295) by (rewrite hex_bytes_length; lia).
  change (Z.of_nat 2) with 2 in *. change (Z.of_nat 8) with 8 in *. rewrite P1, P2, P3, hexk_pair, hexk_pair, hexk_address, string_plain by done.
  unfold record_line, srec_line. fold c. change (length (be4 a)) with 4%nat. replace (Z.of_nat 4 + Z.of_nat (length l) + 1) with n by done.
  change (hex_bytes [n]) with (hex_pair n). f_equal.
Qed.

(** The records of a row of bytes, sixteen in each but the last. *)
Fixpoint records (fuel : nat) (a : Z) (l : list Z) : list (Z * list Z) :=
  match fuel with O => [] | S fuel => match l with [] => [] | _ => (a, take 16 l) :: records fuel (a + 16) (drop 16 l) end end.
Definition text_of (rs : list (Z * list Z)) : list Z := concat (map (fun r => record_line (fst r) (snd r) ++ [10]) rs).

Lemma records_more fuel1 : forall fuel2 a l, (length l <= fuel1)%nat -> (length l <= fuel2)%nat -> records fuel1 a l = records fuel2 a l.
Proof.
  induction fuel1 as [|f1 IH]; intros [|f2] a l H1 H2; destruct l as [|b l]; try done; try (cbn in *; lia).
  cbn [records]. f_equal. apply IH; rewrite length_drop; cbn in *; lia.
Qed.

Lemma write_record_ok s (p : state) : coming p = [] -> write_record s p = Ok (false, put_said (said p ++ s) p).
Proof.
  intros E. unfold write_record. set (p1 := put_said (said p ++ s) p). rewrite (bind_ok (puts s) _ p tt p1) by done.
  unfold ctrlc. rewrite (bind_ok tstc _ p1 false p1); [done|]. unfold tstc, gets. change (coming p1) with (coming p). by rewrite E.
Qed.

Lemma hex_bytes_snoc l b : hex_bytes (l ++ [b]) = hex_bytes l ++ hex_pair b.
Proof. unfold hex_bytes. rewrite flat_map_app. cbn. done. Qed.
Lemma sum_snoc l b : sum (l ++ [b]) = sum l + b.
Proof. unfold sum. rewrite fold_right_app. cbn. induction l; cbn in *; lia. Qed.

Lemma records_saved_ok fuel : forall (p : state) a l1 l2, coming p = [] -> bytes_at (memory p) (a + Z.of_nat (length l1)) l2 -> l2 <> [] -> Forall byte l1 ->
  (length l1 < 16)%nat -> 0 <= a -> a + Z.of_nat (length l1 + length l2) < 2 ^ 32 -> (length l2 < fuel)%nat ->
  save_loop fuel a (Z.of_nat (length l2)) (Z.of_nat (length l1)) (sum l1) (hex_bytes l1) p =
    Ok (false, put_said (said p ++ text_of (records (length (l1 ++ l2)) a (l1 ++ l2))) p).
Proof.
  induction fuel as [|fuel IH]; intros p a l1 l2 Hc Hb Hne H1 Hl1 Ha Hmax Hf; [lia|]. destruct l2 as [|b l2]; [done|]. cbn [save_loop bytes_at length] in *. destruct Hb as [[Hb Hby] Hb2].
  destruct (Z.eqb_spec (Z.of_nat (S (length l2))) 0); [lia|].
  rewrite (bind_ok _ _ p (Some b) p).
  2:{ rewrite u32_small by lia. rewrite (bind_ok (on_mem _) _ p b p); [done|]. unfold on_mem. rewrite (load8_ok _ _ _ Hb). by destruct p. }
  replace (Z.of_nat (S (length l2)) - 1) with (Z.of_nat (length l2)) by lia. replace (Z.of_nat (length l1) + 1) with (Z.of_nat (length (l1 ++ [b]))) by (rewrite length_app; cbn; lia).
  rewrite hex_of_pair, <- hex_bytes_snoc, <- sum_snoc by done. assert (El : l1 ++ b :: l2 = (l1 ++ [b]) ++ l2) by (by rewrite <- app_assoc). rewrite El.
  assert (Hl : Forall byte (l1 ++ [b])) by (apply Forall_app; split; [done|by constructor]).
  assert (Len : length (l1 ++ [b]) = S (length l1)) by (rewrite length_app; cbn; lia). set (l := l1 ++ [b]) in *. clearbody l. clear El.
  destruct (((Z.of_nat (length l) =? SREC_BYTES_PER_RECORD) || (Z.of_nat (length l2) =? 0))) eqn:Ed; unfold SREC_BYTES_PER_RECORD in Ed.
  - destruct (Z.eqb_spec (Z.of_nat (length l)) 0); [lia|].
    set (p1 := put_said (said p ++ record_line a l ++ [10]) p).
    rewrite (bind_ok _ _ p false p1).
    2:{ rewrite (bind_ok (lift _) _ p (record_line a l ++ [10]) p) by (rewrite data_record_ok by (done || lia); done). by apply write_record_ok. }
    destruct (Z.eqb_spec (Z.of_nat (length l2)) 0) as [Hz|Hz].
    + assert (l2 = []) as -> by (destruct l2; [done|cbn in Hz; lia]). rewrite app_nil_r, Len. destruct l as [|x l]; [done|]. cbn [records]. rewrite take_ge, drop_ge by lia.
      unfold text_of. destruct (length l1); cbn [records map concat fst snd]; rewrite ?app_nil_r; done.
    + assert (E16 : length l = 16%nat) by (destruct (Z.eqb_spec (Z.of_nat (length l)) 16); [lia|done]).
      assert (Ea : u32 (a + Z.of_nat (length l)) = a + 16) by (rewrite u32_small by lia; lia). rewrite Ea.
      assert (Hb3 : bytes_at (memory p1) (a + 16 + Z.of_nat (length (@nil Z))) l2) by (cbn [length]; replace (a + 16 + Z.of_nat 0) with (a + Z.of_nat (length l1) + 1) by lia; exact Hb2).
      pose proof (IH p1 (a + 16) [] l2 Hc Hb3) as IH'. change (Z.of_nat (length (@nil Z))) with 0 in IH'. change (sum []) with 0 in IH'. change (hex_bytes []) with (@nil Z) in IH'. cbn [length app plus] in IH'. rewrite IH'; [|destruct l2; [done|done]|constructor|lia|lia|lia|lia].
      rewrite length_app, E16. change (16 + length l2)%nat with (S (15 + length l2)). destruct l as [|x l]; [done|]. cbn [app records]. change (x :: l ++ l2) with ((x :: l) ++ l2). 
      assert (T : take 16 ((x :: l) ++ l2) = x :: l) by (by apply take_app_length'). assert (D : drop 16 ((x :: l) ++ l2) = l2) by (by apply drop_app_length'). rewrite T, D.
      unfold text_of. cbn [map concat fst snd]. unfold p1. cbn [said put_said]. rewrite (records_more (15 + length l2) (length l2)) by lia. by rewrite <- app_assoc.
  - apply orb_false_iff in Ed as [E1 E2]. apply Z.eqb_neq in E1, E2. rewrite IH; try done; try lia.
    + rewrite Len. by replace (a + Z.of_nat (S (length l1))) with (a + Z.of_nat (length l1) + 1) by lia.
    + destruct l2; done.
Qed.

(** A character that stands in a record. *)
Definition plain (c : Z) : Prop := c <> 13 /\ c <> 10 /\ c <> 0 /\ c <> ETX_CHAR.

(** The board when records have been read: the line and what was echoed are another. *)
Definition after_line (p : state) (l : list (Z * Z)) (s : list Z) : state := put_said s (put_coming l p).

(** After a character has been read no other one waits: the sender pauses before each one,
    or the console does not look. *)
Definition quiet (other : bool) (l : list (Z * Z)) : Prop := other = true -> Forall (fun x => 0 < x.1) l.

(** What comes is [inp], so that no character is lost. *)
Definition arrives (other : bool) (l : list (Z * Z)) (inp : list Z) : Prop := map snd l = inp /\ quiet other l.

Lemma quiet_tail other x l : quiet other (x :: l) -> quiet other l.
Proof. intros H E. by apply H, Forall_cons in E as [_ E]. Qed.

Lemma stop_ok (other : bool) (p : state) : quiet other (coming p) ->
  (if other then ctrlc else mret false : ST state bool) p = Ok (false, p).
Proof.
  intros Hq. destruct other; [|done]. specialize (Hq eq_refl). unfold ctrlc. rewrite (bind_ok tstc _ p false p); [done|].
  unfold tstc, gets. destruct Hq as [|[g b] l Hg]; [done|]. cbn in Hg. by destruct (Z.leb_spec g 0); [lia|].
Qed.

Lemma record_read_ok o rec : forall room (p : state) buf inp, Forall plain rec -> arrives o (coming p) (rec ++ 10 :: inp) -> (length rec < room)%nat ->
  exists l s, read_loop o room buf p = Ok (Some (buf ++ rec), after_line p l s) /\ arrives o l inp.
Proof.
  induction rec as [|c rec IH]; intros room p buf inp Hp [E Hq] Hr; (destruct room as [|room]; [lia|]); cbn [read_loop app length] in *;
    destruct (coming p) as [|[g b] l] eqn:El; [done| |done|]; injection E as E0 E; subst b; apply quiet_tail in Hq.
  - set (p1 := put_coming l p). rewrite (bind_ok getc _ p 10 p1) by (unfold getc; by rewrite El). rewrite (bind_ok (gets do_echo) _ p1 (do_echo p1) p1) by done.
    rewrite app_nil_r. destruct (do_echo p1).
    + rewrite (bind_ok (puts [10]) _ p1 tt (put_said (said p1 ++ [10]) p1)) by done. exists l. eexists. split; [done|by split].
    + rewrite (bind_ok (mret tt) _ p1 tt p1) by done. exists l, (said p). split; [by destruct p|by split].
  - apply Forall_cons in Hp as [(N1 & N2 & N3 & N4) Hp]. set (p1 := put_coming l p). rewrite (bind_ok getc _ p c p1) by (unfold getc; by rewrite El).
    rewrite (bind_ok (gets do_echo) _ p1 (do_echo p1) p1) by done.
    assert (next : forall p2, coming p2 = l -> (exists s, p2 = put_said s p1) ->
      exists l' s, (if (c =? 13) || (c =? 10) then mret (Some buf) else if (c =? 0) || (c =? ETX_CHAR) then mret None
        else stop ← (if o then ctrlc else mret false); if (stop : bool) then mret None else read_loop o room (buf ++ [c])) p2 = Ok (Some (buf ++ c :: rec), after_line p l' s) /\ arrives o l' inp).
    { intros p2 L2 [s ->]. destruct (Z.eqb_spec c 13), (Z.eqb_spec c 10), (Z.eqb_spec c 0), (Z.eqb_spec c ETX_CHAR); try done. cbn [orb].
      rewrite (bind_ok _ _ (put_said s p1) false (put_said s p1)) by (apply stop_ok; by rewrite L2).
      destruct (IH room (put_said s p1) (buf ++ [c]) inp Hp) as (l' & s' & -> & L'); [by rewrite L2; split|lia|]. exists l', s'. rewrite <- app_assoc. by destruct p. }
    destruct (do_echo p1).
    + rewrite (bind_ok (puts [c]) _ p1 tt (put_said (said p1 ++ [c]) p1)) by done. apply next; [done|by eexists].
    + rewrite (bind_ok (mret tt) _ p1 tt p1) by done. apply next; [done|]. exists (said p). by destruct p.
Qed.

Lemma hex_pair_plain b : byte b -> Forall plain (hex_pair b).
Proof.
  intros Hb. pose proof (byte_forall (fun b => forallb (fun c => negb (c =? 13) && negb (c =? 10) && negb (c =? 0) && negb (c =? ETX_CHAR)) (hex_pair b)) ltac:(by vm_compute) b Hb) as H. cbn beta in H.
  apply Forall_forall. intros c Hc. rewrite forallb_forall in H. apply list_elem_of_In, H in Hc. unfold plain. destruct (Z.eqb_spec c 13), (Z.eqb_spec c 10), (Z.eqb_spec c 0), (Z.eqb_spec c ETX_CHAR); done.
Qed.

Lemma hex_bytes_plain l : Forall byte l -> Forall plain (hex_bytes l).
Proof. induction 1 as [|b l Hb Hl IH]; [constructor|]. unfold hex_bytes in *. cbn [flat_map]. apply Forall_app. split; [by apply hex_pair_plain|done]. Qed.

Lemma record_line_plain a l : 0 <= a < 2 ^ 32 -> Forall byte l -> (length l <= 16)%nat -> Forall plain (record_line a l) /\ (length (record_line a l) < SREC_MAXRECLEN)%nat.
Proof.
  intros Ha Hl Hn. unfold record_line, srec_line. change (length (be4 a)) with 4%nat.
  assert (Hc : byte (srec_checksum (be4 a) l)) by (unfold srec_checksum, byte; zmod). split.
  - do 2 (apply Forall_cons; split; [done|]). apply Forall_app; split; [apply hex_bytes_plain, Forall_singleton; unfold byte; lia|].
    apply Forall_app; split; [by apply hex_bytes_plain, be4_bytes|]. apply Forall_app; split; [by apply hex_bytes_plain|by apply hex_pair_plain].
  - cbn [length]. rewrite !length_app, !hex_bytes_length. change (length (be4 a)) with 4%nat. unfold SREC_MAXRECLEN. cbn. lia.
Qed.

(** The dots. *)
Lemma dots_ok {A} n (k : Z -> ST state A) (p : state) : exists s m, (e ← gets do_echo; let m := if (e : bool) then n else n + 1 in
    (if negb e && (m mod 100 =? 0) then puts (zs ".") else mret tt);; k m) p = k m (put_said s p).
Proof.
  rewrite (bind_ok (gets do_echo) _ p (do_echo p) p) by done. cbv zeta. set (m := if do_echo p then n else n + 1). destruct (negb (do_echo p) && (m mod 100 =? 0)).
  - eexists (said p ++ zs "."), m. by rewrite (bind_ok (puts _) _ p tt (put_said (said p ++ zs ".") p)) by done.
  - exists (said p), m. rewrite (bind_ok (mret tt) _ p tt p) by done. by destruct p.
Qed.

(** A data record is stored. *)
Lemma srec_loop_data o fuel a d (p : state) s e n inp : 0 <= a -> a + Z.of_nat (length d) <= 2 ^ 32 -> d <> [] -> Forall byte d -> (length d <= 16)%nat ->
  arrives o (coming p) (record_line a d ++ 10 :: inp) -> addr2info banks a = Ok None -> mapped (memory p) a (Z.of_nat (length d)) ->
  exists l t m, srec_loop banks o (S fuel) 0 s e n p =
    srec_loop banks o fuel 0 (if a <? s then a else s) (if e <? a + Z.of_nat (length d) - 1 then a + Z.of_nat (length d) - 1 else e) m
      (put_memory (write_bytes (memory p) a d) (after_line p l t)) /\ arrives o l inp.
Proof.
  intros Ha Hmax Hne Hd Hn E Hf Hm. assert (0 < length d)%nat by (destruct d; [done|cbn; lia]). assert (Ha' : 0 <= a < 2 ^ 32) by lia.
  destruct (record_line_plain a d Ha' Hd Hn) as [Hp Hlen]. cbn [srec_loop].
  destruct (record_read_ok o (record_line a d) SREC_MAXRECLEN p [] inp Hp E Hlen) as (l & t & E1 & L1). unfold read_record. rewrite (bind_ok _ _ _ _ _ E1). cbn [app].
  assert (Hc : byte (srec_checksum (be4 a) d)) by (unfold srec_checksum, byte; zmod).
  pose proof (srec_decode_line [] (ch "3") (be4 a) d (srec_checksum (be4 a) d) [] SREC_DATA4 0 0 ltac:(apply not_elem_of_nil) ltac:(by right; right) (be4_bytes a Ha') Hd Hc ltac:(change (length (be4 a)) with 4%nat; lia)) as D.
  rewrite Z.eqb_refl, be4_value, app_nil_r in D by done. cbn [app] in D. fold (record_line a d) in D. cbv zeta. rewrite D. cbn [ret count addr data].
  change (SREC_DATA4 <? 0) with false. change ((SREC_DATA4 =? SREC_DATA2) || (SREC_DATA4 =? SREC_DATA3) || (SREC_DATA4 =? SREC_DATA4)) with true. cbv iota.
  rewrite Z.add_0_r, u32_small by lia. set (p1 := after_line p l t).
  rewrite (bind_ok _ _ _ _ _ (store_ram a d _ p1 Hf Hd eq_refl Hm)). change (negb (0 =? 0)) with false. cbv iota.
  set (p2 := put_memory (write_bytes (memory p1) a d) p1). rewrite u32_small by lia.
  destruct (dots_ok n (fun m => srec_loop banks o fuel 0 (if a <? s then a else s) (if e <? a + Z.of_nat (length d) - 1 then a + Z.of_nat (length d) - 1 else e) m) p2) as (t2 & m & Ed).
  exists l, t2, m. split; [|done]. etrans; [exact Ed|]. done.
Qed.

(** The first and the last address so far: of a row from [a0] up to [a], or none. *)
Definition seen (a0 a s e : Z) : Prop := s = a0 /\ e = a - 1 /\ a0 <= a \/ a = a0 /\ s = aborted /\ e = 0.

Lemma seen_next a0 a s e n : seen a0 a s e -> 0 < n -> 0 <= a0 -> a + n < 2 ^ 32 ->
  (if a <? s then a else s) = a0 /\ (if e <? a + n - 1 then a + n - 1 else e) = a + n - 1.
Proof.
  intros [(-> & -> & H)|(-> & -> & ->)] Hn H0 Hm; unfold aborted in *.
  - destruct (Z.ltb_spec a a0); [lia|]. split; [done|]. destruct (Z.ltb_spec (a - 1) (a + n - 1)); lia.
  - destruct (Z.ltb_spec a0 0xffffffff); [|lia]. split; [done|]. destruct (Z.ltb_spec 0 (a0 + n - 1)); lia.
Qed.

(** Every record of a row. *)
Lemma srec_loop_records o k : forall fuel (p : state) a l a0 s e n inp, (length l <= k)%nat -> (k < fuel)%nat -> Forall byte l -> 0 <= a0 -> 0 <= a -> a + Z.of_nat (length l) < 2 ^ 32 ->
  seen a0 a s e -> arrives o (coming p) (text_of (records k a l) ++ inp) -> in_ram a (Z.of_nat (length l)) -> mapped (memory p) a (Z.of_nat (length l)) ->
  exists fuel' s' e' m l' t, srec_loop banks o fuel 0 s e n p = srec_loop banks o fuel' 0 s' e' m (put_memory (write_bytes (memory p) a l) (after_line p l' t)) /\
    arrives o l' inp /\ seen a0 (a + Z.of_nat (length l)) s' e' /\ (fuel <= fuel' + k)%nat /\ (l <> [] -> s' = a0 /\ e' = a + Z.of_nat (length l) - 1).
Proof.
  induction k as [|k IH]; intros fuel p a l a0 s e n inp Hl Hf Hb H0 Ha Hmax Hs E Hram Hm.
  - assert (l = []) as -> by (destruct l; [done|cbn in Hl; lia]). cbn [length write_bytes records text_of map concat app] in *. rewrite Z.add_0_r.
    exists fuel, s, e, n, (coming p), (said p). split; [by destruct p|]. split; [done|]. split; [done|]. split; [lia|done].
  - destruct l as [|b l0] eqn:El.
    { cbn [length write_bytes records text_of map concat app] in *. rewrite Z.add_0_r. exists fuel, s, e, n, (coming p), (said p). split; [by destruct p|]. split; [done|]. split; [done|]. split; [lia|done]. }
    rewrite <- El in *. assert (Hne : l <> []) by (by rewrite El). assert (Er : records (S k) a l = (a, take 16 l) :: records k (a + 16) (drop 16 l)) by (by rewrite El).
    clear b l0 El. rewrite Er in E. unfold text_of in E. cbn [map concat fst snd] in E. rewrite <- !app_assoc in E. cbn [app] in E. fold (text_of (records k (a + 16) (drop 16 l))) in E.
    set (d := take 16 l) in *. set (r := drop 16 l) in *. assert (Edr : l = d ++ r) by (unfold d, r; by rewrite take_drop).
    assert (Hd16 : (length d <= 16)%nat) by (unfold d; rewrite length_take; lia). assert (Hdr : d <> []) by (unfold d; by destruct l).
    assert (Hr : r = [] \/ length d = 16%nat) by (unfold r, d; destruct (Nat.le_ge_cases (length l) 16); [left; by apply drop_ge|right; rewrite length_take; lia]).
    assert (Hbd : Forall byte d) by (by apply Forall_take). assert (Hbr : Forall byte r) by (by apply Forall_drop). clearbody d r. subst l.
    rewrite length_app in *. assert (0 < length d)%nat by (destruct d; [done|cbn; lia]).
    destruct fuel as [|fuel]; [lia|].
    destruct (srec_loop_data o fuel a d p s e n (text_of (records k (a + 16) r) ++ inp) Ha ltac:(lia) Hdr Hbd Hd16 E (Hram a ltac:(lia)) ltac:(eapply mapped_sub; [exact Hm|lia|lia])) as (l1 & t1 & m1 & -> & L1).
    destruct (seen_next a0 a s e (Z.of_nat (length d)) Hs ltac:(lia) H0 ltac:(lia)) as [-> ->].
    set (p1 := put_memory (write_bytes (memory p) a d) (after_line p l1 t1)).
    assert (Er2 : records k (a + 16) r = records k (a + Z.of_nat (length d)) r) by (destruct Hr as [-> | ->]; [by destruct k|done]). rewrite Er2 in L1.
    destruct (IH fuel p1 (a + Z.of_nat (length d)) r a0 a0 (a + Z.of_nat (length d) - 1) m1 inp) as (f & s' & e' & m & l' & t & -> & L2 & S2 & F2 & Q2); try done; try lia.
    + left. split; [done|]. split; [done|]. destruct Hs as [(_ & _ & ?)|(-> & _)]; lia.
    + intros x Hx. apply Hram. lia.
    + cbn [memory p1 put_memory]. apply mapped_write. eapply mapped_sub; [exact Hm|lia|lia].
    + exists f, s', e', m, l', t. rewrite write_bytes_app. split; [done|]. split; [done|]. rewrite Nat2Z.inj_add, Z.add_assoc. split; [done|]. split; [lia|]. intros _.
      destruct r as [|c r]; [|by apply Q2]. cbn [length Z.of_nat] in *. rewrite Z.add_0_r in *. destruct S2 as [(-> & -> & _)|(Eb & _)]; [done|].
      destruct Hs as [(_ & _ & ?)|(? & _)]; lia.
Qed.

(** The first line of the upload says nothing. *)
Lemma srec_loop_start o fuel (p : state) s e n inp : arrives o (coming p) (zs "S0030000FC" ++ 10 :: inp) ->
  exists l t m, srec_loop banks o (S fuel) 0 s e n p = srec_loop banks o fuel 0 s e m (after_line p l t) /\ arrives o l inp.
Proof.
  intros E. cbn [srec_loop]. destruct (record_read_ok o (zs "S0030000FC") SREC_MAXRECLEN p [] inp) as (l & t & E1 & L1); [by repeat constructor|done|unfold SREC_MAXRECLEN; cbn; lia|].
  unfold read_record. rewrite (bind_ok _ _ _ _ _ E1). cbn [app]. assert (R : ret (srec_decode (zs "S0030000FC") 0 0) = SREC_START) by (by vm_compute).
  cbv zeta. rewrite R. change (SREC_START <? 0) with false. change ((SREC_START =? SREC_DATA2) || (SREC_START =? SREC_DATA3) || (SREC_START =? SREC_DATA4)) with false.
  change ((SREC_START =? SREC_END2) || (SREC_START =? SREC_END3) || (SREC_START =? SREC_END4)) with false. cbv iota.
  destruct (dots_ok n (fun m => srec_loop banks o fuel 0 s e m) (after_line p l t)) as (t2 & m & Ed). exists l, t2, m. split; [exact Ed|done].
Qed.

Lemma loaded_text a b c d : exists t, printf ([10] ++ zs "## First Load Addr = 0x%08lX" ++ [10] ++ zs "## Last  Load Addr = 0x%08lX" ++ [10] ++
  zs "## Total Size      = 0x%08lX = %ld Bytes" ++ [10]) [A_int a; A_int b; A_int c; A_int d] = Ok t.
Proof. printf_ok. Qed.
Lemma lfilesize_text n : exists t, printf (zs "%lX") [A_int n] = Ok t.
Proof. printf_ok. Qed.

(** The last line ends it. *)
Lemma srec_loop_end o fuel (p : state) s e n inp : arrives o (coming p) (zs "S70500000000FA" ++ 10 :: inp) ->
  exists p' t, srec_loop banks o (S fuel) 0 s e n p = Ok (0, p') /\ memory p' = memory p /\ dev p' = dev p /\ map snd (coming p') = inp /\
    printf (zs "%lX") [A_int (u32 (e - s + 1))] = Ok t /\ env p' = set_var (env p) (zs "filesize") (Some t).
Proof.
  intros E. cbn [srec_loop]. destruct (record_read_ok o (zs "S70500000000FA") SREC_MAXRECLEN p [] inp) as (l & t & E1 & L1); [by repeat constructor|done|unfold SREC_MAXRECLEN; cbn; lia|].
  unfold read_record. rewrite (bind_ok _ _ _ _ _ E1). cbn [app]. assert (R : ret (srec_decode (zs "S70500000000FA") 0 0) = SREC_END4) by (by vm_compute).
  assert (A : addr (srec_decode (zs "S70500000000FA") 0 0) = 0) by (by vm_compute). cbv zeta. rewrite R, A.
  change (SREC_END4 <? 0) with false. change ((SREC_END4 =? SREC_DATA2) || (SREC_END4 =? SREC_DATA3) || (SREC_END4 =? SREC_DATA4)) with false.
  change ((SREC_END4 =? SREC_END2) || (SREC_END4 =? SREC_END3) || (SREC_END4 =? SREC_END4)) with true. cbv iota. set (p1 := after_line p l t).
  set (p2 := put_coming (elapse (10000 / DELAY) (coming p1)) p1). rewrite (bind_ok (udelay 10000) _ p1 tt p2) by done.
  destruct (loaded_text s e (u32 (e - s + 1)) (u32 (e - s + 1))) as [t1 T1]. rewrite (bind_ok _ _ _ _ _ (port_print_ok _ _ _ p2 T1)). set (p3 := put_said (said p2 ++ t1) p2).
  destruct (lfilesize_text (u32 (e - s + 1))) as [t2 T2]. rewrite (bind_ok _ _ _ _ _ (setenv_filesize_ok _ _ _ p3 T2)).
  eexists _, t2. split; [reflexivity|]. do 2 (split; [done|]). split; [|done]. cbn. destruct L1 as [<- _]. by destruct l as [|[g b] l].
Qed.

Lemma text_of_length k : forall a l, (length l <= k)%nat -> (length l <= length (text_of (records k a l)))%nat.
Proof.
  induction k as [|k IH]; intros a l Hl; [cbn; lia|]. destruct l as [|b l0] eqn:El; [cbn; lia|]. rewrite <- El in *.
  assert (Er : records (S k) a l = (a, take 16 l) :: records k (a + 16) (drop 16 l)) by (by rewrite El). rewrite Er. unfold text_of. cbn [map concat fst snd].
  rewrite length_app, length_app. fold (text_of (records k (a + 16) (drop 16 l))). assert (0 < length l)%nat by (rewrite El; cbn; lia).
  pose proof (IH (a + 16) (drop 16 l) ltac:(rewrite length_drop; lia)) as H2. rewrite length_drop in H2.
  assert (H1 : (2 * length (take 16 l) <= length (record_line a (take 16 l)))%nat).
  { unfold record_line, srec_line. cbn [length]. rewrite !length_app, !hex_bytes_length. lia. }
  rewrite length_take in H1. lia.
Qed.

(** C12: What [saves] prints for a piece of memory, while nothing is typed, [loads] loads
    back: the same bytes at the same addresses, nothing else changed, and "filesize" is
    their number, with the echo on or off and on every console.  When the console is not
    the plain serial one, [ctrlc] takes what has already come after a character; there
    the sender has to pause before each one ([quiet], see [pasted_record_lost]). *)
Theorem saves_loads_roundtrip (other : bool) (p : state) a l : coming p = [] -> bytes_at (memory p) a l -> l <> [] -> 0 <= a -> a + Z.of_nat (length l) < 2 ^ 32 ->
  exists text, save_serial a (Z.of_nat (length l)) p = Ok (false, put_said (said p ++ text) p) /\
  forall (p2 : state) rest, map snd (coming p2) = text ++ rest -> quiet other (coming p2) -> in_ram a (Z.of_nat (length l)) -> mapped (memory p2) a (Z.of_nat (length l)) ->
  exists p2' t, load_serial banks other 0 p2 = Ok (0, p2') /\ memory p2' = write_bytes (memory p2) a l /\ dev p2' = dev p2 /\ map snd (coming p2') = rest /\
    printf (zs "%lX") [A_int (Z.of_nat (length l))] = Ok t /\ env p2' = set_var (env p2) (zs "filesize") (Some t).
Proof.
  intros Hc Hb Hne Ha Hmax. assert (HBl : Forall byte l) by (by eapply bytes_at_bytes).
  exists ((zs "S0030000FC" ++ [10]) ++ text_of (records (length l) a l) ++ zs "S70500000000FA" ++ [10]). split.
  - unfold save_serial. rewrite (bind_ok _ _ _ _ _ (write_record_ok _ p Hc)). set (p1 := put_said _ p).
    assert (Hb1 : bytes_at (memory p1) (a + Z.of_nat (length (@nil Z))) l) by (cbn [length]; by rewrite Z.add_0_r).
    pose proof (records_saved_ok (S (Z.to_nat (Z.of_nat (length l)))) p1 a [] l Hc Hb1 Hne ltac:(constructor) ltac:(cbn; lia) Ha ltac:(cbn [length plus]; lia) ltac:(lia)) as E.
    change (Z.of_nat (length (@nil Z))) with 0 in E. change (sum []) with 0 in E. change (hex_bytes []) with (@nil Z) in E. cbn [app] in E.
    rewrite (bind_ok _ _ _ _ _ E). set (p2 := put_said _ p1). rewrite (write_record_ok _ p2 Hc). unfold p2, p1. cbn [said put_said]. by rewrite <- !app_assoc.
  - intros p2 rest E Hq Hram Hm. unfold load_serial. rewrite (bind_ok get _ p2 p2 p2) by done. rewrite <- !app_assoc in E. cbn [app] in E.
    assert (Lc : (length l + 2 < length (coming p2))%nat).
    { rewrite <- (length_map snd), E. pose proof (text_of_length (length l) a l ltac:(lia)). rewrite length_app. cbn [length]. rewrite length_app. cbn. lia. }
    destruct (srec_loop_start other (length (coming p2)) p2 aborted 0 0 _ (conj E Hq)) as (l1 & t1 & m1 & -> & L1).
    destruct (srec_loop_records other (length l) (length (coming p2)) (after_line p2 l1 t1) a l a aborted 0 m1 _ ltac:(lia) ltac:(lia) HBl Ha Ha Hmax ltac:(by right) L1 Hram Hm)
      as (f & s' & e' & m & l' & t & -> & L2 & S2 & F2 & Q2).
    destruct (Q2 Hne) as [-> ->]. destruct f as [|f]; [lia|].
    destruct (srec_loop_end other f (put_memory (write_bytes (memory (after_line p2 l1 t1)) a l) (after_line (after_line p2 l1 t1) l' t)) a (a + Z.of_nat (length l) - 1) m rest L2)
      as (p' & tt' & -> & M1 & D1 & C1 & T1 & V1).
    exists p', tt'. split; [done|]. split; [done|]. split; [done|]. split; [done|]. split; [|done].
    replace (Z.of_nat (length l)) with (u32 (a + Z.of_nat (length l) - 1 - a + 1)) by (rewrite u32_small by lia; lia). exact T1.
Qed.

End Load_proofs.

(** ** Examples *)

Definition no_kermit : kermit := Kermit ∅ [] [] 0 0 0 0 0 0 0 false false (repeat 0 SEND_DATA_SIZE) 0.
Definition sample_port (m : mem) (l : list (Z * Z)) : port := Port m bench_hw l [] (start []) no_kermit (Environ [] 0) true 0 115200.
Definition zeros (n : Z) : mem := write_bytes ∅ 0x40 (repeat 0 (Z.to_nat n)).

Lemma zeros_mapped n k : 0 <= k -> 0x40 <= k -> k + n <= 0x40 + 10000 -> mapped (zeros 10000) k n.
Proof.
  intros H0 H1 H2. eapply mapped_sub; [apply bytes_at_mapped, write_bytes_at, Forall_forall|exact H1|by rewrite repeat_length].
  intros b Hb. apply list_elem_of_In, repeat_spec in Hb as ->. by unfold byte.
Qed.

Lemma loady_loads_file_witness : exists p' t, do_load_serial_bin [] 0 [zs "loady"; zs "40"] (sample_port (mem_of 0x40 [1; 2; 3; 4]) (hi_line 230000)) = Ok (0, p') /\
  memory p' = write_bytes (mem_of 0x40 [1; 2; 3; 4]) 0x40 (zs "hi!") /\ dev p' = bench_hw /\
  printf (zs "%X") [A_int 3] = Ok t /\ env p' = set_var (Environ [] 0) (zs "filesize") (Some t).
Proof.
  apply (loady_loads_file [] (sample_port (mem_of 0x40 [1; 2; 3; 4]) (hi_line 230000)) 0 (zs "40") (zs "hi!"));
    [by split|exact hi_transfer|mem_decide|vm_compute; congruence|reflexivity|by intros x _|mem_decide].
Defined.

Definition kermit_port : port := sample_port (zeros 10000) (map (pair 0) hi_bytes).

Lemma kermit_port_line : map snd (coming kermit_port) = hi_bytes.
Proof. unfold kermit_port, sample_port. cbn [coming]. by rewrite map_map, map_id. Qed.

Lemma kermit_port_mapped : mapped (memory kermit_port) (hex_value (zs "40")) (Z.of_nat (length (zs "A#" ++ [10])) + room).
Proof. unfold kermit_port, sample_port. cbn [memory]. assert (E : hex_value (zs "40") = 0x40) by (by vm_compute). rewrite E. apply zeros_mapped; vm_compute; congruence. Qed.

Lemma loadb_loads_file_witness : exists p' t, do_load_serial_bin [] 0 [zs "loadb"; zs "40"] kermit_port = Ok (0, p') /\ bytes_at (memory p') (hex_value (zs "40")) (zs "A#" ++ [10]) /\ changed (memory kermit_port) (memory p') (hex_value (zs "40")) (hex_value (zs "40") + Z.of_nat (length (zs "A#" ++ [10])) + room) /\ dev p' = dev kermit_port /\ load_addr p' = hex_value (zs "40") /\ printf (zs "%X") [A_int (Z.of_nat (length (zs "A#" ++ [10])))] = Ok t /\ env p' = set_var (env kermit_port) (zs "filesize") (Some t).
Proof.
  assert (H1 : length (send_parms (ker kermit_port)) = SEND_DATA_SIZE) by reflexivity.
  assert (H2 : Kermit.transfer (map snd (coming kermit_port)) (zs "A#" ++ [10]) []) by (rewrite kermit_port_line; exact hi_kermit).
  assert (H3 : hex_value (zs "40") <> aborted) by (vm_compute; congruence).
  exact (loadb_loads_file [] kermit_port 0 (zs "40") (zs "A#" ++ [10]) [] H1 H2 H3 kermit_port_mapped eq_refl).
Defined.

Definition saving : port := sample_port (mem_of 0x40 (zs "hello world! hello earth!")) [].
(** The sender pauses before each character. *)
Definition loading (text : list Z) : port := sample_port (mem_of 0x40 (repeat 0 25)) (map (pair 1) text).
Definition saved : list Z := zs "hello world! hello earth".

Lemma loading_line text : map snd (coming (loading text)) = text ++ [].
Proof. unfold loading, sample_port. cbn [coming]. by rewrite map_map, map_id, app_nil_r. Qed.

Lemma loading_quiet text : quiet true (coming (loading text)).
Proof. intros _. unfold loading, sample_port. cbn [coming]. by induction text; constructor. Qed.

Lemma saves_loads_roundtrip_witness : exists text, save_serial 0x40 (Z.of_nat (length saved)) saving = Ok (false, put_said (said saving ++ text) saving) /\ exists p2' t, load_serial [] true 0 (loading text) = Ok (0, p2') /\ memory p2' = write_bytes (memory (loading text)) 0x40 saved /\ dev p2' = dev (loading text) /\ map snd (coming p2') = [] /\ printf (zs "%lX") [A_int (Z.of_nat (length saved))] = Ok t /\ env p2' = set_var (env (loading text)) (zs "filesize") (Some t).
Proof.
  assert (H1 : bytes_at (memory saving) 0x40 saved) by mem_decide.
  destruct (saves_loads_roundtrip [] true saving 0x40 saved eq_refl H1 ltac:(done) ltac:(done) eq_refl) as (text & E & F).
  exists text. split; [exact E|]. refine (F (loading text) [] (loading_line text) (loading_quiet text) _ _); [by intros x _|].
  assert (H2 : mapped (memory (loading [])) 0x40 (Z.of_nat (length saved))) by mem_decide. exact H2.
Defined.

(** The sender cancels: [loady] reports success, and "filesize" is 0. *)
Example cancelled_ymodem_succeeds :
  match do_load_serial_bin [] 0 [zs "loady"; zs "40"] (sample_port (mem_of 0x40 [1]) (map (pair 0) [CAN; CAN; CAN])) with
  | Ok (rc, p) => (rc =? 0) && bool_decide (var (env p) (zs "filesize") = Some (zs "0")) | _ => false end = true.
Proof. by vm_compute. Qed.

(** Ctrl-C ends [loadb]: it reports success, and the load address is set. *)
Example cancelled_kermit_succeeds :
  match do_load_serial_bin [] 0 [zs "loadb"; zs "40"] (sample_port (mem_of 0x40 [1]) (map (pair 0) [ETX_CHAR])) with
  | Ok (rc, p) => (rc =? 0) && (load_addr p =? 0x40) && bool_decide (var (env p) (zs "filesize") = Some (zs "0")) | _ => false end = true.
Proof. by vm_compute. Qed.

(** With another console S-records that come without a pause lose every second
    character. *)
Example pasted_record_lost :
  let l := map (pair 0) (zs "S0030000FC" ++ [10] ++ zs "S70500000000FA" ++ [10]) in
  match load_serial [] false 0 (sample_port ∅ l), load_serial [] true 0 (sample_port ∅ l) with
  | Ok (a, _), Ok (b, _) => (a =? 0) && (b =? aborted) | Ok (a, _), OutOfFuel => a =? 0 | _, _ => false end = true.
Proof. by vm_compute. Qed.
