(* ===== verification/Defrag.v ===== *)
(** * Reassembling IP packets (net/net.c, [CONFIG_IP_DEFRAG])

    The fragments of a packet are put together in a static buffer.  What is missing is a
    list of holes, doubly linked, and each hole's descriptor lies in the buffer itself,
    in the first eight bytes of the hole.  So the buffer is a memory of bytes, from
    address 0, in which the data and the descriptors overwrite each other as they do in
    the code. *)

From S2P Require Import Prelude Mem Net.

Definition CONFIG_NET_MAXDEFRAG : Z := 16384.
(** [sizeof(rpc_specimen.u.reply)] is 100. *)
Definition IP_PKTSIZE : Z := CONFIG_NET_MAXDEFRAG + 100.
Definition IP_MAXUDP : Z := IP_PKTSIZE - IP_HDR_SIZE_NO_UDP.

Record defrag := Defrag { pkt_buff : mem; first_hole : Z; total_len : Z }.

Abbreviation D := (ST defrag).

Definition on_buff {A} (f : M A) : D A := fun s =>
  match f (pkt_buff s) with Ok (a, m) => Ok (a, Defrag m (first_hole s) (total_len s)) | Fault => Fault | OutOfFuel => OutOfFuel end.
Definition set_first_hole (h : Z) : D unit := modify (fun s => Defrag (pkt_buff s) h (total_len s)).
Definition set_total_len (n : Z) : D unit := modify (fun s => Defrag (pkt_buff s) (first_hole s) n).

(** [payload + i], and the fields of the descriptor there. *)
Definition payload (i : Z) : Z := IP_HDR_SIZE_NO_UDP + 8 * i.
Definition last_byte (h : Z) : D Z := on_buff (load16 (payload h)).
Definition next_hole (h : Z) : D Z := on_buff (load16 (payload h + 2)).
Definition prev_hole (h : Z) : D Z := on_buff (load16 (payload h + 4)).
Definition set_last_byte (h v : Z) : D unit := on_buff (store16 (payload h) v).
Definition set_next_hole (h v : Z) : D unit := on_buff (store16 (payload h + 2) v).
Definition set_prev_hole (h v : Z) : D unit := on_buff (store16 (payload h + 4) v).

(** [*newh = *h]. *)
Definition copy_hole (newh h : Z) : D unit :=
  a ← last_byte h; b ← next_hole h; c ← prev_hole h; d ← on_buff (load16 (payload h + 6));
  set_last_byte newh a;; set_next_hole newh b;; set_prev_hole newh c;; on_buff (store16 (payload newh + 6) d).

(** The first hole that ends at [start] or behind it.  Fuel: an index has 16 bits, so a
    list of more holes is a cycle, in which the code never ends. *)
Fixpoint find_hole (fuel : nat) (h start : Z) : D (option Z) :=
  match fuel with
  | O => out_of_fuel
  | S fuel =>
      e ← last_byte h;
      if e <? start then
        n ← next_hole h;
        if n =? 0 then mret None else find_hole fuel n start
      else mret (Some h)
  end.
Definition hole_fuel : nat := Z.to_nat 65537.

(** A packet the buffer does not belong to: begin anew, with its header. *)
Definition reset (ip : list Z) : D unit :=
  set_total_len 0xffff;;
  set_last_byte 0 0xffff;; set_next_hole 0 0;; set_prev_hole 0 0;;
  set_first_hole 0;;
  hd ← lift (get_bytes ip 0 20); on_buff (store_bytes 0 hd).

Definition other_packet (ip : list Z) : D bool :=
  s ← get;
  if total_len s =? 0 then mret true
  else
    a ← on_buff (load8 4); b ← on_buff (load8 5);
    c ← lift (get8 ip 4); d ← lift (get8 ip 5);
    mret (negb ((a =? c) && (b =? d))).

(** The fragment covers all of the hole: whether it was the last one. *)
Definition remove_hole (h : Z) : D bool :=
  p ← prev_hole h; n ← next_hole h;
  if (p =? 0) && (n =? 0) then mret true
  else
    (if p =? 0 then set_first_hole n;; set_prev_hole n 0
     else if n =? 0 then set_next_hole p 0
     else set_prev_hole n p;; p ← prev_hole h; n ← next_hole h; set_next_hole p n);;
    mret false.

(** It covers the beginning of the hole, which moves. *)
Definition move_hole (newh h : Z) : D unit :=
  copy_hole newh h;;
  n ← next_hole newh;
  (if negb (n =? 0) then set_prev_hole n newh else mret tt);;
  p ← prev_hole newh;
  if negb (p =? 0) then set_next_hole p newh else set_first_hole (u16 newh).

(** It lies in the middle. *)
Definition split_hole (newh h start : Z) : D unit :=
  copy_hole newh h;;
  set_last_byte h start;;
  set_next_hole h newh;;
  set_prev_hole newh h;;
  n ← next_hole newh;
  if negb (n =? 0) then set_prev_hole n newh else mret tt.

(** The list of holes when the fragment at [offset8] of [len] bytes comes and [h] is the
    first hole that ends there or later: whether nothing is missing any more. *)
Definition fix_holes (h offset8 len : Z) : D bool :=
  let start := offset8 * 8 in
  let newh := offset8 + Z.quot len 8 in
  e ← last_byte h;
  if (offset8 <=? h) && (e <=? start + len) then remove_hole h
  else if e <=? start + len then set_last_byte h start;; mret false
  else if offset8 <=? h then move_hole newh h;; mret false
  else split_hole newh h start;; mret false.

(** [memcpy] of the data. *)
Definition copy_data (ip : list Z) (offset8 len : Z) : D unit :=
  if len <? 0 then fault
  else data ← lift (get_bytes ip 20 (Z.to_nat len)); on_buff (store_bytes (payload offset8) data).

(** From the search for the hole on. *)
Definition add_fragment (ip : list Z) (offset8 len : Z) (more : bool) : D (option Z) :=
  let start := offset8 * 8 in
  s ← get;
  found ← find_hole hole_fuel (first_hole s) start;
  match found with
  | None => mret None
  | Some h =>
      if offset8 + Z.quot len 8 <=? h then mret None
      else
        (if negb more then set_total_len (u16 (start + len));; set_last_byte h (start + len) else mret tt);;
        done ← fix_holes h offset8 len;
        copy_data ip offset8 len;;
        if negb (done : bool) then mret None
        else
          s ← get;
          on_buff (store_bytes 2 (be16 (total_len s)));;
          mret (Some (total_len s + IP_HDR_SIZE_NO_UDP))
  end.

(** The size of the packet in the buffer when it is complete, [*lenp]. *)
Definition __NetDefragment (ip : list Z) : D (option Z) :=
  ip_off ← lift (get16 ip 6);
  let offset8 := Z.land ip_off IP_OFFS in
  ip_len ← lift (get16 ip 2);
  let len := ip_len - IP_HDR_SIZE_NO_UDP in
  if IP_MAXUDP <? u32 (offset8 * 8 + len) then mret None
  else
    fresh ← other_packet ip;
    (if (fresh : bool) then reset ip else mret tt);;
    add_fragment ip offset8 len (negb (Z.land ip_off IP_FLAGS_MFRAG =? 0)).

(** The packet itself, nothing yet, or the one in the buffer. *)
Inductive defragmented := Unchanged | Incomplete | Assembled (len : Z).

Definition NetDefragment (ip : list Z) : D defragmented :=
  ip_off ← lift (get16 ip 6);
  if Z.land ip_off (Z.lor IP_OFFS IP_FLAGS_MFRAG) =? 0 then mret Unchanged
  else r ← __NetDefragment ip; mret (match r with Some n => Assembled n | None => Incomplete end).

(** One packet after the other. *)
Fixpoint feed (l : list (list Z)) : D (list defragmented) :=
  match l with
  | [] => mret []
  | ip :: l => r ← NetDefragment ip; rs ← feed l; mret (r :: rs)
  end.

(** ** Examples *)

Definition frag (id off8 : Z) (more : bool) (data : list Z) : list Z :=
  [0x45; 0] ++ be16 (20 + Z.of_nat (length data)) ++ be16 id ++ be16 (off8 + if more then IP_FLAGS_MFRAG else 0) ++ [255; 17; 0; 0] ++ [1; 1; 1; 1; 2; 2; 2; 2] ++ data.
Definition idle : defrag := Defrag (mem_of 0 (repeat 0 (Z.to_nat IP_PKTSIZE))) 0 0.
Definition outcomes (l : list (list Z)) : option (list defragmented) := match feed l idle with Ok (rs, _) => Some rs | _ => None end.


(** ** Fragments of a packet *)

(** The pieces of the data: each but the last has a multiple of eight bytes, and the last
    has eight at least. *)
Definition fragmentation (ds : list (list Z)) : Prop :=
  (2 <= length ds)%nat /\ Forall (Forall byte) ds /\ Z.of_nat (length (concat ds)) <= IP_MAXUDP /\
  forall k d, ds !! k = Some d -> (8 <= length d)%nat /\ ((S k < length ds)%nat -> (length d mod 8 = 0)%nat).

(** Where piece [k] begins. *)
Definition off (ds : list (list Z)) (k : nat) : Z := Z.of_nat (length (concat (take k ds))).

(** [ip] is the packet with piece [k]. *)
Definition fragment (ds : list (list Z)) (id1 id2 : Z) (k : nat) (ip : list Z) : Prop :=
  exists d w hd, ds !! k = Some d /\ Forall byte ip /\ get8 ip 4 = Ok id1 /\ get8 ip 5 = Ok id2 /\
    get16 ip 2 = Ok (20 + Z.of_nat (length d)) /\
    get16 ip 6 = Ok w /\ Z.land w IP_OFFS = off ds k / 8 /\ (Z.land w IP_FLAGS_MFRAG =? 0) = (S k =? length ds)%nat /\
    get_bytes ip 0 20 = Ok hd /\ get_bytes ip 20 (length d) = Ok d.

(** Of [n] fragments, those in [R] have come.  Before the first fragment has come, a new
    one may come only if it is the last of those missing: the first one must be the
    first to come, or they all come in reverse order. *)
Definition in_turn (n : nat) (R : list nat) (k : nat) : Prop := 0%nat ∈ R \/ k = 0%nat \/ k ∈ R \/ (forall x, (k < x < n)%nat -> x ∈ R).
Definition good_order (n : nat) (ks : list nat) : Prop := forall l1 k l2, ks = l1 ++ k :: l2 -> in_turn n l1 k.

(** The buffer is free or belongs to another packet. *)
Definition for_another (s : defrag) (id1 id2 : Z) : Prop := mapped (pkt_buff s) 0 IP_PKTSIZE /\
  (total_len s = 0 \/ exists a b, bytes_at (pkt_buff s) 4 [a; b] /\ (a <> id1 \/ b <> id2)).

Section Reassembly.
Context (ds : list (list Z)) (Hds : fragmentation ds).

Abbreviation N := (length ds).
Abbreviation o := (off ds).

Lemma off_0 : o 0 = 0.
Proof. done. Qed.

Lemma off_next k d : ds !! k = Some d -> o (S k) = o k + Z.of_nat (length d).
Proof. intros E. unfold off. rewrite (take_S_r _ _ _ E), concat_app, length_app. cbn. rewrite app_nil_r. lia. Qed.

Lemma off_step k : (k < N)%nat -> o k + 8 <= o (S k).
Proof. intros Hk. apply lookup_lt_is_Some in Hk as [d E]. rewrite (off_next _ _ E). destruct Hds as (_ & _ & _ & H). destruct (H _ _ E). lia. Qed.

Lemma off_mono a b : (a < b)%nat -> (b <= N)%nat -> o a + 8 <= o b.
Proof.
  intros Hab. induction b as [|b IH]; [lia|]. intros Hb. pose proof (off_step b ltac:(lia)). destruct (decide (a = b)) as [->|]; [done|]. pose proof (IH ltac:(lia) ltac:(lia)). lia.
Qed.

Lemma off_le a b : (a <= b)%nat -> (b <= N)%nat -> o a <= o b.
Proof. intros. destruct (decide (a = b)) as [->|]; [done|]. pose proof (off_mono a b). lia. Qed.

Lemma off_n : o N <= IP_MAXUDP.
Proof. unfold off. rewrite take_ge by done. by destruct Hds as (_ & _ & H & _). Qed.

Lemma off_mod k : (k < N)%nat -> o k mod 8 = 0.
Proof.
  induction k as [|k IH]; [done|]. intros Hk. assert (Hk' : (k < N)%nat) by lia. pose proof (IH Hk'). apply lookup_lt_is_Some in Hk' as [d E].
  rewrite (off_next _ _ E). destruct Hds as (_ & _ & _ & F). destruct (F _ _ E) as [_ G]. specialize (G Hk). apply (f_equal Z.of_nat) in G. rewrite Nat2Z.inj_mod in G. change (Z.of_nat 8) with 8 in G. zmod.
Qed.

(** The index of piece [k]. *)
Definition blk (k : nat) : Z := o k / 8.

Lemma blk_off k : (k < N)%nat -> o k = 8 * blk k.
Proof. intros Hk. pose proof (off_mod k Hk). unfold blk. zmod. Qed.

Lemma blk_pos k : (0 < k)%nat -> (k < N)%nat -> 0 < blk k.
Proof. intros H Hk. pose proof (blk_off k Hk). pose proof (off_mono 0 k H ltac:(lia)). rewrite off_0 in *. lia. Qed.

Lemma blk_bound k : (k < N)%nat -> 0 <= blk k < 65536.
Proof.
  intros Hk. pose proof (blk_off k Hk). pose proof off_n. pose proof (off_le 0 k ltac:(lia) ltac:(lia)). pose proof (off_le k N ltac:(lia) ltac:(lia)). rewrite off_0 in *.
  unfold IP_MAXUDP, IP_PKTSIZE, CONFIG_NET_MAXDEFRAG, IP_HDR_SIZE_NO_UDP in *. lia.
Qed.

(** The end of a hole that ends before piece [j]; as long as the last piece is missing,
    the end is not known. *)
Definition hend (j : nat) : Z := if (j =? N)%nat then 0xffff else o j.

Lemma hend_word j : (j <= N)%nat -> word16 (hend j).
Proof.
  intros Hj. unfold hend, word16. destruct (Nat.eqb_spec j N); [lia|]. pose proof off_n. pose proof (off_le 0 j ltac:(lia) Hj). pose proof (off_le j N Hj ltac:(lia)). rewrite off_0 in *.
  unfold IP_MAXUDP, IP_PKTSIZE, CONFIG_NET_MAXDEFRAG, IP_HDR_SIZE_NO_UDP in *. lia.
Qed.

(** The descriptor of a hole that begins with piece [i]. *)
Definition place (i : nat) : Z := payload (blk i).
Definition node (m : mem) (i : nat) (e nx pv : Z) : Prop :=
  bytes_at m (place i) (le16 e) /\ bytes_at m (place i + 2) (le16 nx) /\ bytes_at m (place i + 4) (le16 pv).

Lemma place_off i : (i < N)%nat -> place i = 20 + o i.
Proof. intros Hi. unfold place, payload, IP_HDR_SIZE_NO_UDP. rewrite <- blk_off by done. done. Qed.

(** A list of holes, each from a piece up to another, between two neighbours. *)
Definition first_of (hs : list (nat * nat)) (nx : Z) : Z := match hs with [] => nx | (i, _) :: _ => blk i end.
Fixpoint last_of (pv : Z) (hs : list (nat * nat)) : Z := match hs with [] => pv | (i, _) :: hs => last_of (blk i) hs end.
Fixpoint holes (m : mem) (pv : Z) (hs : list (nat * nat)) (nx : Z) : Prop :=
  match hs with [] => True | (i, j) :: r => node m i (hend j) (first_of r nx) pv /\ holes m (blk i) r nx end.

Lemma holes_app m pv l1 l2 nx : holes m pv (l1 ++ l2) nx <-> holes m pv l1 (first_of l2 nx) /\ holes m (last_of pv l1) l2 nx.
Proof.
  revert pv. induction l1 as [|[i j] l1 IH]; intros pv; cbn [app holes last_of]; [tauto|]. rewrite IH.
  assert (E : first_of (l1 ++ l2) nx = first_of l1 (first_of l2 nx)) by (by destruct l1 as [|[? ?] ?]). rewrite E. tauto.
Qed.

(** In order, not overlapping, not touching. *)
Fixpoint sorted (a : nat) (hs : list (nat * nat)) : Prop :=
  match hs with [] => True | (i, j) :: r => (a <= i < j)%nat /\ (j <= N)%nat /\ sorted (S j) r end.

(** Only the descriptors of the holes that begin with [xs] were written. *)
Definition only (m m' : mem) (xs : list nat) : Prop :=
  (forall a, Forall (fun i => a < place i \/ place i + 8 <= a) xs -> m' !! a = m !! a) /\ (forall a, is_Some (m !! a) -> is_Some (m' !! a)).

Lemma only_refl m : only m m [].
Proof. done. Qed.

Lemma only_trans m1 m2 m3 xs1 xs2 : only m1 m2 xs1 -> only m2 m3 xs2 -> only m1 m3 (xs1 ++ xs2).
Proof. intros [A1 A2] [B1 B2]. split; [|auto]. intros a Ha. apply Forall_app in Ha as [? ?]. rewrite B1, A1; done. Qed.

Lemma only_write m i p l : place i <= p -> p + Z.of_nat (length l) <= place i + 8 -> only m (write_bytes m p l) [i].
Proof.
  intros H1 H2. destruct (changed_write m p l (place i) (place i + 8) H1 H2) as [A B]. split; [|done]. intros a Ha. apply Forall_cons in Ha as [Ha _]. apply A. lia.
Qed.

Lemma node_only m m' xs i e nx pv : only m m' xs -> (i < N)%nat -> Forall (fun x => (x < N)%nat /\ x <> i) xs -> node m i e nx pv -> node m' i e nx pv.
Proof.
  intros [A _] Hi His (N1 & N2 & N3).
  assert (E : forall a, place i <= a < place i + 6 -> m' !! a = m !! a).
  { intros a Ha. apply A. eapply Forall_impl; [exact His|]. intros x [Hx Hne]. cbn beta in *. rewrite place_off in * by done.
    destruct (Nat.lt_total x i) as [H|[H|H]]; [pose proof (off_mono x i H ltac:(lia)); lia|done|pose proof (off_mono i x H ltac:(lia)); lia]. }
  split; [|split]; eapply bytes_at_agree; try eassumption; cbn [length le16]; intros a Ha; apply E; lia.
Qed.

Lemma holes_only m m' xs hs pv nx a : only m m' xs -> sorted a hs -> Forall (fun x => (x < N)%nat /\ Forall (fun h => fst h <> x) hs) xs -> holes m pv hs nx -> holes m' pv hs nx.
Proof.
  intros HO. revert a pv. induction hs as [|[i j] hs IH]; intros a pv Hs His H; [done|]. cbn [sorted holes] in *. destruct Hs as (Hi & Hj & Hs), H as [Hnode H].
  split; [eapply node_only; [exact HO|lia| |exact Hnode]|eapply (IH (S j)); [done| |done]].
  - eapply Forall_impl; [exact His|]. intros x [Hx Hf]. apply Forall_cons in Hf as [Hf _]. cbn in Hf. split; congruence.
  - eapply Forall_impl; [exact His|]. intros x [Hx Hf]. by apply Forall_cons in Hf as [_ Hf].
Qed.


(** ** Reading and writing descriptors *)

Definition with_buff (m : mem) (s : defrag) : defrag := Defrag m (first_hole s) (total_len s).

Lemma on_buff_ok {A} (f : M A) s a m : f (pkt_buff s) = Ok (a, m) -> on_buff f s = Ok (a, with_buff m s).
Proof. unfold on_buff. by intros ->. Qed.

Lemma with_same s : with_buff (pkt_buff s) s = s.
Proof. by destruct s. Qed.

Lemma node_get s i e nx pv : node (pkt_buff s) i e nx pv -> word16 e -> word16 nx -> word16 pv ->
  last_byte (blk i) s = Ok (e, s) /\ next_hole (blk i) s = Ok (nx, s) /\ prev_hole (blk i) s = Ok (pv, s).
Proof.
  intros (N1 & N2 & N3) He Hn Hp.
  pose proof (on_buff_ok _ s _ _ (load16_w _ _ _ He N1)) as E1. pose proof (on_buff_ok _ s _ _ (load16_w _ _ _ Hn N2)) as E2. pose proof (on_buff_ok _ s _ _ (load16_w _ _ _ Hp N3)) as E3.
  by rewrite with_same in *.
Qed.

Definition whole (m : mem) : Prop := mapped m 0 IP_PKTSIZE.

Lemma place_mapped m i q k : whole m -> (i < N)%nat -> 0 <= q -> q + k <= 8 -> mapped m (place i + q) k.
Proof.
  intros Hm Hi H1 H2. rewrite place_off by done. pose proof (off_mono i N Hi ltac:(lia)). pose proof off_n. pose proof (off_le 0 i ltac:(lia) ltac:(lia)). rewrite off_0 in *.
  unfold IP_MAXUDP, IP_HDR_SIZE_NO_UDP in *. eapply mapped_sub; [exact Hm|lia|lia].
Qed.

Lemma only_whole m m' xs : only m m' xs -> whole m -> whole m'.
Proof. intros [_ H] Hm a Ha. by apply H, Hm. Qed.

Lemma node_set_end m i e nx pv v : node m i e nx pv -> node (write_bytes m (place i) (le16 v)) i v nx pv.
Proof. intros (N1 & N2 & N3). split; [apply write_bytes_at, le16_bytes|]. split; apply bytes_at_write; try done; cbn [length le16]; lia. Qed.
Lemma node_set_next m i e nx pv v : node m i e nx pv -> node (write_bytes m (place i + 2) (le16 v)) i e v pv.
Proof. intros (N1 & N2 & N3). split; [apply bytes_at_write; [cbn [length le16]; lia|done]|]. split; [apply write_bytes_at, le16_bytes|]. apply bytes_at_write; [cbn [length le16]; lia|done]. Qed.
Lemma node_set_prev m i e nx pv v : node m i e nx pv -> node (write_bytes m (place i + 4) (le16 v)) i e nx v.
Proof. intros (N1 & N2 & N3). split; [apply bytes_at_write; [cbn [length le16]; lia|done]|]. split; [apply bytes_at_write; [cbn [length le16]; lia|done]|]. apply write_bytes_at, le16_bytes. Qed.

Lemma set_field_ok (s : defrag) i q v : whole (pkt_buff s) -> (i < N)%nat -> 0 <= q <= 6 ->
  on_buff (store16 (place i + q) v) s = Ok (tt, with_buff (write_bytes (pkt_buff s) (place i + q) (le16 v)) s) /\
  only (pkt_buff s) (write_bytes (pkt_buff s) (place i + q) (le16 v)) [i].
Proof.
  intros Hm Hi Hq. split.
  - apply on_buff_ok. apply (store16_w _ _ _ 2); [apply (place_mapped _ i); try done; lia|lia].
  - apply only_write; cbn [length le16]; lia.
Qed.

Lemma set_end_ok s i e nx pv v : whole (pkt_buff s) -> (i < N)%nat -> node (pkt_buff s) i e nx pv ->
  exists m, set_last_byte (blk i) v s = Ok (tt, with_buff m s) /\ only (pkt_buff s) m [i] /\ node m i v nx pv.
Proof.
  intros Hm Hi Hn. destruct (set_field_ok s i 0 v Hm Hi ltac:(lia)) as [E O]. rewrite Z.add_0_r in *. eexists. split; [exact E|]. split; [exact O|]. by eapply node_set_end.
Qed.
Lemma set_next_ok s i e nx pv v : whole (pkt_buff s) -> (i < N)%nat -> node (pkt_buff s) i e nx pv ->
  exists m, set_next_hole (blk i) v s = Ok (tt, with_buff m s) /\ only (pkt_buff s) m [i] /\ node m i e v pv.
Proof.
  intros Hm Hi Hn. destruct (set_field_ok s i 2 v Hm Hi ltac:(lia)) as [E O]. eexists. split; [exact E|]. split; [exact O|]. by eapply node_set_next.
Qed.
Lemma set_prev_ok s i e nx pv v : whole (pkt_buff s) -> (i < N)%nat -> node (pkt_buff s) i e nx pv ->
  exists m, set_prev_hole (blk i) v s = Ok (tt, with_buff m s) /\ only (pkt_buff s) m [i] /\ node m i e nx v.
Proof.
  intros Hm Hi Hn. destruct (set_field_ok s i 4 v Hm Hi ltac:(lia)) as [E O]. eexists. split; [exact E|]. split; [exact O|]. by eapply node_set_prev.
Qed.

Lemma load16_any m p : mapped m p 2 -> exists w, load16 p m = Ok (w, m).
Proof.
  intros Hm. destruct (Hm p ltac:(lia)) as [b0 H0]. destruct (Hm (p + 1) ltac:(lia)) as [b1 H1]. exists (b0 + 256 * b1).
  unfold load16. by rewrite (bind_ok _ _ _ _ _ (load8_ok _ _ _ H0)), (bind_ok _ _ _ _ _ (load8_ok _ _ _ H1)).
Qed.

Lemma copy_hole_ok s i i' e nx pv : whole (pkt_buff s) -> (i < N)%nat -> (i' < N)%nat -> node (pkt_buff s) i e nx pv -> word16 e -> word16 nx -> word16 pv ->
  exists m, copy_hole (blk i') (blk i) s = Ok (tt, with_buff m s) /\ only (pkt_buff s) m [i'] /\ node m i' e nx pv.
Proof.
  intros Hm Hi Hi' Hn He Hx Hp. destruct (node_get s i e nx pv Hn He Hx Hp) as (E1 & E2 & E3). unfold copy_hole.
  rewrite (bind_ok _ _ _ _ _ E1), (bind_ok _ _ _ _ _ E2), (bind_ok _ _ _ _ _ E3).
  destruct (load16_any (pkt_buff s) (place i + 6)) as [w E4]; [apply (place_mapped _ i); try done; lia|].
  apply (on_buff_ok _ s) in E4. rewrite with_same in E4. rewrite (bind_ok _ _ _ _ _ E4).
  destruct (set_field_ok s i' 0 e Hm Hi' ltac:(lia)) as [F0 O0]. rewrite Z.add_0_r in *. rewrite (bind_ok _ _ _ _ _ F0). set (s1 := with_buff _ s) in *.
  assert (W1 : whole (pkt_buff s1)) by (by eapply only_whole). destruct (set_field_ok s1 i' 2 nx W1 Hi' ltac:(lia)) as [F1 O1]. rewrite (bind_ok _ _ _ _ _ F1). set (s2 := with_buff _ s1) in *.
  assert (W2 : whole (pkt_buff s2)) by (by eapply only_whole). destruct (set_field_ok s2 i' 4 pv W2 Hi' ltac:(lia)) as [F2 O2]. rewrite (bind_ok _ _ _ _ _ F2). set (s3 := with_buff _ s2) in *.
  assert (W3 : whole (pkt_buff s3)) by (by eapply only_whole). destruct (set_field_ok s3 i' 6 w W3 Hi' ltac:(lia)) as [F3 O3]. unfold place in F3. rewrite F3. fold (place i').
  eexists. split; [reflexivity|]. split.
  - destruct O0 as [A0 B0], O1 as [A1 B1], O2 as [A2 B2], O3 as [A3 B3]. split; [intros a Ha; cbn [pkt_buff with_buff] in *; rewrite A3, A2, A1, A0 by done; done|]. intros a Ha. by apply B3, B2, B1, B0.
  - split; [|split]; repeat first [apply write_bytes_at, le16_bytes | apply bytes_at_write; [cbn [length le16]; lia|]].
Qed.

Lemma sorted_after a l x : sorted a l -> (x < a)%nat -> Forall (fun h => (x < fst h)%nat) l.
Proof.
  revert a. induction l as [|[i j] l IH]; intros a H Hx; [constructor|]. cbn [sorted] in H. destruct H as (? & ? & H). constructor; [cbn; lia|]. eapply IH; [exact H|]. lia.
Qed.

(** The neighbours of a hole. *)
Lemma set_first_prev s i j r pv nx v a : whole (pkt_buff s) -> sorted a ((i, j) :: r) -> holes (pkt_buff s) pv ((i, j) :: r) nx ->
  exists m, set_prev_hole (blk i) v s = Ok (tt, with_buff m s) /\ only (pkt_buff s) m [i] /\ holes m v ((i, j) :: r) nx.
Proof.
  intros Hm Hs [Hn Hh]. cbn [sorted] in Hs. destruct Hs as (Hi & Hj & Hs). destruct (set_prev_ok s i _ _ _ v Hm ltac:(lia) Hn) as (m & E & O & Hn'). exists m. split; [done|]. split; [done|].
  split; [done|]. eapply (holes_only _ _ _ _ _ _ (S j)); [exact O|exact Hs| |exact Hh]. repeat constructor; [lia|].
  eapply Forall_impl; [apply (sorted_after (S j) r i Hs); lia|]. intros h. cbn. lia.
Qed.

Lemma sorted_holes_app a l1 l2 : sorted a (l1 ++ l2) <-> sorted a l1 /\ sorted (match last l1 with Some (_, j) => S j | None => a end) l2.
Proof.
  revert a. induction l1 as [|[i j] l1 IH]; intros a; cbn [app sorted]; [cbn; tauto|]. rewrite IH.
  assert (E : match last ((i, j) :: l1) with Some (_, j0) => S j0 | None => a end = match last l1 with Some (_, j0) => S j0 | None => S j end).
  { rewrite last_cons. by destruct (last l1) as [[? ?]|]. }
  rewrite E. tauto.
Qed.

Lemma sorted_before a l i j : sorted a (l ++ [(i, j)]) -> Forall (fun h => (fst h < i)%nat /\ (snd h < i)%nat) l.
Proof.
  revert a. induction l as [|[i' j'] l IH]; intros a; cbn [app sorted]; [constructor|]. intros (H1 & H2 & H3). constructor; [|by eapply IH]. cbn.
  assert (G : forall l a, sorted a (l ++ [(i, j)]) -> (a <= i)%nat).
  { clear. induction l as [|[? ?] l IH]; intros a H; cbn [app sorted] in H; [lia|]. destruct H as (? & ? & H). apply IH in H. lia. }
  apply G in H3. lia.
Qed.

Lemma set_last_next s i j l pv nx v a : whole (pkt_buff s) -> sorted a (l ++ [(i, j)]) -> holes (pkt_buff s) pv (l ++ [(i, j)]) nx ->
  exists m, set_next_hole (blk i) v s = Ok (tt, with_buff m s) /\ only (pkt_buff s) m [i] /\ holes m pv (l ++ [(i, j)]) v.
Proof.
  intros Hm Hs Hh. apply holes_app in Hh as [H1 [H2 _]]. pose proof (sorted_before _ _ _ _ Hs) as Hb. apply sorted_holes_app in Hs as [Hs1 Hs2]. cbn [sorted first_of] in *. 
  assert (Hi : (i < N)%nat) by lia. destruct (set_next_ok s i _ _ _ v Hm Hi H2) as (m & E & O & Hn'). exists m. split; [done|]. split; [done|].
  apply holes_app. split; [|by split]. cbn [first_of]. eapply holes_only; [exact O|exact Hs1| |exact H1]. repeat constructor; [done|].
  eapply Forall_impl; [exact Hb|]. intros [x y]. cbn. lia.
Qed.


(** ** The list of holes *)

(** Piece [x] is in a hole. *)
Definition missing (hs : list (nat * nat)) (x : nat) : Prop := exists i j, (i, j) ∈ hs /\ (i <= x < j)%nat.

Lemma missing_app l1 l2 x : missing (l1 ++ l2) x <-> missing l1 x \/ missing l2 x.
Proof.
  split; [intros (i & j & Hin & Hx); apply elem_of_app in Hin as [?|?]; [left|right]; by exists i, j|].
  intros [(i & j & Hin & Hx)|(i & j & Hin & Hx)]; exists i, j; (split; [apply elem_of_app; auto|done]).
Qed.
Lemma missing_cons i j l x : missing ((i, j) :: l) x <-> (i <= x < j)%nat \/ missing l x.
Proof.
  change ((i, j) :: l) with ([(i, j)] ++ l). rewrite missing_app.
  split; (intros [H|H]; [left|by right]); [by destruct H as (i' & j' & [= -> ->]%list_elem_of_singleton & H)|]. exists i, j. split; [by apply list_elem_of_singleton|done].
Qed.
Lemma missing_nil x : ~ missing [] x.
Proof. intros (i & j & H & _). by apply elem_of_nil in H. Qed.

Lemma missing_from a hs x : sorted a hs -> missing hs x -> (a <= x < N)%nat.
Proof.
  revert a. induction hs as [|[i j] hs IH]; intros a Hs; [by intros ?%missing_nil|]. cbn [sorted] in Hs. destruct Hs as (? & ? & Hs). rewrite missing_cons. intros [?|Hm]; [lia|]. apply (IH _ Hs) in Hm. lia.
Qed.

Lemma missing_before a l i j x : sorted a (l ++ [(i, j)]) -> missing l x -> (x < i)%nat.
Proof.
  intros Hs (i' & j' & Hin & Hx). pose proof (sorted_before _ _ _ _ Hs) as H. rewrite Forall_forall in H. apply H in Hin. cbn in Hin. lia.
Qed.

Lemma first_of_bound a hs : sorted a hs -> word16 (first_of hs 0).
Proof. destruct hs as [|[i j] hs]; cbn [first_of sorted]; [done|]. intros (? & ? & _). apply blk_bound. lia. Qed.

Lemma last_of_snoc pv l i j : last_of pv (l ++ [(i, j)]) = blk i.
Proof. revert pv. induction l as [|[? ?] l IH]; intros pv; cbn [app last_of]; [done|apply IH]. Qed.

Lemma find_hole_ok fuel : forall a pre i j post pv s k, sorted a (pre ++ (i, j) :: post) -> word16 pv -> holes (pkt_buff s) pv (pre ++ (i, j) :: post) 0 ->
  Forall (fun h => (snd h < k)%nat) pre -> (k <= j)%nat -> (k < N)%nat -> (length pre < fuel)%nat ->
  find_hole fuel (first_of (pre ++ (i, j) :: post) 0) (o k) s = Ok (Some (blk i), s).
Proof.
  induction fuel as [|fuel IH]; intros a pre i j post pv s k Hs Hpv Hh Hp Hkj Hk Hf; [lia|]. cbn [find_hole]. destruct pre as [|[i0 j0] pre]; cbn [app first_of holes sorted] in *.
  - destruct Hh as [Hn _], Hs as (Hij & Hj & Hs). destruct (node_get s i _ _ _ Hn (hend_word j Hj) (first_of_bound _ _ Hs) Hpv) as (E1 & _). rewrite (bind_ok _ _ _ _ _ E1).
    destruct (Z.ltb_spec (hend j) (o k)) as [Hlt|]; [|done]. exfalso. pose proof off_n. pose proof (off_le k N ltac:(lia) ltac:(lia)). pose proof (off_le k j Hkj Hj). unfold hend in Hlt. destruct (Nat.eqb_spec j N); [|lia].
    unfold IP_MAXUDP, IP_PKTSIZE, CONFIG_NET_MAXDEFRAG, IP_HDR_SIZE_NO_UDP in *. lia.
  - destruct Hh as [Hn Hh], Hs as (Hij & Hj & Hs). apply Forall_cons in Hp as [Hp0 Hp]. cbn [snd] in Hp0.
    destruct (node_get s i0 _ _ _ Hn (hend_word j0 Hj) (first_of_bound _ _ Hs) Hpv) as (E1 & E2 & _). rewrite (bind_ok _ _ _ _ _ E1).
    assert (He : hend j0 = o j0) by (unfold hend; destruct (Nat.eqb_spec j0 N); [lia|done]). pose proof (off_mono j0 k Hp0 ltac:(lia)). destruct (Z.ltb_spec (hend j0) (o k)); [|lia].
    rewrite (bind_ok _ _ _ _ _ E2). assert (Hi0 : (i0 < N)%nat) by lia.
    assert (Hnx : 0 < first_of (pre ++ (i, j) :: post) 0).
    { destruct pre as [|[i1 j1] pre]; cbn [app first_of sorted] in *; destruct Hs as (? & ? & _); apply blk_pos; lia. }
    destruct (Z.eqb_spec (first_of (pre ++ (i, j) :: post) 0) 0); [lia|]. apply (IH (S j0) pre i j post (blk i0)); try done; [by apply blk_bound|cbn [length] in Hf; lia].
Qed.

Lemma find_hole_none fuel : forall a hs pv s k, sorted a hs -> hs <> [] -> word16 pv -> holes (pkt_buff s) pv hs 0 ->
  Forall (fun h => (snd h < k)%nat) hs -> (k < N)%nat -> (length hs <= fuel)%nat -> find_hole fuel (first_of hs 0) (o k) s = Ok (None, s).
Proof.
  induction fuel as [|fuel IH]; intros a [|[i0 j0] hs] pv s k Hs Hne Hpv Hh Hp Hk Hf; try done; [cbn in Hf; lia|]. cbn [find_hole first_of holes sorted] in *.
  destruct Hh as [Hn Hh], Hs as (Hij & Hj & Hs). apply Forall_cons in Hp as [Hp0 Hp]. cbn [snd] in Hp0.
  destruct (node_get s i0 _ _ _ Hn (hend_word j0 Hj) (first_of_bound _ _ Hs) Hpv) as (E1 & E2 & _). rewrite (bind_ok _ _ _ _ _ E1).
  assert (He : hend j0 = o j0) by (unfold hend; destruct (Nat.eqb_spec j0 N); [lia|done]). pose proof (off_mono j0 k Hp0 ltac:(lia)). destruct (Z.ltb_spec (hend j0) (o k)); [|lia].
  rewrite (bind_ok _ _ _ _ _ E2). destruct hs as [|[i1 j1] hs]; [done|]. cbn [first_of sorted] in *. destruct Hs as (Hi1 & Hj1 & Hs). pose proof (blk_pos i1 ltac:(lia) ltac:(lia)).
  destruct (Z.eqb_spec (blk i1) 0); [lia|]. apply (IH (S j0) ((i1, j1) :: hs) (blk i0)); try done; [apply blk_bound; lia|cbn [length] in *; lia].
Qed.

Lemma sorted_length a hs : sorted a hs -> (a <= N)%nat -> (a + length hs <= N)%nat.
Proof.
  revert a. induction hs as [|[i j] hs IH]; intros a; cbn [sorted length]; [lia|]. intros (? & ? & Hs) _. destruct hs as [|[i' j'] hs]; [cbn; lia|].
  pose proof Hs as Hs'. cbn [sorted] in Hs'. specialize (IH (S j) Hs ltac:(lia)). lia.
Qed.

Lemma pieces_bound : (8 * Z.of_nat N <= o N).
Proof.
  assert (G : forall k, (k <= N)%nat -> 8 * Z.of_nat k <= o k); [|by apply G].
  induction k as [|k IH]; intros Hk; [done|]. pose proof (off_step k ltac:(lia)). specialize (IH ltac:(lia)). lia.
Qed.

(** The first hole that ends at piece [k] or behind it. *)
Lemma split_holes k (hs : list (nat * nat)) : Forall (fun h => (snd h < k)%nat) hs \/ exists pre i j post, hs = pre ++ (i, j) :: post /\ Forall (fun h => (snd h < k)%nat) pre /\ (k <= j)%nat.
Proof.
  induction hs as [|[i j] hs IH]; [by left|]. destruct (decide (j < k)%nat) as [Hj|Hj].
  - destruct IH as [H|(pre & i' & j' & post & -> & H & Hk)]; [left; by constructor|]. right. exists ((i, j) :: pre), i', j', post. split; [done|]. split; [by constructor|done].
  - right. exists [], i, j, hs. split; [done|]. split; [done|lia].
Qed.


(** ** Changing the list *)

(** Only descriptors in holes were written. *)
Definition touched (hs : list (nat * nat)) (m m' : mem) : Prop := exists xs, only m m' xs /\ Forall (missing hs) xs.

Lemma touched_refl hs m : touched hs m m.
Proof. exists []. split; [apply only_refl|constructor]. Qed.
Lemma touched_trans hs m1 m2 m3 : touched hs m1 m2 -> touched hs m2 m3 -> touched hs m1 m3.
Proof. intros (x1 & O1 & F1) (x2 & O2 & F2). exists (x1 ++ x2). split; [by eapply only_trans|by apply Forall_app]. Qed.
Lemma touched_only hs m m' x : missing hs x -> only m m' [x] -> touched hs m m'.
Proof. intros H O. exists [x]. split; [done|by repeat constructor]. Qed.
Lemma touched_whole hs m m' : touched hs m m' -> whole m -> whole m'.
Proof. intros (xs & O & _). by apply (only_whole _ _ xs). Qed.

(** The hole from [i] to [j] between others; its descriptor says [e]. *)
Record hole_at (s : defrag) (pre : list (nat * nat)) (i j : nat) (post : list (nat * nat)) (e : Z) : Prop := {
  at_whole : whole (pkt_buff s);
  at_sorted : sorted 0 (pre ++ (i, j) :: post);
  at_pre : holes (pkt_buff s) 0 pre (blk i);
  at_node : node (pkt_buff s) i e (first_of post 0) (last_of 0 pre);
  at_post : holes (pkt_buff s) (blk i) post 0;
  at_end : word16 e;
  at_first : first_hole s = first_of (pre ++ [(i, j)]) 0;
  at_one : pre = [] /\ post = [] \/ Forall (fun h => (1 <= fst h)%nat) (pre ++ (i, j) :: post);
}.

Section Hole.
Context (s : defrag) (pre : list (nat * nat)) (i j : nat) (post : list (nat * nat)) (e : Z) (A : hole_at s pre i j post e).
Abbreviation hs := (pre ++ (i, j) :: post).
Abbreviation m0 := (pkt_buff s).

Lemma at_range : (i < j)%nat /\ (j <= N)%nat /\ sorted 0 (pre ++ [(i, j)]) /\ sorted (S j) post /\ sorted 0 pre.
Proof.
  pose proof (at_sorted _ _ _ _ _ _ A) as H. assert (E : hs = (pre ++ [(i, j)]) ++ post) by (by rewrite <- app_assoc). rewrite E in H.
  apply sorted_holes_app in H as [H1 H2]. rewrite last_snoc in H2. pose proof H1 as H3. apply sorted_holes_app in H3 as [H3 H4]. cbn [sorted] in H4. split_and!; try done; lia.
Qed.

Lemma at_missing x : (i <= x < j)%nat -> missing hs x.
Proof. intros H. apply missing_app. right. apply missing_cons. by left. Qed.

Lemma at_last : word16 (last_of 0 pre).
Proof.
  destruct at_range as (? & ? & H & _). revert H. induction pre as [|[i1 j1] pre' _] using rev_ind; [done|]. intros H. rewrite last_of_snoc. apply blk_bound.
  apply sorted_holes_app in H as [H _]. apply sorted_holes_app in H as [_ H]. cbn [sorted] in H. lia.
Qed.

Lemma at_get : last_byte (blk i) s = Ok (e, s) /\ next_hole (blk i) s = Ok (first_of post 0, s) /\ prev_hole (blk i) s = Ok (last_of 0 pre, s).
Proof. destruct at_range as (_ & _ & _ & H & _). apply node_get; [apply A|apply A|by eapply first_of_bound|apply at_last]. Qed.

(** Nothing before the hole, and nothing behind it, has index 0. *)
Lemma at_last_zero : (last_of 0 pre =? 0) = bool_decide (pre = []).
Proof.
  destruct at_range as (Hij & Hj & H & _). destruct (at_one _ _ _ _ _ _ A) as [[-> _]|F]; [done|]. revert H F. induction pre as [|[i1 j1] pre' _] using rev_ind; intros H F; [done|].
  rewrite last_of_snoc, bool_decide_false by (by destruct pre'). apply Forall_app in F as [F _]. apply Forall_app in F as [_ F]. apply Forall_cons in F as [F _]. cbn in F.
  apply sorted_holes_app in H as [H _]. apply sorted_holes_app in H as [_ H]. cbn [sorted] in H. pose proof (blk_pos i1 ltac:(lia) ltac:(lia)). apply Z.eqb_neq. lia.
Qed.
Lemma at_first_zero : (first_of post 0 =? 0) = bool_decide (post = []).
Proof.
  destruct at_range as (Hij & Hj & _ & H & _). destruct post as [|[i2 j2] post']; [done|]. cbn [first_of sorted] in *. rewrite bool_decide_false by done. pose proof (blk_pos i2 ltac:(lia) ltac:(lia)). apply Z.eqb_neq. lia.
Qed.

Lemma at_only m xs : only m0 m xs -> Forall (fun x => (i <= x < j)%nat) xs -> holes m 0 pre (blk i) /\ holes m (blk i) post 0.
Proof.
  intros O F. destruct at_range as (Hij & Hj & H & H2 & H3). pose proof (sorted_before _ _ _ _ H) as Hb. pose proof (sorted_after _ _ j H2 ltac:(lia)) as Ha.
  split; (eapply holes_only; [exact O|eassumption| |apply A]); (eapply Forall_impl; [exact F|]); intros x Hx; cbn beta in *; (split; [lia|]).
  - eapply Forall_impl; [exact Hb|]. intros h. cbn. lia.
  - eapply Forall_impl; [exact Ha|]. intros h. cbn. lia.
Qed.

(** The end of the hole becomes [v]. *)
Lemma at_set_end v : word16 v -> exists m, set_last_byte (blk i) v s = Ok (tt, with_buff m s) /\ only m0 m [i] /\ hole_at (with_buff m s) pre i j post v.
Proof.
  intros Hv. destruct at_range as (Hij & Hj & H & _). destruct (set_end_ok s i _ _ _ v (at_whole _ _ _ _ _ _ A) ltac:(lia) (at_node _ _ _ _ _ _ A)) as (m & E & O & Hn).
  exists m. split; [done|]. split; [done|]. destruct (at_only m [i] O) as [P Q]; [repeat constructor; lia|]. destruct A. split; try done. by eapply only_whole.
Qed.

Lemma shortened_ok k : (i < k < N)%nat -> (k <= j)%nat -> exists m, set_last_byte (blk i) (o k) s = Ok (tt, with_buff m s) /\ touched hs m0 m /\ holes m 0 (pre ++ (i, k) :: post) 0.
Proof.
  intros Hk Hkj. assert (He : hend k = o k) by (unfold hend; destruct (Nat.eqb_spec k N); [lia|done]). rewrite <- He.
  destruct (at_set_end (hend k) (hend_word k ltac:(lia))) as (m & E & O & [B1 B2 B3 B4 B5 B6 B7 B8]). exists m. split; [done|]. split; [by apply (touched_only _ _ _ i); [apply at_missing; lia|]|].
  apply holes_app. split; [done|]. by split.
Qed.

Lemma removed_last : pre = [] -> post = [] -> remove_hole (blk i) s = Ok (true, s).
Proof.
  intros H1 H2. destruct at_get as (_ & E2 & E3). unfold remove_hole. rewrite (bind_ok _ _ _ _ _ E3), (bind_ok _ _ _ _ _ E2), at_last_zero, at_first_zero.
  rewrite !bool_decide_true by done. done.
Qed.

(** The lists before and behind the hole, with [nx] and [pv] where they point to it. *)
Record around (m : mem) (nx pv : Z) : Prop := {
  ar_whole : whole m;
  ar_pre : holes m 0 pre nx;
  ar_post : holes m pv post 0;
}.

Lemma around_only m m' xs nx pv : around m nx pv -> only m m' xs -> Forall (fun x => (i <= x < j)%nat) xs -> around m' nx pv.
Proof.
  intros [W P Q] O F. destruct at_range as (Hij & Hj & H & H2 & H3). pose proof (sorted_before _ _ _ _ H) as Hb. pose proof (sorted_after _ _ j H2 ltac:(lia)) as Ha.
  split; [by eapply only_whole| |]; (eapply holes_only; [exact O|eassumption| |eassumption]); (eapply Forall_impl; [exact F|]); intros x Hx; cbn beta in *; (split; [lia|]).
  - eapply Forall_impl; [exact Hb|]. intros h. cbn. lia.
  - eapply Forall_impl; [exact Ha|]. intros h. cbn. lia.
Qed.

(** [m'] differs from [m] in a descriptor outside of the hole. *)
Definition outside (m m' : mem) : Prop := exists x, only m m' [x] /\ missing hs x /\ ((x < i)%nat \/ (j < x)%nat).

Lemma outside_touched m m' : outside m m' -> touched hs m m'.
Proof. intros (x & O & H & _). by eapply touched_only. Qed.
Lemma outside_node m m' x a b c : outside m m' -> (i <= x < j)%nat -> node m x a b c -> node m' x a b c.
Proof.
  intros (y & O & Hy & H) Hx. destruct at_range as (? & ? & _). pose proof (missing_from _ _ _ (at_sorted _ _ _ _ _ _ A) Hy). apply (node_only _ _ [y]); [done|lia|]. repeat constructor; lia.
Qed.

Lemma link_prev t nx pv v : around (pkt_buff t) nx pv -> post <> [] ->
  exists m, set_prev_hole (first_of post 0) v t = Ok (tt, with_buff m t) /\ outside (pkt_buff t) m /\ around m nx v.
Proof.
  intros [W P Q] Hne. destruct at_range as (Hij & Hj & H & H2 & H3). destruct post as [|[i2 j2] post'] eqn:Ep; [done|]. cbn [first_of].
  destruct (set_first_prev t i2 j2 post' pv 0 v (S j) W H2 Q) as (m & E & O & Q'). exists m. split; [done|]. pose proof H2 as H4. cbn [sorted] in H4. split.
  - exists i2. split; [done|]. split; [|lia]. rewrite Ep. apply missing_app. right. apply missing_cons. right. apply missing_cons. left. lia.
  - split; [by eapply only_whole| |by rewrite Ep]. eapply holes_only; [exact O|exact H3| |exact P]. repeat constructor; [lia|].
    eapply Forall_impl; [exact (sorted_before _ _ _ _ H)|]. intros h. cbn. lia.
Qed.

Lemma link_next t nx pv v : around (pkt_buff t) nx pv -> pre <> [] ->
  exists m, set_next_hole (last_of 0 pre) v t = Ok (tt, with_buff m t) /\ outside (pkt_buff t) m /\ around m v pv.
Proof.
  intros [W P Q] Hne. destruct at_range as (Hij & Hj & H & H2 & H3). destruct (exists_last Hne) as (pre' & [i1 j1] & Ep). rewrite Ep in *. rewrite last_of_snoc.
  destruct (set_last_next t i1 j1 pre' 0 nx v 0 W H3 P) as (m & E & O & P'). exists m. split; [done|]. pose proof (sorted_before _ _ _ _ H) as Hb. apply Forall_app in Hb as [_ Hb]. apply Forall_cons in Hb as [Hb _]. cbn in Hb.
  pose proof H3 as H4. apply sorted_holes_app in H4 as [_ H4]. cbn [sorted] in H4. split.
  - exists i1. split; [done|]. split; [|lia]. rewrite Ep. apply missing_app. left. apply missing_app. right. apply missing_cons. left. lia.
  - split; [by eapply only_whole|by rewrite Ep|]. eapply holes_only; [exact O|exact H2| |exact Q]. repeat constructor; [lia|].
    eapply Forall_impl; [exact (sorted_after _ _ i1 H2 ltac:(lia))|]. intros h. cbn. lia.
Qed.

Lemma at_around : around m0 (blk i) (blk i).
Proof. destruct A. by split. Qed.

Lemma at_first_app l : pre <> [] -> first_hole s = first_of (pre ++ l) 0.
Proof. intros Hne. rewrite (at_first _ _ _ _ _ _ A). by destruct pre as [|[? ?] ?]. Qed.

(** [remove_hole], with another hole left. *)
Lemma removed_ok : pre <> [] \/ post <> [] -> exists m, remove_hole (blk i) s = Ok (false, Defrag m (first_of (pre ++ post) 0) (total_len s)) /\ touched hs m0 m /\ holes m 0 (pre ++ post) 0.
Proof.
  intros Hne. destruct at_get as (_ & E2 & E3). unfold remove_hole. rewrite (bind_ok _ _ _ _ _ E3), (bind_ok _ _ _ _ _ E2), at_last_zero, at_first_zero.
  pose proof at_around as Ar. destruct at_range as (Hij & Hj & _).
  destruct (decide (pre = [])) as [Hpre|Hpre]; [rewrite (bool_decide_true (pre = [])) by done|rewrite (bool_decide_false (pre = [])) by done];
    (destruct (decide (post = [])) as [Hpost|Hpost]; [rewrite (bool_decide_true (post = [])) by done|rewrite (bool_decide_false (post = [])) by done]); cbn [andb].
  - by destruct Hne.
  - set (s1 := Defrag m0 (first_of post 0) (total_len s)). destruct (link_prev s1 _ _ 0 Ar Hpost) as (m & E & O & [W P Q]).
    exists m. rewrite (bind_ok _ _ s tt (with_buff m s1)); [|by rewrite (bind_ok (set_first_hole _) _ s tt s1)]. assert (Eh : pre ++ post = post) by (by rewrite Hpre). rewrite Eh. split; [done|]. split; [by apply outside_touched|]. exact Q.
  - destruct (link_next s _ _ 0 Ar Hpre) as (m & E & O & [W P Q]). exists m. rewrite (bind_ok _ _ _ _ _ E). assert (Eh : pre ++ post = pre) by (by rewrite Hpost, app_nil_r). rewrite Eh. split; [|split; [by apply outside_touched|done]].
    unfold with_buff. by rewrite (at_first_app []), app_nil_r by done.
  - destruct (link_prev s _ _ (last_of 0 pre) Ar Hpost) as (m1 & E & O & Ar1). set (s1 := with_buff m1 s) in *.
    pose proof (outside_node _ _ i _ _ _ O (conj (le_n i) Hij) (at_node _ _ _ _ _ _ A)) as Hn1.
    destruct (node_get s1 i _ _ _ Hn1 (at_end _ _ _ _ _ _ A) ltac:(destruct at_range as (_ & _ & _ & H & _); by eapply first_of_bound) at_last) as (_ & G2 & G3).
    destruct (link_next s1 _ _ (first_of post 0) Ar1 Hpre) as (m2 & E' & O' & [W P Q]). exists m2.
    rewrite (bind_ok _ _ s tt (with_buff m2 s1)); [|rewrite (bind_ok _ _ _ _ _ E), (bind_ok _ _ _ _ _ G3), (bind_ok _ _ _ _ _ G2); exact E'].
    split; [|split; [eapply touched_trans; by apply outside_touched|]].
    + unfold with_buff, s1. cbn [first_hole total_len with_buff]. by erewrite at_first_app by done.
    + apply holes_app. by split.
Qed.

(** [move_hole]: the hole now begins a piece later. *)
Lemma moved_ok : e = hend j -> (S i < j)%nat -> exists m, move_hole (blk (S i)) (blk i) s = Ok (tt, Defrag m (first_of (pre ++ (S i, j) :: post) 0) (total_len s)) /\
  touched hs m0 m /\ holes m 0 (pre ++ (S i, j) :: post) 0.
Proof.
  intros He Hi. destruct at_range as (Hij & Hj & _ & Hpo & _). unfold move_hole.
  destruct (copy_hole_ok s i (S i) _ _ _ (at_whole _ _ _ _ _ _ A) ltac:(lia) ltac:(lia) (at_node _ _ _ _ _ _ A) (at_end _ _ _ _ _ _ A) (first_of_bound _ _ Hpo) at_last) as (m1 & E1 & O1 & N1).
  rewrite (bind_ok _ _ _ _ _ E1). set (s1 := with_buff m1 s). pose proof (around_only _ _ _ _ _ at_around O1 ltac:(repeat constructor; lia)) as Ar1.
  destruct (node_get s1 (S i) _ _ _ N1 (at_end _ _ _ _ _ _ A) (first_of_bound _ _ Hpo) at_last) as (_ & G2 & _). rewrite (bind_ok _ _ _ _ _ G2), at_first_zero.
  assert (K : exists m2, (if negb (bool_decide (post = [])) then set_prev_hole (first_of post 0) (blk (S i)) else mret tt) s1 = Ok (tt, with_buff m2 s) /\
    touched hs m1 m2 /\ node m2 (S i) e (first_of post 0) (last_of 0 pre) /\ around m2 (blk i) (blk (S i))).
  { destruct (decide (post = [])) as [Hpost|Hpost].
    - rewrite bool_decide_true by done. exists m1. split; [done|]. split; [apply touched_refl|]. split; [done|]. destruct Ar1 as [W P Q]. split; [done|done|]. by rewrite Hpost.
    - rewrite bool_decide_false by done. destruct (link_prev s1 _ _ (blk (S i)) Ar1 Hpost) as (m2 & E2 & O2 & Ar2). exists m2. split; [exact E2|]. split; [by apply outside_touched|].
      split; [eapply outside_node; [exact O2|lia|exact N1]|done]. }
  destruct K as (m2 & E2 & T2 & N2 & Ar2). rewrite (bind_ok _ _ _ _ _ E2). set (s2 := with_buff m2 s) in *.
  destruct (node_get s2 (S i) _ _ _ N2 (at_end _ _ _ _ _ _ A) (first_of_bound _ _ Hpo) at_last) as (_ & _ & G3). rewrite (bind_ok _ _ _ _ _ G3), at_last_zero.
  assert (T1 : touched hs m0 m2) by (eapply touched_trans; [apply (touched_only _ _ _ (S i)); [apply at_missing; lia|exact O1]|exact T2]).
  destruct (decide (pre = [])) as [Hpre|Hpre].
  - rewrite bool_decide_true by done. cbn [negb]. exists m2. unfold s2, set_first_hole, modify, with_buff. cbn [pkt_buff total_len].
    assert (Eu : u16 (blk (S i)) = blk (S i)) by (unfold u16; apply Z.mod_small, blk_bound; lia). rewrite Eu. split; [by rewrite Hpre|]. split; [done|]. apply holes_app. split; [by rewrite Hpre|]. cbn [holes]. rewrite <- He. split; [done|]. by destruct Ar2.
  - rewrite bool_decide_false by done. cbn [negb]. destruct (link_next s2 _ _ (blk (S i)) Ar2 Hpre) as (m3 & E3 & O3 & [W P Q]). exists m3. rewrite E3.
    assert (N3 : node m3 (S i) e (first_of post 0) (last_of 0 pre)) by (eapply outside_node; [exact O3|lia|exact N2]).
    split; [|split; [eapply touched_trans; [exact T1|by apply outside_touched]|]].
    + unfold s2, with_buff. cbn [first_hole total_len]. by erewrite at_first_app by done.
    + apply holes_app. split; [done|]. cbn [holes]. rewrite <- He. split; [done|exact Q].
Qed.

(** [split_hole]: a piece in the middle has come. *)
Lemma split_ok k : e = hend j -> (i < k)%nat -> (S k < j)%nat -> exists m, split_hole (blk (S k)) (blk i) (o k) s = Ok (tt, with_buff m s) /\
  touched hs m0 m /\ holes m 0 (pre ++ (i, k) :: (S k, j) :: post) 0.
Proof.
  intros He Hi Hk. destruct at_range as (Hij & Hj & _ & Hpo & _). unfold split_hole.
  destruct (copy_hole_ok s i (S k) _ _ _ (at_whole _ _ _ _ _ _ A) ltac:(lia) ltac:(lia) (at_node _ _ _ _ _ _ A) (at_end _ _ _ _ _ _ A) (first_of_bound _ _ Hpo) at_last) as (m1 & E1 & O1 & N1).
  rewrite (bind_ok _ _ _ _ _ E1). set (s1 := with_buff m1 s).
  assert (M1 : node m1 i e (first_of post 0) (last_of 0 pre)) by (eapply node_only; [exact O1|lia| |apply A]; repeat constructor; lia).
  assert (Hek : hend k = o k) by (unfold hend; destruct (Nat.eqb_spec k N); [lia|done]).
  pose proof (only_whole _ _ _ O1 (at_whole _ _ _ _ _ _ A)) as W1.
  destruct (set_end_ok s1 i _ _ _ (o k) W1 ltac:(lia) M1) as (m2 & E2 & O2 & M2). rewrite (bind_ok _ _ _ _ _ E2). set (s2 := with_buff m2 s1) in *. pose proof (only_whole _ _ _ O2 W1) as W2.
  destruct (set_next_ok s2 i _ _ _ (blk (S k)) W2 ltac:(lia) M2) as (m3 & E3 & O3 & M3). rewrite (bind_ok _ _ _ _ _ E3). set (s3 := with_buff m3 s2) in *. pose proof (only_whole _ _ _ O3 W2) as W3.
  assert (N3 : node m3 (S k) e (first_of post 0) (last_of 0 pre)).
  { eapply node_only; [exact O3|lia|repeat constructor; lia|]. eapply node_only; [exact O2|lia|repeat constructor; lia|]. exact N1. }
  destruct (set_prev_ok s3 (S k) _ _ _ (blk i) W3 ltac:(lia) N3) as (m4 & E4 & O4 & N4). rewrite (bind_ok _ _ _ _ _ E4). set (s4 := with_buff m4 s3) in *.
  assert (M4 : node m4 i (o k) (blk (S k)) (last_of 0 pre)) by (eapply node_only; [exact O4|lia|repeat constructor; lia|exact M3]).
  assert (Ar4 : around m4 (blk i) (blk i)).
  { eapply around_only; [|exact O4|repeat constructor; lia]. eapply around_only; [|exact O3|repeat constructor; lia]. eapply around_only; [|exact O2|repeat constructor; lia].
    eapply around_only; [exact at_around|exact O1|repeat constructor; lia]. }
  assert (T4 : touched hs m0 m4).
  { eapply touched_trans; [|by apply (touched_only _ _ _ (S k)); [apply at_missing; lia|exact O4]]. eapply touched_trans; [|by apply (touched_only _ _ _ i); [apply at_missing; lia|exact O3]].
    eapply touched_trans; [|by apply (touched_only _ _ _ i); [apply at_missing; lia|exact O2]]. apply (touched_only _ _ _ (S k)); [apply at_missing; lia|exact O1]. }
  destruct (node_get s4 (S k) _ _ _ N4 (at_end _ _ _ _ _ _ A) (first_of_bound _ _ Hpo) (blk_bound i ltac:(lia))) as (_ & G2 & _). rewrite (bind_ok _ _ _ _ _ G2), at_first_zero.
  rewrite <- Hek in M4. rewrite He in N4. destruct (decide (post = [])) as [Hpost|Hpost].
  - rewrite bool_decide_true by done. exists m4. split; [done|]. split; [done|]. destruct Ar4 as [W P Q]. apply holes_app. do 3 (split; [done|]). by rewrite Hpost.
  - rewrite bool_decide_false by done. cbn [negb]. destruct (link_prev s4 _ _ (blk (S k)) Ar4 Hpost) as (m5 & E5 & O5 & [W P Q]). exists m5. split; [exact E5|].
    split; [eapply touched_trans; [exact T4|by apply outside_touched]|]. apply holes_app. split; [done|]. split; [eapply outside_node; [exact O5|lia|exact M4]|].
    split; [eapply outside_node; [exact O5|lia|exact N4]|exact Q].
Qed.

End Hole.


(** ** A fragment comes *)

Definition one_list (hs : list (nat * nat)) : Prop := (exists j, hs = [(0%nat, j)]) \/ Forall (fun h => (1 <= fst h)%nat) hs.

(** The holes without piece [k]. *)
Record holes_without (m : mem) (f : Z) (hs hs' : list (nat * nat)) (k : nat) : Prop := {
  hw_holes : holes m 0 hs' 0;
  hw_first : f = first_of hs' 0;
  hw_sorted : sorted 0 hs';
  hw_one : one_list hs';
  hw_ne : hs' <> [];
  hw_missing : forall x, missing hs' x <-> missing hs x /\ x <> k;
}.

Lemma blk_le a b : (b < N)%nat -> (a <= b)%nat -> blk a <= blk b.
Proof. intros Hb Hab. pose proof (off_le a b Hab ltac:(lia)). pose proof (blk_off a ltac:(lia)). pose proof (blk_off b Hb). lia. Qed.
Lemma blk_lt a b : (b < N)%nat -> (a < b)%nat -> blk a < blk b.
Proof. intros Hb Hab. pose proof (off_mono a b Hab ltac:(lia)). pose proof (blk_off a ltac:(lia)). pose proof (blk_off b Hb). lia. Qed.

Lemma piece_blocks k d : ds !! k = Some d -> (S k < N)%nat -> blk k + Z.quot (Z.of_nat (length d)) 8 = blk (S k).
Proof.
  intros E H. pose proof (off_next _ _ E). pose proof (blk_off k ltac:(lia)). pose proof (blk_off (S k) H). rewrite Z.quot_div_nonneg by lia.
  assert (Z.of_nat (length d) = 8 * (blk (S k) - blk k)) as -> by lia. rewrite (Z.mul_comm 8), Z.div_mul by lia. lia.
Qed.

Section Fix.
Context (s : defrag) (pre : list (nat * nat)) (i j : nat) (post : list (nat * nat)) (e : Z) (A : hole_at s pre i j post e).
Context (k : nat) (Hk : (k < N)%nat) (Hik : (i <= k <= j)%nat).
Context (Hone : one_list (pre ++ (i, j) :: post)) (Hzero : i = 0%nat -> k = 0%nat \/ (j <= S k)%nat).
Abbreviation hs := (pre ++ (i, j) :: post).

Lemma missing_post x : missing post x -> (j < x)%nat.
Proof. destruct (at_range _ _ _ _ _ _ A) as (_ & _ & _ & H & _). intros Hm. pose proof (missing_from _ _ _ H Hm). lia. Qed.
Lemma missing_pre x : missing pre x -> (x < i)%nat.
Proof. destruct (at_range _ _ _ _ _ _ A) as (_ & _ & H & _). by apply (missing_before 0 _ i j). Qed.

Lemma missing_cut l : (forall x, missing l x <-> (i <= x < j)%nat /\ x <> k) -> forall x, missing (pre ++ l ++ post) x <-> missing hs x /\ x <> k.
Proof.
  intros Hl x. rewrite !missing_app, missing_cons, Hl. pose proof (missing_pre x). pose proof (missing_post x). destruct (at_range _ _ _ _ _ _ A) as (Hij & _). split.
  - intros [H1|[[H1 H2]|H1]]; [split; [by left|]|split; [right; by left|done]|split; [right; by right|]]; intros ->; [apply H in H1|apply H0 in H1]; lia.
  - intros [[H1|[H1|H1]] H2]; auto.
Qed.

Lemma sorted_cut l : (forall a, (a <= i)%nat -> sorted a l) -> (forall x y, last l = Some (x, y) -> (y <= j)%nat) -> sorted 0 (pre ++ l ++ post).
Proof.
  intros Hl Hlast. destruct (at_range _ _ _ _ _ _ A) as (Hij & Hj & H1 & H2 & H3). apply sorted_holes_app. split; [done|]. apply sorted_holes_app in H1 as [_ H1]. cbn [sorted] in H1.
  apply sorted_holes_app. split; [apply Hl; lia|]. assert (G : forall a b, (a <= b)%nat -> sorted b post -> sorted a post).
  { intros a b Hab. destruct post as [|[i2 j2] p2]; [done|]. cbn [sorted]. intros (? & ? & ?). split_and!; try done; lia. }
  destruct (last l) as [[x y]|] eqn:El; [apply (G _ (S j)); [|done]; specialize (Hlast x y eq_refl); lia|apply (G _ (S j)); [lia|done]].
Qed.

Lemma one_cut l : (l = [] \/ exists y, l = [(i, y)] \/ l = [(S k, y)] \/ (0 < i)%nat /\ exists z, l = [(i, y); (S k, z)]) -> one_list (pre ++ l ++ post).
Proof.
  intros Hl. destruct Hone as [[j' E]|F].
  - assert (pre = [] /\ post = [] /\ i = 0%nat) as (-> & -> & ->).
    { destruct pre as [|[? ?] [|? ?]]; try done. by injection E as [= -> _ ->]. }
    cbn [app]. rewrite app_nil_r. destruct Hl as [->|(y & [->|[->|[Hi _]]])]; [right; apply Forall_nil_2|left; by eexists|right; apply Forall_singleton; cbn; lia|lia].
  - right. apply Forall_app in F as [F1 F2]. apply Forall_cons in F2 as [F2 F3]. cbn in F2. apply Forall_app. split; [done|]. apply Forall_app. split; [|done].
    destruct Hl as [->|(y & [->|[->|(_ & z & ->)]])]; repeat constructor; cbn; lia.
Qed.

Lemma cut_ok l m f : holes m 0 (pre ++ l ++ post) 0 -> f = first_of (pre ++ l ++ post) 0 -> (forall a, (a <= i)%nat -> sorted a l) ->
  (forall x y, last l = Some (x, y) -> (y <= j)%nat) -> (l = [] \/ exists y, l = [(i, y)] \/ l = [(S k, y)] \/ (0 < i)%nat /\ exists z, l = [(i, y); (S k, z)]) ->
  (forall x, missing l x <-> (i <= x < j)%nat /\ x <> k) -> pre ++ l ++ post <> [] -> exists hs', holes_without m f hs hs' k.
Proof.
  intros Hh Hf Hs Hl Ho Hm Hn. exists (pre ++ l ++ post). split; [done|done|by apply sorted_cut|by apply one_cut|done|by apply missing_cut].
Qed.

(** What [fix_holes] does, for a fragment that is not behind the hole. *)
Lemma fix_holes_ok d : ds !! k = Some d -> (if (j <=? S k)%nat then e <= o k + Z.of_nat (length d) else e = hend j) ->
  exists m f r, fix_holes (blk i) (blk k) (Z.of_nat (length d)) s = Ok (r, Defrag m f (total_len s)) /\ touched hs (pkt_buff s) m /\
    ((r = true /\ hs = [(k, S k)]) \/ (r = false /\ exists hs', holes_without m f hs hs' k)).
Proof.
  intros E He. destruct (at_range _ _ _ _ _ _ A) as (Hij & Hj & H1 & H2 & H3). destruct (at_get _ _ _ _ _ _ A) as (G & _). unfold fix_holes. rewrite (bind_ok _ _ _ _ _ G).
  pose proof (off_next _ _ E) as Hnext. rewrite (Z.mul_comm (blk k)), <- (blk_off k Hk).
  assert (Hi : (blk k <=? blk i) = (k =? i)%nat).
  { destruct (Nat.eqb_spec k i) as [->|]; [apply Z.leb_refl|]. apply Z.leb_gt, blk_lt; lia. }
  assert (Hend : (e <=? o k + Z.of_nat (length d)) = (j <=? S k)%nat).
  { destruct (Nat.leb_spec j (S k)); [by apply Z.leb_le|]. apply Z.leb_gt. rewrite He. unfold hend. destruct (Nat.eqb_spec j N) as [EN|]; [|pose proof (off_mono (S k) j ltac:(lia) Hj); lia].
    pose proof off_n. pose proof (off_mono (S k) N ltac:(lia) ltac:(lia)). unfold IP_MAXUDP, IP_PKTSIZE, CONFIG_NET_MAXDEFRAG, IP_HDR_SIZE_NO_UDP in *. lia. }
  rewrite Hi, Hend. clear Hi Hend. destruct (Nat.eqb_spec k i) as [Hki|Hki]; destruct (Nat.leb_spec j (S k)) as [Hji|Hji]; cbn [andb].
  - assert (Ej : j = S k) by lia. destruct (decide (pre = [] /\ post = [])) as [[Hpre Hpost]|Hsome].
    + exists (pkt_buff s), (first_hole s), true. rewrite (removed_last _ _ _ _ _ _ A Hpre Hpost). split; [by destruct s|]. split; [apply touched_refl|]. left. by rewrite Hpre, Hpost, Ej, Hki.
    + assert (Hsome' : pre <> [] \/ post <> []) by (destruct (decide (pre = [])); [right; intros ?; by apply Hsome|by left]).
      destruct (removed_ok _ _ _ _ _ _ A Hsome') as (m & Em & T & Hh). exists m, (first_of (pre ++ post) 0), false. split; [exact Em|]. split; [done|]. right. split; [done|].
      apply (cut_ok []); try done; [by left| |].
      * intros x. split; [by intros ?%missing_nil|]. lia.
      * cbn [app]. intros [? ?]%app_eq_nil. by apply Hsome.
  - destruct (moved_ok _ _ _ _ _ _ A He ltac:(lia)) as (m & Em & T & Hh). assert (ES : S i = S k) by lia. rewrite ES in *. rewrite (piece_blocks k d E) by lia. rewrite (bind_ok _ _ _ _ _ Em).
    eexists m, _, false. split; [reflexivity|]. split; [done|]. right. split; [done|]. apply (cut_ok [(S k, j)]); try done.
    + intros a Ha. cbn [sorted]. lia.
    + intros x y [= _ ->]. lia.
    + right. exists j. right. by left.
    + intros x. rewrite missing_cons. pose proof (missing_nil x). split; [intros [?|?]; [lia|done]|]. intros ?. left. lia.
    + by destruct pre.
  - destruct (shortened_ok _ _ _ _ _ _ A k ltac:(lia) ltac:(lia)) as (m & Em & T & Hh). rewrite (bind_ok _ _ _ _ _ Em).
    exists m, (first_hole s), false. split; [reflexivity|]. split; [done|]. right. split; [done|]. apply (cut_ok [(i, k)]); try done.
    + rewrite (at_first _ _ _ _ _ _ A). by destruct pre as [|[? ?] ?].
    + intros a Ha. cbn [sorted]. lia.
    + intros x y [= _ ->]. lia.
    + right. exists k. by left.
    + intros x. rewrite missing_cons. pose proof (missing_nil x). split; [intros [?|?]; [lia|done]|]. intros ?. left. lia.
    + by destruct pre.
  - destruct (split_ok _ _ _ _ _ _ A k He ltac:(lia) ltac:(lia)) as (m & Em & T & Hh). rewrite (piece_blocks k d E) by lia. rewrite (bind_ok _ _ _ _ _ Em).
    exists m, (first_hole s), false. split; [reflexivity|]. split; [done|]. right. split; [done|]. apply (cut_ok [(i, k); (S k, j)]); try done.
    + rewrite (at_first _ _ _ _ _ _ A). by destruct pre as [|[? ?] ?].
    + intros a Ha. cbn [sorted]. lia.
    + intros x y [= _ ->]. lia.
    + right. exists k. right. right. split; [lia|]. by exists j.
    + intros x. rewrite !missing_cons. pose proof (missing_nil x). split; [intros [?|[?|?]]; [lia|lia|done]|]. intros ?. destruct (decide (x < k)%nat); [left|right; left]; lia.
    + by destruct pre.
Qed.
End Fix.


(** ** The buffer while fragments come *)

(** The pieces [R] have come; [hd] is the header that was kept. *)
Record assembling (s : defrag) (hs : list (nat * nat)) (R : list nat) (hd : list Z) : Prop := {
  as_whole : whole (pkt_buff s);
  as_sorted : sorted 0 hs;
  as_holes : holes (pkt_buff s) 0 hs 0;
  as_first : first_hole s = first_of hs 0;
  as_one : one_list hs;
  as_ne : hs <> [];
  as_missing : forall x, (x < N)%nat -> (missing hs x <-> ~ x ∈ R);
  as_total : total_len s = if decide ((N - 1)%nat ∈ R) then o N else 0xffff;
  as_data : forall x d, x ∈ R -> ds !! x = Some d -> bytes_at (pkt_buff s) (20 + o x) d;
  as_head : bytes_at (pkt_buff s) 0 hd;
}.

Lemma again s hs R hd k : assembling s hs R hd -> k ∈ R -> assembling s hs (k :: R) hd.
Proof.
  intros A Hk. assert (E : forall x, x ∈ k :: R <-> x ∈ R) by (intros x; rewrite elem_of_cons; split; [intros [->|?]; done|by right]).
  destruct A. split; try done.
  - intros x Hx. rewrite E. auto.
  - rewrite as_total0. destruct (decide ((N - 1)%nat ∈ R)) as [H1|H1], (decide ((N - 1)%nat ∈ k :: R)) as [H2|H2]; try done; rewrite E in H2; done.
  - intros x d Hx. rewrite E in Hx. auto.
Qed.

Lemma missing_exists a hs : sorted a hs -> hs <> [] -> exists x, (x < N)%nat /\ missing hs x.
Proof. destruct hs as [|[i j] hs]; [done|]. cbn [sorted]. intros (? & ? & _) _. exists i. split; [lia|]. apply missing_cons. left. lia. Qed.

Lemma touched_data hs m m' x d : touched hs m m' -> sorted 0 hs -> ~ missing hs x -> ds !! x = Some d -> bytes_at m (20 + o x) d -> bytes_at m' (20 + o x) d.
Proof.
  intros (xs & [O _] & F) Hs Hx Ed. apply bytes_at_agree. intros a Ha. apply O. eapply Forall_impl; [exact F|]. intros y Hy. cbn beta in *.
  pose proof (missing_from _ _ _ Hs Hy). pose proof (off_next _ _ Ed). rewrite place_off by lia. assert (x <> y) by congruence. pose proof (lookup_lt_Some _ _ _ Ed).
  destruct (Nat.lt_total x y) as [Hc|[Hc|Hc]]; [pose proof (off_le (S x) y ltac:(lia) ltac:(lia)); lia|done|pose proof (off_mono y x Hc ltac:(lia)); lia].
Qed.

Lemma touched_head hs m m' hd : touched hs m m' -> sorted 0 hs -> length hd = 20%nat -> bytes_at m 0 hd -> bytes_at m' 0 hd.
Proof.
  intros (xs & [O _] & F) Hs Hl. apply bytes_at_agree. intros a Ha. apply O. eapply Forall_impl; [exact F|]. intros y Hy. cbn beta in *.
  pose proof (missing_from _ _ _ Hs Hy). rewrite place_off by lia. pose proof (off_le 0 y ltac:(lia) ltac:(lia)). rewrite off_0 in *. lia.
Qed.

(** The data of piece [k] is written between the descriptors. *)
Lemma holes_data m a hs pv k d : sorted a hs -> ~ missing hs k -> ds !! k = Some d -> holes m pv hs 0 -> holes (write_bytes m (place k) d) pv hs 0.
Proof.
  intros Hs Hk Ed. pose proof (lookup_lt_Some _ _ _ Ed) as Hkn. pose proof (off_next _ _ Ed). revert a pv Hs Hk. induction hs as [|[i j] hs IH]; intros a pv Hs Hk Hh; [done|]. cbn [holes sorted] in *.
  destruct Hs as (Hi & Hj & Hs), Hh as [(N1 & N2 & N3) Hh]. rewrite missing_cons in Hk. split; [|apply (IH (S j)); try done; tauto].
  assert (G : place i + 8 <= place k \/ place k + Z.of_nat (length d) <= place i).
  { rewrite !place_off by lia. destruct (Nat.lt_total i k) as [Hc|[->|Hc]]; [left; pose proof (off_mono i k Hc ltac:(lia)); lia|exfalso; apply Hk; left; lia|right; pose proof (off_le (S k) i ltac:(lia) ltac:(lia)); lia]. }
  split; [|split]; apply bytes_at_write; try done; cbn [length le16]; lia.
Qed.

(** All pieces, one after the other. *)
Lemma all_data m : (forall x d, ds !! x = Some d -> bytes_at m (20 + o x) d) -> bytes_at m 20 (concat ds).
Proof.
  intros H. assert (G : forall k, (k <= N)%nat -> bytes_at m 20 (concat (take k ds))); [|rewrite <- (take_ge ds N) by done; by apply G].
  induction k as [|k IH]; intros Hk; [done|]. destruct (lookup_lt_is_Some_2 ds k ltac:(lia)) as [d E]. rewrite (take_S_r _ _ _ E), concat_app. apply bytes_at_app. split; [apply IH; lia|].
  cbn [concat]. rewrite app_nil_r. by apply H.
Qed.

(** The length of the whole packet goes into the header. *)
Definition whole_packet (hd : list Z) : list Z := take 2 hd ++ be16 (o N) ++ drop 4 hd ++ concat ds.

Lemma hole_at_of s hs R hd pre i j post : assembling s hs R hd -> hs = pre ++ (i, j) :: post -> hole_at s pre i j post (hend j).
Proof.
  intros [] E. rewrite E in *. apply holes_app in as_holes0 as [H1 [H2 H3]]. pose proof as_sorted0 as H4. apply sorted_holes_app in H4 as [_ H4]. cbn [sorted] in H4. split; try done.
  - apply hend_word. lia.
  - rewrite as_first0. by destruct pre as [|[? ?] ?].
  - destruct as_one0 as [[j' E1]|F]; [left|by right]. destruct pre as [|[? ?] [|? ?]]; try done. by injection E1 as _ _ ->.
Qed.


Definition finished (s : defrag) (hd : list Z) : Prop := whole (pkt_buff s) /\ bytes_at (pkt_buff s) 0 (whole_packet hd).

Lemma same_len (k : nat) d : ds !! k = Some d -> Forall byte d.
Proof. intros E. destruct Hds as (_ & F & _). rewrite Forall_forall in F. apply F. by eapply list_elem_of_lookup_2. Qed.

(** The data of piece [k] joins that of the others, and the header stays. *)
Lemma data_next s hs R hd m k d : assembling s hs R hd -> touched hs (pkt_buff s) m -> ds !! k = Some d ->
  forall x dx, x ∈ k :: R -> ds !! x = Some dx -> bytes_at (write_bytes m (place k) d) (20 + o x) dx.
Proof.
  intros A T Ed x dx Hx Edx. pose proof (lookup_lt_Some _ _ _ Ed) as Hk. pose proof (off_next _ _ Ed) as Hn. rewrite (place_off k Hk). destruct (decide (x = k)) as [->|Hxk].
  - assert (dx = d) as -> by congruence. by apply write_bytes_at, (same_len k).
  - apply elem_of_cons in Hx as [?|Hx]; [done|]. pose proof (off_next _ _ Edx). pose proof (lookup_lt_Some _ _ _ Edx). apply bytes_at_write.
    + destruct (Nat.lt_total x k) as [Hc|[Hc|Hc]]; [pose proof (off_le (S x) k ltac:(lia) ltac:(lia)); lia|done|pose proof (off_le (S k) x ltac:(lia) ltac:(lia)); lia].
    + eapply touched_data; [exact T|apply A| |exact Edx|by apply A]. rewrite (as_missing _ _ _ _ A) by done. tauto.
Qed.

Lemma head_next s hs R hd m k d : assembling s hs R hd -> length hd = 20%nat -> touched hs (pkt_buff s) m -> ds !! k = Some d -> bytes_at (write_bytes m (place k) d) 0 hd.
Proof.
  intros A Hhd T Ed. pose proof (lookup_lt_Some _ _ _ Ed) as Hk. pose proof (off_le 0 k ltac:(lia) ltac:(lia)) as H0. rewrite off_0 in H0. rewrite (place_off k Hk).
  apply bytes_at_write; [lia|]. eapply touched_head; [exact T|apply A|done|apply A].
Qed.

Lemma total_next s hs R hd k : assembling s hs R hd -> (if (S k =? N)%nat then o N else total_len s) = if decide ((N - 1)%nat ∈ k :: R) then o N else 0xffff.
Proof.
  intros A. rewrite (as_total _ _ _ _ A). destruct Hds as (H2 & _). destruct (Nat.eqb_spec (S k) N) as [E|E].
  - by rewrite decide_True by (apply elem_of_cons; left; lia).
  - destruct (decide ((N - 1)%nat ∈ R)) as [H1|H1]; [by rewrite decide_True by (apply elem_of_cons; by right)|]. by rewrite decide_False by (rewrite elem_of_cons; intros [?|?]; [lia|done]).
Qed.

(** [hs] without piece [k] when its data has been written. *)
Lemma assembling_next s hs R hd m f hs' k d : assembling s hs R hd -> length hd = 20%nat -> touched hs (pkt_buff s) m -> holes_without m f hs hs' k -> ds !! k = Some d ->
  assembling (Defrag (write_bytes m (place k) d) f (if (S k =? N)%nat then o N else total_len s)) hs' (k :: R) hd.
Proof.
  intros A Hhd T [W1 W2 W3 W4 W5 W6] Ed. split; cbn [pkt_buff first_hole total_len]; try done.
  - apply mapped_write. exact (touched_whole _ _ _ T (as_whole _ _ _ _ A)).
  - eapply holes_data; try done. rewrite W6. tauto.
  - intros x Hx. rewrite W6, (as_missing _ _ _ _ A x Hx), elem_of_cons. tauto.
  - by eapply total_next.
  - by eapply data_next.
  - by eapply head_next.
Qed.

(** The packet is whole when all data is there. *)
Lemma whole_packet_at m hd : bytes_at m 0 hd -> length hd = 20%nat -> (forall x d, ds !! x = Some d -> bytes_at m (20 + o x) d) ->
  bytes_at (write_bytes m 2 (be16 (o N))) 0 (whole_packet hd).
Proof.
  intros Hh Hl Hd. unfold whole_packet. apply all_data in Hd. assert (E : hd = take 2 hd ++ take 2 (drop 2 hd) ++ drop 4 hd).
  { rewrite <- (take_drop 2 hd) at 1. f_equal. rewrite <- (take_drop 2 (drop 2 hd)) at 1. by rewrite drop_drop. }
  rewrite E in Hh. apply bytes_at_app in Hh as [H1 Hh]. apply bytes_at_app in Hh as [H2 H3]. rewrite !length_take, ?length_drop, Hl in *. cbn [Nat.min Nat.sub] in *.
  apply bytes_at_app. split; [apply bytes_at_write; [rewrite length_take; cbn [length be16]; lia|exact H1]|]. rewrite length_take, Hl. cbn [Nat.min Z.of_nat Z.add].
  apply bytes_at_app. split; [apply write_bytes_at; repeat constructor; apply u8_range|]. cbn [length be16 Z.of_nat].
  apply bytes_at_app. split; [apply bytes_at_write; [cbn [length be16]; lia|exact H3]|]. rewrite length_drop, Hl. apply bytes_at_write; [cbn [length be16]; lia|exact Hd].
Qed.

Lemma copy_data_ok ip d k s : ds !! k = Some d -> whole (pkt_buff s) -> get_bytes ip 20 (length d) = Ok d ->
  copy_data ip (blk k) (Z.of_nat (length d)) s = Ok (tt, with_buff (write_bytes (pkt_buff s) (place k) d) s).
Proof.
  intros Ed Hw Hg. unfold copy_data. destruct (Z.ltb_spec (Z.of_nat (length d)) 0); [lia|]. rewrite Nat2Z.id, (bind_ok (lift _) _ s d s) by (by rewrite Hg). apply on_buff_ok. fold (place k).
  apply store_bytes_ok; [|by eapply same_len]. pose proof (lookup_lt_Some _ _ _ Ed). rewrite place_off by done. pose proof (off_next _ _ Ed). pose proof (off_le (S k) N ltac:(lia) ltac:(lia)). pose proof off_n.
  pose proof (off_le 0 k ltac:(lia) ltac:(lia)). rewrite off_0 in *. unfold IP_MAXUDP, IP_HDR_SIZE_NO_UDP in *. eapply mapped_sub; [exact Hw|lia|lia].
Qed.

(** The last fragment tells the length of the packet and ends the last hole. *)
Lemma truncate_ok s pre i j post k d : hole_at s pre i j post (hend j) -> ds !! k = Some d -> (i <= k <= j)%nat ->
  exists s1 e, ((if negb (negb (S k =? N)%nat) then set_total_len (u16 (o k + Z.of_nat (length d)));; set_last_byte (blk i) (o k + Z.of_nat (length d)) else mret tt) : D unit) s = Ok (tt, s1) /\
    hole_at s1 pre i j post e /\ touched (pre ++ (i, j) :: post) (pkt_buff s) (pkt_buff s1) /\ total_len s1 = (if (S k =? N)%nat then o N else total_len s) /\
    (if (j <=? S k)%nat then e <= o k + Z.of_nat (length d) else e = hend j).
Proof.
  intros A Ed Hik. pose proof (lookup_lt_Some _ _ _ Ed) as Hk. pose proof (off_next _ _ Ed) as Hn. destruct (at_range _ _ _ _ _ _ A) as (Hij & Hj & _). rewrite negb_involutive.
  assert (Hm : touched (pre ++ (i, j) :: post) (pkt_buff s) (pkt_buff s)) by apply touched_refl.
  destruct (Nat.eqb_spec (S k) N) as [E|E].
  - rewrite <- Hn, E. pose proof off_n. pose proof (off_le 0 N ltac:(lia) ltac:(lia)). rewrite off_0 in *.
    assert (Hw : word16 (o N)) by (unfold word16, IP_MAXUDP, IP_PKTSIZE, CONFIG_NET_MAXDEFRAG, IP_HDR_SIZE_NO_UDP in *; lia).
    assert (Eu : u16 (o N) = o N) by (by apply Z.mod_small). rewrite Eu. set (s0 := Defrag (pkt_buff s) (first_hole s) (o N)).
    assert (A0 : hole_at s0 pre i j post (hend j)) by (by destruct A).
    destruct (at_set_end _ _ _ _ _ _ A0 (o N) Hw) as (m & Em & O & A1). exists (with_buff m s0), (o N). split; [by rewrite (bind_ok (set_total_len _) _ s tt s0)|]. split; [done|].
    split; [apply (touched_only _ _ _ i); [apply at_missing; lia|exact O]|]. split; [done|]. rewrite (proj2 (Nat.leb_le j N)) by done. done.
  - exists s, (hend j). split; [done|]. split; [done|]. split; [done|]. split; [done|]. destruct (Nat.leb_spec j (S k)); [|done]. unfold hend. destruct (Nat.eqb_spec j N); [lia|]. pose proof (off_le j (S k) ltac:(lia) ltac:(lia)). lia.
Qed.

Lemma fragment_past d k : ds !! k = Some d -> blk k + 1 <= blk k + Z.quot (Z.of_nat (length d)) 8.
Proof. intros E. destruct Hds as (_ & _ & _ & F). destruct (F _ _ E) as [H _]. rewrite Z.quot_div_nonneg by lia. zmod. Qed.


Lemma fuel_enough s hs R hd pre h post : assembling s hs R hd -> hs = pre ++ h :: post -> (length pre < hole_fuel)%nat.
Proof.
  intros A E. pose proof (sorted_length 0 hs (as_sorted _ _ _ _ A) ltac:(lia)) as H. rewrite E, length_app in H. cbn [length] in H. pose proof pieces_bound. pose proof off_n.
  unfold IP_MAXUDP, IP_PKTSIZE, CONFIG_NET_MAXDEFRAG, IP_HDR_SIZE_NO_UDP in *. unfold hole_fuel. lia.
Qed.

Lemma zero_in_turn s hs R hd pre i j post k : assembling s hs R hd -> hs = pre ++ (i, j) :: post -> in_turn N R k -> (k < N)%nat -> (k <= j)%nat -> i = 0%nat -> k = 0%nat \/ (j <= S k)%nat.
Proof.
  intros A E Ht Hk Hkj Hi. pose proof (as_sorted _ _ _ _ A) as Hs. rewrite E in Hs. apply sorted_holes_app in Hs as [_ Hs]. cbn [sorted] in Hs.
  assert (M : forall x, (i <= x < j)%nat -> ~ x ∈ R).
  { intros x Hx. rewrite <- (as_missing _ _ _ _ A x ltac:(lia)), E. apply missing_app. right. apply missing_cons. by left. }
  destruct (decide (j <= S k)%nat) as [|Hj]; [by right|]. destruct Ht as [H|[->|[H|H]]]; [|by left| |]; exfalso.
  - apply (M 0%nat); [lia|done].
  - apply (M k); [lia|done].
  - apply (M (S k)); [lia|]. apply H. lia.
Qed.

Lemma add_fragment_ok s hs R hd ip d k : assembling s hs R hd -> length hd = 20%nat -> ds !! k = Some d -> get_bytes ip 20 (length d) = Ok d -> in_turn N R k ->
  exists s' r, add_fragment ip (blk k) (Z.of_nat (length d)) (negb (S k =? N)%nat) s = Ok (r, s') /\
    ((r = None /\ (exists hs', assembling s' hs' (k :: R) hd) /\ exists x, (x < N)%nat /\ ~ x ∈ k :: R) \/
     (r = Some (o N + 20) /\ finished s' hd /\ forall x, (x < N)%nat -> x ∈ k :: R)).
Proof.
  intros A Hhd Ed Hg Ht. pose proof (lookup_lt_Some _ _ _ Ed) as Hk. unfold add_fragment. rewrite (bind_ok get _ s s s) by done. rewrite (Z.mul_comm (blk k)), <- (blk_off k Hk), (as_first _ _ _ _ A).
  assert (Hagain : ~ missing hs k -> (exists hs', assembling s hs' (k :: R) hd) /\ exists x, (x < N)%nat /\ ~ x ∈ k :: R).
  { intros Hm. rewrite (as_missing _ _ _ _ A k Hk) in Hm. apply dec_stable in Hm. split; [exists hs; by apply again|].
    destruct (missing_exists 0 hs (as_sorted _ _ _ _ A) (as_ne _ _ _ _ A)) as (x & Hx & Mx). exists x. split; [done|]. rewrite (as_missing _ _ _ _ A x Hx) in Mx. rewrite elem_of_cons. intros [->|?]; done. }
  destruct (split_holes k hs) as [Hall|(pre & i & j & post & E & Hpre & Hkj)].
  - exists s, None. destruct (exists_last (as_ne _ _ _ _ A)) as (l & h & El).
    pose proof (fuel_enough s hs R hd l h [] A El) as Hf. assert (Hl : (length hs <= hole_fuel)%nat) by (rewrite El, length_app; cbn [length]; lia).
    rewrite (bind_ok _ _ s None s) by (by apply (find_hole_none hole_fuel 0 hs 0); try apply A). split; [done|]. left. split; [done|]. apply Hagain.
    intros (i & j & Hin & Hx). rewrite Forall_forall in Hall. apply Hall in Hin. cbn in Hin. lia.
  - pose proof (hole_at_of _ _ _ _ _ _ _ _ A E) as B. destruct (at_range _ _ _ _ _ _ B) as (Hij & Hj & Q1 & Q2 & Q3).
    assert (F : find_hole hole_fuel (first_of hs 0) (o k) s = Ok (Some (blk i), s)).
    { rewrite E. eapply (find_hole_ok hole_fuel 0 pre i j post 0); try done; [rewrite <- E; apply A|rewrite <- E; apply A|by eapply fuel_enough]. }
    rewrite (bind_ok _ _ _ _ _ F). pose proof (fragment_past d k Ed). destruct (decide (k < i)%nat) as [Hki|Hki].
    + rewrite (piece_blocks k d Ed) by lia. destruct (Z.leb_spec (blk (S k)) (blk i)) as [|Hb]; [|pose proof (blk_le (S k) i ltac:(lia) ltac:(lia)); lia].
      exists s, None. split; [done|]. left. split; [done|]. apply Hagain. rewrite E, missing_app, missing_cons. intros [Hm|[Hm|Hm]]; [|lia|].
      * destruct Hm as (i' & j' & Hin & Hx). rewrite Forall_forall in Hpre. apply Hpre in Hin. cbn in Hin. lia.
      * pose proof (missing_from _ _ _ Q2 Hm). lia.
    + pose proof (blk_le i k Hk ltac:(lia)). destruct (Z.leb_spec (blk k + Z.quot (Z.of_nat (length d)) 8) (blk i)); [lia|].
      assert (Hik : (i <= k <= j)%nat) by lia. assert (Ho1 : one_list (pre ++ (i, j) :: post)) by (rewrite <- E; apply A).
      destruct (truncate_ok s pre i j post k d B Ed ltac:(lia)) as (s1 & e & E1 & B1 & T1 & L1 & He). rewrite (bind_ok _ _ _ _ _ E1).
      destruct (fix_holes_ok s1 pre i j post e B1 k Hk Hik Ho1 (zero_in_turn _ _ _ _ _ _ _ _ _ A E Ht Hk Hkj) d Ed He) as (m & f & r & E2 & T2 & Hr).
      rewrite (bind_ok _ _ _ _ _ E2). set (s2 := Defrag m f (total_len s1)). rewrite <- E in *. assert (T : touched hs (pkt_buff s) m) by (by eapply touched_trans).
      assert (W2 : whole (pkt_buff s2)) by (eapply touched_whole; [exact T|apply A]).
      rewrite (bind_ok _ _ _ _ _ (copy_data_ok ip d k s2 Ed W2 Hg)). set (s3 := with_buff _ s2). destruct Hr as [[-> Hone]|[-> [hs' Hw]]]; cbn [negb].
      * destruct (at_range _ _ _ _ _ _ B) as (_ & _ & _). assert (Hall : forall x, (x < N)%nat -> x ∈ k :: R).
        { intros x Hx. apply elem_of_cons. destruct (decide (x = k)) as [|Hxk]; [by left|]. right. apply dec_stable. rewrite <- (as_missing _ _ _ _ A x Hx), Hone, missing_cons.
          pose proof (missing_nil x). intros [?|?]; [lia|done]. }
        assert (Et : total_len s3 = o N).
        { unfold s3, s2, with_buff. cbn [total_len]. rewrite L1, (total_next _ _ _ _ k A). pose proof (proj1 Hds). rewrite decide_True by (apply Hall; lia). done. }
        rewrite (bind_ok get _ s3 s3 s3) by done. rewrite Et.
        assert (Hb : on_buff (store_bytes 2 (be16 (o N))) s3 = Ok (tt, with_buff (write_bytes (pkt_buff s3) 2 (be16 (o N))) s3)).
        { apply on_buff_ok, store_bytes_ok; [|repeat constructor; apply u8_range]. eapply (mapped_sub _ 0 IP_PKTSIZE); [by apply mapped_write|lia|by vm_compute]. }
        rewrite (bind_ok _ _ _ _ _ Hb). eexists _, _. split; [reflexivity|]. right. split; [done|]. split; [|done].
        split; [by apply mapped_write, mapped_write|]. cbn [pkt_buff with_buff]. apply whole_packet_at; [by eapply head_next|done|].
        intros x dx Edx. eapply data_next; try done. apply Hall. by eapply lookup_lt_Some.
      * exists s3, None. split; [done|]. left. split; [done|]. pose proof (assembling_next s hs R hd m f hs' k d A Hhd T Hw Ed) as A'. unfold s3, s2, with_buff. cbn [first_hole total_len pkt_buff]. rewrite L1.
        split; [by exists hs'|]. destruct (missing_exists 0 hs' (as_sorted _ _ _ _ A') (as_ne _ _ _ _ A')) as (x & Hx & Mx). exists x. split; [done|]. by rewrite (as_missing _ _ _ _ A' x Hx) in Mx.
Qed.


(** ** The first fragment *)

Lemma other_packet_new s id1 id2 ip : for_another s id1 id2 -> get8 ip 4 = Ok id1 -> get8 ip 5 = Ok id2 -> other_packet ip s = Ok (true, s).
Proof.
  intros [_ H] E1 E2. unfold other_packet. rewrite (bind_ok get _ s s s) by done. destruct (Z.eqb_spec (total_len s) 0) as [|Ht]; [done|]. destruct H as [?|(a & b & ((Ba & _) & (Bb & _) & _) & Hne)]; [done|]. change (4 + 1) with 5 in Bb.
  rewrite (bind_ok (on_buff (load8 4)) _ s a s) by (unfold on_buff; rewrite (load8_ok _ _ _ Ba); by destruct s). rewrite (bind_ok (on_buff (load8 5)) _ s b s) by (unfold on_buff; rewrite (load8_ok _ _ _ Bb); by destruct s).
  rewrite (bind_ok (lift _) _ s id1 s) by (by rewrite E1). rewrite (bind_ok (lift _) _ s id2 s) by (by rewrite E2). destruct (Z.eqb_spec a id1), (Z.eqb_spec b id2); try done. lia.
Qed.

Lemma other_packet_same s hs R hd id1 id2 ip : assembling s hs R hd -> hd !! 4%nat = Some id1 -> hd !! 5%nat = Some id2 -> get8 ip 4 = Ok id1 -> get8 ip 5 = Ok id2 -> other_packet ip s = Ok (false, s).
Proof.
  intros A H1 H2 E1 E2. unfold other_packet. rewrite (bind_ok get _ s s s) by done.
  assert (Ht : total_len s <> 0).
  { rewrite (as_total _ _ _ _ A). pose proof (proj1 Hds). pose proof (off_mono 0 N ltac:(lia) ltac:(lia)). rewrite off_0 in *. destruct (decide _); lia. }
  destruct (Z.eqb_spec (total_len s) 0) as [|_]; [done|]. destruct (bytes_at_lookup _ _ _ _ _ (as_head _ _ _ _ A) H1) as [Ba _]. destruct (bytes_at_lookup _ _ _ _ _ (as_head _ _ _ _ A) H2) as [Bb _]. change (0 + Z.of_nat 4) with 4 in Ba. change (0 + Z.of_nat 5) with 5 in Bb.
  rewrite (bind_ok (on_buff (load8 4)) _ s id1 s) by (unfold on_buff; rewrite (load8_ok _ _ _ Ba); by destruct s). rewrite (bind_ok (on_buff (load8 5)) _ s id2 s) by (unfold on_buff; rewrite (load8_ok _ _ _ Bb); by destruct s).
  rewrite (bind_ok (lift _) _ s id1 s) by (by rewrite E1). rewrite (bind_ok (lift _) _ s id2 s) by (by rewrite E2). by rewrite !Z.eqb_refl.
Qed.

Lemma reset_ok s ip hd : whole (pkt_buff s) -> Forall byte ip -> get_bytes ip 0 20 = Ok hd -> exists s1, reset ip s = Ok (tt, s1) /\ assembling s1 [(0%nat, N)] [] hd.
Proof.
  intros Hm Hb Hg. pose proof (proj1 Hds) as HN. unfold reset. assert (B0 : blk 0 = 0) by done. assert (P0 : place 0 = 20) by done.
  assert (Hl : length hd = 20%nat /\ Forall byte hd).
  { unfold get_bytes in Hg. destruct (_ <=? _)%nat eqn:El in Hg; [|done]. injection Hg as <-. apply Nat.leb_le in El. rewrite length_take, drop_0. split; [lia|by apply Forall_take]. }
  destruct Hl as [Hl Hbh]. set (s0 := Defrag (pkt_buff s) (first_hole s) 0xffff). rewrite (bind_ok (set_total_len _) _ s tt s0) by done.
  destruct (set_field_ok s0 0 0 0xffff Hm ltac:(lia) ltac:(lia)) as [E1 O1]. set (s1 := with_buff _ s0) in *. pose proof (only_whole _ _ _ O1 Hm) as W1. rewrite (bind_ok (set_last_byte 0 _) _ s0 tt s1) by exact E1.
  destruct (set_field_ok s1 0 2 0 W1 ltac:(lia) ltac:(lia)) as [E2 O2]. set (s2 := with_buff _ s1) in *. pose proof (only_whole _ _ _ O2 W1) as W2. rewrite (bind_ok (set_next_hole 0 _) _ s1 tt s2) by exact E2.
  destruct (set_field_ok s2 0 4 0 W2 ltac:(lia) ltac:(lia)) as [E3 O3]. set (s3 := with_buff _ s2) in *. pose proof (only_whole _ _ _ O3 W2) as W3. rewrite (bind_ok (set_prev_hole 0 _) _ s2 tt s3) by exact E3.
  set (s4 := Defrag (pkt_buff s3) 0 (total_len s3)). rewrite (bind_ok (set_first_hole 0) _ s3 tt s4) by done. rewrite (bind_ok (lift _) _ s4 hd s4) by (by rewrite Hg).
  exists (with_buff (write_bytes (pkt_buff s4) 0 hd) s4). split.
  - apply on_buff_ok, store_bytes_ok; [|done]. eapply mapped_sub; [exact W3|lia|rewrite Hl; by vm_compute].
  - assert (Hne : (N - 1)%nat ∉ @nil nat) by apply not_elem_of_nil. split; cbn [pkt_buff first_hole total_len with_buff]; try done.
    + by apply mapped_write.
    + cbn [sorted]. lia.
    + cbn [holes first_of]. split; [|done]. assert (He : hend N = 0xffff) by (unfold hend; by rewrite Nat.eqb_refl). rewrite He. unfold s4, s3, s2, s1, with_buff. cbn [pkt_buff]. rewrite Z.add_0_r.
      split; [|split]; repeat first [apply write_bytes_at, le16_bytes | apply bytes_at_write; [cbn [length le16]; rewrite ?Hl, ?P0; lia|]].
    + left. by exists N.
    + intros x Hx. rewrite missing_cons. split; [intros _; apply not_elem_of_nil|intros _; left; lia].
    + intros x d Hx. by apply elem_of_nil in Hx.
    + by apply write_bytes_at.
Qed.

(** ** One fragment, and all of them *)

Lemma is_fragment w k : (k < N)%nat -> Z.land w IP_OFFS = blk k -> (Z.land w IP_FLAGS_MFRAG =? 0) = (S k =? N)%nat -> Z.land w (Z.lor IP_OFFS IP_FLAGS_MFRAG) <> 0.
Proof.
  intros Hk Ho Hm. rewrite Z.land_lor_distr_r. intros [H1 H2]%Z.lor_eq_0_iff. rewrite H2 in Hm. symmetry in Hm. change (0 =? 0) with true in Hm. apply Nat.eqb_eq in Hm.
  pose proof (proj1 Hds). pose proof (blk_pos k ltac:(lia) Hk). lia.
Qed.

(** The part of [__NetDefragment] before the search. *)
Lemma fragment_enters s s1 fresh id1 id2 k ip : fragment ds id1 id2 k ip -> other_packet ip s = Ok (fresh, s) ->
  (if (fresh : bool) then reset ip s else Ok (tt, s)) = Ok (tt, s1) ->
  exists d, ds !! k = Some d /\ get_bytes ip 20 (length d) = Ok d /\
    NetDefragment ip s = (r ← add_fragment ip (blk k) (Z.of_nat (length d)) (negb (S k =? N)%nat); mret (match r with Some n => Assembled n | None => Incomplete end)) s1.
Proof.
  intros (d & w & hd & Ed & Hb & E4 & E5 & E2 & E6 & Ho & Hm & Eh & Eg) Ef Er. exists d. split; [done|]. split; [done|]. pose proof (lookup_lt_Some _ _ _ Ed) as Hk. fold (blk k) in Ho.
  unfold NetDefragment. rewrite (bind_ok (lift _) _ s w s) by (by rewrite E6). destruct (Z.eqb_spec (Z.land w (Z.lor IP_OFFS IP_FLAGS_MFRAG)) 0) as [H0|_]; [by apply (is_fragment w k Hk Ho Hm) in H0|].
  assert (E : __NetDefragment ip s = add_fragment ip (blk k) (Z.of_nat (length d)) (negb (S k =? N)%nat) s1).
  { unfold __NetDefragment. rewrite (bind_ok (lift _) _ s w s) by (by rewrite E6). cbv zeta. rewrite (bind_ok (lift _) _ s (20 + Z.of_nat (length d)) s) by (by rewrite E2). rewrite Ho, Hm.
    replace (20 + Z.of_nat (length d) - IP_HDR_SIZE_NO_UDP) with (Z.of_nat (length d)) by (unfold IP_HDR_SIZE_NO_UDP; lia).
    pose proof (off_next _ _ Ed). pose proof off_n as Hn. pose proof (off_le (S k) N ltac:(lia) ltac:(lia)). pose proof (blk_off k Hk). pose proof (off_le 0 k ltac:(lia) ltac:(lia)). rewrite off_0 in *.
    unfold IP_MAXUDP, IP_PKTSIZE, CONFIG_NET_MAXDEFRAG, IP_HDR_SIZE_NO_UDP in *. rewrite u32_small by lia. destruct (Z.ltb_spec (16384 + 100 - 20) (blk k * 8 + Z.of_nat (length d))); [lia|].
    rewrite (bind_ok _ _ _ _ _ Ef). rewrite (bind_ok _ _ s tt s1); [done|]. by destruct fresh. }
  unfold mbind, ST_bind. by rewrite E.
Qed.


Lemma feed_ok id1 id2 k0 ks : forall l0 ips s hs R hd, assembling s hs R hd -> length hd = 20%nat -> hd !! 4%nat = Some id1 -> hd !! 5%nat = Some id2 -> Forall2 (fragment ds id1 id2) ks ips -> ks <> [] ->
  (forall x, x ∈ R <-> x ∈ l0) -> good_order N (l0 ++ ks) -> (forall x, (x < N)%nat -> x ∈ l0 ++ ks) -> ~ k0 ∈ l0 ++ removelast ks -> (k0 < N)%nat ->
  exists s', feed ips s = Ok (replicate (length ks - 1) Incomplete ++ [Assembled (o N + 20)], s') /\ finished s' hd.
Proof.
  induction ks as [|k ks IH]; intros l0 ips s hs R hd A Hl H4 H5 F Hne HR Ho Hall Hk0 Hk0N; [done|]. inversion F as [|? ip ? ips' Hf F' E1 E2]; subst. cbn [feed].
  assert (G4 : get8 ip 4 = Ok id1 /\ get8 ip 5 = Ok id2) by (destruct Hf as (d & w & hdr & ? & ? & ? & ? & _); done). destruct G4 as [G4 G5].
  destruct (fragment_enters s s false id1 id2 k ip Hf (other_packet_same _ _ _ _ _ _ _ A H4 H5 G4 G5) eq_refl) as (d & Ed & Eg & En).
  assert (Ht : in_turn N R k).
  { destruct (Ho l0 k ks eq_refl) as [H|[H|[H|H]]]; [left; by apply HR|right; by left|do 2 right; left; by apply HR|do 3 right; intros x Hx; apply HR, H; done]. }
  destruct (add_fragment_ok s hs R hd ip d k A Hl Ed Eg Ht) as (s1 & r & Ea & Hr). rewrite (bind_ok _ _ _ _ _ Ea) in En.
  rewrite (bind_ok _ _ s _ s1 En). destruct ks as [|k' ks].
  - inversion F'; subst. cbn [feed length Nat.sub replicate app]. destruct Hr as [(-> & _ & x & Hx & Hxn)|(-> & Hfin & _)].
    + exfalso. apply Hxn. specialize (Hall x Hx). apply elem_of_app in Hall as [H|H]; [apply elem_of_cons; right; by apply HR|by apply list_elem_of_singleton in H as ->; apply elem_of_cons; left].
    + exists s1. split; [done|]. exact Hfin.
  - change (removelast (k :: k' :: ks)) with (k :: removelast (k' :: ks)) in Hk0. destruct Hr as [(-> & [hs' A'] & _)|(_ & _ & Hfull)].
    + destruct (IH (l0 ++ [k]) ips' s1 hs' (k :: R) hd A' Hl H4 H5 F' ltac:(discriminate)) as (s' & E' & Hfin); try (rewrite <- app_assoc; done); try done.
      { intros x. rewrite elem_of_cons, elem_of_app, list_elem_of_singleton, HR. tauto. }
      exists s'. split; [|done]. rewrite (bind_ok _ _ _ _ _ E'). cbn [length]. by rewrite !Nat.sub_succ, !Nat.sub_0_r.
    + exfalso. specialize (Hfull k0 Hk0N). apply Hk0. apply elem_of_cons in Hfull as [->|H]; apply elem_of_app; [right; apply elem_of_cons; by left|left; by apply HR].
Qed.
End Reassembly.

Lemma get8_bytes ip hd i b : get_bytes ip 0 20 = Ok hd -> (i < 20)%nat -> get8 ip i = Ok b -> hd !! i = Some b.
Proof.
  unfold get_bytes, get8, arr_get. destruct (_ <=? _)%nat; [|done]. intros [= <-] Hi. rewrite drop_0, lookup_take_lt by done. destruct (ip !! i); [by intros [= ->]|done].
Qed.

Lemma removelast_snoc {A} (l : list A) x : removelast (l ++ [x]) = l.
Proof. rewrite removelast_app by done. cbn. apply app_nil_r. Qed.

(** C14: The fragments of a packet that fits in the buffer, each but the last with a
    multiple of eight bytes and the last with eight at least, in any order in which
    the first one comes first (or all come in reverse), with repetitions, into a
    buffer that is free or holds another packet: they are incomplete until the last
    missing one comes; then the packet is assembled: the header of the fragment that
    came first, with the length of the data, and all of the data in order. A packet
    that ends in one to seven bytes is never complete, see [short_end_dropped]. *)
Theorem defrag_reassembles ds id1 id2 ks k ip ips s : fragmentation ds -> for_another s id1 id2 -> Forall2 (fragment ds id1 id2) (ks ++ [k]) (ip :: ips) ->
  good_order (length ds) (ks ++ [k]) -> (forall x, (x < length ds)%nat -> x ∈ ks ++ [k]) -> ~ k ∈ ks ->
  exists s', feed (ip :: ips) s = Ok (replicate (length ks) Incomplete ++ [Assembled (20 + Z.of_nat (length (concat ds)))], s') /\
    bytes_at (pkt_buff s') 0 (take 2 ip ++ be16 (Z.of_nat (length (concat ds))) ++ take 16 (drop 4 ip) ++ concat ds).
Proof.
  intros Hds Hs F Ho Hall Hk.
  destruct ks as [|k1 ks]; cbn [app] in *.
  { pose proof (proj1 Hds) as HN. pose proof (Hall 0%nat ltac:(lia)) as A0. pose proof (Hall 1%nat ltac:(lia)) as A1. apply list_elem_of_singleton in A0, A1. congruence. }
  inversion F as [|? ? ? ? Hf F' E1 E2]; subst. pose proof Hf as (d0 & w & hd & Ed0 & Hb & E4 & E5 & _ & _ & _ & _ & Eh & _).
  destruct (reset_ok ds Hds s ip hd (proj1 Hs) Hb Eh) as (s1 & Er & A).
  destruct (fragment_enters ds Hds s s1 true id1 id2 k1 ip Hf (other_packet_new s id1 id2 ip Hs E4 E5) Er) as (d & Ed & Eg & En).
  assert (Hhd : hd = take 20 ip /\ length hd = 20%nat).
  { unfold get_bytes in Eh. destruct (_ <=? _)%nat eqn:El in Eh; [|done]. injection Eh as <-. apply Nat.leb_le in El. rewrite drop_0, length_take. split; [done|lia]. }
  destruct Hhd as [Eip Hl]. assert (T : in_turn (length ds) [] k1) by exact (Ho [] k1 (ks ++ [k]) eq_refl).
  destruct (add_fragment_ok ds Hds s1 _ _ hd ip d k1 A Hl Ed Eg T) as (s2 & r & Ea & Hr). rewrite (bind_ok _ _ _ _ _ Ea) in En. cbn [feed]. rewrite (bind_ok _ _ s _ s2 En).
  pose proof (lookup_lt_Some _ _ _ Ed) as Hk1. assert (Hkn : (k < length ds)%nat).
  { apply Forall2_app_inv_l in F' as (i1 & i2 & _ & F2 & _). inversion F2 as [|? ? ? ? (dk & ? & ? & Edk & _)]; subst. by eapply lookup_lt_Some. }
  destruct Hr as [(-> & [hs' A'] & _)|(_ & _ & Hfull)].
  - destruct (feed_ok ds Hds id1 id2 k (ks ++ [k]) [k1] ips s2 hs' [k1] hd A' Hl) as (s' & E' & [_ Hfin]); try done.
    + by eapply get8_bytes; [exact Eh|lia|].
    + by eapply get8_bytes; [exact Eh|lia|].
    + by destruct ks.
    + rewrite removelast_snoc. exact Hk.
    + exists s'. rewrite (bind_ok _ _ _ _ _ E'). assert (En2 : off ds (length ds) = Z.of_nat (length (concat ds))) by (unfold off; by rewrite take_ge). split.
      * rewrite length_app. cbn [length]. replace (length ks + 1 - 1)%nat with (length ks) by lia. by rewrite En2, (Z.add_comm 20).
      * unfold whole_packet in Hfin. rewrite En2, Eip, take_take in Hfin. rewrite take_drop_commute. exact Hfin.
  - exfalso. specialize (Hfull k Hkn). apply elem_of_cons in Hfull as [->|H]; [|by apply elem_of_nil in H]. apply Hk. apply elem_of_cons. by left.
Qed.

(** ** Examples *)

(** The last fragment comes second, the second twice. *)
Definition three : list (list Z) := [zs "abcdefgh"; zs "ijklmnop"; zs "qrstuvwxyz"].
Definition sent : list (list Z) := [frag 7 0 true (zs "abcdefgh"); frag 7 2 false (zs "qrstuvwxyz"); frag 7 0 true (zs "abcdefgh"); frag 7 1 true (zs "ijklmnop")].

Lemma frag_is ds id off8 more data k : ds !! k = Some data -> Forall byte (frag id off8 more data) -> get16 (frag id off8 more data) 2 = Ok (20 + Z.of_nat (length data)) ->
  match get16 (frag id off8 more data) 6 with Ok w => (Z.land w IP_OFFS =? off ds k / 8) && Bool.eqb (Z.land w IP_FLAGS_MFRAG =? 0) (S k =? length ds)%nat | _ => false end = true ->
  match get_bytes (frag id off8 more data) 20 (length data) with Ok d => bool_decide (d = data) | _ => false end = true ->
  fragment ds (u8 (Z.shiftr id 8)) (u8 id) k (frag id off8 more data).
Proof.
  intros Ed Hb E2 E6 Eg. destruct (get16 _ 6) as [w| |] eqn:Ew; [|done..]. apply andb_true_iff in E6 as [Eo Em]. apply Z.eqb_eq in Eo. apply Bool.eqb_prop in Em.
  destruct (get_bytes _ 20 _) as [d| |] eqn:E20; [|done..]. apply bool_decide_eq_true in Eg as ->. exists data, w. eexists. split_and!; try done. 
Qed.


Lemma good_order_first n ks : good_order n (0%nat :: ks).
Proof. intros [|x l1] k l2 E; [by injection E as <- _; right; left|]. injection E as <- _. left. apply elem_of_cons. by left. Qed.

Lemma idle_for_another id1 id2 : for_another idle id1 id2.
Proof.
  split; [|by left]. eapply mapped_sub; [apply bytes_at_mapped, write_bytes_at, Forall_forall|lia|rewrite repeat_length; by vm_compute].
  intros b Hb. apply list_elem_of_In, repeat_spec in Hb as ->. by unfold byte.
Qed.

Lemma three_fragmentation : fragmentation three.
Proof.
  split; [cbn; lia|]. split; [apply (bool_decide_unpack _); by vm_compute|]. split; [by vm_compute|].
  intros [|[|[|k]]] d E; try done; injection E as <-; cbn; (split; [lia|intros ?; first [done|lia]]).
Qed.

Lemma defrag_reassembles_witness : exists s', feed sent idle = Ok ([Incomplete; Incomplete; Incomplete; Assembled 46], s') /\
  bytes_at (pkt_buff s') 0 (take 2 (frag 7 0 true (zs "abcdefgh")) ++ be16 26 ++ take 16 (drop 4 (frag 7 0 true (zs "abcdefgh"))) ++ zs "abcdefghijklmnopqrstuvwxyz").
Proof.
  apply (defrag_reassembles three 0 7 [0; 2; 0]%nat 1 (frag 7 0 true (zs "abcdefgh")) (tl sent) idle three_fragmentation (idle_for_another 0 7)).
  - repeat (constructor; [apply (frag_is three 7); [reflexivity|apply (bool_decide_unpack _); vm_compute; exact I|reflexivity|by vm_compute|by vm_compute]|]). constructor.
  - apply good_order_first.
  - intros [|[|[|x]]] Hx; [| | |cbn in Hx; lia]; apply (bool_decide_unpack _); by vm_compute.
  - apply (bool_decide_unpack _). by vm_compute.
Defined.

(** All of them in reverse order. *)
Example reversed : outcomes [frag 7 2 false (zs "qrstuvwxyz"); frag 7 1 true (zs "ijklmnop"); frag 7 0 true (zs "abcdefgh")] = Some [Incomplete; Incomplete; Assembled 46].
Proof. by vm_compute. Qed.

(** The first fragment is lost: 0 as an index also says that there is no hole, and so the
    packet is complete when the others have come. *)
Example first_fragment_lost : outcomes [frag 7 1 true (zs "ijklmnop"); frag 7 2 false (zs "qrstuvwxyz")] = Some [Incomplete; Assembled 46].
Proof. by vm_compute. Qed.

(** A last fragment of less than eight bytes is taken for a repetition. *)
Example short_end_dropped : outcomes [frag 7 0 true (zs "abcdefgh"); frag 7 1 false (zs "ijklmno"); frag 7 1 false (zs "ijklmno")] = Some [Incomplete; Incomplete; Incomplete].
Proof. by vm_compute. Qed.

(** A fragment is repeated after the packet was complete: its data is read as a hole. *)
Example late_repetition : feed [frag 7 0 true (zs "abcdefgh"); frag 7 1 false (zs "ijklmnop"); frag 7 1 false (zs "ijklmnop")] idle = Fault.
Proof. by vm_compute. Qed.

(** A fragment of twelve bytes that is not the last: its last four are written over the
    descriptor of the hole behind it, which another one then follows. *)
Example descriptor_overwritten : feed [frag 7 0 true (zs "abcdefgh" ++ [255; 255; 255; 255]); frag 7 2 true (zs "abcdefgh")] idle = Fault.
Proof. by vm_compute. Qed.

(** A fragment at the end of the buffer that is not the last: the descriptor is written
    behind the buffer. *)
Example hole_behind_the_end : feed [frag 7 2057 true (zs "abcdefgh")] idle = Fault.
Proof. by vm_compute. Qed.

(** A length below that of the header: [memcpy] of -8 bytes. *)
Example negative_length : feed [[0x45; 0; 0; 12; 0; 7; 0; 3; 255; 17; 0; 0; 1; 1; 1; 1; 2; 2; 2; 2; 0; 0; 0; 0; 0; 0; 0; 0]] idle = Fault.
Proof. by vm_compute. Qed.

(** Fragments of two senders. *)
Example senders_mixed :
  outcomes [frag 7 0 true (zs "abcdefgh"); let f := frag 7 1 false (zs "ijklmnop") in take 12 f ++ [9; 9; 9; 9] ++ drop 16 f] = Some [Incomplete; Assembled 36].
Proof. by vm_compute. Qed.

