(* ===== verification/Md5.v ===== *)
(** * MD5 (lib_generic/md5.c)

    The context holds the number of bits in two words, and the bytes of a message are
    least significant first; what a context stands for is otherwise as in Digest, whose
    update function this one is compared with.  The 64 lines of [MD5Transform] are the
    table [md5_rows].  The reference is RFC 1321, with its constants computed from the
    sine. *)

From S2P Require Import Prelude Digest.

(** ** The code *)

Record md5_context := Md5 { md5_buf : list Z; bits0 : Z; bits1 : Z; md5_in : list Z }.

(** Words of four bytes, least significant first, and back. *)
Definition byteReverse (buf : list Z) (longs : nat) : list Z :=
  map (fun t => Z.lor (Z.shiftl (Z.lor (Z.shiftl (nth (4 * t + 3) buf 0) 8) (nth (4 * t + 2) buf 0)) 16)
    (Z.lor (Z.shiftl (nth (4 * t + 1) buf 0) 8) (nth (4 * t) buf 0))) (seq 0 longs).
Definition PUT_UINT32_LE (n : Z) : list Z := [u8 n; u8 (Z.shiftr n 8); u8 (Z.shiftr n 16); u8 (Z.shiftr n 24)].

Definition F1 (x y z : Z) : Z := Z.lxor z (Z.land x (Z.lxor y z)).
Definition F2 (x y z : Z) : Z := F1 z x y.
Definition F3 (x y z : Z) : Z := Z.lxor (Z.lxor x y) z.
Definition F4 (x y z : Z) : Z := Z.lxor y (Z.lor x (Z.lnot z)).

(** The macro on the registers with the given numbers (a is 0): the function, the
    registers, the word, the constant and the distance. *)
Abbreviation row := ((Z -> Z -> Z -> Z) * list nat * nat * Z * Z)%type.
Definition MD5STEP (data : list Z) (regs : list Z) (r : row) : list Z :=
  let '(f, args, k, c, s) := r in
  let arg i := nth (nth i args 0%nat) regs 0 in
  let w := u32 (arg 0%nat + (f (arg 1%nat) (arg 2%nat) (arg 3%nat) + u32 (nth k data 0 + c))) in
  let w := Z.lor (u32 (Z.shiftl w s)) (Z.shiftr w (32 - s)) in
  <[nth 0 args 0%nat := u32 (w + arg 1%nat)]> regs.

Definition md5_rows : list row :=
  [
   (F1, [0; 1; 2; 3]%nat, 0%nat, 0xd76aa478, 7);
   (F1, [3; 0; 1; 2]%nat, 1%nat, 0xe8c7b756, 12);
   (F1, [2; 3; 0; 1]%nat, 2%nat, 0x242070db, 17);
   (F1, [1; 2; 3; 0]%nat, 3%nat, 0xc1bdceee, 22);
   (F1, [0; 1; 2; 3]%nat, 4%nat, 0xf57c0faf, 7);
   (F1, [3; 0; 1; 2]%nat, 5%nat, 0x4787c62a, 12);
   (F1, [2; 3; 0; 1]%nat, 6%nat, 0xa8304613, 17);
   (F1, [1; 2; 3; 0]%nat, 7%nat, 0xfd469501, 22);
   (F1, [0; 1; 2; 3]%nat, 8%nat, 0x698098d8, 7);
   (F1, [3; 0; 1; 2]%nat, 9%nat, 0x8b44f7af, 12);
   (F1, [2; 3; 0; 1]%nat, 10%nat, 0xffff5bb1, 17);
   (F1, [1; 2; 3; 0]%nat, 11%nat, 0x895cd7be, 22);
   (F1, [0; 1; 2; 3]%nat, 12%nat, 0x6b901122, 7);
   (F1, [3; 0; 1; 2]%nat, 13%nat, 0xfd987193, 12);
   (F1, [2; 3; 0; 1]%nat, 14%nat, 0xa679438e, 17);
   (F1, [1; 2; 3; 0]%nat, 15%nat, 0x49b40821, 22);
   (F2, [0; 1; 2; 3]%nat, 1%nat, 0xf61e2562, 5);
   (F2, [3; 0; 1; 2]%nat, 6%nat, 0xc040b340, 9);
   (F2, [2; 3; 0; 1]%nat, 11%nat, 0x265e5a51, 14);
   (F2, [1; 2; 3; 0]%nat, 0%nat, 0xe9b6c7aa, 20);
   (F2, [0; 1; 2; 3]%nat, 5%nat, 0xd62f105d, 5);
   (F2, [3; 0; 1; 2]%nat, 10%nat, 0x02441453, 9);
   (F2, [2; 3; 0; 1]%nat, 15%nat, 0xd8a1e681, 14);
   (F2, [1; 2; 3; 0]%nat, 4%nat, 0xe7d3fbc8, 20);
   (F2, [0; 1; 2; 3]%nat, 9%nat, 0x21e1cde6, 5);
   (F2, [3; 0; 1; 2]%nat, 14%nat, 0xc33707d6, 9);
   (F2, [2; 3; 0; 1]%nat, 3%nat, 0xf4d50d87, 14);
   (F2, [1; 2; 3; 0]%nat, 8%nat, 0x455a14ed, 20);
   (F2, [0; 1; 2; 3]%nat, 13%nat, 0xa9e3e905, 5);
   (F2, [3; 0; 1; 2]%nat, 2%nat, 0xfcefa3f8, 9);
   (F2, [2; 3; 0; 1]%nat, 7%nat, 0x676f02d9, 14);
   (F2, [1; 2; 3; 0]%nat, 12%nat, 0x8d2a4c8a, 20);
   (F3, [0; 1; 2; 3]%nat, 5%nat, 0xfffa3942, 4);
   (F3, [3; 0; 1; 2]%nat, 8%nat, 0x8771f681, 11);
   (F3, [2; 3; 0; 1]%nat, 11%nat, 0x6d9d6122, 16);
   (F3, [1; 2; 3; 0]%nat, 14%nat, 0xfde5380c, 23);
   (F3, [0; 1; 2; 3]%nat, 1%nat, 0xa4beea44, 4);
   (F3, [3; 0; 1; 2]%nat, 4%nat, 0x4bdecfa9, 11);
   (F3, [2; 3; 0; 1]%nat, 7%nat, 0xf6bb4b60, 16);
   (F3, [1; 2; 3; 0]%nat, 10%nat, 0xbebfbc70, 23);
   (F3, [0; 1; 2; 3]%nat, 13%nat, 0x289b7ec6, 4);
   (F3, [3; 0; 1; 2]%nat, 0%nat, 0xeaa127fa, 11);
   (F3, [2; 3; 0; 1]%nat, 3%nat, 0xd4ef3085, 16);
   (F3, [1; 2; 3; 0]%nat, 6%nat, 0x04881d05, 23);
   (F3, [0; 1; 2; 3]%nat, 9%nat, 0xd9d4d039, 4);
   (F3, [3; 0; 1; 2]%nat, 12%nat, 0xe6db99e5, 11);
   (F3, [2; 3; 0; 1]%nat, 15%nat, 0x1fa27cf8, 16);
   (F3, [1; 2; 3; 0]%nat, 2%nat, 0xc4ac5665, 23);
   (F4, [0; 1; 2; 3]%nat, 0%nat, 0xf4292244, 6);
   (F4, [3; 0; 1; 2]%nat, 7%nat, 0x432aff97, 10);
   (F4, [2; 3; 0; 1]%nat, 14%nat, 0xab9423a7, 15);
   (F4, [1; 2; 3; 0]%nat, 5%nat, 0xfc93a039, 21);
   (F4, [0; 1; 2; 3]%nat, 12%nat, 0x655b59c3, 6);
   (F4, [3; 0; 1; 2]%nat, 3%nat, 0x8f0ccc92, 10);
   (F4, [2; 3; 0; 1]%nat, 10%nat, 0xffeff47d, 15);
   (F4, [1; 2; 3; 0]%nat, 1%nat, 0x85845dd1, 21);
   (F4, [0; 1; 2; 3]%nat, 8%nat, 0x6fa87e4f, 6);
   (F4, [3; 0; 1; 2]%nat, 15%nat, 0xfe2ce6e0, 10);
   (F4, [2; 3; 0; 1]%nat, 6%nat, 0xa3014314, 15);
   (F4, [1; 2; 3; 0]%nat, 13%nat, 0x4e0811a1, 21);
   (F4, [0; 1; 2; 3]%nat, 4%nat, 0xf7537e82, 6);
   (F4, [3; 0; 1; 2]%nat, 11%nat, 0xbd3af235, 10);
   (F4, [2; 3; 0; 1]%nat, 2%nat, 0x2ad7d2bb, 15);
   (F4, [1; 2; 3; 0]%nat, 9%nat, 0xeb86d391, 21)
  ].

(** [in] as bytes. *)
Definition MD5Transform (buf inp : list Z) : list Z :=
  zip_with (fun s r => u32 (s + r)) buf (fold_left (MD5STEP (byteReverse inp 16)) md5_rows buf).

Definition MD5Init (inp : list Z) : md5_context := Md5 [0x67452301; 0xefcdab89; 0x98badcfe; 0x10325476] 0 0 inp.

(** Whole blocks: the state, the buffer and the rest. *)
Fixpoint md5_loop (n : nat) (st inb buf : list Z) : list Z * list Z * list Z :=
  match n with
  | O => (st, inb, buf)
  | S n => let inb := fill_buffer inb 0 (take 64 buf) in md5_loop n (MD5Transform st inb) inb (drop 64 buf)
  end.

Definition MD5Update (ctx : md5_context) (buf : list Z) : md5_context :=
  let len := Z.of_nat (length buf) in
  let t := bits0 ctx in
  let b0 := u32 (t + u32 (Z.shiftl len 3)) in
  let b1 := if b0 <? t then u32 (bits1 ctx + 1) else bits1 ctx in
  let b1 := u32 (b1 + Z.shiftr len 29) in
  let t := Z.to_nat (Z.land (Z.shiftr t 3) 0x3f) in
  let fill := (64 - t)%nat in
  if negb (t =? 0)%nat && (length buf <? fill)%nat then Md5 (md5_buf ctx) b0 b1 (fill_buffer (md5_in ctx) t buf)
  else
    let '(st, inb, buf) :=
      if negb (t =? 0)%nat then let inb := fill_buffer (md5_in ctx) t (take fill buf) in (MD5Transform (md5_buf ctx) inb, inb, drop fill buf)
      else (md5_buf ctx, md5_in ctx, buf) in
    let '(st, inb, buf) := md5_loop (length buf / 64) st inb buf in
    Md5 st b0 b1 (fill_buffer inb 0 buf).

Definition MD5Final (ctx : md5_context) : list Z :=
  let count := Z.to_nat (Z.land (Z.shiftr (bits0 ctx) 3) 0x3F) in
  let inb := fill_buffer (md5_in ctx) count [0x80] in
  let left := (64 - 1 - count)%nat in
  let '(st, inb) :=
    if (left <? 8)%nat then
      let inb := fill_buffer inb (S count) (replicate left 0) in
      (MD5Transform (md5_buf ctx) inb, fill_buffer inb 0 (replicate 56 0))
    else (md5_buf ctx, fill_buffer inb (S count) (replicate (left - 8) 0)) in
  let inb := fill_buffer inb 56 (PUT_UINT32_LE (bits0 ctx) ++ PUT_UINT32_LE (bits1 ctx)) in
  flat_map PUT_UINT32_LE (MD5Transform st inb).

(** [inb] is what the context's buffer holds at first. *)
Definition md5 (inb input : list Z) : list Z := MD5Final (MD5Update (MD5Init inb) input).

Fixpoint md5_wd_loop (fuel : nat) (ctx : md5_context) (input : list Z) (chunk_sz : Z) : res md5_context :=
  if (length input =? 0)%nat then mret ctx
  else
    match fuel with
    | O => OutOfFuel
    | S fuel =>
        let chunk := Z.of_nat (length input) in
        let chunk := Z.to_nat (if chunk_sz <? chunk then chunk_sz else chunk) in
        md5_wd_loop fuel (MD5Update ctx (take chunk input)) (drop chunk input) chunk_sz
    end.
Definition md5_wd (inb input : list Z) (chunk_sz : Z) : res (list Z) :=
  ctx ← md5_wd_loop (length input) (MD5Init inb) input chunk_sz; mret (MD5Final ctx).

(** ** RFC 1321 *)

(** The sine of [x], times 2^200, by its series. *)
Fixpoint sine_series (n : nat) (k x term : Z) : Z :=
  match n with O => 0 | S n => term + sine_series n (k + 2) x (- (term * x * x) / ((k + 1) * (k + 2))) end.
Definition sine (x : Z) : Z := sine_series 160 1 x (x * 2 ^ 200).

(** The integer part of 4294967296 times abs(sin(i)), 3.4. *)
Definition T_table : list Z := map (fun i => Z.abs (sine (Z.of_nat i)) / 2 ^ 168) (seq 1 64).

Definition round_f (t : nat) (x y z : Z) : Z :=
  match (t / 16)%nat with
  | O => Z.lor (Z.land x y) (Z.land (Z.lnot x) z)
  | 1%nat => Z.lor (Z.land x z) (Z.land y (Z.lnot z))
  | 2%nat => Z.lxor (Z.lxor x y) z
  | _ => Z.lxor y (Z.lor x (Z.lnot z))
  end.
Definition word_of (t : nat) : nat :=
  match (t / 16)%nat with O => t | 1%nat => (5 * t + 1) mod 16 | 2%nat => (3 * t + 5) mod 16 | _ => (7 * t) mod 16 end%nat.
Definition distance (t : nat) : Z :=
  nth (t mod 4) (match (t / 16)%nat with O => [7; 12; 17; 22] | 1%nat => [5; 9; 14; 20] | 2%nat => [4; 11; 16; 23] | _ => [6; 10; 15; 21] end) 0.

(** a = b + ((a + F(b,c,d) + X[k] + T[i]) <<< s), and the next one has (d, a, b, c). *)
Definition md5_round (x : list Z) (v : list Z) (t : nat) : list Z :=
  match v with
  | [a; b; c; d] => [d; u32 (b + rotl (u32 (a + round_f t b c d + nth (word_of t) x 0 + nth t T_table 0)) (distance t)); b; c]
  | _ => v
  end.
Definition le_words (b : list Z) : list Z := byteReverse b 16.
Definition compress_md5 (h b : list Z) : list Z :=
  zip_with (fun s r => u32 (s + r)) h (fold_left (md5_round (le_words b)) (seq 0 64) h).

(** 3.1, 3.2. *)
Definition pad_le (m : list Z) : list Z :=
  let n := Z.of_nat (length m) in
  let bits := u64 (8 * n) in
  m ++ [0x80] ++ replicate (Z.to_nat ((55 - n) mod 64)) 0 ++ PUT_UINT32_LE (u32 bits) ++ PUT_UINT32_LE (bits / 4294967296).
Definition MD5 (m : list Z) : list Z :=
  flat_map PUT_UINT32_LE (fold_left compress_md5 (blocks (pad_le m)) [0x67452301; 0xefcdab89; 0x98badcfe; 0x10325476]).

Definition of_hex (h : list Z) : list Z := flat_map (fun n => rev (PUT_UINT32_LE n)) h.

Example md5_abc : md5 (replicate 64 7) (zs "abc") = of_hex [0x90015098; 0x3cd24fb0; 0xd6963f7d; 0x28e17f72].
Proof. vm_compute. reflexivity. Qed.
Example md5_abc_spec : MD5 (zs "abc") = of_hex [0x90015098; 0x3cd24fb0; 0xd6963f7d; 0x28e17f72].
Proof. vm_compute. reflexivity. Qed.

(** ** The rows are the rounds *)

(** After [t] rows the variable [i] is in register [(i - t) mod 4]. *)
Definition turned (j : nat) (v : list Z) : list Z := drop j v ++ take j v.
Definition row_args (t : nat) : list nat := map (fun i => (i + (4 - t mod 4)) mod 4)%nat (seq 0 4).
Definition row_f (t : nat) : Z -> Z -> Z -> Z := match (t / 16)%nat with O => F1 | 1%nat => F2 | 2%nat => F3 | _ => F4 end.
Definition row_at (t : nat) : row := (row_f t, row_args t, word_of t, nth t T_table 0, distance t).

Lemma md5_rows_table : md5_rows = map row_at (seq 0 64).
Proof. vm_compute. reflexivity. Qed.

Lemma row_f_round t x y z : row_f t x y z = round_f t x y z.
Proof. unfold row_f, round_f. destruct (t / 16)%nat as [|[|[|n]]]; unfold F1, F2, F1, F3, F4; try done; by_bits. Qed.

Lemma md5_step_sum a f x c : u32 (a + (f + u32 (x + c))) = u32 (a + f + x + c).
Proof. unfold u32. zmod. Qed.

Lemma md5_step_round x j v t : (j < 4)%nat -> length v = 4%nat ->
  MD5STEP x (turned j v) (row_f t, map (fun i => (i + (4 - j)) mod 4)%nat (seq 0 4), word_of t, nth t T_table 0, distance t) = turned (S j) (md5_round x v t).
Proof.
  intros Hj Hv. do 4 (destruct v as [|? v]; [done|]). destruct v; [|done].
  do 4 (destruct j as [|j]; [unfold MD5STEP; cbn -[Z.add Z.sub u32 Z.lor Z.shiftl Z.shiftr row_f round_f word_of T_table distance nth]; unfold turned;
    cbn -[Z.add Z.sub u32 Z.lor Z.shiftl Z.shiftr row_f round_f word_of T_table distance]; rewrite md5_step_sum, row_f_round; unfold rotl; rewrite (Z.add_comm (Z.lor _ _)); reflexivity|]). lia.
Qed.

Lemma md5_round_length x v t : length v = 4%nat -> length (md5_round x v t) = 4%nat.
Proof. intros Hv. do 4 (destruct v as [|? v]; [done|]). by destruct v. Qed.

Lemma md5_turned_mod t v : length v = 4%nat -> turned (S (t mod 4)) v = turned (S t mod 4) v.
Proof.
  intros Hv. pose proof (Nat.mod_upper_bound t 4 ltac:(lia)). destruct (decide (t mod 4 = 3)%nat) as [E|E].
  - rewrite E. replace (S t mod 4)%nat with 0%nat.
    + unfold turned. rewrite drop_0, take_0, app_nil_r. by rewrite drop_ge, take_ge by lia.
    + rewrite (Nat.div_mod_eq t 4), E. replace (S (4 * (t / 4) + 3)) with ((t / 4 + 1) * 4)%nat by lia. by rewrite Nat.Div0.mod_mul.
  - replace (S t mod 4)%nat with (S (t mod 4)); [done|]. rewrite (Nat.div_mod_eq t 4) at 2.
    replace (S (4 * (t / 4) + t mod 4)) with (S (t mod 4) + (t / 4) * 4)%nat by lia. rewrite Nat.Div0.mod_add. symmetry. apply Nat.mod_small. lia.
Qed.

Lemma md5_rows_ok x st : length st = 4%nat -> forall t, (t <= 64)%nat ->
  fold_left (MD5STEP x) (map row_at (seq 0 t)) st = turned (t mod 4) (fold_left (md5_round x) (seq 0 t) st) /\ length (fold_left (md5_round x) (seq 0 t) st) = 4%nat.
Proof.
  intros Hst. induction t as [|t IH]; intros Ht; [split; [unfold turned; cbn [seq map fold_left]; by rewrite app_nil_r|done]|].
  destruct IH as [E Hl]; [lia|]. rewrite seq_S, !map_app, !fold_left_app, E. cbn [map fold_left Nat.add]. set (v := fold_left _ _ st) in *. split; [|by apply md5_round_length].
  unfold row_at at 1, row_args. rewrite md5_step_round by (try apply Nat.mod_upper_bound; done || lia). apply md5_turned_mod. by apply md5_round_length.
Qed.

Lemma md5_transform_ok st b : length st = 4%nat -> MD5Transform st b = compress_md5 st b /\ length (compress_md5 st b) = 4%nat.
Proof.
  intros Hst. unfold MD5Transform, compress_md5, le_words. rewrite md5_rows_table. destruct (md5_rows_ok (byteReverse b 16) st Hst 64 (le_n _)) as [E Hl]. rewrite E.
  change (64 mod 4)%nat with 0%nat. unfold turned. rewrite drop_0, take_0, app_nil_r. split; [done|]. rewrite length_zip_with, Hl, Hst. done.
Qed.

(** ** The message a context stands for *)

Lemma fill_buffer_all inb b : length inb = 64%nat -> length b = 64%nat -> fill_buffer inb 0 b = b.
Proof. intros H1 H2. unfold fill_buffer. rewrite take_0, drop_ge by lia. by rewrite app_nil_r. Qed.

Lemma md5_loop_ok n : forall st inb buf, length inb = 64%nat -> (64 * n <= length buf)%nat ->
  exists inb', md5_loop n st inb buf = (process_blocks MD5Transform n st buf, inb', drop (64 * n) buf) /\ length inb' = 64%nat.
Proof.
  induction n as [|n IH]; intros st inb buf Hl Hn; [by exists inb|]. cbn [md5_loop process_blocks]. cbv zeta.
  rewrite fill_buffer_all by (done || (rewrite length_take; lia)). destruct (IH (MD5Transform st (take 64 buf)) (take 64 buf) (drop 64 buf)) as (inb' & -> & L); [rewrite length_take; lia|rewrite length_drop; lia|].
  exists inb'. rewrite drop_drop. replace (64 * S n)%nat with (64 + 64 * n)%nat by lia. done.
Qed.

Record md5_absorbed (ctx : md5_context) (m : list Z) : Prop := {
  m5_bits : bits0 ctx + 4294967296 * bits1 ctx = (8 * Z.of_nat (length m)) mod 18446744073709551616;
  m5_bits0 : 0 <= bits0 ctx < 4294967296;
  m5_bits1 : 0 <= bits1 ctx < 4294967296;
  m5_state : md5_buf ctx = hash_blocks MD5Transform (md5_buf (MD5Init [])) m;
  m5_len : length (md5_in ctx) = 64%nat;
  m5_rest : take (length m mod 64) (md5_in ctx) = hash_rest m;
}.

(** The same context with a count of bytes, as Digest has it. *)
Definition as_sha (ctx : md5_context) (m : list Z) : sha_context :=
  let n := Z.of_nat (length m) in Sha (u32 n) (u32 (n / 4294967296)) (md5_buf ctx) (md5_in ctx).

Lemma as_sha_absorbed ctx m : md5_absorbed ctx m -> absorbed MD5Transform (md5_buf (MD5Init [])) (as_sha ctx m) m.
Proof. intros [A B C D E F]. split; cbn [total0 total1 state buffer as_sha]; try done; try apply u32_range. unfold u32. zmod. Qed.

Lemma md5_left ctx m : md5_absorbed ctx m -> Z.to_nat (Z.land (Z.shiftr (bits0 ctx) 3) 0x3f) = (length m mod 64)%nat.
Proof.
  intros [A B C _ _ _]. change 0x3f with (Z.ones 6). rewrite low_bits, Z.shiftr_div_pow2 by lia. change (2 ^ 6) with 64. change (2 ^ 3) with 8.
  assert (E : bits0 ctx / 8 mod 64 = Z.of_nat (length m mod 64)); [|rewrite E; lia]. rewrite Nat2Z.inj_mod. change (Z.of_nat 64) with 64. zmod.
Qed.

Lemma bits_add b0 b1 len L : b0 + 4294967296 * b1 = (8 * L) mod 18446744073709551616 -> 0 <= b0 < 4294967296 -> 0 <= b1 < 4294967296 -> 0 <= len < 4294967296 ->
  u32 (b0 + u32 (Z.shiftl len 3)) + 4294967296 * u32 ((if u32 (b0 + u32 (Z.shiftl len 3)) <? b0 then u32 (b1 + 1) else b1) + Z.shiftr len 29) = (8 * (L + len)) mod 18446744073709551616.
Proof.
  intros H H0 H1 Hl. rewrite Z.shiftl_mul_pow2, Z.shiftr_div_pow2 by lia. change (2 ^ 3) with 8. change (2 ^ 29) with 536870912. unfold u32.
  assert (E : len = 536870912 * (len / 536870912) + len mod 536870912) by zmod. set (q := len / 536870912) in *. set (r := len mod 536870912) in *. assert (0 <= r < 536870912) by (apply Z.mod_pos_bound; lia). assert (0 <= q < 8) by (unfold q; zmod).
  assert (E8 : (len * 8) mod 4294967296 = r * 8) by zmod. rewrite E8. destruct (Z.ltb_spec ((b0 + r * 8) mod 4294967296) b0); zmod.
Qed.

Lemma hash_blocks_block f s blk l : length blk = 64%nat -> hash_blocks f s (blk ++ l) = hash_blocks f (f s blk) l /\ hash_rest (blk ++ l) = hash_rest l.
Proof.
  intros Hb. assert (E : (length (blk ++ l) / 64 = S (length l / 64))%nat).
  { rewrite length_app, Hb. change (64 + length l)%nat with (1 * 64 + length l)%nat. rewrite Nat.div_add_l by lia. lia. }
  unfold hash_blocks, hash_rest. rewrite E. cbn [process_blocks]. rewrite take_app_length', drop_app_length' by done. split; [done|].
  replace (64 * S (length l / 64))%nat with (64 + 64 * (length l / 64))%nat by lia. rewrite <- drop_drop. by rewrite drop_app_length' by done.
Qed.

Lemma hash_small f s l : (length l < 64)%nat -> hash_blocks f s l = s /\ hash_rest l = l.
Proof. intros H. unfold hash_blocks, hash_rest. by rewrite Nat.div_small by done. Qed.

Abbreviation H5 := (md5_buf (MD5Init [])).

Lemma md5_update_ok ctx m inp : md5_absorbed ctx m -> Z.of_nat (length inp) < 4294967296 -> md5_absorbed (MD5Update ctx inp) (m ++ inp).
Proof.
  intros W Hlen. unfold MD5Update. cbv zeta. rewrite (md5_left ctx m W). set (r := (length m mod 64)%nat). assert (Hr : (r < 64)%nat) by (apply Nat.mod_upper_bound; lia).
  pose proof (bits_add _ _ _ _ (m5_bits _ _ W) (m5_bits0 _ _ W) (m5_bits1 _ _ W) (conj (Nat2Z.is_nonneg (length inp)) Hlen)) as Hc. set (b0 := u32 (bits0 ctx + _)) in *. set (b1 := u32 (_ + Z.shiftr _ 29)) in *.
  assert (Hb0 : 0 <= b0 < 4294967296) by apply u32_range. assert (Hb1 : 0 <= b1 < 4294967296) by apply u32_range.
  pose proof (m5_len _ _ W) as Hl. pose proof (m5_rest _ _ W) as Hrest. fold r in Hrest. pose proof (m5_state _ _ W) as Hst.
  assert (Hrl : length (hash_rest m) = r) by apply hash_rest_length.
  assert (Hbits : b0 + 4294967296 * b1 = (8 * Z.of_nat (length (m ++ inp))) mod 18446744073709551616) by (rewrite Hc, length_app, Nat2Z.inj_add; done).
  destruct (negb (r =? 0)%nat && (length inp <? 64 - r)%nat) eqn:Ebr.
  - apply andb_true_iff in Ebr as [_ E2]. apply Nat.ltb_lt in E2. destruct (hash_small MD5Transform (hash_blocks MD5Transform H5 m) (hash_rest m ++ inp)) as [G1 G2]; [rewrite length_app; lia|].
    split; cbn [bits0 bits1 md5_buf md5_in]; try done.
    + by rewrite hash_blocks_app, G1.
    + rewrite fill_buffer_length; lia.
    + rewrite hash_rest_app, G2, <- hash_rest_length, hash_rest_app, G2, length_app, Hrl, fill_buffer_take by lia. by rewrite Hrest.
  - set (p := if negb (r =? 0)%nat then _ else _).
    assert (K : exists st inb buf, p = (st, inb, buf) /\ length inb = 64%nat /\ hash_blocks MD5Transform H5 (m ++ inp) = hash_blocks MD5Transform st buf /\ hash_rest (m ++ inp) = hash_rest buf).
    { unfold p. destruct (Nat.eqb_spec r 0) as [E|E]; cbn [negb] in *.
      - exists (md5_buf ctx), (md5_in ctx), inp. assert (hash_rest m = []) as En by (apply nil_length_inv; lia). rewrite hash_blocks_app, hash_rest_app, En. by rewrite Hst.
      - cbn [andb] in Ebr. apply Nat.ltb_ge in Ebr. set (blk := fill_buffer (md5_in ctx) r (take (64 - r) inp)). eexists _, blk, _. split; [reflexivity|].
        assert (Eb : blk = hash_rest m ++ take (64 - r) inp).
        { pose proof (fill_buffer_take (md5_in ctx) r (take (64 - r) inp)) as E1. rewrite length_take in E1. rewrite <- Hrest, <- E1 by lia. fold blk. rewrite take_ge; [done|]. unfold blk.
          rewrite fill_buffer_length by (rewrite length_take; lia). lia. }
        assert (Lb : length blk = 64%nat) by (rewrite Eb, length_app, Hrl, length_take; lia). split; [done|]. rewrite hash_blocks_app, hash_rest_app.
        assert (Ec : hash_rest m ++ inp = blk ++ drop (64 - r) inp) by (rewrite Eb, <- app_assoc; by rewrite take_drop). rewrite Ec, Hst. by apply hash_blocks_block. }
    destruct K as (st & inb & buf & -> & Li & Gs & Gr). destruct (md5_loop_ok (length buf / 64) st inb buf Li) as (inb' & -> & Li').
    { pose proof (Nat.div_mod_eq (length buf) 64). lia. }
    split; cbn [bits0 bits1 md5_buf md5_in]; try done.
    + rewrite fill_buffer_length; [done|]. fold (hash_rest buf). rewrite hash_rest_length. pose proof (Nat.mod_upper_bound (length buf) 64 ltac:(lia)). lia.
    + rewrite <- hash_rest_length, Gr. fold (hash_rest buf). pose proof (hash_rest_length buf). pose proof (Nat.mod_upper_bound (length buf) 64 ltac:(lia)).
      pose proof (fill_buffer_take inb' 0 (hash_rest buf)) as E. rewrite take_0 in E. apply E. lia.
Qed.

Lemma md5_start inb : length inb = 64%nat -> md5_absorbed (MD5Init inb) [].
Proof. intros Hl. by split. Qed.

Lemma md5_chunks cs : Forall (fun c : list Z => Z.of_nat (length c) < 4294967296) cs -> forall ctx m, md5_absorbed ctx m -> md5_absorbed (fold_left MD5Update cs ctx) (m ++ concat cs).
Proof.
  induction 1 as [|c cs Hc _ IH]; intros ctx m W; [by rewrite app_nil_r|]. cbn [fold_left concat]. rewrite app_assoc. apply IH. by apply md5_update_ok.
Qed.

(** The buffer with the rest of the message, the end mark and zeros. *)
Lemma fill_buffer_next inb l1 l2 tail : inb = l1 ++ tail -> (length l2 <= length tail)%nat -> fill_buffer inb (length l1) l2 = (l1 ++ l2) ++ drop (length l2) tail.
Proof. intros -> H. unfold fill_buffer. rewrite take_app_length, <- drop_drop, drop_app_length. by rewrite app_assoc. Qed.

Lemma md5_final_ok ctx m : md5_absorbed ctx m -> MD5Final ctx = flat_map PUT_UINT32_LE (hash_blocks MD5Transform H5 (pad_le m)).
Proof.
  intros W. unfold MD5Final. cbv zeta. rewrite (md5_left ctx m W). set (r := (length m mod 64)%nat). assert (Hr : (r < 64)%nat) by (apply Nat.mod_upper_bound; lia).
  pose proof (m5_len _ _ W) as Hl. pose proof (m5_rest _ _ W) as Hrest. fold r in Hrest. assert (Hrl : length (hash_rest m) = r) by apply hash_rest_length.
  set (bits := PUT_UINT32_LE (bits0 ctx) ++ PUT_UINT32_LE (bits1 ctx)). assert (Lb : length bits = 8%nat) by done.
  assert (Ez : Z.to_nat ((55 - Z.of_nat (length m)) mod 64) = (if (64 - 1 - r <? 8)%nat then 64 - 1 - r + 56 else 64 - 1 - r - 8)%nat).
  { pose proof (Nat2Z.inj_mod (length m) 64) as Em. fold r in Em. change (Z.of_nat 64) with 64 in Em. destruct (Nat.ltb_spec (64 - 1 - r) 8); zmod. }
  assert (Ep : pad_le m = m ++ ([0x80] ++ replicate (Z.to_nat ((55 - Z.of_nat (length m)) mod 64)) 0 ++ bits)).
  { unfold pad_le. cbv zeta. do 3 f_equal. unfold bits. pose proof (m5_bits _ _ W) as Hb. pose proof (m5_bits0 _ _ W). pose proof (m5_bits1 _ _ W). f_equal; f_equal; unfold u32, u64; zmod. }
  rewrite Ep, Ez, hash_blocks_app, <- (m5_state _ _ W). clear Ep Ez.
  assert (E0 : md5_in ctx = hash_rest m ++ drop r (md5_in ctx)) by (rewrite <- Hrest; symmetry; apply take_drop).
  assert (E1 : fill_buffer (md5_in ctx) r [0x80] = (hash_rest m ++ [0x80]) ++ drop 1 (drop r (md5_in ctx))).
  { rewrite <- Hrl at 1. apply (fill_buffer_next _ _ [0x80] _ E0). rewrite length_drop. cbn [length]. lia. }
  assert (L1 : length (hash_rest m ++ [0x80]) = S r) by (rewrite length_app, Hrl; cbn [length]; lia). assert (L2 : length (drop 1 (drop r (md5_in ctx))) = (64 - 1 - r)%nat) by (rewrite !length_drop; lia).
  set (head := hash_rest m ++ [0x80]) in *. set (tail := drop 1 _) in *. set (inb := fill_buffer (md5_in ctx) r [0x80]) in *. set (left := (64 - 1 - r)%nat) in *.
  f_equal. rewrite app_assoc. fold head. destruct (Nat.ltb_spec left 8) as [Hs|Hs].
  - assert (E2 : fill_buffer inb (S r) (replicate left 0) = head ++ replicate left 0).
    { rewrite <- L1. rewrite (fill_buffer_next _ _ _ _ E1) by (rewrite length_replicate; lia). by rewrite length_replicate, drop_ge, app_nil_r by lia. }
    assert (L3 : length (head ++ replicate left 0) = 64%nat) by (rewrite length_app, length_replicate; lia). rewrite E2, replicate_add, <- !app_assoc, app_assoc.
    destruct (hash_blocks_block MD5Transform (md5_buf ctx) (head ++ replicate left 0) (replicate 56 0 ++ bits) L3) as [G _]. rewrite G.
    rewrite <- (app_nil_r (replicate 56 0 ++ bits)). destruct (hash_blocks_block MD5Transform (MD5Transform (md5_buf ctx) (head ++ replicate left 0)) (replicate 56 0 ++ bits) []) as [G' _]; [by rewrite length_app, length_replicate|].
    rewrite G'. unfold hash_blocks at 1. cbn [length Nat.div Nat.divmod fst process_blocks]. f_equal.
  - assert (E2 : fill_buffer inb (S r) (replicate (left - 8) 0) = (head ++ replicate (left - 8) 0) ++ drop (left - 8) tail).
    { rewrite <- L1. rewrite (fill_buffer_next _ _ _ _ E1) by (rewrite length_replicate; lia). by rewrite length_replicate. }
    rewrite E2. assert (L3 : length (head ++ replicate (left - 8) 0) = 56%nat) by (rewrite length_app, length_replicate; lia).
    pose proof (fill_buffer_next _ _ bits _ E2) as G3. rewrite L3 in G3. rewrite E2 in G3. rewrite G3 by (rewrite length_drop; lia). rewrite drop_drop, drop_ge, app_nil_r by (rewrite Lb; lia). rewrite app_assoc.
    rewrite <- (app_nil_r ((head ++ replicate (left - 8) 0) ++ bits)) at 2. destruct (hash_blocks_block MD5Transform (md5_buf ctx) ((head ++ replicate (left - 8) 0) ++ bits) []) as [G _]; [rewrite length_app; lia|].
    rewrite G. done.
Qed.

Lemma md5_digest ctx m : md5_absorbed ctx m -> MD5Final ctx = MD5 m.
Proof.
  intros W. rewrite (md5_final_ok ctx m W). unfold MD5. f_equal. apply (hash_blocks_fold (fun st => length st = 4%nat)); [|done]. intros st b Hst. by apply md5_transform_ok.
Qed.

Lemma md5_wd_loop_ok chunk_sz : 0 < chunk_sz -> forall fuel ctx m input, (length input <= fuel)%nat -> Z.of_nat (length input) < 4294967296 -> md5_absorbed ctx m ->
  exists ctx', md5_wd_loop fuel ctx input chunk_sz = Ok ctx' /\ md5_absorbed ctx' (m ++ input).
Proof.
  intros Hc. induction fuel as [|fuel IH]; intros ctx m input Hf Hi W; cbn [md5_wd_loop].
  { destruct input; [|simpl in Hf; lia]. exists ctx. by rewrite app_nil_r. }
  destruct (Nat.eqb_spec (length input) 0) as [Hz|Hz]; [destruct input; [|done]; exists ctx; by rewrite app_nil_r|].
  cbv zeta. set (c := Z.to_nat _). assert (Hcr : (0 < c <= length input)%nat) by (unfold c; destruct (Z.ltb_spec chunk_sz (Z.of_nat (length input))); lia).
  destruct (IH (MD5Update ctx (take c input)) (m ++ take c input) (drop c input)) as (ctx' & E & W'); [rewrite length_drop; lia|rewrite length_drop; lia|apply md5_update_ok; [done|rewrite length_take; lia]|].
  exists ctx'. split; [done|]. by rewrite <- app_assoc, take_drop in W'.
Qed.

(** C36: The digest is that of RFC 1321, for a message in any pieces, and for the watchdog
    variant with any size of its chunks. *)
Theorem md5_correct inb (cs : list (list Z)) chunk_sz : length inb = 64%nat -> Forall (fun c => Z.of_nat (length c) < 4294967296) cs ->
  MD5Final (fold_left MD5Update cs (MD5Init inb)) = MD5 (concat cs) /\
  (Z.of_nat (length (concat cs)) < 4294967296 -> 0 < chunk_sz -> md5_wd inb (concat cs) chunk_sz = Ok (MD5 (concat cs))).
Proof.
  intros Hl Hc. pose proof (md5_start inb Hl) as W0. split.
  - apply md5_digest. exact (md5_chunks cs Hc (MD5Init inb) [] W0).
  - intros Hm Hz. destruct (md5_wd_loop_ok chunk_sz Hz (length (concat cs)) (MD5Init inb) [] (concat cs) (le_n _) Hm W0) as (ctx & E & W).
    unfold md5_wd. rewrite (res_bind_ok _ _ _ E). unfold mret, res_ret. f_equal. by apply md5_digest.
Qed.

Lemma md5_correct_witness : MD5Final (fold_left MD5Update [zs "a"; []; zs "bc"] (MD5Init (replicate 64 7))) = MD5 (zs "abc") /\ md5_wd (replicate 64 7) (zs "abc") 2 = Ok (MD5 (zs "abc")).
Proof.
  destruct (md5_correct (replicate 64 7) [zs "a"; []; zs "bc"] 2 eq_refl) as [H1 H2]; [repeat (constructor; [reflexivity|]); constructor|]. split; [exact H1|]. apply H2; reflexivity.
Defined.
